(* ===== verification/_CoqProject ===== *)
-Q . S2P
Prelude.v
PyTime.v
TimeFacts.v
Decimal.v
Json.v
Parse.v
Domain.v
Db.v
Leader.v
Repository.v
OrderStore.v
BrokerEvidence.v
Evidence.v
Drivers.v
Service.v
System.v
DecimalFacts.v
Sums.v
RiskModels.v
Risk.v
RiskFacts.v
RiskOms.v
Alerts.v
Ledger.v
Parts.v
Mode.v
ExternalOrders.v
Freshness.v
Control.v
Telemetry.v
RiskRuntime.v
Wire.v
Frame.v
Stream.v
Ingestion.v
Spool.v
Commands.v
CommandResults.v
GuojinEvidence.v
DurableIdentity.v
SimOms.v
SimFacts.v
PyFloat.v
Bridge.v
BridgeFacts.v
BridgeHistory.v
EndToEnd.v
Archive.v
ArchiveFacts.v
Instances.v
InstanceFacts.v
Feeds.v
