(* ===== verification/Prelude.v ===== *)
(** * bigqmt_autotrader: verification library

    A verification of bigqmt_autotrader: of the Host, the order execution service
    of src/src/bigqmt_autotrader/ - the Execution Core that owns the life of an
    order, the risk policy in front of it, the runtime that feeds the policy and
    may stop everything, and the transport - and of the bridge that runs inside
    the broker's terminal (src/qmt_side/).  Paths below are relative to that
    package, but for those that start with qmt_side/.

    ** The program

    A strategy hands an [OrderIntent] (domain/) to the runtime
    (service/coordinator.py, service/risk_runtime.py), which assembles a
    [RiskSnapshot] from the daily ledger (risk/accounting.py), the live quotes
    (market_data/), the strategy heartbeats (strategy_api/), the foreign orders
    (risk/external_orders.py) and the process's mode and health
    (operations/mode.py, operations/health.py, operations/control.py).  The rule
    engine (risk/engine.py) judges the intent against the policy; its decision
    goes through service/risk_oms.py to the OMS (oms/service.py), which writes
    the order to SQLite (oms/repository.py), reserves the side effect, calls the
    broker driver once (ports/execution.py) and reconciles what the broker says
    through the evidence journal (oms/evidence.py).  A leader lease
    (oms/leader.py) fences every write, so that at most one session acts.

    The terminal is another process.  The Host's writer of the pinned simulator
    (qmt/guojin_sim_oms.py) plans every submit and cancel in the database and then
    publishes it as a file of the command spool (qmt/commands.py); the bridge
    (qmt_side/) claims the file, checks it and calls the broker once, and reports
    what the terminal says as event files (qmt/protocol.py), which the Host polls
    (qmt/spool.py), turns into evidence (qmt/guojin_evidence.py, ingestion.py) and
    compacts day by day (qmt/archive.py).  Which terminals the Host talks to at all
    is decided by qmt/instances.py.  The two processes share nothing but files.

    ** The files

    Foundations.
    - [Prelude]: exceptions and results, strings, instants of time.
    - [PyTime], [Decimal], [Json]: what the code uses of Python's datetime,
      decimal, json and hashlib.  [DecimalFacts] reads decimals as rationals;
      [Sums] adds lists of amounts without losing digits.
    - [Db]: the tables of the schemas as records (oms/db.py and the INSERT
      statements), and the monad [M] of code that reads the database, the clock
      and the rest of the process, with its weakest precondition [wp].
    - [Parts]: a component's own state inside the state of a process, as a
      typeclass with laws; [Apart] says that two parts do not overlap.

    The Execution Core.
    - [Domain]: domain/; [transition] is the order state machine.
    - [Leader]: oms/leader.py.  [Repository]: oms/repository.py.
    - [OrderStore]: no code of its own; the abstract specification [order_change]
      of what may happen to an order row, and the proof that every writer of
      [Repository] implements it ([wrote], [writes], [touches]).
    - [BrokerEvidence], [Evidence]: oms/broker_evidence_v1.py, oms/evidence.py.
    - [Drivers]: ports/execution.py as the typeclass [ExecutionDriver], and
      drivers/simulated.py as one of its instances.
    - [Service]: oms/service.py, oms/authorization.py, core/facade.py.
    - [System]: no code of its own; sessions, requests and crashes as a step
      relation [sys_step], and what no sequence of steps can do.

    Risk.
    - [RiskModels]: risk/models.py and risk/canonical.py.  [Risk]:
      risk/engine.py and risk/gates.py.  [RiskFacts]: the rules as a table over
      rationals, and what an accepted order respects.
    - [RiskOms]: service/risk_oms.py.  [Ledger]: risk/accounting.py.
      [ExternalOrders]: risk/external_orders.py.

    The runtime.
    - [Mode]: operations/mode.py.  [Freshness]: market_data/service.py and
      models.py, strategy_api/runtime.py, operations/health.py, one Module each
      ([Market], [Strategies], [Health]).  [Control]: operations/control.py.
    - [RiskRuntime]: service/risk_runtime.py, risk/snapshot_builder.py,
      service/coordinator.py.
    - [Feeds]: what the registries are fed from, one Module each: the ticks of the
      terminal as quotes (market_data/qmt_adapter.py, [Ticks]), the health that the
      live facts amount to (service/health_sync.py, [HealthSync]), and the trading
      calendar (service/calendar.py, [Calendar]).
    - [Alerts]: operations/alert_store.py.  [Telemetry]: operations/telemetry.py,
      service/supervisor.py ([tick]) and service/lifecycle.py ([shutdown]).

    The transport to the terminal (qmt/).
    - [Parse]: the JSON reader and writer of the frames, on bytes; what the code
      uses of Python's json and of UTF-8.
    - [Wire]: QmtEvent.from_mapping of qmt/protocol.py.  [Frame]: its frames.
    - [Stream]: qmt/receiver.py ([Ingress]) and qmt/read_model.py ([ReadModel]).
      [Ingestion]: qmt/ingestion.py.  [Spool]: qmt/spool.py.
    - [Commands]: qmt/commands.py, over a file store.  [CommandResults]:
      qmt/command_results.py and the sink of qmt/oms_bridge.py.

    - [GuojinEvidence]: the mapper of qmt/guojin_evidence.py, from the terminal's
      facts to broker evidence.  [DurableIdentity]: qmt/durable_identity.py.
    - [SimOms]: qmt/guojin_sim_oms.py, the writer of the pinned simulator.
      [SimFacts]: what every operation of it does to plans, reservations and
      command files ([world_evolves]), and its histories ([sim_step]).
    - [Archive]: qmt/archive.py over the spool and the archive directories, each
      operation on a file of which may fail.  [ArchiveFacts]: what it keeps.
    - [Instances]: qmt/instances.py.  [InstanceFacts]: what a loaded instance may
      do, and that the bridge's manifest is loaded.

    The bridge inside the terminal (qmt_side/).
    - [PyFloat]: float(x) of JSON values on IEEE doubles, and Decimal(text).
    - [Bridge]: the core that BIGQMT_EXECUTION_BRIDGE_V05_GUOJIN_SIM.py and
      BIGQMT_EXECUTION_BRIDGE_V05_GUOJIN.py share, the executor of each
      ([execute_simulation], [execute_live_canary]), and the constants of each
      as a [deployment] ([guojin_sim], [guojin]).
    - [BridgeFacts], [BridgeHistory]: no code of their own; one step of the bridge
      either tends or carries one file out ([tended], [carried]), and what no
      history of callbacks, ticks, failures, kills and restarts can do.
    - [EndToEnd]: no code of its own; the Host and the bridge as one system
      ([site_step]) that shares the command spool.

    - [TimeFacts]: no code of its own; the ISO text of UTC instants sorts as the
      instants do ([iso_order]), which is why a stored timestamp compared as text
      is modelled by the instant.

    A Definition carries the name of the function or method it translates; where
    two methods share a name, a prefix tells the class ([mode_enforce_health],
    [control_enforce_health]), and [X_init] is the constructor of class [X] with
    the checks of its [__post_init__].

    ** How it is modelled

    A method that touches the database is a computation of [M R]: from a world
    (database, transaction flag, tick, rest of the process) to a result and a
    world, so that what was written before an exception stays written and only
    [in_transaction] rolls back.  What the outside decides - the clock, uuid4,
    a BEGIN that finds the database locked, the answers of a broker driver - is
    the class [Env], indexed by the tick, or a parameter; the theorems hold for
    all of them.  SQLite returns the rows of an unordered SELECT in an order of
    its own: [Ledger] takes it as the parameter [arrange].  A dict is a [gmap], a
    table a [gmap] with its insertion order, an integer [Z].  Exceptions carry
    the class and, where it is stored or inspected, the message.

    ** What the theorems show

    - The Core: at most one submit and one cancel per order through any
      sessions, failures and crashes ([at_most_once]); the store's invariants
      and its append-only logs ([store_forever]); a recovery that returns leaves
      nothing ambiguous ([recover_settles]); a session that lost its lease is
      inert, but for closing it ([fenced_inert]); silence of the broker is never an acknowledgement
      ([submit_never_assumes]).
    - Evidence: atomic ingestion, conflicts that stay on record, replays that
      change nothing, digests and fingerprints that identify.
    - The lease: one leader, and a lost lease stays lost.
    - Risk: the engine is the reference table wherever no operation rounds
      ([evaluate_exact]); gates and limits of an accepted order; which
      exceptions it can raise; the broker is out of reach of a refused order
      ([broker_needs_acceptance]); an acceptance rests on live facts
      ([decision_grounded]).
    - The runtime: the ledger's totals are the arithmetic of the day; the mode
      is what the audit says, moves only with warrant, never to a live mode, and
      can always be halted; registries answer with the newest fresh fact,
      whatever the order of arrival; a quote is what a tick of the bound terminal
      says of its exact symbol ([ticks_admitted]), a healthy report rests on fresh
      facts ([refreshed_means_fresh]), and a session is open in one window of a
      configured date ([open_exact]).
    - Operations: the alerts in force are the projection of their append-only log
      ([alerts_projected]); the telemetry in memory mirrors it and survives a
      restart ([telemetry_mirrors], a lemma of the library); a supervised cycle leaves no unhealthy
      process armed, and a shutdown leaves it halted ([cycle_supervised]).
    - The transport: an accepted event has the shape of its type ([wire_contract])
      and its frame means it ([frame_contract], [command_roundtrip]); a healthy
      view is the last clean snapshot with what followed it
      ([healthy_view_exact]); facts become evidence or stay in the quarantine
      ([facts_routed]); no file of the spools is lost or changed
      ([poll_conserves], [move_terminates], [published_forever]); what the
      terminal says of a command is stored once and never acknowledges an order
      ([result_journalled_once], [results_never_acknowledge]).
    - Evidence from the terminal: whatever the mapper emits is about a registered
      order and says what the terminal's fact says ([mapper_faithful]).
    - The simulator's writer: every command file is the frame of a committed plan
      whose order is reserved, and an order is planned and published once
      ([published_once]).
    - The bridge: every call of the broker is for one command file, which authorises
      it and left the inbox for good ([executed_once]); a session of the live canary
      makes at most one submit, of the one case it is built for ([canary_once]); the
      bridge reads what the Host writes ([bridge_reads]).
    - End to end: from a plan of the store to a call of the broker, over any
      interleaving of the two processes, each order is submitted at most once and
      cancelled at most once ([end_to_end]).
    - The archive: over any runs, cut short anywhere, no processed file is lost, as
      long as a file name stands for one content ([nothing_lost]).  The instances:
      the event one is judged by is the newest, up to what the manifests of the
      archives claim to hold ([latest_is_newest]); one that may trade was asked for, is pinned and bounded
      ([loaded_authorised]); the bridge's manifest is accepted by exactly the Host
      that asks for it ([artifact_loads]).

    ** Bounds, fuel, conventions

    Recursion is structural, or runs on fuel that covers the whole input:
    [Decimal.ndigits_fuel] has the binary size of its argument, and SHA-256
    consumes blocks of a message padded to a multiple of 64 bytes.  Recovery
    iterates over the list of candidates read before the loop.  Integers are
    unbounded as in Python; that SQLite stores 64 bits, and the OverflowError
    past that, is not modelled, nor is timedelta's own overflow for ages beyond
    a billion days.  Strings are over code points below 256, and their UTF-8
    bytes are computed.  Constructors that check the Python type of their
    arguments take a [pyval]; elsewhere an isinstance guard is the type of the
    model.  The Sqlite errors modelled are a BEGIN that fails and a violated
    key or reference.

    A file store is a [gmap] from a directory and a name to bytes.  Reading and
    moving a file succeed; writing a command may fail before the atomic
    replacement ([env_write]), and any operation of the archive and of the bridge
    may ([ae_io], [tm_file]).  Two processes do not change a directory between
    two steps of one function.  A directory is listed in the order of names, and a
    SELECT without ORDER BY in [SimOms] in the order of insertion.  The terminal's
    functions are the class [Terminal]: each may raise or answer anything, and a
    process that is killed is an exception that nothing catches, raised by any
    external call; time.monotonic is the clock [env_clock].  What [Bridge] calls to
    diagnose instruments and ticks are parameters, assumed in the histories to tend:
    they read the terminal and enqueue reports.  A time zone is a
    function from instants to offsets, and instants of ticks end in 2242, where
    the floats of the code stop being exact.  gzip is a pair of functions
    ([ae_gzip], [ae_gunzip]), the second of which gives back the lines of what the
    first was given.  The JSON reader runs on fuel that the length of
    the text covers ([value_fuel]).  A float in it is one with at most 15 digits and no
    exponent in its shortest text ([float_ok]: a double carries 15 digits, so that the
    text is the float); other floats, code points above 255 and integers of more than
    4300 digits are outside the model, and end in the exception [Beyond] that no claim
    is made about; the recursion limit of the reader is not modelled.

    ** Not modelled

    - Opening a database, its migrations and PRAGMAs (oms/db.py, qmt/schema.py), the
      backup of a file (operations/backup.py), and the wiring of a process
      (service/bootstrap.py, deployment.py): I/O and assembly around the components
      above.
    - The driver that publishes commands (drivers/qmt_shadow.py: a driver is any
      instance of [ExecutionDriver]).
    - Of the transport: the TCP server of qmt/receiver.py, which feeds the same
      buffer; the calibration observer (qmt/calibration.py), the host loop and the
      probes (qmt/host.py, *_probe.py), which compose the components above with
      argument parsing and files.
    - Of the bridge: the discovery of instruments and the tick diagnostics (lines
      1039-1505 and 1616-1660 of the simulation artifact), and logging.  The other
      artifacts (qmt_side/ V04, V05, V05_GALAXY and the first version) are earlier,
      or the same core with trading off.
    - The tools and the tests.
    - The isinstance guards that protect one collaborator from another of the
      wrong class, and the callable guards of bind_write_guard. *)

From stdpp Require Export base decidable option list gmap strings pretty.
From Stdlib Require Export ZArith Lia Ascii String.
From stdpp Require Export list gmap strings.

Open Scope Z_scope.
Open Scope bool_scope.
Open Scope list_scope.

(** ** Exceptions

    An exception is its class and its message ([str(exc)]).  The class is kept
    as data because the code dispatches on it ([except X as exc]) and records
    [type(exc).__name__]; the message because [_filled_conflict_reason] inspects
    it.  [OtherException] and [OtherBaseException] are the classes a broker
    driver may raise that are not the package's own. *)

Inductive exn_class :=
  | ValueError | TypeError | KeyError | RuntimeError | AttributeError
  | AssertionError
  | SqliteIntegrityError | SqliteOperationalError
  | DecimalOverflow | DecimalInvalidOperation | DecimalDivisionByZero
  | InvalidTransition | DuplicateClientOrderId
  | OrderNotFound | SubmitAlreadyStarted | CancelAlreadyStarted
  | BrokerOrderIdMismatch | InvalidFilledQuantity | BrokerLifecycleConflict
  | OmsLeaderUnavailable | OmsLeaderLost
  | OmsNotReconciled | RecoveryInvariantViolation | BrokerEvidenceConflict
  | SubmitOutcomeUnknown | CancelOutcomeUnknown
  | DuplicateBrokerSubmit | DuplicateBrokerCancel
  | SimulatedProcessCrash
  | DailyRiskFactConflict | DailyRiskSnapshotUnavailable
  | ExternalOrderFactConflict
  | ModeTransitionDenied | ModeTransitionConflict
  | MarketDataUnavailable | MarketDataStale
  | StrategyUnavailable | StrategyStale | StrategyIdentityMismatch
  | RuntimeRiskUnavailable | TradingDateUnknown | TradingSessionClosed
  | AlertEventConflict | DeploymentMismatch
  | QmtCommandError | QmtCommandConflict | QmtProtocolError | QmtIngressIdentityError
  | CommandResultConflict | QmtMarketDataError
  | QmtCommandResultInvariantViolation | QmtDurableIdentityConflict
  | OtherException (name : string) | OtherBaseException (name : string).

#[global] Instance exn_class_eq_dec : EqDecision exn_class.
Proof. solve_decision. Defined.

(** [type(exc).__name__]. *)
Definition class_name (c : exn_class) : string :=
  match c with
  | ValueError => "ValueError" | TypeError => "TypeError" | KeyError => "KeyError"
  | RuntimeError => "RuntimeError" | AttributeError => "AttributeError"
  | AssertionError => "AssertionError" | SqliteIntegrityError => "IntegrityError"
  | SqliteOperationalError => "OperationalError" | DecimalOverflow => "Overflow"
  | DecimalInvalidOperation => "InvalidOperation"
  | DecimalDivisionByZero => "DivisionByZero" | InvalidTransition => "InvalidTransition"
  | DuplicateClientOrderId => "DuplicateClientOrderId" | OrderNotFound => "OrderNotFound"
  | SubmitAlreadyStarted => "SubmitAlreadyStarted"
  | CancelAlreadyStarted => "CancelAlreadyStarted"
  | BrokerOrderIdMismatch => "BrokerOrderIdMismatch"
  | InvalidFilledQuantity => "InvalidFilledQuantity"
  | BrokerLifecycleConflict => "BrokerLifecycleConflict"
  | OmsLeaderUnavailable => "OmsLeaderUnavailable" | OmsLeaderLost => "OmsLeaderLost"
  | OmsNotReconciled => "OmsNotReconciled"
  | RecoveryInvariantViolation => "RecoveryInvariantViolation"
  | BrokerEvidenceConflict => "BrokerEvidenceConflict"
  | SubmitOutcomeUnknown => "SubmitOutcomeUnknown"
  | CancelOutcomeUnknown => "CancelOutcomeUnknown"
  | DuplicateBrokerSubmit => "DuplicateBrokerSubmit"
  | DuplicateBrokerCancel => "DuplicateBrokerCancel"
  | SimulatedProcessCrash => "SimulatedProcessCrash"
  | DailyRiskFactConflict => "DailyRiskFactConflict"
  | DailyRiskSnapshotUnavailable => "DailyRiskSnapshotUnavailable"
  | ExternalOrderFactConflict => "ExternalOrderFactConflict"
  | ModeTransitionDenied => "ModeTransitionDenied"
  | ModeTransitionConflict => "ModeTransitionConflict"
  | MarketDataUnavailable => "MarketDataUnavailable"
  | MarketDataStale => "MarketDataStale"
  | StrategyUnavailable => "StrategyUnavailable"
  | StrategyStale => "StrategyStale"
  | StrategyIdentityMismatch => "StrategyIdentityMismatch"
  | RuntimeRiskUnavailable => "RuntimeRiskUnavailable"
  | TradingDateUnknown => "TradingDateUnknown"
  | TradingSessionClosed => "TradingSessionClosed"
  | AlertEventConflict => "AlertEventConflict"
  | DeploymentMismatch => "DeploymentMismatch"
  | QmtCommandError => "QmtCommandError"
  | QmtCommandConflict => "QmtCommandConflict"
  | QmtCommandResultInvariantViolation => "QmtCommandResultInvariantViolation"
  | QmtDurableIdentityConflict => "QmtDurableIdentityConflict"
  | QmtProtocolError => "QmtProtocolError"
  | QmtIngressIdentityError => "QmtIngressIdentityError"
  | CommandResultConflict => "CommandResultConflict"
  | QmtMarketDataError => "QmtMarketDataError"
  | OtherException name | OtherBaseException name => name
  end.

Record exn := Exn { exn_cls : exn_class; exn_msg : string }.

#[global] Instance exn_eq_dec : EqDecision exn.
Proof. solve_decision. Defined.

(** [except Exception] catches every class but those that derive directly from
    [BaseException]. *)
Definition is_Exception (e : exn) : bool :=
  match exn_cls e with
  | SimulatedProcessCrash | OtherBaseException _ => false
  | _ => true
  end.

(** ** Results and the result monad *)

Inductive res (A : Type) :=
  | Ok (a : A)
  | Err (e : exn).
Arguments Ok {A} a.
Arguments Err {A} e.

#[global] Instance res_eq_dec `{EqDecision A} : EqDecision (res A).
Proof. solve_decision. Defined.

Definition res_bind {A B} (m : res A) (f : A -> res B) : res B :=
  match m with Ok a => f a | Err e => Err e end.

Definition raise {A} (c : exn_class) (msg : string) : res A := Err (Exn c msg).

(** [guard_r b c msg]: [if not b: raise c(msg)]. *)
Definition guard_r (b : bool) (c : exn_class) (msg : string) : res unit :=
  if b then Ok tt else raise c msg.

Fixpoint res_iter {A} (f : A -> res unit) (l : list A) : res unit :=
  match l with
  | [] => Ok tt
  | a :: l => res_bind (f a) (fun _ => res_iter f l)
  end.

Declare Scope py_scope.
Delimit Scope py_scope with py.
Notation "x <- m ;; k" := (res_bind m (fun x => k))
  (at level 100, m at next level, right associativity) : py_scope.
Notation "'do!' m ;; k" := (res_bind m (fun _ => k))
  (at level 100, m at next level, right associativity) : py_scope.

Definition is_ok {A} (m : res A) : bool :=
  match m with Ok _ => true | Err _ => false end.

Create HintDb pydb.
Create Rewrite HintDb pydb.

Lemma res_bind_ok {A B} (m : res A) (f : A -> res B) b :
  res_bind m f = Ok b <-> exists a, m = Ok a /\ f a = Ok b.
Proof. destruct m; simpl; naive_solver. Qed.

Lemma res_bind_err {A B} (m : res A) (f : A -> res B) e :
  res_bind m f = Err e <-> m = Err e \/ exists a, m = Ok a /\ f a = Err e.
Proof. destruct m; simpl; naive_solver. Qed.

Lemma guard_r_ok b c msg u : guard_r b c msg = Ok u <-> b = true.
Proof. destruct b, u; simpl; naive_solver. Qed.

Lemma res_iter_ok {A} (f : A -> res unit) l :
  res_iter f l = Ok tt <-> Forall (fun a => f a = Ok tt) l.
Proof.
  induction l as [|a l IH]; simpl; [naive_solver|].
  rewrite res_bind_ok, Forall_cons, <- IH.
  split; [intros ([] & ? & ?) | intros []]; eauto.
Qed.

(** Break a successful computation into its steps. *)
Ltac inv_ok :=
  repeat match goal with
  | H : res_bind _ _ = Ok _ |- _ =>
      apply res_bind_ok in H; destruct H as (? & ? & H)
  | H : guard_r _ _ _ = Ok _ |- _ => apply guard_r_ok in H
  | H : Ok _ = Ok _ |- _ => injection H as H; subst
  | H : raise _ _ = Ok _ |- _ => discriminate H
  | H : Err _ = Ok _ |- _ => discriminate H
  end.

(** ** Strings

    A Python string is a sequence of code points; [ascii] holds the code points
    below 256, and the development is about strings over those. *)

Definition code_point (a : ascii) : N := N_of_ascii a.

(** The code points below 256 that [str.strip] removes. *)
Definition is_space (a : ascii) : bool :=
  let n := code_point a in
  ((9 <=? n) && (n <=? 13) || (28 <=? n) && (n <=? 32) || (n =? 133) || (n =? 160))%N.

Fixpoint all_chars (p : ascii -> bool) (s : string) : bool :=
  match s with
  | EmptyString => true
  | String a s => p a && all_chars p s
  end.

(** [value.strip()] is truthy: some character is not white space. *)
Definition strip_nonempty (s : string) : bool := negb (all_chars is_space s).

Definition str_len (s : string) : Z := Z.of_nat (String.length s).

Fixpoint startswith (p s : string) : bool :=
  match p, s with
  | EmptyString, _ => true
  | String a p, String b s => bool_decide (a = b) && startswith p s
  | _, _ => false
  end.

Definition endswith (p s : string) : bool :=
  startswith (String.rev p) (String.rev s).

(** [p in s] for strings. *)
Fixpoint str_contains (p s : string) : bool :=
  startswith p s ||
  match s with
  | EmptyString => false
  | String _ s => str_contains p s
  end.

Definition str_nonempty (s : string) : bool :=
  match s with EmptyString => false | _ => true end.

Lemma str_app_nil (b : string) : "" +:+ b = b.
Proof. reflexivity. Qed.

Lemma str_app_cons x (a b : string) : String x a +:+ b = String x (a +:+ b).
Proof. reflexivity. Qed.

Lemma str_app_assoc (a b c : string) : (a +:+ b) +:+ c = a +:+ (b +:+ c).
Proof. induction a as [|x a IH]; rewrite ?str_app_nil, ?str_app_cons; congruence. Qed.

Lemma str_app_inj (a b c : string) : a +:+ b = a +:+ c -> b = c.
Proof.
  induction a as [|x a IH]; rewrite ?str_app_nil, ?str_app_cons; [done|].
  intros [= H]; auto.
Qed.

Create Rewrite HintDb strdb.
#[export] Hint Rewrite str_app_nil str_app_cons str_app_assoc : strdb.

(** [str(n)] of an integer. *)
Definition z_str (z : Z) : string := pretty z.

(** ** Date and time

    A [datetime]: its wall-clock fields as a count of microseconds, and the
    offset of its [tzinfo] in microseconds ([None]: naive).  [isoformat] and
    [fromisoformat] are inverse on such values, so a column that holds
    [x.isoformat()] is modelled by [x]. *)

Record datetime := DT { dt_local : Z; dt_off : option Z }.

#[global] Instance datetime_eq_dec : EqDecision datetime.
Proof. solve_decision. Defined.

(** [value.tzinfo is None or value.utcoffset() is None]. *)
Definition is_aware (d : datetime) : bool :=
  match dt_off d with Some _ => true | None => false end.

(** The instant of an aware value; comparisons of aware values compare it. *)
Definition instant (d : datetime) : Z := dt_local d - default 0 (dt_off d).

Definition dt_leb (a b : datetime) : bool := instant a <=? instant b.
Definition dt_ltb (a b : datetime) : bool := instant a <? instant b.

(** [value.astimezone(timezone.utc)]. *)
Definition to_utc (d : datetime) : datetime := DT (instant d) (Some 0).

(** [value + timedelta(seconds=s)]. *)
Definition add_seconds (d : datetime) (s : Z) : datetime :=
  DT (dt_local d + s * 1000000) (dt_off d).

Lemma instant_to_utc d : instant (to_utc d) = instant d.
Proof. unfold to_utc, instant; cbn; lia. Qed.

Lemma instant_add_seconds d s : instant (add_seconds d s) = instant d + s * 1000000.
Proof. destruct d as [l []]; unfold instant, add_seconds; simpl; lia. Qed.

#[export] Hint Rewrite instant_to_utc instant_add_seconds : pydb.

(** An order's key: [(account_fingerprint, client_order_id)]. *)
Abbreviation okey := (string * string)%type.

(** ** Tactics shared by the development *)

(** Turn boolean tests into propositions. *)
Ltac bool_to_prop :=
  repeat match goal with
  | H : _ && _ = true |- _ => apply andb_true_iff in H; destruct H
  | H : _ || _ = false |- _ => apply orb_false_iff in H; destruct H
  | H : negb _ = true |- _ => apply negb_true_iff in H
  | H : negb _ = false |- _ => apply negb_false_iff in H
  | H : (_ <? _) = true |- _ => apply Z.ltb_lt in H
  | H : (_ <? _) = false |- _ => apply Z.ltb_ge in H
  | H : (_ <=? _) = true |- _ => apply Z.leb_le in H
  | H : (_ <=? _) = false |- _ => apply Z.leb_gt in H
  | H : (_ =? _) = true |- _ => apply Z.eqb_eq in H
  | H : (_ =? _) = false |- _ => apply Z.eqb_neq in H
  | H : bool_decide _ = true |- _ => apply bool_decide_eq_true in H
  | H : bool_decide _ = false |- _ => apply bool_decide_eq_false in H
  end.

(** Close an equivalence between a computation's success and its reading. *)
Ltac iff_crush :=
  split; intros; destruct_and?; simplify_eq/=; repeat split;
  try congruence; try lia; eauto.
