(* ===== verification/PyTime.v ===== *)
(** * PyTime: what the package reads off a [datetime]

    [datetime.isoformat()] and [int(value.timestamp() * 1000)], as CPython
    computes them: the proleptic Gregorian calendar for the first, IEEE 754
    doubles (the Standard Library's [SpecFloat]) for the second. *)

From Stdlib Require Import SpecFloat.
From S2P Require Import Prelude.
Open Scope Z_scope.

(** [n] in decimal, with leading zeros up to [width]. *)
Fixpoint pad_left (width : nat) (s : string) : string :=
  match width with
  | O => s
  | S w => if (String.length s <? width)%nat then "0" +:+ pad_left w s else s
  end.

Definition zpad (width : nat) (n : Z) : string := pad_left width (z_str n).

(** The civil date of a day counted from 1970-01-01: year, month, day. *)
Definition civil (days : Z) : Z * Z * Z :=
  let z := days + 719468 in
  let era := z / 146097 in
  let doe := z mod 146097 in
  let yoe := (doe - doe / 1460 + doe / 36524 - doe / 146096) / 365 in
  let doy := doe - (365 * yoe + yoe / 4 - yoe / 100) in
  let mp := (5 * doy + 2) / 153 in
  let day := doy - (153 * mp + 2) / 5 + 1 in
  let month := if mp <? 10 then mp + 3 else mp - 9 in
  let year := yoe + era * 400 + (if month <=? 2 then 1 else 0) in
  (year, month, day).

(** [date.isoformat()] of the date of an ordinal ([date.toordinal()]). *)
Definition date_iso (ordinal : Z) : string :=
  let '(y, m, day) := civil (ordinal - 719163) in
  zpad 4 y +:+ "-" +:+ zpad 2 m +:+ "-" +:+ zpad 2 day.

Definition micros_per_day : Z := 86400000000.

(** [hh:mm], then the seconds and the microseconds that are not zero. *)
Definition offset_str (off : Z) : string :=
  let a := Z.abs off in
  let us := a mod 1000000 in
  let s := (a / 1000000) mod 60 in
  (if off <? 0 then "-" else "+")
  +:+ zpad 2 (a / 3600000000) +:+ ":" +:+ zpad 2 ((a / 60000000) mod 60)
  +:+ (if (s =? 0) && (us =? 0) then "" else ":" +:+ zpad 2 s)
  +:+ (if us =? 0 then "" else "." +:+ zpad 6 us).

(** [value.isoformat()]. *)
Definition isoformat (d : datetime) : string :=
  let '(y, m, day) := civil (dt_local d / micros_per_day) in
  let t := dt_local d mod micros_per_day in
  let us := t mod 1000000 in
  zpad 4 y +:+ "-" +:+ zpad 2 m +:+ "-" +:+ zpad 2 day +:+ "T"
  +:+ zpad 2 (t / 3600000000) +:+ ":" +:+ zpad 2 ((t / 60000000) mod 60) +:+ ":"
  +:+ zpad 2 ((t / 1000000) mod 60)
  +:+ (if us =? 0 then "" else "." +:+ zpad 6 us)
  +:+ match dt_off d with Some off => offset_str off | None => "" end.

(** ** Doubles *)

Definition float_of_Z (n : Z) : spec_float :=
  match n with
  | Z0 => S754_zero false
  | Zpos p => S754_finite false p 0
  | Zneg p => S754_finite true p 0
  end.

(** [a / b] on integers: the quotient, correctly rounded. *)
Definition true_divide (a b : Z) : spec_float := SFdiv 53 1024 (float_of_Z a) (float_of_Z b).

(** [int(f)]: towards zero. *)
Definition trunc_float (f : spec_float) : Z :=
  match f with
  | S754_finite s m e =>
      let v := if 0 <=? e then Zpos m * 2 ^ e else Zpos m / 2 ^ (- e) in
      if s then - v else v
  | _ => 0
  end.

(** [value.timestamp()] of an aware value: [timedelta.total_seconds()]. *)
Definition timestamp (d : datetime) : spec_float := true_divide (instant d) 1000000.

(** [int(value.timestamp() * 1000)]. *)
Definition timestamp_ms (d : datetime) : Z :=
  trunc_float (SFmul 53 1024 (timestamp d) (SFdiv 53 1024 (float_of_Z 1000) (float_of_Z 1))).
