(* ===== verification/TimeFacts.v ===== *)
(** * TimeFacts: ISO texts order as the instants they stand for

    The runtime tables hold instants as the text of [isoformat()], and the code
    compares and sorts those texts.  For UTC values of the years 1 to 9999 - the
    ones Python has - the text order is the order of the instants, whatever
    digits [isoformat] leaves out. *)

From Stdlib Require Import SpecFloat.
From S2P Require Import Prelude PyTime.
Open Scope Z_scope.

(** ** Comparisons in sequence *)

Definition then_cmp (c k : comparison) : comparison := match c with Eq => k | _ => c end.

Infix "⨾" := then_cmp (at level 45, right associativity).

Lemma then_cmp_assoc a b c : ((a ⨾ b) ⨾ c) = (a ⨾ b ⨾ c).
Proof. by destruct a. Qed.

Lemma then_cmp_eq b : (Eq ⨾ b) = b.
Proof. done. Qed.

Lemma compare_divmod q a b : 0 < q -> (a ?= b) = ((a / q ?= b / q) ⨾ (a mod q ?= b mod q)).
Proof.
  intros Hq. pose proof (Z.div_mod a q ltac:(lia)). pose proof (Z.div_mod b q ltac:(lia)).
  pose proof (Z.mod_pos_bound a q Hq). pose proof (Z.mod_pos_bound b q Hq).
  destruct (Z.compare_spec (a / q) (b / q)) as [He|Hl|Hl]; cbn [then_cmp].
  - rewrite He in *. destruct (Z.compare_spec (a mod q) (b mod q)); destruct (Z.compare_spec a b); try done; exfalso; nia.
  - apply Z.compare_lt_iff. nia.
  - apply Z.compare_gt_iff. nia.
Qed.

(** ** Text *)

Lemma text_cmp_app a b x y :
  String.length a = String.length b ->
  String.compare (a +:+ x) (b +:+ y) = (String.compare a b ⨾ String.compare x y).
Proof.
  revert b. induction a as [|c a IH]; intros [|c' b]; try done.
  intros [= Hl]. rewrite !str_app_cons. cbn [String.compare]. rewrite IH by done.
  by destruct (Ascii.compare c c').
Qed.

Lemma str_length_app a b : String.length (a +:+ b) = (String.length a + String.length b)%nat.
Proof. induction a as [|c a IH]; [done|]. rewrite str_app_cons. cbn. by rewrite IH. Qed.

Lemma text_cmp_refl a : String.compare a a = Eq.
Proof. induction a as [|c a IH]; cbn; [done|].
  unfold Ascii.compare. by rewrite N.compare_refl.
Qed.

(** The character of a digit. *)
Definition digit (n : Z) : string := String (pretty_N_char (Z.to_N n)) "".

Lemma digit_cases n : 0 <= n < 10 -> In n (List.map Z.of_nat (List.seq 0 10)).
Proof. cbn. lia. Qed.

(** One goal for each digit [n], from [H : 0 <= n < 10]. *)
Ltac each_digit H :=
  apply digit_cases in H; cbn in H; repeat (destruct H as [<- | H]); [..|destruct H].

Lemma digit_cmp n m : 0 <= n < 10 -> 0 <= m < 10 -> String.compare (digit n) (digit m) = (n ?= m).
Proof.
  intros Hn Hm. each_digit Hn; each_digit Hm; reflexivity.
Qed.

Lemma pad_left_snoc w s c : pad_left (S w) (s +:+ String c "") = pad_left w s +:+ String c "".
Proof.
  revert s. induction w as [|w IH]; intros s.
  - cbn [pad_left]. rewrite str_length_app. cbn [String.length].
    destruct (Nat.ltb_spec (String.length s + 1) 1); [lia | done].
  - cbn [pad_left] in IH |- *. rewrite str_length_app. cbn [String.length].
    replace (String.length s + 1 <? S (S w))%nat with (String.length s <? S w)%nat.
    2: { destruct (Nat.ltb_spec (String.length s) (S w)), (Nat.ltb_spec (String.length s + 1) (S (S w))); lia. }
    destruct (_ <? _)%nat; [|done]. specialize (IH s). rewrite str_length_app in IH.
    cbn [String.length] in IH. by rewrite IH, str_app_assoc.
Qed.

Lemma z_str_step n : 10 <= n -> z_str n = z_str (n / 10) +:+ digit (n mod 10).
Proof.
  intros Hn. unfold z_str, digit.
  assert (Hpos : forall m, 0 < m -> pretty m = pretty_N_go (Z.to_N m) "").
  { intros m Hm. destruct m as [|p|p]; [lia | | lia]. cbn. unfold pretty, pretty_positive, pretty, pretty_N.
    rewrite decide_False by done. done. }
  assert (Happ : forall x s, pretty_N_go x s = pretty_N_go x "" +:+ s).
  { intros x. induction (N.lt_wf_0 x) as [x _ IH]. intros s.
    destruct (decide (x = 0)%N) as [->|Hx]; [done|].
    rewrite pretty_N_go_step by lia. rewrite (pretty_N_go_step x "") by lia.
    assert (Hlt : (x `div` 10 < x)%N) by (apply N.div_lt; lia).
    rewrite IH, (IH _ Hlt (String _ "")) by done. by rewrite str_app_assoc. }
  pose proof (Z.div_str_pos n 10). rewrite Hpos by lia.
  rewrite Hpos by lia. rewrite pretty_N_go_step by lia. rewrite Happ.
  by rewrite Z2N.inj_div, Z2N.inj_mod by lia.
Qed.

Lemma pad_left_zero w : pad_left (S w) "" = pad_left (S w) "0".
Proof.
  induction w as [|w IH]; [done|]. change (pad_left (S (S w)) "") with ("0" +:+ pad_left (S w) "").
  change (pad_left (S (S w)) "0") with ("0" +:+ pad_left (S w) "0"). by rewrite IH.
Qed.

Lemma zpad_step w n : 0 <= n -> zpad (S (S w)) n = zpad (S w) (n / 10) +:+ digit (n mod 10).
Proof.
  intros Hn. unfold zpad. destruct (decide (10 <= n)) as [Hm|Hm].
  - rewrite z_str_step by done. apply pad_left_snoc.
  - rewrite Z.div_small, Z.mod_small by lia.
    replace (z_str n) with (digit n).
    2: { assert (Hd : 0 <= n < 10) by lia. by each_digit Hd. }
    change (digit n) with ("" +:+ digit n) at 1. unfold digit.
    by rewrite pad_left_snoc, pad_left_zero.
Qed.

Lemma zpad_1 n : 0 <= n < 10 -> zpad 1 n = digit n.
Proof. intros Hn. by each_digit Hn. Qed.

Lemma zpad_length w n : 0 <= n < 10 ^ Z.of_nat (S w) -> String.length (zpad (S w) n) = S w.
Proof.
  revert n. induction w as [|w IH]; intros n Hn; [by rewrite zpad_1|].
  rewrite zpad_step, str_length_app, IH; [cbn; lia | | lia].
  rewrite Nat2Z.inj_succ, Z.pow_succ_r in Hn by lia.
  split; [apply Z.div_pos; lia | apply Z.div_lt_upper_bound; lia].
Qed.

(** Padded to one width, numbers order as their texts. *)
Lemma zpad_cmp w n m :
  0 <= n < 10 ^ Z.of_nat (S w) -> 0 <= m < 10 ^ Z.of_nat (S w) ->
  String.compare (zpad (S w) n) (zpad (S w) m) = (n ?= m).
Proof.
  revert n m. induction w as [|w IH]; intros n m Hn Hm.
  - rewrite !zpad_1 by done. by apply digit_cmp.
  - assert (Hdiv : forall k, 0 <= k < 10 ^ Z.of_nat (S (S w)) -> 0 <= k / 10 < 10 ^ Z.of_nat (S w)).
    { intros k Hk. rewrite Nat2Z.inj_succ, Z.pow_succ_r in Hk by lia.
      split; [apply Z.div_pos; lia | apply Z.div_lt_upper_bound; lia]. }
    rewrite !zpad_step, text_cmp_app, IH, digit_cmp by
      (auto; rewrite ?zpad_length by auto; try lia; apply Z.mod_pos_bound; lia).
    symmetry. apply compare_divmod. lia.
Qed.

(** Texts that begin with padded numbers. *)
Lemma zpad_app_cmp w n m x y :
  0 <= n < 10 ^ Z.of_nat (S w) -> 0 <= m < 10 ^ Z.of_nat (S w) ->
  String.compare (zpad (S w) n +:+ x) (zpad (S w) m +:+ y) = ((n ?= m) ⨾ String.compare x y).
Proof. intros Hn Hm. by rewrite text_cmp_app, zpad_cmp by (rewrite ?zpad_length by done; done). Qed.

Lemma same_app_cmp a x y : String.compare (a +:+ x) (a +:+ y) = String.compare x y.
Proof. rewrite text_cmp_app by done. by rewrite text_cmp_refl. Qed.

(** ** The calendar

    A year here starts in March: [year_start] is its first day, counted from the
    start of its 400-year era. *)

Definition year_start (y : Z) : Z := 365 * y + y / 4 - y / 100.

Definition year_of (doe : Z) : Z := (doe - doe / 1460 + doe / 36524 - doe / 146096) / 365.

(** The date of day [doy] of a March year: whether the civil year is the next
    one, the month, the day of the month. *)
Definition day_of_year (doy : Z) : Z * Z * Z :=
  let mp := (5 * doy + 2) / 153 in
  let month := if mp <? 10 then mp + 3 else mp - 9 in
  (if month <=? 2 then 1 else 0, month, doy - (153 * mp + 2) / 5 + 1).

Definition date_cmp (a b : Z * Z * Z) : comparison :=
  (a.1.1 ?= b.1.1) ⨾ (a.1.2 ?= b.1.2) ⨾ (a.2 ?= b.2).

Lemma civil_spec days :
  let doe := (days + 719468) mod 146097 in
  let doy := doe - year_start (year_of doe) in
  civil days = (year_of doe + (days + 719468) / 146097 * 400 + (day_of_year doy).1.1,
                (day_of_year doy).1.2, (day_of_year doy).2).
Proof.
  unfold civil, year_of, year_start, day_of_year. cbv zeta. cbn [fst snd].
  rewrite Z.mod_eq by done. rewrite (Z.mul_comm 146097).
  reflexivity.
Qed.

Lemma date_cmp_lt a b :
  date_cmp a b = Lt <->
  a.1.1 < b.1.1 \/ a.1.1 = b.1.1 /\ (a.1.2 < b.1.2 \/ a.1.2 = b.1.2 /\ a.2 < b.2).
Proof.
  unfold date_cmp. destruct (Z.compare_spec a.1.1 b.1.1), (Z.compare_spec a.1.2 b.1.2),
    (Z.compare_spec a.2 b.2); cbn [then_cmp]; split; intros; try done; try lia; exfalso; lia.
Qed.

(** The first day of the next March year; the last one of the era is long. *)
Definition year_end (y : Z) : Z := year_start (y + 1) + (if y =? 399 then 1 else 0).

Lemma year_of_mono a b : a <= b -> year_of a <= year_of b.
Proof.
  intros Hab. apply Z.div_le_mono; [done|]. replace b with (a + (b - a)) by lia.
  apply (natlike_ind (fun k => a - a / 1460 + a / 36524 - a / 146096
    <= a + k - (a + k) / 1460 + (a + k) / 36524 - (a + k) / 146096)); [|intros k Hk IH | lia].
  - by rewrite Z.add_0_r.
  - etrans; [exact IH|]. replace (a + Z.succ k) with (a + k + 1) by lia.
    generalize (a + k). intros n.
    replace 146096 with (36524 * 4) by lia. rewrite <-!Z.div_div by lia.
    assert (Hs : forall q, 0 < q -> (n + 1) / q = n / q \/ (n + 1) / q = n / q + 1) by
      (intros q Hq; pose proof (Z.div_mod n q ltac:(lia)); pose proof (Z.mod_pos_bound n q Hq);
       pose proof (Z.div_mod (n + 1) q ltac:(lia)); pose proof (Z.mod_pos_bound (n + 1) q Hq); nia).
    destruct (Hs 1460 ltac:(lia)) as [-> | ->], (Hs 36524 ltac:(lia)) as [-> | ->];
      generalize (n / 1460), (n / 36524); clear; intros;
      Z.to_euclidean_division_equations; lia.
Qed.

(** A check of the numbers below [n]. *)
Definition all_below (n : nat) (p : Z -> bool) : bool :=
  forallb p (List.map Z.of_nat (List.seq 0 n)).

Lemma all_below_spec n p : all_below n p = true -> forall y, 0 <= y < Z.of_nat n -> p y = true.
Proof.
  unfold all_below. rewrite forallb_forall. intros Hc y Hy. apply Hc, in_map_iff.
  exists (Z.to_nat y). rewrite in_seq. lia.
Qed.

Lemma years_check :
  all_below 400 (fun y => (year_of (year_start y) =? y) && (year_of (year_end y - 1) =? y)) = true.
Proof. vm_compute. reflexivity. Qed.

Lemma year_of_unique y doe :
  0 <= y < 400 -> year_start y <= doe < year_end y -> year_of doe = y.
Proof.
  intros Hy Hdoe. pose proof (all_below_spec _ _ years_check y ltac:(lia)) as Hc.
  apply andb_true_iff in Hc as [H1%Z.eqb_eq H2%Z.eqb_eq].
  pose proof (year_of_mono (year_start y) doe). pose proof (year_of_mono doe (year_end y - 1)). lia.
Qed.

Lemma year_of_spec doe :
  0 <= doe < 146097 ->
  0 <= year_of doe < 400 /\ year_start (year_of doe) <= doe < year_end (year_of doe).
Proof.
  intros Hdoe.
  assert (Hex : exists y, 0 <= y < 400 /\ year_start y <= doe < year_end y).
  { assert (Hk : forall k, (k <= 400)%nat ->
      doe < year_start (Z.of_nat k) + (if (k =? 400)%nat then 1 else 0) ->
      exists y, 0 <= y < 400 /\ year_start y <= doe < year_end y).
    { induction k as [|k IH]; intros Hk Hlt; [change (doe < 0) in Hlt; lia|].
      destruct (decide (year_start (Z.of_nat k) <= doe)) as [Hle|Hgt].
      - exists (Z.of_nat k). repeat split; try lia. revert Hlt. unfold year_end.
        replace (Z.of_nat k + 1) with (Z.of_nat (S k)) by lia.
        destruct (Nat.eqb_spec (S k) 400), (Z.eqb_spec (Z.of_nat k) 399); lia.
      - apply IH; [lia|]. destruct (Nat.eqb_spec k 400); lia. }
    apply (Hk 400%nat); [lia|]. change (doe < 146097). lia. }
  destruct Hex as (y & Hy & Hd). by rewrite (year_of_unique y doe) by done.
Qed.

Lemma days_check :
  all_below 365 (fun d =>
    match date_cmp (day_of_year d) (day_of_year (d + 1)) with Lt => true | _ => false end) &&
  all_below 366 (fun d => let '(c, m, day) := day_of_year d in
    (0 <=? c) && (c <=? 1) && (1 <=? m) && (m <=? 12) && (1 <=? day) && (day <=? 31)) = true.
Proof. vm_compute. reflexivity. Qed.

Lemma day_of_year_next d : 0 <= d < 365 -> date_cmp (day_of_year d) (day_of_year (d + 1)) = Lt.
Proof.
  intros Hd. pose proof days_check as Hc. apply andb_true_iff in Hc as [Hc _].
  pose proof (all_below_spec _ _ Hc d ltac:(lia)) as Hd'. cbv beta in Hd'.
  by destruct (date_cmp (day_of_year d) (day_of_year (d + 1))).
Qed.

Lemma day_of_year_range d : 0 <= d < 366 ->
  0 <= (day_of_year d).1.1 <= 1 /\ 1 <= (day_of_year d).1.2 <= 12 /\ 1 <= (day_of_year d).2 <= 31.
Proof.
  intros Hd. pose proof days_check as Hc. apply andb_true_iff in Hc as [_ Hc].
  pose proof (all_below_spec _ _ Hc d ltac:(lia)) as Hd'. cbv beta in Hd'.
  destruct (day_of_year d) as [[c m] day]. bool_to_prop. cbn. lia.
Qed.

Lemma year_length y : 0 <= y < 400 -> 365 <= year_end y - year_start y <= 366.
Proof.
  intros Hy. unfold year_end, year_start. destruct (Z.eqb_spec y 399) as [-> | Hn]; [by vm_compute|].
  Z.to_euclidean_division_equations. lia.
Qed.

Lemma last_day d : 364 <= d <= 365 -> day_of_year d = (1, 2, d - 336).
Proof. intros Hd. assert (d = 364 \/ d = 365) as [-> | ->] by lia; reflexivity. Qed.

Lemma divmod_unique a q r b : a = b * q + r -> 0 <= r < b -> a mod b = r /\ a / b = q.
Proof.
  intros -> Hr. rewrite Z.mul_comm, Z.add_comm, Z_mod_plus_full, Z.div_add by lia.
  by rewrite Z.mod_small, Z.div_small by done.
Qed.

(** The next day has the next date. *)
Lemma civil_next days : date_cmp (civil days) (civil (days + 1)) = Lt.
Proof.
  rewrite !civil_spec. cbv zeta. cbn [fst snd].
  replace (days + 1 + 719468) with (days + 719468 + 1) by lia.
  generalize (days + 719468). intros z.
  pose proof (Z.mod_pos_bound z 146097 eq_refl) as Hb. pose proof (Z.div_mod z 146097 ltac:(lia)) as Hz.
  set (doe := z mod 146097) in *. set (era := z / 146097) in *. clearbody doe era.
  destruct (year_of_spec doe Hb) as [Hy Hd]. pose proof (year_length _ Hy) as Hl.
  assert (H399 : year_end 399 = 146097) by reflexivity.
  destruct (decide (doe + 1 < year_end (year_of doe))) as [Hin|Hout].
  - assert (doe <> 146096) by (intros ->; revert Hin; vm_compute; done).
    destruct (divmod_unique (z + 1) era (doe + 1) 146097) as [-> ->]; [lia..|].
    rewrite (year_of_unique (year_of doe) (doe + 1)) by lia.
    replace (doe + 1 - year_start (year_of doe)) with (doe - year_start (year_of doe) + 1) by lia.
    pose proof (day_of_year_next (doe - year_start (year_of doe)) ltac:(lia)) as Hn.
    rewrite date_cmp_lt in Hn |- *. cbn [fst snd]. lia.
  - rewrite (last_day (doe - _)) by lia. apply date_cmp_lt. cbn [fst snd]. right.
    destruct (decide (year_of doe = 399)) as [He|He].
    + rewrite He in *. destruct (divmod_unique (z + 1) (era + 1) 0 146097) as [-> ->]; [lia..|].
      change (year_of 0) with 0. change (day_of_year (0 - year_start 0)) with (0, 3, 1).
      cbn [fst snd]. lia.
    + assert (Hs : year_start (year_of doe + 1) = doe + 1).
      { revert Hout Hd. unfold year_end. destruct (Z.eqb_spec (year_of doe) 399); lia. }
      pose proof (year_length (year_of doe + 1) ltac:(lia)).
      assert (doe <> 146096) by (intros ->; apply He; reflexivity).
      destruct (divmod_unique (z + 1) era (doe + 1) 146097) as [-> ->]; [lia..|].
      rewrite (year_of_unique (year_of doe + 1) (doe + 1)) by lia.
      rewrite Hs, Z.sub_diag. change (day_of_year 0) with (0, 3, 1). cbn [fst snd]. lia.
Qed.

Lemma civil_mono a b : a < b -> date_cmp (civil a) (civil b) = Lt.
Proof.
  intros Hab. replace b with (a + 1 + (b - a - 1)) by lia.
  apply (natlike_ind (fun k => date_cmp (civil a) (civil (a + 1 + k)) = Lt)); [| |lia].
  - rewrite Z.add_0_r. apply civil_next.
  - intros k Hk IH. replace (a + 1 + Z.succ k) with (a + 1 + k + 1) by lia.
    pose proof (civil_next (a + 1 + k)) as Hn. rewrite date_cmp_lt in *. lia.
Qed.

Lemma date_cmp_refl a : date_cmp a a = Eq.
Proof. unfold date_cmp. by rewrite !Z.compare_refl. Qed.

Lemma civil_cmp a b : date_cmp (civil a) (civil b) = (a ?= b).
Proof.
  destruct (Z.compare_spec a b) as [-> | Hl | Hl].
  - apply date_cmp_refl.
  - by apply civil_mono.
  - apply civil_mono in Hl. rewrite date_cmp_lt in Hl.
    destruct (date_cmp (civil a) (civil b)) eqn:E; [exfalso| |done].
    + unfold date_cmp in E. destruct (Z.compare_spec (civil a).1.1 (civil b).1.1),
        (Z.compare_spec (civil a).1.2 (civil b).1.2), (Z.compare_spec (civil a).2 (civil b).2);
        try discriminate; lia.
    + apply date_cmp_lt in E. lia.
Qed.

(** The days of the years 1 to 9999. *)
Definition day_in_range (days : Z) : Prop := -719162 <= days <= 2932896.

Lemma civil_range days :
  day_in_range days ->
  0 <= (civil days).1.1 < 10000 /\ 0 <= (civil days).1.2 < 100 /\ 0 <= (civil days).2 < 100.
Proof.
  intros [Hlo Hhi].
  assert (Hd : 1 <= (civil days).1.2 <= 12 /\ 1 <= (civil days).2 <= 31).
  { rewrite civil_spec. cbv zeta. cbn [fst snd].
    pose proof (Z.mod_pos_bound (days + 719468) 146097 eq_refl) as Hb.
    destruct (year_of_spec _ Hb) as [Hy Hs]. pose proof (year_length _ Hy).
    apply day_of_year_range. lia. }
  assert (Hl : date_cmp (civil (-719163)) (civil days) = Lt) by (apply civil_mono; lia).
  assert (Hh : date_cmp (civil days) (civil 2932897) = Lt) by (apply civil_mono; lia).
  rewrite date_cmp_lt in Hl, Hh.
  change (civil (-719163)) with (0, 12, 31) in Hl. change (civil 2932897) with (10000, 1, 1) in Hh.
  cbn [fst snd] in Hl, Hh. lia.
Qed.

(** ** ISO texts *)

(** A UTC value of the years 1 to 9999. *)
Definition utc_in_range (d : datetime) : Prop :=
  dt_off d = Some 0 /\ day_in_range (dt_local d / micros_per_day).

(** The fraction of a second, with the offset that follows it. *)
Definition fraction (us : Z) : string := (if us =? 0 then "" else "." +:+ zpad 6 us) +:+ "+00:00".

Lemma fraction_cmp a b :
  0 <= a < 1000000 -> 0 <= b < 1000000 -> String.compare (fraction a) (fraction b) = (a ?= b).
Proof.
  intros Ha Hb. unfold fraction. destruct (Z.eqb_spec a 0) as [-> | Hna], (Z.eqb_spec b 0) as [-> | Hnb].
  - reflexivity.
  - symmetry. apply Z.compare_lt_iff. lia.
  - symmetry. apply Z.compare_gt_iff. lia.
  - rewrite !str_app_assoc, same_app_cmp, zpad_app_cmp by (cbn; lia).
    rewrite text_cmp_refl. by destruct (a ?= b).
Qed.

(** Seconds, minutes and hours are the digits of the time of day. *)
Lemma time_cmp a b :
  (a ?= b) = ((a / 3600000000 ?= b / 3600000000) ⨾
              ((a / 60000000) mod 60 ?= (b / 60000000) mod 60) ⨾
              ((a / 1000000) mod 60 ?= (b / 1000000) mod 60) ⨾ (a mod 1000000 ?= b mod 1000000)).
Proof.
  rewrite (compare_divmod 1000000 a b) by done.
  rewrite (compare_divmod 60 (a / 1000000) (b / 1000000)) by done.
  rewrite !Z.div_div by done. change (1000000 * 60) with 60000000.
  rewrite (compare_divmod 60 (a / 60000000) (b / 60000000)) by done.
  rewrite !Z.div_div by done. change (60000000 * 60) with 3600000000.
  by rewrite !then_cmp_assoc.
Qed.

(** The text order of UTC timestamps is the order of their instants. *)
Theorem iso_order a b :
  utc_in_range a -> utc_in_range b ->
  String.compare (isoformat a) (isoformat b) = (instant a ?= instant b).
Proof.
  intros [Hoa Hra] [Hob Hrb]. unfold isoformat, instant. rewrite Hoa, Hob. cbn [default].
  rewrite !Z.sub_0_r. rewrite (compare_divmod micros_per_day) by done.
  pose proof (Z.mod_pos_bound (dt_local a) micros_per_day eq_refl) as Ha.
  pose proof (Z.mod_pos_bound (dt_local b) micros_per_day eq_refl) as Hb.
  rewrite <-civil_cmp. destruct (civil_range _ Hra) as (? & ? & ?), (civil_range _ Hrb) as (? & ? & ?).
  unfold date_cmp. destruct (civil (dt_local a / _)) as [[y m] d], (civil (dt_local b / _)) as [[y' m'] d'].
  cbn [fst snd] in *. rewrite (time_cmp (dt_local a mod _)).
  unfold micros_per_day in *.
  set (t := dt_local a mod _) in *. set (t' := dt_local b mod _) in *. clearbody t t'.
  assert (Hrange : forall x, 0 <= x < 86400000000 ->
    0 <= x / 3600000000 < 100 /\ 0 <= (x / 60000000) mod 60 < 100 /\
    0 <= (x / 1000000) mod 60 < 100 /\ 0 <= x mod 1000000 < 1000000)
    by (intros x Hx; Z.to_euclidean_division_equations; lia).
  destruct (Hrange _ Ha) as (? & ? & ? & ?), (Hrange _ Hb) as (? & ? & ? & ?).
  change (offset_str 0) with "+00:00".
  fold (fraction (t mod 1000000)) (fraction (t' mod 1000000)).
  rewrite (zpad_app_cmp 3), same_app_cmp, (zpad_app_cmp 1), same_app_cmp, (zpad_app_cmp 1),
    same_app_cmp, (zpad_app_cmp 1), same_app_cmp, (zpad_app_cmp 1), same_app_cmp,
    (zpad_app_cmp 1), fraction_cmp by done.
  by rewrite !then_cmp_assoc.
Qed.
