(* ===== verification/Decimal.v ===== *)
(** * Decimal: the arithmetic of [decimal.Decimal]

    Finite values of Python's [decimal] module and the operations the package
    applies to them, under the default context (28 digits, half-even rounding,
    Emax 999999, Emin -999999, traps for overflow, division by zero and invalid
    operations).  Every operation computes the exact result and passes it
    through [fix_dec], the module's own rounding step, so a notional or a
    turnover that needs more than 28 digits is rounded here as it is there. *)

From S2P Require Import Prelude.
Open Scope Z_scope.
Open Scope py_scope.

Module Dec.

(** A sign, a coefficient and an exponent: (-1)^neg * coef * 10^exp. *)
Record decimal := D { neg : bool; coef : Z; exp : Z }.

#[global] Instance decimal_eq_dec : EqDecision decimal.
Proof. solve_decision. Defined.

(** What a value of class [Decimal] can be. *)
Inductive pydec := Fin (d : decimal) | Inf (negative : bool) | NaN.

#[global] Instance pydec_eq_dec : EqDecision pydec.
Proof. solve_decision. Defined.

Definition prec : Z := 28.
Definition Emax : Z := 999999.
Definition Etiny : Z := - 999999 - prec + 1.
Definition Etop : Z := Emax - prec + 1.

(** [len(str(n))] for [n >= 0]; the fuel is the number of bits. *)
Fixpoint ndigits_fuel (fuel : nat) (n : Z) : Z :=
  match fuel with
  | O => 1
  | S f => if n <? 10 then 1 else 1 + ndigits_fuel f (n / 10)
  end.

Definition ndigits (n : Z) : Z := ndigits_fuel (Z.to_nat (Z.log2 n)) n.

(** Half-even rounding of [n / 10^k], for [k >= 0] and [n >= 0]. *)
Definition round_half_even (n k : Z) : Z :=
  let q := n / 10 ^ k in
  let r := n mod 10 ^ k in
  if 10 ^ k <? 2 * r then q + 1
  else if 2 * r <? 10 ^ k then q
  else if Z.even q then q else q + 1.

(** [Decimal._fix]: bring a value into the context's precision and range. *)
Definition fix_dec (d : decimal) : res decimal :=
  if coef d =? 0 then
    Ok (D (neg d) 0 (Z.min (Z.max (exp d) Etiny) Emax))
  else
    let exp_min := ndigits (coef d) + exp d - prec in
    if Etop <? exp_min then raise DecimalOverflow "above Emax"
    else
      let exp_min := Z.max exp_min Etiny in
      if exp d <? exp_min then
        let c := round_half_even (coef d) (exp_min - exp d) in
        let '(c, e) := if prec <? ndigits c then (c / 10, exp_min + 1) else (c, exp_min) in
        if Etop <? e then raise DecimalOverflow "above Emax" else Ok (D (neg d) c e)
      else Ok d.

(** Signed coefficient, and the same scaled to a smaller exponent. *)
Definition scoef (d : decimal) : Z := if neg d then - coef d else coef d.
Definition scaled (d : decimal) (e : Z) : Z := scoef d * 10 ^ (exp d - e).

Definition of_signed (c e : Z) : decimal := D (c <? 0) (Z.abs c) e.

(** [Decimal(n)] of an integer: exact. *)
Definition of_Z (n : Z) : decimal := of_signed n 0.
Definition zero : decimal := of_Z 0.

Definition is_zero (d : decimal) : bool := coef d =? 0.

Definition cmp (a b : decimal) : comparison :=
  let e := Z.min (exp a) (exp b) in
  scaled a e ?= scaled b e.

Definition ltb (a b : decimal) : bool := match cmp a b with Lt => true | _ => false end.
Definition leb (a b : decimal) : bool := match cmp a b with Gt => false | _ => true end.
Definition eqb (a b : decimal) : bool := match cmp a b with Eq => true | _ => false end.

(** The exact sum, with the sign rule for zeros. *)
Definition add_exact (a b : decimal) : decimal :=
  let e := Z.min (exp a) (exp b) in
  let s := scaled a e + scaled b e in
  if s =? 0 then D (is_zero a && is_zero b && neg a && neg b) 0 e
  else of_signed s e.

Definition add (a b : decimal) : res decimal := fix_dec (add_exact a b).

Definition copy_negate (a : decimal) : decimal := D (negb (neg a)) (coef a) (exp a).
Definition copy_abs (a : decimal) : decimal := D false (coef a) (exp a).

Definition sub (a b : decimal) : res decimal := add a (copy_negate b).

(** [-a]: rounds, and never produces a negative zero. *)
Definition opp (a : decimal) : res decimal :=
  fix_dec (if is_zero a then copy_abs a else copy_negate a).

Definition abs (a : decimal) : res decimal := fix_dec (copy_abs a).

Definition mul_exact (a b : decimal) : decimal :=
  D (xorb (neg a) (neg b)) (coef a * coef b) (exp a + exp b).

Definition mul (a b : decimal) : res decimal := fix_dec (mul_exact a b).

(** Drop trailing zeros until the exponent reaches [ideal]. *)
Fixpoint strip_zeros (fuel : nat) (c e ideal : Z) : Z * Z :=
  match fuel with
  | O => (c, e)
  | S f => if (e <? ideal) && (c mod 10 =? 0) then strip_zeros f (c / 10) (e + 1) ideal
           else (c, e)
  end.

Definition div (a b : decimal) : res decimal :=
  if is_zero b then
    if is_zero a then raise DecimalInvalidOperation "0 / 0"
    else raise DecimalDivisionByZero "x / 0"
  else
    let sg := xorb (neg a) (neg b) in
    if is_zero a then fix_dec (D sg 0 (exp a - exp b))
    else
      let shift := ndigits (coef b) - ndigits (coef a) + prec + 1 in
      let e := exp a - exp b - shift in
      let n := if 0 <=? shift then coef a * 10 ^ shift else coef a in
      let m := if 0 <=? shift then coef b else coef b * 10 ^ (- shift) in
      let c := n / m in
      if n mod m =? 0 then
        let '(c, e) := strip_zeros (Z.to_nat shift) c e (exp a - exp b) in
        fix_dec (D sg c e)
      else fix_dec (D sg (if c mod 5 =? 0 then c + 1 else c) e).

Definition adjusted (d : decimal) : Z := exp d + ndigits (coef d) - 1.

(** [Decimal._rescale] for a value: pad with zeros or round half-even. *)
Definition rescale (d : decimal) (e : Z) : decimal :=
  if is_zero d then D (neg d) 0 e
  else if e <=? exp d then D (neg d) (coef d * 10 ^ (exp d - e)) e
  else D (neg d) (round_half_even (coef d) (e - exp d)) e.

(** [a % b]: the sign of [a]; a quotient of more than 28 digits is invalid. *)
Definition rem (a b : decimal) : res decimal :=
  if is_zero b then raise DecimalInvalidOperation "x % 0"
  else
    let ideal := Z.min (exp a) (exp b) in
    let expdiff := adjusted a - adjusted b in
    if is_zero a || (expdiff <=? -2) then fix_dec (rescale a ideal)
    else if expdiff <=? prec then
      let n := coef a * 10 ^ (exp a - ideal) in
      let m := coef b * 10 ^ (exp b - ideal) in
      if n / m <? 10 ^ prec then fix_dec (D (neg a) (n mod m) ideal)
      else raise DecimalInvalidOperation "quotient too large in //, % or divmod"
    else raise DecimalInvalidOperation "quotient too large in //, % or divmod".

(** Python's [min] and [max] of two values keep the first on a tie. *)
Definition min2 (a b : decimal) : decimal := if ltb b a then b else a.
Definition max2 (a b : decimal) : decimal := if ltb a b then b else a.

(** [str(d)]: scientific notation as the module prints it. *)
Fixpoint zeros (n : nat) : string :=
  match n with O => "" | S n => String "0" (zeros n) end.

Definition to_str (d : decimal) : string :=
  let int := z_str (coef d) in
  let len := str_len int in
  let leftdigits := exp d + len in
  let dotplace := if (exp d <=? 0) && (-6 <? leftdigits) then leftdigits else 1 in
  let body :=
    if dotplace <=? 0 then ("0." +:+ zeros (Z.to_nat (- dotplace)) +:+ int)%string
    else if len <=? dotplace then (int +:+ zeros (Z.to_nat (dotplace - len)))%string
    else (String.substring 0 (Z.to_nat dotplace) int +:+ "." +:+
          String.substring (Z.to_nat dotplace) (Z.to_nat (len - dotplace)) int)%string in
  let e := leftdigits - dotplace in
  let exps :=
    if e =? 0 then "" else if e <? 0 then ("E" +:+ z_str e)%string
    else ("E+" +:+ z_str e)%string in
  ((if neg d then "-" else "") +:+ body +:+ exps)%string.

(** ** Well-formed values: a non-negative coefficient. *)
Definition wf (d : decimal) : Prop := 0 <= coef d.

End Dec.
