(* ===== verification/Json.v ===== *)
(** * Json: canonical JSON text and its SHA-256 digest

    What the package uses of [json.dumps] (sorted keys, compact separators, with
    and without [ensure_ascii]), of [str.encode("utf-8")] and of
    [hashlib.sha256]: the identities of evidence rows and the digests of intents
    and snapshots are hexadecimal digests of canonical JSON.  Escaped string
    literals decode back to the string, so canonical texts of equal shape are
    equal only when their strings are. *)

From S2P Require Import Prelude.
Open Scope Z_scope.

(** ** Values *)

(** A character is the one with code [n], a digit. *)
Definition is_char (n : N) (a : ascii) : bool := (N_of_ascii a =? n)%N.
Definition is_digit (a : ascii) : bool := ((48 <=? N_of_ascii a) && (N_of_ascii a <=? 57))%N.

(** The digits of a fraction without trailing zeros, but for a single one. *)
Fixpoint trim_zeros (s : string) : string :=
  match s with
  | String a r =>
      match trim_zeros r with
      | EmptyString => if is_char 48 a then EmptyString else String a EmptyString
      | t => String a t
      end
  | EmptyString => EmptyString
  end.

Definition trim_fraction (s : string) : string :=
  match trim_zeros s with EmptyString => "0"%string | t => t end.

(** What [repr] writes of a float with at most 15 digits that needs no exponent: the
    whole part and the digits of the fraction.  Two such texts are two floats, and the
    text is the shortest that reads as its float (a double carries 15 digits). *)
Definition float_ok (negative : bool) (whole : Z) (fraction : string) : bool :=
  (0 <=? whole) && (str_len (z_str whole) + str_len fraction <=? 15) &&
  all_chars is_digit fraction && bool_decide (trim_fraction fraction = fraction) &&
  negb ((whole =? 0) && (startswith "0000" fraction || (negative && bool_decide (fraction = "0"%string)))).

(** A float of such a text.  Other floats are outside the model. *)
Record jfloat := {
  fl_negative : bool; fl_whole : Z; fl_fraction : string;
  fl_ok : Is_true (float_ok fl_negative fl_whole fl_fraction)
}.

(** [repr(x)]. *)
Definition float_str (x : jfloat) : string :=
  (if fl_negative x then "-" else "") +:+ z_str (fl_whole x) +:+ "." +:+ fl_fraction x.

Definition make_float (negative : bool) (whole : Z) (fraction : string) : option jfloat :=
  match decide (Is_true (float_ok negative whole fraction)) with
  | left ok => Some {| fl_negative := negative; fl_whole := whole; fl_fraction := fraction; fl_ok := ok |}
  | right _ => None
  end.

(** [x == y], [x == z], [int(x)]. *)
Definition float_eqb (x y : jfloat) : bool := bool_decide (float_str x = float_str y).
Definition float_trunc (x : jfloat) : Z := if fl_negative x then - fl_whole x else fl_whole x.
Definition float_is (z : Z) (x : jfloat) : bool :=
  bool_decide (fl_fraction x = "0"%string) && (float_trunc x =? z).

#[warnings="-register-all"]
Inductive json :=
  | JNull
  | JBool (b : bool)
  | JInt (z : Z)
  | JStr (s : string)
  | JArr (l : list json)
  | JObj (l : list (string * json))
  | JFloat (x : jfloat).

Definition jdict := list (string * json).

Definition jopt_str (o : option string) : json :=
  match o with Some s => JStr s | None => JNull end.

(** [d[k] = v]: replaces in place, or appends. *)
Fixpoint dict_set (k : string) (v : json) (d : jdict) : jdict :=
  match d with
  | [] => [(k, v)]
  | (k', v') :: d =>
      if bool_decide (k = k') then (k', v) :: d else (k', v') :: dict_set k v d
  end.

Fixpoint dict_get (k : string) (d : jdict) : option json :=
  match d with
  | [] => None
  | (k', v) :: d => if bool_decide (k = k') then Some v else dict_get k d
  end.

(** [d.setdefault(k, v)]. *)
Definition dict_setdefault (k : string) (v : json) (d : jdict) : jdict :=
  match dict_get k d with Some _ => d | None => d ++ [(k, v)] end.

(** ** [json.dumps(value, sort_keys=True, separators=(",", ":"))] *)

Definition hex_digit (n : N) : ascii :=
  ascii_of_N (if (n <? 10)%N then 48 + n else 87 + n)%N.

Definition quote_char : ascii := ascii_of_N 34.
Definition backslash : ascii := ascii_of_N 92.

(** The escape of one character. *)
Definition escape_char (ensure_ascii : bool) (a : ascii) : string :=
  let n := N_of_ascii a in
  let esc c := String backslash (String (ascii_of_N c) EmptyString) in
  if (n =? 34)%N then esc 34%N
  else if (n =? 92)%N then esc 92%N
  else if (n =? 10)%N then esc 110%N
  else if (n =? 13)%N then esc 114%N
  else if (n =? 9)%N then esc 116%N
  else if (n =? 12)%N then esc 102%N
  else if (n =? 8)%N then esc 98%N
  else if ((n <? 32)%N || (ensure_ascii && (126 <? n)%N))%bool then
    String backslash (String (ascii_of_N 117) (String (ascii_of_N 48)
      (String (ascii_of_N 48) (String (hex_digit (n / 16))
        (String (hex_digit (n mod 16)) EmptyString)))))
  else String a EmptyString.

Fixpoint escape (ensure_ascii : bool) (s : string) : string :=
  match s with
  | EmptyString => EmptyString
  | String a s => escape_char ensure_ascii a +:+ escape ensure_ascii s
  end.

Definition quoted (ensure_ascii : bool) (s : string) : string :=
  String quote_char (escape ensure_ascii s +:+ String quote_char EmptyString).

(** Insertion into a list sorted by key. *)
Fixpoint insert_key {A} (k : string) (v : A) (l : list (string * A)) : list (string * A) :=
  match l with
  | [] => [(k, v)]
  | (k', v') :: l' =>
      if String.ltb k k' then (k, v) :: l else (k', v') :: insert_key k v l'
  end.

Fixpoint sort_keys {A} (l : list (string * A)) : list (string * A) :=
  match l with
  | [] => []
  | (k, v) :: l => insert_key k v (sort_keys l)
  end.

Fixpoint join (sep : string) (l : list string) : string :=
  match l with
  | [] => EmptyString
  | [s] => s
  | s :: l => s +:+ sep +:+ join sep l
  end.

Fixpoint dumps (ensure_ascii : bool) (j : json) : string :=
  match j with
  | JNull => "null"
  | JBool true => "true"
  | JBool false => "false"
  | JInt z => z_str z
  | JStr s => quoted ensure_ascii s
  | JArr l => "[" +:+ join "," (List.map (dumps ensure_ascii) l) +:+ "]"
  | JObj l =>
      "{" +:+ join "," (List.map (fun p => quoted ensure_ascii p.1 +:+ ":" +:+ p.2)
        (sort_keys (List.map (fun p => (p.1, dumps ensure_ascii p.2)) l))) +:+ "}"
  | JFloat x => float_str x
  end%string.

#[global] Arguments dumps : simpl never.

(** [s.encode("utf-8")]. *)
Fixpoint utf8 (s : string) : list Z :=
  match s with
  | EmptyString => []
  | String a s =>
      let n := Z.of_N (N_of_ascii a) in
      if n <? 128 then n :: utf8 s
      else Z.lor 192 (Z.shiftr n 6) :: Z.lor 128 (Z.land n 63) :: utf8 s
  end.

(** ** SHA-256 *)

Module Sha256.

Definition mask : Z := 4294967295.
Definition add32 (a b : Z) : Z := Z.land (a + b) mask.
Definition rotr (x n : Z) : Z :=
  Z.lor (Z.shiftr x n) (Z.land (Z.shiftl x (32 - n)) mask).

Definition K : list Z :=
  [
    1116352408; 1899447441; 3049323471; 3921009573; 961987163; 1508970993;
    2453635748; 2870763221; 3624381080; 310598401; 607225278; 1426881987;
    1925078388; 2162078206; 2614888103; 3248222580; 3835390401; 4022224774;
    264347078; 604807628; 770255983; 1249150122; 1555081692; 1996064986; 2554220882;
    2821834349; 2952996808; 3210313671; 3336571891; 3584528711; 113926993;
    338241895; 666307205; 773529912; 1294757372; 1396182291; 1695183700; 1986661051;
    2177026350; 2456956037; 2730485921; 2820302411; 3259730800; 3345764771;
    3516065817; 3600352804; 4094571909; 275423344; 430227734; 506948616; 659060556;
    883997877; 958139571; 1322822218; 1537002063; 1747873779; 1955562222;
    2024104815; 2227730452; 2361852424; 2428436474; 2756734187; 3204031479;
    3329325298].

Definition H0 : list Z :=
  [
    1779033703; 3144134277; 1013904242; 2773480762; 1359893119; 2600822924;
    528734635; 1541459225].

Definition s0 (x : Z) : Z := Z.lxor (Z.lxor (rotr x 7) (rotr x 18)) (Z.shiftr x 3).
Definition s1 (x : Z) : Z := Z.lxor (Z.lxor (rotr x 17) (rotr x 19)) (Z.shiftr x 10).
Definition S0 (x : Z) : Z := Z.lxor (Z.lxor (rotr x 2) (rotr x 13)) (rotr x 22).
Definition S1 (x : Z) : Z := Z.lxor (Z.lxor (rotr x 6) (rotr x 11)) (rotr x 25).
Definition ch (x y z : Z) : Z := Z.lxor (Z.land x y) (Z.land (Z.lxor x mask) z).
Definition maj (x y z : Z) : Z :=
  Z.lxor (Z.lxor (Z.land x y) (Z.land x z)) (Z.land y z).

Fixpoint be_bytes (k : nat) (n : Z) : list Z :=
  match k with
  | O => []
  | S k => Z.land (Z.shiftr n (8 * Z.of_nat k)) 255 :: be_bytes k n
  end.

(** Padding: 0x80, zeros, and the bit length on eight bytes. *)
Definition pad (m : list Z) : list Z :=
  let len := Z.of_nat (length m) in
  m ++ 128 :: replicate (Z.to_nat ((55 - len) mod 64)) 0 ++ be_bytes 8 (8 * len).

Fixpoint words (m : list Z) : list Z :=
  match m with
  | a :: b :: c :: d :: m =>
      Z.lor (Z.shiftl a 24) (Z.lor (Z.shiftl b 16) (Z.lor (Z.shiftl c 8) d)) :: words m
  | _ => []
  end.

(** The schedule, most recent word first. *)
Fixpoint extend (n : nat) (w : list Z) : list Z :=
  match n with
  | O => w
  | S n =>
      extend n (add32 (add32 (s1 (nth 1 w 0)) (nth 6 w 0))
                      (add32 (s0 (nth 14 w 0)) (nth 15 w 0)) :: w)
  end.

Definition round (st : list Z) (kw : Z * Z) : list Z :=
  match st with
  | [a; b; c; d; e; f; g; h] =>
      let t1 := add32 (add32 h (S1 e)) (add32 (ch e f g) (add32 kw.1 kw.2)) in
      let t2 := add32 (S0 a) (maj a b c) in
      [add32 t1 t2; a; b; c; add32 d t1; e; f; g]
  | _ => st
  end.

Definition block (st : list Z) (w : list Z) : list Z :=
  let ws := rev (extend 48 (rev w)) in
  zip_with add32 st (fold_left round (zip K ws) st).

Fixpoint blocks (n : nat) (st : list Z) (ws : list Z) : list Z :=
  match n with
  | O => st
  | S n => blocks n (block st (take 16 ws)) (drop 16 ws)
  end.

Fixpoint hex (l : list Z) : string :=
  match l with
  | [] => EmptyString
  | b :: l =>
      String (hex_digit (Z.to_N (Z.shiftr b 4)))
        (String (hex_digit (Z.to_N (Z.land b 15))) (hex l))
  end.

(** [hashlib.sha256(m).hexdigest()]. *)
Definition hexdigest (m : list Z) : string :=
  let ws := words (pad m) in
  hex (concat (List.map (be_bytes 4) (blocks (length ws / 16)%nat H0 ws))).

End Sha256.

(** A FIPS 180-4 test vector. *)
Example sha256_abc :
  Sha256.hexdigest (utf8 "abc") =
  "ba7816bf8f01cfea414140de5dae2223b00361a396177a9cb410ff61f20015ad".
Proof. vm_compute. reflexivity. Qed.

(** Two different inputs with the same digest. *)
Definition sha256_collision (a b : list Z) : Prop :=
  a <> b /\ Sha256.hexdigest a = Sha256.hexdigest b.

(** ** String literals decode back *)

Definition unhex (a : ascii) : N :=
  let n := N_of_ascii a in (if n <? 58 then n - 48 else n - 87)%N.

(** Read a literal's body up to its closing quote. *)
Fixpoint read_literal (s : string) : option (string * string) :=
  match s with
  | EmptyString => None
  | String a r =>
      if bool_decide (a = quote_char) then Some (EmptyString, r)
      else
        let cons c o := '(t, r') ← o; Some (String c t, r') in
        if bool_decide (a = backslash) then
          match r with
          | String c r1 =>
              match N_of_ascii c with
              | 117%N =>
                  match r1 with
                  | String _ (String _ (String h (String l r2))) =>
                      cons (ascii_of_N (16 * unhex h + unhex l)) (read_literal r2)
                  | _ => None
                  end
              | 110%N => cons (ascii_of_N 10) (read_literal r1)
              | 114%N => cons (ascii_of_N 13) (read_literal r1)
              | 116%N => cons (ascii_of_N 9) (read_literal r1)
              | 102%N => cons (ascii_of_N 12) (read_literal r1)
              | 98%N => cons (ascii_of_N 8) (read_literal r1)
              | _ => cons c (read_literal r1)
              end
          | EmptyString => None
          end
        else cons a (read_literal r)
  end.

Lemma read_escape_char e a x :
  read_literal (escape_char e a +:+ x) =
  ('(t, r) ← read_literal x; Some (String a t, r)).
Proof. destruct e, a as [[] [] [] [] [] [] [] []]; reflexivity. Qed.

Lemma read_escape e s r :
  read_literal (escape e s +:+ String quote_char r) = Some (s, r).
Proof.
  induction s as [|a s IH]; [done|]. simpl.
  autorewrite with strdb. by rewrite read_escape_char, IH.
Qed.

(** Quoted literals are uniquely decodable. *)
Lemma quoted_inj e s1 s2 r1 r2 :
  quoted e s1 +:+ r1 = quoted e s2 +:+ r2 -> s1 = s2 /\ r1 = r2.
Proof.
  unfold quoted. autorewrite with strdb. intros [= H].
  apply (f_equal read_literal) in H. rewrite !read_escape in H. naive_solver.
Qed.

(** The first character of UTF-8 text. *)
Definition utf8_read (l : list Z) : option (ascii * list Z) :=
  match l with
  | [] => None
  | n :: r =>
      if n <? 128 then Some (ascii_of_N (Z.to_N n), r)
      else match r with
           | m :: r => Some (ascii_of_N (Z.to_N ((n - 192) * 64 + (m - 128))), r)
           | [] => None
           end
  end.

Lemma utf8_read_char a x : utf8_read (utf8 (String a x)) = Some (a, utf8 x).
Proof. destruct a as [[] [] [] [] [] [] [] []]; reflexivity. Qed.

Lemma utf8_inj a b : utf8 a = utf8 b -> a = b.
Proof.
  revert b. induction a as [|x a IH]; intros [|y b]; intros H;
    apply (f_equal utf8_read) in H; rewrite ?utf8_read_char in H; simplify_eq/=.
  - done.
  - f_equal; auto.
Qed.

(** ** The shape of a digest *)

Module Sha256Facts.
Import Sha256.

Lemma be_bytes_length k n : length (be_bytes k n) = k.
Proof. induction k; simpl; congruence. Qed.

Lemma round_length st kw : length st = 8%nat -> length (round st kw) = 8%nat.
Proof.
  intros H. do 9 (destruct st as [|? st]; try discriminate H). reflexivity.
Qed.

Lemma rounds_length l st : length st = 8%nat -> length (fold_left round l st) = 8%nat.
Proof. revert st. induction l; simpl; intros; [done|]. by apply IHl, round_length. Qed.

Lemma blocks_length n st ws : length st = 8%nat -> length (blocks n st ws) = 8%nat.
Proof.
  revert st ws. induction n; simpl; intros st ws H; [done|].
  apply IHn. unfold block. rewrite length_zip_with, rounds_length; [lia|done].
Qed.

Lemma hex_length l : String.length (hex l) = (2 * length l)%nat.
Proof. induction l as [|b l IH]; simpl; [done|]. rewrite IH. lia. Qed.

Lemma digest_length m : String.length (hexdigest m) = 64%nat.
Proof.
  unfold hexdigest. rewrite hex_length.
  generalize (blocks_length (length (words (pad m)) / 16)%nat H0 (words (pad m)) eq_refl).
  generalize (blocks (length (words (pad m)) / 16)%nat H0 (words (pad m))). intros l Hl.
  do 9 (destruct l as [|? l]; try discriminate Hl). cbn [List.map concat].
  rewrite !length_app, !be_bytes_length. reflexivity.
Qed.

Definition lower_hex (a : ascii) : bool :=
  let n := N_of_ascii a in
  ((48 <=? n) && (n <=? 57) || (97 <=? n) && (n <=? 102))%N.

Lemma hex_digit_lower n : (n < 16)%N -> lower_hex (hex_digit n) = true.
Proof.
  intros H. unfold lower_hex, hex_digit.
  destruct (N.ltb_spec n 10); rewrite N_ascii_embedding by lia;
    apply orb_true_iff; rewrite !andb_true_iff, !N.leb_le; lia.
Qed.

Lemma be_bytes_range k n b : b ∈ be_bytes k n -> 0 <= b < 256.
Proof.
  induction k; simpl; [set_solver|]. intros [->|H]%elem_of_cons; [|auto].
  change 255 with (Z.ones 8). rewrite Z.land_ones by lia. apply Z.mod_pos_bound. lia.
Qed.

Lemma hex_lower l :
  (forall b, b ∈ l -> 0 <= b < 256) -> all_chars lower_hex (hex l) = true.
Proof.
  induction l as [|b l IH]; intros Hl; [done|]. simpl.
  assert (Hb : 0 <= b < 256) by (apply Hl; set_solver).
  rewrite IH by (intros; apply Hl; set_solver).
  rewrite Z.shiftr_div_pow2 by lia. change 15 with (Z.ones 4). rewrite Z.land_ones by lia.
  change (2 ^ 4) with 16.
  pose proof (Z.mod_pos_bound b 16 ltac:(lia)).
  assert (0 <= b / 16 < 16) by (split; [apply Z.div_pos; lia | apply Z.div_lt_upper_bound; lia]).
  rewrite !hex_digit_lower by lia. done.
Qed.

Lemma digest_lower m : all_chars lower_hex (hexdigest m) = true.
Proof.
  apply hex_lower. intros b Hb. apply list_elem_of_In, in_concat in Hb. revert Hb.
  intros (x & Hx & Hb). apply in_map_iff in Hx as (n & <- & _).
  apply list_elem_of_In in Hb. by eapply be_bytes_range.
Qed.
End Sha256Facts.
