(* ===== verification/Parse.v ===== *)
(** * Parse: [json.loads] and [bytes.decode("utf-8")]

    The reader of command and event frames: the scanner of CPython's json module
    over the strings of the model.  Characters above 255, floating-point numbers that
    are written with an exponent or have more than 15 digits ([float_ok]),
    non-finite numbers, integers of more than 4300 digits (which [int] refuses)
    and nesting beyond the interpreter's stack are outside the model: reading one
    raises [Beyond], which stands for no exception of the code.  What [json.dumps]
    wrote, with any of its settings, reads back ([loads_render]), and the fuel of
    the scanner is enough for every text ([value_fuel]). *)

From S2P Require Import Prelude PyTime TimeFacts Json.
Open Scope Z_scope.

Definition UnicodeDecodeError : exn_class := OtherException "UnicodeDecodeError".
Definition JSONDecodeError : exn_class := OtherException "JSONDecodeError".
Definition Beyond : exn_class := OtherException "outside the model".

Definition beyond {A} : res A := raise Beyond "".
Definition bad {A} : res A := raise JSONDecodeError "".

(** ** UTF-8 *)

(** [raw.decode("utf-8")]. *)
Fixpoint utf8_decode (l : list Z) : res string :=
  match l with
  | [] => Ok EmptyString
  | n :: r =>
      if n <? 128 then (s <- utf8_decode r ;; Ok (String (ascii_of_N (Z.to_N n)) s))%py
      else
        match r with
        | [] => raise UnicodeDecodeError "unexpected end of data"
        | m :: r =>
            if negb ((128 <=? m) && (m <? 192)) then
              raise UnicodeDecodeError "invalid continuation byte"
            else if (194 <=? n) && (n <? 196) then
              (s <- utf8_decode r ;;
               Ok (String (ascii_of_N (Z.to_N ((n - 192) * 64 + (m - 128)))) s))%py
            else if (196 <=? n) && (n <? 245) then beyond
            else raise UnicodeDecodeError "invalid start byte"
        end
  end.

(** ** Tokens *)

Fixpoint skip_ws (s : string) : string :=
  match s with
  | String a r =>
      if is_char 32 a || is_char 9 a || is_char 10 a || is_char 13 a then skip_ws r else s
  | EmptyString => EmptyString
  end.

(** The first character, if it is the one with code [n]. *)
Definition eat (n : N) (s : string) : option string :=
  match s with String a r => if is_char n a then Some r else None | EmptyString => None end.

Definition hex_value (a : ascii) : option N :=
  let n := N_of_ascii a in
  (if (48 <=? n) && (n <=? 57) then Some (n - 48)
   else if (97 <=? n) && (n <=? 102) then Some (n - 87)
   else if (65 <=? n) && (n <=? 70) then Some (n - 55) else None)%N.

Definition simple_escape (a : ascii) : option ascii :=
  let n := N_of_ascii a in
  (if (n =? 34) || (n =? 92) || (n =? 47) then Some a
   else if n =? 98 then Some (ascii_of_N 8) else if n =? 102 then Some (ascii_of_N 12)
   else if n =? 110 then Some (ascii_of_N 10) else if n =? 114 then Some (ascii_of_N 13)
   else if n =? 116 then Some (ascii_of_N 9) else None)%N.

(** The body of a string up to its closing quote, in strict mode. *)
Fixpoint scan_string (s : string) : res (string * string) :=
  match s with
  | EmptyString => bad
  | String a r =>
      let cons c (m : res (string * string)) := (p <- m ;; Ok (String c p.1, p.2))%py in
      if is_char 34 a then Ok (EmptyString, r)
      else if is_char 92 a then
        match r with
        | EmptyString => bad
        | String c r1 =>
            if is_char 117 c then
              match r1 with
              | String h1 (String h2 (String h3 (String h4 r2))) =>
                  match hex_value h1, hex_value h2, hex_value h3, hex_value h4 with
                  | Some 0%N, Some 0%N, Some x, Some y =>
                      cons (ascii_of_N (16 * x + y)) (scan_string r2)
                  | Some _, Some _, Some _, Some _ => beyond
                  | _, _, _, _ => bad
                  end
              | _ => bad
              end
            else match simple_escape c with
                 | Some x => cons x (scan_string r1)
                 | None => bad
                 end
        end
      else if (N_of_ascii a <? 32)%N then bad
      else cons a (scan_string r)
  end.

Fixpoint span_digits (s : string) : string * string :=
  match s with
  | String a r => if is_digit a then let '(d, r') := span_digits r in (String a d, r') else ("", s)
  | EmptyString => ("", s)
  end.

Fixpoint read_digits (acc : Z) (s : string) : Z :=
  match s with
  | String a r => read_digits (10 * acc + Z.of_N (N_of_ascii a - 48)) r
  | EmptyString => acc
  end.

Definition digit_next (s : string) : bool :=
  match s with String a _ => is_digit a | EmptyString => false end.

(** An exponent follows, a fraction or an exponent. *)
Definition exponent_next (s : string) : bool :=
  match s with
  | String a r =>
      if is_char 101 a || is_char 69 a then
        match r with
        | String b r' => is_digit b || ((is_char 43 b || is_char 45 b) && digit_next r')
        | EmptyString => false
        end
      else false
  | EmptyString => false
  end.

Definition fraction (s : string) : option (string * string) :=
  match eat 46 s with
  | Some r => if digit_next r then Some (span_digits r) else None
  | None => None
  end.

(** The digits of a whole part: a zero, or digits that do not start with one. *)
Definition whole_part (s : string) : string * string :=
  match eat 48 s with Some r => ("0"%string, r) | None => span_digits s end.

(** A fraction without an exponent: [float] of the text. *)
Definition float_number (negative : bool) (whole fraction rest : string) : res (json * string) :=
  if exponent_next rest then beyond
  else match make_float negative (read_digits 0 whole) (trim_fraction fraction) with
       | Some x => Ok (JFloat x, rest)
       | None => beyond
       end.

(** An optional sign, a whole part and perhaps a fraction and an exponent. *)
Definition number (s : string) : res (json * string) :=
  let '(negative, r) := match eat 45 s with Some r => (true, r) | None => (false, s) end in
  if digit_next r then
    let '(d, rest) := whole_part r in
    match fraction rest with
    | Some (f, rest) => float_number negative d f rest
    | None =>
        if exponent_next rest || (4300 <? str_len d) then beyond
        else Ok (JInt (if negative then - read_digits 0 d else read_digits 0 d), rest)
    end
  else if startswith "Infinity" r || (negb negative && startswith "NaN" r) then beyond
  else bad.

(** A literal name, and what follows it. *)
Fixpoint after (p s : string) : option string :=
  match p, s with
  | EmptyString, _ => Some s
  | String a p, String b s => if bool_decide (a = b) then after p s else None
  | String _ _, EmptyString => None
  end.

(** [dict(pairs)]. *)
Definition of_pairs (l : jdict) : jdict := fold_left (fun d p => dict_set p.1 p.2 d) l [].

(** ** The scanner *)

Fixpoint value (fuel : nat) (s : string) : res (json * string) :=
  match fuel with
  | O => beyond
  | S n =>
      match eat 34 s, eat 123 s, eat 91 s, after "null" s, after "true" s, after "false" s with
      | Some r, _, _, _, _, _ => (p <- scan_string r ;; Ok (JStr p.1, p.2))%py
      | _, Some r, _, _, _, _ =>
          match eat 125 (skip_ws r) with
          | Some r => Ok (JObj [], r)
          | None => (p <- members n (skip_ws r) ;; Ok (JObj (of_pairs p.1), p.2))%py
          end
      | _, _, Some r, _, _, _ =>
          match eat 93 (skip_ws r) with
          | Some r => Ok (JArr [], r)
          | None => (p <- elements n (skip_ws r) ;; Ok (JArr p.1, p.2))%py
          end
      | _, _, _, Some r, _, _ => Ok (JNull, r)
      | _, _, _, _, Some r, _ => Ok (JBool true, r)
      | _, _, _, _, _, Some r => Ok (JBool false, r)
      | _, _, _, _, _, _ => number s
      end
  end
with members (fuel : nat) (s : string) : res (jdict * string) :=
  match fuel with
  | O => beyond
  | S n =>
      match eat 34 s with
      | None => bad
      | Some r =>
          (k <- scan_string r ;;
           match eat 58 (skip_ws k.2) with
           | None => bad
           | Some r =>
               v <- value n (skip_ws r) ;;
               match eat 125 (skip_ws v.2), eat 44 (skip_ws v.2) with
               | Some r, _ => Ok ([(k.1, v.1)], r)
               | None, Some r => m <- members n (skip_ws r) ;; Ok ((k.1, v.1) :: m.1, m.2)
               | None, None => bad
               end
           end)%py
      end
  end
with elements (fuel : nat) (s : string) : res (list json * string) :=
  match fuel with
  | O => beyond
  | S n =>
      (v <- value n s ;;
       match eat 93 (skip_ws v.2), eat 44 (skip_ws v.2) with
       | Some r, _ => Ok ([v.1], r)
       | None, Some r => m <- elements n (skip_ws r) ;; Ok (v.1 :: m.1, m.2)
       | None, None => bad
       end)%py
  end.

(** [json.loads(s)]. *)
Definition loads (s : string) : res json :=
  (p <- value (2 * String.length s + 2) (skip_ws s) ;;
   match skip_ws p.2 with
   | EmptyString => Ok p.1
   | String _ _ => raise JSONDecodeError "Extra data"
   end)%py.


(** ** Reading consumes text *)

Abbreviation slen := String.length.

Lemma skip_ws_le s : (slen (skip_ws s) <= slen s)%nat.
Proof. induction s as [|a s IH]; cbn; [lia|]. destruct (_ || _); cbn; lia. Qed.

Lemma eat_size n s r : eat n s = Some r -> slen s = S (slen r).
Proof. destruct s as [|a s]; cbn; [done|]. destruct (is_char n a); naive_solver. Qed.

Lemma after_size p s r : after p s = Some r -> slen s = (slen p + slen r)%nat.
Proof.
  revert s. induction p as [|a p IH]; intros s; cbn; [naive_solver|].
  destruct s as [|b s]; [done|]. case_bool_decide; [|done]. intros E%IH. cbn. lia.
Qed.

Lemma scan_string_size k : forall s p, (slen s <= k)%nat -> scan_string s = Ok p -> (slen p.2 < slen s)%nat.
Proof.
  induction k as [|k IH]; intros [|a r] p Hk; cbn; try done; cbn in Hk; [lia|].
  assert (Hcons : forall c s, (slen s <= k)%nat ->
    (p <- scan_string s ;; Ok (String c p.1, p.2))%py = Ok p -> (slen p.2 < slen s)%nat).
  { intros c s Hs (q & Hq & [= <-])%res_bind_ok. by apply IH in Hq. }
  destruct (is_char 34 a); [intros [= <-]; cbn; lia|].
  destruct (is_char 92 a); [|destruct (_ <? _)%N; [done|]; intros E%Hcons; lia].
  destruct r as [|c r]; [done|]. cbn in Hk. destruct (is_char 117 c).
  - destruct r as [|? [|? [|? [|? r]]]]; try done. cbn in Hk.
    repeat case_match; try done; intros E%Hcons; cbn; lia.
  - destruct (simple_escape c); [|done]. intros E%Hcons; cbn; lia.
Qed.

Lemma span_digits_size s d r : span_digits s = (d, r) -> slen s = (slen d + slen r)%nat.
Proof.
  revert d r. induction s as [|a s IH]; intros d r; cbn; [intros [= <- <-]; done|].
  destruct (is_digit a); [|intros [= <- <-]; done].
  destruct (span_digits s) as [d' r']. intros [= <- <-]. cbn. by rewrite (IH _ _ eq_refl).
Qed.

Lemma whole_part_size r d rest : digit_next r = true -> whole_part r = (d, rest) -> (slen rest < slen r)%nat.
Proof.
  unfold whole_part. intros Hd. destruct (eat 48 r) as [r'|] eqn:E; [apply eat_size in E; intros [= <- <-]; lia|].
  destruct r as [|a r]; [done|]. cbn in Hd |- *. rewrite Hd. destruct (span_digits r) eqn:Es.
  intros [= <- <-]. apply span_digits_size in Es. lia.
Qed.

Lemma fraction_size s f rest : fraction s = Some (f, rest) -> (slen rest <= slen s)%nat.
Proof.
  unfold fraction. destruct (eat 46 s) as [r|] eqn:E; [|done]. destruct (digit_next r); [|done].
  intros [= Es%span_digits_size]. apply eat_size in E. lia.
Qed.

Lemma number_size s p : number s = Ok p -> (slen p.2 < slen s)%nat.
Proof.
  unfold number. intros H.
  assert (Hr : exists b r, match eat 45 s with Some r => (true, r) | None => (false, s) end = (b, r) /\
    (slen r <= slen s)%nat).
  { destruct (eat 45 s) eqn:E; [apply eat_size in E|]; do 2 eexists; (split; [done|lia]). }
  destruct Hr as (b & r & Hr & Hle). rewrite Hr in H.
  destruct (digit_next r) eqn:Hd; [|by destruct (_ || _) in H].
  destruct (whole_part r) as [d rest] eqn:E. apply whole_part_size in E; [|done].
  destruct (fraction rest) as [[f rest']|] eqn:Ef.
  - apply fraction_size in Ef. unfold float_number in H. destruct (exponent_next rest'); [done|].
    destruct (make_float _ _ _); [|done]. injection H as <-. cbn. lia.
  - destruct (_ || _) in H; [done|]. injection H as <-. cbn. lia.
Qed.

(** Break a successful scan into its parts. *)
Ltac scan_step :=
  match goal with
  | H : res_bind _ _ = Ok _ |- _ => apply res_bind_ok in H as (? & ? & H)
  | H : match eat ?n ?s with _ => _ end = _ |- _ => destruct (eat n s) eqn:?
  | H : match after ?n ?s with _ => _ end = _ |- _ => destruct (after n s) eqn:?
  | H : Ok _ = Ok _ |- _ => injection H as <-
  | H : bad = Ok _ |- _ => discriminate H
  end.

(** Collect what every part consumed. *)
Ltac sizes :=
  repeat match goal with
  | H : eat _ _ = Some _ |- _ => apply eat_size in H
  | H : after _ _ = Some _ |- _ => apply after_size in H
  | H : scan_string _ = Ok _ |- _ => apply (scan_string_size _ _ _ (le_n _)) in H
  | H : number _ = Ok _ |- _ => apply number_size in H
  | H : context [slen (skip_ws ?s)] |- _ =>
      lazymatch goal with _ : (slen (skip_ws s) <= slen s)%nat |- _ => fail | _ => idtac end;
      pose proof (skip_ws_le s)
  | |- context [slen (skip_ws ?s)] =>
      lazymatch goal with _ : (slen (skip_ws s) <= slen s)%nat |- _ => fail | _ => idtac end;
      pose proof (skip_ws_le s)
  end; cbn [slen fst snd] in *; try lia.

Lemma scan_size n :
  (forall s p, value n s = Ok p -> (slen p.2 < slen s)%nat) /\
  (forall s p, members n s = Ok p -> (slen p.2 < slen s)%nat) /\
  (forall s p, elements n s = Ok p -> (slen p.2 < slen s)%nat).
Proof.
  induction n as [|n (IHv & IHm & IHe)]; [done|].
  repeat split; intros s p H; cbn [value members elements] in H; repeat scan_step;
    repeat match goal with
    | H : value n _ = Ok _ |- _ => apply IHv in H
    | H : members n _ = Ok _ |- _ => apply IHm in H
    | H : elements n _ = Ok _ |- _ => apply IHe in H
    end; sizes.
Qed.

(** ** The fuel is enough *)

Lemma res_bind_ext {A B} (m : res A) (f g : A -> res B) :
  (forall a, m = Ok a -> f a = g a) -> res_bind m f = res_bind m g.
Proof. destruct m; cbn; auto. Qed.

(** More fuel than the text has room for makes no difference. *)
Lemma scan_fuel n : forall m,
  (forall s, (2 * slen s < n)%nat -> (2 * slen s < m)%nat -> value n s = value m s) /\
  (forall s, (2 * slen s < n)%nat -> (2 * slen s < m)%nat -> members n s = members m s) /\
  (forall s, (2 * slen s + 1 < n)%nat -> (2 * slen s + 1 < m)%nat -> elements n s = elements m s).
Proof.
  induction n as [|n IH]; [intros m; split_and!; intros; lia|].
  intros [|m]; [split_and!; intros; lia|]. destruct (IH m) as (IHv & IHm & IHe).
  split_and!; intros s Hn Hm; cbn [value members elements].
  - destruct (eat 34 s); [done|]. destruct (eat 123 s) eqn:?.
    { destruct (eat 125 _); [done|]. rewrite IHm; [done|..]; sizes. }
    destruct (eat 91 s) eqn:?; [|done].
    destruct (eat 93 _); [done|]. rewrite IHe; [done|..]; sizes.
  - destruct (eat 34 s) eqn:?; [|done]. apply res_bind_ext. intros k Hk.
    destruct (eat 58 _) eqn:?; [|done]. rewrite IHv by sizes. apply res_bind_ext. intros v Hv.
    apply scan_size in Hv. destruct (eat 125 _); [done|]. destruct (eat 44 _) eqn:?; [|done].
    rewrite IHm; [done|..]; sizes.
  - rewrite IHv by lia. apply res_bind_ext. intros v Hv. apply scan_size in Hv.
    destruct (eat 93 _); [done|]. destruct (eat 44 _) eqn:?; [|done]. rewrite IHe; [done|..]; sizes.
Qed.

(** [loads] never fails for want of fuel: any larger amount gives its answer. *)
Lemma value_fuel s n :
  (2 * slen s + 2 <= n)%nat -> value n s = value (2 * slen s + 2) s.
Proof. intros Hn. by apply scan_fuel; lia. Qed.

(** ** What was written reads back *)

Lemma utf8_decode_char a x :
  utf8_decode (utf8 (String a x)) = (s <- utf8_decode (utf8 x) ;; Ok (String a s))%py.
Proof. destruct a as [[] [] [] [] [] [] [] []]; reflexivity. Qed.

Lemma utf8_decode_utf8 s : utf8_decode (utf8 s) = Ok s.
Proof. induction s as [|a s IH]; [done|]. by rewrite utf8_decode_char, IH. Qed.

Lemma scan_escape_char e a x :
  scan_string (escape_char e a +:+ x) = (p <- scan_string x ;; Ok (String a p.1, p.2))%py.
Proof. destruct e, a as [[] [] [] [] [] [] [] []]; reflexivity. Qed.

Lemma scan_escape e s r : scan_string (escape e s +:+ String quote_char r) = Ok (s, r).
Proof.
  induction s as [|a s IH]; [done|]. cbn [escape]. by rewrite str_app_assoc, scan_escape_char, IH.
Qed.

(** [json.dumps] with the keys of objects as they come. *)
Fixpoint render (e : bool) (j : json) : string :=
  match j with
  | JNull => "null"
  | JBool true => "true"
  | JBool false => "false"
  | JInt z => z_str z
  | JStr s => quoted e s
  | JArr l => "[" +:+ join "," (List.map (render e) l) +:+ "]"
  | JObj l =>
      "{" +:+ join "," (List.map (fun p => quoted e p.1 +:+ ":" +:+ render e p.2) l) +:+ "}"
  | JFloat x => float_str x
  end%string.

(** The same value with the keys of every object sorted: what [sort_keys=True]
    writes, and an equal value in Python. *)
Fixpoint sorted (j : json) : json :=
  match j with
  | JArr l => JArr (List.map sorted l)
  | JObj l => JObj (sort_keys (List.map (fun p => (p.1, sorted p.2)) l))
  | _ => j
  end.

(** Keys are unique, and integers have the digits [int] accepts. *)
Fixpoint well_keyed (j : json) : bool :=
  match j with
  | JInt z => String.length (z_str (Z.abs z)) <=? 4300
  | JArr l => forallb well_keyed l
  | JObj l => bool_decide (NoDup l.*1) && forallb (fun p => well_keyed p.2) l
  | _ => true
  end%nat.

Lemma dict_set_fresh k v d : k ∉ d.*1 -> dict_set k v d = d ++ [(k, v)].
Proof.
  induction d as [|[k' v'] d IH]; [done|]. cbn. intros Hk.
  rewrite bool_decide_false by set_solver. rewrite IH; [done | set_solver].
Qed.

Lemma of_pairs_nodup l : NoDup l.*1 -> of_pairs l = l.
Proof.
  enough (H : forall d, NoDup (d ++ l).*1 ->
    fold_left (fun d p => dict_set p.1 p.2 d) l d = d ++ l) by apply (H []).
  induction l as [|[k v] l IH]; intros d; cbn; [by rewrite app_nil_r|].
  rewrite fmap_app. cbn. intros Hd. rewrite dict_set_fresh.
  - rewrite IH; [by rewrite <-app_assoc|]. by rewrite <-app_assoc, fmap_app.
  - apply NoDup_app in Hd. set_solver.
Qed.

Lemma insert_key_map {A B} (f : A -> B) k v l :
  insert_key k (f v) (List.map (fun p => (p.1, f p.2)) l)
  = List.map (fun p => (p.1, f p.2)) (insert_key k v l).
Proof. induction l as [|[k' v'] l IH]; [done|]. cbn. destruct (String.ltb k k'); cbn; by rewrite ?IH. Qed.

Lemma sort_keys_map {A B} (f : A -> B) l :
  sort_keys (List.map (fun p => (p.1, f p.2)) l) = List.map (fun p => (p.1, f p.2)) (sort_keys l).
Proof. induction l as [|[k v] l IH]; [done|]. cbn. by rewrite IH, insert_key_map. Qed.

Lemma sort_keys_perm {A} (l : list (string * A)) : sort_keys l ≡ₚ l.
Proof.
  assert (Hi : forall k v (l : list (string * A)), insert_key k v l ≡ₚ (k, v) :: l).
  { intros k v m. induction m as [|[k' v'] m IH]; [done|]. cbn. destruct (String.ltb k k'); [done|].
    rewrite IH. apply Permutation_swap. }
  induction l as [|[k v] l IH]; [done|]. cbn. by rewrite Hi, IH.
Qed.

(** Induction over nested values. *)
Lemma json_nested (P : json -> Prop) :
  P JNull -> (forall b, P (JBool b)) -> (forall z, P (JInt z)) -> (forall s, P (JStr s)) ->
  (forall l, Forall P l -> P (JArr l)) -> (forall l, Forall (fun p => P p.2) l -> P (JObj l)) ->
  (forall x, P (JFloat x)) -> forall j, P j.
Proof.
  intros Hn Hb Hi Hs Ha Ho Hf. fix IH 1. intros [|b|z|s|l|l|x].
  - exact Hn.
  - apply Hb.
  - apply Hi.
  - apply Hs.
  - apply Ha. induction l as [|x l IHl]; constructor; [apply IH | apply IHl].
  - apply Ho. induction l as [|[k v] l IHl]; constructor; [apply IH | apply IHl].
  - apply Hf.
Qed.

(** [json.dumps] with [sort_keys] writes the sorted value. *)
Lemma dumps_render e j : dumps e j = render e (sorted j).
Proof.
  induction j as [|[]|z|s|l IH|l IH|x] using json_nested; try reflexivity.
  - change (dumps e (JArr l)) with ("[" +:+ join "," (List.map (dumps e) l) +:+ "]").
    cbn [sorted render]. by rewrite List.map_map, (List.map_ext_Forall _ _ IH).
  - change (dumps e (JObj l)) with
      ("{" +:+ join "," (List.map (fun p => quoted e p.1 +:+ ":" +:+ p.2)
        (sort_keys (List.map (fun p => (p.1, dumps e p.2)) l))) +:+ "}").
    cbn [sorted render]. do 3 f_equal.
    replace (List.map (fun p => (p.1, dumps e p.2)) l) with
      (List.map (fun p => (p.1, render e p.2)) (List.map (fun p => (p.1, sorted p.2)) l)).
    + by rewrite sort_keys_map, List.map_map.
    + rewrite List.map_map. apply List.map_ext_Forall. eapply Forall_impl; [exact IH|].
      by intros [k v] ->.
Qed.

(** Sorting keeps keys unique. *)
Lemma sorted_well_keyed j : well_keyed j = true -> well_keyed (sorted j) = true.
Proof.
  induction j as [|b|z|s|l IH|l IH|x] using json_nested; try done; cbn [sorted well_keyed].
  - rewrite !forallb_forall. intros Hall x (y & <- & Hy)%in_map_iff.
    rewrite Forall_forall in IH. apply IH; [by apply list_elem_of_In | by apply Hall].
  - intros [Hnd%bool_decide_eq_true Hall]%andb_true_iff.
    set (m := List.map (fun p => (p.1, sorted p.2)) l).
    assert (Hm : m.*1 = l.*1) by (unfold m; induction l as [|[] l IHl]; [done|]; cbn; f_equal;
      apply IHl; [by inversion IH | by inversion Hnd | by cbn in Hall; destruct (well_keyed _)]).
    apply andb_true_iff. split.
    + apply bool_decide_eq_true. by rewrite (sort_keys_perm m), Hm.
    + rewrite !forallb_forall in *. intros p Hp.
      apply list_elem_of_In in Hp. rewrite (sort_keys_perm m) in Hp.
      apply list_elem_of_In, in_map_iff in Hp as (q & <- & Hq). cbn.
      rewrite Forall_forall in IH. apply IH; [by apply list_elem_of_In | by apply Hall].
Qed.

(** ** Integers *)

Lemma z_str_unfold n : 0 <= n ->
  n < 10 /\ z_str n = digit n \/
  10 <= n /\ 0 <= n / 10 < n /\ 0 <= n mod 10 < 10 /\ z_str n = z_str (n / 10) +:+ digit (n mod 10).
Proof.
  intros Hn. destruct (decide (n < 10)) as [Hlt|Hge].
  - left. split; [done|]. assert (Hd : 0 <= n < 10) by lia. by each_digit Hd.
  - right. split; [lia|]. split; [split; [apply Z.div_pos; lia | apply Z.div_lt; lia]|].
    split; [apply Z.mod_pos_bound; lia|]. apply z_str_step. lia.
Qed.

Lemma read_digits_app a b acc : read_digits acc (a +:+ b) = read_digits (read_digits acc a) b.
Proof. revert acc. induction a as [|x a IH]; intros acc; [done|]. cbn. apply IH. Qed.

Lemma read_digits_z_str n : 0 <= n -> read_digits 0 (z_str n) = n.
Proof.
  induction n as [n IH] using (well_founded_induction (Z.lt_wf 0)). intros Hn.
  destruct (z_str_unfold n Hn) as [[Hlt ->] | (Hge & Hd & Hm & ->)].
  - assert (Hd : 0 <= n < 10) by lia. by each_digit Hd.
  - rewrite read_digits_app, IH by lia. pose proof (Z.div_mod n 10) as E.
    revert E. generalize (n / 10) as q. generalize dependent (n mod 10). intros r Hm q E.
    specialize (E ltac:(lia)). clear IH Hn Hge Hd. subst n. by each_digit Hm.
Qed.

Lemma all_chars_app p a b : all_chars p (a +:+ b) = all_chars p a && all_chars p b.
Proof. induction a as [|x a IH]; [done|]. rewrite str_app_cons. cbn [all_chars]. by rewrite IH, andb_assoc. Qed.

Lemma z_str_digits n : 0 <= n -> all_chars is_digit (z_str n) = true.
Proof.
  induction n as [n IH] using (well_founded_induction (Z.lt_wf 0)). intros Hn.
  destruct (z_str_unfold n Hn) as [[Hlt ->] | (Hge & Hd & Hm & ->)].
  - assert (Hd : 0 <= n < 10) by lia. by each_digit Hd.
  - rewrite all_chars_app, IH by lia. by each_digit Hm.
Qed.

(** No leading zero, but for zero itself. *)
Lemma z_str_head n : 0 <= n ->
  exists a t, z_str n = String a t /\ is_digit a = true /\ (is_char 48 a = true -> t = ""%string).
Proof.
  induction n as [n IH] using (well_founded_induction (Z.lt_wf 0)). intros Hn.
  destruct (z_str_unfold n Hn) as [[Hlt ->] | (Hge & Hd & Hm & ->)].
  - assert (Hd : 0 <= n < 10) by lia. each_digit Hd; by do 2 eexists.
  - destruct (IH (n / 10)) as (a & t & Hz & Ha & H0); [lia|lia|]. rewrite Hz.
    exists a, (t +:+ digit (n mod 10)). split; [done|]. split; [done|]. intros E.
    exfalso. pose proof (H0 E) as ->.
    assert (H10 : 1 <= n / 10) by (apply Z.div_le_lower_bound; lia).
    pose proof (read_digits_z_str (n / 10)) as Hr. rewrite Hz in Hr. cbn in Hr.
    unfold is_char in E. apply N.eqb_eq in E. rewrite E in Hr. specialize (Hr ltac:(lia)). cbn in Hr. lia.
Qed.

(** What may follow a number: nothing that continues it. *)
Definition stops (r : string) : Prop := digit_next r = false /\ fraction r = None /\ exponent_next r = false.

Lemma span_digits_all d r :
  all_chars is_digit d = true -> digit_next r = false -> span_digits (d +:+ r) = (d, r).
Proof.
  intros Hd Hr. induction d as [|a d IH].
  - rewrite str_app_nil. destruct r as [|a r]; [done|]. cbn in *. by rewrite Hr.
  - cbn [all_chars] in Hd. apply andb_true_iff in Hd as [Ha Hd].
    rewrite str_app_cons. cbn [span_digits]. by rewrite Ha, IH.
Qed.

(** The whole part of a text that starts with the digits of [n]. *)
Lemma whole_digits n r :
  0 <= n -> digit_next r = false -> digit_next (z_str n +:+ r) = true /\ whole_part (z_str n +:+ r) = (z_str n, r).
Proof.
  intros Hn Hd. destruct (z_str_head n Hn) as (a & t & Hz & Ha & H0).
  pose proof (z_str_digits n Hn) as Hall. rewrite Hz in *. rewrite str_app_cons. split; [done|].
  unfold whole_part, eat. destruct (is_char 48 a) eqn:E0.
  - specialize (H0 eq_refl) as ->. rewrite str_app_nil. unfold is_char in E0. apply N.eqb_eq in E0.
    by rewrite <-(ascii_N_embedding a), E0.
  - by rewrite <-str_app_cons, span_digits_all.
Qed.

Lemma z_str_neg z : z < 0 -> z_str z = "-" +:+ z_str (- z).
Proof. destruct z; [lia..|done]. Qed.

(** Digits are no sign. *)
Lemma no_sign n r : 0 <= n -> eat 45 (z_str n +:+ r) = None.
Proof.
  intros Hn. destruct (z_str_head n Hn) as (a & t & -> & Ha & _). rewrite str_app_cons. unfold eat.
  destruct (is_char 45 a) eqn:E; [|done]. unfold is_char, is_digit in *. apply N.eqb_eq in E. by rewrite E in Ha.
Qed.

Lemma number_z_str z r :
  (String.length (z_str (Z.abs z)) <= 4300)%nat -> stops r -> number (z_str z +:+ r) = Ok (JInt z, r).
Proof.
  intros Hlen (Hd & Hf & He).
  assert (Hshort : (4300 <? str_len (z_str (Z.abs z))) = false) by (apply Z.ltb_ge; unfold str_len; lia).
  unfold number. destruct (Z_lt_le_dec z 0) as [Hz|Hz].
  - rewrite z_str_neg by done. rewrite str_app_assoc.
    change (eat 45 ("-" +:+ z_str (- z) +:+ r)) with (Some (z_str (- z) +:+ r)).
    rewrite Z.abs_neq in Hshort by lia. destruct (whole_digits (- z) r) as [-> ->]; [lia | done|].
    rewrite Hf, He, Hshort, read_digits_z_str by lia. by rewrite Z.opp_involutive.
  - rewrite Z.abs_eq in Hshort by lia. rewrite no_sign by done. destruct (whole_digits z r) as [-> ->]; [lia | done|].
    rewrite Hf, He, Hshort, read_digits_z_str by lia. done.
Qed.

(** *** Floats *)

Lemma make_float_same x : make_float (fl_negative x) (fl_whole x) (fl_fraction x) = Some x.
Proof.
  destruct x as [negative whole fraction ok]. unfold make_float. cbn.
  destruct (decide _) as [ok'|]; [|done]. by rewrite (Is_true_pi _ ok ok').
Qed.

Lemma float_fields x :
  0 <= fl_whole x /\ all_chars is_digit (fl_fraction x) = true /\ trim_fraction (fl_fraction x) = fl_fraction x /\
  exists a t, fl_fraction x = String a t /\ is_digit a = true.
Proof.
  destruct x as [negative whole fraction ok]. pose proof ok as ok'. apply Is_true_true in ok'. unfold float_ok in ok'.
  cbn. repeat (apply andb_true_iff in ok' as [ok' ?]). apply Z.leb_le in ok'.
  assert (Ht : trim_fraction fraction = fraction) by (by apply bool_decide_eq_true in H0).
  split_and!; [done | done | done|]. destruct fraction as [|a t]; [done|]. exists a, t. split; [done|].
  cbn [all_chars] in *. by destruct (is_digit a).
Qed.

Lemma number_float x r : stops r -> number (float_str x +:+ r) = Ok (JFloat x, r).
Proof.
  intros (Hd & _ & He). destruct (float_fields x) as (Hw & Hall & Ht & a & t & Hf & Ha).
  assert (Hbody : forall other, (if digit_next (z_str (fl_whole x) +:+ "." +:+ fl_fraction x +:+ r) then
      let '(d, rest) := whole_part (z_str (fl_whole x) +:+ "." +:+ fl_fraction x +:+ r) in
      match fraction rest with
      | Some (f, rest) => float_number (fl_negative x) d f rest
      | None =>
          if exponent_next rest || (4300 <? str_len d) then beyond
          else Ok (JInt (if fl_negative x then - read_digits 0 d else read_digits 0 d), rest)
      end
      else other) = Ok (JFloat x, r)).
  { intros other. destruct (whole_digits (fl_whole x) ("." +:+ fl_fraction x +:+ r)) as [-> ->]; [done | done|].
    unfold fraction. change (eat 46 ("." +:+ ?y)) with (Some y). cbv iota.
    assert (Hn : digit_next (fl_fraction x +:+ r) = true) by (rewrite Hf, str_app_cons; exact Ha).
    rewrite Hn, span_digits_all by done. unfold float_number.
    by rewrite He, read_digits_z_str, Ht, make_float_same. }
  unfold float_str, number. rewrite !str_app_assoc. destruct (fl_negative x) eqn:En.
  - change (eat 45 ("-" +:+ ?y)) with (Some y). cbv iota. apply Hbody.
  - rewrite str_app_nil, no_sign by done. apply Hbody.
Qed.

(** ** Values read back *)

(** The first character of an integer's text. *)
Lemma z_str_first z : exists a t, z_str z = String a t /\ (is_digit a || is_char 45 a) = true.
Proof.
  destruct (Z_lt_le_dec z 0) as [Hz|Hz].
  - rewrite z_str_neg by done. by do 2 eexists.
  - destruct (z_str_head z Hz) as (a & t & -> & Ha & _). exists a, t. by rewrite Ha.
Qed.

Lemma digit_or_minus a : (is_digit a || is_char 45 a) = true ->
  forall t, skip_ws (String a t) = String a t /\ eat 34 (String a t) = None /\
    eat 123 (String a t) = None /\ eat 91 (String a t) = None /\ eat 93 (String a t) = None /\
    after "null" (String a t) = None /\ after "true" (String a t) = None /\
    after "false" (String a t) = None.
Proof. destruct a as [[] [] [] [] [] [] [] []]; intros H; try discriminate H; intros t; repeat split. Qed.

Lemma float_first x : exists a t, float_str x = String a t /\ (is_digit a || is_char 45 a) = true.
Proof.
  destruct (float_fields x) as (Hw & _). unfold float_str. destruct (fl_negative x); [by do 2 eexists|].
  destruct (z_str_head _ Hw) as (a & t & -> & Ha & _). exists a. eexists. split; [reflexivity|]. by rewrite Ha.
Qed.

Lemma skip_render e j r : skip_ws (render e j +:+ r) = render e j +:+ r.
Proof.
  destruct j as [|[]|z|s|l|l|x]; try reflexivity; cbn [render].
  - destruct (z_str_first z) as (a & t & -> & Ha). by apply digit_or_minus.
  - destruct (float_first x) as (a & t & -> & Ha). by apply digit_or_minus.
Qed.

Lemma eat_render e j r : eat 93 (render e j +:+ r) = None.
Proof.
  destruct j as [|[]|z|s|l|l|x]; try reflexivity; cbn [render].
  - destruct (z_str_first z) as (a & t & -> & Ha). by apply digit_or_minus.
  - destruct (float_first x) as (a & t & -> & Ha). by apply digit_or_minus.
Qed.

(** The texts of a nonempty list, between separators. *)
Lemma join_cons {A} (f : A -> string) x l r :
  join "," (List.map f (x :: l)) +:+ r
  = f x +:+ match l with [] => r | _ => "," +:+ join "," (List.map f l) +:+ r end.
Proof. destruct l; [done|]. cbn [List.map join]. by rewrite !str_app_assoc. Qed.

Lemma stops_close a r : a = 44%N \/ a = 93%N \/ a = 125%N -> stops (String (ascii_of_N a) r).
Proof. intros [-> | [-> | ->]]; done. Qed.

Definition member_text (e : bool) (p : string * json) : string :=
  quoted e p.1 +:+ ":" +:+ render e p.2.

Lemma skip_elements e x l s :
  skip_ws (join "," (List.map (render e) (x :: l)) +:+ s)
  = join "," (List.map (render e) (x :: l)) +:+ s.
Proof. rewrite join_cons. apply skip_render. Qed.

Lemma skip_members e x l s :
  skip_ws (join "," (List.map (member_text e) (x :: l)) +:+ s)
  = join "," (List.map (member_text e) (x :: l)) +:+ s.
Proof. by rewrite join_cons. Qed.

Lemma str_app_nil_r (a : string) : a +:+ "" = a.
Proof. induction a as [|x a IH]; [done|]. by rewrite str_app_cons, IH. Qed.

Section Reading.
Context (e : bool) (n : nat).

(** With fuel [n], every text of a value, of members, of elements reads back. *)
Definition reads_value : Prop := forall j r, well_keyed j = true -> stops r ->
  (2 * slen (render e j +:+ r) < n)%nat -> value n (render e j +:+ r) = Ok (j, r).

Definition reads_members : Prop := forall l r, l <> [] -> forallb (fun p => well_keyed p.2) l = true ->
  (2 * slen (join "," (List.map (member_text e) l) +:+ "}" +:+ r) < n)%nat ->
  members n (join "," (List.map (member_text e) l) +:+ "}" +:+ r) = Ok (l, r).

Definition reads_elements : Prop := forall l r, l <> [] -> forallb well_keyed l = true ->
  (2 * slen (join "," (List.map (render e) l) +:+ "]" +:+ r) + 1 < n)%nat ->
  elements n (join "," (List.map (render e) l) +:+ "]" +:+ r) = Ok (l, r).
End Reading.

Lemma array_reads e n l r :
  reads_elements e n -> well_keyed (JArr l) = true ->
  (2 * slen (render e (JArr l) +:+ r) < S n)%nat ->
  value (S n) (render e (JArr l) +:+ r) = Ok (JArr l, r).
Proof.
  intros IHe Hk Hn. cbn [value].
  cbn [render] in *. rewrite !str_app_assoc in *. cbn [well_keyed] in Hk.
  destruct l as [|x l]; [done|].
  change (List.map _ (x :: l)) with (List.map (render e) (x :: l)) in *.
  match goal with |- context [eat 34 ("[" +:+ ?X)] =>
    change (eat 34 ("[" +:+ X)) with (@None string); change (eat 123 ("[" +:+ X)) with (@None string);
    change (eat 91 ("[" +:+ X)) with (Some X) end. cbv iota.
  rewrite skip_elements. rewrite join_cons at 1. rewrite eat_render, IHe; [done|done|done|].
  change (slen ("[" +:+ ?x)) with (S (slen x)) in Hn. lia.
Qed.

Lemma object_reads e n l r :
  reads_members e n -> well_keyed (JObj l) = true ->
  (2 * slen (render e (JObj l) +:+ r) < S n)%nat ->
  value (S n) (render e (JObj l) +:+ r) = Ok (JObj l, r).
Proof.
  intros IHm Hk Hn. cbn [value].
  cbn [render] in *. rewrite !str_app_assoc in *. cbn [well_keyed] in Hk.
  apply andb_true_iff in Hk as [Hnd%bool_decide_eq_true Hk]. destruct l as [|x l]; [done|].
  change (List.map _ (x :: l)) with (List.map (member_text e) (x :: l)) in *.
  match goal with |- context [eat 34 ("{" +:+ ?X)] =>
    change (eat 34 ("{" +:+ X)) with (@None string); change (eat 123 ("{" +:+ X)) with (Some X)
  end. cbv iota.
  rewrite skip_members. rewrite join_cons at 1. unfold member_text at 1, quoted at 1.
  change (eat 125 (String quote_char ?x +:+ ?y)) with (@None string).
  rewrite !str_app_assoc, str_app_cons. change (eat 125 (String quote_char ?x)) with (@None string).
  cbv iota. rewrite IHm; [|done|done|].
  - cbn [res_bind fst snd]. by rewrite of_pairs_nodup.
  - change (slen ("{" +:+ ?x)) with (S (slen x)) in Hn. lia.
Qed.

(** A text that starts like a number is read as one. *)
Lemma value_number n s r :
  (exists a t, s = String a t /\ (is_digit a || is_char 45 a) = true) -> value (S n) (s +:+ r) = number (s +:+ r).
Proof.
  intros (a & t & -> & Ha). destruct (digit_or_minus a Ha (t +:+ r)) as (_ & H1 & H2 & H3 & _ & H4 & H5 & H6).
  rewrite str_app_cons. cbn [value]. by rewrite H1, H2, H3, H4, H5, H6.
Qed.

Lemma value_reads e n : reads_members e n -> reads_elements e n -> reads_value e (S n).
Proof.
  intros IHm IHe [|[]|z|s|l|l|x] r Hk Hr Hn; try reflexivity;
    [| |by apply array_reads|by apply object_reads|]; cbn [render].
  - rewrite value_number, number_z_str; [done | | done | apply z_str_first]. cbn in Hk. by apply Nat.leb_le.
  - unfold quoted. rewrite str_app_cons, str_app_assoc. cbn [value].
    change (eat 34 (String quote_char ?x)) with (Some x). cbv iota.
    by rewrite str_app_cons, str_app_nil, scan_escape.
  - rewrite value_number by apply float_first. by apply number_float.
Qed.

Lemma members_read e n : reads_value e n -> reads_members e n -> reads_members e (S n).
Proof.
  intros IHv IHm [|x l] r Hl Hk Hn; [done|]. apply andb_true_iff in Hk as [Hx Hk].
  rewrite join_cons in *. set (rest := match l with [] => _ | _ => _ end) in *.
  assert (Hstop : stops rest) by (by destruct l; apply (stops_close 125) || apply (stops_close 44); auto).
  unfold member_text, quoted in Hn |- *. rewrite !str_app_assoc, str_app_cons, !str_app_assoc in *.
  cbn [members]. change (eat 34 (String quote_char ?y)) with (Some y). cbv iota.
  rewrite str_app_cons, str_app_nil, scan_escape in *. cbn [res_bind fst snd].
  change (eat 58 (skip_ws (":" +:+ ?y))) with (Some y). cbv iota.
  rewrite skip_render, IHv; [|done|done|].
  2: { cbn [slen] in Hn. rewrite str_length_app in Hn. cbn [slen] in Hn.
       change (slen (":" +:+ ?y)) with (S (slen y)) in Hn. lia. }
  cbn [res_bind fst snd]. subst rest. destruct x as [k v], l as [|y l]; [done|].
  change (skip_ws ("," +:+ ?y)) with ("," +:+ y). change (eat 125 ("," +:+ ?y)) with (@None string).
  change (eat 44 ("," +:+ ?y)) with (Some y). cbv iota.
  rewrite skip_members, IHm; [done|done|done|].
  cbn [slen] in Hn. rewrite !str_length_app in Hn. cbn [slen] in Hn.
  change (slen (":" +:+ ?y)) with (S (slen y)) in Hn.
  rewrite str_length_app in Hn. change (slen ("," +:+ ?y)) with (S (slen y)) in Hn.
  rewrite !str_length_app in *. lia.
Qed.

Lemma elements_read e n : reads_value e n -> reads_elements e n -> reads_elements e (S n).
Proof.
  intros IHv IHe [|x l] r Hl Hk Hn; [done|]. apply andb_true_iff in Hk as [Hx Hk].
  rewrite join_cons in *. set (rest := match l with [] => _ | _ => _ end) in *.
  assert (Hstop : stops rest) by (by destruct l; apply (stops_close 93) || apply (stops_close 44); auto).
  cbn [elements]. rewrite IHv; [|done|done|lia].
  cbn [res_bind fst snd]. subst rest. destruct l as [|y l]; [done|].
  change (skip_ws ("," +:+ ?y)) with ("," +:+ y). change (eat 93 ("," +:+ ?y)) with (@None string).
  change (eat 44 ("," +:+ ?y)) with (Some y). cbv iota.
  rewrite skip_elements, IHe; [done|done|done|].
  rewrite str_length_app in Hn. change (slen ("," +:+ ?y)) with (S (slen y)) in Hn.
  rewrite !str_length_app in *. lia.
Qed.

Lemma scan_render e n : reads_value e n /\ reads_members e n /\ reads_elements e n.
Proof.
  induction n as [|n (IHv & IHm & IHe)];
    [split_and!; [intros j r _ _ ?|intros l r _ _ ?..]; lia|].
  auto using value_reads, members_read, elements_read.
Qed.

(** What [json.dumps] wrote, [json.loads] reads back. *)
Lemma loads_render e j : well_keyed j = true -> loads (render e j) = Ok j.
Proof.
  intros Hk. unfold loads. rewrite <-(str_app_nil_r (render e j)).
  rewrite skip_render. destruct (scan_render e (2 * slen (render e j +:+ "") + 2)) as [-> _];
    [done | done | by split | lia].
Qed.

Lemma loads_dumps e j : well_keyed j = true -> loads (dumps e j) = Ok (sorted j).
Proof. intros Hk. rewrite dumps_render. by apply loads_render, sorted_well_keyed. Qed.

(** ... also with white space after it. *)
Lemma loads_line e j w :
  well_keyed j = true -> skip_ws w = EmptyString -> loads (render e j +:+ w) = Ok j.
Proof.
  intros Hk Hw. unfold loads. rewrite skip_render.
  assert (Hs : stops w).
  { destruct w as [|a w]; [done|].
    destruct a as [[] [] [] [] [] [] [] []]; try discriminate Hw; by split. }
  destruct (scan_render e (2 * slen (render e j +:+ w) + 2)) as [-> _]; [|done|done|lia].
  cbn [res_bind fst snd]. by rewrite Hw.
Qed.

Example loads_floats :
  (res_bind (loads "[300.0, -0.50, 1e5]") (fun _ => Ok tt)) = beyond /\
  (res_bind (loads "[300.00, -0.50]") (fun j => Ok (dumps true j))) = Ok "[300.0,-0.5]"%string.
Proof. split; vm_compute; reflexivity. Qed.

Example loads_spaced : loads " [1, -20 , [ ] , null]  " = Ok (JArr [JInt 1; JInt (-20); JArr []; JNull]).
Proof. vm_compute. reflexivity. Qed.

(** ** Canonical text is one line *)

Definition newline (a : ascii) : bool := is_char 10 a.
Definition one_line (s : string) : bool := all_chars (fun a => negb (newline a)) s.

Lemma one_line_app a b : one_line (a +:+ b) = one_line a && one_line b.
Proof. apply all_chars_app. Qed.

Lemma escape_one_line e s : one_line (escape e s) = true.
Proof.
  induction s as [|a s IH]; [done|]. cbn [escape]. rewrite one_line_app, IH, andb_true_r.
  by destruct e, a as [[] [] [] [] [] [] [] []].
Qed.

Lemma quoted_one_line e s : one_line (quoted e s) = true.
Proof.
  unfold quoted. change (String quote_char ?x) with (String quote_char "" +:+ x).
  by rewrite !one_line_app, escape_one_line.
Qed.

Lemma digits_one_line s : all_chars is_digit s = true -> one_line s = true.
Proof.
  intros Hs. unfold one_line. induction s as [|a s IH]; [done|]. cbn in *.
  apply andb_true_iff in Hs as [Ha Hs]. rewrite IH by done.
  destruct a as [[] [] [] [] [] [] [] []]; try discriminate Ha; done.
Qed.

Lemma z_str_one_line z : one_line (z_str z) = true.
Proof.
  destruct (Z_lt_le_dec z 0) as [Hz|Hz].
  - rewrite z_str_neg, one_line_app by done. apply digits_one_line, z_str_digits. lia.
  - by apply digits_one_line, z_str_digits.
Qed.

Lemma float_one_line x : one_line (float_str x) = true.
Proof.
  destruct (float_fields x) as (_ & Hf & _). unfold float_str.
  rewrite !one_line_app, z_str_one_line, (digits_one_line _ Hf). by destruct (fl_negative x).
Qed.

Lemma join_one_line l : Forall (fun s => one_line s = true) l -> one_line (join "," l) = true.
Proof.
  induction 1 as [|s l Hs Hl IH]; [done|]. cbn [join]. destruct l; [done|].
  by rewrite !one_line_app, Hs, IH.
Qed.

Lemma render_one_line e j : one_line (render e j) = true.
Proof.
  induction j as [|[]|z|s|l IH|l IH|x] using json_nested; try done; cbn [render].
  - apply z_str_one_line.
  - apply quoted_one_line.
  - rewrite !one_line_app, join_one_line; [done|]. by apply Forall_map.
  - rewrite !one_line_app, join_one_line; [done|]. apply Forall_map. eapply Forall_impl; [exact IH|].
    intros p Hp. cbn. by rewrite !one_line_app, quoted_one_line, Hp.
  - apply float_one_line.
Qed.

Lemma utf8_app a b : utf8 (a +:+ b) = utf8 a ++ utf8 b.
Proof.
  induction a as [|x a IH]; [done|]. rewrite str_app_cons. cbn [utf8]. rewrite IH.
  by destruct (_ <? _).
Qed.

(** No byte of one line's text is a newline. *)
Lemma utf8_char_newline a : existsb (Z.eqb 10) (utf8 (String a "")) = newline a.
Proof. by destruct a as [[] [] [] [] [] [] [] []]. Qed.

Lemma utf8_one_line s : one_line s = true -> existsb (Z.eqb 10) (utf8 s) = false.
Proof.
  induction s as [|a s IH]; [done|]. unfold one_line. cbn [all_chars].
  intros [Ha Hs]%andb_true_iff. rewrite <-(str_app_nil s), <-str_app_cons, utf8_app, existsb_app.
  rewrite utf8_char_newline, IH by done. by apply negb_true_iff in Ha as ->.
Qed.

(** ** What was read is well-keyed *)

Lemma z_str_length k n : 0 <= n < 10 ^ Z.of_nat (S k) -> (String.length (z_str n) <= S k)%nat.
Proof.
  revert n. induction k as [|k IH]; intros n Hn;
    destruct (z_str_unfold n (proj1 Hn)) as [[Hlt ->] | (Hge & Hd & Hm & ->)];
    try (assert (Hb : 0 <= n < 10) by lia; each_digit Hb; cbn; lia).
  rewrite str_length_app. specialize (IH (n / 10)).
  assert (Hq : n / 10 < 10 ^ Z.of_nat (S k)).
  { apply Z.div_lt_upper_bound; [lia|]. rewrite Nat2Z.inj_succ, Z.pow_succ_r in Hn by lia. lia. }
  specialize (IH ltac:(lia)). each_digit Hm; cbn [digit String.length]; cbn; lia.
Qed.

Lemma read_digits_bound d acc :
  all_chars is_digit d = true -> 0 <= acc ->
  0 <= read_digits acc d < (acc + 1) * 10 ^ Z.of_nat (String.length d).
Proof.
  revert acc. induction d as [|a d IH]; intros acc Hd Hacc; [cbn; lia|].
  cbn [all_chars] in Hd. apply andb_true_iff in Hd as [Ha Hd].
  cbn [read_digits String.length]. apply andb_true_iff in Ha as [H1%N.leb_le H2%N.leb_le].
  assert (Hx : 0 <= Z.of_N (N_of_ascii a - 48) <= 9) by lia.
  specialize (IH (10 * acc + Z.of_N (N_of_ascii a - 48)) Hd ltac:(lia)).
  rewrite Nat2Z.inj_succ, Z.pow_succ_r by lia.
  assert (0 < 10 ^ Z.of_nat (String.length d)) by (apply Z.pow_pos_nonneg; lia). nia.
Qed.

Lemma span_digits_ok s d r :
  span_digits s = (d, r) -> all_chars is_digit d = true /\ (digit_next s = true -> d <> ""%string).
Proof.
  revert d r. induction s as [|a s IH]; intros d r; cbn; [by intros [= <- <-]|].
  destruct (is_digit a) eqn:Ha; [|by intros [= <- <-]].
  destruct (span_digits s) as [d' r'] eqn:E. intros [= <- <-]. cbn. rewrite Ha.
  split; [|done]. by eapply IH.
Qed.

Lemma number_short s p : number s = Ok p -> well_keyed p.1 = true.
Proof.
  unfold number. set (sign := match eat 45 s with Some r => (true, r) | None => (false, s) end).
  destruct sign as [b t]. destruct (digit_next t) eqn:Hd; [|by destruct (_ || _)].
  destruct (whole_part t) as [d rest] eqn:E. destruct (fraction rest) as [[f rest']|].
  { unfold float_number. destruct (exponent_next rest'); [done|]. destruct (make_float _ _ _); [|done].
    by intros [= <-]. }
  destruct (exponent_next rest || (4300 <? str_len d)) eqn:Hl; [done|]. intros [= <-].
  apply orb_false_iff in Hl as [_ Hl]. apply Z.ltb_ge in Hl. unfold str_len in Hl.
  assert (Hdig : all_chars is_digit d = true /\ d <> ""%string).
  { unfold whole_part in E. destruct (eat 48 t); [by injection E as <- _|]. apply span_digits_ok in E as [H1 H2]. auto. }
  destruct Hdig as [Hall Hne]. pose proof (read_digits_bound d 0 Hall ltac:(lia)) as Hb.
  cbn [fst well_keyed]. apply Nat.leb_le. replace (Z.abs _) with (read_digits 0 d) by (destruct b; lia).
  destruct d as [|a d]; [done|]. etransitivity; [apply (z_str_length (String.length d)); cbn [String.length] in Hb; lia|].
  cbn [String.length] in Hl. lia.
Qed.

Lemma dict_set_keys k v d : NoDup d.*1 -> NoDup (dict_set k v d).*1 /\ (dict_set k v d).*1 ⊆ k :: d.*1.
Proof.
  induction d as [|[k' v'] d IH]; cbn; [split; [apply NoDup_singleton | done]|].
  intros [Hn Hd]%NoDup_cons. case_bool_decide as E; cbn; [split; [by constructor|set_solver]|].
  destruct (IH Hd) as [IH1 IH2]. split; [|set_solver]. constructor; [set_solver | done].
Qed.

Lemma dict_set_all (P : json -> Prop) k v d :
  P v -> Forall (fun p => P p.2) d -> Forall (fun p => P p.2) (dict_set k v d).
Proof.
  intros Hv. induction 1 as [|[k' v'] d Hp Hd IH]; cbn; [by repeat constructor|].
  case_bool_decide; by constructor.
Qed.

Lemma of_pairs_ok l :
  forallb (fun p => well_keyed p.2) l = true -> well_keyed (JObj (of_pairs l)) = true.
Proof.
  unfold of_pairs. enough (H : forall d, forallb (fun p => well_keyed p.2) l = true ->
    well_keyed (JObj d) = true -> well_keyed (JObj (fold_left (fun d p => dict_set p.1 p.2 d) l d)) = true)
    by (intros Hl; by apply H).
  induction l as [|[k v] l IH]; intros d; [done|]. cbn [forallb fold_left fst snd].
  intros [Hv Hl]%andb_true_iff Hd. apply IH; [done|]. cbn [well_keyed] in *.
  apply andb_true_iff in Hd as [Hn%bool_decide_eq_true Hd]. apply andb_true_iff. split.
  - by apply bool_decide_eq_true, dict_set_keys.
  - rewrite forallb_forall in *. apply List.Forall_forall.
    apply (dict_set_all (fun j => well_keyed j = true)); [done|]. by apply List.Forall_forall.
Qed.

Lemma scan_well_keyed n :
  (forall s p, value n s = Ok p -> well_keyed p.1 = true) /\
  (forall s p, members n s = Ok p -> forallb (fun p => well_keyed p.2) p.1 = true) /\
  (forall s p, elements n s = Ok p -> forallb well_keyed p.1 = true).
Proof.
  induction n as [|n (IHv & IHm & IHe)]; [done|].
  split_and!; intros s p H; cbn [value members elements] in H; repeat scan_step; cbn [fst snd forallb];
    first [ reflexivity | eapply IHe; eassumption | eapply IHv; eassumption
          | eapply of_pairs_ok, IHm; eassumption | by eapply number_short
          | apply andb_true_iff; split;
              [eapply IHv; eassumption | first [reflexivity | eapply IHm; eassumption | eapply IHe; eassumption]]].
Qed.

Lemma loads_well_keyed s j : loads s = Ok j -> well_keyed j = true.
Proof.
  unfold loads. intros ([] & Hv & H)%res_bind_ok. apply scan_well_keyed in Hv.
  cbn in *. destruct (skip_ws _) in H; by simplify_eq.
Qed.

(** ** How reading fails *)

Definition decode_errors {A} (m : res A) : Prop :=
  forall x, m = Err x -> exn_cls x ∈ [JSONDecodeError; UnicodeDecodeError; Beyond].

Lemma decode_errors_ok {A} (a : A) : decode_errors (Ok a).
Proof. by intros x. Qed.
Lemma decode_errors_bad {A} : decode_errors (@bad A).
Proof. intros x [= <-]. set_solver. Qed.
Lemma decode_errors_beyond {A} : decode_errors (@beyond A).
Proof. intros x [= <-]. set_solver. Qed.
Lemma decode_errors_json {A} msg : decode_errors (A := A) (raise JSONDecodeError msg).
Proof. intros x [= <-]. set_solver. Qed.
Lemma decode_errors_unicode {A} msg : decode_errors (A := A) (raise UnicodeDecodeError msg).
Proof. intros x [= <-]. set_solver. Qed.
Lemma decode_errors_bind {A B} (m : res A) (f : A -> res B) :
  decode_errors m -> (forall a, decode_errors (f a)) -> decode_errors (res_bind m f).
Proof. intros Hm Hf x [H | (a & _ & H)]%res_bind_err; [by apply Hm | by apply (Hf a)]. Qed.

Create HintDb decode.
#[export] Hint Resolve decode_errors_ok decode_errors_bad decode_errors_beyond decode_errors_json
  decode_errors_unicode : decode.

Ltac decode_errors_tac :=
  repeat match goal with
  | |- decode_errors (res_bind _ _) => apply decode_errors_bind; [|intros ?]
  | |- decode_errors (if ?b then _ else _) => destruct b
  | |- decode_errors (match ?x with _ => _ end) => destruct x
  | |- _ => solve [auto with decode]
  end.

Lemma utf8_decode_errors l : decode_errors (utf8_decode l).
Proof.
  enough (H : forall k l, (length l <= k)%nat -> decode_errors (utf8_decode l)) by by apply (H (length l)).
  clear l. induction k as [|k IH]; intros [|n l] Hk; cbn in Hk; try lia; cbn [utf8_decode];
    [auto with decode..|].
  destruct (_ <? _); [apply decode_errors_bind; [apply IH; lia | auto with decode]|].
  destruct l as [|m l]; [auto with decode|]. cbn in Hk.
  decode_errors_tac. apply IH. lia.
Qed.

Lemma scan_string_errors s : decode_errors (scan_string s).
Proof.
  enough (H : forall k s, (slen s <= k)%nat -> decode_errors (scan_string s)) by by apply (H (slen s)).
  clear s. induction k as [|k IH]; intros [|a r] Hk; cbn in Hk; try lia; cbn [scan_string];
    [auto with decode..|].
  assert (Hc : forall c s, (slen s <= k)%nat ->
    decode_errors (p <- scan_string s ;; Ok (String c p.1, p.2))%py).
  { intros c s Hs. apply decode_errors_bind; [by apply IH | auto with decode]. }
  destruct (is_char 34 a); [auto with decode|]. destruct (is_char 92 a).
  - destruct r as [|c r]; [auto with decode|]. cbn in Hk. destruct (is_char 117 c).
    + destruct r as [|? [|? [|? [|? r]]]]; auto with decode. cbn in Hk.
      repeat case_match; auto with decode; apply Hc; lia.
    + destruct (simple_escape c); [apply Hc; lia | auto with decode].
  - destruct (_ <? _)%N; [auto with decode | apply Hc; lia].
Qed.

Lemma number_errors s : decode_errors (number s).
Proof.
  unfold number. destruct (match eat 45 s with Some _ => _ | None => _ end).
  destruct (digit_next _); [|decode_errors_tac].
  unfold float_number. destruct (whole_part _). decode_errors_tac.
Qed.

#[export] Hint Resolve utf8_decode_errors scan_string_errors number_errors : decode.

Lemma scan_errors n :
  (forall s, decode_errors (value n s)) /\ (forall s, decode_errors (members n s)) /\
  (forall s, decode_errors (elements n s)).
Proof.
  induction n as [|n (IHv & IHm & IHe)]; [split_and!; intros s; apply decode_errors_beyond|].
  split_and!; intros s; cbn [value members elements]; decode_errors_tac.
Qed.

Lemma loads_errors s : decode_errors (loads s).
Proof. unfold loads. apply decode_errors_bind; [apply scan_errors|]. intros p. decode_errors_tac. Qed.
