(* ===== verification/Domain.v ===== *)
(** * Domain: order statuses, the order state machine, the domain records

    The package [bigqmt_autotrader.domain]: [states.py] and [codes.py] are the
    enumerations, [state_machine.py] is [transition], [models.py] the validated
    records ([OrderIntent], [Order], [Trade], [RiskDecision]) and
    [idempotency.py] the in-memory registry of client order ids. *)

From S2P Require Import Prelude Decimal.
Open Scope Z_scope.
Open Scope py_scope.

(** ** states.py and codes.py *)

Inductive Side := BUY | SELL.
Inductive OrderType := LIMIT.

Inductive OrderStatus :=
  | CREATED | RISK_REJECTED | RISK_ACCEPTED | ABORTED | SUBMITTING
  | ACKNOWLEDGED | PARTIALLY_FILLED | FILLED | CANCEL_PENDING | CANCELLED
  | REJECTED | UNKNOWN | RECONCILING | MANUAL_REVIEW.

Inductive RiskReasonCode :=
  | RISK_OK | MODE_NOT_ARMED | DATA_STALE | UNKNOWN_ORDER
  | DUPLICATE_CLIENT_ORDER_ID | ACCOUNT_MISMATCH | INTENT_EXPIRED
  | INVALID_ORDER | LIMIT_EXCEEDED | STRATEGY_NOT_ALLOWED | MARKET_CLOSED
  | DATABASE_UNHEALTHY | LEADER_NOT_HELD.

#[global] Instance Side_eq_dec : EqDecision Side.
Proof. solve_decision. Defined.
#[global] Instance OrderType_eq_dec : EqDecision OrderType.
Proof. solve_decision. Defined.
#[global] Instance OrderStatus_eq_dec : EqDecision OrderStatus.
Proof. solve_decision. Defined.
#[global] Instance RiskReasonCode_eq_dec : EqDecision RiskReasonCode.
Proof. solve_decision. Defined.

Definition side_str (s : Side) : string :=
  match s with BUY => "BUY" | SELL => "SELL" end.

Definition order_type_str (t : OrderType) : string := "LIMIT".

Definition status_str (s : OrderStatus) : string :=
  match s with
  | CREATED => "CREATED" | RISK_REJECTED => "RISK_REJECTED"
  | RISK_ACCEPTED => "RISK_ACCEPTED" | ABORTED => "ABORTED"
  | SUBMITTING => "SUBMITTING" | ACKNOWLEDGED => "ACKNOWLEDGED"
  | PARTIALLY_FILLED => "PARTIALLY_FILLED" | FILLED => "FILLED"
  | CANCEL_PENDING => "CANCEL_PENDING" | CANCELLED => "CANCELLED"
  | REJECTED => "REJECTED" | UNKNOWN => "UNKNOWN"
  | RECONCILING => "RECONCILING" | MANUAL_REVIEW => "MANUAL_REVIEW"
  end.

Definition reason_str (c : RiskReasonCode) : string :=
  match c with
  | RISK_OK => "RISK_OK" | MODE_NOT_ARMED => "RISK_MODE_NOT_ARMED"
  | DATA_STALE => "RISK_DATA_STALE" | UNKNOWN_ORDER => "RISK_UNKNOWN_ORDER"
  | DUPLICATE_CLIENT_ORDER_ID => "RISK_DUPLICATE_CLIENT_ORDER_ID"
  | ACCOUNT_MISMATCH => "RISK_ACCOUNT_MISMATCH"
  | INTENT_EXPIRED => "RISK_INTENT_EXPIRED"
  | INVALID_ORDER => "RISK_INVALID_ORDER"
  | LIMIT_EXCEEDED => "RISK_LIMIT_EXCEEDED"
  | STRATEGY_NOT_ALLOWED => "RISK_STRATEGY_NOT_ALLOWED"
  | MARKET_CLOSED => "RISK_MARKET_CLOSED"
  | DATABASE_UNHEALTHY => "RISK_DATABASE_UNHEALTHY"
  | LEADER_NOT_HELD => "RISK_LEADER_NOT_HELD"
  end.

Definition TERMINAL_STATUSES : list OrderStatus :=
  [RISK_REJECTED; ABORTED; FILLED; CANCELLED; REJECTED; MANUAL_REVIEW].

Definition AMBIGUOUS_STATUSES : list OrderStatus :=
  [SUBMITTING; UNKNOWN; RECONCILING; MANUAL_REVIEW].

(** [x in {...}]. *)
Definition status_in (s : OrderStatus) (l : list OrderStatus) : bool :=
  existsb (fun t => bool_decide (s = t)) l.
#[global] Arguments status_in : simpl never.

(** Evaluate the tests on statuses that are closed. *)
Ltac red_bool t :=
  let v := eval vm_compute in t in
  match v with
  | true => change t with true in *
  | false => change t with false in *
  end.
Ltac red_status :=
  repeat match goal with
  | |- context [status_in ?s ?l] => red_bool (status_in s l)
  | H : context [status_in ?s ?l] |- _ => red_bool (status_in s l)
  | |- context [@bool_decide (@eq OrderStatus ?s ?l) ?d] =>
      red_bool (@bool_decide (@eq OrderStatus s l) d)
  | H : context [@bool_decide (@eq OrderStatus ?s ?l) ?d] |- _ =>
      red_bool (@bool_decide (@eq OrderStatus s l) d)
  end; cbn [andb orb negb] in *.

(** ** state_machine.py *)

Inductive TransitionDisposition := APPLIED | DUPLICATE_IGNORED | STALE_IGNORED.

#[global] Instance TransitionDisposition_eq_dec : EqDecision TransitionDisposition.
Proof. solve_decision. Defined.

Definition disposition_str (d : TransitionDisposition) : string :=
  match d with
  | APPLIED => "APPLIED" | DUPLICATE_IGNORED => "DUPLICATE_IGNORED"
  | STALE_IGNORED => "STALE_IGNORED"
  end.

Record TransitionOutcome := {
  to_previous : OrderStatus;
  to_current : OrderStatus;
  to_requested : OrderStatus;
  to_changed : bool;
  to_disposition : TransitionDisposition
}.

#[global] Instance TransitionOutcome_eq_dec : EqDecision TransitionOutcome.
Proof. solve_decision. Defined.

(** [_ALLOWED.get(current, set())]. *)
Definition allowed (current : OrderStatus) : list OrderStatus :=
  match current with
  | CREATED => [RISK_REJECTED; RISK_ACCEPTED; ABORTED]
  | RISK_ACCEPTED => [SUBMITTING; ABORTED]
  | SUBMITTING => [ACKNOWLEDGED; REJECTED; UNKNOWN]
  | ACKNOWLEDGED => [PARTIALLY_FILLED; FILLED; CANCEL_PENDING]
  | PARTIALLY_FILLED => [FILLED; CANCEL_PENDING; CANCELLED]
  | CANCEL_PENDING => [CANCELLED; PARTIALLY_FILLED; FILLED; UNKNOWN]
  | UNKNOWN => [RECONCILING]
  | RECONCILING =>
      [ACKNOWLEDGED; PARTIALLY_FILLED; FILLED; REJECTED; CANCELLED; MANUAL_REVIEW]
  | _ => []
  end.

(** [_STALE.get(current, set())]. *)
Definition stale (current : OrderStatus) : list OrderStatus :=
  match current with
  | RISK_ACCEPTED => [CREATED]
  | SUBMITTING => [CREATED; RISK_ACCEPTED]
  | ACKNOWLEDGED => [CREATED; RISK_ACCEPTED; SUBMITTING]
  | PARTIALLY_FILLED => [CREATED; RISK_ACCEPTED; SUBMITTING; ACKNOWLEDGED]
  | CANCEL_PENDING => [CREATED; RISK_ACCEPTED; SUBMITTING; ACKNOWLEDGED]
  | _ => []
  end.

Definition outcome_of (current next requested : OrderStatus)
    (d : TransitionDisposition) (changed : bool) : TransitionOutcome :=
  {| to_previous := current; to_current := next; to_requested := requested;
     to_changed := changed; to_disposition := d |}.

Definition transition (current requested : OrderStatus) : res TransitionOutcome :=
  if bool_decide (current = requested) then
    Ok (outcome_of current current requested DUPLICATE_IGNORED false)
  else if status_in current TERMINAL_STATUSES then
    Ok (outcome_of current current requested STALE_IGNORED false)
  else if status_in requested (allowed current) then
    Ok (outcome_of current requested requested APPLIED true)
  else if status_in requested (stale current) then
    Ok (outcome_of current current requested STALE_IGNORED false)
  else raise InvalidTransition
         ("illegal order transition: " +:+ status_str current +:+ " -> "
            +:+ status_str requested).

(** ** models.py

    The constructors are handed Python objects; [pyval] is what their
    validators tell apart.  A constructor returns the typed record or the
    exception its [__post_init__] raises, the checks in the code's order. *)

Inductive pyval :=
  | VNone
  | VBool (b : bool)
  | VInt (z : Z)
  | VStr (s : string)
  | VDec (d : Dec.pydec)
  | VTime (t : datetime)
  | VReason (c : RiskReasonCode)
  | VObj (cls : string).

Definition require_nonempty (name : string) (value : pyval) : res string :=
  match value with
  | VStr s =>
      if strip_nonempty s then Ok s
      else raise ValueError (name +:+ " must be a non-empty string")
  | _ => raise ValueError (name +:+ " must be a non-empty string")
  end.

Definition require_positive_int (name : string) (value : pyval) : res Z :=
  match value with
  | VInt z =>
      if 0 <? z then Ok z
      else raise ValueError (name +:+ " must be a positive integer")
  | _ => raise ValueError (name +:+ " must be a positive integer")
  end.

Definition require_decimal (name : string) (value : pyval) : res Dec.decimal :=
  match value with
  | VDec (Dec.Fin d) =>
      if Dec.ltb Dec.zero d then Ok d
      else raise ValueError (name +:+ " must be finite and > 0")
  | VDec _ => raise ValueError (name +:+ " must be finite and > 0")
  | _ => raise TypeError (name +:+ " must be decimal.Decimal; binary float is forbidden")
  end.

(** A value that is not a [datetime] has no [tzinfo]. *)
Definition require_aware (name : string) (value : pyval) : res datetime :=
  match value with
  | VTime t =>
      if is_aware t then Ok t
      else raise ValueError (name +:+ " must be timezone-aware")
  | _ => raise AttributeError "object has no attribute 'tzinfo'"
  end.

Record OrderIntent := {
  oi_client_order_id : string;
  oi_strategy_id : string;
  oi_strategy_version : string;
  oi_account_fingerprint : string;
  oi_symbol : string;
  oi_side : Side;
  oi_quantity : Z;
  oi_limit_price : Dec.decimal;
  oi_created_at : datetime;
  oi_expires_at : datetime;
  oi_signal_id : string;
  oi_reason_code : string;
  oi_order_type : OrderType
}.

#[global] Instance OrderIntent_eq_dec : EqDecision OrderIntent.
Proof. solve_decision. Defined.

(** [OrderIntent(...)] with its [__post_init__].  [order_type] can only be
    [LIMIT], the one member of its enumeration. *)
Definition OrderIntent_init
    (client_order_id strategy_id strategy_version account_fingerprint symbol : pyval)
    (side : Side) (quantity limit_price created_at expires_at signal_id reason_code : pyval)
    (order_type : OrderType) : res OrderIntent :=
  client_order_id <- require_nonempty "client_order_id" client_order_id ;;
  strategy_id <- require_nonempty "strategy_id" strategy_id ;;
  strategy_version <- require_nonempty "strategy_version" strategy_version ;;
  account_fingerprint <- require_nonempty "account_fingerprint" account_fingerprint ;;
  symbol <- require_nonempty "symbol" symbol ;;
  signal_id <- require_nonempty "signal_id" signal_id ;;
  reason_code <- require_nonempty "reason_code" reason_code ;;
  do! guard_r (bool_decide (order_type = LIMIT)) ValueError
        "P0 contract permits LIMIT orders only" ;;
  quantity <- require_positive_int "quantity" quantity ;;
  limit_price <- require_decimal "limit_price" limit_price ;;
  created_at <- require_aware "created_at" created_at ;;
  expires_at <- require_aware "expires_at" expires_at ;;
  do! guard_r (dt_ltb created_at expires_at) ValueError
        "expires_at must be later than created_at" ;;
  Ok {| oi_client_order_id := client_order_id; oi_strategy_id := strategy_id;
        oi_strategy_version := strategy_version;
        oi_account_fingerprint := account_fingerprint; oi_symbol := symbol;
        oi_side := side; oi_quantity := quantity; oi_limit_price := limit_price;
        oi_created_at := created_at; oi_expires_at := expires_at;
        oi_signal_id := signal_id; oi_reason_code := reason_code;
        oi_order_type := order_type |}.

Definition oi_key (i : OrderIntent) : okey :=
  (oi_account_fingerprint i, oi_client_order_id i).

Definition is_expired (i : OrderIntent) (now : datetime) : res bool :=
  now <- require_aware "now" (VTime now) ;;
  Ok (dt_leb (oi_expires_at i) now).

Record Order := {
  or_client_order_id : string;
  or_account_fingerprint : string;
  or_symbol : string;
  or_side : Side;
  or_quantity : Z;
  or_limit_price : Dec.decimal;
  or_status : OrderStatus;
  or_broker_order_id : option string;
  or_filled_quantity : Z
}.

Definition Order_init (client_order_id account_fingerprint symbol : pyval) (side : Side)
    (quantity limit_price : pyval) (status : OrderStatus)
    (broker_order_id : option string) (filled_quantity : pyval) : res Order :=
  client_order_id <- require_nonempty "client_order_id" client_order_id ;;
  account_fingerprint <- require_nonempty "account_fingerprint" account_fingerprint ;;
  symbol <- require_nonempty "symbol" symbol ;;
  quantity <- require_positive_int "quantity" quantity ;;
  limit_price <- require_decimal "limit_price" limit_price ;;
  filled <- match filled_quantity with
            | VInt z => Ok z
            | _ => raise ValueError "filled_quantity must be an integer"
            end ;;
  do! guard_r (negb ((filled <? 0) || (quantity <? filled))) ValueError
        "filled_quantity must be in [0, quantity]" ;;
  Ok {| or_client_order_id := client_order_id;
        or_account_fingerprint := account_fingerprint; or_symbol := symbol;
        or_side := side; or_quantity := quantity; or_limit_price := limit_price;
        or_status := status; or_broker_order_id := broker_order_id;
        or_filled_quantity := filled |}.

Record Trade := {
  tr_trade_id : string;
  tr_client_order_id : string;
  tr_account_fingerprint : string;
  tr_symbol : string;
  tr_side : Side;
  tr_quantity : Z;
  tr_price : Dec.decimal;
  tr_traded_at : datetime
}.

Definition Trade_init (trade_id client_order_id account_fingerprint symbol : pyval)
    (side : Side) (quantity price traded_at : pyval) : res Trade :=
  trade_id <- require_nonempty "trade_id" trade_id ;;
  client_order_id <- require_nonempty "client_order_id" client_order_id ;;
  account_fingerprint <- require_nonempty "account_fingerprint" account_fingerprint ;;
  symbol <- require_nonempty "symbol" symbol ;;
  quantity <- require_positive_int "quantity" quantity ;;
  price <- require_decimal "price" price ;;
  traded_at <- require_aware "traded_at" traded_at ;;
  Ok {| tr_trade_id := trade_id; tr_client_order_id := client_order_id;
        tr_account_fingerprint := account_fingerprint; tr_symbol := symbol;
        tr_side := side; tr_quantity := quantity; tr_price := price;
        tr_traded_at := traded_at |}.

Record RiskDecision := {
  rd_accepted : bool;
  rd_reason_code : RiskReasonCode;
  rd_rule_version : string;
  rd_snapshot_hash : string;
  rd_decided_at : datetime
}.

Definition RiskDecision_init
    (accepted reason_code rule_version snapshot_hash decided_at : pyval) : res RiskDecision :=
  accepted <- match accepted with
              | VBool b => Ok b
              | _ => raise TypeError "accepted must be bool"
              end ;;
  reason_code <- match reason_code with
                 | VReason c => Ok c
                 | _ => raise TypeError "reason_code must be RiskReasonCode"
                 end ;;
  rule_version <- require_nonempty "rule_version" rule_version ;;
  snapshot_hash <- require_nonempty "snapshot_hash" snapshot_hash ;;
  decided_at <- require_aware "decided_at" decided_at ;;
  Ok {| rd_accepted := accepted; rd_reason_code := reason_code;
        rd_rule_version := rule_version; rd_snapshot_hash := snapshot_hash;
        rd_decided_at := decided_at |}.

(** ** idempotency.py *)

Module ClientOrderIdRegistry.

(** [_keys] *)
Definition t := gset okey.
Definition empty : t := ∅.

Definition contains (r : t) (account_fingerprint client_order_id : string) : bool :=
  bool_decide ((account_fingerprint, client_order_id) ∈ r).

Definition register (r : t) (account_fingerprint client_order_id : string) : res t :=
  if bool_decide ((account_fingerprint, client_order_id) ∈ r) then
    raise DuplicateClientOrderId
      ("client_order_id already registered for account: " +:+ client_order_id)
  else Ok ({[ (account_fingerprint, client_order_id) ]} ∪ r).

End ClientOrderIdRegistry.

(** ** Properties of the state machine *)

Ltac all_statuses :=
  repeat match goal with s : OrderStatus |- _ => destruct s end.

(** One applied transition. *)
Definition fsm_step (s t : OrderStatus) : Prop :=
  exists o, transition s t = Ok o /\ to_changed o = true.

(** How far an order's life has gone: before the side effect, its reservation,
    after it, over. *)
Definition phase (s : OrderStatus) : Z :=
  match s with
  | CREATED => 0
  | RISK_ACCEPTED => 1
  | SUBMITTING => 2
  | ACKNOWLEDGED | PARTIALLY_FILLED | CANCEL_PENDING | UNKNOWN | RECONCILING => 3
  | RISK_REJECTED | ABORTED | FILLED | CANCELLED | REJECTED | MANUAL_REVIEW => 4
  end.

Lemma status_in_spec s l : status_in s l = true <-> s ∈ l.
Proof.
  unfold status_in. rewrite existsb_exists. setoid_rewrite bool_decide_eq_true.
  setoid_rewrite <- list_elem_of_In. naive_solver.
Qed.

Lemma fsm_step_allowed s t : fsm_step s t <-> t ∈ allowed s.
Proof.
  rewrite <- status_in_spec. unfold fsm_step.
  all_statuses; vm_compute; naive_solver.
Qed.

Lemma fsm_step_phase s t :
  fsm_step s t -> phase s < phase t \/ (phase s = 3 /\ phase t = 3).
Proof.
  rewrite fsm_step_allowed, <- status_in_spec.
  all_statuses; vm_compute; (discriminate || auto).
Qed.

Lemma fsm_rtc_phase s t : rtc fsm_step s t -> phase s <= phase t.
Proof.
  induction 1 as [|s u t H _ IH]; [lia|].
  apply fsm_step_phase in H. lia.
Qed.

Lemma transition_changed s t o :
  transition s t = Ok o -> to_changed o = true ->
  to_current o = t /\ to_disposition o = APPLIED /\ status_in t (allowed s) = true.
Proof. all_statuses; vm_compute; intros [= <-]; (discriminate || done). Qed.

Lemma transition_unchanged s t o :
  transition s t = Ok o -> to_changed o = false -> to_current o = s.
Proof. all_statuses; vm_compute; intros [= <-]; (discriminate || done). Qed.

(** The life of an order, as its causes allow it. *)
Inductive lifecycle : OrderStatus -> OrderStatus -> Prop :=
  | life_judged verdict : verdict ∈ [RISK_ACCEPTED; RISK_REJECTED] -> lifecycle CREATED verdict
  | life_aborted s : s ∈ [CREATED; RISK_ACCEPTED] -> lifecycle s ABORTED
  | life_reserved : lifecycle RISK_ACCEPTED SUBMITTING
  | life_answered answer : answer ∈ [ACKNOWLEDGED; REJECTED] -> lifecycle SUBMITTING answer
  | life_filled s fill :
      s ∈ [ACKNOWLEDGED; PARTIALLY_FILLED; CANCEL_PENDING] -> fill ∈ [PARTIALLY_FILLED; FILLED] -> s <> fill ->
      lifecycle s fill
  | life_cancelling s : s ∈ [ACKNOWLEDGED; PARTIALLY_FILLED] -> lifecycle s CANCEL_PENDING
  | life_cancelled s : s ∈ [PARTIALLY_FILLED; CANCEL_PENDING] -> lifecycle s CANCELLED
  | life_lost call : call ∈ [SUBMITTING; CANCEL_PENDING] -> lifecycle call UNKNOWN
  | life_reconciling : lifecycle UNKNOWN RECONCILING
  | life_reconciled s :
      s ∈ [ACKNOWLEDGED; PARTIALLY_FILLED; FILLED; REJECTED; CANCELLED; MANUAL_REVIEW] -> lifecycle RECONCILING s.

(** An order whose life is over moves no more. *)
Definition over (s : OrderStatus) : Prop := forall t, ~ lifecycle s t.

(** A move between statuses that are not in doubt; [s] is left behind for good when [t]
    is reached by such moves and [s] is not reached again. *)
Definition certain_move (s t : OrderStatus) : Prop :=
  lifecycle s t /\ (s ∉ [UNKNOWN; RECONCILING]) /\ (t ∉ [UNKNOWN; RECONCILING]).
Definition left_behind (s t : OrderStatus) : Prop := rtc certain_move s t /\ ~ rtc certain_move t s.

Definition all_status : list OrderStatus :=
  [CREATED; RISK_REJECTED; RISK_ACCEPTED; SUBMITTING; ACKNOWLEDGED; PARTIALLY_FILLED; FILLED; CANCEL_PENDING;
   CANCELLED; REJECTED; UNKNOWN; RECONCILING; MANUAL_REVIEW; ABORTED].

Lemma all_status_full s : s ∈ all_status.
Proof. apply status_in_spec. by destruct s. Qed.

Lemma lifecycle_allowed s t : lifecycle s t <-> t ∈ allowed s.
Proof.
  split.
  - intros H. apply status_in_spec. destruct H; rewrite <-?status_in_spec in *; all_statuses; vm_compute in *; congruence.
  - intros H. apply status_in_spec in H. destruct s, t; try discriminate H; clear H;
      first [ constructor; apply status_in_spec; reflexivity | by constructor; [apply status_in_spec..|] | constructor ].
Qed.

Definition certain_moveb (s t : OrderStatus) : bool :=
  status_in t (allowed s) && negb (status_in s [UNKNOWN; RECONCILING]) && negb (status_in t [UNKNOWN; RECONCILING]).

Lemma certain_moveb_ok s t : certain_moveb s t = true <-> certain_move s t.
Proof.
  unfold certain_moveb, certain_move. rewrite lifecycle_allowed, !andb_true_iff, !negb_true_iff, <-!not_true_iff_false,
    !status_in_spec. tauto.
Qed.

(** Whether [t] is at most [n] such moves away. *)
Fixpoint within (n : nat) (s t : OrderStatus) : bool :=
  bool_decide (s = t) ||
  match n with O => false | S n => existsb (fun u => if certain_moveb s u then within n u t else false) all_status end.

Lemma within_spec s t : within 6 s t = true <-> rtc certain_move s t.
Proof.
  split.
  - generalize 6%nat as n. intros n. revert s. induction n as [|n IH]; intros s; cbn [within];
      rewrite orb_true_iff, bool_decide_eq_true; [intros [-> | [=]]; reflexivity|].
    intros [-> | (u & _ & Hu)%existsb_exists]; [reflexivity|]. destruct (certain_moveb s u) eqn:Em; [|done].
    apply (rtc_l _ _ u); [by apply certain_moveb_ok | by apply IH].
  - assert (Hclosed : forallb (fun s => forallb (fun u => forallb (fun t =>
      if certain_moveb s u && within 6 u t then within 6 s t else true) all_status) all_status) all_status = true)
      by (vm_compute; reflexivity).
    induction 1 as [s | s u t Hs _ IH]; [by destruct s|].
    rewrite forallb_forall in Hclosed. specialize (Hclosed s (proj1 (list_elem_of_In _ _) (all_status_full s))).
    rewrite forallb_forall in Hclosed. specialize (Hclosed u (proj1 (list_elem_of_In _ _) (all_status_full u))).
    rewrite forallb_forall in Hclosed. specialize (Hclosed t (proj1 (list_elem_of_In _ _) (all_status_full t))).
    apply certain_moveb_ok in Hs. by rewrite Hs, IH in Hclosed.
Qed.

Lemma left_behind_stale s t : left_behind s t -> status_in s (stale t) = true \/ over t.
Proof.
  unfold left_behind. rewrite <-!within_spec. intros [H1 H2%not_true_iff_false].
  assert (Ho : allowed t = [] -> over t) by (intros E u Hu%lifecycle_allowed; rewrite E in Hu; by apply not_elem_of_nil in Hu).
  destruct s, t; vm_compute in H1, H2; try discriminate; (by left) || (right; by apply Ho).
Qed.

Lemma stale_left_behind s t : status_in s (stale t) = true -> left_behind s t.
Proof.
  unfold left_behind. rewrite <-!within_spec. intros H. rewrite not_true_iff_false.
  destruct s, t; try discriminate H; by split; vm_compute.
Qed.

(** C21. The outcome of [transition] on every pair of statuses, from the life of an order
    alone, and not from the tables of the code.  The same status again is a duplicate; any
    other status after the end is stale; a move of the lifecycle is applied; a status that is
    left behind for good is stale; and whatever else is asked for is an [InvalidTransition].
    Only what is applied changes the order. *)
Theorem transition_spec current requested :
  let outcome next changed disposition :=
    Ok {| to_previous := current; to_current := next; to_requested := requested;
          to_changed := changed; to_disposition := disposition |} in
  (requested = current -> transition current requested = outcome current false DUPLICATE_IGNORED) /\
  (requested <> current -> over current -> transition current requested = outcome current false STALE_IGNORED) /\
  (lifecycle current requested -> transition current requested = outcome requested true APPLIED) /\
  (left_behind requested current -> transition current requested = outcome current false STALE_IGNORED) /\
  (requested <> current -> ~ over current -> ~ lifecycle current requested -> ~ left_behind requested current ->
   exists msg, transition current requested = raise InvalidTransition msg).
Proof.
  assert (Hover : over current <-> allowed current = []).
  { unfold over. setoid_rewrite lifecycle_allowed. destruct (allowed current) as [|t l]; [|set_solver].
    split; [done|]. intros _ t ?%not_elem_of_nil. done. }
  cbv zeta. rewrite Hover, lifecycle_allowed, <-status_in_spec. split_and!.
  - intros ->. by destruct current.
  - intros Hne Ho. by destruct current, requested.
  - by destruct current, requested.
  - intros Hb. assert (Hne : requested <> current) by (intros ->; destruct Hb as [_ Hb]; by apply Hb).
    apply left_behind_stale in Hb as [Hs|Ho%Hover]; by destruct current, requested.
  - intros Hne Ho Hm Hb. assert (Hs : status_in requested (stale current) <> true) by (by intros ?%stale_left_behind).
    destruct current, requested; vm_compute in Hm, Hs; try done; by eexists.
Qed.

(** A late status is ignored, and a fill of an order in doubt is refused. *)
Lemma transition_spec_witness :
  (exists o, transition PARTIALLY_FILLED SUBMITTING = Ok o /\ to_current o = PARTIALLY_FILLED /\
     to_disposition o = STALE_IGNORED) /\
  exists msg, transition UNKNOWN FILLED = raise InvalidTransition msg.
Proof.
  split.
  - destruct (transition_spec PARTIALLY_FILLED SUBMITTING) as (_ & _ & _ & H & _). eexists.
    split; [apply H, stale_left_behind; reflexivity | by split].
  - destruct (transition_spec UNKNOWN FILLED) as (_ & _ & _ & _ & H). apply H; [done | | |].
    + intros Ho. exact (Ho RECONCILING life_reconciling).
    + intros Hl%lifecycle_allowed%status_in_spec. discriminate Hl.
    + intros [Hs|Ho]%left_behind_stale; [discriminate Hs|]. exact (Ho RECONCILING life_reconciling).
Defined.

(** Along any sequence of applied transitions an order enters SUBMITTING at
    most once and never returns to a status that precedes the side effect:
    whatever follows SUBMITTING is neither SUBMITTING nor CREATED nor
    RISK_ACCEPTED nor ABORTED, and the terminal statuses have no successor. *)
Theorem fsm_submits_once s t :
  fsm_step SUBMITTING s -> rtc fsm_step s t ->
  2 < phase t /\ t ∉ [CREATED; RISK_ACCEPTED; SUBMITTING; ABORTED; RISK_REJECTED].
Proof.
  intros Hs Ht.
  assert (H0 : 2 < phase s /\ (s ∉ [ABORTED; RISK_REJECTED])).
  { apply fsm_step_allowed in Hs. clear Ht. destruct s; set_solver by lia. }
  clear Hs. induction Ht as [s|s u t H _ IH].
  - destruct H0. split; [done|]. destruct s; simpl in *; try lia; set_solver.
  - apply IH. apply fsm_step_allowed in H. destruct s, u; set_solver by lia.
Qed.

Lemma fsm_submits_once_witness :
  fsm_step SUBMITTING UNKNOWN /\ rtc fsm_step UNKNOWN ACKNOWLEDGED /\
  2 < phase ACKNOWLEDGED.
Proof.
  assert (H1 : fsm_step SUBMITTING UNKNOWN) by (apply fsm_step_allowed; set_solver).
  assert (H2 : rtc fsm_step UNKNOWN ACKNOWLEDGED).
  { apply (rtc_l _ _ RECONCILING); [apply fsm_step_allowed; set_solver|].
    apply rtc_once, fsm_step_allowed; set_solver. }
  split; [exact H1 | split; [exact H2|]].
  exact (proj1 (fsm_submits_once UNKNOWN ACKNOWLEDGED H1 H2)).
Defined.

(** ** The validated records *)

Lemma require_nonempty_ok name v s :
  require_nonempty name v = Ok s <-> v = VStr s /\ strip_nonempty s = true.
Proof. unfold require_nonempty, require_aware, raise. destruct v; try case_match; iff_crush. Qed.

Lemma require_positive_int_ok name v z :
  require_positive_int name v = Ok z <-> v = VInt z /\ 0 < z.
Proof.
  unfold require_positive_int, raise. destruct v; try case_match; bool_to_prop; iff_crush.
Qed.

Lemma require_decimal_ok name v d :
  require_decimal name v = Ok d <-> v = VDec (Dec.Fin d) /\ Dec.ltb Dec.zero d = true.
Proof.
  unfold require_decimal, raise.
  destruct v as [| | | |[]| | |]; try case_match; iff_crush.
Qed.

Lemma require_aware_ok name v t :
  require_aware name v = Ok t <-> v = VTime t /\ is_aware t = true.
Proof. unfold require_nonempty, require_aware, raise. destruct v; try case_match; iff_crush. Qed.

#[export] Hint Rewrite require_nonempty_ok require_positive_int_ok
  require_decimal_ok require_aware_ok : pydb.

(** What the constructor guarantees of an intent. *)
Definition intent_wf (i : OrderIntent) : Prop :=
  Forall (fun s => strip_nonempty s = true)
    [oi_client_order_id i; oi_strategy_id i; oi_strategy_version i;
     oi_account_fingerprint i; oi_symbol i; oi_signal_id i; oi_reason_code i] /\
  0 < oi_quantity i /\ Dec.ltb Dec.zero (oi_limit_price i) = true /\
  is_aware (oi_created_at i) = true /\ is_aware (oi_expires_at i) = true /\
  instant (oi_created_at i) < instant (oi_expires_at i).

(** [OrderIntent(...)] succeeds exactly on the arguments whose fields form a
    well-formed intent, of exactly those Python types, and then holds them
    unchanged; every other argument list raises. *)
Theorem OrderIntent_init_spec c s v a y side q p ca ea sg rc ot i :
  OrderIntent_init c s v a y side q p ca ea sg rc ot = Ok i <->
  intent_wf i /\
  c = VStr (oi_client_order_id i) /\ s = VStr (oi_strategy_id i) /\
  v = VStr (oi_strategy_version i) /\ a = VStr (oi_account_fingerprint i) /\
  y = VStr (oi_symbol i) /\ side = oi_side i /\ q = VInt (oi_quantity i) /\
  p = VDec (Dec.Fin (oi_limit_price i)) /\ ca = VTime (oi_created_at i) /\
  ea = VTime (oi_expires_at i) /\ sg = VStr (oi_signal_id i) /\
  rc = VStr (oi_reason_code i) /\ ot = oi_order_type i.
Proof.
  unfold OrderIntent_init, intent_wf. split.
  - intros H. inv_ok. autorewrite with pydb in *. destruct_and?. simpl.
    unfold dt_ltb in *. bool_to_prop. subst. rewrite !Forall_cons. auto 30.
  - destruct i as [c' s' v' a' y' sd q' p' ca' ea' sg' rc' []].
    rewrite !Forall_cons. simpl. intros. destruct_and?. subst. simpl.
    repeat match goal with H : _ = true |- _ => rewrite H; clear H; simpl end.
    destruct (Z.ltb_spec 0 q'); [|lia]. simpl.
    repeat match goal with H : _ = true |- _ => rewrite H; clear H; simpl end.
    unfold dt_ltb. destruct (Z.ltb_spec (instant ca') (instant ea')); [done|lia].
Qed.

(** A concrete intent. *)
Definition demo_intent : OrderIntent :=
  {| oi_client_order_id := "cid-1"; oi_strategy_id := "strategy"; oi_strategy_version := "1";
     oi_account_fingerprint := "sha256:aaaaaaaaaaaaaaaaaaaaaaaaaaaaaaaaaaaaaaaaaaaaaaaaaaaaaaaaaaaaaaaa";
     oi_symbol := "600000.SH"; oi_side := BUY; oi_quantity := 100;
     oi_limit_price := Dec.D false 1050 (-2);
     oi_created_at := DT 1750000000000000 (Some 0);
     oi_expires_at := DT 1750000060000000 (Some 0);
     oi_signal_id := "signal"; oi_reason_code := "reason"; oi_order_type := LIMIT |}.

Lemma OrderIntent_init_spec_witness :
  OrderIntent_init (VStr "cid-1") (VStr "strategy") (VStr "1")
    (VStr (oi_account_fingerprint demo_intent)) (VStr "600000.SH") BUY (VInt 100)
    (VDec (Dec.Fin (Dec.D false 1050 (-2)))) (VTime (oi_created_at demo_intent))
    (VTime (oi_expires_at demo_intent)) (VStr "signal") (VStr "reason") LIMIT = Ok demo_intent.
Proof.
  apply OrderIntent_init_spec. split; [|repeat split].
  split; [repeat constructor | repeat split; vm_compute; reflexivity].
Defined.
