(* ===== verification/Db.v ===== *)
(** * Db: the SQLite store, and the monad of the code that runs on it

    The tables of the Core schema ([oms/core_migrations/0001_initial.sql]) as a
    record, and the effects of the code that uses them: a world holding the
    database, the connection's transaction flag, a tick that indexes what the
    environment answers (clocks, uuid4, a failing BEGIN) and the rest of the
    process ([R]: the OMS instance, the driver).  A computation maps a world to a
    result and a world: state written before an exception stays written, and
    [transaction] (oms/db.py) is what rolls it back. *)

From S2P Require Import Prelude Decimal Json Domain.
Open Scope Z_scope.

(** ** Tables with a primary key, in rowid order *)

Record table (K V : Type) `{Countable K} := Table { t_rows : gmap K V; t_ids : list K }.
Arguments Table {K V _ _} _ _.
Arguments t_rows {K V _ _} _.
Arguments t_ids {K V _ _} _.

Section Table.
Context {K V : Type} `{Countable K}.
Implicit Types (t : table K V) (k : K) (v : V).

Definition tbl_empty : table K V := Table ∅ [].

Definition tbl_get t k : option V := t_rows t !! k.

(** [INSERT]: [None] when the key is taken. *)
Definition tbl_insert k v t : option (table K V) :=
  match t_rows t !! k with
  | Some _ => None
  | None => Some (Table (<[k := v]> (t_rows t)) (t_ids t ++ [k]))
  end.

(** [UPDATE ... WHERE key=k]. *)
Definition tbl_update k (f : V -> V) t : table K V :=
  Table (alter f k (t_rows t)) (t_ids t).

(** [SELECT * ... ORDER BY rowid]. *)
Definition tbl_scan t : list (K * V) :=
  omap (fun k => match t_rows t !! k with Some v => Some (k, v) | None => None end) (t_ids t).

(** Each key is listed once. *)
Definition tbl_wf t : Prop :=
  NoDup (t_ids t) /\ forall k, k ∈ t_ids t <-> is_Some (t_rows t !! k).

(** Every row of the one is in the other. *)
Definition tbl_le t t' : Prop := forall k v, tbl_get t k = Some v -> tbl_get t' k = Some v.

#[global] Instance tbl_le_preorder : PreOrder tbl_le.
Proof. split; [by intros t k v | intros t1 t2 t3 H1 H2 k v Hk; by apply H2, H1]. Qed.

Lemma tbl_wf_empty : tbl_wf tbl_empty.
Proof. split; [constructor|]. intros k. simpl. rewrite lookup_empty.
       split; [set_solver | intros [? [=]]]. Qed.

Lemma tbl_wf_insert k v t t' : tbl_wf t -> tbl_insert k v t = Some t' -> tbl_wf t'.
Proof.
  unfold tbl_insert. intros [Hd Hi] Ht. case_match eqn:E; [done|]. simplify_eq/=.
  split; simpl.
  - apply NoDup_app. repeat split; [done | | apply NoDup_singleton].
    intros x Hx ->%list_elem_of_singleton. apply Hi in Hx as [? Hx]. congruence.
  - intros k'. rewrite elem_of_app, list_elem_of_singleton, Hi.
    destruct (decide (k' = k)) as [->|].
    + rewrite lookup_insert_eq. naive_solver.
    + rewrite lookup_insert_ne by done. naive_solver.
Qed.

Lemma tbl_wf_update k f t : tbl_wf t -> tbl_wf (tbl_update k f t).
Proof.
  intros [Hd Hi]. split; simpl; [done|]. intros k'. rewrite Hi.
  unfold is_Some. destruct (decide (k = k')) as [->|].
  - rewrite lookup_alter_eq. destruct (t_rows t !! k'); simpl; naive_solver.
  - by rewrite lookup_alter_ne.
Qed.

Lemma tbl_scan_elem t k v :
  tbl_wf t -> (k, v) ∈ tbl_scan t <-> tbl_get t k = Some v.
Proof.
  intros [Hd Hi]. unfold tbl_scan, tbl_get. rewrite list_elem_of_omap. split.
  - intros (k' & ? & E). case_match; naive_solver.
  - intros E. exists k. rewrite Hi, E. naive_solver.
Qed.

Lemma tbl_insert_fresh k v t t' : tbl_insert k v t = Some t' -> tbl_get t k = None.
Proof. unfold tbl_insert, tbl_get. by destruct (t_rows t !! k). Qed.

Lemma tbl_get_insert k v t t' k' :
  tbl_insert k v t = Some t' ->
  tbl_get t' k' = if decide (k' = k) then Some v else tbl_get t k'.
Proof.
  unfold tbl_insert, tbl_get. intros E. case_match; simplify_eq/=.
  rewrite lookup_insert. repeat case_decide; naive_solver.
Qed.

Lemma tbl_get_update k f t k' :
  tbl_get (tbl_update k f t) k' =
  if decide (k' = k) then f <$> tbl_get t k else tbl_get t k'.
Proof.
  unfold tbl_update, tbl_get; simpl. rewrite lookup_alter.
  repeat case_decide; naive_solver.
Qed.

Lemma tbl_scan_keys t : tbl_wf t -> (tbl_scan t).*1 = t_ids t.
Proof.
  intros [_ Hi]. unfold tbl_scan.
  assert (Hall : forall k, k ∈ t_ids t -> is_Some (t_rows t !! k)) by (intros; by apply Hi).
  clear Hi. induction (t_ids t) as [|k l IH]; [done|]. simpl.
  destruct (Hall k) as [v Hv]; [set_solver|]. rewrite Hv. simpl.
  f_equal. apply IH. set_solver.
Qed.
End Table.

Infix "⊑ₜ" := tbl_le (at level 70).

(** ** Rows of the Core schema *)

Record intent_row := {
  i_strategy_id : string; i_strategy_version : string; i_symbol : string;
  i_side : string; i_order_type : string; i_quantity : Z; i_limit_price : string;
  i_created_at : datetime; i_expires_at : datetime;
  i_signal_id : string; i_reason_code : string
}.

Record order_row := {
  o_status : OrderStatus;
  o_broker_order_id : option string;
  o_filled_quantity : Z;
  o_submit_call_started : bool;
  o_cancel_call_started : bool;
  o_cancel_outcome_resolved : bool;
  o_updated_at : datetime
}.

Record risk_row := {
  r_accepted : bool; r_reason_code : string; r_rule_version : string;
  r_snapshot_hash : string; r_decided_at : datetime
}.

Record event_row := {
  e_key : okey; e_event_type : string; e_from_status : option OrderStatus;
  e_to_status : OrderStatus; e_disposition : TransitionDisposition;
  e_evidence_json : string; e_created_at : datetime
}.

Record session_row := { s_started_at : datetime; s_reconciled_at : option datetime }.

Record leader_row := {
  l_session_id : string; l_lease_token : string; l_epoch : Z;
  l_acquired_at : datetime; l_heartbeat_at : datetime; l_expires_at : datetime
}.

Record key_row := {
  k_source : string; k_source_event_id : string; k_accepted : bool;
  k_result_disposition : option TransitionDisposition;
  k_conflict_reason : option string; k_first_observed_at : string;
  k_account_fingerprint : string; k_semantic_digest : string
}.

Record obs_row := {
  ob_fingerprint : string; ob_source : string; ob_source_event_id : string;
  ob_account_fingerprint : string; ob_client_order_id : string;
  ob_evidence_type : string; ob_broker_order_id : option string;
  ob_requested_status : OrderStatus; ob_filled_quantity : Z;
  ob_classification : string; ob_payload_json : string; ob_observed_at : string;
  ob_source_kind : string; ob_mapper_profile : string; ob_semantic_digest : string;
  ob_broker_token : option string; ob_order_ref : option string;
  ob_trade_id : option string; ob_raw_payload_ref : string;
  ob_raw_status_json : option string;
  ob_route_account_type : option string; ob_route_account_fingerprint : option string
}.

(** Rows of the Runtime schema.  A text column that holds an ISO instant or a
    decimal is the value it is the text of; a date is its ordinal. *)
Record daily_row := {
  dr_account_fingerprint : string; dr_strategy_id : string; dr_trading_date : Z;
  dr_event_type : string; dr_notional : Dec.decimal; dr_observed_at : datetime;
  dr_source_ref : string
}.

Record pnl_row := {
  pn_account_fingerprint : string; pn_trading_date : Z; pn_daily_pnl : Dec.decimal;
  pn_observed_at : datetime; pn_source : string
}.

Record mode_row := {
  mt_runtime_session_id : string; mt_from_mode : string; mt_to_mode : string;
  mt_actor : string; mt_reason : string; mt_changed_at : datetime
}.

Record alert_event_row := {
  ae_alert_key : string; ae_event_type : string; ae_severity : option string;
  ae_detail : option string; ae_observed_at : datetime; ae_source : string;
  ae_semantic_digest : string
}.

Record alert_state_row := {
  al_status : string; al_severity : string; al_detail : string; al_first_seen_at : datetime;
  al_last_seen_at : datetime; al_occurrences : Z; al_resolved_at : option datetime;
  al_last_event_id : string
}.

(** Rows of the QMT schema (qmt/migrations); a blob is its list of bytes. *)
Record command_row := {
  cr_fingerprint : string; cr_qmt_session_id : string; cr_qmt_sequence : Z;
  cr_account_fingerprint : string; cr_client_order_id : option string;
  cr_command_type : string; cr_broker_token : option string; cr_result_status : string;
  cr_execution_mode : string; cr_live_side_effect : bool; cr_payload_json : string;
  cr_observed_at : datetime; cr_ingested_at : datetime
}.

Record identity_row := {
  qi_account_fingerprint : string; qi_qmt_session_id : string; qi_client_order_id : string;
  qi_broker_token : string; qi_symbol : string; qi_side : string; qi_quantity : Z;
  qi_limit_price : string; qi_command_state : string; qi_command_digest : string;
  qi_created_ms : Z; qi_expires_ms : Z; qi_imported_at : datetime
}.

Record dispatch_row := {
  qd_account_fingerprint : string; qd_client_order_id : string; qd_command_type : string;
  qd_qmt_session_id : string; qd_broker_token : string; qd_broker_order_id : option string;
  qd_frame_digest : string; qd_frame_blob : list Z; qd_dispatch_state : string;
  qd_created_ms : Z; qd_expires_ms : Z; qd_published_at : option datetime
}.

#[global] Instance alert_event_row_eq_dec : EqDecision alert_event_row.
Proof. solve_decision. Defined.
#[global] Instance daily_row_eq_dec : EqDecision daily_row.
Proof. solve_decision. Defined.
#[global] Instance pnl_row_eq_dec : EqDecision pnl_row.
Proof. solve_decision. Defined.
#[global] Instance mode_row_eq_dec : EqDecision mode_row.
Proof. solve_decision. Defined.

Record qmt_db := {
  qm_commands : table string command_row;
  qm_identities : table string identity_row;
  qm_dispatches : table string dispatch_row
}.

Record runtime_db := {
  rt_events : table string daily_row;
  rt_pnl : table string pnl_row;
  rt_modes : table string mode_row;
  rt_alert_events : table string alert_event_row;
  rt_alert_states : table string alert_state_row;
  rt_qmt : qmt_db
}.

Definition empty_runtime : runtime_db :=
  {| rt_events := tbl_empty; rt_pnl := tbl_empty; rt_modes := tbl_empty;
     rt_alert_events := tbl_empty; rt_alert_states := tbl_empty;
     rt_qmt := {| qm_commands := tbl_empty; qm_identities := tbl_empty;
                  qm_dispatches := tbl_empty |} |}.

(** The events and observations have an autoincrement key and are never
    deleted, so a list in insertion order holds them. *)
Record db := {
  d_intents : table okey intent_row;
  d_orders : table okey order_row;
  d_risk : table okey risk_row;
  d_events : list event_row;
  d_sessions : table string session_row;
  d_leader : option leader_row;
  d_keys : table string key_row;
  d_observations : list obs_row;
  d_runtime : runtime_db
}.

Definition empty_db : db :=
  {| d_intents := tbl_empty; d_orders := tbl_empty; d_risk := tbl_empty;
     d_events := []; d_sessions := tbl_empty; d_leader := None;
     d_keys := tbl_empty; d_observations := []; d_runtime := empty_runtime |}.

Definition set_intents (x : table okey intent_row) (d : db) : db :=
  {| d_intents := x; d_orders := d_orders d; d_risk := d_risk d; d_events := d_events d;
     d_sessions := d_sessions d; d_leader := d_leader d; d_keys := d_keys d;
     d_observations := d_observations d; d_runtime := d_runtime d |}.
Definition set_orders (x : table okey order_row) (d : db) : db :=
  {| d_intents := d_intents d; d_orders := x; d_risk := d_risk d; d_events := d_events d;
     d_sessions := d_sessions d; d_leader := d_leader d; d_keys := d_keys d;
     d_observations := d_observations d; d_runtime := d_runtime d |}.
Definition set_risk (x : table okey risk_row) (d : db) : db :=
  {| d_intents := d_intents d; d_orders := d_orders d; d_risk := x; d_events := d_events d;
     d_sessions := d_sessions d; d_leader := d_leader d; d_keys := d_keys d;
     d_observations := d_observations d; d_runtime := d_runtime d |}.
Definition set_events (x : list event_row) (d : db) : db :=
  {| d_intents := d_intents d; d_orders := d_orders d; d_risk := d_risk d; d_events := x;
     d_sessions := d_sessions d; d_leader := d_leader d; d_keys := d_keys d;
     d_observations := d_observations d; d_runtime := d_runtime d |}.
Definition set_sessions (x : table string session_row) (d : db) : db :=
  {| d_intents := d_intents d; d_orders := d_orders d; d_risk := d_risk d;
     d_events := d_events d; d_sessions := x; d_leader := d_leader d; d_keys := d_keys d;
     d_observations := d_observations d; d_runtime := d_runtime d |}.
Definition set_leader (x : option leader_row) (d : db) : db :=
  {| d_intents := d_intents d; d_orders := d_orders d; d_risk := d_risk d;
     d_events := d_events d; d_sessions := d_sessions d; d_leader := x; d_keys := d_keys d;
     d_observations := d_observations d; d_runtime := d_runtime d |}.
Definition set_keys (x : table string key_row) (d : db) : db :=
  {| d_intents := d_intents d; d_orders := d_orders d; d_risk := d_risk d;
     d_events := d_events d; d_sessions := d_sessions d; d_leader := d_leader d;
     d_keys := x; d_observations := d_observations d; d_runtime := d_runtime d |}.
Definition set_observations (x : list obs_row) (d : db) : db :=
  {| d_intents := d_intents d; d_orders := d_orders d; d_risk := d_risk d;
     d_events := d_events d; d_sessions := d_sessions d; d_leader := d_leader d;
     d_keys := d_keys d; d_observations := x; d_runtime := d_runtime d |}.
Definition set_runtime (x : runtime_db) (d : db) : db :=
  {| d_intents := d_intents d; d_orders := d_orders d; d_risk := d_risk d;
     d_events := d_events d; d_sessions := d_sessions d; d_leader := d_leader d;
     d_keys := d_keys d; d_observations := d_observations d; d_runtime := x |}.

Definition set_daily (x : table string daily_row) (d : db) : db :=
  let r := d_runtime d in
  set_runtime {| rt_events := x; rt_pnl := rt_pnl r; rt_modes := rt_modes r;
    rt_alert_events := rt_alert_events r; rt_alert_states := rt_alert_states r;
    rt_qmt := rt_qmt r |} d.
Definition set_pnl (x : table string pnl_row) (d : db) : db :=
  let r := d_runtime d in
  set_runtime {| rt_events := rt_events r; rt_pnl := x; rt_modes := rt_modes r;
    rt_alert_events := rt_alert_events r; rt_alert_states := rt_alert_states r;
    rt_qmt := rt_qmt r |} d.
Definition set_modes (x : table string mode_row) (d : db) : db :=
  let r := d_runtime d in
  set_runtime {| rt_events := rt_events r; rt_pnl := rt_pnl r; rt_modes := x;
    rt_alert_events := rt_alert_events r; rt_alert_states := rt_alert_states r;
    rt_qmt := rt_qmt r |} d.
Definition set_alert_events (x : table string alert_event_row) (d : db) : db :=
  let r := d_runtime d in
  set_runtime {| rt_events := rt_events r; rt_pnl := rt_pnl r; rt_modes := rt_modes r;
    rt_alert_events := x; rt_alert_states := rt_alert_states r;
    rt_qmt := rt_qmt r |} d.
Definition set_alert_states (x : table string alert_state_row) (d : db) : db :=
  let r := d_runtime d in
  set_runtime {| rt_events := rt_events r; rt_pnl := rt_pnl r; rt_modes := rt_modes r;
    rt_alert_events := rt_alert_events r; rt_alert_states := x;
    rt_qmt := rt_qmt r |} d.
Definition d_qmt (d : db) : qmt_db := rt_qmt (d_runtime d).
Definition set_qmt (x : qmt_db) (d : db) : db :=
  let r := d_runtime d in
  set_runtime {| rt_events := rt_events r; rt_pnl := rt_pnl r; rt_modes := rt_modes r;
    rt_alert_events := rt_alert_events r; rt_alert_states := rt_alert_states r;
    rt_qmt := x |} d.
Definition set_commands (x : table string command_row) (d : db) : db :=
  set_qmt {| qm_commands := x; qm_identities := qm_identities (d_qmt d);
             qm_dispatches := qm_dispatches (d_qmt d) |} d.
Definition set_identities (x : table string identity_row) (d : db) : db :=
  set_qmt {| qm_commands := qm_commands (d_qmt d); qm_identities := x;
             qm_dispatches := qm_dispatches (d_qmt d) |} d.
Definition set_dispatches (x : table string dispatch_row) (d : db) : db :=
  set_qmt {| qm_commands := qm_commands (d_qmt d); qm_identities := qm_identities (d_qmt d);
             qm_dispatches := x |} d.

(** ** The environment and the world *)

(** What the process reads from outside, by tick: [datetime.now(timezone.utc)],
    the clock the OMS was given, [str(uuid4())], and whether [BEGIN IMMEDIATE]
    fails (another process holds the write lock past the timeout). *)
Class Env := {
  env_now : nat -> datetime;
  env_clock : nat -> datetime;
  env_uuid : nat -> string;
  env_begin : nat -> option exn
}.

Record world (R : Type) := W {
  w_db : db;
  w_in_tx : bool;
  w_tick : nat;
  w_rest : R
}.
Arguments W {R} _ _ _ _.
Arguments w_db {R} _.
Arguments w_in_tx {R} _.
Arguments w_tick {R} _.
Arguments w_rest {R} _.

Definition M (R A : Type) := world R -> res A * world R.

Section Monad.
Context {R : Type} {env : Env}.
Implicit Types (w : world R).

Definition retM {A} (a : A) : M R A := fun w => (Ok a, w).
Definition raiseM {A} (c : exn_class) (msg : string) : M R A :=
  fun w => (Err (Exn c msg), w).
Definition reraise {A} (e : exn) : M R A := fun w => (Err e, w).
Definition lift {A} (r : res A) : M R A := fun w => (r, w).
Definition bindM {A B} (m : M R A) (f : A -> M R B) : M R B :=
  fun w => match m w with
           | (Ok a, w) => f a w
           | (Err e, w) => (Err e, w)
           end.
(** [try: m except ... as e: h(e)]; [h] re-raises what it does not handle. *)
Definition tryM {A} (m : M R A) (h : exn -> M R A) : M R A :=
  fun w => match m w with
           | (Ok a, w) => (Ok a, w)
           | (Err e, w) => h e w
           end.
Definition guardM (b : bool) (c : exn_class) (msg : string) : M R unit :=
  if b then retM tt else raiseM c msg.

Definition read_db {A} (f : db -> A) : M R A := fun w => (Ok (f (w_db w)), w).
Definition write_db (f : db -> db) : M R unit :=
  fun w => (Ok tt, W (f (w_db w)) (w_in_tx w) (w_tick w) (w_rest w)).
Definition read_rest {A} (f : R -> A) : M R A := fun w => (Ok (f (w_rest w)), w).
Definition write_rest (f : R -> R) : M R unit :=
  fun w => (Ok tt, W (w_db w) (w_in_tx w) (w_tick w) (f (w_rest w))).
Definition in_transaction : M R bool := fun w => (Ok (w_in_tx w), w).

Definition tick_world w : world R := W (w_db w) (w_in_tx w) (S (w_tick w)) (w_rest w).
Definition utc_now : M R datetime := fun w => (Ok (env_now (w_tick w)), tick_world w).
Definition clock_now : M R datetime := fun w => (Ok (env_clock (w_tick w)), tick_world w).
Definition uuid4 : M R string := fun w => (Ok (env_uuid (w_tick w)), tick_world w).

(** [with transaction(conn): m]. *)
Definition transaction {A} (m : M R A) : M R A :=
  fun w =>
    if w_in_tx w then
      (Err (Exn SqliteOperationalError
              "cannot start a transaction within a transaction"), w)
    else match env_begin (w_tick w) with
      | Some e => (Err e, tick_world w)
      | None =>
          match m (W (w_db w) true (S (w_tick w)) (w_rest w)) with
          | (Ok a, w') => (Ok a, W (w_db w') false (w_tick w') (w_rest w'))
          | (Err e, w') => (Err e, W (w_db w) false (w_tick w') (w_rest w'))
          end
      end.

Fixpoint iterM {A} (f : A -> M R unit) (l : list A) : M R unit :=
  match l with
  | [] => retM tt
  | a :: l => bindM (f a) (fun _ => iterM f l)
  end.
End Monad.

Declare Scope oms_scope.
Delimit Scope oms_scope with oms.
Notation "x <- m ;; k" := (bindM m (fun x => k))
  (at level 100, m at next level, right associativity) : oms_scope.
Notation "'do!' m ;; k" := (bindM m (fun _ => k))
  (at level 100, m at next level, right associativity) : oms_scope.

(** ** Reasoning: weakest preconditions *)

Definition wp {R A} (m : M R A) (Q : res A -> world R -> Prop) (w : world R) : Prop :=
  Q (m w).1 (m w).2.

Section Wp.
Context {R : Type} {env : Env}.
Implicit Types (w : world R).

Lemma wp_mono {A} (m : M R A) (P Q : res A -> world R -> Prop) w :
  wp m P w -> (forall r w', P r w' -> Q r w') -> wp m Q w.
Proof. unfold wp. auto. Qed.

Lemma wp_and {A} (m : M R A) (P Q : res A -> world R -> Prop) w :
  wp m P w -> wp m Q w -> wp m (fun r w' => P r w' /\ Q r w') w.
Proof. unfold wp. auto. Qed.

Lemma wp_ret {A} (a : A) Q w : Q (Ok a) w -> wp (@retM R A a) Q w.
Proof. done. Qed.

Lemma wp_bind {A B} (m : M R A) (f : A -> M R B) Q w :
  wp m (fun r w' => match r with
                    | Ok a => wp (f a) Q w'
                    | Err e => Q (Err e) w'
                    end) w ->
  wp (bindM m f) Q w.
Proof. unfold wp, bindM. by destruct (m w) as [[a|e] w']. Qed.

Lemma wp_try {A} (m : M R A) h Q w :
  wp m (fun r w' => match r with
                    | Ok a => Q (Ok a) w'
                    | Err e => wp (h e) Q w'
                    end) w ->
  wp (tryM m h) Q w.
Proof. unfold wp, tryM. by destruct (m w) as [[a|e] w']. Qed.

Lemma wp_guard b c msg Q w :
  (b = true -> Q (Ok tt) w) -> (b = false -> Q (Err (Exn c msg)) w) ->
  wp (guardM b c msg) Q w.
Proof. destruct b; unfold wp; simpl; auto. Qed.

Lemma wp_transaction {A} (m : M R A) Q w :
  w_in_tx w = false ->
  (forall e, env_begin (w_tick w) = Some e -> Q (Err e) (tick_world w)) ->
  wp m (fun r w' =>
    match r with
    | Ok a => Q (Ok a) (W (w_db w') false (w_tick w') (w_rest w'))
    | Err e => Q (Err e) (W (w_db w) false (w_tick w') (w_rest w'))
    end) (W (w_db w) true (S (w_tick w)) (w_rest w)) ->
  wp (transaction m) Q w.
Proof.
  unfold wp, transaction. intros -> He Hm.
  destruct (env_begin (w_tick w)) as [e|]; [by apply He|].
  by destruct (m _) as [[a|e] w'].
Qed.

(** The steps of a computation that succeeded. *)
Lemma bindM_ok {A B} (m : M R A) (f : A -> M R B) w b w' :
  bindM m f w = (Ok b, w') <-> exists a w1, m w = (Ok a, w1) /\ f a w1 = (Ok b, w').
Proof. unfold bindM. destruct (m w) as [[a|e] w1]; naive_solver. Qed.

Lemma guardM_ok b c msg w w' : guardM b c msg w = (Ok tt, w') <-> b = true /\ w' = w.
Proof. destruct b; unfold guardM, retM, raiseM; naive_solver. Qed.

(** A transaction that fails leaves the database as it found it. *)
Lemma transaction_atomic {A} (m : M R A) w e w' :
  transaction m w = (Err e, w') -> w_db w' = w_db w.
Proof.
  unfold transaction. intros H.
  repeat case_match; simplify_eq/=; done.
Qed.
End Wp.

(** [m] never raises class [c]. *)
Definition avoids {R A} (c : exn_class) (m : M R A) : Prop :=
  forall w x, (m w).1 = Err x -> exn_cls x <> c.

Section Avoids.
Context {R : Type} {env : Env} (c : exn_class).

Lemma avoids_ret {A} (a : A) : avoids c (@retM R A a).
Proof. by intros w x. Qed.
Lemma avoids_raise {A} c' msg : c' <> c -> avoids c (@raiseM R A c' msg).
Proof. intros Hc w x [= <-]. done. Qed.
Lemma avoids_guard b c' msg : c' <> c -> avoids c (@guardM R b c' msg).
Proof. destruct b; [intros; apply avoids_ret | apply avoids_raise]. Qed.
Lemma avoids_bind {A B} (m : M R A) (f : A -> M R B) :
  avoids c m -> (forall a, avoids c (f a)) -> avoids c (bindM m f).
Proof.
  intros Hm Hf w x. unfold bindM. specialize (Hm w).
  destruct (m w) as [[a|e] w']; [apply Hf | intros [= <-]; by apply Hm].
Qed.
Lemma avoids_try {A} (m : M R A) h :
  (forall e, exn_cls e <> c -> avoids c (h e)) -> avoids c m -> avoids c (tryM m h).
Proof.
  intros Hh Hm w x. unfold tryM. specialize (Hm w).
  destruct (m w) as [[a|e] w']; [done | by apply Hh, Hm].
Qed.
Lemma avoids_reraise {A} e : exn_cls e <> c -> avoids c (@reraise R A e).
Proof. intros He w x [= <-]. done. Qed.
Lemma avoids_lift {A} (r : res A) :
  (forall e, r = Err e -> exn_cls e <> c) -> avoids c (@lift R A r).
Proof. intros Hr w x H. by apply Hr. Qed.
Lemma avoids_read {A} (f : db -> A) : avoids c (@read_db R A f).
Proof. by intros w x. Qed.
Lemma avoids_write f : avoids c (@write_db R f).
Proof. by intros w x. Qed.
Lemma avoids_now : avoids c (@utc_now R env).
Proof. by intros w x. Qed.
Lemma avoids_in_tx : avoids c (@in_transaction R).
Proof. by intros w x. Qed.
End Avoids.

Create HintDb avoids.
#[export] Hint Resolve avoids_ret avoids_raise avoids_guard avoids_bind avoids_reraise
  avoids_read avoids_write avoids_now avoids_in_tx : avoids.

(** Walk through a computation's steps. *)
Ltac wp_step :=
  match goal with
  | |- wp (bindM _ _) _ _ => apply wp_bind
  | |- wp (retM _) _ _ => apply wp_ret
  | |- wp (tryM _ _) _ _ => apply wp_try
  | |- wp (guardM _ _ _) _ _ => apply wp_guard; intro
  | |- wp (read_db _) _ _ => unfold wp at 1; cbn [read_db fst snd]
  | |- wp (write_db _) _ _ => unfold wp at 1; cbn [write_db fst snd]
  | |- wp (read_rest _) _ _ => unfold wp at 1; cbn [read_rest fst snd]
  | |- wp (write_rest _) _ _ => unfold wp at 1; cbn [write_rest fst snd]
  | |- wp utc_now _ _ => unfold wp at 1; cbn [utc_now fst snd]
  | |- wp clock_now _ _ => unfold wp at 1; cbn [clock_now fst snd]
  | |- wp uuid4 _ _ => unfold wp at 1; cbn [uuid4 fst snd]
  | |- wp in_transaction _ _ => unfold wp at 1; cbn [in_transaction fst snd]
  | |- wp (raiseM _ _) _ _ => unfold wp at 1; cbn [raiseM fst snd]
  | |- wp (reraise _) _ _ => unfold wp at 1; cbn [reraise fst snd]
  | |- wp (lift _) _ _ => unfold wp at 1; cbn [lift fst snd]
  | |- wp _ _ _ => progress cbv beta iota zeta
  | |- match _ with Ok _ => _ | Err _ => _ end => progress cbv beta iota
  end.

(** ** A concrete environment, for evaluating the model *)

(** A clock that advances a millisecond per reading and distinct uuids. *)
Definition demo_env : Env :=
  {| env_now := fun n => DT (1750000000000000 + 1000 * Z.of_nat n) (Some 0);
     env_clock := fun n => DT (1750000000000000 + 1000 * Z.of_nat n) (Some 0);
     env_uuid := fun n => "uuid-" +:+ z_str (Z.of_nat n);
     env_begin := fun _ => None |}.

Lemma tbl_scan_insert {K V} `{Countable K} (t t' : table K V) k v :
  tbl_wf t -> tbl_insert k v t = Some t' -> tbl_scan t' = tbl_scan t ++ [(k, v)].
Proof.
  unfold tbl_insert. intros [_ Hi] Ht. case_match eqn:E; [done|]. injection Ht as <-.
  unfold tbl_scan. cbn. rewrite omap_app. cbn. rewrite lookup_insert_eq. f_equal.
  assert (Hall : forall x, x ∈ t_ids t -> x <> k) by (intros x Hx%Hi ->; rewrite E in Hx; by destruct Hx).
  clear Hi. induction (t_ids t) as [|x l IH]; [done|]. cbn.
  rewrite lookup_insert_ne by (symmetry; apply Hall; by left).
  rewrite IH by (intros y Hy; apply Hall; by right). done.
Qed.
