(* ===== verification/Leader.v ===== *)
(** * Leader: the leader lease of [oms/leader.py]

    [LeaderCoordinator] over the single row of [oms_leader]: acquire, heartbeat,
    assert_held, release, current_epoch.  The theorems show that a lease can be
    taken only from nobody or from an expired owner, that at most one session
    passes [assert_held], and that a lease once lost (fenced, released or
    expired) is lost for good whatever any session does afterwards. *)

From S2P Require Import Prelude Domain Db.
Open Scope Z_scope.
Open Scope oms_scope.

Record LeaderLease := {
  ll_session_id : string;
  ll_lease_token : string;
  ll_epoch : Z;
  ll_expires_at : datetime
}.

#[global] Instance LeaderLease_eq_dec : EqDecision LeaderLease.
Proof. solve_decision. Defined.

Section Leader.
Context {R : Type} {env : Env}.
Implicit Types (w : world R).

Definition normalize_utc (value : option datetime) : M R datetime :=
  v <- match value with Some v => retM v | None => utc_now end ;;
  do! guardM (is_aware v) ValueError "leader clock must be timezone-aware" ;;
  retM (to_utc v).

(** [_parse_time]: the stored text was written by [isoformat]. *)
Definition parse_time (value : datetime) : datetime := to_utc value.

Definition acquire (session_id : string) (lease_seconds : Z) (now : option datetime)
    : M R LeaderLease :=
  do! guardM (0 <? lease_seconds) ValueError "lease_seconds must be positive" ;;
  now_utc <- normalize_utc now ;;
  let expires_at := add_seconds now_utc lease_seconds in
  token <- uuid4 ;;
  epoch <- transaction (
    row <- read_db d_leader ;;
    match row with
    | None =>
        do! write_db (set_leader (Some
          {| l_session_id := session_id; l_lease_token := token; l_epoch := 1;
             l_acquired_at := now_utc; l_heartbeat_at := now_utc;
             l_expires_at := expires_at |})) ;;
        retM 1
    | Some row =>
        let current_expiry := parse_time (l_expires_at row) in
        do! guardM (negb (dt_ltb now_utc current_expiry)) OmsLeaderUnavailable
              ("OMS leader lease is held by session " +:+ l_session_id row) ;;
        let epoch := l_epoch row + 1 in
        do! write_db (set_leader (Some
          {| l_session_id := session_id; l_lease_token := token; l_epoch := epoch;
             l_acquired_at := now_utc; l_heartbeat_at := now_utc;
             l_expires_at := expires_at |})) ;;
        retM epoch
    end) ;;
  retM {| ll_session_id := session_id; ll_lease_token := token; ll_epoch := epoch;
          ll_expires_at := expires_at |}.

(** The row carries this lease's session, token and epoch. *)
Definition matches (row : leader_row) (lease : LeaderLease) : bool :=
  bool_decide (l_session_id row = ll_session_id lease) &&
  bool_decide (l_lease_token row = ll_lease_token lease) &&
  (l_epoch row =? ll_epoch lease).

Definition assert_held (lease : LeaderLease) (now : option datetime) : M R unit :=
  now_utc <- normalize_utc now ;;
  row <- read_db d_leader ;;
  match row with
  | None => raiseM OmsLeaderLost "OMS leader row is missing"
  | Some row =>
      do! guardM (matches row lease) OmsLeaderLost
            "OMS leader lease was fenced by another session" ;;
      guardM (negb (dt_leb (parse_time (l_expires_at row)) now_utc)) OmsLeaderLost
        "OMS leader lease has expired"
  end.

Definition heartbeat (lease : LeaderLease) (lease_seconds : Z) (now : option datetime)
    : M R LeaderLease :=
  do! guardM (0 <? lease_seconds) ValueError "lease_seconds must be positive" ;;
  now_utc <- normalize_utc now ;;
  let expires_at := add_seconds now_utc lease_seconds in
  do! transaction (
    row <- read_db d_leader ;;
    match row with
    | None => raiseM OmsLeaderLost "OMS leader row is missing"
    | Some row =>
        do! guardM (matches row lease) OmsLeaderLost
              "OMS leader lease was fenced by another session" ;;
        do! guardM (negb (dt_leb (parse_time (l_expires_at row)) now_utc)) OmsLeaderLost
              "expired OMS leader lease cannot be resurrected" ;;
        (* UPDATE ... WHERE session_id=? AND lease_token=? AND epoch=? *)
        if matches row lease then
          write_db (set_leader (Some
            {| l_session_id := l_session_id row; l_lease_token := l_lease_token row;
               l_epoch := l_epoch row; l_acquired_at := l_acquired_at row;
               l_heartbeat_at := now_utc; l_expires_at := expires_at |}))
        else retM tt
    end) ;;
  retM {| ll_session_id := ll_session_id lease; ll_lease_token := ll_lease_token lease;
          ll_epoch := ll_epoch lease; ll_expires_at := expires_at |}.

(** [DELETE ... WHERE session_id=? AND lease_token=? AND epoch=?]. *)
Definition release (lease : LeaderLease) : M R bool :=
  transaction (
    row <- read_db d_leader ;;
    match row with
    | Some row =>
        if matches row lease then
          do! write_db (set_leader None) ;; retM true
        else retM false
    | None => retM false
    end).

Definition current_epoch : M R (option Z) :=
  row <- read_db d_leader ;;
  retM (l_epoch <$> row).

(** ** The lease held at an instant *)

Definition held (lease : LeaderLease) (row : option leader_row) (t : Z) : bool :=
  match row with
  | None => false
  | Some row => matches row lease && (t <? instant (l_expires_at row))
  end.

Lemma matches_spec row lease :
  matches row lease = true <->
  l_session_id row = ll_session_id lease /\
  l_lease_token row = ll_lease_token lease /\ l_epoch row = ll_epoch lease.
Proof.
  unfold matches. rewrite !andb_true_iff, !bool_decide_eq_true, Z.eqb_eq. tauto.
Qed.

(** [assert_held] reads only: it answers from the row and never writes. *)
Lemma assert_held_run lease now w :
  is_aware now = true ->
  exists msg,
    assert_held lease (Some now) w =
    (if held lease (d_leader (w_db w)) (instant now) then Ok tt
     else Err (Exn OmsLeaderLost msg), w).
Proof.
  intros Ha. unfold assert_held, normalize_utc, bindM, guardM, retM, read_db, raiseM, held.
  rewrite Ha. simpl. destruct (d_leader (w_db w)) as [row|]; simpl; [|by eexists].
  destruct (matches row lease); simpl; [|by eexists].
  unfold dt_leb, parse_time. rewrite !instant_to_utc.
  destruct (Z.leb_spec (instant (l_expires_at row)) (instant now)),
    (Z.ltb_spec (instant now) (instant (l_expires_at row)));
    simpl; try lia; [by eexists | by exists EmptyString].
Qed.

(** Same owner: session, token and epoch. *)
Definition same_owner (a b : LeaderLease) : Prop :=
  ll_session_id a = ll_session_id b /\ ll_lease_token a = ll_lease_token b /\
  ll_epoch a = ll_epoch b.

Lemma held_same_owner a b row t t' :
  held a row t = true -> held b row t' = true -> same_owner a b.
Proof.
  unfold held, same_owner. destruct row as [row|]; [|done]. intros Ha Hb.
  bool_to_prop. rewrite matches_spec in *. destruct_and?. repeat split; congruence.
Qed.

Lemma acquire_ok sid secs now w lease w' :
  acquire sid secs (Some now) w = (Ok lease, w') ->
  is_aware now = true /\ 0 < secs /\ w_in_tx w = false /\
  ll_lease_token lease = env_uuid (w_tick w) /\ ll_session_id lease = sid /\
  match d_leader (w_db w) with
  | None => ll_epoch lease = 1
  | Some row =>
      instant (l_expires_at row) <= instant now /\ ll_epoch lease = l_epoch row + 1
  end /\
  exists row', w_db w' = set_leader (Some row') (w_db w) /\
    matches row' lease = true /\ l_expires_at row' = ll_expires_at lease /\
    instant (ll_expires_at lease) = instant now + secs * 1000000.
Proof.
  unfold acquire, normalize_utc, bindM, guardM, retM, uuid4, transaction, raiseM, read_db,
    write_db. intros H.
  destruct (Z.ltb_spec 0 secs); simpl in H; [|done].
  destruct (is_aware now); simpl in H; [|done].
  destruct (w_in_tx w); simpl in H; [done|].
  destruct (env_begin _); simpl in H; [done|].
  destruct (d_leader (w_db w)) as [row|]; simpl in H.
  - unfold dt_ltb, parse_time in H. rewrite !instant_to_utc in H.
    destruct (Z.ltb_spec (instant now) (instant (l_expires_at row))); simplify_eq/=.
    repeat split; try done. eexists. repeat split; [|by autorewrite with pydb].
    by apply matches_spec.
  - simplify_eq/=. repeat split; try done. eexists.
    repeat split; [|by autorewrite with pydb]. by apply matches_spec.
Qed.

Lemma heartbeat_ok lease secs now w lease' w' :
  heartbeat lease secs (Some now) w = (Ok lease', w') ->
  is_aware now = true /\ 0 < secs /\
  held lease (d_leader (w_db w)) (instant now) = true /\ same_owner lease' lease /\
  exists row', w_db w' = set_leader (Some row') (w_db w) /\
    matches row' lease' = true /\ l_expires_at row' = ll_expires_at lease' /\
    instant (ll_expires_at lease') = instant now + secs * 1000000.
Proof.
  unfold heartbeat, normalize_utc, bindM, guardM, retM, transaction, raiseM, read_db,
    write_db, held. intros H.
  destruct (Z.ltb_spec 0 secs); simpl in H; [|done].
  destruct (is_aware now); simpl in H; [|done].
  destruct (w_in_tx w); simpl in H; [done|].
  destruct (env_begin _); simpl in H; [done|].
  destruct (d_leader (w_db w)) as [row|]; simpl in H; [|done].
  destruct (matches row lease) eqn:Em; simpl in H; [|done].
  unfold dt_leb, parse_time in H. rewrite !instant_to_utc in H.
  destruct (Z.leb_spec (instant (l_expires_at row)) (instant now)); simplify_eq/=.
  apply matches_spec in Em as (? & ? & ?).
  repeat split; try done; [by apply Z.ltb_lt|]. eexists.
  repeat split; [|by autorewrite with pydb]. by apply matches_spec.
Qed.

Lemma release_ok lease w b w' :
  release lease w = (Ok b, w') ->
  (if b then
     w_db w' = set_leader None (w_db w) /\
     exists row, d_leader (w_db w) = Some row /\ matches row lease = true
   else w_db w' = w_db w).
Proof.
  unfold release, bindM, retM, transaction, read_db, write_db. intros H.
  destruct (w_in_tx w); simpl in H; [done|]. destruct (env_begin _); simpl in H; [done|].
  destruct (d_leader (w_db w)) as [row|] eqn:Er; simpl in H; [|by simplify_eq/=].
  destruct (matches row lease) eqn:?; simplify_eq/=; eauto.
Qed.

Lemma normalize_db now w r w' :
  normalize_utc now w = (r, w') -> w_db w' = w_db w /\ w_rest w' = w_rest w.
Proof.
  unfold normalize_utc, bindM, guardM, retM, utc_now, raiseM.
  destruct now as [n|]; simpl; destruct (is_aware _); simpl; intros H; simplify_eq/=; done.
Qed.

(** A failed call writes nothing. *)
Lemma leader_err_db :
  (forall sid secs now w e w', acquire sid secs now w = (Err e, w') -> w_db w' = w_db w) /\
  (forall l secs now w e w', heartbeat l secs now w = (Err e, w') -> w_db w' = w_db w) /\
  (forall l w e w', release l w = (Err e, w') -> w_db w' = w_db w).
Proof.
  assert (Hg : forall b c m w r w', guardM b c m w = (r, w') -> w' = w)
    by (intros [] * [= <- <-]; done).
  repeat split; intros * H.
  - unfold acquire in H. unfold bindM at 1 in H.
    destruct (guardM _ _ _ w) as [[u|?] w1] eqn:E1; apply Hg in E1; simplify_eq/=; [|done].
    unfold bindM at 1 in H.
    destruct (normalize_utc now w) as [[n|?] w2] eqn:E2;
      apply normalize_db in E2 as [E2 _]; simplify_eq/=; [|done].
    unfold bindM at 1 in H. simpl in H. unfold bindM at 1 in H.
    destruct (transaction _ _) as [[?|?] w3] eqn:E3; simplify_eq/=.
    apply transaction_atomic in E3. by rewrite E3.
  - unfold heartbeat in H. unfold bindM at 1 in H.
    destruct (guardM _ _ _ w) as [[u|?] w1] eqn:E1; apply Hg in E1; simplify_eq/=; [|done].
    unfold bindM at 1 in H.
    destruct (normalize_utc now w) as [[n|?] w2] eqn:E2;
      apply normalize_db in E2 as [E2 _]; simplify_eq/=; [|done].
    unfold bindM at 1 in H.
    destruct (transaction _ _) as [[?|?] w3] eqn:E3; simplify_eq/=.
    apply transaction_atomic in E3. by rewrite E3.
  - by apply transaction_atomic in H.
Qed.

End Leader.

(** ** Any number of sessions over the row

    A state is the shared row, the leases that calls have returned, and the
    latest instant any call was given (the clock does not run backwards).  A
    step is a successful call, made by any process with any world over the
    shared database, or the passage of time; [uuid4] returns a token that no
    lease carries yet. *)

Record lstate := LS { ls_db : db; ls_issued : list LeaderLease; ls_now : Z }.

Inductive lstep {R} {env : Env} : lstate -> lstate -> Prop :=
  | lstep_acquire d ls t (w : world R) sid secs now lease w' :
      w_db w = d -> t <= instant now ->
      acquire sid secs (Some now) w = (Ok lease, w') ->
      (forall l, l ∈ ls -> ll_lease_token l <> ll_lease_token lease) ->
      lstep (LS d ls t) (LS (w_db w') (lease :: ls) (instant now))
  | lstep_heartbeat d ls t (w : world R) lease secs now lease' w' :
      w_db w = d -> t <= instant now -> lease ∈ ls ->
      heartbeat lease secs (Some now) w = (Ok lease', w') ->
      lstep (LS d ls t) (LS (w_db w') (lease' :: ls) (instant now))
  | lstep_release d ls t (w : world R) lease b w' :
      w_db w = d -> lease ∈ ls ->
      release lease w = (Ok b, w') ->
      lstep (LS d ls t) (LS (w_db w') ls t)
  | lstep_other d ls t d' t' :
      d_leader d' = d_leader d -> t <= t' ->
      lstep (LS d ls t) (LS d' ls t').

(** The lease is lost: the row is gone, another's, or expired. *)
Definition lost (lease : LeaderLease) (s : lstate) : Prop :=
  held lease (d_leader (ls_db s)) (ls_now s) = false.

Lemma held_later lease row t t' :
  t <= t' -> held lease row t = false -> held lease row t' = false.
Proof.
  unfold held. destruct row as [row|]; [|done]. intros Ht H.
  destruct (matches row lease); [|done]. simpl in *.
  bool_to_prop. apply Z.ltb_ge. lia.
Qed.

Lemma held_now lease row t t' :
  t <= t' -> held lease row t' = true -> held lease row t = true.
Proof.
  intros Ht H. destruct (held lease row t) eqn:E; [done|].
  by rewrite (held_later _ _ _ _ Ht E) in H.
Qed.

Lemma lstep_lost {R} {env : Env} lease s s' :
  lstep (R := R) s s' -> lease ∈ ls_issued s -> lost lease s -> lost lease s'.
Proof.
  unfold lost. intros Hs Hin Hl. destruct Hs; simpl in *.
  - destruct (acquire_ok _ _ _ _ _ _ H1) as (_ & _ & _ & Htok & _ & _ & row' & Hd & Hm & _).
    rewrite Hd. simpl. destruct (matches row' lease) eqn:E; [|done].
    apply matches_spec in E, Hm. exfalso. apply (H2 _ Hin). destruct_and!; congruence.
  - destruct (heartbeat_ok _ _ _ _ _ _ H2) as (_ & _ & Hh & Hso & row' & Hd & Hm & _).
    rewrite Hd. simpl. destruct (matches row' lease) eqn:E; [|done].
    exfalso. rewrite H in Hh. apply (held_now _ _ t) in Hh; [|done].
    assert (held lease (d_leader d) t = true); [|congruence].
    unfold held in *. destruct (d_leader d) as [row|]; [|done].
    bool_to_prop. apply andb_true_iff. split; [|by apply Z.ltb_lt].
    rewrite matches_spec in *. unfold same_owner in Hso.
    destruct_and?. repeat split; congruence.
  - apply release_ok in H1. destruct b.
    + destruct H1 as [-> _]. done.
    + by rewrite H1, H.
  - rewrite H. eapply held_later; eauto.
Qed.

(** C20. Fencing is permanent.  Once a lease that was issued is lost - because it
    expired, was released, or another session took over - no sequence of
    acquires, heartbeats, releases and other writes by any session makes
    [assert_held] accept it again. *)
Theorem lost_forever {R} {env : Env} lease s s' (w : world R) now :
  lease ∈ ls_issued s -> lost lease s -> rtc (lstep (R := R)) s s' ->
  w_db w = ls_db s' -> is_aware now = true -> ls_now s' <= instant now ->
  exists msg, assert_held lease (Some now) w = (Err (Exn OmsLeaderLost msg), w).
Proof.
  intros Hin Hl Hr Hw Ha Hn.
  assert (Hl' : lost lease s').
  { clear Hw Hn. induction Hr as [|a b c Hab _ IH]; [done|].
    apply IH; [|by eapply lstep_lost].
    destruct Hab; simpl in *; set_solver. }
  destruct (assert_held_run lease now w Ha) as [msg Hm]. exists msg.
  rewrite Hm, Hw. unfold lost in Hl'. by rewrite (held_later _ _ _ _ Hn Hl').
Qed.

(** At most one owner: any two leases that [assert_held] accepts over the
    same row, at whatever instants, are the same session's under the same token
    and epoch. *)
Theorem one_leader {R} {env : Env} (w : world R) a b now now' :
  (assert_held a (Some now) w).1 = Ok tt -> (assert_held b (Some now') w).1 = Ok tt ->
  is_aware now = true -> is_aware now' = true ->
  same_owner a b.
Proof.
  intros Ha Hb Hna Hnb.
  destruct (assert_held_run a now w Hna) as [m1 H1].
  destruct (assert_held_run b now' w Hnb) as [m2 H2].
  rewrite H1 in Ha. rewrite H2 in Hb.
  eapply held_same_owner;
    [destruct (held a _ _) eqn:E | destruct (held b _ _) eqn:E]; done.
Qed.

(** ** Concrete leases *)

Definition demo_t (seconds : Z) : datetime := DT (1750000000000000 + 1000000 * seconds) (Some 0).

Definition demo_none : LeaderLease :=
  {| ll_session_id := ""; ll_lease_token := ""; ll_epoch := 0; ll_expires_at := demo_t 0 |}.

(** A takes the lease for a second; B takes it over two seconds later. *)
Definition demo_a := @acquire unit demo_env "A" 1 (Some (demo_t 0)) (W empty_db false 0 tt).
Definition demo_lease_a : LeaderLease := match demo_a.1 with Ok l => l | Err _ => demo_none end.
Definition demo_b :=
  @acquire unit demo_env "B" 1 (Some (demo_t 2)) (W (w_db demo_a.2) false 5 tt).
Definition demo_lease_b : LeaderLease := match demo_b.1 with Ok l => l | Err _ => demo_none end.

Lemma lost_forever_witness :
  exists msg, @assert_held unit demo_env demo_lease_a (Some (demo_t 3)) demo_b.2
              = (Err (Exn OmsLeaderLost msg), demo_b.2).
Proof.
  apply (@lost_forever unit demo_env demo_lease_a
    (LS (w_db demo_a.2) [demo_lease_a] (instant (demo_t 2)))
    (LS (w_db demo_b.2) [demo_lease_b; demo_lease_a] (instant (demo_t 2)))).
  - by constructor.
  - vm_compute. reflexivity.
  - apply rtc_once. apply (lstep_acquire _ _ _ (W (w_db demo_a.2) false 5 tt) "B" 1 (demo_t 2));
      [reflexivity | vm_compute; discriminate | vm_compute; reflexivity |].
    intros l ->%list_elem_of_singleton. vm_compute. discriminate.
  - reflexivity.
  - reflexivity.
  - vm_compute. discriminate.
Defined.

Definition demo_beat := @heartbeat unit demo_env demo_lease_b 1 (Some (demo_t 2)) demo_b.2.
Definition demo_lease_b' : LeaderLease := match demo_beat.1 with Ok l => l | Err _ => demo_none end.

Lemma one_leader_witness :
  (@assert_held unit demo_env demo_lease_b (Some (demo_t 2)) demo_beat.2).1 = Ok tt /\
  same_owner demo_lease_b demo_lease_b'.
Proof.
  assert (H : forall l, l ∈ [demo_lease_b; demo_lease_b'] ->
    (@assert_held unit demo_env l (Some (demo_t 2)) demo_beat.2).1 = Ok tt)
    by (apply Forall_forall; repeat constructor; vm_compute; reflexivity).
  split; [apply H; by left|].
  apply (@one_leader unit demo_env demo_beat.2 _ _ (demo_t 2) (demo_t 2));
    [apply H; by left | apply H; by right; left | reflexivity | reflexivity].
Defined.
