(* ===== verification/Repository.v ===== *)
(** * Repository: the order store of [oms/repository.py]

    [OmsRepository]: the in-transaction writers and the public operations that
    wrap them in [transaction].  [write_guard] is the callable bound by
    [bind_write_guard] ([None] before it).  The pure part of
    [_transition_in_tx], from the checks to the outcome, is [decide_transition].
    Messages nobody reads are shortened; those that are recorded or inspected
    are the code's. *)

From S2P Require Import Prelude Decimal Json Domain Db.
Open Scope Z_scope.
Open Scope py_scope.

Definition broker_terminals : list OrderStatus := [FILLED; CANCELLED; REJECTED].

(** [_normalize_broker_status]. *)
Definition normalize_broker_status (target : OrderStatus)
    (effective_filled order_quantity : Z) : res OrderStatus :=
  if bool_decide (target = FILLED) && negb (effective_filled =? order_quantity) then
    raise InvalidFilledQuantity
      "FILLED broker status requires filled_quantity equal to order quantity"
  else if bool_decide (target = REJECTED) && negb (effective_filled =? 0) then
    raise InvalidFilledQuantity
      "REJECTED broker status cannot coexist with a positive filled quantity"
  else if bool_decide (target = CANCELLED) && (effective_filled =? order_quantity) then
    raise InvalidFilledQuantity
      "CANCELLED broker status requires filled_quantity below order quantity"
  else if status_in target [ACKNOWLEDGED; PARTIALLY_FILLED] then
    if effective_filled =? order_quantity then Ok FILLED
    else if 0 <? effective_filled then Ok PARTIALLY_FILLED
    else if bool_decide (target = PARTIALLY_FILLED) then
      raise InvalidFilledQuantity
        "PARTIALLY_FILLED broker status requires a positive filled quantity"
    else Ok target
  else Ok target.

(** [_aggregate_broker_status]. *)
Definition aggregate_broker_status (current target : OrderStatus) : TransitionOutcome :=
  let next_status :=
    if bool_decide (current = MANUAL_REVIEW) then current
    else if status_in current broker_terminals then current
    else if bool_decide (target = ACKNOWLEDGED)
            && status_in current [PARTIALLY_FILLED; CANCEL_PENDING] then current
    else target in
  let disposition :=
    if bool_decide (next_status = current) then
      if bool_decide (target = current) then DUPLICATE_IGNORED else STALE_IGNORED
    else APPLIED in
  outcome_of current next_status target disposition (negb (bool_decide (next_status = current))).

(** [current] and [target] are different broker terminals. *)
Definition terminal_conflict (current target : OrderStatus) : bool :=
  status_in current broker_terminals && status_in target broker_terminals
  && negb (bool_decide (current = target)).

Definition lifecycle_conflict_msg (current target : OrderStatus) : string :=
  "terminal broker fact conflict: " +:+ status_str current +:+ " -> " +:+ status_str target.

Definition filled_range_msg (filled quantity : Z) : string :=
  "filled_quantity " +:+ z_str filled +:+ " is outside [0, " +:+ z_str quantity +:+ "]".

(** [_transition_in_tx] from the identity check to the outcome: the outcome,
    the effective fill and the normalized target, or the exception. *)
Definition decide_transition (current : OrderStatus) (current_broker_order_id : option string)
    (current_filled order_quantity : Z) (target : OrderStatus)
    (broker_order_id : option string) (filled_quantity : option Z) (broker_fact : bool)
    : res (TransitionOutcome * Z * OrderStatus) :=
  do! guard_r match broker_order_id, current_broker_order_id with
              | Some b, Some c => bool_decide (b = c)
              | _, _ => true
              end BrokerOrderIdMismatch "broker order identity changed" ;;
  do! guard_r (negb (broker_fact && terminal_conflict current target))
        BrokerLifecycleConflict (lifecycle_conflict_msg current target) ;;
  norm <- match filled_quantity with
          | None => Ok (current_filled, target)
          | Some filled =>
              do! guard_r (negb ((filled <? 0) || (order_quantity <? filled)))
                    InvalidFilledQuantity (filled_range_msg filled order_quantity) ;;
              let effective := Z.max current_filled filled in
              normalized <- normalize_broker_status target effective order_quantity ;;
              Ok (effective, normalized)
          end ;;
  let '(effective, normalized) := norm in
  do! guard_r (negb (broker_fact && terminal_conflict current normalized))
        BrokerLifecycleConflict (lifecycle_conflict_msg current normalized) ;;
  do! guard_r (negb (broker_fact && status_in current [CANCELLED; REJECTED]
                     && (current_filled <? effective)))
        BrokerLifecycleConflict
        ("terminal broker fact gained fill: " +:+ z_str current_filled +:+ " -> "
           +:+ z_str effective) ;;
  outcome <- (if broker_fact then Ok (aggregate_broker_status current normalized)
              else transition current normalized) ;;
  Ok (outcome, effective, normalized).

Close Scope py_scope.
Open Scope oms_scope.

Section Repository.
Context {R : Type} {env : Env} (write_guard : option (M R unit)).
Implicit Types (w : world R) (k : okey).

Definition guard_write_in_tx : M R unit :=
  tx <- in_transaction ;;
  do! guardM tx RuntimeError "write guard requires an active transaction" ;;
  match write_guard with Some g => g | None => retM tt end.

Definition require_tx (what : string) : M R unit :=
  tx <- in_transaction ;;
  guardM tx RuntimeError (what +:+ " requires an active transaction").

(** ** Reading *)

Definition get_order_row k : M R order_row :=
  row <- read_db (fun d => tbl_get (d_orders d) k) ;;
  match row with
  | Some r => retM r
  | None => raiseM OrderNotFound k.2
  end.

Definition get_status k : M R OrderStatus :=
  row <- read_db (fun d => tbl_get (d_orders d) k) ;;
  match row with
  | Some r => retM (o_status r)
  | None => raiseM OrderNotFound k.2
  end.

Definition get_status_in_tx k : M R OrderStatus :=
  row <- read_db (fun d => tbl_get (d_orders d) k) ;;
  match row with
  | Some r => retM (o_status r)
  | None => raiseM OrderNotFound k.2
  end.

(** The order joined with its intent's quantity. *)
Definition order_context (d : db) k : option (order_row * Z) :=
  match tbl_get (d_orders d) k, tbl_get (d_intents d) k with
  | Some r, Some i => Some (r, i_quantity i)
  | _, _ => None
  end.

Definition get_order_context_in_tx k : M R (order_row * Z) :=
  row <- read_db (fun d => order_context d k) ;;
  match row with
  | Some r => retM r
  | None => raiseM OrderNotFound k.2
  end.

Definition recovery_candidate (r : order_row) : bool :=
  status_in (o_status r)
    [CREATED; RISK_ACCEPTED; SUBMITTING; CANCEL_PENDING; UNKNOWN; RECONCILING]
  || (o_cancel_call_started r && negb (o_cancel_outcome_resolved r)).

Definition candidates_of (d : db) : list (okey * order_row) :=
  List.filter (fun p => recovery_candidate p.2) (tbl_scan (d_orders d)).

Definition list_recovery_candidates : M R (list (okey * order_row)) :=
  read_db candidates_of.

Definition list_events k : M R (list event_row) :=
  read_db (fun d => List.filter (fun e => bool_decide (e_key e = k)) (d_events d)).

(** ** Writing rows *)

Definition insert_event k (event_type : string) (from_status : option OrderStatus)
    (to_status : OrderStatus) (disposition : TransitionDisposition)
    (evidence : jdict) : M R unit :=
  t <- utc_now ;;
  fk <- read_db (fun d => tbl_get (d_intents d) k) ;;
  do! guardM (bool_decide (is_Some fk)) SqliteIntegrityError "FOREIGN KEY constraint failed" ;;
  write_db (fun d => set_events (d_events d ++
    [{| e_key := k; e_event_type := event_type; e_from_status := from_status;
        e_to_status := to_status; e_disposition := disposition;
        e_evidence_json := dumps true (JObj evidence); e_created_at := t |}]) d).

Definition update_order k (f : order_row -> order_row) : M R unit :=
  write_db (fun d => set_orders (tbl_update k f (d_orders d)) d).

(** ** Sessions *)

Definition start_session (session_id : string) : M R unit :=
  transaction (
    do! guard_write_in_tx ;;
    t <- utc_now ;;
    ins <- read_db (fun d => tbl_insert session_id
             {| s_started_at := t; s_reconciled_at := None |} (d_sessions d)) ;;
    match ins with
    | Some x => write_db (set_sessions x)
    | None => raiseM SqliteIntegrityError "UNIQUE constraint failed"
    end).

Definition mark_session_reconciled (session_id : string) : M R unit :=
  transaction (
    do! guard_write_in_tx ;;
    t <- utc_now ;;
    write_db (fun d => set_sessions (tbl_update session_id
      (fun s => {| s_started_at := s_started_at s; s_reconciled_at := Some t |})
      (d_sessions d)) d)).

(** ** Intents and risk decisions *)

Definition intent_row_of (i : OrderIntent) : intent_row :=
  {| i_strategy_id := oi_strategy_id i; i_strategy_version := oi_strategy_version i;
     i_symbol := oi_symbol i; i_side := side_str (oi_side i);
     i_order_type := order_type_str (oi_order_type i); i_quantity := oi_quantity i;
     i_limit_price := Dec.to_str (oi_limit_price i); i_created_at := oi_created_at i;
     i_expires_at := oi_expires_at i; i_signal_id := oi_signal_id i;
     i_reason_code := oi_reason_code i |}.

Definition new_order_row (t : datetime) : order_row :=
  {| o_status := CREATED; o_broker_order_id := None; o_filled_quantity := 0;
     o_submit_call_started := false; o_cancel_call_started := false;
     o_cancel_outcome_resolved := false; o_updated_at := t |}.

(** The primary key or the check [quantity > 0] failing is the
    [IntegrityError] that becomes [DuplicateClientOrderId]. *)
Definition create_intent (intent : OrderIntent) : M R unit :=
  let k := oi_key intent in
  transaction (
    do! guard_write_in_tx ;;
    ins <- read_db (fun d =>
      if 0 <? oi_quantity intent then tbl_insert k (intent_row_of intent) (d_intents d)
      else None) ;;
    do! match ins with
        | Some x => write_db (set_intents x)
        | None => raiseM DuplicateClientOrderId (oi_client_order_id intent)
        end ;;
    t <- utc_now ;;
    ins <- read_db (fun d => tbl_insert k (new_order_row t) (d_orders d)) ;;
    do! match ins with
        | Some x => write_db (set_orders x)
        | None => raiseM SqliteIntegrityError "UNIQUE constraint failed"
        end ;;
    insert_event k "INTENT_CREATED" None CREATED APPLIED
      [("signal_id"%string, JStr (oi_signal_id intent))]).

(** ** The transition of one order *)

(** What [UPDATE broker_orders SET ...] of [_transition_in_tx] does to the
    row; [t] is the time of the update. *)
Definition apply_transition (o : TransitionOutcome) (effective : Z)
    (broker_order_id : option string) (cancel_outcome_resolved : option bool)
    (t : datetime) (r : order_row) : order_row :=
  {| o_status := if to_changed o then to_current o else o_status r;
     o_broker_order_id :=
       match o_broker_order_id r with Some b => Some b | None => broker_order_id end;
     o_filled_quantity := effective;
     o_submit_call_started := o_submit_call_started r;
     o_cancel_call_started := o_cancel_call_started r;
     o_cancel_outcome_resolved := default (o_cancel_outcome_resolved r) cancel_outcome_resolved;
     o_updated_at := if to_changed o then t else o_updated_at r |}.

Definition event_evidence (evidence : jdict) (filled_quantity : option Z) (effective : Z)
    (target normalized : OrderStatus) : jdict :=
  let e := match filled_quantity with
           | Some f =>
               dict_setdefault "effective_filled_quantity" (JInt effective)
                 (dict_setdefault "reported_filled_quantity" (JInt f) evidence)
           | None => evidence
           end in
  if bool_decide (normalized = target) then e
  else dict_setdefault "normalized_status" (JStr (status_str normalized))
         (dict_setdefault "reported_status" (JStr (status_str target)) e).

Definition transition_in_tx k (target : OrderStatus) (event_type : string)
    (evidence : jdict) (broker_order_id : option string) (filled_quantity : option Z)
    (cancel_outcome_resolved : option bool) (broker_fact : bool) : M R TransitionOutcome :=
  ctx <- get_order_context_in_tx k ;;
  let '(row, quantity) := ctx in
  let current := o_status row in
  dec <- lift (decide_transition current (o_broker_order_id row) (o_filled_quantity row)
                 quantity target broker_order_id filled_quantity broker_fact) ;;
  let '(outcome, effective, normalized) := dec in
  t <- (if to_changed outcome then utc_now else retM (o_updated_at row)) ;;
  do! update_order k (apply_transition outcome effective broker_order_id
                        cancel_outcome_resolved t) ;;
  do! insert_event k event_type (Some current) (to_current outcome)
        (to_disposition outcome)
        (event_evidence evidence filled_quantity effective target normalized) ;;
  retM outcome.

Definition record_risk_decision k (decision : RiskDecision) : M R OrderStatus :=
  transaction (
    do! guard_write_in_tx ;;
    fk <- read_db (fun d => tbl_get (d_intents d) k) ;;
    do! guardM (bool_decide (is_Some fk)) SqliteIntegrityError
          "FOREIGN KEY constraint failed" ;;
    ins <- read_db (fun d => tbl_insert k
      {| r_accepted := rd_accepted decision;
         r_reason_code := reason_str (rd_reason_code decision);
         r_rule_version := rd_rule_version decision;
         r_snapshot_hash := rd_snapshot_hash decision;
         r_decided_at := rd_decided_at decision |} (d_risk d)) ;;
    do! match ins with
        | Some x => write_db (set_risk x)
        | None => raiseM SqliteIntegrityError "UNIQUE constraint failed"
        end ;;
    let target := if rd_accepted decision then RISK_ACCEPTED else RISK_REJECTED in
    outcome <- transition_in_tx k target "RISK_DECISION"
      [("reason_code"%string, JStr (reason_str (rd_reason_code decision)))]
      None None None false ;;
    retM (to_current outcome)).

(** ** Reservations *)

Definition prepare_submit_in_tx k : M R unit :=
  do! require_tx "prepare_submit_in_tx" ;;
  do! guard_write_in_tx ;;
  current <- get_status_in_tx k ;;
  outcome <- lift (transition current SUBMITTING) ;;
  do! guardM (to_changed outcome) SubmitAlreadyStarted k.2 ;;
  t <- utc_now ;;
  row <- read_db (fun d => tbl_get (d_orders d) k) ;;
  let rowcount := match row with
                  | Some r => negb (o_submit_call_started r)
                  | None => false
                  end in
  do! (if rowcount then
         update_order k (fun r =>
           {| o_status := SUBMITTING; o_broker_order_id := o_broker_order_id r;
              o_filled_quantity := o_filled_quantity r; o_submit_call_started := true;
              o_cancel_call_started := o_cancel_call_started r;
              o_cancel_outcome_resolved := o_cancel_outcome_resolved r;
              o_updated_at := t |})
       else retM tt) ;;
  do! guardM rowcount SubmitAlreadyStarted k.2 ;;
  insert_event k "SUBMIT_RESERVED" (Some current) SUBMITTING (to_disposition outcome)
    [("submit_call_started"%string, JBool true)].

Definition prepare_submit k : M R unit := transaction (prepare_submit_in_tx k).

Definition prepare_cancel_in_tx k : M R unit :=
  do! require_tx "prepare_cancel_in_tx" ;;
  do! guard_write_in_tx ;;
  current <- get_status_in_tx k ;;
  outcome <- lift (transition current CANCEL_PENDING) ;;
  do! guardM (to_changed outcome) CancelAlreadyStarted k.2 ;;
  t <- utc_now ;;
  row <- read_db (fun d => tbl_get (d_orders d) k) ;;
  let rowcount := match row with
                  | Some r => negb (o_cancel_call_started r)
                  | None => false
                  end in
  do! (if rowcount then
         update_order k (fun r =>
           {| o_status := CANCEL_PENDING; o_broker_order_id := o_broker_order_id r;
              o_filled_quantity := o_filled_quantity r;
              o_submit_call_started := o_submit_call_started r;
              o_cancel_call_started := true; o_cancel_outcome_resolved := false;
              o_updated_at := t |})
       else retM tt) ;;
  do! guardM rowcount CancelAlreadyStarted k.2 ;;
  insert_event k "CANCEL_RESERVED" (Some current) CANCEL_PENDING (to_disposition outcome)
    [("cancel_call_started"%string, JBool true);
     ("cancel_outcome_resolved"%string, JBool false)].

Definition prepare_cancel k : M R unit := transaction (prepare_cancel_in_tx k).

(** ** Manual review, transitions, broker facts *)

Definition mark_manual_review_in_tx k (event_type reason : string) (evidence : jdict)
    (cancel_outcome_resolved : option bool) : M R unit :=
  do! require_tx "mark_manual_review_in_tx" ;;
  do! guard_write_in_tx ;;
  ctx <- get_order_context_in_tx k ;;
  let current := o_status ctx.1 in
  t <- utc_now ;;
  do! update_order k (fun r =>
        {| o_status := MANUAL_REVIEW; o_broker_order_id := o_broker_order_id r;
           o_filled_quantity := o_filled_quantity r;
           o_submit_call_started := o_submit_call_started r;
           o_cancel_call_started := o_cancel_call_started r;
           o_cancel_outcome_resolved :=
             default (o_cancel_outcome_resolved r) cancel_outcome_resolved;
           o_updated_at := t |}) ;;
  insert_event k event_type (Some current) MANUAL_REVIEW APPLIED
    (dict_set "reason" (JStr reason) evidence).

Definition transition_order k (target : OrderStatus) (event_type : string)
    (evidence : jdict) (broker_order_id : option string) (filled_quantity : option Z)
    (cancel_outcome_resolved : option bool) : M R TransitionOutcome :=
  transaction (
    do! guard_write_in_tx ;;
    transition_in_tx k target event_type evidence broker_order_id filled_quantity
      cancel_outcome_resolved false).

Definition merge_broker_fact_in_tx k (target : OrderStatus) (event_type : string)
    (evidence : jdict) (broker_order_id : option string) (filled_quantity : option Z)
    (cancel_outcome_resolved : option bool) : M R TransitionOutcome :=
  do! require_tx "merge_broker_fact_in_tx" ;;
  do! guard_write_in_tx ;;
  transition_in_tx k target event_type evidence broker_order_id filled_quantity
    cancel_outcome_resolved true.

Definition mark_broker_conflict_manual_review_in_tx k (reason : string) (evidence : jdict)
    (filled_quantity : option Z) : M R unit :=
  do! require_tx "manual-review conflict write" ;;
  do! guard_write_in_tx ;;
  ctx <- get_order_context_in_tx k ;;
  let '(row, quantity) := ctx in
  effective <- match filled_quantity with
               | None => retM (o_filled_quantity row)
               | Some f =>
                   do! guardM (negb ((f <? 0) || (quantity <? f))) InvalidFilledQuantity
                         (filled_range_msg f quantity) ;;
                   retM (Z.max (o_filled_quantity row) f)
               end ;;
  t <- utc_now ;;
  do! update_order k (fun r =>
        {| o_status := MANUAL_REVIEW; o_broker_order_id := o_broker_order_id r;
           o_filled_quantity := effective;
           o_submit_call_started := o_submit_call_started r;
           o_cancel_call_started := o_cancel_call_started r;
           o_cancel_outcome_resolved := o_cancel_outcome_resolved r;
           o_updated_at := t |}) ;;
  insert_event k "BROKER_EVIDENCE_CONFLICT_MANUAL_REVIEW" (Some (o_status row))
    MANUAL_REVIEW APPLIED
    (dict_set "effective_filled_quantity" (JInt effective)
       (dict_set "reason" (JStr reason) evidence)).

Definition record_execution_reconciliation_in_tx k (event_type : string) (evidence : jdict)
    (begin_reconciling : bool) : M R TransitionOutcome :=
  do! require_tx "record_execution_reconciliation_in_tx" ;;
  do! guard_write_in_tx ;;
  current <- get_status_in_tx k ;;
  let target :=
    if begin_reconciling then
      if status_in current [SUBMITTING; CANCEL_PENDING] then UNKNOWN
      else if bool_decide (current = UNKNOWN) then RECONCILING
      else current
    else current in
  transition_in_tx k target event_type evidence None None None false.

End Repository.
