(* ===== verification/OrderStore.v ===== *)
(** * OrderStore: what the repository's writers do to the order rows

    Every writer of [Repository] that succeeds replaces one row and appends one
    event ([wrote]), and the row moves by one rule of [order_change]: the
    abstract specification of an order row.  The row invariant [order_ok] is
    proved once on [order_change]; the database invariant [orders_inv] (rows,
    foreign keys, the chained event log) once on [wrote]. *)

From S2P Require Import Prelude Decimal Json Domain Db Leader Repository.
Open Scope Z_scope.

(** ** Abstract rows *)

(** A quantity-[q] order's fill and reservations agree with its status. *)
Record order_ok (q : Z) (r : order_row) : Prop := {
  ok_quantity : 0 < q;
  ok_filled : 0 <= o_filled_quantity r <= q;
  ok_pre : status_in (o_status r) [CREATED; RISK_ACCEPTED] = true ->
           o_submit_call_started r = false /\ o_cancel_call_started r = false /\
           o_broker_order_id r = None /\ o_filled_quantity r = 0;
  ok_submitting : o_status r = SUBMITTING -> o_submit_call_started r = true;
  ok_cancel_pending : o_status r = CANCEL_PENDING -> o_cancel_call_started r = true;
  ok_cancel : o_cancel_call_started r = true ->
              status_in (o_status r) [CREATED; RISK_ACCEPTED; RISK_REJECTED; ABORTED; SUBMITTING]
              = false;
  ok_acked : o_status r = ACKNOWLEDGED -> o_filled_quantity r = 0;
  ok_partial : o_status r = PARTIALLY_FILLED -> 0 < o_filled_quantity r < q;
  ok_full : o_status r = FILLED -> o_filled_quantity r = q;
  ok_cancelled : status_in (o_status r) [CANCELLED; CANCEL_PENDING; UNKNOWN; RECONCILING] = true ->
                 o_filled_quantity r < q;
  ok_rejected : status_in (o_status r) [REJECTED; SUBMITTING; RISK_REJECTED; ABORTED] = true ->
                o_filled_quantity r = 0
}.

(** The statuses a broker fact can report. *)
Definition lifecycle_statuses : list OrderStatus :=
  [ACKNOWLEDGED; PARTIALLY_FILLED; FILLED; CANCELLED; REJECTED].

(** One write to a row of quantity [q]. *)
Inductive order_change (q : Z) (r : order_row) : order_row -> Prop :=
  | change_submit t :
      o_status r = RISK_ACCEPTED -> o_submit_call_started r = false ->
      order_change q r
        {| o_status := SUBMITTING; o_broker_order_id := o_broker_order_id r;
           o_filled_quantity := o_filled_quantity r; o_submit_call_started := true;
           o_cancel_call_started := o_cancel_call_started r;
           o_cancel_outcome_resolved := o_cancel_outcome_resolved r; o_updated_at := t |}
  | change_cancel t :
      status_in (o_status r) [ACKNOWLEDGED; PARTIALLY_FILLED] = true ->
      o_cancel_call_started r = false ->
      order_change q r
        {| o_status := CANCEL_PENDING; o_broker_order_id := o_broker_order_id r;
           o_filled_quantity := o_filled_quantity r;
           o_submit_call_started := o_submit_call_started r;
           o_cancel_call_started := true; o_cancel_outcome_resolved := false;
           o_updated_at := t |}
  | change_fsm target o eff norm cor t :
      decide_transition (o_status r) (o_broker_order_id r) (o_filled_quantity r) q target
        None None false = Ok (o, eff, norm) ->
      (to_changed o = true ->
       status_in target [RISK_REJECTED; RISK_ACCEPTED; ABORTED; UNKNOWN; RECONCILING;
                         MANUAL_REVIEW] = true \/
       (target = CANCEL_PENDING /\ o_cancel_call_started r = true)) ->
      order_change q r (apply_transition o eff None cor t r)
  | change_fact target o eff norm b f cor t :
      decide_transition (o_status r) (o_broker_order_id r) (o_filled_quantity r) q target
        b (Some f) true = Ok (o, eff, norm) ->
      status_in target lifecycle_statuses = true ->
      order_change q r (apply_transition o eff b cor t r)
  | change_review eff cor t :
      o_filled_quantity r <= eff <= q ->
      order_change q r
        {| o_status := MANUAL_REVIEW; o_broker_order_id := o_broker_order_id r;
           o_filled_quantity := eff; o_submit_call_started := o_submit_call_started r;
           o_cancel_call_started := o_cancel_call_started r;
           o_cancel_outcome_resolved := cor; o_updated_at := t |}.

(** ** The pure decision *)

Lemma decide_fsm current cb cf q target o eff norm :
  decide_transition current cb cf q target None None false = Ok (o, eff, norm) <->
  transition current target = Ok o /\ eff = cf /\ norm = target.
Proof.
  unfold decide_transition. simpl. destruct (transition current target); simpl; naive_solver.
Qed.

Lemma decide_fact current cb cf q target b f o eff norm :
  decide_transition current cb cf q target b (Some f) true = Ok (o, eff, norm) <->
  match b, cb with Some x, Some y => x = y | _, _ => True end /\
  0 <= f <= q /\ eff = Z.max cf f /\
  normalize_broker_status target eff q = Ok norm /\
  terminal_conflict current target = false /\ terminal_conflict current norm = false /\
  (status_in current [CANCELLED; REJECTED] = true -> eff = cf) /\
  o = aggregate_broker_status current norm.
Proof.
  unfold decide_transition, guard_r, raise. simpl.
  match goal with |- context [if ?x then Ok tt else _] => set (id_ok := x) end.
  assert (Hid : id_ok = true <->
                match b, cb with Some x, Some y => x = y | _, _ => True end).
  { unfold id_ok. repeat case_match; try tauto. apply bool_decide_eq_true. }
  rewrite <- Hid. clearbody id_ok. clear Hid.
  assert (Hr : (f <? 0) || (q <? f) = false <-> 0 <= f <= q)
    by (rewrite orb_false_iff, !Z.ltb_ge; tauto).
  rewrite <- Hr.
  destruct id_ok; simpl; [|iff_crush].
  destruct (terminal_conflict current target); simpl; [iff_crush|].
  destruct ((f <? 0) || (q <? f)); simpl; [iff_crush|].
  destruct (normalize_broker_status target (cf `max` f) q) as [n|] eqn:En; simpl;
    [|iff_crush].
  assert (Hlt : (cf <? cf `max` f) = false <-> cf `max` f = cf) by (rewrite Z.ltb_ge; lia).
  destruct (terminal_conflict current n) eqn:Ec; simpl; [iff_crush|].
  destruct (status_in current [CANCELLED; REJECTED]); simpl.
  - destruct (cf <? cf `max` f) eqn:El; simpl.
    + split; [done|]. intros (_ & _ & -> & _ & _ & _ & Hg & _).
      discriminate (proj2 Hlt (Hg eq_refl)).
    + clear Hlt. apply Z.ltb_ge in El. assert (cf `max` f = cf) by lia.
      split; intros; destruct_and?; simplify_eq; repeat split; congruence.
  - split; intros; destruct_and?; simplify_eq; repeat split; congruence.
Qed.

Lemma decide_outcome current cb cf q target b f bf o eff norm :
  decide_transition current cb cf q target b f bf = Ok (o, eff, norm) ->
  if bf then o = aggregate_broker_status current norm
  else transition current norm = Ok o.
Proof.
  unfold decide_transition. intros H. inv_ok.
  match goal with p : (Z * OrderStatus)%type |- _ => destruct p as [e n] end.
  inv_ok. destruct bf; inv_ok; done.
Qed.

(** The status left by a merged fact, for a well-formed row. *)
Lemma normalize_ok target eff q norm :
  status_in target lifecycle_statuses = true ->
  0 <= eff <= q -> 0 < q ->
  normalize_broker_status target eff q = Ok norm ->
  status_in norm lifecycle_statuses = true /\
  (norm = ACKNOWLEDGED -> eff = 0) /\ (norm = PARTIALLY_FILLED -> 0 < eff < q) /\
  (norm = FILLED -> eff = q) /\ (norm = CANCELLED -> eff < q) /\
  (norm = REJECTED -> eff = 0).
Proof.
  intros Hl He Hq Hn. unfold normalize_broker_status, raise in Hn.
  destruct target; try discriminate Hl; cbn in Hn;
    repeat (case_match; bool_to_prop; simplify_eq/=); repeat split; intros; try done; lia.
Qed.

(** ** The row invariant *)

(** Read the clauses that apply to the row's status. *)
Ltac row_facts :=
  repeat match goal with
  | H : ?a = ?a -> _ |- _ => specialize (H eq_refl)
  | H : true = false -> _ |- _ => clear H
  | H : false = true -> _ |- _ => clear H
  | H : ?a = ?b -> _ |- _ => is_constructor a; is_constructor b; clear H
  end; destruct_and?.

Ltac row_ok :=
  constructor; cbn in *; intros; red_status; row_facts; subst;
  try done; try lia; try congruence.

Lemma order_change_ok_fsm q r target o cor t :
  order_ok q r -> transition (o_status r) target = Ok o ->
  (to_changed o = true ->
   status_in target [RISK_REJECTED; RISK_ACCEPTED; ABORTED; UNKNOWN; RECONCILING;
                     MANUAL_REVIEW] = true \/
   (target = CANCEL_PENDING /\ o_cancel_call_started r = true)) ->
  order_ok q (apply_transition o (o_filled_quantity r) None cor t r).
Proof.
  intros [] Ho Ht.
  destruct r as [st boid filled sub can rsv t0]; cbn in *.
  destruct (to_changed o) eqn:Ec.
  - specialize (Ht eq_refl).
    destruct (transition_changed _ _ _ Ho Ec) as (Hc & _ & Ha).
    unfold apply_transition. rewrite Ec, Hc. clear Ho Ec Hc.
    destruct st; try discriminate Ha; destruct target; try discriminate Ha;
      (destruct Ht as [Ht|[Ht Ht']]; [try discriminate Ht | try discriminate Ht]);
      destruct boid; row_ok.
  - unfold apply_transition. rewrite Ec. cbn. destruct boid; constructor; cbn; auto.
Qed.

Lemma order_change_ok_fact q r target o eff norm b f cor t :
  order_ok q r ->
  decide_transition (o_status r) (o_broker_order_id r) (o_filled_quantity r) q target
    b (Some f) true = Ok (o, eff, norm) ->
  status_in target lifecycle_statuses = true ->
  order_ok q (apply_transition o eff b cor t r).
Proof.
  intros Hok Hd Hl. apply decide_fact in Hd as (_ & Hf & Heff & Hn & _ & Ht & Hg & ->).
  assert (0 <= eff <= q /\ 0 < q) as [He Hq] by (destruct Hok; lia).
  destruct (normalize_ok _ _ _ _ Hl He Hq Hn) as (Hln & Hack & Hpar & Hful & Hcan & Hrej).
  clear Hn Hl. assert (o_filled_quantity r <= eff) by lia. clear Heff Hf.
  destruct Hok.
  destruct r as [st boid filled sub can rsv t0]; cbn in *.
  destruct norm; try discriminate Hln; row_facts;
  destruct st; try discriminate Ht; red_status; row_facts;
    unfold apply_transition, aggregate_broker_status; red_status;
    destruct boid, cor; row_ok.
Qed.

Lemma order_change_ok q r r' : order_ok q r -> order_change q r r' -> order_ok q r'.
Proof.
  intros Hok Hc. destruct Hc.
  - destruct Hok, r; cbn in *; subst. row_ok.
  - destruct Hok, r as [st ? ? ? ? ? ?]; cbn in *; destruct st; try discriminate; row_ok.
  - apply decide_fsm in H as (Ho & -> & ->). by eapply order_change_ok_fsm.
  - by eapply order_change_ok_fact.
  - destruct Hok. row_ok.
Qed.

(** A row's broker identity is write-once, its fill never shrinks, and its
    submit and cancel reservations are never taken back. *)
Lemma order_change_monotone q r r' :
  order_ok q r -> order_change q r r' ->
  o_filled_quantity r <= o_filled_quantity r' /\
  (forall b, o_broker_order_id r = Some b -> o_broker_order_id r' = Some b) /\
  (o_submit_call_started r = true -> o_submit_call_started r' = true) /\
  (o_cancel_call_started r = true -> o_cancel_call_started r' = true).
Proof.
  intros Hok Hc. destruct Hc; cbn; try (repeat split; auto; lia).
  - apply decide_fsm in H as (_ & -> & _). repeat split; auto; [lia|]. by intros b ->.
  - apply decide_fact in H as (_ & _ & -> & _). repeat split; auto; [lia|]. by intros b' ->.
Qed.

(** ** One write to the store *)

Definition put_order (k : okey) (r' : order_row) (e : event_row) (d : db) : db :=
  set_events (d_events d ++ [e]) (set_orders (tbl_update k (fun _ => r') (d_orders d)) d).

(** The row [r] of key [k], of quantity [q], became [r'] and the event of the
    move was appended. *)
Definition wrote (k : okey) (q : Z) (r r' : order_row) (d d' : db) : Prop :=
  order_context d k = Some (r, q) /\
  exists e, d' = put_order k r' e d /\ e_key e = k /\
    e_from_status e = Some (o_status r) /\ e_to_status e = o_status r'.

(** The events of one order, and what a complete log of it looks like: each
    event starts from the status the previous one left. *)
Definition events_of (k : okey) (d : db) : list event_row :=
  List.filter (fun e => bool_decide (e_key e = k)) (d_events d).

Inductive log_ok : list event_row -> option OrderStatus -> Prop :=
  | log_nil : log_ok [] None
  | log_snoc l e : log_ok l (e_from_status e) -> log_ok (l ++ [e]) (Some (e_to_status e)).

Record orders_inv (d : db) : Prop := {
  inv_intents : tbl_wf (d_intents d);
  inv_orders : tbl_wf (d_orders d);
  inv_rows : forall k r, tbl_get (d_orders d) k = Some r ->
    exists i, tbl_get (d_intents d) k = Some i /\ order_ok (i_quantity i) r;
  inv_log : forall k, log_ok (events_of k d) (o_status <$> tbl_get (d_orders d) k)
}.

Lemma tbl_update_const {K V} `{Countable K} (k : K) (f : V -> V) v (t : table K V) :
  tbl_get t k = Some v -> tbl_update k f t = tbl_update k (fun _ => f v) t.
Proof.
  intros Hg. unfold tbl_update. f_equal. apply map_eq. intros k'.
  rewrite !lookup_alter. case_decide; [|done]. subst. unfold tbl_get in Hg. by rewrite Hg.
Qed.

Lemma order_context_get d k r q :
  order_context d k = Some (r, q) ->
  tbl_get (d_orders d) k = Some r /\
  exists i, tbl_get (d_intents d) k = Some i /\ i_quantity i = q.
Proof. unfold order_context. repeat case_match; naive_solver. Qed.

Definition frame {R} (w w' : world R) : Prop :=
  w_in_tx w' = w_in_tx w /\ w_rest w' = w_rest w.

(** A computation that may only read, and tick. *)
Definition quiet {R A} (m : M R A) : Prop :=
  forall w, wp m (fun _ w' => w_db w' = w_db w /\ frame w w') w.

Section Quiet.
Context {R : Type} {env : Env}.

Lemma quiet_ret {A} (a : A) : quiet (R := R) (retM a).
Proof. intros w. by repeat wp_step. Qed.
Lemma quiet_raise {A} c msg : quiet (R := R) (A := A) (raiseM c msg).
Proof. intros w. by repeat wp_step. Qed.
Lemma quiet_reraise {A} e : quiet (R := R) (A := A) (reraise e).
Proof. intros w. by repeat wp_step. Qed.
Lemma quiet_guard b c msg : quiet (R := R) (guardM b c msg).
Proof. intros w. by repeat wp_step. Qed.
Lemma quiet_read {A} (f : db -> A) : quiet (R := R) (read_db f).
Proof. intros w. by repeat wp_step. Qed.
Lemma quiet_read_rest {A} (f : R -> A) : quiet (read_rest f).
Proof. intros w. by repeat wp_step. Qed.
Lemma quiet_lift {A} (r : res A) : quiet (R := R) (lift r).
Proof. intros w. by repeat wp_step. Qed.
Lemma quiet_clock : quiet (R := R) clock_now.
Proof. intros w. by repeat wp_step. Qed.
Lemma quiet_utc : quiet (R := R) utc_now.
Proof. intros w. by repeat wp_step. Qed.
Lemma quiet_uuid : quiet (R := R) uuid4.
Proof. intros w. by repeat wp_step. Qed.
Lemma quiet_bind {A B} (m : M R A) (f : A -> M R B) :
  quiet m -> (forall a, quiet (f a)) -> quiet (bindM m f).
Proof.
  intros Hm Hf w. apply wp_bind. eapply wp_mono; [apply Hm|].
  intros [a|e] w1 [Hd Hfr]; [|done]. eapply wp_mono; [apply Hf|].
  intros r w2 [Hd2 Hfr2]. unfold frame in *. naive_solver congruence.
Qed.
End Quiet.

Create HintDb quiet.
#[export] Hint Resolve quiet_ret quiet_raise quiet_reraise quiet_guard quiet_read
  quiet_read_rest quiet_lift quiet_clock quiet_utc quiet_uuid quiet_bind : quiet.

(** Reading the lease writes nothing. *)
Lemma normalize_quiet {R} {env : Env} v : quiet (R := R) (normalize_utc v).
Proof. unfold normalize_utc. destruct v; auto with quiet. Qed.

Lemma assert_held_quiet {R} {env : Env} l v : quiet (R := R) (assert_held l v).
Proof.
  unfold assert_held. apply quiet_bind; [apply normalize_quiet|]. intros t.
  apply quiet_bind; [auto with quiet|]. intros [row|]; auto with quiet.
Qed.
#[export] Hint Resolve normalize_quiet assert_held_quiet : quiet.

Lemma events_of_snoc k e d x :
  events_of k (set_events (d_events d ++ [e]) x) =
  events_of k d ++ (if decide (e_key e = k) then [e] else []).
Proof.
  unfold events_of. simpl. rewrite List.filter_app. f_equal. simpl.
  destruct (decide (e_key e = k));
    [by rewrite bool_decide_true | by rewrite bool_decide_false].
Qed.

Lemma orders_inv_empty : orders_inv empty_db.
Proof.
  split; try apply tbl_wf_empty; unfold tbl_get; simpl.
  - intros k r. by rewrite lookup_empty.
  - intros k. rewrite lookup_empty. constructor.
Qed.

Lemma wrote_inv k q r r' d d' :
  orders_inv d -> wrote k q r r' d d' -> order_change q r r' -> orders_inv d'.
Proof.
  intros [Hi Ho Hr Hl] (Hc & e & -> & Hk & Hf & Ht) Hch.
  apply order_context_get in Hc as (Hgr & i & Hgi & Hq).
  split; simpl.
  - done.
  - by apply tbl_wf_update.
  - intros k' x. rewrite tbl_get_update. case_decide; [|apply Hr]. subst k'.
    rewrite Hgr. intros [= <-]. exists i. split; [done|]. rewrite Hq.
    eapply order_change_ok; [|done]. destruct (Hr _ _ Hgr) as (i' & ? & ?). naive_solver.
  - intros k'. unfold put_order. rewrite events_of_snoc, tbl_get_update, Hk.
    destruct (decide (k' = k)) as [->|Hne].
    + rewrite decide_True by done. rewrite Hgr. simpl. rewrite <- Ht. constructor.
      specialize (Hl k). rewrite Hgr in Hl. by rewrite Hf.
    + rewrite decide_False by congruence. rewrite app_nil_r. apply Hl.
Qed.

(** Other orders are untouched by a write. *)
Lemma wrote_other k q r r' d d' k' :
  wrote k q r r' d d' -> k' <> k ->
  tbl_get (d_orders d') k' = tbl_get (d_orders d) k' /\
  events_of k' d' = events_of k' d.
Proof.
  intros (_ & e & -> & Hk & _) Hne. unfold put_order.
  rewrite events_of_snoc. simpl. rewrite tbl_get_update.
  rewrite !decide_False by congruence. by rewrite app_nil_r.
Qed.

Lemma wrote_row k q r r' d d' :
  wrote k q r r' d d' ->
  tbl_get (d_orders d) k = Some r /\ tbl_get (d_orders d') k = Some r'.
Proof.
  intros (Hc & e & -> & _). apply order_context_get in Hc as [Hg _]. split; [done|].
  simpl. rewrite tbl_get_update, decide_True by done. by rewrite Hg.
Qed.

(** The parts of the database no order write touches. *)
Record same_rest (d d' : db) : Prop := {
  same_intents : d_intents d' = d_intents d;
  same_risk : d_risk d' = d_risk d;
  same_sessions : d_sessions d' = d_sessions d;
  same_leader : d_leader d' = d_leader d;
  same_keys : d_keys d' = d_keys d;
  same_observations : d_observations d' = d_observations d;
  same_order_ids : t_ids (d_orders d') = t_ids (d_orders d)
}.

Lemma wrote_rest k q r r' d d' : wrote k q r r' d d' -> same_rest d d'.
Proof. intros (_ & e & -> & _). by split. Qed.

Lemma apply_status current cb cf q target b f bf o eff norm c t r :
  decide_transition current cb cf q target b f bf = Ok (o, eff, norm) ->
  current = o_status r ->
  o_status (apply_transition o eff b c t r) = to_current o.
Proof.
  intros Hd ->. apply decide_outcome in Hd. unfold apply_transition. simpl.
  destruct (to_changed o) eqn:Ec; [done|]. destruct bf.
  - subst o. unfold aggregate_broker_status, outcome_of in *. cbn in *.
    by apply negb_false_iff, bool_decide_eq_true in Ec.
  - symmetry. by eapply transition_unchanged.
Qed.

Lemma orders_inv_ext d d' :
  d_intents d' = d_intents d -> d_orders d' = d_orders d -> d_events d' = d_events d ->
  orders_inv d -> orders_inv d'.
Proof.
  intros Hi Ho He [? ? ? Hl].
  split; rewrite ?Hi, ?Ho; auto. intros k. unfold events_of. rewrite He. apply Hl.
Qed.

(** The insertion of a new intent, its order and the first event. *)
Definition created (i : OrderIntent) (d d' : db) : Prop :=
  let k := oi_key i in
  0 < oi_quantity i /\
  exists xi xo t e,
    tbl_insert k (intent_row_of i) (d_intents d) = Some xi /\
    tbl_insert k (new_order_row t) (d_orders d) = Some xo /\
    d' = set_events (d_events d ++ [e]) (set_orders xo (set_intents xi d)) /\
    e_key e = k /\ e_from_status e = None /\ e_to_status e = CREATED.

Lemma new_order_ok q t : 0 < q -> order_ok q (new_order_row t).
Proof. intros. row_ok. Qed.

Lemma created_inv i d d' : orders_inv d -> created i d d' -> orders_inv d'.
Proof.
  intros [Hi Ho Hr Hl] (Hq & xi & xo & t & e & Hxi & Hxo & -> & Hk & Hf & Ht).
  assert (Hno : tbl_get (d_orders d) (oi_key i) = None).
  { by eapply tbl_insert_fresh. }
  split; simpl.
  - by eapply tbl_wf_insert.
  - by eapply tbl_wf_insert.
  - intros k r. rewrite (tbl_get_insert _ _ _ _ k Hxo), (tbl_get_insert _ _ _ _ k Hxi).
    case_decide; [|apply Hr]. intros [= <-]. eexists. split; [done|]. by apply new_order_ok.
  - intros k. rewrite events_of_snoc, (tbl_get_insert _ _ _ _ k Hxo), Hk.
    unfold events_of at 1. simpl. fold (events_of k d). specialize (Hl k).
    destruct (decide (k = oi_key i)) as [->|Hne].
    + rewrite decide_True by done. simpl. rewrite <- Ht. constructor.
      rewrite Hno in Hl. by rewrite Hf.
    + rewrite decide_False by congruence. by rewrite app_nil_r.
Qed.

(** ** What a group of writes may do

    [touches K d d']: only orders in [K] moved, by rules that keep the
    invariant; every row kept what it is never allowed to lose. *)

Definition row_le (r r' : order_row) : Prop :=
  o_filled_quantity r <= o_filled_quantity r' /\
  (forall b, o_broker_order_id r = Some b -> o_broker_order_id r' = Some b) /\
  (o_submit_call_started r = true -> o_submit_call_started r' = true) /\
  (o_cancel_call_started r = true -> o_cancel_call_started r' = true).

Record touches (K : okey -> Prop) (d d' : db) : Prop := {
  tch_intents : d_intents d' = d_intents d;
  tch_risk : d_risk d' = d_risk d;
  tch_sessions : d_sessions d' = d_sessions d;
  tch_leader : d_leader d' = d_leader d;
  tch_ids : t_ids (d_orders d') = t_ids (d_orders d);
  tch_inv : orders_inv d -> orders_inv d';
  tch_other : forall k, ~ K k ->
    tbl_get (d_orders d') k = tbl_get (d_orders d) k /\ events_of k d' = events_of k d;
  tch_rows : orders_inv d -> forall k r, tbl_get (d_orders d) k = Some r ->
    exists r', tbl_get (d_orders d') k = Some r' /\ row_le r r'
}.

#[global] Instance row_le_preorder : PreOrder row_le.
Proof.
  split.
  - intros r. unfold row_le. repeat split; auto; lia.
  - intros r1 r2 r3 (? & ? & ? & ?) (? & ? & ? & ?). unfold row_le. repeat split; auto; lia.
Qed.

#[global] Instance touches_preorder K : PreOrder (touches K).
Proof.
  split.
  - intros d. split; auto. intros _ k r Hr. exists r. split; [done | reflexivity].
  - intros d1 d2 d3 H1 H2. destruct H1, H2. split; try congruence; auto.
    + intros k Hk. destruct (tch_other0 k Hk), (tch_other1 k Hk). split; congruence.
    + intros Hd k r Hr. destruct (tch_rows0 Hd k r Hr) as (r2 & Hr2 & H12).
      destruct (tch_rows1 (tch_inv0 Hd) k r2 Hr2) as (r3 & Hr3 & H23).
      exists r3. split; [done|]. by transitivity r2.
Qed.

Lemma touches_mono (K K' : okey -> Prop) d d' :
  (forall k, K k -> K' k) -> touches K d d' -> touches K' d d'.
Proof. intros HK []. split; auto. Qed.

(** Writes to the other tables. *)
Lemma touches_ext K d d' :
  d_intents d' = d_intents d -> d_orders d' = d_orders d -> d_events d' = d_events d ->
  d_risk d' = d_risk d -> d_sessions d' = d_sessions d -> d_leader d' = d_leader d ->
  touches K d d'.
Proof.
  intros Hi Ho He Hr Hs Hl. split; try congruence.
  - by apply orders_inv_ext.
  - intros k _. unfold events_of. by rewrite Ho, He.
  - intros _ k r. rewrite Ho. exists r. split; [done | reflexivity].
Qed.

Lemma wrote_touches (K : okey -> Prop) k q r r' d d' :
  wrote k q r r' d d' -> order_change q r r' -> K k -> touches K d d'.
Proof.
  intros Hw Hc HK. destruct (wrote_rest _ _ _ _ _ _ Hw). split; try done.
  - intros Hd. by eapply wrote_inv.
  - intros k' Hk'. eapply wrote_other; [done|]. by intros ->.
  - intros Hd k' x Hx. destruct (decide (k' = k)) as [->|Hne].
    + destruct (wrote_row _ _ _ _ _ _ Hw) as [Hg Hg']. exists r'. split; [done|].
      assert (x = r) as -> by congruence.
      destruct (inv_rows _ Hd _ _ Hg) as (i & Hi & Hok).
      eapply order_change_monotone; [|done].
      destruct Hw as [Hctx _]. apply order_context_get in Hctx as (_ & i' & Hi' & <-).
      by simplify_eq.
    + destruct (wrote_other _ _ _ _ _ _ k' Hw Hne) as [Hk' _]. exists x.
      split; [congruence | reflexivity].
Qed.

Section Writers.
Context {R : Type} {env : Env} (write_guard : option (M R unit)).
Hypothesis guard_quiet : match write_guard with Some g => quiet g | None => True end.
Implicit Types (w : world R) (k : okey).

Lemma guard_write_quiet : quiet (guard_write_in_tx write_guard).
Proof.
  intros w. unfold guard_write_in_tx, frame. repeat wp_step; try done.
  destruct write_guard as [g|]; [apply guard_quiet | by repeat wp_step].
Qed.

Lemma require_tx_quiet what : quiet (R := R) (require_tx what).
Proof. intros w. unfold require_tx, frame. by repeat wp_step. Qed.

(** Run a quiet step inside a computation. *)
Lemma wp_quiet_bind {A B} (m : M R A) (f : A -> M R B) Q w :
  quiet m ->
  (forall a w', w_db w' = w_db w -> frame w w' -> wp (f a) Q w') ->
  (forall e w', w_db w' = w_db w -> frame w w' -> Q (Err e) w') ->
  wp (bindM m f) Q w.
Proof.
  intros Hm Hf He. apply wp_bind. eapply wp_mono; [apply Hm|].
  intros [a|e] w' [? ?]; auto.
Qed.

Lemma insert_event_spec k ty from to disp ev w :
  wp (insert_event k ty from to disp ev) (fun res w' =>
    frame w w' /\
    match res with
    | Ok _ => exists e, w_db w' = set_events (d_events (w_db w) ++ [e]) (w_db w) /\
                e_key e = k /\ e_from_status e = from /\ e_to_status e = to /\
                is_Some (tbl_get (d_intents (w_db w)) k)
    | Err x => w_db w' = w_db w /\ tbl_get (d_intents (w_db w)) k = None
    end) w.
Proof.
  unfold insert_event, frame. repeat wp_step; cbn.
  - split; [done|]. eexists. split; [reflexivity|]. bool_to_prop. repeat split; done.
  - bool_to_prop. split; [done|]. split; [done|]. by apply eq_None_not_Some.
Qed.

Lemma transition_in_tx_spec k target ty ev b f cor bf w :
  wp (transition_in_tx k target ty ev b f cor bf) (fun res w' =>
    frame w w' /\
    match res with
    | Ok o => exists r q eff norm t e,
        order_context (w_db w) k = Some (r, q) /\
        decide_transition (o_status r) (o_broker_order_id r) (o_filled_quantity r) q target
          b f bf = Ok (o, eff, norm) /\
        w_db w' = put_order k (apply_transition o eff b cor t r) e (w_db w) /\
        e_key e = k /\ e_from_status e = Some (o_status r) /\ e_to_status e = to_current o
    | Err x =>
        w_db w' = w_db w /\
        ((order_context (w_db w) k = None /\ exn_cls x = OrderNotFound) \/
        exists r q, order_context (w_db w) k = Some (r, q) /\
        decide_transition (o_status r) (o_broker_order_id r) (o_filled_quantity r) q target
          b f bf = Err x)
    end) w.
Proof.
  unfold transition_in_tx, get_order_context_in_tx, update_order.
  repeat wp_step.
  destruct (order_context (w_db w) k) as [[r q]|] eqn:Ec; repeat wp_step;
    [|unfold frame; naive_solver].
  destruct (decide_transition _ _ _ _ _ _ _ _) as [[[o eff] norm]|x] eqn:Ed; repeat wp_step;
    [|unfold frame; naive_solver].
  destruct (order_context_get _ _ _ _ Ec) as (Hr & i & Hi & Hq).
  eapply wp_mono with (P := fun res w' => w_db w' = w_db w /\ frame w w' /\ exists t, res = Ok t).
  { destruct (to_changed o); repeat wp_step; unfold frame; cbn; eauto. }
  intros ? w1 (Hdb & Hf & t & ->). repeat wp_step.
  eapply wp_mono; [apply insert_event_spec|].
  intros res w2 [Hf2 Hres]. cbn in Hf2, Hres. rewrite Hdb in Hres.
  destruct res as [[]|x]; repeat wp_step.
  - split; [unfold frame in *; naive_solver congruence|].
    destruct Hres as (e & Hw2 & He1 & He2 & He3 & _).
    exists r, q, eff, norm, t, e. repeat split; try done.
    rewrite Hw2. unfold put_order. by rewrite (tbl_update_const _ _ r).
  - cbn in Hres. rewrite Hi in Hres. naive_solver.
Qed.

(** [m], run in a transaction, keeps the frame and ends in [P] when it
    succeeds. *)
Definition in_tx_ok {A} (m : M R A) (P : A -> db -> Prop) (w : world R) : Prop :=
  wp m (fun res w' => frame w w' /\
                      match res with Ok a => P a (w_db w') | Err _ => True end) w.

Definition tx_ok {A} (m : M R A) (P : A -> db -> Prop) (w : world R) : Prop :=
  wp m (fun res w' => frame w w' /\
                      match res with Ok a => P a (w_db w') | Err _ => w_db w' = w_db w end) w.

Lemma tx_ok_intro {A} (m : M R A) (P : A -> db -> Prop) w :
  w_in_tx w = false ->
  (forall w1, w_db w1 = w_db w -> w_in_tx w1 = true -> w_rest w1 = w_rest w ->
     in_tx_ok m P w1) ->
  tx_ok (transaction m) P w.
Proof.
  intros Hw Hm. apply wp_transaction; [done| |].
  { intros e _. by repeat split. }
  eapply wp_mono; [apply Hm; done|].
  intros [a|e] w2 [[Ht Hr] HP]; cbn in *; by repeat split.
Qed.

Lemma in_tx_ok_quiet {A B} (m : M R A) (f : A -> M R B) P w :
  quiet m ->
  (forall a w', w_db w' = w_db w -> frame w w' -> in_tx_ok (f a) P w') ->
  in_tx_ok (bindM m f) P w.
Proof.
  intros Hm Hf. apply wp_quiet_bind; [done| |].
  - intros a w' Hd Hfr. eapply wp_mono; [by apply Hf|].
    unfold frame in *. intros [b|e] w2 [? ?]; naive_solver congruence.
  - done.
Qed.

Lemma in_tx_ok_bind {A B} (m : M R A) (f : A -> M R B) P Q w :
  in_tx_ok m P w ->
  (forall a w', P a (w_db w') -> frame w w' -> in_tx_ok (f a) Q w') ->
  in_tx_ok (bindM m f) Q w.
Proof.
  unfold in_tx_ok. intros Hm Hf. apply wp_bind. eapply wp_mono; [exact Hm|].
  intros [a|e] w' [Hfr HP]; [|done]. eapply wp_mono; [by apply Hf|].
  unfold frame in *. intros [b|e] w2 [? ?]; naive_solver congruence.
Qed.

Lemma in_tx_ok_ret {A} (a : A) (P : A -> db -> Prop) w :
  P a (w_db w) -> in_tx_ok (retM a) P w.
Proof. intros HP. by repeat split. Qed.

Lemma in_tx_ok_raise {A} c msg (P : A -> db -> Prop) w : in_tx_ok (raiseM c msg) P w.
Proof. by repeat split. Qed.

Lemma in_tx_ok_read {A B} (g : db -> A) (f : A -> M R B) P w :
  in_tx_ok (f (g (w_db w))) P w -> in_tx_ok (bindM (read_db g) f) P w.
Proof. done. Qed.

Lemma in_tx_ok_mono {A} (m : M R A) (P Q : A -> db -> Prop) w :
  in_tx_ok m P w -> (forall a d, P a d -> Q a d) -> in_tx_ok m Q w.
Proof.
  unfold in_tx_ok. intros H HPQ. eapply wp_mono; [exact H|]. intros [a|e] w' [? ?]; auto.
Qed.

Lemma in_tx_ok_wp {A} (m : M R A) (Q : Prelude.res A -> db -> Prop) (P : A -> db -> Prop) w :
  wp m (fun res w' => frame w w' /\ Q res (w_db w')) w ->
  (forall a d, Q (Ok a) d -> P a d) ->
  in_tx_ok m P w.
Proof.
  unfold in_tx_ok. intros H HQ. eapply wp_mono; [exact H|]. intros [a|e] w' [? ?]; auto.
Qed.

Lemma tx_ok_check {A B} (r : res A) (f : A -> M R B) P w :
  (forall a, r = Ok a -> tx_ok (f a) P w) -> tx_ok (bindM (lift r) f) P w.
Proof. intros H. unfold tx_ok. apply wp_bind. destruct r; [by apply H | by repeat split]. Qed.

Lemma in_tx_ok_lift {A} (r : res A) (P : A -> db -> Prop) w :
  (forall a, r = Ok a -> P a (w_db w)) -> in_tx_ok (lift r) P w.
Proof. intros H. destruct r; [by repeat split; apply H | by repeat split]. Qed.

(** A computation whose successful runs are related by a preorder. *)
Definition steps {A} (T : db -> db -> Prop) (m : M R A) : Prop :=
  forall w, in_tx_ok m (fun _ d' => T (w_db w) d') w.

Lemma steps_quiet {A} T `{!PreOrder T} (m : M R A) : quiet m -> steps T m.
Proof.
  intros Hm w. unfold in_tx_ok. eapply wp_mono; [apply Hm|].
  intros [a|e] w' [Hd Hf]; (split; [done|]); [by rewrite Hd | done].
Qed.

Lemma steps_bind {A B} T `{!PreOrder T} (m : M R A) (f : A -> M R B) :
  steps T m -> (forall a, steps T (f a)) -> steps T (bindM m f).
Proof.
  intros Hm Hf w. unfold in_tx_ok. apply wp_bind. eapply wp_mono; [apply Hm|].
  intros [a|e] w' [Hfr H]; [|done]. eapply wp_mono; [apply Hf|].
  intros [b|e] w2 [Hfr2 H2]; (split; [unfold frame in *; naive_solver congruence|]); [|done].
  cbv beta in *. by transitivity (w_db w').
Qed.

Lemma in_tx_ok_steps {A} T (m : M R A) P w :
  in_tx_ok m P w -> (forall a d, P a d -> T (w_db w) d) ->
  in_tx_ok m (fun _ d' => T (w_db w) d') w.
Proof. intros H HP. eapply in_tx_ok_mono; [exact H | exact HP]. Qed.

(** The specification of a writer of order [k]: the row moved to one
    satisfying [P]. *)
Definition writes {A} (k : okey) (P : order_row -> Z -> A -> order_row -> Prop)
    (d : db) (a : A) (d' : db) : Prop :=
  exists q r r', wrote k q r r' d d' /\ P r q a r'.

Definition moved_by target b f cor bf (r : order_row) (q : Z) (o : TransitionOutcome)
    (r' : order_row) : Prop :=
  exists eff norm t,
    decide_transition (o_status r) (o_broker_order_id r) (o_filled_quantity r) q target
      b f bf = Ok (o, eff, norm) /\ r' = apply_transition o eff b cor t r.

Lemma transition_in_tx_ok k target ty ev b f cor bf w :
  in_tx_ok (transition_in_tx k target ty ev b f cor bf)
    (writes k (moved_by target b f cor bf) (w_db w)) w.
Proof.
  eapply wp_mono; [apply transition_in_tx_spec|].
  intros [o|x] w' [Hf H]; split; try done.
  destruct H as (r & q & eff & norm & t & e & Hc & Hd & Hw & He1 & He2 & He3).
  exists q, r, (apply_transition o eff b cor t r). split; [|by exists eff, norm, t].
  split; [done|]. exists e. repeat split; try done.
  rewrite He3. symmetry. by eapply apply_status.
Qed.

Lemma transition_order_ok k target ty ev b f cor w :
  w_in_tx w = false ->
  tx_ok (transition_order write_guard k target ty ev b f cor)
    (writes k (moved_by target b f cor false) (w_db w)) w.
Proof.
  intros Hw. apply tx_ok_intro; [done|]. intros w1 <- _ _.
  apply in_tx_ok_quiet; [apply guard_write_quiet|]. intros _ w2 <- _.
  apply transition_in_tx_ok.
Qed.

Lemma merge_broker_fact_ok k target ty ev b f cor w :
  in_tx_ok (merge_broker_fact_in_tx write_guard k target ty ev b f cor)
    (writes k (moved_by target b f cor true) (w_db w)) w.
Proof.
  apply in_tx_ok_quiet; [apply require_tx_quiet|]. intros _ w1 <- _.
  apply in_tx_ok_quiet; [apply guard_write_quiet|]. intros _ w2 <- _.
  apply transition_in_tx_ok.
Qed.

(** The event that follows the update of a known row. *)
Lemma log_after_update k r f ty to disp ev w w' :
  tbl_get (d_orders (w_db w)) k = Some r -> o_status (f r) = to ->
  w_db w' = set_orders (tbl_update k f (d_orders (w_db w))) (w_db w) ->
  in_tx_ok (insert_event k ty (Some (o_status r)) to disp ev)
    (fun _ d' => exists q, wrote k q r (f r) (w_db w) d') w'.
Proof.
  intros Hg Hto Hw. unfold in_tx_ok.
  eapply wp_mono; [apply insert_event_spec|]. intros [[]|x] w2 [Hf H]; split; try done.
  destruct H as (e & Hw2 & Hk & Hfrom & Htoe & [i Hi]). exists (i_quantity i).
  rewrite Hw in Hi, Hw2. cbn in Hi, Hw2.
  split; [unfold order_context; by rewrite Hg, Hi|]. exists e.
  rewrite Hw2. unfold put_order. rewrite (tbl_update_const _ _ r) by done.
  repeat split; congruence.
Qed.

Lemma get_status_quiet k : quiet (R := R) (get_status_in_tx k).
Proof. intros w. unfold get_status_in_tx, frame. repeat wp_step. destruct (tbl_get _ k); by repeat wp_step. Qed.

Definition submit_row (t : datetime) (r : order_row) : order_row :=
  {| o_status := SUBMITTING; o_broker_order_id := o_broker_order_id r;
     o_filled_quantity := o_filled_quantity r; o_submit_call_started := true;
     o_cancel_call_started := o_cancel_call_started r;
     o_cancel_outcome_resolved := o_cancel_outcome_resolved r; o_updated_at := t |}.

Definition cancel_row (t : datetime) (r : order_row) : order_row :=
  {| o_status := CANCEL_PENDING; o_broker_order_id := o_broker_order_id r;
     o_filled_quantity := o_filled_quantity r;
     o_submit_call_started := o_submit_call_started r; o_cancel_call_started := true;
     o_cancel_outcome_resolved := false; o_updated_at := t |}.

Lemma transition_to_submitting s o :
  transition s SUBMITTING = Ok o -> to_changed o = true -> s = RISK_ACCEPTED.
Proof. destruct s; vm_compute; intros [= <-]; (discriminate || done). Qed.

Lemma transition_to_cancel_pending s o :
  transition s CANCEL_PENDING = Ok o -> to_changed o = true ->
  status_in s [ACKNOWLEDGED; PARTIALLY_FILLED] = true.
Proof. destruct s; vm_compute; intros [= <-]; (discriminate || done). Qed.

Lemma prepare_submit_in_tx_ok k w :
  in_tx_ok (prepare_submit_in_tx write_guard k)
    (writes k (fun r q _ r' => o_status r = RISK_ACCEPTED /\ o_submit_call_started r = false /\
                               exists t, r' = submit_row t r) (w_db w)) w.
Proof.
  apply in_tx_ok_quiet; [apply require_tx_quiet|]. intros _ w1 <- _.
  apply in_tx_ok_quiet; [apply guard_write_quiet|]. intros _ w2 <- _.
  unfold in_tx_ok, get_status_in_tx. repeat wp_step.
  destruct (tbl_get (d_orders (w_db w2)) k) as [r|] eqn:Hg; repeat wp_step; [|done].
  destruct (transition (o_status r) SUBMITTING) as [o|x] eqn:Ho; repeat wp_step; [|done..].
  cbn [tick_world w_db]. rewrite Hg. cbv beta iota zeta.
  destruct (o_submit_call_started r) eqn:Hs; cbn [negb]; unfold update_order;
    repeat wp_step; try done.
  eapply wp_mono; [eapply (log_after_update k r (submit_row _)); done|].
  intros [[]|x] w3 [Hf H1]; (split; [exact Hf|]); [|done].
  destruct H1 as [q Hwr]. exists q, r, (submit_row (env_now (w_tick w2)) r).
  split; [done|]. split; [by eapply transition_to_submitting|]. eauto.
Qed.

Lemma prepare_cancel_in_tx_ok k w :
  in_tx_ok (prepare_cancel_in_tx write_guard k)
    (writes k (fun r q _ r' =>
       status_in (o_status r) [ACKNOWLEDGED; PARTIALLY_FILLED] = true /\
       o_cancel_call_started r = false /\ exists t, r' = cancel_row t r) (w_db w)) w.
Proof.
  apply in_tx_ok_quiet; [apply require_tx_quiet|]. intros _ w1 <- _.
  apply in_tx_ok_quiet; [apply guard_write_quiet|]. intros _ w2 <- _.
  unfold in_tx_ok, get_status_in_tx. repeat wp_step.
  destruct (tbl_get (d_orders (w_db w2)) k) as [r|] eqn:Hg; repeat wp_step; [|done].
  destruct (transition (o_status r) CANCEL_PENDING) as [o|x] eqn:Ho; repeat wp_step; [|done..].
  cbn [tick_world w_db]. rewrite Hg. cbv beta iota zeta.
  destruct (o_cancel_call_started r) eqn:Hs; cbn [negb]; unfold update_order;
    repeat wp_step; try done.
  eapply wp_mono; [eapply (log_after_update k r (cancel_row _)); done|].
  intros [[]|x] w3 [Hf H1]; (split; [exact Hf|]); [|done].
  destruct H1 as [q Hwr]. exists q, r, (cancel_row (env_now (w_tick w2)) r).
  split; [done|]. split; [by eapply transition_to_cancel_pending|]. eauto.
Qed.

Lemma prepare_submit_ok k w :
  w_in_tx w = false ->
  tx_ok (prepare_submit write_guard k)
    (writes k (fun r q _ r' => o_status r = RISK_ACCEPTED /\ o_submit_call_started r = false /\
                               exists t, r' = submit_row t r) (w_db w)) w.
Proof. intros. apply tx_ok_intro; [done|]. intros w1 <- _ _. apply prepare_submit_in_tx_ok. Qed.

Lemma prepare_cancel_ok k w :
  w_in_tx w = false ->
  tx_ok (prepare_cancel write_guard k)
    (writes k (fun r q _ r' =>
       status_in (o_status r) [ACKNOWLEDGED; PARTIALLY_FILLED] = true /\
       o_cancel_call_started r = false /\ exists t, r' = cancel_row t r) (w_db w)) w.
Proof. intros. apply tx_ok_intro; [done|]. intros w1 <- _ _. apply prepare_cancel_in_tx_ok. Qed.

Lemma create_intent_ok i w :
  w_in_tx w = false ->
  tx_ok (create_intent write_guard i) (fun _ d' => created i (w_db w) d') w.
Proof.
  intros Hw. apply tx_ok_intro; [done|]. intros w1 <- _ _.
  apply in_tx_ok_quiet; [apply guard_write_quiet|]. intros _ w2 <- _.
  unfold in_tx_ok. repeat wp_step.
  destruct (Z.ltb_spec 0 (oi_quantity i)) as [Hq|]; [|by repeat wp_step].
  destruct (tbl_insert _ _ (d_intents (w_db w2))) as [xi|] eqn:Hxi;
    repeat wp_step; [|done]. cbn [w_db tick_world d_orders set_intents].
  destruct (tbl_insert _ _ (d_orders (w_db w2))) as [xo|] eqn:Hxo;
    repeat wp_step; [|done].
  eapply wp_mono; [apply insert_event_spec|]. intros [[]|x] w3 [Hf H]; split; try done.
  destruct H as (e & Hw3 & Hk & Hfrom & Hto & _). split; [done|].
  exists xi, xo. eexists. exists e. repeat split; try done.
Qed.

(** The row a risk decision is stored as. *)
Definition risk_row_of (decision : RiskDecision) : risk_row :=
  {| r_accepted := rd_accepted decision; r_reason_code := reason_str (rd_reason_code decision);
     r_rule_version := rd_rule_version decision; r_snapshot_hash := rd_snapshot_hash decision;
     r_decided_at := rd_decided_at decision |}.

Definition decided (k : okey) (decision : RiskDecision) (d : db) (s : OrderStatus) (d' : db)
    : Prop :=
  exists x o, is_Some (tbl_get (d_intents d) k) /\
    tbl_insert k (risk_row_of decision) (d_risk d) = Some x /\
    writes k (moved_by (if rd_accepted decision then RISK_ACCEPTED else RISK_REJECTED)
                None None None false) (set_risk x d) o d' /\ to_current o = s.

Lemma record_risk_decision_ok k decision w :
  w_in_tx w = false ->
  tx_ok (record_risk_decision write_guard k decision)
    (fun s d' => decided k decision (w_db w) s d') w.
Proof.
  intros Hw. apply tx_ok_intro; [done|]. intros w1 <- _ _.
  apply in_tx_ok_quiet; [apply guard_write_quiet|]. intros _ w2 <- _.
  unfold in_tx_ok. repeat wp_step; [|done]. bool_to_prop.
  destruct (tbl_insert _ _ (d_risk (w_db w2))) as [x|] eqn:Hx; repeat wp_step; [|done].
  eapply wp_mono; [apply transition_in_tx_ok|].
  intros [o|e] w3 [Hf H1]; repeat wp_step; (split; [exact Hf|]); [|done].
  exists x, o. by repeat split.
Qed.

Definition review_row (eff : Z) (cor : bool) (t : datetime) (r : order_row) : order_row :=
  {| o_status := MANUAL_REVIEW; o_broker_order_id := o_broker_order_id r;
     o_filled_quantity := eff; o_submit_call_started := o_submit_call_started r;
     o_cancel_call_started := o_cancel_call_started r;
     o_cancel_outcome_resolved := cor; o_updated_at := t |}.

Lemma mark_conflict_ok k reason ev f w :
  in_tx_ok (mark_broker_conflict_manual_review_in_tx write_guard k reason ev f)
    (writes k (fun r q _ r' => exists t eff,
       eff = match f with Some f => Z.max (o_filled_quantity r) f
                        | None => o_filled_quantity r end /\
       match f with Some f => 0 <= f <= q | None => True end /\
       r' = review_row eff (o_cancel_outcome_resolved r) t r) (w_db w)) w.
Proof.
  apply in_tx_ok_quiet; [apply require_tx_quiet|]. intros _ w1 <- _.
  apply in_tx_ok_quiet; [apply guard_write_quiet|]. intros _ w2 <- _.
  unfold in_tx_ok, get_order_context_in_tx. repeat wp_step.
  destruct (order_context (w_db w2) k) as [[r q]|] eqn:Hc; repeat wp_step; [|done].
  destruct (order_context_get _ _ _ _ Hc) as [Hg _].
  assert (Hgen : forall eff,
    eff = match f with Some f => Z.max (o_filled_quantity r) f
                     | None => o_filled_quantity r end ->
    match f with Some f => 0 <= f <= q | None => True end ->
    wp (bindM utc_now (fun t =>
        bindM (update_order k (fun r => review_row eff (o_cancel_outcome_resolved r) t r))
        (fun _ => insert_event k "BROKER_EVIDENCE_CONFLICT_MANUAL_REVIEW" (Some (o_status r))
          MANUAL_REVIEW APPLIED (dict_set "effective_filled_quantity" (JInt eff)
            (dict_set "reason" (JStr reason) ev)))))
      (fun res w' => frame w2 w' /\ match res with
         | Ok a => writes k (fun r q _ r' => exists t eff,
             eff = match f with Some f => Z.max (o_filled_quantity r) f
                              | None => o_filled_quantity r end /\
             match f with Some f => 0 <= f <= q | None => True end /\
             r' = review_row eff (o_cancel_outcome_resolved r) t r) (w_db w2) a (w_db w')
         | Err _ => True end) w2).
  { intros eff He Hf. unfold update_order. repeat wp_step.
    eapply wp_mono; [eapply (log_after_update k r
      (fun r => review_row eff (o_cancel_outcome_resolved r) _ r)); done|].
    intros [[]|x] w3 [Hfr H1]; (split; [exact Hfr|]); [|done].
    destruct H1 as [q' Hwr]. assert (q' = q) as -> by (destruct Hwr; congruence).
    exists q, r. eexists. split; [exact Hwr|]. by eauto. }
  destruct f as [f|]; repeat wp_step; try done; try (by apply Hgen).
  apply Hgen; [done|]. bool_to_prop. lia.
Qed.

Lemma mark_manual_review_ok k ty reason ev cor w :
  in_tx_ok (mark_manual_review_in_tx write_guard k ty reason ev cor)
    (writes k (fun r q _ r' => exists t,
       r' = review_row (o_filled_quantity r) (default (o_cancel_outcome_resolved r) cor) t r)
       (w_db w)) w.
Proof.
  apply in_tx_ok_quiet; [apply require_tx_quiet|]. intros _ w1 <- _.
  apply in_tx_ok_quiet; [apply guard_write_quiet|]. intros _ w2 <- _.
  unfold in_tx_ok, get_order_context_in_tx, update_order. repeat wp_step.
  destruct (order_context (w_db w2) k) as [[r q]|] eqn:Hc; repeat wp_step; [|done].
  destruct (order_context_get _ _ _ _ Hc) as [Hg _]. cbn [fst].
  eapply wp_mono; [eapply (log_after_update k r (fun r =>
    review_row (o_filled_quantity r) (default (o_cancel_outcome_resolved r) cor) _ r)); done|].
  intros [[]|x] w3 [Hfr H1]; (split; [exact Hfr|]); [|done].
  destruct H1 as [q' Hwr]. exists q', r. eexists. split; [exact Hwr|]. by eauto.
Qed.

(** Where the reconciliation of an order takes it. *)
Definition reconciling_target (b : bool) (current : OrderStatus) : OrderStatus :=
  if b then
    if status_in current [SUBMITTING; CANCEL_PENDING] then UNKNOWN
    else if bool_decide (current = UNKNOWN) then RECONCILING
    else current
  else current.

Lemma reconciling_target_allowed b s :
  reconciling_target b s = s \/ status_in (reconciling_target b s) [UNKNOWN; RECONCILING] = true.
Proof. destruct b, s; vm_compute; auto. Qed.

Lemma record_reconciliation_exact k ty ev b w :
  in_tx_ok (record_execution_reconciliation_in_tx write_guard k ty ev b)
    (writes k (fun r q o r' =>
       moved_by (reconciling_target b (o_status r)) None None None false r q o r') (w_db w)) w.
Proof.
  apply in_tx_ok_quiet; [apply require_tx_quiet|]. intros _ w1 <- _.
  apply in_tx_ok_quiet; [apply guard_write_quiet|]. intros _ w2 <- _.
  unfold in_tx_ok, get_status_in_tx. repeat wp_step.
  destruct (tbl_get (d_orders (w_db w2)) k) as [r|] eqn:Hg; repeat wp_step; [|done].
  eapply wp_mono; [apply transition_in_tx_ok|]. intros [o|x] w3 [Hf H]; (split; [done|]); [|done].
  destruct H as (q & r0 & r' & Hwr & Hm). exists q, r0, r'. split; [done|].
  destruct (wrote_row _ _ _ _ _ _ Hwr) as [Hg0 _]. by assert (r0 = r) as -> by congruence.
Qed.

Lemma record_reconciliation_ok k ty ev b w :
  in_tx_ok (record_execution_reconciliation_in_tx write_guard k ty ev b)
    (writes k (fun r q o r' => exists target,
       moved_by target None None None false r q o r' /\
       (target = o_status r \/ status_in target [UNKNOWN; RECONCILING] = true)) (w_db w)) w.
Proof.
  eapply in_tx_ok_mono; [apply record_reconciliation_exact|].
  intros o d (q & r & r' & Hw & Hm). exists q, r, r'. split; [done|].
  eexists. split; [exact Hm|]. apply reconciling_target_allowed.
Qed.

(** ** Every writer moves its order by a rule of [order_change] *)

Lemma moved_by_fsm target cor r q o r' :
  moved_by target None None cor false r q o r' ->
  status_in target [RISK_REJECTED; RISK_ACCEPTED; ABORTED; UNKNOWN; RECONCILING;
                    MANUAL_REVIEW] = true \/
  (target = CANCEL_PENDING /\ o_cancel_call_started r = true) \/ target = o_status r ->
  order_change q r r'.
Proof.
  intros (eff & norm & t & Hd & ->) Ht. eapply change_fsm; [done|].
  intros Hc. destruct Ht as [|[|Ht]]; [by left | by right |].
  apply decide_fsm in Hd as (Ho & _). subst target.
  unfold transition in Ho. rewrite bool_decide_true in Ho by done.
  injection Ho as <-. done.
Qed.

Lemma moved_by_fact target b f cor r q o r' :
  moved_by target b (Some f) cor true r q o r' ->
  status_in target lifecycle_statuses = true -> order_change q r r'.
Proof. intros (eff & norm & t & Hd & ->) Ht. by eapply change_fact. Qed.
End Writers.

(** ** A concrete store: one order, just created *)

Definition demo_db : db :=
  w_db (@create_intent unit demo_env None demo_intent (W empty_db false 0 tt)).2.

Lemma demo_db_inv : orders_inv demo_db.
Proof.
  pose proof (@create_intent_ok unit demo_env None I demo_intent (W empty_db false 0 tt) eq_refl)
    as H.
  assert (Hok : (@create_intent unit demo_env None demo_intent (W empty_db false 0 tt)).1 = Ok tt)
    by (vm_compute; reflexivity).
  unfold tx_ok, wp in H. rewrite Hok in H. destruct H as [_ H].
  by eapply created_inv; [apply orders_inv_empty | exact H].
Qed.
