(* ===== verification/BrokerEvidence.v ===== *)
(** * BrokerEvidence: the evidence contract of [oms/broker_evidence_v1.py]

    [BrokerEvidenceV1]: its validation ([__post_init__]), its mapping, its
    semantic digest and [build].  The digest that [build] computes from its
    arguments is the one the validation recomputes from the record, and equal
    fingerprints mean equal identities up to a collision of SHA-256. *)

From S2P Require Import Prelude Json Domain.
Open Scope Z_scope.
Open Scope py_scope.

Inductive BrokerEvidenceSourceKind :=
  | ORDER_CALLBACK | DEAL_CALLBACK | ACTIVE_ORDER_QUERY | ACTIVE_DEAL_QUERY.

Inductive BrokerEvidenceType :=
  | ORDER_ACCEPTED | PARTIAL_FILL | FULL_FILL | ORDER_CANCELLED | ORDER_REJECTED.

#[global] Instance BrokerEvidenceSourceKind_eq_dec : EqDecision BrokerEvidenceSourceKind.
Proof. solve_decision. Defined.
#[global] Instance BrokerEvidenceType_eq_dec : EqDecision BrokerEvidenceType.
Proof. solve_decision. Defined.

Definition source_kind_str (k : BrokerEvidenceSourceKind) : string :=
  match k with
  | ORDER_CALLBACK => "ORDER_CALLBACK" | DEAL_CALLBACK => "DEAL_CALLBACK"
  | ACTIVE_ORDER_QUERY => "ACTIVE_ORDER_QUERY" | ACTIVE_DEAL_QUERY => "ACTIVE_DEAL_QUERY"
  end.

Definition evidence_type_str (t : BrokerEvidenceType) : string :=
  match t with
  | ORDER_ACCEPTED => "ORDER_ACCEPTED" | PARTIAL_FILL => "PARTIAL_FILL"
  | FULL_FILL => "FULL_FILL" | ORDER_CANCELLED => "ORDER_CANCELLED"
  | ORDER_REJECTED => "ORDER_REJECTED"
  end.

(** [_STATUS_BY_TYPE]. *)
Definition status_by_type (t : BrokerEvidenceType) : OrderStatus :=
  match t with
  | ORDER_ACCEPTED => ACKNOWLEDGED
  | PARTIAL_FILL => PARTIALLY_FILLED
  | FULL_FILL => FILLED
  | ORDER_CANCELLED => CANCELLED
  | ORDER_REJECTED => REJECTED
  end.

(** ** The regular expressions *)

Definition is_lower_hex (a : ascii) : bool :=
  let n := N_of_ascii a in
  ((48 <=? n) && (n <=? 57) || (97 <=? n) && (n <=? 102))%N.

(** [_SHA256_RE.fullmatch(s)]. *)
Definition is_sha256 (s : string) : bool :=
  startswith "sha256:" s && (String.length s =? 71)%nat
  && all_chars is_lower_hex (String.substring 7 64 s).

(** [_TOKEN_RE.fullmatch(s)], the empty string excluded by its [+]. *)
Definition is_token (s : string) : bool :=
  str_nonempty s &&
  all_chars (fun a => let n := N_of_ascii a in
    (48 <=? n) && (n <=? 57) || (65 <=? n) && (n <=? 90) || (97 <=? n) && (n <=? 122)
    || (n =? 46) || (n =? 95) || (n =? 58) || (n =? 45))%N s.

(** ** The record *)

(** A value of [raw_status]: [str | int | None]. *)
Inductive raw_value := RawStr (s : string) | RawInt (z : Z) | RawNone.

Definition raw_json (v : raw_value) : json :=
  match v with RawStr s => JStr s | RawInt z => JInt z | RawNone => JNull end.

Definition raw_status_json (m : list (string * raw_value)) : json :=
  JObj (List.map (fun p => (p.1, raw_json p.2)) m).

Record BrokerEvidenceV1 := {
  ev_version : string;
  ev_source : string;
  ev_source_kind : BrokerEvidenceSourceKind;
  ev_source_event_id : string;
  ev_mapper_profile : string;
  ev_semantic_digest : string;
  ev_account_fingerprint : string;
  ev_client_order_id : string;
  ev_broker_token : option string;
  ev_broker_order_id : option string;
  ev_order_ref : option string;
  ev_trade_id : option string;
  ev_type : BrokerEvidenceType;
  ev_requested_status : OrderStatus;
  ev_filled_quantity : Z;
  ev_observed_at_ms : Z;
  ev_raw_payload_ref : string;
  ev_raw_status : option (list (string * raw_value));
  ev_route_account_type : option string;
  ev_route_account_fingerprint : option string
}.

Definition ev_key (e : BrokerEvidenceV1) : okey :=
  (ev_account_fingerprint e, ev_client_order_id e).

(** [to_mapping]. *)
Definition to_mapping (include_digest : bool) (e : BrokerEvidenceV1) : jdict :=
  ([("evidence_version", JStr (ev_version e));
    ("source", JStr (ev_source e));
    ("source_kind", JStr (source_kind_str (ev_source_kind e)));
    ("source_event_id", JStr (ev_source_event_id e));
    ("mapper_profile", JStr (ev_mapper_profile e));
    ("account_fingerprint", JStr (ev_account_fingerprint e));
    ("client_order_id", JStr (ev_client_order_id e));
    ("broker_token", jopt_str (ev_broker_token e));
    ("broker_order_id", jopt_str (ev_broker_order_id e));
    ("order_ref", jopt_str (ev_order_ref e));
    ("trade_id", jopt_str (ev_trade_id e));
    ("evidence_type", JStr (evidence_type_str (ev_type e)));
    ("requested_status", JStr (status_str (ev_requested_status e)));
    ("filled_quantity", JInt (ev_filled_quantity e));
    ("observed_at_ms", JInt (ev_observed_at_ms e));
    ("raw_payload_ref", JStr (ev_raw_payload_ref e))]
   ++ (if include_digest then [("semantic_digest", JStr (ev_semantic_digest e))] else [])
   ++ match ev_raw_status e with Some m => [("raw_status", raw_status_json m)] | None => [] end
   ++ match ev_route_account_type e with
      | Some t => [("route_account_type", JStr t);
                   ("route_account_fingerprint", jopt_str (ev_route_account_fingerprint e))]
      | None => []
      end).

Definition semantic_keys : list string :=
  ["evidence_version"; "source"; "source_kind"; "mapper_profile"; "account_fingerprint";
   "client_order_id"; "broker_token"; "broker_order_id"; "order_ref"; "trade_id";
   "evidence_type"; "requested_status"; "filled_quantity"; "raw_status";
   "route_account_type"; "route_account_fingerprint"]%string.

(** The normalized semantic fact: a missing key is [null]. *)
Definition semantic_of (value : jdict) : jdict :=
  List.map (fun k => (k, default JNull (dict_get k value))) semantic_keys.

Definition broker_evidence_semantic_digest (value : jdict) : string :=
  "sha256:" +:+ Sha256.hexdigest (utf8 (dumps false (JObj (semantic_of value)))).

(** [not value or len(value) > limit]. *)
Definition bounded (limit : Z) (s : string) : bool :=
  str_nonempty s && (str_len s <=? limit).

Definition opt_all {A} (f : A -> bool) (o : option A) : bool :=
  match o with Some a => f a | None => true end.

Definition is_some {A} (o : option A) : bool :=
  match o with Some _ => true | None => false end.

Definition type_in (t : BrokerEvidenceType) (l : list BrokerEvidenceType) : bool :=
  existsb (fun u => bool_decide (t = u)) l.

(** What each evidence type requires of identity and fill. *)
Definition type_facts_ok (e : BrokerEvidenceV1) : res unit :=
  match ev_type e with
  | ORDER_ACCEPTED =>
      guard_r (is_some (ev_broker_order_id e) && (ev_filled_quantity e =? 0)) ValueError
        "ORDER_ACCEPTED requires broker_order_id and zero fill"
  | PARTIAL_FILL | FULL_FILL =>
      guard_r (is_some (ev_broker_order_id e) && (0 <? ev_filled_quantity e)) ValueError
        "fill evidence requires broker_order_id and positive fill"
  | ORDER_CANCELLED =>
      guard_r (is_some (ev_broker_order_id e)) ValueError
        "ORDER_CANCELLED requires broker_order_id"
  | ORDER_REJECTED =>
      guard_r (ev_filled_quantity e =? 0) ValueError "ORDER_REJECTED requires zero fill"
  end.

(** [BrokerEvidenceV1.__post_init__], without the checks of static types. *)
Definition post_init (e : BrokerEvidenceV1) : res unit :=
  do! guard_r (bool_decide (ev_version e = "1"%string)) ValueError "evidence_version must be '1'" ;;
  do! guard_r (bounded 128 (ev_source e)) ValueError "invalid source" ;;
  do! guard_r (bounded 256 (ev_source_event_id e)) ValueError "invalid source_event_id" ;;
  do! guard_r (bounded 128 (ev_mapper_profile e)) ValueError "invalid mapper_profile" ;;
  do! guard_r (bounded 128 (ev_client_order_id e)) ValueError "invalid client_order_id" ;;
  do! guard_r (bounded 512 (ev_raw_payload_ref e)) ValueError "invalid raw_payload_ref" ;;
  do! guard_r (is_sha256 (ev_account_fingerprint e)) ValueError "invalid account_fingerprint" ;;
  do! guard_r (is_sha256 (ev_semantic_digest e)) ValueError "invalid semantic_digest" ;;
  do! guard_r (opt_all (fun t => bounded 64 t && is_token t) (ev_broker_token e)) ValueError
        "invalid broker_token" ;;
  do! guard_r (opt_all (bounded 128) (ev_broker_order_id e)) ValueError "invalid broker_order_id" ;;
  do! guard_r (opt_all (bounded 128) (ev_order_ref e)) ValueError "invalid order_ref" ;;
  do! guard_r (opt_all (bounded 128) (ev_trade_id e)) ValueError "invalid trade_id" ;;
  do! guard_r (0 <=? ev_filled_quantity e) ValueError "filled_quantity cannot be negative" ;;
  do! guard_r (0 <? ev_observed_at_ms e) ValueError "observed_at_ms must be positive" ;;
  do! guard_r (opt_all (forallb (fun p =>
          bool_decide (p.1 = "order_status"%string) || bool_decide (p.1 = "submit_status"%string)))
        (ev_raw_status e)) ValueError "raw_status contains unknown fields" ;;
  do! guard_r (Bool.eqb (is_some (ev_route_account_type e))
                        (is_some (ev_route_account_fingerprint e))) ValueError
        "route account identity must be complete" ;;
  do! match ev_route_account_type e with
      | None => Ok tt
      | Some t =>
          do! guard_r (bool_decide (t = "STOCK"%string) || bool_decide (t = "HUGANGTONG"%string)
                       || bool_decide (t = "SHENGANGTONG"%string)) ValueError
                "unsupported route_account_type" ;;
          guard_r (is_sha256 (default "" (ev_route_account_fingerprint e))) ValueError
            "invalid route_account_fingerprint"
      end ;;
  do! guard_r (bool_decide (ev_requested_status e = status_by_type (ev_type e))) ValueError
        "evidence_type and requested_status disagree" ;;
  do! guard_r (negb (match ev_source_kind e with
                     | DEAL_CALLBACK | ACTIVE_DEAL_QUERY => true
                     | _ => false
                     end && negb (type_in (ev_type e) [PARTIAL_FILL; FULL_FILL]))) ValueError
        "deal sources have fill-only authority" ;;
  do! guard_r (negb (bool_decide (ev_source_kind e = DEAL_CALLBACK)
                     && negb (is_some (ev_trade_id e)))) ValueError
        "DEAL_CALLBACK requires trade_id" ;;
  do! type_facts_ok e ;;
  guard_r (bool_decide (ev_semantic_digest e =
                        broker_evidence_semantic_digest (to_mapping false e))) ValueError
    "semantic_digest does not match normalized evidence".

(** The keyword arguments of [build]: the fields but the digest. *)
Record build_args := {
  ba_source : string;
  ba_source_kind : BrokerEvidenceSourceKind;
  ba_source_event_id : string;
  ba_mapper_profile : string;
  ba_account_fingerprint : string;
  ba_client_order_id : string;
  ba_broker_token : option string;
  ba_broker_order_id : option string;
  ba_order_ref : option string;
  ba_trade_id : option string;
  ba_type : BrokerEvidenceType;
  ba_requested_status : OrderStatus;
  ba_filled_quantity : Z;
  ba_observed_at_ms : Z;
  ba_raw_payload_ref : string;
  ba_raw_status : option (list (string * raw_value));
  ba_route_account_type : option string;
  ba_route_account_fingerprint : option string
}.

(** [digest_input]: the arguments, the enumerations by value. *)
Definition digest_input (a : build_args) : jdict :=
  [("source", JStr (ba_source a));
   ("source_kind", JStr (source_kind_str (ba_source_kind a)));
   ("source_event_id", JStr (ba_source_event_id a));
   ("mapper_profile", JStr (ba_mapper_profile a));
   ("account_fingerprint", JStr (ba_account_fingerprint a));
   ("client_order_id", JStr (ba_client_order_id a));
   ("broker_token", jopt_str (ba_broker_token a));
   ("broker_order_id", jopt_str (ba_broker_order_id a));
   ("order_ref", jopt_str (ba_order_ref a));
   ("trade_id", jopt_str (ba_trade_id a));
   ("evidence_type", JStr (evidence_type_str (ba_type a)));
   ("requested_status", JStr (status_str (ba_requested_status a)));
   ("filled_quantity", JInt (ba_filled_quantity a));
   ("observed_at_ms", JInt (ba_observed_at_ms a));
   ("raw_payload_ref", JStr (ba_raw_payload_ref a));
   ("raw_status", match ba_raw_status a with Some m => raw_status_json m | None => JNull end);
   ("route_account_type", jopt_str (ba_route_account_type a));
   ("route_account_fingerprint", jopt_str (ba_route_account_fingerprint a));
   ("evidence_version", JStr "1")]%string.

Definition assemble (a : build_args) (digest : string) : BrokerEvidenceV1 :=
  {| ev_version := "1"; ev_source := ba_source a; ev_source_kind := ba_source_kind a;
     ev_source_event_id := ba_source_event_id a; ev_mapper_profile := ba_mapper_profile a;
     ev_semantic_digest := digest; ev_account_fingerprint := ba_account_fingerprint a;
     ev_client_order_id := ba_client_order_id a; ev_broker_token := ba_broker_token a;
     ev_broker_order_id := ba_broker_order_id a; ev_order_ref := ba_order_ref a;
     ev_trade_id := ba_trade_id a; ev_type := ba_type a;
     ev_requested_status := ba_requested_status a; ev_filled_quantity := ba_filled_quantity a;
     ev_observed_at_ms := ba_observed_at_ms a; ev_raw_payload_ref := ba_raw_payload_ref a;
     ev_raw_status := ba_raw_status a; ev_route_account_type := ba_route_account_type a;
     ev_route_account_fingerprint := ba_route_account_fingerprint a |}.

Definition build (a : build_args) : res BrokerEvidenceV1 :=
  let e := assemble a (broker_evidence_semantic_digest (digest_input a)) in
  do! post_init e ;; Ok e.

(** [evidence_fingerprint] of oms/evidence.py, and the text it digests. *)
Definition identity_text (source account_fingerprint source_event_id digest : string) : string :=
  dumps true (JObj [("source", JStr source); ("account_fingerprint", JStr account_fingerprint);
                    ("source_event_id", JStr source_event_id);
                    ("semantic_digest", JStr digest)])%string.

Definition fingerprint_of (source account_fingerprint source_event_id digest : string) : string :=
  Sha256.hexdigest (utf8 (identity_text source account_fingerprint source_event_id digest)).

Definition evidence_fingerprint (e : BrokerEvidenceV1) : string :=
  fingerprint_of (ev_source e) (ev_account_fingerprint e) (ev_source_event_id e)
    (ev_semantic_digest e).

(** ** Validation *)

Lemma guard_r_err b c msg e : guard_r b c msg = Err e <-> b = false /\ e = Exn c msg.
Proof. unfold guard_r, raise. destruct b; iff_crush. Qed.

(** What a validated fact guarantees to the order store. *)
Record evidence_ok (e : BrokerEvidenceV1) : Prop := {
  eo_status : ev_requested_status e = status_by_type (ev_type e);
  eo_fill : 0 <= ev_filled_quantity e;
  eo_deal : ev_source_kind e = DEAL_CALLBACK \/ ev_source_kind e = ACTIVE_DEAL_QUERY ->
            ev_type e = PARTIAL_FILL \/ ev_type e = FULL_FILL;
  eo_trade : ev_source_kind e = DEAL_CALLBACK -> is_Some (ev_trade_id e);
  eo_identity : ev_type e <> ORDER_REJECTED -> is_Some (ev_broker_order_id e);
  eo_accepted : ev_type e = ORDER_ACCEPTED \/ ev_type e = ORDER_REJECTED ->
                ev_filled_quantity e = 0;
  eo_filled : ev_type e = PARTIAL_FILL \/ ev_type e = FULL_FILL -> 0 < ev_filled_quantity e;
  eo_digest : ev_semantic_digest e = broker_evidence_semantic_digest (to_mapping false e)
}.

Lemma is_some_true {A} (o : option A) : is_some o = true <-> is_Some o.
Proof. unfold is_Some. destruct o; simpl; naive_solver. Qed.

(** Authority of evidence.  A record that passes validation reports exactly
    the status of its type; a deal source only ever reports fills (and a deal
    callback names its trade); acceptance, fills and cancellation identify the
    broker order; acceptance and rejection carry no fill and fills carry a
    positive one; and its digest is that of its own fields. *)
Lemma post_init_authority e : post_init e = Ok tt -> evidence_ok e.
Proof.
  unfold post_init. intros H. inv_ok. bool_to_prop.
  match goal with H : type_facts_ok e = Ok _ |- _ => unfold type_facts_ok in H; rename H into Hty end.
  match goal with H : context [ev_trade_id e], H' : context [type_in] |- _ =>
    rename H into Htr; rename H' into Hdl end.
  apply andb_false_iff in Htr, Hdl.
  split; try done.
  - intros Hk. destruct Hdl as [Hdl|Hdl]; [by destruct Hk as [Hk|Hk]; rewrite Hk in Hdl|].
    apply negb_false_iff in Hdl. unfold type_in in Hdl. simpl in Hdl.
    destruct (ev_type e); try discriminate; auto.
  - intros Hk. destruct Htr as [Htr|Htr]; bool_to_prop; [done|]. by apply is_some_true.
  - intros Hne. destruct (ev_type e); try done; apply guard_r_ok in Hty; bool_to_prop;
      by apply is_some_true.
  - intros [He|He]; rewrite He in Hty; apply guard_r_ok in Hty; bool_to_prop; done.
  - intros [He|He]; rewrite He in Hty; apply guard_r_ok in Hty; bool_to_prop; done.
Qed.

Lemma evidence_ok_lifecycle e :
  evidence_ok e ->
  status_in (ev_requested_status e)
    [ACKNOWLEDGED; PARTIALLY_FILLED; FILLED; CANCELLED; REJECTED] = true.
Proof. intros []. rewrite eo_status0. by destruct (ev_type e). Qed.

(** ** Digests *)

Lemma digest_input_semantic a d :
  is_some (ba_route_account_type a) = is_some (ba_route_account_fingerprint a) ->
  semantic_of (digest_input a) = semantic_of (to_mapping false (assemble a d)).
Proof.
  destruct a as [? ? ? ? ? ? ? ? ? ? ? ? ? ? ? [rs|] [rt|] [rf|]]; intros Hr;
    try discriminate Hr; reflexivity.
Qed.

Lemma semantic_digest_ext v w :
  semantic_of v = semantic_of w ->
  broker_evidence_semantic_digest v = broker_evidence_semantic_digest w.
Proof. unfold broker_evidence_semantic_digest. by intros ->. Qed.

Lemma all_chars_ext p q s : (forall a, p a = q a) -> all_chars p s = all_chars q s.
Proof. intros H. induction s; simpl; congruence. Qed.

Lemma substring_full s n : String.length s = n -> String.substring 0 n s = s.
Proof.
  revert n. induction s as [|a s IH]; intros [|n]; simpl; try done; intros [=]; f_equal; auto.
Qed.

Lemma digest_is_sha256 v : is_sha256 (broker_evidence_semantic_digest v) = true.
Proof.
  unfold broker_evidence_semantic_digest, is_sha256.
  set (h := Sha256.hexdigest _).
  assert (Hl : String.length h = 64%nat) by apply Sha256Facts.digest_length.
  assert (Hc : all_chars is_lower_hex h = true) by apply Sha256Facts.digest_lower.
  clearbody h. autorewrite with strdb. cbn [startswith String.length String.substring].
  rewrite Hl, (substring_full h 64 Hl), Hc. reflexivity.
Qed.

Lemma build_ok a e :
  build a = Ok e -> e = assemble a (broker_evidence_semantic_digest (digest_input a)) /\ evidence_ok e.
Proof.
  unfold build. intros H. apply res_bind_ok in H as ([] & Hp & [= <-]). split; [done|].
  by apply post_init_authority.
Qed.

Lemma build_err a x : build a = Err x -> exn_cls x = ValueError.
Proof.
  unfold build, post_init, type_facts_ok. intros H.
  repeat match goal with
  | H : res_bind _ _ = Err _ |- _ => apply res_bind_err in H as [H|(? & ? & H)]
  | H : guard_r _ _ _ = Err _ |- _ => by apply guard_r_err in H as [_ ->]
  | H : match ?o with _ => _ end = Err _ |- _ => destruct o
  | H : Ok _ = Err _ |- _ => discriminate H
  end.
Qed.

(** Digests agree.  Whatever the arguments, [build] never fails on the
    digest: the digest of the arguments is well-formed and equals the one the
    validation recomputes from the record's own mapping.  So [build] succeeds
    exactly when the remaining checks pass, and then returns its arguments. *)
Theorem build_digest_agrees a :
  (forall e, build a = Err e ->
     exn_msg e <> "invalid semantic_digest"%string /\
     exn_msg e <> "semantic_digest does not match normalized evidence"%string) /\
  (forall e, build a = Ok e ->
     e = assemble a (broker_evidence_semantic_digest (digest_input a)) /\ evidence_ok e).
Proof.
  split; intros e H; unfold build in H.
  - apply res_bind_err in H as [H|(? & ? & H)]; [|done].
    unfold post_init in H.
    repeat match goal with
    | H : res_bind _ _ = Err _ |- _ =>
        apply res_bind_err in H as [H|(? & ? & H)]
    | H : guard_r _ _ _ = Err _ |- _ => apply guard_r_err in H as [H ->]
    end; try (by split; discriminate).
    + cbn [assemble ev_semantic_digest] in H. by rewrite digest_is_sha256 in H.
    + destruct (ev_route_account_type _); [|done].
      repeat match goal with
      | H : res_bind _ _ = Err _ |- _ => apply res_bind_err in H as [H|(? & ? & H)]
      | H : guard_r _ _ _ = Err _ |- _ => apply guard_r_err in H as [H ->]
      end; by split; discriminate.
    + unfold type_facts_ok in H. destruct (ev_type _); apply guard_r_err in H as [H ->];
        by split; discriminate.
    + bool_to_prop. destruct H. cbn [assemble ev_semantic_digest].
      apply semantic_digest_ext, digest_input_semantic.
      repeat match goal with
      | H : guard_r _ _ _ = Ok _ |- _ => apply guard_r_ok in H
      end.
      match goal with H : Bool.eqb _ _ = true |- _ => by apply Bool.eqb_prop in H end.
  - by apply build_ok.
Qed.

(** The identity's canonical text, spelled out. *)
Lemma identity_text_eq s a i d :
  identity_text s a i d =
  "{" +:+ quoted true "account_fingerprint" +:+ ":" +:+ quoted true a +:+ "," +:+
  quoted true "semantic_digest" +:+ ":" +:+ quoted true d +:+ "," +:+
  quoted true "source" +:+ ":" +:+ quoted true s +:+ "," +:+
  quoted true "source_event_id" +:+ ":" +:+ quoted true i +:+ "}".
Proof.
  unfold identity_text, dumps. cbv -[quoted String.append].
  rewrite !str_app_assoc. reflexivity.
Qed.

Lemma identity_text_inj s a i d s' a' i' d' :
  identity_text s a i d = identity_text s' a' i' d' ->
  s = s' /\ a = a' /\ i = i' /\ d = d'.
Proof.
  rewrite !identity_text_eq. intros H.
  apply str_app_inj in H.
  repeat match goal with
  | H : quoted _ _ +:+ _ = quoted _ _ +:+ _ |- _ => apply quoted_inj in H as [? H]
  | H : ?x +:+ _ = ?x +:+ _ |- _ => apply str_app_inj in H
  end.
  subst. auto.
Qed.

(** Fingerprints identify.  Two pieces of evidence with the same fingerprint
    have the same source, account, source event id and semantic digest, unless
    their identity texts are a SHA-256 collision. *)
Theorem fingerprint_identifies s a i d s' a' i' d' :
  fingerprint_of s a i d = fingerprint_of s' a' i' d' ->
  (s = s' /\ a = a' /\ i = i' /\ d = d') \/
  sha256_collision (utf8 (identity_text s a i d)) (utf8 (identity_text s' a' i' d')).
Proof.
  intros H. destruct (decide (identity_text s a i d = identity_text s' a' i' d')) as [He|He].
  - left. by apply identity_text_inj.
  - right. split; [|done]. intros Hu. by apply He, utf8_inj.
Qed.

Lemma fingerprint_identifies_witness :
  let f := fingerprint_of "qmt" "acc" "event-1" "digest" in
  f = fingerprint_of "qmt" "acc" "event-1" "digest" /\
  (("qmt"%string = "qmt"%string /\ "acc"%string = "acc"%string /\
    "event-1"%string = "event-1"%string /\ "digest"%string = "digest"%string) \/
   sha256_collision (utf8 (identity_text "qmt" "acc" "event-1" "digest"))
     (utf8 (identity_text "qmt" "acc" "event-1" "digest"))).
Proof.
  split; [reflexivity|].
  exact (fingerprint_identifies "qmt" "acc" "event-1" "digest" "qmt" "acc" "event-1" "digest"
           eq_refl).
Defined.
