(* ===== verification/Evidence.v ===== *)
(** * Evidence: the evidence journal of [oms/evidence.py]

    [EvidenceJournal.ingest]: the replay keys, the observations, and the merge of
    a broker fact into its order.  A conflict is committed (key, observation,
    order in MANUAL_REVIEW) before [BrokerEvidenceConflict] is raised. *)

From S2P Require Import Prelude Decimal Json Domain Db Repository OrderStore BrokerEvidence.
Open Scope Z_scope.

Record EvidenceIngestResult := {
  ir_fingerprint : string;
  ir_duplicate : bool;
  ir_status : OrderStatus;
  ir_disposition : TransitionDisposition
}.

(** [_filled_conflict_reason], on [str(exc)]. *)
Definition filled_conflict_reason (message : string) : string :=
  if str_contains "outside" message then "filled_quantity_exceeds_order_quantity"
  else if startswith "FILLED broker status" message then "filled_status_quantity_mismatch"
  else if startswith "REJECTED broker status" message then "rejected_with_positive_fill"
  else if startswith "PARTIALLY_FILLED broker status" message then
    "partial_fill_requires_positive_quantity"
  else "invalid_filled_quantity".

(** The [except] clauses around the merge: the conflict and the fill to keep. *)
Definition merge_conflict (filled : Z) (e : exn) : option (string * option Z) :=
  match exn_cls e with
  | BrokerOrderIdMismatch => Some ("broker_order_id_mismatch"%string, None)
  | BrokerLifecycleConflict =>
      Some ("terminal_broker_fact_conflict: " +:+ exn_msg e, Some filled)
  | InvalidFilledQuantity => Some (filled_conflict_reason (exn_msg e), None)
  | InvalidTransition => Some ("illegal_state_evidence"%string, None)
  | _ => None
  end.

(** The exceptions of the write guard. *)
Definition fence_error (e : exn) : bool :=
  match exn_cls e with RuntimeError | ValueError | OmsLeaderLost => true | _ => false end.

Definition reused_reason : string := "source_event_id_reused_with_different_evidence".

(** [COALESCE(x, '') = COALESCE(y, '')]. *)
Definition coalesce_eq (x y : option string) : bool :=
  bool_decide (default ""%string x = default ""%string y).

(** The row the key's unique index finds. *)
#[global] Arguments evidence_fingerprint : simpl never.
#[global] Arguments to_mapping : simpl never.

Definition find_identity (d : db) (source account event_id : string) : option (string * key_row) :=
  List.find (fun p =>
    bool_decide (k_source p.2 = source) && bool_decide (k_account_fingerprint p.2 = account)
    && bool_decide (k_source_event_id p.2 = event_id)) (tbl_scan (d_keys d)).

Definition semantic_match (e : BrokerEvidenceV1) (o : obs_row) : bool :=
  bool_decide (ob_account_fingerprint o = ev_account_fingerprint e)
  && bool_decide (ob_client_order_id o = ev_client_order_id e)
  && bool_decide (ob_evidence_type o = evidence_type_str (ev_type e))
  && bool_decide (ob_requested_status o = ev_requested_status e)
  && (ob_filled_quantity o =? ev_filled_quantity e)
  && coalesce_eq (ob_broker_order_id o) (ev_broker_order_id e)
  && coalesce_eq (ob_trade_id o) (ev_trade_id e)
  && coalesce_eq (ob_broker_token o) (ev_broker_token e)
  && existsb (fun c => bool_decide (ob_classification o = c))
       ["NEW"; "DUPLICATE"; "SEMANTIC_DUPLICATE"]%string.

Definition obs_of (fingerprint : string) (e : BrokerEvidenceV1)
    (classification payload_json observed_at : string) : obs_row :=
  {| ob_fingerprint := fingerprint; ob_source := ev_source e;
     ob_source_event_id := ev_source_event_id e;
     ob_account_fingerprint := ev_account_fingerprint e;
     ob_client_order_id := ev_client_order_id e;
     ob_evidence_type := evidence_type_str (ev_type e);
     ob_broker_order_id := ev_broker_order_id e;
     ob_requested_status := ev_requested_status e;
     ob_filled_quantity := ev_filled_quantity e;
     ob_classification := classification; ob_payload_json := payload_json;
     ob_observed_at := observed_at;
     ob_source_kind := source_kind_str (ev_source_kind e);
     ob_mapper_profile := ev_mapper_profile e; ob_semantic_digest := ev_semantic_digest e;
     ob_broker_token := ev_broker_token e; ob_order_ref := ev_order_ref e;
     ob_trade_id := ev_trade_id e; ob_raw_payload_ref := ev_raw_payload_ref e;
     ob_raw_status_json :=
       (fun m => dumps true (raw_status_json m)) <$> ev_raw_status e;
     ob_route_account_type := ev_route_account_type e;
     ob_route_account_fingerprint := ev_route_account_fingerprint e |}.

Definition key_of (e : BrokerEvidenceV1) (accepted : bool)
    (disposition : option TransitionDisposition) (conflict_reason : option string)
    (observed_at : string) : key_row :=
  {| k_source := ev_source e; k_source_event_id := ev_source_event_id e;
     k_accepted := accepted; k_result_disposition := disposition;
     k_conflict_reason := conflict_reason; k_first_observed_at := observed_at;
     k_account_fingerprint := ev_account_fingerprint e;
     k_semantic_digest := ev_semantic_digest e |}.

Open Scope oms_scope.

Section Journal.
Context {R : Type} {env : Env} (write_guard : M R unit).
Implicit Types (w : world R) (e : BrokerEvidenceV1).

(** The primary key and the unique index on (source, account, event id). *)
Definition insert_key (fingerprint : string) e (accepted : bool)
    (disposition : option TransitionDisposition) (conflict_reason : option string)
    (observed_at : string) : M R unit :=
  clash <- read_db (fun d => find_identity d (ev_source e) (ev_account_fingerprint e)
                               (ev_source_event_id e)) ;;
  ins <- read_db (fun d => tbl_insert fingerprint
           (key_of e accepted disposition conflict_reason observed_at) (d_keys d)) ;;
  match clash, ins with
  | None, Some x => write_db (set_keys x)
  | _, _ => raiseM SqliteIntegrityError "UNIQUE constraint failed"
  end.

Definition insert_observation (fingerprint : string) e
    (classification payload_json observed_at : string) : M R unit :=
  fk <- read_db (fun d => tbl_get (d_intents d) (ev_key e)) ;;
  do! guardM (bool_decide (is_Some fk)) SqliteIntegrityError "FOREIGN KEY constraint failed" ;;
  write_db (fun d => set_observations (d_observations d ++
    [obs_of fingerprint e classification payload_json observed_at]) d).

Definition current_status (k : okey) : M R OrderStatus :=
  row <- read_db (fun d => tbl_get (d_orders d) k) ;;
  match row with
  | Some r => retM (o_status r)
  | None => raiseM KeyError k.2
  end.

Definition semantic_duplicate_exists e : M R bool :=
  current <- current_status (ev_key e) ;;
  match transition current (ev_requested_status e) with
  | Err _ => retM false
  | Ok lifecycle =>
      if to_changed lifecycle then retM false
      else read_db (fun d => existsb (semantic_match e) (d_observations d))
  end.

Definition list_observations (k : okey) : M R (list obs_row) :=
  read_db (fun d => List.filter (fun o =>
    bool_decide ((ob_account_fingerprint o, ob_client_order_id o) = k)) (d_observations d)).

Definition mark := mark_broker_conflict_manual_review_in_tx (Some write_guard).

(** The event id names other evidence already: both orders go to review. *)
Definition ingest_reused (row_fingerprint fingerprint : string) e
    (payload_json observed_at : string) : M R (string + EvidenceIngestResult) :=
  do! insert_observation fingerprint e "CONFLICT" payload_json observed_at ;;
  original <- read_db (fun d => List.find (fun o =>
                bool_decide (ob_fingerprint o = row_fingerprint)) (d_observations d)) ;;
  let original_key := (fun o => (ob_account_fingerprint o, ob_client_order_id o)) <$> original in
  do! match original_key with
      | Some k => mark k reused_reason
                    [("source"%string, JStr (ev_source e));
                     ("source_event_id"%string, JStr (ev_source_event_id e));
                     ("conflicting_client_order_id"%string, JStr (ev_client_order_id e))] None
      | None => retM tt
      end ;;
  do! (if bool_decide (original_key = Some (ev_key e)) then retM tt
       else mark (ev_key e) reused_reason
              [("source"%string, JStr (ev_source e));
               ("source_event_id"%string, JStr (ev_source_event_id e));
               ("original_client_order_id"%string, jopt_str (snd <$> original_key))] None) ;;
  retM (inl reused_reason).

(** The same identity and digest again. *)
Definition ingest_replay (row : key_row) (fingerprint : string) e
    (payload_json observed_at : string) : M R (string + EvidenceIngestResult) :=
  do! insert_observation fingerprint e
        (if k_accepted row then "DUPLICATE" else "CONFLICT_DUPLICATE") payload_json observed_at ;;
  current <- current_status (ev_key e) ;;
  if k_accepted row then
    match k_result_disposition row with
    | Some d => retM (inr {| ir_fingerprint := fingerprint; ir_duplicate := true;
                             ir_status := current; ir_disposition := d |})
    | None => raiseM ValueError "None is not a valid TransitionDisposition"
    end
  else retM (inl (match k_conflict_reason row with
                  | Some r => if str_nonempty r then r else "previous_evidence_conflict"
                  | None => "previous_evidence_conflict"
                  end%string)).

Definition ingest_semantic_duplicate (fingerprint : string) e
    (payload_json observed_at : string) : M R (string + EvidenceIngestResult) :=
  do! insert_key fingerprint e true (Some DUPLICATE_IGNORED) None observed_at ;;
  do! insert_observation fingerprint e "SEMANTIC_DUPLICATE" payload_json observed_at ;;
  status <- current_status (ev_key e) ;;
  retM (inr {| ir_fingerprint := fingerprint; ir_duplicate := true;
               ir_status := status; ir_disposition := DUPLICATE_IGNORED |}).

Definition merge_evidence_json (fingerprint : string) e : jdict :=
  [("fingerprint", JStr fingerprint); ("source", JStr (ev_source e));
   ("source_kind", JStr (source_kind_str (ev_source_kind e)));
   ("source_event_id", JStr (ev_source_event_id e));
   ("mapper_profile", JStr (ev_mapper_profile e));
   ("semantic_digest", JStr (ev_semantic_digest e));
   ("broker_order_id", jopt_str (ev_broker_order_id e));
   ("filled_quantity", JInt (ev_filled_quantity e))]%string.

(** The merge under its [try]: the outcome, or the conflict it amounts to. *)
Definition try_merge (fingerprint : string) e
    : M R (TransitionOutcome + (string * option Z)) :=
  tryM
    (outcome <- merge_broker_fact_in_tx (Some write_guard) (ev_key e) (ev_requested_status e)
                  ("BROKER_EVIDENCE_" +:+ evidence_type_str (ev_type e))
                  (merge_evidence_json fingerprint e) (ev_broker_order_id e)
                  (Some (ev_filled_quantity e)) None ;;
     retM (inl outcome))
    (fun exc => match merge_conflict (ev_filled_quantity e) exc with
                | Some c => retM (inr c)
                | None => reraise exc
                end).

Definition ingest_new (fingerprint : string) e
    (payload_json observed_at : string) : M R (string + EvidenceIngestResult) :=
  merged <- try_merge fingerprint e ;;
  match merged with
  | inl outcome =>
      do! insert_key fingerprint e true (Some (to_disposition outcome)) None observed_at ;;
      do! insert_observation fingerprint e "NEW" payload_json observed_at ;;
      retM (inr {| ir_fingerprint := fingerprint; ir_duplicate := false;
                   ir_status := to_current outcome;
                   ir_disposition := to_disposition outcome |})
  | inr (conflict, conflict_fill) =>
      do! insert_key fingerprint e false None (Some conflict) observed_at ;;
      do! insert_observation fingerprint e "CONFLICT" payload_json observed_at ;;
      do! mark (ev_key e) conflict
            [("source"%string, JStr (ev_source e));
             ("source_event_id"%string, JStr (ev_source_event_id e));
             ("semantic_digest"%string, JStr (ev_semantic_digest e))] conflict_fill ;;
      retM (inl conflict)
  end.

(** Replay, semantic duplicate or new fact. *)
Definition ingest_by_fingerprint (fingerprint : string) e
    (payload_json observed_at : string) : M R (string + EvidenceIngestResult) :=
  key_row <- read_db (fun d => tbl_get (d_keys d) fingerprint) ;;
  match key_row with
  | Some row => ingest_replay row fingerprint e payload_json observed_at
  | None =>
      dup <- semantic_duplicate_exists e ;;
      if dup : bool then ingest_semantic_duplicate fingerprint e payload_json observed_at
      else ingest_new fingerprint e payload_json observed_at
  end.

(** The body of [ingest]'s transaction: the conflict or the result. *)
Definition ingest_in_tx e : M R (string + EvidenceIngestResult) :=
  let fingerprint := evidence_fingerprint e in
  let observed_at := z_str (ev_observed_at_ms e) in
  let payload_json := dumps false (JObj (to_mapping true e)) in
  do! write_guard ;;
  identity <- read_db (fun d => find_identity d (ev_source e) (ev_account_fingerprint e)
                                  (ev_source_event_id e)) ;;
  match identity with
  | Some (row_fp, row) =>
      if bool_decide (k_semantic_digest row = ev_semantic_digest e) then
        ingest_by_fingerprint fingerprint e payload_json observed_at
      else ingest_reused row_fp fingerprint e payload_json observed_at
  | None => ingest_by_fingerprint fingerprint e payload_json observed_at
  end.

Definition ingest e : M R EvidenceIngestResult :=
  out <- transaction (ingest_in_tx e) ;;
  match out with
  | inl conflict => raiseM BrokerEvidenceConflict conflict
  | inr result => retM result
  end.

End Journal.

(** ** What an ingestion may do to the database

    [ingested e d out d'] is the contract of [ingest]: the branches of the
    journal as relations between the database before and the one committed. *)

Definition obs_put (e : BrokerEvidenceV1) (classification : string) (d : db) : db :=
  set_observations (d_observations d ++
    [obs_of (evidence_fingerprint e) e classification
       (dumps false (JObj (to_mapping true e))) (z_str (ev_observed_at_ms e))]) d.

(** The identity and the fingerprint are new, and the key row is inserted. *)
Definition key_put (e : BrokerEvidenceV1) (accepted : bool)
    (disposition : option TransitionDisposition) (conflict_reason : option string)
    (d d' : db) : Prop :=
  find_identity d (ev_source e) (ev_account_fingerprint e) (ev_source_event_id e) = None /\
  exists x, tbl_insert (evidence_fingerprint e)
              (key_of e accepted disposition conflict_reason (z_str (ev_observed_at_ms e)))
              (d_keys d) = Some x /\
            d' = set_keys x d.

(** The order of [k] went to MANUAL_REVIEW, a valid fill being kept. *)
Definition reviewed {A} (k : okey) (fill : option Z) (d : db) (a : A) (d' : db) : Prop :=
  writes k (fun r q (_ : A) r' => exists t eff,
    eff = match fill with Some f => Z.max (o_filled_quantity r) f
                     | None => o_filled_quantity r end /\
    match fill with Some f => 0 <= f <= q | None => True end /\
    r' = review_row eff (o_cancel_outcome_resolved r) t r) d a d'.

Definition replayed_reason (row : key_row) : string :=
  match k_conflict_reason row with
  | Some r => if str_nonempty r then r else "previous_evidence_conflict"
  | None => "previous_evidence_conflict"
  end%string.

Definition obs_key (o : obs_row) : okey := (ob_account_fingerprint o, ob_client_order_id o).

Definition merged_by (e : BrokerEvidenceV1) :=
  moved_by (ev_requested_status e) (ev_broker_order_id e) (Some (ev_filled_quantity e)) None true.

Inductive ingested (e : BrokerEvidenceV1) (d : db)
    : string + EvidenceIngestResult -> db -> Prop :=
  | ing_replay row disp r :
      tbl_get (d_keys d) (evidence_fingerprint e) = Some row ->
      k_accepted row = true -> k_result_disposition row = Some disp ->
      tbl_get (d_orders d) (ev_key e) = Some r -> is_Some (tbl_get (d_intents d) (ev_key e)) ->
      ingested e d (inr {| ir_fingerprint := evidence_fingerprint e; ir_duplicate := true;
                           ir_status := o_status r; ir_disposition := disp |})
        (obs_put e "DUPLICATE" d)
  | ing_replay_conflict row :
      tbl_get (d_keys d) (evidence_fingerprint e) = Some row -> k_accepted row = false ->
      is_Some (tbl_get (d_intents d) (ev_key e)) ->
      ingested e d (inl (replayed_reason row)) (obs_put e "CONFLICT_DUPLICATE" d)
  | ing_semantic r d1 :
      tbl_get (d_orders d) (ev_key e) = Some r -> is_Some (tbl_get (d_intents d) (ev_key e)) ->
      key_put e true (Some DUPLICATE_IGNORED) None d d1 ->
      ingested e d (inr {| ir_fingerprint := evidence_fingerprint e; ir_duplicate := true;
                           ir_status := o_status r; ir_disposition := DUPLICATE_IGNORED |})
        (obs_put e "SEMANTIC_DUPLICATE" d1)
  | ing_new o d1 d2 :
      writes (ev_key e) (merged_by e) d o d1 ->
      key_put e true (Some (to_disposition o)) None d1 d2 ->
      ingested e d (inr {| ir_fingerprint := evidence_fingerprint e; ir_duplicate := false;
                           ir_status := to_current o; ir_disposition := to_disposition o |})
        (obs_put e "NEW" d2)
  | ing_conflict r q exc conflict fill d1 d2 :
      order_context d (ev_key e) = Some (r, q) ->
      decide_transition (o_status r) (o_broker_order_id r) (o_filled_quantity r) q
        (ev_requested_status e) (ev_broker_order_id e) (Some (ev_filled_quantity e)) true
        = Err exc ->
      merge_conflict (ev_filled_quantity e) exc = Some (conflict, fill) ->
      key_put e false None (Some conflict) d d1 ->
      reviewed (ev_key e) fill (obs_put e "CONFLICT" d1) tt d2 ->
      ingested e d (inl conflict) d2
  | ing_reused row_fp row original d1 d2 :
      find_identity d (ev_source e) (ev_account_fingerprint e) (ev_source_event_id e)
        = Some (row_fp, row) ->
      k_semantic_digest row <> ev_semantic_digest e ->
      is_Some (tbl_get (d_intents d) (ev_key e)) ->
      original = obs_key <$> List.find (fun o => bool_decide (ob_fingerprint o = row_fp))
                               (d_observations (obs_put e "CONFLICT" d)) ->
      match original with
      | Some k => reviewed k None (obs_put e "CONFLICT" d) tt d1
      | None => d1 = obs_put e "CONFLICT" d
      end ->
      (if decide (original = Some (ev_key e)) then d2 = d1
       else reviewed (ev_key e) None d1 tt d2) ->
      ingested e d (inl reused_reason) d2.


Section Refinement.
Context {R : Type} {env : Env} (write_guard : M R unit).
Hypothesis guard_quiet : quiet write_guard.
(** [assert_leader] raises these only. *)
Hypothesis guard_errors : forall w e, (write_guard w).1 = Err e -> fence_error e = true.
Implicit Types (w : world R) (e : BrokerEvidenceV1).

Lemma insert_key_ok e acc disp cr w :
  in_tx_ok (insert_key (evidence_fingerprint e) e acc disp cr (z_str (ev_observed_at_ms e)))
    (fun _ d' => key_put e acc disp cr (w_db w) d') w.
Proof.
  unfold insert_key. do 2 apply in_tx_ok_read.
  destruct (find_identity _ _ _ _) eqn:Ef; [apply in_tx_ok_raise|].
  destruct (tbl_insert _ _ _) as [x|] eqn:Et; [|apply in_tx_ok_raise].
  repeat split; [done|]. by exists x.
Qed.

Lemma insert_observation_ok e cls w :
  in_tx_ok (insert_observation (evidence_fingerprint e) e cls
              (dumps false (JObj (to_mapping true e))) (z_str (ev_observed_at_ms e)))
    (fun _ d' => is_Some (tbl_get (d_intents (w_db w)) (ev_key e)) /\
                 d' = obs_put e cls (w_db w)) w.
Proof.
  unfold insert_observation. apply in_tx_ok_read. unfold in_tx_ok.
  repeat wp_step; [|done]. bool_to_prop. by repeat split.
Qed.

Lemma current_status_ok k w :
  in_tx_ok (current_status k)
    (fun s d' => d' = w_db w /\ exists r, tbl_get (d_orders (w_db w)) k = Some r /\
                                     o_status r = s) w.
Proof.
  unfold current_status. apply in_tx_ok_read.
  destruct (tbl_get _ _) as [r|] eqn:E; [|apply in_tx_ok_raise].
  apply in_tx_ok_ret. eauto.
Qed.

Lemma mark_ok k reason ev f w :
  in_tx_ok (mark write_guard k reason ev f) (fun a d' => reviewed k f (w_db w) a d') w.
Proof. unfold mark. by apply mark_conflict_ok. Qed.

Lemma try_merge_ok fp e w :
  in_tx_ok (try_merge write_guard fp e) (fun res d' =>
    match res with
    | inl o => writes (ev_key e) (merged_by e) (w_db w) o d'
    | inr (conflict, fill) => d' = w_db w /\ exists r q exc,
        order_context (w_db w) (ev_key e) = Some (r, q) /\
        decide_transition (o_status r) (o_broker_order_id r) (o_filled_quantity r) q
          (ev_requested_status e) (ev_broker_order_id e) (Some (ev_filled_quantity e)) true
          = Err exc /\
        merge_conflict (ev_filled_quantity e) exc = Some (conflict, fill)
    end) w.
Proof.
  unfold try_merge, in_tx_ok. apply wp_try, wp_bind. unfold merge_broker_fact_in_tx.
  apply wp_bind. unfold require_tx. repeat wp_step; [|by repeat split].
  unfold guard_write_in_tx. repeat wp_step; [|by repeat split].
  unfold wp at 1. pose proof (guard_quiet w) as Hq. pose proof (guard_errors w) as He.
  unfold wp in Hq. destruct (write_guard w) as [[[]|x] w1]; cbn [fst snd] in *;
    destruct Hq as [Hd Hf].
  - eapply wp_mono; [apply transition_in_tx_spec|].
    intros [o|x] w2 [Hf2 Hr]; repeat wp_step.
    + split; [unfold frame in *; naive_solver congruence|]. rewrite Hd in Hr.
      destruct Hr as (r & q & eff & norm & t & e' & Hc & Hdec & Hw & He1 & He2 & He3).
      exists q, r, (apply_transition o eff (ev_broker_order_id e) None t r).
      split; [|by exists eff, norm, t]. split; [done|]. exists e'. repeat split; try done.
      rewrite He3. symmetry. by eapply apply_status.
    + destruct Hr as [Hd2 Hr]. rewrite Hd in *.
      destruct (merge_conflict _ x) as [[conflict fill]|] eqn:Em; repeat wp_step;
        (split; [unfold frame in *; naive_solver congruence|]); [|done].
      split; [congruence|]. destruct Hr as [[_ Hx]|(r & q & Hc & Hdec)].
      * unfold merge_conflict in Em. by rewrite Hx in Em.
      * by exists r, q, x.
  - specialize (He _ eq_refl). assert (Hm : merge_conflict (ev_filled_quantity e) x = None)
      by (unfold fence_error, merge_conflict in *; by destruct (exn_cls x)).
    rewrite Hm. by repeat split; repeat wp_step; cbn; destruct Hf.
Qed.
Lemma ingest_reused_ok row_fp row e w :
  find_identity (w_db w) (ev_source e) (ev_account_fingerprint e) (ev_source_event_id e)
    = Some (row_fp, row) ->
  k_semantic_digest row <> ev_semantic_digest e ->
  in_tx_ok (ingest_reused write_guard row_fp (evidence_fingerprint e) e
              (dumps false (JObj (to_mapping true e))) (z_str (ev_observed_at_ms e)))
    (fun out d' => ingested e (w_db w) out d') w.
Proof.
  intros Hi Hd. unfold ingest_reused.
  eapply in_tx_ok_bind; [apply insert_observation_ok|]. intros _ w1 [Hfk Hw1] _. cbv beta in *.
  apply in_tx_ok_read. rewrite Hw1. cbv beta zeta. fold obs_key.
  set (original := obs_key <$> List.find (fun o => bool_decide (ob_fingerprint o = row_fp))
                                 (d_observations (obs_put e "CONFLICT" (w_db w)))).
  eapply in_tx_ok_bind with (P := fun _ d1 => match original with
    | Some k => reviewed k None (obs_put e "CONFLICT" (w_db w)) tt d1
    | None => d1 = obs_put e "CONFLICT" (w_db w)
    end).
  { destruct original as [k|];
      [|by apply in_tx_ok_ret]. rewrite <- Hw1. eapply in_tx_ok_mono; [apply mark_ok|].
    by intros [] d1. }
  intros _ w2 Hw2 _. eapply in_tx_ok_bind with (P := fun _ d2 =>
    if decide (original = Some (ev_key e)) then d2 = w_db w2
    else reviewed (ev_key e) None (w_db w2) tt d2).
  { destruct (decide (original = Some (ev_key e))) as [Ho|Ho].
    - rewrite bool_decide_true by done. by apply in_tx_ok_ret.
    - rewrite bool_decide_false by done. eapply in_tx_ok_mono; [apply mark_ok|].
      by intros [] d2. }
  intros _ w3 Hw3 _. apply in_tx_ok_ret. by eapply ing_reused.
Qed.

Lemma ingest_replay_ok row e w :
  tbl_get (d_keys (w_db w)) (evidence_fingerprint e) = Some row ->
  in_tx_ok (ingest_replay row (evidence_fingerprint e) e
              (dumps false (JObj (to_mapping true e))) (z_str (ev_observed_at_ms e)))
    (fun out d' => ingested e (w_db w) out d') w.
Proof.
  intros Hk. unfold ingest_replay.
  eapply in_tx_ok_bind; [apply insert_observation_ok|]. intros _ w1 [Hfk Hw1] _. cbv beta in *.
  eapply in_tx_ok_bind; [apply current_status_ok|].
  intros s w2 (Hw2 & r & Hr & <-) _. cbv beta in *. rewrite Hw1 in Hr, Hw2. cbn in Hr.
  destruct (k_accepted row) eqn:Ea.
  - destruct (k_result_disposition row) as [disp|] eqn:Ed; [|apply in_tx_ok_raise].
    apply in_tx_ok_ret. rewrite Hw2. by econstructor.
  - apply in_tx_ok_ret. rewrite Hw2. by apply (ing_replay_conflict _ _ row).
Qed.

Lemma ingest_semantic_ok e w :
  in_tx_ok (ingest_semantic_duplicate (evidence_fingerprint e) e
              (dumps false (JObj (to_mapping true e))) (z_str (ev_observed_at_ms e)))
    (fun out d' => ingested e (w_db w) out d') w.
Proof.
  unfold ingest_semantic_duplicate.
  eapply in_tx_ok_bind; [apply insert_key_ok|]. intros [] w1 Hk _. cbv beta in Hk.
  eapply in_tx_ok_bind; [apply insert_observation_ok|]. intros _ w2 [Hfk Hw2] _. cbv beta in *.
  eapply in_tx_ok_bind; [apply current_status_ok|].
  intros s w3 (Hw3 & r & Hr & <-) _. cbv beta in *. rewrite Hw2 in Hr, Hw3.
  apply in_tx_ok_ret. rewrite Hw3.
  destruct Hk as (Hf & x & Hx & Hw1). rewrite Hw1 in *.
  eapply ing_semantic; [exact Hr | exact Hfk |]. split; [done|]. by exists x.
Qed.

Lemma ingest_new_ok e w :
  in_tx_ok (ingest_new write_guard (evidence_fingerprint e) e
              (dumps false (JObj (to_mapping true e))) (z_str (ev_observed_at_ms e)))
    (fun out d' => ingested e (w_db w) out d') w.
Proof.
  unfold ingest_new. eapply in_tx_ok_bind; [apply try_merge_ok|].
  intros [o|[conflict fill]] w1 Hm _; cbv beta iota in *.
  - eapply in_tx_ok_bind; [apply insert_key_ok|]. intros [] w2 Hk _. cbv beta in Hk.
    eapply in_tx_ok_bind; [apply insert_observation_ok|]. intros _ w3 [Hfk Hw3] _. cbv beta in *.
    apply in_tx_ok_ret. rewrite Hw3. by eapply ing_new.
  - destruct Hm as (Hw1 & r & q & exc & Hc & Hd & Hm).
    eapply in_tx_ok_bind; [apply insert_key_ok|]. intros [] w2 Hk _. cbv beta in Hk.
    eapply in_tx_ok_bind; [apply insert_observation_ok|]. intros _ w3 [Hfk Hw3] _. cbv beta in *.
    eapply in_tx_ok_bind; [apply mark_ok|]. intros [] w4 Hr _. cbv beta in *.
    apply in_tx_ok_ret. rewrite Hw3, Hw1 in *. by eapply ing_conflict.
Qed.

Lemma semantic_duplicate_quiet e : quiet (R := R) (semantic_duplicate_exists e).
Proof.
  intros w. unfold semantic_duplicate_exists, current_status, frame. repeat wp_step.
  destruct (tbl_get _ _); repeat wp_step; [|done].
  destruct (transition _ _); repeat wp_step; [|done].
  destruct (to_changed _); by repeat wp_step.
Qed.

Lemma ingest_by_fingerprint_ok e w :
  in_tx_ok (ingest_by_fingerprint write_guard (evidence_fingerprint e) e
              (dumps false (JObj (to_mapping true e))) (z_str (ev_observed_at_ms e)))
    (fun out d' => ingested e (w_db w) out d') w.
Proof.
  unfold ingest_by_fingerprint. apply in_tx_ok_read.
  destruct (tbl_get (d_keys _) _) as [row|] eqn:Ek; [by apply ingest_replay_ok|].
  apply in_tx_ok_quiet; [apply semantic_duplicate_quiet|]. intros dup w1 <- _.
  destruct dup; [apply ingest_semantic_ok | apply ingest_new_ok].
Qed.

Lemma ingest_in_tx_ok e w :
  in_tx_ok (ingest_in_tx write_guard e) (fun out d' => ingested e (w_db w) out d') w.
Proof.
  unfold ingest_in_tx. apply in_tx_ok_quiet; [apply guard_quiet|]. intros _ w1 <- _.
  apply in_tx_ok_read. destruct (find_identity _ _ _ _) as [[fp row]|] eqn:Ef;
    [|apply ingest_by_fingerprint_ok].
  case_bool_decide; [apply ingest_by_fingerprint_ok | by eapply ingest_reused_ok].
Qed.

(** [ingest] refines [ingested]: a result or a [BrokerEvidenceConflict] comes
    with the branch's commit, any other exception with no write. *)
Lemma ingest_refines e w :
  w_in_tx w = false ->
  wp (ingest write_guard e) (fun res w' =>
    frame w w' /\
    match res with
    | Ok r => ingested e (w_db w) (inr r) (w_db w')
    | Err x => w_db w' = w_db w \/
               exists c, x = Exn BrokerEvidenceConflict c /\ ingested e (w_db w) (inl c) (w_db w')
    end) w.
Proof.
  intros Hw. apply wp_bind.
  pose proof (tx_ok_intro (ingest_in_tx write_guard e)
                (fun out d' => ingested e (w_db w) out d') w Hw) as Ht.
  eapply wp_mono; [apply Ht; intros w1 <- _ _; apply ingest_in_tx_ok|].
  intros [[c|r]|x] w' [Hf H]; repeat wp_step; (split; [done|]); eauto.
Qed.
End Refinement.

(** ** The journal's invariant *)

Record evidence_inv (d : db) : Prop := {
  ei_keys : tbl_wf (d_keys d);
  ei_rows : forall fp row, tbl_get (d_keys d) fp = Some row ->
    (if k_accepted row then is_Some (k_result_disposition row)
     else is_Some (k_conflict_reason row)) /\
    fp = fingerprint_of (k_source row) (k_account_fingerprint row) (k_source_event_id row)
           (k_semantic_digest row) /\
    exists o, o ∈ d_observations d /\ ob_fingerprint o = fp;
  ei_unique : forall fp fp' row row',
    tbl_get (d_keys d) fp = Some row -> tbl_get (d_keys d) fp' = Some row' ->
    k_source row = k_source row' -> k_account_fingerprint row = k_account_fingerprint row' ->
    k_source_event_id row = k_source_event_id row' -> fp = fp';
  ei_fk : forall o, o ∈ d_observations d -> is_Some (tbl_get (d_intents d) (obs_key o))
}.

Lemma evidence_inv_empty : evidence_inv empty_db.
Proof.
  split; [apply tbl_wf_empty | | |]; unfold tbl_get; simpl; intros;
    try rewrite lookup_empty in *; try done. set_solver.
Qed.

Lemma evidence_inv_fresh d :
  d_keys d = tbl_empty -> d_observations d = [] -> evidence_inv d.
Proof.
  intros Hk Ho. split; rewrite ?Hk, ?Ho; [apply tbl_wf_empty | | | intros o Hin; set_solver];
    unfold tbl_get; simpl; intros; by rewrite lookup_empty in *.
Qed.

Lemma evidence_inv_ext d d' :
  d_keys d' = d_keys d -> d_observations d' = d_observations d ->
  d_intents d' = d_intents d -> evidence_inv d -> evidence_inv d'.
Proof. intros Hk Ho Hi []. by split; rewrite ?Hk, ?Ho, ?Hi. Qed.

Lemma find_identity_some d source account event_id fp row :
  evidence_inv d ->
  find_identity d source account event_id = Some (fp, row) <->
  tbl_get (d_keys d) fp = Some row /\ k_source row = source /\
  k_account_fingerprint row = account /\ k_source_event_id row = event_id.
Proof.
  intros Hd. unfold find_identity.
  assert (Hs : forall p, List.find (fun p : string * key_row =>
      bool_decide (k_source p.2 = source) && bool_decide (k_account_fingerprint p.2 = account)
      && bool_decide (k_source_event_id p.2 = event_id)) (tbl_scan (d_keys d)) = Some p ->
    tbl_get (d_keys d) p.1 = Some p.2 /\ k_source p.2 = source /\
    k_account_fingerprint p.2 = account /\ k_source_event_id p.2 = event_id).
  { intros [fp' row'] [Hin Hb]%List.find_some. bool_to_prop. destruct_and?.
    apply list_elem_of_In, tbl_scan_elem in Hin; [done | apply Hd]. }
  split; [apply Hs|]. intros (Hg & Hi). pose proof Hg as Hin.
  apply tbl_scan_elem, list_elem_of_In in Hin; [|apply Hd].
  match goal with |- ?f = _ => destruct f as [[fp' row']|] eqn:Ef end.
  - pose proof (Hs _ eq_refl) as Hp. clear Hs. cbn [fst snd] in Hp.
    destruct Hp as (Hg' & Hs' & Ha' & He'), Hi as (Hs & Ha & He).
    assert (fp = fp') as <- by (apply (ei_unique d Hd _ _ row row'); congruence). congruence.
  - pose proof (List.find_none _ _ Ef _ Hin) as Hn. cbn in Hn. exfalso.
    destruct_and?. subst. by rewrite !bool_decide_true in Hn.
Qed.

Lemma obs_put_inv e cls d :
  evidence_inv d -> is_Some (tbl_get (d_intents d) (ev_key e)) -> evidence_inv (obs_put e cls d).
Proof.
  intros [] Hfk. split; cbn; [done | | exact ei_unique0 |].
  - intros fp row Hg. destruct (ei_rows0 fp row Hg) as (? & ? & o & ? & ?).
    repeat split; try done. exists o. split; [|done]. apply elem_of_app. by left.
  - intros o. rewrite elem_of_app, list_elem_of_singleton. intros [?| ->]; [by apply ei_fk0 | done].
Qed.

Lemma key_put_inv e (acc : bool) disp cr cls d d1 :
  evidence_inv d -> is_Some (tbl_get (d_intents d) (ev_key e)) ->
  (if acc then is_Some disp else is_Some cr) ->
  key_put e acc disp cr d d1 -> evidence_inv (obs_put e cls d1).
Proof.
  intros Hd Hfk Hacc (Hf & x & Hx & ->).
  assert (Hnone : forall fp row, tbl_get (d_keys d) fp = Some row ->
    k_source row = ev_source e -> k_account_fingerprint row = ev_account_fingerprint e ->
    k_source_event_id row = ev_source_event_id e -> False).
  { intros fp row Hg ? ? ?. eapply eq_None_not_Some; [exact Hf|]. exists (fp, row).
    by apply find_identity_some. }
  destruct Hd. split; cbn.
  - by eapply tbl_wf_insert.
  - intros fp row. rewrite (tbl_get_insert _ _ _ _ fp Hx). case_decide as Hfp.
    + intros [= <-]. cbn. repeat split; [done..|]. eexists.
      rewrite elem_of_app, list_elem_of_singleton. split; [by right | done].
    + intros Hg. destruct (ei_rows0 fp row Hg) as (? & ? & o & ? & ?).
      repeat split; try done. exists o. split; [|done]. apply elem_of_app. by left.
  - intros fp fp' row row'.
    rewrite (tbl_get_insert _ _ _ _ fp Hx), (tbl_get_insert _ _ _ _ fp' Hx).
    repeat case_decide; intros Hg Hg' ? ? ?; simplify_eq; try done.
    + exfalso. by eapply Hnone.
    + exfalso. by eapply Hnone.
    + by eapply ei_unique0.
  - intros o. rewrite elem_of_app, list_elem_of_singleton. intros [?| ->]; [by apply ei_fk0 | done].
Qed.

(** The orders evidence [e] may touch: its own, and the one its event id was
    first used for. *)
Definition cited (e : BrokerEvidenceV1) (d : db) (k : okey) : Prop :=
  k = ev_key e \/
  exists fp row o,
    find_identity d (ev_source e) (ev_account_fingerprint e) (ev_source_event_id e) = Some (fp, row) /\
    o ∈ d_observations (obs_put e "CONFLICT" d) /\ ob_fingerprint o = fp /\ k = obs_key o.

Lemma writes_journal {A} k P d (a : A) d' :
  writes k P d a d' ->
  d_keys d' = d_keys d /\ d_observations d' = d_observations d /\
  d_intents d' = d_intents d /\ is_Some (tbl_get (d_intents d) k).
Proof.
  intros (q & r & r' & Hw & _). destruct (wrote_rest _ _ _ _ _ _ Hw).
  repeat split; try done. destruct Hw as [Hc _].
  apply order_context_get in Hc as (_ & i & Hi & _). by exists i.
Qed.

Lemma reviewed_touches {A} (K : okey -> Prop) k fill d (a : A) d' :
  orders_inv d -> reviewed k fill d a d' -> K k ->
  touches K d d' /\ o_status <$> tbl_get (d_orders d') k = Some MANUAL_REVIEW.
Proof.
  intros Hd (q & r & r' & Hw & t & eff & -> & Hf & ->) HK.
  destruct (wrote_row _ _ _ _ _ _ Hw) as [Hg Hg']. split; [|by rewrite Hg'].
  eapply wrote_touches; [exact Hw | | exact HK]. apply change_review.
  destruct Hw as [Hc _]. apply order_context_get in Hc as (_ & i & Hi & <-).
  destruct (inv_rows _ Hd _ _ Hg) as (i' & Hi' & Hok). simplify_eq.
  destruct Hok. destruct fill; lia.
Qed.

Lemma reviewed_evidence {A} k fill d (a : A) d' :
  reviewed k fill d a d' -> evidence_inv d -> evidence_inv d'.
Proof. intros H. destruct (writes_journal _ _ _ _ _ H) as (? & ? & ? & _). by apply evidence_inv_ext. Qed.

Lemma obs_put_touches K e cls d : touches K d (obs_put e cls d).
Proof. by apply touches_ext. Qed.

Lemma key_put_touches K e acc disp cr d d1 : key_put e acc disp cr d d1 -> touches K d d1.
Proof. intros (_ & x & _ & ->). by apply touches_ext. Qed.

Lemma merged_touches (K : okey -> Prop) e d o d1 :
  evidence_ok e -> writes (ev_key e) (merged_by e) d o d1 -> K (ev_key e) -> touches K d d1.
Proof.
  intros He (q & r & r' & Hw & Hm) HK. eapply wrote_touches; [exact Hw | | exact HK].
  eapply moved_by_fact; [exact Hm|]. by apply evidence_ok_lifecycle.
Qed.

Lemma ingested_touches e d out d' :
  evidence_ok e -> orders_inv d -> ingested e d out d' -> touches (cited e d) d d'.
Proof.
  intros He Hd Hi. assert (Hme : cited e d (ev_key e)) by by left.
  destruct Hi as [| |r d1 Hr Hfk Hk|o d1 d2 Hm Hk|r q exc c fill d1 d2 Hc Hdec Hm Hk Hrev
                 |fp row original d1 d2 Hf Hdig Hfk -> Ho Hd2].
  - apply obs_put_touches.
  - apply obs_put_touches.
  - etransitivity; [by eapply key_put_touches | apply obs_put_touches].
  - etransitivity; [by eapply merged_touches|].
    etransitivity; [by eapply key_put_touches | apply obs_put_touches].
  - assert (Ht : touches (cited e d) d (obs_put e "CONFLICT" d1))
      by (etransitivity; [by eapply key_put_touches | apply obs_put_touches]).
    etransitivity; [exact Ht|].
    by apply (reviewed_touches _ _ _ _ _ _ (tch_inv _ _ _ Ht Hd) Hrev).
  - pose proof (obs_put_touches (cited e d) e "CONFLICT" d) as Ht1.
    assert (Ht : touches (cited e d) d d1).
    { etransitivity; [exact Ht1|]. destruct (List.find _ _) as [o|] eqn:Eo; cbn [fmap option_fmap option_map] in Ho.
      - apply List.find_some in Eo as [Hin Hb]. apply list_elem_of_In in Hin. bool_to_prop.
        eapply (reviewed_touches _ _ _ _ _ _ (tch_inv _ _ _ Ht1 Hd) Ho).
        right. by exists fp, row, o.
      - by rewrite Ho. }
    etransitivity; [exact Ht|]. case_decide; [by subst|].
    by apply (reviewed_touches _ _ _ _ _ _ (tch_inv _ _ _ Ht Hd) Hd2).
Qed.

Lemma ingested_inv e d out d' : ingested e d out d' -> evidence_inv d -> evidence_inv d'.
Proof.
  intros Hi Hd.
  destruct Hi as [| |r d1 Hr Hfk Hk|o d1 d2 Hm Hk|r q exc c fill d1 d2 Hc Hdec Hm Hk Hrev
                 |fp row original d1 d2 Hf Hdig Hfk -> Ho Hd2].
  - by apply obs_put_inv.
  - by apply obs_put_inv.
  - eapply (key_put_inv e true); [exact Hd | exact Hfk | by eexists | exact Hk].
  - destruct (writes_journal _ _ _ _ _ Hm) as (? & ? & Hin & Hfk). eapply (key_put_inv e true); [ | | by eexists | exact Hk].
    + by eapply evidence_inv_ext.
    + by rewrite Hin.
  - eapply reviewed_evidence; [exact Hrev|]. eapply (key_put_inv e false); [exact Hd | | by eexists | exact Hk].
    apply order_context_get in Hc as (_ & i & ? & _). by exists i.
  - assert (H1 : evidence_inv d1).
    { pose proof (obs_put_inv e "CONFLICT" d Hd Hfk) as H1.
      destruct (obs_key <$> _) in Ho; [by eapply reviewed_evidence | by subst]. }
    case_decide; [by subst | by eapply reviewed_evidence].
Qed.

(** ** Which exceptions the merge raises *)

Lemma transition_err_class s t x : transition s t = Err x -> exn_cls x = InvalidTransition.
Proof. destruct s, t; vm_compute; intros [= <-]; done. Qed.

Lemma decide_err_class current cb cf q target b f bf x :
  decide_transition current cb cf q target b f bf = Err x ->
  exn_cls x <> BrokerEvidenceConflict.
Proof.
  unfold decide_transition, normalize_broker_status, guard_r, raise. intros H.
  repeat (case_match; simplify_eq/=; try done).
  all: match goal with
       | H : res_bind _ _ = Err _ |- _ => apply res_bind_err in H as [H|(? & ? & ?)]
       end; simplify_eq; try done;
    by erewrite transition_err_class by done.
Qed.

Ltac avoid :=
  repeat first
    [ progress cbv beta iota zeta
    | apply avoids_bind; [|intros ?]
    | solve [eauto with avoids]
    | apply avoids_raise; discriminate
    | apply avoids_guard; discriminate
    | case_match ].

Section Errors.
Context {R : Type} {env : Env} (write_guard : M R unit).
Hypothesis guard_errors : forall w e, (write_guard w).1 = Err e -> fence_error e = true.
Implicit Types (w : world R) (e : BrokerEvidenceV1).

Lemma guard_avoids : avoids BrokerEvidenceConflict write_guard.
Proof.
  intros w x Hx. apply guard_errors in Hx. unfold fence_error in Hx.
  by destruct (exn_cls x).
Qed.
Hint Resolve guard_avoids : avoids.

Lemma insert_event_avoids k ty f t d ev : avoids (R := R) BrokerEvidenceConflict (insert_event k ty f t d ev).
Proof. unfold insert_event. avoid. Qed.
Hint Resolve insert_event_avoids : avoids.

Lemma mark_avoids k reason ev f : avoids (R := R) BrokerEvidenceConflict (mark write_guard k reason ev f).
Proof.
  unfold mark, mark_broker_conflict_manual_review_in_tx, require_tx, guard_write_in_tx,
    get_order_context_in_tx, update_order. avoid.
Qed.
Hint Resolve mark_avoids : avoids.

Lemma try_merge_avoids fp e : avoids (R := R) BrokerEvidenceConflict (try_merge write_guard fp e).
Proof.
  apply avoids_try.
  - intros x Hx. avoid.
  - unfold merge_broker_fact_in_tx, require_tx, guard_write_in_tx, transition_in_tx,
      get_order_context_in_tx, update_order. avoid; apply avoids_lift; intros x Hx;
      by apply decide_err_class in Hx.
Qed.
Hint Resolve try_merge_avoids : avoids.

Lemma ingest_in_tx_avoids e : avoids (R := R) BrokerEvidenceConflict (ingest_in_tx write_guard e).
Proof.
  unfold ingest_in_tx, ingest_by_fingerprint, ingest_reused, ingest_replay,
    ingest_semantic_duplicate, ingest_new, insert_key, insert_observation, current_status,
    semantic_duplicate_exists. avoid.
Qed.
End Errors.

Lemma ingested_conflict e d c d' :
  orders_inv d -> ingested e d (inl c) d' ->
  exists cls, d_observations d' = d_observations (obs_put e cls d) /\
    ((cls = "CONFLICT"%string /\
      o_status <$> tbl_get (d_orders d') (ev_key e) = Some MANUAL_REVIEW) \/
     (cls = "CONFLICT_DUPLICATE"%string /\ d' = obs_put e cls d /\
      exists row, tbl_get (d_keys d) (evidence_fingerprint e) = Some row /\
                  k_accepted row = false)).
Proof.
  intros Hd Hi. inversion Hi; subst.
  - exists "CONFLICT_DUPLICATE"%string. split; [done|]. right. eauto.
  - exists "CONFLICT"%string.
    match goal with H : reviewed _ _ _ _ d' |- _ => rename H into Hrev end.
    match goal with H : key_put _ _ _ _ _ d1 |- _ => rename H into Hk end.
    destruct (writes_journal _ _ _ _ _ Hrev) as (_ & Hobs & _).
    pose proof (key_put_touches (fun _ => True) _ _ _ _ _ _ Hk) as Ht.
    destruct Hk as (_ & x & _ & ->). split; [exact Hobs|]. left. split; [done|].
    eapply (reviewed_touches (fun _ => True) _ _ _ _ _); [|exact Hrev | exact I].
    apply (tch_inv _ _ _ (obs_put_touches (fun _ => True) e "CONFLICT" _)), (tch_inv _ _ _ Ht Hd).
  - exists "CONFLICT"%string.
    match goal with H : match fmap _ _ with _ => _ end |- _ => rename H into Ho end.
    match goal with H : if decide _ then _ else _ |- _ => rename H into Hd2 end.
    pose proof (obs_put_touches (fun _ => True) e "CONFLICT" d) as Ht1.
    set (original := obs_key <$> _) in *. clearbody original.
    assert (Hmid : orders_inv d1 /\ d_observations d1 = d_observations (obs_put e "CONFLICT" d) /\
      forall k, original = Some k -> o_status <$> tbl_get (d_orders d1) k = Some MANUAL_REVIEW).
    { destruct original as [k|]; [|rewrite Ho; split; [by apply (tch_inv _ _ _ Ht1) | done]].
      destruct (reviewed_touches (fun _ => True) _ _ _ _ _ (tch_inv _ _ _ Ht1 Hd) Ho I) as [Htt ?].
      destruct (writes_journal _ _ _ _ _ Ho) as (_ & ? & _).
      split; [by apply (tch_inv _ _ _ Htt), (tch_inv _ _ _ Ht1)|]. split; [done|]. by intros ? [= <-]. }
    destruct Hmid as (Hd1 & Hobs & Hrev). case_decide as Hc.
    + rewrite Hd2. split; [done|]. left. split; [done|]. by apply Hrev.
    + destruct (reviewed_touches (fun _ => True) _ _ _ _ _ Hd1 Hd2 I).
      destruct (writes_journal _ _ _ _ _ Hd2) as (_ & ? & _).
      split; [congruence|]. by left.
Qed.

Section Theorems.
Context {R : Type} {env : Env} (write_guard : M R unit).
Hypothesis guard_quiet : quiet write_guard.
Hypothesis guard_errors : forall w e, (write_guard w).1 = Err e -> fence_error e = true.
Implicit Types (w : world R) (e : BrokerEvidenceV1).

Lemma ingest_evidence_inv e w :
  w_in_tx w = false -> evidence_inv (w_db w) -> evidence_inv (w_db (ingest write_guard e w).2).
Proof.
  intros Hw Hd. pose proof (ingest_refines write_guard guard_quiet guard_errors e w Hw) as H.
  unfold wp in H. destruct (ingest write_guard e w) as [res w']. cbn [fst snd] in *.
  destruct H as [_ H]. destruct res as [r|x]; [by eapply ingested_inv|].
  destruct H as [-> |(c & _ & Hi)]; [done | by eapply ingested_inv].
Qed.

Lemma ingest_conflict_commits e w c :
  w_in_tx w = false ->
  (forall n x, env_begin n = Some x -> exn_cls x = SqliteOperationalError) ->
  (ingest write_guard e w).1 = Err (Exn BrokerEvidenceConflict c) ->
  ingested e (w_db w) (inl c) (w_db (ingest write_guard e w).2).
Proof.
  intros Hw Hb. unfold ingest, bindM.
  pose proof (tx_ok_intro (ingest_in_tx write_guard e)
                (fun out d' => ingested e (w_db w) out d') w Hw) as Ht.
  unfold tx_ok, wp in Ht.
  assert (Hav : forall x, (transaction (ingest_in_tx write_guard e) w).1 = Err x ->
                          exn_cls x <> BrokerEvidenceConflict).
  { intros x. unfold transaction. rewrite Hw.
    destruct (env_begin _) eqn:Eb; [intros [= <-]; by rewrite (Hb _ _ Eb)|].
    pose proof (ingest_in_tx_avoids write_guard guard_errors e) as Ha. specialize (Ha
      (W (w_db w) true (S (w_tick w)) (w_rest w))).
    destruct (ingest_in_tx _ _ _) as [[a|y] w1]; [done | intros [= <-]; by apply Ha]. }
  destruct (transaction _ w) as [[[c'|r]|x] w1]; cbn [fst snd] in *.
  - intros [= ->]. apply Ht. intros w2 <- _ _. by apply ingest_in_tx_ok.
  - done.
  - intros [= ->]. by destruct (Hav _ eq_refl).
Qed.

(** C17. Ingestion is safe.  Whatever [ingest] returns or raises, for any
    validated evidence, the committed database keeps the order invariant (rows,
    foreign keys, chained event logs) and the journal invariant (one key per
    identity, every key observed, its fingerprint the digest of its identity),
    and only the evidence's order and the order that first used its event id
    may have moved: fills never shrink, broker ids and reservations stay. *)
Theorem ingest_safe e w :
  evidence_ok e -> w_in_tx w = false -> orders_inv (w_db w) -> evidence_inv (w_db w) ->
  let w' := (ingest write_guard e w).2 in
  orders_inv (w_db w') /\ evidence_inv (w_db w') /\
  touches (cited e (w_db w)) (w_db w) (w_db w') /\ w_in_tx w' = false.
Proof.
  intros He Hw Ho Hd. pose proof (ingest_refines write_guard guard_quiet guard_errors e w Hw) as H.
  unfold wp in H. cbv zeta. destruct (ingest write_guard e w) as [res w']. cbn [fst snd] in *.
  destruct H as [[Htx _] H].
  assert (Hcase : w_db w' = w_db w \/ exists out, ingested e (w_db w) out (w_db w'))
    by (destruct res; naive_solver).
  rewrite Htx. destruct Hcase as [-> |[out Hi]]; [done|].
  pose proof (ingested_touches _ _ _ _ He Ho Hi) as Ht.
  split; [by apply (tch_inv _ _ _ Ht)|]. split; [by eapply ingested_inv | done].
Qed.

(** C18. A conflict is quarantined before it is raised.  When [ingest] raises
    [BrokerEvidenceConflict], one observation of the evidence was committed,
    and the order either was put in MANUAL_REVIEW by the same transaction, or
    this fingerprint was already rejected and no order moved. *)
Theorem conflict_reviewed e w c :
  w_in_tx w = false -> orders_inv (w_db w) ->
  (forall n x, env_begin n = Some x -> exn_cls x = SqliteOperationalError) ->
  (ingest write_guard e w).1 = Err (Exn BrokerEvidenceConflict c) ->
  let d' := w_db (ingest write_guard e w).2 in
  exists cls, d_observations d' = d_observations (obs_put e cls (w_db w)) /\
    ((cls = "CONFLICT"%string /\
      o_status <$> tbl_get (d_orders d') (ev_key e) = Some MANUAL_REVIEW) \/
     (cls = "CONFLICT_DUPLICATE"%string /\ d' = obs_put e cls (w_db w) /\
      exists row, tbl_get (d_keys (w_db w)) (evidence_fingerprint e) = Some row /\
                  k_accepted row = false)).
Proof.
  intros Hw Ho Hb Hc. cbv zeta. eapply ingest_conflict_commits in Hc; [|done..].
  by apply ingested_conflict with (c := c).
Qed.

(** C19. Replay is idempotent.  Once [ingest] has accepted evidence as new, the
    same evidence again - after anything that keeps the journal's keys, in
    another transaction or after a restart - returns the same disposition as a
    duplicate with the order's current status, and commits one DUPLICATE
    observation and nothing else. *)
Theorem replay_idempotent e w r w1 w2 row :
  w_in_tx w = false -> ingest write_guard e w = (Ok r, w1) -> ir_duplicate r = false ->
  d_keys (w_db w1) ⊑ₜ d_keys (w_db w2) -> evidence_inv (w_db w2) ->
  w_in_tx w2 = false -> env_begin (w_tick w2) = None ->
  (write_guard (W (w_db w2) true (S (w_tick w2)) (w_rest w2))).1 = Ok tt ->
  tbl_get (d_orders (w_db w2)) (ev_key e) = Some row ->
  is_Some (tbl_get (d_intents (w_db w2)) (ev_key e)) ->
  (ingest write_guard e w2).1 =
    Ok {| ir_fingerprint := evidence_fingerprint e; ir_duplicate := true;
          ir_status := o_status row; ir_disposition := ir_disposition r |} /\
  w_db (ingest write_guard e w2).2 = obs_put e "DUPLICATE" (w_db w2).
Proof.
  intros Hw Hr Hdup Hle Hinv Hw2 Hb Hg Hrow Hfk.
  assert (Hk : tbl_get (d_keys (w_db w2)) (evidence_fingerprint e) =
    Some (key_of e true (Some (ir_disposition r)) None (z_str (ev_observed_at_ms e)))).
  { apply Hle. pose proof (ingest_refines write_guard guard_quiet guard_errors e w Hw) as H.
    unfold wp in H. rewrite Hr in H. cbn [fst snd] in H. destruct H as [_ H].
    inversion H as [| |? ? ? ? (_ & x & Hx & ->)|o ? ? Hm (_ & x & Hx & ->) Hout Hd'| |]; subst;
      try discriminate Hdup.
    simpl. by rewrite (tbl_get_insert _ _ _ _ _ Hx), decide_True. }
  pose proof (proj2 (find_identity_some (w_db w2) _ _ _ _ _ Hinv)
    (conj Hk (conj eq_refl (conj eq_refl eq_refl)))) as Hf. cbn in Hf.
  pose proof (guard_quiet (W (w_db w2) true (S (w_tick w2)) (w_rest w2))) as Hq.
  unfold wp in Hq.
  enough (exists w4, ingest write_guard e w2 = (Ok
    {| ir_fingerprint := evidence_fingerprint e; ir_duplicate := true;
       ir_status := o_status row; ir_disposition := ir_disposition r |}, w4) /\
    w_db w4 = obs_put e "DUPLICATE" (w_db w2)) as (w4 & -> & H4) by done.
  unfold ingest, bindM at 1, transaction. rewrite Hw2, Hb.
  unfold ingest_in_tx, bindM at 1. destruct (write_guard _) as [gr w3]. cbn [fst snd w_db] in *.
  destruct Hq as [Hd3 _]. rewrite Hg. unfold bindM at 1, read_db at 1. rewrite Hd3, Hf.
  cbn [k_semantic_digest key_of]. rewrite bool_decide_true by done.
  unfold ingest_by_fingerprint, bindM at 1, read_db at 1. rewrite Hd3, Hk.
  unfold ingest_replay, insert_observation, current_status, bindM, read_db, guardM, write_db.
  rewrite Hd3, bool_decide_true by done. cbn [w_db fst snd d_orders set_observations].
  cbn [w_db w_tick w_rest w_in_tx retM raiseM]. cbn [d_orders set_observations].
  rewrite Hd3, Hrow. cbn [retM k_accepted k_result_disposition key_of fst snd w_db].
  by eexists.
Qed.
End Theorems.

(** ** Concrete evidence about the concrete order *)

Definition demo_args (ty : BrokerEvidenceType) (filled : Z) : build_args :=
  {| ba_source := "qmt"; ba_source_kind := ORDER_CALLBACK; ba_source_event_id := "event-1";
     ba_mapper_profile := "profile"; ba_account_fingerprint := oi_account_fingerprint demo_intent;
     ba_client_order_id := "cid-1"; ba_broker_token := None; ba_broker_order_id := Some "B1"%string;
     ba_order_ref := None; ba_trade_id := None; ba_type := ty;
     ba_requested_status := status_by_type ty; ba_filled_quantity := filled;
     ba_observed_at_ms := 1750000000000; ba_raw_payload_ref := "ref"; ba_raw_status := None;
     ba_route_account_type := None; ba_route_account_fingerprint := None |}.

Definition demo_evidence (ty : BrokerEvidenceType) (filled : Z) : BrokerEvidenceV1 :=
  assemble (demo_args ty filled)
    (broker_evidence_semantic_digest (digest_input (demo_args ty filled))).

Definition demo_world : world unit := W demo_db false 10 tt.

Lemma open_guard_quiet : quiet (@retM unit unit tt).
Proof. intros w. by repeat wp_step. Qed.

Lemma open_guard_errors (w : world unit) e : (retM tt w).1 = Err e -> fence_error e = true.
Proof. done. Qed.

Lemma demo_evidence_ok : evidence_ok (demo_evidence FULL_FILL 200).
Proof. apply post_init_authority. vm_compute. reflexivity. Qed.

Lemma demo_db_evidence : evidence_inv demo_db.
Proof. apply evidence_inv_fresh; vm_compute; reflexivity. Qed.

Lemma ingest_safe_witness :
  exists w', w' = (@ingest unit demo_env (retM tt) (demo_evidence FULL_FILL 200) demo_world).2 /\
    orders_inv (w_db w') /\ evidence_inv (w_db w').
Proof.
  eexists. split; [reflexivity|].
  destruct (@ingest_safe unit demo_env (retM tt) open_guard_quiet open_guard_errors
    (demo_evidence FULL_FILL 200) demo_world demo_evidence_ok eq_refl demo_db_inv demo_db_evidence)
    as (Ho & He & _).
  split; [exact Ho | exact He].
Defined.

Lemma conflict_reviewed_witness :
  exists cls, d_observations
    (w_db (@ingest unit demo_env (retM tt) (demo_evidence FULL_FILL 200) demo_world).2) =
    d_observations (obs_put (demo_evidence FULL_FILL 200) cls (w_db demo_world)).
Proof.
  destruct (@conflict_reviewed unit demo_env (retM tt) open_guard_quiet open_guard_errors
    (demo_evidence FULL_FILL 200) demo_world "filled_quantity_exceeds_order_quantity"
    eq_refl demo_db_inv (fun n x (H : None = Some x) => ltac:(discriminate H)) ltac:(vm_compute; reflexivity))
    as (cls & H & _).
  exists cls. exact H.
Defined.

Definition demo_fill : BrokerEvidenceV1 := demo_evidence FULL_FILL 100.
Definition demo_filled : world unit := (@ingest unit demo_env (retM tt) demo_fill demo_world).2.

Lemma demo_filled_inv : evidence_inv (w_db demo_filled).
Proof.
  exact (@ingest_evidence_inv unit demo_env (retM tt) open_guard_quiet open_guard_errors demo_fill
           demo_world eq_refl demo_db_evidence).
Qed.

Definition demo_row : order_row :=
  default (new_order_row (DT 0 None)) (tbl_get (d_orders (w_db demo_filled)) (ev_key demo_fill)).

Definition demo_result : EvidenceIngestResult :=
  {| ir_fingerprint := evidence_fingerprint demo_fill; ir_duplicate := false;
     ir_status := FILLED; ir_disposition := APPLIED |}.

Lemma replay_idempotent_witness :
  @ingest unit demo_env (retM tt) demo_fill demo_world = (Ok demo_result, demo_filled) /\
  (@ingest unit demo_env (retM tt) demo_fill demo_filled).1 =
    Ok {| ir_fingerprint := evidence_fingerprint demo_fill; ir_duplicate := true;
          ir_status := o_status demo_row; ir_disposition := APPLIED |}.
Proof.
  assert (H : @ingest unit demo_env (retM tt) demo_fill demo_world = (Ok demo_result, demo_filled))
    by (vm_compute; reflexivity).
  split; [exact H|].
  refine (proj1 (@replay_idempotent unit demo_env (retM tt) open_guard_quiet open_guard_errors
    demo_fill demo_world demo_result demo_filled demo_filled demo_row eq_refl H eq_refl _
    demo_filled_inv _ _ _ _ _)); try (vm_compute; reflexivity).
  - intros k v Hk. exact Hk.
  - vm_compute. by eexists.
Defined.
