(* ===== verification/Drivers.v ===== *)
(** * Drivers: the side-effect port and the simulated broker

    [ExecutionDriver] of ports/execution.py as a class over the driver's state,
    and [SimulatedDriver] of drivers/simulated.py as an instance, with its
    failure modes. *)

From S2P Require Import Prelude Decimal Json Domain Db.
Open Scope Z_scope.

(** [BrokerOrderObservation]. *)
Record BrokerOrderObservation := {
  bo_broker_order_id : string;
  bo_status : OrderStatus;
  bo_filled_quantity : Z
}.

#[global] Instance BrokerOrderObservation_eq_dec : EqDecision BrokerOrderObservation.
Proof. solve_decision. Defined.

(** A driver of state [D]; what [submit_limit_order] and [cancel_order] return
    is not read by the OMS. *)
Class ExecutionDriver (D : Type) := {
  submit_limit_order : OrderIntent -> D -> res unit * D;
  driver_cancel_order : okey -> D -> res unit * D;
  query_by_client_order_id : okey -> D -> res (option BrokerOrderObservation) * D
}.

(** ** The simulated broker *)

Inductive SubmitFailureMode :=
  | SUBMIT_NONE | SUBMIT_TIMEOUT_BEFORE_ACCEPT | SUBMIT_TIMEOUT_AFTER_ACCEPT
  | SUBMIT_CRASH_BEFORE_ACCEPT | SUBMIT_CRASH_AFTER_ACCEPT.

Inductive CancelFailureMode :=
  | CANCEL_NONE | CANCEL_TIMEOUT_BEFORE_ACCEPT | CANCEL_TIMEOUT_AFTER_ACCEPT
  | CANCEL_CRASH_BEFORE_ACCEPT | CANCEL_CRASH_AFTER_ACCEPT.

Record SimulatedDriver := {
  sd_orders : gmap okey BrokerOrderObservation;
  sd_submit_calls : gmap okey Z;
  sd_cancel_calls : gmap okey Z;
  sd_next_submit_failure : SubmitFailureMode;
  sd_next_cancel_failure : CancelFailureMode;
  sd_sequence : Z
}.

Module Simulated.

Definition init : SimulatedDriver :=
  {| sd_orders := ∅; sd_submit_calls := ∅; sd_cancel_calls := ∅;
     sd_next_submit_failure := SUBMIT_NONE; sd_next_cancel_failure := CANCEL_NONE;
     sd_sequence := 0 |}.

Definition fail_next_submit (mode : SubmitFailureMode) (s : SimulatedDriver) : SimulatedDriver :=
  {| sd_orders := sd_orders s; sd_submit_calls := sd_submit_calls s;
     sd_cancel_calls := sd_cancel_calls s; sd_next_submit_failure := mode;
     sd_next_cancel_failure := sd_next_cancel_failure s; sd_sequence := sd_sequence s |}.

Definition fail_next_cancel (mode : CancelFailureMode) (s : SimulatedDriver) : SimulatedDriver :=
  {| sd_orders := sd_orders s; sd_submit_calls := sd_submit_calls s;
     sd_cancel_calls := sd_cancel_calls s;
     sd_next_submit_failure := sd_next_submit_failure s; sd_next_cancel_failure := mode;
     sd_sequence := sd_sequence s |}.

Definition submit_call_count (k : okey) (s : SimulatedDriver) : Z :=
  default 0 (sd_submit_calls s !! k).

Definition cancel_call_count (k : okey) (s : SimulatedDriver) : Z :=
  default 0 (sd_cancel_calls s !! k).

(** [f"SIM-{n:08d}"]. *)
Definition sim_order_id (n : Z) : string :=
  let digits := z_str n in
  "SIM-" +:+ (string_of_list_ascii (repeat "0"%char (8 - String.length digits)) +:+ digits).

Definition submit (intent : OrderIntent) (s : SimulatedDriver) : res unit * SimulatedDriver :=
  let key := oi_key intent in
  let calls := submit_call_count key s + 1 in
  let s1 := {| sd_orders := sd_orders s; sd_submit_calls := <[key := calls]> (sd_submit_calls s);
               sd_cancel_calls := sd_cancel_calls s;
               sd_next_submit_failure := sd_next_submit_failure s;
               sd_next_cancel_failure := sd_next_cancel_failure s;
               sd_sequence := sd_sequence s |} in
  if 1 <? calls then (raise DuplicateBrokerSubmit "duplicate simulated submit", s1)
  else
    let mode := sd_next_submit_failure s1 in
    let s2 := fail_next_submit SUBMIT_NONE s1 in
    match mode with
    | SUBMIT_TIMEOUT_BEFORE_ACCEPT =>
        (raise SubmitOutcomeUnknown "simulated timeout before broker acceptance", s2)
    | SUBMIT_CRASH_BEFORE_ACCEPT =>
        (raise SimulatedProcessCrash "simulated process crash before broker acceptance", s2)
    | _ =>
        let sequence := sd_sequence s2 + 1 in
        let evidence := {| bo_broker_order_id := sim_order_id sequence;
                           bo_status := ACKNOWLEDGED; bo_filled_quantity := 0 |} in
        let s3 := {| sd_orders := <[key := evidence]> (sd_orders s2);
                     sd_submit_calls := sd_submit_calls s2; sd_cancel_calls := sd_cancel_calls s2;
                     sd_next_submit_failure := sd_next_submit_failure s2;
                     sd_next_cancel_failure := sd_next_cancel_failure s2;
                     sd_sequence := sequence |} in
        match mode with
        | SUBMIT_TIMEOUT_AFTER_ACCEPT =>
            (raise SubmitOutcomeUnknown "simulated response loss after broker acceptance", s3)
        | SUBMIT_CRASH_AFTER_ACCEPT =>
            (raise SimulatedProcessCrash "simulated process crash after broker acceptance", s3)
        | _ => (Ok tt, s3)
        end
    end.

Definition put_order (key : okey) (o : BrokerOrderObservation) (s : SimulatedDriver)
    : SimulatedDriver :=
  {| sd_orders := <[key := o]> (sd_orders s); sd_submit_calls := sd_submit_calls s;
     sd_cancel_calls := sd_cancel_calls s;
     sd_next_submit_failure := sd_next_submit_failure s;
     sd_next_cancel_failure := sd_next_cancel_failure s; sd_sequence := sd_sequence s |}.

Definition cancel (key : okey) (s : SimulatedDriver) : res unit * SimulatedDriver :=
  let calls := cancel_call_count key s + 1 in
  let s1 := {| sd_orders := sd_orders s; sd_submit_calls := sd_submit_calls s;
               sd_cancel_calls := <[key := calls]> (sd_cancel_calls s);
               sd_next_submit_failure := sd_next_submit_failure s;
               sd_next_cancel_failure := sd_next_cancel_failure s;
               sd_sequence := sd_sequence s |} in
  if 1 <? calls then (raise DuplicateBrokerCancel "duplicate simulated cancel", s1)
  else
    match sd_orders s1 !! key with
    | None => (raise KeyError key.2, s1)
    | Some current =>
        let mode := sd_next_cancel_failure s1 in
        let s2 := fail_next_cancel CANCEL_NONE s1 in
        match mode with
        | CANCEL_TIMEOUT_BEFORE_ACCEPT =>
            (raise CancelOutcomeUnknown "simulated timeout before cancel acceptance", s2)
        | CANCEL_CRASH_BEFORE_ACCEPT =>
            (raise SimulatedProcessCrash "simulated process crash before cancel acceptance", s2)
        | _ =>
            let s3 := put_order key
              {| bo_broker_order_id := bo_broker_order_id current; bo_status := CANCELLED;
                 bo_filled_quantity := bo_filled_quantity current |} s2 in
            match mode with
            | CANCEL_TIMEOUT_AFTER_ACCEPT =>
                (raise CancelOutcomeUnknown "simulated response loss after cancel acceptance", s3)
            | CANCEL_CRASH_AFTER_ACCEPT =>
                (raise SimulatedProcessCrash "simulated process crash after cancel acceptance", s3)
            | _ => (Ok tt, s3)
            end
        end
    end.

Definition query (key : okey) (s : SimulatedDriver)
    : res (option BrokerOrderObservation) * SimulatedDriver :=
  (Ok (sd_orders s !! key), s).

Definition set_order_status (key : okey) (status : OrderStatus) (filled_quantity : Z)
    (s : SimulatedDriver) : res unit * SimulatedDriver :=
  match sd_orders s !! key with
  | None => (raise KeyError key.2, s)
  | Some current =>
      (Ok tt, put_order key
        {| bo_broker_order_id := bo_broker_order_id current; bo_status := status;
           bo_filled_quantity := filled_quantity |} s)
  end.

End Simulated.

#[global] Instance SimulatedDriver_port : ExecutionDriver SimulatedDriver :=
  {| submit_limit_order := Simulated.submit;
     driver_cancel_order := Simulated.cancel;
     query_by_client_order_id := Simulated.query |}.

(** ** Drivers that count

    The calls a driver has received, by order: what a broker can count.  The
    laws say that only [submit_limit_order] counts a submit, and so on. *)

Class CountingDriver (D : Type) {driver : ExecutionDriver D} := {
  submits : okey -> D -> Z;
  cancels : okey -> D -> Z;
  submits_submit k i x :
    submits k (submit_limit_order i x).2 = submits k x + (if decide (k = oi_key i) then 1 else 0);
  submits_cancel k k' x : submits k (driver_cancel_order k' x).2 = submits k x;
  submits_query k k' x : submits k (query_by_client_order_id k' x).2 = submits k x;
  cancels_cancel k k' x :
    cancels k (driver_cancel_order k' x).2 = cancels k x + (if decide (k = k') then 1 else 0);
  cancels_submit k i x : cancels k (submit_limit_order i x).2 = cancels k x;
  cancels_query k k' x : cancels k (query_by_client_order_id k' x).2 = cancels k x
}.

Lemma submit_calls_of i s :
  sd_submit_calls (Simulated.submit i s).2 =
    <[oi_key i := Simulated.submit_call_count (oi_key i) s + 1]> (sd_submit_calls s) /\
  sd_cancel_calls (Simulated.submit i s).2 = sd_cancel_calls s.
Proof.
  unfold Simulated.submit. cbv zeta. destruct (1 <? _); [done|].
  cbn [sd_next_submit_failure]. by destruct (sd_next_submit_failure s).
Qed.

Lemma cancel_calls_of k s :
  sd_cancel_calls (Simulated.cancel k s).2 =
    <[k := Simulated.cancel_call_count k s + 1]> (sd_cancel_calls s) /\
  sd_submit_calls (Simulated.cancel k s).2 = sd_submit_calls s.
Proof.
  unfold Simulated.cancel. cbv zeta. destruct (1 <? _); [done|].
  cbn [sd_orders]. destruct (sd_orders s !! k); [|done].
  cbn [sd_next_cancel_failure]. by destruct (sd_next_cancel_failure s).
Qed.

Lemma count_insert (m : gmap okey Z) k k' :
  default 0 (<[k' := default 0 (m !! k') + 1]> m !! k) =
  default 0 (m !! k) + (if decide (k = k') then 1 else 0).
Proof. rewrite lookup_insert. repeat case_decide; subst; try done; cbn; lia. Qed.

#[global] Instance SimulatedDriver_counting : CountingDriver SimulatedDriver.
Proof.
  refine {| submits := Simulated.submit_call_count; cancels := Simulated.cancel_call_count |};
    intros; unfold Simulated.submit_call_count, Simulated.cancel_call_count;
    cbn [submit_limit_order driver_cancel_order query_by_client_order_id SimulatedDriver_port].
  - rewrite (proj1 (submit_calls_of i x)). apply count_insert.
  - by rewrite (proj2 (cancel_calls_of k' x)).
  - done.
  - rewrite (proj1 (cancel_calls_of k' x)). apply count_insert.
  - by rewrite (proj2 (submit_calls_of i x)).
  - done.
Defined.
