(* ===== verification/Service.v ===== *)
(** * Service: the Execution Core OMS of [oms/service.py]

    [OfflineOms] over a driver: construction, the leader fence, recovery, submit
    and cancel, with [oms/authorization.py] and the facade of [core/facade.py].
    The rest of the world is the OMS instance and the driver's state. *)

From S2P Require Import Prelude PyTime Decimal Json Domain Db Leader Repository.
From S2P Require Import BrokerEvidence Evidence Drivers.
Open Scope Z_scope.

(** ** authorization.py *)

Definition intent_payload (i : OrderIntent) : jdict :=
  [("account_fingerprint", JStr (oi_account_fingerprint i));
   ("client_order_id", JStr (oi_client_order_id i));
   ("strategy_id", JStr (oi_strategy_id i));
   ("strategy_version", JStr (oi_strategy_version i));
   ("symbol", JStr (oi_symbol i));
   ("side", JStr (side_str (oi_side i)));
   ("quantity", JInt (oi_quantity i));
   ("limit_price", JStr (Dec.to_str (oi_limit_price i)));
   ("created_at", JStr (isoformat (oi_created_at i)));
   ("expires_at", JStr (isoformat (oi_expires_at i)));
   ("signal_id", JStr (oi_signal_id i));
   ("reason_code", JStr (oi_reason_code i));
   ("order_type", JStr (order_type_str (oi_order_type i)))]%string.

Definition execution_intent_digest (i : OrderIntent) : string :=
  "sha256:" +:+ Sha256.hexdigest (utf8 (dumps true (JObj (intent_payload i)))).

(** [core_execution_decision(intent, now=now)]. *)
Definition core_execution_decision (i : OrderIntent) (now : datetime) (rule_version : string)
    : res RiskDecision :=
  (do! guard_r (strip_nonempty rule_version) ValueError "rule_version must be non-empty" ;;
   do! guard_r (is_aware now) ValueError "now must be timezone-aware" ;;
   RiskDecision_init (VBool true) (VReason RISK_OK) (VStr rule_version)
     (VStr (execution_intent_digest i)) (VTime now))%py.

(** ** The OMS instance *)

Record oms := {
  om_session_id : string;
  om_reconciled : bool;
  om_lease_seconds : Z;
  om_leader_lease : LeaderLease;
  om_closed : bool
}.

Definition set_lease (l : LeaderLease) (o : oms) : oms :=
  {| om_session_id := om_session_id o; om_reconciled := om_reconciled o;
     om_lease_seconds := om_lease_seconds o; om_leader_lease := l; om_closed := om_closed o |}.
Definition set_reconciled (b : bool) (o : oms) : oms :=
  {| om_session_id := om_session_id o; om_reconciled := b;
     om_lease_seconds := om_lease_seconds o; om_leader_lease := om_leader_lease o;
     om_closed := om_closed o |}.
Definition set_closed (b : bool) (o : oms) : oms :=
  {| om_session_id := om_session_id o; om_reconciled := om_reconciled o;
     om_lease_seconds := om_lease_seconds o; om_leader_lease := om_leader_lease o;
     om_closed := b |}.

Record SubmitResult (E : Type) := {
  sr_status : OrderStatus;
  sr_broker_order_id : option string;
  sr_risk_evaluation : option E
}.
Arguments sr_status {E} _.
Arguments sr_broker_order_id {E} _.
Arguments sr_risk_evaluation {E} _.

Record CancelResult := {
  cr_status : OrderStatus;
  cr_broker_order_id : option string
}.

(** The lifecycle table of [_ingest_active_query_evidence]. *)
Definition query_evidence_type (s : OrderStatus) : option BrokerEvidenceType :=
  match s with
  | ACKNOWLEDGED => Some ORDER_ACCEPTED
  | PARTIALLY_FILLED => Some PARTIAL_FILL
  | FILLED => Some FULL_FILL
  | CANCELLED => Some ORDER_CANCELLED
  | REJECTED => Some ORDER_REJECTED
  | _ => None
  end.

(** What [BrokerEvidenceV1.build] is given for a query's answer. *)
Definition query_args (session_id reason : string) (k : okey) (q : BrokerOrderObservation)
    (ty : BrokerEvidenceType) (observed_at_ms : Z) : build_args :=
  {| ba_source := "execution-driver-active-query"; ba_source_kind := ACTIVE_ORDER_QUERY;
     ba_source_event_id := session_id +:+ ":" +:+ reason +:+ ":" +:+ k.2;
     ba_mapper_profile := "execution-driver-query-v1";
     ba_account_fingerprint := k.1; ba_client_order_id := k.2;
     ba_broker_token := None; ba_broker_order_id := Some (bo_broker_order_id q);
     ba_order_ref := None; ba_trade_id := None; ba_type := ty;
     ba_requested_status := bo_status q; ba_filled_quantity := bo_filled_quantity q;
     ba_observed_at_ms := observed_at_ms;
     ba_raw_payload_ref := "driver://active-order-query/" +:+ k.2; ba_raw_status := None;
     ba_route_account_type := None; ba_route_account_fingerprint := None |}.

Open Scope oms_scope.

Section Oms.
Context {D E : Type} {driver : ExecutionDriver D} {env : Env}.
Abbreviation R := (oms * D)%type.
Implicit Types (w : world R) (k : okey).

Definition set_oms (f : oms -> oms) : M R unit := write_rest (fun r => (f r.1, r.2)).

(** A call to the driver. *)
Definition call {A} (f : D -> res A * D) : M R A :=
  fun w => let '(r, x) := f (w_rest w).2 in
           (r, W (w_db w) (w_in_tx w) (w_tick w) ((w_rest w).1, x)).

(** [_now]. *)
Definition _now : M R datetime :=
  value <- clock_now ;;
  do! guardM (is_aware value) ValueError "OMS clock must return timezone-aware datetime" ;;
  retM value.

Definition assert_leader : M R unit :=
  o <- read_rest fst ;;
  do! guardM (negb (om_closed o)) RuntimeError "OMS instance is closed" ;;
  now <- _now ;;
  assert_held (om_leader_lease o) (Some now).

(** The guard [bind_write_guard] gave the repository. *)
Definition oms_guard : option (M R unit) := Some assert_leader.

(** [__init__] after the arguments are stored: the instance is built around
    the lease, and the session row is written under its fence. *)
Definition OfflineOms_init (leader_lease_seconds : Z) : M R unit :=
  do! guardM (0 <? leader_lease_seconds) ValueError "leader_lease_seconds must be positive" ;;
  session_id <- uuid4 ;;
  now <- _now ;;
  lease <- acquire session_id leader_lease_seconds (Some now) ;;
  do! set_oms (fun _ => {| om_session_id := session_id; om_reconciled := false;
                           om_lease_seconds := leader_lease_seconds;
                           om_leader_lease := lease; om_closed := false |}) ;;
  tryM (start_session oms_guard session_id)
    (fun exc => do! release lease ;; reraise exc).

Definition oms_heartbeat : M R LeaderLease :=
  o <- read_rest fst ;;
  do! guardM (negb (om_closed o)) RuntimeError "OMS instance is closed" ;;
  now <- _now ;;
  lease <- heartbeat (om_leader_lease o) (om_lease_seconds o) (Some now) ;;
  do! set_oms (set_lease lease) ;;
  retM lease.

Definition close : M R unit :=
  o <- read_rest fst ;;
  if om_closed o then retM tt
  else
    do! release (om_leader_lease o) ;;
    do! set_oms (set_closed true) ;;
    set_oms (set_reconciled false).

Definition ingest_broker_evidence (e : BrokerEvidenceV1) : M R EvidenceIngestResult :=
  ingest assert_leader e.

Definition list_broker_evidence k : M R (list obs_row) := list_observations k.

Definition ingest_active_query_evidence k (query_evidence : BrokerOrderObservation)
    (reason : string) : M R EvidenceIngestResult :=
  match query_evidence_type (bo_status query_evidence) with
  | None => raiseM RecoveryInvariantViolation
              ("active query returned non-broker lifecycle status "
                 +:+ status_str (bo_status query_evidence))
  | Some ty =>
      now <- _now ;;
      let observed_at_ms := timestamp_ms now in
      o <- read_rest fst ;;
      e <- lift (build (query_args (om_session_id o) reason k query_evidence ty observed_at_ms)) ;;
      ingest assert_leader e
  end.

(** [repository.transition_order(account, cid, target, event_type=..., ...)]. *)
Definition move k (target : OrderStatus) (event_type : string) (evidence : jdict)
    (cancel_outcome_resolved : option bool) : M R TransitionOutcome :=
  transition_order oms_guard k target event_type evidence None None cancel_outcome_resolved.

(** ** Recovery *)

(** The loop's body from the query on, for an order left in [status]. *)
Definition recover_query k (cancel_unresolved : bool) : M R unit :=
  do! assert_leader ;;
  evidence <- call (query_by_client_order_id k) ;;
  do! assert_leader ;;
  match evidence with
  | None =>
      do! move k MANUAL_REVIEW "RECONCILE_NOT_FOUND"
            [("policy", JStr "do_not_resubmit_or_recancel")]%string
            (if cancel_unresolved then Some true else None) ;;
      retM tt
  | Some q =>
      do! ingest_active_query_evidence k q "startup-recovery" ;;
      if cancel_unresolved then
        status <- get_status k ;;
        do! move k status "RECONCILE_CANCEL_AMBIGUITY_RESOLVED" [] (Some true) ;;
        retM tt
      else retM tt
  end.

(** One iteration of [recover]'s loop. *)
Definition recover_order (p : okey * order_row) : M R unit :=
  let '(k, row) := p in
  do! oms_heartbeat ;;
  let status := o_status row in
  let submit_started := o_submit_call_started row in
  let cancel_started := o_cancel_call_started row in
  let cancel_unresolved := cancel_started && negb (o_cancel_outcome_resolved row) in
  if status_in status [CREATED; RISK_ACCEPTED] then
    do! guardM (negb (submit_started || cancel_started
                      || bool_decide (is_Some (o_broker_order_id row))))
          RecoveryInvariantViolation
          ("pre-submit state " +:+ status_str status +:+
           " has impossible side-effect evidence for " +:+ k.2) ;;
    do! move k ABORTED "STARTUP_PRE_SUBMIT_ABORT"
          [("reason", JStr "restart found durable pre-side-effect orphan");
           ("policy", JStr "abort_and_require_new_intent_and_risk")]%string None ;;
    retM tt
  else
    status <- (if bool_decide (status = SUBMITTING) then
                 do! guardM submit_started RecoveryInvariantViolation
                       ("SUBMITTING without submit reservation: " +:+ k.2) ;;
                 do! move k UNKNOWN "STARTUP_SUBMIT_AMBIGUITY"
                       [("reason", JStr "submit reservation existed at restart")]%string None ;;
                 retM UNKNOWN
               else retM status) ;;
    status <- (if cancel_unresolved && status_in status [ACKNOWLEDGED; PARTIALLY_FILLED] then
                 do! move k CANCEL_PENDING "STARTUP_RESTORE_CANCEL_PENDING"
                       [("reason", JStr "durable cancel attempt remains unresolved")]%string
                       None ;;
                 retM CANCEL_PENDING
               else retM status) ;;
    if cancel_unresolved && status_in status [FILLED; CANCELLED; REJECTED] then
      do! move k status "STARTUP_CANCEL_ALREADY_TERMINAL"
            [("reason", JStr "terminal broker lifecycle resolves cancel ambiguity")]%string
            (Some true) ;;
      retM tt
    else
      status <- (if bool_decide (status = CANCEL_PENDING) then
                   do! guardM cancel_started RecoveryInvariantViolation
                         ("CANCEL_PENDING without cancel reservation: " +:+ k.2) ;;
                   do! move k UNKNOWN "STARTUP_CANCEL_AMBIGUITY"
                         [("reason", JStr "cancel reservation existed at restart");
                          ("cancel_call_started", JBool true)]%string None ;;
                   retM UNKNOWN
                 else retM status) ;;
      do! (if bool_decide (status = UNKNOWN) then
             do! move k RECONCILING "STARTUP_RECONCILE_BEGIN" [] None ;; retM tt
           else retM tt) ;;
      recover_query k cancel_unresolved.

Definition recover : M R unit :=
  do! assert_leader ;;
  rows <- list_recovery_candidates ;;
  do! iterM recover_order rows ;;
  do! oms_heartbeat ;;
  o <- read_rest fst ;;
  do! mark_session_reconciled oms_guard (om_session_id o) ;;
  do! assert_leader ;;
  set_oms (set_reconciled true).

(** ** Submit *)

Definition submit_result (status : OrderStatus) (broker_order_id : option string)
    (risk_evaluation : option E) : SubmitResult E :=
  {| sr_status := status; sr_broker_order_id := broker_order_id;
     sr_risk_evaluation := risk_evaluation |}.

(** From the driver's call on: [Some s] is the status of an early return. *)
Definition submit_side_effect (intent : OrderIntent) : M R (option OrderStatus) :=
  let k := oi_key intent in
  tryM (do! call (submit_limit_order intent) ;; retM None)
    (fun exc =>
       if bool_decide (exn_cls exc = SubmitOutcomeUnknown) then
         do! assert_leader ;;
         do! move k UNKNOWN "SUBMIT_OUTCOME_UNKNOWN" [("error", JStr (exn_msg exc))]%string
               None ;;
         retM (Some UNKNOWN)
       else if is_Exception exc then
         do! assert_leader ;;
         do! move k UNKNOWN "SUBMIT_EXCEPTION_UNKNOWN"
               [("error_type", JStr (class_name (exn_cls exc)))]%string None ;;
         retM (Some UNKNOWN)
       else reraise exc).

(** The active query that resolves a returned call. *)
Definition submit_query (intent : OrderIntent) (risk_evaluation : option E)
    : M R (SubmitResult E) :=
  let k := oi_key intent in
  do! assert_leader ;;
  do! move k UNKNOWN "SUBMIT_API_RETURNED_LIFECYCLE_UNKNOWN"
        [("transport_returned", JBool true)]%string None ;;
  do! move k RECONCILING "SUBMIT_ACTIVE_QUERY_BEGIN" [] None ;;
  do! assert_leader ;;
  query_evidence <- call (query_by_client_order_id k) ;;
  do! assert_leader ;;
  match query_evidence with
  | None => retM (submit_result RECONCILING None risk_evaluation)
  | Some q =>
      applied <- ingest_active_query_evidence k q "post-submit" ;;
      retM (submit_result (ir_status applied) (Some (bo_broker_order_id q)) risk_evaluation)
  end.

Definition submit_decided_intent (intent : OrderIntent) (decision : RiskDecision)
    (risk_evaluation : option E) : M R (SubmitResult E) :=
  let k := oi_key intent in
  do! assert_leader ;;
  o <- read_rest fst ;;
  do! guardM (om_reconciled o) OmsNotReconciled
        "startup reconciliation must complete before new intents" ;;
  do! create_intent oms_guard intent ;;
  status <- record_risk_decision oms_guard k decision ;;
  if bool_decide (status = RISK_REJECTED) then
    retM (submit_result status None risk_evaluation)
  else
    do! prepare_submit oms_guard k ;;
    do! assert_leader ;;
    early <- submit_side_effect intent ;;
    match early with
    | Some status => retM (submit_result status None risk_evaluation)
    | None => submit_query intent risk_evaluation
    end.

Definition submit_authorized_intent := submit_decided_intent.

Definition submit_intent (intent : OrderIntent) (decision : option RiskDecision)
    : M R (SubmitResult E) :=
  authorization <- match decision with
                   | Some d => retM d
                   | None =>
                       now <- _now ;;
                       lift (core_execution_decision intent now "execution-core-v1")
                   end ;;
  submit_authorized_intent intent authorization None.

(** ** Cancel *)

Definition cancel_side_effect k : M R (option OrderStatus) :=
  tryM (do! call (driver_cancel_order k) ;; retM None)
    (fun exc =>
       if bool_decide (exn_cls exc = CancelOutcomeUnknown) then
         do! assert_leader ;;
         do! move k UNKNOWN "CANCEL_OUTCOME_UNKNOWN" [("error", JStr (exn_msg exc))]%string
               None ;;
         retM (Some UNKNOWN)
       else if is_Exception exc then
         do! assert_leader ;;
         do! move k UNKNOWN "CANCEL_EXCEPTION_UNKNOWN"
               [("error_type", JStr (class_name (exn_cls exc)))]%string None ;;
         retM (Some UNKNOWN)
       else reraise exc).

Definition cancel_query k : M R CancelResult :=
  do! assert_leader ;;
  do! move k UNKNOWN "CANCEL_API_RETURNED_LIFECYCLE_UNKNOWN"
        [("transport_returned", JBool true)]%string None ;;
  do! move k RECONCILING "CANCEL_ACTIVE_QUERY_BEGIN" [] None ;;
  do! assert_leader ;;
  query_evidence <- call (query_by_client_order_id k) ;;
  do! assert_leader ;;
  match query_evidence with
  | None => retM {| cr_status := RECONCILING; cr_broker_order_id := None |}
  | Some q =>
      applied <- ingest_active_query_evidence k q "post-cancel" ;;
      do! move k (ir_status applied) "CANCEL_ACTIVE_QUERY_RESOLVED" [] (Some true) ;;
      retM {| cr_status := ir_status applied;
              cr_broker_order_id := Some (bo_broker_order_id q) |}
  end.

Definition cancel_order k : M R CancelResult :=
  do! assert_leader ;;
  o <- read_rest fst ;;
  do! guardM (om_reconciled o) OmsNotReconciled
        "startup reconciliation must complete before cancellation" ;;
  do! prepare_cancel oms_guard k ;;
  do! assert_leader ;;
  early <- cancel_side_effect k ;;
  match early with
  | Some status => retM {| cr_status := status; cr_broker_order_id := None |}
  | None => cancel_query k
  end.

(** ** core/facade.py *)

Definition core_recover : M R unit := recover.
Definition core_submit (intent : OrderIntent) : M R (SubmitResult E) := submit_intent intent None.
Definition core_cancel (account_fingerprint client_order_id : string) : M R CancelResult :=
  cancel_order (account_fingerprint, client_order_id).
Definition core_close : M R unit := close.
End Oms.
