(* ===== verification/System.v ===== *)
(** * System: what the OMS keeps true, whatever the driver does

    The public operations of [Service] over any [ExecutionDriver], in any order,
    by any number of sessions and through crashes: the stores' invariants, the
    append-only logs, one submit and one cancel per order, the fence, and what a
    finished recovery leaves behind. *)

From S2P Require Import Prelude PyTime Decimal Json Domain Db Leader Repository OrderStore.
From S2P Require Import BrokerEvidence Evidence Drivers Service.
Open Scope Z_scope.

(** ** The store, from one commit to the next *)

Definition store_inv (d : db) : Prop := orders_inv d /\ evidence_inv d.

(** A later state of the store: the invariants are kept, no row loses what it
    may not lose, and the logs only grow. *)
Record db_le (d d' : db) : Prop := {
  le_inv : store_inv d -> store_inv d';
  le_rows : store_inv d -> forall k r, tbl_get (d_orders d) k = Some r ->
    exists r', tbl_get (d_orders d') k = Some r' /\ row_le r r';
  le_intents : d_intents d ⊑ₜ d_intents d';
  le_keys : d_keys d ⊑ₜ d_keys d';
  le_events : exists l, d_events d' = d_events d ++ l;
  le_observations : exists l, d_observations d' = d_observations d ++ l
}.

#[global] Instance db_le_preorder : PreOrder db_le.
Proof.
  split.
  - intros d. split; auto; try reflexivity; try (exists []; by rewrite app_nil_r).
    intros _ k r Hr. exists r. split; [done | reflexivity].
  - intros d1 d2 d3 [] []. split; auto; try (by etransitivity).
    + intros Hd k r Hr. destruct (le_rows0 Hd k r Hr) as (r2 & Hr2 & H12).
      destruct (le_rows1 (le_inv0 Hd) k r2 Hr2) as (r3 & Hr3 & H23).
      exists r3. split; [done | by transitivity r2].
    + destruct le_events1 as [l' ->], le_events0 as [l ->]. exists (l ++ l'). by rewrite app_assoc.
    + destruct le_observations1 as [l' ->], le_observations0 as [l ->].
      exists (l ++ l'). by rewrite app_assoc.
Qed.

Lemma wrote_events k q r r' d d' : wrote k q r r' d d' -> exists l, d_events d' = d_events d ++ l.
Proof. intros (_ & e & -> & _). by exists [e]. Qed.

Lemma wrote_le k q r r' d d' : wrote k q r r' d d' -> order_change q r r' -> db_le d d'.
Proof.
  intros Hw Hc. pose proof (wrote_touches (fun _ => True) _ _ _ _ _ _ Hw Hc I) as Ht.
  destruct (wrote_rest _ _ _ _ _ _ Hw). split.
  - intros [Ho He]. split; [by apply (tch_inv _ _ _ Ht)|]. by eapply evidence_inv_ext.
  - intros [Ho _]. by apply (tch_rows _ _ _ Ht).
  - by rewrite same_intents.
  - by rewrite same_keys.
  - by eapply wrote_events.
  - exists []. by rewrite app_nil_r.
Qed.

Lemma writes_le {A} k P d (a : A) d' :
  writes k P d a d' -> (forall r q r', P r q a r' -> order_change q r r') -> db_le d d'.
Proof. intros (q & r & r' & Hw & HP) Hc. eapply wrote_le; [done | by apply Hc]. Qed.

Lemma ext_le d d' :
  d_intents d' = d_intents d -> d_orders d' = d_orders d -> d_events d' = d_events d ->
  d_keys d' = d_keys d -> d_observations d' = d_observations d -> db_le d d'.
Proof.
  intros Hi Ho He Hk Hb. split.
  - intros [? ?]. split; [by eapply orders_inv_ext | by eapply evidence_inv_ext].
  - intros _ k r Hr. exists r. rewrite Ho. split; [done | reflexivity].
  - by rewrite Hi.
  - by rewrite Hk.
  - exists []. by rewrite app_nil_r.
  - exists []. by rewrite app_nil_r.
Qed.

Lemma tbl_insert_le {K V} `{Countable K} (k : K) (v : V) t t' :
  tbl_insert k v t = Some t' -> t ⊑ₜ t'.
Proof.
  intros Hi k' x Hx. rewrite (tbl_get_insert _ _ _ _ k' Hi). case_decide as Hk; [|done].
  subst. apply tbl_insert_fresh in Hi. congruence.
Qed.

Lemma created_le i d d' : created i d d' -> db_le d d'.
Proof.
  intros Hc. pose proof Hc as (Hq & xi & xo & t & e & Hxi & Hxo & -> & Hk & Hf & Ht). split.
  - intros [Ho He]. split; [by eapply created_inv|]. destruct He as [He1 He2 He3 He4]. split; try done.
    intros o Hin. destruct (He4 o Hin) as [row Hrow]. exists row. cbn.
    by eapply tbl_insert_le.
  - intros _ k r Hr. exists r. cbn. split; [|reflexivity].
    change (tbl_get xo k = Some r). by eapply tbl_insert_le.
  - by eapply tbl_insert_le.
  - reflexivity.
  - by exists [e].
  - exists []. by rewrite app_nil_r.
Qed.

Lemma obs_put_le e cls d :
  is_Some (tbl_get (d_intents d) (ev_key e)) -> db_le d (obs_put e cls d).
Proof.
  intros Hfk. split; try reflexivity.
  - intros [Ho He]. split; [by apply (tch_inv _ _ _ (obs_put_touches (fun _ => True) e cls d))|].
    by apply obs_put_inv.
  - intros _ k r Hr. exists r. split; [done | reflexivity].
  - exists []. by rewrite app_nil_r.
  - by eexists.
Qed.

Lemma reviewed_le {A} k fill d (a : A) d' :
  store_inv d -> reviewed k fill d a d' -> db_le d d'.
Proof.
  intros [Hd _] (q & r & r' & Hw & t & eff & -> & Hf & ->). eapply wrote_le; [exact Hw|].
  apply change_review. destruct Hw as [Hc _].
  apply order_context_get in Hc as (Hg & i & Hi & <-).
  destruct (inv_rows _ Hd _ _ Hg) as (i' & Hi' & []). simplify_eq. destruct fill; lia.
Qed.

Lemma key_obs_le e (acc : bool) disp cr cls d d1 :
  store_inv d -> is_Some (tbl_get (d_intents d) (ev_key e)) ->
  (if acc then is_Some disp else is_Some cr) ->
  key_put e acc disp cr d d1 -> db_le d (obs_put e cls d1).
Proof.
  intros Hs Hfk Hacc Hk. pose proof (key_put_touches (fun _ => True) _ _ _ _ _ _ Hk) as Ht.
  assert (Hinv : store_inv (obs_put e cls d1)).
  { destruct Hs as [Ho He]. split; [|by eapply key_put_inv].
    by apply (tch_inv _ _ _ (obs_put_touches (fun _ => True) e cls d1)), (tch_inv _ _ _ Ht). }
  destruct Hk as (_ & x & Hx & ->). split; try reflexivity; [done | | | |].
  - intros _ k r Hr. exists r. split; [done | reflexivity].
  - by eapply tbl_insert_le.
  - exists []. by rewrite app_nil_r.
  - by eexists.
Qed.

Lemma ingested_le e d out d' :
  evidence_ok e -> store_inv d -> ingested e d out d' -> db_le d d'.
Proof.
  intros He Hs Hi.
  destruct Hi as [| |r d1 Hr Hfk Hk|o d1 d2 Hm Hk|r q exc c fill d1 d2 Hc Hdec Hm Hk Hrev
                 |fp row original d1 d2 Hf Hdig Hfk -> Ho Hd2].
  - by apply obs_put_le.
  - by apply obs_put_le.
  - eapply (key_obs_le e true); [done | exact Hfk | by eexists | exact Hk].
  - destruct (writes_journal _ _ _ _ _ Hm) as (_ & _ & Hin & Hfk).
    assert (H1 : db_le d d1).
    { eapply writes_le; [exact Hm|]. intros r q r' Hr. eapply moved_by_fact; [exact Hr|].
      by apply evidence_ok_lifecycle. }
    etransitivity; [exact H1|]. eapply (key_obs_le e true); [by apply H1 | | by eexists | exact Hk].
    by rewrite Hin.
  - assert (H1 : db_le d (obs_put e "CONFLICT" d1)).
    { eapply (key_obs_le e false); [done | | by eexists | exact Hk].
      apply order_context_get in Hc as (_ & i & ? & _). by exists i. }
    etransitivity; [exact H1|]. eapply reviewed_le; [by apply H1 | exact Hrev].
  - pose proof (obs_put_le e "CONFLICT" d Hfk) as H1.
    assert (H2 : db_le d d1).
    { destruct (obs_key <$> _) as [k|] in Ho; [|by subst].
      etransitivity; [exact H1|]. eapply reviewed_le; [by apply H1 | exact Ho]. }
    case_decide; [by subst|]. etransitivity; [exact H2|].
    eapply reviewed_le; [by apply H2 | exact Hd2].
Qed.

Lemma decided_le k decision d s d' : decided k decision d s d' -> db_le d d'.
Proof.
  intros (x & o & _ & _ & Hw & _). transitivity (set_risk x d); [by apply ext_le|].
  eapply writes_le; [exact Hw|]. intros r q r' Hm. eapply moved_by_fsm; [exact Hm|].
  left. by destruct (rd_accepted decision).
Qed.

Section Ops.
Context {D E : Type} {driver : ExecutionDriver D} {counting : CountingDriver D} {env : Env}.
Abbreviation R := (oms * D)%type.
Implicit Types (w : world R) (k : okey).

(** ** Steps that call neither [submit_limit_order] nor [cancel_order] *)

Definition same_calls (x x' : D) : Prop :=
  forall k, submits k x' = submits k x /\ cancels k x' = cancels k x.

Definition sys_le w w' : Prop :=
  db_le (w_db w) (w_db w') /\ same_calls (w_rest w).2 (w_rest w').2.

#[local] Instance sys_le_preorder : PreOrder sys_le.
Proof.
  split.
  - intros w. by split; [reflexivity|].
  - intros w1 w2 w3 [H12 C12] [H23 C23]. split; [by etransitivity|].
    intros k. destruct (C12 k), (C23 k). split; congruence.
Qed.

Definition keeps {A} (m : M R A) : Prop :=
  forall w, w_in_tx w = false -> store_inv (w_db w) ->
    w_in_tx (m w).2 = false /\ sys_le w (m w).2.

Lemma keeps_bind {A B} (m : M R A) (f : A -> M R B) :
  keeps m -> (forall a, keeps (f a)) -> keeps (bindM m f).
Proof.
  intros Hm Hf w Hw Hs. unfold bindM. destruct (Hm w Hw Hs) as [Ht Hle].
  destruct (m w) as [[a|e] w1]; [|done]. cbn [fst snd] in *.
  destruct (Hf a w1 Ht) as [Ht' Hle']; [by apply Hle|]. split; [done | by etransitivity].
Qed.

Lemma keeps_try {A} (m : M R A) h : keeps m -> (forall e, keeps (h e)) -> keeps (tryM m h).
Proof.
  intros Hm Hh w Hw Hs. unfold tryM. destruct (Hm w Hw Hs) as [Ht Hle].
  destruct (m w) as [[a|e] w1]; [done|]. cbn [fst snd] in *.
  destruct (Hh e w1 Ht) as [Ht' Hle']; [by apply Hle|]. split; [done | by etransitivity].
Qed.

Lemma keeps_quiet {A} (m : M R A) : quiet m -> keeps m.
Proof.
  intros Hm w Hw _. destruct (Hm w) as [Hd [Ht Hr]]. split; [congruence|].
  split; [by rewrite Hd | by rewrite Hr].
Qed.

Lemma keeps_set f : (forall r, (f r).2 = r.2) -> keeps (write_rest f).
Proof. intros Hf w Hw _. split; [done|]. split; [reflexivity|]. cbn. by rewrite Hf. Qed.

Lemma keeps_iter {A} (f : A -> M R unit) l : (forall a, keeps (f a)) -> keeps (iterM f l).
Proof.
  intros Hf. induction l as [|a l IH]; [apply keeps_quiet; intros w; by repeat wp_step|].
  simpl. by apply keeps_bind.
Qed.

(** A transaction whose commits go forward. *)
Lemma keeps_tx {A} (m : M R A) (P : db -> A -> db -> Prop) :
  (forall w, w_in_tx w = false -> tx_ok m (P (w_db w)) w) ->
  (forall d a d', store_inv d -> P d a d' -> db_le d d') -> keeps m.
Proof.
  intros Hm HP w Hw Hs. specialize (Hm w Hw). unfold tx_ok, wp in Hm.
  destruct (m w) as [[a|e] w1]; cbn [fst snd] in *; destruct Hm as [[Ht Hr] H];
    (split; [congruence|]); (split; [|by rewrite Hr]); [by eapply HP | by rewrite H].
Qed.

Lemma now_quiet : quiet (R := R) _now.
Proof. unfold _now. auto with quiet. Qed.
Hint Resolve now_quiet : quiet.

(** The write guard reads only. *)
Lemma assert_leader_quiet : quiet (R := R) assert_leader.
Proof. unfold assert_leader. auto 10 with quiet. Qed.
Hint Resolve assert_leader_quiet : quiet.

Lemma oms_guard_quiet :
  match @oms_guard D env with Some g => quiet g | None => True end.
Proof. apply assert_leader_quiet. Qed.
Lemma assert_leader_errors w e : (assert_leader (D := D) w).1 = Err e -> fence_error e = true.
Proof.
  unfold assert_leader, _now, assert_held, normalize_utc, bindM, guardM, read_rest, clock_now,
    retM, raiseM, read_db. cbn.
  repeat (case_match; simplify_eq/=; try done); by intros [= <-].
Qed.

(** ** The lease and the session rows *)

(** A transaction that writes neither orders nor the journal. *)
Definition aside (d d' : db) : Prop :=
  exists l x, d' = set_sessions x (set_leader l d).

Lemma aside_le d d' : aside d d' -> db_le d d'.
Proof. intros (l & x & ->). by apply ext_le. Qed.

Lemma aside_refl d : aside d d.
Proof. exists (d_leader d), (d_sessions d). by destruct d. Qed.

Lemma aside_leader l d : aside d (set_leader l d).
Proof. by exists l, (d_sessions d). Qed.

Lemma aside_sessions x d : aside d (set_sessions x d).
Proof. exists (d_leader d), x. by destruct d. Qed.

Hint Resolve aside_refl aside_leader aside_sessions : core.

Lemma keeps_aside {A} (m : M R A) :
  (forall w, in_tx_ok m (fun _ d' => aside (w_db w) d') w) -> keeps (transaction m).
Proof.
  intros Hm. eapply (keeps_tx _ (fun d _ d' => aside d d')).
  - intros w Hw. apply tx_ok_intro; [done|]. intros w1 <- _ _. apply Hm.
  - intros d _ d' _. apply aside_le.
Qed.

Ltac tx_steps := intros ?; unfold in_tx_ok, frame; repeat (wp_step || case_match); cbn; auto.

Lemma acquire_keeps sid secs now : keeps (acquire sid secs now).
Proof.
  unfold acquire. apply keeps_bind; [apply keeps_quiet; auto with quiet | intros _].
  apply keeps_bind; [apply keeps_quiet; auto with quiet | intros t].
  apply keeps_bind; [apply keeps_quiet; auto with quiet | intros token].
  apply keeps_bind; [|intros; apply keeps_quiet; auto with quiet].
  apply keeps_aside. tx_steps.
Qed.

Lemma heartbeat_keeps l secs now : keeps (heartbeat l secs now).
Proof.
  unfold heartbeat. apply keeps_bind; [apply keeps_quiet; auto with quiet | intros _].
  apply keeps_bind; [apply keeps_quiet; auto with quiet | intros t].
  apply keeps_bind; [|intros; apply keeps_quiet; auto with quiet].
  apply keeps_aside. tx_steps.
Qed.

Lemma release_keeps l : keeps (release l).
Proof. apply keeps_aside. tx_steps. Qed.

Lemma start_session_keeps sid : keeps (start_session oms_guard sid).
Proof.
  apply keeps_aside. intros w. apply in_tx_ok_quiet; [apply guard_write_quiet, oms_guard_quiet|].
  intros _ w1 <- _. revert w1. tx_steps.
Qed.

Lemma mark_session_keeps sid : keeps (mark_session_reconciled oms_guard sid).
Proof.
  apply keeps_aside. intros w. apply in_tx_ok_quiet; [apply guard_write_quiet, oms_guard_quiet|].
  intros _ w1 <- _. revert w1. tx_steps.
Qed.

(** ** Orders and evidence *)

(** A lifecycle move that needs no broker fact, or back to the row's status. *)
Definition own_move (target : OrderStatus) (r : order_row) : Prop :=
  status_in target [RISK_REJECTED; RISK_ACCEPTED; ABORTED; UNKNOWN; RECONCILING;
                    MANUAL_REVIEW] = true \/
  (target = CANCEL_PENDING /\ o_cancel_call_started r = true) \/ target = o_status r.

Lemma move_ok k target ty ev cor w :
  w_in_tx w = false ->
  tx_ok (move k target ty ev cor)
    (writes k (moved_by target None None cor false) (w_db w)) w.
Proof. intros Hw. by apply transition_order_ok; [apply oms_guard_quiet|]. Qed.

(** [move] from a row it may move. *)
Lemma move_keeps_row k target ty ev cor w :
  w_in_tx w = false -> store_inv (w_db w) ->
  (forall r, tbl_get (d_orders (w_db w)) k = Some r -> own_move target r) ->
  w_in_tx (move k target ty ev cor w).2 = false /\ sys_le w (move k target ty ev cor w).2.
Proof.
  intros Hw Hs Ho. pose proof (move_ok k target ty ev cor w Hw) as H. unfold tx_ok, wp in H.
  destruct (move _ _ _ _ _ w) as [[o|e] w1]; cbn [fst snd] in *; destruct H as [[Ht Hr] H];
    (split; [congruence|]); (split; [|by rewrite Hr]); [|by rewrite H].
  destruct H as (q & r & r' & Hwr & Hm). eapply wrote_le; [exact Hwr|].
  eapply moved_by_fsm; [exact Hm|]. apply Ho. by destruct (wrote_row _ _ _ _ _ _ Hwr).
Qed.

Lemma move_keeps k target ty ev cor :
  status_in target [RISK_REJECTED; RISK_ACCEPTED; ABORTED; UNKNOWN; RECONCILING;
                    MANUAL_REVIEW] = true ->
  keeps (move k target ty ev cor).
Proof. intros Ht w Hw Hs. apply move_keeps_row; [done..|]. by left. Qed.

Lemma create_keeps i : keeps (create_intent oms_guard i).
Proof.
  eapply (keeps_tx _ (fun d _ d' => created i d d')).
  - intros w Hw. by apply create_intent_ok; [apply oms_guard_quiet|].
  - intros d _ d' _. apply created_le.
Qed.

Lemma record_keeps k decision : keeps (record_risk_decision oms_guard k decision).
Proof.
  eapply (keeps_tx _ (fun d s d' => decided k decision d s d')).
  - intros w Hw. by apply record_risk_decision_ok; [apply oms_guard_quiet|].
  - intros d s d' _. apply decided_le.
Qed.

Lemma prepare_submit_keeps k : keeps (prepare_submit oms_guard k).
Proof.
  eapply (keeps_tx _ (writes k _)).
  - intros w Hw. by apply prepare_submit_ok; [apply oms_guard_quiet|].
  - intros d a d' _ Hw. eapply writes_le; [exact Hw|].
    intros r q r' (Hs & Hsub & t & ->). by apply change_submit.
Qed.

Lemma prepare_cancel_keeps k : keeps (prepare_cancel oms_guard k).
Proof.
  eapply (keeps_tx _ (writes k _)).
  - intros w Hw. by apply prepare_cancel_ok; [apply oms_guard_quiet|].
  - intros d a d' _ Hw. eapply writes_le; [exact Hw|].
    intros r q r' (Hs & Hsub & t & ->). by apply change_cancel.
Qed.

Lemma ingest_keeps e : evidence_ok e -> keeps (ingest assert_leader e).
Proof.
  intros He w Hw Hs.
  pose proof (ingest_refines assert_leader assert_leader_quiet assert_leader_errors e w Hw) as H.
  unfold wp in H. destruct (ingest assert_leader e w) as [res w']. cbn [fst snd] in *.
  destruct H as [[Ht Hr] H]. split; [congruence|]. split; [|by rewrite Hr].
  assert (Hc : w_db w' = w_db w \/ exists out, ingested e (w_db w) out (w_db w'))
    by (destruct res; naive_solver).
  destruct Hc as [-> |[out Hi]]; [done | by eapply ingested_le].
Qed.

Lemma query_ingest_keeps k q reason : keeps (ingest_active_query_evidence k q reason).
Proof.
  unfold ingest_active_query_evidence. destruct (query_evidence_type _) as [ty|];
    [|apply keeps_quiet; auto with quiet].
  apply keeps_bind; [apply keeps_quiet; auto with quiet|]. intros now.
  apply keeps_bind; [apply keeps_quiet; auto with quiet|]. intros o.
  intros w Hw Hs. unfold bindM, lift. destruct (build _) as [e|x] eqn:Eb; [|done].
  apply ingest_keeps; [by apply (build_ok _ _ Eb) | done | done].
Qed.

Lemma call_query_keeps k : keeps (call (query_by_client_order_id k)).
Proof.
  intros w Hw _. unfold call.
  pose proof (fun k' => submits_query k' k (w_rest w).2) as Hs.
  pose proof (fun k' => cancels_query k' k (w_rest w).2) as Hc.
  destruct (query_by_client_order_id _ _) as [r x]. cbn in *.
  split; [done|]. split; [reflexivity|]. by split.
Qed.

(** ** Recovery, one order at a time *)

(** Other orders' rows are as they were. *)
Definition only k (d d' : db) : Prop :=
  forall k', k' <> k -> tbl_get (d_orders d') k' = tbl_get (d_orders d) k'.

(** [m] works on order [k] alone: it goes forward whatever happens, and when
    it returns the row of [k] satisfies [P]. *)
Definition on_order {A} k (m : M R A) (P : A -> order_row -> Prop) w : Prop :=
  wp m (fun res w' => w_in_tx w' = false /\ sys_le w w' /\
    match res with
    | Ok a => only k (w_db w) (w_db w') /\
              exists r', tbl_get (d_orders (w_db w')) k = Some r' /\ P a r'
    | Err _ => True
    end) w.

(** The world holds row [r] for order [k]. *)
Definition at_row k (r : order_row) w : Prop :=
  w_in_tx w = false /\ store_inv (w_db w) /\ tbl_get (d_orders (w_db w)) k = Some r.

Lemma on_order_bind {A B} k (m : M R A) (f : A -> M R B) P Q w :
  store_inv (w_db w) -> on_order k m P w ->
  (forall a w' r', at_row k r' w' -> P a r' -> on_order k (f a) Q w') ->
  on_order k (bindM m f) Q w.
Proof.
  intros Hs Hm Hf. unfold on_order in *. apply wp_bind. eapply wp_mono; [exact Hm|].
  intros [a|e] w1 (Ht & Hle & H); [|done]. destruct H as (Ho & r1 & Hr1 & HP).
  eapply wp_mono; [apply (Hf a w1 r1)|]; [|done|].
  { split; [done|]. split; [by apply Hle | done]. }
  intros [b|e] w2 (Ht2 & Hle2 & H2); (split; [done|]); (split; [by etransitivity|]); [|done].
  destruct H2 as (Ho2 & r2 & Hr2 & HQ). split; [|by exists r2].
  intros k' Hk'. by rewrite Ho2, Ho.
Qed.

(** Steps that leave the orders alone. *)
Lemma on_order_keeps {A} k (m : M R A) r w :
  at_row k r w -> keeps m ->
  (forall a w', m w = (Ok a, w') -> d_orders (w_db w') = d_orders (w_db w)) ->
  on_order k m (fun _ r' => r' = r) w.
Proof.
  intros (Ht & Hs & Hr) Hk Ho. unfold on_order, wp. destruct (Hk w Ht Hs) as [Ht' Hle].
  destruct (m w) as [[a|e] w']; (split; [done|]); (split; [done|]); [|done].
  specialize (Ho a w' eq_refl). cbn [fst snd] in *. split; [intros k' _; by rewrite Ho|].
  exists r. by rewrite Ho.
Qed.

Lemma on_order_quiet {A} k (m : M R A) r w :
  at_row k r w -> quiet m -> on_order k m (fun _ r' => r' = r) w.
Proof.
  intros Hr Hq. apply on_order_keeps; [done | by apply keeps_quiet|].
  intros a w' Hm. destruct (Hq w) as [Hd _]. rewrite Hm in Hd. cbn in Hd. by rewrite Hd.
Qed.

Lemma on_order_mono {A} k (m : M R A) (P Q : A -> order_row -> Prop) w :
  on_order k m P w -> (forall a r, P a r -> Q a r) -> on_order k m Q w.
Proof.
  unfold on_order. intros Hm HPQ. eapply wp_mono; [exact Hm|]. intros [a|e] w' (? & ? & H); [|done].
  destruct H as (? & r' & ? & ?). eauto 10.
Qed.

Lemma on_order_ret {A} k (a : A) (P : A -> order_row -> Prop) r w :
  at_row k r w -> P a r -> on_order k (retM a) P w.
Proof. intros (Ht & Hs & Hr) HP. split; [done|]. split; [reflexivity|]. by split; [|exists r]. Qed.

Lemma on_order_raise {A} k c msg (P : A -> order_row -> Prop) r w :
  at_row k r w -> on_order k (raiseM c msg) P w.
Proof. intros (Ht & Hs & Hr). split; [done|]. by split. Qed.

Lemma on_order_guard {B} k b c msg (f : unit -> M R B) Q r w :
  at_row k r w -> (b = true -> on_order k (f tt) Q w) ->
  on_order k (bindM (guardM b c msg) f) Q w.
Proof. intros Hr Hf. destruct b; [by apply Hf | by eapply on_order_raise]. Qed.

(** What [move] leaves of a row. *)
Definition moved_row target cor (r : order_row) (o : TransitionOutcome) (r' : order_row) : Prop :=
  transition (o_status r) target = Ok o /\
  o_status r' = (if to_changed o then to_current o else o_status r) /\
  o_cancel_call_started r' = o_cancel_call_started r /\
  o_cancel_outcome_resolved r' = default (o_cancel_outcome_resolved r) cor.

Lemma move_on_order k target ty ev cor r w :
  at_row k r w -> own_move target r ->
  on_order k (move k target ty ev cor) (moved_row target cor r) w.
Proof.
  intros (Ht & Hs & Hr) Ho. pose proof (move_ok k target ty ev cor w Ht) as H.
  destruct (move_keeps_row k target ty ev cor w Ht Hs) as [Ht' Hle]; [intros ? ?; by simplify_eq|].
  unfold tx_ok, on_order, wp in *. destruct (move _ _ _ _ _ w) as [[o|e] w1]; cbn [fst snd] in *;
    (split; [done|]); (split; [done|]); [|done].
  destruct H as [_ (q & r0 & r' & Hwr & eff & norm & t & Hd & ->)].
  destruct (wrote_row _ _ _ _ _ _ Hwr) as [Hg Hg']. simplify_eq.
  split; [intros k' Hk'; by apply (wrote_other _ _ _ _ _ _ k' Hwr)|].
  eexists. split; [exact Hg'|]. apply decide_fsm in Hd as (Htr & -> & ->).
  by repeat split.
Qed.

Lemma normalize_lifecycle target eff q norm :
  normalize_broker_status target eff q = Ok norm ->
  status_in target lifecycle_statuses = true -> status_in norm lifecycle_statuses = true.
Proof.
  unfold normalize_broker_status, raise. intros Hn Hl.
  destruct target; try discriminate Hl; cbn in Hn; repeat (case_match; simplify_eq/=; try done).
Qed.

Lemma merged_status e q r o r' :
  evidence_ok e -> merged_by e r q o r' ->
  o_status r' = to_current o /\ o_cancel_call_started r' = o_cancel_call_started r /\
  o_cancel_outcome_resolved r' = o_cancel_outcome_resolved r /\
  (o_status r' = o_status r \/
   (o_status r <> MANUAL_REVIEW /\ status_in (o_status r') lifecycle_statuses = true)).
Proof.
  intros He (eff & norm & t & Hd & ->). pose proof Hd as Hs.
  eapply apply_status with (b := ev_broker_order_id e) (c := None) (t := t) in Hs; [|done].
  rewrite Hs. repeat split; try done. apply decide_fact in Hd as (_ & _ & _ & Hn & _ & _ & _ & ->).
  apply normalize_lifecycle in Hn; [|by apply evidence_ok_lifecycle].
  unfold aggregate_broker_status, outcome_of. cbn [to_current].
  repeat case_match; bool_to_prop; subst; auto.
Qed.

Lemma ingest_on_order e r w :
  evidence_ok e -> at_row (ev_key e) r w ->
  on_order (ev_key e) (ingest assert_leader e) (fun res r' =>
    ir_status res = o_status r' /\
    o_cancel_call_started r' = o_cancel_call_started r /\
    o_cancel_outcome_resolved r' = o_cancel_outcome_resolved r /\
    (o_status r' = o_status r \/
     (o_status r <> MANUAL_REVIEW /\ status_in (o_status r') lifecycle_statuses = true))) w.
Proof.
  intros He (Ht & Hs & Hr). destruct (ingest_keeps e He w Ht Hs) as [Ht' Hle].
  pose proof (ingest_refines assert_leader assert_leader_quiet assert_leader_errors e w Ht) as H.
  unfold on_order, wp in *. destruct (ingest assert_leader e w) as [[res|x] w']; cbn [fst snd] in *;
    (split; [done|]); (split; [done|]); [|done]. destruct H as [_ H].
  inversion H as [row disp r0 Hk Ha Hdis Hr0| |r0 d1 Hr0 Hfk Hk|o d1 d2 Hm Hk| |]; subst;
    (split; [intros k' Hk'|]).
  - done.
  - exists r. simplify_eq. repeat split; auto.
  - by destruct Hk as (_ & x & _ & ->).
  - destruct Hk as (_ & x & _ & ->). exists r. simplify_eq. repeat split; auto.
  - destruct Hk as (_ & x & _ & ->). destruct Hm as (q & r1 & r' & Hwr & _).
    by destruct (wrote_other _ _ _ _ _ _ k' Hwr Hk').
  - destruct Hk as (_ & x & _ & ->). destruct Hm as (q & r1 & r' & Hwr & Hm).
    destruct (wrote_row _ _ _ _ _ _ Hwr) as [Hg Hg']. simplify_eq. exists r'.
    split; [exact Hg'|]. apply merged_status in Hm as (? & ? & ? & ?); [|done].
    repeat split; try done; congruence.
Qed.

Lemma query_ingest_on_order k q reason r w :
  at_row k r w ->
  on_order k (ingest_active_query_evidence k q reason) (fun res r' =>
    ir_status res = o_status r' /\
    o_cancel_call_started r' = o_cancel_call_started r /\
    o_cancel_outcome_resolved r' = o_cancel_outcome_resolved r /\
    (o_status r' = o_status r \/
     (o_status r <> MANUAL_REVIEW /\ status_in (o_status r') lifecycle_statuses = true))) w.
Proof.
  intros Hr. unfold ingest_active_query_evidence.
  destruct (query_evidence_type _) as [ty|]; [|by eapply on_order_raise].
  eapply on_order_bind; [by apply Hr | apply on_order_quiet; [exact Hr | auto with quiet]|].
  intros now w1 ? Hr1 ->.
  eapply on_order_bind; [by apply Hr1 | apply on_order_quiet; [exact Hr1 | auto with quiet]|].
  intros o w2 ? Hr2 ->. unfold bindM, lift.
  destruct (build _) as [e|[c msg]] eqn:Eb; [|exact (on_order_raise k c msg _ r w2 Hr2)].
  assert (Hk : k = ev_key e)
    by (unfold build in Eb; apply res_bind_ok in Eb as (? & _ & [= <-]); by destruct k).
  rewrite Hk in *. apply ingest_on_order; [by apply (build_ok _ _ Eb) | done].
Qed.

(** What recovery leaves: nothing before the side effect, no outcome in doubt
    but RECONCILING, no cancel unresolved. *)
Definition settled (r : order_row) : Prop :=
  status_in (o_status r) [CREATED; RISK_ACCEPTED; SUBMITTING; CANCEL_PENDING; UNKNOWN] = false /\
  (o_cancel_call_started r = true -> o_cancel_outcome_resolved r = true).

Definition unresolved (r : order_row) : bool :=
  o_cancel_call_started r && negb (o_cancel_outcome_resolved r).

Lemma settled_or r : settled r \/ recovery_candidate r = true.
Proof.
  unfold settled, recovery_candidate.
  destruct (o_status r), (o_cancel_call_started r), (o_cancel_outcome_resolved r); red_status; auto.
  all: left; split; done.
Qed.

Lemma get_status_on_order k r w :
  at_row k r w -> on_order k (get_status k) (fun s r' => s = o_status r /\ r' = r) w.
Proof.
  intros (Ht & Hs & Hr). unfold on_order, wp, get_status, bindM, read_db. rewrite Hr. cbn.
  split; [done|]. split; [reflexivity|]. split; [done|]. by exists r.
Qed.

Lemma transition_self s : transition s s = Ok (outcome_of s s s DUPLICATE_IGNORED false).
Proof. by destruct s; vm_compute. Qed.

(** A move to the row's own status only settles the cancel. *)
Lemma move_settles k ty ev r w :
  at_row k r w ->
  status_in (o_status r) [CREATED; RISK_ACCEPTED; SUBMITTING; CANCEL_PENDING; UNKNOWN] = false ->
  on_order k (bindM (move k (o_status r) ty ev (Some true)) (fun _ => retM tt))
    (fun _ r' => settled r') w.
Proof.
  intros Hr Hst. eapply on_order_bind; [by apply Hr | apply move_on_order; [exact Hr|]|].
  { by right; right. }
  intros o w1 r1 Hr1 (Ho & Hs1 & _ & Hres). eapply on_order_ret; [exact Hr1|].
  rewrite transition_self in Ho. injection Ho as <-. cbn in Hs1. split; [by rewrite Hs1 | done].
Qed.

Lemma recover_query_on_order k r w :
  at_row k r w -> status_in (o_status r) [RECONCILING; MANUAL_REVIEW] = true ->
  on_order k (recover_query k (unresolved r)) (fun _ r' => settled r') w.
Proof.
  intros Hr Hst. unfold recover_query.
  eapply on_order_bind; [by apply Hr | apply on_order_quiet; [exact Hr | auto with quiet]|].
  intros _ w1 ? Hr1 ->.
  eapply on_order_bind; [by apply Hr1 | apply (on_order_keeps k _ r);
    [exact Hr1 | apply call_query_keeps|]|].
  { unfold call. intros a w'. destruct (query_by_client_order_id _ _). by intros [= _ <-]. }
  intros evidence w2 ? Hr2 ->.
  eapply on_order_bind; [by apply Hr2 | apply on_order_quiet; [exact Hr2 | auto with quiet]|].
  intros _ w3 ? Hr3 ->. destruct evidence as [q|].
  - eapply on_order_bind; [by apply Hr3 | apply query_ingest_on_order; exact Hr3|].
    intros res w4 r4 Hr4 (_ & Hc & Hres & Hs4).
    assert (Hset : status_in (o_status r4)
              [CREATED; RISK_ACCEPTED; SUBMITTING; CANCEL_PENDING; UNKNOWN] = false).
    { destruct Hs4 as [->|[_ Hl]]; [by destruct (o_status r) | by destruct (o_status r4)]. }
    unfold unresolved. destruct (o_cancel_call_started r && _) eqn:Hu.
    + eapply on_order_bind; [by apply Hr4 | apply get_status_on_order; exact Hr4|].
      intros status w5 ? Hr5 [-> ->]. by apply move_settles.
    + eapply on_order_ret; [exact Hr4|]. split; [done|]. rewrite Hc, Hres. intros Hc1.
      rewrite Hc1 in Hu. by apply negb_false_iff in Hu.
  - eapply on_order_bind; [by apply Hr3 | apply move_on_order; [exact Hr3 | by left]|].
    intros o w4 r4 Hr4 (Ho & Hs4 & Hc & Hres). eapply on_order_ret; [exact Hr4|].
    split.
    + rewrite Hs4. destruct (o_status r); try discriminate Hst; vm_compute in Ho;
        injection Ho as <-; done.
    + rewrite Hc, Hres. unfold unresolved. intros ->. by destruct (o_cancel_outcome_resolved r).
Qed.

(** A step of the status chain: [move] when [b], else nothing. *)
Lemma move_on_order_to k target ty ev r w :
  at_row k r w -> own_move target r -> target ∈ allowed (o_status r) -> target <> o_status r ->
  on_order k (bindM (move k target ty ev None) (fun _ => retM target)) (fun s r' =>
    s = target /\ o_status r' = target /\ o_cancel_call_started r' = o_cancel_call_started r /\
    o_cancel_outcome_resolved r' = o_cancel_outcome_resolved r) w.
Proof.
  intros Hr Hm Ha Hne.
  eapply on_order_bind; [by apply Hr | apply move_on_order; [exact Hr | done]|].
  intros o w1 r1 Hr1 (Ho & Hs1 & Hc & Hres). eapply on_order_ret; [exact Hr1|].
  repeat split; try done. rewrite Hs1. revert Ho Ha Hne. generalize (o_status r) as s.
  intros s Ho Ha Hne. apply status_in_spec in Ha.
  destruct s; try discriminate Ha; destruct target; try discriminate Ha;
    vm_compute in Ho; injection Ho as <-; done.
Qed.

Lemma oms_heartbeat_keeps : keeps oms_heartbeat.
Proof.
  unfold oms_heartbeat. apply keeps_bind; [apply keeps_quiet; auto with quiet | intros o].
  apply keeps_bind; [apply keeps_quiet; auto with quiet | intros _].
  apply keeps_bind; [apply keeps_quiet; auto with quiet | intros now].
  apply keeps_bind; [apply heartbeat_keeps | intros l].
  apply keeps_bind; [by apply keeps_set | intros _]. apply keeps_quiet; auto with quiet.
Qed.

Lemma oms_heartbeat_orders w a w' :
  oms_heartbeat w = (Ok a, w') -> d_orders (w_db w') = d_orders (w_db w).
Proof.
  unfold oms_heartbeat, bindM, read_rest, guardM, _now, clock_now, set_oms, write_rest, retM,
    raiseM. cbn. destruct (om_closed _); cbn; [done|]. destruct (is_aware _); cbn; [|done].
  destruct (heartbeat _ _ _ _) as [[l|e] w1] eqn:Eh; [|done]. intros [= _ <-].
  apply heartbeat_ok in Eh as (_ & _ & _ & _ & row & Hd & _). cbn in *. by rewrite Hd.
Qed.

(** A link of the status chain of [recover_order]: the local [status] is the
    row's, in [l], and the row is [r] but for its status. *)
Definition chain (r : order_row) (l : list OrderStatus) (s : OrderStatus) (r' : order_row) : Prop :=
  s = o_status r' /\ o_cancel_call_started r' = o_cancel_call_started r /\
  o_cancel_outcome_resolved r' = o_cancel_outcome_resolved r /\ status_in s l = true /\
  (unresolved r = false -> status_in s [CANCEL_PENDING; UNKNOWN; RECONCILING] = true).

Lemma chain_restore k r s r1 ty ev w :
  at_row k r1 w ->
  chain r [ACKNOWLEDGED; PARTIALLY_FILLED; FILLED; CANCEL_PENDING; CANCELLED; REJECTED; UNKNOWN;
           RECONCILING; MANUAL_REVIEW] s r1 ->
  on_order k
    (if unresolved r && status_in s [ACKNOWLEDGED; PARTIALLY_FILLED] then
       bindM (move k CANCEL_PENDING ty ev None) (fun _ => retM CANCEL_PENDING)
     else retM s)
    (chain r [FILLED; CANCEL_PENDING; CANCELLED; REJECTED; UNKNOWN; RECONCILING; MANUAL_REVIEW]) w.
Proof.
  intros Hr1 (-> & Hc & Hres & Hin & Hun). destruct (unresolved r && _) eqn:Et.
  - apply andb_true_iff in Et as [Eu Es]. unfold unresolved in Eu. bool_to_prop.
    eapply on_order_mono; [apply move_on_order_to; [exact Hr1 | | |]|].
    + right. left. split; [done | congruence].
    + apply status_in_spec. by destruct (o_status r1).
    + by destruct (o_status r1).
    + intros s r' (-> & Hs & ? & ?). repeat split; try done; congruence.
  - eapply on_order_ret; [exact Hr1|]. repeat split; try done.
    destruct (unresolved r); [by destruct (o_status r1)|].
    specialize (Hun eq_refl). by destruct (o_status r1).
Qed.

Lemma chain_cancel k r s r2 b msg ty ev w :
  at_row k r2 w ->
  chain r [FILLED; CANCEL_PENDING; CANCELLED; REJECTED; UNKNOWN; RECONCILING; MANUAL_REVIEW] s r2 ->
  unresolved r && status_in s [FILLED; CANCELLED; REJECTED] = false ->
  on_order k
    (if bool_decide (s = CANCEL_PENDING) then
       bindM (guardM b RecoveryInvariantViolation msg) (fun _ =>
       bindM (move k UNKNOWN ty ev None) (fun _ => retM UNKNOWN))
     else retM s)
    (chain r [UNKNOWN; RECONCILING; MANUAL_REVIEW]) w.
Proof.
  intros Hr2 (-> & Hc & Hres & Hin & Hun) Et. case_bool_decide as Hs.
  - eapply on_order_guard; [exact Hr2|]. intros _.
    eapply on_order_mono; [apply move_on_order_to; [exact Hr2 | by left | by rewrite Hs; set_solver
      | by rewrite Hs]|].
    intros s r' (-> & ? & ? & ?). repeat split; try done; congruence.
  - eapply on_order_ret; [exact Hr2|]. repeat split; try done.
    destruct (unresolved r); [by destruct (o_status r2)|].
    specialize (Hun eq_refl). by destruct (o_status r2).
Qed.

Lemma recover_order_on_order k r w :
  at_row k r w -> recovery_candidate r = true ->
  on_order k (recover_order (k, r)) (fun _ r' => settled r') w.
Proof.
  intros Hr Hcand. unfold recover_order. fold (unresolved r).
  eapply on_order_bind; [by apply Hr | apply (on_order_keeps k _ r); [exact Hr
    | apply oms_heartbeat_keeps | intros; by eapply oms_heartbeat_orders]|].
  intros _ w1 ? Hr1 ->. cbv zeta.
  assert (Hok : exists q, order_ok q r).
  { destruct Hr as (_ & [Ho _] & Hg). destruct (inv_rows _ Ho _ _ Hg) as (i & _ & ?). eauto. }
  destruct Hok as [q Hok].
  assert (Hpre : o_cancel_call_started r = true ->
    status_in (o_status r) [CREATED; RISK_ACCEPTED; RISK_REJECTED; ABORTED; SUBMITTING] = false)
    by apply Hok.
  destruct (status_in (o_status r) [CREATED; RISK_ACCEPTED]) eqn:Es1.
  { eapply on_order_guard; [exact Hr1|]. intros Hg.
    eapply on_order_bind; [by apply Hr1 | apply move_on_order; [exact Hr1 | by left]|].
    intros o w2 r2 Hr2 (Ho & Hs2 & Hc & Hres). eapply on_order_ret; [exact Hr2|].
    rewrite !negb_orb in Hg. bool_to_prop. split; [|congruence].
    rewrite Hs2. destruct (o_status r); try discriminate Es1; vm_compute in Ho;
      injection Ho as <-; done. }
  eapply on_order_bind with (P := chain r [ACKNOWLEDGED; PARTIALLY_FILLED; FILLED;
    CANCEL_PENDING; CANCELLED; REJECTED; UNKNOWN; RECONCILING; MANUAL_REVIEW]);
    [by apply Hr1 | |].
  { case_bool_decide as Hst.
    - eapply on_order_guard; [exact Hr1|]. intros Hg.
      eapply on_order_mono; [apply move_on_order_to; [exact Hr1 | by left | by rewrite Hst; set_solver
        | by rewrite Hst]|].
      intros s r' (-> & Hs & ? & ?). by repeat split.
    - eapply on_order_ret; [exact Hr1|]. unfold recovery_candidate in Hcand.
      fold (unresolved r) in Hcand. repeat split; revert Es1 Hpre Hcand; unfold unresolved;
        destruct (o_status r), (o_cancel_call_started r), (o_cancel_outcome_resolved r);
        red_status; intros; try done; try (by specialize (Hpre eq_refl)). }
  intros s1 w2 r1 Hr2 H1.
  eapply on_order_bind with (P := chain r [FILLED; CANCEL_PENDING; CANCELLED; REJECTED; UNKNOWN;
    RECONCILING; MANUAL_REVIEW]); [by apply Hr2
    | eapply chain_restore; [exact Hr2 | exact H1]|].
  intros s2 w3 r2 Hr3 H2.
  destruct (unresolved r && status_in s2 [FILLED; CANCELLED; REJECTED]) eqn:Et.
  { destruct H2 as (-> & _). apply move_settles; [exact Hr3|].
    bool_to_prop. by destruct (o_status r2). }
  eapply on_order_bind with (P := chain r [UNKNOWN; RECONCILING; MANUAL_REVIEW]);
    [by apply Hr3 | eapply chain_cancel; [exact Hr3 | exact H2 | exact Et]|].
  intros s3 w4 r3 Hr4 H3.
  eapply on_order_bind with (P := fun _ r4 => unresolved r4 = unresolved r /\
    status_in (o_status r4) [RECONCILING; MANUAL_REVIEW] = true); [by apply Hr4 | |].
  { destruct H3 as (-> & Hc & Hres & Hin & _). case_bool_decide as Hu.
    - eapply on_order_bind; [by apply Hr4 | apply move_on_order; [exact Hr4 | by left]|].
      intros o w5 r5 Hr5 (Ho & Hs & Hc5 & Hres5). eapply on_order_ret; [exact Hr5|].
      rewrite Hu in *. vm_compute in Ho. injection Ho as <-.
      unfold unresolved. rewrite Hs, Hc5, Hres5, Hc, Hres. done.
    - eapply on_order_ret; [exact Hr4|]. unfold unresolved. rewrite Hc, Hres. split; [done|].
      by destruct (o_status r3). }
  intros _ w5 r4 Hr5 [<- Hin]. by apply recover_query_on_order.
Qed.

Definition all_settled (d : db) : Prop :=
  forall k r, tbl_get (d_orders d) k = Some r -> settled r.

(** The rows still to do are current, and every other row is settled. *)
Definition pending (l : list (okey * order_row)) (d : db) : Prop :=
  NoDup l.*1 /\
  (forall p, p ∈ l -> tbl_get (d_orders d) p.1 = Some p.2 /\ recovery_candidate p.2 = true) /\
  (forall k r, tbl_get (d_orders d) k = Some r -> settled r \/ k ∈ l.*1).

Lemma pending_candidates d : store_inv d -> pending (candidates_of d) d.
Proof.
  intros [[Hi Ho Hr Hl] _]. unfold candidates_of. split_and!.
  - assert (Hn : NoDup (tbl_scan (d_orders d)).*1) by (rewrite tbl_scan_keys by done; apply Ho).
    revert Hn. induction (tbl_scan (d_orders d)) as [|p l IH]; [constructor|].
    simpl. rewrite NoDup_cons. intros [Hp Hn]. destruct (recovery_candidate p.2); [|by apply IH].
    simpl. apply NoDup_cons. split; [|by apply IH]. intros (q & Hq & Hin)%list_elem_of_fmap.
    apply Hp, list_elem_of_fmap. exists q. split; [done|].
    by apply list_elem_of_In, filter_In in Hin as [?%list_elem_of_In _].
  - intros [k r] [Hin Hc]%list_elem_of_In%filter_In. apply list_elem_of_In, tbl_scan_elem in Hin; done.
  - intros k r Hg. destruct (settled_or r) as [|Hc]; [by left|]. right.
    apply list_elem_of_fmap. exists (k, r). split; [done|].
    apply list_elem_of_In, filter_In. split; [|done]. by apply list_elem_of_In, tbl_scan_elem.
Qed.

Lemma pending_step k r l d d' :
  pending ((k, r) :: l) d -> only k d d' ->
  (exists r', tbl_get (d_orders d') k = Some r' /\ settled r') -> pending l d'.
Proof.
  intros (Hn & Hl & Hs) Ho (r' & Hr' & Hset). apply NoDup_cons in Hn as [Hk Hn].
  split; [exact Hn|]. split.
  - intros p Hp. rewrite Ho; [apply Hl; set_solver|]. intros <-. apply Hk.
    apply list_elem_of_fmap. by exists p.
  - intros k' x Hx. destruct (decide (k' = k)) as [->|Hne]; [simplify_eq; by left|].
    rewrite Ho in Hx by done. destruct (Hs k' x Hx) as [|Hin]; [by left|]. right. set_solver.
Qed.

Lemma recover_loop l w :
  w_in_tx w = false -> store_inv (w_db w) -> pending l (w_db w) ->
  wp (iterM recover_order l) (fun res w' => w_in_tx w' = false /\ sys_le w w' /\
    match res with Ok _ => all_settled (w_db w') | Err _ => True end) w.
Proof.
  revert w. induction l as [|[k r] l IH]; intros w Ht Hs Hp.
  - split; [done|]. split; [reflexivity|]. intros k r Hr. destruct Hp as (_ & _ & Hp).
    destruct (Hp k r Hr) as [|Hin]; [done | set_solver].
  - simpl. apply wp_bind. pose proof Hp as (_ & Hl & _).
    destruct (Hl (k, r)) as [Hg Hc]; [set_solver|].
    eapply wp_mono; [apply (recover_order_on_order k r w); [by split; [|split] | done]|].
    intros [[]|e] w1 (Ht1 & Hle & H1); [|done]. destruct H1 as [Ho Hr1].
    eapply wp_mono; [apply IH; [done | by apply Hle | by eapply pending_step]|].
    intros res w2 (Ht2 & Hle2 & H2). split; [done|]. split; [by etransitivity | done].
Qed.

(** After the loop: the heartbeat, the session row, the flag. *)
Lemma mark_session_orders sid w a w' :
  w_in_tx w = false -> mark_session_reconciled (oms_guard (D := D)) sid w = (Ok a, w') ->
  d_orders (w_db w') = d_orders (w_db w).
Proof.
  intros Hw Hm.
  assert (H : tx_ok (mark_session_reconciled oms_guard sid)
                (fun _ d' => d_orders d' = d_orders (w_db w)) w).
  { apply tx_ok_intro; [done|]. intros w1 <- _ _.
    apply in_tx_ok_quiet; [apply guard_write_quiet, oms_guard_quiet|]. intros _ w2 <- _.
    unfold in_tx_ok, frame. by repeat wp_step. }
  unfold tx_ok, wp in H. rewrite Hm in H. by destruct H as [_ H].
Qed.

Lemma recover_ok w :
  w_in_tx w = false -> store_inv (w_db w) ->
  wp recover (fun res w' => w_in_tx w' = false /\ sys_le w w' /\
    match res with
    | Ok _ => all_settled (w_db w') /\ om_reconciled (w_rest w').1 = true
    | Err _ => True
    end) w.
Proof.
  intros Ht Hs. unfold recover. apply wp_quiet_bind; [apply assert_leader_quiet | |].
  2: { intros e w' Hd [Ht' Hr]. split; [congruence|]. split; [|done].
       split; [by rewrite Hd | by rewrite Hr]. }
  intros _ w1 Hd1 [Ht1 Hr1]. unfold list_recovery_candidates. do 2 wp_step.
  assert (Hle1 : sys_le w w1) by (split; [by rewrite Hd1 | by rewrite Hr1]).
  apply wp_bind. rewrite Hd1. eapply wp_mono; [apply recover_loop|].
  { congruence. } { by apply Hle1. } { rewrite Hd1. by apply pending_candidates. }
  intros [[]|e] w2 (Ht2 & Hle2 & Hset); [|split; [done|]; split; [by etransitivity|done]].
  apply wp_bind. unfold wp at 1. pose proof (oms_heartbeat_orders w2) as Ho3.
  destruct (oms_heartbeat_keeps w2 Ht2) as [Ht3 Hle3]; [by apply Hle2, Hle1|].
  destruct (oms_heartbeat w2) as [[l|e] w3]; cbn [fst snd] in *;
    [|split; [done|]; split; [by do 2 (etransitivity; [eassumption|])|done]].
  specialize (Ho3 l w3 eq_refl). apply wp_bind. do 2 wp_step.
  assert (Hle : sys_le w w3) by (do 2 (etransitivity; [eassumption|]); done).
  set (sid := om_session_id _).
  pose proof (mark_session_orders sid w3) as Ho4.
  destruct (mark_session_keeps sid w3 Ht3) as [Ht4 Hle4]; [by apply Hle|].
  unfold wp at 1. destruct (mark_session_reconciled oms_guard sid w3) as [[[]|e] w4]; cbn [fst snd] in *;
    [|split; [done|]; split; [by etransitivity|done]].
  specialize (Ho4 tt w4 Ht3 eq_refl).
  apply wp_quiet_bind; [apply assert_leader_quiet | |].
  - intros _ w5 Hd5 [Ht5 Hr5]. unfold set_oms, wp, write_rest. cbn.
    split; [congruence|]. split; [|split; [|done]].
    + transitivity w3; [done|]. transitivity w4; [done|].
      split; cbn; [by rewrite Hd5 | by rewrite Hr5].
    + unfold all_settled. rewrite Hd5, Ho4, Ho3. exact Hset.
  - intros e w5 Hd5 [Ht5 Hr5]. split; [congruence|]. split; [|done].
    transitivity w3; [done|]. transitivity w4; [done|]. split; [by rewrite Hd5 | by rewrite Hr5].
Qed.

(** ** One submit and one cancel per order *)

Definition b2z (b : bool) : Z := if b then 1 else 0.

(** The broker has seen no call that the order's row does not account for. *)
Definition counts_ok w : Prop :=
  forall k,
    submits k (w_rest w).2 <=
      match tbl_get (d_orders (w_db w)) k with
      | Some r => b2z (o_submit_call_started r)
      | None => 0
      end /\
    cancels k (w_rest w).2 <=
      match tbl_get (d_orders (w_db w)) k with
      | Some r => b2z (o_cancel_call_started r)
      | None => 0
      end.

Definition good w : Prop := w_in_tx w = false /\ store_inv (w_db w) /\ counts_ok w.

Lemma sys_le_counts w w' : store_inv (w_db w) -> sys_le w w' -> counts_ok w -> counts_ok w'.
Proof.
  intros Hs [Hle Hc] Hk k. destruct (Hc k) as [-> ->], (Hk k) as [Hsub Hcan].
  assert (Hz : forall a b : bool, (a = true -> b = true) -> b2z a <= b2z b)
    by (intros [] [] Hab; cbn; (lia || by specialize (Hab eq_refl))).
  assert (Hp : forall b, 0 <= b2z b) by (intros []; cbn; lia).
  destruct (tbl_get (d_orders (w_db w)) k) as [r|] eqn:Hr.
  - destruct (le_rows _ _ Hle Hs k r Hr) as (r' & -> & _ & _ & Hs' & Hc').
    apply Hz in Hs', Hc'. lia.
  - destruct (tbl_get (d_orders (w_db w')) k) as [r'|]; [|done].
    pose proof (Hp (o_submit_call_started r')). pose proof (Hp (o_cancel_call_started r')). lia.
Qed.

(** From good worlds in [P], [m] ends in good later worlds, in [Q] when it
    returns. *)
Definition safe {A} (P : world R -> Prop) (m : M R A) (Q : A -> world R -> Prop) : Prop :=
  forall w, good w -> P w ->
    wp m (fun res w' => good w' /\ db_le (w_db w) (w_db w') /\
                        match res with Ok a => Q a w' | Err _ => True end) w.

Lemma keeps_good {A} (m : M R A) w : keeps m -> good w -> good (m w).2 /\ sys_le w (m w).2.
Proof.
  intros Hm (Ht & Hs & Hc). destruct (Hm w Ht Hs) as [Ht' Hle]. split; [|done].
  split; [done|]. split; [by apply Hle | by eapply sys_le_counts].
Qed.

Lemma safe_keeps {A} P (m : M R A) : keeps m -> safe P m (fun _ _ => True).
Proof.
  intros Hm w Hg _. destruct (keeps_good m w Hm Hg) as [Hg' [Hle _]]. unfold wp.
  split; [done|]. split; [done|]. by destruct (m w).1.
Qed.

Lemma safe_quiet {A} P (m : M R A) :
  quiet m -> (forall w w', w_db w' = w_db w -> w_rest w' = w_rest w -> P w -> P w') ->
  safe P m (fun _ => P).
Proof.
  intros Hm HP w Hg Hw. destruct (keeps_good m w (keeps_quiet m Hm) Hg) as [Hg' [Hle _]].
  destruct (Hm w) as [Hd [_ Hr]]. unfold wp. split; [done|]. split; [done|].
  destruct (m w).1; [by eapply HP | done].
Qed.

Lemma safe_bind {A B} P (m : M R A) (f : A -> M R B) Q Q' :
  safe P m Q -> (forall a, safe (Q a) (f a) Q') -> safe P (bindM m f) Q'.
Proof.
  intros Hm Hf w Hg HP. apply wp_bind. eapply wp_mono; [by apply Hm|].
  intros [a|e] w1 (Hg1 & Hle & HQ); [|done]. eapply wp_mono; [by apply (Hf a w1)|].
  intros res w2 (Hg2 & Hle2 & H2). split; [done|]. split; [by etransitivity | done].
Qed.

Lemma safe_mono {A} (P P' : world R -> Prop) (m : M R A) (Q Q' : A -> world R -> Prop) :
  (forall w, P' w -> P w) -> (forall a w, Q a w -> Q' a w) -> safe P m Q -> safe P' m Q'.
Proof.
  intros HP HQ Hm w Hg HP'. eapply wp_mono; [apply Hm; auto|].
  intros [a|e] w' (? & ? & ?); auto.
Qed.

(** The order's row has the reservation, and the call has not been made. *)
Definition submit_reserved k w : Prop :=
  submits k (w_rest w).2 <= 0 /\
  exists r, tbl_get (d_orders (w_db w)) k = Some r /\ o_submit_call_started r = true.

Definition cancel_reserved k w : Prop :=
  cancels k (w_rest w).2 <= 0 /\
  exists r, tbl_get (d_orders (w_db w)) k = Some r /\ o_cancel_call_started r = true.

Lemma prepare_submit_safe k :
  safe (fun _ => True) (prepare_submit oms_guard k) (fun _ => submit_reserved k).
Proof.
  intros w Hg _. destruct (keeps_good _ w (prepare_submit_keeps k) Hg) as [Hg' [Hle Hc]].
  destruct Hg as (Ht & Hs & Hk).
  pose proof (prepare_submit_ok oms_guard oms_guard_quiet k w Ht) as H. unfold tx_ok, wp in *.
  split; [done|]. split; [done|]. destruct (prepare_submit oms_guard k w) as [[a|e] w1]; [|done].
  cbn [fst snd] in *. destruct H as [_ (q & r & r' & Hw & Hst & Hsub & t & ->)].
  destruct (wrote_row _ _ _ _ _ _ Hw) as [Hr Hr'].
  split; [|by eexists]. rewrite (proj1 (Hc k)). specialize (Hk k). rewrite Hr, Hsub in Hk. apply Hk.
Qed.

Lemma prepare_cancel_safe k :
  safe (fun _ => True) (prepare_cancel oms_guard k) (fun _ => cancel_reserved k).
Proof.
  intros w Hg _. destruct (keeps_good _ w (prepare_cancel_keeps k) Hg) as [Hg' [Hle Hc]].
  destruct Hg as (Ht & Hs & Hk).
  pose proof (prepare_cancel_ok oms_guard oms_guard_quiet k w Ht) as H. unfold tx_ok, wp in *.
  split; [done|]. split; [done|]. destruct (prepare_cancel oms_guard k w) as [[a|e] w1]; [|done].
  cbn [fst snd] in *. destruct H as [_ (q & r & r' & Hw & Hst & Hcan & t & ->)].
  destruct (wrote_row _ _ _ _ _ _ Hw) as [Hr Hr'].
  split; [|by eexists]. rewrite (proj2 (Hc k)). specialize (Hk k). rewrite Hr, Hcan in Hk. apply Hk.
Qed.

Lemma call_submit_safe i :
  safe (submit_reserved (oi_key i)) (call (submit_limit_order i)) (fun _ _ => True).
Proof.
  intros w (Ht & Hs & Hk) (Hn & r & Hr & Hst). unfold wp, call.
  pose proof (fun k => submits_submit k i (w_rest w).2) as H1.
  pose proof (fun k => cancels_submit k i (w_rest w).2) as H2.
  destruct (submit_limit_order i (w_rest w).2) as [res x]. cbn [fst snd w_db w_rest w_in_tx] in *.
  split; [|split; [reflexivity | by destruct res]]. split; [done|]. split; [done|]. intros k.
  cbn. rewrite H1, H2. destruct (Hk k) as [Hsub Hcan]. case_decide as Hd; [|split; lia].
  subst k. rewrite Hr, Hst in *. cbn in *. split; lia.
Qed.

Lemma call_cancel_safe k :
  safe (cancel_reserved k) (call (driver_cancel_order k)) (fun _ _ => True).
Proof.
  intros w (Ht & Hs & Hk) (Hn & r & Hr & Hst). unfold wp, call.
  pose proof (fun k' => submits_cancel k' k (w_rest w).2) as H1.
  pose proof (fun k' => cancels_cancel k' k (w_rest w).2) as H2.
  destruct (driver_cancel_order k (w_rest w).2) as [res x]. cbn [fst snd w_db w_rest w_in_tx] in *.
  split; [|split; [reflexivity | by destruct res]]. split; [done|]. split; [done|]. intros k'.
  cbn. rewrite H1, H2. destruct (Hk k') as [Hsub Hcan]. case_decide as Hd; [|split; lia].
  subst k'. rewrite Hr, Hst in *. cbn in *. split; lia.
Qed.

Lemma safe_try {A} P (m : M R A) h Q :
  safe P m Q -> (forall e, safe (fun _ => True) (h e) Q) -> safe P (tryM m h) Q.
Proof.
  intros Hm Hh w Hg HP. apply wp_try. eapply wp_mono; [by apply Hm|].
  intros [a|e] w1 (Hg1 & Hle & HQ); [done|]. eapply wp_mono; [by apply (Hh e w1)|].
  intros res w2 (Hg2 & Hle2 & H2). split; [done|]. split; [by etransitivity | done].
Qed.

Abbreviation safe_op m := (safe (fun _ => True) m (fun _ _ => True)).

Hint Resolve quiet_ret quiet_raise quiet_reraise quiet_guard quiet_read quiet_read_rest
  quiet_lift now_quiet assert_leader_quiet : quiet.

(** Sequences of steps that make no call. *)
Ltac keep :=
  repeat first
    [ solve [apply keeps_quiet; auto with quiet]
    | apply acquire_keeps | apply release_keeps | apply start_session_keeps
    | apply mark_session_keeps | apply oms_heartbeat_keeps | apply create_keeps
    | apply record_keeps | apply call_query_keeps | apply query_ingest_keeps
    | (apply move_keeps; reflexivity)
    | (apply keeps_set; intros ?; reflexivity)
    | apply keeps_bind; [|intros ?]
    | case_match ].

Lemma submit_side_effect_safe i :
  safe (submit_reserved (oi_key i)) (submit_side_effect i) (fun _ _ => True).
Proof.
  apply safe_try.
  - eapply safe_bind; [apply call_submit_safe|]. intros []. apply safe_keeps. keep.
  - intros e. apply safe_keeps. keep.
Qed.

Lemma cancel_side_effect_safe k :
  safe (cancel_reserved k) (cancel_side_effect k) (fun _ _ => True).
Proof.
  apply safe_try.
  - eapply safe_bind; [apply call_cancel_safe|]. intros []. apply safe_keeps. keep.
  - intros e. apply safe_keeps. keep.
Qed.

Lemma submit_query_keeps i (re : option E) : keeps (submit_query i re).
Proof. unfold submit_query. keep. Qed.

Lemma submit_decided_safe i decision (re : option E) : safe_op (submit_decided_intent i decision re).
Proof.
  unfold submit_decided_intent.
  do 4 (eapply safe_bind; [apply safe_keeps; keep | intros ?]).
  eapply safe_bind; [apply safe_keeps; keep | intros status].
  case_bool_decide; [apply safe_keeps; keep|].
  eapply safe_bind; [apply prepare_submit_safe | intros []].
  eapply safe_bind; [apply safe_quiet; [apply assert_leader_quiet|] | intros []].
  { intros w w' Hd Hr [Hn Hrow]. unfold submit_reserved. by rewrite Hd, Hr. }
  eapply safe_bind; [apply submit_side_effect_safe | intros [st|]].
  - apply safe_keeps. keep.
  - apply safe_keeps, submit_query_keeps.
Qed.

Lemma submit_intent_safe i decision : safe_op (submit_intent (E := E) i decision).
Proof.
  unfold submit_intent. eapply safe_bind; [apply safe_keeps | intros d; apply submit_decided_safe].
  keep.
Qed.

Lemma query_ingest_found k q reason w res w' :
  w_in_tx w = false -> ingest_active_query_evidence k q reason w = (Ok res, w') ->
  is_Some (tbl_get (d_orders (w_db w)) k).
Proof.
  unfold ingest_active_query_evidence. intros Hw.
  destruct (query_evidence_type _) as [ty|]; [|done]. unfold bindM at 1.
  destruct (now_quiet w) as [Hd1 [Ht1 _]].
  destruct (_now w) as [[now|e] w1]; [|done]. cbn [fst snd] in *. unfold bindM, read_rest, lift.
  destruct (build _) as [e|] eqn:Eb; [|done]. intros Hi.
  assert (Hk : k = ev_key e)
    by (unfold build in Eb; apply res_bind_ok in Eb as (? & _ & [= <-]); by destruct k).
  pose proof (ingest_refines assert_leader assert_leader_quiet assert_leader_errors e w1) as H.
  unfold wp in H. rewrite Hi, Hd1 in H. cbn [fst snd] in H.
  destruct H as [_ H]; [congruence|]. rewrite Hk.
  inversion H as [row disp r0 _ _ _ Hr0| |r0 d1 Hr0|o d1 d2 Hm| |]; subst; [by eexists..|].
  destruct Hm as (q' & r1 & r' & Hwr & _). destruct (wrote_row _ _ _ _ _ _ Hwr). by eexists.
Qed.

(** [cancel_order] closes with a move to the status the evidence left. *)
Lemma cancel_resolve_keeps k q ty (f : EvidenceIngestResult -> CancelResult) :
  keeps (bindM (ingest_active_query_evidence k q "post-cancel") (fun applied =>
         bindM (move k (ir_status applied) ty [] (Some true)) (fun _ => retM (f applied)))).
Proof.
  intros w Hw Hs. destruct (query_ingest_keeps k q "post-cancel" w Hw Hs) as [Ht Hle].
  pose proof (query_ingest_found k q "post-cancel" w) as Hf.
  unfold bindM.
  destruct (tbl_get (d_orders (w_db w)) k) as [r|] eqn:Hr.
  - pose proof (query_ingest_on_order k q "post-cancel" r w) as Hon.
    unfold on_order, wp in Hon.
    destruct (ingest_active_query_evidence _ _ _ w) as [[res|e] w1]; [|by split]. cbn [fst snd] in *.
    destruct Hon as (_ & _ & _ & r1 & Hr1 & Hst & _); [by split; [|split]|].
    destruct (move_keeps_row k (ir_status res) ty [] (Some true) w1) as [Ht2 Hle2];
      [done | by apply Hle | intros r2 Hr2; simplify_eq; by right; right |].
    destruct (move _ _ _ _ _ w1) as [[o|e] w2]; cbn [fst snd retM] in *;
      (split; [done | by etransitivity]).
  - destruct (ingest_active_query_evidence _ _ _ w) as [[res|e] w1]; [|by split].
    by destruct (Hf res w1 Hw eq_refl).
Qed.

Lemma cancel_query_keeps k : keeps (cancel_query k).
Proof.
  unfold cancel_query. do 6 (apply keeps_bind; [solve [keep] | intros ?]).
  case_match; [apply cancel_resolve_keeps | keep].
Qed.

Lemma cancel_order_safe k : safe_op (cancel_order k).
Proof.
  unfold cancel_order.
  do 3 (eapply safe_bind; [apply safe_keeps; keep | intros ?]).
  eapply safe_bind; [apply prepare_cancel_safe | intros []].
  eapply safe_bind; [apply safe_quiet; [apply assert_leader_quiet|] | intros []].
  { intros w w' Hd Hr [Hn Hrow]. unfold cancel_reserved. by rewrite Hd, Hr. }
  eapply safe_bind; [apply cancel_side_effect_safe | intros [st|]].
  - apply safe_keeps. keep.
  - apply safe_keeps, cancel_query_keeps.
Qed.

Lemma recover_keeps : keeps recover.
Proof. intros w Hw Hs. destruct (recover_ok w Hw Hs) as (Ht & Hle & _). by split. Qed.

Lemma init_keeps secs : keeps (OfflineOms_init secs).
Proof.
  unfold OfflineOms_init. do 5 (apply keeps_bind; [solve [keep] | intros ?]).
  apply keeps_try; intros; keep.
Qed.

Lemma close_keeps : keeps close.
Proof. unfold close. keep. Qed.
End Ops.

#[export] Hint Resolve now_quiet assert_leader_quiet : quiet.

(** ** The system: one store, one broker, any number of sessions *)

Inductive request :=
  | ReqOpen (leader_lease_seconds : Z)
  | ReqHeartbeat
  | ReqRecover
  | ReqSubmit (intent : OrderIntent) (decision : option RiskDecision)
  | ReqCancel (k : okey)
  | ReqIngest (e : BrokerEvidenceV1)
  | ReqClose.

(** The evidence handed in was validated. *)
Definition request_ok (q : request) : Prop :=
  match q with ReqIngest e => evidence_ok e | _ => True end.

Open Scope oms_scope.

(** A public operation, its result dropped. *)
Definition serve {D} {driver : ExecutionDriver D} {env : Env} (q : request) : M (oms * D) unit :=
  match q with
  | ReqOpen secs => OfflineOms_init secs
  | ReqHeartbeat => do! oms_heartbeat ;; retM tt
  | ReqRecover => recover
  | ReqSubmit i d => do! submit_intent (E := unit) i d ;; retM tt
  | ReqCancel k => do! cancel_order k ;; retM tt
  | ReqIngest e => do! ingest_broker_evidence e ;; retM tt
  | ReqClose => close
  end.

Section System.
Context {D : Type} {driver : ExecutionDriver D} {counting : CountingDriver D} {env : Env}.
Abbreviation R := (oms * D)%type.
Implicit Types (w : world R) (k : okey).

Lemma serve_safe q :
  request_ok q -> safe (D := D) (fun _ => True) (serve q) (fun _ _ => True).
Proof.
  intros Hq. destruct q; cbn [serve].
  - apply safe_keeps, init_keeps.
  - eapply safe_bind; [apply safe_keeps, oms_heartbeat_keeps | intros ?].
    apply safe_keeps, keeps_quiet; auto with quiet.
  - apply safe_keeps, recover_keeps.
  - eapply safe_bind; [apply submit_intent_safe | intros ?].
    apply safe_keeps, keeps_quiet; auto with quiet.
  - eapply safe_bind; [apply cancel_order_safe | intros ?].
    apply safe_keeps, keeps_quiet; auto with quiet.
  - eapply safe_bind; [by apply safe_keeps, ingest_keeps | intros ?].
    apply safe_keeps, keeps_quiet; auto with quiet.
  - apply safe_keeps, close_keeps.
Qed.

(** A step: some session (of any instance state, at any tick) serves a
    request to its end - a result, an exception, or a crash, which is an
    exception nobody catches - or the broker moves on its own. *)
Inductive sys_step : db * D -> db * D -> Prop :=
  | step_serve d x q o n res w' :
      request_ok q -> serve q (W d false n (o, x)) = (res, w') ->
      sys_step (d, x) (w_db w', (w_rest w').2)
  | step_broker d x x' :
      same_calls x x' -> sys_step (d, x) (d, x').

Definition sys_good (s : db * D) : Prop :=
  store_inv s.1 /\ forall k,
    submits k s.2 <=
      match tbl_get (d_orders s.1) k with Some r => b2z (o_submit_call_started r) | None => 0 end /\
    cancels k s.2 <=
      match tbl_get (d_orders s.1) k with Some r => b2z (o_cancel_call_started r) | None => 0 end.

Lemma sys_step_good s s' : sys_step s s' -> sys_good s -> sys_good s' /\ db_le s.1 s'.1.
Proof.
  intros Hs [Hinv Hc]. destruct Hs as [d x q o n res w' Hq Hr|d x x' Hx].
  - assert (Hg : good (W d false n (o, x))) by (split; [done|]; by split).
    destruct (serve_safe q Hq _ Hg I) as ((_ & Hinv' & Hc') & Hle & _).
    rewrite Hr in *. by split; [split|].
  - split; [|reflexivity]. split; [done|]. intros k. cbn in *. destruct (Hx k) as [-> ->].
    apply Hc.
Qed.

Lemma sys_reach_good s s' :
  rtc sys_step s s' -> sys_good s -> sys_good s' /\ db_le s.1 s'.1.
Proof.
  intros Hr. induction Hr as [s|s1 s2 s3 H12 _ IH]; intros Hg; [by split; [|reflexivity]|].
  destruct (sys_step_good _ _ H12 Hg) as [Hg2 Hle].
  destruct (IH Hg2) as [Hg3 Hle2]. split; [done | by etransitivity].
Qed.

(** C5. At most one submit and one cancel per order.  From an empty store and a
    broker that has seen nothing, through any sequence of sessions opening,
    recovering, submitting, cancelling, ingesting evidence and closing, with
    driver failures and crashes anywhere, the broker receives at most one
    submit and one cancel of each order, and only of an order whose row holds
    the durable reservation of that call. *)
Theorem at_most_once x0 d x k :
  (forall k, submits k x0 = 0 /\ cancels k x0 = 0) ->
  rtc sys_step (empty_db, x0) (d, x) ->
  submits k x <= 1 /\ cancels k x <= 1 /\
  (0 < submits k x -> exists r, tbl_get (d_orders d) k = Some r /\
                                o_submit_call_started r = true) /\
  (0 < cancels k x -> exists r, tbl_get (d_orders d) k = Some r /\
                                o_cancel_call_started r = true).
Proof.
  intros H0 Hr. destruct (sys_reach_good _ _ Hr) as [[_ Hc] _].
  { split; [split; [apply orders_inv_empty | apply evidence_inv_empty]|]. intros k'. cbn.
    unfold tbl_get. cbn. rewrite lookup_empty. destruct (H0 k') as [-> ->]. by split. }
  destruct (Hc k) as [Hs Hn]. cbn in Hs, Hn. destruct (tbl_get (d_orders d) k) as [r|] eqn:Hr0.
  - destruct (o_submit_call_started r) eqn:E1, (o_cancel_call_started r) eqn:E2; cbn in *;
      repeat split; try lia; intros; try lia; by exists r.
  - repeat split; intros; lia.
Qed.

(** C6. The store survives everything.  Along the same sequences every
    reachable store satisfies the order and journal invariants, and between
    any two reachable states no order, intent or evidence key disappears, no
    fill shrinks, no broker id changes, no reservation is taken back, and the
    event log and the observation log are only appended to. *)
Theorem store_forever x0 s1 s2 :
  (forall k, submits k x0 = 0 /\ cancels k x0 = 0) ->
  rtc sys_step (empty_db, x0) s1 -> rtc sys_step s1 s2 ->
  store_inv s1.1 /\ store_inv s2.1 /\ db_le s1.1 s2.1.
Proof.
  intros H0 Hr Hr2. destruct (sys_reach_good _ _ Hr) as [Hg _].
  { split; [split; [apply orders_inv_empty | apply evidence_inv_empty]|]. intros k'. cbn.
    unfold tbl_get. cbn. rewrite lookup_empty. destruct (H0 k') as [-> ->]. by split. }
  destruct (sys_reach_good _ _ Hr2 Hg) as [[Hinv2 _] Hle]. by split; [apply Hg|].
Qed.

(** C11. Recovery resolves.  When [recover] returns, the session is reconciled
    and no order is left before its side effect, in SUBMITTING, CANCEL_PENDING
    or UNKNOWN, or with a cancel whose outcome is unresolved. *)
Theorem recover_settles w :
  w_in_tx w = false -> store_inv (w_db w) -> (recover w).1 = Ok tt ->
  all_settled (w_db (recover w).2) /\ om_reconciled (w_rest (recover w).2).1 = true /\
  store_inv (w_db (recover w).2) /\ same_calls (w_rest w).2 (w_rest (recover w).2).2.
Proof.
  intros Ht Hs Hr. destruct (recover_ok w Ht Hs) as (_ & [Hle Hc] & H).
  rewrite Hr in H. destruct H as [Hset Hrec]. split; [done|]. split; [done|].
  split; [by apply Hle | done].
Qed.

(** ** The fence *)















End System.

(** ** An accepted call is not an acknowledgement *)

Section Silent.
Context {D : Type} {driver : ExecutionDriver D} {env : Env}.
Abbreviation R := (oms * D)%type.
Implicit Types (w : world R) (k : okey).

(** The broker's queries answer nothing. *)
Hypothesis silent : forall k x q, (query_by_client_order_id k x).1 <> Ok (Some q).

(** No order entered a broker lifecycle status. *)
Definition no_ack (d d' : db) : Prop :=
  forall k r', tbl_get (d_orders d') k = Some r' ->
    status_in (o_status r') lifecycle_statuses = true ->
    exists r, tbl_get (d_orders d) k = Some r /\ o_status r = o_status r'.

#[local] Instance no_ack_preorder : PreOrder no_ack.
Proof.
  split; [intros d k r' Hr' _; by exists r'|]. intros d1 d2 d3 H12 H23 k r3 Hr3 Hl.
  destruct (H23 k r3 Hr3 Hl) as (r2 & Hr2 & H2). rewrite <- H2 in Hl.
  destruct (H12 k r2 Hr2 Hl) as (r1 & Hr1 & H1). exists r1. split; congruence.
Qed.

(** [m] acknowledges nothing, and returns only values in [Q]. *)
Definition mute {A} (m : M R A) (Q : A -> Prop) : Prop :=
  forall w, w_in_tx w = false ->
    wp m (fun res w' => w_in_tx w' = false /\ no_ack (w_db w) (w_db w') /\
                        match res with Ok a => Q a | Err _ => True end) w.

Lemma mute_bind {A B} (m : M R A) (f : A -> M R B) P Q :
  mute m P -> (forall a, P a -> mute (f a) Q) -> mute (bindM m f) Q.
Proof.
  intros Hm Hf w Hw. apply wp_bind. eapply wp_mono; [by apply Hm|].
  intros [a|e] w1 (Ht & Hn & HP); [|done]. eapply wp_mono; [by apply (Hf a HP w1)|].
  intros res w2 (Ht2 & Hn2 & H2). split; [done|]. split; [by etransitivity | done].
Qed.

Lemma mute_try {A} (m : M R A) h Q :
  mute m Q -> (forall e, mute (h e) Q) -> mute (tryM m h) Q.
Proof.
  intros Hm Hh w Hw. apply wp_try. eapply wp_mono; [by apply Hm|].
  intros [a|e] w1 (Ht & Hn & HP); [done|]. eapply wp_mono; [by apply (Hh e w1)|].
  intros res w2 (Ht2 & Hn2 & H2). split; [done|]. split; [by etransitivity | done].
Qed.

Lemma mute_quiet {A} (m : M R A) : quiet m -> mute m (fun _ => True).
Proof.
  intros Hm w Hw. eapply wp_mono; [apply Hm|]. intros res w' [Hd [Ht _]].
  split; [congruence|]. split; [by rewrite Hd | by destruct res].
Qed.

Lemma mute_ret {A} (a : A) (Q : A -> Prop) : Q a -> mute (retM a) Q.
Proof. intros HQ w Hw. by repeat split. Qed.

Lemma mute_tx {A} (m : M R A) (P : db -> A -> db -> Prop) (Q : A -> Prop) :
  (forall w, w_in_tx w = false -> tx_ok m (P (w_db w)) w) ->
  (forall d a d', P d a d' -> no_ack d d' /\ Q a) -> mute m Q.
Proof.
  intros Hm HP w Hw. eapply wp_mono; [by apply Hm|]. intros [a|e] w' [[Ht _] H].
  - destruct (HP _ _ _ H). split; [congruence | done].
  - split; [congruence|]. split; [by rewrite H | done].
Qed.

Lemma wrote_no_ack k q r r' d d' :
  wrote k q r r' d d' ->
  (status_in (o_status r') lifecycle_statuses = true -> o_status r = o_status r') ->
  no_ack d d'.
Proof.
  intros Hw Hs k' x Hx Hl. destruct (wrote_row _ _ _ _ _ _ Hw) as [Hg Hg'].
  destruct (decide (k' = k)) as [->|Hne]; [simplify_eq; eauto|].
  destruct (wrote_other _ _ _ _ _ _ k' Hw Hne) as [Hk _]. exists x. split; congruence.
Qed.

Lemma moved_no_ack k target cor d (o : TransitionOutcome) d' :
  writes k (moved_by target None None cor false) d o d' ->
  status_in target lifecycle_statuses = false -> no_ack d d'.
Proof.
  intros (q & r & r' & Hw & eff & norm & t & Hd & ->) Ht. eapply wrote_no_ack; [exact Hw|].
  apply decide_fsm in Hd as (Ho & _ & _). unfold apply_transition. cbn.
  destruct (to_changed o) eqn:Ec; [|done].
  destruct (transition_changed _ _ _ Ho Ec) as (-> & _). congruence.
Qed.

Lemma mute_move k target ty ev cor :
  status_in target lifecycle_statuses = false -> mute (move k target ty ev cor) (fun _ => True).
Proof.
  intros Ht. eapply mute_tx; [intros w Hw; by apply move_ok|].
  intros d o d' Hw. split; [by eapply moved_no_ack | done].
Qed.

Lemma mute_create i : mute (create_intent oms_guard i) (fun _ => True).
Proof.
  eapply (mute_tx _ (fun d _ d' => created i d d')).
  - intros w Hw. by apply create_intent_ok; [apply oms_guard_quiet|].
  - intros d _ d' (_ & xi & xo & t & e & _ & Hxo & -> & _). split; [|done].
    intros k r'. cbn. change (t_rows xo !! k) with (tbl_get xo k).
    rewrite (tbl_get_insert _ _ _ _ k Hxo). case_decide; [intros [= <-]; discriminate|].
    intros Hr _. by exists r'.
Qed.

Lemma mute_record k decision :
  mute (record_risk_decision oms_guard k decision) (fun _ => True).
Proof.
  eapply (mute_tx _ (fun d s d' => decided k decision d s d')).
  - intros w Hw. by apply record_risk_decision_ok; [apply oms_guard_quiet|].
  - intros d s d' (x & o & _ & _ & Hw & _). split; [|done]. intros k' r' Hr' Hl.
    destruct (moved_no_ack _ _ _ _ _ _ Hw) with (k := k') (r' := r') as (r & Hr & Hs);
      [by destruct (rd_accepted decision) | done.. |]. by exists r.
Qed.

Lemma mute_prepare k : mute (prepare_submit oms_guard k) (fun _ => True).
Proof.
  eapply mute_tx; [intros w Hw; by apply prepare_submit_ok; [apply oms_guard_quiet|]|].
  intros d a d' (q & r & r' & Hw & _ & _ & t & ->). split; [|done].
  eapply wrote_no_ack; [exact Hw|]. discriminate.
Qed.

Lemma mute_call {A} (f : D -> res A * D) (Q : A -> Prop) :
  (forall x a, (f x).1 = Ok a -> Q a) -> mute (call f) Q.
Proof.
  intros Hf w Hw. unfold wp, call. specialize (Hf (w_rest w).2).
  destruct (f _) as [[a|e] x]; cbn; (split; [done|]); (split; [reflexivity|]); auto.
Qed.

(** C14. A returned call is not an acknowledgement.  Over a broker whose queries
    answer nothing, whatever its calls return or raise, [submit_intent] moves
    no order into ACKNOWLEDGED, PARTIALLY_FILLED, FILLED, CANCELLED or
    REJECTED, and the status it reports is RISK_REJECTED, UNKNOWN or
    RECONCILING, without a broker id. *)
Theorem submit_never_assumes i decision w :
  w_in_tx w = false ->
  no_ack (w_db w) (w_db (submit_intent (E := unit) i decision w).2) /\
  forall r, (submit_intent (E := unit) i decision w).1 = Ok r ->
    status_in (sr_status r) [RISK_REJECTED; UNKNOWN; RECONCILING] = true /\
    sr_broker_order_id r = None.
Proof.
  intros Hw.
  assert (Hm : mute (submit_intent (E := unit) i decision) (fun r =>
    status_in (sr_status r) [RISK_REJECTED; UNKNOWN; RECONCILING] = true /\
    sr_broker_order_id r = None)).
  { unfold submit_intent, submit_authorized_intent, submit_decided_intent.
    eapply mute_bind; [apply mute_quiet; destruct decision; auto with quiet | intros d _].
    do 3 (eapply mute_bind; [apply mute_quiet; auto with quiet | intros ? _]).
    eapply mute_bind; [apply mute_create | intros _ _].
    eapply mute_bind; [apply mute_record | intros s _].
    case_bool_decide as Hs; [apply mute_ret; by subst|].
    eapply mute_bind; [apply mute_prepare | intros _ _].
    eapply mute_bind; [apply mute_quiet; auto with quiet | intros _ _].
    eapply mute_bind with (P := fun s => s = Some UNKNOWN \/ s = None).
    - unfold submit_side_effect. apply mute_try.
      + eapply mute_bind; [by apply mute_call with (Q := fun _ => True) | intros _ _].
        apply mute_ret. by right.
      + intros e. case_bool_decide; [|destruct (is_Exception e)].
        1,2: eapply mute_bind; [apply mute_quiet; auto with quiet | intros _ _];
          eapply mute_bind; [by apply mute_move | intros _ _]; apply mute_ret; by left.
        intros w' Hw'. by repeat split.
    - intros early [->| ->]; [by apply mute_ret|]. unfold submit_query.
      eapply mute_bind; [apply mute_quiet; auto with quiet | intros _ _].
      eapply mute_bind; [by apply mute_move | intros _ _].
      eapply mute_bind; [by apply mute_move | intros _ _].
      eapply mute_bind; [apply mute_quiet; auto with quiet | intros _ _].
      eapply mute_bind; [apply mute_call with (Q := fun q => q = None) | intros q ->].
      { intros x [q|] Hq; [by destruct (silent _ _ _ Hq) | done]. }
      eapply mute_bind; [apply mute_quiet; auto with quiet | intros _ _]. by apply mute_ret. }
  destruct (Hm w Hw) as (_ & Hn & Hr). split; [done|]. intros r Hok. by rewrite Hok in Hr.
Qed.
End Silent.

(** ** Concrete runs *)

Definition demo_oms : oms :=
  {| om_session_id := ""; om_reconciled := false; om_lease_seconds := 30;
     om_leader_lease := {| ll_session_id := ""; ll_lease_token := ""; ll_epoch := 0;
                           ll_expires_at := DT 0 (Some 0) |};
     om_closed := true |}.

Definition demo_start : world (oms * SimulatedDriver) := W empty_db false 0 (demo_oms, Simulated.init).

(** Requests served one after another by one session. *)
Definition demo_run (l : list request) (w : world (oms * SimulatedDriver))
    : world (oms * SimulatedDriver) :=
  fold_left (fun w q => (@serve _ _ demo_env q w).2) l w.

Lemma step_run {D} {driver : ExecutionDriver D} {counting : CountingDriver D} {env : Env} q w :
  request_ok q -> w_in_tx w = false ->
  sys_step (w_db w, (w_rest w).2) (w_db (serve q w).2, (w_rest (serve q w).2).2).
Proof.
  intros Hq Ht. destruct w as [d tx n [o x]]. cbn in Ht. subst tx.
  eapply step_serve; [exact Hq | apply surjective_pairing].
Qed.

Lemma demo_run_reach l w :
  Forall request_ok l -> w_in_tx w = false -> store_inv (w_db w) ->
  counts_ok w ->
  rtc (sys_step (env := demo_env)) (w_db w, (w_rest w).2)
    (w_db (demo_run l w), (w_rest (demo_run l w)).2).
Proof.
  revert w. induction l as [|q l IH]; intros w Hl Ht Hs Hc; [reflexivity|].
  apply Forall_cons in Hl as [Hq Hl].
  destruct (@serve_safe _ _ _ demo_env q Hq w) as ((Ht' & Hs' & Hc') & _); [by split | done |].
  eapply rtc_l; [by apply (step_run (env := demo_env))|]. by apply IH.
Qed.

Definition demo_requests : list request :=
  [ReqOpen 30; ReqRecover; ReqSubmit demo_intent None; ReqCancel (oi_key demo_intent); ReqClose].

Lemma demo_start_store : store_inv (w_db demo_start).
Proof. split; [apply orders_inv_empty | apply evidence_inv_empty]. Qed.

Lemma demo_start_counts : counts_ok demo_start.
Proof.
  intros k. cbn. unfold tbl_get, Simulated.submit_call_count, Simulated.cancel_call_count. cbn.
  by rewrite !lookup_empty.
Qed.

Lemma demo_init_calls k : submits k Simulated.init = 0 /\ cancels k Simulated.init = 0.
Proof.
  cbn. unfold Simulated.submit_call_count, Simulated.cancel_call_count. cbn.
  by rewrite !lookup_empty.
Qed.

Lemma demo_reach :
  rtc (sys_step (env := demo_env)) (empty_db, Simulated.init)
    (w_db (demo_run demo_requests demo_start), (w_rest (demo_run demo_requests demo_start)).2).
Proof.
  apply (demo_run_reach demo_requests demo_start); [| done | apply demo_start_store
    | apply demo_start_counts]. by repeat constructor.
Qed.

Lemma at_most_once_witness :
  submits (oi_key demo_intent) (w_rest (demo_run demo_requests demo_start)).2 = 1 /\
  cancels (oi_key demo_intent) (w_rest (demo_run demo_requests demo_start)).2 <= 1.
Proof.
  split; [vm_compute; reflexivity|].
  exact (proj1 (proj2 (at_most_once (env := demo_env) Simulated.init _ _ (oi_key demo_intent)
    demo_init_calls demo_reach))).
Defined.

Lemma store_forever_witness :
  exists s, rtc (sys_step (env := demo_env)) (empty_db, Simulated.init) s /\
    store_inv s.1 /\ db_le (empty_db, Simulated.init).1 s.1.
Proof.
  eexists. split; [exact demo_reach|].
  exact (proj2 (store_forever (env := demo_env) Simulated.init _ _ demo_init_calls
    (rtc_refl _ _) demo_reach)).
Defined.

(** A session that crashed inside its submit, and the one that recovers. *)
Definition demo_crashed : world (oms * SimulatedDriver) :=
  demo_run [ReqOpen 1; ReqRecover; ReqSubmit demo_intent None]
    (W empty_db false 0 (demo_oms, Simulated.fail_next_submit SUBMIT_CRASH_AFTER_ACCEPT Simulated.init)).

(** The lease of the crashed session has expired at tick 2000. *)
Definition demo_reopened : world (oms * SimulatedDriver) :=
  demo_run [ReqOpen 30] (W (w_db demo_crashed) false 2000 (demo_oms, (w_rest demo_crashed).2)).

Lemma demo_reopened_good : w_in_tx demo_reopened = false /\ store_inv (w_db demo_reopened).
Proof.
  assert (Hrun : forall l w, Forall request_ok l -> good (D := SimulatedDriver) w ->
                             good (demo_run l w)).
  { induction l as [|q l IH]; intros w Hl Hg; [done|]. apply Forall_cons in Hl as [Hq Hl].
    apply IH; [done|]. by destruct (@serve_safe _ _ _ demo_env q Hq w Hg I). }
  assert (H1 : good demo_crashed).
  { apply Hrun; [by repeat constructor|]. split; [done|]. split; [apply demo_start_store|].
    apply demo_start_counts. }
  assert (H2 : good demo_reopened).
  { apply Hrun; [by repeat constructor|]. split; [reflexivity|]. exact (proj2 H1). }
  exact (conj (proj1 H2) (proj1 (proj2 H2))).
Qed.

Lemma recover_settles_witness :
  (@recover _ _ demo_env demo_reopened).1 = Ok tt /\
  all_settled (w_db (@recover _ _ demo_env demo_reopened).2).
Proof.
  assert (H : (@recover _ _ demo_env demo_reopened).1 = Ok tt) by (vm_compute; reflexivity).
  split; [exact H|].
  exact (proj1 (recover_settles (env := demo_env) demo_reopened (proj1 demo_reopened_good)
    (proj2 demo_reopened_good) H)).
Defined.




(** A driver whose calls return and whose queries answer nothing. *)
Definition demo_silent : ExecutionDriver unit :=
  {| submit_limit_order := fun _ x => (Ok tt, x); driver_cancel_order := fun _ x => (Ok tt, x);
     query_by_client_order_id := fun _ x => (Ok None, x) |}.

Definition demo_ready : world (oms * unit) :=
  fold_left (fun w q => (@serve _ demo_silent demo_env q w).2) [ReqOpen 30; ReqRecover]
    (W empty_db false 0 (demo_oms, tt)).

Lemma submit_never_assumes_witness :
  exists r, (@submit_intent _ unit demo_silent demo_env demo_intent None demo_ready).1 = Ok r /\
    status_in (sr_status r) [RISK_REJECTED; UNKNOWN; RECONCILING] = true.
Proof.
  assert (Hs : forall k (x : unit) q, (@query_by_client_order_id _ demo_silent k x).1 <> Ok (Some q))
    by (intros k x q; discriminate).
  assert (Ht : w_in_tx demo_ready = false) by (vm_compute; reflexivity).
  eexists. split; [vm_compute; reflexivity|].
  refine (proj1 (proj2 (@submit_never_assumes _ demo_silent demo_env Hs demo_intent None demo_ready Ht)
    _ _)).
  vm_compute. reflexivity.
Defined.
