(* ===== verification/DecimalFacts.v ===== *)
(** * DecimalFacts: decimals as rationals

    The value a decimal denotes, the comparisons as comparisons of values, and
    the operations as exact ones whenever the result fits the context. *)

From Stdlib Require Import QArith Qpower.
From S2P Require Import Prelude Decimal.
#[local] Open Scope Q_scope.

Definition val (d : Dec.decimal) : Q := inject_Z (Dec.scoef d) * Qpower 10 (Dec.exp d).

Lemma ten_neq : ~ 10 == 0.
Proof. discriminate. Qed.

Lemma ten_pow_pos e : 0 < Qpower 10 e.
Proof. by apply Qpower_0_lt. Qed.

Lemma ten_pow_Z n : (0 <= n)%Z -> inject_Z (10 ^ n) == Qpower 10 n.
Proof. intros Hn. apply (Zpower_Qpower 10 n Hn). Qed.

Lemma val_scaled d e :
  (e <= Dec.exp d)%Z -> val d == inject_Z (Dec.scaled d e) * Qpower 10 e.
Proof.
  intros He. unfold val, Dec.scaled. rewrite inject_Z_mult, ten_pow_Z by lia.
  rewrite <- Qmult_assoc, <- (Qpower_plus 10 _ _ ten_neq).
  by replace (Dec.exp d - e + e)%Z with (Dec.exp d) by lia.
Qed.

(** ** Comparisons *)

Lemma ltb_val a b : Dec.ltb a b = true <-> val a < val b.
Proof.
  unfold Dec.ltb, Dec.cmp. set (e := Z.min (Dec.exp a) (Dec.exp b)).
  rewrite (val_scaled a e), (val_scaled b e) by (unfold e; lia).
  rewrite Qmult_lt_r, <- Zlt_Qlt by apply ten_pow_pos.
  destruct (Z.compare_spec (Dec.scaled a e) (Dec.scaled b e)); split; intros; try done; lia.
Qed.

Lemma leb_val a b : Dec.leb a b = true <-> val a <= val b.
Proof.
  unfold Dec.leb, Dec.cmp. set (e := Z.min (Dec.exp a) (Dec.exp b)).
  rewrite (val_scaled a e), (val_scaled b e) by (unfold e; lia).
  rewrite Qmult_le_r, <- Zle_Qle by apply ten_pow_pos.
  destruct (Z.compare_spec (Dec.scaled a e) (Dec.scaled b e)); split; intros; try done; lia.
Qed.

Lemma ltb_false a b : Dec.ltb a b = false <-> val b <= val a.
Proof.
  rewrite <- not_true_iff_false, ltb_val. split; [apply Qnot_lt_le | apply Qle_not_lt].
Qed.

Lemma val_zero : val Dec.zero == 0.
Proof. reflexivity. Qed.

Lemma val_of_Z n : val (Dec.of_Z n) == inject_Z n.
Proof.
  unfold val, Dec.of_Z, Dec.of_signed, Dec.scoef. cbn. rewrite Qmult_1_r.
  destruct (Z.ltb_spec n 0); apply inject_Z_injective; lia.
Qed.

(** ** Exact operations *)

(** A result the context neither rounds nor rejects. *)
Definition fits (d : Dec.decimal) : bool :=
  ((Dec.ndigits (Dec.coef d) <=? Dec.prec) && (Dec.Etiny <=? Dec.exp d))%Z.

Lemma fix_fits d d' : fits d = true -> Dec.fix_dec d = Ok d' -> val d' == val d.
Proof.
  unfold fits, Dec.fix_dec. intros Hf. bool_to_prop.
  destruct (Z.eqb_spec (Dec.coef d) 0) as [Hz|Hz].
  - intros [= <-]. unfold val, Dec.scoef. cbn. rewrite Hz.
    destruct (Dec.neg d); cbn; by rewrite !Qmult_0_l.
  - destruct (Z.ltb_spec Dec.Etop (Dec.ndigits (Dec.coef d) + Dec.exp d - Dec.prec)); [done|].
    destruct (Z.ltb_spec (Dec.exp d)
      (Z.max (Dec.ndigits (Dec.coef d) + Dec.exp d - Dec.prec) Dec.Etiny)); [lia|].
    by intros [= <-].
Qed.

Lemma val_of_signed s e : val (Dec.of_signed s e) == inject_Z s * Qpower 10 e.
Proof.
  unfold val, Dec.of_signed, Dec.scoef. cbn.
  by destruct (Z.ltb_spec s 0) as [Hs|Hs];
    [replace (- Z.abs s)%Z with s by lia | replace (Z.abs s) with s by lia].
Qed.

Lemma val_add_exact a b : val (Dec.add_exact a b) == val a + val b.
Proof.
  unfold Dec.add_exact. set (e := Z.min (Dec.exp a) (Dec.exp b)).
  rewrite (val_scaled a e), (val_scaled b e) by (unfold e; lia).
  rewrite <- Qmult_plus_distr_l, <- inject_Z_plus.
  destruct (Z.eqb_spec (Dec.scaled a e + Dec.scaled b e) 0) as [->|Hz]; [|apply val_of_signed].
  unfold val, Dec.scoef. cbn. by destruct (_ && _); cbn; rewrite !Qmult_0_l.
Qed.

Lemma val_mul_exact a b : val (Dec.mul_exact a b) == val a * val b.
Proof.
  unfold val, Dec.mul_exact. cbn.
  rewrite (Qpower_plus 10 _ _ ten_neq).
  assert (Hs : Dec.scoef (Dec.D (xorb (Dec.neg a) (Dec.neg b)) (Dec.coef a * Dec.coef b)
                           (Dec.exp a + Dec.exp b)) = (Dec.scoef a * Dec.scoef b)%Z).
  { unfold Dec.scoef. cbn. destruct (Dec.neg a), (Dec.neg b); cbn; lia. }
  rewrite Hs, inject_Z_mult. ring.
Qed.

Lemma val_negate a : val (Dec.copy_negate a) == - val a.
Proof.
  unfold val, Dec.copy_negate, Dec.scoef. cbn.
  destruct (Dec.neg a); cbn; rewrite ?inject_Z_opp; ring.
Qed.

Lemma add_val a b c :
  Dec.add a b = Ok c -> fits (Dec.add_exact a b) = true -> val c == val a + val b.
Proof. intros H Hf. rewrite <- val_add_exact. by apply fix_fits. Qed.

Lemma sub_val a b c :
  Dec.sub a b = Ok c -> fits (Dec.add_exact a (Dec.copy_negate b)) = true ->
  val c == val a - val b.
Proof. intros H Hf. unfold Qminus. rewrite <- val_negate. by apply add_val. Qed.

Lemma mul_val a b c :
  Dec.mul a b = Ok c -> fits (Dec.mul_exact a b) = true -> val c == val a * val b.
Proof. intros H Hf. rewrite <- val_mul_exact. by apply fix_fits. Qed.

Lemma opp_val a c : Dec.opp a = Ok c -> fits a = true -> val c == - val a.
Proof.
  unfold Dec.opp, Dec.is_zero. intros H Hf. destruct (Z.eqb_spec (Dec.coef a) 0) as [Hz|Hz].
  - rewrite (fix_fits (Dec.copy_abs a) c Hf H). unfold val, Dec.copy_abs, Dec.scoef. cbn. rewrite Hz.
    destruct (Dec.neg a); cbn; by rewrite !Qmult_0_l.
  - rewrite (fix_fits (Dec.copy_negate a) c Hf H). apply val_negate.
Qed.

(** ** Digits, and results that are not zero *)

Open Scope Z_scope.

Lemma ndigits_fuel_pos f n : 1 <= Dec.ndigits_fuel f n.
Proof.
  revert n. induction f as [|f IH]; intros n; cbn [Dec.ndigits_fuel]; [lia|].
  case_match; [lia|]. specialize (IH (n / 10)). lia.
Qed.

Lemma ndigits_bounds n : 0 < n -> 10 ^ (Dec.ndigits n - 1) <= n < 10 ^ Dec.ndigits n.
Proof.
  unfold Dec.ndigits. remember (Z.to_nat (Z.log2 n)) as fuel eqn:Hf.
  assert (Hl : Z.log2 n <= Z.of_nat fuel) by (pose proof (Z.log2_nonneg n); lia).
  clear Hf. revert n Hl. induction fuel as [|f IH]; intros n Hl Hn; cbn [Dec.ndigits_fuel].
  - assert (n < 2) by (apply Z.log2_lt_cancel; change (Z.log2 2) with 1; lia). cbn. lia.
  - destruct (Z.ltb_spec n 10); [cbn; lia|].
    assert (Hd : 0 < n / 10) by (apply Z.div_str_pos; lia).
    destruct (IH (n / 10)) as [H1 H2]; [|done|].
    { apply Z.lt_succ_r, Z.log2_lt_pow2; [done|]. apply Z.lt_succ_r, Z.log2_lt_pow2 in Hl; [|lia].
      rewrite Nat2Z.inj_succ, Z.pow_succ_r in Hl by lia.
      pose proof (Z.div_mod n 10). pose proof (Z.mod_pos_bound n 10). lia. }
    set (k := Dec.ndigits_fuel f (n / 10)) in *.
    pose proof (ndigits_fuel_pos f (n / 10) : 1 <= k).
    replace (1 + k - 1) with ((k - 1) + 1) by lia. rewrite (Z.pow_add_r 10 (k - 1) 1) by lia.
    rewrite Z.add_comm, (Z.pow_add_r 10 k 1) by lia. change (10 ^ 1) with 10.
    pose proof (Z.div_mod n 10). pose proof (Z.mod_pos_bound n 10). lia.
Qed.

Lemma fix_nonzero d r :
  0 < Dec.coef d -> Dec.Etiny <= Dec.exp d -> Dec.fix_dec d = Ok r -> Dec.coef r <> 0.
Proof.
  intros Hc He. unfold Dec.fix_dec. destruct (Z.eqb_spec (Dec.coef d) 0); [lia|].
  set (k := Dec.ndigits (Dec.coef d)). destruct (_ <? _); [done|].
  destruct (Z.ltb_spec (Dec.exp d) (Z.max (k + Dec.exp d - Dec.prec) Dec.Etiny)) as [Hlt|];
    [|by intros [= <-]; cbn; lia].
  replace (Z.max (k + Dec.exp d - Dec.prec) Dec.Etiny - Dec.exp d) with (k - Dec.prec) by lia.
  assert (Hq : 10 <= Dec.round_half_even (Dec.coef d) (k - Dec.prec)).
  { assert (10 ^ 27 <= Dec.coef d / 10 ^ (k - Dec.prec)).
    { apply Z.div_le_lower_bound; [apply Z.pow_pos_nonneg; unfold Dec.prec in *; lia|].
      rewrite <- Z.pow_add_r by (unfold Dec.prec in *; lia).
      replace (k - Dec.prec + 27) with (k - 1) by (unfold Dec.prec; lia).
      by apply ndigits_bounds. }
    change (10 ^ 27) with 1000000000000000000000000000 in *.
    unfold Dec.round_half_even. repeat case_match; lia. }
  destruct (_ <? _); destruct (_ <? _); try done; intros [= <-]; cbn; [|lia].
  pose proof (Z.div_le_mono _ _ 10 ltac:(lia) Hq) as H1. change (10 / 10) with 1 in H1. lia.
Qed.

Lemma fix_zero d r : Dec.coef d = 0 -> Dec.fix_dec d = Ok r -> Dec.coef r = 0.
Proof. intros Hd. unfold Dec.fix_dec. rewrite Hd. by intros [= <-]. Qed.

Lemma eqb_zero d : Dec.eqb d Dec.zero = (Dec.coef d =? 0).
Proof.
  unfold Dec.eqb, Dec.cmp, Dec.scaled. change (Dec.scoef Dec.zero) with 0. rewrite Z.mul_0_l.
  set (p := 10 ^ _). assert (Hp : 0 < p) by (apply Z.pow_pos_nonneg; lia).
  unfold Dec.scoef. destruct (Z.eqb_spec (Dec.coef d) 0) as [->|Hne].
  - by destruct (Dec.neg d).
  - set (c := if Dec.neg d then _ else _).
    assert (c <> 0) by (unfold c; destruct (Dec.neg d); lia).
    destruct (Z.compare_spec (c * p) 0) as [H0|H0|H0]; [nia | done | done].
Qed.

(** ** Sums of non-negative amounts *)

Lemma ndigits_le n k : 0 <= k -> 0 < n -> n < 10 ^ k -> Dec.ndigits n <= k.
Proof.
  intros Hk Hn Hlt. destruct (Z.le_gt_cases (Dec.ndigits n) k) as [|Hgt]; [done|].
  destruct (ndigits_bounds n Hn) as [Hb _].
  assert (10 ^ k <= 10 ^ (Dec.ndigits n - 1)) by (apply Z.pow_le_mono_r; lia). lia.
Qed.

Lemma fix_same d :
  0 <= Dec.coef d < 10 ^ Dec.prec -> Dec.Etiny <= Dec.exp d <= 0 -> Dec.fix_dec d = Ok d.
Proof.
  intros [H0 Hc] [He1 He2]. unfold Dec.fix_dec. destruct d as [s c e]. cbn in *.
  destruct (Z.eqb_spec c 0) as [->|Hne].
  - by replace ((e `max` Dec.Etiny) `min` Dec.Emax) with e by (unfold Dec.Emax; lia).
  - assert (Hn : Dec.ndigits c <= Dec.prec)
      by (apply ndigits_le; [done | lia | exact Hc]).
    destruct (Z.ltb_spec Dec.Etop (Dec.ndigits c + e - Dec.prec)) as [H|H].
    { unfold Dec.Etop, Dec.Emax, Dec.prec in *. lia. }
    destruct (Z.ltb_spec e ((Dec.ndigits c + e - Dec.prec) `max` Dec.Etiny)); [lia | done].
Qed.

(** An amount of at least [10^e] precision, not negative, of exponent at most
    [top]. *)
Definition amount (e : Z) (d : Dec.decimal) : Prop :=
  e <= Dec.exp d /\ 0 <= Dec.coef d /\ Dec.neg d = false.

Lemma amount_scaled e d : amount e d -> 0 <= Dec.scaled d e.
Proof.
  intros (He & Hc & Hn). unfold Dec.scaled, Dec.scoef. rewrite Hn.
  apply Z.mul_nonneg_nonneg; [done | apply Z.pow_nonneg; lia].
Qed.

Lemma scaled_split d e e0 :
  e <= e0 <= Dec.exp d -> Dec.scaled d e = Dec.scaled d e0 * 10 ^ (e0 - e).
Proof.
  intros He. unfold Dec.scaled. rewrite <- Z.mul_assoc, <- Z.pow_add_r by lia. do 2 f_equal. lia.
Qed.

Lemma add_amounts e a b :
  Dec.Etiny <= e -> Dec.exp a <= 0 -> amount e a -> amount e b ->
  Dec.scaled a e + Dec.scaled b e < 10 ^ Dec.prec ->
  exists c, Dec.add a b = Ok c /\ (val c == val a + val b)%Q /\ amount e c /\ Dec.exp c <= 0 /\
            Dec.scaled c e = Dec.scaled a e + Dec.scaled b e.
Proof.
  intros Hty Htop Ha Hb Hlt.
  pose proof Ha as (Hea & Hca & Hna). pose proof Hb as (Heb & Hcb & Hnb).
  set (e0 := Z.min (Dec.exp a) (Dec.exp b)).
  assert (He0 : e <= e0 /\ e0 <= Dec.exp a /\ e0 <= Dec.exp b) by (unfold e0; lia).
  set (s := Dec.scaled a e0 + Dec.scaled b e0).
  assert (Hs0 : 0 <= s).
  { assert (amount e0 a) by (repeat split; (done || lia)).
    assert (amount e0 b) by (repeat split; (done || lia)).
    apply Z.add_nonneg_nonneg; by apply amount_scaled. }
  assert (Hse : s * 10 ^ (e0 - e) = Dec.scaled a e + Dec.scaled b e).
  { unfold s. rewrite Z.mul_add_distr_r, <- !scaled_split by lia. done. }
  assert (Hp : 1 <= 10 ^ (e0 - e)) by (apply (Z.pow_le_mono_r 10 0); lia).
  assert (Hs : s < 10 ^ Dec.prec) by nia.
  assert (Hx : Dec.add_exact a b = Dec.D false s e0).
  { unfold Dec.add_exact. fold e0. fold s. rewrite Hna, Hnb, !andb_false_r.
    unfold Dec.of_signed. destruct (Z.eqb_spec s 0) as [->|]; [done|].
    destruct (Z.ltb_spec s 0); [lia|]. by rewrite Z.abs_eq. }
  exists (Dec.D false s e0). unfold Dec.add. rewrite Hx.
  repeat split; cbn; try lia.
  - apply fix_same; cbn; lia.
  - by rewrite <- Hx, val_add_exact.
  - unfold Dec.scaled at 1. cbn. exact Hse.
Qed.
