(* ===== verification/Sums.v ===== *)
(** * Sums: totals of amounts that lose nothing

    When the amounts of a list, scaled to one exponent, total less than the 28
    digits of the context, adding them one by one is exact: the rational sum. *)

From Stdlib Require Import QArith.
From S2P Require Import Prelude Decimal DecimalFacts.
Open Scope Z_scope.

Fixpoint Qsum (l : list Dec.decimal) : Q :=
  match l with [] => 0 | d :: l => val d + Qsum l end%Q.

Fixpoint sum_scaled (e : Z) (l : list Dec.decimal) : Z :=
  match l with [] => 0 | d :: l => Dec.scaled d e + sum_scaled e l end.

(** Amounts whose total fits the 28 digits of the context. *)
Definition sum_fits (l : list Dec.decimal) : Prop :=
  exists e, Dec.Etiny <= e <= 0 /\ Forall (amount e) l /\ sum_scaled e l < 10 ^ Dec.prec.

Lemma sum_scaled_nonneg e l : Forall (amount e) l -> 0 <= sum_scaled e l.
Proof.
  induction 1 as [|d l Hd _ IH]; cbn; [lia|]. pose proof (amount_scaled _ _ Hd). lia.
Qed.

Lemma sum_from e acc l :
  Dec.Etiny <= e -> Dec.exp acc <= 0 -> amount e acc -> Forall (amount e) l ->
  Dec.scaled acc e + sum_scaled e l < 10 ^ Dec.prec ->
  exists s, fold_left (fun acc d => res_bind acc (fun t => Dec.add t d)) l (Ok acc) = Ok s /\
            (val s == val acc + Qsum l)%Q.
Proof.
  intros Hty. revert acc. induction l as [|d l IH]; intros acc Htop Ha Hl Hlt; cbn in *.
  - exists acc. split; [done|]. by rewrite Qplus_0_r.
  - apply Forall_cons in Hl as [Hd Hl]. pose proof (sum_scaled_nonneg e l Hl).
    destruct (add_amounts e acc d Hty Htop Ha Hd) as (c & -> & Hv & Hc & Hct & Hs); [lia|].
    destruct (IH c Hct Hc Hl) as (s & -> & Hq); [lia|]. exists s. split; [done|].
    rewrite Hq, Hv. symmetry. apply Qplus_assoc.
Qed.

#[global] Instance Qsum_perm : Proper (Permutation ==> Qeq) Qsum.
Proof.
  induction 1 as [|d l l' _ IH|d d' l|l1 l2 l3 _ H12 _ H23]; cbn; [reflexivity | by rewrite IH | ring |].
  by rewrite H12.
Qed.

Lemma sum_fits_perm l l' : l ≡ₚ l' -> sum_fits l -> sum_fits l'.
Proof.
  intros Hp (e & He & Hl & Hlt). exists e. split; [done|]. split; [by rewrite <- Hp|].
  enough (sum_scaled e l' = sum_scaled e l) by lia.
  clear Hl Hlt. induction Hp; cbn; lia.
Qed.

Lemma Qsum_app l l' : (Qsum (l ++ l') == Qsum l + Qsum l')%Q.
Proof. induction l as [|d l IH]; cbn; [ring | rewrite IH; ring]. Qed.

Lemma sum_scaled_app e l l' : sum_scaled e (l ++ l') = sum_scaled e l + sum_scaled e l'.
Proof. induction l as [|d l IH]; cbn; [done | lia]. Qed.

Lemma sum_fits_app_l l l' : sum_fits (l ++ l') -> sum_fits l.
Proof.
  intros (e & He & Hl & Hlt). apply Forall_app in Hl as [Hl Hl']. exists e. do 2 (split; [done|]).
  rewrite sum_scaled_app in Hlt. pose proof (sum_scaled_nonneg e l' Hl'). lia.
Qed.
