(* ===== verification/RiskModels.v ===== *)
(** * RiskModels: the policy and the snapshot of [risk/models.py]

    The validated records a risk evaluation reads, their constructors (the
    checks of [__post_init__] in the code's order, on Python values), and the
    canonical text of [risk/canonical.py] that a decision's hash covers. *)

From S2P Require Import Prelude PyTime Decimal Json Domain.
Open Scope Z_scope.
Open Scope py_scope.

Inductive RuntimeMode :=
  | DISABLED | OBSERVE | SHADOW | SIMULATION | LIVE_CANARY | LIVE_ARMED | HALTED.

Inductive RiskLevel := GLOBAL | ACCOUNT | STRATEGY | ORDER.

#[global] Instance RuntimeMode_eq_dec : EqDecision RuntimeMode.
Proof. solve_decision. Defined.
#[global] Instance RiskLevel_eq_dec : EqDecision RiskLevel.
Proof. solve_decision. Defined.

Definition mode_str (m : RuntimeMode) : string :=
  match m with
  | DISABLED => "DISABLED" | OBSERVE => "OBSERVE" | SHADOW => "SHADOW"
  | SIMULATION => "SIMULATION" | LIVE_CANARY => "LIVE_CANARY"
  | LIVE_ARMED => "LIVE_ARMED" | HALTED => "HALTED"
  end.

Definition level_str (l : RiskLevel) : string :=
  match l with
  | GLOBAL => "GLOBAL" | ACCOUNT => "ACCOUNT" | STRATEGY => "STRATEGY"
  | ORDER => "SECURITY_ORDER"
  end.

Definition mode_in (m : RuntimeMode) (l : list RuntimeMode) : bool := bool_decide (m ∈ l).

(** ** Validators *)

Module Risk.

Definition require_aware (name : string) (value : pyval) : res datetime :=
  match value with
  | VTime t =>
      if is_aware t then Ok t else raise ValueError (name +:+ " must be timezone-aware")
  | _ => raise TypeError (name +:+ " must be datetime")
  end.

(** [_require_decimal]: finite and at least the minimum, 0 unless given. *)
Definition require_decimal (name : string) (value : pyval) : res Dec.decimal :=
  match value with
  | VDec (Dec.Fin d) =>
      if Dec.ltb d Dec.zero then raise ValueError (name +:+ " must be finite and >= 0") else Ok d
  | VDec _ => raise ValueError (name +:+ " must be finite and >= 0")
  | _ => raise TypeError (name +:+ " must be decimal.Decimal; binary float is forbidden")
  end.

Definition require_positive_decimal (name : string) (value : pyval) : res Dec.decimal :=
  d <- require_decimal name value ;;
  do! guard_r (negb (Dec.leb d Dec.zero)) ValueError (name +:+ " must be > 0") ;;
  Ok d.

Definition require_nonnegative_int (name : string) (value : pyval) : res Z :=
  match value with
  | VInt z =>
      if z <? 0 then raise ValueError (name +:+ " must be a non-negative integer") else Ok z
  | _ => raise ValueError (name +:+ " must be a non-negative integer")
  end.

Definition require_positive_int (name : string) (value : pyval) : res Z :=
  match value with
  | VInt z => if z <=? 0 then raise ValueError (name +:+ " must be a positive integer") else Ok z
  | _ => raise ValueError (name +:+ " must be a positive integer")
  end.

Definition require_bool (name : string) (value : pyval) : res bool :=
  match value with
  | VBool b => Ok b
  | _ => raise TypeError (name +:+ " must be bool")
  end.

(** Every item of a set of strings is non-empty. *)
Definition require_items (name : string) (items : gset string) : res unit :=
  res_iter (fun s => do! require_nonempty name (VStr s) ;; Ok tt) (elements items).

End Risk.

(** ** The policy *)

Record StrategyPolicy := {
  sp_strategy_id : string;
  sp_allowed_versions : gset string;
  sp_allowed_symbols : gset string;
  sp_max_gross_exposure : Dec.decimal;
  sp_max_daily_turnover : Dec.decimal;
  sp_max_position_count : Z
}.

Definition StrategyPolicy_init (strategy_id : pyval) (allowed_versions allowed_symbols : gset string)
    (max_gross_exposure max_daily_turnover max_position_count : pyval) : res StrategyPolicy :=
  strategy_id <- require_nonempty "strategy_id" strategy_id ;;
  do! guard_r (negb (bool_decide (allowed_versions = ∅))) ValueError
        "allowed_versions must be a non-empty frozenset" ;;
  do! guard_r (negb (bool_decide (allowed_symbols = ∅))) ValueError
        "allowed_symbols must be a non-empty frozenset" ;;
  do! Risk.require_items "allowed_versions item" allowed_versions ;;
  do! Risk.require_items "allowed_symbols item" allowed_symbols ;;
  gross <- Risk.require_decimal "max_gross_exposure" max_gross_exposure ;;
  turnover <- Risk.require_decimal "max_daily_turnover" max_daily_turnover ;;
  positions <- Risk.require_nonnegative_int "max_position_count" max_position_count ;;
  Ok {| sp_strategy_id := strategy_id; sp_allowed_versions := allowed_versions;
        sp_allowed_symbols := allowed_symbols; sp_max_gross_exposure := gross;
        sp_max_daily_turnover := turnover; sp_max_position_count := positions |}.

Record RiskPolicy := {
  rp_rule_version : string;
  rp_expected_account_fingerprint : string;
  rp_permitted_execution_modes : list RuntimeMode;
  rp_require_qmt_healthy : bool;
  rp_account_max_age_seconds : Z;
  rp_strategy_max_age_seconds : Z;
  rp_market_max_age_seconds : Z;
  rp_min_cash_buffer : Dec.decimal;
  rp_fee_buffer_rate : Dec.decimal;
  rp_max_account_gross_exposure : Dec.decimal;
  rp_max_daily_loss_abs : Dec.decimal;
  rp_max_daily_turnover : Dec.decimal;
  rp_max_daily_orders : Z;
  rp_max_daily_cancels : Z;
  rp_max_order_notional : Dec.decimal;
  rp_max_security_gross_exposure : Dec.decimal;
  rp_max_price_deviation_rate : Dec.decimal;
  rp_strategy : StrategyPolicy
}.

(** [permitted_execution_modes != frozenset({SIMULATION})]; the set is a list
    without an order. *)
Definition simulation_only (modes : list RuntimeMode) : bool :=
  mode_in SIMULATION modes && forallb (fun m => bool_decide (m = SIMULATION)) modes.

Definition RiskPolicy_init (rule_version expected_account_fingerprint : pyval)
    (permitted_execution_modes : list RuntimeMode) (require_qmt_healthy account_max_age_seconds
     strategy_max_age_seconds market_max_age_seconds min_cash_buffer fee_buffer_rate
     max_account_gross_exposure max_daily_loss_abs max_daily_turnover max_daily_orders
     max_daily_cancels max_order_notional max_security_gross_exposure
     max_price_deviation_rate : pyval) (strategy : StrategyPolicy) : res RiskPolicy :=
  rule_version <- require_nonempty "rule_version" rule_version ;;
  account <- require_nonempty "expected_account_fingerprint" expected_account_fingerprint ;;
  do! guard_r (negb (bool_decide (permitted_execution_modes = []))) ValueError
        "permitted_execution_modes must be a non-empty frozenset" ;;
  do! guard_r (simulation_only permitted_execution_modes) ValueError
        "P2 policy may permit SIMULATION only; live modes require a later phase gate" ;;
  qmt <- Risk.require_bool "require_qmt_healthy" require_qmt_healthy ;;
  account_age <- Risk.require_positive_int "account_max_age_seconds" account_max_age_seconds ;;
  strategy_age <- Risk.require_positive_int "strategy_max_age_seconds" strategy_max_age_seconds ;;
  market_age <- Risk.require_positive_int "market_max_age_seconds" market_max_age_seconds ;;
  cash <- Risk.require_decimal "min_cash_buffer" min_cash_buffer ;;
  fee <- Risk.require_decimal "fee_buffer_rate" fee_buffer_rate ;;
  gross <- Risk.require_decimal "max_account_gross_exposure" max_account_gross_exposure ;;
  loss <- Risk.require_decimal "max_daily_loss_abs" max_daily_loss_abs ;;
  turnover <- Risk.require_decimal "max_daily_turnover" max_daily_turnover ;;
  notional <- Risk.require_decimal "max_order_notional" max_order_notional ;;
  security <- Risk.require_decimal "max_security_gross_exposure" max_security_gross_exposure ;;
  deviation <- Risk.require_decimal "max_price_deviation_rate" max_price_deviation_rate ;;
  do! guard_r (Dec.ltb fee (Dec.of_Z 1)) ValueError "fee_buffer_rate must be < 1" ;;
  do! guard_r (Dec.ltb deviation (Dec.of_Z 1)) ValueError "max_price_deviation_rate must be < 1" ;;
  orders <- Risk.require_nonnegative_int "max_daily_orders" max_daily_orders ;;
  cancels <- Risk.require_nonnegative_int "max_daily_cancels" max_daily_cancels ;;
  Ok {| rp_rule_version := rule_version; rp_expected_account_fingerprint := account;
        rp_permitted_execution_modes := permitted_execution_modes;
        rp_require_qmt_healthy := qmt; rp_account_max_age_seconds := account_age;
        rp_strategy_max_age_seconds := strategy_age; rp_market_max_age_seconds := market_age;
        rp_min_cash_buffer := cash; rp_fee_buffer_rate := fee;
        rp_max_account_gross_exposure := gross; rp_max_daily_loss_abs := loss;
        rp_max_daily_turnover := turnover; rp_max_daily_orders := orders;
        rp_max_daily_cancels := cancels; rp_max_order_notional := notional;
        rp_max_security_gross_exposure := security; rp_max_price_deviation_rate := deviation;
        rp_strategy := strategy |}.

(** ** The snapshot *)

Record AccountRiskSnapshot := {
  as_account_fingerprint : string;
  as_available_cash : Dec.decimal;
  as_gross_exposure : Dec.decimal;
  as_daily_pnl : Dec.decimal;
  as_daily_turnover : Dec.decimal;
  as_daily_order_count : Z;
  as_daily_cancel_count : Z;
  as_observed_at : datetime
}.

Definition AccountRiskSnapshot_init (account_fingerprint available_cash gross_exposure daily_pnl
    daily_turnover daily_order_count daily_cancel_count observed_at : pyval)
    : res AccountRiskSnapshot :=
  account <- require_nonempty "account_fingerprint" account_fingerprint ;;
  cash <- Risk.require_decimal "available_cash" available_cash ;;
  gross <- Risk.require_decimal "gross_exposure" gross_exposure ;;
  pnl <- match daily_pnl with
         | VDec (Dec.Fin d) => Ok d
         | VDec _ => raise ValueError "daily_pnl must be finite"
         | _ => raise TypeError "daily_pnl must be decimal.Decimal; binary float is forbidden"
         end ;;
  turnover <- Risk.require_decimal "daily_turnover" daily_turnover ;;
  orders <- Risk.require_nonnegative_int "daily_order_count" daily_order_count ;;
  cancels <- Risk.require_nonnegative_int "daily_cancel_count" daily_cancel_count ;;
  observed <- Risk.require_aware "observed_at" observed_at ;;
  Ok {| as_account_fingerprint := account; as_available_cash := cash;
        as_gross_exposure := gross; as_daily_pnl := pnl; as_daily_turnover := turnover;
        as_daily_order_count := orders; as_daily_cancel_count := cancels;
        as_observed_at := observed |}.

Record StrategyRiskSnapshot := {
  ss_strategy_id : string;
  ss_strategy_version : string;
  ss_gross_exposure : Dec.decimal;
  ss_security_gross_exposure : Dec.decimal;
  ss_daily_turnover : Dec.decimal;
  ss_position_count : Z;
  ss_heartbeat_at : datetime
}.

Definition StrategyRiskSnapshot_init (strategy_id strategy_version gross_exposure
    security_gross_exposure daily_turnover position_count heartbeat_at : pyval)
    : res StrategyRiskSnapshot :=
  strategy_id <- require_nonempty "strategy_id" strategy_id ;;
  version <- require_nonempty "strategy_version" strategy_version ;;
  gross <- Risk.require_decimal "gross_exposure" gross_exposure ;;
  security <- Risk.require_decimal "security_gross_exposure" security_gross_exposure ;;
  do! guard_r (Dec.leb security gross) ValueError
        "security_gross_exposure cannot exceed strategy gross_exposure" ;;
  turnover <- Risk.require_decimal "daily_turnover" daily_turnover ;;
  positions <- Risk.require_nonnegative_int "position_count" position_count ;;
  heartbeat <- Risk.require_aware "heartbeat_at" heartbeat_at ;;
  Ok {| ss_strategy_id := strategy_id; ss_strategy_version := version;
        ss_gross_exposure := gross; ss_security_gross_exposure := security;
        ss_daily_turnover := turnover; ss_position_count := positions;
        ss_heartbeat_at := heartbeat |}.

Record SecurityRiskSnapshot := {
  cs_symbol : string;
  cs_tick_size : Dec.decimal;
  cs_lower_price_limit : Dec.decimal;
  cs_upper_price_limit : Dec.decimal;
  cs_reference_price : Dec.decimal;
  cs_buy_lot_size : Z;
  cs_sell_lot_size : Z;
  cs_sellable_quantity : Z;
  cs_gross_exposure : Dec.decimal;
  cs_observed_at : datetime
}.

Definition SecurityRiskSnapshot_init (symbol tick_size lower_price_limit upper_price_limit
    reference_price buy_lot_size sell_lot_size sellable_quantity gross_exposure
    observed_at : pyval) : res SecurityRiskSnapshot :=
  symbol <- require_nonempty "symbol" symbol ;;
  tick <- Risk.require_positive_decimal "tick_size" tick_size ;;
  lower <- Risk.require_positive_decimal "lower_price_limit" lower_price_limit ;;
  upper <- Risk.require_positive_decimal "upper_price_limit" upper_price_limit ;;
  reference <- Risk.require_positive_decimal "reference_price" reference_price ;;
  do! guard_r (negb (Dec.ltb upper lower)) ValueError
        "upper_price_limit must be >= lower_price_limit" ;;
  buy_lot <- Risk.require_positive_int "buy_lot_size" buy_lot_size ;;
  sell_lot <- Risk.require_positive_int "sell_lot_size" sell_lot_size ;;
  sellable <- Risk.require_nonnegative_int "sellable_quantity" sellable_quantity ;;
  gross <- Risk.require_decimal "gross_exposure" gross_exposure ;;
  observed <- Risk.require_aware "observed_at" observed_at ;;
  Ok {| cs_symbol := symbol; cs_tick_size := tick; cs_lower_price_limit := lower;
        cs_upper_price_limit := upper; cs_reference_price := reference;
        cs_buy_lot_size := buy_lot; cs_sell_lot_size := sell_lot;
        cs_sellable_quantity := sellable; cs_gross_exposure := gross;
        cs_observed_at := observed |}.

Record RiskSnapshot := {
  rs_mode : RuntimeMode;
  rs_database_healthy : bool;
  rs_oms_healthy : bool;
  rs_leader_held : bool;
  rs_reconciliation_complete : bool;
  rs_qmt_healthy : bool;
  rs_market_open : bool;
  rs_global_ambiguity_block : bool;
  rs_blocked_symbols : gset string;
  rs_account : AccountRiskSnapshot;
  rs_strategy : StrategyRiskSnapshot;
  rs_security : SecurityRiskSnapshot
}.

Definition RiskSnapshot_init (mode : RuntimeMode) (database_healthy oms_healthy leader_held
    reconciliation_complete qmt_healthy market_open global_ambiguity_block : pyval)
    (blocked_symbols : gset string) (account : AccountRiskSnapshot)
    (strategy : StrategyRiskSnapshot) (security : SecurityRiskSnapshot) : res RiskSnapshot :=
  database <- Risk.require_bool "database_healthy" database_healthy ;;
  oms <- Risk.require_bool "oms_healthy" oms_healthy ;;
  leader <- Risk.require_bool "leader_held" leader_held ;;
  reconciled <- Risk.require_bool "reconciliation_complete" reconciliation_complete ;;
  qmt <- Risk.require_bool "qmt_healthy" qmt_healthy ;;
  market <- Risk.require_bool "market_open" market_open ;;
  ambiguity <- Risk.require_bool "global_ambiguity_block" global_ambiguity_block ;;
  do! Risk.require_items "blocked_symbols item" blocked_symbols ;;
  Ok {| rs_mode := mode; rs_database_healthy := database; rs_oms_healthy := oms;
        rs_leader_held := leader; rs_reconciliation_complete := reconciled;
        rs_qmt_healthy := qmt; rs_market_open := market;
        rs_global_ambiguity_block := ambiguity; rs_blocked_symbols := blocked_symbols;
        rs_account := account; rs_strategy := strategy; rs_security := security |}.

(** ** Findings *)

Record RiskFinding := {
  rf_level : RiskLevel;
  rf_rule_id : string;
  rf_reason_code : RiskReasonCode;
  rf_message : string
}.

Definition RiskFinding_init (level : RiskLevel) (rule_id : string) (reason_code : RiskReasonCode)
    (message : string) : res RiskFinding :=
  rule_id <- require_nonempty "rule_id" (VStr rule_id) ;;
  message <- require_nonempty "message" (VStr message) ;;
  Ok {| rf_level := level; rf_rule_id := rule_id; rf_reason_code := reason_code;
        rf_message := message |}.

Record RiskEvaluation := { re_decision : RiskDecision; re_findings : list RiskFinding }.

Definition RiskEvaluation_init (decision : RiskDecision) (findings : list RiskFinding)
    : res RiskEvaluation :=
  do! guard_r (Bool.eqb (rd_accepted decision) (bool_decide (findings = []))) ValueError
        "decision.accepted must match absence of findings" ;;
  do! guard_r (negb (rd_accepted decision && negb (bool_decide (rd_reason_code decision = RISK_OK))))
        ValueError "accepted decision must use RISK_OK" ;;
  do! guard_r match findings with
              | [] => true
              | f :: _ => bool_decide (rd_reason_code decision = rf_reason_code f)
              end ValueError "decision reason_code must match first finding" ;;
  Ok {| re_decision := decision; re_findings := findings |}.

(** ** canonical.py, on the values a snapshot holds *)

Module Canonical.

Definition of_decimal (d : Dec.decimal) : json := JObj [("$decimal"%string, JStr (Dec.to_str d))].

Definition of_time (t : datetime) : res json :=
  do! guard_r (is_aware t) ValueError "naive datetime cannot be canonicalized" ;;
  Ok (JObj [("$datetime"%string, JStr (isoformat (to_utc t)))]).

(** The items of a set, sorted by their JSON text. *)
Fixpoint insert_text (s : string) (l : list string) : list string :=
  match l with
  | [] => [s]
  | t :: l' => if String.leb (dumps true (JStr s)) (dumps true (JStr t)) then s :: l
               else t :: insert_text s l'
  end.

Definition of_strings (items : gset string) : json :=
  JArr (List.map JStr (fold_right insert_text [] (elements items))).

Definition of_account (s : AccountRiskSnapshot) : res json :=
  observed <- of_time (as_observed_at s) ;;
  Ok (JObj [("account_fingerprint", JStr (as_account_fingerprint s));
            ("available_cash", of_decimal (as_available_cash s));
            ("gross_exposure", of_decimal (as_gross_exposure s));
            ("daily_pnl", of_decimal (as_daily_pnl s));
            ("daily_turnover", of_decimal (as_daily_turnover s));
            ("daily_order_count", JInt (as_daily_order_count s));
            ("daily_cancel_count", JInt (as_daily_cancel_count s));
            ("observed_at", observed)]%string).

Definition of_strategy (s : StrategyRiskSnapshot) : res json :=
  heartbeat <- of_time (ss_heartbeat_at s) ;;
  Ok (JObj [("strategy_id", JStr (ss_strategy_id s));
            ("strategy_version", JStr (ss_strategy_version s));
            ("gross_exposure", of_decimal (ss_gross_exposure s));
            ("security_gross_exposure", of_decimal (ss_security_gross_exposure s));
            ("daily_turnover", of_decimal (ss_daily_turnover s));
            ("position_count", JInt (ss_position_count s));
            ("heartbeat_at", heartbeat)]%string).

Definition of_security (s : SecurityRiskSnapshot) : res json :=
  observed <- of_time (cs_observed_at s) ;;
  Ok (JObj [("symbol", JStr (cs_symbol s));
            ("tick_size", of_decimal (cs_tick_size s));
            ("lower_price_limit", of_decimal (cs_lower_price_limit s));
            ("upper_price_limit", of_decimal (cs_upper_price_limit s));
            ("reference_price", of_decimal (cs_reference_price s));
            ("buy_lot_size", JInt (cs_buy_lot_size s));
            ("sell_lot_size", JInt (cs_sell_lot_size s));
            ("sellable_quantity", JInt (cs_sellable_quantity s));
            ("gross_exposure", of_decimal (cs_gross_exposure s));
            ("observed_at", observed)]%string).

(** [_canonical_value(snapshot)]. *)
Definition of_snapshot (s : RiskSnapshot) : res json :=
  account <- of_account (rs_account s) ;;
  strategy <- of_strategy (rs_strategy s) ;;
  security <- of_security (rs_security s) ;;
  Ok (JObj [("mode", JStr (mode_str (rs_mode s)));
            ("database_healthy", JBool (rs_database_healthy s));
            ("oms_healthy", JBool (rs_oms_healthy s));
            ("leader_held", JBool (rs_leader_held s));
            ("reconciliation_complete", JBool (rs_reconciliation_complete s));
            ("qmt_healthy", JBool (rs_qmt_healthy s));
            ("market_open", JBool (rs_market_open s));
            ("global_ambiguity_block", JBool (rs_global_ambiguity_block s));
            ("blocked_symbols", of_strings (rs_blocked_symbols s));
            ("account", account); ("strategy", strategy); ("security", security)]%string).

Definition snapshot_hash (s : RiskSnapshot) : res string :=
  v <- of_snapshot s ;;
  Ok ("sha256:" +:+ Sha256.hexdigest (utf8 (dumps false v))).

End Canonical.
