(* ===== verification/Risk.v ===== *)
(** * Risk: the rule engine of [risk/engine.py]

    [evaluate_risk]: every rule, in the code's order, over decimal arithmetic
    that rounds and raises as [decimal] does.  The findings of one level are one
    definition; the theorems read an accepted decision back as the limits it
    respects. *)

From S2P Require Import Prelude PyTime Decimal Json Domain RiskModels.
Open Scope Z_scope.
Open Scope py_scope.

Definition SUPPORTED_SUFFIXES : list string := [".SH"; ".SZ"; ".BJ"; ".HGT"; ".SGT"]%string.

Definition is_stale (observed_at now : datetime) (max_age_seconds : Z) : bool :=
  dt_ltb now observed_at || dt_ltb observed_at (add_seconds now (- max_age_seconds)).

Definition projected_long_exposure (side : Side) (current_total current_symbol order_notional :
    Dec.decimal) : res Dec.decimal :=
  match side with
  | BUY => Dec.add current_total order_notional
  | SELL =>
      let reduction := Dec.min2 current_symbol order_notional in
      rest <- Dec.sub current_total reduction ;;
      Ok (Dec.max2 Dec.zero rest)
  end.

(** [if b: reject(level, rule_id, code, message)], then the rest. *)
Definition rule (b : bool) (level : RiskLevel) (rule_id : string) (code : RiskReasonCode)
    (message : string) (rest : res (list RiskFinding)) : res (list RiskFinding) :=
  if b then
    f <- RiskFinding_init level rule_id code message ;;
    findings <- rest ;;
    Ok (f :: findings)
  else rest.

(** ** GLOBAL *)

Definition global_rules (s : RiskSnapshot) (p : RiskPolicy) (order_notional : Dec.decimal)
    : res (list RiskFinding) :=
  rule (negb (rs_database_healthy s)) GLOBAL "GLOBAL_DATABASE_HEALTH" DATABASE_UNHEALTHY
    "database health is not confirmed" (
  rule (negb (rs_oms_healthy s)) GLOBAL "GLOBAL_OMS_HEALTH" DATA_STALE
    "OMS health is not confirmed" (
  rule (negb (rs_leader_held s)) GLOBAL "GLOBAL_LEADER_HELD" LEADER_NOT_HELD
    "active OMS leader ownership is not confirmed" (
  rule (negb (rs_reconciliation_complete s)) GLOBAL "GLOBAL_RECONCILIATION_COMPLETE" DATA_STALE
    "startup reconciliation is incomplete" (
  rule (negb (mode_in (rs_mode s) (rp_permitted_execution_modes p))) GLOBAL
    "GLOBAL_RUNTIME_MODE" MODE_NOT_ARMED
    ("runtime mode " +:+ mode_str (rs_mode s) +:+ " is not permitted by this risk policy") (
  rule (rp_require_qmt_healthy p && negb (rs_qmt_healthy s)) GLOBAL "GLOBAL_QMT_HEALTH" DATA_STALE
    "required QMT health is not confirmed" (
  rule (rs_global_ambiguity_block s) GLOBAL "GLOBAL_BLOCKING_AMBIGUITY" UNKNOWN_ORDER
    "account-wide unresolved execution ambiguity blocks new exposure" (
  rule (negb (rs_market_open s)) GLOBAL "GLOBAL_MARKET_OPEN" MARKET_CLOSED
    "market session is not open for new orders" (
  loss_floor <- Dec.opp (rp_max_daily_loss_abs p) ;;
  rule (Dec.ltb (as_daily_pnl (rs_account s)) loss_floor) GLOBAL "GLOBAL_DAILY_LOSS_LIMIT"
    LIMIT_EXCEEDED "daily loss limit has been exceeded" (
  turnover <- Dec.add (as_daily_turnover (rs_account s)) order_notional ;;
  rule (Dec.ltb (rp_max_daily_turnover p) turnover) GLOBAL "GLOBAL_DAILY_TURNOVER_LIMIT"
    LIMIT_EXCEEDED "projected daily turnover exceeds the account policy limit" (
  rule (rp_max_daily_orders p <? as_daily_order_count (rs_account s) + 1) GLOBAL
    "GLOBAL_DAILY_ORDER_LIMIT" LIMIT_EXCEEDED
    "projected daily order count exceeds the policy limit" (
  rule (rp_max_daily_cancels p <? as_daily_cancel_count (rs_account s)) GLOBAL
    "GLOBAL_DAILY_CANCEL_LIMIT" LIMIT_EXCEEDED
    "daily cancel count already exceeds the policy limit" (Ok [])))))))))))).

(** ** ACCOUNT *)

Definition account_rules (i : OrderIntent) (s : RiskSnapshot) (p : RiskPolicy) (now : datetime)
    (order_notional : Dec.decimal) : res (list RiskFinding) :=
  let a := rs_account s in
  rule (negb (bool_decide (oi_account_fingerprint i = rp_expected_account_fingerprint p))
        || negb (bool_decide (as_account_fingerprint a = rp_expected_account_fingerprint p))
        || negb (bool_decide (as_account_fingerprint a = oi_account_fingerprint i)))
    ACCOUNT "ACCOUNT_FINGERPRINT_MATCH" ACCOUNT_MISMATCH
    "intent, snapshot and deployed account fingerprints must match" (
  rule (is_stale (as_observed_at a) now (rp_account_max_age_seconds p)) ACCOUNT
    "ACCOUNT_SNAPSHOT_FRESHNESS" DATA_STALE
    "account cash/position snapshot is stale or future-dated" (
  rule (Dec.ltb (as_gross_exposure a) (cs_gross_exposure (rs_security s))) ACCOUNT
    "ACCOUNT_SNAPSHOT_CONSISTENCY" DATA_STALE
    "security exposure exceeds account gross exposure" (
  rule (Dec.ltb (as_gross_exposure a) (ss_gross_exposure (rs_strategy s))) ACCOUNT
    "ACCOUNT_STRATEGY_EXPOSURE_CONSISTENCY" DATA_STALE
    "strategy exposure exceeds account gross exposure" (
  rule (Dec.ltb (as_available_cash a) (rp_min_cash_buffer p)) ACCOUNT
    "ACCOUNT_MIN_CASH_BUFFER" LIMIT_EXCEEDED
    "available cash is already below the minimum cash buffer" (
  projected <- projected_long_exposure (oi_side i) (as_gross_exposure a)
                 (cs_gross_exposure (rs_security s)) order_notional ;;
  rule (Dec.ltb (rp_max_account_gross_exposure p) projected) ACCOUNT
    "ACCOUNT_PROJECTED_EXPOSURE" LIMIT_EXCEEDED
    "projected account gross exposure exceeds the policy limit" (Ok [])))))).

(** ** STRATEGY *)

Definition projected_position_count (i : OrderIntent) (t : StrategyRiskSnapshot)
    (order_notional : Dec.decimal) : Z :=
  match oi_side i with
  | BUY => if Dec.eqb (ss_security_gross_exposure t) Dec.zero then ss_position_count t + 1
           else ss_position_count t
  | SELL => if Dec.ltb Dec.zero (ss_security_gross_exposure t)
               && Dec.leb (ss_security_gross_exposure t) order_notional
            then Z.max 0 (ss_position_count t - 1) else ss_position_count t
  end.

Definition strategy_rules (i : OrderIntent) (s : RiskSnapshot) (p : RiskPolicy) (now : datetime)
    (order_notional : Dec.decimal) : res (list RiskFinding) :=
  let t := rs_strategy s in
  let sp := rp_strategy p in
  rule (negb (bool_decide (oi_strategy_id i = sp_strategy_id sp))
        || negb (bool_decide (ss_strategy_id t = sp_strategy_id sp))
        || negb (bool_decide (ss_strategy_id t = oi_strategy_id i))
        || negb (bool_decide (oi_strategy_version i ∈ sp_allowed_versions sp))
        || negb (bool_decide (ss_strategy_version t = oi_strategy_version i)))
    STRATEGY "STRATEGY_ID_VERSION_ALLOWLIST" STRATEGY_NOT_ALLOWED
    "strategy identity/version is not allow-listed or snapshot identity differs" (
  rule (is_stale (ss_heartbeat_at t) now (rp_strategy_max_age_seconds p)) STRATEGY
    "STRATEGY_HEARTBEAT_FRESHNESS" DATA_STALE
    "strategy heartbeat is stale or future-dated" (
  rule (negb (bool_decide (oi_symbol i ∈ sp_allowed_symbols sp))) STRATEGY
    "STRATEGY_SYMBOL_UNIVERSE" STRATEGY_NOT_ALLOWED
    "symbol is outside the strategy allow-list" (
  projected <- projected_long_exposure (oi_side i) (ss_gross_exposure t)
                 (ss_security_gross_exposure t) order_notional ;;
  rule (Dec.ltb (sp_max_gross_exposure sp) projected) STRATEGY
    "STRATEGY_PROJECTED_EXPOSURE" LIMIT_EXCEEDED
    "projected strategy gross exposure exceeds its capital budget" (
  turnover <- Dec.add (ss_daily_turnover t) order_notional ;;
  rule (Dec.ltb (sp_max_daily_turnover sp) turnover) STRATEGY
    "STRATEGY_DAILY_TURNOVER_LIMIT" LIMIT_EXCEEDED
    "projected strategy daily turnover exceeds its limit" (
  rule (sp_max_position_count sp <? projected_position_count i t order_notional) STRATEGY
    "STRATEGY_POSITION_COUNT_LIMIT" LIMIT_EXCEEDED
    "projected strategy position count exceeds its limit" (Ok [])))))).

(** ** SECURITY / ORDER *)

Definition order_rules (i : OrderIntent) (s : RiskSnapshot) (p : RiskPolicy) (now : datetime)
    (order_notional : Dec.decimal) : res (list RiskFinding) :=
  let c := rs_security s in
  expired <- is_expired i now ;;
  rule expired ORDER "ORDER_INTENT_EXPIRY" INTENT_EXPIRED "order intent has expired" (
  rule (negb (bool_decide (cs_symbol c = oi_symbol i))
        || negb (existsb (fun x => endswith x (oi_symbol i)) SUPPORTED_SUFFIXES))
    ORDER "ORDER_SECURITY_SUPPORTED" INVALID_ORDER
    "security snapshot must match intent and use a supported market suffix" (
  rule (is_stale (cs_observed_at c) now (rp_market_max_age_seconds p)) ORDER
    "ORDER_MARKET_DATA_FRESHNESS" DATA_STALE
    "market/security snapshot is stale or future-dated" (
  rule (bool_decide (oi_symbol i ∈ rs_blocked_symbols s)) ORDER
    "ORDER_SYMBOL_AMBIGUITY" UNKNOWN_ORDER
    "unresolved order ambiguity blocks new exposure for this symbol" (
  off_tick <- Dec.rem (oi_limit_price i) (cs_tick_size c) ;;
  rule (negb (Dec.eqb off_tick Dec.zero)) ORDER "ORDER_TICK_SIZE" INVALID_ORDER
    "limit price is not aligned to the supplied tick size" (
  rule (negb (Dec.leb (cs_lower_price_limit c) (oi_limit_price i)
              && Dec.leb (oi_limit_price i) (cs_upper_price_limit c)))
    ORDER "ORDER_PRICE_BAND" INVALID_ORDER
    "limit price is outside the supplied daily price band" (
  gap <- Dec.sub (oi_limit_price i) (cs_reference_price c) ;;
  gap <- Dec.abs gap ;;
  deviation <- Dec.div gap (cs_reference_price c) ;;
  rule (Dec.ltb (rp_max_price_deviation_rate p) deviation) ORDER
    "ORDER_REFERENCE_PRICE_DEVIATION" INVALID_ORDER
    "limit price deviation from reference price exceeds the policy limit" (
  let lot_size := match oi_side i with
                  | BUY => cs_buy_lot_size c | SELL => cs_sell_lot_size c end in
  rule (negb (oi_quantity i mod lot_size =? 0)) ORDER "ORDER_LOT_SIZE" INVALID_ORDER
    "order quantity is not aligned to the supplied lot rule" (
  rule (Dec.ltb (rp_max_order_notional p) order_notional) ORDER
    "ORDER_NOTIONAL_LIMIT" LIMIT_EXCEEDED
    "single-order notional exceeds the policy limit" (
  projected <- projected_long_exposure (oi_side i) (cs_gross_exposure c) (cs_gross_exposure c)
                 order_notional ;;
  rule (Dec.ltb (rp_max_security_gross_exposure p) projected) ORDER
    "ORDER_SECURITY_EXPOSURE_LIMIT" LIMIT_EXCEEDED
    "projected security exposure exceeds the policy limit" (
  match oi_side i with
  | BUY =>
      factor <- Dec.add (Dec.of_Z 1) (rp_fee_buffer_rate p) ;;
      required_cash <- Dec.mul order_notional factor ;;
      left <- Dec.sub (as_available_cash (rs_account s)) required_cash ;;
      rule (Dec.ltb left (rp_min_cash_buffer p)) ORDER "ORDER_BUY_CASH_WITH_FEE_BUFFER"
        LIMIT_EXCEEDED "buy cost plus fee buffer would violate available-cash reserve" (Ok [])
  | SELL =>
      rule (cs_sellable_quantity c <? oi_quantity i) ORDER "ORDER_SELLABLE_QUANTITY"
        LIMIT_EXCEEDED "sell quantity exceeds explicit sellable quantity" (Ok [])
  end)))))))))).

(** ** The evaluation *)

Definition evaluate_risk (i : OrderIntent) (s : RiskSnapshot) (p : RiskPolicy) (now : datetime)
    : res RiskEvaluation :=
  do! guard_r (is_aware now) ValueError "now must be timezone-aware" ;;
  order_notional <- Dec.mul (oi_limit_price i) (Dec.of_Z (oi_quantity i)) ;;
  global <- global_rules s p order_notional ;;
  account <- account_rules i s p now order_notional ;;
  strategy <- strategy_rules i s p now order_notional ;;
  order <- order_rules i s p now order_notional ;;
  let findings := global ++ account ++ strategy ++ order in
  let primary_code := match findings with f :: _ => rf_reason_code f | [] => RISK_OK end in
  hash <- Canonical.snapshot_hash s ;;
  decision <- RiskDecision_init (VBool (bool_decide (findings = []))) (VReason primary_code)
                (VStr (rp_rule_version p)) (VStr hash) (VTime now) ;;
  RiskEvaluation_init decision findings.

(** ** gates.py *)

Definition blocks_new_exposure (status : OrderStatus) : bool :=
  status_in status [SUBMITTING; UNKNOWN; RECONCILING; MANUAL_REVIEW].
