(* ===== verification/RiskFacts.v ===== *)
(** * RiskFacts: what an accepted order respects

    The rules as a table over exact rationals, independent of decimal
    arithmetic; the engine computes that table whenever none of its operations
    rounds; and what holds of an accepted order whatever the rounding. *)

From Stdlib Require Import QArith Qminmax Qabs.
From S2P Require Import Prelude PyTime Decimal Json Domain DecimalFacts RiskModels Risk.
Open Scope Z_scope.

(** ** The rules over rationals *)

Definition Qltb (a b : Q) : bool := negb (Qle_bool b a).

Lemma Qltb_true a b : Qltb a b = true <-> (a < b)%Q.
Proof.
  unfold Qltb. rewrite negb_true_iff, <- not_true_iff_false, Qle_bool_iff.
  split; [apply Qnot_le_lt | apply Qlt_not_le].
Qed.

#[global] Instance Qltb_proper : Proper (Qeq ==> Qeq ==> eq) Qltb.
Proof. intros a a' Ha b b' Hb. apply eq_true_iff_eq. by rewrite !Qltb_true, Ha, Hb. Qed.

Lemma ltb_Q a b : Dec.ltb a b = Qltb (val a) (val b).
Proof. apply eq_true_iff_eq. by rewrite ltb_val, Qltb_true. Qed.

Lemma leb_Q a b : Dec.leb a b = negb (Qltb (val b) (val a)).
Proof.
  apply eq_true_iff_eq. rewrite leb_val, negb_true_iff, <- not_true_iff_false, Qltb_true.
  split; [apply Qle_not_lt | apply Qnot_lt_le].
Qed.

Lemma eqb_Q a b : Dec.eqb a b = Qeq_bool (val a) (val b).
Proof.
  apply eq_true_iff_eq. rewrite Qeq_bool_iff. unfold Dec.eqb.
  assert (Hl : Dec.leb a b = true <-> Dec.cmp a b <> Gt)
    by (unfold Dec.leb; destruct (Dec.cmp a b); naive_solver).
  assert (Hg : Dec.ltb a b = true <-> Dec.cmp a b = Lt)
    by (unfold Dec.ltb; destruct (Dec.cmp a b); naive_solver).
  rewrite leb_val in Hl. rewrite ltb_val in Hg.
  destruct (Dec.cmp a b) eqn:E.
  - split; [intros _ | done]. apply Qle_antisym; [by apply Hl|].
    apply Qnot_lt_le. intros H. by apply Hg in H.
  - split; [done|]. intros H. destruct (Qlt_not_eq (val a) (val b)); [by apply Hg | done].
  - split; [done|]. intros H. destruct (proj1 Hl); [|done]. rewrite H. apply Qle_refl.
Qed.

Definition tag : Type := RiskLevel * string * RiskReasonCode.

Definition rule_tag (level : RiskLevel) (rule_id : string) (code : RiskReasonCode) : tag :=
  (level, rule_id, code).

Definition tag_of (f : RiskFinding) : tag := (rf_level f, rf_rule_id f, rf_reason_code f).

(** The tags whose conditions hold, in order. *)
Definition fired (table : list (bool * tag)) : list tag :=
  List.map snd (List.filter fst table).

(** The long exposure after the order. *)
Definition projected (side : Side) (total symbol notional : Q) : Q :=
  match side with
  | BUY => total + notional
  | SELL => Qmax 0 (total - Qmin symbol notional)
  end.

Definition notional_of (i : OrderIntent) : Q := val (oi_limit_price i) * inject_Z (oi_quantity i).

(** The price is a whole number of ticks. *)
Definition on_tick (price tick : Dec.decimal) : bool :=
  let e := Z.min (Dec.exp price) (Dec.exp tick) in
  Dec.scaled price e mod Dec.scaled tick e =? 0.

Definition positions_after (i : OrderIntent) (t : StrategyRiskSnapshot) : Z :=
  let held := val (ss_security_gross_exposure t) in
  match oi_side i with
  | BUY => if Qeq_bool held 0 then ss_position_count t + 1 else ss_position_count t
  | SELL => if Qltb 0 held && Qle_bool held (notional_of i) then Z.max 0 (ss_position_count t - 1)
            else ss_position_count t
  end.

Section Tables.
Context (i : OrderIntent) (s : RiskSnapshot) (p : RiskPolicy) (now : datetime).
#[local] Abbreviation a := (rs_account s).
#[local] Abbreviation t := (rs_strategy s).
#[local] Abbreviation c := (rs_security s).
#[local] Abbreviation sp := (rp_strategy p).
#[local] Abbreviation n := (notional_of i).

Definition global_table : list (bool * tag) :=
  [(negb (rs_database_healthy s), rule_tag GLOBAL "GLOBAL_DATABASE_HEALTH" DATABASE_UNHEALTHY);
   (negb (rs_oms_healthy s), rule_tag GLOBAL "GLOBAL_OMS_HEALTH" DATA_STALE);
   (negb (rs_leader_held s), rule_tag GLOBAL "GLOBAL_LEADER_HELD" LEADER_NOT_HELD);
   (negb (rs_reconciliation_complete s), rule_tag GLOBAL "GLOBAL_RECONCILIATION_COMPLETE" DATA_STALE);
   (negb (mode_in (rs_mode s) (rp_permitted_execution_modes p)),
     rule_tag GLOBAL "GLOBAL_RUNTIME_MODE" MODE_NOT_ARMED);
   (rp_require_qmt_healthy p && negb (rs_qmt_healthy s), rule_tag GLOBAL "GLOBAL_QMT_HEALTH" DATA_STALE);
   (rs_global_ambiguity_block s, rule_tag GLOBAL "GLOBAL_BLOCKING_AMBIGUITY" UNKNOWN_ORDER);
   (negb (rs_market_open s), rule_tag GLOBAL "GLOBAL_MARKET_OPEN" MARKET_CLOSED);
   (Qltb (val (as_daily_pnl a)) (- val (rp_max_daily_loss_abs p)),
     rule_tag GLOBAL "GLOBAL_DAILY_LOSS_LIMIT" LIMIT_EXCEEDED);
   (Qltb (val (rp_max_daily_turnover p)) (val (as_daily_turnover a) + n),
     rule_tag GLOBAL "GLOBAL_DAILY_TURNOVER_LIMIT" LIMIT_EXCEEDED);
   (rp_max_daily_orders p <? as_daily_order_count a + 1,
     rule_tag GLOBAL "GLOBAL_DAILY_ORDER_LIMIT" LIMIT_EXCEEDED);
   (rp_max_daily_cancels p <? as_daily_cancel_count a,
     rule_tag GLOBAL "GLOBAL_DAILY_CANCEL_LIMIT" LIMIT_EXCEEDED)].

Definition account_table : list (bool * tag) :=
  [(negb (bool_decide (oi_account_fingerprint i = rp_expected_account_fingerprint p)
          && bool_decide (as_account_fingerprint a = rp_expected_account_fingerprint p)),
     rule_tag ACCOUNT "ACCOUNT_FINGERPRINT_MATCH" ACCOUNT_MISMATCH);
   (is_stale (as_observed_at a) now (rp_account_max_age_seconds p),
     rule_tag ACCOUNT "ACCOUNT_SNAPSHOT_FRESHNESS" DATA_STALE);
   (Qltb (val (as_gross_exposure a)) (val (cs_gross_exposure c)),
     rule_tag ACCOUNT "ACCOUNT_SNAPSHOT_CONSISTENCY" DATA_STALE);
   (Qltb (val (as_gross_exposure a)) (val (ss_gross_exposure t)),
     rule_tag ACCOUNT "ACCOUNT_STRATEGY_EXPOSURE_CONSISTENCY" DATA_STALE);
   (Qltb (val (as_available_cash a)) (val (rp_min_cash_buffer p)),
     rule_tag ACCOUNT "ACCOUNT_MIN_CASH_BUFFER" LIMIT_EXCEEDED);
   (Qltb (val (rp_max_account_gross_exposure p))
      (projected (oi_side i) (val (as_gross_exposure a)) (val (cs_gross_exposure c)) n),
     rule_tag ACCOUNT "ACCOUNT_PROJECTED_EXPOSURE" LIMIT_EXCEEDED)].

Definition strategy_table : list (bool * tag) :=
  [(negb (bool_decide (oi_strategy_id i = sp_strategy_id sp)
          && bool_decide (ss_strategy_id t = sp_strategy_id sp)
          && bool_decide (oi_strategy_version i ∈ sp_allowed_versions sp)
          && bool_decide (ss_strategy_version t = oi_strategy_version i)),
     rule_tag STRATEGY "STRATEGY_ID_VERSION_ALLOWLIST" STRATEGY_NOT_ALLOWED);
   (is_stale (ss_heartbeat_at t) now (rp_strategy_max_age_seconds p),
     rule_tag STRATEGY "STRATEGY_HEARTBEAT_FRESHNESS" DATA_STALE);
   (negb (bool_decide (oi_symbol i ∈ sp_allowed_symbols sp)),
     rule_tag STRATEGY "STRATEGY_SYMBOL_UNIVERSE" STRATEGY_NOT_ALLOWED);
   (Qltb (val (sp_max_gross_exposure sp))
      (projected (oi_side i) (val (ss_gross_exposure t)) (val (ss_security_gross_exposure t)) n),
     rule_tag STRATEGY "STRATEGY_PROJECTED_EXPOSURE" LIMIT_EXCEEDED);
   (Qltb (val (sp_max_daily_turnover sp)) (val (ss_daily_turnover t) + n),
     rule_tag STRATEGY "STRATEGY_DAILY_TURNOVER_LIMIT" LIMIT_EXCEEDED);
   (sp_max_position_count sp <? positions_after i t,
     rule_tag STRATEGY "STRATEGY_POSITION_COUNT_LIMIT" LIMIT_EXCEEDED)].

Definition order_table : list (bool * tag) :=
  [(dt_leb (oi_expires_at i) now, rule_tag ORDER "ORDER_INTENT_EXPIRY" INTENT_EXPIRED);
   (negb (bool_decide (cs_symbol c = oi_symbol i)
          && existsb (fun x => endswith x (oi_symbol i)) SUPPORTED_SUFFIXES),
     rule_tag ORDER "ORDER_SECURITY_SUPPORTED" INVALID_ORDER);
   (is_stale (cs_observed_at c) now (rp_market_max_age_seconds p),
     rule_tag ORDER "ORDER_MARKET_DATA_FRESHNESS" DATA_STALE);
   (bool_decide (oi_symbol i ∈ rs_blocked_symbols s),
     rule_tag ORDER "ORDER_SYMBOL_AMBIGUITY" UNKNOWN_ORDER);
   (negb (on_tick (oi_limit_price i) (cs_tick_size c)), rule_tag ORDER "ORDER_TICK_SIZE" INVALID_ORDER);
   (Qltb (val (oi_limit_price i)) (val (cs_lower_price_limit c))
    || Qltb (val (cs_upper_price_limit c)) (val (oi_limit_price i)),
     rule_tag ORDER "ORDER_PRICE_BAND" INVALID_ORDER);
   (Qltb (val (rp_max_price_deviation_rate p))
      (Qabs (val (oi_limit_price i) - val (cs_reference_price c)) / val (cs_reference_price c)),
     rule_tag ORDER "ORDER_REFERENCE_PRICE_DEVIATION" INVALID_ORDER);
   (negb (oi_quantity i mod match oi_side i with
                            | BUY => cs_buy_lot_size c | SELL => cs_sell_lot_size c end =? 0),
     rule_tag ORDER "ORDER_LOT_SIZE" INVALID_ORDER);
   (Qltb (val (rp_max_order_notional p)) n, rule_tag ORDER "ORDER_NOTIONAL_LIMIT" LIMIT_EXCEEDED);
   (Qltb (val (rp_max_security_gross_exposure p))
      (projected (oi_side i) (val (cs_gross_exposure c)) (val (cs_gross_exposure c)) n),
     rule_tag ORDER "ORDER_SECURITY_EXPOSURE_LIMIT" LIMIT_EXCEEDED);
   match oi_side i with
   | BUY =>
       (Qltb (val (as_available_cash a) - n * (1 + val (rp_fee_buffer_rate p)))
          (val (rp_min_cash_buffer p)),
         rule_tag ORDER "ORDER_BUY_CASH_WITH_FEE_BUFFER" LIMIT_EXCEEDED)
   | SELL =>
       (cs_sellable_quantity c <? oi_quantity i,
         rule_tag ORDER "ORDER_SELLABLE_QUANTITY" LIMIT_EXCEEDED)
   end].

Definition violations : list tag :=
  fired (global_table ++ account_table ++ strategy_table ++ order_table).
End Tables.

(** ** The engine computes the table *)

(** [r] is the exact value [q]: the operation neither rounded nor raised. *)
Definition exact (r : res Dec.decimal) (q : Q) : Prop := exists d, r = Ok d /\ val d == q.

(** [m] produces exactly the findings the table fires. *)
Definition runs (m : res (list RiskFinding)) (table : list (bool * tag)) : Prop :=
  exists fs, m = Ok fs /\ List.map tag_of fs = fired table.

Lemma runs_nil : runs (Ok []) [].
Proof. by exists []. Qed.

Lemma runs_rule b b' level rule_id code message rest table :
  strip_nonempty rule_id = true -> strip_nonempty message = true -> b = b' ->
  runs rest table ->
  runs (rule b level rule_id code message rest) ((b', rule_tag level rule_id code) :: table).
Proof.
  intros Hid Hm <- (fs & -> & Hfs). unfold rule, RiskFinding_init, require_nonempty.
  destruct b; [|by exists fs]. rewrite Hid, Hm. simpl. eexists. split; [done|].
  unfold fired in *. simpl. by rewrite Hfs.
Qed.

Lemma runs_bind r q (f : Dec.decimal -> res (list RiskFinding)) table :
  exact r q -> (forall d, val d == q -> runs (f d) table) -> runs (res_bind r f) table.
Proof. intros (d & -> & Hd) Hf. by apply Hf. Qed.

Lemma projected_exact side total symbol notional n :
  val notional == n ->
  (side = BUY -> exact (Dec.add total notional) (val total + n)) ->
  (side = SELL -> exact (Dec.sub total (Dec.min2 symbol notional))
                    (val total - val (Dec.min2 symbol notional))) ->
  exact (projected_long_exposure side total symbol notional)
    (projected side (val total) (val symbol) n).
Proof.
  intros Hn Hb Hs. destruct side; cbn; [by apply Hb|].
  destruct (Hs eq_refl) as (d & -> & Hd). cbn. eexists. split; [done|].
  assert (Hmin : val (Dec.min2 symbol notional) == Qmin (val symbol) n).
  { unfold Dec.min2. rewrite ltb_Q. destruct (Qltb _ _) eqn:E.
    - apply Qltb_true in E. rewrite Q.min_r; [done|]. rewrite <- Hn. by apply Qlt_le_weak.
    - rewrite Q.min_l; [done|]. rewrite <- Hn. apply Qnot_lt_le. intros Hlt.
      by rewrite (proj2 (Qltb_true _ _) Hlt) in E. }
  rewrite Hmin in Hd. rewrite <- Hd. unfold Dec.max2. rewrite ltb_Q, val_zero.
  destruct (Qltb _ _) eqn:E.
  - apply Qltb_true in E. rewrite Q.max_r; [done | by apply Qlt_le_weak].
  - rewrite Q.max_l; [apply val_zero|]. apply Qnot_lt_le. intros Hlt.
    by rewrite (proj2 (Qltb_true _ _) Hlt) in E.
Qed.

(** A decimal as the module builds them, greater than zero, of an exponent
    the context can express. *)
Definition positive (d : Dec.decimal) : Prop :=
  Dec.neg d = false /\ 0 < Dec.coef d /\ Dec.Etiny <= Dec.exp d.

Lemma scaled_positive d e :
  positive d -> e <= Dec.exp d -> Dec.scaled d e = Dec.coef d * 10 ^ (Dec.exp d - e).
Proof. intros (Hn & _) _. unfold Dec.scaled, Dec.scoef. by rewrite Hn. Qed.

Lemma rem_zero a b r :
  positive a -> positive b -> Dec.rem a b = Ok r -> Dec.eqb r Dec.zero = on_tick a b.
Proof.
  intros Ha Hb. rewrite eqb_zero. unfold Dec.rem, on_tick, Dec.is_zero.
  set (e := Z.min (Dec.exp a) (Dec.exp b)).
  rewrite !scaled_positive by (done || lia).
  destruct Ha as (Hna & Hca & Hea), Hb as (Hnb & Hcb & Heb).
  destruct (Z.eqb_spec (Dec.coef b) 0); [lia|]. destruct (Z.eqb_spec (Dec.coef a) 0); [lia|].
  cbn [orb]. set (x := Dec.coef a * _). set (y := Dec.coef b * _).
  assert (Hx : 0 < x) by (apply Z.mul_pos_pos; [done | apply Z.pow_pos_nonneg; lia]).
  assert (Hy : 0 < y) by (apply Z.mul_pos_pos; [done | apply Z.pow_pos_nonneg; lia]).
  destruct (Z.leb_spec (Dec.adjusted a - Dec.adjusted b) (-2)) as [Hd|Hd].
  - unfold Dec.rescale, Dec.is_zero. destruct (Z.eqb_spec (Dec.coef a) 0); [lia|].
    destruct (Z.leb_spec e (Dec.exp a)); [|lia]. fold x. intros Hr.
    apply fix_nonzero in Hr; [|done | cbn; lia].
    rewrite (Z.mod_small x y); [|split; [lia|]].
    { destruct (Z.eqb_spec (Dec.coef r) 0), (Z.eqb_spec x 0); try done; lia. }
    unfold Dec.adjusted in Hd.
    pose proof (ndigits_bounds _ Hca) as [_ Ha]. pose proof (ndigits_bounds _ Hcb) as [Hb _].
    set (ka := Dec.ndigits (Dec.coef a)) in *. set (kb := Dec.ndigits (Dec.coef b)) in *.
    assert (1 <= ka /\ 1 <= kb) by (split; apply ndigits_fuel_pos).
    apply (Z.lt_le_trans _ (10 ^ ka * 10 ^ (Dec.exp a - e))).
    { apply Z.mul_lt_mono_pos_r; [apply Z.pow_pos_nonneg; lia | done]. }
    rewrite <- Z.pow_add_r by lia.
    apply (Z.le_trans _ (10 ^ (kb - 1) * 10 ^ (Dec.exp b - e))).
    { rewrite <- Z.pow_add_r by lia. apply Z.pow_le_mono_r; lia. }
    apply Z.mul_le_mono_nonneg_r; [apply Z.pow_nonneg; lia | done].
  - destruct (_ <=? _); [|done]. destruct (_ <? _); [|done]. intros Hr.
    pose proof (Z.mod_pos_bound x y Hy).
    destruct (Z.eqb_spec (x mod y) 0) as [Hz|Hz].
    + apply fix_zero in Hr; [by rewrite Hr | done].
    + apply fix_nonzero in Hr; [|cbn; lia | cbn; lia].
      destruct (Z.eqb_spec (Dec.coef r) 0); [lia | done].
Qed.

Definition exact_projection (side : Side) (total symbol n : Dec.decimal) : Prop :=
  match side with
  | BUY => exact (Dec.add total n) (val total + val n)
  | SELL => exact (Dec.sub total (Dec.min2 symbol n)) (val total - val (Dec.min2 symbol n))
  end.

(** No money operation of the evaluation rounds; [n] is the notional. *)
Record exact_money (i : OrderIntent) (s : RiskSnapshot) (p : RiskPolicy) (n : Dec.decimal)
    : Prop := {
  em_notional : Dec.mul (oi_limit_price i) (Dec.of_Z (oi_quantity i)) = Ok n;
  em_value : val n == notional_of i;
  em_loss : exact (Dec.opp (rp_max_daily_loss_abs p)) (- val (rp_max_daily_loss_abs p));
  em_turnover : exact (Dec.add (as_daily_turnover (rs_account s)) n)
                  (val (as_daily_turnover (rs_account s)) + val n);
  em_account : exact_projection (oi_side i) (as_gross_exposure (rs_account s))
                 (cs_gross_exposure (rs_security s)) n;
  em_strategy : exact_projection (oi_side i) (ss_gross_exposure (rs_strategy s))
                  (ss_security_gross_exposure (rs_strategy s)) n;
  em_strategy_turnover : exact (Dec.add (ss_daily_turnover (rs_strategy s)) n)
                           (val (ss_daily_turnover (rs_strategy s)) + val n);
  em_tick : is_ok (Dec.rem (oi_limit_price i) (cs_tick_size (rs_security s))) = true;
  em_deviation :
    exact (gap <- Dec.sub (oi_limit_price i) (cs_reference_price (rs_security s)) ;;
           gap <- Dec.abs gap ;; Dec.div gap (cs_reference_price (rs_security s)))%py
      (Qabs (val (oi_limit_price i) - val (cs_reference_price (rs_security s)))
       / val (cs_reference_price (rs_security s)));
  em_security : exact_projection (oi_side i) (cs_gross_exposure (rs_security s))
                  (cs_gross_exposure (rs_security s)) n;
  em_cash : oi_side i = BUY ->
    exact (factor <- Dec.add (Dec.of_Z 1) (rp_fee_buffer_rate p) ;;
           cost <- Dec.mul n factor ;; Dec.sub (as_available_cash (rs_account s)) cost)%py
      (val (as_available_cash (rs_account s)) - val n * (1 + val (rp_fee_buffer_rate p)))
}.

(** What the constructors guarantee of the arguments of an evaluation. *)
Record evaluable (i : OrderIntent) (s : RiskSnapshot) (p : RiskPolicy) : Prop := {
  ev_rule_version : strip_nonempty (rp_rule_version p) = true;
  ev_price : positive (oi_limit_price i);
  ev_tick : positive (cs_tick_size (rs_security s));
  ev_reference : positive (cs_reference_price (rs_security s));
  ev_account_time : is_aware (as_observed_at (rs_account s)) = true;
  ev_strategy_time : is_aware (ss_heartbeat_at (rs_strategy s)) = true;
  ev_security_time : is_aware (cs_observed_at (rs_security s)) = true
}.

Lemma runs_projected side total symbol n q (f : Dec.decimal -> res (list RiskFinding)) table :
  val n == q -> exact_projection side total symbol n ->
  (forall d, val d == projected side (val total) (val symbol) q -> runs (f d) table) ->
  runs (res_bind (projected_long_exposure side total symbol n) f) table.
Proof.
  intros Hn He Hf. eapply runs_bind; [|exact Hf]. apply projected_exact; [done|..];
    intros ->; cbn in He; destruct He as (d & Hd & Hv); exists d; split; try done.
  by rewrite Hv, Hn.
Qed.

Lemma ltb_exact a b q q' : val a == q -> val b == q' -> Dec.ltb a b = Qltb q q'.
Proof. intros Ha Hb. by rewrite ltb_Q, Ha, Hb. Qed.

Ltac rules := repeat first
  [ apply runs_nil
  | apply runs_rule;
      [reflexivity | reflexivity | first [reflexivity | apply ltb_exact; (done || reflexivity)] |] ].

Lemma global_runs i s p n :
  exact_money i s p n -> runs (global_rules s p n) (global_table i s p).
Proof.
  intros He. unfold global_rules, global_table. rules.
  eapply runs_bind; [apply (em_loss _ _ _ _ He) | intros floor Hf]. rules.
  eapply runs_bind; [apply (em_turnover _ _ _ _ He) | intros turnover Ht].
  rewrite (em_value _ _ _ _ He) in Ht. rules.
Qed.

Lemma account_runs i s p now n :
  exact_money i s p n -> runs (account_rules i s p now n) (account_table i s p now).
Proof.
  intros He. unfold account_rules, account_table.
  apply runs_rule; [done | done | |].
  { repeat case_bool_decide; try done. congruence. }
  rules; try apply ltb_Q.
  eapply runs_projected; [apply (em_value _ _ _ _ He) | apply (em_account _ _ _ _ He) | intros d Hd].
  rules.
Qed.

Lemma positions_exact i t n :
  val n == notional_of i -> projected_position_count i t n = positions_after i t.
Proof.
  intros Hn. unfold projected_position_count, positions_after.
  rewrite eqb_Q, (ltb_exact _ _ 0 _ val_zero (Qeq_refl _)), leb_Q, Hn.
  replace (negb _) with (Qle_bool (val (ss_security_gross_exposure t)) (notional_of i))
    by (unfold Qltb; by rewrite negb_involutive).
  by replace (Qeq_bool _ (val Dec.zero)) with (Qeq_bool (val (ss_security_gross_exposure t)) 0)
    by reflexivity.
Qed.

Lemma strategy_runs i s p now n :
  exact_money i s p n -> runs (strategy_rules i s p now n) (strategy_table i s p now).
Proof.
  intros He. unfold strategy_rules, strategy_table.
  apply runs_rule; [done | done | |].
  { repeat case_bool_decide; try done; congruence. }
  rules.
  eapply runs_projected; [apply (em_value _ _ _ _ He) | apply (em_strategy _ _ _ _ He) | intros d Hd].
  rules. eapply runs_bind; [apply (em_strategy_turnover _ _ _ _ He) | intros x Hx].
  rewrite (em_value _ _ _ _ He) in Hx. rules.
  apply runs_rule; [done | done | by rewrite (positions_exact _ _ _ (em_value _ _ _ _ He)) | rules].
Qed.

Lemma runs_bind3 (m : res Dec.decimal) (f : Dec.decimal -> res Dec.decimal)
    (g : Dec.decimal -> Dec.decimal -> res Dec.decimal) q h table :
  exact (res_bind m (fun x => res_bind (f x) (fun y => g x y))) q ->
  (forall d, val d == q -> runs (h d) table) ->
  runs (res_bind m (fun x => res_bind (f x) (fun y => res_bind (g x y) h))) table.
Proof.
  intros (d & Hd & Hv) Hh. apply res_bind_ok in Hd as (x & -> & Hd).
  apply res_bind_ok in Hd as (y & Hy & Hd). cbn. rewrite Hy. cbn. rewrite Hd. by apply Hh.
Qed.

Lemma negb_and_leb a b c :
  negb (Dec.leb a b && Dec.leb b c) = Qltb (val b) (val a) || Qltb (val c) (val b).
Proof. by rewrite !leb_Q, negb_andb, !negb_involutive. Qed.

Lemma order_runs i s p now n :
  exact_money i s p n -> evaluable i s p -> is_aware now = true ->
  runs (order_rules i s p now n) (order_table i s p now).
Proof.
  intros He Hw Hn. pose proof (em_value _ _ _ _ He) as Hv. unfold order_rules, order_table.
  unfold is_expired, require_aware at 1. rewrite Hn. cbn [res_bind]. rules.
  apply runs_rule; [done | done | by rewrite negb_andb |]. rules.
  pose proof (em_tick _ _ _ _ He) as Ht. destruct (Dec.rem _ _) as [r|] eqn:Er; [|done].
  cbn [res_bind]. apply runs_rule; [done | done | |].
  { by rewrite (rem_zero _ _ _ (ev_price _ _ _ Hw) (ev_tick _ _ _ Hw) Er). }
  apply runs_rule; [done | done | apply negb_and_leb |].
  apply (runs_bind3 _ _ (fun _ gap => Dec.div gap _) _ _ _ (em_deviation _ _ _ _ He)). intros d Hd.
  rules. eapply runs_projected; [exact Hv | apply (em_security _ _ _ _ He) | intros x Hx].
  rules. pose proof (em_cash _ _ _ _ He) as Hc. destruct (oi_side i).
  - apply (runs_bind3 _ _ (fun _ cost => Dec.sub _ cost) _ _ _ (Hc eq_refl)). intros y Hy.
    rewrite Hv in Hy. rules.
  - rules.
Qed.

Lemma fired_app t1 t2 : fired (t1 ++ t2) = fired t1 ++ fired t2.
Proof. unfold fired. by rewrite List.filter_app, List.map_app. Qed.

Lemma hash_ok i s p : evaluable i s p -> exists h, Canonical.snapshot_hash s = Ok h /\
                                                   strip_nonempty h = true.
Proof.
  intros Hw. unfold Canonical.snapshot_hash, Canonical.of_snapshot, Canonical.of_account,
    Canonical.of_strategy, Canonical.of_security, Canonical.of_time, guard_r.
  rewrite (ev_account_time _ _ _ Hw), (ev_strategy_time _ _ _ Hw), (ev_security_time _ _ _ Hw).
  cbn [res_bind]. eexists. split; reflexivity.
Qed.

(** C22. The engine is the rule table.  When no money operation rounds, on
    validated inputs at an aware instant, [evaluate_risk] returns: its findings
    are exactly the rules violated over exact rationals, in the fixed order;
    the order is accepted when there is none, and otherwise the reason is the
    first violation's; the decision names the policy's version, the hash of the
    snapshot and the instant. *)
Theorem evaluate_exact i s p now n :
  exact_money i s p n -> evaluable i s p -> is_aware now = true ->
  exists ev, evaluate_risk i s p now = Ok ev /\
    List.map tag_of (re_findings ev) = violations i s p now /\
    rd_accepted (re_decision ev) = bool_decide (violations i s p now = []) /\
    rd_reason_code (re_decision ev) = match violations i s p now with
                                      | [] => RISK_OK
                                      | (_, _, code) :: _ => code
                                      end /\
    rd_rule_version (re_decision ev) = rp_rule_version p /\
    Canonical.snapshot_hash s = Ok (rd_snapshot_hash (re_decision ev)) /\
    rd_decided_at (re_decision ev) = now.
Proof.
  intros He Hw Hn.
  destruct (global_runs i s p n He) as (g & Hg & Tg).
  destruct (account_runs i s p now n He) as (a & Ha & Ta).
  destruct (strategy_runs i s p now n He) as (t & Ht & Tt).
  destruct (order_runs i s p now n He Hw Hn) as (o & Ho & To).
  destruct (hash_ok i s p Hw) as (h & Hh & Hs).
  unfold evaluate_risk, guard_r. rewrite Hn, (em_notional _ _ _ _ He). cbn [res_bind].
  rewrite Hg, Ha, Ht, Ho, Hh. cbn [res_bind].
  set (fs := g ++ a ++ t ++ o).
  assert (Hv : List.map tag_of fs = violations i s p now).
  { unfold fs, violations. by rewrite !List.map_app, !fired_app, Tg, Ta, Tt, To. }
  rewrite <- Hv. unfold RiskDecision_init, require_nonempty, require_aware.
  rewrite (ev_rule_version _ _ _ Hw), Hs, Hn. cbn [res_bind].
  unfold RiskEvaluation_init. cbn [rd_accepted rd_reason_code].
  destruct fs as [|f fs']; cbn; [by eexists|].
  rewrite (bool_decide_true (rf_reason_code f = _)) by done. cbn. by eexists.
Qed.

(** ** Accepted orders *)

Lemma rule_nil b level rule_id code message rest :
  rule b level rule_id code message rest = Ok [] -> b = false /\ rest = Ok [].
Proof.
  unfold rule. destruct b; [|done]. intros H.
  apply res_bind_ok in H as (f & _ & H). apply res_bind_ok in H as (fs & _ & [=]).
Qed.

Ltac no_finding :=
  repeat match goal with
  | H : rule _ _ _ _ _ _ = Ok [] |- _ => apply rule_nil in H; destruct H as [? H]
  | H : res_bind _ _ = Ok [] |- _ => apply res_bind_ok in H; destruct H as (? & ? & H)
  end; bool_to_prop.

Definition accepts (i : OrderIntent) (s : RiskSnapshot) (p : RiskPolicy) (now : datetime) : Prop :=
  exists ev, evaluate_risk i s p now = Ok ev /\ rd_accepted (re_decision ev) = true.

Lemma accepted_rules i s p now :
  accepts i s p now ->
  is_aware now = true /\ exists n,
  Dec.mul (oi_limit_price i) (Dec.of_Z (oi_quantity i)) = Ok n /\
  global_rules s p n = Ok [] /\ account_rules i s p now n = Ok [] /\
  strategy_rules i s p now n = Ok [] /\ order_rules i s p now n = Ok [].
Proof.
  intros (ev & He & Ha). unfold evaluate_risk in He. inv_ok. split; [done|].
  unfold RiskEvaluation_init in *. inv_ok. cbn in Ha.
  match goal with H : RiskDecision_init _ _ _ _ _ = Ok _ |- _ =>
    unfold RiskDecision_init in H; inv_ok end.
  cbn in Ha. bool_to_prop.
  repeat match goal with H : _ ++ _ = [] |- _ => apply app_eq_nil in H as [-> ?] end.
  subst. by eexists.
Qed.

Lemma stale_false observed now secs :
  is_stale observed now secs = false ->
  instant now - 1000000 * secs <= instant observed <= instant now.
Proof.
  unfold is_stale, dt_ltb, add_seconds. intros H. bool_to_prop. unfold instant in *. cbn in *. lia.
Qed.

Lemma fired_nil table : fired table = [] -> Forall (fun x => x.1 = false) table.
Proof.
  unfold fired. induction table as [|[b x] table IH]; cbn; [by constructor|].
  destruct b; cbn; [done|]. intros H. constructor; [done | by apply IH].
Qed.

Lemma runs_accepted m table : runs m table -> m = Ok [] -> Forall (fun x => x.1 = false) table.
Proof. intros (fs & -> & Hf) [= ->]. by apply fired_nil. Qed.

Lemma Qltb_false a b : Qltb a b = false <-> (b <= a)%Q.
Proof.
  rewrite <- not_true_iff_false, Qltb_true. split; [apply Qnot_lt_le | apply Qle_not_lt].
Qed.

Lemma accepted_gates_hold i s p now :
  accepts i s p now -> simulation_only (rp_permitted_execution_modes p) = true ->
  let a := rs_account s in let t := rs_strategy s in let c := rs_security s in
  (rs_mode s = SIMULATION /\ rs_database_healthy s = true /\ rs_oms_healthy s = true /\
   rs_leader_held s = true /\ rs_reconciliation_complete s = true /\ rs_market_open s = true /\
   (rp_require_qmt_healthy p = true -> rs_qmt_healthy s = true)) /\
  (rs_global_ambiguity_block s = false /\ oi_symbol i ∉ rs_blocked_symbols s) /\
  (oi_account_fingerprint i = rp_expected_account_fingerprint p /\
   as_account_fingerprint a = rp_expected_account_fingerprint p /\
   oi_strategy_id i = sp_strategy_id (rp_strategy p) /\ ss_strategy_id t = oi_strategy_id i /\
   oi_strategy_version i ∈ sp_allowed_versions (rp_strategy p) /\
   ss_strategy_version t = oi_strategy_version i /\
   oi_symbol i ∈ sp_allowed_symbols (rp_strategy p) /\ cs_symbol c = oi_symbol i) /\
  Forall (fun '(at_, age) => instant now - 1000000 * age <= instant at_ <= instant now)
    [(as_observed_at a, rp_account_max_age_seconds p);
     (ss_heartbeat_at t, rp_strategy_max_age_seconds p);
     (cs_observed_at c, rp_market_max_age_seconds p)] /\
  instant now < instant (oi_expires_at i) /\
  (as_daily_order_count a + 1 <= rp_max_daily_orders p /\
   as_daily_cancel_count a <= rp_max_daily_cancels p) /\
  match oi_side i with
  | BUY => oi_quantity i mod cs_buy_lot_size c = 0
  | SELL => oi_quantity i mod cs_sell_lot_size c = 0 /\ oi_quantity i <= cs_sellable_quantity c
  end.
Proof.
  intros Ha Hp. cbv zeta. destruct (accepted_rules _ _ _ _ Ha) as (Hn & n & _ & Hg & Hac & Ht & Ho).
  unfold global_rules in Hg. unfold account_rules in Hac. unfold strategy_rules in Ht.
  unfold order_rules, is_expired, require_aware in Ho. rewrite Hn in Ho. cbn [res_bind] in Ho.
  no_finding. unfold dt_leb in *.
  repeat match goal with H : is_stale _ _ _ = false |- _ => apply stale_false in H end.
  unfold simulation_only, mode_in in *. bool_to_prop.
  assert (Hm : rs_mode s = SIMULATION).
  { match goal with H : forallb _ _ = true |- _ => rewrite forallb_forall in H; rename H into Hall end.
    match goal with H : rs_mode s ∈ _ |- _ => apply list_elem_of_In, Hall in H end. by bool_to_prop. }
  repeat split; auto; try congruence.
  - intros Hq. match goal with H : rp_require_qmt_healthy p && _ = false |- _ =>
      rewrite Hq in H; by apply negb_false_iff in H end.
  - destruct (oi_side i); bool_to_prop; [done|]. no_finding. by split.
Qed.

(** C23. Every gate was open.  Whatever the rounding, an order that
    [evaluate_risk] accepts under a policy that permits SIMULATION only was
    evaluated in SIMULATION, with the database, the OMS, the leadership, the
    reconciliation and the market confirmed, no unresolved ambiguity on the
    account or the symbol, the identities of the deployed account and strategy,
    fresh facts that are not from the future, an intent that has not expired, a
    whole number of lots, and counts and sellable quantity within the limits. *)
Theorem accepted_gates i s p now :
  accepts i s p now -> simulation_only (rp_permitted_execution_modes p) = true ->
  let a := rs_account s in let t := rs_strategy s in let c := rs_security s in
  (rs_mode s = SIMULATION /\ rs_database_healthy s = true /\ rs_oms_healthy s = true /\
   rs_leader_held s = true /\ rs_reconciliation_complete s = true /\ rs_market_open s = true /\
   (rp_require_qmt_healthy p = true -> rs_qmt_healthy s = true)) /\
  (rs_global_ambiguity_block s = false /\ oi_symbol i ∉ rs_blocked_symbols s) /\
  (oi_account_fingerprint i = rp_expected_account_fingerprint p /\
   as_account_fingerprint a = rp_expected_account_fingerprint p /\
   oi_strategy_id i = sp_strategy_id (rp_strategy p) /\ ss_strategy_id t = oi_strategy_id i /\
   oi_strategy_version i ∈ sp_allowed_versions (rp_strategy p) /\
   ss_strategy_version t = oi_strategy_version i /\
   oi_symbol i ∈ sp_allowed_symbols (rp_strategy p) /\ cs_symbol c = oi_symbol i) /\
  Forall (fun '(at_, age) => instant now - 1000000 * age <= instant at_ <= instant now)
    [(as_observed_at a, rp_account_max_age_seconds p);
     (ss_heartbeat_at t, rp_strategy_max_age_seconds p);
     (cs_observed_at c, rp_market_max_age_seconds p)] /\
  instant now < instant (oi_expires_at i) /\
  (as_daily_order_count a + 1 <= rp_max_daily_orders p /\
   as_daily_cancel_count a <= rp_max_daily_cancels p) /\
  match oi_side i with
  | BUY => oi_quantity i mod cs_buy_lot_size c = 0
  | SELL => oi_quantity i mod cs_sell_lot_size c = 0 /\ oi_quantity i <= cs_sellable_quantity c
  end.
Proof. apply accepted_gates_hold. Qed.

(** C24. Money limits hold exactly.  When no money operation rounds, an accepted
    order keeps, as rational numbers: its notional, the account's and the
    strategy's turnover and the daily loss within the policy; its price inside
    the daily band, on a tick and near the reference; and a buy leaves account,
    strategy and security exposure within their limits and, fees included, the
    cash reserve untouched. *)
Theorem accepted_limits i s p now n :
  accepts i s p now -> exact_money i s p n -> evaluable i s p ->
  let a := rs_account s in let t := rs_strategy s in let c := rs_security s in
  let price := val (oi_limit_price i) in
  (notional_of i <= val (rp_max_order_notional p) /\
   val (as_daily_turnover a) + notional_of i <= val (rp_max_daily_turnover p) /\
   val (ss_daily_turnover t) + notional_of i <= val (sp_max_daily_turnover (rp_strategy p)) /\
   - val (rp_max_daily_loss_abs p) <= val (as_daily_pnl a) /\
   val (cs_lower_price_limit c) <= price <= val (cs_upper_price_limit c) /\
   Qabs (price - val (cs_reference_price c)) / val (cs_reference_price c)
     <= val (rp_max_price_deviation_rate p))%Q /\
  on_tick (oi_limit_price i) (cs_tick_size c) = true /\
  (oi_side i = BUY ->
   val (as_gross_exposure a) + notional_of i <= val (rp_max_account_gross_exposure p) /\
   val (ss_gross_exposure t) + notional_of i <= val (sp_max_gross_exposure (rp_strategy p)) /\
   val (cs_gross_exposure c) + notional_of i <= val (rp_max_security_gross_exposure p) /\
   val (rp_min_cash_buffer p)
     <= val (as_available_cash a) - notional_of i * (1 + val (rp_fee_buffer_rate p)))%Q.
Proof.
  intros Ha He Hw. cbv zeta. destruct (accepted_rules _ _ _ _ Ha) as (Hn & n' & Hm & Hg & Hac & Ht & Ho).
  rewrite (em_notional _ _ _ _ He) in Hm. injection Hm as <-.
  apply (runs_accepted _ _ (global_runs i s p n He)) in Hg.
  apply (runs_accepted _ _ (account_runs i s p now n He)) in Hac.
  apply (runs_accepted _ _ (strategy_runs i s p now n He)) in Ht.
  apply (runs_accepted _ _ (order_runs i s p now n He Hw Hn)) in Ho.
  unfold global_table in Hg. unfold account_table in Hac. unfold strategy_table in Ht.
  unfold order_table in Ho.
  repeat match goal with H : Forall _ (_ :: _) |- _ => apply Forall_cons in H as [? H] end.
  cbn [fst] in *. bool_to_prop. rewrite ?Qltb_false in *.
  repeat split; try done. all: match goal with H : oi_side _ = BUY |- _ => rewrite H in *; cbn [fst projected] in * end.
  all: rewrite ?Qltb_false in *; done.
Qed.

(** ** Errors *)

(** A signal of the decimal context, or an exponent too far for a quotient. *)
Definition num_error (e : exn) : Prop :=
  exn_cls e = DecimalOverflow \/ exn_cls e = DecimalInvalidOperation.

Definition errs {A} (m : res A) : Prop := forall e, m = Err e -> num_error e.

Lemma errs_bind {A B} (m : res A) (f : A -> res B) :
  errs m -> (forall a, m = Ok a -> errs (f a)) -> errs (res_bind m f).
Proof.
  intros Hm Hf e He. apply res_bind_err in He as [He|(a & Ha & He)]; [by apply Hm | by eapply Hf].
Qed.

Lemma errs_ok {A} (a : A) : errs (Ok a).
Proof. done. Qed.

Lemma errs_fix d : errs (Dec.fix_dec d).
Proof.
  intros e. unfold Dec.fix_dec. repeat case_match; try done; intros [= <-]; by left.
Qed.

Lemma errs_div a b : Dec.coef b <> 0 -> errs (Dec.div a b).
Proof.
  intros Hb. unfold Dec.div, Dec.is_zero. destruct (Z.eqb_spec (Dec.coef b) 0); [done|].
  repeat case_match; apply errs_fix.
Qed.

Lemma errs_rem a b : errs (Dec.rem a b).
Proof.
  intros e. unfold Dec.rem. repeat case_match; try apply errs_fix; intros [= <-]; by right.
Qed.

Lemma errs_projected side total symbol n : errs (projected_long_exposure side total symbol n).
Proof.
  destruct side; [apply errs_fix|]. apply errs_bind; [apply errs_fix | intros; apply errs_ok].
Qed.

Lemma errs_rule b level rule_id code message rest :
  strip_nonempty rule_id = true -> strip_nonempty message = true -> errs rest ->
  errs (rule b level rule_id code message rest).
Proof.
  intros Hi Hm Hr. unfold rule, RiskFinding_init, require_nonempty. rewrite Hi, Hm. destruct b; [|done].
  apply errs_bind; [apply errs_ok | intros f _]. apply errs_bind; [done | intros; apply errs_ok].
Qed.

Ltac errs := repeat first
  [ apply errs_ok | apply errs_fix | apply errs_rem | apply errs_projected
  | apply errs_rule; [reflexivity | reflexivity |]
  | apply errs_bind; [|intros ? _] ].

(** Only arithmetic fails.  On validated inputs at an aware instant the only
    exceptions [evaluate_risk] can raise are the decimal context's: an overflow
    of the exponent, or a price of too many ticks. *)
Theorem evaluate_errors i s p now e :
  evaluable i s p -> is_aware now = true -> evaluate_risk i s p now = Err e -> num_error e.
Proof.
  intros Hw Hn. revert e. change (errs (evaluate_risk i s p now)).
  destruct (hash_ok i s p Hw) as (h & Hh & Hs).
  unfold evaluate_risk, guard_r. rewrite Hn. cbn [res_bind].
  apply errs_bind; [apply errs_fix | intros n _].
  apply errs_bind; [unfold global_rules; errs | intros g _].
  apply errs_bind; [unfold account_rules; errs | intros a _].
  apply errs_bind; [unfold strategy_rules; errs | intros t _].
  apply errs_bind; [|intros o _].
  - unfold order_rules, is_expired, require_aware. rewrite Hn. cbn [res_bind]. errs.
    + apply errs_div. destruct (ev_reference _ _ _ Hw) as (_ & ? & _). lia.
    + destruct (oi_side i); errs.
  - rewrite Hh. cbn [res_bind]. unfold RiskDecision_init, require_nonempty, require_aware.
    rewrite (ev_rule_version _ _ _ Hw), Hs, Hn. cbn [res_bind].
    unfold RiskEvaluation_init. cbn [rd_accepted rd_reason_code].
    destruct (g ++ a ++ t ++ o); cbn; [apply errs_ok|]. rewrite bool_decide_true by done. apply errs_ok.
Qed.

(** ** The policy *)

Record policy_wf (p : RiskPolicy) : Prop := {
  pw_version : strip_nonempty (rp_rule_version p) = true;
  pw_account : strip_nonempty (rp_expected_account_fingerprint p) = true;
  pw_modes : forall m, m ∈ rp_permitted_execution_modes p <-> m = SIMULATION;
  pw_ages : 0 < rp_account_max_age_seconds p /\ 0 < rp_strategy_max_age_seconds p /\
            0 < rp_market_max_age_seconds p;
  pw_limits : Forall (fun d => 0 <= val d)%Q
    [rp_min_cash_buffer p; rp_fee_buffer_rate p; rp_max_account_gross_exposure p;
     rp_max_daily_loss_abs p; rp_max_daily_turnover p; rp_max_order_notional p;
     rp_max_security_gross_exposure p; rp_max_price_deviation_rate p];
  pw_rates : (val (rp_fee_buffer_rate p) < 1 /\ val (rp_max_price_deviation_rate p) < 1)%Q;
  pw_counts : 0 <= rp_max_daily_orders p /\ 0 <= rp_max_daily_cancels p
}.

Lemma risk_decimal_ok name v d :
  Risk.require_decimal name v = Ok d -> v = VDec (Dec.Fin d) /\ (0 <= val d)%Q.
Proof.
  unfold Risk.require_decimal, raise. destruct v as [| | | |[]| | |]; try done.
  destruct (Dec.ltb _ _) eqn:E; [done|]. intros [= <-]. split; [done|].
  apply ltb_false in E. by rewrite val_zero in E.
Qed.

Lemma risk_nonnegative_ok name v z :
  Risk.require_nonnegative_int name v = Ok z -> v = VInt z /\ 0 <= z.
Proof.
  unfold Risk.require_nonnegative_int, raise. destruct v; try done.
  case_match; [done|]. intros [= <-]. bool_to_prop. done.
Qed.

Lemma risk_positive_ok name v z :
  Risk.require_positive_int name v = Ok z -> v = VInt z /\ 0 < z.
Proof.
  unfold Risk.require_positive_int, raise. destruct v; try done.
  case_match; [done|]. intros [= <-]. bool_to_prop. done.
Qed.

Lemma simulation_only_spec modes :
  simulation_only modes = true -> forall m, m ∈ modes <-> m = SIMULATION.
Proof.
  unfold simulation_only, mode_in. intros H m. bool_to_prop. split; [|by intros ->].
  intros Hm. match goal with H : forallb _ _ = true |- _ => rewrite forallb_forall in H;
    specialize (H m (proj1 (list_elem_of_In _ _) Hm)) end. by bool_to_prop.
Qed.

(** A policy that was constructed permits SIMULATION and nothing else, has
    positive maximal ages, non-negative limits and counts, fee and deviation
    rates below one and non-blank identities. *)
Theorem RiskPolicy_init_wf v a modes q aa sa ma cash fee gross loss turn ords cans ntl sec dev st p :
  RiskPolicy_init v a modes q aa sa ma cash fee gross loss turn ords cans ntl sec dev st = Ok p ->
  policy_wf p /\ rp_permitted_execution_modes p = modes /\ rp_strategy p = st.
Proof.
  unfold RiskPolicy_init. intros H. inv_ok.
  repeat match goal with
  | H : require_nonempty _ _ = Ok _ |- _ => apply require_nonempty_ok in H as [-> H]
  | H : Risk.require_decimal _ _ = Ok _ |- _ => apply risk_decimal_ok in H as [-> H]
  | H : Risk.require_nonnegative_int _ _ = Ok _ |- _ => apply risk_nonnegative_ok in H as [-> H]
  | H : Risk.require_positive_int _ _ = Ok _ |- _ => apply risk_positive_ok in H as [-> H]
  | H : Dec.ltb _ (Dec.of_Z 1) = true |- _ => apply ltb_val in H; rewrite (val_of_Z 1) in H
  end.
  split; [|done]. split; cbn; try done.
  - by apply simulation_only_spec.
  - by repeat constructor.
Qed.

(** ** A concrete evaluation *)

Definition yuan (n : Z) : Dec.decimal := Dec.D false (100 * n) (-2).
Definition demo_now : datetime := DT 1750000001000000 (Some 0).

Definition demo_policy_args (modes : list RuntimeMode) : res RiskPolicy :=
  let d n := VDec (Dec.Fin (yuan n)) in
  let rate := VDec (Dec.Fin (Dec.D false 5 (-2))) in
  RiskPolicy_init (VStr "v1") (VStr (oi_account_fingerprint demo_intent)) modes (VBool true)
    (VInt 30) (VInt 30) (VInt 10) (d 1000) rate (d 500000) (d 10000) (d 200000) (VInt 50)
    (VInt 20) (d 50000) (d 100000) rate
    {| sp_strategy_id := "strategy"; sp_allowed_versions := {["1"%string]};
       sp_allowed_symbols := {["600000.SH"%string]}; sp_max_gross_exposure := yuan 300000;
       sp_max_daily_turnover := yuan 100000; sp_max_position_count := 5 |}.

Definition demo_policy : RiskPolicy :=
  match demo_policy_args [SIMULATION] with
  | Ok p => p
  | Err _ =>
      {| rp_rule_version := ""; rp_expected_account_fingerprint := "";
         rp_permitted_execution_modes := []; rp_require_qmt_healthy := true;
         rp_account_max_age_seconds := 0; rp_strategy_max_age_seconds := 0;
         rp_market_max_age_seconds := 0; rp_min_cash_buffer := Dec.zero;
         rp_fee_buffer_rate := Dec.zero; rp_max_account_gross_exposure := Dec.zero;
         rp_max_daily_loss_abs := Dec.zero; rp_max_daily_turnover := Dec.zero;
         rp_max_daily_orders := 0; rp_max_daily_cancels := 0; rp_max_order_notional := Dec.zero;
         rp_max_security_gross_exposure := Dec.zero; rp_max_price_deviation_rate := Dec.zero;
         rp_strategy := {| sp_strategy_id := ""; sp_allowed_versions := ∅;
           sp_allowed_symbols := ∅; sp_max_gross_exposure := Dec.zero;
           sp_max_daily_turnover := Dec.zero; sp_max_position_count := 0 |} |}
  end.

Definition demo_snapshot (market_open : bool) : RiskSnapshot :=
  {| rs_mode := SIMULATION; rs_database_healthy := true; rs_oms_healthy := true;
     rs_leader_held := true; rs_reconciliation_complete := true; rs_qmt_healthy := true;
     rs_market_open := market_open; rs_global_ambiguity_block := false; rs_blocked_symbols := ∅;
     rs_account := {| as_account_fingerprint := oi_account_fingerprint demo_intent;
       as_available_cash := yuan 100000; as_gross_exposure := yuan 20000; as_daily_pnl := yuan 0;
       as_daily_turnover := yuan 3000; as_daily_order_count := 2; as_daily_cancel_count := 1;
       as_observed_at := demo_now |};
     rs_strategy := {| ss_strategy_id := "strategy"; ss_strategy_version := "1";
       ss_gross_exposure := yuan 10000; ss_security_gross_exposure := yuan 0;
       ss_daily_turnover := yuan 3000; ss_position_count := 1; ss_heartbeat_at := demo_now |};
     rs_security := {| cs_symbol := "600000.SH"; cs_tick_size := Dec.D false 1 (-2);
       cs_lower_price_limit := Dec.D false 950 (-2); cs_upper_price_limit := Dec.D false 1150 (-2);
       cs_reference_price := Dec.D false 1050 (-2); cs_buy_lot_size := 100; cs_sell_lot_size := 1;
       cs_sellable_quantity := 0; cs_gross_exposure := yuan 0; cs_observed_at := demo_now |} |}.

Definition demo_notional : Dec.decimal := Dec.D false 105000 (-2).

Lemma demo_exact b : exact_money demo_intent (demo_snapshot b) demo_policy demo_notional.
Proof.
  split; try (vm_compute; reflexivity);
    try intros _; eexists; (split; [vm_compute; reflexivity | vm_compute; reflexivity]).
Qed.

Lemma demo_evaluable b : evaluable demo_intent (demo_snapshot b) demo_policy.
Proof. split; try (vm_compute; reflexivity); repeat split; vm_compute; (done || discriminate). Qed.

Lemma demo_accepts : accepts demo_intent (demo_snapshot true) demo_policy demo_now.
Proof. eexists. split; [vm_compute; reflexivity | reflexivity]. Qed.

Lemma evaluate_exact_witness :
  violations demo_intent (demo_snapshot false) demo_policy demo_now
    = [(GLOBAL, "GLOBAL_MARKET_OPEN"%string, MARKET_CLOSED)] /\
  exists ev, evaluate_risk demo_intent (demo_snapshot false) demo_policy demo_now = Ok ev /\
    List.map tag_of (re_findings ev)
      = violations demo_intent (demo_snapshot false) demo_policy demo_now.
Proof.
  split; [vm_compute; reflexivity|].
  destruct (evaluate_exact demo_intent (demo_snapshot false) demo_policy demo_now demo_notional
    (demo_exact false) (demo_evaluable false) eq_refl) as (ev & He & Hv & _).
  exists ev. split; [exact He | exact Hv].
Defined.

Lemma accepted_gates_witness :
  accepts demo_intent (demo_snapshot true) demo_policy demo_now /\
  rs_mode (demo_snapshot true) = SIMULATION.
Proof.
  split; [exact demo_accepts|].
  exact (proj1 (proj1 (accepted_gates demo_intent (demo_snapshot true) demo_policy demo_now
    demo_accepts ltac:(vm_compute; reflexivity)))).
Defined.

Lemma accepted_limits_witness :
  accepts demo_intent (demo_snapshot true) demo_policy demo_now /\
  (notional_of demo_intent <= val (rp_max_order_notional demo_policy))%Q.
Proof.
  split; [exact demo_accepts|].
  exact (proj1 (proj1 (accepted_limits demo_intent (demo_snapshot true) demo_policy demo_now
    demo_notional demo_accepts (demo_exact true) (demo_evaluable true)))).
Defined.

(** A price whose exponent overflows the context. *)
Definition demo_huge : OrderIntent :=
  {| oi_client_order_id := "cid-1"; oi_strategy_id := "strategy"; oi_strategy_version := "1";
     oi_account_fingerprint := oi_account_fingerprint demo_intent;
     oi_symbol := "600000.SH"; oi_side := BUY; oi_quantity := 100;
     oi_limit_price := Dec.D false 1 999998;
     oi_created_at := oi_created_at demo_intent; oi_expires_at := oi_expires_at demo_intent;
     oi_signal_id := "signal"; oi_reason_code := "reason"; oi_order_type := LIMIT |}.

Lemma evaluate_errors_witness :
  exists e, evaluate_risk demo_huge (demo_snapshot true) demo_policy demo_now = Err e /\ num_error e.
Proof.
  assert (Hw : evaluable demo_huge (demo_snapshot true) demo_policy)
    by (split; try (vm_compute; reflexivity); repeat split; vm_compute; (done || discriminate)).
  eexists. split; [vm_compute; reflexivity|].
  apply (evaluate_errors demo_huge (demo_snapshot true) demo_policy demo_now _ Hw eq_refl).
  vm_compute. reflexivity.
Defined.

Lemma RiskPolicy_init_wf_witness :
  demo_policy_args [SIMULATION] = Ok demo_policy /\ policy_wf demo_policy.
Proof.
  assert (H : demo_policy_args [SIMULATION] = Ok demo_policy) by (vm_compute; reflexivity).
  split; [exact H|]. unfold demo_policy_args in H. cbv zeta in H.
  exact (proj1 (RiskPolicy_init_wf _ _ _ _ _ _ _ _ _ _ _ _ _ _ _ _ _ _ _ H)).
Defined.
