(* ===== verification/RiskOms.v ===== *)
(** * RiskOms: policy above the Core

    [RiskManagedOms] (service/risk_oms.py): the runtime adapter that evaluates
    an intent against the risk policy and hands the decision to
    [OfflineOms.submit_authorized_intent].  The theorem says what stands between
    a policy's refusal and the broker. *)

From S2P Require Import Prelude PyTime Decimal Json Domain Db Leader Repository OrderStore.
From S2P Require Import BrokerEvidence Evidence Drivers Service System RiskModels Risk RiskFacts.
Open Scope Z_scope.
Open Scope oms_scope.

Section RiskOms.
Context {D : Type} {driver : ExecutionDriver D} {env : Env}.
Abbreviation R := (oms * D)%type.
Implicit Types (w : world R).
(** The adapter's [clock]; [datetime.now(timezone.utc)] unless given. *)
Context (clock : M R datetime).
Context (policy : RiskPolicy).

Definition risk_submit_intent (intent : OrderIntent) (snapshot : RiskSnapshot)
    : M R (SubmitResult RiskEvaluation) :=
  now <- clock ;;
  do! guardM (is_aware now) ValueError "RiskManagedOms clock must be timezone-aware" ;;
  evaluation <- lift (evaluate_risk intent snapshot policy now) ;;
  submit_authorized_intent intent (re_decision evaluation) (Some evaluation).

(** ** Refusals do not reach the broker *)

Hypothesis clock_quiet : quiet clock.

(** The order was created, refused and nothing else: no reservation. *)
Definition refused (i : OrderIntent) (decision : RiskDecision) (d : db) : Prop :=
  exists r, tbl_get (d_orders d) (oi_key i) = Some r /\ o_status r = RISK_REJECTED /\
    o_submit_call_started r = false /\ o_broker_order_id r = None /\
    exists x, tbl_get (d_risk d) (oi_key i) = Some x /\ r_accepted x = false /\
      r_reason_code x = reason_str (rd_reason_code decision) /\
      r_snapshot_hash x = rd_snapshot_hash decision.

(** A decision that refuses a new order leaves the broker as it is. *)
Lemma refused_submit i decision (re : option RiskEvaluation) w :
  w_in_tx w = false -> rd_accepted decision = false ->
  wp (submit_decided_intent i decision re) (fun res w' =>
    (w_rest w').2 = (w_rest w).2 /\
    match res with
    | Ok r => sr_status r = RISK_REJECTED /\ sr_broker_order_id r = None /\
        sr_risk_evaluation r = re /\ refused i decision (w_db w')
    | Err _ => True
    end) w.
Proof.
  intros Hw Hno. unfold submit_decided_intent. apply wp_bind.
  eapply wp_mono; [apply assert_leader_quiet|]. intros [[]|e] w1 (Hd1 & Ht1 & Hr1); [|by rewrite Hr1].
  repeat wp_step; [|by rewrite Hr1].
  eapply wp_mono; [apply create_intent_ok; [apply oms_guard_quiet | congruence]|].
  intros [[]|e] w2 [[Ht2 Hr2] Hc]; [|by rewrite Hr2, Hr1]. apply wp_bind.
  eapply wp_mono; [apply record_risk_decision_ok; [apply oms_guard_quiet | congruence]|].
  intros [st|e] w3 [[Ht3 Hr3] Hx]; [|by rewrite Hr3, Hr2, Hr1].
  destruct Hx as (x & o & _ & Hx & (q & r & r' & Hwr & eff & norm & t & Hd & ->) & <-).
  destruct Hc as (_ & xi & xo & t0 & e & _ & Hxo & Hd2 & _). rewrite Hno in Hd.
  destruct (wrote_row _ _ _ _ _ _ Hwr) as [Hrow Hrow'].
  rewrite Hd2 in Hrow. cbn [set_risk set_events d_orders set_orders] in Hrow.
  rewrite (tbl_get_insert _ _ _ _ _ Hxo), decide_True in Hrow by done. injection Hrow as <-.
  pose proof (apply_status _ _ _ _ _ _ _ _ _ _ _ None t _ Hd eq_refl) as Hstatus.
  apply decide_fsm in Hd as (Ho & _ & _). cbn in Ho. injection Ho as <-.
  cbn [to_current]. rewrite bool_decide_true by done. repeat wp_step.
  split; [by rewrite Hr3, Hr2, Hr1|]. repeat split.
  eexists. split; [exact Hrow'|]. split; [exact Hstatus|]. split; [done|]. split; [done|].
  exists (risk_row_of decision). split; [|by rewrite <-Hno].
  pose proof (wrote_rest _ _ _ _ _ _ Hwr) as Hrest.
  rewrite (same_risk _ _ Hrest). cbn [set_risk d_risk].
  rewrite (tbl_get_insert _ _ _ _ _ Hx), decide_True by done; done.
Qed.

(** C15. Only an accepted order reaches the broker.  Whatever the world,
    submitting through the risk adapter leaves the broker as it is unless the
    policy accepted the order at the instant the clock gave: in SIMULATION, with
    the leader lease held and reconciliation complete, an unblocked symbol and
    an intent that has not expired.  When the policy refuses and the call
    returns, the caller gets RISK_REJECTED with the evaluation, and the order's
    row is RISK_REJECTED next to the decision's row, its submit never reserved. *)
Theorem broker_needs_acceptance i s w :
  w_in_tx w = false -> simulation_only (rp_permitted_execution_modes policy) = true ->
  let '(res, w') := risk_submit_intent i s w in
  ((w_rest w').2 = (w_rest w).2 \/
   exists now, (clock w).1 = Ok now /\ accepts i s policy now /\
     rs_mode s = SIMULATION /\ rs_leader_held s = true /\ rs_reconciliation_complete s = true /\
     (oi_symbol i ∉ rs_blocked_symbols s) /\ instant now < instant (oi_expires_at i)) /\
  forall now ev r, (clock w).1 = Ok now -> evaluate_risk i s policy now = Ok ev ->
    rd_accepted (re_decision ev) = false -> res = Ok r ->
    sr_status r = RISK_REJECTED /\ sr_risk_evaluation r = Some ev /\
    (w_rest w').2 = (w_rest w).2 /\ refused i (re_decision ev) (w_db w').
Proof.
  intros Hw Hsim. destruct (risk_submit_intent i s w) as [res w'] eqn:E.
  unfold risk_submit_intent, bindM in E.
  destruct (clock w) as [[now|e] w1] eqn:Hclock; cbn [fst];
    pose proof (clock_quiet w) as Hq; unfold wp in Hq; rewrite Hclock in Hq;
    destruct Hq as (Hd1 & Ht1 & Hr1); cbn [fst snd] in *.
  2: { injection E as <- <-. split; [left; by rewrite Hr1 | done]. }
  unfold guardM in E. destruct (is_aware now) eqn:Haw.
  2: { injection E as <- <-. split; [left; by rewrite Hr1 | done]. }
  unfold lift in E. cbn in E.
  destruct (evaluate_risk i s policy now) as [ev|e] eqn:Hev.
  2: { injection E as <- <-. split; [left; by rewrite Hr1 | intros n ev r [= <-]; congruence]. }
  unfold submit_authorized_intent in E. destruct (rd_accepted (re_decision ev)) eqn:Hacc.
  - split; [right|intros n ev' r [= <-]; congruence].
    assert (Ha : accepts i s policy now) by by exists ev.
    destruct (accepted_gates_hold _ _ _ _ Ha Hsim)
      as ((Hm & _ & _ & Hl & Hrc & _) & (_ & Hs) & _ & _ & Hx & _).
    by exists now.
  - pose proof (refused_submit i (re_decision ev) (Some ev) w1 ltac:(congruence) Hacc) as H.
    unfold wp in H. rewrite E, Hr1 in H. cbn [fst snd] in H. destruct H as [Hb Hres].
    split; [by left|]. intros n ev' r [= <-] Hev' _ ->.
    rewrite Hev in Hev'. injection Hev' as <-. by destruct Hres as (? & _ & ? & ?).
Qed.
End RiskOms.

(** ** Concrete runs *)

Definition demo_trading : world (oms * SimulatedDriver) :=
  demo_run [ReqOpen 30; ReqRecover] demo_start.

Definition demo_submit (market_open : bool)
    : res (SubmitResult RiskEvaluation) * world (oms * SimulatedDriver) :=
  risk_submit_intent (env := demo_env) (retM demo_now) demo_policy demo_intent
    (demo_snapshot market_open) demo_trading.

Definition demo_sent (w : world (oms * SimulatedDriver)) : Z :=
  Simulated.submit_call_count (oi_key demo_intent) (w_rest w).2.

Lemma broker_needs_acceptance_witness :
  demo_sent (demo_submit true).2 = 1 /\ demo_sent (demo_submit false).2 = 0 /\
  exists now, accepts demo_intent (demo_snapshot true) demo_policy now.
Proof.
  assert (Hsent : demo_sent (demo_submit true).2 = 1) by (vm_compute; reflexivity).
  split; [exact Hsent|]. split; [vm_compute; reflexivity|].
  pose proof (broker_needs_acceptance (env := demo_env) (retM demo_now) demo_policy
    (quiet_ret demo_now) demo_intent (demo_snapshot true) demo_trading
    ltac:(vm_compute; reflexivity) ltac:(vm_compute; reflexivity)) as H.
  fold (demo_submit true) in H. destruct (demo_submit true) as [res w'].
  destruct H as [[Hb | (now & _ & Ha & _)] _]; [|exact (ex_intro _ now Ha)].
  cbn [snd] in Hsent. unfold demo_sent in Hsent. rewrite Hb in Hsent.
  vm_compute in Hsent. discriminate.
Defined.
