(* ===== verification/Alerts.v ===== *)
(** * Alerts: the alert journal of [operations/alert_store.py]

    [OperationsAlertJournal]: an append-only log of alert events and, per alert,
    its current state.  The states are shown to be a projection of the log: the
    replay of an alert's events in the order they were recorded, in which late
    facts change nothing. *)

From stdpp Require Import sorting.
From S2P Require Import Prelude PyTime TimeFacts Decimal Json Domain Db OrderStore.
Open Scope Z_scope.

Inductive PersistedAlertStatus := ACTIVE | RESOLVED.

#[global] Instance PersistedAlertStatus_eq_dec : EqDecision PersistedAlertStatus.
Proof. solve_decision. Defined.

Definition alert_status_str (s : PersistedAlertStatus) : string :=
  match s with ACTIVE => "ACTIVE" | RESOLVED => "RESOLVED" end.

(** [PersistedAlertStatus(text)]. *)
Definition alert_status_of (s : string) : res PersistedAlertStatus :=
  if bool_decide (s = "ACTIVE"%string) then Ok ACTIVE
  else if bool_decide (s = "RESOLVED"%string) then Ok RESOLVED
  else raise ValueError (s +:+ " is not a valid PersistedAlertStatus").

Record PersistedAlertState := {
  pa_key : string;
  pa_status : PersistedAlertStatus;
  pa_severity : string;
  pa_detail : string;
  pa_first_seen_at : datetime;
  pa_last_seen_at : datetime;
  pa_occurrences : Z;
  pa_resolved_at : option datetime;
  pa_last_event_id : string
}.

Definition alert_nonempty (name value : string) : res unit :=
  guard_r (strip_nonempty value) ValueError (name +:+ " must be non-empty").

Definition alert_aware (name : string) (value : datetime) : res unit :=
  guard_r (is_aware value) ValueError (name +:+ " must be timezone-aware").

Open Scope py_scope.

(** [_parse_utc] of a text that is there. *)
Definition parse_utc (value : datetime) : res datetime :=
  do! guard_r (is_aware value) AlertEventConflict "stored alert timestamp is not timezone-aware" ;;
  Ok (to_utc value).

Definition semantic_digest (alert_key : string) (event_type : PersistedAlertStatus)
    (severity detail : option string) (observed_at : datetime) (source : string) : string :=
  "sha256:" +:+ Sha256.hexdigest (utf8 (dumps true (JObj
    [("alert_key", JStr alert_key); ("event_type", JStr (alert_status_str event_type));
     ("severity", jopt_str severity); ("detail", jopt_str detail);
     ("observed_at", JStr (isoformat observed_at)); ("source", JStr source)]%string))).

(** [text.removeprefix(prefix)]. *)
Fixpoint removeprefix (prefix text : string) : string :=
  match prefix, text with
  | EmptyString, _ => text
  | String a p, String b t => if bool_decide (a = b) && startswith p t then removeprefix p t else text
  | _, _ => text
  end.

Definition deterministic_event_id (digest : string) : string :=
  "alert-" +:+ String.substring 0 48 (removeprefix "sha256:" digest).

Definition decode_state (key : string) (row : alert_state_row) : res PersistedAlertState :=
  status <- alert_status_of (al_status row) ;;
  first_seen <- parse_utc (al_first_seen_at row) ;;
  last_seen <- parse_utc (al_last_seen_at row) ;;
  resolved <- match al_resolved_at row with
              | None => Ok None
              | Some t => t <- parse_utc t ;; Ok (Some t)
              end ;;
  Ok {| pa_key := key; pa_status := status; pa_severity := al_severity row;
        pa_detail := al_detail row; pa_first_seen_at := first_seen;
        pa_last_seen_at := last_seen; pa_occurrences := al_occurrences row;
        pa_resolved_at := resolved; pa_last_event_id := al_last_event_id row |}.

(** [observed_text < state["last_seen_at"]]. *)
Definition text_before (a b : datetime) : bool := String.ltb (isoformat a) (isoformat b).

(** The columns of [operations_alert_events] an event is compared on. *)
Definition alert_identity (key : string) (event_type : PersistedAlertStatus)
    (severity detail : option string) (observed_at : datetime) (source : string)
    : alert_event_row :=
  {| ae_alert_key := key; ae_event_type := alert_status_str event_type; ae_severity := severity;
     ae_detail := detail; ae_observed_at := observed_at; ae_source := source;
     ae_semantic_digest := semantic_digest key event_type severity detail observed_at source |}.

(** The row the UPSERT of [record_active] leaves, over the row it found. *)
Definition active_row (state : option alert_state_row) (severity detail : string)
    (observed_at : datetime) (event_id : string) : alert_state_row :=
  let fresh := (observed_at, 1) in
  let '(first_seen, occurrences) :=
    match state with
    | None => fresh
    | Some row => if bool_decide (al_status row = alert_status_str RESOLVED) then fresh
                  else (al_first_seen_at row, al_occurrences row + 1)
    end in
  {| al_status := alert_status_str ACTIVE; al_severity := severity; al_detail := detail;
     al_first_seen_at := first_seen; al_last_seen_at := observed_at;
     al_occurrences := occurrences; al_resolved_at := None; al_last_event_id := event_id |}.

(** The row the UPDATE of [record_resolved] leaves. *)
Definition resolved_row (observed_at : datetime) (event_id : string) (row : alert_state_row)
    : alert_state_row :=
  {| al_status := alert_status_str RESOLVED; al_severity := al_severity row;
     al_detail := al_detail row; al_first_seen_at := al_first_seen_at row;
     al_last_seen_at := observed_at; al_occurrences := al_occurrences row;
     al_resolved_at := Some observed_at; al_last_event_id := event_id |}.

(** [INSERT ... ON CONFLICT(key) DO UPDATE]. *)
Definition tbl_upsert {V} (k : string) (v : V) (t : table string V) : table string V :=
  match tbl_insert k v t with
  | Some t' => t'
  | None => tbl_update k (fun _ => v) t
  end.

(** The current state, when it is later than the event. *)
Definition late (observed : datetime) (state : option alert_state_row) : option alert_state_row :=
  match state with
  | Some row => if text_before observed (al_last_seen_at row) then Some row else None
  | None => None
  end.

Open Scope oms_scope.

Section Journal.
Context {R : Type} {env : Env}.

(** [_insert_event]; [True] when the event is a replay. *)
Definition insert_alert_event (event_id : string) (identity : alert_event_row) : M R bool :=
  existing <- read_db (fun d => tbl_get (rt_alert_events (d_runtime d)) event_id) ;;
  match existing with
  | Some stored =>
      do! guardM (bool_decide (stored = identity)) AlertEventConflict
            "event_id reused with different alert semantics" ;;
      retM true
  | None =>
      same_time <- read_db (fun d => List.find (fun p =>
          bool_decide (ae_alert_key p.2 = ae_alert_key identity)
          && bool_decide (ae_observed_at p.2 = ae_observed_at identity))
        (tbl_scan (rt_alert_events (d_runtime d)))) ;;
      match same_time with
      | Some p =>
          do! guardM (bool_decide (ae_semantic_digest p.2 = ae_semantic_digest identity))
                AlertEventConflict "conflicting alert facts share the same alert key/timestamp" ;;
          retM true
      | None =>
          ins <- read_db (fun d => tbl_insert event_id identity (rt_alert_events (d_runtime d))) ;;
          match ins with
          | Some x => do! write_db (set_alert_events x) ;; retM false
          | None => raiseM SqliteIntegrityError "UNIQUE constraint failed"
          end
      end
  end.

Definition state_row (key : string) : M R (option alert_state_row) :=
  read_db (fun d => tbl_get (rt_alert_states (d_runtime d)) key).

Definition state_row_required (key : string) : M R alert_state_row :=
  row <- state_row key ;;
  match row with
  | Some row => retM row
  | None => raiseM AlertEventConflict "alert state disappeared inside transaction"
  end.

(** [event_id or _deterministic_event_id(digest)]. *)
Definition alert_event_id (event_id : option string) (identity : alert_event_row) : string :=
  match event_id with
  | Some id => if str_nonempty id then id
               else deterministic_event_id (ae_semantic_digest identity)
  | None => deterministic_event_id (ae_semantic_digest identity)
  end.

Definition record_active (key severity detail : string) (observed_at : datetime)
    (source : string) (event_id : option string) : M R PersistedAlertState :=
  do! lift (alert_nonempty "key" key) ;;
  do! lift (alert_nonempty "severity" severity) ;;
  do! lift (alert_nonempty "detail" detail) ;;
  do! lift (alert_aware "observed_at" observed_at) ;;
  do! lift (alert_nonempty "source" source) ;;
  let observed := to_utc observed_at in
  let identity := alert_identity key ACTIVE (Some severity) (Some detail) observed source in
  let event_id := alert_event_id event_id identity in
  do! lift (alert_nonempty "event_id" event_id) ;;
  transaction (
    duplicate <- insert_alert_event event_id identity ;;
    state <- state_row key ;;
    if duplicate : bool then
      match state with
      | None => raiseM AlertEventConflict "duplicate ACTIVE event has no current state"
      | Some row => lift (decode_state key row)
      end
    else
      match late observed state with
      | Some row => lift (decode_state key row)
      | None =>
          do! write_db (fun d => set_alert_states (tbl_upsert key
                (active_row state severity detail observed event_id)
                (rt_alert_states (d_runtime d))) d) ;;
          row <- state_row_required key ;;
          lift (decode_state key row)
      end).

Definition record_resolved (key : string) (observed_at : datetime) (source : string)
    (event_id : option string) : M R (option PersistedAlertState) :=
  do! lift (alert_nonempty "key" key) ;;
  do! lift (alert_aware "observed_at" observed_at) ;;
  do! lift (alert_nonempty "source" source) ;;
  let observed := to_utc observed_at in
  let identity := alert_identity key RESOLVED None None observed source in
  let event_id := alert_event_id event_id identity in
  do! lift (alert_nonempty "event_id" event_id) ;;
  transaction (
    duplicate <- insert_alert_event event_id identity ;;
    state <- state_row key ;;
    match state with
    | None => retM None
    | Some row =>
        if (duplicate : bool) || text_before observed (al_last_seen_at row) then
          s <- lift (decode_state key row) ;; retM (Some s)
        else
          do! write_db (fun d => set_alert_states (tbl_update key
                (resolved_row observed event_id) (rt_alert_states (d_runtime d))) d) ;;
          row <- state_row_required key ;;
          s <- lift (decode_state key row) ;; retM (Some s)
    end).

(** [SELECT * ... WHERE status='ACTIVE' ORDER BY alert_key], decoded. *)
Fixpoint decode_all (l : list (string * alert_state_row)) : res (list PersistedAlertState) :=
  (match l with
   | [] => Ok []
   | (key, row) :: l => s <- decode_state key row ;; rest <- decode_all l ;; Ok (s :: rest)
   end)%py.

Definition by_key : relation (string * alert_state_row) :=
  fun a b => Is_true (String.leb a.1 b.1).

Definition active_alerts : M R (list PersistedAlertState) :=
  rows <- read_db (fun d => merge_sort by_key (List.filter (fun p =>
      bool_decide (al_status p.2 = alert_status_str ACTIVE))
    (tbl_scan (rt_alert_states (d_runtime d))))) ;;
  lift (decode_all rows).
End Journal.

(** ** The log and its projection *)

(** One step of the projection: what an event of an alert makes of its state. *)
Definition project (state : option alert_state_row) (p : string * alert_event_row)
    : option alert_state_row :=
  let '(id, e) := p in
  match late (ae_observed_at e) state with
  | Some row => Some row
  | None =>
      match ae_severity e, ae_detail e with
      | Some severity, Some detail => Some (active_row state severity detail (ae_observed_at e) id)
      | _, _ => resolved_row (ae_observed_at e) id <$> state
      end
  end.

(** The events of one alert, in the order they were recorded. *)
Definition log_of (key : string) (d : db) : list (string * alert_event_row) :=
  List.filter (fun p => bool_decide (ae_alert_key p.2 = key))
    (tbl_scan (rt_alert_events (d_runtime d))).

Definition state_of (key : string) (d : db) : option alert_state_row :=
  tbl_get (rt_alert_states (d_runtime d)) key.

(** An event of the same alert and instant. *)
Definition same_fact_time (e : alert_event_row) (p : string * alert_event_row) : bool :=
  bool_decide (ae_alert_key p.2 = ae_alert_key e)
  && bool_decide (ae_observed_at p.2 = ae_observed_at e).

(** The journal has the event, under its id or under another. *)
Definition known (id : string) (e : alert_event_row) (d : db) : Prop :=
  tbl_get (rt_alert_events (d_runtime d)) id = Some e \/
  exists p, List.find (same_fact_time e) (tbl_scan (rt_alert_events (d_runtime d))) = Some p.

(** What recording [e] does: nothing to a journal that knows it; else the event
    is appended and the state of its alert takes one step. *)
Definition journaled (id : string) (e : alert_event_row) (d d' : db) : Prop :=
  (known id e d /\ d' = d) \/
  exists x y,
    tbl_insert id e (rt_alert_events (d_runtime d)) = Some x /\
    List.find (same_fact_time e) (tbl_scan (rt_alert_events (d_runtime d))) = None /\
    (tbl_wf (rt_alert_states (d_runtime d)) -> tbl_wf y) /\
    (forall k, tbl_get y k = if decide (k = ae_alert_key e) then project (state_of k d) (id, e)
                             else state_of k d) /\
    d' = set_alert_states y (set_alert_events x d).

Lemma tbl_upsert_get {V} k (v : V) t k' :
  tbl_get (tbl_upsert k v t) k' = if decide (k' = k) then Some v else tbl_get t k'.
Proof.
  unfold tbl_upsert. destruct (tbl_insert k v t) as [t'|] eqn:E.
  - by rewrite (tbl_get_insert _ _ _ _ k' E).
  - rewrite tbl_get_update. case_decide; [|done]. unfold tbl_insert in E. unfold tbl_get.
    by destruct (t_rows t !! k).
Qed.

Lemma tbl_upsert_wf {V} k (v : V) t : tbl_wf t -> tbl_wf (tbl_upsert k v t).
Proof.
  intros Hw. unfold tbl_upsert. destruct (tbl_insert k v t) eqn:E;
    [by eapply tbl_wf_insert | by apply tbl_wf_update].
Qed.

Section Contract.
Context {R : Type} {env : Env}.
Implicit Types (w : world R).

(** The event as a new one: what the log is then. *)
Definition appended (id : string) (e : alert_event_row) (d d' : db) : Prop :=
  exists x, tbl_insert id e (rt_alert_events (d_runtime d)) = Some x /\
    List.find (same_fact_time e) (tbl_scan (rt_alert_events (d_runtime d))) = None /\
    d' = set_alert_events x d.

Lemma insert_event_ok id e w :
  in_tx_ok (insert_alert_event id e) (fun dup d' =>
    if dup : bool then known id e (w_db w) /\ d' = w_db w else appended id e (w_db w) d') w.
Proof.
  unfold insert_alert_event. apply in_tx_ok_read.
  destruct (tbl_get _ id) as [stored|] eqn:E.
  - unfold in_tx_ok. repeat wp_step; [|done]. bool_to_prop. subst. repeat split. by left.
  - apply in_tx_ok_read. fold (same_fact_time e).
    destruct (List.find _ _) as [p|] eqn:Ef.
    + unfold in_tx_ok. repeat wp_step; [|done]. repeat split. right. by exists p.
    + apply in_tx_ok_read. destruct (tbl_insert _ _ _) as [x|] eqn:Ei; [|apply in_tx_ok_raise].
      unfold in_tx_ok. repeat wp_step. repeat split. by exists x.
Qed.

Lemma read_state key (k : option alert_state_row -> M R (option PersistedAlertState)) P w :
  in_tx_ok (k (state_of key (w_db w))) P w -> in_tx_ok (bindM (state_row key) k) P w.
Proof. apply in_tx_ok_read. Qed.

Lemma in_tx_ok_write {B} g (f : unit -> M R B) P w :
  in_tx_ok (f tt) P (W (g (w_db w)) (w_in_tx w) (w_tick w) (w_rest w)) ->
  in_tx_ok (bindM (write_db g) f) P w.
Proof. done. Qed.

(** The state is written and read back. *)
Lemma in_tx_ok_put {B} key g row (f : alert_state_row -> M R B) P w :
  tbl_get (g (rt_alert_states (d_runtime (w_db w)))) key = Some row ->
  (forall w', w_db w' = set_alert_states (g (rt_alert_states (d_runtime (w_db w)))) (w_db w) ->
     in_tx_ok (f row) P w') ->
  in_tx_ok (bindM (write_db (fun d => set_alert_states (g (rt_alert_states (d_runtime d))) d))
    (fun _ => bindM (state_row_required key) f)) P w.
Proof.
  intros Hg Hf. apply in_tx_ok_write.
  set (w' := W _ (w_in_tx w) (w_tick w) (w_rest w)). specialize (Hf w' eq_refl).
  unfold in_tx_ok in *. apply wp_bind. unfold state_row_required, state_row. repeat wp_step.
  cbn [w_db w'] in Hg |- *. cbn [d_runtime set_alert_states set_runtime rt_alert_states].
  rewrite Hg. repeat wp_step. exact Hf.
Qed.

Definition reported_state (key : string) (s : PersistedAlertState) (d : db) : Prop :=
  exists row, state_of key d = Some row /\ decode_state key row = Ok s.

Lemma late_some at_ state row : late at_ state = Some row -> state = Some row.
Proof. unfold late. destruct state; [|done]. destruct (text_before _ _); congruence. Qed.

(** The event was appended and the state stayed, or was replaced by [g]. *)
Lemma journaled_late id e x d row :
  tbl_insert id e (rt_alert_events (d_runtime d)) = Some x ->
  List.find (same_fact_time e) (tbl_scan (rt_alert_events (d_runtime d))) = None ->
  project (state_of (ae_alert_key e) d) (id, e) = state_of (ae_alert_key e) d ->
  row = set_alert_events x d -> journaled id e d row.
Proof.
  intros Hx Hn Hp ->. right. exists x, (rt_alert_states (d_runtime d)).
  split; [done|]. split; [done|]. split; [done|]. split; [|done].
  intros k. case_decide as Hk; [|done]. subst k. by rewrite Hp.
Qed.

Lemma journaled_put id e x d y :
  tbl_insert id e (rt_alert_events (d_runtime d)) = Some x ->
  List.find (same_fact_time e) (tbl_scan (rt_alert_events (d_runtime d))) = None ->
  (tbl_wf (rt_alert_states (d_runtime d)) -> tbl_wf y) ->
  (forall k, tbl_get y k = if decide (k = ae_alert_key e) then project (state_of k d) (id, e)
                           else state_of k d) ->
  journaled id e d (set_alert_states y (set_alert_events x d)).
Proof. intros. right. by exists x, y. Qed.

Lemma record_active_ok key severity detail at_ source event_id w :
  w_in_tx w = false ->
  let e := alert_identity key ACTIVE (Some severity) (Some detail) (to_utc at_) source in
  tx_ok (record_active key severity detail at_ source event_id) (fun s d' =>
    journaled (alert_event_id event_id e) e (w_db w) d' /\ reported_state key s d') w.
Proof.
  intros Hw e. unfold record_active. do 5 (apply tx_ok_check; intros [] _). cbv zeta. fold e.
  set (id := alert_event_id event_id e). apply tx_ok_check; intros [] _.
  apply tx_ok_intro; [done|]. intros w1 Hd1 _ _.
  eapply in_tx_ok_bind; [apply insert_event_ok|]. rewrite Hd1. intros [] w2 H _; cbv beta iota in H.
  - destruct H as [Hk Hd2]. apply in_tx_ok_read. rewrite Hd2. fold (state_of key (w_db w)).
    destruct (state_of key (w_db w)) as [row|] eqn:Es; [|apply in_tx_ok_raise].
    apply in_tx_ok_lift. intros s Hs. rewrite Hd2. split; [by left | by exists row].
  - destruct H as (x & Hx & Hnone & Hd2). apply in_tx_ok_read. rewrite Hd2.
    change (tbl_get _ key) with (state_of key (w_db w)).
    destruct (late (to_utc at_) (state_of key (w_db w))) as [row|] eqn:El.
    + pose proof (late_some _ _ _ El) as Hrow. apply in_tx_ok_lift. intros s Hs. rewrite Hd2.
      split; [|by exists row]. eapply journaled_late; try done.
      cbn [ae_alert_key e alert_identity]. unfold project.
      change (ae_observed_at e) with (to_utc at_). by rewrite El.
    + eapply in_tx_ok_put with (g := tbl_upsert key _); [by rewrite tbl_upsert_get, decide_True|].
      intros w3 Hd3. apply in_tx_ok_lift. intros s Hs. rewrite Hd3, Hd2. split.
      * apply journaled_put; try done; [apply tbl_upsert_wf|]. intros k. rewrite tbl_upsert_get.
        cbn [ae_alert_key e alert_identity]. case_decide as Hk; [subst k|done].
        unfold project. change (ae_observed_at e) with (to_utc at_). by rewrite El.
      * eexists. split; [|exact Hs]. unfold state_of. cbn.
        by rewrite tbl_upsert_get, decide_True.
Qed.

Lemma record_resolved_ok key at_ source event_id w :
  w_in_tx w = false ->
  let e := alert_identity key RESOLVED None None (to_utc at_) source in
  tx_ok (record_resolved key at_ source event_id) (fun s d' =>
    journaled (alert_event_id event_id e) e (w_db w) d' /\
    match s with
    | Some s => reported_state key s d'
    | None => state_of key d' = None
    end) w.
Proof.
  intros Hw e. unfold record_resolved. do 3 (apply tx_ok_check; intros [] _). cbv zeta. fold e.
  set (id := alert_event_id event_id e). apply tx_ok_check; intros [] _.
  apply tx_ok_intro; [done|]. intros w1 Hd1 _ _.
  eapply in_tx_ok_bind; [apply insert_event_ok|]. rewrite Hd1. intros [] w2 H _; cbv beta iota in H;
    cbn [orb].
  - destruct H as [Hk Hd2]. apply in_tx_ok_read. rewrite Hd2. fold (state_of key (w_db w)).
    destruct (state_of key (w_db w)) as [row|] eqn:Es.
    + eapply in_tx_ok_bind with (P := fun s d => d = w_db w /\ decode_state key row = Ok s).
      { by apply in_tx_ok_lift. }
      intros s w3 [Hd3 Hs] _. apply in_tx_ok_ret. rewrite Hd3. split; [by left | by exists row].
    + apply in_tx_ok_ret. rewrite Hd2. split; [by left | done].
  - destruct H as (x & Hx & Hnone & Hd2). apply in_tx_ok_read. rewrite Hd2.
    change (tbl_get _ key) with (state_of key (w_db w)).
    destruct (state_of key (w_db w)) as [row|] eqn:Es.
    + destruct (text_before (to_utc at_) (al_last_seen_at row)) eqn:El.
      * eapply in_tx_ok_bind with (P := fun s d => d = w_db w2 /\ decode_state key row = Ok s).
        { by apply in_tx_ok_lift. }
        intros s w3 [Hd3 Hs] _. apply in_tx_ok_ret. rewrite Hd3, Hd2. split; [|by exists row].
        eapply journaled_late; try done. cbn [ae_alert_key e alert_identity]. rewrite Es.
        unfold project, late. change (ae_observed_at e) with (to_utc at_). by rewrite El.
      * eapply in_tx_ok_put with (g := tbl_update key _).
        { rewrite tbl_get_update, decide_True by done. rewrite Hd2.
          change (tbl_get _ key) with (state_of key (w_db w)). by rewrite Es. }
        intros w3 Hd3. eapply in_tx_ok_bind with (P := fun s d => d = w_db w3 /\ decode_state key _ = Ok s).
        { by apply in_tx_ok_lift. }
        intros s w4 [Hd4 Hs] _. apply in_tx_ok_ret. rewrite Hd4, Hd3, Hd2. split.
        -- apply journaled_put; try done; [apply tbl_wf_update|]. intros k. rewrite tbl_get_update.
           cbn [ae_alert_key e alert_identity]. case_decide as Hk; [subst k|done].
           unfold project, late. change (ae_observed_at e) with (to_utc at_).
           change (tbl_get _ key) with (state_of key (w_db w)). by rewrite Es, El.
        -- eexists. split; [|exact Hs]. unfold state_of. cbn. rewrite tbl_get_update, decide_True by done.
           change (tbl_get _ key) with (state_of key (w_db w)). by rewrite Es.
    + apply in_tx_ok_ret. rewrite Hd2. split; [|done]. eapply journaled_late; try done.
      cbn [ae_alert_key e alert_identity]. by rewrite Es.
Qed.
End Contract.

(** ** What the projection says *)

Lemma text_before_spec a b :
  utc_in_range a -> utc_in_range b -> text_before a b = (instant a <? instant b).
Proof.
  intros Ha Hb. unfold text_before, String.ltb. rewrite (iso_order a b Ha Hb).
  unfold Z.ltb. by destruct (instant a ?= instant b).
Qed.

(** What [record_active] and [record_resolved] write. *)
Definition sane (e : alert_event_row) : Prop :=
  utc_in_range (ae_observed_at e) /\
  ((ae_event_type e = alert_status_str ACTIVE /\
    exists s d, ae_severity e = Some s /\ ae_detail e = Some d) \/
   (ae_event_type e = alert_status_str RESOLVED /\ ae_severity e = None /\ ae_detail e = None)).

(** The state [s] of an alert after the events [log]: it follows the newest
    event since the first activation, wherever that event stands in the log. *)
Definition summary (log : list (string * alert_event_row)) (s : alert_state_row) : Prop :=
  exists pre first rest newest,
    log = pre ++ first :: rest /\
    Forall (fun p => ae_event_type p.2 = alert_status_str RESOLVED) pre /\
    ae_event_type first.2 = alert_status_str ACTIVE /\
    newest ∈ first :: rest /\
    Forall (fun p => p = newest \/ instant (ae_observed_at p.2) < instant (al_last_seen_at s))
      (first :: rest) /\
    al_last_event_id s = newest.1 /\ al_status s = ae_event_type newest.2 /\
    al_last_seen_at s = ae_observed_at newest.2 /\
    (al_status s = alert_status_str ACTIVE ->
       ae_severity newest.2 = Some (al_severity s) /\ ae_detail newest.2 = Some (al_detail s) /\
       al_resolved_at s = None) /\
    (al_status s = alert_status_str RESOLVED -> al_resolved_at s = Some (al_last_seen_at s)) /\
    instant (al_first_seen_at s) <= instant (al_last_seen_at s) /\ 1 <= al_occurrences s /\
    dt_off (al_first_seen_at s) = Some 0.

Definition summarised (log : list (string * alert_event_row)) (st : option alert_state_row) : Prop :=
  match st with
  | None => Forall (fun p => ae_event_type p.2 = alert_status_str RESOLVED) log
  | Some s => summary log s
  end.

(** Distinct events of a log are of distinct instants. *)
Definition times_apart (log : list (string * alert_event_row)) : Prop :=
  forall l p l' q, log = l ++ p :: l' -> q ∈ l -> instant (ae_observed_at q.2) <> instant (ae_observed_at p.2).

Lemma summary_late log s p :
  summary log s -> instant (ae_observed_at p.2) < instant (al_last_seen_at s) ->
  summary (log ++ [p]) s.
Proof.
  intros (pre & first & rest & newest & -> & Hpre & Hf & Hn & Hall & Hs) Hlt.
  exists pre, first, (rest ++ [p]), newest. rewrite <-app_assoc.
  split; [done|]. split; [done|]. split; [done|]. split; [set_solver|]. split; [|done].
  rewrite app_comm_cons. apply Forall_app. split; [done|]. constructor; [by right | done].
Qed.

(** The newest event is followed by one that is not older. *)
Lemma summary_newer log s p s' :
  summary log s -> times_apart (log ++ [p]) ->
  instant (al_last_seen_at s) <= instant (ae_observed_at p.2) ->
  al_last_event_id s' = p.1 -> al_status s' = ae_event_type p.2 ->
  al_last_seen_at s' = ae_observed_at p.2 ->
  (al_status s' = alert_status_str ACTIVE ->
     ae_severity p.2 = Some (al_severity s') /\ ae_detail p.2 = Some (al_detail s') /\
     al_resolved_at s' = None) ->
  (al_status s' = alert_status_str RESOLVED -> al_resolved_at s' = Some (al_last_seen_at s')) ->
  instant (al_first_seen_at s') <= instant (al_last_seen_at s') -> 1 <= al_occurrences s' ->
  dt_off (al_first_seen_at s') = Some 0 ->
  summary (log ++ [p]) s'.
Proof.
  intros (pre & first & rest & newest & -> & Hpre & Hf & Hn & Hall & _ & _ & Hl & _) Ha Hle
    H1 H2 H3 H4 H5 H6 H7 H8.
  exists pre, first, (rest ++ [p]), p. rewrite <-app_assoc.
  split; [done|]. split; [done|]. split; [done|]. split; [set_solver|].
  split; [|by repeat (split; [done|])].
  rewrite app_comm_cons. apply Forall_app. split; [|constructor; [by left | done]].
  assert (Hne : instant (ae_observed_at newest.2) <> instant (ae_observed_at p.2)).
  { eapply Ha; [done|]. apply elem_of_app. by right. }
  eapply Forall_impl; [exact Hall|]. intros q Hq. right. rewrite H3. rewrite Hl in Hq, Hle.
  destruct Hq as [-> | Hq]; lia.
Qed.

Lemma summary_state_sane log s :
  Forall (fun p => sane p.2) log -> summary log s -> utc_in_range (al_last_seen_at s).
Proof.
  intros Hs (pre & first & rest & newest & -> & _ & _ & Hn & _ & _ & _ & -> & _).
  rewrite Forall_forall in Hs. apply (Hs newest). apply elem_of_app. by right.
Qed.

Lemma project_summarised log st p :
  Forall (fun q => sane q.2) (log ++ [p]) -> times_apart (log ++ [p]) ->
  summarised log st -> summarised (log ++ [p]) (project st p).
Proof.
  intros [Hlog Hp]%Forall_app Ha Hst. apply Forall_cons in Hp as [[Hr Ht] _].
  destruct p as [id e]. cbn [snd] in *. unfold project. destruct st as [s|].
  - cbn [late]. rewrite text_before_spec by (try done; by eapply summary_state_sane).
    destruct (Z.ltb_spec (instant (ae_observed_at e)) (instant (al_last_seen_at s))) as [Hl|Hl];
      [by apply summary_late|].
    assert (Hold : instant (al_first_seen_at s) <= instant (al_last_seen_at s) /\
        1 <= al_occurrences s /\ dt_off (al_first_seen_at s) = Some 0)
      by (destruct Hst as (? & ? & ? & ? & Hx); destruct_and!; done).
    destruct Ht as [(Hty & sev & det & Hsev & Hdet) | (Hty & -> & _)].
    + rewrite Hsev, Hdet. eapply summary_newer; try done; cbn; unfold active_row;
        try case_bool_decide; cbn; try done; try lia;
        [apply Hr | apply Hold].
    + eapply summary_newer; try done; cbn; try lia. apply Hold.
  - cbn [late]. destruct Ht as [(Hty & sev & det & Hsev & Hdet) | (Hty & -> & _)].
    + rewrite Hsev, Hdet. cbn [summarised]. exists log, (id, e), [], (id, e).
      unfold active_row. cbn. repeat split; try done; try (by left); try lia; [|apply Hr].
      constructor; [by left | done].
    + cbn. apply Forall_app. split; [done|]. by constructor.
Qed.

Lemma replay_summarised log :
  Forall (fun q => sane q.2) log -> times_apart log -> summarised log (fold_left project log None).
Proof.
  induction log as [|p log IH] using rev_ind; [constructor|]. intros Hs Ha.
  rewrite fold_left_app. cbn. apply project_summarised; [done | done|]. apply IH.
  - by apply Forall_app in Hs as [? _].
  - intros l q l' r -> Hr. eapply (Ha l q (l' ++ [p])); [|done]. by rewrite <-app_assoc.
Qed.

(** ** Histories *)

Inductive alert_op :=
  | RecordActive (key severity detail : string) (observed_at : datetime) (source : string)
      (event_id : option string)
  | RecordResolved (key : string) (observed_at : datetime) (source : string)
      (event_id : option string).

(** The event an operation records, and its id. *)
Definition event_of (op : alert_op) : alert_event_row :=
  match op with
  | RecordActive key severity detail at_ source _ =>
      alert_identity key ACTIVE (Some severity) (Some detail) (to_utc at_) source
  | RecordResolved key at_ source _ => alert_identity key RESOLVED None None (to_utc at_) source
  end.

Definition id_of (op : alert_op) : string :=
  match op with
  | RecordActive _ _ _ _ _ id | RecordResolved _ _ _ id => alert_event_id id (event_of op)
  end.

Definition run_alert {R} {env : Env} (op : alert_op) : M R (option PersistedAlertState) :=
  match op with
  | RecordActive key severity detail at_ source id =>
      s <- record_active key severity detail at_ source id ;; retM (Some s)
  | RecordResolved key at_ source id => record_resolved key at_ source id
  end.

(** Instants of the years Python has. *)
Definition op_in_range (op : alert_op) : Prop := utc_in_range (ae_observed_at (event_of op)).

(** The journal: one row per id and per alert and instant, and states that are
    the projection of the log. *)
Record alerts_inv (d : db) : Prop := {
  ai_events : tbl_wf (rt_alert_events (d_runtime d));
  ai_states : tbl_wf (rt_alert_states (d_runtime d));
  ai_sane : Forall (fun p => sane p.2) (tbl_scan (rt_alert_events (d_runtime d)));
  ai_apart : forall key, times_apart (log_of key d);
  ai_project : forall key, state_of key d = fold_left project (log_of key d) None
}.

Lemma event_of_sane op : op_in_range op -> sane (event_of op).
Proof.
  destruct op; intros Hr; (split; [exact Hr|]); cbn; [left | right]; split; try done.
  by do 2 eexists.
Qed.

Lemma utc_instant_inj a b :
  dt_off a = Some 0 -> dt_off b = Some 0 -> instant a = instant b -> a = b.
Proof.
  destruct a as [l o], b as [l' o']. unfold instant. cbn. intros -> ->. cbn. intros. f_equal. lia.
Qed.

Lemma log_of_append key id e d x :
  tbl_wf (rt_alert_events (d_runtime d)) ->
  tbl_insert id e (rt_alert_events (d_runtime d)) = Some x ->
  log_of key (set_alert_events x d) =
  log_of key d ++ (if bool_decide (ae_alert_key e = key) then [(id, e)] else []).
Proof.
  intros Hw Hx. unfold log_of. cbn. rewrite (tbl_scan_insert _ _ _ _ Hw Hx), List.filter_app. cbn.
  by destruct (bool_decide _).
Qed.

Lemma log_of_elem key d p :
  p ∈ log_of key d <-> p ∈ tbl_scan (rt_alert_events (d_runtime d)) /\ ae_alert_key p.2 = key.
Proof.
  unfold log_of. rewrite !list_elem_of_In, filter_In. by rewrite bool_decide_eq_true.
Qed.

Lemma times_apart_snoc log p :
  times_apart log -> (forall q, q ∈ log -> instant (ae_observed_at q.2) <> instant (ae_observed_at p.2)) ->
  times_apart (log ++ [p]).
Proof.
  intros Ha Hp l r l' q He Hq. destruct l' as [|z l' _] using rev_ind.
  - apply app_inj_tail in He as [-> ->]. auto.
  - rewrite app_comm_cons, app_assoc in He. apply app_inj_tail in He as [-> ->]. by eapply Ha.
Qed.

Lemma alerts_inv_journaled id e d d' :
  sane e -> alerts_inv d -> journaled id e d d' -> alerts_inv d'.
Proof.
  intros He Hd [[_ ->] | (x & y & Hx & Hnone & Hwy & Hy & ->)]; [done|]. destruct Hd as [Hwe Hws Hs Ha Hp].
  assert (Hlog : forall key, log_of key (set_alert_states y (set_alert_events x d)) =
    log_of key d ++ (if bool_decide (ae_alert_key e = key) then [(id, e)] else []))
    by (intros key; by rewrite <-(log_of_append key id e d x)).
  split.
  - cbn. by eapply tbl_wf_insert.
  - cbn. auto.
  - cbn. rewrite (tbl_scan_insert _ _ _ _ Hwe Hx). apply Forall_app. split; [done|]. by constructor.
  - intros key. rewrite Hlog. case_bool_decide as Hk; [|by rewrite app_nil_r].
    apply times_apart_snoc; [done|]. intros q [Hq Hkq]%log_of_elem Ht. cbn [snd] in Ht.
    rewrite Forall_forall in Hs. destruct (Hs q Hq) as [[Ho _] _]. destruct He as [[Ho' _] _].
    apply (utc_instant_inj _ _ Ho Ho') in Ht. apply list_elem_of_In in Hq.
    eapply List.find_none in Hnone; [|exact Hq]. unfold same_fact_time in Hnone.
    by rewrite Hkq, Ht, <-Hk, !bool_decide_true in Hnone.
  - intros key. rewrite Hlog. change (state_of key (set_alert_states y _)) with (tbl_get y key).
    rewrite Hy. case_bool_decide as Hk.
    + rewrite decide_True by done. by rewrite fold_left_app, <-Hp.
    + rewrite decide_False by congruence. by rewrite app_nil_r, <-Hp.
Qed.

Section Journals.
Context {R : Type} {env : Env}.
Implicit Types (w : world R).

Lemma run_alert_ok op w :
  w_in_tx w = false ->
  tx_ok (run_alert op) (fun s d' => journaled (id_of op) (event_of op) (w_db w) d' /\
    match s with
    | Some s => reported_state (ae_alert_key (event_of op)) s d'
    | None => state_of (ae_alert_key (event_of op)) d' = None
    end) w.
Proof.
  intros Hw. destruct op; cbn [run_alert].
  - unfold tx_ok. apply wp_bind. eapply wp_mono; [by apply record_active_ok|].
    intros [s|e] w' [Hf H]; [by repeat wp_step | by split].
  - by apply record_resolved_ok.
Qed.

Definition run_alerts (ops : list alert_op) w : world R :=
  fold_left (fun w op => (run_alert op w).2) ops w.

Lemma run_alerts_inv ops w :
  w_in_tx w = false -> alerts_inv (w_db w) -> Forall op_in_range ops ->
  w_in_tx (run_alerts ops w) = false /\ alerts_inv (w_db (run_alerts ops w)).
Proof.
  intros Hw Hi. revert w Hw Hi. induction ops as [|op ops IH]; intros w Hw Hi Hops; [done|].
  apply Forall_cons in Hops as [Hop Hops]. cbn. pose proof (run_alert_ok op w Hw) as H.
  unfold tx_ok, wp in H. destruct (run_alert op w) as [[s|e] w']; cbn [fst snd] in *;
    destruct H as [[Ht _] H]; apply IH; try congruence; try done.
  - eapply alerts_inv_journaled; [by apply event_of_sane | exact Hi | apply H].
Qed.

(** The journal knows an event it recorded, whatever is recorded after it. *)
Lemma journaled_known id e d d' :
  tbl_wf (rt_alert_events (d_runtime d)) -> journaled id e d d' -> known id e d'.
Proof.
  intros Hw [[Hk ->] | (x & y & Hx & _ & _ & _ & ->)]; [done|]. left. cbn.
  by rewrite (tbl_get_insert _ _ _ _ id Hx), decide_True.
Qed.

Lemma known_stays id e d d' : known id e d -> journaled id e d d' -> d' = d.
Proof.
  intros Hk [[_ ->] | (x & y & Hx & Hn & _)]; [done|]. apply tbl_insert_fresh in Hx.
  destruct Hk as [Hk | [p Hk]]; congruence.
Qed.

(** C28. An alert is the projection of its log.  After any sequence of records on
    an empty journal, whatever their outcomes: an alert has a state exactly when
    its log holds an activation; the state follows the newest event since the
    first activation, late facts notwithstanding: its status, times, severity
    and detail are that event's.  A record that succeeded changes nothing when
    it is made again, and what it returns is the state decoded. *)
Theorem alerts_projected ops op w0 :
  w_in_tx w0 = false -> rt_alert_events (d_runtime (w_db w0)) = tbl_empty ->
  rt_alert_states (d_runtime (w_db w0)) = tbl_empty -> Forall op_in_range (op :: ops) ->
  let w := run_alerts ops w0 in
  (forall key, summarised (log_of key (w_db w)) (state_of key (w_db w))) /\
  forall s w', run_alert op w = (Ok s, w') ->
    w_db (run_alert op w').2 = w_db w' /\
    match s with
    | Some s => reported_state (ae_alert_key (event_of op)) s (w_db w')
    | None => state_of (ae_alert_key (event_of op)) (w_db w') = None
    end.
Proof.
  intros Hw He Hs Hops. cbv zeta. apply Forall_cons in Hops as [Hop Hops].
  assert (Hi : alerts_inv (w_db w0)).
  { split; [rewrite He; apply tbl_wf_empty | rewrite Hs; apply tbl_wf_empty | by rewrite He | |];
      intros key; unfold log_of, state_of; rewrite He; cbn; [|by rewrite Hs].
    intros l p l' q Hnil. by destruct l. }
  destruct (run_alerts_inv ops w0 Hw Hi Hops) as [Ht Hi']. split.
  - intros key. rewrite (ai_project _ Hi'). apply replay_summarised; [|apply Hi'].
    apply Forall_forall. intros p [Hp _]%log_of_elem. pose proof (ai_sane _ Hi') as Hsane.
    rewrite Forall_forall in Hsane. by apply Hsane.
  - intros s w' Hrun. pose proof (run_alert_ok op _ Ht) as H. unfold tx_ok, wp in H.
    rewrite Hrun in H. cbn [fst snd] in H. destruct H as [[Ht' _] [Hj Hret]]. split; [|exact Hret].
    pose proof (run_alert_ok op w') as H2. specialize (H2 ltac:(congruence)). unfold tx_ok, wp in H2.
    destruct (run_alert op w') as [[s'|e'] w'']; cbn [fst snd] in *; [|apply H2].
    eapply known_stays; [|apply H2]. eapply journaled_known; [|exact Hj]. apply Hi'.
Qed.
End Journals.

(** ** Concrete runs *)

Definition demo_alert (at_ : Z) (detail : string) : alert_op :=
  RecordActive "health:QMT" "ERROR" detail (DT (1750000000000000 + at_ * 1000000) (Some 0))
    "health" None.

Definition demo_cleared (at_ : Z) : alert_op :=
  RecordResolved "health:QMT" (DT (1750000000000000 + at_ * 1000000) (Some 0)) "health" None.

Definition demo_journal : world unit := W empty_db false 0 tt.

Definition demo_alerts (ops : list alert_op) : world unit :=
  run_alerts (env := demo_env) ops demo_journal.

Definition demo_status (ops : list alert_op) : option (string * string * Z) :=
  (fun s => (al_status s, al_detail s, al_occurrences s))
    <$> state_of "health:QMT" (w_db (demo_alerts ops)).

(** Raised twice, once late, and cleared. *)
Definition demo_history : list alert_op :=
  [demo_alert 10 "stale"; demo_alert 20 "gap"; demo_alert 5 "older"; demo_cleared 30].

Lemma demo_alert_range ops :
  Forall (fun op => bool_decide (dt_off (ae_observed_at (event_of op)) = Some 0)
    && (-719162 <=? dt_local (ae_observed_at (event_of op)) / micros_per_day)
    && (dt_local (ae_observed_at (event_of op)) / micros_per_day <=? 2932896) = true) ops ->
  Forall op_in_range ops.
Proof.
  intros H. eapply Forall_impl; [exact H|]. intros op Hop. cbv beta in Hop. bool_to_prop.
  by repeat split.
Qed.

Lemma alerts_projected_witness :
  demo_status (take 3 demo_history) = Some ("ACTIVE", "gap", 2)%string /\
  demo_status demo_history = Some ("RESOLVED", "gap", 2)%string /\
  summarised (log_of "health:QMT" (w_db (demo_alerts demo_history)))
    (state_of "health:QMT" (w_db (demo_alerts demo_history))).
Proof.
  split; [vm_compute; reflexivity|]. split; [vm_compute; reflexivity|].
  exact (proj1 (alerts_projected (env := demo_env) demo_history (demo_alert 10 "stale") demo_journal
    eq_refl eq_refl eq_refl
    ltac:(apply demo_alert_range; repeat constructor; vm_compute; reflexivity)) "health:QMT").
Defined.

(** A resolution that comes before any activation leaves no state, so a late
    activation raises the alert although a later resolution is on record. *)
Example late_activation :
  demo_status [demo_cleared 30; demo_alert 10 "stale"] = Some ("ACTIVE", "stale", 1)%string.
Proof. vm_compute. reflexivity. Qed.
