(* ===== verification/Ledger.v ===== *)
(** * Ledger: the daily risk accounting of [risk/accounting.py]

    [DailyRiskLedger]: replay-safe daily facts in the runtime tables, and the
    totals a risk evaluation reads.  The order in which SQLite returns the rows
    of a [SELECT] without [ORDER BY] is not the program's: [arrange] stands for
    it, and the theorems hold for every arrangement. *)

From Stdlib Require Import QArith.
From S2P Require Import Prelude PyTime Decimal Json Domain Db Repository OrderStore DecimalFacts Sums.
Open Scope Z_scope.

Inductive DailyRiskEventType := ORDER_SUBMIT | CANCEL_REQUEST | TRADE.

#[global] Instance DailyRiskEventType_eq_dec : EqDecision DailyRiskEventType.
Proof. solve_decision. Defined.

Definition daily_type_str (t : DailyRiskEventType) : string :=
  match t with
  | ORDER_SUBMIT => "ORDER_SUBMIT" | CANCEL_REQUEST => "CANCEL_REQUEST" | TRADE => "TRADE"
  end.

Record DailyRiskTotals := {
  dt_account_fingerprint : string;
  dt_trading_date : Z;
  dt_daily_pnl : Dec.decimal;
  dt_daily_turnover : Dec.decimal;
  dt_daily_order_count : Z;
  dt_daily_cancel_count : Z;
  dt_pnl_observed_at : datetime
}.

(** ** Validators: the argument, or what they raise *)

Open Scope py_scope.

Definition ledger_nonempty (name value : string) : res unit :=
  guard_r (strip_nonempty value) ValueError (name +:+ " must be a non-empty string").

Definition ledger_aware (name : string) (value : datetime) : res unit :=
  guard_r (is_aware value) ValueError (name +:+ " must be timezone-aware").

Definition ledger_decimal (name : string) (value : Dec.pydec) (positive : bool)
    : res Dec.decimal :=
  match value with
  | Dec.Fin d =>
      do! guard_r (negb (positive && Dec.leb d Dec.zero)) ValueError (name +:+ " must be > 0") ;;
      Ok d
  | _ => raise ValueError (name +:+ " must be finite")
  end.

(** [_utc_iso], the instant in UTC. *)
Definition utc_iso (value : datetime) : res datetime :=
  do! ledger_aware "observed_at" value ;; Ok (to_utc value).

(** [_record_event]'s checks, and the identity it stores. *)
Definition event_identity (event_key account_fingerprint strategy_id : string) (trading_date : Z)
    (event_type : DailyRiskEventType) (notional : Dec.pydec) (observed_at : datetime)
    (source_ref : string) : res daily_row :=
  do! ledger_nonempty "event_key" event_key ;;
  do! ledger_nonempty "account_fingerprint" account_fingerprint ;;
  do! ledger_nonempty "strategy_id" strategy_id ;;
  amount <- ledger_decimal "notional" notional false ;;
  do! ledger_aware "observed_at" observed_at ;;
  do! ledger_nonempty "source_ref" source_ref ;;
  at_utc <- utc_iso observed_at ;;
  Ok {| dr_account_fingerprint := account_fingerprint; dr_strategy_id := strategy_id;
        dr_trading_date := trading_date; dr_event_type := daily_type_str event_type;
        dr_notional := amount; dr_observed_at := at_utc; dr_source_ref := source_ref |}.

Definition pnl_identity (snapshot_key account_fingerprint : string) (trading_date : Z)
    (daily_pnl : Dec.pydec) (observed_at : datetime) (source : string) : res pnl_row :=
  do! ledger_nonempty "snapshot_key" snapshot_key ;;
  do! ledger_nonempty "account_fingerprint" account_fingerprint ;;
  amount <- ledger_decimal "daily_pnl" daily_pnl false ;;
  do! ledger_aware "observed_at" observed_at ;;
  do! ledger_nonempty "source" source ;;
  at_utc <- utc_iso observed_at ;;
  Ok {| pn_account_fingerprint := account_fingerprint; pn_trading_date := trading_date;
        pn_daily_pnl := amount; pn_observed_at := at_utc; pn_source := source |}.

(** [sum(..., Decimal("0"))]. *)
Definition sum_dec (l : list Dec.decimal) : res Dec.decimal :=
  fold_left (fun acc d => turnover <- acc ;; Dec.add turnover d) l (Ok Dec.zero).

(** The rows of one account and day. *)
Definition on_day (account_fingerprint : string) (trading_date : Z) (r : daily_row) : bool :=
  bool_decide (dr_account_fingerprint r = account_fingerprint)
  && bool_decide (dr_trading_date r = trading_date).

Definition is_type (t : DailyRiskEventType) (r : daily_row) : bool :=
  bool_decide (dr_event_type r = daily_type_str t).

(** [ORDER BY observed_at DESC, snapshot_key DESC LIMIT 1], on the stored text. *)
Definition newer (a b : string * pnl_row) : bool :=
  match String.compare (isoformat (pn_observed_at b.2)) (isoformat (pn_observed_at a.2)) with
  | Lt => true
  | Eq => String.ltb b.1 a.1
  | Gt => false
  end.

Definition latest_pnl (rows : list (string * pnl_row)) : option (string * pnl_row) :=
  fold_left (fun acc r => match acc with
                          | Some b => if newer r b then Some r else acc
                          | None => Some r
                          end) rows None.

Close Scope py_scope.
Open Scope oms_scope.

Section Ledger.
Context {R : Type} {env : Env} (write_guard : option (M R unit)).
Context (arrange : list daily_row -> list daily_row).

(** [_record_event]. *)
Definition record_event (event_key account_fingerprint strategy_id : string) (trading_date : Z)
    (event_type : DailyRiskEventType) (notional : Dec.pydec) (observed_at : datetime)
    (source_ref : string) : M R bool :=
  identity <- lift (event_identity event_key account_fingerprint strategy_id trading_date
                      event_type notional observed_at source_ref) ;;
  transaction (
    do! guard_write_in_tx write_guard ;;
    row <- read_db (fun d => tbl_get (rt_events (d_runtime d)) event_key) ;;
    match row with
    | Some stored =>
        do! guardM (bool_decide (stored = identity)) DailyRiskFactConflict
              "conflicting daily risk event identity" ;;
        retM false
    | None =>
        ins <- read_db (fun d => tbl_insert event_key identity (rt_events (d_runtime d))) ;;
        match ins with
        | Some x => do! write_db (set_daily x) ;; retM true
        | None => raiseM SqliteIntegrityError "UNIQUE constraint failed"
        end
    end).

Definition record_order_submit (event_key account_fingerprint strategy_id : string)
    (trading_date : Z) (observed_at : datetime) (source_ref : string) : M R bool :=
  record_event event_key account_fingerprint strategy_id trading_date ORDER_SUBMIT
    (Dec.Fin Dec.zero) observed_at source_ref.

Definition record_cancel_request (event_key account_fingerprint strategy_id : string)
    (trading_date : Z) (observed_at : datetime) (source_ref : string) : M R bool :=
  record_event event_key account_fingerprint strategy_id trading_date CANCEL_REQUEST
    (Dec.Fin Dec.zero) observed_at source_ref.

Definition record_trade (event_key account_fingerprint strategy_id : string) (trading_date : Z)
    (notional : Dec.pydec) (observed_at : datetime) (source_ref : string) : M R bool :=
  do! lift (ledger_decimal "notional" notional true) ;;
  record_event event_key account_fingerprint strategy_id trading_date TRADE
    notional observed_at source_ref.

(** The row [record_pnl_snapshot] looks up: by key, or by account, day and
    instant. *)
Definition pnl_clash (snapshot_key : string) (identity : pnl_row) (p : string * pnl_row) : bool :=
  bool_decide (p.1 = snapshot_key)
  || bool_decide (pn_account_fingerprint p.2 = pn_account_fingerprint identity)
     && bool_decide (pn_trading_date p.2 = pn_trading_date identity)
     && bool_decide (pn_observed_at p.2 = pn_observed_at identity).

Definition record_pnl_snapshot (choose : list (string * pnl_row) -> option (string * pnl_row))
    (snapshot_key account_fingerprint : string) (trading_date : Z) (daily_pnl : Dec.pydec)
    (observed_at : datetime) (source : string) : M R bool :=
  identity <- lift (pnl_identity snapshot_key account_fingerprint trading_date daily_pnl
                      observed_at source) ;;
  transaction (
    do! guard_write_in_tx write_guard ;;
    row <- read_db (fun d => choose (List.filter (pnl_clash snapshot_key identity)
                                       (tbl_scan (rt_pnl (d_runtime d))))) ;;
    match row with
    | Some (stored_key, stored) =>
        do! guardM (bool_decide (stored_key = snapshot_key) && bool_decide (stored = identity))
              DailyRiskFactConflict "conflicting daily PnL snapshot identity" ;;
        retM false
    | None =>
        ins <- read_db (fun d => tbl_insert snapshot_key identity (rt_pnl (d_runtime d))) ;;
        match ins with
        | Some x => do! write_db (set_pnl x) ;; retM true
        | None => raiseM SqliteIntegrityError "UNIQUE constraint failed"
        end
    end).

(** ** Totals *)

Definition day_rows (d : db) (account_fingerprint : string) (trading_date : Z) : list daily_row :=
  arrange (List.filter (on_day account_fingerprint trading_date)
             (List.map snd (tbl_scan (rt_events (d_runtime d))))).

Definition count_type (t : DailyRiskEventType) (rows : list daily_row) : Z :=
  Z.of_nat (List.length (List.filter (is_type t) rows)).

Definition turnover_of (rows : list daily_row) : res Dec.decimal :=
  sum_dec (List.map dr_notional (List.filter (is_type TRADE) rows)).

Definition totals (account_fingerprint : string) (trading_date : Z) : M R DailyRiskTotals :=
  do! lift (ledger_nonempty "account_fingerprint" account_fingerprint) ;;
  rows <- read_db (fun d => day_rows d account_fingerprint trading_date) ;;
  turnover <- lift (turnover_of rows) ;;
  pnl_row <- read_db (fun d => latest_pnl (List.filter (fun p =>
      bool_decide (pn_account_fingerprint p.2 = account_fingerprint)
      && bool_decide (pn_trading_date p.2 = trading_date)) (tbl_scan (rt_pnl (d_runtime d))))) ;;
  match pnl_row with
  | None => raiseM DailyRiskSnapshotUnavailable
              ("no daily PnL snapshot for " +:+ account_fingerprint +:+ " on " +:+
               date_iso trading_date)
  | Some (_, r) =>
      retM {| dt_account_fingerprint := account_fingerprint; dt_trading_date := trading_date;
              dt_daily_pnl := pn_daily_pnl r; dt_daily_turnover := turnover;
              dt_daily_order_count := count_type ORDER_SUBMIT rows;
              dt_daily_cancel_count := count_type CANCEL_REQUEST rows;
              dt_pnl_observed_at := pn_observed_at r |}
  end.

Definition strategy_turnover (account_fingerprint strategy_id : string) (trading_date : Z)
    : M R Dec.decimal :=
  do! lift (ledger_nonempty "account_fingerprint" account_fingerprint) ;;
  do! lift (ledger_nonempty "strategy_id" strategy_id) ;;
  rows <- read_db (fun d => arrange (List.filter (fun r =>
      on_day account_fingerprint trading_date r
      && bool_decide (dr_strategy_id r = strategy_id) && is_type TRADE r)
      (List.map snd (tbl_scan (rt_events (d_runtime d)))))) ;;
  lift (sum_dec (List.map dr_notional rows)).
End Ledger.

Lemma sum_exact l : sum_fits l -> exists s, sum_dec l = Ok s /\ (val s == Qsum l)%Q.
Proof.
  intros (e & [He1 He2] & Hl & Hlt). destruct (sum_from e Dec.zero l) as (s & Hs & Hv); try done.
  exists s. split; [exact Hs|]. by rewrite Hv, val_zero, Qplus_0_l.
Qed.

#[global] Instance filter_perm {A} (f : A -> bool) : Proper (Permutation ==> Permutation) (List.filter f).
Proof.
  induction 1 as [|x l l' _ IH|x y l|l1 l2 l3 _ H12 _ H23]; cbn; [done|..].
  - by destruct (f x); [f_equiv|].
  - destruct (f x), (f y); try done. apply Permutation_swap.
  - by transitivity (List.filter f l2).
Qed.

(** ** The facts of a day *)

Definition ledger_rows (d : db) (account_fingerprint : string) (trading_date : Z)
    : list daily_row :=
  List.filter (on_day account_fingerprint trading_date)
    (List.map snd (tbl_scan (rt_events (d_runtime d)))).

Definition trades (rows : list daily_row) : list Dec.decimal :=
  List.map dr_notional (List.filter (is_type TRADE) rows).

Definition day_pnl (d : db) (account_fingerprint : string) (trading_date : Z)
    : option (string * pnl_row) :=
  latest_pnl (List.filter (fun p =>
      bool_decide (pn_account_fingerprint p.2 = account_fingerprint)
      && bool_decide (pn_trading_date p.2 = trading_date)) (tbl_scan (rt_pnl (d_runtime d)))).

Lemma turnover_arranged rows rows' :
  rows' ≡ₚ rows -> sum_fits (trades rows) ->
  exists s, turnover_of rows' = Ok s /\ (val s == Qsum (trades rows))%Q.
Proof.
  intros Hp Hf. assert (Ht : trades rows' ≡ₚ trades rows) by (unfold trades; by rewrite Hp).
  destruct (sum_exact (trades rows')) as (s & Hs & Hv); [by eapply sum_fits_perm|].
  exists s. split; [exact Hs|]. by rewrite Hv, Ht.
Qed.

Lemma count_arranged t rows rows' : rows' ≡ₚ rows -> count_type t rows' = count_type t rows.
Proof. intros Hp. unfold count_type. by rewrite Hp. Qed.

(** ** What a record does *)

Section Contract.
Context {R : Type} {env : Env} (write_guard : option (M R unit)).
Hypothesis guard_quiet : match write_guard with Some g => quiet g | None => True end.
Implicit Types (w : world R).

Lemma tx_ok_lift {A B} (r : res A) a (f : A -> M R B) P w :
  r = Ok a -> tx_ok (f a) P w -> tx_ok (bindM (lift r) f) P w.
Proof. by intros ->. Qed.

(** [b] tells whether the fact [id] was new under [key]. *)
Definition recorded (key : string) (id : daily_row) (d : db) (b : bool) (d' : db) : Prop :=
  if b then exists x, tbl_insert key id (rt_events (d_runtime d)) = Some x /\ d' = set_daily x d
  else tbl_get (rt_events (d_runtime d)) key = Some id /\ d' = d.

Lemma record_event_ok key a s t ty n obs src id w :
  w_in_tx w = false -> event_identity key a s t ty n obs src = Ok id ->
  tx_ok (record_event write_guard key a s t ty n obs src) (recorded key id (w_db w)) w.
Proof.
  intros Hw Hid. unfold record_event. eapply tx_ok_lift; [exact Hid|]. apply tx_ok_intro; [done|].
  intros w1 Hdb _ _. apply in_tx_ok_quiet; [by apply guard_write_quiet|]. intros [] w2 Hd2 _.
  apply in_tx_ok_read. rewrite Hd2, Hdb.
  destruct (tbl_get _ _) as [stored|] eqn:E.
  - unfold in_tx_ok. repeat wp_step; [|done]. bool_to_prop. subst stored.
    repeat split; cbn; congruence.
  - apply in_tx_ok_read. rewrite Hd2, Hdb.
    destruct (tbl_insert _ _ _) as [x|] eqn:Ei; [|apply in_tx_ok_raise].
    unfold in_tx_ok. repeat wp_step. cbn. repeat split. exists x. split; [exact Ei|].
    by rewrite Hd2, Hdb.
Qed.

(** The record under an open guard and an available lock. *)
Lemma record_event_run key a s t ty n obs src id w :
  w_in_tx w = false -> env_begin (w_tick w) = None ->
  (guard_write_in_tx write_guard (W (w_db w) true (S (w_tick w)) (w_rest w))).1 = Ok tt ->
  event_identity key a s t ty n obs src = Ok id ->
  forall stored, tbl_get (rt_events (d_runtime (w_db w))) key = Some stored ->
  (record_event write_guard key a s t ty n obs src w).1 =
    (if bool_decide (stored = id) then Ok false
     else Err (Exn DailyRiskFactConflict "conflicting daily risk event identity")) /\
  w_db (record_event write_guard key a s t ty n obs src w).2 = w_db w.
Proof.
  intros Hw Hb Hg Hid stored Hs. pose proof (guard_write_quiet write_guard guard_quiet
    (W (w_db w) true (S (w_tick w)) (w_rest w))) as Hq. unfold wp in Hq.
  enough (exists w', record_event write_guard key a s t ty n obs src w =
    ((if bool_decide (stored = id) then Ok false
      else Err (Exn DailyRiskFactConflict "conflicting daily risk event identity")), w') /\
    w_db w' = w_db w) as (w' & -> & Hd) by done.
  unfold record_event, lift, bindM at 1. rewrite Hid. unfold transaction. rewrite Hw, Hb.
  unfold bindM at 1. destruct (guard_write_in_tx _ _) as [[[]|e] w1]; [|done].
  cbn [fst snd w_db] in *. destruct Hq as [Hd _]. unfold bindM, read_db. rewrite Hd, Hs.
  unfold guardM, retM, raiseM. destruct (bool_decide _); by eexists.
Qed.
End Contract.

(** The runtime tables hold each key once. *)
Definition runtime_inv (d : db) : Prop :=
  tbl_wf (rt_events (d_runtime d)) /\ tbl_wf (rt_pnl (d_runtime d)) /\
  tbl_wf (rt_modes (d_runtime d)).

Lemma runtime_inv_empty : runtime_inv empty_db.
Proof. repeat split; try apply tbl_wf_empty; cbn; rewrite ?lookup_empty; set_solver. Qed.

(** The facts of a day after a new one. *)
Lemma ledger_rows_set key id x d a t :
  runtime_inv d -> tbl_insert key id (rt_events (d_runtime d)) = Some x ->
  ledger_rows (set_daily x d) a t =
    ledger_rows d a t ++ (if on_day a t id then [id] else []).
Proof.
  intros (Hwf & _) Hi. unfold ledger_rows. cbn.
  rewrite (tbl_scan_insert _ _ _ _ Hwf Hi), List.map_app, List.filter_app. cbn.
  by destruct (on_day a t id).
Qed.

Lemma count_type_app t l l' : count_type t (l ++ l') = count_type t l + count_type t l'.
Proof. unfold count_type. rewrite List.filter_app, length_app. lia. Qed.

Lemma trades_app l l' : trades (l ++ l') = trades l ++ trades l'.
Proof. unfold trades. by rewrite List.filter_app, List.map_app. Qed.

Lemma event_identity_ok key a s t ty n obs src id :
  event_identity key a s t ty n obs src = Ok id ->
  n = Dec.Fin (dr_notional id) /\ dr_account_fingerprint id = a /\ dr_trading_date id = t /\
  dr_strategy_id id = s /\ dr_event_type id = daily_type_str ty /\ strip_nonempty a = true.
Proof.
  unfold event_identity, ledger_nonempty, ledger_aware, utc_iso, ledger_decimal. intros H.
  destruct n; inv_ok. by repeat split.
Qed.

Lemma totals_run {R} {env : Env} arrange a t (w : world R) :
  (forall l, arrange l ≡ₚ l) -> strip_nonempty a = true ->
  sum_fits (trades (ledger_rows (w_db w) a t)) ->
  exists s, (val s == Qsum (trades (ledger_rows (w_db w) a t)))%Q /\
  totals arrange a t w =
    match day_pnl (w_db w) a t with
    | None => (Err (Exn DailyRiskSnapshotUnavailable
        ("no daily PnL snapshot for " +:+ a +:+ " on " +:+ date_iso t)), w)
    | Some (_, r) =>
        (Ok {| dt_account_fingerprint := a; dt_trading_date := t; dt_daily_pnl := pn_daily_pnl r;
               dt_daily_turnover := s;
               dt_daily_order_count := count_type ORDER_SUBMIT (ledger_rows (w_db w) a t);
               dt_daily_cancel_count := count_type CANCEL_REQUEST (ledger_rows (w_db w) a t);
               dt_pnl_observed_at := pn_observed_at r |}, w)
    end.
Proof.
  intros Hp Ha Hf. pose proof (Hp (ledger_rows (w_db w) a t)) as Hrows.
  destruct (turnover_arranged _ _ Hrows Hf) as (s & Hs & Hv). exists s. split; [done|].
  unfold totals, ledger_nonempty, bindM, lift, guard_r, read_db. rewrite Ha. cbn [fst snd].
  change (day_rows arrange (w_db w) a t) with (arrange (ledger_rows (w_db w) a t)). rewrite Hs.
  fold (day_pnl (w_db w) a t). destruct (day_pnl _ _ _) as [[k r]|]; [|done].
  by rewrite !(count_arranged _ _ _ Hrows).
Qed.

Section Theorems.
Context {R : Type} {env : Env} (write_guard : option (M R unit)).
Hypothesis guard_quiet : match write_guard with Some g => quiet g | None => True end.
Context (arrange : list daily_row -> list daily_row).
Hypothesis arrange_perm : forall l, arrange l ≡ₚ l.
Implicit Types (w : world R).

(** A fact is counted once.  After [_record_event] returned, in any later
    transaction whose table still holds the rows of then, the same fact is a
    replay - [False], and nothing written - and a different fact under the same
    key raises [DailyRiskFactConflict] and writes nothing. *)
Theorem fact_once key a s t ty n obs src id b w w1 w2 :
  w_in_tx w = false -> event_identity key a s t ty n obs src = Ok id ->
  record_event write_guard key a s t ty n obs src w = (Ok b, w1) ->
  rt_events (d_runtime (w_db w1)) ⊑ₜ rt_events (d_runtime (w_db w2)) ->
  w_in_tx w2 = false -> env_begin (w_tick w2) = None ->
  (guard_write_in_tx write_guard (W (w_db w2) true (S (w_tick w2)) (w_rest w2))).1 = Ok tt ->
  (record_event write_guard key a s t ty n obs src w2).1 = Ok false /\
  w_db (record_event write_guard key a s t ty n obs src w2).2 = w_db w2 /\
  forall a' s' t' ty' n' obs' src' id',
    event_identity key a' s' t' ty' n' obs' src' = Ok id' -> id' <> id ->
    (record_event write_guard key a' s' t' ty' n' obs' src' w2).1 =
      Err (Exn DailyRiskFactConflict "conflicting daily risk event identity") /\
    w_db (record_event write_guard key a' s' t' ty' n' obs' src' w2).2 = w_db w2.
Proof.
  intros Hw Hid Hr Hle Hw2 Hb Hg.
  pose proof (record_event_ok write_guard guard_quiet key a s t ty n obs src id w Hw Hid) as H.
  unfold tx_ok, wp in H. rewrite Hr in H. destruct H as [_ H].
  assert (Hs : tbl_get (rt_events (d_runtime (w_db w2))) key = Some id).
  { apply Hle. destruct b; cbn in H.
    - destruct H as (x & Hx & ->). cbn. by rewrite (tbl_get_insert _ _ _ _ key Hx), decide_True.
    - destruct H as [Hg' ->]. exact Hg'. }
  pose proof (fun a s t ty n obs src i H => record_event_run write_guard guard_quiet key a s t ty
    n obs src i w2 Hw2 Hb Hg H id Hs) as Hrun. clear H Hr.
  destruct (Hrun _ _ _ _ _ _ _ _ Hid) as [H1 H2]. rewrite bool_decide_true in H1 by done.
  split; [done|]. split; [done|]. intros a' s' t' ty' n' obs' src' id' Hid' Hne.
  destruct (Hrun _ _ _ _ _ _ _ _ Hid') as [H3 H4]. rewrite bool_decide_false in H3 by congruence. done.
Qed.

(** Totals are the facts.  Whatever order SQLite returns the rows in, when
    the day's trade amounts fit 28 digits together, [totals] returns the exact
    sum of the trades of that account and day, the exact numbers of submits and
    cancels, and the latest PnL snapshot - or, without a snapshot, raises
    [DailyRiskSnapshotUnavailable]. *)
Theorem totals_exact a t w :
  strip_nonempty a = true -> sum_fits (trades (ledger_rows (w_db w) a t)) ->
  match day_pnl (w_db w) a t with
  | None => exists msg, totals arrange a t w = (Err (Exn DailyRiskSnapshotUnavailable msg), w)
  | Some (_, r) => exists T, totals arrange a t w = (Ok T, w) /\
      (val (dt_daily_turnover T) == Qsum (trades (ledger_rows (w_db w) a t)))%Q /\
      dt_daily_order_count T = count_type ORDER_SUBMIT (ledger_rows (w_db w) a t) /\
      dt_daily_cancel_count T = count_type CANCEL_REQUEST (ledger_rows (w_db w) a t) /\
      dt_daily_pnl T = pn_daily_pnl r /\ dt_pnl_observed_at T = pn_observed_at r
  end.
Proof.
  intros Ha Hf. destruct (totals_run arrange a t w arrange_perm Ha Hf) as (s & Hv & ->).
  destruct (day_pnl _ _ _) as [[k r]|]; by eexists.
Qed.

(** A new trade moves exactly one day.  When [record_trade] returns [True],
    the turnover [totals] reports for that account and day has grown by exactly
    the trade's notional, the counts and the PnL of that day are unchanged, and
    so are the facts of every other account or day and every other table. *)
Theorem trade_counted key a s t n obs src w w' T :
  w_in_tx w = false -> runtime_inv (w_db w) ->
  record_trade write_guard key a s t (Dec.Fin n) obs src w = (Ok true, w') ->
  sum_fits (trades (ledger_rows (w_db w') a t)) ->
  (totals arrange a t w).1 = Ok T ->
  (exists T', (totals arrange a t w').1 = Ok T' /\
    (val (dt_daily_turnover T') == val (dt_daily_turnover T) + val n)%Q /\
    dt_daily_order_count T' = dt_daily_order_count T /\
    dt_daily_cancel_count T' = dt_daily_cancel_count T /\ dt_daily_pnl T' = dt_daily_pnl T) /\
  (forall a' t', (a', t') <> (a, t) ->
    ledger_rows (w_db w') a' t' = ledger_rows (w_db w) a' t') /\
  exists x, w_db w' = set_daily x (w_db w).
Proof.
  intros Hw Hinv Hr Hf HT. unfold record_trade, bindM, lift in Hr.
  destruct (ledger_decimal _ _ _) as [u|e]; [|done].
  destruct (event_identity key a s t TRADE (Dec.Fin n) obs src) as [id|e] eqn:Hid.
  2: { unfold record_event, bindM, lift in Hr. by rewrite Hid in Hr. }
  pose proof (record_event_ok write_guard guard_quiet key a s t TRADE (Dec.Fin n) obs src id w Hw Hid)
    as H. unfold tx_ok, wp in H. rewrite Hr in H. destruct H as [_ (x & Hx & Hd)]. cbn [fst snd] in Hd.
  destruct (event_identity_ok _ _ _ _ _ _ _ _ _ Hid) as ([= Hn] & Hia & Hit & _ & Hty & Ha).
  assert (Hrows : forall a' t', ledger_rows (w_db w') a' t' =
    ledger_rows (w_db w) a' t' ++ (if on_day a' t' id then [id] else []))
    by (intros; rewrite Hd; by eapply ledger_rows_set).
  assert (Hon : on_day a t id = true)
    by (unfold on_day; rewrite Hia, Hit, !bool_decide_true by done; done).
  split; [|split].
  - pose proof (Hrows a t) as Hat. rewrite Hon in Hat.
    assert (Hone : trades [id] = [n])
      by (unfold trades; cbn; unfold is_type; rewrite Hty, bool_decide_true by done; cbn; by rewrite <- Hn).
    destruct (totals_run arrange a t w' arrange_perm Ha Hf) as (s' & Hv' & Hrun').
    rewrite Hat, trades_app in Hf.
    destruct (totals_run arrange a t w arrange_perm Ha (sum_fits_app_l _ _ Hf)) as (s0 & Hv & Hrun).
    assert (Hp : day_pnl (w_db w') a t = day_pnl (w_db w) a t) by (by rewrite Hd).
    rewrite Hrun', Hp. rewrite Hrun in HT.
    destruct (day_pnl _ _ _) as [[k r]|]; [|done]. injection HT as <-. eexists. split; [reflexivity|].
    cbn. rewrite Hat, !count_type_app, Hv', Hat, trades_app, Qsum_app, Hone, Hv. cbn.
    unfold count_type, is_type. cbn. rewrite Hty. cbn.
    split; [by rewrite Qplus_0_r | by rewrite !Z.add_0_r].
  - intros a' t' Hne. rewrite Hrows.
    replace (on_day a' t' id) with false; [by rewrite app_nil_r|].
    symmetry. unfold on_day. rewrite Hia, Hit. apply andb_false_iff.
    destruct (decide (a = a')) as [->|]; [right|left]; apply bool_decide_eq_false; congruence.
  - by exists x.
Qed.
End Theorems.

(** ** A concrete day *)

Definition demo_at : datetime := DT 1750000000000000 (Some 28800000000).
Definition demo_amount : Dec.decimal := Dec.D false 105000 (-2).

Definition first_of {A} (l : list A) : option A := match l with a :: _ => Some a | [] => None end.

Definition demo_priced : world unit :=
  (@record_pnl_snapshot unit demo_env None first_of "pnl-1" "acct" 739000
     (Dec.Fin (Dec.D true 5 (-1))) demo_at "qmt" (W empty_db false 0 tt)).2.

Definition demo_traded : world unit :=
  (@record_trade unit demo_env None "trade-1" "acct" "strategy" 739000 (Dec.Fin demo_amount)
     demo_at "source" demo_priced).2.

Definition demo_no_guard : match @None (M unit unit) with Some g => quiet g | None => True end := I.

Definition demo_identity : daily_row :=
  {| dr_account_fingerprint := "acct"; dr_strategy_id := "strategy"; dr_trading_date := 739000;
     dr_event_type := "TRADE"; dr_notional := demo_amount; dr_observed_at := to_utc demo_at;
     dr_source_ref := "source" |}.

Lemma demo_trade_event :
  @record_event unit demo_env None "trade-1" "acct" "strategy" 739000 TRADE (Dec.Fin demo_amount)
    demo_at "source" demo_priced = (Ok true, demo_traded).
Proof. vm_compute. reflexivity. Qed.

Lemma fact_once_witness :
  (@record_event unit demo_env None "trade-1" "acct" "strategy" 739000 TRADE (Dec.Fin demo_amount)
     demo_at "source" demo_traded).1 = Ok false /\
  (@record_event unit demo_env None "trade-1" "acct" "strategy" 739000 TRADE
     (Dec.Fin (Dec.D false 1 0)) demo_at "source" demo_traded).1
    = Err (Exn DailyRiskFactConflict "conflicting daily risk event identity").
Proof.
  destruct (@fact_once unit demo_env None demo_no_guard "trade-1" "acct" "strategy" 739000 TRADE
    (Dec.Fin demo_amount) demo_at "source" demo_identity true demo_priced demo_traded demo_traded
    ltac:(vm_compute; reflexivity) ltac:(vm_compute; reflexivity) demo_trade_event
    ltac:(intros k v H; exact H) ltac:(vm_compute; reflexivity) ltac:(vm_compute; reflexivity)
    ltac:(vm_compute; reflexivity)) as (H1 & _ & H2).
  split; [exact H1|].
  refine (proj1 (H2 "acct"%string "strategy"%string 739000 TRADE (Dec.Fin (Dec.D false 1 0)) demo_at
    "source"%string _ eq_refl _)).
  intros H. discriminate (f_equal (fun r => Dec.coef (dr_notional r)) H).
Defined.

Lemma demo_fits : sum_fits (trades (ledger_rows (w_db demo_traded) "acct" 739000)).
Proof. exists (-2). vm_compute. split; [by split|]. split; [repeat constructor; done | done]. Qed.

Lemma totals_exact_witness :
  exists T, (@totals unit (fun l => l) "acct" 739000 demo_traded).1 = Ok T /\
    dt_daily_order_count T = 0 /\
    (val (dt_daily_turnover T) == Qsum (trades (ledger_rows (w_db demo_traded) "acct" 739000)))%Q.
Proof.
  destruct (@totals_exact unit demo_env (fun l => l) (fun l => Permutation_refl l) "acct" 739000 demo_traded
    eq_refl demo_fits) as (T & HT & Hv & Ho & _).
  exists T. rewrite HT. split; [reflexivity|]. split; [rewrite Ho; vm_compute; reflexivity | exact Hv].
Defined.

Lemma demo_priced_inv : runtime_inv (w_db demo_priced).
Proof.
  split; [apply tbl_wf_empty|]. split; [|apply tbl_wf_empty].
  refine (tbl_wf_insert "pnl-1"%string _ tbl_empty _ (tbl_wf_empty) _). vm_compute. reflexivity.
Qed.

Lemma trade_counted_witness :
  exists T', (@totals unit (fun l => l) "acct" 739000 demo_traded).1 = Ok T' /\
    (val (dt_daily_turnover T') == 0 + val demo_amount)%Q.
Proof.
  destruct (@trade_counted unit demo_env None demo_no_guard (fun l => l)
    (fun l => Permutation_refl l) "trade-1" "acct" "strategy" 739000 demo_amount demo_at "source"
    demo_priced demo_traded
    {| dt_account_fingerprint := "acct"; dt_trading_date := 739000;
       dt_daily_pnl := Dec.D true 5 (-1); dt_daily_turnover := Dec.zero;
       dt_daily_order_count := 0; dt_daily_cancel_count := 0;
       dt_pnl_observed_at := to_utc demo_at |}
    ltac:(vm_compute; reflexivity) demo_priced_inv ltac:(vm_compute; reflexivity) demo_fits
    ltac:(vm_compute; reflexivity)) as ((T' & HT & Hv & _) & _).
  exists T'. split; [exact HT | exact Hv].
Defined.
