(* ===== verification/Parts.v ===== *)
(** * Parts: the in-memory state of one component of a process

    A process holds several objects; an operation of one of them reads and
    writes its own and leaves the others alone.  [Part S R] says that a process
    state [R] has an [S] in it, and the laws are what clients rely on. *)

From S2P Require Import Prelude Decimal Json Domain Db OrderStore.

Class Part (S R : Type) := {
  get_part : R -> S;
  set_part : S -> R -> R;
  get_set_part : forall s r, get_part (set_part s r) = s;
  set_get_part : forall r, set_part (get_part r) r = r;
  set_set_part : forall s s' r, set_part s (set_part s' r) = set_part s r
}.

Create Rewrite HintDb parts.
#[export] Hint Rewrite @get_set_part @set_get_part @set_set_part : parts.

#[global] Instance whole_part S : Part S S.
Proof. by refine {| get_part := fun r => r; set_part := fun s _ => s |}. Defined.

#[global] Instance fst_part S T R `{Part S R} : Part S (R * T).
Proof.
  refine {| get_part := fun r => get_part r.1; set_part := fun s r => (set_part s r.1, r.2) |};
    intros; cbn; autorewrite with parts; by destruct_and?; try destruct r.
Defined.

#[global] Instance snd_part S T R `{Part S R} : Part S (T * R).
Proof.
  refine {| get_part := fun r => get_part r.2; set_part := fun s r => (r.1, set_part s r.2) |};
    intros; cbn; autorewrite with parts; by destruct_and?; try destruct r.
Defined.

(** Two parts that do not overlap: setting the one leaves the other. *)
Class Apart (S T R : Type) `{Part S R} `{Part T R} := {
  get_set_apart : forall (s : S) (r : R), get_part (set_part s r) =@{T} get_part r
}.

#[export] Hint Rewrite @get_set_apart : parts.

#[global] Instance fst_snd_apart S T R R' `{Part S R} `{Part T R'} : Apart S T (R * R').
Proof. by split. Qed.

#[global] Instance snd_fst_apart S T R R' `{Part S R} `{Part T R'} : Apart T S (R * R').
Proof. by split. Qed.

Section Monad.
Context {S R : Type} `{Part S R}.

Definition read_part {A} (f : S -> A) : M R A := read_rest (fun r => f (get_part r)).
Definition write_part (f : S -> S) : M R unit :=
  write_rest (fun r => set_part (f (get_part r)) r).

Lemma quiet_read_part {A} (f : S -> A) : quiet (read_part f).
Proof. apply quiet_read_rest. Qed.
End Monad.

#[export] Hint Resolve quiet_read_part : quiet.
