(* ===== verification/Mode.v ===== *)
(** * Mode: the runtime mode controller of [operations/mode.py]

    [RuntimeModeController]: the mode lives in memory ([controller], a part of
    the process state), every change is a row of the audit table.  The theorems
    read the mode back from the audit and bound what can be reached. *)

From S2P Require Import Prelude PyTime Decimal Json Domain Db Repository OrderStore RiskModels Parts.
Open Scope Z_scope.

(** ** [RuntimeHealth] *)

Record RuntimeHealth := {
  rh_database_healthy : bool;
  rh_oms_healthy : bool;
  rh_leader_held : bool;
  rh_reconciliation_complete : bool;
  rh_qmt_healthy : bool;
  rh_market_data_healthy : bool;
  rh_strategy_healthy : bool
}.

Definition ready_for_mutation (h : RuntimeHealth) : bool :=
  forallb (fun b => b)
    [rh_database_healthy h; rh_oms_healthy h; rh_leader_held h; rh_reconciliation_complete h;
     rh_qmt_healthy h; rh_market_data_healthy h; rh_strategy_healthy h].

(** ** The controller *)

Record controller := { mc_runtime_session_id : string; mc_mode : RuntimeMode }.

Definition LIVE_MODES : list RuntimeMode := [LIVE_CANARY; LIVE_ARMED].

(** The table [allowed]; [None] is its [KeyError]. *)
Definition allowed_modes (current : RuntimeMode) : option (list RuntimeMode) :=
  match current with
  | DISABLED => Some [DISABLED; OBSERVE]
  | OBSERVE => Some [DISABLED; OBSERVE; SHADOW; SIMULATION]
  | SHADOW => Some [DISABLED; OBSERVE; SHADOW; SIMULATION]
  | SIMULATION => Some [DISABLED; OBSERVE; SIMULATION]
  | HALTED => Some [DISABLED]
  | LIVE_CANARY | LIVE_ARMED => None
  end.

Definition mode_nonempty (name value : string) : res unit :=
  guard_r (strip_nonempty value) ValueError (name +:+ " must be a non-empty string").

Definition mode_aware (name : string) (value : datetime) : res unit :=
  guard_r (is_aware value) ValueError (name +:+ " must be timezone-aware").

(** [_utc_iso], the instant in UTC. *)
Definition mode_utc (value : datetime) : res datetime :=
  (do! mode_aware "changed_at" value ;; Ok (to_utc value))%py.

Definition set_mode (m : RuntimeMode) (c : controller) : controller :=
  {| mc_runtime_session_id := mc_runtime_session_id c; mc_mode := m |}.

(** What a replayed request must agree with. *)
Definition replay_of (session target actor reason : string) (changed_at : datetime)
    (prior : mode_row) : bool :=
  bool_decide (mt_runtime_session_id prior = session) && bool_decide (mt_to_mode prior = target)
  && bool_decide (mt_actor prior = actor) && bool_decide (mt_reason prior = reason)
  && bool_decide (mt_changed_at prior = changed_at).

Open Scope oms_scope.

Section Mode.
Context {R : Type} {env : Env} `{Part controller R} (write_guard : option (M R unit)).

Definition find_request (request_id : string) : M R (option mode_row) :=
  read_db (fun d => tbl_get (rt_modes (d_runtime d)) request_id).

Definition record_transition (request_id : string) (from_mode to_mode : RuntimeMode)
    (actor reason : string) (changed_at : datetime) : M R bool :=
  session <- read_part mc_runtime_session_id ;;
  at_utc <- lift (mode_utc changed_at) ;;
  let identity := {| mt_runtime_session_id := session; mt_from_mode := mode_str from_mode;
                     mt_to_mode := mode_str to_mode; mt_actor := actor; mt_reason := reason;
                     mt_changed_at := at_utc |} in
  transaction (
    do! guard_write_in_tx write_guard ;;
    row <- find_request request_id ;;
    match row with
    | Some stored =>
        do! guardM (bool_decide (stored = identity)) ModeTransitionConflict
              "request_id reused with different transition" ;;
        retM false
    | None =>
        ins <- read_db (fun d => tbl_insert request_id identity (rt_modes (d_runtime d))) ;;
        match ins with
        | Some x => do! write_db (set_modes x) ;; retM true
        | None => raiseM SqliteIntegrityError "UNIQUE constraint failed"
        end
    end).

(** The checks of [request_mode] on a new request. *)
Definition mode_gate (current target : RuntimeMode) (health : RuntimeHealth) : res unit :=
  (do! guard_r (negb (mode_in target LIVE_MODES)) ModeTransitionDenied
         "live modes require a separate production Gate" ;;
   do! guard_r (negb (bool_decide (target = HALTED))) ModeTransitionDenied
         "use halt() for HALTED transitions" ;;
   do! guard_r (negb (bool_decide (current = HALTED) && negb (bool_decide (target = DISABLED))))
         ModeTransitionDenied "HALTED may only transition to DISABLED" ;;
   do! match allowed_modes current with
       | None => raise KeyError (mode_str current)
       | Some l => guard_r (mode_in target l) ModeTransitionDenied
                     ("transition " +:+ mode_str current +:+ "->" +:+ mode_str target +:+
                      " is not allowed")
       end ;;
   guard_r (negb (mode_in target [SHADOW; SIMULATION] && negb (ready_for_mutation health)))
     ModeTransitionDenied "runtime health prerequisites are not satisfied")%py.

Definition request_mode (request_id : string) (target : RuntimeMode) (actor reason : string)
    (changed_at : datetime) (health : RuntimeHealth) : M R bool :=
  do! lift (mode_nonempty "request_id" request_id) ;;
  do! lift (mode_nonempty "actor" actor) ;;
  do! lift (mode_nonempty "reason" reason) ;;
  do! lift (mode_aware "changed_at" changed_at) ;;
  prior <- find_request request_id ;;
  c <- read_part (fun c => c) ;;
  match prior with
  | Some prior =>
      at_utc <- lift (mode_utc changed_at) ;;
      do! guardM (replay_of (mc_runtime_session_id c) (mode_str target) actor reason at_utc prior
                  && bool_decide (mode_str (mc_mode c) = mt_to_mode prior))
            ModeTransitionConflict "request_id replay does not match current runtime state" ;;
      retM false
  | None =>
      do! lift (mode_gate (mc_mode c) target health) ;;
      changed <- record_transition request_id (mc_mode c) target actor reason changed_at ;;
      do! (if changed : bool then write_part (set_mode target) else retM tt) ;;
      retM changed
  end.

Definition halt (request_id actor reason : string) (changed_at : datetime) : M R bool :=
  do! lift (mode_nonempty "request_id" request_id) ;;
  do! lift (mode_nonempty "actor" actor) ;;
  do! lift (mode_nonempty "reason" reason) ;;
  do! lift (mode_aware "changed_at" changed_at) ;;
  prior <- find_request request_id ;;
  c <- read_part (fun c => c) ;;
  match prior with
  | Some prior =>
      at_utc <- lift (mode_utc changed_at) ;;
      do! guardM (replay_of (mc_runtime_session_id c) (mode_str HALTED) actor reason at_utc prior
                  && bool_decide (mc_mode c = HALTED))
            ModeTransitionConflict "halt request replay does not match current runtime state" ;;
      retM false
  | None =>
      changed <- record_transition request_id (mc_mode c) HALTED actor reason changed_at ;;
      do! (if changed : bool then write_part (set_mode HALTED) else retM tt) ;;
      retM changed
  end.

Definition mode_enforce_health (request_id : string) (health : RuntimeHealth)
    (changed_at : datetime) : M R bool :=
  c <- read_part (fun c => c) ;;
  if bool_decide (mc_mode c = SIMULATION) && negb (ready_for_mutation health) then
    halt request_id "health-monitor" "mutation runtime health prerequisite lost" changed_at
  else retM false.
End Mode.

(** [RuntimeModeController(conn, ...)]: no guard is bound yet. *)
Definition RuntimeModeController_init {R} {env : Env} `{Part controller R}
    (runtime_session_id : string) (started_at : datetime) : M R unit :=
  do! lift (mode_nonempty "runtime_session_id" runtime_session_id) ;;
  do! lift (mode_aware "started_at" started_at) ;;
  do! write_part (fun _ => {| mc_runtime_session_id := runtime_session_id; mc_mode := DISABLED |}) ;;
  do! record_transition None ("startup:" +:+ runtime_session_id) DISABLED DISABLED "system"
        "runtime start defaults to DISABLED" started_at ;;
  retM tt.

(** ** One operation *)

(** A legal move of the mode. *)
Definition mode_edge (m m' : RuntimeMode) : Prop :=
  m' = HALTED \/ exists l, allowed_modes m = Some l /\ m' ∈ l.

Lemma mode_gate_ok m m' h :
  mode_gate m m' h = Ok tt ->
  (m' ∉ LIVE_MODES) /\ m' <> HALTED /\ (m = HALTED -> m' = DISABLED) /\
  (exists l, allowed_modes m = Some l /\ m' ∈ l) /\
  (m' = SHADOW \/ m' = SIMULATION -> ready_for_mutation h = true).
Proof.
  unfold mode_gate. intros Hg. inv_ok. unfold mode_in in *.
  destruct (allowed_modes m) as [l|] eqn:El; inv_ok. bool_to_prop.
  repeat split; try done.
  - intros ->. apply andb_false_iff in H1 as [H1|H1]; bool_to_prop; done.
  - by exists l.
  - intros Hm. apply andb_false_iff in Hg as [Hg|Hg]; bool_to_prop; [|done].
    exfalso. apply Hg. destruct Hm as [-> | ->]; set_solver.
Qed.

Section Contract.
Context {R : Type} {env : Env} `{Part controller R} (write_guard : option (M R unit)).
Hypothesis guard_quiet : match write_guard with Some g => quiet g | None => True end.
Implicit Types (w : world R).

Definition mode_of w : RuntimeMode := mc_mode (get_part (w_rest w)).
Definition session_of w : string := mc_runtime_session_id (get_part (w_rest w)).

(** The request was new, and is now the last row of the audit. *)
Definition moved (request_id : string) (m : RuntimeMode) (actor reason : string)
    (changed_at : datetime) w w' : Prop :=
  exists x, tbl_insert request_id
    {| mt_runtime_session_id := session_of w; mt_from_mode := mode_str (mode_of w);
       mt_to_mode := mode_str m; mt_actor := actor; mt_reason := reason;
       mt_changed_at := to_utc changed_at |} (rt_modes (d_runtime (w_db w))) = Some x /\
    w_db w' = set_modes x (w_db w) /\ w_in_tx w' = w_in_tx w /\
    w_rest w' = set_part (set_mode m (get_part (w_rest w))) (w_rest w).

Definition idle w w' : Prop := w_db w' = w_db w /\ frame w w'.

Lemma idle_trans w1 w2 w3 : idle w1 w2 -> idle w2 w3 -> idle w1 w3.
Proof. unfold idle, frame. intros (? & ? & ?) (? & ? & ?). repeat split; congruence. Qed.

Lemma mode_utc_ok t t' : mode_utc t = Ok t' -> t' = to_utc t.
Proof. unfold mode_utc, mode_aware. intros H'. by inv_ok. Qed.

Lemma record_transition_ok id from to actor reason at_ w :
  w_in_tx w = false ->
  wp (record_transition write_guard id from to actor reason at_) (fun res w' =>
    frame w w' /\
    match res with
    | Ok true => exists x, tbl_insert id
        {| mt_runtime_session_id := session_of w; mt_from_mode := mode_str from;
           mt_to_mode := mode_str to; mt_actor := actor; mt_reason := reason;
           mt_changed_at := to_utc at_ |} (rt_modes (d_runtime (w_db w))) = Some x /\
        w_db w' = set_modes x (w_db w)
    | Ok false => w_db w' = w_db w /\ is_Some (tbl_get (rt_modes (d_runtime (w_db w))) id)
    | Err _ => w_db w' = w_db w
    end) w.
Proof.
  intros Hw. unfold record_transition, read_part. repeat wp_step.
  destruct (mode_utc at_) as [t'|] eqn:Et; repeat wp_step; [|done].
  apply mode_utc_ok in Et as ->. eapply wp_mono.
  - apply (tx_ok_intro _ (fun b d' => if b : bool then exists x, tbl_insert id
        {| mt_runtime_session_id := session_of w; mt_from_mode := mode_str from;
           mt_to_mode := mode_str to; mt_actor := actor; mt_reason := reason;
           mt_changed_at := to_utc at_ |} (rt_modes (d_runtime (w_db w))) = Some x /\
        d' = set_modes x (w_db w)
      else d' = w_db w /\ is_Some (tbl_get (rt_modes (d_runtime (w_db w))) id)) w Hw).
    intros w1 Hd1 _ _. apply in_tx_ok_quiet; [by apply guard_write_quiet|]. intros [] w2 Hd2 _.
    unfold find_request. apply in_tx_ok_read. rewrite Hd2, Hd1.
    destruct (tbl_get _ _) as [stored|] eqn:E.
    + unfold in_tx_ok. repeat wp_step; [|done]. repeat split; [by rewrite Hd2|]. by eexists.
    + apply in_tx_ok_read. rewrite Hd2, Hd1.
      destruct (tbl_insert _ _ _) as [x|] eqn:Ei; [|apply in_tx_ok_raise].
      unfold in_tx_ok. repeat wp_step. cbn. repeat split. exists x. split; [done|].
      by rewrite Hd2, Hd1.
  - intros [[]|e] w' [Hf HP]; by split.
Qed.

(** What an operation that may move to [m] leaves. *)
Definition moves (request_id : string) (m : RuntimeMode) (actor reason : string)
    (changed_at : datetime) w (res : res bool) w' : Prop :=
  match res with
  | Ok true => moved request_id m actor reason changed_at w w'
  | _ => idle w w'
  end.

Lemma mode_move_ok id m actor reason at_ w :
  w_in_tx w = false ->
  wp (bindM (record_transition write_guard id (mode_of w) m actor reason at_) (fun changed =>
      bindM (if changed : bool then write_part (set_mode m) else retM tt) (fun _ =>
      retM changed))) (moves id m actor reason at_ w) w.
Proof.
  intros Hw. apply wp_bind. eapply wp_mono; [by apply record_transition_ok|].
  intros [[]|e] w' [[Ht Hr] HP]; cbn [moves]; [| |by split].
  - destruct HP as (x & Hx & Hd). unfold write_part. repeat wp_step. exists x. cbn.
    repeat split; [exact Hx | done | done | by rewrite Hr].
  - repeat wp_step. by destruct HP.
Qed.

Lemma halt_ok id actor reason at_ w :
  w_in_tx w = false -> wp (halt write_guard id actor reason at_) (moves id HALTED actor reason at_ w) w.
Proof.
  intros Hw. unfold halt, find_request, read_part. repeat wp_step.
  repeat (match goal with |- match ?r with Ok _ => _ | Err _ => _ end => destruct r end;
    repeat wp_step; [|done]).
  destruct (tbl_get _ _) as [prior|] eqn:E; [|by apply mode_move_ok].
  repeat wp_step. destruct (mode_utc at_); repeat wp_step; done.
Qed.

(** A halt that returns leaves the process halted. *)
Lemma halt_returns id actor reason at_ w :
  w_in_tx w = false ->
  wp (halt write_guard id actor reason at_) (fun res w' =>
    match res with Ok _ => mode_of w' = HALTED | Err _ => idle w w' end) w.
Proof.
  intros Hw. unfold halt, find_request, read_part. repeat wp_step.
  repeat (match goal with |- match ?r with Ok _ => _ | Err _ => _ end => destruct r end;
    repeat wp_step; [|done]).
  change (mc_mode (get_part (w_rest w))) with (mode_of w).
  destruct (tbl_get _ _) as [prior|] eqn:E.
  - repeat wp_step. destruct (mode_utc at_); repeat wp_step; [|done..]. by bool_to_prop.
  - apply wp_bind. eapply wp_mono; [by apply record_transition_ok|].
    intros [[]|e] w' [[Ht Hr] HP]; [| |by split].
    + unfold write_part, mode_of. repeat wp_step. cbn [w_rest]. by rewrite get_set_part.
    + destruct HP as [_ [r Hr']]. congruence.
Qed.

Lemma request_mode_ok id m actor reason at_ h w :
  w_in_tx w = false ->
  wp (request_mode write_guard id m actor reason at_ h) (fun res w' =>
    moves id m actor reason at_ w res w' /\ (res = Ok true -> mode_gate (mode_of w) m h = Ok tt)) w.
Proof.
  intros Hw. unfold request_mode, find_request, read_part. repeat wp_step.
  repeat (match goal with |- match ?r with Ok _ => _ | Err _ => _ end => destruct r end;
    repeat wp_step; [|done]).
  destruct (tbl_get _ _) as [prior|] eqn:E.
  - repeat wp_step. destruct (mode_utc at_); repeat wp_step; done.
  - repeat wp_step. change (mc_mode (get_part (w_rest w))) with (mode_of w).
    destruct (mode_gate _ _ _) as [[]|e] eqn:Eg; cbv beta iota; [|done].
    eapply wp_mono; [by apply mode_move_ok|]. by intros.
Qed.

Lemma enforce_ok id h at_ w :
  w_in_tx w = false ->
  wp (mode_enforce_health write_guard id h at_) (fun res w' =>
    moves id HALTED "health-monitor" "mutation runtime health prerequisite lost" at_ w res w' /\
    (res = Ok true -> mode_of w = SIMULATION /\ ready_for_mutation h = false)) w.
Proof.
  intros Hw. unfold mode_enforce_health, read_part. repeat wp_step.
  change (mc_mode (get_part (w_rest w))) with (mode_of w).
  destruct (bool_decide _ && _) eqn:E; [|by repeat wp_step].
  eapply wp_mono; [by apply halt_ok|]. intros. split; [done|]. intros _. by bool_to_prop.
Qed.
End Contract.

(** ** The audit *)

(** The session's rows, oldest first. *)
Definition audit (session : string) (d : db) : list mode_row :=
  List.filter (fun r => bool_decide (mt_runtime_session_id r = session))
    (List.map snd (tbl_scan (rt_modes (d_runtime d)))).

(** The rows lead from [m] to [m'] by legal moves. *)
Fixpoint chain (m : RuntimeMode) (rows : list mode_row) (m' : RuntimeMode) : Prop :=
  match rows with
  | [] => m' = m
  | r :: rows => exists m1, mt_from_mode r = mode_str m /\ mt_to_mode r = mode_str m1 /\
                            mode_edge m m1 /\ chain m1 rows m'
  end.

Lemma chain_snoc m rows m1 r m2 :
  chain m rows m1 -> mt_from_mode r = mode_str m1 -> mt_to_mode r = mode_str m2 ->
  mode_edge m1 m2 -> chain m (rows ++ [r]) m2.
Proof.
  intros Hc Hf Ht He. revert m Hc. induction rows as [|x rows IH]; cbn; intros m.
  - intros ->. by exists m2.
  - intros (y & ? & ? & ? & Hc). exists y. by repeat (split; [done|]); apply IH.
Qed.

Lemma edge_not_live m m' : mode_edge m m' -> m' ∉ LIVE_MODES.
Proof.
  intros [->|(l & Hl & Hm)]; [unfold LIVE_MODES; set_solver|].
  destruct m; cbn in Hl; simplify_eq; unfold LIVE_MODES; set_solver.
Qed.

Lemma chain_not_live m rows m' : m ∉ LIVE_MODES -> chain m rows m' -> m' ∉ LIVE_MODES.
Proof.
  revert m. induction rows as [|r rows IH]; cbn; intros m Hm; [by intros ->|].
  intros (y & _ & _ & He & Hc). eapply IH; [|exact Hc]. by eapply edge_not_live.
Qed.

Inductive mode_op :=
  | OpRequest (request_id : string) (target : RuntimeMode) (actor reason : string)
      (changed_at : datetime) (health : RuntimeHealth)
  | OpHalt (request_id actor reason : string) (changed_at : datetime)
  | OpEnforce (request_id : string) (health : RuntimeHealth) (changed_at : datetime).

Definition run_op {R} {env : Env} `{Part controller R} (write_guard : option (M R unit))
    (op : mode_op) : M R bool :=
  match op with
  | OpRequest id m actor reason at_ h => request_mode write_guard id m actor reason at_ h
  | OpHalt id actor reason at_ => halt write_guard id actor reason at_
  | OpEnforce id h at_ => mode_enforce_health write_guard id h at_
  end.

Section Audit.
Context {R : Type} {env : Env} `{Part controller R} (write_guard : option (M R unit)).
Hypothesis guard_quiet : match write_guard with Some g => quiet g | None => True end.
Implicit Types (w : world R).

Definition audited w : Prop :=
  w_in_tx w = false /\ tbl_wf (rt_modes (d_runtime (w_db w))) /\
  chain DISABLED (audit (session_of w) (w_db w)) (mode_of w).

Lemma idle_audited w w' : idle w w' -> audited w -> audited w' /\ session_of w' = session_of w.
Proof.
  intros (Hd & Ht & Hr) (Hw & Hwf & Hc). unfold audited, session_of, mode_of in *.
  rewrite Hd, Hr. split; [|done]. split; [congruence | done].
Qed.

Lemma moved_audited id m actor reason at_ w w' :
  moved id m actor reason at_ w w' -> mode_edge (mode_of w) m -> audited w ->
  audited w' /\ session_of w' = session_of w /\ mode_of w' = m.
Proof.
  intros (x & Hx & Hd & Ht & Hr) He (Hw & Hwf & Hc).
  assert (Hs : session_of w' = session_of w)
    by (unfold session_of; by rewrite Hr, get_set_part).
  assert (Hm : mode_of w' = m) by (unfold mode_of; by rewrite Hr, get_set_part).
  split; [|by split]. split; [congruence|].
  split; [rewrite Hd; by eapply (tbl_wf_insert _ _ _ _ Hwf)|].
  rewrite Hs, Hm, Hd. unfold audit. cbn.
  rewrite (tbl_scan_insert _ _ _ _ Hwf Hx), List.map_app, List.filter_app. cbn.
  rewrite bool_decide_true by done. eapply chain_snoc; try done.
Qed.

(** What a new request that moved the mode had behind it. *)
Definition warranted (op : mode_op) (m m' : RuntimeMode) : Prop :=
  match op with
  | OpRequest _ target _ _ _ h => m' = target /\ mode_gate m target h = Ok tt
  | OpHalt _ _ _ _ => m' = HALTED
  | OpEnforce _ h _ => m' = HALTED /\ m = SIMULATION /\ ready_for_mutation h = false
  end.

Lemma run_op_ok op w :
  w_in_tx w = false ->
  let w' := (run_op write_guard op w).2 in
  idle w w' \/ exists id m actor reason at_,
    moved id m actor reason at_ w w' /\ warranted op (mode_of w) m /\ mode_edge (mode_of w) m.
Proof.
  intros Hw. destruct op as [id m actor reason at_ h|id actor reason at_|id h at_]; cbn [run_op].
  - pose proof (request_mode_ok write_guard guard_quiet id m actor reason at_ h w Hw) as Ho.
    unfold wp in Ho. destruct (request_mode _ _ _ _ _ _ _ w) as [[[]|e] w']; cbn in *;
      destruct Ho as [Ho Hg]; [right | by left | by left].
    specialize (Hg eq_refl). exists id, m, actor, reason, at_. repeat split; try done.
    right. by apply mode_gate_ok in Hg as (_ & _ & _ & He & _).
  - pose proof (halt_ok write_guard guard_quiet id actor reason at_ w Hw) as Ho.
    unfold wp in Ho. destruct (halt _ _ _ _ _ w) as [[[]|e] w']; cbn in *;
      [right | by left | by left].
    exists id, HALTED, actor, reason, at_. repeat split; try done. by left.
  - pose proof (enforce_ok write_guard guard_quiet id h at_ w Hw) as Ho.
    unfold wp in Ho. destruct (mode_enforce_health _ _ _ _ w) as [[[]|e] w']; cbn in *;
      destruct Ho as [Ho Hg]; [right | by left | by left].
    destruct (Hg eq_refl). do 5 eexists. repeat split; try done. by left.
Qed.

Lemma run_op_audited op w :
  audited w -> let w' := (run_op write_guard op w).2 in
  audited w' /\ session_of w' = session_of w.
Proof.
  intros Ha. cbv zeta. destruct (run_op_ok op w (proj1 Ha)) as [Hi|(id & m & actor & reason & at_ & Hm & _ & He)].
  - by apply idle_audited.
  - destruct (moved_audited _ _ _ _ _ _ _ Hm He Ha) as (? & ? & _). by split.
Qed.

Lemma run_ops_audited ops w :
  audited w -> let w' := fold_left (fun w op => (run_op write_guard op w).2) ops w in
  audited w' /\ session_of w' = session_of w.
Proof.
  cbv zeta. revert w. induction ops as [|op ops IH]; intros w Ha; [done|]. cbn.
  destruct (run_op_audited op w Ha) as [Ha' Hs]. destruct (IH _ Ha') as [? Hs']. split; [done|].
  congruence.
Qed.

Lemma init_audited sid at_ w w' :
  RuntimeModeController_init sid at_ w = (Ok tt, w') ->
  w_in_tx w = false -> tbl_wf (rt_modes (d_runtime (w_db w))) -> audit sid (w_db w) = [] ->
  audited w' /\ session_of w' = sid.
Proof.
  intros Hi Hw Hwf Ha.
  set (c := {| mc_runtime_session_id := sid; mc_mode := DISABLED |}).
  set (w0 := W (w_db w) (w_in_tx w) (w_tick w) (set_part c (w_rest w))).
  unfold RuntimeModeController_init, bindM at 1, lift in Hi.
  destruct (mode_nonempty _ _) as [[]|]; [|done]. unfold bindM at 1 in Hi.
  destruct (mode_aware _ _) as [[]|]; [|done]. unfold bindM at 1, write_part, write_rest in Hi.
  change (W _ _ _ _) with w0 in Hi.
  assert (Hc : get_part (w_rest w0) = c) by (cbn; by rewrite get_set_part).
  pose proof (record_transition_ok None I ("startup:" +:+ sid) DISABLED DISABLED "system"
    "runtime start defaults to DISABLED" at_ w0 Hw) as Ho. unfold wp in Ho. unfold bindM in Hi.
  destruct (record_transition _ _ _ _ _ _ _ w0) as [[b|e] w1]; [|done].
  injection Hi as <-. cbn in Ho. destruct Ho as [[Ht Hr] Hb].
  assert (Hs : session_of w1 = sid) by (unfold session_of; by rewrite Hr, Hc).
  assert (Hm : mode_of w1 = DISABLED) by (unfold mode_of; by rewrite Hr, Hc).
  split; [|done]. unfold audited. rewrite Hs, Hm. split; [by rewrite Ht|]. destruct b.
  - destruct Hb as (x & Hx & ->). cbn. split; [by eapply tbl_wf_insert|].
    unfold session_of in Hx. rewrite Hc in Hx. cbn in Hx.
    unfold audit. cbn. rewrite (tbl_scan_insert _ _ _ _ Hwf Hx), List.map_app, List.filter_app.
    fold (audit sid (w_db w)). rewrite Ha. cbn. rewrite bool_decide_true by done.
    exists DISABLED. repeat split. right. by eexists; split; [reflexivity | left].
  - destruct Hb as [-> _]. cbn. by rewrite Ha.
Qed.

(** C25. The mode is its audit.  After a controller has started and served any
    requests, halts and health checks, with whatever outcome, the audit rows of
    its session lead from DISABLED by legal moves to exactly the mode it is in,
    and that mode is never a live one. *)
Theorem mode_audited sid at_ ops w0 w1 :
  w_in_tx w0 = false -> tbl_wf (rt_modes (d_runtime (w_db w0))) -> audit sid (w_db w0) = [] ->
  RuntimeModeController_init sid at_ w0 = (Ok tt, w1) ->
  let w' := fold_left (fun w op => (run_op write_guard op w).2) ops w1 in
  chain DISABLED (audit sid (w_db w')) (mode_of w') /\ mode_of w' ∉ LIVE_MODES.
Proof.
  intros Hw Hwf Ha Hi. cbv zeta. destruct (init_audited _ _ _ _ Hi Hw Hwf Ha) as [Hau Hs].
  destruct (run_ops_audited ops w1 Hau) as [(_ & _ & Hc) Hs']. rewrite Hs', Hs in Hc.
  split; [exact Hc|]. eapply chain_not_live; [|exact Hc]. unfold LIVE_MODES. set_solver.
Qed.

(** C26. Every move was warranted.  If an operation changed the mode, it was a
    halt, a health check that found a SIMULATION unhealthy, or a request whose
    target was allowed from the mode it left, was not live, was DISABLED if the
    mode was HALTED, and - for SHADOW and SIMULATION - came with every health
    prerequisite confirmed. *)
Theorem mode_moves_warranted op w :
  w_in_tx w = false ->
  let m := mode_of w in let m' := mode_of (run_op write_guard op w).2 in
  m' <> m ->
  match op with
  | OpRequest _ target _ _ _ h =>
      m' = target /\ (m' ∉ LIVE_MODES) /\ m' <> HALTED /\ (m = HALTED -> m' = DISABLED) /\
      (exists l, allowed_modes m = Some l /\ m' ∈ l) /\
      (m' = SHADOW \/ m' = SIMULATION -> ready_for_mutation h = true)
  | OpHalt _ _ _ _ => m' = HALTED
  | OpEnforce _ h _ => m' = HALTED /\ m = SIMULATION /\ ready_for_mutation h = false
  end.
Proof.
  intros Hw. cbv zeta. intros Hne.
  destruct (run_op_ok op w Hw) as [(_ & _ & Hr)|(id & m & actor & reason & at_ & Hm & Hwa & _)].
  - destruct Hne. unfold mode_of. by rewrite Hr.
  - destruct Hm as (x & _ & _ & _ & Hr).
    assert (Hm : mode_of (run_op write_guard op w).2 = m)
      by (unfold mode_of; by rewrite Hr, get_set_part).
    rewrite Hm in *. destruct op; cbn in Hwa; [|done..]. destruct Hwa as [-> Hg].
    by apply mode_gate_ok in Hg.
Qed.

Lemma halt_forced id actor reason at_ w :
  w_in_tx w = false -> env_begin (w_tick w) = None ->
  (guard_write_in_tx write_guard (W (w_db w) true (S (w_tick w)) (w_rest w))).1 = Ok tt ->
  tbl_get (rt_modes (d_runtime (w_db w))) id = None ->
  strip_nonempty id = true -> strip_nonempty actor = true -> strip_nonempty reason = true ->
  is_aware at_ = true ->
  ((halt write_guard id actor reason at_ w).1 = Ok true /\
   mode_of (halt write_guard id actor reason at_ w).2 = HALTED) /\
  forall h, mode_of w = SIMULATION -> ready_for_mutation h = false ->
    (mode_enforce_health write_guard id h at_ w).1 = Ok true /\
    mode_of (mode_enforce_health write_guard id h at_ w).2 = HALTED.
Proof.
  intros Hw Hb Hg Hid Hn Ha Hr Hat.
  assert (Hh : forall actor reason, strip_nonempty actor = true -> strip_nonempty reason = true ->
    exists w', halt write_guard id actor reason at_ w = (Ok true, w')).
  { clear actor reason Ha Hr. intros actor reason Ha Hr.
    pose proof (guard_write_quiet write_guard guard_quiet
      (W (w_db w) true (S (w_tick w)) (w_rest w))) as Hq. unfold wp in Hq.
    unfold halt, mode_nonempty, mode_aware, guard_r. rewrite Hn, Ha, Hr, Hat.
    unfold bindM, lift, find_request, read_db, read_part, read_rest. rewrite Hid.
    unfold record_transition, read_part, read_rest, mode_utc, mode_aware, guard_r. rewrite Hat.
    unfold bindM, lift, res_bind, transaction. rewrite Hw, Hb.
    destruct (guard_write_in_tx _ _) as [[[]|e] w1]; [|done]. cbn [fst snd w_db] in *.
    destruct Hq as [Hd _]. unfold find_request, read_db. rewrite Hd, Hid.
    assert (Hins : forall v, exists x, tbl_insert id v (rt_modes (d_runtime (w_db w))) = Some x)
      by (intros v; unfold tbl_insert, tbl_get in *; rewrite Hid; by eexists).
    rewrite Hd. match goal with |- context [tbl_insert id ?v _] => destruct (Hins v) as [x ->] end.
    cbn. by eexists. }
  assert (Hm : forall actor reason w', halt write_guard id actor reason at_ w = (Ok true, w') ->
    mode_of w' = HALTED).
  { intros a r w' He. pose proof (halt_ok write_guard guard_quiet id a r at_ w Hw) as Ho.
    unfold wp in Ho. rewrite He in Ho. destruct Ho as (x & _ & _ & _ & Hrest).
    unfold mode_of. cbn in Hrest. by rewrite Hrest, get_set_part. }
  split.
  - destruct (Hh actor reason Ha Hr) as [w' He]. rewrite He. split; [done|]. by eapply Hm.
  - intros h Hs Hu. unfold mode_enforce_health, bindM, read_part, read_rest.
    fold (mode_of w). rewrite Hs, Hu, bool_decide_true by done. cbn [andb negb].
    edestruct Hh as [w' He]; [| |rewrite He]; [done..|]. split; [done|]. by eapply Hm.
Qed.

(** A halt gets through.  From any mode, a well-formed [halt] under a request
    id that is new, with the write lock and the guard available, returns [True]
    and leaves the mode HALTED; so does a health check that finds SIMULATION
    without its prerequisites. *)
Theorem halt_available id actor reason at_ w :
  w_in_tx w = false -> env_begin (w_tick w) = None ->
  (guard_write_in_tx write_guard (W (w_db w) true (S (w_tick w)) (w_rest w))).1 = Ok tt ->
  tbl_get (rt_modes (d_runtime (w_db w))) id = None ->
  strip_nonempty id = true -> strip_nonempty actor = true -> strip_nonempty reason = true ->
  is_aware at_ = true ->
  ((halt write_guard id actor reason at_ w).1 = Ok true /\
   mode_of (halt write_guard id actor reason at_ w).2 = HALTED) /\
  forall h, mode_of w = SIMULATION -> ready_for_mutation h = false ->
    (mode_enforce_health write_guard id h at_ w).1 = Ok true /\
    mode_of (mode_enforce_health write_guard id h at_ w).2 = HALTED.
Proof. apply halt_forced. Qed.
End Audit.

(** ** A concrete session *)

Definition demo_start : datetime := DT 1750000000000000 (Some 0).

Definition demo_process : world controller :=
  W empty_db false 0 {| mc_runtime_session_id := ""; mc_mode := LIVE_ARMED |}.

Definition demo_health (qmt : bool) : RuntimeHealth :=
  {| rh_database_healthy := true; rh_oms_healthy := true; rh_leader_held := true;
     rh_reconciliation_complete := true; rh_qmt_healthy := qmt; rh_market_data_healthy := true;
     rh_strategy_healthy := true |}.

Definition demo_started : world controller :=
  (@RuntimeModeController_init controller demo_env _ "run-1" demo_start demo_process).2.

Definition demo_ops : list mode_op :=
  [OpRequest "r1" OBSERVE "operator" "watch" demo_start (demo_health false);
   OpRequest "r2" SIMULATION "operator" "too early" demo_start (demo_health false);
   OpRequest "r3" SIMULATION "operator" "go" demo_start (demo_health true)].

Definition demo_run (ops : list mode_op) : world controller :=
  fold_left (fun w op => (@run_op controller demo_env _ None op w).2) ops demo_started.

Definition demo_unguarded : match @None (M controller unit) with Some g => quiet g | None => True end := I.

Lemma mode_audited_witness :
  chain DISABLED (audit "run-1" (w_db (demo_run demo_ops))) SIMULATION /\
  List.length (audit "run-1" (w_db (demo_run demo_ops))) = 3%nat.
Proof.
  split; [|vm_compute; reflexivity].
  exact (proj1 (@mode_audited controller demo_env _ None demo_unguarded "run-1" demo_start demo_ops
    demo_process demo_started eq_refl tbl_wf_empty ltac:(vm_compute; reflexivity)
    ltac:(vm_compute; reflexivity))).
Defined.

Lemma mode_moves_warranted_witness :
  mode_of (demo_run demo_ops) = SIMULATION /\
  mode_of (@run_op controller demo_env _ None (OpEnforce "h1" (demo_health false) demo_start)
             (demo_run demo_ops)).2 = HALTED.
Proof.
  split; [vm_compute; reflexivity|].
  refine (proj1 (@mode_moves_warranted controller demo_env _ None demo_unguarded
    (OpEnforce "h1" (demo_health false) demo_start) (demo_run demo_ops) _ _));
    [vm_compute; reflexivity | vm_compute; discriminate].
Defined.

Lemma halt_available_witness :
  mode_of (@halt controller demo_env _ None "stop" "operator" "enough" demo_start
             (demo_run demo_ops)).2 = HALTED.
Proof.
  refine (proj2 (proj1 (@halt_available controller demo_env _ None demo_unguarded "stop" "operator"
    "enough" demo_start (demo_run demo_ops) _ _ _ _ _ _ _ _))); vm_compute; reflexivity.
Defined.
