(* ===== verification/ExternalOrders.v ===== *)
(** * ExternalOrders: active broker orders that are not the system's own

    [ExternalOrderRiskClassifier] (risk/external_orders.py): the facts of one
    reading of the broker's active orders, told apart by the registered broker
    tokens, with the buy notional and the symbols that the foreign orders block. *)

From Stdlib Require Import QArith.
From S2P Require Import Prelude PyTime Decimal Json Domain DecimalFacts Sums.
Open Scope Z_scope.
Open Scope py_scope.

Inductive BrokerOrderOwnership := SYSTEM | EXTERNAL.

#[global] Instance BrokerOrderOwnership_eq_dec : EqDecision BrokerOrderOwnership.
Proof. solve_decision. Defined.

Record ActiveBrokerOrderFact := {
  ab_source_event_id : string;
  ab_symbol : string;
  ab_side : Side;
  ab_quantity : Z;
  ab_filled_quantity : Z;
  ab_limit_price : Dec.decimal;
  ab_broker_token : option string;
  ab_observed_at : datetime
}.

Definition ActiveBrokerOrderFact_init (source_event_id symbol : string) (side : Side)
    (quantity filled_quantity : Z) (limit_price : Dec.pydec) (broker_token : option string)
    (observed_at : datetime) : res ActiveBrokerOrderFact :=
  do! guard_r (str_nonempty source_event_id) ValueError "source_event_id must be non-empty" ;;
  do! guard_r (str_nonempty symbol) ValueError "symbol must be non-empty" ;;
  do! guard_r (0 <? quantity) ValueError "quantity must be a positive integer" ;;
  do! guard_r ((0 <=? filled_quantity) && (filled_quantity <? quantity)) ValueError
        "active order filled_quantity must be in [0, quantity)" ;;
  price <- match limit_price with
           | Dec.Fin d => do! guard_r (negb (Dec.leb d Dec.zero)) ValueError
                                "limit_price must be finite and > 0" ;; Ok d
           | _ => raise ValueError "limit_price must be finite and > 0"
           end ;;
  do! guard_r (match broker_token with Some t => str_nonempty t | None => true end) ValueError
        "broker_token must be non-empty when supplied" ;;
  do! guard_r (is_aware observed_at) ValueError "observed_at must be timezone-aware" ;;
  Ok {| ab_source_event_id := source_event_id; ab_symbol := symbol; ab_side := side;
        ab_quantity := quantity; ab_filled_quantity := filled_quantity; ab_limit_price := price;
        ab_broker_token := broker_token; ab_observed_at := observed_at |}.

Definition remaining_quantity (f : ActiveBrokerOrderFact) : Z :=
  ab_quantity f - ab_filled_quantity f.

Definition remaining_notional (f : ActiveBrokerOrderFact) : res Dec.decimal :=
  Dec.mul (ab_limit_price f) (Dec.of_Z (remaining_quantity f)).

(** [previous == fact]: prices compare as numbers, instants as instants. *)
Definition fact_eqb (a b : ActiveBrokerOrderFact) : bool :=
  bool_decide (ab_source_event_id a = ab_source_event_id b)
  && bool_decide (ab_symbol a = ab_symbol b) && bool_decide (ab_side a = ab_side b)
  && (ab_quantity a =? ab_quantity b) && (ab_filled_quantity a =? ab_filled_quantity b)
  && Dec.eqb (ab_limit_price a) (ab_limit_price b)
  && bool_decide (ab_broker_token a = ab_broker_token b)
  && (instant (ab_observed_at a) =? instant (ab_observed_at b)).

Record ClassifiedActiveOrder := {
  ca_fact : ActiveBrokerOrderFact;
  ca_ownership : BrokerOrderOwnership
}.

Record ExternalOrderRiskSummary := {
  xs_blocked_symbols : gset string;
  xs_pending_buy_notional : Dec.decimal;
  xs_external_order_count : Z;
  xs_classified : list ClassifiedActiveOrder
}.

Definition summary_empty : ExternalOrderRiskSummary :=
  {| xs_blocked_symbols := ∅; xs_pending_buy_notional := Dec.zero;
     xs_external_order_count := 0; xs_classified := [] |}.

(** [sum(..., Decimal("0"))] of the remaining notionals of [l]. *)
Definition sum_notional (l : list ActiveBrokerOrderFact) : res Dec.decimal :=
  fold_left (fun acc f => total <- acc ;; n <- remaining_notional f ;; Dec.add total n) l
    (Ok Dec.zero).

Definition pending_buy_notional_for (s : ExternalOrderRiskSummary) (symbol : string)
    : res Dec.decimal :=
  sum_notional (List.map ca_fact (List.filter (fun c =>
    bool_decide (ca_ownership c = EXTERNAL) && bool_decide (ab_side (ca_fact c) = BUY)
    && bool_decide (ab_symbol (ca_fact c) = symbol)) (xs_classified s))).

(** [ExternalOrderRiskClassifier(registered_system_tokens=...)]. *)
Definition ExternalOrderRiskClassifier_init (tokens : gset string) : res (gset string) :=
  do! guard_r (negb (existsb (fun t => negb (str_nonempty t)) (elements tokens))) ValueError
        "registered_system_tokens must contain non-empty strings" ;;
  Ok tokens.

Section Classify.
Variable tokens : gset string.

Definition ownership_of (f : ActiveBrokerOrderFact) : BrokerOrderOwnership :=
  match ab_broker_token f with
  | Some t => if bool_decide (t ∈ tokens) then SYSTEM else EXTERNAL
  | None => EXTERNAL
  end.

(** One round of the loop over [seen] and the summary so far. *)
Definition classify_fact (st : gmap string ActiveBrokerOrderFact * ExternalOrderRiskSummary)
    (f : ActiveBrokerOrderFact)
    : res (gmap string ActiveBrokerOrderFact * ExternalOrderRiskSummary) :=
  let '(seen, s) := st in
  match seen !! ab_source_event_id f with
  | Some previous =>
      do! guard_r (fact_eqb previous f) ExternalOrderFactConflict
            "source_event_id reused for conflicting active order fact" ;;
      Ok st
  | None =>
      let ownership := ownership_of f in
      let seen := <[ab_source_event_id f := f]> seen in
      let classified := xs_classified s ++ [{| ca_fact := f; ca_ownership := ownership |}] in
      if bool_decide (ownership = EXTERNAL) then
        pending <- (if bool_decide (ab_side f = BUY) then
                      n <- remaining_notional f ;; Dec.add (xs_pending_buy_notional s) n
                    else Ok (xs_pending_buy_notional s)) ;;
        Ok (seen, {| xs_blocked_symbols := {[ab_symbol f]} ∪ xs_blocked_symbols s;
                     xs_pending_buy_notional := pending;
                     xs_external_order_count := xs_external_order_count s + 1;
                     xs_classified := classified |})
      else
        Ok (seen, {| xs_blocked_symbols := xs_blocked_symbols s;
                     xs_pending_buy_notional := xs_pending_buy_notional s;
                     xs_external_order_count := xs_external_order_count s;
                     xs_classified := classified |})
  end.

Definition classify_from (st : gmap string ActiveBrokerOrderFact * ExternalOrderRiskSummary)
    (l : list ActiveBrokerOrderFact)
    : res (gmap string ActiveBrokerOrderFact * ExternalOrderRiskSummary) :=
  fold_left (fun acc f => st <- acc ;; classify_fact st f) l (Ok st).

Definition classify (facts : list ActiveBrokerOrderFact) : res ExternalOrderRiskSummary :=
  st <- classify_from (∅, summary_empty) facts ;; Ok st.2.
End Classify.

(** ** The reading a classification is of *)

(** The first fact of each event id, in order. *)
Fixpoint firsts (seen : gset string) (l : list ActiveBrokerOrderFact)
    : list ActiveBrokerOrderFact :=
  match l with
  | [] => []
  | f :: l => if decide (ab_source_event_id f ∈ seen) then firsts seen l
              else f :: firsts ({[ab_source_event_id f]} ∪ seen) l
  end.

Definition ids (l : list ActiveBrokerOrderFact) : gset string :=
  list_to_set (List.map ab_source_event_id l).

(** Each fact agrees with the first one of its id. *)
Definition consistent (l : list ActiveBrokerOrderFact) (f : ActiveBrokerOrderFact) : Prop :=
  exists c, c ∈ firsts ∅ l /\ ab_source_event_id c = ab_source_event_id f /\ fact_eqb c f = true.

Definition exact_notional (f : ActiveBrokerOrderFact) : Dec.decimal :=
  Dec.mul_exact (ab_limit_price f) (Dec.of_Z (remaining_quantity f)).

Lemma firsts_snoc seen l f :
  firsts seen (l ++ [f]) =
  firsts seen l ++ if decide (ab_source_event_id f ∈ seen ∪ ids l) then [] else [f].
Proof.
  revert seen. induction l as [|x l IH]; intros seen; cbn.
  - unfold ids. cbn. by rewrite union_empty_r_L.
  - unfold ids. cbn. fold (ids l). destruct (decide (ab_source_event_id x ∈ seen)) as [Hx|Hx]; cbn;
      rewrite IH; do 1?f_equal; f_equal; apply decide_ext;
      rewrite !elem_of_union, elem_of_singleton; [|tauto].
    split; [tauto|]. intros [?|[->|?]]; auto.
Qed.

Lemma firsts_id seen l f : f ∈ firsts seen l -> ab_source_event_id f ∈ ids l /\ f ∈ l.
Proof.
  revert seen. unfold ids. induction l as [|x l IH]; intros seen; cbn; [set_solver|].
  case_decide; [intros Hf; destruct (IH _ Hf); set_solver|].
  intros [->|Hf]%elem_of_cons; [set_solver|]. destruct (IH _ Hf). set_solver.
Qed.

Section Facts.
Variable tokens : gset string.
Variable e : Z.
Hypothesis precision : Dec.Etiny <= e <= 0.

Definition externals (l : list ActiveBrokerOrderFact) : list ActiveBrokerOrderFact :=
  List.filter (fun f => bool_decide (ownership_of tokens f = EXTERNAL)) l.

Definition buys (l : list ActiveBrokerOrderFact) : list ActiveBrokerOrderFact :=
  List.filter (fun f => bool_decide (ab_side f = BUY)) (externals l).

(** The notionals of [l] total less than 28 digits. *)
Definition notionals_fit (l : list ActiveBrokerOrderFact) : Prop :=
  Forall (fun f => amount e (exact_notional f) /\ Dec.exp (exact_notional f) <= 0) l /\
  sum_scaled e (List.map exact_notional l) < 10 ^ Dec.prec.

Lemma fit_amounts l : notionals_fit l -> Forall (amount e) (List.map exact_notional l).
Proof. intros [Hl _]. apply Forall_fmap. by eapply Forall_impl; [exact Hl|intros ? []]. Qed.

Lemma fit_app l l' : notionals_fit (l ++ l') -> notionals_fit l.
Proof.
  intros H. pose proof (fit_amounts _ H) as Ha. destruct H as [Hl Hlt].
  rewrite List.map_app in Ha, Hlt. apply Forall_app in Ha as [_ Ha]. rewrite sum_scaled_app in Hlt.
  apply Forall_app in Hl as [Hl _]. pose proof (sum_scaled_nonneg e _ Ha). split; [done | lia].
Qed.

Lemma notional_exact f :
  amount e (exact_notional f) -> Dec.exp (exact_notional f) <= 0 ->
  Dec.scaled (exact_notional f) e < 10 ^ Dec.prec -> remaining_notional f = Ok (exact_notional f).
Proof.
  intros (He & Hc & Hn) Htop Hlt. apply fix_same; [|lia]. split; [done|].
  unfold Dec.scaled, Dec.scoef in Hlt. unfold exact_notional in *. rewrite Hn in Hlt.
  assert (1 <= 10 ^ (Dec.exp (Dec.mul_exact (ab_limit_price f) (Dec.of_Z (remaining_quantity f))) - e))
    by (apply (Z.pow_le_mono_r 10 0); lia).
  nia.
Qed.

(** One more notional onto an exact running total. *)
Lemma add_notional acc f rest :
  amount e acc -> Dec.exp acc <= 0 ->
  Dec.scaled acc e = sum_scaled e (List.map exact_notional rest) ->
  notionals_fit (rest ++ [f]) ->
  exists c, (n <- remaining_notional f ;; Dec.add acc n) = Ok c /\ amount e c /\ Dec.exp c <= 0 /\
    Dec.scaled c e = sum_scaled e (List.map exact_notional (rest ++ [f])) /\
    (val c == val acc + val (exact_notional f))%Q.
Proof.
  intros Ha Htop Hs [Hl Hlt]. apply Forall_app in Hl as [_ [[Hf Hft] _]%Forall_cons].
  rewrite List.map_app, sum_scaled_app in *. cbn in *.
  pose proof (amount_scaled _ _ Ha). pose proof (amount_scaled _ _ Hf).
  rewrite notional_exact by (done || lia). cbn.
  destruct (add_amounts e acc (exact_notional f)) as (c & Hc & Hv & Hca & Hct & Hcs);
    [lia | done | done | done | lia |].
  exists c. repeat split; try done; try apply Hca. lia.
Qed.

Lemma sum_notional_exact l :
  notionals_fit l ->
  exists c, sum_notional l = Ok c /\ amount e c /\ Dec.exp c <= 0 /\
    Dec.scaled c e = sum_scaled e (List.map exact_notional l) /\
    (val c == Qsum (List.map exact_notional l))%Q.
Proof.
  induction l as [|f l IH] using rev_ind; intros Hf.
  - exists Dec.zero. repeat split; try done; cbn; lia || reflexivity || idtac.
  - destruct (IH (fit_app _ _ Hf)) as (c & Hc & Ha & Ht & Hs & Hv).
    destruct (add_notional c f l Ha Ht Hs Hf) as (c' & Hc' & Ha' & Ht' & Hs' & Hv').
    exists c'. unfold sum_notional in *. rewrite fold_left_app. cbn. rewrite Hc.
    repeat split; try done; try apply Ha'. rewrite Hv', Hv, List.map_app, Qsum_app. cbn. ring.
Qed.

(** What the loop holds after [l]. *)
Definition classified_as (l : list ActiveBrokerOrderFact)
    (st : gmap string ActiveBrokerOrderFact * ExternalOrderRiskSummary) : Prop :=
  let '(seen, s) := st in let fs := firsts ∅ l in
  (forall id c, seen !! id = Some c <-> c ∈ fs /\ ab_source_event_id c = id) /\
  dom seen = ids l /\
  xs_classified s = List.map (fun f => {| ca_fact := f; ca_ownership := ownership_of tokens f |}) fs /\
  xs_external_order_count s = Z.of_nat (List.length (externals fs)) /\
  xs_blocked_symbols s = list_to_set (List.map ab_symbol (externals fs)) /\
  (amount e (xs_pending_buy_notional s) /\ Dec.exp (xs_pending_buy_notional s) <= 0 /\
   Dec.scaled (xs_pending_buy_notional s) e = sum_scaled e (List.map exact_notional (buys fs)) /\
   (val (xs_pending_buy_notional s) == Qsum (List.map exact_notional (buys fs)))%Q).

Lemma seen_new seen s l f :
  classified_as l (seen, s) -> seen !! ab_source_event_id f = None ->
  firsts ∅ (l ++ [f]) = firsts ∅ l ++ [f] /\
  (forall id c, <[ab_source_event_id f := f]> seen !! id = Some c <->
     c ∈ firsts ∅ l ++ [f] /\ ab_source_event_id c = id) /\
  dom (<[ab_source_event_id f := f]> seen) = ids (l ++ [f]).
Proof.
  intros (Hs & Hd & _) Hn. apply not_elem_of_dom in Hn. rewrite Hd in Hn.
  assert (Hf : firsts ∅ (l ++ [f]) = firsts ∅ l ++ [f])
    by (rewrite firsts_snoc, decide_False; [done | set_solver]).
  split; [done|]. split.
  - intros id c. rewrite elem_of_app, list_elem_of_singleton.
    destruct (decide (ab_source_event_id f = id)) as [<-|Hne].
    + rewrite lookup_insert_eq. split; [intros [= <-]; auto|].
      intros [[Hc| ->] Hi]; [|done]. apply firsts_id in Hc as [Hc _]. by rewrite Hi in Hc.
    + rewrite lookup_insert_ne, Hs by done. naive_solver.
  - rewrite dom_insert_L, Hd. unfold ids. rewrite List.map_app, list_to_set_app_L. set_solver.
Qed.

Lemma buys_app l l' : buys (l ++ l') = buys l ++ buys l'.
Proof. unfold buys, externals. by rewrite !List.filter_app. Qed.

Lemma classify_fact_ok l f st :
  classified_as l st -> notionals_fit (buys (firsts ∅ (l ++ [f]))) ->
  match classify_fact tokens st f with
  | Ok st' => classified_as (l ++ [f]) st' /\ (ab_source_event_id f ∈ ids l -> st' = st /\ consistent l f)
  | Err x => (exists msg, x = Exn ExternalOrderFactConflict msg) /\
      exists c, c ∈ firsts ∅ l /\ ab_source_event_id c = ab_source_event_id f /\ fact_eqb c f = false
  end.
Proof.
  destruct st as [seen s]. intros Hc Hfit. pose proof Hc as (Hs & Hd & Hcl & Hn & Hb & Ha & Ht & Hsc & Hv).
  unfold classify_fact. destruct (seen !! ab_source_event_id f) as [p|] eqn:E.
  - assert (Hi : ab_source_event_id f ∈ ids l) by (rewrite <-Hd; by eapply elem_of_dom_2).
    apply Hs in E as [Hp Hpi]. destruct (fact_eqb p f) eqn:Eq; cbn.
    + split; [|intros _; split; [done | by exists p]].
      assert (Hf : firsts ∅ (l ++ [f]) = firsts ∅ l)
        by (rewrite firsts_snoc, decide_True by set_solver; apply app_nil_r).
      split; [by rewrite Hf|]. rewrite Hf. repeat split; try done; try apply Ha.
      rewrite Hd. unfold ids in *. rewrite List.map_app, list_to_set_app_L. set_solver.
    + split; [by eexists|]. by exists p.
  - destruct (seen_new seen s l f Hc E) as (Hf & Hs' & Hd').
    assert (Hni : ab_source_event_id f ∉ ids l) by (rewrite <-Hd; by apply not_elem_of_dom).
    rewrite Hf in Hfit. rewrite buys_app in Hfit.
    assert (He : externals (firsts ∅ l ++ [f]) = externals (firsts ∅ l) ++
      (if bool_decide (ownership_of tokens f = EXTERNAL) then [f] else []))
      by (unfold externals; by rewrite List.filter_app).
    assert (Hbuy : buys (firsts ∅ l ++ [f]) = buys (firsts ∅ l) ++ buys [f]) by apply buys_app.
    unfold buys at 2, externals in Hfit. unfold buys at 3, externals in Hbuy. cbn in Hfit, Hbuy.
    destruct (bool_decide (ownership_of tokens f = EXTERNAL)) eqn:Eo; cbn in Hfit, Hbuy.
    + destruct (bool_decide (ab_side f = BUY)) eqn:Eb; cbn [res_bind].
      * destruct (add_notional (xs_pending_buy_notional s) f (buys (firsts ∅ l))) as
          (c & -> & Hca & Hct & Hcs & Hcv); try done. cbn [res_bind].
        split; [|done]. unfold classified_as. cbn [xs_classified xs_external_order_count
          xs_blocked_symbols xs_pending_buy_notional]. rewrite Hf, Hcl, Hn, Hb, He, Hbuy.
        refine (conj Hs' (conj Hd' (conj _ (conj _ (conj _ (conj Hca (conj Hct (conj Hcs _)))))))).
        -- by rewrite List.map_app.
        -- rewrite length_app. cbn. lia.
        -- rewrite List.map_app, list_to_set_app_L. cbn. set_solver.
        -- rewrite Hcv, Hv, List.map_app, Qsum_app. cbn. ring.
      * split; [|done]. unfold classified_as. cbn [xs_classified xs_external_order_count
          xs_blocked_symbols xs_pending_buy_notional]. rewrite Hf, Hcl, Hn, Hb, He, Hbuy, app_nil_r.
        refine (conj Hs' (conj Hd' (conj _ (conj _ (conj _ (conj Ha (conj Ht (conj Hsc Hv)))))))).
        -- by rewrite List.map_app.
        -- rewrite length_app. cbn. lia.
        -- rewrite List.map_app, list_to_set_app_L. cbn. set_solver.
    + split; [|done]. unfold classified_as. cbn [xs_classified xs_external_order_count
        xs_blocked_symbols xs_pending_buy_notional]. rewrite Hf, Hcl, Hn, Hb, He, Hbuy, !app_nil_r.
      refine (conj Hs' (conj Hd' (conj _ (conj eq_refl (conj eq_refl (conj Ha (conj Ht (conj Hsc Hv)))))))).
      by rewrite List.map_app.
Qed.

Lemma fact_eqb_refl f : fact_eqb f f = true.
Proof.
  unfold fact_eqb. rewrite !bool_decide_true, !Z.eqb_refl by done. unfold Dec.eqb, Dec.cmp.
  by rewrite Z.compare_refl.
Qed.

Lemma firsts_mono l f c : c ∈ firsts ∅ l -> c ∈ firsts ∅ (l ++ [f]).
Proof. rewrite firsts_snoc. set_solver. Qed.

Lemma classify_from_ok l :
  notionals_fit (buys (firsts ∅ l)) ->
  match classify_from tokens (∅, summary_empty) l with
  | Ok st => classified_as l st /\ forall f, f ∈ l -> consistent l f
  | Err x => (exists msg, x = Exn ExternalOrderFactConflict msg) /\
      exists f c, f ∈ l /\ c ∈ firsts ∅ l /\ ab_source_event_id c = ab_source_event_id f /\
        fact_eqb c f = false
  end.
Proof.
  induction l as [|f l IH] using rev_ind; intros Hfit.
  - cbn. split; [|set_solver]. repeat split; try done; try (cbn; lia); set_solver.
  - assert (Hfit' : notionals_fit (buys (firsts ∅ l)))
      by (rewrite firsts_snoc, buys_app in Hfit; by eapply fit_app).
    specialize (IH Hfit'). unfold classify_from in *. rewrite fold_left_app. cbn.
    destruct (fold_left _ l _) as [st|x]; cbn [res_bind].
    + destruct IH as [Hst Hall]. pose proof (classify_fact_ok l f st Hst Hfit) as Hstep.
      destruct (classify_fact tokens st f) as [st'|x].
      * destruct Hstep as [Hst' Hold]. split; [done|].
        intros g [Hg| ->%list_elem_of_singleton]%elem_of_app.
        -- destruct (Hall g Hg) as (c & Hc & ?). exists c. by split; [apply firsts_mono|].
        -- destruct (decide (ab_source_event_id f ∈ ids l)) as [Hi|Hi].
           ++ destruct (Hold Hi) as [_ (c & Hc & ?)]. exists c. by split; [apply firsts_mono|].
           ++ exists f. rewrite firsts_snoc, decide_False by set_solver.
              split; [set_solver|]. split; [done | apply fact_eqb_refl].
      * destruct Hstep as [He (c & Hc & ?)]. split; [done|]. exists f, c.
        split; [set_solver|]. by split; [apply firsts_mono|].
    + destruct IH as [He (g & c & Hg & Hc & ?)]. split; [done|]. exists g, c.
      split; [set_solver|]. by split; [apply firsts_mono|].
Qed.

Lemma replay_noop l st g :
  classified_as l st -> consistent l g -> classify_fact tokens st g = Ok st.
Proof.
  destruct st as [seen s]. intros (Hs & _) (c & Hc & Hi & He). unfold classify_fact.
  rewrite (proj2 (Hs (ab_source_event_id g) c)) by done. by rewrite He.
Qed.

Lemma replays_noop l l' st :
  classified_as l st -> (forall g, g ∈ l' -> consistent l g) -> classify_from tokens st l' = Ok st.
Proof.
  intros Hst. induction l' as [|g l' IH] using rev_ind; intros Hg; [done|].
  unfold classify_from in *. rewrite fold_left_app. cbn. rewrite IH by set_solver. cbn.
  apply (replay_noop l); [done | set_solver].
Qed.

Lemma fit_filter p l : notionals_fit l -> notionals_fit (List.filter p l).
Proof.
  intros H. pose proof (fit_amounts _ H) as Ha. destruct H as [Hl Hlt]. split.
  - apply Forall_forall. intros f Hf%list_elem_of_In%filter_In. destruct Hf as [Hf _].
    by apply (proj1 (Forall_forall _ _) Hl), list_elem_of_In.
  - eapply Z.le_lt_trans; [|exact Hlt]. clear Hl Hlt. induction l as [|f l IH]; cbn in *; [done|].
    apply Forall_cons in Ha as [Hf Ha]. specialize (IH Ha). pose proof (amount_scaled _ _ Hf).
    destruct (p f); cbn; lia.
Qed.

Lemma pending_for_facts l s symbol :
  xs_classified s = List.map (fun f => {| ca_fact := f; ca_ownership := ownership_of tokens f |}) l ->
  pending_buy_notional_for s symbol =
  sum_notional (List.filter (fun f => bool_decide (ab_symbol f = symbol)) (buys l)).
Proof.
  intros Hs. unfold pending_buy_notional_for. rewrite Hs. f_equal. unfold buys, externals. clear Hs.
  induction l as [|f l IH]; cbn; [done|].
  destruct (bool_decide (ownership_of tokens f = EXTERNAL)); cbn; [|done].
  destruct (bool_decide (ab_side f = BUY)); cbn; [|done].
  destruct (bool_decide (ab_symbol f = symbol)); cbn; by rewrite IH.
Qed.
End Facts.

(** The foreign buy notionals of the reading fit the context together. *)
Definition pending_exact (tokens : gset string) (l : list ActiveBrokerOrderFact) : Prop :=
  exists e, Dec.Etiny <= e <= 0 /\ notionals_fit e (buys tokens (firsts ∅ l)).

(** A reading is classified once and exactly.  When the foreign buy notionals
    fit 28 digits together, [classify] fails only when some fact contradicts the
    first one of its event id; otherwise every id is classified once, by its
    first fact, as the system's exactly when it carries a registered token, the
    count, the blocked symbols and the pending buy notional - in total and for
    every symbol - are those of the foreign orders, and replaying facts of the
    reading after it changes nothing. *)
Theorem classify_reading tokens l :
  pending_exact tokens l ->
  let fs := firsts ∅ l in
  match classify tokens l with
  | Ok s =>
      (forall f, f ∈ l -> consistent l f) /\
      xs_classified s = List.map (fun f => {| ca_fact := f; ca_ownership := ownership_of tokens f |}) fs /\
      xs_external_order_count s = Z.of_nat (List.length (externals tokens fs)) /\
      (forall symbol, symbol ∈ xs_blocked_symbols s <->
         exists f, f ∈ externals tokens fs /\ ab_symbol f = symbol) /\
      (val (xs_pending_buy_notional s) == Qsum (List.map exact_notional (buys tokens fs)))%Q /\
      (forall symbol, exists p, pending_buy_notional_for s symbol = Ok p /\
         (val p == Qsum (List.map exact_notional
            (List.filter (fun f => bool_decide (ab_symbol f = symbol)) (buys tokens fs))))%Q) /\
      (forall l', (forall g, g ∈ l' -> consistent l g) -> classify tokens (l ++ l') = Ok s)
  | Err x =>
      (exists msg, x = Exn ExternalOrderFactConflict msg) /\
      exists f c, f ∈ l /\ c ∈ fs /\ ab_source_event_id c = ab_source_event_id f /\ fact_eqb c f = false
  end.
Proof.
  intros (e & He & Hfit). cbv zeta. pose proof (classify_from_ok tokens e He l Hfit) as Hok.
  unfold classify. destruct (classify_from tokens _ l) as [[seen s]|x] eqn:E; cbn [res_bind snd]; [|done].
  destruct Hok as [Hst Hall]. pose proof Hst as (_ & _ & Hc & Hn & Hb & _ & _ & _ & Hv).
  split; [done|]. do 2 (split; [done|]). split.
  { intros symbol. rewrite Hb, elem_of_list_to_set, list_elem_of_fmap. naive_solver. }
  split; [done|]. split.
  - intros symbol. rewrite (pending_for_facts tokens _ _ _ Hc).
    destruct (sum_notional_exact e He _ (fit_filter e (fun f => bool_decide (ab_symbol f = symbol)) _ Hfit))
      as (c & Hs & _ & _ & _ & Hq). by exists c.
  - intros l' Hl'. unfold classify_from in *. rewrite fold_left_app, E.
    pose proof (replays_noop tokens e He l l' (seen, s) Hst Hl') as Hr. unfold classify_from in Hr.
    by rewrite Hr.
Qed.

(** ** A concrete reading *)

Definition demo_active (id : string) (token : option string) (quantity : Z) : ActiveBrokerOrderFact :=
  {| ab_source_event_id := id; ab_symbol := "600000.SH"; ab_side := BUY; ab_quantity := quantity;
     ab_filled_quantity := 0; ab_limit_price := Dec.D false 1050 (-2); ab_broker_token := token;
     ab_observed_at := DT 1750000000000000 (Some 0) |}.

Definition demo_reading : list ActiveBrokerOrderFact :=
  [demo_active "o1" (Some "BQ1") 100; demo_active "o2" None 200; demo_active "o2" None 200].

Lemma demo_reading_exact : pending_exact {["BQ1"%string]} demo_reading.
Proof.
  exists (-2). split; [by split|]. split; [|by vm_compute].
  by repeat constructor.
Qed.

Lemma classify_reading_witness :
  exists s, classify {["BQ1"%string]} demo_reading = Ok s /\
    xs_external_order_count s = 1 /\ (val (xs_pending_buy_notional s) == 2100)%Q /\
    classify {["BQ1"%string]} (demo_reading ++ demo_reading) = Ok s.
Proof.
  pose proof (classify_reading {["BQ1"%string]} demo_reading demo_reading_exact) as H. cbv zeta in H.
  destruct (classify {["BQ1"%string]} demo_reading) as [s|x] eqn:E; [|vm_compute in E; discriminate].
  destruct H as (Hall & _ & Hn & _ & Hv & _ & Hr). exists s.
  split; [reflexivity|]. split; [rewrite Hn; vm_compute; reflexivity|].
  split; [rewrite Hv; vm_compute; reflexivity|]. apply Hr. exact Hall.
Defined.
