(* ===== verification/Freshness.v ===== *)
(** * Freshness: the in-memory registries of live facts

    Three caches of the Host that hold the latest fact per key and refuse to
    answer from an old one: [MarketDataService] (market_data/service.py, quotes
    by symbol), [StrategyRuntimeService] (strategy_api/runtime.py, heartbeats by
    strategy) and [HealthRegistry] (operations/health.py, observations by
    component).  Each is a finite map and pure functions on it; the theorems say
    what a registry holds after any history, and what an answer it gives
    promises. *)

From stdpp Require Import sorting.
From S2P Require Import Prelude PyTime Decimal Json Domain Db OrderStore Parts Mode.
Open Scope Z_scope.

(** ** Ages *)

Definition fact_nonempty (name value : string) : res unit :=
  guard_r (strip_nonempty value) ValueError (name +:+ " must be a non-empty string").

Definition fact_aware (name : string) (value : datetime) : res unit :=
  guard_r (is_aware value) ValueError (name +:+ " must be timezone-aware").

Definition max_age_positive (max_age_seconds : Z) : res unit :=
  guard_r (0 <? max_age_seconds) ValueError "max_age_seconds must be > 0".

(** [now - t > timedelta(seconds=max_age_seconds)]. *)
Definition older (now : datetime) (max_age_seconds : Z) (t : datetime) : bool :=
  max_age_seconds * 1000000 <? instant now - instant t.

(** Not in the future and not too old. *)
Definition fresh (now : datetime) (max_age_seconds : Z) (t : datetime) : Prop :=
  instant t <= instant now <= instant t + max_age_seconds * 1000000.

#[global] Instance fresh_dec now age t : Decision (fresh now age t).
Proof. unfold fresh. apply _. Defined.

Lemma fresh_spec now age t : fresh now age t <-> dt_ltb now t = false /\ older now age t = false.
Proof. unfold fresh, dt_ltb, older. rewrite !Z.ltb_ge. lia. Qed.

Open Scope py_scope.

(** ** Market data *)

Record MarketQuote := {
  mq_symbol : string;
  mq_last_price : Dec.decimal;
  mq_broker_time : datetime;
  mq_observed_at : datetime;
  mq_source : string
}.

Definition quote_price (value : Dec.pydec) : res Dec.decimal :=
  match value with
  | Dec.Fin d => do! guard_r (negb (Dec.leb d Dec.zero)) ValueError
                       "last_price must be finite and > 0" ;; Ok d
  | _ => raise ValueError "last_price must be finite and > 0"
  end.

Definition MarketQuote_init (symbol : string) (last_price : Dec.pydec)
    (broker_time observed_at : datetime) (source : string) : res MarketQuote :=
  do! fact_nonempty "symbol" symbol ;;
  price <- quote_price last_price ;;
  do! fact_aware "broker_time" broker_time ;;
  do! fact_aware "observed_at" observed_at ;;
  do! fact_nonempty "source" source ;;
  Ok {| mq_symbol := symbol; mq_last_price := price; mq_broker_time := broker_time;
        mq_observed_at := observed_at; mq_source := source |}.

Module Market.

Inductive QuoteUpdateResult := APPLIED | DUPLICATE | STALE_IGNORED.

Abbreviation service := (gmap string MarketQuote).

Definition ingest (quote : MarketQuote) (s : service) : QuoteUpdateResult * service :=
  match s !! mq_symbol quote with
  | None => (APPLIED, <[mq_symbol quote := quote]> s)
  | Some previous =>
      if dt_ltb (mq_broker_time quote) (mq_broker_time previous) then (STALE_IGNORED, s)
      else if instant (mq_broker_time quote) =? instant (mq_broker_time previous) then
        if Dec.eqb (mq_last_price quote) (mq_last_price previous) then (DUPLICATE, s)
        else (STALE_IGNORED, s)
      else (APPLIED, <[mq_symbol quote := quote]> s)
  end.

Definition latest (s : service) (symbol : string) (now : datetime) (max_age_seconds : Z)
    : res MarketQuote :=
  do! guard_r (strip_nonempty symbol) ValueError "symbol must be a non-empty string" ;;
  do! fact_aware "now" now ;;
  do! max_age_positive max_age_seconds ;;
  match s !! symbol with
  | None => raise MarketDataUnavailable ("no quote for " +:+ symbol)
  | Some quote =>
      do! guard_r (negb (dt_ltb now (mq_broker_time quote))) MarketDataStale
            ("broker timestamp for " +:+ symbol +:+ " is in the future") ;;
      do! guard_r (negb (dt_ltb now (mq_observed_at quote))) MarketDataStale
            ("local observation for " +:+ symbol +:+ " is in the future") ;;
      do! guard_r (negb (older now max_age_seconds (mq_broker_time quote))) MarketDataStale
            ("broker quote for " +:+ symbol +:+ " is stale") ;;
      do! guard_r (negb (older now max_age_seconds (mq_observed_at quote))) MarketDataStale
            ("local observation for " +:+ symbol +:+ " is stale") ;;
      Ok quote
  end.

Definition clear (s : service) : service := ∅.

Definition symbols (s : service) : list string :=
  merge_sort (fun a b => Is_true (String.leb a b)) (List.map fst (map_to_list s)).

End Market.

(** ** Strategy heartbeats *)

Record StrategyHeartbeat := {
  hb_strategy_id : string;
  hb_strategy_version : string;
  hb_session_id : string;
  hb_sequence : Z;
  hb_observed_at : datetime
}.

Definition StrategyHeartbeat_init (strategy_id strategy_version session_id : string)
    (sequence : Z) (observed_at : datetime) : res StrategyHeartbeat :=
  do! fact_nonempty "strategy_id" strategy_id ;;
  do! fact_nonempty "strategy_version" strategy_version ;;
  do! fact_nonempty "session_id" session_id ;;
  do! guard_r (0 <? sequence) ValueError "sequence must be a positive integer" ;;
  do! fact_aware "observed_at" observed_at ;;
  Ok {| hb_strategy_id := strategy_id; hb_strategy_version := strategy_version;
        hb_session_id := session_id; hb_sequence := sequence; hb_observed_at := observed_at |}.

Module Strategies.

Inductive HeartbeatUpdateResult := APPLIED | DUPLICATE | STALE_IGNORED.

Abbreviation service := (gmap string StrategyHeartbeat).

(** [heartbeat == previous]: aware instants compare as instants. *)
Definition heartbeat_eqb (a b : StrategyHeartbeat) : bool :=
  bool_decide (hb_strategy_id a = hb_strategy_id b)
  && bool_decide (hb_strategy_version a = hb_strategy_version b)
  && bool_decide (hb_session_id a = hb_session_id b)
  && (hb_sequence a =? hb_sequence b)
  && (instant (hb_observed_at a) =? instant (hb_observed_at b)).

(** What is done with a heartbeat that has a predecessor. *)
Definition against (previous heartbeat : StrategyHeartbeat) : HeartbeatUpdateResult :=
  if bool_decide (hb_session_id heartbeat = hb_session_id previous) then
    if hb_sequence heartbeat <? hb_sequence previous then STALE_IGNORED
    else if hb_sequence heartbeat =? hb_sequence previous then
      if heartbeat_eqb heartbeat previous then DUPLICATE else STALE_IGNORED
    else if dt_ltb (hb_observed_at heartbeat) (hb_observed_at previous) then STALE_IGNORED
    else APPLIED
  else if dt_leb (hb_observed_at heartbeat) (hb_observed_at previous) then STALE_IGNORED
  else APPLIED.

Definition ingest_heartbeat (heartbeat : StrategyHeartbeat) (s : service)
    : HeartbeatUpdateResult * service :=
  let r := match s !! hb_strategy_id heartbeat with
           | None => APPLIED
           | Some previous => against previous heartbeat
           end in
  (r, match r with
      | APPLIED => <[hb_strategy_id heartbeat := heartbeat]> s
      | DUPLICATE | STALE_IGNORED => s
      end).

Definition require_fresh (s : service) (strategy_id strategy_version : string) (now : datetime)
    (max_age_seconds : Z) : res StrategyHeartbeat :=
  do! fact_nonempty "strategy_id" strategy_id ;;
  do! fact_nonempty "strategy_version" strategy_version ;;
  do! fact_aware "now" now ;;
  do! max_age_positive max_age_seconds ;;
  match s !! strategy_id with
  | None => raise StrategyUnavailable ("no live heartbeat for " +:+ strategy_id)
  | Some heartbeat =>
      do! guard_r (bool_decide (hb_strategy_version heartbeat = strategy_version))
            StrategyIdentityMismatch
            ("heartbeat version " +:+ hb_strategy_version heartbeat +:+ " does not match "
             +:+ strategy_version) ;;
      do! guard_r (negb (dt_ltb now (hb_observed_at heartbeat))) StrategyStale
            ("heartbeat for " +:+ strategy_id +:+ " is future-dated") ;;
      do! guard_r (negb (older now max_age_seconds (hb_observed_at heartbeat))) StrategyStale
            ("heartbeat for " +:+ strategy_id +:+ " is stale") ;;
      Ok heartbeat
  end.

Definition authorize_intent (s : service) (intent : OrderIntent) (now : datetime)
    (max_age_seconds : Z) : res StrategyHeartbeat :=
  require_fresh s (oi_strategy_id intent) (oi_strategy_version intent) now max_age_seconds.

Definition clear (s : service) : service := ∅.

End Strategies.

(** ** Health observations *)

Inductive HealthComponent :=
  | DATABASE | OMS | LEADER | RECONCILIATION | QMT | MARKET_DATA | STRATEGY.

#[global] Instance HealthComponent_eq_dec : EqDecision HealthComponent.
Proof. solve_decision. Defined.

(** The members in declaration order: [for component in HealthComponent]. *)
Definition components : list HealthComponent :=
  [DATABASE; OMS; LEADER; RECONCILIATION; QMT; MARKET_DATA; STRATEGY].

Definition component_str (c : HealthComponent) : string :=
  match c with
  | DATABASE => "DATABASE" | OMS => "OMS" | LEADER => "LEADER"
  | RECONCILIATION => "RECONCILIATION" | QMT => "QMT" | MARKET_DATA => "MARKET_DATA"
  | STRATEGY => "STRATEGY"
  end.

#[global] Instance HealthComponent_countable : Countable HealthComponent.
Proof.
  refine (inj_countable component_str
    (fun s => List.find (fun c => bool_decide (component_str c = s)) components) _).
  by intros [].
Defined.

Record HealthObservation := {
  ho_component : HealthComponent;
  ho_healthy : bool;
  ho_observed_at : datetime;
  ho_detail : string
}.

Definition HealthObservation_init (component : HealthComponent) (healthy : bool)
    (observed_at : datetime) (detail : string) : res HealthObservation :=
  do! fact_aware "observed_at" observed_at ;;
  Ok {| ho_component := component; ho_healthy := healthy; ho_observed_at := observed_at;
        ho_detail := detail |}.

Record HealthAlert := { ha_component : HealthComponent; ha_reason : string }.

Record HealthSnapshot := { hs_runtime : RuntimeHealth; hs_alerts : list HealthAlert }.

(** [s.strip()]. *)
Fixpoint lstrip (s : string) : string :=
  match s with
  | EmptyString => ""
  | String a s' => if is_space a then lstrip s' else s
  end.

Definition str_strip (s : string) : string := String.rev (lstrip (String.rev (lstrip s))).

Module Health.

Abbreviation registry := (gmap HealthComponent HealthObservation).

(** [observation == previous] for two observations of one component. *)
Definition observation_eqb (a b : HealthObservation) : bool :=
  Bool.eqb (ho_healthy a) (ho_healthy b)
  && (instant (ho_observed_at a) =? instant (ho_observed_at b))
  && bool_decide (ho_detail a = ho_detail b).

Definition conflicting (o : HealthObservation) : HealthObservation :=
  {| ho_component := ho_component o; ho_healthy := false; ho_observed_at := ho_observed_at o;
     ho_detail := "CONFLICTING_SAME_TIMESTAMP" |}.

Definition observe (observation : HealthObservation) (r : registry) : bool * registry :=
  match r !! ho_component observation with
  | None => (true, <[ho_component observation := observation]> r)
  | Some previous =>
      if dt_ltb (ho_observed_at observation) (ho_observed_at previous) then (false, r)
      else if instant (ho_observed_at observation) =? instant (ho_observed_at previous) then
        if observation_eqb observation previous then (false, r)
        else (true, <[ho_component observation := conflicting observation]> r)
      else (true, <[ho_component observation := observation]> r)
  end.

(** One round of the loop: the reason the component is not healthy, if any. *)
Definition problem (r : registry) (now : datetime) (max_age_seconds : Z) (c : HealthComponent)
    : option string :=
  match r !! c with
  | None => Some "MISSING"
  | Some o =>
      if dt_ltb now (ho_observed_at o) then Some "FUTURE_DATED"
      else if older now max_age_seconds (ho_observed_at o) then Some "STALE"
      else if negb (ho_healthy o) then
        Some (if str_nonempty (str_strip (ho_detail o)) then str_strip (ho_detail o)
              else "UNHEALTHY")
      else None
  end%string.

Definition alerts_of (problem : HealthComponent -> option string) : list HealthAlert :=
  omap (fun c => match problem c with
                 | Some reason => Some {| ha_component := c; ha_reason := reason |}
                 | None => None
                 end) components.

Definition runtime_of (problem : HealthComponent -> option string) : RuntimeHealth :=
  let ok c := match problem c with Some _ => false | None => true end in
  {| rh_database_healthy := ok DATABASE; rh_oms_healthy := ok OMS; rh_leader_held := ok LEADER;
     rh_reconciliation_complete := ok RECONCILIATION; rh_qmt_healthy := ok QMT;
     rh_market_data_healthy := ok MARKET_DATA; rh_strategy_healthy := ok STRATEGY |}.

Definition snapshot (r : registry) (now : datetime) (max_age_seconds : Z) : res HealthSnapshot :=
  do! fact_aware "now" now ;;
  do! max_age_positive max_age_seconds ;;
  Ok {| hs_runtime := runtime_of (problem r now max_age_seconds);
        hs_alerts := alerts_of (problem r now max_age_seconds) |}.

Definition clear (r : registry) : registry := ∅.

End Health.

(** ** What the market service holds and answers *)

(** The first of the newest quotes of a symbol, by broker time. *)
Definition newest (symbol : string) (l : list MarketQuote) (q : MarketQuote) : Prop :=
  mq_symbol q = symbol /\ exists l1 l2, l = l1 ++ q :: l2 /\
    (forall q', q' ∈ l1 -> mq_symbol q' = symbol ->
       instant (mq_broker_time q') < instant (mq_broker_time q)) /\
    (forall q', q' ∈ l2 -> mq_symbol q' = symbol ->
       instant (mq_broker_time q') <= instant (mq_broker_time q)).

Definition market_after (l : list MarketQuote) (s : Market.service) : Market.service :=
  fold_left (fun s q => (Market.ingest q s).2) l s.

Lemma market_after_snoc l q s :
  market_after (l ++ [q]) s = (Market.ingest q (market_after l s)).2.
Proof. apply fold_left_app. Qed.

(** What the service keeps of a new quote. *)
Lemma market_ingest_lookup q s symbol :
  (Market.ingest q s).2 !! symbol =
  if decide (mq_symbol q = symbol) then
    Some match s !! symbol with
         | Some p => if instant (mq_broker_time q) <=? instant (mq_broker_time p) then p else q
         | None => q
         end
  else s !! symbol.
Proof.
  unfold Market.ingest. destruct (decide _) as [<-|Hn].
  - destruct (s !! mq_symbol q) as [p|] eqn:E; cbn [snd]; [|by rewrite lookup_insert_eq].
    unfold dt_ltb. destruct (_ <? _) eqn:E1; [rewrite (proj2 (Z.leb_le _ _)) by (bool_to_prop; lia); done|].
    destruct (_ =? _) eqn:E2.
    + rewrite (proj2 (Z.leb_le _ _)) by (bool_to_prop; lia). by destruct (Dec.eqb _ _).
    + rewrite (proj2 (Z.leb_gt _ _)) by (bool_to_prop; lia). cbn [snd]. by rewrite lookup_insert_eq.
  - destruct (s !! mq_symbol q) as [p|]; repeat case_match; cbn [snd];
      by rewrite ?lookup_insert_ne by done.
Qed.

Lemma newest_snoc symbol l q p :
  newest symbol l p -> mq_symbol q = symbol ->
  newest symbol (l ++ [q])
    (if instant (mq_broker_time q) <=? instant (mq_broker_time p) then p else q).
Proof.
  intros (Hp & l1 & l2 & -> & H1 & H2) Hq. destruct (_ <=? _) eqn:E; bool_to_prop; split; try done.
  - exists l1, (l2 ++ [q]). rewrite <-app_assoc. repeat split; [done|].
    intros q' [?| ->%list_elem_of_singleton]%elem_of_app Hs; [by apply H2 | done].
  - exists (l1 ++ p :: l2), []. repeat split; [|intros q' []%not_elem_of_nil].
    intros q' [Hi|[-> | Hi]%elem_of_cons]%elem_of_app Hs; [specialize (H1 _ Hi Hs) | | specialize (H2 _ Hi Hs)]; lia.
Qed.

Lemma newest_other symbol l q p :
  newest symbol l p -> mq_symbol q <> symbol -> newest symbol (l ++ [q]) p.
Proof.
  intros (Hp & l1 & l2 & -> & H1 & H2) Hq. split; [done|]. exists l1, (l2 ++ [q]).
  rewrite <-app_assoc. repeat split; [done|].
  intros q' [?| ->%list_elem_of_singleton]%elem_of_app Hs; [by apply H2 | done].
Qed.

Lemma market_holds l symbol :
  match market_after l ∅ !! symbol with
  | Some q => newest symbol l q
  | None => forall q, q ∈ l -> mq_symbol q <> symbol
  end.
Proof.
  induction l as [|q l IH] using rev_ind.
  - cbn. rewrite lookup_empty. set_solver.
  - rewrite market_after_snoc, market_ingest_lookup. destruct (decide _) as [Hq|Hq].
    + destruct (market_after l ∅ !! symbol) as [p|]; [by apply newest_snoc|].
      split; [done|]. exists l, []. repeat split; [|intros q' []%not_elem_of_nil].
      intros q' Hi Hs. by destruct (IH q').
    + destruct (market_after l ∅ !! symbol) as [p|]; [by apply newest_other|].
      intros q' [Hi| ->%list_elem_of_singleton]%elem_of_app; [by apply IH | done].
Qed.

Lemma newest_elem symbol l q : newest symbol l q -> q ∈ l /\ mq_symbol q = symbol.
Proof. intros (Hq & l1 & l2 & -> & _). split; [|done]. set_solver. Qed.

Lemma newest_unique symbol l q q' : newest symbol l q -> newest symbol l q' -> q = q'.
Proof.
  intros (Hq & l1 & l2 & Hl & H1 & H2) (Hq' & k1 & k2 & Hk & K1 & K2). rewrite Hl in Hk.
  apply app_eq_app in Hk as (m & [[-> Hm]|[-> Hm]]); destruct m as [|x m]; injection Hm as <- ->;
    try done; exfalso.
  - assert (instant (mq_broker_time q') < instant (mq_broker_time q)) by (apply H1; [set_solver | done]).
    assert (instant (mq_broker_time q) <= instant (mq_broker_time q')) by (apply K2; [set_solver | done]).
    lia.
  - assert (instant (mq_broker_time q) < instant (mq_broker_time q')) by (apply K1; [set_solver | done]).
    assert (instant (mq_broker_time q') <= instant (mq_broker_time q)) by (apply H2; [set_solver | done]).
    lia.
Qed.

Lemma latest_ok s symbol now age q :
  Market.latest s symbol now age = Ok q <->
  strip_nonempty symbol = true /\ is_aware now = true /\ 0 < age /\ s !! symbol = Some q /\
  fresh now age (mq_broker_time q) /\ fresh now age (mq_observed_at q).
Proof.
  rewrite !fresh_spec. unfold Market.latest, fact_aware, max_age_positive. split.
  - intros H. inv_ok. destruct (s !! symbol) as [p|]; inv_ok. by bool_to_prop.
  - intros (-> & -> & Ha & -> & [-> ->] & -> & ->). by rewrite (proj2 (Z.ltb_lt _ _)) by done.
Qed.

(** What a quote means.  After any history of ingested quotes, [latest]
    answers with a quote exactly when the request is well-formed and that quote
    is the first of the newest by broker time among the symbol's quotes, neither
    of its clocks is in the future and neither is older than the limit: a later
    arrival never replaces a newer market fact, and an old fact is never
    served. *)
Theorem latest_newest l symbol now age q :
  Market.latest (market_after l ∅) symbol now age = Ok q <->
  strip_nonempty symbol = true /\ is_aware now = true /\ 0 < age /\ newest symbol l q /\
  fresh now age (mq_broker_time q) /\ fresh now age (mq_observed_at q).
Proof.
  rewrite latest_ok. pose proof (market_holds l symbol) as Hh.
  split; intros (? & ? & ? & Hq & ?); repeat (split; [done|]); (split; [|done]).
  - by rewrite Hq in Hh.
  - destruct (market_after l ∅ !! symbol) as [p|].
    + f_equal. by eapply newest_unique.
    + destruct (newest_elem _ _ _ Hq) as [Hi Hs]. by destruct (Hh q Hi).
Qed.

(** ** Heartbeats only advance *)

Definition strategies_after (l : list StrategyHeartbeat) (s : Strategies.service)
    : Strategies.service :=
  fold_left (fun s h => (Strategies.ingest_heartbeat h s).2) l s.

(** [h'] is later than [h]: a later instant, or the same one with a later
    sequence number of the same session. *)
Definition advances (h h' : StrategyHeartbeat) : Prop :=
  instant (hb_observed_at h) < instant (hb_observed_at h') \/
  (instant (hb_observed_at h) = instant (hb_observed_at h') /\
   hb_session_id h' = hb_session_id h /\ hb_sequence h < hb_sequence h').

#[global] Instance advances_trans : Transitive advances.
Proof. unfold advances. intros h1 h2 h3 [?|(? & ? & ?)] [?|(? & ? & ?)]; [lia.. | right]. repeat split; [lia | congruence | lia]. Qed.

Lemma advances_irrefl h : ~ advances h h.
Proof. unfold advances. lia. Qed.

(** A heartbeat that is [==] to an overtaken one is not later than it. *)
Lemma advances_eqb h h' : advances h h' -> Strategies.heartbeat_eqb h' h = false.
Proof.
  intros H. apply not_true_iff_false. unfold Strategies.heartbeat_eqb. intros He. bool_to_prop.
  destruct H as [?|(? & ? & ?)]; lia.
Qed.

Lemma against_applied p h : Strategies.against p h = Strategies.APPLIED -> advances p h.
Proof.
  unfold Strategies.against, advances, dt_ltb, dt_leb. intros H.
  repeat case_match; bool_to_prop; try done; lia || (right; repeat split; [lia | congruence | lia]) || (left; lia) || idtac.
  destruct (Z.eq_dec (instant (hb_observed_at p)) (instant (hb_observed_at h))); [right | left; lia].
  repeat split; [lia | done | lia].
Qed.

Lemma heartbeat_step h s id :
  (Strategies.ingest_heartbeat h s).2 !! id = s !! id \/
  ((Strategies.ingest_heartbeat h s).2 !! id = Some h /\ hb_strategy_id h = id /\
   forall p, s !! id = Some p -> advances p h).
Proof.
  unfold Strategies.ingest_heartbeat. cbn [snd].
  destruct (s !! hb_strategy_id h) as [p|] eqn:E.
  - destruct (Strategies.against p h) eqn:Ea; [|by left..].
    destruct (decide (hb_strategy_id h = id)) as [<-|]; [right | left; by rewrite lookup_insert_ne].
    rewrite lookup_insert_eq. repeat split. intros p'. rewrite E. intros [= <-]. by apply against_applied.
  - destruct (decide (hb_strategy_id h = id)) as [<-|]; [right | left; by rewrite lookup_insert_ne].
    rewrite lookup_insert_eq. repeat split. intros p'. by rewrite E.
Qed.

Lemma heartbeats_advance l s id h :
  s !! id = Some h ->
  exists h', strategies_after l s !! id = Some h' /\ (h' = h \/ (advances h h' /\ h' ∈ l)).
Proof.
  revert s h. induction l as [|x l IH]; intros s h Hs; [exists h; by split; [|left]|].
  cbn. destruct (heartbeat_step x s id) as [E|(E & _ & Ha)].
  - rewrite Hs in E. destruct (IH _ _ E) as (h' & ? & [?|[? ?]]); exists h'; (split; [done|]);
      [by left | right; split; [done | by right]].
  - destruct (IH _ _ E) as (h' & ? & [->|[? ?]]); eexists; (split; [done|]); right.
    + split; [by apply Ha | by left].
    + split; [by etrans; [apply Ha|] | by right].
Qed.

Lemma require_fresh_ok s id version now age h :
  Strategies.require_fresh s id version now age = Ok h <->
  strip_nonempty id = true /\ strip_nonempty version = true /\ is_aware now = true /\ 0 < age /\
  s !! id = Some h /\ hb_strategy_version h = version /\ fresh now age (hb_observed_at h).
Proof.
  rewrite !fresh_spec. unfold Strategies.require_fresh, fact_nonempty, fact_aware, max_age_positive.
  split.
  - intros H. inv_ok. destruct (s !! id) as [p|]; inv_ok. by bool_to_prop.
  - intros (-> & -> & -> & Ha & -> & <- & -> & ->).
    rewrite (proj2 (Z.ltb_lt _ _)) by done. cbn. by rewrite bool_decide_true.
Qed.

(** Authority only moves forward.  Suppose an intent was authorised by a
    heartbeat, more heartbeats of any strategies and sessions arrived, and an
    intent of that strategy is authorised again, possibly under another version
    or another limit: then the heartbeat behind the second answer is the same or
    a strictly later one that arrived in between, it names the intent's strategy
    version and is fresh then - and once overtaken, a heartbeat or one equal to
    it is never the answer again, whatever is replayed. *)
Theorem authority_advances s l i i' now now' age age' h h' :
  Strategies.authorize_intent s i now age = Ok h ->
  oi_strategy_id i' = oi_strategy_id i ->
  Strategies.authorize_intent (strategies_after l s) i' now' age' = Ok h' ->
  (h' = h \/ (advances h h' /\ h' ∈ l)) /\
  (hb_strategy_version h' = oi_strategy_version i' /\ fresh now' age' (hb_observed_at h')) /\
  (h' <> h -> forall l' h'', strategies_after l' (strategies_after l s) !! oi_strategy_id i = Some h'' ->
     Strategies.heartbeat_eqb h'' h = false).
Proof.
  unfold Strategies.authorize_intent. intros H1 Hi H2.
  apply require_fresh_ok in H1 as (_ & _ & _ & _ & Hs & _).
  apply require_fresh_ok in H2 as (_ & _ & _ & _ & Hs' & Hv & Hf). rewrite Hi in Hs'.
  destruct (heartbeats_advance l _ _ _ Hs) as (x & Hx & Ha). rewrite Hs' in Hx. injection Hx as <-.
  repeat split; try done; [exact (proj1 Hf) | exact (proj2 Hf) |].
  intros Hne l' h'' Hl. destruct Ha as [?|[Ha _]]; [done|].
  destruct (heartbeats_advance l' _ _ _ Hs') as (y & Hy & Hb). rewrite Hl in Hy. injection Hy as <-.
  apply advances_eqb. destruct Hb as [->|[Hb _]]; [done | by etrans].
Qed.

(** ** Health is what the newest observations agree on *)

Definition health_after (l : list HealthObservation) (r : Health.registry) : Health.registry :=
  fold_left (fun r o => (Health.observe o r).2) l r.

(** The observations of [c] in [l] at the newest instant. *)
Definition newest_of (l : list HealthObservation) (c : HealthComponent) (t : Z)
    (o : HealthObservation) : Prop :=
  o ∈ l /\ ho_component o = c /\ instant (ho_observed_at o) = t /\
  forall o', o' ∈ l -> ho_component o' = c -> instant (ho_observed_at o') <= t.

(** What two observations are compared by, their instants apart. *)
Definition claim (o : HealthObservation) : bool * string := (ho_healthy o, ho_detail o).

Definition conflict_claim : bool * string := (false, "CONFLICTING_SAME_TIMESTAMP"%string).

(** The entry [p] sums up the observations of [c]. *)
Definition sums_up (l : list HealthObservation) (c : HealthComponent) (p : HealthObservation)
    : Prop :=
  let t := instant (ho_observed_at p) in
  (exists o, newest_of l c t o) /\
  ((forall o, newest_of l c t o -> claim o = claim p) \/
   (claim p = conflict_claim /\
    exists o1 o2, newest_of l c t o1 /\ newest_of l c t o2 /\ claim o1 <> claim o2)).

Definition holds (l : list HealthObservation) (r : Health.registry) : Prop :=
  forall c, match r !! c with
            | None => forall o, o ∈ l -> ho_component o <> c
            | Some p => sums_up l c p
            end.

Lemma newest_of_snoc l c t o x :
  newest_of (l ++ [x]) c t o <->
  (ho_component x <> c /\ newest_of l c t o) \/
  (ho_component x = c /\ instant (ho_observed_at x) <= t /\ newest_of l c t o) \/
  (ho_component x = c /\ o = x /\ instant (ho_observed_at x) = t /\
   forall o', o' ∈ l -> ho_component o' = c -> instant (ho_observed_at o') <= t).
Proof.
  unfold newest_of. setoid_rewrite elem_of_app. setoid_rewrite list_elem_of_singleton. split.
  - intros (Hi & Hc & Ht & Ho). destruct (decide (ho_component x = c)) as [Hx|Hx].
    + right. specialize (Ho x (or_intror eq_refl) Hx) as Hle.
      destruct Hi as [Hi| ->]; [left | right]; repeat split; try done; intros o' ? ?; apply Ho; auto.
    + left. split; [done|]. destruct Hi as [Hi| ->]; [|done].
      repeat split; try done. intros o' ? ?. apply Ho; auto.
  - intros [(Hx & Hi & Hc & Ht & Ho)|[(Hx & Hle & Hi & Hc & Ht & Ho)|(Hx & -> & Ht & Ho)]].
    + repeat split; auto. intros o' [?| ->] Hc'; [by apply Ho | done].
    + repeat split; auto. intros o' [?| ->] Hc'; [by apply Ho | done].
    + repeat split; auto. intros o' [?| ->] Hc'; [by apply Ho | lia].
Qed.

Lemma newest_of_le l c t o t' o' : newest_of l c t o -> newest_of l c t' o' -> t = t'.
Proof.
  intros (Hi & Hc & <- & Ho) (Hi' & Hc' & <- & Ho').
  specialize (Ho _ Hi' Hc'). specialize (Ho' _ Hi Hc). lia.
Qed.

Lemma sums_up_other l c p x : ho_component x <> c -> sums_up l c p -> sums_up (l ++ [x]) c p.
Proof.
  intros Hx ((o & Ho) & H). assert (Hn : forall t o, newest_of (l ++ [x]) c t o <-> newest_of l c t o)
    by (intros; rewrite newest_of_snoc; tauto).
  split; [exists o; by apply Hn|]. destruct H as [H|(Hp & o1 & o2 & H1 & H2 & H3)].
  - left. intros o' Ho'. by apply H, Hn.
  - right. split; [done|]. exists o1, o2. by rewrite !Hn.
Qed.

(** A first or strictly newer observation sums up by itself. *)
Lemma sums_up_newer l c x :
  ho_component x = c ->
  (forall o, o ∈ l -> ho_component o = c -> instant (ho_observed_at o) < instant (ho_observed_at x)) ->
  sums_up (l ++ [x]) c x.
Proof.
  intros Hx Hn. split.
  - exists x. apply newest_of_snoc. right. right. repeat split; auto. intros o Hi Hc.
    specialize (Hn _ Hi Hc). lia.
  - left. intros o Ho. apply newest_of_snoc in Ho as [[? _]|[(_ & _ & Hi & Hc & Ht & _)|(_ & -> & _)]];
      [done | | done]. specialize (Hn _ Hi Hc). lia.
Qed.

Lemma sums_up_bound l c p o :
  sums_up l c p -> o ∈ l -> ho_component o = c ->
  instant (ho_observed_at o) <= instant (ho_observed_at p).
Proof. intros ((q & _ & _ & _ & Hq) & _). by apply Hq. Qed.

Lemma observation_eqb_spec x p :
  Health.observation_eqb x p = true <->
  claim x = claim p /\ instant (ho_observed_at x) = instant (ho_observed_at p).
Proof.
  unfold Health.observation_eqb, claim.
  rewrite !andb_true_iff, eqb_true_iff, Z.eqb_eq, bool_decide_eq_true.
  split; [intros ((H1 & H2) & H3); split; congruence | intros ([= H1 H2] & H3); auto].
Qed.

Lemma sums_up_same l c p x p' :
  ho_component x = c -> instant (ho_observed_at x) = instant (ho_observed_at p) ->
  instant (ho_observed_at p') = instant (ho_observed_at p) ->
  claim p' = (if decide (claim x = claim p) then claim p else conflict_claim) ->
  sums_up l c p -> sums_up (l ++ [x]) c p'.
Proof.
  intros Hx Ht Ht' Hp' ((o & Ho) & H). unfold sums_up. rewrite Ht'.
  assert (Hb : forall o', o' ∈ l -> ho_component o' = c ->
    instant (ho_observed_at o') <= instant (ho_observed_at p)) by apply Ho.
  assert (Hold : forall y, newest_of l c (instant (ho_observed_at p)) y ->
    newest_of (l ++ [x]) c (instant (ho_observed_at p)) y)
    by (intros y Hy; apply newest_of_snoc; right; left; split; [done|]; split; [lia | done]).
  assert (Hnew : newest_of (l ++ [x]) c (instant (ho_observed_at p)) x)
    by (apply newest_of_snoc; right; right; repeat split; auto).
  split; [by exists x|]. case_decide as He.
  - destruct H as [H|(Hp & o1 & o2 & H1 & H2 & H3)].
    + left. intros y Hy. rewrite Hp'.
      apply newest_of_snoc in Hy as [[? _]|[(_ & _ & Hy)|(_ & -> & _)]]; [done | by apply H | done].
    + right. split; [congruence|]. exists o1, o2. auto.
  - right. split; [done|]. destruct H as [H|(Hp & o1 & o2 & H1 & H2 & H3)].
    + exists x, o. repeat split; try apply Hnew; try apply Hold; try done. rewrite (H o Ho). done.
    + exists o1, o2. auto.
Qed.

Lemma observe_holds l r x : holds l r -> holds (l ++ [x]) (Health.observe x r).2.
Proof.
  intros Hh c. specialize (Hh c) as Hc. unfold Health.observe.
  destruct (decide (ho_component x = c)) as [<-|Hx].
  - destruct (r !! ho_component x) as [p|] eqn:E.
    + pose proof (fun o => sums_up_bound _ _ _ o Hc) as Hb. unfold dt_ltb.
      destruct (_ <? _) eqn:E1; bool_to_prop; cbn [snd].
      { rewrite E. destruct Hc as ((o & Ho) & H). split.
        - exists o. apply newest_of_snoc. right. left. split; [done|]. split; [lia | done].
        - assert (Hn : forall y, newest_of (l ++ [x]) (ho_component x) (instant (ho_observed_at p)) y
            <-> newest_of l (ho_component x) (instant (ho_observed_at p)) y).
          { intros y. rewrite newest_of_snoc. split; [|intros Hy; right; left; split; [done|]; split; [lia | done]].
            intros [[? _]|[(_ & _ & ?)|(_ & -> & ? & _)]]; [done..|lia]. }
          destruct H as [H|(Hp & o1 & o2 & H1 & H2 & H3)]; [left|right].
          + intros y Hy. by apply H, Hn.
          + split; [done|]. exists o1, o2. by rewrite !Hn. }
      destruct (_ =? _) eqn:E2; bool_to_prop.
      * destruct (Health.observation_eqb x p) eqn:E3; cbn [snd].
        -- apply observation_eqb_spec in E3 as [Ec _]. rewrite E.
           apply (sums_up_same l _ p x p); try done. by rewrite decide_True.
        -- rewrite lookup_insert_eq.
           apply (sums_up_same l _ p x (Health.conflicting x)); try done.
           rewrite decide_False; [done|]. intros Ec. apply not_true_iff_false in E3.
           by apply E3, observation_eqb_spec.
      * cbn [snd]. rewrite lookup_insert_eq. apply sums_up_newer; [done|].
        intros o Hi Ho. specialize (Hb _ Hi Ho). lia.
    + cbn [snd]. rewrite lookup_insert_eq. apply sums_up_newer; [done|].
      intros o Hi Ho. by destruct (Hc o Hi).
  - assert (Hl : (match r !! ho_component x with
      | Some previous =>
          if dt_ltb (ho_observed_at x) (ho_observed_at previous) then (false, r)
          else if instant (ho_observed_at x) =? instant (ho_observed_at previous) then
            if Health.observation_eqb x previous then (false, r)
            else (true, <[ho_component x := Health.conflicting x]> r)
          else (true, <[ho_component x := x]> r)
      | None => (true, <[ho_component x := x]> r)
      end).2 !! c = r !! c)
      by (repeat case_match; cbn [snd]; by rewrite ?lookup_insert_ne by done).
    rewrite Hl. destruct (r !! c) as [p|]; [by apply sums_up_other|].
    intros o [Hi| ->%list_elem_of_singleton]%elem_of_app; [by apply Hc | done].
Qed.

Lemma health_holds l : holds l (health_after l ∅).
Proof.
  induction l as [|x l IH] using rev_ind; [intros c; cbn; rewrite lookup_empty; set_solver|].
  unfold health_after. rewrite fold_left_app. by apply observe_holds.
Qed.

(** Two registries that sum up the same observations agree on every entry. *)
Lemma sums_up_agree l l' c p p' :
  (forall o, o ∈ l <-> o ∈ l') -> sums_up l c p -> sums_up l' c p' ->
  instant (ho_observed_at p) = instant (ho_observed_at p') /\ claim p = claim p'.
Proof.
  intros Hl ((o & Ho) & H) ((o' & Ho') & H').
  assert (Hn : forall t y, newest_of l c t y <-> newest_of l' c t y)
    by (intros t y; unfold newest_of; rewrite Hl; by setoid_rewrite Hl).
  assert (Ht : instant (ho_observed_at p) = instant (ho_observed_at p'))
    by (apply Hn in Ho; by eapply newest_of_le).
  split; [done|]. rewrite Ht in *. setoid_rewrite Hn in H.
  destruct H as [H|(Hp & o1 & o2 & H1 & H2 & H3)], H' as [H'|(Hp' & p1 & p2 & K1 & K2 & K3)].
  - rewrite <-(H _ Ho'). by apply H'.
  - destruct K3. rewrite (H _ K1), (H _ K2). done.
  - destruct H3. rewrite (H' _ H1), (H' _ H2). done.
  - congruence.
Qed.

Lemma problem_agree l l' now age c :
  (forall o, o ∈ l <-> o ∈ l') ->
  Health.problem (health_after l ∅) now age c = Health.problem (health_after l' ∅) now age c.
Proof.
  intros Hl. pose proof (health_holds l c) as H. pose proof (health_holds l' c) as H'.
  unfold Health.problem.
  destruct (health_after l ∅ !! c) as [p|], (health_after l' ∅ !! c) as [p'|].
  - destruct (sums_up_agree _ _ _ _ _ Hl H H') as [Ht [= Hh Hd]].
    unfold dt_ltb, older. by rewrite Ht, Hh, Hd.
  - destruct H as ((o & Ho & Hc & _) & _). apply Hl in Ho. by destruct (H' _ Ho).
  - destruct H' as ((o & Ho & Hc & _) & _). apply Hl in Ho. by destruct (H _ Ho).
  - done.
Qed.

Lemma problem_none l now age c :
  Health.problem (health_after l ∅) now age c = None <->
  exists o, newest_of l c (instant (ho_observed_at o)) o /\ ho_healthy o = true /\
    fresh now age (ho_observed_at o) /\
    forall o', newest_of l c (instant (ho_observed_at o)) o' -> claim o' = claim o.
Proof.
  pose proof (health_holds l c) as H. unfold Health.problem. split.
  - destruct (health_after l ∅ !! c) as [p|]; [|done].
    destruct H as ((o & Ho) & H). intros Hp.
    destruct (dt_ltb _ _) eqn:E1; [done|]. destruct (older _ _ _) eqn:E2; [done|].
    destruct (ho_healthy p) eqn:E3; [|done].
    assert (Ht : instant (ho_observed_at o) = instant (ho_observed_at p)) by apply Ho.
    destruct H as [H|([= Hf _] & _)]; [|congruence]. exists o. rewrite Ht. split; [done|].
    specialize (H o Ho) as Hc. split; [injection Hc; congruence|].
    split; [apply fresh_spec; unfold dt_ltb, older; by rewrite Ht|].
    intros o' Ho'. rewrite Hc. by apply H.
  - intros (o & Ho & Hh & Hf & Hs). apply fresh_spec in Hf as [Hf1 Hf2].
    destruct (health_after l ∅ !! c) as [p|]; [|by destruct (H o (proj1 Ho)); apply Ho].
    destruct H as ((q & Hq) & H).
    assert (Ht := newest_of_le _ _ _ _ _ _ Ho Hq). rewrite Ht in *.
    destruct H as [H|(_ & o1 & o2 & H1 & H2 & H3)].
    + specialize (H _ Ho). unfold dt_ltb, older in *. injection H as Hhp _.
      by rewrite <-Ht, Hf1, Hf2, <-Hhp, Hh.
    + destruct H3. by rewrite (Hs _ H1), (Hs _ H2).
Qed.

Lemma alerts_nil problem :
  Health.alerts_of problem = [] <-> forall c, problem c = None.
Proof.
  unfold Health.alerts_of. split.
  - intros H c. destruct (problem c) as [reason|] eqn:E; [|done]. exfalso.
    apply (not_elem_of_nil {| ha_component := c; ha_reason := reason |}). rewrite <-H.
    apply list_elem_of_omap. exists c. rewrite E. split; [destruct c; set_solver | done].
  - intros H. cbn. by rewrite !H.
Qed.

Lemma ready_problem problem :
  ready_for_mutation (Health.runtime_of problem) = true <-> forall c, problem c = None.
Proof.
  unfold ready_for_mutation. cbn. rewrite !andb_true_iff. split.
  - intros H c. destruct (problem c) eqn:E; [|done]. destruct_and?. destruct c; rewrite E in *; discriminate.
  - intros H. by rewrite !H.
Qed.

(** Ready means seven fresh, undisputed, healthy reports.  After any history
    of observations, a snapshot is ready for mutation exactly when every
    component has a newest observation that is healthy, neither in the future
    nor older than the limit, and not contradicted by another one of the same
    instant; and it is ready exactly when it raises no alert. *)
Theorem health_ready l now age hs :
  Health.snapshot (health_after l ∅) now age = Ok hs ->
  (ready_for_mutation (hs_runtime hs) = true <->
   forall c, exists o, newest_of l c (instant (ho_observed_at o)) o /\ ho_healthy o = true /\
     fresh now age (ho_observed_at o) /\
     forall o', newest_of l c (instant (ho_observed_at o)) o' -> claim o' = claim o) /\
  (ready_for_mutation (hs_runtime hs) = true <-> hs_alerts hs = []).
Proof.
  unfold Health.snapshot. intros H. inv_ok. cbn [hs_runtime hs_alerts].
  rewrite alerts_nil, ready_problem. split; [|done]. by setoid_rewrite problem_none.
Qed.

(** Arrival order does not matter.  Two registries that were shown the same
    observations, in whatever order and however often, give the same snapshots:
    the same health, the same alerts with the same reasons. *)
Theorem health_order_free l l' now age :
  (forall o, o ∈ l <-> o ∈ l') ->
  Health.snapshot (health_after l ∅) now age = Health.snapshot (health_after l' ∅) now age.
Proof.
  intros Hl. assert (Hp : forall c, Health.problem (health_after l ∅) now age c =
    Health.problem (health_after l' ∅) now age c) by (intros; by apply problem_agree).
  unfold Health.snapshot, Health.runtime_of, Health.alerts_of. cbn. by rewrite !Hp.
Qed.

(** ** Concrete histories *)

Definition demo_at (seconds : Z) : datetime := DT (1750000000000000 + seconds * 1000000) (Some 0).

Definition demo_quote (price seconds : Z) : MarketQuote :=
  {| mq_symbol := "600000.SH"; mq_last_price := Dec.D false price (-2);
     mq_broker_time := demo_at seconds; mq_observed_at := demo_at seconds; mq_source := "qmt" |}.

Lemma latest_newest_witness :
  newest "600000.SH" [demo_quote 1050 3; demo_quote 1040 1; demo_quote 1060 3] (demo_quote 1050 3).
Proof.
  apply (proj1 (latest_newest [demo_quote 1050 3; demo_quote 1040 1; demo_quote 1060 3]
    "600000.SH" (demo_at 5) 10 (demo_quote 1050 3)) ltac:(vm_compute; reflexivity)).
Defined.

Definition demo_beat (session : string) (sequence seconds : Z) : StrategyHeartbeat :=
  {| hb_strategy_id := "strategy"; hb_strategy_version := "v1"; hb_session_id := session;
     hb_sequence := sequence; hb_observed_at := demo_at seconds |}.

Definition demo_order : OrderIntent :=
  {| oi_client_order_id := "c1"; oi_strategy_id := "strategy"; oi_strategy_version := "v1";
     oi_account_fingerprint := "acct"; oi_symbol := "600000.SH"; oi_side := BUY;
     oi_quantity := 100; oi_limit_price := Dec.D false 1050 (-2); oi_created_at := demo_at 0;
     oi_expires_at := demo_at 60; oi_signal_id := "sig"; oi_reason_code := "entry";
     oi_order_type := LIMIT |}.

Definition demo_strategies : Strategies.service := strategies_after [demo_beat "s1" 7 0] ∅.

Lemma authority_advances_witness :
  (strategies_after [demo_beat "s1" 7 0] (strategies_after [demo_beat "s2" 1 4] demo_strategies))
    !! "strategy"%string = Some (demo_beat "s2" 1 4) /\
  Strategies.heartbeat_eqb (demo_beat "s2" 1 4) (demo_beat "s1" 7 0) = false.
Proof.
  assert (Hl : (strategies_after [demo_beat "s1" 7 0]
    (strategies_after [demo_beat "s2" 1 4] demo_strategies)) !! "strategy"%string
    = Some (demo_beat "s2" 1 4)) by (vm_compute; reflexivity).
  split; [exact Hl|].
  refine (proj2 (proj2 (authority_advances demo_strategies [demo_beat "s2" 1 4] demo_order demo_order
    (demo_at 1) (demo_at 5) 10 10 (demo_beat "s1" 7 0) (demo_beat "s2" 1 4)
    ltac:(vm_compute; reflexivity) eq_refl ltac:(vm_compute; reflexivity))) _ [demo_beat "s1" 7 0] _ Hl).
  intros H. discriminate (f_equal hb_sequence H).
Defined.

Definition demo_report (healthy : bool) (seconds : Z) (c : HealthComponent) : HealthObservation :=
  {| ho_component := c; ho_healthy := healthy; ho_observed_at := demo_at seconds; ho_detail := "" |}.

Definition demo_reports : list HealthObservation := List.map (demo_report true 0) components.

Lemma health_ready_witness :
  (forall c, exists o, newest_of demo_reports c (instant (ho_observed_at o)) o /\ ho_healthy o = true) /\
  exists hs, Health.snapshot (health_after (demo_reports ++ [demo_report false 0 QMT]) ∅) (demo_at 1) 10
    = Ok hs /\ hs_alerts hs = [{| ha_component := QMT; ha_reason := "CONFLICTING_SAME_TIMESTAMP" |}].
Proof.
  split.
  - intros c. destruct (proj1 (proj1 (health_ready demo_reports (demo_at 1) 10 _
      ltac:(vm_compute; reflexivity))) ltac:(vm_compute; reflexivity) c) as (o & H1 & H2 & _).
    by exists o.
  - eexists. split; vm_compute; reflexivity.
Defined.

Lemma health_order_free_witness :
  Health.snapshot (health_after [demo_report true 0 QMT; demo_report false 0 QMT] ∅) (demo_at 1) 10 =
  Health.snapshot (health_after [demo_report false 0 QMT; demo_report true 0 QMT;
    demo_report false 0 QMT] ∅) (demo_at 1) 10.
Proof. apply health_order_free. intros o. set_solver. Defined.
