(* ===== verification/Control.v ===== *)
(** * Control: the operations surface of [operations/control.py]

    [OperationsControl] joins the mode controller and the health registry: two
    parts of the process state that do not overlap.  Every request it passes on
    carries the health of the registry at that moment; the theorems follow the
    mode through histories of reports and requests. *)

From S2P Require Import Prelude PyTime Decimal Json Domain Db Repository OrderStore RiskModels.
From S2P Require Import Parts Mode Freshness.
Open Scope Z_scope.
Open Scope oms_scope.

Record OperationsStatus := {
  os_mode : RuntimeMode;
  os_health : RuntimeHealth;
  os_ready_for_mutation : bool;
  os_alerts : list HealthAlert
}.

Section Control.
Context {R : Type} {env : Env} `{Part controller R} `{Part Health.registry R}.
Context (write_guard : option (M R unit)).

Definition health_snapshot (now : datetime) (max_age_seconds : Z) : M R HealthSnapshot :=
  r <- read_part (fun r : Health.registry => r) ;;
  lift (Health.snapshot r now max_age_seconds).

Definition status (now : datetime) (max_age_seconds : Z) : M R OperationsStatus :=
  snapshot <- health_snapshot now max_age_seconds ;;
  mode <- read_part mc_mode ;;
  retM {| os_mode := mode; os_health := hs_runtime snapshot;
          os_ready_for_mutation := ready_for_mutation (hs_runtime snapshot);
          os_alerts := hs_alerts snapshot |}.

Definition enter_observe (request_id actor reason : string) (now : datetime)
    (max_age_seconds : Z) : M R bool :=
  snapshot <- health_snapshot now max_age_seconds ;;
  request_mode write_guard request_id OBSERVE actor reason now (hs_runtime snapshot).

Definition arm_simulation (request_id actor reason : string) (now : datetime)
    (max_age_seconds : Z) : M R bool :=
  snapshot <- health_snapshot now max_age_seconds ;;
  do! guardM (ready_for_mutation (hs_runtime snapshot)) ModeTransitionDenied
        "runtime health is not ready for simulation" ;;
  request_mode write_guard request_id SIMULATION actor reason now (hs_runtime snapshot).

Definition emergency_halt (request_id actor reason : string) (now : datetime) : M R bool :=
  halt write_guard request_id actor reason now.

Definition control_enforce_health (request_id : string) (now : datetime) (max_age_seconds : Z)
    : M R bool :=
  snapshot <- health_snapshot now max_age_seconds ;;
  mode_enforce_health write_guard request_id (hs_runtime snapshot) now.

(** A component reports: [HealthRegistry.observe] on the process's registry. *)
Definition report (o : HealthObservation) : M R bool :=
  r <- read_part (fun r : Health.registry => r) ;;
  do! write_part (fun r => (Health.observe o r).2) ;;
  retM (Health.observe o r).1.
End Control.

(** ** Histories *)

Inductive event :=
  | Report (o : HealthObservation)
  | EnterObserve (request_id actor reason : string) (now : datetime) (max_age_seconds : Z)
  | ArmSimulation (request_id actor reason : string) (now : datetime) (max_age_seconds : Z)
  | EmergencyHalt (request_id actor reason : string) (now : datetime)
  | EnforceHealth (request_id : string) (now : datetime) (max_age_seconds : Z).

Definition run_event {R} {env : Env} `{Part controller R} `{Part Health.registry R}
    (write_guard : option (M R unit)) (e : event) : M R bool :=
  match e with
  | Report o => report o
  | EnterObserve id actor reason now age => enter_observe write_guard id actor reason now age
  | ArmSimulation id actor reason now age => arm_simulation write_guard id actor reason now age
  | EmergencyHalt id actor reason now => emergency_halt write_guard id actor reason now
  | EnforceHealth id now age => control_enforce_health write_guard id now age
  end.

Definition reports (es : list event) : list HealthObservation :=
  omap (fun e => match e with Report o => Some o | _ => None end) es.

(** Seven fresh, undisputed, healthy reports among [l]. *)
Definition all_reported (l : list HealthObservation) (now : datetime) (max_age_seconds : Z) : Prop :=
  forall c, exists o, newest_of l c (instant (ho_observed_at o)) o /\ ho_healthy o = true /\
    fresh now max_age_seconds (ho_observed_at o) /\
    forall o', newest_of l c (instant (ho_observed_at o)) o' -> claim o' = claim o.

Lemma all_reported_ready l now age hs :
  Health.snapshot (health_after l ∅) now age = Ok hs ->
  ready_for_mutation (hs_runtime hs) = true <-> all_reported l now age.
Proof.
  intros H. unfold Health.snapshot in H. inv_ok. cbn [hs_runtime].
  rewrite ready_problem. unfold all_reported. by setoid_rewrite problem_none.
Qed.

Section Contract.
Context {R : Type} {env : Env} `{Part controller R} `{Part Health.registry R}.
Context `{!Apart controller Health.registry R} `{!Apart Health.registry controller R}.
Context (write_guard : option (M R unit)).
Hypothesis guard_quiet : match write_guard with Some g => quiet g | None => True end.
Implicit Types (w : world R).

Definition registry_of w : Health.registry := get_part (w_rest w).

(** What the health part and the mode part of the process are after [e], and
    what the move of the mode, if there was one, had behind it. *)
Definition stepped (l : list HealthObservation) (e : event) w w' : Prop :=
  w_in_tx w' = false /\ registry_of w' = health_after (l ++ reports [e]) ∅ /\
  (mode_of w' = mode_of w \/
   match e with
   | Report _ => False
   | EnterObserve _ _ _ _ _ => mode_of w' = OBSERVE /\ mode_of w <> HALTED
   | ArmSimulation _ _ _ now age =>
       mode_of w' = SIMULATION /\ mode_of w <> HALTED /\ all_reported l now age
   | EmergencyHalt _ _ _ _ => mode_of w' = HALTED
   | EnforceHealth _ now age =>
       mode_of w' = HALTED /\ mode_of w = SIMULATION /\ ~ all_reported l now age
   end).

Lemma moves_rest id m actor reason at_ w res w' :
  moves id m actor reason at_ w res w' ->
  w_in_tx w' = w_in_tx w /\ registry_of w' = registry_of w /\
  (mode_of w' = mode_of w \/ (mode_of w' = m /\ res = Ok true)).
Proof.
  unfold moves, registry_of, mode_of. destruct res as [[]|e].
  - intros (x & _ & _ & Ht & ->). rewrite get_set_part, get_set_apart. repeat split; auto.
  - intros (_ & Ht & ->). auto.
  - intros (_ & Ht & ->). auto.
Qed.

(** The prefix every request starts with. *)
Lemma with_snapshot {A} (k : HealthSnapshot -> M R A) now age (Q : res A -> world R -> Prop) w :
  (forall e, Q (Err e) w) ->
  (forall hs, Health.snapshot (registry_of w) now age = Ok hs -> wp (k hs) Q w) ->
  wp (bindM (health_snapshot now age) k) Q w.
Proof.
  intros He Hk. unfold health_snapshot, read_part. repeat wp_step.
  change (get_part (w_rest w)) with (registry_of w).
  destruct (Health.snapshot _ _ _) as [hs|e] eqn:E; cbv beta iota; [by apply Hk | done].
Qed.

Lemma step_ok l e w :
  w_in_tx w = false -> registry_of w = health_after l ∅ ->
  wp (run_event write_guard e) (fun _ => stepped l e w) w.
Proof.
  intros Hw Hl.
  assert (Hidle : forall e', reports [e'] = [] -> stepped l e' w w)
    by (intros e' He; split; [done|]; rewrite He, app_nil_r; auto).
  assert (Hmoved : forall e' id m actor reason at_ res w', reports [e'] = [] ->
    moves id m actor reason at_ w res w' ->
    (mode_of w' = mode_of w \/ (mode_of w' = m /\ res = Ok true) ->
     mode_of w' = mode_of w \/ match e' with
       | Report _ => False
       | EnterObserve _ _ _ _ _ => mode_of w' = OBSERVE /\ mode_of w <> HALTED
       | ArmSimulation _ _ _ now age =>
           mode_of w' = SIMULATION /\ mode_of w <> HALTED /\ all_reported l now age
       | EmergencyHalt _ _ _ _ => mode_of w' = HALTED
       | EnforceHealth _ now age =>
           mode_of w' = HALTED /\ mode_of w = SIMULATION /\ ~ all_reported l now age
       end) -> stepped l e' w w').
  { intros e' id m actor reason at_ res w' He Hm Hk.
    destruct (moves_rest _ _ _ _ _ _ _ _ Hm) as (Ht & Hr & Hmode).
    split; [congruence|]. rewrite He, app_nil_r, Hr. auto. }
  destruct e as [o|id actor reason now age|id actor reason now age|id actor reason now|id now age];
    cbn [run_event].
  - unfold report, read_part, write_part. repeat wp_step. split; [done|].
    unfold registry_of, mode_of in *. cbn [w_rest]. rewrite get_set_part, get_set_apart, Hl.
    split; [|by left]. unfold health_after. by rewrite fold_left_app.
  - apply with_snapshot; [by intros; apply Hidle|]. intros hs Hs.
    eapply wp_mono; [by apply request_mode_ok|]. intros res w' [Hm Hg].
    eapply Hmoved; [done | exact Hm|]. intros [?|[Ho Hres]]; [by left | right]. split; [done|].
    apply mode_gate_ok in Hg as (_ & _ & Hh & _); [|done]. intros Hx. by specialize (Hh Hx).
  - apply with_snapshot; [by intros; apply Hidle|]. intros hs Hs. apply wp_bind.
    apply wp_guard; intros Hready; [|by apply Hidle]. rewrite Hl in Hs.
    eapply wp_mono; [by apply request_mode_ok|]. intros res w' [Hm Hg].
    eapply Hmoved; [done | exact Hm|]. intros [?|[Ho Hres]]; [by left | right]. split; [done|].
    apply mode_gate_ok in Hg as (_ & _ & Hh & _); [|done].
    split; [intros Hx; by specialize (Hh Hx) | by eapply all_reported_ready].
  - eapply wp_mono; [by apply halt_ok|]. intros res w' Hm.
    eapply Hmoved; [done | exact Hm|]. intros [?|[? _]]; auto.
  - apply with_snapshot; [by intros; apply Hidle|]. intros hs Hs. rewrite Hl in Hs.
    eapply wp_mono; [by apply enforce_ok|]. intros res w' [Hm Hg].
    eapply Hmoved; [done | exact Hm|]. intros [?|[Ho Hres]]; [by left | right].
    destruct (Hg Hres) as [Hs1 Hr]. repeat split; try done.
    rewrite <-all_reported_ready by exact Hs. by rewrite Hr.
Qed.

Definition run_events (es : list event) w : world R :=
  fold_left (fun w e => (run_event write_guard e w).2) es w.

Lemma run_events_ok es w :
  w_in_tx w = false -> registry_of w = health_after [] ∅ ->
  w_in_tx (run_events es w) = false /\ registry_of (run_events es w) = health_after (reports es) ∅.
Proof.
  intros Hw Hl. induction es as [|e es [Ht Hr]] using rev_ind; [done|].
  unfold run_events. rewrite fold_left_app. cbn. fold (run_events es w).
  pose proof (step_ok (reports es) e (run_events es w) Ht Hr) as (Ht' & Hr' & _).
  unfold reports in *. rewrite omap_app. done.
Qed.

(** C27. SIMULATION was armed on evidence.  In any history of reports and
    requests on a process that starts DISABLED with no trusted health, whatever
    fails in between: if the mode is SIMULATION at the end, some request in the
    history armed it at a moment when every one of the seven components had a
    newest report that was healthy, fresh and undisputed, and every later
    request left it armed; and the mode is never SHADOW or a live one. *)
Theorem simulation_was_armed es w :
  w_in_tx w = false -> registry_of w = ∅ -> mode_of w = DISABLED ->
  (mode_of (run_events es w) = SIMULATION ->
   exists es1 id actor reason now age es2,
     es = es1 ++ ArmSimulation id actor reason now age :: es2 /\
     all_reported (reports es1) now age /\
     forall es3 es4, es2 = es3 ++ es4 ->
       mode_of (run_events (es1 ++ ArmSimulation id actor reason now age :: es3) w) = SIMULATION) /\
  mode_of (run_events es w) ∈ [DISABLED; OBSERVE; SIMULATION; HALTED].
Proof.
  intros Hw Hr Hd. induction es as [|e es [IHs IHm]] using rev_ind.
  { cbn. rewrite Hd. split; [done | set_solver]. }
  destruct (run_events_ok es w Hw Hr) as [Ht Hr'].
  pose proof (step_ok (reports es) e (run_events es w) Ht Hr') as (_ & _ & Hm).
  assert (Hrun : run_events (es ++ [e]) w = (run_event write_guard e (run_events es w)).2)
    by (unfold run_events; by rewrite fold_left_app).
  rewrite <-Hrun in Hm. split.
  - intros Hs. destruct Hm as [Hm|Hm].
    + rewrite Hs in Hm. destruct (IHs (eq_sym Hm)) as (es1 & id & actor & reason & now & age & es2 & -> & Ha & Hk).
      exists es1, id, actor, reason, now, age, (es2 ++ [e]).
      split; [by rewrite <-app_assoc|]. split; [done|]. intros es3 es4 He.
      destruct es4 as [|x es4 _] using rev_ind.
      * rewrite app_nil_r in He. rewrite <-He. by rewrite <-app_assoc in Hs.
      * rewrite app_assoc in He. apply app_inj_tail in He as [-> _]. by eapply Hk.
    + destruct e; destruct_and?; try done; try congruence.
      exists es, request_id, actor, reason, now, max_age_seconds, []. repeat split; try done.
      intros es3 es4 [-> ->]%eq_sym%app_nil. done.
  - destruct Hm as [->|Hm]; [done|].
    destruct e; destruct_and?; [done| |..]; set_solver.
Qed.

(** A lost prerequisite stops SIMULATION.  When the mode is SIMULATION and
    some component has no newest report that is healthy, fresh and undisputed, a
    health enforcement under a new request id, with the write lock and the guard
    available, returns [True] and leaves the mode HALTED, from which no request
    for a target but DISABLED moves it. *)
Theorem lost_health_halts l id now age w :
  w_in_tx w = false -> registry_of w = health_after l ∅ -> mode_of w = SIMULATION ->
  env_begin (w_tick w) = None ->
  (guard_write_in_tx write_guard (W (w_db w) true (S (w_tick w)) (w_rest w))).1 = Ok tt ->
  tbl_get (rt_modes (d_runtime (w_db w))) id = None ->
  strip_nonempty id = true -> is_aware now = true -> 0 < age ->
  ~ all_reported l now age ->
  exists w', control_enforce_health write_guard id now age w = (Ok true, w') /\
    mode_of w' = HALTED /\
    forall id' target actor reason at_ h, target <> DISABLED ->
      mode_of (request_mode write_guard id' target actor reason at_ h w').2 = HALTED.
Proof.
  intros Hw Hr Hm Hb Hg Hid Hn Ha Hage Hl.
  destruct (Health.snapshot (health_after l ∅) now age) as [hs|e] eqn:Es.
  2: { unfold Health.snapshot, fact_aware, max_age_positive in Es. rewrite Ha in Es. cbn in Es.
       by rewrite (proj2 (Z.ltb_lt _ _)) in Es. }
  assert (Hready : ready_for_mutation (hs_runtime hs) = false)
    by (apply not_true_iff_false; by rewrite all_reported_ready).
  destruct (control_enforce_health write_guard id now age w) as [res w'] eqn:E.
  assert (Hrun : control_enforce_health write_guard id now age w =
    mode_enforce_health write_guard id (hs_runtime hs) now w).
  { unfold control_enforce_health, health_snapshot, bindM, read_part, read_rest, lift.
    fold (registry_of w). by rewrite Hr, Es. }
  destruct (halt_forced write_guard guard_quiet id "x" "x" now w Hw Hb Hg Hid Hn eq_refl eq_refl Ha)
    as [_ Hf]. destruct (Hf (hs_runtime hs) Hm Hready) as [Hf1 Hf2]. rewrite <-Hrun, E in Hf1, Hf2.
  cbn in Hf1, Hf2. subst res. exists w'. repeat split; [done|].
  intros id' target actor reason at_ h Ht.
  assert (Hw' : w_in_tx w' = false).
  { pose proof (enforce_ok write_guard guard_quiet id (hs_runtime hs) now w Hw) as [Ho _].
    rewrite <-Hrun, E in Ho. destruct Ho as (x & _ & _ & Hx & _). cbn in Hx. congruence. }
  pose proof (request_mode_ok write_guard guard_quiet id' target actor reason at_ h w' Hw') as [Ho Hk].
  destruct (moves_rest _ _ _ _ _ _ _ _ Ho) as (_ & _ & [->|[_ Hres]]); [done|].
  apply Hk in Hres. rewrite Hf2 in Hres. apply mode_gate_ok in Hres as (_ & _ & Hh & _).
  by specialize (Hh eq_refl).
Qed.
End Contract.

(** ** A concrete process *)

Abbreviation demo_parts := (controller * gmap HealthComponent HealthObservation)%type.

Definition demo_modes : Part controller demo_parts := fst_part _ _ _.
Definition demo_registry : Part Health.registry demo_parts := snd_part _ _ _.

Definition demo_boot : world demo_parts :=
  W empty_db false 0 ({| mc_runtime_session_id := "run-1"; mc_mode := DISABLED |}, ∅).

Definition demo_free : match @None (M demo_parts unit) with Some g => quiet g | None => True end := I.

Definition demo_arming : list event :=
  List.map Report demo_reports ++
  [EnterObserve "r1" "operator" "watch" (demo_at 1) 10;
   ArmSimulation "r2" "operator" "go" (demo_at 2) 10].

Abbreviation demo_armed := (@run_events demo_parts demo_env demo_modes demo_registry None demo_arming demo_boot).

Lemma simulation_was_armed_witness :
  @mode_of _ demo_modes demo_armed = SIMULATION /\
  exists es1 id actor reason now age es2,
    demo_arming = es1 ++ ArmSimulation id actor reason now age :: es2 /\
    all_reported (reports es1) now age.
Proof.
  assert (Hm : @mode_of _ demo_modes demo_armed = SIMULATION) by (vm_compute; reflexivity).
  split; [exact Hm|].
  destruct (proj1 (@simulation_was_armed demo_parts demo_env demo_modes demo_registry _ _ None demo_free demo_arming demo_boot
    eq_refl ltac:(vm_compute; reflexivity) eq_refl) Hm) as (es1 & id & actor & reason & now & age & es2 & He & Ha & _).
  exists es1, id, actor, reason, now, age, es2. exact (conj He Ha).
Defined.

Lemma demo_unreported : ~ all_reported demo_reports (demo_at 60) 10.
Proof.
  intros H. destruct (H QMT) as (o & (Hi & _) & _ & Hf & _).
  assert (Hall : forall o, o ∈ demo_reports -> instant (ho_observed_at o) = instant (demo_at 0))
    by (apply Forall_forall; repeat constructor).
  unfold fresh in Hf. rewrite (Hall o Hi) in Hf. destruct Hf as [_ Hf].
  assert (instant (demo_at 60) = instant (demo_at 0) + 60000000) by (vm_compute; reflexivity). lia.
Qed.

Lemma demo_armed_registry :
  @registry_of _ demo_registry demo_armed = health_after demo_reports ∅.
Proof.
  exact (proj2 (@run_events_ok demo_parts demo_env demo_modes demo_registry _ _ None demo_free
    demo_arming demo_boot eq_refl eq_refl)).
Qed.

Lemma lost_health_halts_witness :
  exists w', @control_enforce_health demo_parts demo_env demo_modes demo_registry None "h1" (demo_at 60)
    10 demo_armed = (Ok true, w') /\ @mode_of _ demo_modes w' = HALTED.
Proof.
  destruct (@lost_health_halts demo_parts demo_env demo_modes demo_registry _ None demo_free
    demo_reports "h1" (demo_at 60) 10 demo_armed ltac:(vm_compute; reflexivity) demo_armed_registry)
    as (w' & H1 & H2 & _).
  1-6: vm_compute; reflexivity.
  - lia.
  - exact demo_unreported.
  - exact (ex_intro _ w' (conj H1 H2)).
Defined.
