(* ===== verification/Telemetry.v ===== *)
(** * Telemetry: active alerts in memory, and the cycle that keeps them

    [OperationsTelemetry] (operations/telemetry.py) over the alert journal, and
    the two components that drive it: [RuntimeSupervisor] (service/supervisor.py)
    and [RuntimeLifecycleController] (service/lifecycle.py).  The alerts in
    memory are shown to mirror the journal, and a cycle to leave no unhealthy
    process in SIMULATION. *)

From stdpp Require Import sorting.
From S2P Require Import Prelude PyTime TimeFacts Decimal Json Domain Db Repository OrderStore.
From S2P Require Import RiskModels Alerts Parts Mode Freshness Control.
Open Scope Z_scope.

(** ** Ordered dicts *)

Section Dict.
Context {V : Type}.
Implicit Types (l : list (string * V)).

Definition dict_lookup (k : string) l : option V :=
  snd <$> List.find (fun p => bool_decide (p.1 = k)) l.

(** [d[k] = v]: in place, or at the end. *)
Fixpoint dict_put (k : string) (v : V) l : list (string * V) :=
  match l with
  | [] => [(k, v)]
  | p :: l => if bool_decide (p.1 = k) then (k, v) :: l else p :: dict_put k v l
  end.

(** [d.pop(k, None)]. *)
Definition dict_pop (k : string) l : list (string * V) :=
  List.filter (fun p => negb (bool_decide (p.1 = k))) l.

Lemma dict_lookup_put k k' v l :
  dict_lookup k' (dict_put k v l) = if decide (k' = k) then Some v else dict_lookup k' l.
Proof.
  unfold dict_lookup. induction l as [|[k1 v1] l IH]; cbn.
  - repeat case_bool_decide; repeat case_decide; cbn; congruence.
  - destruct (decide (k1 = k)) as [->|Hk]; [rewrite bool_decide_true by done
                                          | rewrite bool_decide_false by done]; cbn.
    + destruct (decide (k' = k)) as [->|Hk']; [by rewrite bool_decide_true|].
      by rewrite bool_decide_false by congruence.
    + case_bool_decide as Hk'; [|done]. subst k1. by rewrite decide_False.
Qed.

Lemma dict_lookup_pop k k' l :
  dict_lookup k' (dict_pop k l) = if decide (k' = k) then None else dict_lookup k' l.
Proof.
  unfold dict_lookup, dict_pop. induction l as [|[k1 v1] l IH]; cbn.
  - by case_decide.
  - repeat (case_bool_decide; cbn); rewrite ?IH; repeat case_decide; congruence.
Qed.
End Dict.

(** ** Data *)

Inductive AlertSeverity := WARNING | ERROR.

Definition severity_str (s : AlertSeverity) : string :=
  match s with WARNING => "WARNING" | ERROR => "ERROR" end.

(** [AlertSeverity(text)]. *)
Definition severity_of (s : string) : res AlertSeverity :=
  if bool_decide (s = "WARNING"%string) then Ok WARNING
  else if bool_decide (s = "ERROR"%string) then Ok ERROR
  else raise ValueError (s +:+ " is not a valid AlertSeverity").

Record ActiveAlert := {
  aa_key : string;
  aa_severity : AlertSeverity;
  aa_detail : string;
  aa_first_seen_at : datetime;
  aa_last_seen_at : datetime;
  aa_occurrences : Z
}.

Definition ActiveAlert_init (key : string) (severity : AlertSeverity) (detail : string)
    (first_seen_at last_seen_at : datetime) (occurrences : Z) : res ActiveAlert :=
  (do! guard_r (str_nonempty key) ValueError "key must be non-empty" ;;
   do! guard_r (str_nonempty detail) ValueError "detail must be non-empty" ;;
   do! guard_r (is_aware first_seen_at) ValueError "first_seen_at must be timezone-aware" ;;
   do! guard_r (is_aware last_seen_at) ValueError "last_seen_at must be timezone-aware" ;;
   do! guard_r (negb (dt_ltb last_seen_at first_seen_at)) ValueError
         "last_seen_at cannot precede first_seen_at" ;;
   do! guard_r (0 <? occurrences) ValueError "occurrences must be a positive integer" ;;
   Ok {| aa_key := key; aa_severity := severity; aa_detail := detail;
         aa_first_seen_at := first_seen_at; aa_last_seen_at := last_seen_at;
         aa_occurrences := occurrences |})%py.

(** The alert of a persisted state. *)
Definition alert_of (s : PersistedAlertState) : res ActiveAlert :=
  (severity <- severity_of (pa_severity s) ;;
   ActiveAlert_init (pa_key s) severity (pa_detail s) (pa_first_seen_at s) (pa_last_seen_at s)
     (pa_occurrences s))%py.

Record TelemetrySnapshot := {
  ts_mode : RuntimeMode;
  ts_ready_for_mutation : bool;
  ts_active_alerts : list ActiveAlert;
  ts_unknown_order_count : Z;
  ts_manual_review_count : Z
}.

(** The fields of [OperationsTelemetry]; [tm_journal]: a journal was given. *)
Record telemetry := {
  tm_journal : bool;
  tm_alerts : list (string * ActiveAlert);
  tm_mode : RuntimeMode;
  tm_ready_for_mutation : bool;
  tm_unknown_order_count : Z;
  tm_manual_review_count : Z;
  tm_last_health_sync : option datetime;
  tm_last_execution_sync : option datetime;
  tm_last_mode_sync : option datetime
}.

Definition set_alerts (l : list (string * ActiveAlert)) (t : telemetry) : telemetry :=
  {| tm_journal := tm_journal t; tm_alerts := l; tm_mode := tm_mode t;
     tm_ready_for_mutation := tm_ready_for_mutation t;
     tm_unknown_order_count := tm_unknown_order_count t;
     tm_manual_review_count := tm_manual_review_count t;
     tm_last_health_sync := tm_last_health_sync t;
     tm_last_execution_sync := tm_last_execution_sync t;
     tm_last_mode_sync := tm_last_mode_sync t |}.

Definition set_health (at_ : datetime) (ready : bool) (t : telemetry) : telemetry :=
  {| tm_journal := tm_journal t; tm_alerts := tm_alerts t; tm_mode := tm_mode t;
     tm_ready_for_mutation := ready; tm_unknown_order_count := tm_unknown_order_count t;
     tm_manual_review_count := tm_manual_review_count t; tm_last_health_sync := Some at_;
     tm_last_execution_sync := tm_last_execution_sync t;
     tm_last_mode_sync := tm_last_mode_sync t |}.

Definition set_shown_mode (at_ : datetime) (mode : RuntimeMode) (t : telemetry) : telemetry :=
  {| tm_journal := tm_journal t; tm_alerts := tm_alerts t; tm_mode := mode;
     tm_ready_for_mutation := tm_ready_for_mutation t;
     tm_unknown_order_count := tm_unknown_order_count t;
     tm_manual_review_count := tm_manual_review_count t;
     tm_last_health_sync := tm_last_health_sync t;
     tm_last_execution_sync := tm_last_execution_sync t; tm_last_mode_sync := Some at_ |}.

Definition set_counts (at_ : datetime) (unknown review : Z) (t : telemetry) : telemetry :=
  {| tm_journal := tm_journal t; tm_alerts := tm_alerts t; tm_mode := tm_mode t;
     tm_ready_for_mutation := tm_ready_for_mutation t; tm_unknown_order_count := unknown;
     tm_manual_review_count := review; tm_last_health_sync := tm_last_health_sync t;
     tm_last_execution_sync := Some at_; tm_last_mode_sync := tm_last_mode_sync t |}.

(** The alert of [_upsert] without a journal. *)
Definition bumped (current : option ActiveAlert) (key : string) (severity : AlertSeverity)
    (detail : string) (observed_at : datetime) : res ActiveAlert :=
  match current with
  | Some a => ActiveAlert_init key severity detail (aa_first_seen_at a) observed_at
                (aa_occurrences a + 1)
  | None => ActiveAlert_init key severity detail observed_at observed_at 1
  end.

(** [last is not None and observed_at < last]. *)
Definition behind (observed_at : datetime) (last : option datetime) : bool :=
  match last with Some t => dt_ltb observed_at t | None => false end.

(** Alerts sorted by key. *)
Definition by_alert_key : relation (string * ActiveAlert) :=
  fun a b => Is_true (String.leb a.1 b.1).

Definition telemetry_snapshot (t : telemetry) : TelemetrySnapshot :=
  {| ts_mode := tm_mode t; ts_ready_for_mutation := tm_ready_for_mutation t;
     ts_active_alerts := List.map snd (merge_sort by_alert_key (tm_alerts t));
     ts_unknown_order_count := tm_unknown_order_count t;
     ts_manual_review_count := tm_manual_review_count t |}.

Open Scope oms_scope.

Section Telemetry.
Context {R : Type} {env : Env} `{Part telemetry R}.

(** [OperationsTelemetry(journal)]. *)
Definition OperationsTelemetry_init (journal : bool) : M R unit :=
  items <- (if journal then active_alerts else retM []) ;;
  alerts <- lift (fold_left (fun acc item =>
    (l <- acc ;; a <- alert_of item ;; Ok (dict_put (pa_key item) a l))%py) items (Ok [])) ;;
  write_part (fun _ =>
    {| tm_journal := journal; tm_alerts := alerts; tm_mode := DISABLED;
       tm_ready_for_mutation := false; tm_unknown_order_count := 0; tm_manual_review_count := 0;
       tm_last_health_sync := None; tm_last_execution_sync := None; tm_last_mode_sync := None |}).

Definition put_alert (key : string) (a : ActiveAlert) : M R unit :=
  write_part (fun t => set_alerts (dict_put key a (tm_alerts t)) t).

Definition pop_alert (key : string) : M R unit :=
  write_part (fun t => set_alerts (dict_pop key (tm_alerts t)) t).

(** [_upsert]. *)
Definition upsert (key : string) (severity : AlertSeverity) (detail : string)
    (observed_at : datetime) (source : string) : M R unit :=
  t <- read_part (fun t : telemetry => t) ;;
  if tm_journal t then
    state <- record_active key (severity_str severity) detail observed_at source None ;;
    if bool_decide (pa_status state = ACTIVE) then
      a <- lift (alert_of state) ;; put_alert key a
    else pop_alert key
  else
    let current := dict_lookup key (tm_alerts t) in
    if match current with Some a => dt_ltb observed_at (aa_last_seen_at a) | None => false end
    then retM tt
    else a <- lift (bumped current key severity detail observed_at) ;; put_alert key a.

(** [_resolve]. *)
Definition resolve (key : string) (observed_at : datetime) (source : string) : M R unit :=
  t <- read_part (fun t : telemetry => t) ;;
  if tm_journal t then
    state <- record_resolved key observed_at source None ;;
    match state with
    | Some s =>
        if bool_decide (pa_status s = ACTIVE) then a <- lift (alert_of s) ;; put_alert key a
        else pop_alert key
    | None => pop_alert key
    end
  else pop_alert key.

Definition resolve_prefix (prefix : string) (keep : list string) (observed_at : datetime)
    (source : string) : M R unit :=
  keys <- read_part (fun t : telemetry => List.map fst (tm_alerts t)) ;;
  iterM (fun key =>
    if startswith prefix key && negb (bool_decide (key ∈ keep)) then
      resolve key observed_at source
    else retM tt) keys.

Definition health_key (c : HealthComponent) : string := "health:" +:+ component_str c.

Definition sync_health (snapshot : HealthSnapshot) (observed_at : datetime) : M R unit :=
  do! lift (alert_aware "observed_at" observed_at) ;;
  t <- read_part (fun t : telemetry => t) ;;
  if behind observed_at (tm_last_health_sync t) then retM tt
  else
    do! write_part (set_health observed_at (ready_for_mutation (hs_runtime snapshot))) ;;
    do! iterM (fun item =>
          upsert (health_key (ha_component item)) ERROR (ha_reason item) observed_at "health")
          (hs_alerts snapshot) ;;
    resolve_prefix "health:" (List.map (fun item => health_key (ha_component item)) (hs_alerts snapshot))
      observed_at "health".

Definition sync_mode (mode : RuntimeMode) (observed_at : datetime) : M R unit :=
  do! lift (alert_aware "observed_at" observed_at) ;;
  t <- read_part (fun t : telemetry => t) ;;
  if behind observed_at (tm_last_mode_sync t) then retM tt
  else
    do! write_part (set_shown_mode observed_at mode) ;;
    if bool_decide (mode = HALTED) then
      upsert "runtime:HALTED" ERROR "runtime is HALTED" observed_at "mode"
    else resolve "runtime:HALTED" observed_at "mode".

Definition validate_count (name : string) (value : Z) : res unit :=
  guard_r (0 <=? value) ValueError (name +:+ " must be a non-negative integer").

Definition sync_execution_ambiguity (unknown_order_count manual_review_count : Z)
    (observed_at : datetime) : M R unit :=
  do! lift (validate_count "unknown_order_count" unknown_order_count) ;;
  do! lift (validate_count "manual_review_count" manual_review_count) ;;
  do! lift (alert_aware "observed_at" observed_at) ;;
  t <- read_part (fun t : telemetry => t) ;;
  if behind observed_at (tm_last_execution_sync t) then retM tt
  else
    do! write_part (set_counts observed_at unknown_order_count manual_review_count) ;;
    do! (if negb (unknown_order_count =? 0) then
           upsert "execution:UNKNOWN" ERROR
             (z_str unknown_order_count +:+ " unresolved UNKNOWN order(s)") observed_at "execution"
         else resolve "execution:UNKNOWN" observed_at "execution") ;;
    if negb (manual_review_count =? 0) then
      upsert "execution:MANUAL_REVIEW" ERROR
        (z_str manual_review_count +:+ " order(s) require manual review") observed_at "execution"
    else resolve "execution:MANUAL_REVIEW" observed_at "execution".
End Telemetry.

(** ** The supervisor and the lifecycle *)

Record SupervisorCycleResult := { sc_auto_halted : bool; sc_telemetry : TelemetrySnapshot }.

Record RuntimeShutdownResult := {
  sd_changed : bool; sd_mode : RuntimeMode; sd_telemetry : TelemetrySnapshot
}.

Section Supervisor.
Context {R : Type} {env : Env}.
Context `{Part controller R} `{Part Health.registry R} `{Part telemetry R}.
Context (write_guard : option (M R unit)).

Definition tick (health_max_age_seconds : Z) (now : datetime)
    (unknown_order_count manual_review_count : Z) (halt_request_id : string)
    : M R SupervisorCycleResult :=
  s <- status now health_max_age_seconds ;;
  do! sync_health {| hs_runtime := os_health s; hs_alerts := os_alerts s |} now ;;
  do! sync_mode (os_mode s) now ;;
  do! sync_execution_ambiguity unknown_order_count manual_review_count now ;;
  auto_halted <- (if bool_decide (os_mode s = SIMULATION) && negb (os_ready_for_mutation s) then
                    halted <- control_enforce_health write_guard halt_request_id now
                                health_max_age_seconds ;;
                    do! (if halted : bool then sync_mode HALTED now else retM tt) ;;
                    retM halted
                  else retM false) ;;
  t <- read_part (fun t : telemetry => t) ;;
  retM {| sc_auto_halted := auto_halted; sc_telemetry := telemetry_snapshot t |}.

(** [RuntimeLifecycleController.shutdown]. *)
Definition shutdown (runtime_session_id : string) (now : datetime) (reason : string)
    : M R RuntimeShutdownResult :=
  do! guardM (is_aware now) ValueError "now must be timezone-aware" ;;
  do! guardM (strip_nonempty reason) ValueError "reason must be non-empty" ;;
  changed <- emergency_halt write_guard ("shutdown:" +:+ runtime_session_id) "runtime-lifecycle"
               reason now ;;
  do! sync_mode HALTED now ;;
  t <- read_part (fun t : telemetry => t) ;;
  retM {| sd_changed := changed; sd_mode := HALTED; sd_telemetry := telemetry_snapshot t |}.
End Supervisor.

(** ** The mirror *)

(** The alert the journal shows for a key: its state, if active. *)
Definition shown (key : string) (d : db) : option ActiveAlert :=
  match state_of key d with
  | Some row =>
      if bool_decide (al_status row = alert_status_str ACTIVE) then
        match (s <- decode_state key row ;; alert_of s)%py with Ok a => Some a | Err _ => None end
      else None
  | None => None
  end.

(** An activation that can be shown. *)
Definition presentable (p : string * alert_event_row) : Prop :=
  ae_event_type p.2 = alert_status_str ACTIVE ->
  exists s detail, ae_severity p.2 = Some (severity_str s) /\ ae_detail p.2 = Some detail /\
    str_nonempty detail = true /\ str_nonempty (ae_alert_key p.2) = true.

(** A journal whose alerts can all be shown. *)
Definition journal_ok (d : db) : Prop :=
  alerts_inv d /\ Forall presentable (tbl_scan (rt_alert_events (d_runtime d))).

Lemma severity_of_str s : severity_of (severity_str s) = Ok s.
Proof. by destruct s. Qed.

Lemma state_summary d key row :
  alerts_inv d -> state_of key d = Some row -> summary (log_of key d) row.
Proof.
  intros Hi Hs. pose proof (replay_summarised (log_of key d)) as H.
  rewrite <-(ai_project _ Hi), Hs in H. apply H; [|apply Hi].
  apply Forall_forall. intros p [Hp _]%log_of_elem. pose proof (ai_sane _ Hi) as Hsane.
  rewrite Forall_forall in Hsane. auto.
Qed.

(** Decoding a state never fails. *)
Lemma decode_ok d key row :
  alerts_inv d -> state_of key d = Some row ->
  exists s, decode_state key row = Ok s /\ pa_key s = key /\ pa_severity s = al_severity row /\
    pa_detail s = al_detail row /\ alert_status_str (pa_status s) = al_status row /\
    pa_first_seen_at s = to_utc (al_first_seen_at row) /\
    pa_last_seen_at s = to_utc (al_last_seen_at row) /\ pa_occurrences s = al_occurrences row.
Proof.
  intros Hi Hs. pose proof (state_summary _ _ _ Hi Hs) as Hsum.
  assert (Hsane : Forall (fun p => sane p.2) (log_of key d)).
  { apply Forall_forall. intros p [Hp _]%log_of_elem. pose proof (ai_sane _ Hi) as H.
    rewrite Forall_forall in H. auto. }
  destruct (summary_state_sane _ _ Hsane Hsum) as [Hl _].
  destruct Hsum as (pre & first & rest & newest & Hlog & _ & _ & Hn & _ & _ & Hst & _ & Ha & Hr & _ & _ & Hf).
  rewrite Hlog, Forall_app in Hsane. destruct Hsane as [_ Hsane]. rewrite Forall_forall in Hsane.
  destruct (Hsane _ Hn) as [_ Hty]. unfold decode_state, parse_utc, is_aware. rewrite Hf, Hl.
  destruct Hty as [(Hty & _) | (Hty & _)]; rewrite Hty in Hst; rewrite Hst; cbn.
  - destruct (Ha Hst) as (_ & _ & ->). cbn. by eexists.
  - rewrite (Hr Hst), Hl. cbn. by eexists.
Qed.

Lemma active_shown d key row :
  journal_ok d -> state_of key d = Some row -> al_status row = alert_status_str ACTIVE ->
  exists s a, decode_state key row = Ok s /\ alert_of s = Ok a /\ shown key d = Some a.
Proof.
  intros [Hi Hp] Hs Hst. destruct (decode_ok _ _ _ Hi Hs) as (s & Hd & Hk & Hsev & Hdet & _ & Hf & Hl & Ho).
  pose proof (state_summary _ _ _ Hi Hs) as (pre & first & rest & newest & Hlog & _ & _ & Hn & _ & _ & Hty
    & _ & Ha & _ & Hle & Hocc & _).
  assert (Hin : newest ∈ log_of key d) by (rewrite Hlog; apply elem_of_app; by right).
  apply log_of_elem in Hin as [Hin Hkey]. rewrite Forall_forall in Hp.
  destruct (Hp _ Hin) as (sev & det & Hsev' & Hdet' & Hn1 & Hn2); [congruence|].
  destruct (Ha Hst) as (Hsev2 & Hdet2 & _).
  assert (Halert : exists a, alert_of s = Ok a).
  { unfold alert_of. rewrite Hsev, Hk, Hdet, Hf, Hl, Ho. replace (al_severity row) with (severity_str sev) by congruence.
    rewrite severity_of_str. cbn. unfold ActiveAlert_init, dt_ltb. rewrite !instant_to_utc.
    rewrite <-Hkey, Hn2. replace (al_detail row) with det by congruence. rewrite Hn1. cbn.
    destruct (Z.ltb_spec (instant (al_last_seen_at row)) (instant (al_first_seen_at row))); [lia|].
    destruct (Z.ltb_spec 0 (al_occurrences row)); [|lia]. cbn. by eexists. }
  destruct Halert as [a Ha']. exists s, a. split; [done|]. split; [done|].
  unfold shown. rewrite Hs, bool_decide_true, Hd by done. cbn. by rewrite Ha'.
Qed.

Lemma shown_other id e d d' key :
  journaled id e d d' -> key <> ae_alert_key e -> shown key d' = shown key d.
Proof.
  intros [[_ ->] | (x & y & _ & _ & _ & Hy & ->)] Hk; [done|]. unfold shown.
  change (state_of key (set_alert_states y _)) with (tbl_get y key). by rewrite Hy, decide_False.
Qed.

Lemma journal_ok_journaled id e d d' :
  sane e -> presentable (id, e) -> journal_ok d -> journaled id e d d' -> journal_ok d'.
Proof.
  intros He Hp [Hi Hall] Hj. split; [by eapply alerts_inv_journaled|].
  destruct Hj as [[_ ->] | (x & y & Hx & _ & _ & _ & ->)]; [done|]. cbn.
  rewrite (tbl_scan_insert _ _ _ _ (ai_events _ Hi) Hx). apply Forall_app. split; [done|].
  by constructor.
Qed.

(** The journal's alert of the state an operation returned. *)
Lemma shown_reported d key s :
  journal_ok d -> reported_state key s d ->
  if bool_decide (pa_status s = ACTIVE) then exists a, alert_of s = Ok a /\ shown key d = Some a
  else shown key d = None.
Proof.
  intros Hok (row & Hrow & Hdec). destruct (decode_ok _ _ _ (proj1 Hok) Hrow) as (s' & Hdec' & _ & _ & _ & Hst & _).
  assert (s' = s) as -> by congruence. case_bool_decide as Ha.
  - destruct (active_shown _ _ _ Hok Hrow) as (s2 & a & Hd2 & Hal & Hsh); [by rewrite <-Hst, Ha|].
    exists a. split; [|done]. congruence.
  - unfold shown. rewrite Hrow, bool_decide_false; [done|]. rewrite <-Hst. by destruct (pa_status s).
Qed.

Section Mirror.
Context {R : Type} {env : Env} `{Part telemetry R}.
Implicit Types (w : world R).

Definition tele w : telemetry := get_part (w_rest w).

Definition mirrors w : Prop :=
  tm_journal (tele w) = true ->
  forall key, dict_lookup key (tm_alerts (tele w)) = shown key (w_db w).

Definition in_step w : Prop := w_in_tx w = false /\ journal_ok (w_db w) /\ mirrors w.

(** Alerts came and went; nothing else did. *)
Definition evolves w w' : Prop :=
  in_step w' /\ exists l, w_rest w' = set_part (set_alerts l (tele w)) (w_rest w).

Lemma set_alerts_same t : set_alerts (tm_alerts t) t = t.
Proof. by destruct t. Qed.

Lemma evolves_refl w : in_step w -> evolves w w.
Proof.
  intros Hw. split; [done|]. exists (tm_alerts (tele w)).
  by rewrite set_alerts_same; unfold tele; rewrite set_get_part.
Qed.

Lemma evolves_trans w1 w2 w3 : evolves w1 w2 -> evolves w2 w3 -> evolves w1 w3.
Proof.
  intros [_ [l Hl]] [Hg [l' Hl']]. split; [done|]. exists l'. rewrite Hl'. unfold tele.
  rewrite Hl, get_set_part, set_set_part. done.
Qed.

(** A frame that keeps the database keeps the mirror. *)
Lemma evolves_idle w w' : in_step w -> w_db w' = w_db w -> frame w w' -> evolves w w'.
Proof.
  intros (Ht & Hj & Hm) Hd [Ht' Hr]. split.
  - split; [congruence|]. rewrite Hd. split; [done|]. unfold mirrors, tele in *. by rewrite Hr, Hd.
  - exists (tm_alerts (tele w)). by rewrite set_alerts_same, Hr; unfold tele; rewrite set_get_part.
Qed.

(** The journal moved at [key], and so did the alerts. *)
Lemma evolves_put w w1 id e l :
  in_step w -> frame w w1 -> journaled id e (w_db w) (w_db w1) -> journal_ok (w_db w1) ->
  (forall key, key <> ae_alert_key e ->
     dict_lookup key l = dict_lookup key (tm_alerts (tele w))) ->
  dict_lookup (ae_alert_key e) l = shown (ae_alert_key e) (w_db w1) ->
  evolves w (W (w_db w1) (w_in_tx w1) (w_tick w1) (set_part (set_alerts l (tele w)) (w_rest w))).
Proof.
  intros (Ht & Hj & Hm) [Ht1 Hr1] Hjd Hok Hother Hself. split; [|by exists l].
  split; [cbn; congruence|]. split; [done|]. unfold mirrors, tele. cbn [w_rest w_db].
  rewrite get_set_part. cbn [tm_alerts tm_journal set_alerts]. intros Hjour key.
  destruct (decide (key = ae_alert_key e)) as [->|Hk]; [done|].
  rewrite Hother by done. rewrite (shown_other _ _ _ _ _ Hjd Hk). by apply Hm.
Qed.

Lemma strip_str_nonempty s : strip_nonempty s = true -> str_nonempty s = true.
Proof. by destruct s. Qed.

Lemma record_active_named key severity detail at_ source id w s w' :
  record_active key severity detail at_ source id w = (Ok s, w') ->
  str_nonempty key = true /\ str_nonempty detail = true.
Proof.
  unfold record_active, alert_nonempty. intros Hr.
  apply bindM_ok in Hr as ([] & w1 & H1 & Hr). injection H1 as H1 <-.
  apply bindM_ok in Hr as ([] & w2 & H2 & Hr). injection H2 as H2 <-.
  apply bindM_ok in Hr as ([] & w3 & H3 & Hr). injection H3 as H3 <-.
  apply guard_r_ok in H1, H3. split; by apply strip_str_nonempty.
Qed.

Lemma alert_put_ok key a w1 :
  write_part (fun t : telemetry => set_alerts (dict_put key a (tm_alerts t)) t) w1 =
  (Ok tt, W (w_db w1) (w_in_tx w1) (w_tick w1)
    (set_part (set_alerts (dict_put key a (tm_alerts (tele w1))) (tele w1)) (w_rest w1))).
Proof. done. Qed.

Lemma upsert_ok key detail at_ source w :
  in_step w -> utc_in_range (to_utc at_) ->
  wp (upsert key ERROR detail at_ source) (fun _ w' => evolves w w') w.
Proof.
  intros Hw Hat. unfold upsert, read_part. repeat wp_step. fold (tele w).
  destruct (tm_journal (tele w)) eqn:Hjour.
  - pose proof Hw as (Ht & Hj & Hm). apply wp_bind.
    pose proof (record_active_ok key (severity_str ERROR) detail at_ source None w Ht) as Hrec.
    unfold tx_ok, wp in Hrec |- *.
    destruct (record_active _ _ _ _ _ _ w) as [[s|x] w1] eqn:E; cbn [fst snd] in *;
      destruct Hrec as [Hf Hrec]; [|by apply evolves_idle].
    destruct Hrec as [Hjd Hrep]. destruct (record_active_named _ _ _ _ _ _ _ _ _ E) as [Hk Hdet].
    assert (Hok : journal_ok (w_db w1)).
    { eapply journal_ok_journaled; [| |exact Hj | exact Hjd].
      - by apply (event_of_sane (RecordActive key (severity_str ERROR) detail at_ source None)).
      - intros _. exists ERROR, detail. by repeat split. }
    assert (Htele : tele w1 = tele w) by (unfold tele; by rewrite (proj2 Hf)).
    pose proof (shown_reported _ _ _ Hok Hrep) as Hsh. case_bool_decide as Ha.
    + destruct Hsh as (a & Hal & Hsh). rewrite Hal. cbn.
      unfold put_alert, write_part, write_rest. cbn [fst snd]. fold (tele w1). rewrite Htele, (proj2 Hf).
      eapply evolves_put; [exact Hw | exact Hf | exact Hjd | exact Hok | |].
      * intros k Hk'. cbn in Hk'. by rewrite dict_lookup_put, decide_False.
      * cbn. by rewrite dict_lookup_put, decide_True.
    + unfold pop_alert, write_part, write_rest. cbn [fst snd]. fold (tele w1). rewrite Htele, (proj2 Hf).
      eapply evolves_put; [exact Hw | exact Hf | exact Hjd | exact Hok | |].
      * intros k Hk'. cbn in Hk'. by rewrite dict_lookup_pop, decide_False.
      * cbn. by rewrite dict_lookup_pop, decide_True.
  - assert (Hany : forall l, evolves w (W (w_db w) (w_in_tx w) (w_tick w)
        (set_part (set_alerts l (tele w)) (w_rest w)))).
    { intros l. destruct Hw as (Ht & Hj & Hm). split; [|by exists l]. split; [done|]. split; [done|].
      unfold mirrors, tele. cbn [w_rest]. rewrite get_set_part. cbn. fold (tele w). congruence. }
    destruct (match dict_lookup key _ with Some a => _ | None => false end); repeat wp_step;
      [by apply evolves_refl|]. destruct (bumped _ _ _ _ _); repeat wp_step; [|by apply evolves_refl].
    unfold put_alert, write_part. repeat wp_step. apply Hany.
Qed.

Lemma resolve_ok key at_ source w :
  in_step w -> utc_in_range (to_utc at_) ->
  wp (resolve key at_ source) (fun _ w' => evolves w w') w.
Proof.
  intros Hw Hat. unfold resolve, read_part. repeat wp_step. fold (tele w).
  destruct (tm_journal (tele w)) eqn:Hjour.
  - pose proof Hw as (Ht & Hj & Hm). apply wp_bind.
    pose proof (record_resolved_ok key at_ source None w Ht) as Hrec. unfold tx_ok, wp in Hrec |- *.
    destruct (record_resolved _ _ _ _ w) as [[s|x] w1] eqn:E; cbn [fst snd] in *;
      destruct Hrec as [Hf Hrec]; [|by apply evolves_idle].
    destruct Hrec as [Hjd Hrep].
    assert (Hok : journal_ok (w_db w1)).
    { eapply journal_ok_journaled; [| |exact Hj | exact Hjd].
      - by apply (event_of_sane (RecordResolved key at_ source None)).
      - done. }
    assert (Htele : tele w1 = tele w) by (unfold tele; by rewrite (proj2 Hf)).
    assert (Hpop : shown key (w_db w1) = None ->
      evolves w (pop_alert key w1).2).
    { intros Hsh. unfold pop_alert, write_part, write_rest. cbn [fst snd]. fold (tele w1).
      rewrite Htele, (proj2 Hf).
      eapply evolves_put; [exact Hw | exact Hf | exact Hjd | exact Hok | |].
      * intros k Hk'. cbn in Hk'. by rewrite dict_lookup_pop, decide_False.
      * cbn. by rewrite dict_lookup_pop, decide_True. }
    destruct s as [s|]; [|apply Hpop; unfold shown; by rewrite Hrep].
    pose proof (shown_reported _ _ _ Hok Hrep) as Hsh. case_bool_decide as Ha; [|by apply Hpop].
    destruct Hsh as (a & Hal & Hsh). rewrite Hal. cbn.
    unfold put_alert, write_part, write_rest. cbn [fst snd]. fold (tele w1). rewrite Htele, (proj2 Hf).
    eapply evolves_put; [exact Hw | exact Hf | exact Hjd | exact Hok | |].
    + intros k Hk'. cbn in Hk'. by rewrite dict_lookup_put, decide_False.
    + cbn. by rewrite dict_lookup_put, decide_True.
  - unfold pop_alert, write_part. repeat wp_step. destruct Hw as (Ht & Hj & Hm).
    split; [|by eexists]. split; [done|]. split; [done|].
    unfold mirrors, tele. cbn [w_rest]. rewrite get_set_part. cbn. fold (tele w). congruence.
Qed.

Lemma evolves_bind {A B} (m : M R A) (f : A -> M R B) w :
  wp m (fun _ w1 => evolves w w1) w ->
  (forall a w1, in_step w1 -> wp (f a) (fun _ w2 => evolves w1 w2) w1) ->
  wp (bindM m f) (fun _ w2 => evolves w w2) w.
Proof.
  intros Hm Hf. apply wp_bind. eapply wp_mono; [exact Hm|]. intros [a|e] w1 Hw1; [|done].
  eapply wp_mono; [apply Hf, Hw1|]. intros r w2 Hw2. by eapply evolves_trans.
Qed.

Lemma evolves_iter {A} (f : A -> M R unit) l w :
  in_step w -> (forall a w1, in_step w1 -> wp (f a) (fun _ w2 => evolves w1 w2) w1) ->
  wp (iterM f l) (fun _ w' => evolves w w') w.
Proof.
  intros Hw Hf. revert w Hw. induction l as [|a l IH]; intros w Hw; cbn [iterM].
  - repeat wp_step. by apply evolves_refl.
  - apply evolves_bind; [by apply Hf|]. intros [] w1 Hw1. by apply IH.
Qed.

Lemma resolve_prefix_ok prefix keep at_ source w :
  in_step w -> utc_in_range (to_utc at_) ->
  wp (resolve_prefix prefix keep at_ source) (fun _ w' => evolves w w') w.
Proof.
  intros Hw Hat. unfold resolve_prefix, read_part. repeat wp_step. apply evolves_iter; [done|].
  intros key w1 Hw1. destruct (_ && _); [by apply resolve_ok | repeat wp_step; by apply evolves_refl].
Qed.

(** A sync that is not late records [t1] and then moves alerts only; a late one,
    and one that refuses its arguments, does nothing. *)
Definition syncs (late : bool) (t1 : telemetry) w (res : res unit) w' : Prop :=
  in_step w' /\
  ((late = false /\ exists l, w_rest w' = set_part (set_alerts l t1) (w_rest w)) \/
   (w_rest w' = w_rest w /\ (res = Ok tt -> late = true))).

Lemma in_step_fields w t1 :
  in_step w -> tm_alerts t1 = tm_alerts (tele w) -> tm_journal t1 = tm_journal (tele w) ->
  in_step (W (w_db w) (w_in_tx w) (w_tick w) (set_part t1 (w_rest w))).
Proof.
  intros (Ht & Hj & Hm) Ha Hb. split; [done|]. split; [done|]. unfold mirrors, tele. cbn [w_rest w_db].
  rewrite get_set_part, Ha, Hb. exact Hm.
Qed.

Lemma sync_body g (m : M R unit) late w :
  late = false -> in_step w ->
  tm_alerts (g (tele w)) = tm_alerts (tele w) -> tm_journal (g (tele w)) = tm_journal (tele w) ->
  (forall w1, in_step w1 -> wp m (fun _ w2 => evolves w1 w2) w1) ->
  wp (bindM (write_part g) (fun _ => m)) (syncs late (g (tele w)) w) w.
Proof.
  intros -> Hw Ha Hj Hm. unfold write_part. repeat wp_step. fold (tele w).
  pose proof (in_step_fields w _ Hw Ha Hj) as Hw1. eapply wp_mono; [by apply Hm|].
  intros r w2 [Hw2 [l Hl]]. split; [done|]. left. split; [done|]. exists l. rewrite Hl.
  unfold tele. cbn [w_rest]. by rewrite get_set_part, set_set_part.
Qed.

Lemma syncs_idle late t1 w e : in_step w -> syncs late t1 w (Err e) w.
Proof. intros Hw. split; [done|]. by right. Qed.

(** The prefix every sync has: its checks and the comparison with the last one. *)
Ltac sync_start Hw :=
  repeat wp_step;
  repeat (match goal with |- match ?check with Ok _ => _ | Err _ => _ end => destruct check end;
          repeat wp_step; [|by apply syncs_idle]);
  unfold read_part; repeat wp_step;
  match goal with |- context [behind ?a ?b] => destruct (behind a b) eqn:Hbehind end;
  [repeat wp_step; split; [exact Hw | by right]|].

Lemma sync_mode_ok m at_ w :
  in_step w -> utc_in_range (to_utc at_) ->
  wp (sync_mode m at_)
    (syncs (behind at_ (tm_last_mode_sync (tele w))) (set_shown_mode at_ m (tele w)) w) w.
Proof.
  intros Hw Hat. unfold sync_mode. sync_start Hw.
  apply (sync_body (set_shown_mode at_ m)); try done.
  intros w1 Hw1. destruct (bool_decide _); [by apply upsert_ok | by apply resolve_ok].
Qed.

Lemma sync_health_ok hs at_ w :
  in_step w -> utc_in_range (to_utc at_) ->
  wp (sync_health hs at_)
    (syncs (behind at_ (tm_last_health_sync (tele w)))
       (set_health at_ (ready_for_mutation (hs_runtime hs)) (tele w)) w) w.
Proof.
  intros Hw Hat. unfold sync_health. sync_start Hw.
  apply (sync_body (set_health at_ (ready_for_mutation (hs_runtime hs)))); try done.
  intros w1 Hw1. apply evolves_bind.
  - apply evolves_iter; [done|]. intros item w2 Hw2. by apply upsert_ok.
  - intros [] w2 Hw2. by apply resolve_prefix_ok.
Qed.

Lemma sync_execution_ok u r at_ w :
  in_step w -> utc_in_range (to_utc at_) ->
  wp (sync_execution_ambiguity u r at_)
    (syncs (behind at_ (tm_last_execution_sync (tele w))) (set_counts at_ u r (tele w)) w) w.
Proof.
  intros Hw Hat. unfold sync_execution_ambiguity. sync_start Hw.
  apply (sync_body (set_counts at_ u r)); try done.
  intros w1 Hw1. apply evolves_bind.
  - destruct (negb _); [by apply upsert_ok | by apply resolve_ok].
  - intros [] w2 Hw2. destruct (negb _); [by apply upsert_ok | by apply resolve_ok].
Qed.
End Mirror.

(** ** Loading the journal *)

Definition loaded_from (items : list PersistedAlertState) (acc : res (list (string * ActiveAlert)))
    : res (list (string * ActiveAlert)) :=
  fold_left (fun acc item =>
    (l <- acc ;; a <- alert_of item ;; Ok (dict_put (pa_key item) a l))%py) items acc.

Lemma decode_all_spec d rows :
  alerts_inv d -> Forall (fun p => state_of p.1 d = Some p.2) rows ->
  exists items, decode_all rows = Ok items /\
    Forall2 (fun p s => decode_state p.1 p.2 = Ok s /\ pa_key s = p.1) rows items.
Proof.
  intros Hi. induction rows as [|[k row] rows IH]; intros Hall; [by exists []|].
  apply Forall_cons in Hall as [Hk Hall]. destruct (IH Hall) as (items & Hd & Hf).
  destruct (decode_ok _ _ _ Hi Hk) as (s & Hs & Hkey & _). exists (s :: items).
  cbn [fst snd] in Hs. cbn. rewrite Hs. cbn. rewrite Hd. cbn. split; [done|]. by constructor.
Qed.

Lemma loaded_spec d rows items l :
  journal_ok d -> NoDup rows.*1 ->
  Forall (fun p => state_of p.1 d = Some p.2 /\ al_status p.2 = alert_status_str ACTIVE) rows ->
  Forall2 (fun p s => decode_state p.1 p.2 = Ok s /\ pa_key s = p.1) rows items ->
  exists l', loaded_from items (Ok l) = Ok l' /\
    forall key, dict_lookup key l' =
      if decide (key ∈ rows.*1) then shown key d else dict_lookup key l.
Proof.
  intros Hok. revert items l. induction rows as [|[k row] rows IH]; intros items l Hnd Hall Hf.
  - apply Forall2_nil_inv_l in Hf as ->. exists l. split; [done|]. intros key.
    rewrite decide_False; [done | by apply not_elem_of_nil].
  - apply Forall2_cons_inv_l in Hf as (s & items' & [Hs Hkey] & Hf & ->).
    apply NoDup_cons in Hnd as [Hk Hnd]. apply Forall_cons in Hall as [[Hrow Hst] Hall].
    destruct (active_shown _ _ _ Hok Hrow Hst) as (s' & a & Hs' & Ha & Hsh).
    cbn [fst snd] in *. assert (s' = s) as -> by congruence.
    destruct (IH items' (dict_put k a l) Hnd Hall Hf) as (l' & Hl' & Hlook). exists l'.
    unfold loaded_from in *. cbn [fold_left res_bind]. rewrite Ha, Hkey. cbn [res_bind fst].
    split; [done|]. intros key. rewrite Hlook, dict_lookup_put. cbn [fmap list_fmap] in *.
    destruct (decide (key = k)) as [->|Hne].
    + rewrite decide_False by done. rewrite decide_True by (by left). done.
    + destruct (decide (key ∈ rows.*1)); [rewrite decide_True by (by right) | rewrite decide_False]; try done.
      intros [?|?]%elem_of_cons; done.
Qed.

(** The rows [active_alerts] reads. *)
Definition active_rows (d : db) : list (string * alert_state_row) :=
  merge_sort by_key (List.filter (fun p => bool_decide (al_status p.2 = alert_status_str ACTIVE))
    (tbl_scan (rt_alert_states (d_runtime d)))).

Lemma active_rows_perm d :
  active_rows d ≡ₚ List.filter (fun p => bool_decide (al_status p.2 = alert_status_str ACTIVE))
    (tbl_scan (rt_alert_states (d_runtime d))).
Proof. apply merge_sort_Permutation. Qed.

Lemma active_rows_elem d k row :
  alerts_inv d ->
  (k, row) ∈ active_rows d <-> state_of k d = Some row /\ al_status row = alert_status_str ACTIVE.
Proof.
  intros Hi. rewrite active_rows_perm, list_elem_of_In, filter_In, <-list_elem_of_In.
  rewrite (tbl_scan_elem _ _ _ (ai_states _ Hi)), bool_decide_eq_true. done.
Qed.

Lemma active_rows_nodup d : alerts_inv d -> NoDup (active_rows d).*1.
Proof.
  intros Hi. rewrite active_rows_perm. pose proof (ai_states _ Hi) as Hw.
  pose proof (tbl_scan_keys _ Hw) as Hk. destruct Hw as [Hnd _]. rewrite <-Hk in Hnd. revert Hnd.
  generalize (tbl_scan (rt_alert_states (d_runtime d))). clear. intros l.
  induction l as [|p l IH]; cbn; [done|]. intros [Hp Hl]%NoDup_cons.
  case_bool_decide; cbn; [|by apply IH]. constructor; [|by apply IH]. intros Hin. apply Hp.
  apply list_elem_of_fmap in Hin as (q & Hq & Hin). apply list_elem_of_fmap. exists q. split; [done|].
  apply list_elem_of_In in Hin. apply filter_In in Hin as [Hin _]. by apply list_elem_of_In.
Qed.

Section Histories.
Context {R : Type} {env : Env} `{Part telemetry R}.
Implicit Types (w : world R).

(** A telemetry starts on any journal it could have written, with its alerts. *)
Lemma init_ok w :
  w_in_tx w = false -> journal_ok (w_db w) ->
  wp (OperationsTelemetry_init true) (fun res w' =>
    res = Ok tt /\ in_step w' /\ w_db w' = w_db w /\ tm_journal (tele w') = true /\
    tm_mode (tele w') = DISABLED /\ tm_ready_for_mutation (tele w') = false) w.
Proof.
  intros Ht Hok. pose proof (proj1 Hok) as Hi.
  destruct (decode_all_spec (w_db w) (active_rows (w_db w)) Hi) as (items & Hdec & Hf).
  { apply Forall_forall. intros [k row] Hin. by apply (active_rows_elem _ _ _ Hi) in Hin as [? _]. }
  destruct (loaded_spec (w_db w) (active_rows (w_db w)) items [] Hok) as (l & Hl & Hlook); [| |done|].
  { by apply active_rows_nodup. }
  { apply Forall_forall. intros [k row] Hin. by apply (active_rows_elem _ _ _ Hi) in Hin. }
  unfold OperationsTelemetry_init, active_alerts. repeat wp_step.
  fold (active_rows (w_db w)). rewrite Hdec. repeat wp_step. fold (loaded_from items (Ok [])). rewrite Hl.
  unfold write_part. repeat wp_step. unfold in_step, mirrors, tele. cbn [w_rest w_db w_in_tx].
  rewrite get_set_part. cbn [tm_journal tm_alerts tm_mode tm_ready_for_mutation].
  split; [done|]. split; [|by repeat split]. split; [done|]. split; [done|].
  intros _ key. rewrite Hlook. case_decide as Hin; [done|]. unfold shown. destruct (state_of key (w_db w)) as [row|] eqn:Es; [|done].
  rewrite bool_decide_false; [done|]. intros Hst. apply Hin. apply list_elem_of_fmap.
  exists (key, row). split; [done|]. by apply active_rows_elem.
Qed.

Inductive sync_op :=
  | SyncHealth (snapshot : HealthSnapshot) (observed_at : datetime)
  | SyncMode (mode : RuntimeMode) (observed_at : datetime)
  | SyncExecution (unknown review : Z) (observed_at : datetime).

Definition run_sync (op : sync_op) : M R unit :=
  match op with
  | SyncHealth hs at_ => sync_health hs at_
  | SyncMode m at_ => sync_mode m at_
  | SyncExecution u r at_ => sync_execution_ambiguity u r at_
  end.

Definition sync_at (op : sync_op) : datetime :=
  match op with SyncHealth _ at_ | SyncMode _ at_ | SyncExecution _ _ at_ => at_ end.

Definition run_syncs (ops : list sync_op) w : world R :=
  fold_left (fun w op => (run_sync op w).2) ops w.

Lemma syncs_journal late t1 w res w' :
  syncs late t1 w res w' -> tm_journal t1 = tm_journal (tele w) ->
  in_step w' /\ tm_journal (tele w') = tm_journal (tele w).
Proof.
  intros [Hs [[_ [l Hl]] | [Hr _]]] Ht; (split; [done|]); unfold tele in *.
  - by rewrite Hl, get_set_part.
  - by rewrite Hr.
Qed.

Lemma run_syncs_ok ops w :
  in_step w -> Forall (fun op => utc_in_range (to_utc (sync_at op))) ops ->
  in_step (run_syncs ops w) /\ tm_journal (tele (run_syncs ops w)) = tm_journal (tele w).
Proof.
  revert w. induction ops as [|op ops IH]; intros w Hw Hops; [done|].
  apply Forall_cons in Hops as [Hop Hops]. cbn.
  assert (Hone : in_step (run_sync op w).2 /\ tm_journal (tele (run_sync op w).2) = tm_journal (tele w)).
  { destruct op; cbn [run_sync sync_at] in *;
      (eapply syncs_journal; [by first [apply sync_health_ok | apply sync_mode_ok | apply sync_execution_ok]
                             | done]). }
  destruct Hone as [Hs Hj]. destruct (IH _ Hs Hops) as [Hs' Hj']. split; [exact Hs'|].
  etrans; [exact Hj' | exact Hj].
Qed.

(** The alerts in memory are the journal's.  Over a journal whose alerts can be
    shown, construction succeeds; and after any syncs of health, mode and
    execution ambiguity, late ones, failing ones and their order notwithstanding,
    the alert held for a key is the decoded active state of that key, or none.
    So a restart on the same database shows the same alerts, and starts DISABLED
    and not ready. *)
Theorem telemetry_mirrors ops w0 :
  w_in_tx w0 = false -> journal_ok (w_db w0) ->
  Forall (fun op => utc_in_range (to_utc (sync_at op))) ops ->
  let w1 := (OperationsTelemetry_init true w0).2 in
  let w := run_syncs ops w1 in
  let w2 := (OperationsTelemetry_init true w).2 in
  (OperationsTelemetry_init true w0).1 = Ok tt /\
  (forall key, dict_lookup key (tm_alerts (tele w)) = shown key (w_db w)) /\
  (OperationsTelemetry_init true w).1 = Ok tt /\
  (forall key, dict_lookup key (tm_alerts (tele w2)) = dict_lookup key (tm_alerts (tele w))) /\
  tm_mode (tele w2) = DISABLED /\ tm_ready_for_mutation (tele w2) = false.
Proof.
  intros Ht Hok Hops. cbv zeta. destruct (init_ok w0 Ht Hok) as (Hr & Hs & _ & Hj & _).
  destruct (run_syncs_ok ops _ Hs Hops) as [Hs1 Hj1]. rewrite Hj in Hj1.
  set (w := run_syncs ops _) in *. destruct Hs1 as (Ht1 & Hok1 & Hm1).
  destruct (init_ok w Ht1 Hok1) as (Hr2 & (_ & _ & Hm2) & Hd2 & Hj2 & Hmode & Hready).
  split; [exact Hr|]. split; [by apply Hm1|]. split; [exact Hr2|]. split; [|done].
  intros key. rewrite (Hm2 Hj2), (Hm1 Hj1), Hd2. done.
Qed.
End Histories.

(** ** Cycles *)

Section Cycles.
Context {R : Type} {env : Env}.
Context `{Part controller R} `{Part Health.registry R} `{Part telemetry R}.
Context `{!Apart telemetry controller R} `{!Apart telemetry Health.registry R}.
Context `{!Apart controller telemetry R} `{!Apart controller Health.registry R}.
Context (write_guard : option (M R unit)).
Hypothesis guard_quiet : match write_guard with Some g => quiet g | None => True end.
Implicit Types (w : world R).

Lemma syncs_apart late t1 w res w' :
  syncs late t1 w res w' -> mode_of w' = mode_of w /\ registry_of w' = registry_of w.
Proof.
  unfold mode_of, registry_of.
  intros [_ [[_ [l ->]] | [-> _]]]; by rewrite ?get_set_apart.
Qed.

Lemma syncs_done t1 w w' :
  syncs false t1 w (Ok tt) w' -> exists l, tele w' = set_alerts l t1.
Proof.
  intros [_ [[_ [l Hl]] | [_ Hn]]]; [|by specialize (Hn eq_refl)]. exists l. unfold tele.
  by rewrite Hl, get_set_part.
Qed.

Lemma journal_ok_modes x d : journal_ok d -> journal_ok (set_modes x d).
Proof. intros [[] Hp]. split; [by split | exact Hp]. Qed.

(** The mode moved, at most: the alerts and their journal are as they were. *)
Lemma moves_in_step id m actor reason at_ w res w' :
  in_step w -> moves id m actor reason at_ w res w' -> in_step w' /\ tele w' = tele w.
Proof.
  intros (Ht & Hj & Hm) Hmv. unfold in_step, mirrors, tele in *. unfold moves, moved, idle, frame in Hmv.
  destruct res as [[]|e].
  - destruct Hmv as (x & _ & Hd & Ht' & Hr). rewrite Hd, Ht', Hr, get_set_apart.
    split; [|done]. split; [done|].
    split; [by apply journal_ok_modes | exact Hm].
  - destruct Hmv as (Hd & Ht' & Hr). by rewrite Hd, Ht', Hr.
  - destruct Hmv as (Hd & Ht' & Hr). by rewrite Hd, Ht', Hr.
Qed.

(** A halt, as the telemetry sees it. *)
Lemma halt_in_step id actor reason at_ w :
  in_step w ->
  wp (halt write_guard id actor reason at_) (fun res w' =>
    in_step w' /\ tele w' = tele w /\
    match res with
    | Ok b => mode_of w' = HALTED /\ (b = false -> mode_of w = HALTED)
    | Err _ => mode_of w' = mode_of w
    end) w.
Proof.
  intros Hw. eapply wp_mono; [exact (wp_and _ _ _ _
    (halt_ok write_guard guard_quiet id actor reason at_ w (proj1 Hw))
    (halt_returns write_guard guard_quiet id actor reason at_ w (proj1 Hw)))|].
  intros res w1 [Hhalt Hret]. destruct (moves_in_step _ _ _ _ _ _ _ _ Hw Hhalt) as [Hw1 Ht1].
  split; [done|]. split; [done|]. destruct res as [b|e].
  - split; [done|]. intros ->. destruct Hhalt as (_ & _ & Hr). unfold mode_of in *. congruence.
  - unfold mode_of. by rewrite (proj2 (proj2 Hret)).
Qed.

(** A sync that returned, late or not. *)
Lemma syncs_ok late t1 w w' :
  syncs late t1 w (Ok tt) w' ->
  exists l, tele w' = set_alerts l (if late then tele w else t1).
Proof.
  intros [Hs [[-> [l Hl]] | [Hr Hl]]]; unfold tele.
  - exists l. by rewrite Hl, get_set_part.
  - rewrite Hl by done. exists (tm_alerts (tele w)). rewrite Hr. fold (tele w).
    by rewrite set_alerts_same.
Qed.

(** A later mode, a later health is on show already. *)
Definition late_mode (now : datetime) (t : telemetry) : bool := behind now (tm_last_mode_sync t).
Definition late_health (now : datetime) (t : telemetry) : bool := behind now (tm_last_health_sync t).

(** HALTED put on show. *)
Lemma halted_shown now w :
  in_step w -> utc_in_range (to_utc now) -> mode_of w = HALTED ->
  wp (sync_mode HALTED now) (fun res w' => in_step w' /\ mode_of w' = HALTED /\
    (res = Ok tt -> tm_mode (tele w') = (if late_mode now (tele w) then tm_mode (tele w) else HALTED) /\
       tm_ready_for_mutation (tele w') = tm_ready_for_mutation (tele w))) w.
Proof.
  intros Hw Hr Hm. eapply wp_mono; [exact (sync_mode_ok HALTED now w Hw Hr)|].
  intros res w2 Hsync. destruct (syncs_apart _ _ _ _ _ Hsync) as [Hm2 _].
  split; [apply Hsync|]. split; [congruence|]. intros ->. destruct (syncs_ok _ _ _ _ Hsync) as [l ->].
  unfold late_mode. by destruct (behind _ _).
Qed.

(** A tick after its three syncs: the enforcement, and what it shows. *)
Lemma enforce_shown age now id hs w :
  in_step w -> utc_in_range (to_utc now) -> Health.snapshot (registry_of w) now age = Ok hs ->
  wp (bindM (if bool_decide (mode_of w = SIMULATION) && negb (ready_for_mutation (hs_runtime hs))
             then bindM (control_enforce_health write_guard id now age) (fun halted =>
                  bindM (if halted : bool then sync_mode HALTED now else retM tt) (fun _ => retM halted))
             else retM false)
       (fun auto_halted => bindM (read_part (fun t : telemetry => t)) (fun t =>
          retM {| sc_auto_halted := auto_halted; sc_telemetry := telemetry_snapshot t |})))
    (fun res w' => in_step w' /\ (mode_of w' = mode_of w \/ mode_of w' = HALTED) /\
      forall c, res = Ok c ->
        (sc_auto_halted c = true <->
           mode_of w = SIMULATION /\ ready_for_mutation (hs_runtime hs) = false) /\
        mode_of w' = (if sc_auto_halted c then HALTED else mode_of w) /\
        tm_mode (tele w') =
          (if sc_auto_halted c && negb (late_mode now (tele w)) then HALTED else tm_mode (tele w)) /\
        tm_ready_for_mutation (tele w') = tm_ready_for_mutation (tele w) /\
        sc_telemetry c = telemetry_snapshot (tele w')) w.
Proof.
  intros Hw Hr Hs.
  destruct (bool_decide _ && _) eqn:Eb.
  - apply andb_true_iff in Eb as [Hm Hn]. apply bool_decide_eq_true in Hm. apply negb_true_iff in Hn.
    apply wp_bind, wp_bind. unfold control_enforce_health.
    apply with_snapshot; [by intros e; cbv beta iota; split; [done|]; split; [by left|]|].
    intros hs' Hs'. assert (hs' = hs) as -> by congruence.
    unfold mode_enforce_health, read_part at 1. apply wp_bind. repeat wp_step.
    change (mc_mode (get_part (w_rest w))) with (mode_of w). rewrite Hm, Hn. cbn [negb andb].
    rewrite bool_decide_true by done. cbn [andb].
    eapply wp_mono; [by apply halt_in_step|]. intros [b|e] w1 (Hw1 & Ht1 & Hrest);
      [|by split; [done|]; split; [left; congruence|]].
    destruct Hrest as [Hm1 Hb]. destruct b; [|by rewrite Hm in Hb; specialize (Hb eq_refl)].
    apply wp_bind. eapply wp_mono; [by apply (halted_shown now)|].
    intros [[]|e] w' (Hw' & Hm' & Hres); [|by split; [done|]; split; [by right|]].
    destruct (Hres eq_refl) as [Hl1 Hl2]. unfold read_part. repeat wp_step. fold (tele w').
    split; [done|]. split; [by right|]. intros c [= <-].
    cbn [sc_auto_halted sc_telemetry andb]. rewrite Hl1, Hl2, Ht1, Hm'.
    split_and!; try done. by destruct (late_mode now (tele w)).
  - repeat wp_step. split; [done|]. split; [by left|]. intros c [= <-].
    cbn [sc_auto_halted sc_telemetry]. repeat split; try done. intros [Hm Hn].
    by rewrite Hm, Hn, bool_decide_true in Eb.
Qed.

Lemma behind_now now : behind now (Some now) = false.
Proof. unfold behind, dt_ltb. apply Z.ltb_irrefl. Qed.

(** The three syncs of a tick. *)
Lemma synced {A} rt al m now u r (k : M R A) Q w :
  in_step w -> utc_in_range (to_utc now) ->
  (forall e w', in_step w' -> mode_of w' = mode_of w -> Q (Err e) w') ->
  (forall w', in_step w' -> mode_of w' = mode_of w -> registry_of w' = registry_of w ->
     tm_mode (tele w') = (if late_mode now (tele w) then tm_mode (tele w) else m) ->
     tm_ready_for_mutation (tele w') =
       (if late_health now (tele w) then tm_ready_for_mutation (tele w) else ready_for_mutation rt) ->
     late_mode now (tele w') = late_mode now (tele w) -> wp k Q w') ->
  wp (sync_health {| hs_runtime := rt; hs_alerts := al |} now) (fun res w1 =>
    match res with
    | Ok _ => wp (bindM (sync_mode m now) (fun _ =>
                  bindM (sync_execution_ambiguity u r now) (fun _ => k))) Q w1
    | Err e => Q (Err e) w1
    end) w.
Proof.
  unfold late_mode, late_health. intros Hw Hr Herr Hk.
  eapply wp_mono; [by apply sync_health_ok|]. intros [[]|e] w1 Hy1;
    destruct (syncs_apart _ _ _ _ _ Hy1) as [Hm1 Hg1]; [|by apply Herr; [apply Hy1|]].
  destruct (syncs_ok _ _ _ _ Hy1) as [l1 Ht1]. apply wp_bind.
  eapply wp_mono; [apply sync_mode_ok; [apply Hy1 | exact Hr]|].
  intros [[]|e] w2 Hy2; destruct (syncs_apart _ _ _ _ _ Hy2) as [Hm2 Hg2];
    [|by apply Herr; [apply Hy2 | congruence]].
  destruct (syncs_ok _ _ _ _ Hy2) as [l2 Ht2]. apply wp_bind.
  eapply wp_mono; [apply sync_execution_ok; [apply Hy2 | exact Hr]|].
  intros [[]|e] w3 Hy3; destruct (syncs_apart _ _ _ _ _ Hy3) as [Hm3 Hg3];
    [|by apply Herr; [apply Hy3 | congruence]].
  destruct (syncs_ok _ _ _ _ Hy3) as [l3 Ht3].
  assert (Hlate : tm_last_mode_sync (tele w1) = tm_last_mode_sync (tele w)) by (rewrite Ht1; destruct (behind now (tm_last_health_sync (tele w))); done).
  assert (Hone : tm_mode (tele w1) = tm_mode (tele w)) by (rewrite Ht1; by destruct (behind now (tm_last_health_sync (tele w)))).
  rewrite Hlate in Ht2.
  apply Hk; [apply Hy3 | congruence | congruence |..]; rewrite Ht3;
    (match goal with |- context [if ?b then tele w2 else _] => destruct b end);
    cbn [set_alerts set_counts tm_mode tm_ready_for_mutation tm_last_mode_sync]; rewrite Ht2;
    (destruct (behind now (tm_last_mode_sync (tele w))) eqn:Eb);
    cbn [set_alerts set_shown_mode tm_mode tm_ready_for_mutation tm_last_mode_sync]; try done;
    rewrite ?Hlate, ?Eb; try done; try exact (behind_now now); rewrite Ht1; by destruct (behind now (tm_last_health_sync (tele w))).
Qed.

(** C29. A cycle leaves no unhealthy process armed.  With a write guard that only checks, and
    a telemetry in step with its tables, whatever the time of a supervisor tick that returns
    (within what UTC can represent): the process is in SIMULATION only if all seven components have fresh,
    healthy, undisputed newest reports; it was halted exactly if it was in SIMULATION and
    they had not; and the telemetry shows the mode it is in and that readiness, or, where a
    later one is on show already, still that.  One that fails left the mode, or halted.  A
    shutdown that returns leaves the process HALTED, and shows it by the same rule. *)
Theorem cycle_supervised l age now u r id session reason w :
  in_step w -> utc_in_range (to_utc now) -> registry_of w = health_after l ∅ ->
  wp (tick write_guard age now u r id) (fun res w' =>
    in_step w' /\ (mode_of w' = mode_of w \/ mode_of w' = HALTED) /\
    forall c, res = Ok c ->
      (mode_of w' = SIMULATION -> all_reported l now age) /\
      (sc_auto_halted c = true <-> mode_of w = SIMULATION /\ ~ all_reported l now age) /\
      mode_of w' = (if sc_auto_halted c then HALTED else mode_of w) /\
      ts_mode (sc_telemetry c) = (if late_mode now (tele w) then tm_mode (tele w) else mode_of w') /\
      (if late_health now (tele w)
       then ts_ready_for_mutation (sc_telemetry c) = tm_ready_for_mutation (tele w)
       else ts_ready_for_mutation (sc_telemetry c) = true <-> all_reported l now age)) w /\
  wp (shutdown write_guard session now reason) (fun res w' =>
    in_step w' /\ (mode_of w' = mode_of w \/ mode_of w' = HALTED) /\
    forall c, res = Ok c -> mode_of w' = HALTED /\
      ts_mode (sd_telemetry c) = (if late_mode now (tele w) then tm_mode (tele w) else HALTED)) w.
Proof.
  intros Hw Hr Hreg. split.
  - unfold tick, status. apply wp_bind, with_snapshot; [by intros e; split; [done|]; split; [by left|]|].
    intros hs Hs. pose proof (all_reported_ready l now age hs ltac:(by rewrite <-Hreg)) as Hready.
    unfold read_part at 1. repeat wp_step. cbn [os_health os_alerts os_mode os_ready_for_mutation].
    change (mc_mode (get_part (w_rest w))) with (mode_of w).
    refine (synced _ _ _ _ _ _ _ _ _ Hw Hr _ _).
    { intros e w1 Hw1 Hm1. split; [done|]. split; [by left|done]. }
    intros w3 Hw3 Hm Hg Hf1 Hf2 Hf3. rewrite <-Hm in Hf1 |- *.
    eapply wp_mono; [apply enforce_shown with (hs := hs); rewrite ?Hg; done|].
    intros res w' (Hin & Hmoved & Hc). split; [done|]. split; [done|]. intros c Hres.
    destruct (Hc c Hres) as (Hauto & Hmode & Hshow & Hrdy & ->). cbn [telemetry_snapshot ts_mode
      ts_ready_for_mutation]. rewrite Hrdy, Hf2, Hshow, Hf1, Hf3.
    split_and!; [| | done | | by destruct (late_health _ _); [|exact Hready]].
    + rewrite Hmode. intros Hsim. apply Hready.
      destruct (sc_auto_halted c); [done|]. destruct (ready_for_mutation (hs_runtime hs)); [done|].
      by destruct Hauto as [_ Hauto]; rewrite Hauto.
    + rewrite Hauto, <-Hready. by rewrite not_true_iff_false.
    + rewrite Hmode. by destruct (sc_auto_halted c), (late_mode _ _).
  - unfold shutdown, emergency_halt. repeat wp_step; [|by split; [done|]; split; [by left|]..].
    eapply wp_mono; [by apply halt_in_step|]. intros [b|e] w1 (Hw1 & Ht1 & Hrest);
      [|by split; [done|]; split; [left|]].
    destruct Hrest as [Hm1 _]. apply wp_bind. eapply wp_mono; [by apply (halted_shown now)|].
    intros [[]|e] w' (Hw' & Hm' & Hres); [|by split; [done|]; split; [by right|]].
    destruct (Hres eq_refl) as [Hl _]. unfold read_part. repeat wp_step. fold (tele w').
    split; [done|]. split; [by right|]. intros c [= <-]. cbn. by rewrite Hl, Ht1.
Qed.
End Cycles.

(** ** Concrete runs *)

Definition demo_telemetry : telemetry :=
  {| tm_journal := false; tm_alerts := []; tm_mode := DISABLED; tm_ready_for_mutation := false;
     tm_unknown_order_count := 0; tm_manual_review_count := 0; tm_last_health_sync := None;
     tm_last_execution_sync := None; tm_last_mode_sync := None |}.

Lemma journal_ok_empty : journal_ok empty_db.
Proof.
  split; [|constructor]. split; [apply tbl_wf_empty | apply tbl_wf_empty | constructor | |];
    intros key; [|by unfold log_of, state_of, tbl_get; cbn; rewrite lookup_empty].
  intros l p l' q Hnil. by destruct l.
Qed.

Definition demo_syncs : list sync_op :=
  [SyncMode HALTED (demo_at 1); SyncExecution 2 0 (demo_at 2); SyncMode SIMULATION (demo_at 3);
   SyncExecution 3 1 (demo_at 0)].

Definition demo_blank : world telemetry := W empty_db false 0 demo_telemetry.

Abbreviation demo_synced :=
  (run_syncs (env := demo_env) demo_syncs (OperationsTelemetry_init true demo_blank).2).

Lemma telemetry_mirrors_witness :
  List.map fst (tm_alerts (tele demo_synced)) = ["execution:UNKNOWN"]%string /\
  forall key, dict_lookup key (tm_alerts (tele (OperationsTelemetry_init true demo_synced).2)) =
              dict_lookup key (tm_alerts (tele demo_synced)).
Proof.
  split; [vm_compute; reflexivity|].
  assert (Hr : Forall (fun op => utc_in_range (to_utc (sync_at op))) demo_syncs).
  { repeat constructor; vm_compute; discriminate. }
  exact (proj1 (proj2 (proj2 (proj2 (telemetry_mirrors (env := demo_env) demo_syncs demo_blank eq_refl
    journal_ok_empty Hr))))).
Defined.

Abbreviation demo_watched := (demo_parts * telemetry)%type.

Definition watched_modes : Part controller demo_watched := fst_part _ _ _ (H := demo_modes).
Definition watched_registry : Part Health.registry demo_watched := fst_part _ _ _ (H := demo_registry).
Definition watched_telemetry : Part telemetry demo_watched := snd_part _ _ _.

Instance watched_apart1 : @Apart telemetry controller demo_watched watched_telemetry watched_modes.
Proof. by split. Qed.
Instance watched_apart2 : @Apart telemetry Health.registry demo_watched watched_telemetry watched_registry.
Proof. by split. Qed.
Instance watched_apart3 : @Apart controller telemetry demo_watched watched_modes watched_telemetry.
Proof. by split. Qed.

(** A process in SIMULATION whose components reported at second 0. *)
Definition demo_simulating : world demo_watched :=
  W empty_db false 0
    (({| mc_runtime_session_id := "run-1"; mc_mode := SIMULATION |}, health_after demo_reports ∅),
     demo_telemetry).

Abbreviation demo_tick seconds :=
  (@tick demo_watched demo_env watched_modes watched_registry watched_telemetry None 10
    (demo_at seconds) 0 0 "halt-1" demo_simulating).

Lemma cycle_supervised_witness :
  @mode_of _ watched_modes (demo_tick 5).2 = SIMULATION /\ all_reported demo_reports (demo_at 5) 10 /\
  exists c, (demo_tick 60).1 = Ok c /\ sc_auto_halted c = true /\
    @mode_of _ watched_modes (demo_tick 60).2 = HALTED.
Proof.
  assert (Hstep : @in_step demo_watched watched_telemetry demo_simulating).
  { split; [done|]. split; [exact journal_ok_empty|]. done. }
  assert (Hr : forall n, 0 <= n <= 60 -> utc_in_range (to_utc (demo_at n))).
  { intros n Hn. split; [done|]. unfold day_in_range, to_utc, demo_at, instant, micros_per_day. cbn.
    Z.to_euclidean_division_equations. lia. }
  pose proof (fun n Hn => proj1 (@cycle_supervised demo_watched demo_env watched_modes watched_registry
    watched_telemetry _ _ _ None I demo_reports 10 (demo_at n) 0 0 "halt-1" "run-1" "bye" demo_simulating
    Hstep (Hr n Hn) eq_refl)) as H.
  assert (H5 : exists c, (demo_tick 5).1 = Ok c /\ @mode_of _ watched_modes (demo_tick 5).2 = SIMULATION)
    by (eexists; split; vm_compute; reflexivity).
  destruct H5 as (c & Hc & Hm). split; [exact Hm|]. clear Hstep Hr.
  pose proof (H 5 ltac:(lia)) as Hok. unfold wp in Hok.
  generalize dependent (demo_tick 5). intros run Hc Hm (_ & _ & Hok).
  split; [exact (proj1 (Hok c Hc) Hm)|].
  eexists. split; [vm_compute; reflexivity|]. split; vm_compute; reflexivity.
Defined.
