(* ===== verification/RiskRuntime.v ===== *)
(** * RiskRuntime: from live facts to a risk decision

    [RiskSnapshotBuilder] (risk/snapshot_builder.py), [RuntimeRiskAssembler]
    (service/risk_runtime.py) and [ExecutionRuntimeCoordinator]
    (service/coordinator.py): the daily ledger, the registries of quotes and
    heartbeats, the foreign orders and the health of the process are put together
    into the [RiskSnapshot] that [evaluate_risk] judges.  The registries and the
    mode controller are parts of the process state. *)

From S2P Require Import Prelude PyTime Decimal Json Domain Db Repository OrderStore RiskModels Risk.
From S2P Require Import RiskFacts Sums Ledger Parts Mode ExternalOrders Freshness Control.
Open Scope Z_scope.

Record AccountState := {
  acs_account_fingerprint : string;
  acs_available_cash : Dec.pydec;
  acs_gross_exposure : Dec.pydec;
  acs_observed_at : datetime
}.

Record StrategyState := {
  sts_strategy_id : string;
  sts_strategy_version : string;
  sts_gross_exposure : Dec.pydec;
  sts_security_gross_exposure : Dec.pydec;
  sts_position_count : Z
}.

Record SecurityRiskReference := {
  sr_symbol : string;
  sr_tick_size : Dec.pydec;
  sr_lower_price_limit : Dec.pydec;
  sr_upper_price_limit : Dec.pydec;
  sr_buy_lot_size : Z;
  sr_sell_lot_size : Z;
  sr_sellable_quantity : Z;
  sr_gross_exposure : Dec.pydec
}.

(** [value + amount] for a finite [amount]. *)
Definition add_amount (value : Dec.pydec) (amount : Dec.decimal) : res Dec.pydec :=
  match value with
  | Dec.Fin d => (s <- Dec.add d amount ;; Ok (Dec.Fin s))%py
  | Dec.Inf negative => Ok (Dec.Inf negative)
  | Dec.NaN => Ok Dec.NaN
  end.

(** [replace(security, gross_exposure=...)]. *)
Definition with_exposure (s : SecurityRiskReference) (gross : Dec.pydec) : SecurityRiskReference :=
  {| sr_symbol := sr_symbol s; sr_tick_size := sr_tick_size s;
     sr_lower_price_limit := sr_lower_price_limit s;
     sr_upper_price_limit := sr_upper_price_limit s; sr_buy_lot_size := sr_buy_lot_size s;
     sr_sell_lot_size := sr_sell_lot_size s; sr_sellable_quantity := sr_sellable_quantity s;
     sr_gross_exposure := gross |}.

(** [RiskSnapshotBuilder.build] over the quotes of the market service. *)
Definition builder_build (market : Market.service) (policy : RiskPolicy) (now : datetime)
    (mode : RuntimeMode) (health : RuntimeHealth) (market_open global_ambiguity_block : bool)
    (blocked_symbols : gset string) (account : AccountRiskSnapshot)
    (strategy : StrategyRiskSnapshot) (security : SecurityRiskReference) : res RiskSnapshot :=
  (quote <- Market.latest market (sr_symbol security) now (rp_market_max_age_seconds policy) ;;
   security_snapshot <- SecurityRiskSnapshot_init (VStr (sr_symbol security))
     (VDec (sr_tick_size security)) (VDec (sr_lower_price_limit security))
     (VDec (sr_upper_price_limit security)) (VDec (Dec.Fin (mq_last_price quote)))
     (VInt (sr_buy_lot_size security)) (VInt (sr_sell_lot_size security))
     (VInt (sr_sellable_quantity security)) (VDec (sr_gross_exposure security))
     (VTime (mq_broker_time quote)) ;;
   RiskSnapshot_init mode (VBool (rh_database_healthy health)) (VBool (rh_oms_healthy health))
     (VBool (rh_leader_held health)) (VBool (rh_reconciliation_complete health))
     (VBool (rh_qmt_healthy health)) (VBool market_open) (VBool global_ambiguity_block)
     blocked_symbols account strategy security_snapshot)%py.

Open Scope oms_scope.

Record RuntimeIntentEvaluation := {
  rie_operations : OperationsStatus;
  rie_snapshot : RiskSnapshot;
  rie_risk : RiskEvaluation
}.

Section Runtime.
Context {R : Type} {env : Env}.
Context `{Part controller R} `{Part Health.registry R} `{Part Market.service R}
  `{Part Strategies.service R}.
Context (arrange : list daily_row -> list daily_row).

(** [RuntimeRiskAssembler.build]. *)
Definition assembler_build (policy : RiskPolicy) (trading_date : Z) (now : datetime)
    (mode : RuntimeMode) (health : RuntimeHealth) (market_open global_ambiguity_block : bool)
    (blocked_symbols : gset string) (external_orders : option ExternalOrderRiskSummary)
    (account : AccountState) (strategy : StrategyState) (security : SecurityRiskReference)
    : M R RiskSnapshot :=
  do! lift (fact_aware "now" now) ;;
  let external := default summary_empty external_orders in
  daily <- totals arrange (acs_account_fingerprint account) trading_date ;;
  do! guardM (negb (dt_ltb now (dt_pnl_observed_at daily))) RuntimeRiskUnavailable
        "daily PnL snapshot is future-dated" ;;
  do! guardM (negb (older now (rp_account_max_age_seconds policy) (dt_pnl_observed_at daily)))
        RuntimeRiskUnavailable "daily PnL snapshot is stale" ;;
  strategies <- read_part (fun s : Strategies.service => s) ;;
  heartbeat <- lift (Strategies.require_fresh strategies (sts_strategy_id strategy)
    (sts_strategy_version strategy) now (rp_strategy_max_age_seconds policy)) ;;
  account_gross <- lift (add_amount (acs_gross_exposure account)
    (xs_pending_buy_notional external)) ;;
  account_snapshot <- lift (AccountRiskSnapshot_init (VStr (acs_account_fingerprint account))
    (VDec (acs_available_cash account)) (VDec account_gross)
    (VDec (Dec.Fin (dt_daily_pnl daily))) (VDec (Dec.Fin (dt_daily_turnover daily)))
    (VInt (dt_daily_order_count daily)) (VInt (dt_daily_cancel_count daily))
    (VTime (acs_observed_at account))) ;;
  turnover <- strategy_turnover arrange (acs_account_fingerprint account)
    (sts_strategy_id strategy) trading_date ;;
  strategy_snapshot <- lift (StrategyRiskSnapshot_init (VStr (sts_strategy_id strategy))
    (VStr (sts_strategy_version strategy)) (VDec (sts_gross_exposure strategy))
    (VDec (sts_security_gross_exposure strategy)) (VDec (Dec.Fin turnover))
    (VInt (sts_position_count strategy)) (VTime (hb_observed_at heartbeat))) ;;
  external_symbol_buy <- lift (pending_buy_notional_for external (sr_symbol security)) ;;
  security_gross <- lift (add_amount (sr_gross_exposure security) external_symbol_buy) ;;
  market <- read_part (fun s : Market.service => s) ;;
  lift (builder_build market policy now mode health market_open global_ambiguity_block
    (blocked_symbols ∪ xs_blocked_symbols external) account_snapshot strategy_snapshot
    (with_exposure security security_gross)).

(** [ExecutionRuntimeCoordinator.evaluate_intent]. *)
Definition evaluate_intent (policy : RiskPolicy) (health_max_age_seconds : Z)
    (intent : OrderIntent) (trading_date : Z) (now : datetime)
    (market_open global_ambiguity_block : bool) (blocked_symbols : gset string)
    (external_orders : option ExternalOrderRiskSummary) (account : AccountState)
    (strategy : StrategyState) (security : SecurityRiskReference) : M R RuntimeIntentEvaluation :=
  operations <- status now health_max_age_seconds ;;
  snapshot <- assembler_build policy trading_date now (os_mode operations) (os_health operations)
    market_open global_ambiguity_block blocked_symbols external_orders account strategy security ;;
  risk <- lift (evaluate_risk intent snapshot policy now) ;;
  retM {| rie_operations := operations; rie_snapshot := snapshot; rie_risk := risk |}.
End Runtime.

(** ** What a decision rests on *)

(** The health flag of a component. *)
Definition flag (h : RuntimeHealth) (c : HealthComponent) : bool :=
  match c with
  | DATABASE => rh_database_healthy h | OMS => rh_oms_healthy h | LEADER => rh_leader_held h
  | RECONCILIATION => rh_reconciliation_complete h | QMT => rh_qmt_healthy h
  | MARKET_DATA => rh_market_data_healthy h | STRATEGY => rh_strategy_healthy h
  end.

Lemma flag_problem p c : flag (Health.runtime_of p) c = true <-> p c = None.
Proof. destruct c; cbn; destruct (p _); naive_solver. Qed.

(** One component's report, fresh, healthy and undisputed. *)
Definition reported (l : list HealthObservation) (c : HealthComponent) (now : datetime)
    (max_age_seconds : Z) : Prop :=
  exists o, newest_of l c (instant (ho_observed_at o)) o /\ ho_healthy o = true /\
    fresh now max_age_seconds (ho_observed_at o) /\
    forall o', newest_of l c (instant (ho_observed_at o)) o' -> claim o' = claim o.

Lemma flag_reported l now age hs c :
  Health.snapshot (health_after l ∅) now age = Ok hs ->
  flag (hs_runtime hs) c = true <-> reported l c now age.
Proof.
  intros H. unfold Health.snapshot in H. inv_ok. cbn [hs_runtime].
  rewrite flag_problem. apply problem_none.
Qed.

(** Break a successful reading computation into its steps. *)
Ltac inv_run :=
  repeat match goal with
  | H : bindM _ _ _ = (Ok _, _) |- _ => apply bindM_ok in H as (? & ? & ? & H)
  | H : lift _ _ = (Ok _, _) |- _ => unfold lift in H; injection H as H <-
  | H : read_part _ _ = (Ok _, _) |- _ => unfold read_part, read_rest in H; injection H as <- <-
  | H : retM _ _ = (Ok _, _) |- _ => unfold retM in H; injection H as <- <-
  | H : guardM _ _ _ _ = (Ok _, _) |- _ => destruct_unit; apply guardM_ok in H as [H ->]
  end
with destruct_unit := repeat match goal with x : unit |- _ => destruct x end.

Section Reads.
Context {R : Type} {env : Env}.
Implicit Types (w : world R).

Lemma totals_reads arrange a t w x w' :
  totals arrange a t w = (Ok x, w') ->
  w' = w /\ exists p, day_pnl (w_db w) a t = Some p /\
    dt_pnl_observed_at x = pn_observed_at p.2 /\ dt_daily_pnl x = pn_daily_pnl p.2.
Proof.
  unfold totals. intros H. inv_run. unfold read_db in *. simplify_eq/=.
  unfold day_pnl. destruct (latest_pnl _) as [[k r]|]; [|done].
  unfold retM in H. simplify_eq/=. split; [done|]. by eexists.
Qed.

Lemma strategy_turnover_reads arrange a s t w x w' :
  strategy_turnover arrange a s t w = (Ok x, w') -> w' = w.
Proof. unfold strategy_turnover. intros H. inv_run. unfold read_db in *. by simplify_eq/=. Qed.
End Reads.

Lemma risk_aware_ok name v t : Risk.require_aware name v = Ok t -> v = VTime t.
Proof. unfold Risk.require_aware, raise. destruct v; try done. case_match; [|done]. by intros [= <-]. Qed.

Lemma risk_bool_ok name v b : Risk.require_bool name v = Ok b -> v = VBool b.
Proof. unfold Risk.require_bool, raise. destruct v; try done. by intros [= <-]. Qed.

Lemma risk_positive_decimal_ok name v d :
  Risk.require_positive_decimal name v = Ok d -> v = VDec (Dec.Fin d) /\ Dec.leb d Dec.zero = false.
Proof.
  unfold Risk.require_positive_decimal. intros H. inv_ok. apply risk_decimal_ok in H0 as [-> _].
  by bool_to_prop.
Qed.

(** Read every validated field back. *)
Ltac inv_fields :=
  inv_ok;
  repeat match goal with
  | H : require_nonempty _ _ = Ok _ |- _ => apply require_nonempty_ok in H as [H _]
  | H : Risk.require_decimal _ _ = Ok _ |- _ => apply risk_decimal_ok in H as [H _]
  | H : Risk.require_positive_decimal _ _ = Ok _ |- _ => apply risk_positive_decimal_ok in H as [H _]
  | H : Risk.require_nonnegative_int _ _ = Ok _ |- _ => apply risk_nonnegative_ok in H as [H _]
  | H : Risk.require_positive_int _ _ = Ok _ |- _ => apply risk_positive_ok in H as [H _]
  | H : Risk.require_aware _ _ = Ok _ |- _ => apply risk_aware_ok in H
  | H : Risk.require_bool _ _ = Ok _ |- _ => apply risk_bool_ok in H
  end; simplify_eq/=.

Lemma account_fields a c g p t o n at_ s :
  AccountRiskSnapshot_init (VStr a) (VDec c) (VDec g) (VDec (Dec.Fin p)) (VDec (Dec.Fin t)) (VInt o)
    (VInt n) (VTime at_) = Ok s ->
  as_account_fingerprint s = a /\ g = Dec.Fin (as_gross_exposure s) /\ as_daily_pnl s = p /\
  as_daily_turnover s = t /\ as_daily_order_count s = o /\ as_daily_cancel_count s = n /\
  as_observed_at s = at_.
Proof. unfold AccountRiskSnapshot_init. intros H. inv_fields. by repeat split. Qed.

Lemma strategy_fields i v g x t n at_ s :
  StrategyRiskSnapshot_init (VStr i) (VStr v) (VDec g) (VDec x) (VDec (Dec.Fin t)) (VInt n) (VTime at_)
    = Ok s ->
  ss_strategy_id s = i /\ ss_strategy_version s = v /\ ss_daily_turnover s = t /\ ss_heartbeat_at s = at_.
Proof. unfold StrategyRiskSnapshot_init. intros H. inv_fields. by repeat split. Qed.

Lemma builder_fields market p now mode h mo gab blocked a t sec s :
  builder_build market p now mode h mo gab blocked a t sec = Ok s ->
  rs_mode s = mode /\ rs_database_healthy s = rh_database_healthy h /\
  rs_oms_healthy s = rh_oms_healthy h /\ rs_leader_held s = rh_leader_held h /\
  rs_reconciliation_complete s = rh_reconciliation_complete h /\
  rs_qmt_healthy s = rh_qmt_healthy h /\ rs_blocked_symbols s = blocked /\ rs_account s = a /\
  rs_strategy s = t /\ cs_symbol (rs_security s) = sr_symbol sec /\
  sr_gross_exposure sec = Dec.Fin (cs_gross_exposure (rs_security s)) /\
  exists q, Market.latest market (sr_symbol sec) now (rp_market_max_age_seconds p) = Ok q /\
    cs_reference_price (rs_security s) = mq_last_price q /\
    cs_observed_at (rs_security s) = mq_broker_time q.
Proof.
  unfold builder_build, SecurityRiskSnapshot_init, RiskSnapshot_init. intros H. inv_fields.
  repeat split; try done. by eexists.
Qed.

Section Grounded.
Context {R : Type} {env : Env}.
Context `{Part controller R} `{Part Health.registry R} `{Part Market.service R}
  `{Part Strategies.service R}.
Context (arrange : list daily_row -> list daily_row).
Implicit Types (w : world R).

Definition market_of w : Market.service := get_part (w_rest w).
Definition strategies_of w : Strategies.service := get_part (w_rest w).

Lemma status_run now age w os w' :
  status now age w = (Ok os, w') ->
  w' = w /\ os_mode os = mode_of w /\
  exists hs, Health.snapshot (registry_of w) now age = Ok hs /\ os_health os = hs_runtime hs.
Proof.
  unfold status, health_snapshot. intros H'. inv_run. repeat split. by eexists.
Qed.

(** What a snapshot that was assembled holds, and from where. *)
Definition assembled (p : RiskPolicy) (date : Z) (now : datetime) (mode : RuntimeMode)
    (h : RuntimeHealth) (blocked : gset string) (external : ExternalOrderRiskSummary)
    (account : AccountState) (strategy : StrategyState) (security : SecurityRiskReference)
    (s : RiskSnapshot) w : Prop :=
  (rs_mode s = mode /\ rs_database_healthy s = flag h DATABASE /\ rs_oms_healthy s = flag h OMS /\
   rs_leader_held s = flag h LEADER /\ rs_reconciliation_complete s = flag h RECONCILIATION /\
   rs_qmt_healthy s = flag h QMT) /\
  rs_blocked_symbols s = blocked ∪ xs_blocked_symbols external /\
  (exists q, Market.latest (market_of w) (cs_symbol (rs_security s)) now
       (rp_market_max_age_seconds p) = Ok q /\
     cs_reference_price (rs_security s) = mq_last_price q) /\
  (exists b, Strategies.require_fresh (strategies_of w) (ss_strategy_id (rs_strategy s))
       (ss_strategy_version (rs_strategy s)) now (rp_strategy_max_age_seconds p) = Ok b /\
     ss_heartbeat_at (rs_strategy s) = hb_observed_at b) /\
  (exists T k, totals arrange (as_account_fingerprint (rs_account s)) date w = (Ok T, w) /\
     day_pnl (w_db w) (as_account_fingerprint (rs_account s)) date = Some k /\
     fresh now (rp_account_max_age_seconds p) (pn_observed_at k.2) /\
     as_daily_pnl (rs_account s) = pn_daily_pnl k.2 /\
     as_daily_turnover (rs_account s) = dt_daily_turnover T /\
     as_daily_order_count (rs_account s) = dt_daily_order_count T /\
     as_daily_cancel_count (rs_account s) = dt_daily_cancel_count T) /\
  (exists g x n, acs_gross_exposure account = Dec.Fin g /\
     Dec.add g (xs_pending_buy_notional external) = Ok (as_gross_exposure (rs_account s)) /\
     sr_gross_exposure security = Dec.Fin x /\
     pending_buy_notional_for external (cs_symbol (rs_security s)) = Ok n /\
     Dec.add x n = Ok (cs_gross_exposure (rs_security s))).

Lemma add_amount_fin v n d : add_amount v n = Ok (Dec.Fin d) -> exists g, v = Dec.Fin g /\ Dec.add g n = Ok d.
Proof. destruct v as [g| |]; cbn; [|done..]. intros H'. inv_ok. by eexists. Qed.

Lemma assembler_run p date now mode h mo gab blocked ext account strategy security w s w' :
  assembler_build arrange p date now mode h mo gab blocked ext account strategy security w
    = (Ok s, w') ->
  w' = w /\ assembled p date now mode h blocked (default summary_empty ext) account strategy security s w.
Proof.
  unfold assembler_build. intros H'. inv_run.
  match goal with X : totals _ _ _ _ = _ |- _ => rename X into HT end.
  pose proof (totals_reads _ _ _ _ _ _ HT) as (-> & k & Hk & Hpt & Hpp).
  match goal with X : strategy_turnover _ _ _ _ _ = _ |- _ => apply strategy_turnover_reads in X as Hst end.
  subst.
  match goal with X : AccountRiskSnapshot_init _ _ _ _ _ _ _ _ = _ |- _ =>
    apply account_fields in X as (Ha1 & Ha2 & Ha3 & Ha4 & Ha5 & Ha6 & _) end.
  match goal with X : StrategyRiskSnapshot_init _ _ _ _ _ _ _ = _ |- _ =>
    apply strategy_fields in X as (Hs1 & Hs2 & _ & Hs4) end.
  match goal with X : builder_build _ _ _ _ _ _ _ _ _ _ _ = _ |- _ =>
    apply builder_fields in X as (Hb1 & Hb2 & Hb3 & Hb4 & Hb5 & Hb6 & Hb7 & Hb8 & Hb9 & Hb10 & Hb11 & q & Hq & Hq1 & _)
  end.
  cbn [sr_symbol sr_gross_exposure with_exposure] in *. subst.
  split; [done|]. unfold assembled. rewrite Hb7, Hb10, Hs1, Hs2, Ha1.
  repeat split; try done.
  - exists q. by split.
  - eexists. split; [eassumption | done].
  - do 2 eexists. split; [eassumption|]. split; [eassumption|].
    rewrite fresh_spec, <-Hpt. bool_to_prop. repeat split; try done; congruence.
  - match goal with X : add_amount (acs_gross_exposure _) _ = _ |- _ =>
      apply add_amount_fin in X as (g & Hg & Hg') end.
    match goal with X : add_amount (sr_gross_exposure _) _ = _ |- _ =>
      apply add_amount_fin in X as (x & Hx & Hx') end.
    exists g, x. eexists. repeat (split; [eassumption|]). eassumption.
Qed.

(** [m] changes nothing, whatever comes of it. *)
Definition still {A} (m : M R A) : Prop := forall w, (m w).2 = w.

Lemma still_ret {A} (a : A) : still (retM a).
Proof. done. Qed.
Lemma still_lift {A} (r : res A) : still (lift r).
Proof. by destruct r. Qed.
Lemma still_guard b c msg : still (guardM b c msg).
Proof. by destruct b. Qed.
Lemma still_bind {A B} (m : M R A) (f : A -> M R B) : still m -> (forall a, still (f a)) -> still (bindM m f).
Proof.
  intros Hm Hf w. specialize (Hm w). unfold bindM. destruct (m w) as [[a|e] w1]; cbn in Hm; subst w1; [apply Hf | done].
Qed.

Ltac still_tac :=
  repeat match goal with
  | |- still (bindM _ _) => apply still_bind; [|intros ?]
  | |- still (retM _) => apply still_ret
  | |- still (lift _) => apply still_lift
  | |- still (guardM _ _ _) => apply still_guard
  | |- still (match ?x with _ => _ end) => destruct x
  | |- still _ => solve [intros ?; reflexivity]
  end.

Lemma totals_still account date : still (totals arrange account date).
Proof. unfold totals. still_tac. Qed.
Lemma turnover_still account strategy date : still (strategy_turnover arrange account strategy date).
Proof. unfold strategy_turnover. still_tac. Qed.

(** Evaluating an intent only reads. *)
Lemma evaluate_still p hage i date now mo gab blocked ext account strategy security :
  still (evaluate_intent arrange p hage i date now mo gab blocked ext account strategy security).
Proof.
  unfold evaluate_intent, status, health_snapshot, assembler_build. still_tac; [apply totals_still | apply turnover_still].
Qed.

(** C16. An accepted intent rests on live facts.  Evaluating an intent changes
    nothing, whatever comes of it; and when it is accepted under a policy that permits SIMULATION only,
    then, after any histories of health reports, quotes and heartbeats: the mode
    is SIMULATION; database, OMS, leadership and reconciliation (and the terminal
    if the policy requires it) each have a fresh, healthy, undisputed newest
    report; the price the order was measured against is the newest quote of its
    symbol, fresh on both clocks; its strategy's heartbeat is fresh and of its
    version; the daily PnL is a fresh ledger snapshot and the counts and turnover
    are the ledger's totals of the day; the symbol is not blocked and no foreign
    order is active on it; and the exposures include the foreign buys. *)
Theorem decision_grounded p hage i date now mo gab blocked ext account strategy security w r w' :
  evaluate_intent arrange p hage i date now mo gab blocked ext account strategy security w = (r, w') ->
  w' = w /\
  forall ev reports quotes beats,
  r = Ok ev -> rd_accepted (re_decision (rie_risk ev)) = true ->
  simulation_only (rp_permitted_execution_modes p) = true ->
  registry_of w = health_after reports ∅ -> market_of w = market_after quotes ∅ ->
  strategies_of w = strategies_after beats ∅ ->
  let s := rie_snapshot ev in let external := default summary_empty ext in
  mode_of w = SIMULATION /\
  (forall c, c ∈ [DATABASE; OMS; LEADER; RECONCILIATION] \/ (c = QMT /\ rp_require_qmt_healthy p = true) ->
     reported reports c now hage) /\
  (exists q, newest (oi_symbol i) quotes q /\ fresh now (rp_market_max_age_seconds p) (mq_broker_time q) /\
     fresh now (rp_market_max_age_seconds p) (mq_observed_at q) /\
     cs_reference_price (rs_security s) = mq_last_price q) /\
  (exists b, strategies_after beats ∅ !! oi_strategy_id i = Some b /\
     hb_strategy_version b = oi_strategy_version i /\
     fresh now (rp_strategy_max_age_seconds p) (hb_observed_at b)) /\
  (exists T k, totals arrange (oi_account_fingerprint i) date w = (Ok T, w) /\
     day_pnl (w_db w) (oi_account_fingerprint i) date = Some k /\
     fresh now (rp_account_max_age_seconds p) (pn_observed_at k.2) /\
     as_daily_pnl (rs_account s) = pn_daily_pnl k.2 /\
     as_daily_turnover (rs_account s) = dt_daily_turnover T /\
     as_daily_order_count (rs_account s) = dt_daily_order_count T) /\
  (oi_symbol i ∉ blocked ∪ xs_blocked_symbols external) /\
  (exists g x n, acs_gross_exposure account = Dec.Fin g /\
     Dec.add g (xs_pending_buy_notional external) = Ok (as_gross_exposure (rs_account s)) /\
     sr_gross_exposure security = Dec.Fin x /\
     pending_buy_notional_for external (oi_symbol i) = Ok n /\
     Dec.add x n = Ok (cs_gross_exposure (rs_security s))).
Proof.
  intros He. split.
  { pose proof (evaluate_still p hage i date now mo gab blocked ext account strategy security w) as Hst. by rewrite He in Hst. }
  intros ev reports quotes beats -> Hacc Hp Hr Hm Hb. cbv zeta. unfold evaluate_intent in He. inv_run.
  match goal with X : status _ _ _ = _ |- _ => apply status_run in X as (-> & Hmode & hs & Hs & Hh) end.
  match goal with X : assembler_build _ _ _ _ _ _ _ _ _ _ _ _ _ _ = _ |- _ =>
    apply assembler_run in X as (-> & (Hf1 & Hf2 & Hf3 & Hf4 & Hf5 & Hf6) & Hbl & (q & Hq & Hqp) & (b & Hb1 & _) & Ht & Hx)
  end.
  cbn [rie_snapshot rie_risk] in *.
  match goal with X : evaluate_risk _ _ _ _ = Ok ?r |- _ =>
    pose proof (accepted_gates_hold i _ p now (ex_intro _ r (conj X Hacc)) Hp) as Hg end.
  cbv zeta in Hg.
  destruct Hg as ((G1 & G2 & G3 & G4 & G5 & _ & G6) & (_ & Gb) & (Ga & Ga' & _ & Gs & _ & Gv & _ & Gc) & _).
  rewrite Hr in Hs. rewrite Hm, Gc in Hq. rewrite Hb, Gs, Gv in Hb1. rewrite Gc in Hx.
  rewrite Ga', <-Ga in Ht. apply latest_ok in Hq as (_ & _ & _ & Hq & Hq1 & Hq2).
  apply require_fresh_ok in Hb1 as (_ & _ & _ & _ & Hb1 & Hb2 & Hb3).
  split; [congruence|]. split.
  { intros c Hc. apply (flag_reported reports now hage hs c Hs). rewrite <-Hh.
    destruct Hc as [Hc|[-> Hreq]]; [|rewrite <-Hf6; by apply G6].
    repeat (apply elem_of_cons in Hc as [->|Hc]; [cbn in *; congruence|]). by apply not_elem_of_nil in Hc. }
  split.
  { exists q. pose proof (market_holds quotes (oi_symbol i)) as Hn. rewrite Hq in Hn. auto. }
  split; [by exists b|].
  split; [destruct Ht as (T & k & Ht); exists T, k; naive_solver|].
  split; [by rewrite <-Hbl | done].
Qed.
End Grounded.

(** ** A concrete process *)

Abbreviation demo_host := ((controller * gmap HealthComponent HealthObservation)
  * (gmap string MarketQuote * gmap string StrategyHeartbeat))%type.

Definition host_modes : Part controller demo_host := fst_part _ _ _ (H := fst_part _ _ _).
Definition host_health : Part Health.registry demo_host := fst_part _ _ _ (H := snd_part _ _ _).
Definition host_market : Part Market.service demo_host := snd_part _ _ _ (H := fst_part _ _ _).
Definition host_strategies : Part Strategies.service demo_host := snd_part _ _ _ (H := snd_part _ _ _).

Definition demo_account : string := oi_account_fingerprint demo_intent.

Definition demo_pulse : StrategyHeartbeat :=
  {| hb_strategy_id := "strategy"; hb_strategy_version := "1"; hb_session_id := "s1";
     hb_sequence := 1; hb_observed_at := demo_now |}.

Definition demo_ledger : db :=
  match tbl_insert "pnl-1"%string
    {| pn_account_fingerprint := demo_account; pn_trading_date := 739000; pn_daily_pnl := yuan 0;
       pn_observed_at := demo_now; pn_source := "qmt" |} tbl_empty with
  | Some x => set_pnl x empty_db
  | None => empty_db
  end.

Definition demo_running : world demo_host :=
  W demo_ledger false 0
    (({| mc_runtime_session_id := "run-1"; mc_mode := SIMULATION |}, health_after demo_reports ∅),
     (market_after [demo_quote 1050 1] ∅, strategies_after [demo_pulse] ∅)).

(** The intent of [demo_intent]; [foreign] is a reading of the broker's orders. *)
Definition demo_evaluation (foreign : ExternalOrderRiskSummary)
    : res RuntimeIntentEvaluation * world demo_host :=
  let fin d := Dec.Fin d in
  @evaluate_intent demo_host host_modes host_health host_market host_strategies
    (fun l => l) demo_policy 10 demo_intent 739000 demo_now true false ∅ (Some foreign)
    {| acs_account_fingerprint := demo_account; acs_available_cash := fin (yuan 100000);
       acs_gross_exposure := fin (yuan 20000); acs_observed_at := demo_now |}
    {| sts_strategy_id := "strategy"; sts_strategy_version := "1";
       sts_gross_exposure := fin (yuan 10000); sts_security_gross_exposure := fin (yuan 0);
       sts_position_count := 1 |}
    {| sr_symbol := "600000.SH"; sr_tick_size := fin (Dec.D false 1 (-2));
       sr_lower_price_limit := fin (Dec.D false 950 (-2));
       sr_upper_price_limit := fin (Dec.D false 1150 (-2)); sr_buy_lot_size := 100;
       sr_sell_lot_size := 1; sr_sellable_quantity := 0; sr_gross_exposure := fin (yuan 0) |}
    demo_running.

Definition accepted_of (r : res RuntimeIntentEvaluation) : option bool :=
  match r with Ok ev => Some (rd_accepted (re_decision (rie_risk ev))) | Err _ => None end.

Lemma decision_grounded_witness :
  accepted_of (demo_evaluation summary_empty).1 = Some true /\
  (demo_evaluation summary_empty).2 = demo_running /\
  reported demo_reports QMT demo_now 10 /\ newest "600000.SH" [demo_quote 1050 1] (demo_quote 1050 1) /\
  (exists s, classify ∅ demo_reading = Ok s /\ accepted_of (demo_evaluation s).1 = Some false).
Proof.
  assert (Hacc : accepted_of (demo_evaluation summary_empty).1 = Some true) by (vm_compute; reflexivity).
  split; [exact Hacc|].
  destruct (demo_evaluation summary_empty) as [[ev|e] w'] eqn:E; cbn [fst accepted_of] in Hacc;
    [|discriminate].
  injection Hacc as Hacc.
  destruct (@decision_grounded demo_host host_modes host_health host_market host_strategies
    (fun l => l) demo_policy 10 demo_intent 739000 demo_now true false ∅ (Some summary_empty) _ _ _
    demo_running (Ok ev) w' E) as (Hw & Hgrounded).
  destruct (Hgrounded ev demo_reports [demo_quote 1050 1] [demo_pulse] eq_refl Hacc ltac:(vm_compute; reflexivity)
    eq_refl eq_refl eq_refl) as (_ & Hr & (q & Hq & _) & _).
  split; [exact Hw|]. split; [apply Hr; right; split; [reflexivity | vm_compute; reflexivity]|].
  split.
  - destruct (newest_elem _ _ _ Hq) as [Hi _]. apply list_elem_of_singleton in Hi. subst q. exact Hq.
  - eexists. split; [vm_compute; reflexivity|]. vm_compute. reflexivity.
Defined.
