(* ===== verification/Wire.v ===== *)
(** * Wire: the event contract of the QMT bridge

    [qmt/protocol.py]: the events the terminal publishes, as the Host accepts
    them.  [from_mapping] is handed the decoded JSON of a frame, checks the
    envelope and the payload of the five event types that carry authority or are
    counted, and returns a [QmtEvent].  The bridge sends money as text, so a JSON
    number is an integer here.  A membership test in a Python set hashes its
    argument: of a list or an object that raises [TypeError], not
    [QmtProtocolError]. *)

From S2P Require Import Prelude Json Domain BrokerEvidence.
Open Scope Z_scope.

(** ** Reading decoded JSON *)

(** [value.get(key)]. *)
Definition jget (k : string) (d : jdict) : json := default JNull (dict_get k d).

Definition is_null (j : json) : bool := match j with JNull => true | _ => false end.
Definition is_obj (j : json) : bool := match j with JObj _ => true | _ => false end.
Definition as_str (j : json) : option string := match j with JStr s => Some s | _ => None end.
(** [isinstance(x, int) and not isinstance(x, bool)]. *)
Definition as_int (j : json) : option Z := match j with JInt z => Some z | _ => None end.
Definition as_bool (j : json) : option bool := match j with JBool b => Some b | _ => None end.
Definition as_list (j : json) : option (list json) := match j with JArr l => Some l | _ => None end.
Definition as_dict (j : json) : option jdict := match j with JObj d => Some d | _ => None end.

(** [isinstance(x, str) and x]. *)
Definition nonempty_str (j : json) : option string :=
  match j with JStr s => if str_nonempty s then Some s else None | _ => None end.

(** [if not x]. *)
Definition truthy (j : json) : bool :=
  match j with
  | JNull => false
  | JBool b => b
  | JInt z => negb (z =? 0)
  | JStr s => str_nonempty s
  | JArr l => negb (bool_decide (l = []))
  | JObj l => match l with [] => false | _ => true end
  | JFloat x => negb (float_is 0 x)
  end.

(** [x is True], [x is False]. *)
Definition is_true (j : json) : bool := match j with JBool b => b | _ => false end.
Definition is_false (j : json) : bool := match j with JBool b => negb b | _ => false end.

(** [x in {...}] of a set of strings: [x] is hashed. *)
Definition member (j : json) (l : list string) : res bool :=
  match j with
  | JArr _ => raise TypeError "unhashable type: 'list'"
  | JObj _ => raise TypeError "unhashable type: 'dict'"
  | JStr s => Ok (bool_decide (s ∈ l))
  | _ => Ok false
  end.

(** The argument of a check, or the error of its absence. *)
Definition need {A} (o : option A) (msg : string) : res A :=
  match o with Some a => Ok a | None => raise QmtProtocolError msg end.

Definition check (b : bool) (msg : string) : res unit := guard_r b QmtProtocolError msg.

(** [_BROKER_TOKEN_RE] and [_INSTANCE_ID_RE]. *)
Definition is_broker_token (s : string) : bool :=
  startswith "BQ" s && (String.length s =? 22)%nat
  && all_chars is_lower_hex (String.substring 2 20 s).

Definition is_instance_id (s : string) : bool :=
  (1 <=? String.length s)%nat && (String.length s <=? 32)%nat &&
  all_chars (fun a => let n := N_of_ascii a in
    (97 <=? n) && (n <=? 122) || (48 <=? n) && (n <=? 57) || (n =? 95) || (n =? 45))%N s.

(** ** Payloads *)

Definition allowed_event_types : list string :=
  ["snapshot"; "account"; "position"; "order"; "deal"; "bridge_ready"; "bridge_error";
   "command_result"; "account_capabilities"; "instrument_capabilities";
   "instrument_tick_capabilities"].

Definition validate_snapshot_payload (payload : jdict) : res unit :=
  (do! res_iter (fun key =>
     do! need (as_list (jget key payload)) ("snapshot " +:+ key +:+ " must be a list") ;; Ok tt)
     ["account"; "positions"; "orders"; "deals"; "query_errors"] ;;
   res_iter (fun key =>
     check (forallb is_obj (default [] (as_list (jget key payload))))
       ("snapshot " +:+ key +:+ " rows must be objects"))
     ["account"; "positions"; "orders"; "deals"])%py.

Definition validate_instrument_capabilities_payload (payload : jdict) : res unit :=
  (candidates <- need (as_list (jget "candidates" payload))
     "instrument_capabilities candidates must be non-empty" ;;
   do! check (match candidates with [] => false | _ => true end)
     "instrument_capabilities candidates must be non-empty" ;;
   do! check (forallb is_obj candidates) "instrument_capabilities candidates must be objects" ;;
   attempt <- need (as_int (jget "attempt" payload))
     "instrument_capabilities attempt must be positive" ;;
   do! check (0 <? attempt) "instrument_capabilities attempt must be positive" ;;
   max_attempts <- need (as_int (jget "max_attempts" payload))
     "instrument_capabilities max_attempts must cover attempt" ;;
   check (attempt <=? max_attempts) "instrument_capabilities max_attempts must cover attempt")%py.

(** One turn of the loop over the candidates: whether a tick was observed. *)
Definition tick_record (record : jdict) : res bool :=
  (do! need (nonempty_str (jget "symbol" record))
     "instrument_tick_capabilities symbol must be non-empty" ;;
   tick_observed <- need (as_bool (jget "tick_observed" record))
     "instrument_tick_capabilities tick_observed must be boolean" ;;
   callback_count <- need (as_int (jget "callback_count" record))
     "instrument_tick_capabilities callback_count must be non-negative" ;;
   do! check (0 <=? callback_count)
     "instrument_tick_capabilities callback_count must be non-negative" ;;
   Ok tick_observed)%py.

Fixpoint count_ticks (records : list json) (counted : Z) : res Z :=
  match records with
  | [] => Ok counted
  | r :: records =>
      (observed <- tick_record (default [] (as_dict r)) ;;
       count_ticks records (if observed then counted + 1 else counted))%py
  end.

Definition validate_instrument_tick_capabilities_payload (payload : jdict) : res unit :=
  (candidates <- need (as_list (jget "candidates" payload))
     "instrument_tick_capabilities candidates must be non-empty" ;;
   do! check (match candidates with [] => false | _ => true end)
     "instrument_tick_capabilities candidates must be non-empty" ;;
   do! check (forallb is_obj candidates)
     "instrument_tick_capabilities candidates must be objects" ;;
   counted <- count_ticks candidates 0 ;;
   observed_count <- need (as_int (jget "observed_count" payload))
     "instrument_tick_capabilities observed_count mismatch" ;;
   do! check (observed_count =? counted) "instrument_tick_capabilities observed_count mismatch" ;;
   window_seconds <- need (as_int (jget "window_seconds" payload))
     "instrument_tick_capabilities window_seconds must be positive" ;;
   do! check (0 <? window_seconds)
     "instrument_tick_capabilities window_seconds must be positive" ;;
   do! need (as_bool (jget "final" payload)) "instrument_tick_capabilities final must be boolean" ;;
   Ok tt)%py.

(** One turn of the loop over the accounts: its type, and whether it was
    detected. *)
Definition account_record (seen_types : list string) (record : json) : res (string * bool) :=
  (record <- need (as_dict record) "account_capabilities account record must be an object" ;;
   account_type <- need (nonempty_str (jget "account_type" record))
     "account_capabilities account_type must be unique" ;;
   do! check (negb (bool_decide (account_type ∈ seen_types)))
     "account_capabilities account_type must be unique" ;;
   do! check (match as_str (jget "account_fingerprint" record) with
              | Some f => is_sha256 f
              | None => false
              end) "account_capabilities invalid account_fingerprint" ;;
   known <- member (jget "status" record) ["DETECTED"; "DEGRADED"; "UNCONFIRMED"] ;;
   do! check known "account_capabilities invalid status" ;;
   do! res_iter (fun key =>
     check (match as_list (jget key record) with Some rows => forallb is_obj rows | None => false end)
       ("account_capabilities " +:+ key +:+ " must contain objects"))
     ["account"; "positions"; "query_errors"] ;;
   detected <- member (jget "status" record) ["DETECTED"; "DEGRADED"] ;;
   Ok (account_type, detected))%py.

Fixpoint observed_types (records : list json) (seen_types observed : list string)
    : res (list string) :=
  match records with
  | [] => Ok observed
  | r :: records =>
      (t <- account_record seen_types r ;;
       observed_types records (t.1 :: seen_types)
         (if t.2 : bool then observed ++ [t.1] else observed))%py
  end.

(** The authority a capabilities report may claim, by execution mode. *)
Definition check_authority (payload : jdict) : res unit :=
  let live_submit := jget "live_submit" payload in
  let live_cancel := jget "live_cancel" payload in
  let simulation_only := jget "simulation_only" payload in
  match default (JStr "SHADOW") (dict_get "execution_mode" payload) with
  | JStr m =>
      if decide (m = "SHADOW") then
        check (is_false live_submit && is_false live_cancel)
          "SHADOW account_capabilities cannot grant live authority"
      else if decide (m = "SIMULATION_CALIBRATION") then
        check (is_true live_submit && is_true live_cancel && is_true simulation_only)
          "invalid simulation account_capabilities authority"
      else if decide (m = "LIVE_CANARY") then
        check (is_true live_submit && is_true live_cancel && is_false simulation_only)
          "invalid live canary account_capabilities authority"
      else check false "account_capabilities execution_mode is unsupported"
  | _ => check false "account_capabilities execution_mode is unsupported"
  end.

Definition validate_account_capabilities_payload (payload : jdict) : res unit :=
  (do! need (nonempty_str (jget "selected_account_type" payload))
     "account_capabilities selected_account_type must be non-empty" ;;
   detected <- need (l ← as_list (jget "detected_account_types" payload); mapM nonempty_str l)
     "account_capabilities detected_account_types must be strings" ;;
   do! check (bool_decide (NoDup detected))
     "account_capabilities detected_account_types must be unique" ;;
   accounts <- need (as_list (jget "accounts" payload))
     "account_capabilities accounts must be a non-empty list" ;;
   do! check (match accounts with [] => false | _ => true end)
     "account_capabilities accounts must be a non-empty list" ;;
   observed_detected <- observed_types accounts [] [] ;;
   do! check (bool_decide (detected = observed_detected))
     "account_capabilities detected types do not match records" ;;
   check_authority payload)%py.

(** ** Results of commands *)

Definition command_types : list string := ["SUBMIT_LIMIT"; "CANCEL_ORDER"; "REQUEST_SNAPSHOT"].

Definition snapshot_results : list string :=
  ["SNAPSHOT_EMITTED"; "REJECTED_EXPIRED"; "UNKNOWN_ORPHANED"].

Definition shadow_allowed (command_type : string) : list string :=
  if decide (command_type = "REQUEST_SNAPSHOT") then snapshot_results
  else ["SHADOW_ACCEPTED"; "REJECTED_EXPIRED"; "UNKNOWN_ORPHANED"].

Definition simulation_allowed (command_type : string) : list string :=
  if decide (command_type = "REQUEST_SNAPSHOT") then snapshot_results
  else if decide (command_type = "SUBMIT_LIMIT") then
    ["SIMULATION_SUBMIT_CALL_RETURNED"; "SIMULATION_MUTATION_UNKNOWN";
     "SIMULATION_ORPHANED_UNKNOWN"; "REJECTED_SAFETY_GATE"; "REJECTED_EXPIRED"]
  else
    ["SIMULATION_CANCEL_SIGNAL_SENT"; "SIMULATION_CANCEL_NOT_CANCELLABLE";
     "SIMULATION_CANCEL_NOT_SENT"; "SIMULATION_MUTATION_UNKNOWN";
     "SIMULATION_ORPHANED_UNKNOWN"; "REJECTED_SAFETY_GATE"; "REJECTED_EXPIRED"].

Definition live_canary_allowed (command_type : string) : list string :=
  if decide (command_type = "REQUEST_SNAPSHOT") then snapshot_results
  else if decide (command_type = "SUBMIT_LIMIT") then
    ["LIVE_CANARY_SUBMIT_CALL_RETURNED"; "LIVE_CANARY_MUTATION_UNKNOWN";
     "LIVE_CANARY_ORPHANED_UNKNOWN"; "REJECTED_SAFETY_GATE"; "REJECTED_EXPIRED"]
  else
    ["LIVE_CANARY_CANCEL_SIGNAL_SENT"; "LIVE_CANARY_CANCEL_NOT_CANCELLABLE";
     "LIVE_CANARY_CANCEL_NOT_SENT"; "LIVE_CANARY_MUTATION_UNKNOWN";
     "LIVE_CANARY_ORPHANED_UNKNOWN"; "REJECTED_SAFETY_GATE"; "REJECTED_EXPIRED"].

Definition simulation_side_effect_statuses : list string :=
  ["SIMULATION_SUBMIT_CALL_RETURNED"; "SIMULATION_CANCEL_SIGNAL_SENT";
   "SIMULATION_CANCEL_NOT_SENT"; "SIMULATION_MUTATION_UNKNOWN"; "SIMULATION_ORPHANED_UNKNOWN"].

Definition live_canary_side_effect_statuses : list string :=
  ["LIVE_CANARY_SUBMIT_CALL_RETURNED"; "LIVE_CANARY_CANCEL_SIGNAL_SENT";
   "LIVE_CANARY_CANCEL_NOT_SENT"; "LIVE_CANARY_MUTATION_UNKNOWN";
   "LIVE_CANARY_ORPHANED_UNKNOWN"].

(** The table of statuses of an execution mode. *)
Definition allowed_by_command (execution_mode : json) : option (string -> list string) :=
  match execution_mode with
  | JStr m =>
      if decide (m = "SHADOW") then Some shadow_allowed
      else if decide (m = "SIMULATION_CALIBRATION") then Some simulation_allowed
      else if decide (m = "LIVE_CANARY") then Some live_canary_allowed
      else None
  | _ => None
  end.

Definition check_side_effect (execution_mode : json) (live_side_effect : bool) (status : string)
    : res unit :=
  match execution_mode with
  | JStr m =>
      if decide (m = "SHADOW") then
        check (negb live_side_effect) "SHADOW command_result cannot claim a live side effect"
      else if decide (m = "SIMULATION_CALIBRATION") then
        check (eqb live_side_effect (bool_decide (status ∈ simulation_side_effect_statuses)))
          "simulation command_result side-effect flag is inconsistent"
      else if decide (m = "LIVE_CANARY") then
        check (eqb live_side_effect (bool_decide (status ∈ live_canary_side_effect_statuses)))
          "live canary command_result side-effect flag is inconsistent"
      else Ok tt
  | _ => Ok tt
  end.

Definition check_order_identity (command_type : string) (payload : jdict) : res unit :=
  let client_order_id := jget "client_order_id" payload in
  let broker_token := jget "broker_token" payload in
  if decide (command_type = "REQUEST_SNAPSHOT") then
    check (is_null client_order_id && is_null broker_token)
      "snapshot command_result cannot carry order identity"
  else
    (do! need (nonempty_str client_order_id) "order command_result requires client_order_id" ;;
     check (match as_str broker_token with Some t => is_broker_token t | None => false end)
       "order command_result requires a 22-character broker_token")%py.

Definition validate_command_result_payload (payload : jdict) : res unit :=
  let execution_mode := jget "execution_mode" payload in
  (do! need (nonempty_str (jget "command_id" payload))
     "command_result command_id must be non-empty text" ;;
   known <- member (jget "command_type" payload) command_types ;;
   do! check known "command_result has unsupported command_type" ;;
   let command_type := default "" (as_str (jget "command_type" payload)) in
   allowed <- need (allowed_by_command execution_mode)
     "command_result execution_mode is unsupported" ;;
   valid <- member (jget "result_status" payload) (allowed command_type) ;;
   do! check valid "command_result status is invalid for command_type" ;;
   let result_status := default "" (as_str (jget "result_status" payload)) in
   live_side_effect <- need (as_bool (jget "live_side_effect" payload))
     "command_result live_side_effect must be boolean" ;;
   do! check_side_effect execution_mode live_side_effect result_status ;;
   check_order_identity command_type payload)%py.

(** ** Events *)

Record QmtEvent := {
  qe_protocol_version : string; qe_session_id : string; qe_sequence : Z; qe_timestamp_ms : Z;
  qe_event_type : string; qe_source : string; qe_account_fingerprint : string;
  qe_account_type : option string; qe_payload : jdict; qe_terminal_instance_id : option string
}.

Definition BRIDGE_PROTOCOL_VERSION : string := "0.2".

Definition validate_payload (event_type : string) (payload : jdict) : res unit :=
  if decide (event_type = "snapshot") then validate_snapshot_payload payload
  else if decide (event_type = "command_result") then validate_command_result_payload payload
  else if decide (event_type = "account_capabilities") then
    validate_account_capabilities_payload payload
  else if decide (event_type = "instrument_capabilities") then
    validate_instrument_capabilities_payload payload
  else if decide (event_type = "instrument_tick_capabilities") then
    validate_instrument_tick_capabilities_payload payload
  else Ok tt.

(** [x is None or isinstance(x, str) and ok(x)]. *)
Definition optional_str (ok : string -> bool) (j : json) : option (option string) :=
  match j with
  | JNull => Some None
  | JStr s => if ok s then Some (Some s) else None
  | _ => None
  end.

(** [QmtEvent.from_mapping]. *)
Definition from_mapping (value : json) : res QmtEvent :=
  (value <- need (as_dict value) "event must be an object" ;;
   do! check (match jget "protocol_version" value with
              | JStr v => bool_decide (v = BRIDGE_PROTOCOL_VERSION)
              | _ => false
              end) "unsupported bridge protocol version" ;;
   session_id <- need (nonempty_str (jget "session_id" value))
     "session_id must be a non-empty string" ;;
   sequence <- need (as_int (jget "sequence" value)) "sequence must be a positive integer" ;;
   do! check (0 <? sequence) "sequence must be a positive integer" ;;
   timestamp_ms <- need (as_int (jget "timestamp_ms" value))
     "timestamp_ms must be a positive integer" ;;
   do! check (0 <? timestamp_ms) "timestamp_ms must be a positive integer" ;;
   known <- member (jget "event_type" value) allowed_event_types ;;
   do! check known "unsupported event_type" ;;
   let event_type := default "" (as_str (jget "event_type" value)) in
   source <- need (nonempty_str (jget "source" value)) "source must be a non-empty string" ;;
   account_fingerprint <- need (f ← as_str (jget "account_fingerprint" value);
       if is_sha256 f then Some f else None) "invalid account_fingerprint" ;;
   account_type <- need (optional_str (fun _ => true) (jget "account_type" value))
     "account_type must be a string or null" ;;
   terminal_instance_id <- need (optional_str is_instance_id (jget "terminal_instance_id" value))
     "invalid terminal_instance_id" ;;
   payload <- need (as_dict (jget "payload" value)) "payload must be an object" ;;
   do! validate_payload event_type payload ;;
   Ok {| qe_protocol_version := BRIDGE_PROTOCOL_VERSION; qe_session_id := session_id;
         qe_sequence := sequence; qe_timestamp_ms := timestamp_ms; qe_event_type := event_type;
         qe_source := source; qe_account_fingerprint := account_fingerprint;
         qe_account_type := account_type; qe_payload := payload;
         qe_terminal_instance_id := terminal_instance_id |})%py.

(** The mapping [encode_transport_frame] builds from an event. *)
Definition event_mapping (event : QmtEvent) : jdict :=
  [("protocol_version", JStr (qe_protocol_version event));
   ("session_id", JStr (qe_session_id event)); ("sequence", JInt (qe_sequence event));
   ("timestamp_ms", JInt (qe_timestamp_ms event)); ("event_type", JStr (qe_event_type event));
   ("source", JStr (qe_source event));
   ("account_fingerprint", JStr (qe_account_fingerprint event));
   ("account_type", jopt_str (qe_account_type event));
   ("terminal_instance_id", jopt_str (qe_terminal_instance_id event));
   ("payload", JObj (qe_payload event))].

(** ** What an accepted event is *)

Lemma need_ok {A} (o : option A) msg a : need o msg = Ok a <-> o = Some a.
Proof. destruct o; cbn; naive_solver. Qed.

Lemma check_ok b msg u : check b msg = Ok u <-> b = true.
Proof. apply guard_r_ok. Qed.

Lemma nonempty_str_ok j s : nonempty_str j = Some s <-> j = JStr s /\ s <> "".
Proof. destruct j as [| | |[|a s']| | |]; cbn; naive_solver. Qed.

Lemma as_int_ok j z : as_int j = Some z <-> j = JInt z.
Proof. destruct j; cbn; naive_solver. Qed.

Lemma as_str_ok j s : as_str j = Some s <-> j = JStr s.
Proof. destruct j; cbn; naive_solver. Qed.

Lemma as_bool_ok j b : as_bool j = Some b <-> j = JBool b.
Proof. destruct j; cbn; naive_solver. Qed.

Lemma as_dict_ok j d : as_dict j = Some d <-> j = JObj d.
Proof. destruct j; cbn; naive_solver. Qed.

Lemma as_list_ok j l : as_list j = Some l <-> j = JArr l.
Proof. destruct j; cbn; naive_solver. Qed.

Lemma member_ok j l : member j l = Ok true <-> exists s, j = JStr s /\ s ∈ l.
Proof.
  destruct j; cbn; try (split; [discriminate | naive_solver]).
  split; [intros [= ?%bool_decide_eq_true]; eauto|].
  intros (s' & [= ->] & Hin). by rewrite bool_decide_true.
Qed.

(** Break an accepted computation of this file into its tests. *)
Ltac inv_wire :=
  repeat match goal with
  | H : res_bind _ _ = Ok _ |- _ => apply res_bind_ok in H; destruct H as (? & ? & H)
  | H : need _ _ = Ok _ |- _ => apply need_ok in H
  | H : check _ _ = Ok _ |- _ => apply check_ok in H
  | H : check ?b _ = Ok _ /\ _ |- _ => destruct H
  | H : Ok _ = Ok _ |- _ => injection H as H; subst
  | H : nonempty_str _ = Some _ |- _ => apply nonempty_str_ok in H as [? ?]
  | H : as_int _ = Some _ |- _ => apply as_int_ok in H
  | H : as_str _ = Some _ |- _ => apply as_str_ok in H
  | H : as_bool _ = Some _ |- _ => apply as_bool_ok in H
  | H : as_dict _ = Some _ |- _ => apply as_dict_ok in H
  | H : as_list _ = Some _ |- _ => apply as_list_ok in H
  | H : ?x = true |- _ => is_var x; subst x
  | u : unit |- _ => destruct u
  | H : member _ _ = Ok true |- _ => apply member_ok in H as (? & ? & ?)
  | H : ?j = JStr _, H' : context [as_str ?j] |- _ => rewrite H in H'; cbn [as_str default] in H'
  | H : ?j = JStr _ |- context [as_str ?j] => rewrite H; cbn [as_str default]
  end.

(** The envelope: what holds of an event whatever its type. *)
Record envelope_ok (e : QmtEvent) : Prop := {
  eo_version : qe_protocol_version e = BRIDGE_PROTOCOL_VERSION;
  eo_session : qe_session_id e <> "";
  eo_sequence : 0 < qe_sequence e;
  eo_timestamp : 0 < qe_timestamp_ms e;
  eo_type : qe_event_type e ∈ allowed_event_types;
  eo_source : qe_source e <> "";
  eo_account : is_sha256 (qe_account_fingerprint e) = true;
  eo_instance : match qe_terminal_instance_id e with Some i => is_instance_id i = true | None => True end;
  eo_payload : validate_payload (qe_event_type e) (qe_payload e) = Ok tt
}.

Lemma from_mapping_ok v e : from_mapping v = Ok e -> envelope_ok e.
Proof.
  unfold from_mapping. intros H. inv_wire. bool_to_prop.
  split; cbn; try done.
  - match goal with H : (_ ← as_str ?j; _) = Some _ |- _ => destruct (as_str j); cbn in H; [|done];
      by destruct (is_sha256 _) eqn:E in H; simplify_eq end.
  - match goal with H : optional_str _ ?j = Some ?o |- match ?o with _ => _ end =>
      destruct j; cbn in H; try done; simplify_eq; try done;
      destruct (is_instance_id _) eqn:E in H; by simplify_eq end.
Qed.

(** Look a literal key up in a literal object. *)
Ltac jget_step :=
  match goal with
  | |- context [jget ?k ?d] => let v := eval lazy head in (jget k d) in change (jget k d) with v
  end.

(** An event is accepted from its own mapping exactly when it is well-formed. *)
Lemma from_mapping_event e : envelope_ok e -> from_mapping (JObj (event_mapping e)) = Ok e.
Proof.
  intros [Hv Hs Hq Ht Hy Hsrc Ha Hi Hp]. destruct e as [pv sid sq ts ty src acc aty pl inst].
  cbn in Hv, Hs, Hq, Ht, Hy, Hsrc, Ha, Hi, Hp. subst pv. unfold from_mapping, event_mapping. cbn [as_dict need res_bind
    qe_protocol_version qe_session_id qe_sequence qe_timestamp_ms qe_event_type qe_source
    qe_account_fingerprint qe_account_type qe_payload qe_terminal_instance_id].
  repeat jget_step. cbn [nonempty_str as_int as_str as_dict member default check need].
  assert (Hne : forall s, s <> "" -> str_nonempty s = true) by (by intros []).
  rewrite !Hne by done. cbn [need res_bind].
  rewrite (proj2 (Z.ltb_lt 0 sq)), (proj2 (Z.ltb_lt 0 ts)), (bool_decide_true (ty ∈ _)) by done.
  cbn [mbind option_bind]. rewrite Ha. cbn [need check guard_r res_bind].
  destruct aty, inst; cbn [jopt_str optional_str need res_bind]; rewrite ?Hi; cbn [need res_bind];
    cbn [id]; by rewrite Hp.
Qed.

(** ** What an accepted payload may claim *)

(** The statuses after which the terminal may have called the broker. *)
Definition side_effect_statuses (execution_mode : string) : list string :=
  if decide (execution_mode = "SIMULATION_CALIBRATION") then simulation_side_effect_statuses
  else if decide (execution_mode = "LIVE_CANARY") then live_canary_side_effect_statuses
  else [].

Definition allowed_results (execution_mode command_type : string) : list string :=
  if decide (execution_mode = "SHADOW") then shadow_allowed command_type
  else if decide (execution_mode = "SIMULATION_CALIBRATION") then simulation_allowed command_type
  else if decide (execution_mode = "LIVE_CANARY") then live_canary_allowed command_type
  else [].

(** A result names its command, has a status its mode allows for that type of
    command, claims a side effect exactly when the status is one after which the
    broker may have been called, and carries the identity of an order exactly when
    the command is about one. *)
Definition result_claims (p : jdict) : Prop :=
  exists command_id command_type execution_mode result_status,
    jget "command_id" p = JStr command_id /\ command_id <> "" /\
    jget "command_type" p = JStr command_type /\ command_type ∈ command_types /\
    jget "execution_mode" p = JStr execution_mode /\
    jget "result_status" p = JStr result_status /\
    result_status ∈ allowed_results execution_mode command_type /\
    jget "live_side_effect" p =
      JBool (bool_decide (result_status ∈ side_effect_statuses execution_mode)) /\
    if decide (command_type = "REQUEST_SNAPSHOT") then
      jget "client_order_id" p = JNull /\ jget "broker_token" p = JNull
    else exists client_order_id broker_token,
      jget "client_order_id" p = JStr client_order_id /\ client_order_id <> "" /\
      jget "broker_token" p = JStr broker_token /\ is_broker_token broker_token = true.

Lemma allowed_by_command_ok mode allowed :
  allowed_by_command mode = Some allowed ->
  exists m, mode = JStr m /\ forall ty, allowed ty = allowed_results m ty.
Proof.
  intros H. destruct mode as [| | |m| | |]; cbn in H; try done. exists m. split; [done|]. intros ty.
  unfold allowed_results. by repeat case_decide; simplify_eq.
Qed.

Lemma check_side_effect_ok m allowed se status :
  allowed_by_command (JStr m) = Some allowed -> check_side_effect (JStr m) se status = Ok tt ->
  se = bool_decide (status ∈ side_effect_statuses m).
Proof.
  unfold allowed_by_command, check_side_effect, side_effect_statuses.
  repeat case_decide; subst; intros Hm Hc; try done; apply check_ok in Hc.
  all: first [by apply eqb_prop in Hc | rewrite bool_decide_false by apply not_elem_of_nil; by destruct se].
Qed.

Lemma command_result_ok p : validate_command_result_payload p = Ok tt -> result_claims p.
Proof.
  unfold validate_command_result_payload. intros H. inv_wire.
  match goal with H : allowed_by_command _ = Some _ |- _ =>
    pose proof H as Hmode; apply allowed_by_command_ok in H as (m & Hm & Hallowed) end.
  cbn [id] in *. rewrite Hm in *. rewrite Hallowed in *.
  match goal with H : check_side_effect _ _ _ = _ |- _ =>
    pose proof (check_side_effect_ok _ _ _ _ Hmode H) as -> end.
  do 4 eexists. do 8 (split; [eassumption|]).
  unfold check_order_identity in *. case_decide; inv_wire.
  - bool_to_prop. by destruct (jget "client_order_id" p), (jget "broker_token" p).
  - destruct (as_str _) eqn:Et; [|done]. apply as_str_ok in Et. eauto 10.
Qed.

(** The type an account record names, and whether it was detected. *)
Definition record_type (r : json) : string :=
  default "" (as_dict r ≫= fun d => as_str (jget "account_type" d)).

Definition is_detected (r : json) : bool :=
  match as_dict r with
  | Some d => match as_str (jget "status" d) with
              | Some status => bool_decide (status ∈ ["DETECTED"; "DEGRADED"])
              | None => false
              end
  | None => false
  end.

Lemma all_objects l : forallb is_obj l = true -> exists rows, l = JObj <$> rows.
Proof.
  induction l as [|j l IH]; cbn; [by exists []|]. intros [Hj Hl]%andb_true_iff.
  destruct (IH Hl) as [rows ->]. destruct j as [| | | | |d|]; try done. by exists (d :: rows).
Qed.

(** An account record: a well-formed account and rows of objects. *)
Definition record_ok (r : json) : Prop :=
  exists d f, r = JObj d /\ jget "account_fingerprint" d = JStr f /\ is_sha256 f = true /\
    Forall (fun key => exists rows, jget key d = JArr (JObj <$> rows))
      ["account"; "positions"; "query_errors"].

(** A capabilities report: its records are of distinct types and well-formed
    accounts, the types it calls detected are exactly those of the records that
    were, and it claims authority to submit and to cancel together, never under
    SHADOW. *)
Definition capability_claims (p : jdict) : Prop :=
  (exists detected accounts,
    jget "detected_account_types" p = JArr (JStr <$> detected) /\
    jget "accounts" p = JArr accounts /\ accounts <> [] /\
    NoDup (record_type <$> accounts) /\
    detected = record_type <$> List.filter is_detected accounts /\
    Forall record_ok accounts) /\
  exists live, jget "live_submit" p = JBool live /\ jget "live_cancel" p = JBool live /\
    (live = true ->
     jget "execution_mode" p = JStr "SIMULATION_CALIBRATION" /\
       jget "simulation_only" p = JBool true \/
     jget "execution_mode" p = JStr "LIVE_CANARY" /\ jget "simulation_only" p = JBool false).

Lemma account_record_ok seen r t b :
  account_record seen r = Ok (t, b) ->
  (t ∉ seen) /\ record_type r = t /\ is_detected r = b /\ record_ok r.
Proof.
  unfold account_record. intros H. inv_wire. bool_to_prop.
  match goal with H : jget "status" _ = _, H' : member _ _ = _ |- _ =>
    rewrite H in H'; cbn [member] in H'; injection H' as <-; subst;
    unfold is_detected; cbn [as_dict]; rewrite H end.
  unfold record_type. cbn [as_dict mbind option_bind as_str].
  match goal with H : jget "account_type" _ = _ |- _ => rewrite H end.
  do 3 (split; [done|]). destruct (as_str _) eqn:E; [|done]. apply as_str_ok in E.
  do 2 eexists. do 3 (split; [done|]).
  match goal with H : res_iter _ _ = _ |- _ => rewrite res_iter_ok in H; revert H end.
  intros Hr. eapply Forall_impl; [exact Hr|]. intros key Hk%check_ok. destruct (as_list _) as [l|] eqn:El; [|done].
  apply as_list_ok in El as ->. destruct (all_objects l Hk) as [rows ->]. eauto.
Qed.

Lemma observed_types_ok records seen observed l :
  NoDup seen -> observed_types records seen observed = Ok l ->
  NoDup ((record_type <$> records) ++ seen) /\
  l = observed ++ (record_type <$> List.filter is_detected records) /\
  Forall record_ok records.
Proof.
  revert seen observed. induction records as [|r records IH]; cbn; intros seen observed Hs H.
  - injection H as <-. by rewrite app_nil_r.
  - inv_wire. match goal with H : account_record _ _ = Ok ?p |- _ => destruct p as [t b] end.
    match goal with H : account_record _ _ = _ |- _ =>
      apply account_record_ok in H as (Hn & Ht & Hb & Hd) end.
    cbn in H. apply IH in H as (Hnd & -> & Hf); [|by constructor]. rewrite Ht, Hb. split.
    { apply NoDup_app in Hnd as (H1 & H2 & H3). apply NoDup_cons in H3 as [H3 H4].
      constructor; [|apply NoDup_app; split; [done|]; split; [|done]].
      - rewrite elem_of_app. intros [Hi | Hi]; [|done]. apply (H2 t Hi). left.
      - intros x Hx Hx'. apply (H2 x Hx). by right. }
    split; [|by constructor]. by destruct b; cbn; rewrite ?Ht, <-?app_assoc.
Qed.

Lemma mapM_nonempty_str l d : mapM nonempty_str l = Some d -> l = JStr <$> d.
Proof.
  intros H%mapM_Some. induction H as [|j s l d Hj _ IH]; [done|]. cbn. rewrite IH.
  apply nonempty_str_ok in Hj as [-> _]. done.
Qed.

Lemma authority_ok p :
  check_authority p = Ok tt ->
  exists live, jget "live_submit" p = JBool live /\ jget "live_cancel" p = JBool live /\
    (live = true ->
     jget "execution_mode" p = JStr "SIMULATION_CALIBRATION" /\
       jget "simulation_only" p = JBool true \/
     jget "execution_mode" p = JStr "LIVE_CANARY" /\ jget "simulation_only" p = JBool false).
Proof.
  assert (HF : forall j, is_false j = true -> j = JBool false) by (by intros [|[]| | | | |]).
  assert (HT : forall j, is_true j = true -> j = JBool true) by (by intros [|[]| | | | |]).
  assert (Hnone : is_false (jget "live_submit" p) && is_false (jget "live_cancel" p) = true ->
    exists live, jget "live_submit" p = JBool live /\ jget "live_cancel" p = JBool live /\
      (live = true -> False)).
  { intros H. bool_to_prop. exists false. split; [auto|]. split; [auto|done]. }
  unfold check_authority. destruct (dict_get "execution_mode" p) as [j|] eqn:E.
  2: { intros H%check_ok. destruct (Hnone H) as (live & ? & ? & ?). exists live. naive_solver. }
  assert (jget "execution_mode" p = j) as -> by (unfold jget; by rewrite E).
  destruct j as [| | |m| | |]; cbn [from_option id]; try discriminate.
  destruct (decide (m = "SHADOW")) as [_|_].
  { intros H%check_ok. destruct (Hnone H) as (live & ? & ? & ?). exists live. naive_solver. }
  destruct (decide (m = _)) as [->|_]; [|destruct (decide (m = _)) as [->|_]; [|discriminate]];
    intros H%check_ok; bool_to_prop; exists true; auto 6.
Qed.

Lemma capabilities_ok p : validate_account_capabilities_payload p = Ok tt -> capability_claims p.
Proof.
  unfold validate_account_capabilities_payload. intros H. inv_wire. bool_to_prop. subst.
  split; [|by apply authority_ok].
  destruct (as_list _) as [l|] eqn:El; [|done]. apply as_list_ok in El.
  match goal with H : _ = Some ?d, H' : observed_types _ _ _ = Ok ?d |- _ =>
    apply mapM_nonempty_str in H; apply observed_types_ok in H' as (Hnd & Hd & Hf); [|constructor];
    exists d end.
  rewrite app_nil_r in Hnd. subst l.
  eexists. do 2 (split; [eassumption|]). split; [by intros ->|]. by split.
Qed.

(** The rows of a snapshot, by key. *)
Definition snapshot_rows (p : jdict) : Prop :=
  Forall (fun key => exists rows, jget key p = JArr (JObj <$> rows))
    ["account"; "positions"; "orders"; "deals"] /\
  exists errors, jget "query_errors" p = JArr errors.

Lemma snapshot_ok p : validate_snapshot_payload p = Ok tt -> snapshot_rows p.
Proof.
  unfold validate_snapshot_payload. intros H. inv_wire.
  rewrite !res_iter_ok, !Forall_cons in *. destruct_and?. inv_wire. split.
  - repeat constructor;
      match goal with |- exists rows, jget ?k p = _ =>
        match goal with Hk : jget k p = JArr ?l, Ho : forallb is_obj (default [] (as_list (jget k p))) = true |- _ =>
          rewrite Hk in Ho; destruct (all_objects l Ho) as [rows ->]; by exists rows end end.
  - eauto.
Qed.

(** The ticks a capabilities report counts are those its records observed. *)
Definition observed_tick (r : json) : bool :=
  match as_dict r with Some d => is_true (jget "tick_observed" d) | None => false end.

Lemma count_ticks_ok records n k :
  forallb is_obj records = true -> count_ticks records n = Ok k ->
  k = n + Z.of_nat (length (List.filter observed_tick records)).
Proof.
  revert n. induction records as [|r records IH]; cbn; intros n Ho H; [injection H as <-; lia|].
  apply andb_true_iff in Ho as [Hr Ho]. destruct r as [| | | | |d|]; try done.
  unfold tick_record in H. inv_wire. apply IH in H; [|done].
  assert (observed_tick (JObj d) = x) as ->.
  { unfold observed_tick. cbn [as_dict from_option id] in *.
    by match goal with H : jget "tick_observed" d = _ |- _ => rewrite H end. }
  subst k. destruct x; cbn [length]; lia.
Qed.

Lemma ticks_ok p :
  validate_instrument_tick_capabilities_payload p = Ok tt ->
  exists records, jget "candidates" p = JArr records /\ records <> [] /\
    jget "observed_count" p = JInt (Z.of_nat (length (List.filter observed_tick records))).
Proof.
  unfold validate_instrument_tick_capabilities_payload. intros H. inv_wire. bool_to_prop.
  match goal with H : count_ticks _ _ = _ |- _ => apply count_ticks_ok in H; [|done] end.
  eexists. split; [eassumption|]. split; [by intros ->|]. subst. by rewrite Z.add_0_l in *.
Qed.

(** ** Errors *)

(** A check of this file can only raise [QmtProtocolError], or the [TypeError] of
    hashing a list or an object. *)
Definition wire_errors {A} (m : res A) : Prop :=
  forall x, m = Err x -> exn_cls x = QmtProtocolError \/ exn_cls x = TypeError.

Lemma wire_errors_ok {A} (a : A) : wire_errors (Ok a).
Proof. by intros x. Qed.

Lemma wire_errors_bind {A B} (m : res A) (f : A -> res B) :
  wire_errors m -> (forall a, wire_errors (f a)) -> wire_errors (res_bind m f).
Proof. intros Hm Hf x [H | (a & _ & H)]%res_bind_err; [by apply Hm | by apply (Hf a)]. Qed.

Lemma wire_errors_need {A} (o : option A) msg : wire_errors (need o msg).
Proof. destruct o; intros x; cbn; [done|]. intros [= <-]. by left. Qed.

Lemma wire_errors_check b msg : wire_errors (check b msg).
Proof. destruct b; intros x; cbn; [done|]. intros [= <-]. by left. Qed.

Lemma wire_errors_member j l : wire_errors (member j l).
Proof. destruct j; intros y; cbn; try done; intros [= <-]; by right. Qed.

Lemma wire_errors_iter {A} (f : A -> res unit) l :
  (forall a, wire_errors (f a)) -> wire_errors (res_iter f l).
Proof.
  intros Hf. induction l as [|a l IH]; [apply wire_errors_ok|].
  apply wire_errors_bind; [apply Hf | done].
Qed.

Create HintDb wire.
#[export] Hint Resolve wire_errors_ok wire_errors_need wire_errors_check wire_errors_member : wire.

Ltac wire_errors_tac :=
  repeat match goal with
  | |- forall _, _ => intros ?
  | |- wire_errors (res_bind _ _) => apply wire_errors_bind
  | |- wire_errors (res_iter _ _) => apply wire_errors_iter
  | |- wire_errors (if ?b then _ else _) => destruct b
  | |- wire_errors (match ?j with _ => _ end) => destruct j
  | |- wire_errors (let _ := _ in _) => cbv zeta
  | |- _ => solve [auto with wire]
  end.

Lemma count_ticks_errors l n : wire_errors (count_ticks l n).
Proof.
  revert n. induction l as [|r l IH]; cbn [count_ticks]; intros n; unfold tick_record; wire_errors_tac.
Qed.

Lemma observed_types_errors l seen o : wire_errors (observed_types l seen o).
Proof.
  revert seen o. induction l as [|r l IH]; cbn [observed_types]; intros seen o; unfold account_record;
    wire_errors_tac.
Qed.

#[export] Hint Resolve count_ticks_errors observed_types_errors : wire.

Lemma validate_payload_errors ty p : wire_errors (validate_payload ty p).
Proof.
  unfold validate_payload, validate_snapshot_payload, validate_command_result_payload,
    validate_account_capabilities_payload, validate_instrument_capabilities_payload,
    validate_instrument_tick_capabilities_payload, check_side_effect, check_order_identity,
    check_authority. wire_errors_tac.
Qed.

#[export] Hint Resolve validate_payload_errors : wire.

Lemma from_mapping_errors v : wire_errors (from_mapping v).
Proof. unfold from_mapping. wire_errors_tac. Qed.

(** C30. What the event contract accepts.  An accepted event is well-formed and is
    the one its own mapping is read back as; a command result names a status its
    mode allows and claims a side effect exactly when the broker may have been
    called; a capabilities report claims authority never under SHADOW and detected
    types that are those of its records; a snapshot has its rows; counted ticks
    are counted right.  What is refused is refused with [QmtProtocolError], or
    with the [TypeError] of an unhashable value. *)
Theorem wire_contract v :
  match from_mapping v with
  | Ok e =>
      envelope_ok e /\ from_mapping (JObj (event_mapping e)) = Ok e /\
      (qe_event_type e = "command_result" -> result_claims (qe_payload e)) /\
      (qe_event_type e = "account_capabilities" -> capability_claims (qe_payload e)) /\
      (qe_event_type e = "snapshot" -> snapshot_rows (qe_payload e)) /\
      (qe_event_type e = "instrument_tick_capabilities" ->
       exists records, jget "candidates" (qe_payload e) = JArr records /\ records <> [] /\
         jget "observed_count" (qe_payload e) =
           JInt (Z.of_nat (length (List.filter observed_tick records))))
  | Err x => exn_cls x = QmtProtocolError \/ exn_cls x = TypeError
  end.
Proof.
  destruct (from_mapping v) as [e|x] eqn:E; [|by apply (from_mapping_errors v)].
  apply from_mapping_ok in E as He. split; [done|]. split; [by apply from_mapping_event|].
  pose proof (eo_payload _ He) as Hp. unfold validate_payload in Hp.
  split; [|split; [|split]]; intros Ht; rewrite Ht in Hp.
  - by apply command_result_ok.
  - by apply capabilities_ok.
  - by apply snapshot_ok.
  - by apply ticks_ok.
Qed.

(** ** Concrete events *)

Definition demo_account : string :=
  "sha256:00000000000000000000000000000000000000000000000000000000000000aa".

(** An event of session [s], number [n], of a type and with a payload. *)
Definition demo_event (s : string) (n : Z) (ty : string) (payload : jdict) : QmtEvent :=
  {| qe_protocol_version := "0.2"; qe_session_id := s; qe_sequence := n;
     qe_timestamp_ms := 1750000000000 + n; qe_event_type := ty; qe_source := "qmt";
     qe_account_fingerprint := demo_account; qe_account_type := Some "STOCK";
     qe_payload := payload; qe_terminal_instance_id := None |}.

Definition demo_snapshot (s : string) (n : Z) (orders : list json) : QmtEvent :=
  demo_event s n "snapshot"
    [("account", JArr []); ("positions", JArr []); ("orders", JArr orders); ("deals", JArr []);
     ("query_errors", JArr [])].

(** An event whose type is a list is not refused as a malformed event. *)
Example unhashable_type :
  from_mapping (JObj (dict_set "event_type" (JArr [])
    (event_mapping (demo_event "s" 1 "order" [])))) = raise TypeError "unhashable type: 'list'".
Proof. vm_compute. reflexivity. Qed.
