(* ===== verification/Frame.v ===== *)
(** * Frame: the transport frames of bridge events

    [encode_transport_frame] and [decode_transport_frame] of qmt/protocol.py: one
    line of JSON around the event's mapping.  A frame is its list of bytes.  What
    was accepted can be encoded and reads back as the same event. *)

From S2P Require Import Prelude Json Parse Domain BrokerEvidence Wire.
Open Scope Z_scope.

Definition TRANSPORT_VERSION : string := "1".
Definition MAX_FRAME_BYTES : Z := 1024 * 1024.

Definition frame_size (raw : list Z) : Z := Z.of_nat (length raw).

Definition line_feed : string := String (ascii_of_N 10) "".

(** The text of a frame: [json.dumps] without sorting, and a newline. *)
Definition frame_text (event : json) : string :=
  render false (JObj [("transport_version", JStr TRANSPORT_VERSION); ("event", event)])
  +:+ line_feed.

Definition frame_of (event : json) : res (list Z) :=
  let raw := utf8 (frame_text event) in
  (do! check (frame_size raw <=? MAX_FRAME_BYTES) "transport frame exceeds maximum size" ;;
   Ok raw)%py.

(** [encode_transport_frame] of an event, and of a mapping. *)
Definition encode_transport_frame (event : QmtEvent) : res (list Z) :=
  frame_of (JObj (event_mapping event)).

Definition encode_transport_mapping (event_mapping : json) : res (list Z) :=
  (do! from_mapping event_mapping ;; frame_of event_mapping)%py.

(** [raw.rstrip(b"\n")]. *)
Fixpoint drop_newlines (l : list Z) : list Z :=
  match l with
  | b :: r => if b =? 10 then drop_newlines r else l
  | [] => []
  end.
Definition rstrip_newlines (raw : list Z) : list Z := rev (drop_newlines (rev raw)).

(** [except (UnicodeDecodeError, json.JSONDecodeError)]. *)
Definition is_json_error (e : exn) : bool :=
  bool_decide (exn_cls e ∈ [UnicodeDecodeError; JSONDecodeError]).

Definition decode_transport_frame (raw : list Z) : res QmtEvent :=
  (do! check (negb (bool_decide (raw = [])) && (frame_size raw <=? MAX_FRAME_BYTES))
         "invalid transport frame size" ;;
   do! check (negb (existsb (Z.eqb 10) (rstrip_newlines raw)))
         "transport frame must contain exactly one JSON line" ;;
   body <- match res_bind (utf8_decode raw) loads with
           | Err e => if is_json_error e then raise QmtProtocolError "invalid JSON transport frame"
                      else Err e
           | Ok body => Ok body
           end ;;
   body <- need (as_dict body) "transport frame must be an object" ;;
   do! check (match jget "transport_version" body with
              | JStr v => bool_decide (v = TRANSPORT_VERSION) | _ => false end)
         "unsupported transport version" ;;
   event <- need (as_dict (jget "event" body)) "transport frame event must be an object" ;;
   from_mapping (JObj event))%py.

(** ** Frames read back *)

Lemma rstrip_line s : one_line s = true -> existsb (Z.eqb 10) (rstrip_newlines (utf8 (s +:+ line_feed))) = false.
Proof.
  intros Hs. rewrite utf8_app. unfold rstrip_newlines. change (utf8 line_feed) with [10].
  rewrite rev_app_distr. cbn [rev app drop_newlines]. rewrite Z.eqb_refl.
  assert (Hd : forall l, existsb (Z.eqb 10) l = false -> drop_newlines l = l).
  { intros [|b l]; [done|]. cbn [existsb]. intros [Hb _]%orb_false_iff. cbn [drop_newlines]. by rewrite Z.eqb_sym, Hb. }
  assert (Hr : forall l, existsb (Z.eqb 10) (rev l) = existsb (Z.eqb 10) l).
  { induction l as [|b l IH]; [done|]. cbn. rewrite existsb_app, IH. cbn. by rewrite orb_false_r, orb_comm. }
  rewrite Hd by (rewrite Hr; by apply utf8_one_line). by rewrite rev_involutive, utf8_one_line.
Qed.

Lemma frame_one_line j : existsb (Z.eqb 10) (rstrip_newlines (utf8 (frame_text j))) = false.
Proof. apply rstrip_line, render_one_line. Qed.

Lemma frame_nonempty j : bool_decide (utf8 (frame_text j) = []) = false.
Proof.
  apply bool_decide_eq_false. unfold frame_text. rewrite utf8_app. by destruct (utf8 (render _ _)).
Qed.

Lemma read_body d :
  well_keyed (JObj d) = true ->
  loads (frame_text (JObj d))
  = Ok (JObj [("transport_version", JStr TRANSPORT_VERSION); ("event", JObj d)]).
Proof.
  intros Hk. unfold frame_text. apply loads_line; [|reflexivity].
  change (well_keyed (JObj d) && true = true). by rewrite Hk.
Qed.

Lemma frame_of_ok j raw :
  frame_of j = Ok raw ->
  raw = utf8 (frame_text j) /\ (frame_size (utf8 (frame_text j)) <=? MAX_FRAME_BYTES) = true.
Proof.
  unfold frame_of. generalize (utf8 (frame_text j)). intros l (u & Hsize%check_ok & H)%res_bind_ok.
  by simplify_eq.
Qed.

Lemma decode_frame_of d raw :
  well_keyed (JObj d) = true -> frame_of (JObj d) = Ok raw ->
  decode_transport_frame raw = from_mapping (JObj d).
Proof.
  intros Hk [-> Hsize]%frame_of_ok. unfold decode_transport_frame.
  rewrite Hsize, frame_nonempty, frame_one_line, utf8_decode_utf8.
  cbn [negb andb check guard_r res_bind]. by rewrite read_body.
Qed.

(** What is in a well-keyed dict is well-keyed. *)
Lemma jget_well_keyed k d : well_keyed (JObj d) = true -> well_keyed (jget k d) = true.
Proof.
  cbn [well_keyed]. intros [_ Hd]%andb_true_iff. unfold jget.
  induction d as [|[k' v] d IH]; [done|]. cbn [forallb snd] in Hd. apply andb_true_iff in Hd as [Hv Hd].
  cbn. case_bool_decide; [done | by apply IH].
Qed.

Lemma from_mapping_well_keyed d e :
  from_mapping (JObj d) = Ok e -> well_keyed (JObj d) = true ->
  well_keyed (JObj (event_mapping e)) = true.
Proof.
  intros H Hd. unfold from_mapping in H. inv_wire.
  match goal with E : JObj d = JObj ?x |- _ => injection E as <- end.
  pose proof (fun k => jget_well_keyed k d Hd) as Hk.
  repeat match goal with
  | E : jget ?k d = JInt _ |- _ => pose proof (Hk k) as Hz; rewrite E in Hz; revert Hz; clear E
  | E : jget ?k d = JObj _ |- _ => pose proof (Hk k) as Hz; rewrite E in Hz; revert Hz; clear E
  end.
  clear. intros H1 H2 H3.
  change (well_keyed (JObj (event_mapping ?e))) with
    (bool_decide (NoDup (event_mapping e).*1) &&
     forallb (fun p => well_keyed p.2) (event_mapping e)).
  apply andb_true_iff. split; [vm_compute; reflexivity|]. apply forallb_forall.
  assert (Ho : forall o, well_keyed (jopt_str o) = true) by (by intros []).
  intros p Hp. cbn [event_mapping In qe_sequence qe_timestamp_ms qe_payload] in Hp.
  repeat (destruct Hp as [<- | Hp]; [by cbn [snd]; rewrite ?Ho|]). done.
Qed.

Definition frame_errors : list exn_class := [QmtProtocolError; TypeError; Beyond].

Lemma wire_frame {A} (m : res A) x : wire_errors m -> m = Err x -> exn_cls x ∈ frame_errors.
Proof. intros Hm [-> | ->]%Hm; unfold frame_errors; set_solver. Qed.

Lemma decode_frame_errors raw x : decode_transport_frame raw = Err x -> exn_cls x ∈ frame_errors.
Proof.
  unfold decode_transport_frame. intros H.
  repeat (apply res_bind_err in H as [H | (? & _ & H)]);
    try (eapply wire_frame; [|exact H]; first [apply from_mapping_errors | auto with wire]; fail).
  destruct (res_bind (utf8_decode raw) loads) as [j|y] eqn:E; [done|].
  assert (Hy : exn_cls y ∈ [JSONDecodeError; UnicodeDecodeError; Beyond]).
  { eapply decode_errors_bind; [apply utf8_decode_errors | apply loads_errors | exact E]. }
  unfold is_json_error in H. case_bool_decide as Hc; injection H as <-; unfold frame_errors; set_solver.
Qed.

Lemma encode_frame e : encode_transport_frame e = frame_of (JObj (event_mapping e)).
Proof. reflexivity. Qed.

(** An accepted frame holds a well-keyed mapping of its event. *)
Lemma decoded_mapping raw e :
  decode_transport_frame raw = Ok e ->
  exists d, from_mapping (JObj d) = Ok e /\ well_keyed (JObj d) = true.
Proof.
  unfold decode_transport_frame. intros E. apply res_bind_ok in E as (u1 & _ & E).
  apply res_bind_ok in E as (u2 & _ & E). apply res_bind_ok in E as (body & Hbody & E).
  apply res_bind_ok in E as (d & Hd & E). apply res_bind_ok in E as (u3 & _ & E).
  apply res_bind_ok in E as (d' & Hd' & E).
  apply need_ok, as_dict_ok in Hd as ->. apply need_ok, as_dict_ok in Hd'.
  exists d'. split; [done|]. rewrite <-Hd'. apply jget_well_keyed.
  destruct (res_bind _ loads) as [j|x] eqn:Ej; [|by destruct (is_json_error x)].
  injection Hbody as ->. apply res_bind_ok in Ej as (s & _ & Ej). by eapply loads_well_keyed.
Qed.

(** Frames are a faithful encoding: the event of an accepted frame, encoded
    again, is a frame of that very event; and a frame that is refused is refused
    with [QmtProtocolError], or the [TypeError] of an unhashable value ([Beyond]:
    outside the model). *)
Theorem frame_contract raw :
  match decode_transport_frame raw with
  | Ok e => forall raw', encode_transport_frame e = Ok raw' -> decode_transport_frame raw' = Ok e
  | Err x => exn_cls x ∈ frame_errors
  end.
Proof.
  destruct (decode_transport_frame raw) as [e|x] eqn:E; [|by apply (decode_frame_errors raw)].
  apply decoded_mapping in E as (d & He & Hk). intros raw' Hraw.
  rewrite encode_frame in Hraw.
  rewrite (decode_frame_of (event_mapping e)); [|by eapply from_mapping_well_keyed | exact Hraw].
  apply from_mapping_event. by eapply from_mapping_ok.
Qed.
