(* ===== verification/Stream.v ===== *)
(** * Stream: events in order, the view they add up to, and where they go

    [Ingress] is [QmtIngressBuffer] of qmt/receiver.py: it pins the account and
    the terminal, detects replays and gaps, and says whether a snapshot is needed.
    [ReadModel] is qmt/read_model.py: the Host's current view of the broker.
    [Ingestion] is qmt/ingestion.py: it feeds the view and routes facts to the OMS
    or to a bounded quarantine.  [run_of] is the abstract view: a clean snapshot
    and the contiguous events since. *)

From S2P Require Import Prelude PyTime TimeFacts Json Domain Db OrderStore BrokerEvidence Parts Wire.
Open Scope Z_scope.

(** ** Equality of decoded JSON, as Python has it

    [True == 1], and two dicts are equal whatever the order of their keys. *)
Fixpoint py_eq (a b : json) {struct a} : bool :=
  match a, b with
  | JNull, JNull => true
  | JBool x, JBool y => eqb x y
  | JBool x, JInt y => (if x then 1 else 0) =? y
  | JInt x, JBool y => x =? (if y then 1 else 0)
  | JInt x, JInt y => x =? y
  | JFloat x, JFloat y => float_eqb x y
  | JFloat x, JInt y | JInt y, JFloat x => float_is y x
  | JFloat x, JBool y | JBool y, JFloat x => float_is (if y then 1 else 0) x
  | JStr x, JStr y => bool_decide (x = y)
  | JArr l, JArr l' =>
      (fix go l l' := match l, l' with
                      | [], [] => true
                      | x :: l, y :: l' => py_eq x y && go l l'
                      | _, _ => false
                      end) l l'
  | JObj l, JObj l' =>
      (length l =? length l')%nat &&
      (fix go l := match l with
                   | [] => true
                   | (k, x) :: l =>
                       match dict_get k l' with Some y => py_eq x y | None => false end && go l
                   end) l
  | _, _ => false
  end.

(** [dict(a) == dict(b)]. *)
Definition dict_eq (a b : jdict) : bool := py_eq (JObj a) (JObj b).

(** ** The ingress buffer *)

Module Ingress.
Inductive IngressDisposition := ACCEPTED | DUPLICATE | GAP.

#[global] Instance disposition_eq_dec : EqDecision IngressDisposition.
Proof. solve_decision. Defined.

Record IngressResult := {
  ir_disposition : IngressDisposition; ir_event : QmtEvent; ir_needs_resync : bool
}.

Record buffer := {
  ib_expected_account : option string; ib_expected_instance : option string;
  ib_session_id : option string; ib_last_sequence : Z; ib_needs_resync : bool;
  ib_events : list QmtEvent
}.

(** [QmtIngressBuffer.__init__]. *)
Definition buffer_init (account instance : option string) : buffer :=
  {| ib_expected_account := account; ib_expected_instance := instance; ib_session_id := None;
     ib_last_sequence := 0; ib_needs_resync := true; ib_events := [] |}.

(** A snapshot whose every query answered. *)
Definition clean_snapshot (event : QmtEvent) : bool :=
  bool_decide (qe_event_type event = "snapshot") &&
  negb (truthy (jget "query_errors" (qe_payload event))).

(** The session of the event, its sequence started if it is new. *)
Definition switch_session (event : QmtEvent) (b : buffer) : buffer :=
  if bool_decide (ib_session_id b = Some (qe_session_id event)) then b
  else {| ib_expected_account := ib_expected_account b;
          ib_expected_instance := ib_expected_instance b;
          ib_session_id := Some (qe_session_id event); ib_last_sequence := 0;
          ib_needs_resync := true; ib_events := ib_events b |}.

(** The account of the event, pinned if none was. *)
Definition pin_account (event : QmtEvent) (b : buffer) : buffer :=
  {| ib_expected_account := Some (qe_account_fingerprint event);
     ib_expected_instance := ib_expected_instance b; ib_session_id := ib_session_id b;
     ib_last_sequence := ib_last_sequence b; ib_needs_resync := ib_needs_resync b;
     ib_events := ib_events b |}.

(** A new event of the buffer's session is accepted: it advances the sequence,
    shows a gap, and a clean snapshot ends the need for one. *)
Definition accept (event : QmtEvent) (b : buffer) : IngressResult * buffer :=
  let gap := negb (ib_last_sequence b =? 0)
             && negb (qe_sequence event =? ib_last_sequence b + 1) in
  let needs := (ib_needs_resync b || gap) && negb (clean_snapshot event) in
  ({| ir_disposition := if gap then GAP else ACCEPTED; ir_event := event;
      ir_needs_resync := needs |},
   {| ib_expected_account := ib_expected_account b;
      ib_expected_instance := ib_expected_instance b; ib_session_id := ib_session_id b;
      ib_last_sequence := qe_sequence event; ib_needs_resync := needs;
      ib_events := ib_events b ++ [event] |}).

(** [QmtIngressBuffer.ingest]. *)
Definition ingest (event : QmtEvent) (b : buffer) : res IngressResult * buffer :=
  if match ib_expected_instance b with
     | Some i => negb (bool_decide (qe_terminal_instance_id event = Some i))
     | None => false
     end then (raise QmtIngressIdentityError "unexpected terminal_instance_id", b)
  else if match ib_expected_account b with
          | Some a => negb (bool_decide (qe_account_fingerprint event = a))
          | None => false
          end then (raise QmtIngressIdentityError "unexpected account_fingerprint", b)
  else
    let b := switch_session event (pin_account event b) in
    if qe_sequence event <=? ib_last_sequence b then
      (Ok {| ir_disposition := DUPLICATE; ir_event := event;
             ir_needs_resync := ib_needs_resync b |}, b)
    else let '(r, b) := accept event b in (Ok r, b).

(** [drain]. *)
Definition drain (b : buffer) : list QmtEvent * buffer :=
  (ib_events b,
   {| ib_expected_account := ib_expected_account b;
      ib_expected_instance := ib_expected_instance b; ib_session_id := ib_session_id b;
      ib_last_sequence := ib_last_sequence b; ib_needs_resync := ib_needs_resync b;
      ib_events := [] |}).
End Ingress.

(** ** The read model *)

Module ReadModel.
Import Ingress.

Record QmtSnapshotView := {
  sv_account_fingerprint : string; sv_account_type : option string; sv_session_id : string;
  sv_sequence : Z; sv_timestamp_ms : Z; sv_account : list jdict; sv_positions : list jdict;
  sv_orders : list jdict; sv_deals : list jdict; sv_healthy : bool
}.

Record model := {
  rm_view : option QmtSnapshotView; rm_needs_resync : bool; rm_linked_accounts : list jdict
}.

Definition model_init : model :=
  {| rm_view := None; rm_needs_resync := true; rm_linked_accounts := [] |}.

(** [QmtReadModel.healthy]. *)
Definition healthy (m : model) : bool :=
  match rm_view m with Some v => sv_healthy v && negb (rm_needs_resync m) | None => false end.

(** [[dict(row) for row in record[key]]]; a validated payload has objects there. *)
Definition rows_of (key : string) (record : jdict) : res (list jdict) :=
  match dict_get key record with
  | None => raise KeyError key
  | Some (JArr l) => match mapM as_dict l with
                     | Some rows => Ok rows
                     | None => raise TypeError "row is not a mapping"
                     end
  | Some _ => raise TypeError "rows are not iterable"
  end.

(** [_from_snapshot]. *)
Definition from_snapshot (event : QmtEvent) (healthy : bool) : res QmtSnapshotView :=
  let payload := qe_payload event in
  (account <- rows_of "account" payload ;;
   positions <- rows_of "positions" payload ;;
   orders <- rows_of "orders" payload ;;
   deals <- rows_of "deals" payload ;;
   Ok {| sv_account_fingerprint := qe_account_fingerprint event;
         sv_account_type := qe_account_type event; sv_session_id := qe_session_id event;
         sv_sequence := qe_sequence event; sv_timestamp_ms := qe_timestamp_ms event;
         sv_account := account; sv_positions := positions; sv_orders := orders;
         sv_deals := deals; sv_healthy := healthy |})%py.

(** [_upsert_by_symbol]. *)
Definition upsert_by_symbol (rows : list jdict) (payload : jdict) : list jdict :=
  let symbol := jget "symbol" payload in
  if negb (truthy symbol) then rows ++ [payload]
  else
    let same row := py_eq (jget "symbol" row) symbol in
    List.map (fun row => if same row then payload else row) rows
    ++ (if existsb same rows then [] else [payload]).

(** [_append_event]. *)
Definition append_event (rows : list jdict) (payload : jdict) : list jdict := rows ++ [payload].

(** [_replace] of the view by an event: its rows, its sequence and time, and the
    current health. *)
Definition replace (m : model) (v : QmtSnapshotView) (event : QmtEvent)
    (account positions orders deals : list jdict) : QmtSnapshotView :=
  {| sv_account_fingerprint := sv_account_fingerprint v; sv_account_type := sv_account_type v;
     sv_session_id := sv_session_id v; sv_sequence := qe_sequence event;
     sv_timestamp_ms := qe_timestamp_ms event; sv_account := account;
     sv_positions := positions; sv_orders := orders; sv_deals := deals;
     sv_healthy := negb (rm_needs_resync m) |}.

(** The view after an event that is not a snapshot. *)
Definition advance (m : model) (v : QmtSnapshotView) (event : QmtEvent) : QmtSnapshotView :=
  let p := qe_payload event in
  let ty := qe_event_type event in
  if decide (ty = "account") then
    replace m v event [p] (sv_positions v) (sv_orders v) (sv_deals v)
  else if decide (ty = "position") then
    replace m v event (sv_account v) (upsert_by_symbol (sv_positions v) p) (sv_orders v) (sv_deals v)
  else if decide (ty = "order") then
    replace m v event (sv_account v) (sv_positions v) (append_event (sv_orders v) p) (sv_deals v)
  else if decide (ty = "deal") then
    replace m v event (sv_account v) (sv_positions v) (sv_orders v) (append_event (sv_deals v) p)
  else if decide (ty ∈ ["command_result"; "bridge_ready"; "bridge_error";
                        "instrument_capabilities"; "instrument_tick_capabilities"]) then
    replace m v event (sv_account v) (sv_positions v) (sv_orders v) (sv_deals v)
  else v.

(** One record of [account_capabilities], its rows copied. *)
Definition linked_account (record : json) : res jdict :=
  (d <- match as_dict record with
        | Some d => Ok d
        | None => raise TypeError "record is not a mapping"
        end ;;
   account <- rows_of "account" d ;;
   positions <- rows_of "positions" d ;;
   query_errors <- rows_of "query_errors" d ;;
   Ok (dict_set "query_errors" (JArr (JObj <$> query_errors))
        (dict_set "positions" (JArr (JObj <$> positions))
          (dict_set "account" (JArr (JObj <$> account)) d))))%py.

Fixpoint linked_accounts (records : list json) : res (list jdict) :=
  match records with
  | [] => Ok []
  | r :: records => (d <- linked_account r ;; l <- linked_accounts records ;; Ok (d :: l))%py
  end.

Definition set_view (v : option QmtSnapshotView) (m : model) : model :=
  {| rm_view := v; rm_needs_resync := rm_needs_resync m;
     rm_linked_accounts := rm_linked_accounts m |}.

(** [QmtReadModel.apply]: what [self._needs_resync] was set to stays set when a
    payload is refused later. *)
Definition apply (result : IngressResult) (m : model)
    : res (option QmtSnapshotView) * model :=
  let event := ir_event result in
  let m := {| rm_view := rm_view m; rm_needs_resync := ir_needs_resync result;
              rm_linked_accounts := rm_linked_accounts m |} in
  if decide (qe_event_type event = "account_capabilities") then
    match match dict_get "accounts" (qe_payload event) with
          | None => raise KeyError "accounts"
          | Some (JArr records) => linked_accounts records
          | Some _ => raise TypeError "accounts are not iterable"
          end with
    | Err e => (Err e, m)
    | Ok linked =>
        let view := (fun v => replace m v event (sv_account v) (sv_positions v) (sv_orders v)
                                (sv_deals v)) <$> rm_view m in
        (Ok view, {| rm_view := view; rm_needs_resync := rm_needs_resync m;
                     rm_linked_accounts := linked |})
    end
  else if decide (qe_event_type event = "snapshot") then
    match from_snapshot event (negb (ir_needs_resync result)) with
    | Err e => (Err e, m)
    | Ok v => (Ok (Some v), set_view (Some v) m)
    end
  else
    match rm_view m with
    | None => (Ok None, m)
    | Some v => let v := advance m v event in (Ok (Some v), set_view (Some v) m)
    end.
End ReadModel.

(** ** A synchronized view is the sum of a contiguous run *)

Section Runs.
Import Ingress ReadModel.

(** The Host feeds what the buffer accepts to the view; replays change nothing. *)
Definition feed (event : QmtEvent) (s : buffer * model) : buffer * model :=
  match Ingress.ingest event s.1 with
  | (Ok r, b) => (b, if decide (ir_disposition r = DUPLICATE) then s.2 else (apply r s.2).2)
  | (Err _, b) => (b, s.2)
  end.

Definition fed (events : list QmtEvent) (s : buffer * model) : buffer * model :=
  fold_left (fun s e => feed e s) events s.

(** Events that follow one another in one session of one account. *)
Fixpoint contiguous (first : QmtEvent) (rest : list QmtEvent) : Prop :=
  match rest with
  | [] => True
  | e :: rest =>
      qe_session_id e = qe_session_id first /\
      qe_account_fingerprint e = qe_account_fingerprint first /\
      qe_sequence e = qe_sequence first + 1 /\ contiguous e rest
  end.

Definition payloads (ty : string) (l : list QmtEvent) : list jdict :=
  qe_payload <$> List.filter (fun e => bool_decide (qe_event_type e = ty)) l.

Definition is_snapshot (e : QmtEvent) : bool := bool_decide (qe_event_type e = "snapshot").

Definition rows (key : string) (e : QmtEvent) : list jdict :=
  default [] (l ← as_list (jget key (qe_payload e)); mapM as_dict l).

(** The view of a snapshot and the events after it, without another snapshot. *)
Definition view_of (s : QmtEvent) (since : list QmtEvent) : QmtSnapshotView :=
  let tip := List.last since s in
  {| sv_account_fingerprint := qe_account_fingerprint s; sv_account_type := qe_account_type s;
     sv_session_id := qe_session_id s; sv_sequence := qe_sequence tip;
     sv_timestamp_ms := qe_timestamp_ms tip;
     sv_account := match last (payloads "account" since) with
                   | Some p => [p]
                   | None => rows "account" s
                   end;
     sv_positions := fold_left upsert_by_symbol (payloads "position" since) (rows "positions" s);
     sv_orders := rows "orders" s ++ payloads "order" since;
     sv_deals := rows "deals" s ++ payloads "deal" since; sv_healthy := true |}.

(** What a synchronized stream has accepted: some history, a clean snapshot, and a
    contiguous run up to the last event; the view is that of the last snapshot of
    the run. *)
Definition synchronized (accepted : list QmtEvent) (v : QmtSnapshotView) : Prop :=
  exists before clean run before' snap since,
    accepted = before ++ clean :: run /\ clean_snapshot clean = true /\ contiguous clean run /\
    clean :: run = before' ++ snap :: since /\ is_snapshot snap = true /\
    Forall (fun e => is_snapshot e = false) since /\ v = view_of snap since.

Definition with_health (h : bool) (v : QmtSnapshotView) : QmtSnapshotView :=
  {| sv_account_fingerprint := sv_account_fingerprint v; sv_account_type := sv_account_type v;
     sv_session_id := sv_session_id v; sv_sequence := sv_sequence v;
     sv_timestamp_ms := sv_timestamp_ms v; sv_account := sv_account v;
     sv_positions := sv_positions v; sv_orders := sv_orders v; sv_deals := sv_deals v;
     sv_healthy := h |}.

(** The view after an event that is not a snapshot, capabilities included. *)
Definition stepped (event : QmtEvent) (m : model) (v : QmtSnapshotView) : QmtSnapshotView :=
  if decide (qe_event_type event = "account_capabilities") then
    replace m v event (sv_account v) (sv_positions v) (sv_orders v) (sv_deals v)
  else advance m v event.

Lemma rows_of_ok key d l : jget key d = JArr (JObj <$> l) -> rows_of key d = Ok l.
Proof.
  unfold jget, rows_of. destruct (dict_get key d) as [j|]; [|done]. cbn [from_option id]. intros ->.
  assert (mapM as_dict (JObj <$> l) = Some l) as ->; [|done].
  apply mapM_Some. induction l; constructor; auto.
Qed.

Lemma rows_ok key e l : jget key (qe_payload e) = JArr (JObj <$> l) -> rows key e = l.
Proof.
  unfold rows. intros ->. cbn [as_list mbind option_bind].
  assert (mapM as_dict (JObj <$> l) = Some l) as ->; [|done].
  apply mapM_Some. induction l; constructor; auto.
Qed.

Lemma from_snapshot_ok e h :
  envelope_ok e -> is_snapshot e = true ->
  from_snapshot e h = Ok (with_health h (view_of e [])).
Proof.
  intros He Hs%bool_decide_eq_true. pose proof (eo_payload _ He) as Hp. rewrite Hs in Hp.
  apply snapshot_ok in Hp as [Hp _]. rewrite !Forall_cons in Hp.
  destruct Hp as ((r1 & H1) & (r2 & H2) & (r3 & H3) & (r4 & H4) & _).
  unfold from_snapshot. rewrite (rows_of_ok _ _ _ H1), (rows_of_ok _ _ _ H2),
    (rows_of_ok _ _ _ H3), (rows_of_ok _ _ _ H4).
  unfold with_health, view_of, payloads. cbn. rewrite !app_nil_r.
  by rewrite (rows_ok _ _ _ H1), (rows_ok _ _ _ H2), (rows_ok _ _ _ H3), (rows_ok _ _ _ H4).
Qed.

Lemma linked_accounts_ok records :
  Forall record_ok records -> exists l, linked_accounts records = Ok l.
Proof.
  induction 1 as [|r l (d & f & -> & _ & _ & Hk) _ [l' IH]]; cbn; [by eexists|].
  rewrite !Forall_cons in Hk. destruct Hk as ((r1 & H1) & (r2 & H2) & (r3 & H3) & _).
  rewrite (rows_of_ok _ _ _ H1), (rows_of_ok _ _ _ H2), (rows_of_ok _ _ _ H3). cbn.
  rewrite IH. by eexists.
Qed.

(** Applying a validated event never fails, and leaves a view that shows it. *)
Lemma apply_ok r m :
  envelope_ok (ir_event r) ->
  exists l, (apply r m).2 =
    {| rm_view :=
         if is_snapshot (ir_event r) then
           Some (with_health (negb (ir_needs_resync r)) (view_of (ir_event r) []))
         else stepped (ir_event r) {| rm_view := rm_view m; rm_needs_resync := ir_needs_resync r;
                                      rm_linked_accounts := rm_linked_accounts m |} <$> rm_view m;
       rm_needs_resync := ir_needs_resync r; rm_linked_accounts := l |}.
Proof.
  intros He. unfold apply, is_snapshot, stepped. cbv zeta.
  destruct (decide (qe_event_type (ir_event r) = "account_capabilities")) as [Ht|Ht].
  - pose proof (eo_payload _ He) as Hp. rewrite Ht in Hp.
    apply capabilities_ok in Hp as [(det & accs & _ & Ha & _ & _ & _ & Hf) _].
    unfold jget in Ha. destruct (dict_get "accounts" _) as [j|]; [|done].
    cbn [from_option id] in Ha. subst j. destruct (linked_accounts_ok _ Hf) as [l ->].
    exists l. rewrite bool_decide_false by (by rewrite Ht).
    by destruct (rm_view m).
  - destruct (decide (qe_event_type (ir_event r) = "snapshot")) as [Hs|Hs].
    + rewrite bool_decide_true by done.
      rewrite from_snapshot_ok; [by eexists | done | by apply bool_decide_eq_true].
    + rewrite bool_decide_false by done. destruct (rm_view m) as [v|]; by eexists.
Qed.

Lemma payloads_snoc ty l e :
  payloads ty (l ++ [e]) =
  payloads ty l ++ (if decide (qe_event_type e = ty) then [qe_payload e] else []).
Proof.
  unfold payloads. rewrite List.filter_app, fmap_app. cbn. by case_bool_decide; case_decide.
Qed.

Lemma last_snoc_event l (e s : QmtEvent) : List.last (l ++ [e]) s = e.
Proof. apply List.last_last. Qed.

(** A healthy view takes in one more event of its run. *)
Lemma view_of_snoc s since e m :
  envelope_ok e -> is_snapshot e = false -> rm_needs_resync m = false ->
  stepped e m (view_of s since) = view_of s (since ++ [e]).
Proof.
  intros He Hs%bool_decide_eq_false Hm. pose proof (eo_type _ He) as Ht.
  unfold stepped, advance, replace, view_of, append_event. rewrite Hm, !payloads_snoc, last_snoc_event.
  cbn [sv_account_fingerprint sv_account_type sv_session_id sv_account sv_positions sv_orders
    sv_deals negb].
  unfold allowed_event_types in Ht.
  repeat (apply elem_of_cons in Ht as [Ht|Ht]; [try done; rewrite Ht; repeat (case_decide; try done);
    rewrite ?last_snoc, ?fold_left_app, ?app_nil_r, ?app_assoc; try done; set_solver|]).
  by apply elem_of_nil in Ht.
Qed.

(** The stream as the buffer and the view know it. *)
Record stream_ok (s : buffer * model) : Prop := {
  so_flag : rm_needs_resync s.2 = ib_needs_resync s.1;
  so_account : Forall (fun e => ib_expected_account s.1 = Some (qe_account_fingerprint e))
                 (ib_events s.1);
  so_valid : Forall envelope_ok (ib_events s.1);
  so_tip : ib_last_sequence s.1 <> 0 -> exists l e, ib_events s.1 = l ++ [e] /\
    ib_session_id s.1 = Some (qe_session_id e) /\ ib_last_sequence s.1 = qe_sequence e;
  so_sync : ib_needs_resync s.1 = false -> ib_last_sequence s.1 <> 0 /\
    exists v, rm_view s.2 = Some v /\ synchronized (ib_events s.1) v
}.

Lemma stream_ok_init account instance : stream_ok (buffer_init account instance, model_init).
Proof. by split; cbn; try constructor. Qed.

Lemma last_cons_default {A} (l : list A) a d : List.last (a :: l) d = List.last l a.
Proof.
  revert a d. induction l as [|b l IH]; intros a d; [done|].
  change (List.last (a :: b :: l) d) with (List.last (b :: l) d). by rewrite !IH.
Qed.

Lemma last_app_default {A} (l l' : list A) a d : List.last (l ++ a :: l') d = List.last l' a.
Proof.
  revert d. induction l as [|b l IH]; intros d; cbn [app]; [apply last_cons_default|].
  by rewrite last_cons_default, IH.
Qed.

Lemma contiguous_snoc first run e :
  contiguous first run ->
  (let tip := List.last run first in
   qe_session_id e = qe_session_id tip /\ qe_account_fingerprint e = qe_account_fingerprint tip /\
   qe_sequence e = qe_sequence tip + 1) ->
  contiguous first (run ++ [e]).
Proof.
  revert first. induction run as [|x run IH]; intros first H He; [cbn in *; naive_solver|].
  rewrite last_cons_default in He. destruct H as (H1 & H2 & H3 & H4). cbn [app contiguous].
  do 3 (split; [done|]). by apply IH.
Qed.

(** A synchronized stream takes in the event after its last one. *)
Lemma synchronized_snoc l tip e v m :
  synchronized (l ++ [tip]) v -> envelope_ok e ->
  qe_session_id e = qe_session_id tip -> qe_account_fingerprint e = qe_account_fingerprint tip ->
  qe_sequence e = qe_sequence tip + 1 -> rm_needs_resync m = false ->
  synchronized ((l ++ [tip]) ++ [e])
    (if is_snapshot e then view_of e [] else stepped e m v).
Proof.
  intros (before & clean & run & before' & snap & since & Hl & Hc & Hrun & Hsplit & Hs & Hsince & ->)
    He Hse Hac Hsq Hm.
  assert (Htip : List.last run clean = tip).
  { apply (f_equal (fun l => List.last l clean)) in Hl.
    by rewrite List.last_last, last_app_default in Hl. }
  assert (Hrun' : contiguous clean (run ++ [e])) by (apply contiguous_snoc; rewrite ?Htip; auto).
  rewrite Hl, <-app_assoc. cbn [app].
  destruct (is_snapshot e) eqn:Es.
  - exists before, clean, (run ++ [e]), (before' ++ snap :: since), e, [].
    do 3 (split; [done|]). split; [by rewrite app_comm_cons, Hsplit|]. by repeat split.
  - exists before, clean, (run ++ [e]), before', snap, (since ++ [e]).
    do 3 (split; [done|]). split; [by rewrite app_comm_cons, Hsplit, <-app_assoc|].
    split; [done|]. split; [apply Forall_app; by repeat constructor|].
    by apply view_of_snoc.
Qed.

Lemma switch_same e b : ib_session_id b = Some (qe_session_id e) -> switch_session e b = b.
Proof. intros H. unfold switch_session. by rewrite bool_decide_true. Qed.

(** The buffer after its two identity checks and the switch of session. *)
Definition admitted (e : QmtEvent) (b b' : buffer) : Prop :=
  b' = switch_session e (pin_account e b) /\
  (ib_expected_account b = None \/ ib_expected_account b = Some (qe_account_fingerprint e)).

Lemma ingest_cases e b :
  (exists x, Ingress.ingest e b = (Err x, b) /\ exn_cls x = QmtIngressIdentityError) \/
  exists b', admitted e b b' /\
    Ingress.ingest e b =
      if qe_sequence e <=? ib_last_sequence b' then
        (Ok {| ir_disposition := DUPLICATE; ir_event := e;
               ir_needs_resync := ib_needs_resync b' |}, b')
      else (Ok (accept e b').1, (accept e b').2).
Proof.
  unfold Ingress.ingest, admitted.
  destruct (match ib_expected_instance b with Some _ => _ | None => _ end); [left; by eexists|].
  destruct (ib_expected_account b) as [a|].
  - case_bool_decide; cbn; [|left; by eexists]. right. eexists. split; [split; [done | by right; f_equal]|done].
  - right. eexists. split; [by split; [|left]|done].
Qed.

(** A buffer that is still in the session of [b], perhaps further on. *)
Definition same_session (b b' : Ingress.buffer) : Prop :=
  ib_expected_account b' = ib_expected_account b /\ ib_expected_instance b' = ib_expected_instance b /\
  ib_session_id b' = ib_session_id b /\ ib_last_sequence b <= ib_last_sequence b'.

(** What the buffer took in once is a replay to it, as long as it is in that session. *)
Lemma ingest_later e b r b1 b' :
  Ingress.ingest e b = (Ok r, b1) -> same_session b1 b' ->
  Ingress.ingest e b' =
    (Ok {| ir_disposition := DUPLICATE; ir_event := e; ir_needs_resync := ib_needs_resync b' |}, b').
Proof.
  intros Hr (Ea & Ei & Es & El).
  assert (Hb : ib_expected_account b1 = Some (qe_account_fingerprint e) /\
    ib_expected_instance b1 = ib_expected_instance b /\
    ib_session_id b1 = Some (qe_session_id e) /\ qe_sequence e <= ib_last_sequence b1).
  { destruct (ingest_cases e b) as [(x & Hx & _) | (b2 & [-> _] & Hx)]; rewrite Hx in Hr; [done|].
    assert (Hs : forall b0, ib_session_id (switch_session e b0) = Some (qe_session_id e) /\
      ib_expected_account (switch_session e b0) = ib_expected_account b0 /\
      ib_expected_instance (switch_session e b0) = ib_expected_instance b0)
      by (intros b0; unfold switch_session; by case_bool_decide).
    destruct (Hs (pin_account e b)) as (H1 & H2 & H3).
    destruct (Z.leb_spec (qe_sequence e) (ib_last_sequence (switch_session e (pin_account e b))));
      injection Hr as _ <-; cbn; rewrite ?H1, ?H2, ?H3; repeat split; cbn; lia. }
  destruct Hb as (Ha & Hi & Hs & Hq). rewrite <-Ea in Ha. rewrite <-Ei in Hi. rewrite <-Es in Hs.
  unfold Ingress.ingest in Hr |- *. rewrite Hi, Ha.
  destruct (match ib_expected_instance b with Some _ => _ | None => _ end); [done|].
  rewrite bool_decide_true by done. cbn [negb].
  assert (pin_account e b' = b') as -> by (clear - Ha; destruct b'; unfold pin_account; cbn in *; by subst).
  rewrite switch_same by done. rewrite (proj2 (Z.leb_le _ _)); [done | lia].
Qed.

Lemma ingest_again e b r b' :
  Ingress.ingest e b = (Ok r, b') ->
  Ingress.ingest e b' =
    (Ok {| ir_disposition := DUPLICATE; ir_event := e; ir_needs_resync := ib_needs_resync b' |}, b').
Proof. intros Hr. eapply ingest_later; [exact Hr | by split_and!]. Qed.

Lemma admitted_ok e b m b' :
  stream_ok (b, m) -> 0 < qe_sequence e -> admitted e b b' ->
  ib_expected_account b' = Some (qe_account_fingerprint e) /\ ib_events b' = ib_events b /\
  ib_session_id b' = Some (qe_session_id e) /\
  Forall (fun x => qe_account_fingerprint x = qe_account_fingerprint e) (ib_events b) /\
  (b' = pin_account e b /\ ib_session_id b = Some (qe_session_id e) \/
   ib_last_sequence b' = 0 /\ ib_needs_resync b' = true).
Proof.
  intros [_ Ha _ _ _] Hq [-> Hacc]. cbn in *.
  assert (Hall : Forall (fun x => qe_account_fingerprint x = qe_account_fingerprint e) (ib_events b)).
  { eapply Forall_impl; [exact Ha|]. cbn. intros x Hx. destruct Hacc; congruence. }
  unfold switch_session, pin_account. cbn. case_bool_decide; cbn; naive_solver.
Qed.

(** The view after an accepted event that leaves the stream synchronized. *)
Lemma accept_sync e b m b' r :
  stream_ok (b, m) -> envelope_ok e -> admitted e b b' ->
  r = (accept e b').1 -> ir_needs_resync r = false ->
  exists v, rm_view (apply r m).2 = Some v /\ synchronized (ib_events b ++ [e]) v.
Proof.
  intros Hs He Hadm -> Hn. cbn in Hn.
  destruct (apply_ok (accept e b').1 m He) as [l Happ]. rewrite Happ. cbn.
  destruct (admitted_ok e b m b' Hs (eo_sequence _ He) Hadm) as (_ & _ & _ & Hall & Hcase).
  destruct (clean_snapshot e) eqn:Ec; rewrite ?andb_true_r, ?andb_false_r in *.
  - assert (is_snapshot e = true) as Es by (by unfold clean_snapshot in Ec; bool_to_prop; apply bool_decide_eq_true).
    rewrite Es. eexists. split; [done|]. exists (ib_events b), e, [], [], e, [].
    by repeat split.
  - apply orb_false_iff in Hn as [Hn Hg]. destruct Hcase as [[-> Hse] | [_ Ht]]; [|congruence].
    cbn in *. rewrite Hn in *. destruct Hs as [Hflag _ _ Htip Hsync]. cbn in *.
    destruct (Hsync Hn) as (Hl & v & Hv & Hsy). destruct (Htip Hl) as (l' & tip & Hev & Hse' & Hlast).
    rewrite Hg, Hev, Hv in *. cbn. apply andb_false_iff in Hg.
    exists (if is_snapshot e then view_of e []
            else stepped e {| rm_view := Some v; rm_needs_resync := false;
                              rm_linked_accounts := rm_linked_accounts m |} v).
    split; [by destruct (is_snapshot e)|].
    apply synchronized_snoc; try done.
    + congruence.
    + apply Forall_app in Hall as [_ Hall%Forall_inv]. done.
    + destruct Hg; bool_to_prop; congruence.
Qed.

Lemma feed_ok e s : stream_ok s -> envelope_ok e -> stream_ok (feed e s).
Proof.
  destruct s as [b m]. intros Hs He. pose proof (eo_sequence _ He) as Hq. unfold feed. cbn [fst snd].
  destruct (ingest_cases e b) as [(x & -> & _) | (b' & Hadm & ->)]; [done|].
  destruct (admitted_ok e b m b' Hs Hq Hadm) as (Hacc & Hev & Hses & Hall & Hcase).
  destruct (Z.leb_spec (qe_sequence e) (ib_last_sequence b')) as [Hle|Hgt].
  - destruct Hcase as [[-> Hse] | [H0 _]]; [|lia]. rewrite decide_True by done.
    destruct Hs as [Hflag Ha Hv Htip Hsync]. split; cbn; try done.
    eapply Forall_impl; [exact Hall|]. by intros x ->.
  - rewrite decide_False by (cbn; by destruct (_ && _)).
    pose proof (accept_sync e b m b' _ Hs He Hadm eq_refl) as Hsync.
    destruct (apply_ok (accept e b').1 m He) as [l Happ].
    destruct Hs as [_ _ Hv _ _]. cbn in Hv.
    split; cbn [fst snd]; [by rewrite Happ | ..]; cbn; rewrite Hev, ?Hacc.
    + apply Forall_app. split; [|by constructor]. eapply Forall_impl; [exact Hall|]. by intros x ->.
    + apply Forall_app. by split; [|constructor].
    + intros _. by exists (ib_events b), e.
    + intros Hn. split; [lia|]. by apply Hsync.
Qed.

Lemma fed_ok events s : stream_ok s -> Forall envelope_ok events -> stream_ok (fed events s).
Proof.
  revert s. induction events as [|e events IH]; intros s Hs He; [done|]. inversion He; subst.
  cbn. apply IH; [by apply feed_ok | done].
Qed.

Lemma contiguous_same first run :
  contiguous first run ->
  Forall (fun e => qe_session_id e = qe_session_id first /\
                   qe_account_fingerprint e = qe_account_fingerprint first) (first :: run).
Proof.
  revert first. induction run as [|e run IH]; intros first; [by repeat constructor|].
  intros (H1 & H2 & _ & H). constructor; [done|].
  eapply Forall_impl; [by apply IH|]. cbn. intros x [-> ->]. done.
Qed.

Lemma last_in {A} (l : list A) d : In (List.last l d) (d :: l).
Proof.
  revert d. induction l as [|a l IH]; intros d; [by left|]. rewrite last_cons_default. right. apply IH.
Qed.

(** The view of a synchronized stream is of the session and account of its last
    event, and shows its sequence. *)
Lemma synchronized_tip l tip v :
  synchronized (l ++ [tip]) v ->
  sv_session_id v = qe_session_id tip /\
  sv_account_fingerprint v = qe_account_fingerprint tip /\ sv_sequence v = qe_sequence tip /\
  sv_healthy v = true.
Proof.
  intros (before & clean & run & before' & snap & since & Hl & _ & Hrun & Hsplit & _ & _ & ->).
  apply contiguous_same in Hrun as Hall. rewrite Hsplit in Hall.
  assert (Htip : List.last since snap = tip).
  { apply (f_equal (fun l => List.last l snap)) in Hl.
    by rewrite Hsplit, app_assoc, List.last_last, last_app_default in Hl. }
  apply Forall_app in Hall as [_ Hall]. pose proof (Forall_inv Hall) as [Hs1 Hs2].
  assert (Hin : tip ∈ snap :: since).
  { rewrite <-Htip. apply list_elem_of_In, last_in. }
  rewrite Forall_forall in Hall. destruct (Hall _ Hin) as [Ht1 Ht2].
  unfold view_of. cbn. rewrite Htip. repeat split; congruence.
Qed.

Lemma fed_pinned a events s :
  ib_expected_account s.1 = Some a -> ib_expected_account (fed events s).1 = Some a.
Proof.
  revert s. induction events as [|e events IH]; intros [b m] H; [done|]. cbn. apply IH.
  unfold feed. cbn [fst snd] in *.
  destruct (ingest_cases e b) as [(x & -> & _) | (b' & [-> [Hn | Ha]] & ->)]; [done | congruence |].
  assert (ib_expected_account (switch_session e (pin_account e b)) = Some a).
  { rewrite Ha in H. unfold switch_session. by case_bool_decide. }
  by destruct (_ <=? _).
Qed.

(** C31. A healthy view is an exact sum.  After any events, in whatever order,
    replayed, missing or of several sessions, accounts and terminals: if the read
    model is healthy, what was accepted ends with a clean snapshot and a run of one
    session and one account without a gap, and the view is that of the run's last
    snapshot and the callbacks since; it is of the pinned account, and its sequence
    is the last one of the session. *)
Theorem healthy_view_exact account instance events :
  Forall envelope_ok events ->
  let s := fed events (buffer_init account instance, model_init) in
  healthy s.2 = true ->
  exists v, rm_view s.2 = Some v /\ synchronized (ib_events s.1) v /\
    ib_expected_account s.1 = Some (sv_account_fingerprint v) /\
    ib_session_id s.1 = Some (sv_session_id v) /\ ib_last_sequence s.1 = sv_sequence v /\
    (forall a, account = Some a -> sv_account_fingerprint v = a).
Proof.
  intros He s Hh. pose proof (fed_ok events _ (stream_ok_init account instance) He) as [Hf Ha _ Ht Hy].
  fold s in Hf, Ha, Ht, Hy. unfold healthy in Hh. destruct (rm_view s.2) as [v|]; [|done].
  bool_to_prop. rewrite Hf in *. destruct (Hy ltac:(done)) as (Hl & v' & [= <-] & Hsync).
  destruct (Ht Hl) as (l & tip & Hev & Hse & Hsq). rewrite Hev in *.
  destruct (synchronized_tip _ _ _ Hsync) as (H1 & H2 & H3 & _).
  apply Forall_app in Ha as [_ Ha%Forall_inv]. exists v.
  split; [done|]. split; [done|]. rewrite H1, H2, H3. repeat split; try done.
  intros a ->. assert (ib_expected_account s.1 = Some a) by (by apply fed_pinned). congruence.
Qed.
End Runs.

(** An event the contract accepts from its own mapping is well-formed. *)
Lemma envelope_by_reading e : from_mapping (JObj (event_mapping e)) = Ok e -> envelope_ok e.
Proof. apply from_mapping_ok. Qed.

Definition demo_order (s : string) (n : Z) : QmtEvent :=
  demo_event s n "order" [("symbol", JStr "600000.SH"); ("status_code", JInt n)].

(** A start in the middle of a session, a replay, a gap, a snapshot, callbacks. *)
Definition demo_stream : list QmtEvent :=
  [demo_order "qmt-1" 3; demo_snapshot "qmt-1" 4 []; demo_order "qmt-1" 5; demo_order "qmt-1" 5;
   demo_order "qmt-1" 8; demo_snapshot "qmt-1" 9 [JObj []]; demo_order "qmt-1" 10;
   demo_event "qmt-1" 11 "account" [("balance", JStr "1.0")]].

Lemma healthy_view_exact_witness :
  ReadModel.healthy (fed demo_stream (Ingress.buffer_init (Some demo_account) None,
                                      ReadModel.model_init)).2 = true /\
  exists v, ReadModel.rm_view (fed demo_stream (Ingress.buffer_init (Some demo_account) None,
                                                ReadModel.model_init)).2 = Some v /\
    ReadModel.sv_account_fingerprint v = demo_account.
Proof.
  assert (He : Forall envelope_ok demo_stream)
    by (repeat constructor; apply envelope_by_reading; vm_compute; reflexivity).
  split; [vm_compute; reflexivity|].
  destruct (healthy_view_exact (Some demo_account) None demo_stream He) as (v & Hv & _ & _ & _ & _ & Hp);
    [vm_compute; reflexivity|].
  exists v. split; [exact Hv | by apply Hp].
Defined.

(** A snapshot with failed queries, in sequence after a clean one, replaces the
    rows by those that could be queried and the view is still healthy. *)
Example unclean_snapshot_healthy :
  let failed := demo_event "qmt-1" 5 "snapshot"
    [("account", JArr []); ("positions", JArr []); ("orders", JArr []); ("deals", JArr []);
     ("query_errors", JArr [JStr "positions"])] in
  let s := fed [demo_snapshot "qmt-1" 4 [JObj []]; failed]
             (Ingress.buffer_init None None, ReadModel.model_init) in
  ReadModel.healthy s.2 = true /\ Ingress.clean_snapshot failed = false /\
  ReadModel.sv_orders <$> ReadModel.rm_view s.2 = Some [].
Proof. by vm_compute. Qed.
