(* ===== verification/Ingestion.v ===== *)
(** * Ingestion: where an accepted event goes

    [QmtHostIngestion] of qmt/ingestion.py: every event feeds the read model;
    ORDER and DEAL facts reach the OMS only as evidence an explicit mapper made of
    them, and are otherwise kept in a bounded quarantine; command results go to a
    sink of their own and never to the evidence.  The sinks, the mappers and the
    observer are the constructor's optional arguments. *)

From S2P Require Import Prelude PyTime TimeFacts Decimal Json Domain Db OrderStore BrokerEvidence Parts Wire Stream.
Open Scope Z_scope.
Open Scope oms_scope.

Import Ingress.

(** [HostIngestResult]. *)
Record HostIngestResult := {
  hi_view : option ReadModel.QmtSnapshotView; hi_evidence_ingested : bool;
  hi_quarantined : bool; hi_deduplicated : bool; hi_command_result_ingested : bool;
  hi_calibration_observed : bool
}.

Definition ingest_result view (evidence quarantined deduplicated command calibration : bool) :=
  {| hi_view := view; hi_evidence_ingested := evidence; hi_quarantined := quarantined;
     hi_deduplicated := deduplicated; hi_command_result_ingested := command;
     hi_calibration_observed := calibration |}.

(** The state of an instance. *)
Record ingestion := {
  ig_read_model : ReadModel.model; ig_quarantine : list QmtEvent; ig_quarantine_dropped : Z;
  ig_account_semantic_duplicates : Z
}.

Definition ingestion_init : ingestion :=
  {| ig_read_model := ReadModel.model_init; ig_quarantine := []; ig_quarantine_dropped := 0;
     ig_account_semantic_duplicates := 0 |}.

Definition set_read_model (m : ReadModel.model) (s : ingestion) : ingestion :=
  {| ig_read_model := m; ig_quarantine := ig_quarantine s;
     ig_quarantine_dropped := ig_quarantine_dropped s;
     ig_account_semantic_duplicates := ig_account_semantic_duplicates s |}.

Definition count_duplicate (s : ingestion) : ingestion :=
  {| ig_read_model := ig_read_model s; ig_quarantine := ig_quarantine s;
     ig_quarantine_dropped := ig_quarantine_dropped s;
     ig_account_semantic_duplicates := ig_account_semantic_duplicates s + 1 |}.

(** [_quarantine]: at the bound the oldest event makes room. *)
Definition quarantine_event (max_quarantine : nat) (event : QmtEvent) (s : ingestion) : ingestion :=
  let full := (max_quarantine <=? length (ig_quarantine s))%nat in
  {| ig_read_model := ig_read_model s;
     ig_quarantine := (if full then tail (ig_quarantine s) else ig_quarantine s) ++ [event];
     ig_quarantine_dropped := if full then ig_quarantine_dropped s + 1 else ig_quarantine_dropped s;
     ig_account_semantic_duplicates := ig_account_semantic_duplicates s |}.

(** [_is_repeated_account]. *)
Definition is_repeated_account (event : QmtEvent) (s : ingestion) : bool :=
  bool_decide (qe_event_type event = "account") &&
  match ReadModel.rm_view (ig_read_model s) with
  | Some v => match ReadModel.sv_account v with
              | [row] => dict_eq row (qe_payload event)
              | _ => false
              end
  | None => false
  end.

(** [observed_at_from_event]: a float of seconds to the microsecond, exact until
    2242; a year past 9999 is refused. *)
Definition observed_at_from_event (event : QmtEvent) : res datetime :=
  if qe_timestamp_ms event <? 253402300800000
  then Ok (DT (qe_timestamp_ms event * 1000) (Some 0))
  else raise ValueError "year is out of range".

(** The arguments of [ingest_execution_command_result]. *)
Record command_result_args := {
  ra_source_event_id : string; ra_account_fingerprint : string; ra_command_id : string;
  ra_command_type : string; ra_client_order_id : string; ra_broker_token : option string;
  ra_result_status : string; ra_execution_mode : string; ra_live_side_effect : bool;
  ra_payload : jdict; ra_observed_at : datetime
}.

(** The fields of the payload, if all have the types the sink takes. *)
Definition result_args (event : QmtEvent) : option (datetime -> command_result_args) :=
  let p := qe_payload event in
  command_id ← as_str (jget "command_id" p);
  command_type ← as_str (jget "command_type" p);
  client_order_id ← as_str (jget "client_order_id" p);
  result_status ← as_str (jget "result_status" p);
  execution_mode ← as_str (jget "execution_mode" p);
  live_side_effect ← as_bool (jget "live_side_effect" p);
  broker_token ← optional_str (fun _ => true) (jget "broker_token" p);
  Some (fun observed_at =>
       {| ra_source_event_id := qe_session_id event +:+ ":" +:+ z_str (qe_sequence event);
          ra_account_fingerprint := qe_account_fingerprint event; ra_command_id := command_id;
          ra_command_type := command_type; ra_client_order_id := client_order_id;
          ra_broker_token := broker_token; ra_result_status := result_status;
          ra_execution_mode := execution_mode; ra_live_side_effect := live_side_effect;
          ra_payload := p; ra_observed_at := observed_at |}).

Section Handle.
Context {R : Type} `{Part ingestion R}.

(** The collaborators given to [__init__]. *)
Record collaborators := {
  co_evidence_sink : option (BrokerEvidenceV1 -> M R unit);
  co_evidence_mapper : option (QmtEvent -> M R (option BrokerEvidenceV1));
  co_snapshot_evidence_mapper : option (QmtEvent -> M R (list BrokerEvidenceV1 * Z));
  co_command_result_sink : option (command_result_args -> M R unit);
  co_calibration_observer : option (QmtEvent -> M R unit);
  co_max_quarantine : nat
}.

Context (co : collaborators).

Definition quarantine (event : QmtEvent) : M R unit :=
  write_part (quarantine_event (co_max_quarantine co) event).

(** [_handle_command_result]. *)
Definition handle_command_result (event : QmtEvent) (view : option ReadModel.QmtSnapshotView)
    : M R HostIngestResult :=
  match jget "client_order_id" (qe_payload event), co_command_result_sink co with
  | JNull, _ | _, None => retM (ingest_result view false false false false false)
  | _, Some sink =>
      match result_args event with
      | None => do! quarantine event ;; retM (ingest_result view false true false false false)
      | Some args =>
          observed_at <- lift (observed_at_from_event event) ;;
          do! sink (args observed_at) ;;
          retM (ingest_result view false false false true false)
      end
  end.

(** [_handle_snapshot_evidence]. *)
Definition handle_snapshot_evidence (mapper : QmtEvent -> M R (list BrokerEvidenceV1 * Z))
    (event : QmtEvent) (view : option ReadModel.QmtSnapshotView) (semantic_duplicate : bool)
    : M R HostIngestResult :=
  match co_evidence_sink co with
  | None => do! quarantine event ;;
            retM (ingest_result view false true semantic_duplicate false false)
  | Some sink =>
      batch <- mapper event ;;
      do! iterM (fun candidate =>
            do! guardM (bool_decide (ev_account_fingerprint candidate
                                     = qe_account_fingerprint event))
                  ValueError "snapshot evidence mapper changed account identity" ;;
            sink candidate) batch.1 ;;
      let quarantined := 0 <? batch.2 in
      do! (if quarantined then quarantine event else retM tt) ;;
      retM (ingest_result view (negb (match batch.1 with [] => true | _ => false end))
              quarantined semantic_duplicate false false)
  end.

(** What [handle] does with an ORDER or DEAL event. *)
Definition handle_order_fact (event : QmtEvent) (view : option ReadModel.QmtSnapshotView)
    : M R HostIngestResult :=
  do! (match co_calibration_observer co with Some observer => observer event | None => retM tt end) ;;
  let calibration_observed := bool_decide (is_Some (co_calibration_observer co)) in
  match co_evidence_sink co, co_evidence_mapper co with
  | Some sink, Some mapper =>
      candidate <- mapper event ;;
      match candidate with
      | None => do! quarantine event ;;
                retM (ingest_result view false true false false calibration_observed)
      | Some candidate =>
          do! guardM (bool_decide (ev_account_fingerprint candidate
                                   = qe_account_fingerprint event))
                ValueError "evidence mapper changed account identity" ;;
          do! sink candidate ;;
          retM (ingest_result view true false false false calibration_observed)
      end
  | _, _ => do! quarantine event ;;
            retM (ingest_result view false true false false calibration_observed)
  end.

(** [handle]. *)
Definition handle (result : IngressResult) : M R HostIngestResult :=
  s <- read_part (fun s : ingestion => s) ;;
  if decide (ir_disposition result = DUPLICATE) then
    retM (ingest_result (ReadModel.rm_view (ig_read_model s)) false false true false false)
  else
    let event := ir_event result in
    let semantic_duplicate := is_repeated_account event s in
    let applied := ReadModel.apply result (ig_read_model s) in
    do! write_part (set_read_model applied.2) ;;
    view <- lift applied.1 ;;
    do! (if semantic_duplicate then write_part count_duplicate else retM tt) ;;
    if decide (qe_event_type event = "command_result") then handle_command_result event view
    else
      match (if decide (qe_event_type event = "snapshot") then co_snapshot_evidence_mapper co
             else None) with
      | Some mapper => handle_snapshot_evidence mapper event view semantic_duplicate
      | None =>
          if decide (qe_event_type event ∈ ["order"; "deal"]) then handle_order_fact event view
          else retM (ingest_result view false false semantic_duplicate false false)
      end.
End Handle.
Arguments collaborators : clear implicits.

(** ** Routing *)

Section Routing.
Context {R : Type} `{Part ingestion R}.
Implicit Types (co : collaborators R) (w : world R).

Definition ingestion_of w : ingestion := get_part (w_rest w).

Lemma last_quarantined n e s : last (ig_quarantine (quarantine_event n e s)) = Some e.
Proof. unfold quarantine_event. cbn. apply last_snoc. Qed.

(** The event is the newest one of the quarantine, and nothing was ingested. *)
Definition kept (event : QmtEvent) (hi : HostIngestResult) w' : Prop :=
  hi_evidence_ingested hi = false /\ hi_quarantined hi = true /\
  last (ig_quarantine (ingestion_of w')) = Some event.

(** The sink took, last of all, evidence the mapper made of the event, of the
    event's account. *)
Definition handed_on co (event : QmtEvent) (hi : HostIngestResult) w' : Prop :=
  hi_evidence_ingested hi = true /\ hi_quarantined hi = false /\
  exists sink mapper candidate w1 w2,
    co_evidence_sink co = Some sink /\ co_evidence_mapper co = Some mapper /\
    mapper event w1 = (Ok (Some candidate), w2) /\
    ev_account_fingerprint candidate = qe_account_fingerprint event /\
    sink candidate w2 = (Ok tt, w').

Lemma quarantine_kept co event hi w hi' w' :
  bindM (quarantine co event) (fun _ => retM hi) w = (Ok hi', w') ->
  hi_evidence_ingested hi = false -> hi_quarantined hi = true -> kept event hi' w'.
Proof.
  intros Hrun He Hq. apply bindM_ok in Hrun as (u & w1 & Hw & [= <- <-]).
  injection Hw as <- <-. split; [done|]. split; [done|]. unfold ingestion_of. cbn.
  rewrite get_set_part. apply last_quarantined.
Qed.

Lemma order_fact_routed co event view w hi w' :
  handle_order_fact co event view w = (Ok hi, w') -> kept event hi w' \/ handed_on co event hi w'.
Proof.
  unfold handle_order_fact. intros Hrun. apply bindM_ok in Hrun as (u & w0 & _ & Hrun).
  destruct (co_evidence_sink co) as [sink|] eqn:Es; [|left; by eapply quarantine_kept].
  destruct (co_evidence_mapper co) as [mapper|] eqn:Em; [|left; by eapply quarantine_kept].
  apply bindM_ok in Hrun as ([c|] & w1 & Hm & Hrun); [|left; by eapply quarantine_kept].
  apply bindM_ok in Hrun as ([] & w2 & Hg & Hrun). apply guardM_ok in Hg as [Hacc ->].
  apply bool_decide_eq_true in Hacc. apply bindM_ok in Hrun as ([] & w3 & Hsink & [= <- <-]).
  right. split; [done|]. split; [done|]. exists sink, mapper, c, w0, w1. by repeat split.
Qed.

(** Two sets of collaborators that share what command results may use. *)
Definition same_control co co' : Prop :=
  co_command_result_sink co = co_command_result_sink co' /\
  co_max_quarantine co = co_max_quarantine co'.

(** C32. No fact is guessed, and none is dropped unless it is a replay.  An ORDER or DEAL
    event that the buffer did not take for a replay and that is handled without an
    exception either was ingested as the evidence the mapper made of it, for its own
    account, or is in the quarantine; a command result is never evidence, and what becomes
    of it does not depend on the evidence sink, the mappers or the observer.  A replay, of
    whatever event, is said to be one and leaves everything as it was: also when the event
    was not ingested the first time. *)
Theorem facts_routed co r w hi w' :
  handle co r w = (Ok hi, w') ->
  (ir_disposition r = DUPLICATE ->
     w' = w /\
     hi = ingest_result (ReadModel.rm_view (ig_read_model (ingestion_of w))) false false true false false) /\
  (ir_disposition r <> DUPLICATE ->
   (qe_event_type (ir_event r) ∈ ["order"; "deal"] ->
      kept (ir_event r) hi w' \/ handed_on co (ir_event r) hi w') /\
   (qe_event_type (ir_event r) = "command_result" ->
      hi_evidence_ingested hi = false /\
      forall co', same_control co co' -> handle co' r w = (Ok hi, w'))).
Proof.
  intros Hrun. split.
  { intros Hd. unfold handle in Hrun. apply bindM_ok in Hrun as (s & w0 & [= <- <-] & Hrun).
    rewrite decide_True in Hrun by done. by injection Hrun as <- <-. }
  intros Hd. split; intros Ht.
  - unfold handle in Hrun. apply bindM_ok in Hrun as (s & w0 & [= <- <-] & Hrun).
    rewrite decide_False in Hrun by done.
    apply bindM_ok in Hrun as (u1 & w1 & _ & Hrun). apply bindM_ok in Hrun as (view & w2 & _ & Hrun).
    apply bindM_ok in Hrun as (u3 & w3 & _ & Hrun).
    assert (Hne : qe_event_type (ir_event r) <> "command_result" /\
      qe_event_type (ir_event r) <> "snapshot") by (split; intros E; rewrite E in Ht; set_solver).
    destruct Hne as [Hn1 Hn2]. rewrite decide_False, decide_False, decide_True in Hrun by done.
    by eapply order_fact_routed.
  - split.
    + unfold handle in Hrun. apply bindM_ok in Hrun as (s & w0 & [= <- <-] & Hrun).
      rewrite decide_False in Hrun by done.
      apply bindM_ok in Hrun as (u1 & w1 & _ & Hrun). apply bindM_ok in Hrun as (view & w2 & _ & Hrun).
      apply bindM_ok in Hrun as (u3 & w3 & _ & Hrun). rewrite decide_True in Hrun by done.
      unfold handle_command_result in Hrun.
      repeat match goal with H : match ?x with _ => _ end _ = _ |- _ => destruct x end;
        repeat match goal with H : bindM _ _ _ = _ |- _ => apply bindM_ok in H as (? & ? & _ & H) end;
        by injection Hrun as <- _.
    + intros co' [Hsink Hmax]. rewrite <-Hrun. unfold handle. rewrite Ht.
      unfold handle_command_result, quarantine. by rewrite Hsink, Hmax.
Qed.
End Routing.

(** ** A concrete run *)

Abbreviation demo_collaborators := ({|
  co_evidence_sink := None; co_evidence_mapper := None; co_snapshot_evidence_mapper := None;
  co_command_result_sink := None; co_calibration_observer := None; co_max_quarantine := 2
|} : collaborators ingestion).

Definition demo_accepted : IngressResult :=
  {| ir_disposition := ACCEPTED; ir_event := demo_order "qmt-1" 5; ir_needs_resync := true |}.

Definition demo_host : world ingestion := W empty_db false 0 ingestion_init.

Lemma facts_routed_witness :
  exists hi w', handle demo_collaborators demo_accepted demo_host = (Ok hi, w') /\
    (kept (demo_order "qmt-1" 5) hi w' \/
     handed_on demo_collaborators (demo_order "qmt-1" 5) hi w').
Proof.
  destruct (handle demo_collaborators demo_accepted demo_host)
    as [[hi|e] w'] eqn:E; [|by vm_compute in E].
  exists hi, w'. split; [done|].
  destruct (facts_routed demo_collaborators demo_accepted demo_host hi w' E)
    as [_ Hf]. destruct Hf as [Hf _]; [done|].
  apply Hf. set_solver.
Defined.
