(* ===== verification/Spool.v ===== *)
(** * Spool: the directory the terminal writes to and the Host reads

    [FileSpoolReceiver] of qmt/spool.py.  The directories are one map from a
    directory and a name to the bytes of the file (reads and moves of files
    succeed); [poll_once] decodes the JSON files of the inbox in the order of
    their names, hands what the ingress buffer says of them to the callback and
    moves them; a restarted Host rebuilds its memory from the processed files. *)

From S2P Require Import Prelude PyTime TimeFacts Decimal Json Domain Db OrderStore BrokerEvidence Evidence Parts Parse Wire Frame Stream Ingestion.
From stdpp Require Import sorting.
Open Scope Z_scope.
Open Scope oms_scope.
Import Ingress.

(** ** Names *)

(** [sorted(names)]. *)
Definition sort_names (l : list string) : list string :=
  merge_sort (fun a b => Is_true (String.leb a b)) l.

(** The last dot of a name, if it is neither its first nor its last character:
    [path.stem] and [path.suffix]. *)
Fixpoint last_dot (s : string) : option (string * string) :=
  match s with
  | EmptyString => None
  | String a s' =>
      match last_dot s' with
      | Some (stem, suffix) => Some (String a stem, suffix)
      | None => if bool_decide (a = ascii_of_N 46) then Some (EmptyString, s) else None
      end
  end.

Definition stem_suffix (name : string) : string * string :=
  match last_dot name with
  | Some (stem, suffix) =>
      if str_nonempty stem && negb (bool_decide (String.length suffix = 1%nat))
      then (stem, suffix) else (name, "")
  | None => (name, "")
  end.

(** ** Directories *)

Inductive Dir := Inbox | Processed | Quarantine | Conflicts.

#[global] Instance dir_eq_dec : EqDecision Dir.
Proof. solve_decision. Defined.
#[global] Instance dir_countable : Countable Dir.
Proof.
  refine (inj_countable'
    (fun d => match d with Inbox => 0 | Processed => 1 | Quarantine => 2 | Conflicts => 3 end)%nat
    (fun n => match n with 0 => Inbox | 1 => Processed | 2 => Quarantine | _ => Conflicts end)%nat _).
  by intros [].
Defined.

(** The spool: a file is its bytes. *)
Abbreviation files := (gmap (Dir * string) (list Z)).

Section Files.
Implicit Types (fs : files).

(** [sorted(dir.glob("*.json"))]. *)
Definition json_names (d : Dir) fs : list string :=
  sort_names (omap (fun p => if bool_decide (p.1.1 = d) && endswith ".json" p.1.2
                             then Some p.1.2 else None) (map_to_list fs)).

(** [while target.exists(): target = ...; index += 1]. *)
Fixpoint free_index (fuel : nat) (target : Dir) (stem suffix : string) (index : Z) fs
    : option string :=
  match fuel with
  | O => None
  | S fuel =>
      let name := stem +:+ "." +:+ z_str index +:+ suffix in
      if bool_decide (is_Some (fs !! (target, name)))
      then free_index fuel target stem suffix (index + 1) fs
      else Some name
  end.

(** The target of [_move_unique]: there are more numbers than files. *)
Definition free_name (target : Dir) (name : string) fs : option string :=
  if bool_decide (is_Some (fs !! (target, name))) then
    let '(stem, suffix) := stem_suffix name in
    free_index (S (size fs)) target stem suffix 1 fs
  else Some name.

(** [_move_unique] of an inbox file. *)
Definition move_unique (name : string) (target : Dir) fs : files :=
  match fs !! (Inbox, name), free_name target name fs with
  | Some f, Some name' => <[(target, name') := f]> (delete (Inbox, name) fs)
  | _, _ => fs
  end.
End Files.

(** ** Polling *)

Record SpoolPollResult := {
  po_processed : Z; po_quarantined : Z; po_conflicted : Z; po_pending : Z
}.

Section Poll.
Context {R : Type} `{Part buffer R} `{Part files R}.
Context (on_event : IngressResult -> M R unit).

(** [except (OSError, QmtProtocolError)]. *)
Definition is_undecodable (e : exn) : bool :=
  bool_decide (exn_cls e ∈ [OtherException "OSError"; QmtProtocolError; QmtIngressIdentityError]).

(** [_read_decoded], of the bytes of a file and of a file of a directory. *)
Definition read_decoded (raw : list Z) : res QmtEvent :=
  (do! guard_r (negb (bool_decide (raw = [])) && (frame_size raw <=? MAX_FRAME_BYTES))
         QmtProtocolError "invalid transport frame size" ;;
   decode_transport_frame raw)%py.

Definition read_file (d : Dir) (name : string) (fs : files) : res QmtEvent :=
  match fs !! (d, name) with
  | Some f => read_decoded f
  | None => raise (OtherException "OSError") name
  end.

(** [self.ingress.ingest(event)]. *)
Definition ingest_event (event : QmtEvent) : M R IngressResult :=
  b <- read_part (fun b : buffer => b) ;;
  do! write_part (fun _ : buffer => (Ingress.ingest event b).2) ;;
  lift (Ingress.ingest event b).1.

(** [result = self.ingress.ingest(event); self.on_event(result)]. *)
Definition deliver (event : QmtEvent) : M R unit :=
  r <- ingest_event event ;; on_event r.

Definition count (c : SpoolPollResult) (d : Dir) : SpoolPollResult :=
  {| po_processed := po_processed c + (if decide (d = Processed) then 1 else 0);
     po_quarantined := po_quarantined c + (if decide (d = Quarantine) then 1 else 0);
     po_conflicted := po_conflicted c + (if decide (d = Conflicts) then 1 else 0);
     po_pending := po_pending c |}.

(** One turn of the loop: where the file goes. *)
Definition poll_file (name : string) : M R Dir :=
  fs <- read_part (fun fs : files => fs) ;;
  target <- match read_file Inbox name fs with
            | Err e => if is_undecodable e then retM Quarantine else reraise e
            | Ok event =>
                tryM (do! deliver event ;; retM Processed) (fun e =>
                  if decide (exn_cls e = QmtIngressIdentityError) then retM Conflicts
                  else reraise e)
            end ;;
  do! write_part (move_unique name target) ;;
  retM target.

Fixpoint poll_files (names : list string) (c : SpoolPollResult) : M R SpoolPollResult :=
  match names with
  | [] => retM c
  | name :: names => d <- poll_file name ;; poll_files names (count c d)
  end.

(** [poll_once]. *)
Definition poll_once (max_files : Z) : M R SpoolPollResult :=
  do! guardM (0 <? max_files) ValueError "max_files must be positive" ;;
  candidates <- read_part (fun fs : files => firstn (Z.to_nat max_files) (json_names Inbox fs)) ;;
  c <- poll_files candidates
         {| po_processed := 0; po_quarantined := 0; po_conflicted := 0; po_pending := 0 |} ;;
  pending <- read_part (fun fs : files => Z.of_nat (length (json_names Inbox fs))) ;;
  retM {| po_processed := po_processed c; po_quarantined := po_quarantined c;
          po_conflicted := po_conflicted c; po_pending := pending |}.
End Poll.

(** ** Replay after a restart *)

Record SpoolReplayResult := {
  re_snapshot_found : bool; re_replayed : Z; re_session_id : option string;
  re_last_sequence : Z; re_account_fingerprint : option string;
  re_snapshot_timestamp_ms : option Z; re_snapshot_sequence : Z; re_target_sequence : Z;
  re_target_timestamp_ms : option Z
}.

(** A decoded file: its name and its event. *)
Abbreviation item := (string * QmtEvent)%type.

(** The order of [_event_sort_key]: time, session, sequence, name. *)
Definition event_key_ltb (a b : item) : bool :=
  let ea := a.2 in let eb := b.2 in
  if qe_timestamp_ms ea =? qe_timestamp_ms eb then
    if bool_decide (qe_session_id ea = qe_session_id eb) then
      if qe_sequence ea =? qe_sequence eb then String.ltb a.1 b.1
      else qe_sequence ea <? qe_sequence eb
    else String.ltb (qe_session_id ea) (qe_session_id eb)
  else qe_timestamp_ms ea <? qe_timestamp_ms eb.

(** [max(candidates, key=...)]: the first greatest. *)
Definition latest_item (l : list item) : option item :=
  match l with
  | [] => None
  | i :: l => Some (fold_left (fun best i => if event_key_ltb best i then i else best) l i)
  end.

(** The order of the replay: sequence, time, name. *)
Definition replay_leb (a b : item) : bool :=
  let ea := a.2 in let eb := b.2 in
  if qe_sequence ea =? qe_sequence eb then
    if qe_timestamp_ms ea =? qe_timestamp_ms eb then String.leb a.1 b.1
    else qe_timestamp_ms ea <? qe_timestamp_ms eb
  else qe_sequence ea <? qe_sequence eb.

Definition sort_replay (l : list item) : list item :=
  merge_sort (fun a b => Is_true (replay_leb a b)) l.

(** The processed events of a stream up to its newest one, in order. *)
Definition coherent (target : QmtEvent) (processed : list item) : list item :=
  sort_replay (List.filter (fun i =>
    bool_decide (qe_session_id i.2 = qe_session_id target)
    && bool_decide (qe_account_fingerprint i.2 = qe_account_fingerprint target)
    && (qe_sequence i.2 <=? qe_sequence target)) processed).

(** The newest clean snapshot. *)
Definition latest_clean (l : list item) : option item :=
  List.find (fun i => clean_snapshot i.2) (rev l).

Section Replay.
Context {R : Type} `{Part buffer R} `{Part files R}.
Context (on_event : IngressResult -> M R unit).

(** Every processed file must decode. *)
Fixpoint decode_all (d : Dir) (names : list string) (fs : files) : res (list item) :=
  match names with
  | [] => Ok []
  | n :: names =>
      (e <- read_file d n fs ;; l <- decode_all d names fs ;; Ok ((n, e) :: l))%py
  end.

(** Inbox files that do not decode are left to polling. *)
Fixpoint decode_valid (names : list string) (fs : files) : res (list item) :=
  match names with
  | [] => Ok []
  | n :: names =>
      match read_file Inbox n fs with
      | Ok e => (l <- decode_valid names fs ;; Ok ((n, e) :: l))%py
      | Err x => if is_undecodable x then decode_valid names fs else Err x
      end
  end.

(** The candidates for the tail of the stream: of the pinned account, if any. *)
Definition candidates (expected : option string) (l : list item) : list item :=
  match expected with
  | Some a => List.filter (fun i => bool_decide (qe_account_fingerprint i.2 = a)) l
  | None => l
  end.

Definition nothing_found (target : option QmtEvent) : SpoolReplayResult :=
  {| re_snapshot_found := false; re_replayed := 0; re_session_id := qe_session_id <$> target;
     re_last_sequence := 0; re_account_fingerprint := qe_account_fingerprint <$> target;
     re_snapshot_timestamp_ms := None; re_snapshot_sequence := 0;
     re_target_sequence := match target with Some e => qe_sequence e | None => 0 end;
     re_target_timestamp_ms := qe_timestamp_ms <$> target |}.

(** [replay_processed_from_latest_clean_snapshot]. *)
Definition replay_processed : M R SpoolReplayResult :=
  fs <- read_part (fun fs : files => fs) ;;
  processed <- lift (decode_all Processed (json_names Processed fs) fs) ;;
  inbox_valid <- lift (decode_valid (json_names Inbox fs) fs) ;;
  expected <- read_part ib_expected_account ;;
  match latest_item (candidates expected (processed ++ inbox_valid)) with
  | None => retM (nothing_found None)
  | Some target =>
      let stream := coherent target.2 processed in
      match latest_clean stream with
      | None => retM (nothing_found (Some target.2))
      | Some snapshot =>
          let replayed := List.filter (fun i => qe_sequence snapshot.2 <=? qe_sequence i.2) stream in
          do! iterM (fun i : item => deliver on_event i.2) replayed ;;
          b <- read_part (fun b : buffer => b) ;;
          retM {| re_snapshot_found := true; re_replayed := Z.of_nat (length replayed);
                  re_session_id := ib_session_id b; re_last_sequence := ib_last_sequence b;
                  re_account_fingerprint := ib_expected_account b;
                  re_snapshot_timestamp_ms := Some (qe_timestamp_ms snapshot.2);
                  re_snapshot_sequence := qe_sequence snapshot.2;
                  re_target_sequence := qe_sequence target.2;
                  re_target_timestamp_ms := Some (qe_timestamp_ms target.2) |}
      end
  end.

(** [inspect_legacy_quarantine]: the numbers of decodable and other files, and
    the events of the current stream. *)
Fixpoint inspect (names : list string) (session account : option string) (fs : files)
    : res (Z * Z * list QmtEvent) :=
  match names with
  | [] => Ok (0, 0, [])
  | n :: names =>
      match read_file Quarantine n fs with
      | Err x =>
          if is_undecodable x then
            (r <- inspect names session account fs ;; Ok (r.1.1, r.1.2 + 1, r.2))%py
          else Err x
      | Ok e =>
          (r <- inspect names session account fs ;;
           Ok (r.1.1 + 1, r.1.2,
               if bool_decide (session = Some (qe_session_id e))
                  && bool_decide (account = Some (qe_account_fingerprint e))
               then e :: r.2 else r.2))%py
      end
  end.

Record LegacyQuarantineInspection := {
  lq_valid_frames : Z; lq_invalid_frames : Z; lq_matching_target_frames : Z;
  lq_matching_sequence_min : option Z; lq_matching_sequence_max : option Z;
  lq_matching_event_types : list string; lq_matching_clean_snapshot_sequences : list Z
}.

Definition inspect_legacy_quarantine (session account : option string)
    : M R LegacyQuarantineInspection :=
  fs <- read_part (fun fs : files => fs) ;;
  r <- lift (inspect (json_names Quarantine fs) session account fs) ;;
  let '(valid, invalid, matching) := r in
  let sequences := merge_sort Z.le (qe_sequence <$> matching) in
  retM {| lq_valid_frames := valid; lq_invalid_frames := invalid;
          lq_matching_target_frames := Z.of_nat (length matching);
          lq_matching_sequence_min := head sequences;
          lq_matching_sequence_max := last sequences;
          lq_matching_event_types := sort_names (remove_dups (qe_event_type <$> matching));
          lq_matching_clean_snapshot_sequences :=
            merge_sort Z.le (qe_sequence <$> List.filter clean_snapshot matching) |}.
End Replay.

(** ** Moving a file never overwrites another *)

Lemma str_app_inj_r (a b c : string) : a +:+ c = b +:+ c -> a = b.
Proof.
  revert b. induction a as [|x a IH]; intros [|y b] E; autorewrite with strdb in E; try done.
  - apply (f_equal String.length) in E. cbn in E. rewrite str_length_app in E. lia.
  - apply (f_equal String.length) in E. cbn in E. rewrite str_length_app in E. lia.
  - injection E as -> E. f_equal. by apply IH.
Qed.

Section FileFacts.
Implicit Types (fs : files).

Definition numbered (stem suffix : string) (i : Z) : string := stem +:+ "." +:+ z_str i +:+ suffix.

Lemma numbered_inj stem suffix i j : numbered stem suffix i = numbered stem suffix j -> i = j.
Proof.
  unfold numbered. intros E%str_app_inj%str_app_inj%str_app_inj_r. by apply (inj pretty) in E.
Qed.

Lemma free_index_spec fuel target stem suffix i fs :
  match free_index fuel target stem suffix i fs with
  | Some name => fs !! (target, name) = None
  | None => forall j, i <= j < i + Z.of_nat fuel -> is_Some (fs !! (target, numbered stem suffix j))
  end.
Proof.
  revert i. induction fuel as [|fuel IH]; intros i; cbn [free_index]; [intros j Hj; lia|].
  fold (numbered stem suffix i). case_bool_decide as Hi.
  - specialize (IH (i + 1)). destruct (free_index _ _ _ _ _ _); [done|]. intros j Hj.
    destruct (decide (j = i)) as [->|Hne]; [done|]. apply IH. lia.
  - by apply eq_None_not_Some.
Qed.

(** More names than files: one of them is free, so the search for it ends. *)
Lemma free_index_total target stem suffix i fs :
  is_Some (free_index (S (size fs)) target stem suffix i fs).
Proof.
  pose proof (free_index_spec (S (size fs)) target stem suffix i fs) as Hs.
  destruct (free_index _ _ _ _ _ _); [by eexists|]. exfalso.
  set (keys := (fun j => (target, numbered stem suffix (i + Z.of_nat j))) <$> seq 0 (S (size fs))).
  assert (Hnd : NoDup keys).
  { apply NoDup_fmap_2; [|apply NoDup_seq]. intros j k E. injection E as E%numbered_inj. lia. }
  assert (Hsub : list_to_set keys ⊆ dom fs).
  { intros k Hk%elem_of_list_to_set. apply elem_of_dom.
    apply list_elem_of_fmap in Hk as (j & -> & Hj%elem_of_seq). apply Hs. lia. }
  apply subseteq_size in Hsub. rewrite size_list_to_set, size_dom in Hsub by done.
  unfold keys in Hsub. rewrite length_fmap, length_seq in Hsub. lia.
Qed.

Lemma free_name_total target name fs :
  exists name', free_name target name fs = Some name' /\ fs !! (target, name') = None.
Proof.
  unfold free_name. case_bool_decide as Hn; [|by exists name; rewrite eq_None_not_Some].
  destruct (stem_suffix name) as [stem suffix].
  pose proof (free_index_spec (S (size fs)) target stem suffix 1 fs) as Hs.
  destruct (free_index_total target stem suffix 1 fs) as [name' E]. rewrite E in Hs. by exists name'.
Qed.

(** The number the search stops at, with enough fuel. *)
Lemma free_index_least fuel target stem suffix i fs name :
  free_index fuel target stem suffix i fs = Some name ->
  exists j, i <= j < i + Z.of_nat fuel /\ name = numbered stem suffix j /\
    fs !! (target, name) = None /\
    forall k, i <= k < j -> is_Some (fs !! (target, numbered stem suffix k)).
Proof.
  revert i. induction fuel as [|fuel IH]; intros i; cbn [free_index]; [done|].
  fold (numbered stem suffix i). case_bool_decide as Hi.
  - intros (j & Hj & Hn & Hfree & Hall)%IH. exists j. split; [lia|]. split_and!; [done..|].
    intros k Hk. destruct (decide (k = i)) as [->|]; [done|]. apply Hall. lia.
  - intros [= <-]. exists i. split; [lia|]. split; [done|].
    split; [by apply eq_None_not_Some | lia].
Qed.

Lemma free_index_fuel fuel fuel' target stem suffix i fs name :
  free_index fuel target stem suffix i fs = Some name -> (fuel <= fuel')%nat ->
  free_index fuel' target stem suffix i fs = Some name.
Proof.
  revert fuel' i. induction fuel as [|fuel IH]; intros [|fuel'] i; cbn [free_index]; try done; [lia|].
  case_bool_decide; [|done]. intros Hn Hle. apply IH; [done|lia].
Qed.

(** C37. The search for a free name ends.  Whatever files there are, the loop of
    [_move_unique] stops after at most one name more than files: any bound
    above that gives the same name; it is the file's own if that is free in the
    target and otherwise the first numbered one that is, and the move puts the
    file there unchanged and touches no other file. *)
Theorem move_terminates name target fs fuel f :
  fs !! (Inbox, name) = Some f -> (size fs < fuel)%nat ->
  let '(stem, suffix) := stem_suffix name in
  exists name', free_name target name fs = Some name' /\ fs !! (target, name') = None /\
    (if bool_decide (is_Some (fs !! (target, name))) then
       free_index fuel target stem suffix 1 fs = Some name' /\
       exists j, 1 <= j <= Z.of_nat (size fs) + 1 /\ name' = numbered stem suffix j /\
         forall k, 1 <= k < j -> is_Some (fs !! (target, numbered stem suffix k))
     else name' = name) /\
    move_unique name target fs = <[(target, name') := f]> (delete (Inbox, name) fs).
Proof.
  intros Hf Hfuel. destruct (free_name_total target name fs) as (name' & Hn & Hfree).
  destruct (stem_suffix name) as [stem suffix] eqn:Es. exists name'.
  split; [done|]. split; [done|]. split; [|unfold move_unique; by rewrite Hf, Hn].
  unfold free_name in Hn. rewrite Es in Hn. case_bool_decide; [|congruence].
  split; [eapply free_index_fuel; [exact Hn|lia]|].
  apply free_index_least in Hn as (j & Hj & Hnum & _ & Hall). exists j. split; [lia|]. by split.
Qed.

Definition taken_names : files :=
  {[ (Inbox, "a.json") := [1]; (Processed, "a.json") := [2]; (Processed, "a.1.json") := [3] ]}.

Lemma move_terminates_witness :
  move_unique "a.json" Processed taken_names !! (Processed, "a.2.json") = Some [1] /\
  exists name', free_name Processed "a.json" taken_names = Some name' /\
    taken_names !! (Processed, name') = None.
Proof.
  split; [vm_compute; reflexivity|].
  assert (Hf : taken_names !! (Inbox, "a.json"%string) = Some [1]) by (vm_compute; reflexivity).
  assert (Hs : (size taken_names < 10)%nat) by (apply Nat.ltb_lt; vm_compute; reflexivity).
  pose proof (move_terminates "a.json" Processed taken_names 10 [1] Hf Hs) as H.
  destruct (stem_suffix "a.json") as [stem suffix]. destruct H as (n & Hn & Hfree & _).
  exact (ex_intro _ n (conj Hn Hfree)).
Defined.

Lemma move_unique_spec name target fs f :
  fs !! (Inbox, name) = Some f ->
  exists name', fs !! (target, name') = None /\
    move_unique name target fs = <[(target, name') := f]> (delete (Inbox, name) fs).
Proof.
  intros Hf. destruct (free_name_total target name fs) as (name' & Hn & Hfree).
  exists name'. split; [done|]. unfold move_unique. by rewrite Hf, Hn.
Qed.

Lemma json_names_elem d fs n : n ∈ json_names d fs -> is_Some (fs !! (d, n)).
Proof.
  unfold json_names, sort_names. rewrite merge_sort_Permutation.
  intros (([d' m] & f) & Hin & Hp)%list_elem_of_omap. cbn [fst snd] in Hp.
  case_bool_decide; [|done]. destruct (endswith _ _); [|done]. simplify_eq/=.
  apply elem_of_map_to_list in Hin. by eexists.
Qed.

Lemma json_names_NoDup d fs : NoDup (json_names d fs).
Proof.
  unfold json_names, sort_names. rewrite merge_sort_Permutation.
  pose proof (NoDup_fst_map_to_list fs) as Hnd. revert Hnd.
  induction (map_to_list fs) as [|[[d' m] f] l IH]; cbn -[endswith]; [constructor|]. rewrite NoDup_cons.
  intros [Hn Hnd]. case_bool_decide; [|by apply IH]. destruct (endswith _ _); [|by apply IH]. cbn -[endswith].
  subst d'. constructor; [|by apply IH].
  intros ((k & f') & Hin & Hp)%list_elem_of_omap. destruct k as [d'' m']. cbn [fst snd] in Hp.
  case_bool_decide; [|done]. destruct (endswith _ _); [|done]. simplify_eq/=.
  apply Hn, list_elem_of_fmap. by eexists (_, _, f').
Qed.
End FileFacts.

(** ** What a poll does to the files *)

Section PollFacts.
Context {R : Type} `{Part buffer R} `{Part files R}.
Context `{!Apart buffer files R}.
Context (on_event : IngressResult -> M R unit).
Implicit Types (w : world R) (fs : files).

Definition files_of w : files := get_part (w_rest w).
Definition buffer_of w : buffer := get_part (w_rest w).

(** The callback does not move files of the spool. *)
Hypothesis on_event_files : forall r w, files_of (on_event r w).2 = files_of w.

(** Why a file is where it was moved to. *)
Definition placed (d : Dir) (f : list Z) : Prop :=
  match d with
  | Inbox => False
  | Quarantine => exists e, read_decoded f = Err e /\ is_undecodable e = true
  | Conflicts => exists event e w w', read_decoded f = Ok event /\
      deliver on_event event w = (Err e, w') /\ exn_cls e = QmtIngressIdentityError
  | Processed => exists event w w', read_decoded f = Ok event /\ deliver on_event event w = (Ok tt, w')
  end.

(** From one content of the spool to another: no content is lost or made up,
    nothing outside the inbox changes, and what left the inbox is under a name that
    was free, where it belongs. *)
Record polled fs fs' : Prop := {
  pl_contents : (map_to_list fs).*2 ≡ₚ (map_to_list fs').*2;
  pl_kept : forall d n f, d <> Inbox -> fs !! (d, n) = Some f -> fs' !! (d, n) = Some f;
  pl_inbox : forall n f, fs' !! (Inbox, n) = Some f -> fs !! (Inbox, n) = Some f;
  pl_placed : forall n f, fs !! (Inbox, n) = Some f ->
    fs' !! (Inbox, n) = Some f \/
    exists d n', fs !! (d, n') = None /\ fs' !! (d, n') = Some f /\ placed d f
}.

#[local] Instance polled_preorder : PreOrder polled.
Proof.
  split.
  - intros fs. split; auto.
  - intros fs1 fs2 fs3 [C1 K1 I1 P1] [C2 K2 I2 P2]. split; [by etrans | by auto | by auto |].
    intros n f Hf. destruct (P1 n f Hf) as [Hf2 | (d & n' & Hn & Hf2 & Hd)].
    + destruct (P2 n f Hf2) as [Hf3 | (d & n' & Hn & Hf3 & Hd)]; [by left|].
      right. exists d, n'. split; [|done]. destruct (fs1 !! (d, n')) eqn:E; [|done].
      destruct d; [done|..]; apply K1 in E; done || congruence.
    + right. exists d, n'. split; [done|]. split; [|done]. by destruct d; [done|..]; apply K2.
Qed.

Lemma move_polled name d fs f :
  fs !! (Inbox, name) = Some f -> placed d f ->
  polled fs (move_unique name d fs) /\ move_unique name d fs !! (Inbox, name) = None /\
  forall n, n <> name -> move_unique name d fs !! (Inbox, n) = fs !! (Inbox, n).
Proof.
  intros Hf Hd. destruct (move_unique_spec name d fs f Hf) as (n' & Hn & ->).
  assert (Hi : d <> Inbox) by (by intros ->).
  assert (Hne : (d, n') <> (Inbox, name)) by congruence.
  split; [split|split].
  - rewrite map_to_list_insert by (by rewrite lookup_delete_ne).
    rewrite <-(map_to_list_delete fs _ f Hf). done.
  - intros d' n g Hd' Hg. rewrite lookup_insert_ne by congruence. by rewrite lookup_delete_ne by congruence.
  - intros n g. rewrite lookup_insert_ne by congruence. intros Hg%lookup_delete_Some. naive_solver.
  - intros n g Hg. destruct (decide (n = name)) as [->|Hnn].
    + right. exists d, n'. rewrite lookup_insert_eq. naive_solver.
    + left. rewrite lookup_insert_ne by congruence. by rewrite lookup_delete_ne by congruence.
  - rewrite lookup_insert_ne by congruence. apply lookup_delete_eq.
  - intros n Hnn. rewrite lookup_insert_ne by congruence. by rewrite lookup_delete_ne by congruence.
Qed.

Lemma deliver_files event w : files_of (deliver on_event event w).2 = files_of w.
Proof.
  unfold deliver, ingest_event, bindM, read_part, write_part, lift, read_rest, write_rest. cbn.
  assert (Hf : forall b w, files_of (W (w_db w) (w_in_tx w) (w_tick w) (set_part (S := buffer) b (w_rest w)))
    = files_of w) by (intros b w0; unfold files_of; cbn; by rewrite get_set_apart).
  destruct (Ingress.ingest event _).1 as [r|e]; cbn; [by rewrite on_event_files|]; apply Hf.
Qed.

(** Why a poll stopped at a file. *)
Definition stopped (f : list Z) (e : exn) w : Prop :=
  read_decoded f = Err e /\ is_undecodable e = false \/
  exists event, read_decoded f = Ok event /\ (deliver on_event event w).1 = Err e /\
    exn_cls e <> QmtIngressIdentityError.

Lemma files_of_write d name w :
  files_of (write_part (move_unique name d) w).2 = move_unique name d (files_of w).
Proof. unfold files_of. cbn. by rewrite get_set_part. Qed.

Lemma poll_file_ok name f w :
  files_of w !! (Inbox, name) = Some f ->
  wp (poll_file on_event name) (fun res w' =>
    match res with
    | Ok d => placed d f /\ files_of w' = move_unique name d (files_of w)
    | Err e => files_of w' = files_of w /\ stopped f e w
    end) w.
Proof.
  intros Hf. unfold poll_file, read_part at 1. repeat wp_step.
  change (get_part (w_rest w)) with (files_of w). unfold read_file. rewrite Hf.
  destruct (read_decoded f) as [event|e] eqn:Hd.
  - apply wp_try, wp_bind. unfold wp at 1. pose proof (deliver_files event w) as Hfiles.
    destruct (deliver on_event event w) as [[[]|e] w1] eqn:Hdel; cbn [fst snd] in *; repeat wp_step.
    + rewrite <-Hfiles. split; [by exists event, w, w1|]. apply files_of_write.
    + destruct (decide (exn_cls e = _)) as [Hid|Hid]; repeat wp_step.
      * rewrite <-Hfiles. split; [by exists event, e, w, w1|]. apply files_of_write.
      * split; [done|]. right. exists event. by rewrite Hdel.
  - destruct (is_undecodable e) eqn:Hu; repeat wp_step.
    + split; [by exists e|]. apply files_of_write.
    + split; [done|]. by left.
Qed.

Definition total (c : SpoolPollResult) : Z :=
  po_processed c + po_quarantined c + po_conflicted c.

Lemma total_count c d f : placed d f -> total (count c d) = total c + 1.
Proof. unfold total, count. cbn. destruct d; [done|..]; intros _; repeat (case_decide; try done); lia. Qed.

(** The loop over files of the inbox. *)
Lemma poll_files_ok names c w :
  NoDup names -> Forall (fun n => is_Some (files_of w !! (Inbox, n))) names ->
  wp (poll_files on_event names c) (fun res w' =>
    polled (files_of w) (files_of w') /\
    (forall n, n ∉ names -> files_of w' !! (Inbox, n) = files_of w !! (Inbox, n)) /\
    match res with
    | Ok c' => Forall (fun n => files_of w' !! (Inbox, n) = None) names /\
               total c' = total c + Z.of_nat (length names)
    | Err e => exists seen name rest f w1, names = seen ++ name :: rest /\
        Forall (fun n => files_of w' !! (Inbox, n) = None) seen /\
        Forall (fun n => files_of w' !! (Inbox, n) = files_of w !! (Inbox, n)) (name :: rest) /\
        files_of w !! (Inbox, name) = Some f /\ stopped f e w1
    end) w.
Proof.
  revert c w. induction names as [|n names IH]; intros c w Hnd Hall; cbn [poll_files].
  { apply wp_ret. split; [reflexivity|]. split; [done|]. cbn. split; [constructor | lia]. }
  apply NoDup_cons in Hnd as [Hn Hnd]. apply Forall_cons in Hall as [[f Hf] Hall].
  apply wp_bind. eapply wp_mono; [by apply (poll_file_ok n f)|]. intros [d|e] w1 Hstep.
  2: { destruct Hstep as [-> Hst]. split; [reflexivity|]. split; [done|].
       exists [], n, names, f, w. split; [done|]. split; [done|]. split; [|done].
       apply Forall_forall. done. }
  destruct Hstep as [Hd Hw1]. destruct (move_polled n d (files_of w) f Hf Hd) as (Hp & Hgone & Hsame).
  rewrite <-Hw1 in Hp, Hgone, Hsame.
  assert (Hsame' : forall m, m ∈ names -> files_of w1 !! (Inbox, m) = files_of w !! (Inbox, m))
    by (intros m Hm; apply Hsame; congruence).
  eapply wp_mono; [apply IH; [done|]|].
  { apply Forall_forall. intros m Hm. rewrite Hsame' by done. by apply (proj1 (Forall_forall _ _) Hall). }
  intros res w' (Hp' & Hout & Hres). split; [by etrans|].
  split; [intros m Hm; rewrite not_elem_of_cons in Hm; rewrite Hout, Hsame by naive_solver; done|].
  assert (Hgone' : files_of w' !! (Inbox, n) = None) by (by rewrite Hout).
  destruct res as [c'|e].
  - destruct Hres as [Hg Ht]. split; [by constructor|]. rewrite Ht, (total_count c d f Hd). cbn [length]. lia.
  - destruct Hres as (seen & name & rest & g & w2 & -> & Hg & Hs & Hget & Hst).
    exists (n :: seen), name, rest, g, w2. split; [done|]. split; [by constructor|].
    split; [|split; [rewrite <-Hsame' by set_solver|]; done].
    rewrite Forall_forall in Hs |- *. intros m Hm. rewrite Hs by done. apply Hsame'. set_solver.
Qed.

(** C35. Polling loses nothing.  Whatever the decoder and the callback answer: no
    file appears or disappears and none outside the inbox is changed or
    overwritten; what left the inbox is under a free name in the directory of its
    reason - undecodable, of another identity, or handed to the callback, which
    returned.  A poll that returns has moved its first [max_files] files; one that
    raises left the file it stopped at and all later ones in the inbox. *)
Theorem poll_conserves max_files w :
  wp (poll_once on_event max_files) (fun res w' =>
    let candidates := firstn (Z.to_nat max_files) (json_names Inbox (files_of w)) in
    polled (files_of w) (files_of w') /\
    match res with
    | Ok c =>
        Forall (fun n => files_of w' !! (Inbox, n) = None) candidates /\
        po_processed c + po_quarantined c + po_conflicted c = Z.of_nat (length candidates) /\
        po_pending c = Z.of_nat (length (json_names Inbox (files_of w')))
    | Err e =>
        max_files <= 0 /\ w' = w \/
        exists seen name rest f w1, candidates = seen ++ name :: rest /\
          Forall (fun n => files_of w' !! (Inbox, n) = None) seen /\
          Forall (fun n => files_of w' !! (Inbox, n) = files_of w !! (Inbox, n)) (name :: rest) /\
          files_of w !! (Inbox, name) = Some f /\ stopped f e w1
    end) w.
Proof.
  unfold poll_once. repeat wp_step; [|split; [reflexivity|]; left; by bool_to_prop].
  unfold read_part at 1. repeat wp_step. change (get_part (w_rest w)) with (files_of w).
  set (names := firstn _ _).
  pose proof (firstn_skipn (Z.to_nat max_files) (json_names Inbox (files_of w))) as Hsplit.
  fold names in Hsplit.
  eapply wp_mono; [apply poll_files_ok|].
  { pose proof (json_names_NoDup Inbox (files_of w)) as Hnd. rewrite <-Hsplit in Hnd.
    by apply NoDup_app in Hnd as [? _]. }
  { apply Forall_forall. intros n Hn. apply json_names_elem. rewrite <-Hsplit. set_solver. }
  intros [c|e] w1 (Hp & _ & Hres); [|by split; [|right]].
  unfold read_part. repeat wp_step. change (get_part (w_rest w1)) with (files_of w1).
  destruct Hres as [Hg Ht]. split; [done|]. split; [done|]. by split.
Qed.

(** The event as a replay, to a buffer that took it in before. *)
Definition as_replay (event : QmtEvent) w : IngressResult :=
  {| ir_disposition := DUPLICATE; ir_event := event;
     ir_needs_resync := ib_needs_resync (buffer_of w) |}.

(** To a buffer of another session the event is a new one. *)
Lemma ingest_other_session event b :
  (forall a, ib_expected_account b = Some a -> qe_account_fingerprint event = a) ->
  (forall i, ib_expected_instance b = Some i -> qe_terminal_instance_id event = Some i) ->
  ib_session_id b <> Some (qe_session_id event) -> 0 < qe_sequence event ->
  exists r b', Ingress.ingest event b = (Ok r, b') /\ ir_disposition r = ACCEPTED /\ ir_event r = event.
Proof.
  intros Ha Hi Hs Hq. unfold Ingress.ingest.
  replace (match ib_expected_instance b with Some _ => _ | None => _ end) with false
    by (destruct (ib_expected_instance b) as [i|]; [|done]; by rewrite (Hi i), bool_decide_true).
  replace (match ib_expected_account b with Some _ => _ | None => _ end) with false
    by (destruct (ib_expected_account b) as [a|]; [|done]; by rewrite (Ha a), bool_decide_true).
  assert (Hnew : ib_last_sequence (Ingress.switch_session event (Ingress.pin_account event b)) = 0)
    by (unfold Ingress.switch_session; cbn; by rewrite bool_decide_false).
  rewrite Hnew, (proj2 (Z.leb_gt _ _)) by done. unfold Ingress.accept. rewrite Hnew. by do 2 eexists.
Qed.

Lemma deliver_again event w r b w' :
  Ingress.ingest event (buffer_of w) = (Ok r, b) -> same_session b (buffer_of w') ->
  deliver on_event event w' = on_event (as_replay event w') w'.
Proof.
  intros Hr Hb. pose proof (ingest_later _ _ _ _ _ Hr Hb) as Hr'. unfold deliver, ingest_event, bindM, read_part,
    write_part, lift, read_rest, write_rest. cbn. fold (buffer_of w'). rewrite Hr'. cbn.
  unfold buffer_of. rewrite set_get_part. by destruct w'.
Qed.
End PollFacts.

Section Retry.
Context {R : Type} `{Part buffer R} `{Part files R}.
Context `{!Apart buffer files R}.
Implicit Types (w : world R).

(** C36. A retry is not a second chance.  If the callback raised something else than an
    identity error on the first event of a poll after the buffer had taken it in, and left
    the spool and the buffer alone, the poll raised and the file is still in the inbox.
    Then every later attempt on it, whatever the callback and however far that buffer has
    come in the event's session, hands the event on as a replay only, and moves the file
    to the processed ones once the callback returns without touching the spool.  A buffer
    of another session - that of a restarted Host - hands the event on as a new one, if it
    expects the event's account and terminal or none in particular. *)
Theorem retry_is_replay max_files name rest f event r b e on_event w w1 :
  0 < max_files -> json_names Inbox (files_of w) = name :: rest ->
  files_of w !! (Inbox, name) = Some f -> read_decoded f = Ok event ->
  Ingress.ingest event (buffer_of w) = (Ok r, b) ->
  deliver on_event event w = (Err e, w1) -> exn_cls e <> QmtIngressIdentityError ->
  files_of w1 = files_of w -> buffer_of w1 = b ->
  poll_once on_event max_files w = (Err e, w1) /\
  files_of w1 !! (Inbox, name) = Some f /\
  (forall callback w2, files_of w2 !! (Inbox, name) = Some f -> same_session (buffer_of w1) (buffer_of w2) ->
    deliver callback event w2 = callback (as_replay event w2) w2 /\
    forall w3, callback (as_replay event w2) w2 = (Ok tt, w3) ->
      (poll_file callback name w2).1 = Ok Processed /\
      (files_of w3 = files_of w2 ->
       files_of (poll_file callback name w2).2
         = move_unique name Processed (files_of w2))) /\
  (forall w2, ib_session_id (buffer_of w2) <> Some (qe_session_id event) -> 0 < qe_sequence event ->
    (forall a, ib_expected_account (buffer_of w2) = Some a -> qe_account_fingerprint event = a) ->
    (forall i, ib_expected_instance (buffer_of w2) = Some i -> qe_terminal_instance_id event = Some i) ->
    exists r2 w3, ir_disposition r2 = ACCEPTED /\ ir_event r2 = event /\
      forall callback, deliver callback event w2 = callback r2 w3).
Proof.
  intros Hmax Hnames Hf Hdec Hing Hdel Hid Hfiles Hbuf. split; [|split; [by rewrite Hfiles | split]].
  - unfold poll_once, guardM. rewrite (proj2 (Z.ltb_lt 0 max_files)) by done.
    unfold bindM at 1, retM at 1. unfold bindM at 1, read_part at 1, read_rest at 1.
    change (get_part (w_rest w)) with (files_of w). rewrite Hnames.
    replace (Z.to_nat max_files) with (S (Z.to_nat max_files - 1)) by lia. cbn [firstn poll_files].
    assert (Hstop : poll_file on_event name w = (Err e, w1)).
    { unfold poll_file. unfold bindM at 1, read_part at 1, read_rest at 1.
      change (get_part (w_rest w)) with (files_of w). unfold read_file. rewrite Hf, Hdec.
      unfold bindM at 1, tryM. unfold bindM at 1. rewrite Hdel. by rewrite decide_False. }
    unfold bindM at 1. unfold bindM at 1. by rewrite Hstop.
  - intros callback w2 Hf2 Hb2. rewrite <-Hbuf in Hing.
    pose proof (deliver_again callback event w r (buffer_of w1) w2 Hing Hb2) as Hd.
    split; [done|]. intros w3 Hcb. rewrite Hcb in Hd.
    assert (Hrun : poll_file callback name w2
      = (Ok Processed, (write_part (move_unique name Processed) w3).2)).
    { unfold poll_file. unfold bindM at 1, read_part at 1, read_rest at 1.
      change (get_part (w_rest w2)) with (files_of w2). unfold read_file.
      rewrite Hf2, Hdec.
      unfold bindM at 1, tryM. unfold bindM at 1. by rewrite Hd. }
    rewrite Hrun. split; [done|]. intros <-. unfold files_of. cbn. by rewrite get_set_part.
  - intros w2 Hs Hq Ha Hi. destruct (ingest_other_session event (buffer_of w2) Ha Hi Hs Hq) as (r2 & b2 & Hr2 & Hd & He).
    exists r2, (W (w_db w2) (w_in_tx w2) (w_tick w2) (set_part b2 (w_rest w2))). split; [done|]. split; [done|].
    intros callback. unfold deliver, ingest_event, bindM, read_part, write_part, lift, read_rest, write_rest. cbn.
    fold (buffer_of w2). by rewrite Hr2.
Qed.
End Retry.

(** ** Concrete spools *)

Definition demo_frame (e : QmtEvent) : list Z :=
  match encode_transport_frame e with Ok raw => raw | Err _ => [] end.
Definition demo_bad : list Z := utf8 "not a frame".

Definition demo_spool : files := list_to_map
  [((Inbox, "1.json"), demo_frame (demo_snapshot "qmt-1" 4 [])); ((Inbox, "2.json"), demo_bad);
   ((Inbox, "3.json"), demo_frame (demo_order "qmt-1" 5)); ((Inbox, "4.tmp"), demo_bad);
   ((Processed, "1.json"), demo_frame (demo_order "qmt-1" 1))].

Definition demo_disk : world (buffer * files) :=
  W empty_db false 0 (buffer_init (Some demo_account) None, demo_spool).

Definition demo_poll : res SpoolPollResult * world (buffer * files) :=
  poll_once (fun _ => retM tt) 256 demo_disk.

Lemma poll_conserves_witness :
  demo_poll.1 = Ok {| po_processed := 2; po_quarantined := 1; po_conflicted := 0; po_pending := 0 |} /\
  polled (R := buffer * files) (fun _ => retM tt) demo_spool
    (files_of demo_poll.2).
Proof.
  split; [vm_compute; reflexivity|].
  exact (proj1 (poll_conserves (fun _ => retM tt)
    (fun _ _ => eq_refl) 256 demo_disk)).
Defined.

(** A Host: the spool, the buffer and the ingestion, whose evidence sink is the
    argument; the mapper reads every fact as a full fill of the concrete order. *)
Abbreviation demo_host_state := ((buffer * files) * ingestion)%type.

Definition demo_fact (event : QmtEvent) : build_args :=
  {| ba_source := "qmt"; ba_source_kind := ORDER_CALLBACK;
     ba_source_event_id := qe_session_id event +:+ ":" +:+ z_str (qe_sequence event);
     ba_mapper_profile := "profile"; ba_account_fingerprint := qe_account_fingerprint event;
     ba_client_order_id := "cid-1"; ba_broker_token := None; ba_broker_order_id := Some "B1"%string;
     ba_order_ref := None; ba_trade_id := None; ba_type := FULL_FILL;
     ba_requested_status := status_by_type FULL_FILL; ba_filled_quantity := 100;
     ba_observed_at_ms := qe_timestamp_ms event; ba_raw_payload_ref := "ref"; ba_raw_status := None;
     ba_route_account_type := None; ba_route_account_fingerprint := None |}.

Definition demo_on_event (sink : BrokerEvidenceV1 -> M demo_host_state unit) (r : IngressResult)
    : M demo_host_state unit :=
  do! handle {| co_evidence_sink := Some sink;
                co_evidence_mapper := Some (fun event => retM (Some
                  (assemble (demo_fact event)
                     (broker_evidence_semantic_digest (digest_input (demo_fact event))))));
                co_snapshot_evidence_mapper := None; co_command_result_sink := None;
                co_calibration_observer := None; co_max_quarantine := 2 |} r ;;
  retM tt.

(** The first poll finds the OMS's database locked; later ones count the evidence
    the sink was given in the world's ticks. *)
Definition demo_locked : IngressResult -> M demo_host_state unit :=
  demo_on_event (fun _ => lift (raise SqliteOperationalError "database is locked")).

Definition demo_unlocked : IngressResult -> M demo_host_state unit :=
  demo_on_event (fun _ w => (Ok tt, tick_world w)).

Definition demo_inbox : world demo_host_state :=
  W empty_db false 0 ((buffer_init (Some demo_account) None,
    list_to_map [((Inbox, "1.json"), demo_frame (demo_order "qmt-1" 5))] : files), ingestion_init).

Definition demo_polls : world demo_host_state :=
  (poll_once demo_unlocked 256
     (poll_once demo_locked 256 demo_inbox).2).2.

(** The fill never reaches the sink, and its file is among the processed ones. *)
Example evidence_lost :
  (w_tick demo_polls,
   get_part (S := files) (w_rest demo_polls) !! (Processed, "1.json"))
  = (0%nat, Some (demo_frame (demo_order "qmt-1" 5))).
Proof. vm_compute. reflexivity. Qed.

Lemma retry_is_replay_witness :
  (poll_once demo_locked 256 demo_inbox).1 = raise SqliteOperationalError "database is locked".
Proof.
  pose proof (retry_is_replay 256 "1.json" [] (demo_frame (demo_order "qmt-1" 5)) (demo_order "qmt-1" 5)
    {| ir_disposition := ACCEPTED; ir_event := demo_order "qmt-1" 5; ir_needs_resync := true |}
    (buffer_of (deliver demo_locked (demo_order "qmt-1" 5) demo_inbox).2)
    (Exn SqliteOperationalError "database is locked") demo_locked demo_inbox
    (deliver demo_locked (demo_order "qmt-1" 5) demo_inbox).2) as Hr.
  destruct Hr as [-> _]; try reflexivity; [vm_compute; reflexivity..|discriminate].
Defined.
