(* ===== verification/Commands.v ===== *)
(** * Commands: the command files of the Host

    qmt/commands.py.  A command is a frame the Host publishes once, under its
    identity, into the inbox of the terminal's command spool; the terminal moves
    the file on.  As in the source a command's fields are whatever was decoded or
    given - JSON values - and [validate_command] is what makes them typed.  The
    spool is a map from a state directory and a name to bytes; writing a file may
    fail, and the temporary file it goes through is not part of the map. *)

From S2P Require Import Prelude Json Parse Domain Db OrderStore BrokerEvidence Parts Wire Frame.
Open Scope Z_scope.
Open Scope oms_scope.

Definition COMMAND_PROTOCOL_VERSION : string := "0.1".
Definition COMMAND_TRANSPORT_VERSION : string := "1".
Definition MAX_COMMAND_FRAME_BYTES : Z := 64 * 1024.

(** [_COMMAND_ID_RE.fullmatch]. *)
Definition is_command_id (s : string) : bool :=
  let ok a := let n := N_of_ascii a in
    ((65 <=? n) && (n <=? 90) || (97 <=? n) && (n <=? 122) || (48 <=? n) && (n <=? 57)
     || (n =? 46) || (n =? 95) || (n =? 45))%N in
  str_nonempty s && (str_len s <=? 80) && all_chars ok s.

Inductive QmtCommandType := SUBMIT_LIMIT | CANCEL_ORDER | REQUEST_SNAPSHOT.

#[global] Instance command_type_eq_dec : EqDecision QmtCommandType.
Proof. solve_decision. Defined.

Definition command_type_str (t : QmtCommandType) : string :=
  match t with
  | SUBMIT_LIMIT => "SUBMIT_LIMIT" | CANCEL_ORDER => "CANCEL_ORDER"
  | REQUEST_SNAPSHOT => "REQUEST_SNAPSHOT"
  end.

(** [QmtCommandType(value)]. *)
Definition command_type_of (value : json) : res QmtCommandType :=
  match value with
  | JStr s =>
      if decide (s = "SUBMIT_LIMIT") then Ok SUBMIT_LIMIT
      else if decide (s = "CANCEL_ORDER") then Ok CANCEL_ORDER
      else if decide (s = "REQUEST_SNAPSHOT") then Ok REQUEST_SNAPSHOT
      else raise ValueError "not a valid QmtCommandType"
  | _ => raise ValueError "not a valid QmtCommandType"
  end.

Record QmtCommand := {
  qc_command_id : json; qc_created_ms : json; qc_expires_ms : json;
  qc_account_fingerprint : json; qc_command_type : QmtCommandType;
  qc_client_order_id : json; qc_broker_token : json; qc_payload : json
}.

(** [as_mapping]; [dict(self.payload)] of a payload that is a mapping. *)
Definition as_mapping (c : QmtCommand) : jdict :=
  [("command_protocol_version", JStr COMMAND_PROTOCOL_VERSION);
   ("command_id", qc_command_id c); ("created_ms", qc_created_ms c);
   ("expires_ms", qc_expires_ms c); ("account_fingerprint", qc_account_fingerprint c);
   ("command_type", JStr (command_type_str (qc_command_type c)));
   ("client_order_id", qc_client_order_id c); ("broker_token", qc_broker_token c);
   ("payload", qc_payload c)].

Definition command_check (b : bool) (msg : string) : res unit := guard_r b QmtCommandError msg.

(** [_validate_account_fingerprint]. *)
Definition validate_account_fingerprint (value : json) : res unit :=
  command_check (match value with JStr s => is_sha256 s | _ => false end)
    "invalid account_fingerprint".

Definition nul : string := String (ascii_of_N 0) "".

(** [broker_token_for]. *)
Definition broker_token_for (account_fingerprint client_order_id : json) : res string :=
  (do! validate_account_fingerprint account_fingerprint ;;
   match account_fingerprint, nonempty_str client_order_id with
   | JStr a, Some c => Ok ("BQ" +:+ String.substring 0 20 (Sha256.hexdigest (utf8 (a +:+ nul +:+ c))))
   | _, _ => raise QmtCommandError "client_order_id must be a non-empty string"
   end)%py.

Definition is_str (s : string) (j : json) : bool :=
  match j with JStr t => bool_decide (t = s) | _ => false end.

(** [x is not None and x not in {...}] is refused. *)
Definition check_member (x : json) (l : list string) (msg : string) : res unit :=
  if is_null x then Ok tt else (known <- member x l ;; command_check known msg)%py.

(** The payload of a submit. *)
Definition validate_submit (payload : jdict) : res unit :=
  let order_style := jget "order_style" payload in
  let market := jget "market" payload in
  let route_hint := jget "route_hint" payload in
  (do! command_check (bool_decide (is_Some (nonempty_str (jget "symbol" payload))))
         "submit requires symbol" ;;
   side <- member (jget "side" payload) ["BUY"; "SELL"] ;;
   do! command_check side "submit side must be BUY or SELL" ;;
   do! command_check (match as_int (jget "quantity" payload) with Some q => 0 <? q | None => false end)
         "submit quantity must be positive integer" ;;
   do! command_check (bool_decide (is_Some (nonempty_str (jget "limit_price" payload))))
         "submit limit_price must be text" ;;
   do! command_check (is_null order_style || is_str "LIMIT" order_style)
         "submit order_style currently supports LIMIT only" ;;
   do! check_member market ["AUTO"; "CN"; "HK_CONNECT"] "unsupported submit market" ;;
   do! check_member route_hint ["AUTO"; "HGT"; "SGT"] "unsupported submit route_hint" ;;
   routed <- member route_hint ["HGT"; "SGT"] ;;
   command_check (negb routed || is_null market || is_str "HK_CONNECT" market)
     "HGT/SGT route_hint requires HK_CONNECT market")%py.

(** [_validate_command]; matching a pattern against a value that is no text
    raises [TypeError]. *)
Definition validate_command (c : QmtCommand) : res unit :=
  (do! match qc_command_id c with
       | JStr s => command_check (is_command_id s) "invalid command_id"
       | _ => raise TypeError "expected string or bytes-like object"
       end ;;
   do! command_check (match as_int (qc_created_ms c) with Some z => 0 <? z | None => false end)
         "created_ms must be a positive integer" ;;
   do! command_check (bool_decide (is_Some (as_int (qc_expires_ms c)))) "expires_ms must be an integer" ;;
   do! command_check (match as_int (qc_created_ms c), as_int (qc_expires_ms c) with
                      | Some created_ms, Some expires_ms => created_ms <? expires_ms
                      | _, _ => false
                      end) "expires_ms must be after created_ms" ;;
   do! validate_account_fingerprint (qc_account_fingerprint c) ;;
   match as_dict (qc_payload c) with
   | None => raise QmtCommandError "payload must be an object"
   | Some payload =>
       if decide (qc_command_type c = REQUEST_SNAPSHOT) then
         command_check (is_null (qc_client_order_id c) && is_null (qc_broker_token c))
           "snapshot request must not carry order identity"
       else
         do! command_check (bool_decide (is_Some (nonempty_str (qc_client_order_id c))))
               "order command requires client_order_id" ;;
         expected_token <- broker_token_for (qc_account_fingerprint c) (qc_client_order_id c) ;;
         do! command_check (is_str expected_token (qc_broker_token c) && (str_len expected_token <? 24))
               "invalid broker_token" ;;
         do! match qc_command_type c with
             | SUBMIT_LIMIT => validate_submit payload
             | CANCEL_ORDER =>
                 command_check (bool_decide (is_Some (nonempty_str (jget "broker_order_id" payload))))
                   "cancel requires broker_order_id"
             | REQUEST_SNAPSHOT => Ok tt
             end ;;
         command_check (negb (is_true (jget "simulation_calibration" payload)) ||
                        bool_decide (is_Some (nonempty_str (jget "expected_qmt_session_id" payload))))
           "simulation calibration requires expected_qmt_session_id"
   end)%py.

(** ** Frames *)

(** [json.dumps(..., sort_keys=True)] and a newline. *)
Definition command_body (c : QmtCommand) : json :=
  JObj [("command_transport_version", JStr COMMAND_TRANSPORT_VERSION);
        ("command", JObj (as_mapping c))].

Definition encode_command_frame (c : QmtCommand) : res (list Z) :=
  (do! validate_command c ;;
   let raw := utf8 (dumps false (command_body c) +:+ line_feed) in
   do! command_check (frame_size raw <=? MAX_COMMAND_FRAME_BYTES)
         "command frame exceeds maximum size" ;;
   Ok raw)%py.

(** [value[key]]. *)
Definition item (key : string) (value : jdict) : res json :=
  match dict_get key value with Some j => Ok j | None => raise KeyError key end.

(** [QmtCommand(...)] of the decoded object. *)
Definition command_of (value : jdict) : res QmtCommand :=
  (command_id <- item "command_id" value ;;
   created_ms <- item "created_ms" value ;;
   expires_ms <- item "expires_ms" value ;;
   account_fingerprint <- item "account_fingerprint" value ;;
   command_type <- item "command_type" value ;;
   command_type <- command_type_of command_type ;;
   payload <- item "payload" value ;;
   Ok {| qc_command_id := command_id; qc_created_ms := created_ms; qc_expires_ms := expires_ms;
         qc_account_fingerprint := account_fingerprint; qc_command_type := command_type;
         qc_client_order_id := jget "client_order_id" value;
         qc_broker_token := jget "broker_token" value; qc_payload := payload |})%py.

Definition decode_command_frame (raw : list Z) : res QmtCommand :=
  (do! command_check (negb (bool_decide (raw = [])) && (frame_size raw <=? MAX_COMMAND_FRAME_BYTES))
         "invalid command frame size" ;;
   body <- match res_bind (utf8_decode raw) loads with
           | Err e => if is_json_error e then raise QmtCommandError "invalid command frame JSON"
                      else Err e
           | Ok body => Ok body
           end ;;
   match body with
   | JObj body =>
       do! command_check (is_str COMMAND_TRANSPORT_VERSION (jget "command_transport_version" body))
             "unsupported command transport version" ;;
       match jget "command" body with
       | JObj value =>
           do! command_check (is_str COMMAND_PROTOCOL_VERSION (jget "command_protocol_version" value))
                 "unsupported command protocol version" ;;
           command <- match command_of value with
                      | Err _ => raise QmtCommandError "invalid command frame fields"
                      | Ok command => Ok command
                      end ;;
           do! validate_command command ;;
           Ok command
       | _ => raise QmtCommandError "unsupported command protocol version"
       end
   | _ => raise QmtCommandError "unsupported command transport version"
   end)%py.

(** ** The command spool *)

Inductive CommandDir := CInbox | CClaimed | CProcessed | CRejected | CUnknown.

#[global] Instance command_dir_eq_dec : EqDecision CommandDir.
Proof. solve_decision. Defined.
#[global] Instance command_dir_countable : Countable CommandDir.
Proof.
  refine (inj_countable'
    (fun d => match d with CInbox => 0%Z | CClaimed => 1%Z | CProcessed => 2%Z | CRejected => 3%Z
                         | CUnknown => 4%Z end)
    (fun n => match n with 0%Z => CInbox | 1%Z => CClaimed | 2%Z => CProcessed | 3%Z => CRejected
                         | _ => CUnknown end) _).
  by intros [].
Defined.

(** [_STATE_DIRS]. *)
Definition STATE_DIRS : list CommandDir := [CInbox; CClaimed; CProcessed; CRejected; CUnknown].

Definition dir_str (d : CommandDir) : string :=
  match d with
  | CInbox => "inbox" | CClaimed => "claimed" | CProcessed => "processed"
  | CRejected => "rejected" | CUnknown => "unknown"
  end.

Abbreviation spool := (gmap (CommandDir * string) (list Z)).

(** The state directories that hold a file of the name. *)
Definition found_in (filename : string) (fs : spool) : list CommandDir :=
  List.filter (fun d => bool_decide (is_Some (fs !! (d, filename)))) STATE_DIRS.

(** [_find_existing]. *)
Definition find_existing (filename : string) (fs : spool) : option CommandDir :=
  head (found_in filename fs).

Definition frame_name (command_id : string) : string := command_id +:+ ".json".

(** [locate]. *)
Definition locate (command_id : string) (fs : spool) : res (option CommandDir) :=
  match found_in (frame_name command_id) fs with
  | [] => Ok None
  | [d] => Ok (Some d)
  | _ => raise QmtCommandConflict "command appears in more than one spool state"
  end.

(** Whether writing, syncing or renaming the temporary file fails, by tick. *)
Class FileEnv := { env_write : nat -> option exn }.

Section Publish.
Context {R : Type} `{Part spool R} {env : Env} {fenv : FileEnv}.

(** [int(time.time() * 1000)]: the same clock, in whole milliseconds. *)
Definition time_ms : M R Z := t <- utc_now ;; retM (instant t / 1000).

(** [str] and [int] of a field that was checked. *)
Definition text (j : json) : string := default "" (as_str j).
Definition whole (j : json) : Z := default 0 (as_int j).

(** Writing the temporary file and [os.replace]. *)
Definition replace_file (filename : string) (raw : list Z) : M R unit := fun w =>
  match env_write (w_tick w) with
  | Some e => (Err e, tick_world w)
  | None => write_part (fun fs : spool => <[(CInbox, filename) := raw]> fs) (tick_world w)
  end.

(** [publish]; the directory of the path it returns. *)
Definition publish (command : QmtCommand) : M R CommandDir :=
  raw <- lift (encode_command_frame command) ;;
  now_ms <- time_ms ;;
  do! guardM (now_ms <? whole (qc_expires_ms command)) QmtCommandError
        "refusing to publish an expired command" ;;
  let filename := frame_name (text (qc_command_id command)) in
  existing <- read_part (find_existing filename) ;;
  match existing with
  | Some d =>
      content <- read_part (fun fs : spool => fs !! (d, filename)) ;;
      do! guardM (bool_decide (content = Some raw)) QmtCommandConflict
            "command_id already exists with different content" ;;
      retM d
  | None =>
      do! replace_file filename raw ;;
      retM CInbox
  end.

(** [uuid4().hex]: the text of the identifier without its dashes. *)
Fixpoint without_dashes (s : string) : string :=
  match s with
  | EmptyString => EmptyString
  | String a s => if is_char 45 a then without_dashes s else String a (without_dashes s)
  end.

(** [_build]. *)
Definition build (command_type : QmtCommandType) (account_fingerprint : string)
    (client_order_id broker_token : option string) (payload : jdict) (expires_ms : Z)
    (command_id : option string) (created_ms : option Z) : M R QmtCommand :=
  created_ms <- match created_ms with Some z => retM z | None => time_ms end ;;
  command_id <- match command_id with
                | Some s => retM s
                | None => u <- uuid4 ;; retM (without_dashes u)
                end ;;
  retM {| qc_command_id := JStr command_id; qc_created_ms := JInt created_ms;
          qc_expires_ms := JInt expires_ms; qc_account_fingerprint := JStr account_fingerprint;
          qc_command_type := command_type; qc_client_order_id := jopt_str client_order_id;
          qc_broker_token := jopt_str broker_token; qc_payload := JObj payload |}.

(** The calibration and canary marks of a payload. *)
Definition mode_marks (simulation_calibration live_canary : bool) (session : option string) : jdict :=
  if simulation_calibration || live_canary then
    [(if simulation_calibration then "simulation_calibration" else "live_canary", JBool true);
     ("expected_qmt_session_id", jopt_str session)]
  else [].

Definition optional (key : string) (value : option string) : jdict :=
  match value with Some v => [(key, JStr v)] | None => [] end.

(** [publish_submit]. *)
Definition publish_submit (account_fingerprint client_order_id symbol side : string) (quantity : Z)
    (limit_price : string) (expires_ms : Z) (command_id : option string) (created_ms : option Z)
    (order_style market route_hint : option string) (simulation_calibration live_canary : bool)
    (expected_qmt_session_id : option string) : M R QmtCommand :=
  do! guardM (negb (simulation_calibration && live_canary)) QmtCommandError
        "command cannot be both simulation and live canary" ;;
  broker_token <- lift (broker_token_for (JStr account_fingerprint) (JStr client_order_id)) ;;
  command <- build SUBMIT_LIMIT account_fingerprint (Some client_order_id) (Some broker_token)
    ([("symbol", JStr symbol); ("side", JStr side); ("quantity", JInt quantity);
      ("limit_price", JStr limit_price)] ++ optional "order_style" order_style
     ++ optional "market" market ++ optional "route_hint" route_hint
     ++ mode_marks simulation_calibration live_canary expected_qmt_session_id)
    expires_ms command_id created_ms ;;
  do! publish command ;;
  retM command.

(** [publish_cancel]. *)
Definition publish_cancel (account_fingerprint client_order_id broker_order_id : string)
    (expires_ms : Z) (command_id : option string) (created_ms : option Z)
    (simulation_calibration live_canary : bool) (expected_qmt_session_id : option string)
    : M R QmtCommand :=
  do! guardM (negb (simulation_calibration && live_canary)) QmtCommandError
        "command cannot be both simulation and live canary" ;;
  broker_token <- lift (broker_token_for (JStr account_fingerprint) (JStr client_order_id)) ;;
  command <- build CANCEL_ORDER account_fingerprint (Some client_order_id) (Some broker_token)
    (("broker_order_id", JStr broker_order_id)
     :: mode_marks simulation_calibration live_canary expected_qmt_session_id)
    expires_ms command_id created_ms ;;
  do! publish command ;;
  retM command.

(** [publish_snapshot_request]. *)
Definition publish_snapshot_request (account_fingerprint : string) (expires_ms : Z)
    (command_id : option string) (created_ms : option Z) : M R QmtCommand :=
  command <- build REQUEST_SNAPSHOT account_fingerprint None None [] expires_ms command_id created_ms ;;
  do! publish command ;;
  retM command.
End Publish.

(** ** What a decoded command is *)

(** The token that stands for an order at the broker. *)
Definition token_of (account_fingerprint client_order_id : string) : string :=
  "BQ" +:+ String.substring 0 20 (Sha256.hexdigest (utf8 (account_fingerprint +:+ nul +:+ client_order_id))).

Lemma broker_token_ok a c t :
  broker_token_for a c = Ok t ->
  exists sa sc, a = JStr sa /\ c = JStr sc /\ is_sha256 sa = true /\ sc <> ""%string /\ t = token_of sa sc.
Proof.
  unfold broker_token_for. intros (u & Ha & H)%res_bind_ok. unfold validate_account_fingerprint in Ha.
  apply guard_r_ok in Ha. destruct a as [| | |sa| | |]; try discriminate Ha.
  destruct (nonempty_str c) as [sc|] eqn:E; [|discriminate H].
  apply nonempty_str_ok in E as [-> Hne]. injection H as <-. by exists sa, sc.
Qed.

(** An order command names its order by the token of its account and id. *)
Definition order_claims (c : QmtCommand) : Prop :=
  exists account client payload,
    qc_account_fingerprint c = JStr account /\ qc_client_order_id c = JStr client /\
    client <> ""%string /\ qc_broker_token c = JStr (token_of account client) /\
    qc_payload c = JObj payload /\
    (qc_command_type c = SUBMIT_LIMIT ->
       exists symbol side quantity price,
         jget "symbol" payload = JStr symbol /\ symbol <> ""%string /\
         jget "side" payload = JStr side /\ side ∈ ["BUY"; "SELL"]%string /\
         jget "quantity" payload = JInt quantity /\ 0 < quantity /\
         jget "limit_price" payload = JStr price /\ price <> ""%string) /\
    (qc_command_type c = CANCEL_ORDER ->
       exists id, jget "broker_order_id" payload = JStr id /\ id <> ""%string) /\
    (jget "simulation_calibration" payload = JBool true ->
       exists session, jget "expected_qmt_session_id" payload = JStr session /\ session <> ""%string).

Record command_ok (c : QmtCommand) : Prop := {
  co_id : exists id, qc_command_id c = JStr id /\ is_command_id id = true;
  co_times : exists created expires, qc_created_ms c = JInt created /\ qc_expires_ms c = JInt expires /\
               0 < created < expires;
  co_account : exists a, qc_account_fingerprint c = JStr a /\ is_sha256 a = true;
  co_payload : exists payload, qc_payload c = JObj payload;
  co_request : qc_command_type c = REQUEST_SNAPSHOT ->
               qc_client_order_id c = JNull /\ qc_broker_token c = JNull;
  co_order : qc_command_type c <> REQUEST_SNAPSHOT -> order_claims c
}.

Lemma some_nonempty j : bool_decide (is_Some (nonempty_str j)) = true -> exists s, j = JStr s /\ s <> ""%string.
Proof. intros [s Hs]%bool_decide_eq_true. apply nonempty_str_ok in Hs. by exists s. Qed.

Lemma is_str_ok s j : is_str s j = true <-> j = JStr s.
Proof. destruct j; cbn; rewrite ?bool_decide_eq_true; naive_solver. Qed.

Lemma is_null_ok j : is_null j = true <-> j = JNull.
Proof. destruct j; naive_solver. Qed.

Lemma validate_submit_ok payload :
  validate_submit payload = Ok tt ->
  exists symbol side quantity price,
    jget "symbol" payload = JStr symbol /\ symbol <> ""%string /\
    jget "side" payload = JStr side /\ side ∈ ["BUY"; "SELL"]%string /\
    jget "quantity" payload = JInt quantity /\ 0 < quantity /\
    jget "limit_price" payload = JStr price /\ price <> ""%string.
Proof.
  unfold validate_submit, command_check. intros H. inv_ok. subst.
  repeat match goal with
  | H : bool_decide (is_Some (nonempty_str _)) = true |- _ => apply some_nonempty in H as (? & ? & ?)
  | H : member (jget "side" _) _ = Ok true |- _ => apply member_ok in H as (? & ? & ?)
  | H : match as_int ?j with _ => _ end = true |- _ =>
      destruct (as_int j) eqn:?; [apply as_int_ok in Heqo | discriminate H]; bool_to_prop
  end.
  by repeat eexists.
Qed.

Lemma validate_command_ok c : validate_command c = Ok tt -> command_ok c.
Proof.
  unfold validate_command, command_check, validate_account_fingerprint.
  intros H. apply res_bind_ok in H as (u1 & H1 & H). apply res_bind_ok in H as (u2 & H2 & H).
  apply res_bind_ok in H as (u3 & H3 & H). apply res_bind_ok in H as (u4 & H4 & H).
  apply res_bind_ok in H as (u5 & H5 & H).
  destruct (qc_command_id c) as [| | |id| | |] eqn:Eid; try discriminate H1.
  destruct (as_int (qc_created_ms c)) as [t0|] eqn:Et; [|discriminate H2].
  destruct (as_int (qc_expires_ms c)) as [t1|] eqn:Et'; [|discriminate H4].
  destruct (qc_account_fingerprint c) as [| | |a| | |] eqn:Ea; try discriminate H5.
  destruct (qc_payload c) as [| | | | |payload|] eqn:Ep; try discriminate H. cbn [as_dict] in H.
  apply guard_r_ok in H1, H2, H4, H5. bool_to_prop. apply as_int_ok in Et, Et'.
  split; try (by eauto 10).
  - intros Hty. rewrite decide_True in H by done. apply guard_r_ok, andb_true_iff in H as [H H'].
    by rewrite <-!is_null_ok.
  - intros Hty. rewrite decide_False in H by done.
    apply res_bind_ok in H as (u6 & H6 & H). apply res_bind_ok in H as (token & Htok & H).
    apply res_bind_ok in H as (u7 & H7 & H). apply res_bind_ok in H as (u8 & H8 & H).
    apply broker_token_ok in Htok as (sa & sc & [= <-] & Hsc & _ & Hne & ->).
    apply guard_r_ok, andb_true_iff in H7 as [H7 _]. apply is_str_ok in H7.
    exists a, sc, payload. split; [done|]. do 4 (split; [done|]). split; [|split].
    + intros Ht. rewrite Ht in H8. destruct u8. by apply validate_submit_ok.
    + intros Ht. rewrite Ht in H8. apply guard_r_ok, some_nonempty in H8. done.
    + intros Hs. apply guard_r_ok in H. rewrite Hs in H. by apply some_nonempty.
Qed.

(** ** Frames read back *)

Lemma dict_get_elem k v d : NoDup d.*1 -> dict_get k d = Some v <-> (k, v) ∈ d.
Proof.
  induction d as [|[k' v'] d IH]; cbn; [set_solver|]. intros [Hn Hd]%NoDup_cons.
  case_bool_decide as E; [subst|].
  - split; [intros [= ->]; set_solver|]. intros [[= <-]|Hin]%elem_of_cons; [done|].
    exfalso. apply Hn, list_elem_of_fmap. by exists (k', v).
  - rewrite IH by done. rewrite elem_of_cons. naive_solver.
Qed.

Lemma dict_get_perm k d d' : NoDup d.*1 -> d ≡ₚ d' -> dict_get k d = dict_get k d'.
Proof.
  intros Hd Hp. assert (Hd' : NoDup d'.*1) by by rewrite <-Hp.
  destruct (dict_get k d) as [v|] eqn:E, (dict_get k d') as [v'|] eqn:E'; try done.
  - apply (dict_get_elem _ _ _ Hd) in E. rewrite Hp in E.
    apply (dict_get_elem _ _ _ Hd') in E. congruence.
  - apply (dict_get_elem _ _ _ Hd) in E. rewrite Hp in E.
    apply (dict_get_elem _ _ _ Hd') in E. congruence.
  - apply (dict_get_elem _ _ _ Hd') in E'. rewrite <-Hp in E'.
    apply (dict_get_elem _ _ _ Hd) in E'. congruence.
Qed.

Definition sorted_dict (d : jdict) : jdict := sort_keys (List.map (fun p => (p.1, sorted p.2)) d).

Lemma map_sorted_keys (d : jdict) : (List.map (fun p => (p.1, sorted p.2)) d).*1 = d.*1.
Proof. induction d as [|[] d IH]; cbn; congruence. Qed.

Lemma dict_get_sorted k d : NoDup d.*1 -> dict_get k (sorted_dict d) = sorted <$> dict_get k d.
Proof.
  intros Hd. unfold sorted_dict. rewrite (dict_get_perm _ _ (List.map (fun p => (p.1, sorted p.2)) d)).
  - clear Hd. induction d as [|[k' v'] d IH]; [done|]. cbn. by case_bool_decide.
  - by rewrite sort_keys_perm, map_sorted_keys.
  - apply sort_keys_perm.
Qed.

Lemma jget_sorted k d : NoDup d.*1 -> jget k (sorted_dict d) = sorted (jget k d).
Proof. intros Hd. unfold jget. rewrite dict_get_sorted by done. by destruct (dict_get k d). Qed.

(** Reading does not see the order of keys. *)
Lemma nonempty_sorted j : nonempty_str (sorted j) = nonempty_str j.
Proof. by destruct j. Qed.
Lemma as_int_sorted j : as_int (sorted j) = as_int j.
Proof. by destruct j. Qed.
Lemma member_sorted j l : member (sorted j) l = member j l.
Proof. by destruct j. Qed.
Lemma is_str_sorted s j : is_str s (sorted j) = is_str s j.
Proof. by destruct j. Qed.
Lemma is_null_sorted j : is_null (sorted j) = is_null j.
Proof. by destruct j. Qed.
Lemma is_true_sorted j : is_true (sorted j) = is_true j.
Proof. by destruct j. Qed.

Create Rewrite HintDb sorted.
#[export] Hint Rewrite nonempty_sorted as_int_sorted member_sorted is_str_sorted is_null_sorted
  is_true_sorted : sorted.

Lemma validate_submit_sorted d : NoDup d.*1 -> validate_submit (sorted_dict d) = validate_submit d.
Proof.
  intros Hd. unfold validate_submit, check_member. rewrite !jget_sorted by done.
  by autorewrite with sorted.
Qed.

(** The same command, the keys of its payload in order. *)
Definition sorted_command (c : QmtCommand) : QmtCommand :=
  {| qc_command_id := qc_command_id c; qc_created_ms := qc_created_ms c;
     qc_expires_ms := qc_expires_ms c; qc_account_fingerprint := qc_account_fingerprint c;
     qc_command_type := qc_command_type c; qc_client_order_id := qc_client_order_id c;
     qc_broker_token := qc_broker_token c; qc_payload := sorted (qc_payload c) |}.

Lemma validate_command_sorted c :
  well_keyed (qc_payload c) = true -> validate_command (sorted_command c) = validate_command c.
Proof.
  intros Hk. destruct c as [id t0 t1 a ty cid tok p]. unfold validate_command. cbn in *.
  destruct p as [| | | | |d|]; try done. cbn [sorted as_dict]. fold (sorted_dict d).
  cbn [well_keyed] in Hk. apply andb_true_iff in Hk as [Hd%bool_decide_eq_true _].
  rewrite validate_submit_sorted, !jget_sorted by done. by autorewrite with sorted.
Qed.

Lemma well_keyed_get k d j : well_keyed (JObj d) = true -> dict_get k d = Some j -> well_keyed j = true.
Proof. intros Hd Hj. pose proof (jget_well_keyed k d Hd) as H. unfold jget in H. by rewrite Hj in H. Qed.

(** The fields of an encoded mapping, in order. *)
Lemma command_of_sorted c :
  well_keyed (JObj (as_mapping c)) = true -> command_ok c ->
  command_of (sorted_dict (as_mapping c)) = Ok (sorted_command c).
Proof.
  intros Hk [(id & Hid & _) (t0 & t1 & Ht0 & Ht1 & _) (a & Ha & _) (p & Hp) Hr Ho].
  assert (Hd : NoDup (as_mapping c).*1).
  { cbn [well_keyed] in Hk. by apply andb_true_iff in Hk as [Hd%bool_decide_eq_true _]. }
  unfold command_of, item. rewrite !(dict_get_sorted _ _ Hd), !(jget_sorted _ _ Hd).
  assert (Hids : (exists s, qc_client_order_id c = JStr s \/ qc_client_order_id c = JNull) /\
                 (exists s, qc_broker_token c = JStr s \/ qc_broker_token c = JNull)).
  { destruct (decide (qc_command_type c = REQUEST_SNAPSHOT)) as [E|E].
    - apply Hr in E as [-> ->]. split; exists ""%string; auto.
    - destruct (Ho E) as (? & ? & ? & _ & -> & _ & -> & _). split; eexists; eauto. }
  destruct Hids as [[sc Hc] [st Hs]].
  destruct c as [fid ft0 ft1 fa ty fcid ftok fp]. cbn in *. subst.
  destruct ty; destruct Hc as [-> | ->], Hs as [-> | ->]; reflexivity.
Qed.

Lemma encode_command_ok c raw :
  encode_command_frame c = Ok raw ->
  validate_command c = Ok tt /\ raw = utf8 (dumps false (command_body c) +:+ line_feed) /\
  (frame_size raw <=? MAX_COMMAND_FRAME_BYTES) = true.
Proof.
  unfold encode_command_frame. generalize (utf8 (dumps false (command_body c) +:+ line_feed)).
  intros l ([] & Hv & H)%res_bind_ok. apply res_bind_ok in H as ([] & Hs & H).
  apply guard_r_ok in Hs. by simplify_eq.
Qed.

Lemma sorted_body c :
  sorted (command_body c)
  = JObj [("command", JObj (sorted_dict (as_mapping c)));
          ("command_transport_version", JStr COMMAND_TRANSPORT_VERSION)].
Proof. reflexivity. Qed.

Lemma read_command c :
  well_keyed (JObj (as_mapping c)) = true ->
  res_bind (utf8_decode (utf8 (dumps false (command_body c) +:+ line_feed))) loads
  = Ok (sorted (command_body c)).
Proof.
  intros Hk. rewrite utf8_decode_utf8. cbn [res_bind]. rewrite dumps_render.
  apply loads_line; [|reflexivity]. apply sorted_well_keyed.
  change (well_keyed (JObj (as_mapping c)) && true = true). by rewrite Hk.
Qed.

Lemma command_frame_nonempty c :
  bool_decide (utf8 (dumps false (command_body c) +:+ line_feed) = []) = false.
Proof. apply bool_decide_eq_false. rewrite utf8_app. by destruct (utf8 (dumps _ _)). Qed.

Lemma sorted_version c : well_keyed (JObj (as_mapping c)) = true ->
  is_str COMMAND_PROTOCOL_VERSION (jget "command_protocol_version" (sorted_dict (as_mapping c))) = true.
Proof.
  intros Hk. cbn [well_keyed] in Hk. apply andb_true_iff in Hk as [Hd%bool_decide_eq_true _].
  by rewrite jget_sorted.
Qed.

(** What was read can be written. *)
Lemma decode_well_keyed raw c :
  decode_command_frame raw = Ok c -> well_keyed (JObj (as_mapping c)) = true.
Proof.
  unfold decode_command_frame. intros ([] & _ & H)%res_bind_ok.
  destruct (res_bind (utf8_decode raw) loads) as [j|e] eqn:Ej; [|by destruct (is_json_error e)].
  cbn [res_bind] in H. apply res_bind_ok in Ej as (s & _ & Hj%loads_well_keyed).
  destruct j as [| | | | |body|]; try done. apply res_bind_ok in H as ([] & _ & H).
  pose proof (jget_well_keyed "command" body Hj) as Hv. destruct (jget "command" body) as [| | | | |v|]; try done.
  apply res_bind_ok in H as ([] & _ & H). destruct (command_of v) as [c'|] eqn:Ec; [|done].
  cbn [res_bind] in H. apply res_bind_ok in H as ([] & _ & [= <-]).
  pose proof (fun k j => well_keyed_get k v j Hv) as Hk. unfold command_of, item in Ec.
  repeat match goal with H : res_bind _ _ = Ok _ |- _ => apply res_bind_ok in H as (? & ? & ?) end.
  repeat match goal with H : match dict_get ?k v with _ => _ end = Ok _ |- _ =>
    let E := fresh in destruct (dict_get k v) eqn:E; [|done]; apply Hk in E; injection H as -> end.
  simplify_eq. cbn -[String.length z_str]. repeat (apply andb_true_iff; split); try done.
  all: try (by apply (jget_well_keyed _ v Hv)).
Qed.

(** A command frame means its command.  What was encoded, from whatever order
    of keys, reads back as the same command, and the command satisfies its
    contract: typed fields, an expiry after its creation, its order named by the
    token of the account and the client id. *)
Theorem command_roundtrip c raw :
  well_keyed (JObj (as_mapping c)) = true -> encode_command_frame c = Ok raw ->
  decode_command_frame raw = Ok (sorted_command c) /\ command_ok c /\ command_ok (sorted_command c).
Proof.
  intros Hk (Hv & -> & Hsize)%encode_command_ok. pose proof (validate_command_ok c Hv) as Hc.
  assert (Hp : well_keyed (qc_payload c) = true) by (by apply (well_keyed_get "payload" _ _ Hk)).
  pose proof Hv as Hv'. rewrite <-(validate_command_sorted c Hp) in Hv'.
  split; [|split; [done | by apply validate_command_ok]].
  unfold decode_command_frame. rewrite Hsize, command_frame_nonempty, read_command, sorted_body by done.
  cbn [negb andb command_check guard_r res_bind].
  change (jget "command_transport_version" [_; _]) with (JStr COMMAND_TRANSPORT_VERSION).
  change (jget "command" [_; _]) with (JObj (sorted_dict (as_mapping c))).
  cbn [is_str]. rewrite bool_decide_true by done. cbn [guard_r res_bind].
  rewrite sorted_version by done. cbn [guard_r res_bind].
  rewrite command_of_sorted by done. cbn [res_bind]. by rewrite Hv'.
Qed.

(** ** One file per command *)

Section Spool.
Context {R : Type} `{Part spool R} {env : Env} {fenv : FileEnv}.
Implicit Types (w : world R) (fs : spool) (n : string) (d : CommandDir).

Definition spool_of w : spool := get_part (w_rest w).

(** The file [n] is in directory [d] with content [raw], and nowhere else. *)
Definition only_in n d raw fs : Prop :=
  fs !! (d, n) = Some raw /\ forall d', d' <> d -> fs !! (d', n) = None.

(** No name is in two directories. *)
Definition unambiguous fs : Prop :=
  forall n d raw, fs !! (d, n) = Some raw -> only_in n d raw fs.

Lemma found_in_elem n fs d : d ∈ found_in n fs <-> is_Some (fs !! (d, n)).
Proof.
  unfold found_in. rewrite list_elem_of_In, filter_In, bool_decide_eq_true. split; [by intros []|].
  intros Hs. split; [|done]. destruct d; cbn; auto 6.
Qed.

Lemma find_existing_none n fs : find_existing n fs = None -> forall d, fs !! (d, n) = None.
Proof.
  unfold find_existing. intros E d. destruct (fs !! (d, n)) eqn:Ed; [|done]. exfalso.
  assert (Hin : d ∈ found_in n fs) by (apply found_in_elem; by eexists).
  destruct (found_in n fs); [set_solver | done].
Qed.

Lemma find_existing_some n fs d : find_existing n fs = Some d -> is_Some (fs !! (d, n)).
Proof.
  unfold find_existing. intros E. apply found_in_elem. destruct (found_in n fs); [done|].
  injection E as ->. set_solver.
Qed.

(** [locate] answers in an unambiguous spool. *)
Lemma locate_unambiguous id fs :
  unambiguous fs ->
  locate id fs = Ok (find_existing (frame_name id) fs).
Proof.
  intros Hu. unfold locate, find_existing. destruct (found_in (frame_name id) fs) as [|d l] eqn:E; [done|].
  assert (Hone : forall d', d' ∈ found_in (frame_name id) fs -> d' = d).
  { intros d' [raw' Hd']%found_in_elem. apply Hu in Hd' as [_ Ho].
    destruct (decide (d = d')) as [|Hne]; [done|].
    assert (Hin : d ∈ found_in (frame_name id) fs) by (rewrite E; set_solver).
    apply found_in_elem in Hin as [? Hd]. by rewrite (Ho d) in Hd. }
  destruct l as [|d2 l]; [done|]. exfalso.
  assert (Hnd : NoDup (found_in (frame_name id) fs)).
  { unfold found_in. apply NoDup_ListNoDup, List.NoDup_filter. repeat constructor; cbn; naive_solver. }
  rewrite E in Hnd, Hone. apply NoDup_cons in Hnd as [Hn _].
  rewrite (Hone d2) in Hn by set_solver. set_solver.
Qed.

(** What a publication did: nothing, or one new file in the inbox. *)
Definition published n raw fs fs' : Prop :=
  (forall d, fs !! (d, n) = None) /\ fs' = <[(CInbox, n) := raw]> fs.

Lemma publish_ok command w :
  wp (publish command) (fun r w' =>
    w_db w' = w_db w /\ w_in_tx w' = w_in_tx w /\
    let n := frame_name (text (qc_command_id command)) in
    match r with
    | Err _ => spool_of w' = spool_of w
    | Ok d => exists raw, encode_command_frame command = Ok raw /\ spool_of w' !! (d, n) = Some raw /\
        (spool_of w' = spool_of w \/ d = CInbox /\ published n raw (spool_of w) (spool_of w'))
    end) w.
Proof.
  unfold publish, time_ms. destruct (encode_command_frame command) as [raw|e] eqn:Eraw; [|by repeat wp_step].
  repeat wp_step; [|done]. unfold read_part at 1. repeat wp_step.
  change (get_part (w_rest ?x)) with (spool_of x).
  change (spool_of (tick_world w)) with (spool_of w).
  set (n := frame_name _). destruct (find_existing n (spool_of w)) as [d|] eqn:Ef.
  - unfold read_part. repeat wp_step; [|done]. split; [done|]. split; [done|].
    exists raw. split; [done|]. bool_to_prop. split; [done | by left].
  - unfold replace_file. apply wp_bind. unfold wp. cbn. destruct (env_write _) as [e|]; [done|]. cbn.
    split; [done|]. split; [done|].
    match goal with |- exists raw', _ /\ spool_of ?w' !! _ = _ /\ _ =>
      assert (Hs : spool_of w' = <[(CInbox, n) := raw]> (spool_of w))
        by (unfold spool_of; cbn; by rewrite get_set_part); rewrite Hs end.
    exists raw. split; [done|]. split; [apply lookup_insert_eq|]. right. split; [done|].
    split; [by apply find_existing_none | done].
Qed.
End Spool.

(** The terminal takes a command file on, to another directory than the inbox. *)
Definition moved (fs fs' : spool) : Prop :=
  exists n d d' raw, fs !! (d, n) = Some raw /\ fs !! (d', n) = None /\ d' <> CInbox /\
    fs' = <[(d', n) := raw]> (delete (d, n) fs).

Section History.
Context {R : Type} `{Part spool R} {env : Env} {fenv : FileEnv}.
Implicit Types (w : world R) (fs : spool) (n : string).

(** The Host publishes a command, whatever comes of it; the terminal moves one;
    other parts of the process change. *)
Inductive spool_step : world R -> world R -> Prop :=
  | host_publishes c w : spool_step w (publish c w).2
  | terminal_moves w w' : moved (spool_of w) (spool_of w') -> spool_step w w'
  | elsewhere w w' : spool_of w' = spool_of w -> spool_step w w'.

(** What is kept of a name: it stays in exactly one directory, its content stays, and
    once it left the inbox it does not come back. *)
Definition keeps_files fs fs' : Prop :=
  unambiguous fs ->
  unambiguous fs' /\
  forall n d raw, fs !! (d, n) = Some raw ->
    exists d', only_in n d' raw fs' /\ (d <> CInbox -> d' <> CInbox).

#[export] Instance keeps_files_preorder : PreOrder keeps_files.
Proof.
  split.
  - intros fs Hu. split; [done|]. intros n d raw Hd. exists d. split; [by apply Hu | done].
  - intros f1 f2 f3 H1 H2 Hu. destruct (H1 Hu) as [Hu2 K1]. destruct (H2 Hu2) as [Hu3 K2].
    split; [done|]. intros n d raw Hd. destruct (K1 n d raw Hd) as (d' & [Hd' _] & H1d).
    destruct (K2 n d' raw Hd') as (d2 & Ho & H2d). exists d2. auto.
Qed.

Lemma published_keeps n raw fs fs' : published n raw fs fs' -> keeps_files fs fs'.
Proof.
  intros [Hfree ->] Hu.
  assert (Hget : forall n' d, <[(CInbox, n) := raw]> fs !! (d, n')
    = if decide (n' = n /\ d = CInbox) then Some raw else fs !! (d, n')).
  { intros n' d. destruct (decide _) as [[-> ->]|Hne]; [apply lookup_insert_eq|].
    apply lookup_insert_ne. naive_solver. }
  assert (Hu' : unambiguous (<[(CInbox, n) := raw]> fs)).
  { intros n' d x Hx. split; [done|]. intros d' Hd'. rewrite Hget in Hx |- *.
    destruct (decide (n' = n /\ d = CInbox)) as [[E1 E2]|?], (decide (n' = n /\ d' = CInbox)) as [[E3 E4]|?]; subst.
    - done.
    - apply Hfree.
    - by rewrite Hfree in Hx.
    - by eapply Hu. }
  split; [done|]. intros n' d x Hx. exists d. split; [|done]. apply Hu'. rewrite Hget, decide_False; [done|].
  intros [-> ->]. by rewrite Hfree in Hx.
Qed.

Lemma moved_keeps fs fs' : moved fs fs' -> keeps_files fs fs'.
Proof.
  intros (n & d & d' & raw & Hraw & Hfree & Hout & ->) Hu.
  assert (Hne : d <> d') by (intros ->; congruence).
  assert (Hget : forall d1 n1, <[(d', n) := raw]> (delete (d, n) fs) !! (d1, n1)
    = if decide (n1 = n) then if decide (d1 = d') then Some raw else None else fs !! (d1, n1)).
  { intros d1 n1. destruct (decide (n1 = n)) as [->|Hn].
    - destruct (decide (d1 = d')) as [->|Hd]; [apply lookup_insert_eq|].
      rewrite lookup_insert_ne by naive_solver. destruct (decide (d1 = d)) as [->|Hd1]; [apply lookup_delete_eq|].
      rewrite lookup_delete_ne by naive_solver. by apply (Hu n d raw).
    - rewrite lookup_insert_ne, lookup_delete_ne by naive_solver. done. }
  assert (Hu' : unambiguous (<[(d', n) := raw]> (delete (d, n) fs))).
  { intros n1 d1 x Hx. split; [done|]. intros d2 Hd2. rewrite Hget in Hx |- *.
    destruct (decide (n1 = n)) as [->|Hn]; [|by apply (Hu n1 d1 x)].
    destruct (decide (d1 = d')) as [->|]; [|done]. by rewrite decide_False. }
  split; [done|]. intros n1 d1 x Hx. destruct (decide (n1 = n)) as [->|Hn].
  - exists d'. split; [|done]. apply Hu'. rewrite Hget, !decide_True by done.
    destruct (decide (d1 = d)) as [->|Hd]; [congruence|].
    destruct (Hu n d raw Hraw) as [_ Ho]. by rewrite Ho in Hx.
  - exists d1. split; [|done]. apply Hu'. by rewrite Hget, decide_False.
Qed.

Lemma step_keeps w w' : spool_step w w' -> keeps_files (spool_of w) (spool_of w').
Proof.
  intros [c w1 | w1 w2 Hm | w1 w2 ->]; [|by apply moved_keeps | done].
  pose proof (publish_ok c w1) as Hp. unfold wp in Hp.
  destruct (publish c w1) as [[d|e] w2]; destruct Hp as (_ & _ & Hp); cbn in *; [|by rewrite Hp].
  destruct Hp as (raw & _ & _ & [-> | [_ Hpub]]); [done | by eapply published_keeps].
Qed.

(** One immutable file per command.  Over any history of publications - failed
    ones and repeated ones included - and of the terminal moving files on, a
    command that was published stays in exactly one state directory with the bytes
    it was published with; locating any command is never ambiguous; and publishing
    under its identity again changes nothing, whatever the frame. *)
Theorem published_forever w w' :
  unambiguous (spool_of w) -> rtc spool_step w w' ->
  (forall id d raw, spool_of w !! (d, frame_name id) = Some raw ->
     exists d', spool_of w' !! (d', frame_name id) = Some raw /\
       locate id (spool_of w') = Ok (Some d')) /\
  (forall id, exists o, locate id (spool_of w') = Ok o) /\
  (forall c d raw,
     spool_of w !! (d, frame_name (text (qc_command_id c))) = Some raw ->
     spool_of (publish c w').2 = spool_of w' /\
     forall d', (publish c w').1 = Ok d' -> encode_command_frame c = Ok raw).
Proof.
  intros Hu Hsteps.
  assert (Hk : keeps_files (spool_of w) (spool_of w')).
  { clear Hu. induction Hsteps as [w|w1 w2 w3 Hs _ IH]; [done|]. etransitivity; [by apply step_keeps | done]. }
  destruct (Hk Hu) as [Hu' Hkeep].
  assert (Hfind : forall n d raw, spool_of w' !! (d, n) = Some raw -> find_existing n (spool_of w') = Some d).
  { intros n d raw Hd. destruct (find_existing n (spool_of w')) as [d2|] eqn:E.
    - apply find_existing_some in E as [raw2 E2]. destruct (Hu' n d raw Hd) as [_ Ho].
      destruct (decide (d2 = d)) as [->|Hne]; [done|]. by rewrite Ho in E2.
    - by rewrite (find_existing_none _ _ E) in Hd. }
  split; [|split].
  - intros id d raw Hd. destruct (Hkeep _ d raw Hd) as (d' & [Hd' _] & _). exists d'. split; [done|].
    rewrite locate_unambiguous by done. by rewrite (Hfind _ d' raw).
  - intros id. eexists. by apply locate_unambiguous.
  - intros c d raw Hd. destruct (Hkeep _ d raw Hd) as (d' & [Hd' _] & _).
    pose proof (publish_ok c w') as Hp. unfold wp in Hp.
    destruct (publish c w') as [[d2|e] w2]; destruct Hp as (_ & _ & Hp); cbn in *; [|by split].
    destruct Hp as (raw2 & Henc & Hraw2 & [Heq | (_ & Hfree & _)]); [|by rewrite Hfree in Hd'].
    split; [done|]. intros _ _. rewrite Henc. rewrite Heq in Hraw2. f_equal.
    destruct (Hu' _ _ _ Hd') as [_ Ho]. destruct (decide (d2 = d')) as [->|Hne]; [congruence|].
    by rewrite Ho in Hraw2.
Qed.
End History.

(** ** A concrete command *)

Definition demo_submit_command : QmtCommand :=
  {| qc_command_id := JStr "cmd-1"; qc_created_ms := JInt 1750000000000;
     qc_expires_ms := JInt 1750000030000; qc_account_fingerprint := JStr demo_account;
     qc_command_type := SUBMIT_LIMIT; qc_client_order_id := JStr "cid-1";
     qc_broker_token := JStr (token_of demo_account "cid-1");
     qc_payload := JObj [("symbol", JStr "600000.SH"); ("side", JStr "BUY"); ("quantity", JInt 100);
                         ("limit_price", JStr "10.50")] |}.

Definition demo_frame_bytes : list Z :=
  match encode_command_frame demo_submit_command with Ok raw => raw | Err _ => [] end.

Lemma command_roundtrip_witness :
  decode_command_frame demo_frame_bytes = Ok (sorted_command demo_submit_command) /\
  frame_size demo_frame_bytes = 429.
Proof.
  split; [|vm_compute; reflexivity].
  apply (command_roundtrip demo_submit_command); vm_compute; reflexivity.
Defined.

(** A terminal that claimed a file, and a Host that publishes under its name again. *)
Definition demo_files_env : FileEnv := {| env_write := fun _ => None |}.
Definition demo_time_env : Env :=
  {| env_now := fun _ => DT 1750000001000000 (Some 0); env_clock := fun _ => DT 0 (Some 0);
     env_uuid := fun _ => "u"; env_begin := fun _ => None |}.

Definition demo_inbox_file : world spool := W empty_db false 0 {[ (CInbox, "cmd-1.json") := [123; 125] ]}.
Definition demo_claimed : world spool := W empty_db false 1 {[ (CClaimed, "cmd-1.json") := [123; 125] ]}.

Lemma published_forever_witness :
  locate "cmd-1" (spool_of demo_claimed) = Ok (Some CClaimed) /\
  spool_of (@publish spool _ demo_time_env demo_files_env demo_submit_command demo_claimed).2
  = spool_of demo_claimed.
Proof.
  assert (Hu : unambiguous (spool_of demo_inbox_file)).
  { change (unambiguous {[ (CInbox, "cmd-1.json") := [123; 125] ]}).
    intros n d raw [[= <- <-] <-]%lookup_singleton_Some. split; [done|].
    intros d' Hd'. apply lookup_singleton_ne. by intros [= <-]. }
  assert (Hs : rtc (@spool_step spool _ demo_time_env demo_files_env) demo_inbox_file demo_claimed).
  { apply rtc_once, terminal_moves. exists "cmd-1.json", CInbox, CClaimed, [123; 125].
    split; [reflexivity|]. split; [reflexivity|]. split; [discriminate | reflexivity]. }
  destruct (@published_forever spool _ demo_time_env demo_files_env _ _ Hu Hs) as (H1 & _ & H3).
  split.
  - by destruct (H1 "cmd-1" CInbox [123; 125] eq_refl) as (d' & Hd' & ->); destruct d'.
  - apply (H3 demo_submit_command CInbox [123; 125]). reflexivity.
Defined.
