(* ===== verification/CommandResults.v ===== *)
(** * CommandResults: what the terminal says of a command

    The journal of command results (qmt/command_results.py) and the sink that the
    Execution Core is given (qmt/oms_bridge.py).  A result is a fact about the
    transport, not about the broker: it is stored once under its command and its
    place in the terminal's session, and may move its order only into UNKNOWN or
    RECONCILING. *)

From S2P Require Import Prelude Json Domain Db Repository OrderStore BrokerEvidence Parts Parse Wire Commands.
Open Scope Z_scope.
Open Scope oms_scope.

Definition COMMAND_TYPES : list string := ["SUBMIT_LIMIT"; "CANCEL_ORDER"; "REQUEST_SNAPSHOT"].

Definition RESULT_STATUSES : list string :=
  ["SHADOW_ACCEPTED"; "SNAPSHOT_EMITTED"; "REJECTED_EXPIRED"; "UNKNOWN_ORPHANED";
   "LIVE_CANARY_SUBMIT_CALL_RETURNED"; "LIVE_CANARY_CANCEL_SIGNAL_SENT";
   "LIVE_CANARY_CANCEL_NOT_CANCELLABLE"; "LIVE_CANARY_CANCEL_NOT_SENT";
   "LIVE_CANARY_MUTATION_UNKNOWN"; "LIVE_CANARY_ORPHANED_UNKNOWN"; "REJECTED_SAFETY_GATE";
   "SIMULATION_SUBMIT_CALL_RETURNED"; "SIMULATION_CANCEL_SIGNAL_SENT";
   "SIMULATION_CANCEL_NOT_CANCELLABLE"; "SIMULATION_CANCEL_NOT_SENT";
   "SIMULATION_MUTATION_UNKNOWN"; "SIMULATION_ORPHANED_UNKNOWN"].

Definition LIVE_SIDE_EFFECT_STATUSES : list string :=
  ["LIVE_CANARY_SUBMIT_CALL_RETURNED"; "LIVE_CANARY_CANCEL_SIGNAL_SENT";
   "LIVE_CANARY_CANCEL_NOT_SENT"; "LIVE_CANARY_MUTATION_UNKNOWN"; "LIVE_CANARY_ORPHANED_UNKNOWN"].

Definition SIMULATION_SIDE_EFFECT_STATUSES : list string :=
  ["SIMULATION_SUBMIT_CALL_RETURNED"; "SIMULATION_CANCEL_SIGNAL_SENT";
   "SIMULATION_CANCEL_NOT_SENT"; "SIMULATION_MUTATION_UNKNOWN"; "SIMULATION_ORPHANED_UNKNOWN"].

Definition value_check (b : bool) (msg : string) : res unit := guard_r b ValueError msg.

(** [live_side_effect is expected]. *)
Definition is_bool (expected : bool) (j : json) : bool :=
  match j with JBool b => Bool.eqb b expected | _ => false end.

Definition in_set (j : json) (l : list string) : bool :=
  match j with JStr s => bool_decide (s ∈ l) | _ => false end.

Record CommandResultIngestResult := {
  cri_duplicate : bool; cri_order_status : option OrderStatus;
  cri_disposition : option TransitionDisposition
}.

(** [evidence_class] and the rest of the evidence the event carries. *)
Definition result_evidence (payload : jdict) (qmt_session_id : string) (qmt_sequence : Z) : jdict :=
  [("command_id", jget "command_id" payload); ("command_type", jget "command_type" payload);
   ("qmt_session_id", JStr qmt_session_id); ("qmt_sequence", JInt qmt_sequence);
   ("broker_token", jget "broker_token" payload);
   ("execution_mode", jget "execution_mode" payload);
   ("live_side_effect", jget "live_side_effect" payload); ("broker_evidence", JBool false);
   ("evidence_class", JStr "EXECUTION_PLANE_NOT_BROKER_ACK")].

(** The checks [ingest] makes before its transaction. *)
Definition check_result (payload : jdict) (account_fingerprint qmt_session_id : string)
    (qmt_sequence : Z) (observed_at : datetime) : res unit :=
  let result_status := jget "result_status" payload in
  let execution_mode := jget "execution_mode" payload in
  let live_side_effect := jget "live_side_effect" payload in
  (known <- member (jget "command_type" payload) COMMAND_TYPES ;;
   do! value_check known "unsupported QMT command result" ;;
   known <- member result_status RESULT_STATUSES ;;
   do! value_check known "unsupported QMT command result" ;;
   do! (if is_str "SHADOW" execution_mode then
          value_check (is_bool false live_side_effect)
            "SHADOW command result cannot claim a live side effect"
        else if is_str "LIVE_CANARY" execution_mode then
          value_check (is_bool (in_set result_status LIVE_SIDE_EFFECT_STATUSES) live_side_effect)
            "LIVE_CANARY side-effect flag is inconsistent"
        else if is_str "SIMULATION_CALIBRATION" execution_mode then
          value_check (is_bool (in_set result_status SIMULATION_SIDE_EFFECT_STATUSES) live_side_effect)
            "SIMULATION_CALIBRATION side-effect flag is inconsistent"
        else raise ValueError "unsupported command result execution mode") ;;
   do! value_check (bool_decide (is_Some (nonempty_str (jget "command_id" payload))))
         "command_id must be non-empty" ;;
   do! value_check (str_nonempty qmt_session_id) "qmt_session_id must be non-empty" ;;
   do! value_check (0 <? qmt_sequence) "qmt_sequence must be positive" ;;
   do! value_check (is_aware observed_at) "observed_at must be timezone-aware" ;;
   if is_str "REQUEST_SNAPSHOT" (jget "command_type" payload) then
     value_check (is_null (jget "client_order_id" payload) && is_null (jget "broker_token" payload))
       "snapshot result cannot carry order identity"
   else
     do! value_check (bool_decide (is_Some (nonempty_str (jget "client_order_id" payload))))
           "order command result requires client_order_id" ;;
     expected <- broker_token_for (JStr account_fingerprint) (jget "client_order_id" payload) ;;
     value_check (is_str expected (jget "broker_token" payload))
       "command result broker_token does not match durable order identity")%py.

(** [_canonical_json(logical)], hashed. *)
Definition result_fingerprint (payload : jdict) (account_fingerprint qmt_session_id : string)
    (qmt_sequence : Z) : string :=
  Sha256.hexdigest (utf8 (dumps false (JObj
    [("qmt_session_id", JStr qmt_session_id); ("qmt_sequence", JInt qmt_sequence);
     ("account_fingerprint", JStr account_fingerprint); ("payload", JObj payload)]))).

(** The result begins the reconciliation of its order. *)
Definition begins_reconciling (payload : jdict) : bool :=
  let result_status := jget "result_status" payload in
  let execution_mode := jget "execution_mode" payload in
  is_str "SHADOW_ACCEPTED" result_status || is_str "SIMULATION_CALIBRATION" execution_mode ||
  (is_str "LIVE_CANARY" execution_mode &&
   negb (in_set result_status ["REJECTED_SAFETY_GATE"; "REJECTED_EXPIRED"])).

(** [text] of a column that may be NULL. *)
Definition optional_text (j : json) : option string := as_str j.

Definition result_row (payload : jdict) (account_fingerprint qmt_session_id : string)
    (qmt_sequence : Z) (observed_at ingested_at : datetime) : command_row :=
  {| cr_fingerprint := result_fingerprint payload account_fingerprint qmt_session_id qmt_sequence;
     cr_qmt_session_id := qmt_session_id; cr_qmt_sequence := qmt_sequence;
     cr_account_fingerprint := account_fingerprint;
     cr_client_order_id := optional_text (jget "client_order_id" payload);
     cr_command_type := text (jget "command_type" payload);
     cr_broker_token := optional_text (jget "broker_token" payload);
     cr_result_status := text (jget "result_status" payload);
     cr_execution_mode := text (jget "execution_mode" payload);
     cr_live_side_effect := is_true (jget "live_side_effect" payload);
     cr_payload_json := dumps false (JObj payload); cr_observed_at := to_utc observed_at;
     cr_ingested_at := ingested_at |}.

Section Journal.
Context {R : Type} {env : Env} (write_guard : option (M R unit)).

(** The constraints of [qmt_command_results]: a fresh command, fingerprint and
    place in the session, and an order the intent table knows. *)
Definition insert_result (command_id : string) (row : command_row) : M R unit :=
  ok <- read_db (fun d =>
    forallb (fun p => negb (bool_decide (cr_fingerprint p.2 = cr_fingerprint row)) &&
                      negb (bool_decide ((cr_qmt_session_id p.2, cr_qmt_sequence p.2)
                                         = (cr_qmt_session_id row, cr_qmt_sequence row))))
      (tbl_scan (qm_commands (d_qmt d))) &&
    match cr_client_order_id row with
    | Some c => bool_decide (is_Some (tbl_get (d_intents d) (cr_account_fingerprint row, c)))
    | None => true
    end) ;;
  do! guardM ok SqliteIntegrityError "constraint failed: qmt_command_results" ;;
  ins <- read_db (fun d => tbl_insert command_id row (qm_commands (d_qmt d))) ;;
  match ins with
  | Some x => write_db (set_commands x)
  | None => raiseM SqliteIntegrityError "UNIQUE constraint failed: qmt_command_results.command_id"
  end.

(** [QmtCommandResultJournal.ingest]; the journal is given the guard the
    repository is bound to. *)
Definition journal_ingest (qmt_session_id : string) (qmt_sequence : Z) (account_fingerprint : string)
    (payload : jdict) (observed_at : datetime) : M R CommandResultIngestResult :=
  do! lift (check_result payload account_fingerprint qmt_session_id qmt_sequence observed_at) ;;
  let command_id := text (jget "command_id" payload) in
  let client := optional_text (jget "client_order_id" payload) in
  let fingerprint := result_fingerprint payload account_fingerprint qmt_session_id qmt_sequence in
  transaction (
    do! guard_write_in_tx write_guard ;;
    existing <- read_db (fun d => tbl_get (qm_commands (d_qmt d)) command_id) ;;
    match existing with
    | Some row =>
        do! guardM (bool_decide (cr_fingerprint row = fingerprint)) CommandResultConflict
              "command_id reused with different QMT result" ;;
        status <- match client with
                  | Some c => s <- get_status_in_tx (account_fingerprint, c) ;; retM (Some s)
                  | None => retM None
                  end ;;
        retM {| cri_duplicate := true; cri_order_status := status; cri_disposition := None |}
    | None =>
        used <- read_db (fun d => existsb (fun p =>
                  bool_decide ((cr_qmt_session_id p.2, cr_qmt_sequence p.2)
                               = (qmt_session_id, qmt_sequence))) (tbl_scan (qm_commands (d_qmt d)))) ;;
        do! guardM (negb used) CommandResultConflict
              "QMT session sequence reused by another command result" ;;
        now <- utc_now ;;
        do! insert_result command_id
              (result_row payload account_fingerprint qmt_session_id qmt_sequence observed_at now) ;;
        match client with
        | None => retM {| cri_duplicate := false; cri_order_status := None; cri_disposition := None |}
        | Some c =>
            outcome <- record_execution_reconciliation_in_tx write_guard (account_fingerprint, c)
              ("QMT_COMMAND_RESULT_" +:+ text (jget "result_status" payload))
              (result_evidence payload qmt_session_id qmt_sequence) (begins_reconciling payload) ;;
            do! guardM (bool_decide (to_previous outcome = ACKNOWLEDGED) ||
                        negb (bool_decide (to_current outcome = ACKNOWLEDGED)))
                  AssertionError "command_result must never promote OMS to ACKNOWLEDGED" ;;
            retM {| cri_duplicate := false; cri_order_status := Some (to_current outcome);
                    cri_disposition := Some (to_disposition outcome) |}
        end
    end).
End Journal.

(** ** The sink of the Execution Core *)

(** The text before the last colon, and after it. *)
Fixpoint rpartition_colon (s : string) : option (string * string) :=
  match s with
  | EmptyString => None
  | String a r =>
      match rpartition_colon r with
      | Some (b, e) => Some (String a b, e)
      | None => if is_char 58 a then Some (EmptyString, r) else None
      end
  end.

Fixpoint strip_left (s : string) : string :=
  match s with
  | String a r => if is_space a then strip_left r else s
  | EmptyString => EmptyString
  end.

(** Digits, with single underscores between them. *)
Fixpoint read_grouped (after_digit : bool) (acc : Z) (s : string) : option Z :=
  match s with
  | EmptyString => if after_digit then Some acc else None
  | String a r =>
      if is_digit a then read_grouped true (10 * acc + Z.of_N (N_of_ascii a - 48)) r
      else if after_digit && is_char 95 a then read_grouped false acc r
      else None
  end.

Fixpoint count_digits (s : string) : Z :=
  match s with
  | EmptyString => 0
  | String a r => (if is_digit a then 1 else 0) + count_digits r
  end.

(** [int(text)]; [None] is [ValueError]. *)
Definition py_int (s : string) : option Z :=
  let s := String.rev (strip_left (String.rev (strip_left s))) in
  if 4300 <? count_digits s then None
  else
    match eat 45 s, eat 43 s with
    | Some r, _ => Z.opp <$> read_grouped false 0 r
    | None, Some r => read_grouped false 0 r
    | None, None => read_grouped false 0 s
    end.

(** [except (ValueError, CommandResultConflict)]. *)
Definition is_result_error (e : exn) : bool :=
  bool_decide (exn_cls e ∈ [ValueError; QmtCommandError; QmtCommandConflict; QmtProtocolError;
    QmtIngressIdentityError; QmtMarketDataError; DuplicateClientOrderId; InvalidTransition;
    CommandResultConflict]).

Record QmtCommandResultIngestResult := {
  qri_status : OrderStatus; qri_disposition : TransitionDisposition;
  qri_command_id : string; qri_result_status : string
}.

Definition ALLOWED_COMMAND_TYPES : list string := ["SUBMIT_LIMIT"; "CANCEL_ORDER"].
Definition ALLOWED_SHADOW_RESULTS : list string :=
  ["SHADOW_ACCEPTED"; "REJECTED_EXPIRED"; "UNKNOWN_ORPHANED"].
Definition ALLOWED_LIVE_CANARY_RESULTS : list string :=
  ["LIVE_CANARY_SUBMIT_CALL_RETURNED"; "LIVE_CANARY_CANCEL_SIGNAL_SENT";
   "LIVE_CANARY_CANCEL_NOT_CANCELLABLE"; "LIVE_CANARY_CANCEL_NOT_SENT";
   "LIVE_CANARY_MUTATION_UNKNOWN"; "LIVE_CANARY_ORPHANED_UNKNOWN"; "REJECTED_SAFETY_GATE";
   "REJECTED_EXPIRED"].

(** [payload.update({...})] with the fields the sink was given. *)
Definition normalized_payload (payload : option jdict) (command_id command_type client_order_id : string)
    (broker_token : option string) (result_status execution_mode : string) (live_side_effect : bool)
    : jdict :=
  fold_left (fun d p => dict_set p.1 p.2 d)
    [("command_id", JStr command_id); ("command_type", JStr command_type);
     ("client_order_id", JStr client_order_id); ("broker_token", jopt_str broker_token);
     ("result_status", JStr result_status); ("execution_mode", JStr execution_mode);
     ("live_side_effect", JBool live_side_effect)]
    (default [] payload).

Section Sink.
Context {R : Type} {env : Env} (assert_leader : M R unit).

Definition violation {A} (msg : string) : M R A := raiseM QmtCommandResultInvariantViolation msg.
Definition require (b : bool) (msg : string) : M R unit :=
  guardM b QmtCommandResultInvariantViolation msg.

(** The checks of the sink, and the session and sequence of the source event. *)
Definition check_source (source_event_id : string) : M R (string * Z) :=
  let '(session_id, separator, sequence_text) :=
    match rpartition_colon source_event_id with
    | Some (b, e) => (b, true, e)
    | None => ("", false, source_event_id)
    end in
  match py_int sequence_text with
  | None => violation "source_event_id must end with a positive QMT sequence"
  | Some sequence =>
      do! require (separator && str_nonempty session_id && (0 <? sequence))
            "source_event_id must contain QMT session and sequence" ;;
      retM (session_id, sequence)
  end.

(** [OmsQmtCommandResultSink.ingest_execution_command_result]. *)
Definition sink_result (source_event_id account_fingerprint command_id command_type
    client_order_id : string) (broker_token : option string) (result_status execution_mode : string)
    (live_side_effect : bool) (payload : option jdict) (observed_at : option datetime)
    : M R QmtCommandResultIngestResult :=
  do! assert_leader ;;
  mode <- (if decide (execution_mode = "SHADOW") then retM (ALLOWED_SHADOW_RESULTS, false)
           else if decide (execution_mode = "LIVE_CANARY") then
             retM (ALLOWED_LIVE_CANARY_RESULTS, bool_decide (result_status ∈ LIVE_SIDE_EFFECT_STATUSES))
           else violation "unsupported execution mode") ;;
  let '(allowed_results, expected_side_effect) := mode in
  do! require (Bool.eqb live_side_effect expected_side_effect)
        "command_result live side-effect flag is inconsistent" ;;
  do! require (bool_decide (command_type ∈ ALLOWED_COMMAND_TYPES))
        "order command-result sink received unsupported command type" ;;
  do! require (bool_decide (result_status ∈ allowed_results)) "unsupported command result status" ;;
  do! require (str_nonempty command_id && str_nonempty source_event_id && str_nonempty client_order_id)
        "command identity is incomplete" ;;
  do! require (match broker_token with
               | Some t => startswith "BQ" t && (str_len t <? 24)
               | None => false
               end) "invalid broker token" ;;
  source <- check_source source_event_id ;;
  observed_at <- match observed_at with Some t => retM t | None => utc_now end ;;
  result <- tryM
    (journal_ingest (Some assert_leader) source.1 source.2 account_fingerprint
       (normalized_payload payload command_id command_type client_order_id broker_token
          result_status execution_mode live_side_effect) observed_at)
    (fun e => if is_result_error e then violation (exn_msg e) else reraise e) ;;
  match cri_order_status result with
  | None => violation "order command result did not produce an OMS reconciliation record"
  | Some status =>
      retM {| qri_status := status;
              qri_disposition := default DUPLICATE_IGNORED (cri_disposition result);
              qri_command_id := command_id; qri_result_status := result_status |}
  end.
End Sink.

(** ** What one result may do *)

Lemma reconciling_moves b r q o r' :
  moved_by (reconciling_target b (o_status r)) None None None false r q o r' ->
  order_change q r r' /\ to_previous o = o_status r /\ to_current o = o_status r' /\
  o_status r' = reconciling_target b (o_status r) /\
  o_broker_order_id r' = o_broker_order_id r /\ o_filled_quantity r' = o_filled_quantity r /\
  o_submit_call_started r' = o_submit_call_started r /\
  o_cancel_call_started r' = o_cancel_call_started r.
Proof.
  intros Hm. split.
  { eapply moved_by_fsm; [exact Hm|]. destruct (reconciling_target_allowed b (o_status r)) as [->|H]; [by auto|].
    left. by destruct (reconciling_target b (o_status r)). }
  destruct Hm as (eff & norm & t & Hd & ->). apply decide_fsm in Hd as (Ho & -> & ->).
  unfold apply_transition. cbn.
  assert (to_previous o = o_status r /\ to_current o = reconciling_target b (o_status r) /\
          (if to_changed o then to_current o else o_status r) = reconciling_target b (o_status r))
    as (H1 & H2 & H3).
  { revert Ho. destruct b, (o_status r); vm_compute; intros [= <-]; done. }
  repeat split; [done | congruence | done | by destruct (o_broker_order_id r)].
Qed.

(** A result as the journal is given it. *)
Record result_fact := {
  rf_session : string; rf_sequence : Z; rf_account : string; rf_payload : jdict;
  rf_observed_at : datetime
}.

Definition rf_command (f : result_fact) : string := text (jget "command_id" (rf_payload f)).
Definition rf_client (f : result_fact) : option string :=
  optional_text (jget "client_order_id" (rf_payload f)).
Definition rf_fingerprint (f : result_fact) : string :=
  result_fingerprint (rf_payload f) (rf_account f) (rf_session f) (rf_sequence f).
Definition journal_fact {R} {env : Env} (g : option (M R unit)) (f : result_fact) :
    M R CommandResultIngestResult :=
  journal_ingest g (rf_session f) (rf_sequence f) (rf_account f) (rf_payload f) (rf_observed_at f).

Definition commands_of (d : db) : table string command_row := qm_commands (d_qmt d).

(** The result is stored under its command, in a place of its session that no
    other result has. *)
Definition stored (f : result_fact) (d d' : db) : Prop :=
  exists row x, cr_fingerprint row = rf_fingerprint f /\ cr_qmt_session_id row = rf_session f /\
    cr_qmt_sequence row = rf_sequence f /\
    tbl_insert (rf_command f) row (commands_of d) = Some x /\
    (forall c y, tbl_get (commands_of d) c = Some y ->
       (cr_qmt_session_id y, cr_qmt_sequence y) <> (rf_session f, rf_sequence f)) /\
    d' = set_commands x d.

(** The order of a new result is taken into reconciliation, and nothing else of
    it changes. *)
Definition reconciled (f : result_fact) (c : string) (res : CommandResultIngestResult) (d d' : db)
    : Prop :=
  exists q r r', wrote (rf_account f, c) q r r' d d' /\ order_change q r r' /\
    o_status r' = reconciling_target (begins_reconciling (rf_payload f)) (o_status r) /\
    o_broker_order_id r' = o_broker_order_id r /\ o_filled_quantity r' = o_filled_quantity r /\
    o_submit_call_started r' = o_submit_call_started r /\
    o_cancel_call_started r' = o_cancel_call_started r /\
    cri_order_status res = Some (o_status r').

Definition ingested (f : result_fact) (res : CommandResultIngestResult) (d d' : db) : Prop :=
  if cri_duplicate res then
    d' = d /\ (exists row, tbl_get (commands_of d) (rf_command f) = Some row /\
                           cr_fingerprint row = rf_fingerprint f) /\
    match rf_client f with
    | None => cri_order_status res = None
    | Some c => exists r, tbl_get (d_orders d) (rf_account f, c) = Some r /\
                          cri_order_status res = Some (o_status r)
    end
  else exists d1, stored f d d1 /\
    match rf_client f with
    | None => d' = d1 /\ cri_order_status res = None
    | Some c => reconciled f c res d1 d'
    end.

Section Facts.
Context {R : Type} {env : Env} (write_guard : option (M R unit)).
Hypothesis guard_quiet : match write_guard with Some g => quiet g | None => True end.
Implicit Types (w : world R) (f : result_fact).

Lemma insert_result_ok c row w :
  in_tx_ok (insert_result (R := R) c row)
    (fun _ d' => exists x, tbl_insert c row (commands_of (w_db w)) = Some x /\
                           d' = set_commands x (w_db w)) w.
Proof.
  unfold insert_result, in_tx_ok. apply wp_bind. wp_step. apply wp_bind. apply wp_guard; intros _; [|done].
  repeat wp_step. unfold commands_of. destruct (tbl_insert c row _) as [x|] eqn:E; repeat wp_step; [|done].
  split; [done|]. by exists x.
Qed.

Lemma no_such_place d (s : string) (n : Z) :
  tbl_wf (commands_of d) ->
  existsb (fun p => bool_decide ((cr_qmt_session_id p.2, cr_qmt_sequence p.2) = (s, n)))
    (tbl_scan (commands_of d)) = false ->
  forall c y, tbl_get (commands_of d) c = Some y -> (cr_qmt_session_id y, cr_qmt_sequence y) <> (s, n).
Proof.
  intros Hwf He c y Hg Heq. assert (Hin : (c, y) ∈ tbl_scan (commands_of d)) by by apply tbl_scan_elem.
  apply not_true_iff_false in He. apply He, existsb_exists. exists (c, y).
  split; [by apply list_elem_of_In | by apply bool_decide_eq_true].
Qed.

(** A result that was stored before. *)
Lemma duplicate_ok f row w :
  tbl_get (commands_of (w_db w)) (rf_command f) = Some row ->
  in_tx_ok (
    do! guardM (bool_decide (cr_fingerprint row = rf_fingerprint f)) CommandResultConflict
          "command_id reused with different QMT result" ;;
    status <- match rf_client f with
              | Some c => s <- get_status_in_tx (rf_account f, c) ;; retM (Some s)
              | None => retM None
              end ;;
    retM {| cri_duplicate := true; cri_order_status := status; cri_disposition := None |})
    (fun res d' => ingested f res (w_db w) d') w.
Proof.
  intros Hg. unfold in_tx_ok. apply wp_bind. apply wp_guard; intros Hf; [|done]. bool_to_prop.
  assert (Hrow : exists row, tbl_get (commands_of (w_db w)) (rf_command f) = Some row /\
                             cr_fingerprint row = rf_fingerprint f) by eauto.
  unfold ingested. destruct (rf_client f) as [c|]; repeat wp_step; [|done].
  unfold get_status_in_tx. repeat wp_step.
  destruct (tbl_get (d_orders (w_db w)) (rf_account f, c)) as [r|] eqn:Hr; repeat wp_step; [|done].
  repeat split; [done|]. by exists r.
Qed.

(** The order of a result that was just stored. *)
Lemma reconcile_ok f c w :
  in_tx_ok (
    outcome <- record_execution_reconciliation_in_tx write_guard (rf_account f, c)
      ("QMT_COMMAND_RESULT_" +:+ text (jget "result_status" (rf_payload f)))
      (result_evidence (rf_payload f) (rf_session f) (rf_sequence f))
      (begins_reconciling (rf_payload f)) ;;
    do! guardM (bool_decide (to_previous outcome = ACKNOWLEDGED) ||
                negb (bool_decide (to_current outcome = ACKNOWLEDGED)))
          AssertionError "command_result must never promote OMS to ACKNOWLEDGED" ;;
    retM {| cri_duplicate := false; cri_order_status := Some (to_current outcome);
            cri_disposition := Some (to_disposition outcome) |})
    (fun res d' => cri_duplicate res = false /\ reconciled f c res (w_db w) d') w.
Proof.
  eapply in_tx_ok_bind; [by apply record_reconciliation_exact|].
  intros o w1 (q & r & r' & Hw & Hm) _. unfold in_tx_ok. apply wp_bind. apply wp_guard; intros _; [|done].
  repeat wp_step. repeat split. exists q, r, r'.
  destruct (reconciling_moves _ _ _ _ _ Hm) as (Hch & _ & -> & Hs). by destruct_and?.
Qed.

Lemma journal_fact_ok f w :
  w_in_tx w = false -> tbl_wf (commands_of (w_db w)) ->
  tx_ok (journal_fact write_guard f) (fun res d' => ingested f res (w_db w) d') w.
Proof.
  intros Hw Hwf. unfold journal_fact, journal_ingest. apply tx_ok_check. intros [] _. cbv zeta.
  apply tx_ok_intro; [done|]. intros w1 Hd1 _ _. rewrite <- Hd1 in *. clear Hd1 Hw.
  apply in_tx_ok_quiet; [by apply guard_write_quiet|]. intros _ w2 Hd2 _. rewrite <- Hd2 in *. clear Hd2.
  apply in_tx_ok_read. fold (rf_command f) (rf_client f) (rf_fingerprint f) (commands_of (w_db w2)).
  destruct (tbl_get (commands_of (w_db w2)) (rf_command f)) as [row|] eqn:Eg; [by apply duplicate_ok|].
  apply in_tx_ok_read. fold (commands_of (w_db w2)).
  destruct (existsb _ _) eqn:Eu; [by unfold in_tx_ok; apply wp_bind, wp_guard|].
  apply in_tx_ok_quiet; [apply quiet_guard|]. intros _ w3 Hd3 _. rewrite <- Hd3 in *. clear Hd3.
  apply in_tx_ok_quiet; [apply quiet_utc|]. intros now w4 Hd4 _. rewrite <- Hd4 in *. clear Hd4.
  eapply in_tx_ok_bind; [apply insert_result_ok|]. intros _ w5 (x & Hx & Hd5) _.
  assert (Hst : stored f (w_db w4) (w_db w5)).
  { eexists _, x. split_and!; [..|exact Hx | by apply no_such_place | exact Hd5]; done. }
  unfold ingested. destruct (rf_client f) as [c|]; [|by apply in_tx_ok_ret; exists (w_db w5)].
  eapply in_tx_ok_mono; [apply reconcile_ok|]. intros res d' [-> Hr]. by exists (w_db w5).
Qed.
End Facts.

(** ** What results may do over a whole session *)

(** A command, and a place in a terminal's session, has at most one result. *)
Record results_inv (d : db) : Prop := {
  ri_table : tbl_wf (commands_of d);
  ri_places : forall c c' y y', tbl_get (commands_of d) c = Some y ->
    tbl_get (commands_of d) c' = Some y' ->
    (cr_qmt_session_id y, cr_qmt_sequence y) = (cr_qmt_session_id y', cr_qmt_sequence y') -> c = c'
}.

(** What a result leaves of an order. *)
Definition only_reconciled (r r' : order_row) : Prop :=
  o_broker_order_id r' = o_broker_order_id r /\ o_filled_quantity r' = o_filled_quantity r /\
  o_submit_call_started r' = o_submit_call_started r /\
  o_cancel_call_started r' = o_cancel_call_started r /\
  (o_status r' = o_status r \/
   status_in (o_status r) [SUBMITTING; CANCEL_PENDING; UNKNOWN] = true /\
   status_in (o_status r') [UNKNOWN; RECONCILING] = true).

(** What results leave of the database. *)
Record only_results (d d' : db) : Prop := {
  or_orders : orders_inv d -> orders_inv d';
  or_results : results_inv d -> results_inv d';
  or_stored : tbl_le (commands_of d) (commands_of d');
  or_rows : forall k r, tbl_get (d_orders d) k = Some r ->
    exists r', tbl_get (d_orders d') k = Some r' /\ only_reconciled r r';
  or_intents : d_intents d' = d_intents d;
  or_risk : d_risk d' = d_risk d
}.

Lemma only_reconciled_target b r r' :
  o_broker_order_id r' = o_broker_order_id r -> o_filled_quantity r' = o_filled_quantity r ->
  o_submit_call_started r' = o_submit_call_started r ->
  o_cancel_call_started r' = o_cancel_call_started r ->
  o_status r' = reconciling_target b (o_status r) -> only_reconciled r r'.
Proof.
  intros ? ? ? ? Hs. unfold only_reconciled. rewrite Hs. split_and!; [done..|].
  destruct b, (o_status r); vm_compute; auto.
Qed.

#[export] Instance only_reconciled_preorder : PreOrder only_reconciled.
Proof.
  split; [by intros r; split_and!; auto|].
  intros r1 r2 r3 (? & ? & ? & ? & H12) (? & ? & ? & ? & H23).
  unfold only_reconciled. split_and!; [congruence..|].
  destruct H12 as [E|[? ?]], H23 as [E'|[? ?]].
  - left. congruence.
  - right. by rewrite <- E.
  - right. by rewrite E'.
  - right. done.
Qed.

#[export] Instance only_results_preorder : PreOrder only_results.
Proof.
  split.
  - intros d. split; auto; [by intros k v|]. intros k r Hr. by exists r.
  - intros d1 d2 d3 [] []. split; auto; try congruence; [by intros k v ?; eauto|].
    intros k r Hr. destruct (or_rows0 _ _ Hr) as (r2 & Hr2 & H2).
    destruct (or_rows1 _ _ Hr2) as (r3 & Hr3 & H3). exists r3. split; [done|]. by etrans.
Qed.

Lemma stored_only f d d' : stored f d d' -> only_results d d'.
Proof.
  intros (row & x & Hf & Hs & Hn & Hx & Hfree & ->). split; try done; cbn.
  - by apply orders_inv_ext.
  - intros [Ht Hp]. split; [by eapply tbl_wf_insert|].
    intros c c' y y'. unfold commands_of. cbn. rewrite !(tbl_get_insert _ _ _ _ _ Hx).
    repeat case_decide; subst; [done|..]; rewrite ?Hs, ?Hn.
    + intros [= <-] Hy'. rewrite Hs, Hn. intros Heq. by destruct (Hfree _ _ Hy').
    + intros Hy [= <-]. rewrite Hs, Hn. intros Heq. by destruct (Hfree _ _ Hy).
    + by apply Hp.
  - intros c y Hc. unfold commands_of. cbn. rewrite (tbl_get_insert _ _ _ _ _ Hx).
    case_decide; [|done]. subst. apply tbl_insert_fresh in Hx. congruence.
  - intros k r Hr. by exists r.
Qed.

Lemma reconciled_only f c res d d' : reconciled f c res d d' -> only_results d d'.
Proof.
  intros (q & r & r' & Hw & Hch & Hs & Hb & Hq & Hsub & Hcan & _).
  destruct (wrote_row _ _ _ _ _ _ Hw) as [Hg Hg']. destruct (wrote_rest _ _ _ _ _ _ Hw).
  assert (Hcmd : commands_of d' = commands_of d) by (by destruct Hw as (_ & e & -> & _)).
  split; try done; rewrite ?Hcmd; try done.
  - intros Hd. by eapply wrote_inv.
  - intros []. by split; rewrite Hcmd.
  - intros k x Hx. destruct (decide (k = (rf_account f, c))) as [->|Hne].
    + exists r'. split; [done|]. assert (x = r) as -> by congruence.
      by eapply only_reconciled_target.
    + exists x. by rewrite (proj1 (wrote_other _ _ _ _ _ _ _ Hw Hne)).
Qed.

Lemma ingested_only f res d d' : ingested f res d d' -> only_results d d'.
Proof.
  unfold ingested. destruct (cri_duplicate res); [by intros (-> & _)|].
  intros (d1 & Hst & H). etrans; [by eapply stored_only|].
  destruct (rf_client f); [by eapply reconciled_only | by destruct H as [-> _]].
Qed.

(** A result as the sink of the Execution Core is given it. *)
Record sink_input := {
  si_event : string; si_account : string; si_command : string; si_type : string;
  si_client : string; si_token : option string; si_result : string; si_mode : string;
  si_side_effect : bool; si_payload : option jdict; si_observed : option datetime
}.

Section Session.
Context {R : Type} {env : Env} (assert_leader : M R unit).
Hypothesis leader_quiet : quiet assert_leader.
Implicit Types (w : world R) (i : sink_input).

Definition sink_call (i : sink_input) : M R QmtCommandResultIngestResult :=
  sink_result assert_leader (si_event i) (si_account i) (si_command i) (si_type i) (si_client i)
    (si_token i) (si_result i) (si_mode i) (si_side_effect i) (si_payload i) (si_observed i).

(** A session of results: the sink is called on each, and fails on some. *)
Definition sink_session (l : list sink_input) (w : world R) : world R :=
  fold_left (fun w i => (sink_call i w).2) l w.

Lemma wp_quiet_then {A B} (m : M R A) (f : A -> M R B) (T : db -> db -> Prop) `{!PreOrder T} w :
  quiet m ->
  (forall a w', w_db w' = w_db w -> frame w w' ->
     wp (f a) (fun _ w2 => frame w' w2 /\ T (w_db w') (w_db w2)) w') ->
  wp (bindM m f) (fun _ w2 => frame w w2 /\ T (w_db w) (w_db w2)) w.
Proof.
  intros Hm Hf. apply wp_quiet_bind; [done| |by intros e w' -> ?].
  intros a w' Hd Hfr. eapply wp_mono; [by apply Hf|]. cbn. intros _ w2 [H1 H2]. rewrite Hd in H2.
  split; [|done]. unfold frame in *. naive_solver congruence.
Qed.

Lemma check_source_quiet e : quiet (R := R) (check_source e).
Proof.
  unfold check_source, violation, require. destruct (rpartition_colon e) as [[b x]|];
    destruct (py_int _); auto with quiet.
Qed.

(** The database that results leave, whether the call succeeds or not. *)
Definition leaves {A} (m : M R A) (w : world R) : Prop :=
  wp m (fun _ w' => frame w w' /\ only_results (w_db w) (w_db w')) w.

Lemma leaves_quiet {A B} (m : M R A) (f : A -> M R B) w :
  quiet m -> (forall a w', w_db w' = w_db w -> frame w w' -> leaves (f a) w') -> leaves (bindM m f) w.
Proof. by apply wp_quiet_then; apply _. Qed.

Lemma leaves_journal {B} f h (k : CommandResultIngestResult -> M R B) w :
  w_in_tx w = false -> results_inv (w_db w) ->
  (forall e, quiet (h e)) -> (forall a, quiet (k a)) ->
  leaves (bindM (tryM (journal_fact (Some assert_leader) f) h) k) w.
Proof.
  intros Hw [Hwf _] Hh Hk. unfold leaves. apply wp_bind, wp_try.
  eapply wp_mono; [by apply (journal_fact_ok (Some assert_leader) leader_quiet)|].
  cbv beta. intros [a|e] w1 [Hf1 H1].
  - eapply wp_mono; [apply Hk|]. intros _ w2 [Hd2 Hf2]. rewrite Hd2.
    split; [unfold frame in *; naive_solver congruence | by eapply ingested_only].
  - eapply wp_mono; [apply Hh|]. intros r w2 [Hd2 Hf2]. rewrite H1 in Hd2.
    assert (Hfr : frame w w2) by (unfold frame in *; naive_solver congruence).
    destruct r as [a|e']; [|by rewrite Hd2].
    eapply wp_mono; [apply Hk|]. intros _ w3 [Hd3 Hf3]. rewrite Hd3, Hd2.
    split; [unfold frame in *; naive_solver congruence | done].
Qed.

Lemma sink_call_only i w :
  w_in_tx w = false -> results_inv (w_db w) -> leaves (sink_call i) w.
Proof.
  intros Hw Hr. unfold sink_call, sink_result, violation, require.
  apply leaves_quiet; [done|]. intros _ w1 Hd1 Hf1.
  apply leaves_quiet; [repeat case_match; auto with quiet|]. intros [allowed expected] w2 Hd2 Hf2.
  do 5 (apply leaves_quiet; [apply quiet_guard|]; intros _ ? ? ?).
  apply leaves_quiet; [apply check_source_quiet|]. intros source w3 Hd3 Hf3.
  apply leaves_quiet; [case_match; auto with quiet|]. intros observed w4 Hd4 Hf4.
  apply (leaves_journal {| rf_session := source.1; rf_sequence := source.2; rf_account := si_account i;
    rf_payload := normalized_payload (si_payload i) (si_command i) (si_type i) (si_client i) (si_token i)
       (si_result i) (si_mode i) (si_side_effect i); rf_observed_at := observed |}).
  - unfold frame in *. naive_solver congruence.
  - by rewrite Hd4, Hd3; congruence.
  - intros e. case_match; auto with quiet.
  - intros a. case_match; auto with quiet.
Qed.

Lemma sink_session_only l w :
  w_in_tx w = false -> results_inv (w_db w) -> only_results (w_db w) (w_db (sink_session l w)).
Proof.
  revert w. induction l as [|i l IH]; intros w Hw Hr; [done|].
  destruct (sink_call_only i w Hw Hr) as [[Hf _] H]. cbn [sink_session fold_left].
  etrans; [exact H|]. apply IH; [congruence|]. by apply (or_results _ _ H).
Qed.

(** C38. Results never acknowledge.  However many results the Execution Core is
    given, of whatever content and in whatever order, the invariant of the
    orders and of the stored results is kept, a stored result is never changed,
    and of an order only the status moves: from SUBMITTING, CANCEL_PENDING or
    UNKNOWN to UNKNOWN or RECONCILING.  No result gives an order a broker
    identity, a fill, an acknowledgement or an end. *)
Theorem results_never_acknowledge l w :
  w_in_tx w = false -> orders_inv (w_db w) -> results_inv (w_db w) ->
  let d' := w_db (sink_session l w) in
  orders_inv d' /\ results_inv d' /\ tbl_le (commands_of (w_db w)) (commands_of d') /\
  d_intents d' = d_intents (w_db w) /\ d_risk d' = d_risk (w_db w) /\
  forall k r, tbl_get (d_orders (w_db w)) k = Some r ->
    exists r', tbl_get (d_orders d') k = Some r' /\ only_reconciled r r'.
Proof. intros Hw Ho Hr. destruct (sink_session_only l w Hw Hr). cbv zeta. auto 10. Qed.
End Session.

(** C39. A result is journalled once.  The journal fails and changes nothing, or
    finds the result under its command with the same fingerprint and changes
    nothing, or stores it in a free place of its session and takes its order
    exactly where the status asks: SUBMITTING and CANCEL_PENDING to UNKNOWN, and
    UNKNOWN to RECONCILING, when the result begins a reconciliation. *)
Theorem result_journalled_once {R} {env : Env} (g : option (M R unit)) f w :
  match g with Some g => quiet g | None => True end ->
  w_in_tx w = false -> tbl_wf (commands_of (w_db w)) ->
  wp (journal_fact g f) (fun res w' =>
    frame w w' /\
    match res with
    | Ok a => ingested f a (w_db w) (w_db w')
    | Err _ => w_db w' = w_db w
    end) w.
Proof. intros Hg Hw Ht. by apply journal_fact_ok. Qed.

(** ** A session: one order in flight, its result, and the result again *)

Definition demo_input : sink_input :=
  {| si_event := "session-1:7"; si_account := oi_account_fingerprint demo_intent; si_command := "cmd-1";
     si_type := "SUBMIT_LIMIT"; si_client := oi_client_order_id demo_intent;
     si_token := match broker_token_for (JStr (oi_account_fingerprint demo_intent))
                         (JStr (oi_client_order_id demo_intent)) with Ok t => Some t | Err _ => None end;
     si_result := "SHADOW_ACCEPTED"; si_mode := "SHADOW"; si_side_effect := false;
     si_payload := None; si_observed := None |}.

Definition demo_in_flight : world unit :=
  let w := (@transition_order unit demo_env None (oi_key demo_intent) RISK_ACCEPTED "RISK" [] None None None
              (W demo_db false 0 tt)).2 in
  (@prepare_submit unit demo_env None (oi_key demo_intent) w).2.

Definition demo_after (l : list sink_input) : world unit := @sink_session unit demo_env (retM tt) l demo_in_flight.

Example demo_session :
  let status l := o_status <$> tbl_get (d_orders (w_db (demo_after l))) (oi_key demo_intent) in
  status [] = Some SUBMITTING /\ status [demo_input] = Some UNKNOWN /\
  status [demo_input; demo_input] = Some UNKNOWN /\
  length (tbl_scan (commands_of (w_db (demo_after [demo_input; demo_input])))) = 1%nat.
Proof. vm_compute. auto. Qed.

(** A writer of one order that succeeds or fails keeps the orders' invariant. *)
Lemma writer_keeps {R A} (m : M R A) k (P : order_row -> Z -> A -> order_row -> Prop) w :
  tx_ok m (writes k P (w_db w)) w ->
  (forall r q a r', P r q a r' -> order_change q r r') ->
  w_in_tx w = false /\ orders_inv (w_db w) ->
  w_in_tx (m w).2 = false /\ orders_inv (w_db (m w).2).
Proof.
  intros [[Hf _] Hm] HP [Hw Hi]. split; [by rewrite Hf|].
  destruct (m w).1 as [a|e]; [|by rewrite Hm].
  destruct Hm as (q & r & r' & Hwr & Hc). eapply wrote_inv; [exact Hi | exact Hwr | eauto].
Qed.

Lemma demo_in_flight_inv : orders_inv (w_db demo_in_flight).
Proof.
  unfold demo_in_flight. cbv zeta. eapply writer_keeps.
  - apply prepare_submit_ok; [done|]. apply (@transition_order_ok unit demo_env None I).
    reflexivity.
  - intros r q a r' (? & ? & t & ->). by apply change_submit.
  - eapply writer_keeps; [by apply transition_order_ok| |].
    + intros r q o r' Hm. eapply moved_by_fsm; [exact Hm | by left].
    + split; [reflexivity | apply demo_db_inv].
Qed.

Lemma demo_in_flight_results : results_inv (w_db demo_in_flight).
Proof.
  assert (Hc : commands_of (w_db demo_in_flight) = tbl_empty) by (vm_compute; reflexivity).
  split; rewrite Hc; [apply tbl_wf_empty|]. intros c c' y y' Hy. discriminate Hy.
Qed.

Lemma results_never_acknowledge_witness :
  let d' := w_db (demo_after [demo_input; demo_input]) in
  (o_status <$> tbl_get (d_orders d') (oi_key demo_intent)) = Some UNKNOWN /\
  results_inv d' /\
  forall k r, tbl_get (d_orders (w_db demo_in_flight)) k = Some r ->
    exists r', tbl_get (d_orders d') k = Some r' /\ only_reconciled r r'.
Proof.
  cbv zeta. split; [vm_compute; reflexivity|].
  assert (Hq : quiet (R := unit) (retM tt)) by apply quiet_ret.
  destruct (@results_never_acknowledge unit demo_env (retM tt) Hq [demo_input; demo_input]
    demo_in_flight (ltac:(vm_compute; reflexivity)) demo_in_flight_inv demo_in_flight_results)
    as (_ & Hr & _ & _ & _ & Hk).
  by split.
Defined.

Definition demo_fact (sequence : Z) : result_fact :=
  {| rf_session := "session-1"; rf_sequence := sequence; rf_account := si_account demo_input;
     rf_payload := normalized_payload None "cmd-1" "SUBMIT_LIMIT" (si_client demo_input)
                     (si_token demo_input) "SHADOW_ACCEPTED" "SHADOW" false;
     rf_observed_at := DT 1750000000000000 (Some 0) |}.

(** Whether the result was known, or the class of the failure. *)
Definition journal_answer {W} (r : res CommandResultIngestResult * W) : bool + exn_class :=
  match r.1 with Ok a => inl (cri_duplicate a) | Err e => inr (exn_cls e) end.

Definition demo_journalled (sequence : Z) (w : world unit) :=
  @journal_fact unit demo_env None (demo_fact sequence) w.

(** The first result is stored, its repetition is known, and another result for
    the command is refused. *)
Lemma result_journalled_once_witness :
  let w1 := (demo_journalled 7 demo_in_flight).2 in
  journal_answer (demo_journalled 7 demo_in_flight) = inl false /\
  journal_answer (demo_journalled 7 w1) = inl true /\
  journal_answer (demo_journalled 8 w1) = inr CommandResultConflict /\
  wp (demo_journalled 7) (fun res w' =>
    frame demo_in_flight w' /\
    match res with
    | Ok a => ingested (demo_fact 7) a (w_db demo_in_flight) (w_db w')
    | Err _ => w_db w' = w_db demo_in_flight
    end) demo_in_flight.
Proof.
  cbv zeta. split; [vm_compute; reflexivity|]. split; [vm_compute; reflexivity|].
  split; [vm_compute; reflexivity|].
  apply (result_journalled_once None (demo_fact 7) demo_in_flight I);
    [vm_compute; reflexivity | apply demo_in_flight_results].
Defined.
