(* ===== verification/GuojinEvidence.v ===== *)
(** * GuojinEvidence: what the calibrated mapper makes of the terminal's facts

    [GuojinEvidenceMapper] of qmt/guojin_evidence.py: ORDER and DEAL facts of a
    registered order, in callbacks and in the rows of a snapshot, become
    [BrokerEvidenceV1] or a rejection with its reason. *)

From S2P Require Import Prelude Json Domain Db OrderStore BrokerEvidence Parts Wire Commands.
Open Scope Z_scope.
Open Scope oms_scope.

Record GuojinMapperProfile := {
  mp_name : string; mp_source : string; mp_terminal_instance_id : string; mp_evidence_enabled : bool
}.

Definition GUOJIN_SIM_PROFILE : GuojinMapperProfile :=
  {| mp_name := "qmt-guojin-sim-20260917-v1"; mp_source := "qmt:guojin_sim";
     mp_terminal_instance_id := "guojin_sim"; mp_evidence_enabled := true |}.

Definition GUOJIN_PRODUCTION_PROFILE : GuojinMapperProfile :=
  {| mp_name := "qmt-guojin-prod-calibration-pending-v1"; mp_source := "qmt:guojin";
     mp_terminal_instance_id := "guojin"; mp_evidence_enabled := false |}.

Record GuojinMapperRejection := {
  mr_session_id : string; mr_sequence : Z; mr_event_type : string; mr_row_index : option Z;
  mr_reason : string
}.

Record RegisteredOrder := {
  ro_client_order_id : string; ro_broker_token : string; ro_symbol : string; ro_quantity : Z;
  ro_broker_order_id : option string
}.

(** The state of a mapper. *)
Record mapper := {
  gm_account_fingerprint : string; gm_profile : GuojinMapperProfile;
  gm_orders_by_token : gmap string RegisteredOrder; gm_trades : gmap (string * string) Z;
  gm_rejections : list GuojinMapperRejection
}.

(** [__init__]. *)
Definition mapper_init (account_fingerprint : string) (profile : GuojinMapperProfile) : res mapper :=
  (do! guard_r (is_sha256 account_fingerprint) ValueError
         "account_fingerprint must be a sha256 fingerprint" ;;
   Ok {| gm_account_fingerprint := account_fingerprint; gm_profile := profile;
         gm_orders_by_token := ∅; gm_trades := ∅; gm_rejections := [] |})%py.

Definition set_orders_by_token (x : gmap string RegisteredOrder) (m : mapper) : mapper :=
  {| gm_account_fingerprint := gm_account_fingerprint m; gm_profile := gm_profile m;
     gm_orders_by_token := x; gm_trades := gm_trades m; gm_rejections := gm_rejections m |}.
Definition set_trades (x : gmap (string * string) Z) (m : mapper) : mapper :=
  {| gm_account_fingerprint := gm_account_fingerprint m; gm_profile := gm_profile m;
     gm_orders_by_token := gm_orders_by_token m; gm_trades := x; gm_rejections := gm_rejections m |}.
Definition add_rejection (x : GuojinMapperRejection) (m : mapper) : mapper :=
  {| gm_account_fingerprint := gm_account_fingerprint m; gm_profile := gm_profile m;
     gm_orders_by_token := gm_orders_by_token m; gm_trades := gm_trades m;
     gm_rejections := gm_rejections m ++ [x] |}.

(** [broker_token_from_remark] of qmt/calibration.py. *)
Definition broker_token_from_remark (value : json) : option string :=
  match value with JStr s => if is_broker_token s then Some s else None | _ => None end.

(** [_text] and [_integer]. *)
Definition text_of (payload : jdict) (key : string) : option string := nonempty_str (jget key payload).
Definition integer_of (payload : jdict) (key : string) : option Z := as_int (jget key payload).

(** The quantities the mapper has seen traded under a token. *)
Definition traded (token : string) (trades : gmap (string * string) Z) : Z :=
  map_fold (fun k q acc => (if bool_decide (k.1 = token) then q else 0) + acc) 0 trades.

(** [setdefault]. *)
Definition set_default (k : string * string) (q : Z) (trades : gmap (string * string) Z) :=
  match trades !! k with Some _ => trades | None => <[k := q]> trades end.

Definition row_suffix (kind : BrokerEvidenceSourceKind) (row_index : option Z) : string :=
  match row_index with
  | None => ""
  | Some i => "/" +:+ (if bool_decide (kind = ACTIVE_ORDER_QUERY) then "order" else "deal")
              +:+ "/" +:+ z_str i
  end.

Record GuojinSnapshotEvidenceBatch := {
  sb_evidence : list BrokerEvidenceV1; sb_rejected_rows : Z
}.

Section Mapper.
Context {R : Type} `{Part mapper R}.

(** [register_order]; the isinstance guards are the types. *)
Definition register_order (client_order_id symbol : string) (quantity : Z) : M R string :=
  do! guardM (str_nonempty client_order_id) ValueError "client_order_id must be non-empty" ;;
  do! guardM (0 <? quantity) ValueError "quantity must be a positive integer" ;;
  do! guardM (str_nonempty symbol) ValueError "symbol must be non-empty" ;;
  m <- read_part (fun m : mapper => m) ;;
  token <- lift (broker_token_for (JStr (gm_account_fingerprint m)) (JStr client_order_id)) ;;
  let incoming := {| ro_client_order_id := client_order_id; ro_broker_token := token;
                     ro_symbol := symbol; ro_quantity := quantity; ro_broker_order_id := None |} in
  match gm_orders_by_token m !! token with
  | Some existing =>
      do! guardM (bool_decide (ro_client_order_id existing = client_order_id) &&
                  bool_decide (ro_symbol existing = symbol) && (ro_quantity existing =? quantity))
            ValueError "broker token reused for conflicting durable order identity" ;;
      retM token
  | None =>
      do! write_part (fun m => set_orders_by_token (<[token := incoming]> (gm_orders_by_token m)) m) ;;
      retM token
  end.

Section Row.
Context (event : QmtEvent) (row_index : option Z) (payload : jdict).

(** [_reject]. *)
Definition reject (event_type reason : string) : M R unit :=
  write_part (add_rejection {| mr_session_id := qe_session_id event; mr_sequence := qe_sequence event;
    mr_event_type := event_type; mr_row_index := row_index; mr_reason := reason |}).

Definition rejected {A} (event_type reason : string) : M R (option A) :=
  do! reject event_type reason ;; retM None.

(** The route of an active query must be complete. *)
Definition check_route (event_type : string) (registered : RegisteredOrder) : M R (option RegisteredOrder) :=
  if decide (qe_source event = "active_query") then
    known <- lift (member (jget "route_account_type" payload) ["STOCK"; "HUGANGTONG"; "SHENGANGTONG"]) ;;
    if negb known then rejected event_type "MISSING_ROUTE_ACCOUNT_TYPE"
    else match jget "route_account_fingerprint" payload with
         | JStr f => if is_sha256 f then retM (Some registered)
                     else rejected event_type "MISSING_ROUTE_ACCOUNT_FINGERPRINT"
         | _ => rejected event_type "MISSING_ROUTE_ACCOUNT_FINGERPRINT"
         end
  else retM (Some registered).

(** [_identity]. *)
Definition identify (event_type : string) : M R (option RegisteredOrder) :=
  m <- read_part (fun m : mapper => m) ;;
  if negb (bool_decide (qe_terminal_instance_id event = Some (mp_terminal_instance_id (gm_profile m))))
  then rejected event_type "TERMINAL_INSTANCE_MISMATCH"
  else if negb (bool_decide (qe_account_fingerprint event = gm_account_fingerprint m))
  then rejected event_type "ACCOUNT_MISMATCH"
  else if negb (bool_decide (qe_account_type event = Some "STOCK"))
  then rejected event_type "ACCOUNT_TYPE_MISMATCH"
  else match broker_token_from_remark (jget "remark" payload) with
  | None => rejected event_type "MISSING_OR_MALFORMED_TOKEN"
  | Some token =>
      match gm_orders_by_token m !! token with
      | None => rejected event_type "UNREGISTERED_TOKEN"
      | Some registered =>
          expected <- lift (broker_token_for (JStr (gm_account_fingerprint m))
                              (JStr (ro_client_order_id registered))) ;;
          if negb (bool_decide (token = expected)) then rejected event_type "TOKEN_IDENTITY_MISMATCH"
          else if negb (is_str (ro_symbol registered) (jget "symbol" payload))
          then rejected event_type "SYMBOL_MISMATCH"
          else check_route event_type registered
      end
  end.

(** [_bind_broker_order_id]: the registered order is shared, so it is the map's. *)
Definition bind_broker_order_id (registered : RegisteredOrder) (broker_order_id : string) : M R bool :=
  match ro_broker_order_id registered with
  | None =>
      let bound := {| ro_client_order_id := ro_client_order_id registered;
        ro_broker_token := ro_broker_token registered; ro_symbol := ro_symbol registered;
        ro_quantity := ro_quantity registered; ro_broker_order_id := Some broker_order_id |} in
      do! write_part (fun m =>
            set_orders_by_token (<[ro_broker_token registered := bound]> (gm_orders_by_token m)) m) ;;
      retM true
  | Some b =>
      if bool_decide (b = broker_order_id) then retM true
      else do! reject (qe_event_type event) "BROKER_ORDER_ID_CONFLICT" ;; retM false
  end.

(** [_build]. *)
Definition evidence_args (profile : GuojinMapperProfile) (source_kind : BrokerEvidenceSourceKind)
    (registered : RegisteredOrder) (broker_order_id trade_id : option string)
    (evidence_type : BrokerEvidenceType) (requested_status : OrderStatus) (filled_quantity : Z)
    (raw_status : option (list (string * raw_value))) : build_args :=
  let suffix := row_suffix source_kind row_index in
  let active := bool_decide (qe_source event = "active_query") in
  {| ba_source := mp_source profile; ba_source_kind := source_kind;
     ba_source_event_id := qe_session_id event +:+ ":" +:+ z_str (qe_sequence event) +:+ suffix;
     ba_mapper_profile := mp_name profile;
     ba_account_fingerprint := qe_account_fingerprint event;
     ba_client_order_id := ro_client_order_id registered;
     ba_broker_token := Some (ro_broker_token registered); ba_broker_order_id := broker_order_id;
     ba_order_ref := text_of payload "order_ref"; ba_trade_id := trade_id; ba_type := evidence_type;
     ba_requested_status := requested_status; ba_filled_quantity := filled_quantity;
     ba_observed_at_ms := qe_timestamp_ms event;
     ba_raw_payload_ref := "qmt://" +:+ mp_terminal_instance_id profile +:+ "/" +:+
       qe_session_id event +:+ "/" +:+ z_str (qe_sequence event) +:+ suffix;
     ba_raw_status := raw_status;
     ba_route_account_type := if active then text_of payload "route_account_type" else None;
     ba_route_account_fingerprint :=
       if active then text_of payload "route_account_fingerprint" else None |}.

Definition emit (source_kind : BrokerEvidenceSourceKind) (registered : RegisteredOrder)
    (broker_order_id trade_id : option string) (evidence_type : BrokerEvidenceType)
    (requested_status : OrderStatus) (filled_quantity : Z)
    (raw_status : option (list (string * raw_value))) : M R (option BrokerEvidenceV1) :=
  profile <- read_part gm_profile ;;
  e <- lift (BrokerEvidence.build (evidence_args profile source_kind registered broker_order_id trade_id
                      evidence_type requested_status filled_quantity raw_status)) ;;
  retM (Some e).

(** What the codes of an order row say, or the reason of its rejection. *)
Definition order_meaning (registered : RegisteredOrder) (status remaining : option Z) (filled : Z)
    (broker_order_id : option string) : string + BrokerEvidenceType :=
  if bool_decide (status = Some 50) then
    if bool_decide (broker_order_id = None) || negb (filled =? 0)
       || negb (bool_decide (remaining = Some (ro_quantity registered)))
    then inl "ORDER_ACCEPTED_NOT_SETTLED" else inr ORDER_ACCEPTED
  else if bool_decide (status = Some 54) then
    if bool_decide (broker_order_id = None) || negb (filled =? 0)
       || negb (bool_decide (remaining = Some (ro_quantity registered)))
    then inl "INVALID_CANCELLED_QUANTITY" else inr ORDER_CANCELLED
  else if bool_decide (status = Some 56) then
    if bool_decide (broker_order_id = None) || negb (filled =? ro_quantity registered)
    then inl "INVALID_FULL_FILL_QUANTITY" else inr FULL_FILL
  else if bool_decide (status = Some 57) then
    if negb (filled =? 0) then inl "REJECTED_ORDER_HAS_FILL" else inr ORDER_REJECTED
  else inl "UNKNOWN_ORDER_STATUS".

Definition raw_code (z : option Z) : raw_value := match z with Some z => RawInt z | None => RawNone end.

(** [_map_order]. *)
Definition map_order (source_kind : BrokerEvidenceSourceKind) (registered : RegisteredOrder)
    : M R (option BrokerEvidenceV1) :=
  let status := integer_of payload "status_code" in
  let submit := integer_of payload "submit_status_code" in
  let original := integer_of payload "original_quantity" in
  let broker_order_id := text_of payload "broker_order_id" in
  match integer_of payload "filled_quantity" with
  | None => rejected "order" "UNCALIBRATED_ORDER_SHAPE"
  | Some filled =>
      if negb (bool_decide (submit = Some 51))
         || negb (bool_decide (original = Some (ro_quantity registered)))
      then rejected "order" "UNCALIBRATED_ORDER_SHAPE"
      else match order_meaning registered status (integer_of payload "remaining_quantity") filled
                   broker_order_id with
      | inl reason => rejected "order" reason
      | inr evidence_type =>
          bound <- match broker_order_id with
                   | Some b => bind_broker_order_id registered b
                   | None => retM true
                   end ;;
          if negb bound then retM None
          else emit source_kind registered broker_order_id None evidence_type
                 (status_by_type evidence_type) filled
                 (Some [("order_status", raw_code status); ("submit_status", raw_code submit)])
      end
  end.

(** [_map_deal]. *)
Definition map_deal (source_kind : BrokerEvidenceSourceKind) (registered : RegisteredOrder)
    : M R (option BrokerEvidenceV1) :=
  match text_of payload "broker_order_id", text_of payload "trade_id", integer_of payload "quantity" with
  | Some broker_order_id, Some trade_id, Some quantity =>
      if quantity <=? 0 then rejected "deal" "INCOMPLETE_DEAL_IDENTITY"
      else
        m <- read_part (fun m : mapper => m) ;;
        let trade_key := (ro_broker_token registered, trade_id) in
        if negb (bool_decide (default quantity (gm_trades m !! trade_key) = quantity))
        then rejected "deal" "TRADE_ID_CONFLICT"
        else
          let cumulative := traded (ro_broker_token registered) (set_default trade_key quantity (gm_trades m)) in
          if ro_quantity registered <? cumulative then rejected "deal" "CUMULATIVE_FILL_EXCEEDS_ORDER"
          else
            bound <- bind_broker_order_id registered broker_order_id ;;
            if negb bound then retM None
            else
              do! write_part (fun m => set_trades (set_default trade_key quantity (gm_trades m)) m) ;;
              let evidence_type := if cumulative =? ro_quantity registered then FULL_FILL else PARTIAL_FILL in
              emit source_kind registered (Some broker_order_id) (Some trade_id) evidence_type
                (if bool_decide (evidence_type = FULL_FILL) then FILLED else PARTIALLY_FILLED)
                cumulative None
  | _, _, _ => rejected "deal" "INCOMPLETE_DEAL_IDENTITY"
  end.

(** [_map_payload]. *)
Definition map_payload (event_type : string) (source_kind : BrokerEvidenceSourceKind)
    : M R (option BrokerEvidenceV1) :=
  registered <- identify event_type ;;
  match registered with
  | None => retM None
  | Some registered =>
      enabled <- read_part (fun m => mp_evidence_enabled (gm_profile m)) ;;
      if negb enabled then rejected event_type "PROFILE_EVIDENCE_DISABLED"
      else if decide (event_type = "order") then map_order source_kind registered
      else map_deal source_kind registered
  end.
End Row.

(** [__call__]. *)
Definition map_event (event : QmtEvent) : M R (option BrokerEvidenceV1) :=
  let event_type := qe_event_type event in
  do! guardM (bool_decide (event_type ∈ ["order"; "deal"])) ValueError
        "Guojin mapper accepts callback ORDER/DEAL events only" ;;
  map_payload event None (qe_payload event) event_type
    (if bool_decide (event_type = "order") then ORDER_CALLBACK else DEAL_CALLBACK).

(** The rows of one list of a snapshot. *)
Fixpoint map_rows (event : QmtEvent) (event_type : string) (kind : BrokerEvidenceSourceKind)
    (row_index : Z) (rows : list json) : M R (list BrokerEvidenceV1) :=
  match rows with
  | [] => retM []
  | row :: rows =>
      candidate <- match row with
                   | JObj payload => map_payload event (Some row_index) payload event_type kind
                   | _ => rejected event (Some row_index) event_type "ROW_NOT_OBJECT"
                   end ;;
      mapped <- map_rows event event_type kind (row_index + 1) rows ;;
      retM (match candidate with Some e => e :: mapped | None => mapped end)
  end.

Definition map_list (event : QmtEvent) (event_type key : string) (kind : BrokerEvidenceSourceKind)
    : M R (list BrokerEvidenceV1) :=
  match jget key (qe_payload event) with
  | JArr rows => map_rows event event_type kind 0 rows
  | _ => do! reject event None event_type "ROWS_NOT_LIST" ;; retM []
  end.

(** [map_snapshot]. *)
Definition map_snapshot (event : QmtEvent) : M R GuojinSnapshotEvidenceBatch :=
  do! guardM (bool_decide (qe_event_type event = "snapshot") &&
              bool_decide (qe_source event = "active_query")) ValueError
        "Guojin snapshot mapper requires an active-query snapshot" ;;
  before <- read_part (fun m => Z.of_nat (length (gm_rejections m))) ;;
  orders <- map_list event "order" "orders" ACTIVE_ORDER_QUERY ;;
  deals <- map_list event "deal" "deals" ACTIVE_DEAL_QUERY ;;
  after <- read_part (fun m => Z.of_nat (length (gm_rejections m))) ;;
  retM {| sb_evidence := orders ++ deals; sb_rejected_rows := after - before |}.
End Mapper.

(** ** The trades of a token *)

Lemma traded_insert t k q trades :
  trades !! k = None ->
  traded t (<[k := q]> trades) = (if bool_decide (k.1 = t) then q else 0) + traded t trades.
Proof.
  intros Hk. unfold traded. rewrite map_fold_insert_L; [done| |done]. intros. lia.
Qed.

Lemma traded_unknown t trades :
  (forall k q, trades !! k = Some q -> k.1 <> t) -> traded t trades = 0.
Proof.
  induction trades as [|k q trades Hk IH] using map_ind; intros Ht; [done|].
  rewrite traded_insert by done. rewrite bool_decide_false.
  - rewrite IH; [done|]. intros k' q' Hk'. eapply (Ht k' q').
    rewrite lookup_insert_ne; [done | by intros ->; rewrite Hk in Hk'].
  - by apply (Ht k q), lookup_insert_eq.
Qed.

Lemma traded_set_default t k q trades :
  0 <= q -> traded t trades <= traded t (set_default k q trades).
Proof.
  intros Hq. unfold set_default. destruct (trades !! k) eqn:E; [lia|].
  rewrite traded_insert by done. case_bool_decide; lia.
Qed.

Lemma set_default_get k q trades :
  default q (trades !! k) = q -> set_default k q trades !! k = Some q.
Proof.
  unfold set_default. destruct (trades !! k) eqn:E; cbn; [intros ->; done|]. intros _. apply lookup_insert_eq.
Qed.

Lemma traded_other t k q trades : k.1 <> t -> traded t (set_default k q trades) = traded t trades.
Proof.
  intros Hk. unfold set_default. destruct (trades !! k) eqn:E; [done|].
  by rewrite traded_insert, bool_decide_false.
Qed.

(** ** What a mapper keeps, and how it grows *)

(** Each order is registered under its own token, and no more of it was traded
    than it asks for. *)
Record mapper_inv (m : mapper) : Prop := {
  mi_account : is_sha256 (gm_account_fingerprint m) = true;
  mi_orders : forall t r, gm_orders_by_token m !! t = Some r ->
    ro_broker_token r = t /\ 0 < ro_quantity r /\ str_nonempty (ro_client_order_id r) = true /\
    broker_token_for (JStr (gm_account_fingerprint m)) (JStr (ro_client_order_id r)) = Ok t /\
    traded t (gm_trades m) <= ro_quantity r;
  mi_trades : forall k q, gm_trades m !! k = Some q -> 0 < q /\ is_Some (gm_orders_by_token m !! k.1)
}.

(** The order keeps its identity, and a broker id that was bound. *)
Definition same_order (r r' : RegisteredOrder) : Prop :=
  ro_client_order_id r' = ro_client_order_id r /\ ro_broker_token r' = ro_broker_token r /\
  ro_symbol r' = ro_symbol r /\ ro_quantity r' = ro_quantity r /\
  forall b, ro_broker_order_id r = Some b -> ro_broker_order_id r' = Some b.

Record mapper_le (m m' : mapper) : Prop := {
  le_account : gm_account_fingerprint m' = gm_account_fingerprint m;
  le_profile : gm_profile m' = gm_profile m;
  le_orders : forall t r, gm_orders_by_token m !! t = Some r ->
    exists r', gm_orders_by_token m' !! t = Some r' /\ same_order r r';
  le_trades : gm_trades m ⊆ gm_trades m';
  le_traded : forall t, traded t (gm_trades m) <= traded t (gm_trades m');
  le_rejections : gm_rejections m `prefix_of` gm_rejections m'
}.

#[export] Instance same_order_preorder : PreOrder same_order.
Proof. split; unfold same_order; [intros r | intros r1 r2 r3 ? ?]; naive_solver congruence. Qed.

#[export] Instance mapper_le_preorder : PreOrder mapper_le.
Proof.
  split.
  - intros m. split; try done. intros t r Hr. exists r. split; [done | reflexivity].
  - intros m1 m2 m3 [] []. split; try congruence.
    + intros t r Hr. destruct (le_orders0 _ _ Hr) as (r2 & Hr2 & H2).
      destruct (le_orders1 _ _ Hr2) as (r3 & Hr3 & H3). exists r3. split; [done | by etrans].
    + by etrans.
    + intros t. eapply Z.le_trans; auto.
    + by etrans.
Qed.

Lemma add_rejection_ok x m : mapper_inv m -> mapper_inv (add_rejection x m) /\ mapper_le m (add_rejection x m).
Proof.
  intros []. split; [by split|]. split; try done; cbn; [|by apply prefix_app_r].
  intros t r Hr. exists r. split; [done | reflexivity].
Qed.

Lemma insert_same_ok t r r' m :
  gm_orders_by_token m !! t = Some r -> same_order r r' -> mapper_inv m ->
  mapper_inv (set_orders_by_token (<[t := r']> (gm_orders_by_token m)) m) /\
  mapper_le m (set_orders_by_token (<[t := r']> (gm_orders_by_token m)) m).
Proof.
  intros Hr Hs [Ha Ho Ht]. split; split; try done; cbn.
  - intros t0 r0. destruct (decide (t = t0)) as [<-|Hne].
    + rewrite lookup_insert_eq. intros [= <-]. destruct Hs as (-> & -> & _ & -> & _). by apply Ho.
    + rewrite lookup_insert_ne by done. apply Ho.
  - intros k q [Hq Hk]%Ht. split; [done|]. by rewrite lookup_insert_is_Some'; right.
  - intros t0 r0 Hr0. destruct (decide (t = t0)) as [<-|Hne].
    + exists r'. rewrite lookup_insert_eq. split; [done|]. by replace r0 with r by congruence.
    + exists r0. rewrite lookup_insert_ne by done. split; [done | reflexivity].
Qed.

Lemma insert_fresh_ok t r m :
  gm_orders_by_token m !! t = None -> ro_broker_token r = t -> 0 < ro_quantity r ->
  str_nonempty (ro_client_order_id r) = true ->
  broker_token_for (JStr (gm_account_fingerprint m)) (JStr (ro_client_order_id r)) = Ok t ->
  mapper_inv m ->
  mapper_inv (set_orders_by_token (<[t := r]> (gm_orders_by_token m)) m) /\
  mapper_le m (set_orders_by_token (<[t := r]> (gm_orders_by_token m)) m).
Proof.
  intros Hn Ht Hq Hc Htok [Ha Ho Htr].
  assert (H0 : traded t (gm_trades m) = 0).
  { apply traded_unknown. intros k q [_ [x Hx]]%Htr <-. congruence. }
  split; split; try done; cbn.
  - intros t0 r0. destruct (decide (t = t0)) as [<-|Hne].
    + rewrite lookup_insert_eq. intros [= <-]. rewrite H0. split_and!; [done..|lia].
    + rewrite lookup_insert_ne by done. apply Ho.
  - intros k q [Hq' Hk]%Htr. split; [done|]. by rewrite lookup_insert_is_Some'; right.
  - intros t0 r0 Hr0. exists r0. rewrite lookup_insert_ne by congruence. split; [done | reflexivity].
Qed.

Lemma set_trades_ok t i q r m :
  gm_orders_by_token m !! t = Some r -> 0 < q ->
  traded t (set_default (t, i) q (gm_trades m)) <= ro_quantity r -> mapper_inv m ->
  mapper_inv (set_trades (set_default (t, i) q (gm_trades m)) m) /\
  mapper_le m (set_trades (set_default (t, i) q (gm_trades m)) m).
Proof.
  intros Hr Hq Hle [Ha Ho Htr]. split; split; try done; cbn.
  - intros t0 r0 Hr0. destruct (Ho _ _ Hr0) as (H1 & H2 & H3 & H4 & H5). split_and!; [done..|].
    destruct (decide (t = t0)) as [<-|Hne]; [by replace r0 with r by congruence|].
    by rewrite traded_other.
  - intros k q'. unfold set_default. destruct (gm_trades m !! (t, i)) eqn:E; [apply Htr|].
    destruct (decide (k = (t, i))) as [->|Hne]; [|rewrite lookup_insert_ne by congruence; apply Htr].
    rewrite lookup_insert_eq. intros [= <-]. split; [done | by exists r].
  - intros t0 r0 Hr0. exists r0. split; [done | reflexivity].
  - unfold set_default. destruct (gm_trades m !! (t, i)) eqn:E; [done|]. by apply insert_subseteq.
  - intros t0. apply traded_set_default. lia.
Qed.

(** ** Computations of a mapper *)

Section Mapping.
Context {R : Type} `{Part mapper R}.
Implicit Types (w : world R) (m : mapper).

Definition mapper_of w : mapper := get_part (w_rest w).

(** The exceptions a mapper may raise: a field of the evidence out of its
    contract, or an unhashable route. *)
Definition mapper_errors : list exn_class := [ValueError; TypeError].

(** The database is left alone, the mapper grows by the rules, and a result
    satisfies [P] in the mapper that is left. *)
Definition mapping {A} (c : M R A) (P : A -> mapper -> Prop) w : Prop :=
  wp c (fun res w' => w_db w' = w_db w /\ w_in_tx w' = w_in_tx w /\
    mapper_inv (mapper_of w') /\ mapper_le (mapper_of w) (mapper_of w') /\
    match res with Ok a => P a (mapper_of w') | Err e => exn_cls e ∈ mapper_errors end) w.

Lemma mapping_bind {A B} (c : M R A) (f : A -> M R B) P Q w :
  mapping c P w ->
  (forall a w', P a (mapper_of w') -> mapper_inv (mapper_of w') ->
     mapper_le (mapper_of w) (mapper_of w') -> mapping (f a) Q w') ->
  mapping (bindM c f) Q w.
Proof.
  unfold mapping. intros Hc Hf. apply wp_bind. eapply wp_mono; [exact Hc|].
  intros [a|e] w' (Hd & Ht & Hi & Hl & HP); [|done].
  eapply wp_mono; [by apply Hf|]. intros res w2 (Hd2 & Ht2 & Hi2 & Hl2 & HQ).
  split_and!; [congruence | congruence | done | by etrans | done].
Qed.

Lemma mapping_ret {A} (a : A) P w : mapper_inv (mapper_of w) -> P a (mapper_of w) -> mapping (retM a) P w.
Proof. intros. unfold mapping, wp. cbn. by split_and!. Qed.

Lemma mapping_read {A B} (g : mapper -> A) (f : A -> M R B) P w :
  mapping (f (g (mapper_of w))) P w -> mapping (bindM (read_part g) f) P w.
Proof. done. Qed.

Lemma mapping_guard {B} b msg (f : unit -> M R B) P w :
  mapper_inv (mapper_of w) -> (b = true -> mapping (f tt) P w) ->
  mapping (bindM (guardM b ValueError msg) f) P w.
Proof.
  intros Hi Hf. apply wp_bind. apply wp_guard; intros Hb; [by apply Hf|].
  split_and!; [done..|]. cbn. by apply list_elem_of_In; left.
Qed.

Lemma mapping_lift {A B} (r : res A) (f : A -> M R B) P w :
  mapper_inv (mapper_of w) -> (forall e, r = Err e -> exn_cls e ∈ mapper_errors) ->
  (forall a, r = Ok a -> mapping (f a) P w) -> mapping (bindM (lift r) f) P w.
Proof.
  intros Hi He Hf. apply wp_bind. destruct r as [a|e]; [by apply Hf|]. split_and!; [done..|]. by apply He.
Qed.

Lemma mapping_write g P w :
  mapper_inv (g (mapper_of w)) /\ mapper_le (mapper_of w) (g (mapper_of w)) ->
  P tt (g (mapper_of w)) -> mapping (write_part g) P w.
Proof.
  intros [Hi Hl] HP. unfold mapping, wp, mapper_of. cbn. rewrite !get_set_part. by split_and!.
Qed.

Lemma mapping_mono {A} (c : M R A) (P Q : A -> mapper -> Prop) w :
  mapping c P w ->
  (forall a m, P a m -> mapper_inv m -> mapper_le (mapper_of w) m -> Q a m) -> mapping c Q w.
Proof.
  unfold mapping. intros Hc HPQ. eapply wp_mono; [exact Hc|]. intros [a|e] w' (Hd & Ht & Hi & Hl & HP); split_and!; auto.
Qed.

Lemma rejected_ok {A} event row_index event_type reason (P : option A -> mapper -> Prop) w :
  mapper_inv (mapper_of w) -> (forall m, mapper_le (mapper_of w) m -> P None m) ->
  mapping (rejected event row_index event_type reason) P w.
Proof.
  intros Hi HP. eapply mapping_bind with (P := fun _ _ => True).
  - apply mapping_write; [by apply add_rejection_ok | done].
  - intros _ w' _ Hi' Hle. apply mapping_ret; auto.
Qed.

Lemma mapper_error_value e : exn_cls e = ValueError -> exn_cls e ∈ mapper_errors.
Proof. intros ->. apply list_elem_of_In. by left. Qed.

Lemma member_err j l e : member j l = Err e -> exn_cls e ∈ mapper_errors.
Proof. destruct j; try discriminate; intros [= <-]; apply list_elem_of_In; right; by left. Qed.

(** The fact names the order [r] registered under [t]. *)
Definition names (event : QmtEvent) (payload : jdict) (t : string) (r : RegisteredOrder) m : Prop :=
  gm_orders_by_token m !! t = Some r /\ jget "remark" payload = JStr t /\
  jget "symbol" payload = JStr (ro_symbol r) /\
  qe_terminal_instance_id event = Some (mp_terminal_instance_id (gm_profile m)) /\
  qe_account_fingerprint event = gm_account_fingerprint m.

Lemma identify_ok event row_index payload event_type w :
  mapper_inv (mapper_of w) ->
  mapping (identify event row_index payload event_type)
    (fun o m => match o with Some r => exists t, names event payload t r m | None => True end) w.
Proof.
  intros Hi. unfold identify. apply mapping_read.
  case_bool_decide as H1; [|by apply rejected_ok].
  case_bool_decide as H2; [|by apply rejected_ok].
  case_bool_decide as H3; [|by apply rejected_ok]. cbn [negb].
  unfold broker_token_from_remark. destruct (jget "remark" payload) as [| | |t| | |] eqn:Et;
    try by apply rejected_ok.
  destruct (is_broker_token t); [|by apply rejected_ok].
  destruct (gm_orders_by_token _ !! t) as [r|] eqn:Er; [|by apply rejected_ok].
  destruct (mi_orders _ Hi _ _ Er) as (_ & _ & _ & Htok & _).
  apply mapping_lift; [done | by rewrite Htok|]. intros expected He.
  case_bool_decide; [|by apply rejected_ok]. cbn [negb].
  destruct (is_str _ _) eqn:Es; [|by apply rejected_ok]. cbn [negb].
  assert (Hn : exists t, names event payload t r (mapper_of w)).
  { exists t. split_and!; try done. unfold is_str in Es. destruct (jget "symbol" payload); try done.
    by apply bool_decide_eq_true in Es as ->. }
  unfold check_route. destruct (decide _); [|by apply mapping_ret].
  apply mapping_lift; [done | apply member_err|]. intros known _.
  destruct known; cbn [negb]; [|by apply rejected_ok].
  destruct (jget "route_account_fingerprint" payload); try by apply rejected_ok.
  destruct (is_sha256 _); [by apply mapping_ret | by apply rejected_ok].
Qed.

Lemma bind_ok event row_index t r b w :
  mapper_inv (mapper_of w) -> gm_orders_by_token (mapper_of w) !! t = Some r ->
  mapping (bind_broker_order_id event row_index r b) (fun bound m =>
    gm_trades m = gm_trades (mapper_of w) /\
    (bound = true -> exists r', gm_orders_by_token m !! t = Some r' /\ same_order r r' /\
                                ro_broker_order_id r' = Some b)) w.
Proof.
  intros Hi Hr. unfold bind_broker_order_id. destruct (mi_orders _ Hi _ _ Hr) as (Ht & _).
  destruct (ro_broker_order_id r) as [b'|] eqn:Eb.
  - case_bool_decide as Hb.
    + apply mapping_ret; [done|]. split; [done|]. intros _. exists r. split_and!; [done | reflexivity | congruence].
    + eapply mapping_bind with (P := fun _ m => gm_trades m = gm_trades (mapper_of w)).
      * apply mapping_write; [by apply add_rejection_ok | done].
      * intros _ w' Htr Hi' _. apply mapping_ret; [done|]. by split.
  - rewrite Ht. eapply mapping_bind with (P := fun _ m =>
      gm_trades m = gm_trades (mapper_of w) /\ exists r', gm_orders_by_token m !! t = Some r' /\
        same_order r r' /\ ro_broker_order_id r' = Some b).
    + apply mapping_write.
      * eapply insert_same_ok; [exact Hr| |exact Hi]. split_and!; try done. by rewrite Eb.
      * split; [done|]. eexists. split; [by apply lookup_insert_eq|]. split; [|done].
        split_and!; try done. by rewrite Eb.
    + intros _ w' [Htr Hr'] Hi' _. by apply mapping_ret.
Qed.

(** ** What a piece of evidence says *)

Definition is_deal (kind : BrokerEvidenceSourceKind) : bool :=
  match kind with DEAL_CALLBACK | ACTIVE_DEAL_QUERY => true | _ => false end.

(** The evidence is about the order [r], as far as the mapper knows it. *)
Definition about (t : string) (r : RegisteredOrder) m (e : BrokerEvidenceV1) : Prop :=
  ev_broker_token e = Some t /\ gm_orders_by_token m !! t = Some r /\
  ev_client_order_id e = ro_client_order_id r /\
  ev_account_fingerprint e = gm_account_fingerprint m /\
  (forall b, ev_broker_order_id e = Some b -> ro_broker_order_id r = Some b) /\
  ev_filled_quantity e <= ro_quantity r /\
  (is_deal (ev_source_kind e) = true -> ev_filled_quantity e <= traded t (gm_trades m)).

(** The calibrated meaning of the codes of an order row. *)
Definition order_says (r : RegisteredOrder) (payload : jdict) (e : BrokerEvidenceV1) : Prop :=
  integer_of payload "submit_status_code" = Some 51 /\
  integer_of payload "original_quantity" = Some (ro_quantity r) /\
  integer_of payload "filled_quantity" = Some (ev_filled_quantity e) /\
  match ev_type e with
  | ORDER_ACCEPTED => integer_of payload "status_code" = Some 50 /\ ev_filled_quantity e = 0
  | ORDER_CANCELLED => integer_of payload "status_code" = Some 54 /\ ev_filled_quantity e = 0
  | FULL_FILL => integer_of payload "status_code" = Some 56 /\ ev_filled_quantity e = ro_quantity r
  | ORDER_REJECTED => integer_of payload "status_code" = Some 57 /\ ev_filled_quantity e = 0
  | PARTIAL_FILL => False
  end.

(** A deal reports the sum of the distinct trades, and the end when that is the
    whole order. *)
Definition deal_says (t : string) (r : RegisteredOrder) m (payload : jdict) (e : BrokerEvidenceV1) : Prop :=
  (exists i q, text_of payload "trade_id" = Some i /\ ev_trade_id e = Some i /\
     integer_of payload "quantity" = Some q /\ gm_trades m !! (t, i) = Some q) /\
  ev_filled_quantity e = traded t (gm_trades m) /\
  match ev_type e with
  | FULL_FILL => ev_filled_quantity e = ro_quantity r
  | PARTIAL_FILL => ev_filled_quantity e < ro_quantity r
  | _ => False
  end.

(** What a row, a callback's or a snapshot's, says of an order. *)
Definition said (event : QmtEvent) (row_index : option Z) (payload : jdict)
    (kind : BrokerEvidenceSourceKind) m (e : BrokerEvidenceV1) : Prop :=
  evidence_ok e /\ mp_evidence_enabled (gm_profile m) = true /\
  ev_source e = mp_source (gm_profile m) /\ ev_source_kind e = kind /\
  ev_source_event_id e =
    qe_session_id event +:+ ":" +:+ z_str (qe_sequence event) +:+ row_suffix kind row_index /\
  ev_broker_order_id e = text_of payload "broker_order_id" /\
  exists t r, names event payload t r m /\ about t r m e /\
    (if is_deal kind then deal_says t r m payload e else order_says r payload e).

Lemma names_keep event payload t r r' m m' :
  names event payload t r m -> mapper_le m m' -> gm_orders_by_token m' !! t = Some r' ->
  same_order r r' -> names event payload t r' m'.
Proof.
  intros (Hr & Ht & Hs & Hi & Ha) [] Hr' (_ & _ & Hsym & _). unfold names.
  split_and!; congruence.
Qed.

Lemma emit_ok event row_index payload kind r b i ty st filled raw w (P : BrokerEvidenceV1 -> Prop) :
  mapper_inv (mapper_of w) ->
  (forall e, e = assemble (evidence_args event row_index payload (gm_profile (mapper_of w)) kind r b i ty
                  st filled raw) (ev_semantic_digest e) -> evidence_ok e -> P e) ->
  mapping (emit event row_index payload kind r b i ty st filled raw)
    (fun o m => m = mapper_of w /\ match o with Some e => P e | None => True end) w.
Proof.
  intros Hi HP. unfold emit. apply mapping_read.
  apply mapping_lift; [done | by intros e He%build_err; apply mapper_error_value|].
  intros e [He Hok]%build_ok. apply mapping_ret; [done|]. split; [done|]. apply HP; [|done].
  rewrite He. by destruct (evidence_args _ _ _ _ _ _ _ _ _ _ _ _).
Qed.

Lemma order_meaning_says r payload status remaining filled b ty e :
  order_meaning r status remaining filled b = inr ty ->
  integer_of payload "status_code" = status ->
  integer_of payload "submit_status_code" = Some 51 ->
  integer_of payload "original_quantity" = Some (ro_quantity r) ->
  integer_of payload "filled_quantity" = Some filled ->
  ev_type e = ty -> ev_filled_quantity e = filled ->
  order_says r payload e /\ (0 < ro_quantity r -> filled <= ro_quantity r).
Proof.
  unfold order_meaning, order_says. intros Hm Hs H1 H2 H3 <- <-.
  repeat case_bool_decide; subst; cbn [orb negb] in Hm;
    repeat match type of Hm with
    | (if ?b then _ else _) = _ => destruct b eqn:?; [discriminate|]
    end; try discriminate; injection Hm as Hm; rewrite <-Hm; bool_to_prop;
    (split; [by split_and! | lia]).
Qed.

(** The evidence made of a row, if any, says what the row says. *)
Definition faithful (event : QmtEvent) row_index payload kind (o : option BrokerEvidenceV1) m : Prop :=
  match o with Some e => said event row_index payload kind m e | None => True end.

Lemma map_order_ok event row_index payload kind t r w :
  is_deal kind = false -> mapper_inv (mapper_of w) ->
  mp_evidence_enabled (gm_profile (mapper_of w)) = true -> names event payload t r (mapper_of w) ->
  mapping (map_order event row_index payload kind r) (faithful event row_index payload kind) w.
Proof.
  intros Hk Hi Hen Hn. unfold map_order. cbv zeta.
  destruct (integer_of payload "filled_quantity") as [filled|] eqn:Ef; [|by apply rejected_ok].
  case_bool_decide as Hs; [|by apply rejected_ok].
  case_bool_decide as Ho; [|by apply rejected_ok]. cbn [negb orb].
  destruct (order_meaning _ _ _ _ _) as [reason|ty] eqn:Em; [by apply rejected_ok|].
  set (b := text_of payload "broker_order_id") in *.
  eapply mapping_bind with (P := fun ok m => ok = true -> exists r',
    gm_orders_by_token m !! t = Some r' /\ same_order r r' /\
    forall b', b = Some b' -> ro_broker_order_id r' = Some b').
  { destruct b as [b'|]; [|apply mapping_ret; [done|]; exists r; split_and!; [apply Hn | done..]].
    eapply mapping_mono; [apply bind_ok; [done | apply Hn]|].
    intros ok m [_ Hok] _ _ Htrue. destruct (Hok Htrue) as (r' & Hr' & Hsame & Hb).
    exists r'. split_and!; [done..|]. by intros b'' [= <-]. }
  intros ok w1 Hok Hi1 Hle1. destruct ok; cbn [negb]; [|by apply mapping_ret].
  destruct (Hok eq_refl) as (r' & Hr' & Hsame & Hb).
  pose proof (names_keep _ _ _ _ _ _ _ Hn Hle1 Hr' Hsame) as Hn'.
  destruct (mi_orders _ Hi1 _ _ Hr') as (Ht' & Hq' & _). pose proof Hsame as (Hsc & Hst & Hss & Hsq & _).
  eapply mapping_mono; [apply emit_ok with (P := said event row_index payload kind (mapper_of w1)); [done|]|].
  - intros e He Hev. rewrite He in Hev |- *.
    unfold said. cbn [assemble evidence_args ev_source ev_source_kind ev_source_event_id ev_broker_order_id
      ba_source ba_source_kind ba_source_event_id ba_broker_order_id].
    split; [done|]. split; [by rewrite (le_profile _ _ Hle1)|]. split_and!; [done..|].
    exists t, r'. split; [done|]. rewrite Hk.
    set (e' := assemble _ _) in *.
    destruct (order_meaning_says r payload _ _ filled b ty e' Em eq_refl Hs Ho Ef eq_refl eq_refl)
      as [Hsays Hfill].
    rewrite Hsq in Hq'. unfold order_says in *. rewrite Hsq. split; [|done].
    unfold about. subst e'.
    cbn [assemble evidence_args ev_broker_token ev_client_order_id ev_account_fingerprint ev_broker_order_id
      ev_filled_quantity ev_source_kind ba_broker_token ba_client_order_id ba_account_fingerprint
      ba_broker_order_id ba_filled_quantity ba_source_kind].
    split_and!; [by rewrite <-Hst, Ht' | done | done | by apply Hn' | done | lia | by rewrite Hk].
  - intros [e|] m [-> He] _ _; done.
Qed.

Lemma map_deal_ok event row_index payload kind t r w :
  is_deal kind = true -> mapper_inv (mapper_of w) ->
  mp_evidence_enabled (gm_profile (mapper_of w)) = true -> names event payload t r (mapper_of w) ->
  mapping (map_deal event row_index payload kind r) (faithful event row_index payload kind) w.
Proof.
  intros Hk Hi Hen Hn. unfold map_deal.
  destruct (text_of payload "broker_order_id") as [b|] eqn:Eb; [|by apply rejected_ok].
  destruct (text_of payload "trade_id") as [i|] eqn:Ei; [|by apply rejected_ok].
  destruct (integer_of payload "quantity") as [q|] eqn:Eq; [|by apply rejected_ok].
  destruct (Z.leb_spec q 0) as [|Hq]; [by apply rejected_ok|]. apply mapping_read. cbv zeta.
  destruct (mi_orders _ Hi _ _ (proj1 Hn)) as (Ht & _). rewrite Ht.
  case_bool_decide as Hd; [|by apply rejected_ok]. cbn [negb].
  set (trades := set_default (t, i) q (gm_trades (mapper_of w))).
  destruct (Z.ltb_spec (ro_quantity r) (traded t trades)) as [|Hfill]; [by apply rejected_ok|].
  eapply mapping_bind; [apply bind_ok; [done | apply Hn]|]. cbv beta.
  intros ok w1 [Htr Hok] Hi1 Hle1. destruct ok; cbn [negb]; [|by apply mapping_ret].
  destruct (Hok eq_refl) as (r' & Hr' & Hsame & Hb).
  pose proof Hsame as (Hsc & Hst & Hss & Hsq & _).
  pose proof (names_keep _ _ _ _ _ _ _ Hn Hle1 Hr' Hsame) as Hn'.
  eapply mapping_bind with (P := fun _ m => m = set_trades trades (mapper_of w1)).
  { apply mapping_write; [|unfold trades; by rewrite <-Htr].
    eapply set_trades_ok; [exact Hr' | done | | done]. by rewrite Htr, Hsq. }
  intros [] w2 Hw2 Hi2 Hle2.
  set (ty := if traded t trades =? ro_quantity r then FULL_FILL else PARTIAL_FILL).
  eapply mapping_mono; [apply emit_ok with (P := said event row_index payload kind (mapper_of w2)); [done|]|].
  - intros e He Hev. rewrite He in Hev |- *. unfold said.
    cbn [assemble evidence_args ev_source ev_source_kind ev_source_event_id ev_broker_order_id
      ba_source ba_source_kind ba_source_event_id ba_broker_order_id].
    split; [done|]. split; [by rewrite (le_profile _ _ Hle2), (le_profile _ _ Hle1)|].
    split_and!; [done..|]. exists t, r'. rewrite Hk. rewrite Hw2. cbn [set_trades gm_trades].
    split; [by rewrite Hw2 in *|]. split.
    + unfold about.
      cbn [assemble evidence_args ev_broker_token ev_client_order_id ev_account_fingerprint ev_broker_order_id
        ev_filled_quantity ev_source_kind ba_broker_token ba_client_order_id ba_account_fingerprint
        ba_broker_order_id ba_filled_quantity ba_source_kind set_trades gm_orders_by_token
        gm_account_fingerprint gm_trades].
      split_and!; [by rewrite Ht | done | done | by apply Hn' | congruence | lia | lia].
    + unfold deal_says. cbn [assemble evidence_args ev_trade_id ev_type ev_filled_quantity ba_trade_id ba_type
        ba_filled_quantity set_trades gm_trades].
      split; [|split; [done|]].
      * exists i, q. split_and!; try done. by apply set_default_get.
      * unfold ty. destruct (Z.eqb_spec (traded t trades) (ro_quantity r)); lia.
  - intros [e|] m [-> He] _ _; done.
Qed.

Lemma map_payload_ok event row_index payload event_type kind w :
  mapper_inv (mapper_of w) ->
  is_deal kind = negb (bool_decide (event_type = "order")) ->
  mapping (map_payload event row_index payload event_type kind) (faithful event row_index payload kind) w.
Proof.
  intros Hi Hk. unfold map_payload. eapply mapping_bind; [by apply identify_ok|]. cbv beta.
  intros [r|] w1 H1 Hi1 _; [|by apply mapping_ret]. destruct H1 as (t & Hn).
  apply mapping_read. destruct (mp_evidence_enabled _) eqn:Een; [|by apply rejected_ok]. cbn [negb].
  destruct (decide (event_type = "order")) as [->|Hne].
  - by eapply map_order_ok.
  - rewrite bool_decide_false in Hk by done. by eapply map_deal_ok.
Qed.

(** The facts of an event: the callback's own, or the rows of a snapshot. *)
Inductive fact_of (event : QmtEvent) : option Z -> jdict -> BrokerEvidenceSourceKind -> Prop :=
  | callback_order : qe_event_type event = "order" -> fact_of event None (qe_payload event) ORDER_CALLBACK
  | callback_deal : qe_event_type event = "deal" -> fact_of event None (qe_payload event) DEAL_CALLBACK
  | order_row_of rows (i : nat) p : jget "orders" (qe_payload event) = JArr rows ->
      rows !! i = Some (JObj p) -> fact_of event (Some (Z.of_nat i)) p ACTIVE_ORDER_QUERY
  | deal_row_of rows (i : nat) p : jget "deals" (qe_payload event) = JArr rows ->
      rows !! i = Some (JObj p) -> fact_of event (Some (Z.of_nat i)) p ACTIVE_DEAL_QUERY.

(** The evidence says what a fact of the event says, at some moment between two
    states of the mapper. *)
Definition emitted (event : QmtEvent) m m' (e : BrokerEvidenceV1) : Prop :=
  exists m1 row_index payload kind, mapper_le m m1 /\ mapper_le m1 m' /\
    fact_of event row_index payload kind /\ said event row_index payload kind m1 e.

(** A list of evidence in the order it was made from events of [E]: each piece
    at a later moment. *)
Inductive emissions (E : QmtEvent -> Prop) : mapper -> list BrokerEvidenceV1 -> mapper -> Prop :=
  | emissions_nil m m' : mapper_le m m' -> emissions E m [] m'
  | emissions_cons event m m1 m2 e l : E event -> emitted event m m1 e -> emissions E m1 l m2 ->
      emissions E m (e :: l) m2.

Lemma emissions_weaken (E E' : QmtEvent -> Prop) m0 m l m' :
  (forall e, E e -> E' e) -> mapper_le m0 m -> emissions E m l m' -> emissions E' m0 l m'.
Proof.
  intros HE Hle Hem. revert m0 Hle.
  induction Hem as [m m' Hm|event m m1 m2 e l He (mi & idx & p & k & H1 & H2 & Hf & Hs) _ IH]; intros m0 Hle.
  - constructor. by etrans.
  - econstructor; [by apply HE| |by apply IH].
    exists mi, idx, p, k. split_and!; try done. by etrans.
Qed.

Lemma emissions_app E m l m1 l' m2 :
  emissions E m l m1 -> emissions E m1 l' m2 -> emissions E m (l ++ l') m2.
Proof.
  induction 1 as [m m' Hm|event m m' m'' e l He Hem _ IH]; intros Hl; cbn.
  - by eapply emissions_weaken.
  - econstructor; [exact He | exact Hem|]. by apply IH.
Qed.

(** One piece of evidence, or none, just made from a fact of the event. *)
Lemma emissions_one event row_index payload kind o m m' :
  mapper_le m m' -> fact_of event row_index payload kind ->
  faithful event row_index payload kind o m' -> emissions (eq event) m (option_list o) m'.
Proof.
  intros Hle Hf. destruct o as [e|]; intros He; cbn; [|by constructor].
  apply (emissions_cons _ event _ m'); [done| |by constructor; reflexivity].
  exists m', row_index, payload, kind. by split_and!.
Qed.

Lemma map_event_ok event w :
  mapper_inv (mapper_of w) ->
  mapping (map_event event) (fun o m' => emissions (eq event) (mapper_of w) (option_list o) m') w.
Proof.
  intros Hi. unfold map_event. cbv zeta. apply mapping_guard; [done|]. intros Hty.
  apply bool_decide_eq_true in Hty.
  eapply mapping_mono; [apply map_payload_ok; [done|]|].
  { by destruct (bool_decide (qe_event_type event = "order")). }
  intros o m He Hi' Hle. eapply emissions_one; [done| |exact He].
  apply list_elem_of_In in Hty. destruct Hty as [Ht|[Ht|[]]]; rewrite <-Ht; by constructor.
Qed.

Lemma map_rows_ok event event_type kind i rows w :
  mapper_inv (mapper_of w) -> is_deal kind = negb (bool_decide (event_type = "order")) ->
  (forall j p, rows !! j = Some (JObj p) -> fact_of event (Some (i + Z.of_nat j)) p kind) ->
  mapping (map_rows event event_type kind i rows)
    (fun l m' => emissions (eq event) (mapper_of w) l m') w.
Proof.
  revert i w. induction rows as [|row rows IH]; intros i w Hi Hk Hrows; cbn [map_rows].
  { apply mapping_ret; [done|]. constructor. reflexivity. }
  eapply mapping_bind with (P := fun o m' => emissions (eq event) (mapper_of w) (option_list o) m').
  - destruct row as [| | | | |p|]; try (by apply rejected_ok; [done|]; intros m Hm; constructor).
    eapply mapping_mono; [by apply map_payload_ok|].
    intros o m He Hi' Hle. eapply emissions_one; [done| |exact He].
    replace i with (i + Z.of_nat 0) by lia. by apply Hrows.
  - intros o w1 Ho Hi1 Hle1. eapply mapping_bind; [apply IH; [done | done|]|].
    { intros j p Hj. replace (i + 1 + Z.of_nat j) with (i + Z.of_nat (S j)) by lia. by apply Hrows. }
    cbv beta. intros l w2 Hl Hi2 Hle2. apply mapping_ret; [done|].
    pose proof (emissions_app _ _ _ _ _ _ Ho Hl) as Happ. by destruct o.
Qed.

Lemma map_list_ok event event_type key kind w :
  mapper_inv (mapper_of w) -> is_deal kind = negb (bool_decide (event_type = "order")) ->
  (forall rows j p, jget key (qe_payload event) = JArr rows -> rows !! j = Some (JObj p) ->
     fact_of event (Some (Z.of_nat j)) p kind) ->
  mapping (map_list event event_type key kind)
    (fun l m' => emissions (eq event) (mapper_of w) l m') w.
Proof.
  intros Hi Hk Hrows. unfold map_list.
  destruct (jget key (qe_payload event)) as [| | | |rows| |] eqn:Er;
    try (eapply mapping_bind with (P := fun _ _ => True);
      [apply mapping_write; [by apply add_rejection_ok | done]
      | intros _ w' _ Hi' Hle; apply mapping_ret; [done|]; by constructor]).
  apply map_rows_ok; [done | done|]. intros j p Hj. by eapply Hrows.
Qed.

Lemma map_snapshot_ok event w :
  mapper_inv (mapper_of w) ->
  mapping (map_snapshot event)
    (fun b m' => emissions (eq event) (mapper_of w) (sb_evidence b) m') w.
Proof.
  intros Hi. unfold map_snapshot. apply mapping_guard; [done|]. intros _. apply mapping_read.
  eapply mapping_bind; [apply map_list_ok; [done | done|]; intros; by eapply order_row_of|].
  cbv beta. intros orders w1 Ho Hi1 _.
  eapply mapping_bind; [apply map_list_ok; [done | done|]; intros; by eapply deal_row_of|].
  cbv beta. intros deals w2 Hd Hi2 _. apply mapping_read, mapping_ret; [done|].
  cbn. by eapply emissions_app.
Qed.

Lemma register_order_ok client_order_id symbol quantity w :
  mapper_inv (mapper_of w) ->
  mapping (register_order client_order_id symbol quantity) (fun token m' =>
    exists r, gm_orders_by_token m' !! token = Some r /\ ro_client_order_id r = client_order_id /\
      ro_symbol r = symbol /\ ro_quantity r = quantity) w.
Proof.
  intros Hi. unfold register_order. apply mapping_guard; [done|]. intros Hc.
  apply mapping_guard; [done|]. intros Hq. apply mapping_guard; [done|]. intros _. apply mapping_read.
  apply mapping_lift; [done| |].
  { intros e. unfold broker_token_for, validate_account_fingerprint. rewrite (mi_account _ Hi). cbn.
    rewrite Hc. discriminate. }
  intros token Ht. destruct (gm_orders_by_token _ !! token) as [r|] eqn:Er.
  - apply mapping_guard; [done|]. intros Heq. apply mapping_ret; [done|]. exists r. bool_to_prop.
    by split_and!.
  - eapply mapping_bind with (P := fun _ m' => exists r, gm_orders_by_token m' !! token = Some r /\
      ro_client_order_id r = client_order_id /\ ro_symbol r = symbol /\ ro_quantity r = quantity).
    + apply mapping_write; [|eexists; split; [apply lookup_insert_eq | done]].
      apply Z.ltb_lt in Hq. by apply insert_fresh_ok.
    + intros _ w' Hr Hi' _. by apply mapping_ret.
Qed.

(** ** A history of a mapper *)

Inductive mapper_op :=
  | Register (client_order_id symbol : string) (quantity : Z)
  | Callback (event : QmtEvent)
  | Snapshot (event : QmtEvent).

Definition map_op (op : mapper_op) : M R (list BrokerEvidenceV1) :=
  match op with
  | Register client_order_id symbol quantity =>
      do! register_order client_order_id symbol quantity ;; retM []
  | Callback event => o <- map_event event ;; retM (option_list o)
  | Snapshot event => b <- map_snapshot event ;; retM (sb_evidence b)
  end.

(** The evidence of a history, in order; a call that raised made none. *)
Fixpoint map_history (ops : list mapper_op) (w : world R) : list BrokerEvidenceV1 * world R :=
  match ops with
  | [] => ([], w)
  | op :: ops =>
      let r := map_op op w in
      let l := match r.1 with Ok l => l | Err _ => [] end in
      let h := map_history ops r.2 in (l ++ h.1, h.2)
  end.

Definition event_in (ops : list mapper_op) (event : QmtEvent) : Prop :=
  Callback event ∈ ops \/ Snapshot event ∈ ops.

Lemma map_op_ok op w :
  mapper_inv (mapper_of w) ->
  mapping (map_op op) (fun l m' => emissions (event_in [op]) (mapper_of w) l m') w.
Proof.
  intros Hi. destruct op as [c s q|event|event]; cbn [map_op].
  - eapply mapping_bind; [by apply register_order_ok|]. cbv beta. intros t w' _ Hi' Hle.
    apply mapping_ret; [done|]. by constructor.
  - eapply mapping_bind; [by apply map_event_ok|]. cbv beta. intros o w' Ho Hi' Hle.
    apply mapping_ret; [done|]. eapply emissions_weaken; [|reflexivity | exact Ho].
    intros e <-. left. by apply list_elem_of_singleton.
  - eapply mapping_bind; [by apply map_snapshot_ok|]. cbv beta. intros o w' Ho Hi' Hle.
    apply mapping_ret; [done|]. eapply emissions_weaken; [|reflexivity | exact Ho].
    intros e <-. right. by apply list_elem_of_singleton.
Qed.

Lemma map_history_ok ops w :
  mapper_inv (mapper_of w) ->
  let '(l, w') := map_history ops w in
  w_db w' = w_db w /\ mapper_inv (mapper_of w') /\
  emissions (event_in ops) (mapper_of w) l (mapper_of w').
Proof.
  revert w. induction ops as [|op ops IH]; intros w Hi; cbn [map_history].
  { split_and!; [done | done|]. constructor. reflexivity. }
  pose proof (map_op_ok op w Hi) as Hop. unfold mapping, wp in Hop.
  destruct (map_op op w) as [r w1]. cbn [fst snd] in *. destruct Hop as (Hd & _ & Hi1 & Hle & Hl).
  specialize (IH w1 Hi1). destruct (map_history ops w1) as [h w2]. cbn [fst snd].
  destruct IH as (Hd2 & Hi2 & Hh). split_and!; [congruence | done|].
  eapply emissions_app; [|eapply emissions_weaken; [|reflexivity | exact Hh]].
  - destruct r as [l|e]; [|by constructor].
    eapply emissions_weaken; [|reflexivity | exact Hl].
    intros ev [Hev|Hev]; apply list_elem_of_singleton in Hev as <-; [left | right]; by left.
  - intros ev [Hev|Hev]; [left | right]; by right.
Qed.

(** What was said of an order stays true of it. *)
Lemma about_keeps t r m m' e :
  about t r m e -> mapper_le m m' -> exists r', about t r' m' e /\ same_order r r'.
Proof.
  intros (Ht & Hr & Hc & Ha & Hb & Hq & Hd) [Hacc _ Hord _ Htr _].
  destruct (Hord _ _ Hr) as (r' & Hr' & Hs). exists r'. split; [|done].
  destruct Hs as (Hsc & _ & _ & Hsq & Hsb). unfold about.
  split_and!; [done | done | congruence | congruence | by eauto | lia|].
  intros Hk. specialize (Hd Hk). specialize (Htr t). lia.
Qed.

Lemma emissions_later E m l m' e :
  emissions E m l m' -> e ∈ l ->
  exists event m1, E event /\ emitted event m m1 e /\ mapper_le m1 m'.
Proof.
  induction 1 as [m m' Hm|event m m1 m2 e' l He Hem Hl IH]; intros Hin; [by apply not_elem_of_nil in Hin|].
  assert (Hle : mapper_le m1 m2).
  { clear -Hl. induction Hl as [m m' Hm|event m m1 m2 e l He (m0 & _ & _ & _ & H1 & H2 & _) _ IH]; [done|].
    etrans; [exact H1|]. etrans; [exact H2 | exact IH]. }
  apply elem_of_cons in Hin as [->|Hin]; [by exists event, m1|].
  destruct (IH Hin) as (event' & m3 & He' & (m0 & idx & p & k & H1 & H2 & Hf & Hs) & Hle').
  exists event', m3. split_and!; [done | | done]. exists m0, idx, p, k. split_and!; try done.
  destruct Hem as (m4 & _ & _ & _ & H3 & H4 & _). etrans; [exact H3|]. by etrans.
Qed.

(** Two pieces of evidence of one token, one made before the other. *)
Definition agrees (e f : BrokerEvidenceV1) : Prop :=
  ev_broker_token e = ev_broker_token f ->
  ev_client_order_id e = ev_client_order_id f /\
  (forall b c, ev_broker_order_id e = Some b -> ev_broker_order_id f = Some c -> b = c) /\
  (is_deal (ev_source_kind e) = true -> is_deal (ev_source_kind f) = true ->
   ev_filled_quantity e <= ev_filled_quantity f).

Lemma emissions_agree E m l m' i j e f :
  emissions E m l m' -> (i < j)%nat -> l !! i = Some e -> l !! j = Some f -> agrees e f.
Proof.
  intros Hem. revert i j. induction Hem as [m m' Hm|event m m1 m2 e' l He Hem Hl IH]; intros i j Hij Hi Hj;
    [done|].
  destruct j as [|j]; [lia|]. destruct i as [|i]; cbn in Hi, Hj; [|eapply (IH i j); [lia | done | done]].
  injection Hi as ->. apply list_elem_of_lookup_2 in Hj.
  destruct (emissions_later _ _ _ _ _ Hl Hj) as (event' & m3 & _ & Hf & _).
  destruct Hem as (n & idx & p & k & _ & Hn & _ & Hse). destruct Hf as (n' & idx' & p' & k' & Hn' & _ & _ & Hsf).
  destruct Hse as (_ & _ & _ & _ & _ & _ & t & r & _ & Hab & _).
  destruct Hsf as (_ & _ & _ & Hk' & _ & _ & t' & r' & _ & Hab' & Hdeal).
  assert (Hle : mapper_le n n') by (by etrans).
  destruct (about_keeps _ _ _ _ _ Hab Hle) as (r2 & (Ht & Hr & Hc & _ & Hb & _ & Hq) & _).
  destruct Hab' as (Ht' & Hr' & Hc' & _ & Hb' & _). intros Heq.
  assert (t' = t) as -> by congruence. assert (r' = r2) as -> by congruence.
  split; [congruence|]. split.
  - intros b c H1%Hb H2%Hb'. congruence.
  - intros He' Hf'. specialize (Hq He'). rewrite <-Hk', Hf' in Hdeal. destruct Hdeal as (_ & Hfill & _). lia.
Qed.

(** C40. The mapper is true to the terminal.  Whatever orders are registered and
    whatever events are mapped, in any order: no more is recorded as traded than
    an order asks for; every piece of evidence is of an enabled profile, valid,
    and says what one fact of an event says of the order registered under the
    fact's token; and two pieces of evidence of one token name the same order and
    broker order, and report cumulative trades that never shrink. *)
Theorem mapper_faithful account profile ops w :
  mapper_init account profile = Ok (mapper_of w) ->
  let '(l, w') := map_history ops w in
  w_db w' = w_db w /\ mapper_inv (mapper_of w') /\
  (forall e, e ∈ l -> mp_evidence_enabled profile = true /\
     exists event m1 m2, event_in ops event /\ emitted event m1 m2 e) /\
  (forall i j e f, (i < j)%nat -> l !! i = Some e -> l !! j = Some f -> agrees e f).
Proof.
  unfold mapper_init. intros Hm. apply res_bind_ok in Hm as ([] & Ha%guard_r_ok & [= Hm]).
  assert (Hi : mapper_inv (mapper_of w)) by (rewrite <-Hm; by split).
  pose proof (map_history_ok ops w Hi) as Hh. destruct (map_history ops w) as [l w'].
  destruct Hh as (Hd & Hi' & Hl). split_and!; [done | done | |].
  - intros e He. destruct (emissions_later _ _ _ _ _ Hl He) as (event & m1 & Hev & Hem & _).
    split; [|by exists event, (mapper_of w), m1].
    destruct Hem as (n & idx & p & k & Hle & _ & _ & _ & Hen & _).
    rewrite (le_profile _ _ Hle), <-Hm in Hen. exact Hen.
  - intros i j e f. by apply (emissions_agree _ _ _ _ _ _ _ _ Hl).
Qed.
End Mapping.

(** ** One order: accepted, traded twice, and seen in a snapshot *)

Definition demo_account : string := oi_account_fingerprint demo_intent.
Definition demo_token : string := token_of demo_account "cid-1".
Definition demo_route : jdict :=
  [("route_account_type", JStr "STOCK"); ("route_account_fingerprint", JStr demo_account)].

Definition demo_fact_event (sequence : Z) (ty source : string) (payload : jdict) : QmtEvent :=
  {| qe_protocol_version := "0.2"; qe_session_id := "s-1"; qe_sequence := sequence;
     qe_timestamp_ms := 1750000000000; qe_event_type := ty; qe_source := source;
     qe_account_fingerprint := demo_account; qe_account_type := Some "STOCK"; qe_payload := payload;
     qe_terminal_instance_id := Some "guojin_sim" |}.

Definition demo_order (status : Z) : jdict :=
  [("remark", JStr demo_token); ("symbol", JStr "600000.SH"); ("status_code", JInt status);
   ("submit_status_code", JInt 51); ("original_quantity", JInt 100); ("filled_quantity", JInt 0);
   ("remaining_quantity", JInt 100); ("broker_order_id", JStr "B-1")].

Definition demo_deal (trade : string) (quantity : Z) : jdict :=
  [("remark", JStr demo_token); ("symbol", JStr "600000.SH"); ("broker_order_id", JStr "B-1");
   ("trade_id", JStr trade); ("quantity", JInt quantity)].

Definition demo_mapper (profile : GuojinMapperProfile) : world mapper :=
  W empty_db false 0
    match mapper_init demo_account profile with
    | Ok m => m
    | Err _ => {| gm_account_fingerprint := ""; gm_profile := profile; gm_orders_by_token := ∅;
                  gm_trades := ∅; gm_rejections := [] |}
    end.

Definition demo_deals : QmtEvent :=
  demo_fact_event 5 "snapshot" "active_query"
    [("orders", JArr []); ("deals", JArr [JObj (demo_deal "T-1" 40 ++ demo_route); JObj (demo_deal "T-2" 60 ++ demo_route)])].

Definition demo_ops : list mapper_op :=
  [Register "cid-1" "600000.SH" 100; Callback (demo_fact_event 2 "order" "callback" (demo_order 50));
   Callback (demo_fact_event 3 "deal" "callback" (demo_deal "T-1" 40));
   Callback (demo_fact_event 4 "deal" "callback" (demo_deal "T-2" 60)); Snapshot demo_deals].

Definition evidence_seen (profile : GuojinMapperProfile) (ops : list mapper_op) : list (string * string * Z) :=
  List.map (fun e => (ev_source_event_id e, evidence_type_str (ev_type e), ev_filled_quantity e))
    (map_history ops (demo_mapper profile)).1.

(** A mapper that is started again and only sees the snapshot makes another
    evidence of its first row, under the same event id. *)
Example snapshot_after_restart :
  evidence_seen GUOJIN_SIM_PROFILE [Register "cid-1" "600000.SH" 100; Snapshot demo_deals] =
    [("s-1:5/deal/0", "PARTIAL_FILL", 40); ("s-1:5/deal/1", "FULL_FILL", 100)] /\
  evidence_seen GUOJIN_PRODUCTION_PROFILE demo_ops = [].
Proof. vm_compute. auto. Qed.

Lemma mapper_faithful_witness :
  evidence_seen GUOJIN_SIM_PROFILE demo_ops =
    [("s-1:2", "ORDER_ACCEPTED", 0); ("s-1:3", "PARTIAL_FILL", 40); ("s-1:4", "FULL_FILL", 100);
     ("s-1:5/deal/0", "FULL_FILL", 100); ("s-1:5/deal/1", "FULL_FILL", 100)] /\
  mapper_inv (mapper_of (map_history demo_ops (demo_mapper GUOJIN_SIM_PROFILE)).2).
Proof.
  split; [vm_compute; reflexivity|].
  assert (Hm : mapper_init demo_account GUOJIN_SIM_PROFILE = Ok (mapper_of (demo_mapper GUOJIN_SIM_PROFILE)))
    by (vm_compute; reflexivity).
  pose proof (mapper_faithful demo_account GUOJIN_SIM_PROFILE demo_ops (demo_mapper GUOJIN_SIM_PROFILE) Hm) as H.
  revert H. destruct (map_history demo_ops (demo_mapper GUOJIN_SIM_PROFILE)) as [l w'].
  intros (_ & Hi & _). exact Hi.
Defined.
