(* ===== verification/DurableIdentity.v ===== *)
(** * DurableIdentity: joining an issued submit to the Core

    [register_qmt_durable_submit] of qmt/durable_identity.py: the order of a
    submit command that the terminal took is known to the database as RECONCILING,
    its submit call started, whatever the terminal answers later. *)

From S2P Require Import Prelude Json Domain Decimal Db Repository OrderStore.
Open Scope Z_scope.
Open Scope oms_scope.

(** The keyword arguments; [candidate] of the runtime. *)
Record durable_submit := {
  du_command_id : string; du_account_fingerprint : string; du_qmt_session_id : string;
  du_client_order_id : string; du_broker_token : string; du_symbol : string; du_side : string;
  du_quantity : Z; du_limit_price : string; du_command_state : string; du_command_digest : string;
  du_created_ms : Z; du_expires_ms : Z
}.

#[global] Instance durable_submit_eq_dec : EqDecision durable_submit.
Proof. solve_decision. Defined.

Definition du_key (c : durable_submit) : okey := (du_account_fingerprint c, du_client_order_id c).

(** The row of an identity, and the identity of a row. *)
Definition identity_row_of (c : durable_submit) (imported_at : datetime) : identity_row :=
  {| qi_account_fingerprint := du_account_fingerprint c; qi_qmt_session_id := du_qmt_session_id c;
     qi_client_order_id := du_client_order_id c; qi_broker_token := du_broker_token c;
     qi_symbol := du_symbol c; qi_side := du_side c; qi_quantity := du_quantity c;
     qi_limit_price := du_limit_price c; qi_command_state := du_command_state c;
     qi_command_digest := du_command_digest c; qi_created_ms := du_created_ms c;
     qi_expires_ms := du_expires_ms c; qi_imported_at := imported_at |}.

Definition stored_identity (p : string * identity_row) : durable_submit :=
  {| du_command_id := p.1; du_account_fingerprint := qi_account_fingerprint p.2;
     du_qmt_session_id := qi_qmt_session_id p.2; du_client_order_id := qi_client_order_id p.2;
     du_broker_token := qi_broker_token p.2; du_symbol := qi_symbol p.2; du_side := qi_side p.2;
     du_quantity := qi_quantity p.2; du_limit_price := qi_limit_price p.2;
     du_command_state := qi_command_state p.2; du_command_digest := qi_command_digest p.2;
     du_created_ms := qi_created_ms p.2; du_expires_ms := qi_expires_ms p.2 |}.

Definition with_state (s : string) (c : durable_submit) : durable_submit :=
  {| du_command_id := du_command_id c; du_account_fingerprint := du_account_fingerprint c;
     du_qmt_session_id := du_qmt_session_id c; du_client_order_id := du_client_order_id c;
     du_broker_token := du_broker_token c; du_symbol := du_symbol c; du_side := du_side c;
     du_quantity := du_quantity c; du_limit_price := du_limit_price c; du_command_state := s;
     du_command_digest := du_command_digest c; du_created_ms := du_created_ms c;
     du_expires_ms := du_expires_ms c |}.

Definition identities_of (d : db) : table string identity_row := qm_identities (d_qmt d).

(** The row that shares the command, the order or the token. *)
Definition shares (c : durable_submit) (p : string * identity_row) : bool :=
  bool_decide (p.1 = du_command_id c) ||
  bool_decide ((qi_account_fingerprint p.2, qi_client_order_id p.2) = du_key c) ||
  bool_decide ((qi_account_fingerprint p.2, qi_broker_token p.2)
               = (du_account_fingerprint c, du_broker_token c)).

Definition find_shared (c : durable_submit) (d : db) : option (string * identity_row) :=
  List.find (shares c) (tbl_scan (identities_of d)).

Definition set_state (s : string) (r : identity_row) : identity_row :=
  {| qi_account_fingerprint := qi_account_fingerprint r; qi_qmt_session_id := qi_qmt_session_id r;
     qi_client_order_id := qi_client_order_id r; qi_broker_token := qi_broker_token r;
     qi_symbol := qi_symbol r; qi_side := qi_side r; qi_quantity := qi_quantity r;
     qi_limit_price := qi_limit_price r; qi_command_state := s;
     qi_command_digest := qi_command_digest r; qi_created_ms := qi_created_ms r;
     qi_expires_ms := qi_expires_ms r; qi_imported_at := qi_imported_at r |}.

(** [datetime.fromtimestamp(ms / 1000.0, tz=utc)], exact until 2242; a year past
    9999 is refused. *)
Definition from_ms {R} (ms : Z) : M R datetime :=
  if ms <? 253402300800000 then retM (DT (ms * 1000) (Some 0))
  else raiseM ValueError "year is out of range".

Section Register.
Context {R : Type} {env : Env} (write_guard : option (M R unit)).

(** The constraints of [qmt_durable_command_identities]. *)
Definition insert_identity (c : durable_submit) : M R unit :=
  imported_at <- utc_now ;;
  let row := identity_row_of c imported_at in
  ok <- read_db (fun d =>
    bool_decide (du_side c ∈ ["BUY"; "SELL"]) && (0 <? du_quantity c) && (du_quantity c <=? 100) &&
    bool_decide (du_command_state c ∈ ["processed"; "unknown"]) &&
    forallb (fun p => negb (shares c p)) (tbl_scan (identities_of d)) &&
    bool_decide (is_Some (tbl_get (d_intents d) (du_key c)))) ;;
  do! guardM ok SqliteIntegrityError "constraint failed: qmt_durable_command_identities" ;;
  ins <- read_db (fun d => tbl_insert (du_command_id c) row (identities_of d)) ;;
  match ins with
  | Some x => write_db (set_identities x)
  | None => raiseM SqliteIntegrityError "UNIQUE constraint failed: command_id"
  end.

(** An order the Core itself dispatched. *)
Definition link_existing (c : durable_submit) : M R unit :=
  do! insert_identity c ;;
  current <- get_status_in_tx (du_key c) ;;
  insert_event (du_key c) "QMT_DURABLE_SUBMIT_LINKED_TO_OMS_DISPATCH" (Some current) current APPLIED
    [("command_id", JStr (du_command_id c)); ("qmt_session_id", JStr (du_qmt_session_id c));
     ("command_state", JStr (du_command_state c)); ("broker_token", JStr (du_broker_token c))].

Definition imported_intent (c : durable_submit) (created_at expires_at : datetime) : intent_row :=
  {| i_strategy_id := "qmt-guojin-sim-import"; i_strategy_version := "1"; i_symbol := du_symbol c;
     i_side := du_side c; i_order_type := "LIMIT"; i_quantity := du_quantity c;
     i_limit_price := du_limit_price c; i_created_at := created_at; i_expires_at := expires_at;
     i_signal_id := du_command_id c; i_reason_code := "DURABLE_QMT_COMMAND_RECOVERY" |}.

Definition imported_order (t : datetime) : order_row :=
  {| o_status := RECONCILING; o_broker_order_id := None; o_filled_quantity := 0;
     o_submit_call_started := true; o_cancel_call_started := false;
     o_cancel_outcome_resolved := false; o_updated_at := t |}.

(** An order only the terminal knows of. *)
Definition import_order (c : durable_submit) : M R unit :=
  created_at <- from_ms (du_created_ms c) ;;
  expires_at <- from_ms (du_expires_ms c) ;;
  ins <- read_db (fun d =>
    if 0 <? du_quantity c
    then tbl_insert (du_key c) (imported_intent c created_at expires_at) (d_intents d) else None) ;;
  do! match ins with
      | Some x => write_db (set_intents x)
      | None => raiseM SqliteIntegrityError "constraint failed: order_intents"
      end ;;
  t <- utc_now ;;
  ins <- read_db (fun d => tbl_insert (du_key c) (imported_order t) (d_orders d)) ;;
  do! match ins with
      | Some x => write_db (set_orders x)
      | None => raiseM SqliteIntegrityError "UNIQUE constraint failed"
      end ;;
  do! insert_identity c ;;
  insert_event (du_key c) "QMT_DURABLE_SUBMIT_REGISTERED" None RECONCILING APPLIED
    [("command_id", JStr (du_command_id c)); ("qmt_session_id", JStr (du_qmt_session_id c));
     ("command_state", JStr (du_command_state c)); ("broker_token", JStr (du_broker_token c));
     ("submit_call_started", JBool true)].

(** [register_qmt_durable_submit]. *)
Definition register_qmt_durable_submit (c : durable_submit) (allow_existing_order_from_dispatch : bool)
    : M R bool :=
  transaction (
    do! guard_write_in_tx write_guard ;;
    row <- read_db (find_shared c) ;;
    match row with
    | Some row =>
        let stored := stored_identity row in
        if bool_decide (with_state (du_command_state c) stored = c) &&
           bool_decide (du_command_state stored = "unknown") &&
           bool_decide (du_command_state c = "processed") then
          do! write_db (fun d =>
                set_identities (tbl_update (du_command_id c) (set_state "processed") (identities_of d)) d) ;;
          retM false
        else
          do! guardM (bool_decide (stored = c)) QmtDurableIdentityConflict
                "conflicting durable QMT command identity" ;;
          retM false
    | None =>
        existing_order <- read_db (fun d => bool_decide (is_Some (tbl_get (d_intents d) (du_key c)))) ;;
        if existing_order then
          do! guardM allow_existing_order_from_dispatch QmtDurableIdentityConflict
                "OMS order exists without matching durable QMT identity" ;;
          do! link_existing c ;;
          retM true
        else
          do! import_order c ;;
          retM true
    end).
End Register.
