(* ===== verification/SimOms.v ===== *)
(** * SimOms: the Host's writer of the pinned simulator

    [GuojinSimOmsRuntime] of qmt/guojin_sim_oms.py.  Every submit and cancel is a
    plan committed with its reservation before its frame is published; after a
    failure the plan says what is still to be done, and publishing under the
    plan's deterministic command id is safe to repeat.  A row read by a SELECT
    without ORDER BY is in insertion order. *)

From stdpp Require Import sorting.
From S2P Require Import Prelude PyTime Json Domain Decimal Db Leader Repository OrderStore BrokerEvidence Evidence Service Parts Wire Commands CommandResults GuojinEvidence DurableIdentity.
Open Scope Z_scope.
Open Scope oms_scope.

(** [QmtInstance] of qmt/instances.py; its directory is the file store. *)
Record QmtInstance := {
  qn_instance_id : string; qn_session_id : string; qn_account_fingerprint : string;
  qn_account_type : string; qn_bridge_build : string; qn_created_ms : Z;
  qn_execution_mode : string; qn_trading_enabled : bool; qn_live_submit : bool;
  qn_live_cancel : bool; qn_simulation_only : bool
}.

Definition AUTHORIZED_GUOJIN_SIM_FINGERPRINT : string :=
  "sha256:ff266d673e28fbba5da4bfe2c68975f75b6a9fb5b89014503409b2b014ce0702".
Definition AUTHORIZED_GUOJIN_SIM_BUILD : string := "p5-simulation-calibration-8".

(** [guojin_sim_oms_authorized]. *)
Definition guojin_sim_oms_authorized (instance : option QmtInstance) (allow_simulation_mutation : bool)
    : bool :=
  match instance with
  | None => false
  | Some i =>
      allow_simulation_mutation && bool_decide (qn_instance_id i = "guojin_sim") &&
      bool_decide (qn_execution_mode i = "SIMULATION_CALIBRATION") && qn_simulation_only i &&
      qn_trading_enabled i && qn_live_submit i && qn_live_cancel i &&
      bool_decide (qn_account_type i = "STOCK") &&
      bool_decide (qn_account_fingerprint i = AUTHORIZED_GUOJIN_SIM_FINGERPRINT) &&
      bool_decide (qn_bridge_build i = AUTHORIZED_GUOJIN_SIM_BUILD) && str_nonempty (qn_session_id i)
  end.

Record GuojinSimExecutionResult := {
  gr_status : OrderStatus; gr_command_id : option string; gr_dispatched : bool;
  gr_authorization : option RiskDecision; gr_terminal_noop : bool
}.

Definition execution_result s id dispatched auth noop :=
  {| gr_status := s; gr_command_id := id; gr_dispatched := dispatched;
     gr_authorization := auth; gr_terminal_noop := noop |}.

(** ["\0".join(parts)]. *)
Fixpoint join_nul (parts : list string) : string :=
  match parts with
  | [] => ""
  | [p] => p
  | p :: parts => p +:+ nul +:+ join_nul parts
  end.

Definition deterministic_command_id (parts : list string) : string :=
  "simoms-" +:+ String.substring 0 48 (Sha256.hexdigest (utf8 (join_nul parts))).

(** The runtime's own state; the mapper and the command files are parts of their own. *)
Record sim := {
  sm_instance : QmtInstance; sm_lease : LeaderLease; sm_closed : bool; sm_last_heartbeat : Z
}.

Definition set_sim_lease (l : LeaderLease) (t : Z) (s : sim) : sim :=
  {| sm_instance := sm_instance s; sm_lease := l; sm_closed := sm_closed s; sm_last_heartbeat := t |}.
Definition set_sim_closed (s : sim) : sim :=
  {| sm_instance := sm_instance s; sm_lease := sm_lease s; sm_closed := true;
     sm_last_heartbeat := sm_last_heartbeat s |}.

Definition lease_seconds : Z := 30.

Abbreviation dispatch := (string * dispatch_row)%type.

Definition dispatches_of (d : db) : table string dispatch_row := qm_dispatches (d_qmt d).

Definition digest_of (raw : list Z) : string := "sha256:" +:+ Sha256.hexdigest raw.

(** [command.payload.get(key)]. *)
Definition payload_get (key : string) (c : QmtCommand) : json :=
  match qc_payload c with JObj p => jget key p | _ => JNull end.

Definition set_dispatch (state : string) (published_at : option datetime) (r : dispatch_row) : dispatch_row :=
  {| qd_account_fingerprint := qd_account_fingerprint r; qd_client_order_id := qd_client_order_id r;
     qd_command_type := qd_command_type r; qd_qmt_session_id := qd_qmt_session_id r;
     qd_broker_token := qd_broker_token r; qd_broker_order_id := qd_broker_order_id r;
     qd_frame_digest := qd_frame_digest r; qd_frame_blob := qd_frame_blob r;
     qd_dispatch_state := state; qd_created_ms := qd_created_ms r; qd_expires_ms := qd_expires_ms r;
     qd_published_at := published_at |}.

(** [ORDER BY created_ms, command_id]. *)
Definition dispatch_leb (a b : dispatch) : bool :=
  if qd_created_ms a.2 =? qd_created_ms b.2 then String.leb a.1 b.1
  else qd_created_ms a.2 <? qd_created_ms b.2.

Definition sort_dispatches (l : list dispatch) : list dispatch :=
  merge_sort (fun a b => Is_true (dispatch_leb a b)) l.

(** What the state directory of a file says of its dispatch. *)
Definition observed_state (d : CommandDir) : string :=
  match d with
  | CInbox => "PUBLISHED" | CClaimed => "OBSERVED_CLAIMED" | CProcessed => "OBSERVED_PROCESSED"
  | CRejected => "OBSERVED_REJECTED" | CUnknown => "UNKNOWN"
  end.

(** [_build_submit_command]. *)
Definition build_submit_command (i : QmtInstance) (intent : OrderIntent) : res QmtCommand :=
  let account := qn_account_fingerprint i in
  (token <- broker_token_for (JStr account) (JStr (oi_client_order_id intent)) ;;
   Ok {| qc_command_id := JStr (deterministic_command_id
           ["submit"; account; qn_session_id i; oi_client_order_id intent]);
         qc_created_ms := JInt (timestamp_ms (oi_created_at intent));
         qc_expires_ms := JInt (timestamp_ms (oi_expires_at intent));
         qc_account_fingerprint := JStr account; qc_command_type := SUBMIT_LIMIT;
         qc_client_order_id := JStr (oi_client_order_id intent); qc_broker_token := JStr token;
         qc_payload := JObj
           [("symbol", JStr (oi_symbol intent)); ("side", JStr (side_str (oi_side intent)));
            ("quantity", JInt (oi_quantity intent));
            ("limit_price", JStr (Dec.to_str (oi_limit_price intent)));
            ("simulation_calibration", JBool true);
            ("expected_qmt_session_id", JStr (qn_session_id i))] |})%py.

(** [_build_cancel_command], at [now_ms]. *)
Definition build_cancel_command (i : QmtInstance) (client_order_id broker_order_id : string) (now_ms : Z)
    : res QmtCommand :=
  let account := qn_account_fingerprint i in
  (token <- broker_token_for (JStr account) (JStr client_order_id) ;;
   Ok {| qc_command_id := JStr (deterministic_command_id
           ["cancel"; account; qn_session_id i; client_order_id; broker_order_id]);
         qc_created_ms := JInt now_ms; qc_expires_ms := JInt (now_ms + 30000);
         qc_account_fingerprint := JStr account; qc_command_type := CANCEL_ORDER;
         qc_client_order_id := JStr client_order_id; qc_broker_token := JStr token;
         qc_payload := JObj
           [("broker_order_id", JStr broker_order_id); ("simulation_calibration", JBool true);
            ("expected_qmt_session_id", JStr (qn_session_id i))] |})%py.

(** The order a command is about. *)
Definition command_key (c : QmtCommand) : okey :=
  (text (qc_account_fingerprint c), text (qc_client_order_id c)).

(** The row of a plan. *)
Definition planned_row (session_id : string) (c : QmtCommand) (broker_order_id : option string)
    (raw : list Z) (digest : string) : dispatch_row :=
  {| qd_account_fingerprint := text (qc_account_fingerprint c);
     qd_client_order_id := text (qc_client_order_id c);
     qd_command_type := command_type_str (qc_command_type c); qd_qmt_session_id := session_id;
     qd_broker_token := text (qc_broker_token c); qd_broker_order_id := broker_order_id;
     qd_frame_digest := digest; qd_frame_blob := raw; qd_dispatch_state := "PLANNED";
     qd_created_ms := whole (qc_created_ms c); qd_expires_ms := whole (qc_expires_ms c);
     qd_published_at := None |}.

(** The constraint [UNIQUE(account_fingerprint, client_order_id, command_type)]. *)
Definition dispatch_key (r : dispatch_row) : string * string * string :=
  (qd_account_fingerprint r, qd_client_order_id r, qd_command_type r).

Section Runtime.
Context {R : Type} {sim_part : Part sim R} {spool_part : Part spool R} {mapper_part : Part mapper R}.
Context {env : Env} {fenv : FileEnv}.
Implicit Types (w : world R).

Definition the_sim : M R sim := read_part (fun s : sim => s).
Definition the_instance : M R QmtInstance := read_part sm_instance.

(** [assert_leader], which is also the guard of the repository. *)
Definition assert_leader : M R unit :=
  s <- the_sim ;;
  do! guardM (negb (sm_closed s)) RuntimeError "guojin_sim OMS runtime is closed" ;;
  assert_held (sm_lease s) None.

Definition sim_guard : option (M R unit) := Some assert_leader.

(** [time.monotonic()]: the clock, in microseconds. *)
Definition monotonic : M R Z := t <- clock_now ;; retM (instant t).

(** [maintain]. *)
Definition maintain : M R unit :=
  s <- the_sim ;;
  t <- monotonic ;;
  if 10000000 <=? t - sm_last_heartbeat s then
    lease <- heartbeat (sm_lease s) lease_seconds None ;;
    t <- monotonic ;;
    write_part (set_sim_lease lease t)
  else retM tt.

(** [_dispatch_for_order]. *)
Definition dispatch_for_order (client_order_id command_type : string) : M R (option dispatch) :=
  i <- the_instance ;;
  read_db (fun d => List.find (fun p =>
    bool_decide (dispatch_key p.2 = (qn_account_fingerprint i, client_order_id, command_type)))
    (tbl_scan (dispatches_of d))).

(** [_mark_invariant_manual_review]. *)
Definition mark_invariant_manual_review (client_order_id event_type reason : string)
    (command_id : option string) (cancel_outcome_resolved : option bool) : M R unit :=
  i <- the_instance ;;
  transaction (
    mark_manual_review_in_tx sim_guard (qn_account_fingerprint i, client_order_id) event_type reason
      (match command_id with Some c => [("command_id", JStr c)] | None => [] end)
      cancel_outcome_resolved).

(** Updating the state of a dispatch. *)
Definition update_dispatch (command_id : string) (f : dispatch_row -> dispatch_row) : M R unit :=
  write_db (fun d => set_dispatches (tbl_update command_id f (dispatches_of d)) d).

(** [_fail_dispatch_manual_review]. *)
Definition fail_dispatch_manual_review (row : dispatch) (command : QmtCommand)
    (event_type reason : string) : M R unit :=
  transaction (
    do! guard_write_in_tx sim_guard ;;
    do! update_dispatch (text (qc_command_id command))
          (fun r => set_dispatch "MANUAL_REVIEW" (qd_published_at r) r) ;;
    mark_manual_review_in_tx sim_guard (command_key command) event_type reason
      [("command_id", qc_command_id command); ("dispatch_state", JStr (qd_dispatch_state row.2))]
      (if bool_decide (qc_command_type command = CANCEL_ORDER) then Some true else None)).

(** [_set_dispatch_state]. *)
Definition set_dispatch_state (command_id state : string) : M R unit :=
  transaction (
    do! guard_write_in_tx sim_guard ;;
    t <- utc_now ;;
    update_dispatch command_id (fun r =>
      set_dispatch state (if bool_decide (state = "PUBLISHED") then Some t else qd_published_at r) r)).

(** [_begin_reconciliation]. *)
Definition begin_reconciliation (command : QmtCommand) : M R unit :=
  let k := command_key command in
  let evidence := [("command_id", qc_command_id command); ("broker_evidence", JBool false)] in
  current <- get_status k ;;
  current <- (if status_in current [SUBMITTING; CANCEL_PENDING] then
                do! transition_order sim_guard k UNKNOWN "QMT_COMMAND_PUBLISHED_LIFECYCLE_UNKNOWN"
                      evidence None None None ;;
                retM UNKNOWN
              else retM current) ;;
  if bool_decide (current = UNKNOWN) then
    do! transition_order sim_guard k RECONCILING "QMT_COMMAND_RECONCILIATION_BEGIN"
          evidence None None None ;;
    retM tt
  else retM tt.

(** The row and its frame still say the same thing. *)
Definition dispatch_matches (i : QmtInstance) (row : dispatch) (raw : list Z) (command : QmtCommand) : bool :=
  bool_decide (qd_account_fingerprint row.2 = qn_account_fingerprint i) &&
  is_str (qn_account_fingerprint i) (qc_account_fingerprint command) &&
  is_str (qd_client_order_id row.2) (qc_client_order_id command) &&
  is_str row.1 (qc_command_id command) &&
  bool_decide (qd_command_type row.2 = command_type_str (qc_command_type command)) &&
  bool_decide (qd_qmt_session_id row.2 = qn_session_id i) &&
  is_str (qn_session_id i) (payload_get "expected_qmt_session_id" command) &&
  bool_decide (qd_frame_digest row.2 = digest_of raw).

(** [_recover_dispatch]. *)
Definition recover_dispatch (row : dispatch) : M R unit :=
  do! assert_leader ;;
  let raw := qd_frame_blob row.2 in
  command <- lift (decode_command_frame raw) ;;
  i <- the_instance ;;
  do! guardM (dispatch_matches i row raw command) QmtDurableIdentityConflict
        "dispatch identity changed during recovery" ;;
  let command_id := text (qc_command_id command) in
  fs <- read_part (fun fs : spool => fs) ;;
  located <- lift (locate command_id fs) ;;
  let state := qd_dispatch_state row.2 in
  match located with
  | None =>
      if bool_decide (state = "PLANNED") then
        now_ms <- time_ms ;;
        if whole (qc_expires_ms command) <=? now_ms then
          fail_dispatch_manual_review row command "QMT_DISPATCH_EXPIRED_BEFORE_PUBLICATION"
            "planned command expired before any durable spool publication"
        else
          do! publish command ;;
          do! set_dispatch_state command_id "PUBLISHED" ;;
          begin_reconciliation command
      else if bool_decide (state ∈ ["PUBLISHED"; "OBSERVED_CLAIMED"; "OBSERVED_PROCESSED";
                                    "OBSERVED_REJECTED"; "UNKNOWN"]) then
        fail_dispatch_manual_review row command "QMT_DISPATCH_HISTORY_AMBIGUOUS"
          "previously published command is absent from retained command history"
      else retM tt
  | Some directory =>
      content <- read_part (fun fs : spool => fs !! (directory, frame_name command_id)) ;;
      do! guardM (bool_decide (content = Some raw)) QmtDurableIdentityConflict
            "spool frame differs from durable dispatch plan" ;;
      let mapped := observed_state directory in
      do! (if bool_decide (state = mapped) then retM tt else set_dispatch_state command_id mapped) ;;
      begin_reconciliation command
  end.

(** [recover_dispatches]. *)
Definition recover_dispatches : M R Z :=
  do! assert_leader ;;
  i <- the_instance ;;
  rows <- read_db (fun d => sort_dispatches (List.filter (fun p =>
            bool_decide (qd_qmt_session_id p.2 = qn_session_id i) &&
            negb (bool_decide (qd_dispatch_state p.2 = "MANUAL_REVIEW")))
            (tbl_scan (dispatches_of d)))) ;;
  do! iterM recover_dispatch rows ;;
  retM (Z.of_nat (length rows)).

(** [_persist_dispatch_in_tx]: an INSERT under the constraints of
    [qmt_execution_dispatches], and its event. *)
Definition insert_dispatch (command_id : string) (row : dispatch_row) : M R unit :=
  ok <- read_db (fun d =>
    bool_decide (qd_command_type row ∈ ["SUBMIT_LIMIT"; "CANCEL_ORDER"]) &&
    forallb (fun p => negb (bool_decide (dispatch_key p.2 = dispatch_key row)))
      (tbl_scan (dispatches_of d)) &&
    bool_decide (is_Some (tbl_get (d_intents d) (qd_account_fingerprint row, qd_client_order_id row)))) ;;
  do! guardM ok SqliteIntegrityError "constraint failed: qmt_execution_dispatches" ;;
  ins <- read_db (fun d => tbl_insert command_id row (dispatches_of d)) ;;
  match ins with
  | Some x => write_db (set_dispatches x)
  | None => raiseM SqliteIntegrityError "UNIQUE constraint failed: command_id"
  end.

Definition persist_dispatch_in_tx (command : QmtCommand) (broker_order_id : option string)
    (raw : list Z) (digest : string) : M R dispatch :=
  do! require_tx "_persist_dispatch_in_tx" ;;
  do! guard_write_in_tx sim_guard ;;
  let command_id := text (qc_command_id command) in
  existing <- read_db (fun d => tbl_get (dispatches_of d) command_id) ;;
  match existing with
  | Some row =>
      do! guardM (bool_decide (qd_frame_digest row = digest) && bool_decide (qd_frame_blob row = raw))
            QmtDurableIdentityConflict "command identity has a conflicting frame" ;;
      retM (command_id, row)
  | None =>
      i <- the_instance ;;
      let row := planned_row (qn_session_id i) command broker_order_id raw digest in
      do! insert_dispatch command_id row ;;
      status <- get_status_in_tx (command_key command) ;;
      do! insert_event (command_key command) "QMT_DISPATCH_PLAN_COMMITTED" None status APPLIED
            [("command_id", qc_command_id command); ("frame_digest", JStr digest);
             ("command_type", JStr (command_type_str (qc_command_type command)))] ;;
      retM (command_id, row)
  end.

(** [_reserve_and_persist_dispatch]. *)
Definition reserve_and_persist_dispatch (command : QmtCommand) (broker_order_id : option string)
    (cancel : bool) : M R dispatch :=
  raw <- lift (encode_command_frame command) ;;
  let digest := digest_of raw in
  transaction (
    do! guard_write_in_tx sim_guard ;;
    do! (if cancel then prepare_cancel_in_tx sim_guard (command_key command)
         else prepare_submit_in_tx sim_guard (command_key command)) ;;
    persist_dispatch_in_tx command broker_order_id raw digest).

(** [execute_intent]. *)
Definition execute_intent (intent : OrderIntent) : M R GuojinSimExecutionResult :=
  let k := oi_key intent in
  do! assert_leader ;;
  do! maintain ;;
  i <- the_instance ;;
  do! guardM (bool_decide (oi_account_fingerprint intent = qn_account_fingerprint i)) ValueError
        "intent account does not match the pinned simulator" ;;
  now <- utc_now ;;
  decision <- lift (core_execution_decision intent now "guojin-sim-accept-all-v1") ;;
  existing <- dispatch_for_order (oi_client_order_id intent) "SUBMIT_LIMIT" ;;
  match existing with
  | Some row =>
      command <- lift (build_submit_command i intent) ;;
      raw <- lift (encode_command_frame command) ;;
      do! guardM (bool_decide (qd_frame_digest row.2 = digest_of raw)) QmtDurableIdentityConflict
            "same client order has a conflicting dispatch frame" ;;
      do! recover_dispatch row ;;
      status <- get_status k ;;
      retM (execution_result status (Some row.1) false (Some decision) false)
  | None =>
      do! create_intent sim_guard intent ;;
      do! record_risk_decision sim_guard k decision ;;
      command <- lift (build_submit_command i intent) ;;
      row <- reserve_and_persist_dispatch command None false ;;
      do! register_order (oi_client_order_id intent) (oi_symbol intent) (oi_quantity intent) ;;
      do! recover_dispatch row ;;
      status <- get_status k ;;
      retM (execution_result status (Some (text (qc_command_id command))) true (Some decision) false)
  end.

(** [cancel_intent]. *)
Definition cancel_intent (client_order_id : string) : M R GuojinSimExecutionResult :=
  do! assert_leader ;;
  do! maintain ;;
  i <- the_instance ;;
  let k := (qn_account_fingerprint i, client_order_id) in
  order <- get_order_row k ;;
  let status := o_status order in
  if status_in status [FILLED; CANCELLED; REJECTED; ABORTED; MANUAL_REVIEW] then
    retM (execution_result status None false None true)
  else
    existing <- dispatch_for_order client_order_id "CANCEL_ORDER" ;;
    match existing with
    | Some row =>
        do! recover_dispatch row ;;
        status <- get_status k ;;
        retM (execution_result status (Some row.1) false None false)
    | None =>
        do! guardM (status_in status [ACKNOWLEDGED; PARTIALLY_FILLED]) RuntimeError
              "cancel is blocked until trusted broker evidence makes it cancellable" ;;
        match o_broker_order_id order with
        | Some broker_order_id =>
            do! guardM (str_nonempty broker_order_id) RuntimeError
                  "cancel requires trusted persistent broker_order_id" ;;
            now_ms <- time_ms ;;
            command <- lift (build_cancel_command i client_order_id broker_order_id now_ms) ;;
            row <- reserve_and_persist_dispatch command (Some broker_order_id) true ;;
            do! recover_dispatch row ;;
            status <- get_status k ;;
            retM (execution_result status (Some (text (qc_command_id command))) true None false)
        | None => raiseM RuntimeError "cancel requires trusted persistent broker_order_id"
        end
    end.

(** [_validate_dispatch_invariants]: a reservation without a plan of this session. *)
Definition unplanned (i : QmtInstance) (existing : option dispatch) : bool :=
  match existing with
  | None => true
  | Some row => negb (bool_decide (qd_qmt_session_id row.2 = qn_session_id i))
  end.

Definition validate_order (client_order_id : string) (row : order_row) : M R unit :=
  i <- the_instance ;;
  reviewed <- (if bool_decide (o_status row = SUBMITTING) && o_submit_call_started row then
                 existing <- dispatch_for_order client_order_id "SUBMIT_LIMIT" ;;
                 if unplanned i existing then
                   do! mark_invariant_manual_review client_order_id
                         "QMT_SUBMIT_RESERVATION_WITHOUT_DISPATCH"
                         "submit reservation has no current-session immutable dispatch plan" None None ;;
                   retM true
                 else retM false
               else retM false) ;;
  if reviewed then retM tt
  else if o_cancel_call_started row && negb (o_cancel_outcome_resolved row) &&
          status_in (o_status row) [ACKNOWLEDGED; PARTIALLY_FILLED; CANCEL_PENDING] then
    existing <- dispatch_for_order client_order_id "CANCEL_ORDER" ;;
    if unplanned i existing then
      mark_invariant_manual_review client_order_id "QMT_CANCEL_RESERVATION_WITHOUT_DISPATCH"
        "cancel reservation has no current-session immutable dispatch plan" None (Some true)
    else retM tt
  else retM tt.

Definition validate_dispatch_invariants : M R unit :=
  do! assert_leader ;;
  i <- the_instance ;;
  rows <- read_db (fun d => List.filter (fun p =>
            bool_decide (p.1.1 = qn_account_fingerprint i)) (tbl_scan (d_orders d))) ;;
  iterM (fun p => validate_order p.1.2 p.2) rows.

(** [_restore_dispatch_plan_identities]. *)
Definition restore_dispatch_plan (row : dispatch) : M R unit :=
  i <- the_instance ;;
  let raw := qd_frame_blob row.2 in
  command <- lift (decode_command_frame raw) ;;
  do! guardM (bool_decide (qd_frame_digest row.2 = digest_of raw) &&
              is_str row.1 (qc_command_id command) &&
              is_str (qn_account_fingerprint i) (qc_account_fingerprint command) &&
              is_str (qd_client_order_id row.2) (qc_client_order_id command) &&
              is_str (qd_broker_token row.2) (qc_broker_token command) &&
              is_bool true (payload_get "simulation_calibration" command) &&
              is_str (qn_session_id i) (payload_get "expected_qmt_session_id" command))
        QmtDurableIdentityConflict "immutable dispatch plan cannot restore trusted mapper identity" ;;
  token <- register_order (text (qc_client_order_id command)) (text (payload_get "symbol" command))
             (whole (payload_get "quantity" command)) ;;
  guardM (is_str token (qc_broker_token command)) QmtDurableIdentityConflict
    "dispatch-plan mapper token differs from durable broker token".

Definition restore_dispatch_plan_identities : M R Z :=
  i <- the_instance ;;
  rows <- read_db (fun d => sort_dispatches (List.filter (fun p =>
            bool_decide (qd_account_fingerprint p.2 = qn_account_fingerprint i) &&
            bool_decide (qd_qmt_session_id p.2 = qn_session_id i) &&
            bool_decide (qd_command_type p.2 = "SUBMIT_LIMIT") &&
            negb (bool_decide (qd_dispatch_state p.2 = "MANUAL_REVIEW")))
            (tbl_scan (dispatches_of d)))) ;;
  do! iterM restore_dispatch_plan rows ;;
  retM (Z.of_nat (length rows)).

(** [restore_persisted_identities]. *)
Definition restore_identity (p : string * identity_row) : M R unit :=
  i <- the_instance ;;
  do! guardM (bool_decide (qi_account_fingerprint p.2 = qn_account_fingerprint i))
        QmtDurableIdentityConflict "OMS database account fingerprint changed" ;;
  token <- register_order (qi_client_order_id p.2) (qi_symbol p.2) (qi_quantity p.2) ;;
  guardM (bool_decide (token = qi_broker_token p.2)) QmtDurableIdentityConflict
    "persisted OMS broker token mismatch".

Definition restore_persisted_identities : M R Z :=
  rows <- read_db (fun d => merge_sort (fun a b => Is_true (String.leb a.1 b.1))
                              (tbl_scan (identities_of d))) ;;
  do! iterM restore_identity rows ;;
  retM (Z.of_nat (length rows)).

(** [ingest_broker_evidence]. *)
Definition ingest_broker_evidence (evidence : BrokerEvidenceV1) : M R EvidenceIngestResult :=
  ingest assert_leader evidence.

(** [_observe_command_result_dispatch]. *)
Definition observe_command_result_dispatch (command_id result_status : string) : M R unit :=
  row <- read_db (fun d => tbl_get (dispatches_of d) command_id) ;;
  match row with
  | None => retM tt
  | Some _ =>
      if bool_decide (result_status ∈ ["SIMULATION_MUTATION_UNKNOWN"; "SIMULATION_ORPHANED_UNKNOWN"])
      then set_dispatch_state command_id "UNKNOWN"
      else if bool_decide (result_status = "REJECTED_EXPIRED")
      then set_dispatch_state command_id "OBSERVED_REJECTED"
      else retM tt
  end.

(** [ingest_execution_command_result] of the simulation. *)
Definition ingest_simulation_result (source_event_id account_fingerprint command_id result_status
    execution_mode : string) (payload : option jdict) (observed_at : option datetime)
    : M R CommandResultIngestResult :=
  match rpartition_colon source_event_id with
  | None | Some (EmptyString, _) =>
      raiseM ValueError "simulation command result source identity is invalid"
  | Some (session_id, sequence_text) =>
      match py_int sequence_text with
      | None => raiseM ValueError "simulation command result sequence is invalid"
      | Some sequence =>
          i <- the_instance ;;
          do! guardM (bool_decide (account_fingerprint = qn_account_fingerprint i)) ValueError
                "simulation command result account mismatch" ;;
          do! guardM (bool_decide (execution_mode = "SIMULATION_CALIBRATION")) ValueError
                "simulation runtime refuses non-simulation command result" ;;
          observed_at <- match observed_at with Some t => retM t | None => utc_now end ;;
          result <- journal_ingest sim_guard session_id sequence account_fingerprint
                      (default [] payload) observed_at ;;
          do! observe_command_result_dispatch command_id result_status ;;
          retM result
      end
  end.

(** [close]: the runtime is closed even when the release fails. *)
Definition close : M R unit :=
  s <- the_sim ;;
  if sm_closed s then retM tt
  else
    do! tryM (release (sm_lease s))
          (fun e => do! write_part set_sim_closed ;; reraise e) ;;
    write_part set_sim_closed.

(** ** The identities of commands the terminal took *)

(** The files of a directory that [glob("*.json")] sorts. *)
Definition json_files (d : CommandDir) (fs : spool) : list (CommandDir * string * list Z) :=
  merge_sort (fun a b => Is_true (String.leb a.1.2 b.1.2))
    (List.filter (fun p => bool_decide (p.1.1 = d) && endswith ".json" p.1.2) (map_to_list fs)).

(** A mapper on its own. *)
Definition on_mapper {A} (c : M mapper A) (m : mapper) : res (A * mapper) :=
  match c (W empty_db false 0 m) with
  | (Ok a, w) => Ok (a, w_rest w)
  | (Err e, _) => Err e
  end.

Definition candidate_of (i : QmtInstance) (state : CommandDir) (raw : list Z) (quantity : Z)
    (command : QmtCommand) : durable_submit :=
  {| du_command_id := text (qc_command_id command);
     du_account_fingerprint := text (qc_account_fingerprint command);
     du_qmt_session_id := qn_session_id i;
     du_client_order_id := text (qc_client_order_id command);
     du_broker_token := text (qc_broker_token command);
     du_symbol := text (payload_get "symbol" command); du_side := text (payload_get "side" command);
     du_quantity := quantity; du_limit_price := text (payload_get "limit_price" command);
     du_command_state := dir_str state; du_command_digest := digest_of raw;
     du_created_ms := whole (qc_created_ms command); du_expires_ms := whole (qc_expires_ms command) |}.

Abbreviation candidates := (list (durable_submit * list Z)).

(** A candidate under the same client order, or command, is the same. *)
Definition no_conflict (same : durable_submit -> bool) (candidate : durable_submit) (l : candidates) : bool :=
  forallb (fun p => negb (same p.1) || bool_decide (p.1 = candidate)) l.

(** One file of the first loop of [refresh_identities]. *)
Definition scan_file (i : QmtInstance) (acc : candidates * mapper) (f : CommandDir * string * list Z)
    : res (candidates * mapper) :=
  let '(state, name, raw) := f in
  (command <- decode_command_frame raw ;;
   do! guard_r (bool_decide (name = frame_name (text (qc_command_id command)))) ValueError
         "durable command filename/identity mismatch" ;;
   if negb (bool_decide (qc_command_type command = SUBMIT_LIMIT)) then Ok acc
   else if negb (is_str (qn_account_fingerprint i) (qc_account_fingerprint command) &&
                 is_bool true (payload_get "simulation_calibration" command) &&
                 is_str (qn_session_id i) (payload_get "expected_qmt_session_id" command))
   then Ok acc
   else match as_int (payload_get "quantity" command) with
   | None => raise ValueError "durable simulation quantity exceeds Host boundary"
   | Some quantity =>
       do! guard_r (quantity <=? 100) ValueError "durable simulation quantity exceeds Host boundary" ;;
       expected <- broker_token_for (qc_account_fingerprint command) (qc_client_order_id command) ;;
       do! guard_r (is_str expected (qc_broker_token command)) ValueError
             "durable command broker token mismatch" ;;
       registered <- on_mapper (register_order (text (qc_client_order_id command))
                       (text (payload_get "symbol" command)) quantity) acc.2 ;;
       do! guard_r (is_str registered.1 (qc_broker_token command)) ValueError
             "mapper token differs from durable command token" ;;
       let candidate := candidate_of i state raw quantity command in
       do! guard_r (no_conflict (fun c => bool_decide (du_client_order_id c = du_client_order_id candidate))
                      candidate acc.1) QmtDurableIdentityConflict "conflicting durable client identity" ;;
       do! guard_r (no_conflict (fun c => bool_decide (du_command_id c = du_command_id candidate))
                      candidate acc.1) QmtDurableIdentityConflict "conflicting durable command identity" ;;
       Ok (acc.1 ++ [(candidate, raw)], registered.2)
   end)%py.

Fixpoint scan_files (i : QmtInstance) (acc : candidates * mapper) (l : list (CommandDir * string * list Z))
    : res (candidates * mapper) :=
  match l with
  | [] => Ok acc
  | f :: l => (acc <- scan_file i acc f ;; scan_files i acc l)%py
  end.

(** One candidate of the second loop: it contradicts nothing that is stored. *)
Definition candidate_fits (c : durable_submit) (raw : list Z) (d : db) : option string :=
  match find_shared c d with
  | Some row =>
      let stored := stored_identity row in
      if negb (bool_decide (with_state (du_command_state c) stored = c))
      then Some "conflicting durable QMT command identity"
      else if bool_decide (du_command_state stored = du_command_state c) ||
              bool_decide (du_command_state stored = "unknown") &&
              bool_decide (du_command_state c = "processed")
      then None else Some "conflicting durable command state"
  | None =>
      if bool_decide (is_Some (tbl_get (d_intents d) (du_key c))) then
        match tbl_get (dispatches_of d) (du_command_id c) with
        | Some row =>
            if bool_decide (dispatch_key row = (du_account_fingerprint c, du_client_order_id c, "SUBMIT_LIMIT")) &&
               bool_decide (qd_qmt_session_id row = du_qmt_session_id c) &&
               bool_decide (qd_broker_token row = du_broker_token c) &&
               bool_decide (qd_frame_digest row = du_command_digest c) &&
               bool_decide (qd_frame_blob row = raw)
            then None else Some "OMS order exists without matching durable dispatch authority"
        | None => Some "OMS order exists without matching durable dispatch authority"
        end
      else None
  end.

Definition check_candidate (p : durable_submit * list Z) : M R unit :=
  conflict <- read_db (candidate_fits p.1 p.2) ;;
  match conflict with
  | Some msg => raiseM QmtDurableIdentityConflict msg
  | None => retM tt
  end.

(** One candidate of the last loop. *)
Fixpoint import_candidates (l : candidates) : M R Z :=
  match l with
  | [] => retM 0
  | (c, _) :: l =>
      existing_order <- read_db (fun d => bool_decide (is_Some (tbl_get (d_intents d) (du_key c)))) ;;
      imported <- register_qmt_durable_submit sim_guard c existing_order ;;
      do! register_order (du_client_order_id c) (du_symbol c) (du_quantity c) ;;
      rest <- import_candidates l ;;
      retM ((if imported : bool then 1 else 0) + rest)
  end.

(** [refresh_identities]. *)
Definition refresh_identities : M R Z :=
  i <- the_instance ;;
  validator <- lift (mapper_init (qn_account_fingerprint i) GUOJIN_SIM_PROFILE) ;;
  files <- read_part (fun fs : spool => json_files CProcessed fs ++ json_files CUnknown fs) ;;
  scanned <- lift (scan_files i ([], validator) files) ;;
  do! iterM check_candidate scanned.1 ;;
  import_candidates scanned.1.

(** [__init__], on an open database. *)
Definition sim_init (instance : QmtInstance) : M R unit :=
  do! guardM (guojin_sim_oms_authorized (Some instance) true) ValueError
        "guojin_sim OMS runtime authorization failed" ;;
  lease <- acquire ("qmt-host:" +:+ qn_session_id instance) lease_seconds None ;;
  t <- monotonic ;;
  do! write_part (fun _ : sim => {| sm_instance := instance; sm_lease := lease; sm_closed := false;
                                    sm_last_heartbeat := t |}) ;;
  m <- lift (mapper_init (qn_account_fingerprint instance) GUOJIN_SIM_PROFILE) ;;
  do! write_part (fun _ : mapper => m) ;;
  tryM (do! restore_persisted_identities ;;
        do! refresh_identities ;;
        do! restore_dispatch_plan_identities ;;
        do! validate_dispatch_invariants ;;
        do! recover_dispatches ;;
        retM tt)
    (fun e => do! close ;; reraise e).
End Runtime.
