(* ===== verification/SimFacts.v ===== *)
(** * SimFacts: the Host's writer publishes each order once

    No code of its own.  What every operation of [SimOms] does to the plans, the
    reservations and the command files, whether it returns or raises
    ([world_evolves]), and what no history of the runtime, its restarts and the
    terminal can do. *)

From stdpp Require Import sorting.
From S2P Require Import Prelude Decimal Json Parse Domain Db Leader Repository OrderStore BrokerEvidence Evidence Parts Commands CommandResults GuojinEvidence DurableIdentity SimOms.
Open Scope Z_scope.
Open Scope oms_scope.

(** ** Reservations *)

Definition flag_le (r r' : order_row) : Prop :=
  (o_submit_call_started r = true -> o_submit_call_started r' = true) /\
  (o_cancel_call_started r = true -> o_cancel_call_started r' = true).

(** No order disappears and no reservation is taken back. *)
Definition flags_le (d d' : db) : Prop :=
  forall k r, tbl_get (d_orders d) k = Some r ->
    exists r', tbl_get (d_orders d') k = Some r' /\ flag_le r r'.

#[export] Instance flag_le_preorder : PreOrder flag_le.
Proof. split; unfold flag_le; [intros r | intros r1 r2 r3]; naive_solver. Qed.

#[export] Instance flags_le_preorder : PreOrder flags_le.
Proof.
  split; [intros d k r Hr; exists r; split; [done | reflexivity]|].
  intros d1 d2 d3 H12 H23 k r Hr. destruct (H12 k r Hr) as (r2 & Hr2 & H2).
  destruct (H23 k r2 Hr2) as (r3 & Hr3 & H3). exists r3. split; [done | by etrans].
Qed.

Lemma order_change_flags q r r' : order_change q r r' -> flag_le r r'.
Proof. by intros []. Qed.

Lemma wrote_flags k q r r' d d' : wrote k q r r' d d' -> flag_le r r' -> flags_le d d'.
Proof.
  intros Hw Hf k0 r0 Hr0. destruct (wrote_row _ _ _ _ _ _ Hw) as [Hr Hr'].
  destruct (decide (k0 = k)) as [->|Hne].
  - exists r'. split; [done|]. by replace r0 with r by congruence.
  - exists r0. split; [|reflexivity]. by rewrite (proj1 (wrote_other _ _ _ _ _ _ _ Hw Hne)).
Qed.

Lemma wrote_runtime k q r r' d d' : wrote k q r r' d d' -> d_runtime d' = d_runtime d.
Proof. by intros (_ & e & -> & _). Qed.

(** ** Plans *)

(** A plan is immutable but for what was observed of it. *)
Definition same_plan (r r' : dispatch_row) : Prop :=
  exists s t, r' = set_dispatch s t r.

#[export] Instance same_plan_preorder : PreOrder same_plan.
Proof.
  split.
  - intros r. exists (qd_dispatch_state r), (qd_published_at r). by destruct r.
  - intros r1 r2 r3 (s & t & ->) (s' & t' & ->). by exists s', t'.
Qed.

(** The reservation a plan was committed with. *)
Definition reserved (d : db) (row : dispatch_row) : Prop :=
  exists r, tbl_get (d_orders d) (qd_account_fingerprint row, qd_client_order_id row) = Some r /\
    (qd_command_type row = "SUBMIT_LIMIT"%string -> o_submit_call_started r = true) /\
    (qd_command_type row = "CANCEL_ORDER"%string -> o_cancel_call_started r = true).

(** One plan for an order and a kind of command, and only after its reservation. *)
Record plans_inv (d : db) : Prop := {
  pi_table : tbl_wf (dispatches_of d);
  pi_unique : forall id id' row row', tbl_get (dispatches_of d) id = Some row ->
    tbl_get (dispatches_of d) id' = Some row' -> dispatch_key row = dispatch_key row' -> id = id';
  pi_reserved : forall id row, tbl_get (dispatches_of d) id = Some row -> reserved d row
}.

Record db_evolves (d d' : db) : Prop := {
  de_flags : flags_le d d';
  de_inv : plans_inv d -> plans_inv d';
  de_plans : forall id row, tbl_get (dispatches_of d) id = Some row ->
    exists row', tbl_get (dispatches_of d') id = Some row' /\ same_plan row row'
}.

#[export] Instance db_evolves_preorder : PreOrder db_evolves.
Proof.
  split.
  - intros d. split; [reflexivity | done|]. intros id row Hr. exists row. split; [done | reflexivity].
  - intros d1 d2 d3 [] []. split; [by etrans | auto|]. intros id row Hr.
    destruct (de_plans0 _ _ Hr) as (row2 & Hr2 & H2).
    destruct (de_plans1 _ _ Hr2) as (row3 & Hr3 & H3). exists row3. split; [done | by etrans].
Qed.

Lemma reserved_mono d d' row : flags_le d d' -> reserved d row -> reserved d' row.
Proof.
  intros Hf (r & Hr & Hs & Hc). destruct (Hf _ _ Hr) as (r' & Hr' & Hs' & Hc').
  exists r'. auto.
Qed.

(** Writes that leave the plans alone. *)
Lemma evolves_orders d d' :
  flags_le d d' -> dispatches_of d' = dispatches_of d -> db_evolves d d'.
Proof.
  intros Hf Hd. split; [done| |].
  - intros [Ht Hu Hr]. split; rewrite ?Hd; [done | done|].
    intros id row Hrow. eapply reserved_mono; [exact Hf | by eapply Hr].
  - intros id row Hrow. exists row. rewrite Hd. split; [done | reflexivity].
Qed.

Lemma evolves_wrote k q r r' d d' : wrote k q r r' d d' -> flag_le r r' -> db_evolves d d'.
Proof.
  intros Hw Hf. apply evolves_orders; [by eapply wrote_flags|].
  unfold dispatches_of, d_qmt. by rewrite (wrote_runtime _ _ _ _ _ _ Hw).
Qed.

Lemma evolves_writes {A} k (P : order_row -> Z -> A -> order_row -> Prop) d a d' :
  writes k P d a d' -> (forall r q a r', P r q a r' -> flag_le r r') -> db_evolves d d'.
Proof. intros (q & r & r' & Hw & HP) Hf. by eapply evolves_wrote; [exact Hw | eapply Hf]. Qed.

Lemma moved_flags target b f cor bf r q o r' : moved_by target b f cor bf r q o r' -> flag_le r r'.
Proof. by intros (eff & norm & t & _ & ->). Qed.

(** Writes to other tables. *)
Lemma evolves_ext d d' :
  d_orders d' = d_orders d -> dispatches_of d' = dispatches_of d -> db_evolves d d'.
Proof.
  intros Ho Hd. apply evolves_orders; [|done]. intros k r Hr. exists r.
  rewrite Ho. split; [done | reflexivity].
Qed.

(** ** Worlds *)

(** The frame that was published for a plan: it says of which order and what kind of
    command, and its identity is the plan's. *)
Definition frame_of_plan (id : string) (row : dispatch_row) (raw : list Z) : Prop :=
  exists c, encode_command_frame c = Ok raw /\ well_keyed (JObj (as_mapping c)) = true /\
    text (qc_command_id c) = id /\
    text (qc_account_fingerprint c) = qd_account_fingerprint row /\
    text (qc_client_order_id c) = qd_client_order_id row /\
    command_type_str (qc_command_type c) = qd_command_type row.

Lemma frame_same_plan id row row' raw : same_plan row row' -> frame_of_plan id row raw -> frame_of_plan id row' raw.
Proof. by intros (s & t & ->). Qed.

Section Evolution.
Context {R : Type} {sim_part : Part sim R} {spool_part : Part spool R} {mapper_part : Part mapper R}.
Context {sim_spool : Apart sim spool R} {mapper_spool : Apart mapper spool R}.
Context {env : Env} {fenv : FileEnv}.
Implicit Types (w : world R) (i : QmtInstance).

(** Plans and reservations go forward, no command file is lost or changed, and a
    new file is that of a plan. *)
Record world_evolves w w' : Prop := {
  we_db : db_evolves (w_db w) (w_db w');
  we_files : keeps_files (spool_of w) (spool_of w');
  we_new : forall d n raw, spool_of w' !! (d, n) = Some raw ->
    (exists d0, spool_of w !! (d0, n) = Some raw) \/
    exists id row, n = frame_name id /\ tbl_get (dispatches_of (w_db w')) id = Some row /\
      frame_of_plan id row raw
}.

#[export] Instance world_evolves_preorder : PreOrder world_evolves.
Proof.
  split.
  - intros w. split; [reflexivity..|]. intros d n raw Hraw. left. by exists d.
  - intros w1 w2 w3 [] []. split; [by etrans..|]. intros d n raw Hraw.
    destruct (we_new1 _ _ _ Hraw) as [(d0 & H0)|Hnew]; [|by right].
    destruct (we_new0 _ _ _ H0) as [Hold|(id & row & -> & Hrow & Hf)]; [by left|].
    right. destruct (de_plans _ _ we_db1 _ _ Hrow) as (row' & Hrow' & Hsame). exists id, row'.
    do 2 (split; [done|]). by eapply frame_same_plan.
Qed.

Lemma evolves_world w w' :
  db_evolves (w_db w) (w_db w') -> spool_of w' = spool_of w -> world_evolves w w'.
Proof.
  intros Hd Hs. split; [done | rewrite Hs; reflexivity|]. intros d n raw Hraw.
  left. exists d. by rewrite <-Hs.
Qed.

(** Whatever comes of it, and outside a transaction. *)
Definition always {A} (m : M R A) : Prop := forall w, w_in_tx w = false ->
  wp m (fun _ w' => w_in_tx w' = false /\ world_evolves w w') w.

Lemma always_bind {A B} (m : M R A) (f : A -> M R B) :
  always m -> (forall a, always (f a)) -> always (bindM m f).
Proof.
  intros Hm Hf w Hw. apply wp_bind. eapply wp_mono; [by apply Hm|].
  intros [a|e] w1 [Ht He]; [|done]. eapply wp_mono; [by apply Hf|].
  intros r w2 [Ht2 He2]. split; [done | by etrans].
Qed.

Lemma always_quiet {A} (m : M R A) : quiet m -> always m.
Proof.
  intros Hm w Hw. eapply wp_mono; [apply Hm|]. intros r w' [Hd [Ht Hr]].
  split; [congruence|]. apply evolves_world; [by rewrite Hd | by unfold spool_of; rewrite Hr].
Qed.

Lemma always_try {A} (m : M R A) h : always m -> (forall e, always (h e)) -> always (tryM m h).
Proof.
  intros Hm Hh w Hw. apply wp_try. eapply wp_mono; [by apply Hm|].
  intros [a|e] w1 [Ht He]; [done|]. eapply wp_mono; [by apply Hh|].
  intros r w2 [Ht2 He2]. split; [done | by etrans].
Qed.

Lemma always_tx {A} (m : M R A) (P : db -> A -> db -> Prop) :
  (forall w, w_in_tx w = false -> tx_ok m (P (w_db w)) w) ->
  (forall d a d', P d a d' -> db_evolves d d') -> always m.
Proof.
  intros Hm HP w Hw. specialize (Hm w Hw). unfold tx_ok, wp in *.
  destruct (m w) as [[a|e] w1]; cbn [fst snd] in *; destruct Hm as [[Ht Hr] H];
    (split; [congruence|]; apply evolves_world; [|by unfold spool_of; rewrite Hr]).
  - by eapply HP.
  - by rewrite H.
Qed.

Lemma always_iter {A} (f : A -> M R unit) l : (forall a, always (f a)) -> always (iterM f l).
Proof.
  intros Hf. induction l as [|a l IH]; [apply always_quiet, quiet_ret|].
  simpl. by apply always_bind.
Qed.

(** Writing another part of the process. *)
Lemma always_part {S} `{P : Part S R} `{!Apart S spool R} (f : S -> S) : always (write_part f).
Proof.
  intros w Hw. unfold wp. cbn. split; [done|]. apply evolves_world; [reflexivity|].
  unfold spool_of. cbn. by rewrite get_set_apart.
Qed.
End Evolution.

Create HintDb sim.
#[export] Hint Resolve always_bind always_iter always_try always_part : sim.
#[export] Hint Extern 2 (always _) => (apply always_quiet; solve [auto 8 with quiet]) : sim.

(** ** The operations *)

Section Operations.
Context {R : Type} {sim_part : Part sim R} {spool_part : Part spool R} {mapper_part : Part mapper R}.
Context {sim_spool : Apart sim spool R} {mapper_spool : Apart mapper spool R}.
Context {env : Env} {fenv : FileEnv}.
Implicit Types (w : world R) (i : QmtInstance).

Abbreviation guard := (sim_guard (R := R)).

Lemma leader_quiet : quiet (R := R) SimOms.assert_leader.
Proof. unfold SimOms.assert_leader, the_sim. auto 8 with quiet. Qed.
Hint Resolve leader_quiet : quiet.

Lemma sim_guard_quiet : match guard with Some g => quiet g | None => True end.
Proof. apply leader_quiet. Qed.
Hint Resolve sim_guard_quiet : quiet.

Lemma instance_quiet : quiet (R := R) the_instance.
Proof. unfold the_instance. auto with quiet. Qed.
Hint Resolve instance_quiet : quiet.

Lemma monotonic_quiet : quiet (R := R) monotonic.
Proof. unfold monotonic. auto with quiet. Qed.
Lemma time_ms_quiet : quiet (R := R) time_ms.
Proof. unfold time_ms. auto with quiet. Qed.
Hint Resolve monotonic_quiet time_ms_quiet : quiet.

Lemma get_status_is_quiet k : quiet (R := R) (get_status k).
Proof. unfold get_status. apply quiet_bind; [auto with quiet|]. intros []; auto with quiet. Qed.
Lemma get_order_row_is_quiet k : quiet (R := R) (get_order_row k).
Proof. unfold get_order_row. apply quiet_bind; [auto with quiet|]. intros []; auto with quiet. Qed.
Lemma dispatch_for_order_quiet c t : quiet (R := R) (dispatch_for_order c t).
Proof. unfold dispatch_for_order. auto with quiet. Qed.
Hint Resolve get_status_is_quiet get_order_row_is_quiet dispatch_for_order_quiet : quiet.

(** A transaction that writes neither orders nor plans. *)
Lemma always_aside {A} (m : M R A) :
  (forall w, in_tx_ok m (fun _ d' => d_orders d' = d_orders (w_db w) /\
                                     dispatches_of d' = dispatches_of (w_db w)) w) ->
  always (transaction m).
Proof.
  intros Hm. eapply (always_tx _ (fun d _ d' => d_orders d' = d_orders d /\ dispatches_of d' = dispatches_of d)).
  - intros w Hw. apply tx_ok_intro; [done|]. intros w1 <- _ _. apply Hm.
  - intros d _ d' []. by apply evolves_ext.
Qed.

Ltac tx_steps := intros ?; unfold in_tx_ok, frame; repeat (wp_step || case_match); cbn; auto.

Lemma heartbeat_always l secs now : always (R := R) (heartbeat l secs now).
Proof.
  unfold heartbeat. apply always_bind; [eauto with sim | intros _].
  apply always_bind; [eauto with sim | intros t].
  apply always_bind; [|intros; eauto with sim]. apply always_aside. tx_steps.
Qed.

Lemma acquire_always sid secs now : always (R := R) (acquire sid secs now).
Proof.
  unfold acquire. apply always_bind; [eauto with sim | intros _].
  apply always_bind; [eauto with sim | intros t].
  apply always_bind; [eauto with sim | intros token].
  apply always_bind; [|intros; eauto with sim]. apply always_aside. tx_steps.
Qed.

Lemma release_always l : always (R := R) (release l).
Proof. apply always_aside. tx_steps. Qed.

Lemma maintain_always : always maintain.
Proof.
  unfold maintain, the_sim. apply always_bind; [eauto with sim | intros s].
  apply always_bind; [eauto with sim | intros t]. case_match; [|eauto with sim].
  apply always_bind; [apply heartbeat_always | intros lease].
  apply always_bind; [eauto with sim | intros t']. apply always_part.
Qed.

Lemma close_always : always close.
Proof.
  unfold close, the_sim. apply always_bind; [eauto with sim | intros s]. case_match; [eauto with sim|].
  apply always_bind; [|intros _; apply always_part].
  apply always_try; [apply release_always | intros e].
  apply always_bind; [apply always_part | intros _; eauto with sim].
Qed.

(** Transactions that move one order. *)
Lemma transition_always k target ty ev b f cor : always (transition_order guard k target ty ev b f cor).
Proof.
  eapply (always_tx _ (fun d a d' => writes k (moved_by target b f cor false) d a d')).
  - intros w Hw. apply transition_order_ok; [apply sim_guard_quiet | done].
  - intros d a d' H. eapply evolves_writes; [exact H|]. apply moved_flags.
Qed.

Lemma begin_reconciliation_always c : always (begin_reconciliation c).
Proof.
  unfold begin_reconciliation. apply always_bind; [eauto with sim | intros s].
  apply always_bind; [case_match; [|eauto with sim]|intros s'; case_match; [|eauto with sim]];
    (apply always_bind; [apply transition_always | intros _; eauto with sim]).
Qed.

Lemma create_intent_always intent : always (create_intent guard intent).
Proof.
  eapply (always_tx _ (fun d _ d' => created intent d d')).
  - intros w Hw. apply create_intent_ok; [apply sim_guard_quiet | done].
  - intros d _ d' (_ & xi & xo & t & e & _ & Hxo & -> & _). apply evolves_orders; [|done].
    intros k r Hr. exists r. split; [|reflexivity]. cbn. rewrite (tbl_get_insert _ _ _ _ _ Hxo).
    case_decide; [|done]. subst. apply tbl_insert_fresh in Hxo. congruence.
Qed.

Lemma risk_decision_always k decision : always (record_risk_decision guard k decision).
Proof.
  eapply (always_tx _ (fun d s d' => decided k decision d s d')).
  - intros w Hw. apply record_risk_decision_ok; [apply sim_guard_quiet | done].
  - intros d s d' (x & o & _ & _ & Hw & _). transitivity (set_risk x d); [by apply evolves_ext|].
    eapply evolves_writes; [exact Hw|]. apply moved_flags.
Qed.

Lemma update_dispatch_evolves id s t d :
  db_evolves d (set_dispatches (tbl_update id (fun r => set_dispatch s (t r) r) (dispatches_of d)) d).
Proof.
  set (d' := set_dispatches _ d).
  assert (Hget : forall id', tbl_get (dispatches_of d') id' =
    if decide (id' = id) then (fun r => set_dispatch s (t r) r) <$> tbl_get (dispatches_of d) id'
    else tbl_get (dispatches_of d) id').
  { intros id'. unfold d', dispatches_of. cbn. rewrite tbl_get_update. case_decide; by subst. }
  assert (Hback : forall id' row, tbl_get (dispatches_of d') id' = Some row ->
    exists row0, tbl_get (dispatches_of d) id' = Some row0 /\ same_plan row0 row).
  { intros id' row. rewrite Hget. case_decide; [|by exists row].
    destruct (tbl_get (dispatches_of d) id') as [row0|]; [|done]. intros [= <-].
    exists row0. split; [done|]. by eexists _, _. }
  split.
  - intros k r Hr. by exists r.
  - intros [Ht Hu Hr]. split.
    + by apply tbl_wf_update.
    + intros id1 id2 row1 row2 (r1 & H1 & s1 & t1 & ->)%Hback (r2 & H2 & s2 & t2 & ->)%Hback Hk.
      by eapply Hu.
    + intros id1 row1 (r1 & H1 & s1 & t1 & ->)%Hback. destruct (Hr _ _ H1) as (r & Hrow). by exists r.
  - intros id' row Hrow. rewrite Hget, Hrow. case_decide; [|by exists row].
    eexists. split; [done|]. by eexists _, _.
Qed.

Lemma set_dispatch_state_always id s : always (set_dispatch_state id s).
Proof.
  eapply (always_tx _ (fun d _ d' => exists t, d' =
    set_dispatches (tbl_update id (fun r => set_dispatch s (t r) r) (dispatches_of d)) d)).
  - intros w Hw. apply tx_ok_intro; [done|]. intros w1 <- _ _.
    apply in_tx_ok_quiet; [by apply guard_write_quiet, sim_guard_quiet|]. intros _ w2 <- _.
    apply in_tx_ok_quiet; [apply quiet_utc|]. intros t w3 <- _.
    unfold in_tx_ok, frame, update_dispatch. repeat wp_step. split; [done|].
    by exists (fun r => if bool_decide (s = "PUBLISHED"%string) then Some t else qd_published_at r).
  - intros d _ d' (t & ->). apply update_dispatch_evolves.
Qed.

Definition reviewed_by cor (r : order_row) (q : Z) (_ : unit) (r' : order_row) : Prop :=
  exists t, r' = review_row (o_filled_quantity r) (default (o_cancel_outcome_resolved r) cor) t r.

Lemma reviewed_flags cor r q u r' : reviewed_by cor r q u r' -> flag_le r r'.
Proof. by intros (t & ->). Qed.

Lemma mark_invariant_always c ty reason id cor : always (mark_invariant_manual_review c ty reason id cor).
Proof.
  unfold mark_invariant_manual_review. apply always_bind; [eauto with sim | intros i].
  eapply (always_tx _ (fun d a d' => writes (qn_account_fingerprint i, c) (reviewed_by cor) d a d')).
  - intros w Hw. apply tx_ok_intro; [done|]. intros w1 <- _ _.
    apply mark_manual_review_ok, sim_guard_quiet.
  - intros d a d' H. eapply evolves_writes; [exact H|]. apply reviewed_flags.
Qed.

Lemma fail_dispatch_always row c ty reason : always (fail_dispatch_manual_review row c ty reason).
Proof.
  unfold fail_dispatch_manual_review. set (cor := if bool_decide _ then Some true else None).
  set (id := text (qc_command_id c)). set (f := fun r : dispatch_row => qd_published_at r).
  eapply (always_tx _ (fun d a d' => writes (command_key c) (reviewed_by cor)
    (set_dispatches (tbl_update id (fun r => set_dispatch "MANUAL_REVIEW" (f r) r) (dispatches_of d)) d) a d')).
  - intros w Hw. apply tx_ok_intro; [done|]. intros w1 <- _ _.
    apply in_tx_ok_quiet; [by apply guard_write_quiet, sim_guard_quiet|]. intros _ w2 <- _.
    eapply in_tx_ok_bind with (P := fun _ d' => d' =
      set_dispatches (tbl_update id (fun r => set_dispatch "MANUAL_REVIEW" (f r) r) (dispatches_of (w_db w2))) (w_db w2)).
    + unfold in_tx_ok, frame, update_dispatch. by repeat wp_step.
    + intros _ w3 <- _. apply mark_manual_review_ok, sim_guard_quiet.
  - intros d a d' H. etrans; [apply update_dispatch_evolves|].
    eapply evolves_writes; [exact H|]. apply reviewed_flags.
Qed.

(** ** Plans and their publication *)

(** A new plan of an order that is reserved for it. *)
Lemma insert_plan_evolves id row x d :
  tbl_insert id row (dispatches_of d) = Some x -> reserved d row ->
  forallb (fun p => negb (bool_decide (dispatch_key p.2 = dispatch_key row)))
    (tbl_scan (dispatches_of d)) = true ->
  db_evolves d (set_dispatches x d).
Proof.
  intros Hx Hres Hfree. set (d' := set_dispatches x d).
  assert (Hget : forall id', tbl_get (dispatches_of d') id' =
    if decide (id' = id) then Some row else tbl_get (dispatches_of d) id').
  { intros id'. unfold d', dispatches_of. cbn. by rewrite (tbl_get_insert _ _ _ _ _ Hx). }
  split.
  - intros k r Hr. by exists r.
  - intros [Ht Hu Hr]. split.
    + by eapply tbl_wf_insert.
    + assert (Hnew : forall id' row', tbl_get (dispatches_of d) id' = Some row' ->
        dispatch_key row' <> dispatch_key row).
      { intros id' row' Hg Hk. rewrite forallb_forall in Hfree.
        specialize (Hfree (id', row')). cbn in Hfree. rewrite bool_decide_true in Hfree by done.
        discriminate Hfree. by apply list_elem_of_In, tbl_scan_elem. }
      intros id1 id2 row1 row2. rewrite !Hget. repeat case_decide; subst; [done|..].
      * intros [= <-] H2 Hk. by destruct (Hnew _ _ H2).
      * intros H1 [= <-] Hk. by destruct (Hnew _ _ H1).
      * by apply Hu.
    + intros id1 row1. rewrite Hget. case_decide; [intros [= <-]; exact Hres | apply Hr].
  - intros id1 row1 Hrow. rewrite Hget. case_decide; [|by exists row1].
    subst. apply tbl_insert_fresh in Hx. congruence.
Qed.

(** The reservation of a command's order, as its plan needs it. *)
Definition holds_reservation (c : QmtCommand) (d : db) : Prop :=
  exists r, tbl_get (d_orders d) (command_key c) = Some r /\
    match qc_command_type c with
    | SUBMIT_LIMIT => o_submit_call_started r = true
    | CANCEL_ORDER => o_cancel_call_started r = true
    | REQUEST_SNAPSHOT => True
    end.

Lemma persist_ok c b raw digest w :
  holds_reservation c (w_db w) ->
  in_tx_ok (persist_dispatch_in_tx (R := R) c b raw digest) (fun p d' =>
    p.1 = text (qc_command_id c) /\ db_evolves (w_db w) d' /\
    exists row, tbl_get (dispatches_of d') p.1 = Some row /\ same_plan p.2 row) w.
Proof.
  intros (r & Hr & Hflag). unfold persist_dispatch_in_tx.
  apply in_tx_ok_quiet; [apply require_tx_quiet|]. intros _ w1 H1 _. rewrite <-H1 in Hr |- *.
  apply in_tx_ok_quiet; [by apply guard_write_quiet, sim_guard_quiet|]. intros _ w2 H2 _.
  rewrite <-H2 in Hr |- *. cbv zeta.
  apply in_tx_ok_read. destruct (tbl_get (dispatches_of (w_db w2)) _) as [row|] eqn:Eg.
  - apply in_tx_ok_quiet; [apply quiet_guard|]. intros _ w3 Hd3 _. apply in_tx_ok_ret.
    rewrite Hd3. split; [done|]. split; [reflexivity|]. cbn [fst snd]. by exists row.
  - apply in_tx_ok_quiet; [apply instance_quiet|]. intros i w3 H3 _. rewrite <-H3 in Hr |- *.
    set (row := planned_row _ _ _ _ _). set (id := text (qc_command_id c)) in *.
    eapply in_tx_ok_bind with (P := fun _ d' => exists x,
      tbl_insert id row (dispatches_of (w_db w3)) = Some x /\ d' = set_dispatches x (w_db w3) /\
      db_evolves (w_db w3) d').
    + unfold insert_dispatch, in_tx_ok. apply wp_bind. wp_step. apply wp_bind. apply wp_guard; intros Hok; [|done].
      repeat wp_step. destruct (tbl_insert _ _ _) as [x|] eqn:Ex; repeat wp_step; [|done].
      split; [done|]. exists x. split; [done|]. split; [done|]. apply insert_plan_evolves with (id := id) (row := row);
        [exact Ex | | by apply andb_true_iff in Hok as [[_ Hok]%andb_true_iff _]].
      exists r. split; [exact Hr|]. unfold row, planned_row. cbn. by destruct (qc_command_type c).
    + intros _ w4 (x & Hx & Hw4 & Hev) _.
      apply in_tx_ok_quiet; [apply get_status_quiet|]. intros s w5 Hd5 _. rewrite <-Hd5 in Hw4, Hev.
      eapply in_tx_ok_bind with (P := fun _ d' => d_orders d' = d_orders (w_db w5) /\
        dispatches_of d' = dispatches_of (w_db w5)).
      { unfold in_tx_ok, frame, insert_event. by repeat wp_step. }
      intros _ w6 [Ho Hdd] _. apply in_tx_ok_ret. split; [done|].
      split; [etrans; [exact Hev|]; by apply evolves_ext|].
      rewrite Hdd, Hw4. change (dispatches_of (set_dispatches x (w_db w3))) with x. cbn [fst].
      exists row. rewrite (tbl_get_insert _ _ _ _ _ Hx), decide_True; done.
Qed.

(** A plan, as it was read, is in the database. *)
Definition planned (p : dispatch) (d : db) : Prop :=
  exists row, tbl_get (dispatches_of d) p.1 = Some row /\ same_plan p.2 row.

Lemma planned_evolves p w w' : planned p (w_db w) -> world_evolves w w' -> planned p (w_db w').
Proof.
  intros (row & Hrow & Hp) [Hdb _ _]. destruct (de_plans _ _ Hdb _ _ Hrow) as (row' & Hrow' & Hs).
  exists row'. split; [done | by etrans].
Qed.

Lemma reserve_ok c b (cancel : bool) w :
  qc_command_type c = (if cancel then CANCEL_ORDER else SUBMIT_LIMIT) -> w_in_tx w = false ->
  wp (reserve_and_persist_dispatch c b cancel) (fun res w' =>
    w_in_tx w' = false /\ world_evolves w w' /\
    match res with Ok p => planned p (w_db w') | Err _ => True end) w.
Proof.
  intros Hty Hw. unfold reserve_and_persist_dispatch. apply wp_bind.
  destruct (encode_command_frame c) as [raw|e]; [|split; [done|]; split; [reflexivity | done]].
  unfold wp at 1. cbn [lift fst snd].
  assert (Htx : tx_ok (transaction (
      do! guard_write_in_tx guard ;;
      do! (if cancel then prepare_cancel_in_tx guard (command_key c)
           else prepare_submit_in_tx guard (command_key c)) ;;
      persist_dispatch_in_tx c b raw (digest_of raw)))
    (fun p d' => db_evolves (w_db w) d' /\ planned p d') w).
  { apply tx_ok_intro; [done|]. intros w1 <- _ _.
    apply in_tx_ok_quiet; [by apply guard_write_quiet, sim_guard_quiet|]. intros _ w2 <- _.
    eapply in_tx_ok_bind with (P := fun _ d' => db_evolves (w_db w2) d' /\ holds_reservation c d').
    - destruct cancel.
      + eapply in_tx_ok_mono; [apply prepare_cancel_in_tx_ok, sim_guard_quiet|].
        intros u d (q & r & r' & Hwr & _ & _ & t & ->). destruct (wrote_row _ _ _ _ _ _ Hwr) as [_ Hg].
        split; [by eapply evolves_wrote; [exact Hwr|]|]. exists (cancel_row t r). by rewrite Hty.
      + eapply in_tx_ok_mono; [apply prepare_submit_in_tx_ok, sim_guard_quiet|].
        intros u d (q & r & r' & Hwr & _ & _ & t & ->). destruct (wrote_row _ _ _ _ _ _ Hwr) as [_ Hg].
        split; [by eapply evolves_wrote; [exact Hwr|]|]. exists (submit_row t r). by rewrite Hty.
    - intros _ w3 [Hev Hres] _. eapply in_tx_ok_mono; [by apply persist_ok|].
      intros p d (_ & Hev' & Hp). split; [by etrans | done]. }
  unfold tx_ok, wp in Htx |- *. revert Htx. destruct (transaction _ w) as [res w'].
  cbn [fst snd]. intros [[Ht Hr] H]. split; [congruence|].
  assert (Hs : spool_of w' = spool_of w) by (unfold spool_of; by rewrite Hr).
  destruct res as [p|e].
  - destruct H as [Hev Hp]. split; [by apply evolves_world | done].
  - split; [|done]. apply evolves_world; [by rewrite H | done].
Qed.

(** One computation in one world. *)
Definition evolving {A} (m : M R A) w : Prop :=
  wp m (fun _ w' => w_in_tx w' = false /\ world_evolves w w') w.

Lemma evolving_always {A} (m : M R A) w : always m -> w_in_tx w = false -> evolving m w.
Proof. intros Hm Hw. by apply Hm. Qed.

Lemma evolving_bind {A B} (m : M R A) (f : A -> M R B) w :
  evolving m w ->
  (forall a w', w_in_tx w' = false -> world_evolves w w' -> evolving (f a) w') ->
  evolving (bindM m f) w.
Proof.
  unfold evolving. intros Hm Hf. apply wp_bind. eapply wp_mono; [exact Hm|].
  intros [a|e] w1 [Ht He]; [|done]. eapply wp_mono; [by apply Hf|].
  intros r w2 [Ht2 He2]. split; [done | by etrans].
Qed.

(** Steps that read, and what they found. *)
Lemma evolving_read {A B} (g : R -> A) (f : A -> M R B) w :
  evolving (f (g (w_rest w))) w -> evolving (bindM (read_rest g) f) w.
Proof. done. Qed.

Lemma evolving_check {B} b cls msg (f : unit -> M R B) w :
  w_in_tx w = false -> (b = true -> evolving (f tt) w) -> evolving (bindM (guardM b cls msg) f) w.
Proof.
  intros Hw Hf. unfold evolving. apply wp_bind. apply wp_guard; intros Hb; [by apply Hf|].
  split; [done | reflexivity].
Qed.

Lemma evolving_lift {A B} (r : res A) (f : A -> M R B) w :
  w_in_tx w = false -> (forall a, r = Ok a -> evolving (f a) w) -> evolving (bindM (lift r) f) w.
Proof.
  intros Hw Hf. unfold evolving. apply wp_bind. destruct r as [a|e]; [by apply Hf|].
  split; [done | reflexivity].
Qed.

Lemma publish_evolving c p w :
  w_in_tx w = false -> planned p (w_db w) ->
  (forall raw, encode_command_frame c = Ok raw -> frame_of_plan p.1 p.2 raw) ->
  text (qc_command_id c) = p.1 -> evolving (publish c) w.
Proof.
  intros Hw (row & Hrow & Hsame) Hframe Hid. unfold evolving. eapply wp_mono; [apply publish_ok|].
  intros res w' (Hd & Ht & H). split; [congruence|].
  assert (Hdb : db_evolves (w_db w) (w_db w')) by (rewrite Hd; reflexivity).
  destruct res as [d|e]; [|by apply evolves_world]. destruct H as (raw & Henc & _ & [Hs|[_ Hpub]]);
    [by apply evolves_world|]. split; [done | by eapply published_keeps|].
  intros d0 n raw0. destruct Hpub as [_ ->]. rewrite Hid.
  destruct (decide ((d0, n) = (CInbox, frame_name p.1))) as [[= -> ->]|Hne].
  - rewrite lookup_insert_eq. intros [= <-]. right. exists p.1, row. rewrite Hd. do 2 (split; [done|]).
    eapply frame_same_plan; [exact Hsame | by apply Hframe].
  - rewrite lookup_insert_ne by congruence. intros Hraw. left. by exists d0.
Qed.

Lemma is_str_text x j : is_str x j = true -> text j = x.
Proof. destruct j; try done. intros H. by apply bool_decide_eq_true in H. Qed.

Lemma matched_frame i row c :
  decode_command_frame (qd_frame_blob row.2) = Ok c -> dispatch_matches i row (qd_frame_blob row.2) c = true ->
  text (qc_command_id c) = row.1 /\
  forall raw, encode_command_frame c = Ok raw -> frame_of_plan row.1 row.2 raw.
Proof.
  intros Hdec Hm. unfold dispatch_matches in Hm.
  repeat match goal with H : _ && _ = true |- _ => apply andb_true_iff in H as [? ?] end.
  repeat match goal with H : is_str _ _ = true |- _ => apply is_str_text in H
                       | H : bool_decide _ = true |- _ => apply bool_decide_eq_true in H end.
  split; [done|]. intros raw Henc. exists c. split; [done|]. split; [by eapply decode_well_keyed|].
  do 3 (split; [congruence|]). done.
Qed.

Lemma recover_dispatch_evolving row w :
  w_in_tx w = false -> planned row (w_db w) -> evolving (recover_dispatch row) w.
Proof.
  intros Hw Hp. unfold recover_dispatch.
  apply evolving_bind; [apply evolving_always; [eauto with sim | done]|].
  intros _ w1 Hw1 He1. cbv zeta.
  apply evolving_lift; [done|]. intros c Hdec.
  apply evolving_bind; [apply evolving_always; [eauto with sim | done]|]. intros i w3 Hw3 He3.
  assert (Hp3 : planned row (w_db w3)) by (eapply planned_evolves; [|exact He3]; by eapply planned_evolves).
  apply evolving_check; [done|]. intros Hm. destruct (matched_frame _ _ _ Hdec Hm) as [Hid Hframe].
  rewrite Hid.
  apply evolving_bind; [apply evolving_always; [eauto with sim | done]|]. intros fs w4 Hw4 He4.
  apply evolving_bind; [apply evolving_always; [eauto with sim | done]|]. intros located w5 Hw5 He5.
  assert (Hp5 : planned row (w_db w5)) by (eapply planned_evolves; [|exact He5]; by eapply planned_evolves).
  destruct located as [d|].
  - apply evolving_always; [|done]. apply always_bind; [eauto with sim | intros content].
    apply always_bind; [eauto with sim | intros _].
    apply always_bind; [case_match; [eauto with sim | apply set_dispatch_state_always] | intros _].
    apply begin_reconciliation_always.
  - case_match; [|case_match; apply evolving_always; [apply fail_dispatch_always | done | eauto with sim | done]].
    apply evolving_bind; [apply evolving_always; [eauto with sim | done]|]. intros now_ms w6 Hw6 He6.
    case_match; [apply evolving_always; [apply fail_dispatch_always | done]|].
    apply evolving_bind; [eapply publish_evolving; [done | by eapply planned_evolves | done | done]|].
    intros _ w7 Hw7 He7. apply evolving_always; [|done].
    apply always_bind; [apply set_dispatch_state_always | intros _; apply begin_reconciliation_always].
Qed.

Lemma recover_list_evolving l w :
  w_in_tx w = false -> (forall row, row ∈ l -> planned row (w_db w)) -> evolving (iterM recover_dispatch l) w.
Proof.
  revert w. induction l as [|row l IH]; intros w Hw Hl; cbn [iterM].
  { apply evolving_always; [apply always_quiet, quiet_ret | done]. }
  apply evolving_bind; [apply recover_dispatch_evolving; [done | apply Hl; by left]|].
  intros _ w1 Hw1 He. apply IH; [done|]. intros row' Hin.
  eapply planned_evolves; [apply Hl; by right | exact He].
Qed.

Lemma recover_dispatches_evolving w :
  w_in_tx w = false -> plans_inv (w_db w) -> evolving recover_dispatches w.
Proof.
  intros Hw Hinv. unfold recover_dispatches.
  apply evolving_bind; [apply evolving_always; [eauto with sim | done]|]. intros _ w1 Hw1 He1.
  apply evolving_bind; [apply evolving_always; [eauto with sim | done]|]. intros i w2 Hw2 He2.
  assert (Hinv2 : plans_inv (w_db w2)) by (apply (de_inv _ _ (we_db _ _ He2)), (de_inv _ _ (we_db _ _ He1)), Hinv).
  unfold evolving. apply wp_bind. wp_step. cbn [fst snd].
  apply (evolving_bind _ _ w2).
  - apply recover_list_evolving; [done|]. intros row Hrow. unfold sort_dispatches in Hrow.
    rewrite merge_sort_Permutation in Hrow. apply list_elem_of_In, filter_In in Hrow as [Hrow _].
    destruct row as [id row]. apply list_elem_of_In, tbl_scan_elem in Hrow; [|apply Hinv2].
    by exists row.
  - intros _ w3 Hw3 He3. apply evolving_always; [eauto with sim | done].
Qed.

(** ** Identities *)

Lemma register_always c s q : always (register_order (R := R) c s q).
Proof.
  unfold register_order. do 3 (apply always_bind; [eauto with sim | intros _]).
  apply always_bind; [eauto with sim | intros m].
  apply always_bind; [eauto with sim | intros token]. cbv zeta. case_match.
  - apply always_bind; eauto with sim.
  - apply always_bind; [apply always_part | intros _; eauto with sim].
Qed.

Lemma restore_identity_always p : always (restore_identity p).
Proof.
  unfold restore_identity. apply always_bind; [eauto with sim | intros i].
  apply always_bind; [eauto with sim | intros _].
  apply always_bind; [apply register_always | intros t; eauto with sim].
Qed.

Lemma restore_identities_always : always restore_persisted_identities.
Proof.
  unfold restore_persisted_identities. apply always_bind; [eauto with sim | intros rows].
  apply always_bind; [apply always_iter, restore_identity_always | intros _; eauto with sim].
Qed.

Lemma restore_plan_always row : always (restore_dispatch_plan row).
Proof.
  unfold restore_dispatch_plan. apply always_bind; [eauto with sim | intros i]. cbv zeta.
  apply always_bind; [eauto with sim | intros c].
  apply always_bind; [eauto with sim | intros _].
  apply always_bind; [apply register_always | intros t; eauto with sim].
Qed.

Lemma restore_plans_always : always restore_dispatch_plan_identities.
Proof.
  unfold restore_dispatch_plan_identities. apply always_bind; [eauto with sim | intros i].
  apply always_bind; [eauto with sim | intros rows].
  apply always_bind; [apply always_iter, restore_plan_always | intros _; eauto with sim].
Qed.

(** Writes that keep plans and reservations. *)
Definition plans_kept (d d' : db) : Prop := flags_le d d' /\ dispatches_of d' = dispatches_of d.

#[local] Instance plans_kept_preorder : PreOrder plans_kept.
Proof.
  split; [by intros d; split|]. intros d1 d2 d3 [H1 E1] [H2 E2]. split; [by etrans | congruence].
Qed.

Lemma plans_kept_ext d d' :
  d_orders d' = d_orders d -> dispatches_of d' = dispatches_of d -> plans_kept d d'.
Proof. intros Ho Hd. split; [|done]. intros k r Hr. exists r. rewrite Ho. by split. Qed.

Lemma insert_identity_steps c : steps (R := R) plans_kept (insert_identity c).
Proof.
  intros w. unfold insert_identity, in_tx_ok, frame.
  repeat (wp_step || case_match); cbn; try done. split; [done|]. by apply plans_kept_ext.
Qed.

Lemma insert_event_steps k ty from to disp ev : steps (R := R) plans_kept (insert_event k ty from to disp ev).
Proof.
  intros w. unfold insert_event, in_tx_ok, frame. repeat wp_step; cbn; try done. split; [done|]. by apply plans_kept_ext.
Qed.

Lemma from_ms_quiet ms : quiet (R := R) (from_ms ms).
Proof. unfold from_ms. case_match; auto with quiet. Qed.

Lemma import_order_steps c : steps (R := R) plans_kept (import_order c).
Proof.
  unfold import_order. apply steps_bind; [apply _ | apply steps_quiet, from_ms_quiet; apply _ | intros a].
  apply steps_bind; [apply _ | apply steps_quiet, from_ms_quiet; apply _ | intros b].
  apply steps_bind; [apply _ | apply steps_quiet; [apply _ | apply quiet_read] | intros ins].
  apply steps_bind; [apply _ | | intros _].
  { intros w. unfold in_tx_ok, frame. destruct ins; repeat wp_step; cbn; try done. split; [done|]. by apply plans_kept_ext. }
  apply steps_bind; [apply _ | apply steps_quiet; [apply _ | apply quiet_utc] | intros t].
  intros w. apply in_tx_ok_read. eapply in_tx_ok_bind with (P := fun _ d' => plans_kept (w_db w) d').
  - unfold in_tx_ok, frame. destruct (tbl_insert _ _ _) as [x|] eqn:Ex; repeat wp_step; cbn; [|done].
    split; [done|]. split; [|done]. intros k r Hr. exists r. split; [|reflexivity].
    cbn [set_orders d_orders]. rewrite (tbl_get_insert _ _ _ _ _ Ex). case_decide; [|done]. subst.
    apply tbl_insert_fresh in Ex. congruence.
  - intros _ w1 H1 _. eapply in_tx_ok_mono.
    + apply (steps_bind plans_kept); [apply insert_identity_steps | intros _; apply insert_event_steps].
    + cbv beta. intros a' d' H2. by etrans.
Qed.

Lemma link_existing_steps c : steps (R := R) plans_kept (link_existing c).
Proof.
  unfold link_existing. apply steps_bind; [apply _ | apply insert_identity_steps | intros _].
  apply steps_bind; [apply _ | apply steps_quiet; [apply _ | apply get_status_quiet] | intros s].
  apply insert_event_steps.
Qed.

Lemma register_durable_always c allow : always (register_qmt_durable_submit guard c allow).
Proof.
  eapply (always_tx _ (fun d _ d' => plans_kept d d')).
  - intros w Hw. apply tx_ok_intro; [done|]. intros w1 <- _ _.
    apply in_tx_ok_quiet; [by apply guard_write_quiet, sim_guard_quiet|]. intros _ w2 <- _.
    apply in_tx_ok_read. destruct (find_shared c (w_db w2)) as [row|]; cbv zeta.
    + case_match; [unfold in_tx_ok, frame; repeat wp_step; split; [done|]; by apply plans_kept_ext|].
      unfold in_tx_ok, frame. repeat wp_step; try done.
    + apply in_tx_ok_read. case_match.
      * apply in_tx_ok_quiet; [apply quiet_guard|]. intros _ w3 <- _.
        apply (steps_bind plans_kept); [apply link_existing_steps | intros _].
        apply steps_quiet; [apply _ | apply quiet_ret].
      * apply (steps_bind plans_kept); [apply import_order_steps | intros _].
        apply steps_quiet; [apply _ | apply quiet_ret].
  - intros d _ d' [Hf Hd]. by apply evolves_orders.
Qed.

Lemma import_always l : always (import_candidates (R := R) l).
Proof.
  induction l as [|[c raw] l IH]; cbn [import_candidates]; [eauto with sim|].
  apply always_bind; [eauto with sim | intros e].
  apply always_bind; [apply register_durable_always | intros b].
  apply always_bind; [apply register_always | intros t].
  apply always_bind; [exact IH | intros n; eauto with sim].
Qed.

Lemma check_candidate_quiet p : quiet (R := R) (check_candidate p).
Proof. unfold check_candidate. apply quiet_bind; [auto with quiet|]. intros []; auto with quiet. Qed.

Lemma refresh_always : always refresh_identities.
Proof.
  unfold refresh_identities. apply always_bind; [eauto with sim | intros i].
  apply always_bind; [eauto with sim | intros v].
  apply always_bind; [eauto with sim | intros files].
  apply always_bind; [eauto with sim | intros scanned].
  apply always_bind; [apply always_iter; intros p; apply always_quiet, check_candidate_quiet | intros _].
  apply import_always.
Qed.

Lemma validate_order_always c row : always (validate_order c row).
Proof.
  unfold validate_order. apply always_bind; [eauto with sim | intros i].
  apply always_bind.
  - case_match; [|eauto with sim]. apply always_bind; [eauto with sim | intros e].
    case_match; [|eauto with sim]. apply always_bind; [apply mark_invariant_always | intros _; eauto with sim].
  - intros b. case_match; [eauto with sim|]. case_match; [|eauto with sim].
    apply always_bind; [eauto with sim | intros e].
    case_match; [apply mark_invariant_always | eauto with sim].
Qed.

Lemma validate_always : always validate_dispatch_invariants.
Proof.
  unfold validate_dispatch_invariants. apply always_bind; [eauto with sim | intros _].
  apply always_bind; [eauto with sim | intros i].
  apply always_bind; [eauto with sim | intros rows]. apply always_iter.
  intros p. apply validate_order_always.
Qed.

(** ** Evidence and results *)

Lemma ingested_evolves e d out d' : Evidence.ingested e d out d' -> db_evolves d d'.
Proof.
  assert (Hobs : forall c x, db_evolves x (obs_put e c x)) by (intros; by apply evolves_ext).
  assert (Hkey : forall a disp r x y, key_put e a disp r x y -> db_evolves x y).
  { intros a disp r x y (_ & t & _ & ->). by apply evolves_ext. }
  assert (Hrev : forall A k fill x (a : A) y, reviewed k fill x a y -> db_evolves x y).
  { intros A k fill x a y H. eapply evolves_writes; [exact H|]. by intros r q _ r' (t & eff & _ & _ & ->). }
  intros H. destruct H as [row disp r ? ? ? ? ?|row ? ? ?|r d1 ? ? H|o d1 d2 Hw H
    |r q exc conflict fill d1 d2 ? ? ? Hk Hr|row_fp row original d1 d2 ? ? ? ? H1 H2].
  - apply Hobs.
  - apply Hobs.
  - etrans; [by eapply Hkey | apply Hobs].
  - etrans; [eapply evolves_writes; [exact Hw | apply moved_flags]|].
    etrans; [by eapply Hkey | apply Hobs].
  - etrans; [by eapply Hkey|]. etrans; [apply Hobs | by eapply Hrev].
  - etrans; [apply (Hobs "CONFLICT"%string)|]. etrans.
    + destruct original; [by eapply Hrev | by rewrite H1].
    + case_match; [by subst | by eapply Hrev].
Qed.

Lemma sim_leader_errors w e : (SimOms.assert_leader w).1 = Err e -> fence_error e = true.
Proof.
  unfold SimOms.assert_leader, the_sim, read_part, assert_held, normalize_utc, bindM, guardM, read_rest,
    utc_now, retM, raiseM, read_db. cbn.
  repeat (case_match; simplify_eq/=; try done); by intros [= <-].
Qed.

Lemma ingest_evidence_always e : always (ingest_broker_evidence (R := R) e).
Proof.
  intros w Hw. eapply wp_mono; [apply ingest_refines; [apply leader_quiet | apply sim_leader_errors | done]|].
  intros res w' [[Ht Hr] H]. split; [congruence|].
  assert (Hs : spool_of w' = spool_of w) by (unfold spool_of; by rewrite Hr).
  apply evolves_world; [|done]. destruct res as [r|x].
  - by eapply ingested_evolves.
  - destruct H as [->|(c & _ & H)]; [reflexivity | by eapply ingested_evolves].
Qed.

Lemma journal_always session sequence account payload observed_at :
  always (journal_ingest guard session sequence account payload observed_at).
Proof.
  unfold journal_ingest. apply always_bind; [eauto with sim | intros _]. cbv zeta.
  eapply (always_tx _ (fun d _ d' => db_evolves d d')); [|done].
  intros w Hw. apply tx_ok_intro; [done|]. intros w1 <- _ _.
  apply in_tx_ok_quiet; [by apply guard_write_quiet, sim_guard_quiet|]. intros _ w2 <- _.
  apply in_tx_ok_read. case_match.
  - apply (steps_quiet db_evolves). apply quiet_bind; [auto with quiet | intros _].
    apply quiet_bind; [|auto with quiet]. case_match; [|auto with quiet].
    apply quiet_bind; [apply get_status_quiet | auto with quiet].
  - apply in_tx_ok_read. apply in_tx_ok_quiet; [apply quiet_guard|]. intros _ w3 <- _.
    apply in_tx_ok_quiet; [apply quiet_utc|]. intros now w4 <- _.
    eapply in_tx_ok_bind; [apply insert_result_ok|]. cbv beta. intros _ w5 (x & _ & Hw5) _.
    assert (H45 : db_evolves (w_db w4) (w_db w5)) by (rewrite Hw5; by apply evolves_ext).
    case_match; [|by apply in_tx_ok_ret].
    eapply in_tx_ok_bind; [apply record_reconciliation_exact, sim_guard_quiet|].
    cbv beta. intros o w6 H6 _. apply in_tx_ok_quiet; [apply quiet_guard|]. intros _ w7 Hd7 _.
    apply in_tx_ok_ret. rewrite Hd7. etrans; [exact H45|]. eapply evolves_writes; [exact H6|].
    intros ? ? ? ?. apply moved_flags.
Qed.

Lemma observe_always id s : always (observe_command_result_dispatch (R := R) id s).
Proof.
  unfold observe_command_result_dispatch. apply always_bind; [eauto with sim | intros row].
  repeat case_match; [apply set_dispatch_state_always.. | eauto with sim | eauto with sim].
Qed.

Lemma simulation_result_always e a c s m p o : always (ingest_simulation_result (R := R) e a c s m p o).
Proof.
  unfold ingest_simulation_result. destruct (rpartition_colon e) as [[[|ch b] t]|]; try eauto with sim.
  destruct (py_int t); [|eauto with sim].
  apply always_bind; [eauto with sim | intros i].
  do 2 (apply always_bind; [eauto with sim | intros _]).
  apply always_bind; [case_match; eauto with sim | intros at_].
  apply always_bind; [apply journal_always | intros r].
  apply always_bind; [apply observe_always | intros _; eauto with sim].
Qed.
(** ** Executing and cancelling *)

(** Steps whose value does not matter before one that needs the plans. *)
Lemma evolving_plans {A B} (m : M R A) (f : A -> M R B) w :
  always m -> w_in_tx w = false -> plans_inv (w_db w) ->
  (forall a w', w_in_tx w' = false -> plans_inv (w_db w') -> evolving (f a) w') ->
  evolving (bindM m f) w.
Proof.
  intros Hm Hw Hp Hf. apply evolving_bind; [by apply evolving_always|].
  intros a w' Hw' He. apply Hf; [done|]. by apply (de_inv _ _ (we_db _ _ He)).
Qed.

Lemma dispatch_for_order_planned c t w :
  plans_inv (w_db w) ->
  wp (dispatch_for_order (R := R) c t) (fun res w' => w' = w /\
    match res with Ok (Some row) => planned row (w_db w) | _ => True end) w.
Proof.
  intros Hinv. unfold dispatch_for_order, the_instance, read_part. repeat wp_step. split; [done|].
  destruct (List.find _ _) as [[id row]|] eqn:Ef; [|done].
  apply List.find_some in Ef as [Hin _]. apply list_elem_of_In, tbl_scan_elem in Hin; [|apply Hinv].
  by exists row.
Qed.

(** A plan that is found is recovered; otherwise [f] goes on. *)
Lemma evolving_dispatch {B} c t (f : option dispatch -> M R B) w :
  w_in_tx w = false -> plans_inv (w_db w) ->
  (forall row, planned row (w_db w) -> evolving (f (Some row)) w) ->
  evolving (f None) w ->
  evolving (bindM (dispatch_for_order c t) f) w.
Proof.
  intros Hw Hinv Hs Hn. unfold evolving. apply wp_bind.
  eapply wp_mono; [by apply dispatch_for_order_planned|].
  intros [[row|]|e] w' [-> H]; [by apply Hs | done | split; [done | reflexivity]].
Qed.

(** A reservation and its plan, and then what is published under it. *)
Lemma evolving_reserve {B} c b (cancel : bool) (f : dispatch -> M R B) w :
  qc_command_type c = (if cancel then CANCEL_ORDER else SUBMIT_LIMIT) -> w_in_tx w = false ->
  (forall p w', w_in_tx w' = false -> planned p (w_db w') -> evolving (f p) w') ->
  evolving (bindM (reserve_and_persist_dispatch c b cancel) f) w.
Proof.
  intros Hty Hw Hf. unfold evolving. apply wp_bind. eapply wp_mono; [by apply reserve_ok|].
  intros [p|e] w1 (Hw1 & He & Hp); [|done]. eapply wp_mono; [by apply Hf|].
  intros r w2 [Hw2 He2]. split; [done | by etrans].
Qed.

Lemma evolving_recover {B} row (f : unit -> M R B) w :
  w_in_tx w = false -> planned row (w_db w) -> (forall u, always (f u)) ->
  evolving (bindM (recover_dispatch row) f) w.
Proof.
  intros Hw Hp Hf. apply evolving_bind; [by apply recover_dispatch_evolving|].
  intros u w' Hw' _. by apply evolving_always.
Qed.

Lemma submit_command_type i intent c : build_submit_command i intent = Ok c -> qc_command_type c = SUBMIT_LIMIT.
Proof. intros (token & _ & [= <-])%res_bind_ok. done. Qed.
Lemma cancel_command_type i c b now cmd : build_cancel_command i c b now = Ok cmd -> qc_command_type cmd = CANCEL_ORDER.
Proof. intros (token & _ & [= <-])%res_bind_ok. done. Qed.

Ltac plan_step := apply evolving_plans; [eauto with sim | done | done | intros ? ? ? ?].

Lemma execute_intent_evolving intent w :
  w_in_tx w = false -> plans_inv (w_db w) -> evolving (execute_intent intent) w.
Proof.
  intros Hw Hinv. unfold execute_intent. plan_step.
  apply evolving_plans; [apply maintain_always | done | done | intros _ w2 Hw2 Hinv2].
  do 4 plan_step. apply evolving_dispatch; [done | done | |].
  - intros row Hp. apply evolving_lift; [done|]. intros c _. apply evolving_lift; [done|]. intros raw _.
    apply evolving_check; [done|]. intros _. apply evolving_recover; [done | done | intros _; eauto with sim].
  - apply evolving_plans; [apply create_intent_always | done | done | intros _ w3 Hw3 Hinv3].
    apply evolving_plans; [apply risk_decision_always | done | done | intros s w4 Hw4 Hinv4].
    apply evolving_lift; [done|]. intros c Hc%submit_command_type.
    apply evolving_reserve; [done | done | intros row w5 Hw5 Hp].
    apply evolving_bind; [by apply evolving_always, Hw5; apply register_always|].
    intros t w6 Hw6 He6. apply evolving_recover; [done | by eapply planned_evolves | intros _; eauto with sim].
Qed.

Lemma cancel_intent_evolving c w :
  w_in_tx w = false -> plans_inv (w_db w) -> evolving (cancel_intent c) w.
Proof.
  intros Hw Hinv. unfold cancel_intent. plan_step.
  apply evolving_plans; [apply maintain_always | done | done | intros _ w2 Hw2 Hinv2].
  plan_step. cbv zeta. plan_step. case_match; [apply evolving_always; [eauto with sim | done]|].
  apply evolving_dispatch; [done | done | |].
  - intros row Hp. apply evolving_recover; [done | done | intros _; eauto with sim].
  - apply evolving_check; [done|]. intros _. case_match; [|apply evolving_always; [eauto with sim | done]].
    apply evolving_check; [done|]. intros _. plan_step.
    apply evolving_lift; [done|]. intros cmd Hc%cancel_command_type.
    apply evolving_reserve; [done | done | intros row w5 Hw5 Hp].
    apply evolving_recover; [done | done | intros _; eauto with sim].
Qed.

Lemma sim_init_evolving i w :
  w_in_tx w = false -> plans_inv (w_db w) -> evolving (sim_init i) w.
Proof.
  intros Hw Hinv. unfold sim_init. plan_step.
  apply evolving_plans; [apply acquire_always | done | done | intros l w2 Hw2 Hinv2].
  plan_step. apply evolving_plans; [apply always_part | done | done | intros _ w3 Hw3 Hinv3].
  plan_step. apply evolving_plans; [apply always_part | done | done | intros _ w4 Hw4 Hinv4].
  unfold evolving. apply wp_try. eapply wp_mono.
  - apply evolving_plans; [apply restore_identities_always | done | done | intros n w5 Hw5 Hinv5].
    apply evolving_plans; [apply refresh_always | done | done | intros m w6 Hw6 Hinv6].
    apply evolving_plans; [apply restore_plans_always | done | done | intros k w7 Hw7 Hinv7].
    apply evolving_plans; [apply validate_always | done | done | intros _ w8 Hw8 Hinv8].
    apply evolving_bind; [by apply recover_dispatches_evolving|].
    intros r w9 Hw9 _. apply evolving_always; [eauto with sim | done].
  - intros [u|e] w5 [Hw5 He]; [done|]. eapply wp_mono.
    + apply (always_bind close _ close_always); [|done]. intros _. eauto with sim.
    + cbv beta. intros r w6 [Hw6 He6]. split; [done | by etrans].
Qed.

(** ** Histories *)

(** The Host starts or restarts the runtime, for any instance, uses it, and loses it;
    the terminal takes command files on.  A call that raises - a file that cannot
    be written, a lost lease - is a step as one that returns. *)
Inductive sim_step : world R -> world R -> Prop :=
  | starts i w : sim_step w (sim_init i w).2
  | executes intent w : sim_step w (execute_intent intent w).2
  | cancels c w : sim_step w (cancel_intent c w).2
  | recovers w : sim_step w (recover_dispatches w).2
  | maintains w : sim_step w (maintain w).2
  | refreshes w : sim_step w (refresh_identities w).2
  | validates w : sim_step w (validate_dispatch_invariants w).2
  | takes_evidence e w : sim_step w (ingest_broker_evidence e w).2
  | takes_result e a c s m p o w : sim_step w (ingest_simulation_result e a c s m p o w).2
  | closes w : sim_step w (close w).2
  | dies w w' : w_db w' = w_db w -> w_in_tx w' = w_in_tx w -> spool_of w' = spool_of w -> sim_step w w'
  | terminal_takes w w' : w_db w' = w_db w -> w_in_tx w' = w_in_tx w ->
      moved (spool_of w) (spool_of w') -> sim_step w w'.

Lemma moved_evolves w w' :
  w_db w' = w_db w -> moved (spool_of w) (spool_of w') -> world_evolves w w'.
Proof.
  intros Hd Hm. split; [rewrite Hd; reflexivity | by apply moved_keeps|].
  destruct Hm as (n & d & d' & raw & Hraw & _ & _ & ->). intros d1 n1 raw1 H1. left.
  apply lookup_insert_Some in H1 as [[[= <- <-] <-]|[_ H1]]; [by exists d|].
  apply lookup_delete_Some in H1 as [_ H1]. by exists d1.
Qed.

Lemma sim_step_evolves w w' :
  sim_step w w' -> w_in_tx w = false -> plans_inv (w_db w) -> w_in_tx w' = false /\ world_evolves w w'.
Proof.
  intros Hs Hw Hinv. destruct Hs.
  - by apply sim_init_evolving.
  - by apply execute_intent_evolving.
  - by apply cancel_intent_evolving.
  - by apply recover_dispatches_evolving.
  - by apply maintain_always.
  - by apply refresh_always.
  - by apply validate_always.
  - by apply ingest_evidence_always.
  - by apply simulation_result_always.
  - by apply close_always.
  - split; [congruence|]. apply evolves_world; [|done]. match goal with H : w_db _ = _ |- _ => rewrite H end. reflexivity.
  - split; [congruence | by apply moved_evolves].
Qed.

Lemma history_evolves w w' :
  rtc sim_step w w' -> w_in_tx w = false -> plans_inv (w_db w) ->
  w_in_tx w' = false /\ plans_inv (w_db w') /\ world_evolves w w'.
Proof.
  induction 1 as [w|w1 w2 w3 Hs _ IH]; intros Hw Hinv; [split; [done | split; [done | reflexivity]]|].
  destruct (sim_step_evolves _ _ Hs Hw Hinv) as [Hw2 He].
  destruct IH as (Hw3 & Hinv3 & He3); [done | by apply (de_inv _ _ (we_db _ _ He))|].
  split; [done|]. split; [done | by etrans].
Qed.

(** C13. No order reaches the terminal twice.  From a state without an open
    transaction, with at most one plan for an order and kind of command and every
    plan's order reserved, and through any history of starts, executions,
    cancellations, recoveries, evidence, results, refreshes, restarts and moves of
    the terminal, calls that raise included: every command file that appears is the
    frame of a plan committed under its command id - it names the plan's account and
    order and its kind of command - whose order is reserved for it
    (the submit call, or the cancel call, is recorded as started); there is no
    other command file, in any directory, for the same account, order and kind of
    command; and the plan stays, the same but for what was observed of it. *)
Theorem published_once w w' n d raw :
  w_in_tx w = false -> plans_inv (w_db w) -> unambiguous (spool_of w) -> rtc sim_step w w' ->
  spool_of w' !! (d, n) = Some raw -> (forall d0, spool_of w !! (d0, n) = None) ->
  exists id row, n = frame_name id /\ tbl_get (dispatches_of (w_db w')) id = Some row /\
    frame_of_plan id row raw /\ reserved (w_db w') row /\
    (forall d2 id2 raw2 row2, spool_of w' !! (d2, frame_name id2) = Some raw2 ->
       tbl_get (dispatches_of (w_db w')) id2 = Some row2 -> dispatch_key row2 = dispatch_key row ->
       id2 = id /\ d2 = d /\ raw2 = raw) /\
    (forall w2, rtc sim_step w' w2 ->
       exists row', tbl_get (dispatches_of (w_db w2)) id = Some row' /\ same_plan row row' /\
         exists d', only_in n d' raw (spool_of w2)).
Proof.
  intros Hw Hinv Hu Hs Hraw Hfresh.
  destruct (history_evolves _ _ Hs Hw Hinv) as (Hw' & Hinv' & [Hdb Hfiles Hnew]).
  destruct (Hnew _ _ _ Hraw) as [(d0 & H0)|(id & row & -> & Hrow & Hframe)]; [by rewrite Hfresh in H0|].
  destruct (Hfiles Hu) as [Hu' _]. exists id, row. do 3 (split; [done|]).
  split; [by eapply pi_reserved|]. split.
  - intros d2 id2 raw2 row2 H2 Hrow2 Hk.
    assert (id2 = id) as -> by (by eapply (pi_unique _ Hinv')). split; [done|].
    destruct (Hu' _ _ _ Hraw) as [_ Ho]. destruct (decide (d2 = d)) as [->|Hne].
    + split; [done | congruence].
    + by rewrite Ho in H2.
  - intros w2 Hs2. destruct (history_evolves _ _ Hs2 Hw' Hinv') as (_ & _ & [Hdb2 Hfiles2 _]).
    destruct (de_plans _ _ Hdb2 _ _ Hrow) as (row' & Hrow' & Hsame). exists row'.
    split; [done|]. split; [done|]. destruct (proj2 (Hfiles2 Hu') _ _ _ Hraw) as (d2 & Ho & _). by exists d2.
Qed.
End Operations.

(** ** A concrete history *)

Abbreviation runtime := (sim * mapper * spool)%type.

Definition demo_instance : QmtInstance :=
  {| qn_instance_id := "guojin_sim"; qn_session_id := "s-1";
     qn_account_fingerprint := AUTHORIZED_GUOJIN_SIM_FINGERPRINT; qn_account_type := "STOCK";
     qn_bridge_build := AUTHORIZED_GUOJIN_SIM_BUILD; qn_created_ms := 0;
     qn_execution_mode := "SIMULATION_CALIBRATION"; qn_trading_enabled := true; qn_live_submit := true;
     qn_live_cancel := true; qn_simulation_only := true |}.

Definition demo_sim_intent : OrderIntent :=
  {| oi_client_order_id := "cid-1"; oi_strategy_id := "strategy"; oi_strategy_version := "1";
     oi_account_fingerprint := AUTHORIZED_GUOJIN_SIM_FINGERPRINT;
     oi_symbol := "600000.SH"; oi_side := BUY; oi_quantity := 100;
     oi_limit_price := Dec.D false 1050 (-2);
     oi_created_at := DT 1750000000000000 (Some 0);
     oi_expires_at := DT 1750000030000000 (Some 0);
     oi_signal_id := "signal"; oi_reason_code := "reason"; oi_order_type := LIMIT |}.

(** A process that has not started its runtime. *)
Definition demo_cold : world runtime :=
  W empty_db false 0
    ({| sm_instance := demo_instance; sm_lease := demo_none; sm_closed := true; sm_last_heartbeat := 0 |},
     {| gm_account_fingerprint := ""; gm_profile := GUOJIN_SIM_PROFILE; gm_orders_by_token := ∅;
        gm_trades := ∅; gm_rejections := [] |}, ∅).

(** A disk that is full at first. *)
#[local] Instance demo_disk : FileEnv :=
  {| env_write := fun n => if (n <? 30)%nat then Some (Exn (OtherException "OSError") "disk full") else None |}.
#[local] Existing Instance demo_env.

Definition demo_started : world runtime := (sim_init demo_instance demo_cold).2.
Definition demo_refused : world runtime := (execute_intent demo_sim_intent demo_started).2.
Definition demo_published : world runtime := (execute_intent demo_sim_intent demo_refused).2.

Definition demo_command_id : string := "simoms-9ffc09dd5d98fc713d132b2667c56a3e50a886265c6c9e8d".
Definition demo_frame : list Z :=
  default [] (spool_of demo_published !! (CInbox, frame_name demo_command_id)).

Lemma demo_frame_there :
  spool_of demo_published !! (CInbox, frame_name demo_command_id) = Some demo_frame.
Proof. vm_compute. reflexivity. Qed.

(** The disk refuses the first publication; the plan stays, and the execution that
    is repeated publishes under it, once. *)
Lemma published_once_witness :
  (execute_intent demo_sim_intent demo_started).1 = Err (Exn (OtherException "OSError") "disk full") /\
  map_to_list (spool_of demo_refused) = [] /\
  (fun r => qd_dispatch_state r) <$> tbl_get (dispatches_of (w_db demo_refused)) demo_command_id
    = Some "PLANNED"%string /\
  exists id row, frame_name demo_command_id = frame_name id /\
    tbl_get (dispatches_of (w_db demo_published)) id = Some row /\
    reserved (w_db demo_published) row.
Proof.
  split; [vm_compute; reflexivity|]. split; [vm_compute; reflexivity|].
  split; [vm_compute; reflexivity|].
  assert (Hs : rtc sim_step demo_cold demo_published).
  { eapply rtc_l; [exact (starts demo_instance demo_cold)|].
    eapply rtc_l; [exact (executes demo_sim_intent demo_started)|].
    apply rtc_once. exact (executes demo_sim_intent demo_refused). }
  assert (Hi : plans_inv (w_db demo_cold)) by (split; [apply tbl_wf_empty | done | done]).
  assert (Hu : unambiguous (spool_of demo_cold)) by (intros n d raw Hn; discriminate Hn).
  destruct (published_once demo_cold demo_published (frame_name demo_command_id) CInbox demo_frame
    eq_refl Hi Hu Hs demo_frame_there (fun _ => eq_refl)) as (id & row & Hid & Hrow & _ & Hres & _).
  exists id, row. split; [exact Hid|]. split; [exact Hrow | exact Hres].
Defined.
