(* ===== verification/PyFloat.v ===== *)
(** * PyFloat: [float(x)] and [Decimal(x)] of the texts and integers of a JSON value

    Binary floats are the [spec_float]s of the Standard Library with 53 bits and
    the exponents of IEEE doubles; a text is read as an exact decimal and rounded
    once, to the nearest double, ties to even. *)

From Stdlib Require Import SpecFloat.
From S2P Require Import Prelude Decimal Json Parse.
Open Scope Z_scope.

Definition float : Type := spec_float.

Definition fprec : Z := 53.
Definition femax : Z := 1024.

Definition fltb : float -> float -> bool := SFltb.
Definition fleb : float -> float -> bool := SFleb.
Definition feqb : float -> float -> bool := SFeqb.

(** The double nearest to [m * 2^0], to [m / n] and to their negatives. *)
Definition of_whole (neg : bool) (m : Z) : float :=
  match m with Zpos p => binary_round fprec femax neg p 0 | _ => S754_zero neg end.

Definition of_quotient (neg : bool) (m n : Z) : float :=
  match m, n with
  | Zpos p, Zpos q => SFdiv fprec femax (S754_finite neg p 0) (S754_finite false q 0)
  | _, _ => S754_zero neg
  end.

(** The double nearest to [m * 10^e], with [digits] digits in [m]; beyond 10^310
    and below 10^-330 the answer does not depend on [m]. *)
Definition of_decimal (neg : bool) (m digits e : Z) : float :=
  if m =? 0 then S754_zero neg
  else if 310 <? digits + e then S754_infinity neg
  else if digits + e <? -330 then S754_zero neg
  else if 0 <=? e then of_whole neg (m * 10 ^ e)
  else of_quotient neg m (10 ^ (- e)).

(** [float(n)] of an integer: [OverflowError] beyond the doubles. *)
Definition float_of_int (z : Z) : option float :=
  match of_whole (z <? 0) (Z.abs z) with
  | S754_infinity _ => None
  | f => Some f
  end.

(** ** Reading a text *)

(** Digits with single underscores between them: their value and number, and what
    follows; [after_digit] when the last character was a digit. *)
Fixpoint digit_run (after_digit : bool) (acc count : Z) (s : string) : Z * Z * string :=
  match s with
  | EmptyString => (acc, count, s)
  | String a r =>
      if is_digit a then digit_run true (10 * acc + Z.of_N (N_of_ascii a - 48)) (count + 1) r
      else if after_digit && is_char 95 a then
        match r with
        | String b _ => if is_digit b then digit_run false acc count r else (acc, count, s)
        | EmptyString => (acc, count, s)
        end
      else (acc, count, s)
  end.

(** An exponent, which ends the text. *)
Definition exponent (s : string) : option Z :=
  let signed (sign : Z) (s : string) :=
    match digit_run false 0 0 s with
    | (e, n, EmptyString) => if 0 <? n then Some (sign * e) else None
    | _ => None
    end in
  match s with
  | EmptyString => Some 0
  | String a r =>
      if is_char 101 a || is_char 69 a then
        match r with
        | String b r' =>
            if is_char 45 b then signed (-1) r' else if is_char 43 b then signed 1 r' else signed 1 r
        | EmptyString => None
        end
      else None
  end.

(** The number of digits of [m], without leading zeros. *)
Definition width (m : Z) : Z := str_len (z_str m).

Definition unsigned (neg : bool) (s : string) : option float :=
  let '(whole, nw, rest) := digit_run false 0 0 s in
  let '(m, nf, rest) :=
    match rest with
    | String a r => if is_char 46 a then
                      let '(m, n, rest) := digit_run false whole 0 r in (m, n, rest)
                    else (whole, 0, rest)
    | EmptyString => (whole, 0, rest)
    end in
  if 0 <? nw + nf then
    e ← exponent rest;
    Some (of_decimal neg m (width m) (e - nf))
  else None.

Definition lower (a : ascii) : ascii :=
  let n := N_of_ascii a in if ((65 <=? n) && (n <=? 90))%N then ascii_of_N (n + 32) else a.

Fixpoint lower_text (s : string) : string :=
  match s with EmptyString => EmptyString | String a r => String (lower a) (lower_text r) end.

Fixpoint strip_front (s : string) : string :=
  match s with
  | String a r => if is_space a then strip_front r else s
  | EmptyString => EmptyString
  end.

Definition strip_text (s : string) : string := String.rev (strip_front (String.rev (strip_front s))).

Definition unnamed (neg : bool) (s : string) : option float :=
  if bool_decide (lower_text s ∈ ["inf"; "infinity"]%string) then Some (S754_infinity neg)
  else if bool_decide (lower_text s = "nan"%string) then Some S754_nan
  else unsigned neg s.

(** [float(text)]; [None] is [ValueError]. *)
Definition float_of_text (s : string) : option float :=
  match strip_text s with
  | String a r =>
      if is_char 45 a then unnamed true r
      else if is_char 43 a then unnamed false r
      else unnamed false (String a r)
  | EmptyString => None
  end.

(** [float(j)]; [None] is the exception it raises. *)
Definition py_float (j : json) : option float :=
  match j with
  | JStr s => float_of_text s
  | JInt z => float_of_int z
  | JBool b => float_of_int (if b then 1 else 0)
  | JFloat x => float_of_text (float_str x)
  | _ => None
  end.

Definition float_zero : float := S754_zero false.
Definition float_one : float := of_whole false 1.

Example float_tenth : float_of_text " 0.1 " = Some (S754_finite false 7205759403792794 (-56)).
Proof. vm_compute. reflexivity. Qed.

Example float_halfway : float_of_text "9007199254740993" = Some (S754_finite false 4503599627370496 1).
Proof. vm_compute. reflexivity. Qed.

Example float_least : float_of_text "2.4703282292062328e-324" = Some (S754_finite false 1 (-1074)).
Proof. vm_compute. reflexivity. Qed.

Example float_big : float_of_text "1e400" = Some (S754_infinity false) /\ float_of_text "1__0" = None /\
  float_of_text "1_0.5" = float_of_text "10.50" /\ float_of_int (10 ^ 400) = None.
Proof. vm_compute. repeat split. Qed.

(** ** [Decimal(text)] *)

Fixpoint without_underscores (s : string) : string :=
  match s with
  | EmptyString => EmptyString
  | String a r => if is_char 95 a then without_underscores r else String a (without_underscores r)
  end.

(** The exponents of the decimals of C. *)
Definition MAX_EMAX : Z := 999999999999999999.
Definition MIN_ETINY : Z := -1999999999999999997.

(** Digits, a point among them or not, an exponent or not: exactly what is written. *)
Definition decimal_number (neg : bool) (s : string) : option Dec.pydec :=
  let '(whole, nw, rest) := digit_run false 0 0 s in
  let '(m, nf, rest) :=
    match rest with
    | String a r => if is_char 46 a then digit_run false whole 0 r else (whole, 0, rest)
    | EmptyString => (whole, 0, rest)
    end in
  if 0 <? nw + nf then
    e ← exponent rest;
    let d := Dec.D neg m (e - nf) in
    if (Dec.adjusted d <=? MAX_EMAX) && (MIN_ETINY <=? Dec.exp d) then Some (Dec.Fin d) else None
  else None.

Definition decimal_unsigned (neg : bool) (s : string) : option Dec.pydec :=
  let l := lower_text s in
  if bool_decide (l ∈ ["inf"; "infinity"]%string) then Some (Dec.Inf neg)
  else if (startswith "nan" l && all_chars is_digit (String.substring 3 (String.length l - 3) l)) ||
          (startswith "snan" l && all_chars is_digit (String.substring 4 (String.length l - 4) l))
  then Some Dec.NaN
  else decimal_number neg s.

Definition decimal_of_text (s : string) : option Dec.pydec :=
  match without_underscores (strip_text s) with
  | String a r =>
      if is_char 45 a then decimal_unsigned true r
      else if is_char 43 a then decimal_unsigned false r
      else decimal_unsigned false (String a r)
  | EmptyString => None
  end.

(** [Decimal(str(j))]; the texts of [None], of Booleans and of containers are no numbers. *)
Definition decimal_of_json (j : json) : option Dec.pydec :=
  match j with
  | JStr s => decimal_of_text s
  | JInt z => Some (Dec.Fin (Dec.of_Z z))
  | JFloat x => decimal_of_text (float_str x)
  | _ => None
  end.

Example decimal_texts :
  decimal_of_text " -1_0.50e2 " = Some (Dec.Fin (Dec.D true 1050 0)) /\
  decimal_of_text "sNaN12" = Some Dec.NaN /\ decimal_of_text "1e" = None /\ decimal_of_text "1e9999999999999999999" = None.
Proof. vm_compute. by repeat split. Qed.
