(* ===== verification/Bridge.v ===== *)
(** * Bridge: the program inside the terminal

    The file-spool bridge that runs in the broker's terminal
    (qmt_side/BIGQMT_EXECUTION_BRIDGE_V05_GUOJIN_SIM.py and the artifact of the
    live canary, qmt_side/BIGQMT_EXECUTION_BRIDGE_V05_GUOJIN.py, which differs from
    it in its constants, its executor and its instrument diagnostics).  It reports
    what the terminal says as events, and claims the Host's command files, each
    of which it executes at most once.  The terminal's own API is a parameter. *)

From stdpp Require Import gmap sets.
From S2P Require Import Prelude PyTime Json Parse Domain Db OrderStore BrokerEvidence Parts Wire Frame Spool Commands CommandResults PyFloat.
Open Scope Z_scope.
Open Scope oms_scope.

(** ** What the terminal gives *)

(** An attribute: what [str] and [int] make of it is all that is read of an object
    of another type ([None]: they raise). *)
Inductive pyval :=
  | PNone
  | PBool (b : bool)
  | PInt (z : Z)
  | PStr (s : string)
  | PObj (str : option string) (int : option Z).

(** A row of a query, or what a callback is given: its attributes. *)
Abbreviation qobj := (list (string * pyval)).

(** [get_trade_detail_data], [passorder], [can_cancel_order], [cancel],
    [run_time], [set_account], [get_instrument_detail], the wall clock, whether an
    operation on a file fails, each at a tick, and [sys.version.split()[0]]. *)
Class Terminal := {
  tm_account : option string;
  tm_account_type : option string;
  tm_query : option (nat -> string -> string -> string -> res (option (list qobj)));
  tm_passorder : nat -> option exn;
  tm_can_cancel : nat -> option string -> res bool;
  tm_cancel : nat -> option string -> res bool;
  tm_run_time : option (nat -> option exn);
  tm_set_account : option (nat -> option exn);
  tm_instrument_detail : option (nat -> string -> res (option qobj));
  tm_localtime : nat -> Z * Z * Z;
  tm_file : nat -> option exn;
  tm_python_version : string
}.

(** The calls that may change something at the broker, in order. *)
Inductive api_call :=
  | Passorder (optype : Z) (account symbol : string) (price : float) (quantity : Z)
      (strategy broker_token : string)
  | CancelCall (broker_order_id : option string) (account account_type : string).

Abbreviation calls := (list api_call).

(** ** Constants *)

Definition PROTOCOL_VERSION : string := "0.2".
Definition MAX_QUEUED_EVENTS : Z := 512.
Definition TRANSPORT_FLUSH_BATCH : nat := 64.
Definition COMMAND_BATCH : nat := 16.
Definition TRANSPORT_MAX_FRAME_BYTES : Z := 1024 * 1024.
Definition COMMAND_MAX_FRAME_BYTES : Z := 64 * 1024.
(** 300.0, and as microseconds of the clock. *)
Definition ACCOUNT_CALLBACK_HEARTBEAT_SECONDS : jfloat :=
  {| fl_negative := false; fl_whole := 300; fl_fraction := "0"; fl_ok := I |}.
Definition ACCOUNT_CALLBACK_HEARTBEAT : Z := float_trunc ACCOUNT_CALLBACK_HEARTBEAT_SECONDS * 1000000.
Definition STANDARD_ACCOUNT_TYPES : list string :=
  ["STOCK"; "CREDIT"; "FUTURE"; "FUTURE_OPTION"; "STOCK_OPTION"; "HUGANGTONG"; "SHENGANGTONG"].

Definition BROKER_TYPE_CODES (account_type : string) : option Z :=
  snd <$> List.find (fun p => bool_decide (p.1 = account_type))
    [("FUTURE", 1); ("STOCK", 2); ("CREDIT", 3); ("FUTURE_OPTION", 5); ("STOCK_OPTION", 6);
     ("HUGANGTONG", 7); ("SHENGANGTONG", 11)].

Definition CommandError : exn_class := OtherException "CommandError".
Definition TransportError : exn_class := OtherException "TransportError".
Definition ReadOnlyBridgeError : exn_class := OtherException "ReadOnlyBridgeError".
Definition FileNotFoundError : exn_class := OtherException "FileNotFoundError".

(** The settings of an artifact. *)
Record deployment := {
  TERMINAL_INSTANCE_ID : string; EXECUTION_MODE : string; TRADING_ENABLED : bool;
  LIVE_SUBMIT_ENABLED : bool; LIVE_CANCEL_ENABLED : bool; SIMULATION_ONLY : bool;
  AUTHORIZED_ACCOUNT_FINGERPRINT : string; SIMULATION_MAX_ORDER_QUANTITY : Z;
  SIMULATION_MAX_SUBMIT_CALLS : Z; SIMULATION_MAX_CANCEL_CALLS : Z; BRIDGE_BUILD : string
}.

Definition guojin_sim : deployment :=
  {| TERMINAL_INSTANCE_ID := "guojin_sim"; EXECUTION_MODE := "SIMULATION_CALIBRATION";
     TRADING_ENABLED := true; LIVE_SUBMIT_ENABLED := true; LIVE_CANCEL_ENABLED := true;
     SIMULATION_ONLY := true;
     AUTHORIZED_ACCOUNT_FINGERPRINT :=
       "sha256:ff266d673e28fbba5da4bfe2c68975f75b6a9fb5b89014503409b2b014ce0702";
     SIMULATION_MAX_ORDER_QUANTITY := 100; SIMULATION_MAX_SUBMIT_CALLS := 2000;
     SIMULATION_MAX_CANCEL_CALLS := 2000; BRIDGE_BUILD := "p5-simulation-calibration-8" |}.

Definition guojin : deployment :=
  {| TERMINAL_INSTANCE_ID := "guojin"; EXECUTION_MODE := "LIVE_CANARY";
     TRADING_ENABLED := true; LIVE_SUBMIT_ENABLED := true; LIVE_CANCEL_ENABLED := true;
     SIMULATION_ONLY := false;
     AUTHORIZED_ACCOUNT_FINGERPRINT :=
       "sha256:7cbd3cda92705081654ef838f9b93ab9f7928349ecf05fe97205c2d2948434e5";
     SIMULATION_MAX_ORDER_QUANTITY := 100; SIMULATION_MAX_SUBMIT_CALLS := 1;
     SIMULATION_MAX_CANCEL_CALLS := 1; BRIDGE_BUILD := "p6-guojin-live-canary-7" |}.

(** ** Text and numbers of attributes *)

(** [_get(obj, name)]. *)
Definition attr (name : string) (o : qobj) : pyval :=
  match List.find (fun p => bool_decide (p.1 = name)) o with Some p => p.2 | None => PNone end.

(** [_text]. *)
Definition text_of_val (v : pyval) : option string :=
  match v with
  | PNone => None
  | PBool b => Some (if b then "True" else "False")
  | PInt z => Some (z_str z)
  | PStr s => Some s
  | PObj s _ => s
  end.

(** [_decimal_text]. *)
Definition decimal_text (v : pyval) : option string :=
  match v with PBool b => Some (if b then "1" else "0") | _ => text_of_val v end.

(** [_int_value]. *)
Definition int_value (v : pyval) : option Z :=
  match v with
  | PNone => None
  | PBool b => Some (if b then 1 else 0)
  | PInt z => Some z
  | PStr s => py_int s
  | PObj _ i => i
  end.

Definition text_attr (name : string) (o : qobj) : json := jopt_str (text_of_val (attr name o)).
Definition decimal_attr (name : string) (o : qobj) : json := jopt_str (decimal_text (attr name o)).
Definition int_attr (name : string) (o : qobj) : json :=
  match int_value (attr name o) with Some z => JInt z | None => JNull end.

(** A text that is there and not empty. *)
Definition some_text (o : option string) : option string :=
  match o with Some s => if str_nonempty s then Some s else None | None => None end.

(** [_symbol]. *)
Definition symbol_of (o : qobj) : option string :=
  let instrument := text_of_val (attr "m_strInstrumentID" o) in
  match some_text instrument, some_text (text_of_val (attr "m_strExchangeID" o)) with
  | Some i, Some e => Some (i +:+ "." +:+ e)
  | _, _ => instrument
  end.

(** [_fingerprint]. *)
Definition fingerprint (account_id account_type : option string) : option string :=
  match some_text account_id with
  | Some id => Some ("sha256:" +:+ Sha256.hexdigest (utf8 (default "" account_type +:+ ":" +:+ id)))
  | None => None
  end.

(** [_account_type], of a text in ASCII. *)
Fixpoint upper_text (s : string) : string :=
  match s with
  | EmptyString => EmptyString
  | String a r =>
      let n := N_of_ascii a in
      String (if ((97 <=? n) && (n <=? 122))%N then ascii_of_N (n - 32) else a) (upper_text r)
  end.

Definition account_type_of (value : option string) : option string := upper_text <$> some_text value.

Definition normalize_account (o : qobj) : jdict :=
  [("status", text_attr "m_strStatus" o); ("balance", decimal_attr "m_dBalance" o);
   ("available_cash", decimal_attr "m_dAvailable" o);
   ("instrument_value", decimal_attr "m_dInstrumentValue" o);
   ("stock_value", decimal_attr "m_dStockValue" o);
   ("trading_date", text_attr "m_strTradingDate" o)].

Definition normalize_position (o : qobj) : jdict :=
  [("symbol", jopt_str (symbol_of o)); ("quantity", int_attr "m_nVolume" o);
   ("sellable_quantity", int_attr "m_nCanUseVolume" o);
   ("frozen_quantity", int_attr "m_nFrozenVolume" o);
   ("on_road_quantity", int_attr "m_nOnRoadVolume" o);
   ("market_value", decimal_attr "m_dMarketValue" o); ("last_price", decimal_attr "m_dLastPrice" o);
   ("open_price", decimal_attr "m_dOpenPrice" o); ("trading_day", text_attr "m_strTradingDay" o)].

Definition normalize_order (o : qobj) : jdict :=
  [("symbol", jopt_str (symbol_of o)); ("order_ref", text_attr "m_strOrderRef" o);
   ("broker_order_id", text_attr "m_strOrderSysID" o); ("remark", text_attr "m_strRemark" o);
   ("status_code", int_attr "m_nOrderStatus" o);
   ("submit_status_code", int_attr "m_nOrderSubmitStatus" o);
   ("original_quantity", int_attr "m_nVolumeTotalOriginal" o);
   ("filled_quantity", int_attr "m_nVolumeTraded" o);
   ("remaining_quantity", int_attr "m_nVolumeTotal" o);
   ("cancelled_quantity", decimal_attr "m_dCancelAmount" o);
   ("limit_price", decimal_attr "m_dLimitPrice" o);
   ("average_fill_price", decimal_attr "m_dTradedPrice" o);
   ("insert_date", text_attr "m_strInsertDate" o); ("insert_time", text_attr "m_strInsertTime" o);
   ("error_code", int_attr "m_nErrorID" o); ("cancel_info", text_attr "m_strCancelInfo" o);
   ("operation", text_attr "m_strOptName" o)].

(** The attribute as the API spells it, or as it misspells it. *)
Definition commission (o : qobj) : json :=
  match List.find (fun p => bool_decide (p.1 = "m_dCommission"%string)) o with
  | Some _ => decimal_attr "m_dCommission" o
  | None => decimal_attr "m_dComission" o
  end.

Definition normalize_deal (o : qobj) : jdict :=
  [("symbol", jopt_str (symbol_of o)); ("trade_id", text_attr "m_strTradeID" o);
   ("order_ref", text_attr "m_strOrderRef" o); ("broker_order_id", text_attr "m_strOrderSysID" o);
   ("remark", text_attr "m_strRemark" o); ("price", decimal_attr "m_dPrice" o);
   ("quantity", int_attr "m_nVolume" o); ("trade_date", text_attr "m_strTradeDate" o);
   ("trade_time", text_attr "m_strTradeTime" o); ("commission", commission o);
   ("trade_amount", decimal_attr "m_dTradeAmount" o); ("operation", text_attr "m_strOptName" o)].

(** ** The state of a session *)

(** The account the model is bound to, and the session of this start. *)
Record binding := {
  bb_account_id : option string; bb_account_type : option string;
  bb_account_fingerprint : option string; bb_session_id : string
}.

(** Events on their way to the event spool. *)
Record outbox := {
  ob_sequence : Z; ob_events : list jdict; ob_dropped : Z; ob_persisted : Z; ob_failures : Z;
  ob_last_error : option string
}.

(** What was said of the account, and the account types that were seen. *)
Record account_view := {
  av_payload_digest : option string; av_state_monotonic : Z; av_suppressed : Z; av_emitted : Z;
  av_detected : gset string; av_linked_suppressed : Z
}.

(** What was done with commands. *)
Record command_view := {
  cv_orphan_recovery_done : bool; cv_claimed : Z; cv_processed : Z; cv_rejected : Z;
  cv_unknown : Z; cv_submit_calls : Z; cv_cancel_calls : Z; cv_halted : bool
}.

Record readiness := {
  rd_initialized : bool; rd_callback_subscription : bool; rd_command_timer : bool;
  rd_snapshot_timer : bool; rd_spool_ready : bool
}.

(** [_RuntimeState]. *)
Record bridge := {
  br_binding : binding; br_outbox : outbox; br_account : account_view; br_commands : command_view;
  br_ready : readiness
}.

(** [_RuntimeState()] of a new session. *)
Definition fresh_bridge (session_id : string) : bridge :=
  {| br_binding := {| bb_account_id := None; bb_account_type := None;
                      bb_account_fingerprint := None; bb_session_id := session_id |};
     br_outbox := {| ob_sequence := 0; ob_events := []; ob_dropped := 0; ob_persisted := 0;
                     ob_failures := 0; ob_last_error := None |};
     br_account := {| av_payload_digest := None; av_state_monotonic := 0; av_suppressed := 0;
                      av_emitted := 0; av_detected := ∅; av_linked_suppressed := 0 |};
     br_commands := {| cv_orphan_recovery_done := false; cv_claimed := 0; cv_processed := 0;
                       cv_rejected := 0; cv_unknown := 0; cv_submit_calls := 0;
                       cv_cancel_calls := 0; cv_halted := false |};
     br_ready := {| rd_initialized := false; rd_callback_subscription := false;
                    rd_command_timer := false; rd_snapshot_timer := false;
                    rd_spool_ready := false |} |}.

Definition set_binding (x : binding) (b : bridge) : bridge :=
  {| br_binding := x; br_outbox := br_outbox b; br_account := br_account b;
     br_commands := br_commands b; br_ready := br_ready b |}.
Definition set_outbox (x : outbox) (b : bridge) : bridge :=
  {| br_binding := br_binding b; br_outbox := x; br_account := br_account b;
     br_commands := br_commands b; br_ready := br_ready b |}.
Definition set_account (x : account_view) (b : bridge) : bridge :=
  {| br_binding := br_binding b; br_outbox := br_outbox b; br_account := x;
     br_commands := br_commands b; br_ready := br_ready b |}.
Definition set_commands (x : command_view) (b : bridge) : bridge :=
  {| br_binding := br_binding b; br_outbox := br_outbox b; br_account := br_account b;
     br_commands := x; br_ready := br_ready b |}.
Definition set_ready (x : readiness) (b : bridge) : bridge :=
  {| br_binding := br_binding b; br_outbox := br_outbox b; br_account := br_account b;
     br_commands := br_commands b; br_ready := x |}.

(** The counters of [command_view]. *)
Definition count_commands (claimed processed rejected unknown submits cancels : Z) (c : command_view)
    : command_view :=
  {| cv_orphan_recovery_done := cv_orphan_recovery_done c; cv_claimed := cv_claimed c + claimed;
     cv_processed := cv_processed c + processed; cv_rejected := cv_rejected c + rejected;
     cv_unknown := cv_unknown c + unknown; cv_submit_calls := cv_submit_calls c + submits;
     cv_cancel_calls := cv_cancel_calls c + cancels; cv_halted := cv_halted c |}.
Definition set_orphans_done (c : command_view) : command_view :=
  {| cv_orphan_recovery_done := true; cv_claimed := cv_claimed c; cv_processed := cv_processed c;
     cv_rejected := cv_rejected c; cv_unknown := cv_unknown c; cv_submit_calls := cv_submit_calls c;
     cv_cancel_calls := cv_cancel_calls c; cv_halted := cv_halted c |}.
Definition set_halted (c : command_view) : command_view :=
  {| cv_orphan_recovery_done := cv_orphan_recovery_done c; cv_claimed := cv_claimed c;
     cv_processed := cv_processed c; cv_rejected := cv_rejected c; cv_unknown := cv_unknown c;
     cv_submit_calls := cv_submit_calls c; cv_cancel_calls := cv_cancel_calls c; cv_halted := true |}.

(** [_valid_instance_id] and [_spool_instance_id]. *)
Definition spool_instance_id (dep : deployment) : option string :=
  if is_instance_id (TERMINAL_INSTANCE_ID dep) then Some (TERMINAL_INSTANCE_ID dep) else None.

(** [_transport_frame]. *)
Definition transport_frame (event : jdict) : res (list Z) :=
  let raw := utf8 (frame_text (JObj event)) in
  (do! guard_r (frame_size raw <=? TRANSPORT_MAX_FRAME_BYTES) TransportError "event frame too large" ;;
   Ok raw)%py.

(** [_event_filename] of an event [_event] made. *)
Definition event_filename (event : jdict) : string :=
  zpad 13 (whole (jget "timestamp_ms" event)) +:+ "_" +:+
  (if str_nonempty (text (jget "session_id" event)) then text (jget "session_id" event) else "nosession")
  +:+ "_" +:+ zpad 20 (whole (jget "sequence" event)) +:+ ".json".

(** [_payload_digest]. *)
Definition payload_digest (payload : jdict) : string :=
  Sha256.hexdigest (utf8 (dumps true (JObj payload))).

Section Events.
Context {R : Type} {bridge_part : Part bridge R} {inbox_part : Part files R}.
Context {env : Env} {term : Terminal} (dep : deployment).
Implicit Types (w : world R).

(** Something outside the program, at the current tick. *)
Definition external {A} (f : nat -> res A) : M R A := fun w => (f (w_tick w), tick_world w).

(** An operation on files, which may fail. *)
Definition file_op : M R unit :=
  external (fun n => match tm_file n with Some e => Err e | None => Ok tt end).

(** [except Exception]. *)
Definition catchable (e : exn) : bool :=
  match exn_cls e with
  | OtherBaseException _ => false
  | c => negb (bool_decide (c = Beyond))
  end.
Definition except {A} (m : M R A) (h : exn -> M R A) : M R A :=
  tryM m (fun e => if catchable e then h e else reraise e).

Definition the_bridge : M R bridge := read_part (fun b : bridge => b).
Definition on_bridge (f : bridge -> bridge) : M R unit := write_part f.
Definition count_done (claimed processed rejected unknown : Z) : M R unit :=
  on_bridge (fun b => set_commands
    (count_commands claimed processed rejected unknown 0 0 (br_commands b)) b).

(** [time.monotonic()]: the clock, in microseconds. *)
Definition bridge_monotonic : M R Z := t <- clock_now ;; retM (instant t).

(** [_event]. *)
Definition make_event (event_type source : string) (payload : jdict) : M R jdict :=
  do! on_bridge (fun b =>
        let o := br_outbox b in
        set_outbox {| ob_sequence := ob_sequence o + 1; ob_events := ob_events o;
                      ob_dropped := ob_dropped o; ob_persisted := ob_persisted o;
                      ob_failures := ob_failures o; ob_last_error := ob_last_error o |} b) ;;
  b <- the_bridge ;;
  now_ms <- time_ms ;;
  retM [("protocol_version", JStr PROTOCOL_VERSION);
        ("session_id", JStr (bb_session_id (br_binding b)));
        ("sequence", JInt (ob_sequence (br_outbox b))); ("timestamp_ms", JInt now_ms);
        ("event_type", JStr event_type); ("source", JStr source);
        ("account_fingerprint", jopt_str (bb_account_fingerprint (br_binding b)));
        ("account_type", jopt_str (bb_account_type (br_binding b)));
        ("terminal_instance_id", jopt_str (spool_instance_id dep)); ("payload", JObj payload)].

(** [_enqueue]: the oldest event gives way. *)
Definition enqueue (event_type source : string) (payload : jdict) : M R unit :=
  body <- make_event event_type source payload ;;
  on_bridge (fun b =>
    let o := br_outbox b in
    let full := MAX_QUEUED_EVENTS <=? Z.of_nat (length (ob_events o)) in
    set_outbox {| ob_sequence := ob_sequence o;
                  ob_events := (if full then tl (ob_events o) else ob_events o) ++ [body];
                  ob_dropped := ob_dropped o + (if full then 1 else 0);
                  ob_persisted := ob_persisted o; ob_failures := ob_failures o;
                  ob_last_error := ob_last_error o |} b).

(** [drain_events]. *)
Definition drain_events (max_items : option nat) : M R (list jdict) :=
  b <- the_bridge ;;
  let events := ob_events (br_outbox b) in
  let n := default (length events) max_items in
  do! on_bridge (fun b =>
        let o := br_outbox b in
        set_outbox {| ob_sequence := ob_sequence o; ob_events := drop n (ob_events o);
                      ob_dropped := ob_dropped o; ob_persisted := ob_persisted o;
                      ob_failures := ob_failures o; ob_last_error := ob_last_error o |} b) ;;
  retM (take n events).

Definition update_ready (f : readiness -> readiness) : M R unit :=
  on_bridge (fun b => set_ready (f (br_ready b)) b).

(** [_ensure_spool]. *)
Definition ensure_spool : M R unit :=
  do! file_op ;;
  update_ready (fun r => {| rd_initialized := rd_initialized r;
    rd_callback_subscription := rd_callback_subscription r; rd_command_timer := rd_command_timer r;
    rd_snapshot_timer := rd_snapshot_timer r; rd_spool_ready := true |}).

(** [_persist_event]: a file of the event spool, under its own name. *)
Definition persist_event (event : jdict) : M R unit :=
  do! ensure_spool ;;
  let name := event_filename event in
  there <- read_part (fun fs : files => bool_decide (is_Some (fs !! (Inbox, name)))) ;;
  if there then retM tt
  else
    raw <- lift (transport_frame event) ;;
    do! file_op ;;
    write_part (fun fs : files => <[(Inbox, name) := raw]> fs).

(** The loop of [flush_transport]: the number of events that were persisted. *)
Fixpoint flush_loop (l : list jdict) : M R Z :=
  match l with
  | [] => retM 0
  | event :: l =>
      ok <- except (do! persist_event event ;; retM true) (fun e =>
              do! on_bridge (fun b =>
                    let o := br_outbox b in
                    set_outbox {| ob_sequence := ob_sequence o; ob_events := ob_events o;
                                  ob_dropped := ob_dropped o; ob_persisted := ob_persisted o;
                                  ob_failures := ob_failures o + 1;
                                  ob_last_error := Some (class_name (exn_cls e)) |} b) ;;
              retM false) ;;
      if (ok : bool) then n <- flush_loop l ;; retM (n + 1) else retM 0
  end.

Definition flush_transport : M R Z :=
  b <- the_bridge ;;
  persisted <- flush_loop (take TRANSPORT_FLUSH_BATCH (ob_events (br_outbox b))) ;;
  do! (if persisted =? 0 then retM tt
       else on_bridge (fun b =>
              let o := br_outbox b in
              set_outbox {| ob_sequence := ob_sequence o;
                            ob_events := drop (Z.to_nat persisted) (ob_events o);
                            ob_dropped := ob_dropped o; ob_persisted := ob_persisted o + persisted;
                            ob_failures := ob_failures o; ob_last_error := None |} b)) ;;
  retM persisted.

(** [_runtime_error]. *)
Definition runtime_error (code : string) (exc : option exn) (extra : jdict) : M R unit :=
  let payload := fold_left (fun d p => dict_set p.1 p.2 d) extra
    ([("code", JStr code)] ++
     match exc with Some e => [("error_type", JStr (class_name (exn_cls e)))] | None => [] end) in
  b <- the_bridge ;;
  if bool_decide (is_Some (bb_account_fingerprint (br_binding b))) then
    do! enqueue "bridge_error" "runtime" payload ;;
    do! flush_transport ;;
    retM tt
  else retM tt.
End Events.

(** ** Reading the terminal *)

(** The rows of a snapshot by kind, and the queries that failed. *)
Record snapshot := {
  ss_account : list jdict; ss_positions : list jdict; ss_orders : list jdict;
  ss_deals : list jdict; ss_query_errors : list jdict
}.

Definition empty_snapshot : snapshot :=
  {| ss_account := []; ss_positions := []; ss_orders := []; ss_deals := []; ss_query_errors := [] |}.

Inductive QueryType := ACCOUNT | POSITION | ORDER | DEAL.

Definition QUERY_TYPES : list QueryType := [ACCOUNT; POSITION; ORDER; DEAL].

Definition query_type_str (t : QueryType) : string :=
  match t with ACCOUNT => "ACCOUNT" | POSITION => "POSITION" | ORDER => "ORDER" | DEAL => "DEAL" end.

(** [data_type.lower()]. *)
Definition query_name (t : QueryType) : string :=
  match t with ACCOUNT => "account" | POSITION => "position" | ORDER => "order" | DEAL => "deal" end.

(** [_NORMALIZERS]. *)
Definition normalize (t : QueryType) : qobj -> jdict :=
  match t with
  | ACCOUNT => normalize_account | POSITION => normalize_position
  | ORDER => normalize_order | DEAL => normalize_deal
  end.

(** [snapshot[keys[data_type]] += rows]. *)
Definition add_rows (t : QueryType) (rows : list jdict) (s : snapshot) : snapshot :=
  {| ss_account := ss_account s ++ match t with ACCOUNT => rows | _ => [] end;
     ss_positions := ss_positions s ++ match t with POSITION => rows | _ => [] end;
     ss_orders := ss_orders s ++ match t with ORDER => rows | _ => [] end;
     ss_deals := ss_deals s ++ match t with DEAL => rows | _ => [] end;
     ss_query_errors := ss_query_errors s |}.

Definition add_error (e : jdict) (s : snapshot) : snapshot :=
  {| ss_account := ss_account s; ss_positions := ss_positions s; ss_orders := ss_orders s;
     ss_deals := ss_deals s; ss_query_errors := ss_query_errors s ++ [e] |}.

Definition rows_json (l : list jdict) : json := JArr (JObj <$> l).

(** The rows of ORDER and DEAL carry the route they were asked for. *)
Definition routed (account_type : option string) (account_id : option string) (t : QueryType)
    (row : jdict) : jdict :=
  match t with
  | ORDER | DEAL =>
      row ++ [("route_account_type", jopt_str account_type);
              ("route_account_fingerprint", jopt_str (fingerprint account_id account_type))]
  | _ => row
  end.

Definition query_error (t : QueryType) (rest : jdict) : jdict :=
  ("data_type", JStr (query_type_str t)) :: rest.

Section Reading.
Context {R : Type} {bridge_part : Part bridge R} {inbox_part : Part files R}.
Context {env : Env} {term : Terminal} (dep : deployment).
Implicit Types (w : world R).

(** [_resolve_query_fn] of a session without a query of its own. *)
Definition resolve_query : M R (string -> string -> string -> M R (option (list qobj))) :=
  match tm_query with
  | Some q => retM (fun id type name => external (fun n => q n id type name))
  | None => raiseM ReadOnlyBridgeError "get_trade_detail_data is unavailable"
  end.

(** The account a session is bound to. *)
Definition bound_account : M R (string * string) :=
  b <- the_bridge ;;
  match some_text (bb_account_id (br_binding b)), some_text (bb_account_type (br_binding b)) with
  | Some id, Some type => retM (id, type)
  | _, _ => raiseM ReadOnlyBridgeError "QMT account binding is unavailable"
  end.

(** One data type of the selected account. *)
Definition read_type (query : string -> string -> string -> M R (option (list qobj)))
    (account_id account_type : string) (s : snapshot) (t : QueryType) : M R snapshot :=
  except
    (rows <- query account_id account_type (query_name t) ;;
     retM (add_rows t (routed (Some account_type) (Some account_id) t
                       <$> (normalize t <$> default [] rows)) s))
    (fun e => retM (add_error (query_error t [("error_type", JStr (class_name (exn_cls e)))]) s)).

(** One data type of a linked account. *)
Definition read_linked (query : string -> string -> string -> M R (option (list qobj)))
    (account_id linked_type : string) (s : snapshot) (t : QueryType) : M R snapshot :=
  except
    (rows <- query account_id linked_type (query_name t) ;;
     match rows with
     | None => retM (add_error (query_error t [("account_type", JStr linked_type);
                                               ("error_code", JStr "QUERY_RETURNED_NONE")]) s)
     | Some rows =>
         retM (add_rows t (routed (Some linked_type) (Some account_id) t <$> (normalize t <$> rows)) s)
     end)
    (fun e => retM (add_error (query_error t [("account_type", JStr linked_type);
                                              ("error_code", JStr "QUERY_EXCEPTION");
                                              ("error_type", JStr (class_name (exn_cls e)))]) s)).

Fixpoint foldM {A S} (f : S -> A -> M R S) (s : S) (l : list A) : M R S :=
  match l with
  | [] => retM s
  | a :: l => s <- f s a ;; foldM f s l
  end.

(** [_remember_account_state]. *)
Definition remember_account_state (payload : jdict) (now : Z) : M R unit :=
  on_bridge (fun b =>
    let a := br_account b in
    set_account {| av_payload_digest := Some (payload_digest payload); av_state_monotonic := now;
                   av_suppressed := av_suppressed a; av_emitted := av_emitted a;
                   av_detected := av_detected a;
                   av_linked_suppressed := av_linked_suppressed a |} b).

Definition snapshot_payload (account_id account_type : string) (s : snapshot) : jdict :=
  [("account_fingerprint", jopt_str (fingerprint (Some account_id) (Some account_type)));
   ("account_type", JStr account_type); ("account", rows_json (ss_account s));
   ("positions", rows_json (ss_positions s)); ("orders", rows_json (ss_orders s));
   ("deals", rows_json (ss_deals s)); ("query_errors", rows_json (ss_query_errors s))].

(** The linked account types that are queried too, in order. *)
Definition linked_types (account_type : string) (detected : gset string) : list string :=
  sort_names (List.filter (fun t => negb (bool_decide (t = account_type)) &&
                                    bool_decide (t ∈ ["HUGANGTONG"; "SHENGANGTONG"]))
                (base.elements detected)).

(** [read_snapshot]. *)
Definition read_snapshot : M R unit :=
  account <- bound_account ;;
  let '(account_id, account_type) := account in
  query <- resolve_query ;;
  s <- foldM (read_type query account_id account_type) empty_snapshot QUERY_TYPES ;;
  b <- the_bridge ;;
  s <- foldM (fun s linked => foldM (read_linked query account_id linked) s [ORDER; DEAL]) s
         (linked_types account_type (av_detected (br_account b))) ;;
  do! match ss_account s with
      | row :: _ => now <- bridge_monotonic ;; remember_account_state row now
      | [] => retM tt
      end ;;
  enqueue dep "snapshot" "active_query" (snapshot_payload account_id account_type s).

(** A row of an account query that is not of the account that was asked for. *)
Definition misplaced (account_id selected_account_type candidate : string) (row : qobj)
    : option string :=
  let row_account_id := some_text (text_of_val (attr "m_strAccountID" row)) in
  if match row_account_id with Some id => negb (bool_decide (id = account_id)) | None => false end
  then Some "ACCOUNT_ID_MISMATCH"
  else match int_value (attr "m_nBrokerType" row) with
  | None => if bool_decide (candidate = selected_account_type) then None
            else Some "BROKER_TYPE_UNAVAILABLE"
  | Some code =>
      match BROKER_TYPE_CODES candidate with
      | Some expected => if code =? expected then None else Some "BROKER_TYPE_MISMATCH"
      | None => None
      end
  end.

Fixpoint first_some {A B} (f : A -> option B) (l : list A) : option B :=
  match l with
  | [] => None
  | a :: l => match f a with Some b => Some b | None => first_some f l end
  end.

Definition probe_record (account_id candidate status : string) (account positions errors : list jdict)
    : jdict :=
  [("account_type", JStr candidate);
   ("account_fingerprint", jopt_str (fingerprint (Some account_id) (Some candidate)));
   ("status", JStr status); ("account", rows_json account); ("positions", rows_json positions);
   ("query_errors", rows_json errors)].

Definition probe_error (data_type code : string) (rest : jdict) : jdict :=
  [("data_type", JStr data_type); ("error_code", JStr code)] ++ rest.

(** [_account_probe_record]. *)
Definition account_probe_record (query : string -> string -> string -> M R (option (list qobj)))
    (account_id selected_account_type candidate : string) : M R jdict :=
  let unconfirmed code rest :=
    probe_record account_id candidate "UNCONFIRMED" [] [] [probe_error "ACCOUNT" code rest] in
  rows <- except (r <- query account_id candidate "account" ;; retM (inl r)) (fun e => retM (inr e)) ;;
  match rows with
  | inr e => retM (unconfirmed "QUERY_EXCEPTION" [("error_type", JStr (class_name (exn_cls e)))])
  | inl None => retM (unconfirmed "QUERY_RETURNED_NONE" [])
  | inl (Some []) => retM (unconfirmed "ACCOUNT_NOT_OBSERVED" [])
  | inl (Some rows) =>
      match first_some (misplaced account_id selected_account_type candidate) rows with
      | Some code => retM (unconfirmed code [])
      | None =>
          let account := normalize_account <$> rows in
          let degraded code rest :=
            probe_record account_id candidate "DEGRADED" account [] [probe_error "POSITION" code rest] in
          positions <- except (r <- query account_id candidate "position" ;; retM (inl r))
                              (fun e => retM (inr e)) ;;
          match positions with
          | inr e => retM (degraded "QUERY_EXCEPTION" [("error_type", JStr (class_name (exn_cls e)))])
          | inl None => retM (degraded "QUERY_RETURNED_NONE" [])
          | inl (Some rows) =>
              retM (probe_record account_id candidate "DETECTED" account (normalize_position <$> rows) [])
          end
      end
  end.

(** Whether a probe found the account. *)
Definition found_account (record : jdict) : bool :=
  is_str "DETECTED" (jget "status" record) || is_str "DEGRADED" (jget "status" record).

Definition detected_types (records : list jdict) : list string :=
  (fun r => text (jget "account_type" r)) <$> List.filter found_account records.

Definition capabilities_payload (selected_account_type : string) (records : list jdict) : jdict :=
  [("selected_account_type", JStr selected_account_type);
   ("detected_account_types", JArr (JStr <$> detected_types records));
   ("accounts", rows_json records); ("execution_mode", JStr (EXECUTION_MODE dep));
   ("live_submit", JBool (LIVE_SUBMIT_ENABLED dep)); ("live_cancel", JBool (LIVE_CANCEL_ENABLED dep));
   ("simulation_only", JBool (SIMULATION_ONLY dep))].

Definition detect (types : list string) (b : bridge) : bridge :=
  let a := br_account b in
  set_account {| av_payload_digest := av_payload_digest a;
                 av_state_monotonic := av_state_monotonic a; av_suppressed := av_suppressed a;
                 av_emitted := av_emitted a; av_detected := av_detected a ∪ list_to_set types;
                 av_linked_suppressed := av_linked_suppressed a |} b.

(** [read_account_capabilities]. *)
Definition read_account_capabilities : M R unit :=
  account <- bound_account ;;
  let '(account_id, account_type) := account in
  let selected := upper_text account_type in
  query <- resolve_query ;;
  let candidates := if bool_decide (selected ∈ STANDARD_ACCOUNT_TYPES) then STANDARD_ACCOUNT_TYPES
                    else selected :: STANDARD_ACCOUNT_TYPES in
  records <- foldM (fun l candidate =>
      r <- account_probe_record query account_id selected candidate ;; retM (l ++ [r])) [] candidates ;;
  do! on_bridge (detect (detected_types records)) ;;
  enqueue dep "account_capabilities" "active_query" (capabilities_payload selected records).
End Reading.

(** ** Command frames *)

(** [isinstance(j, int)], of which a Boolean is one. *)
Definition as_number (j : json) : option Z :=
  match j with JInt z => Some z | JBool b => Some (if b then 1 else 0) | _ => None end.

Definition command_fail (b : bool) (msg : string) : res unit := guard_r b CommandError msg.

(** The token of an order, as the bridge computes it. *)
Definition expected_token (account_fingerprint client_order_id : string) : string :=
  "BQ" +:+ String.substring 0 20
    (Sha256.hexdigest (utf8 (account_fingerprint +:+ nul +:+ client_order_id))).

(** The identity an order command carries. *)
Definition check_identity (account_fingerprint : string) (command : jdict) : res unit :=
  match nonempty_str (jget "client_order_id" command) with
  | None => raise CommandError "missing client_order_id"
  | Some client_order_id =>
      match nonempty_str (jget "broker_token" command) with
      | None => raise CommandError "invalid broker_token"
      | Some broker_token =>
          (do! command_fail (str_len broker_token <? 24) "invalid broker_token" ;;
           command_fail (bool_decide (broker_token = expected_token account_fingerprint client_order_id))
             "broker_token identity mismatch")%py
      end
  end.

(** [_read_command_frame], of the bytes of the file. *)
Definition read_command_frame (account_fingerprint : option string) (raw : list Z) : res jdict :=
  (do! command_fail (negb (bool_decide (raw = [])) && (frame_size raw <=? COMMAND_MAX_FRAME_BYTES))
         "invalid command frame size" ;;
   body <- match res_bind (utf8_decode raw) loads with
           | Err e => if catchable e then raise CommandError "invalid command JSON" else Err e
           | Ok body => Ok body
           end ;;
   body <- match body with
           | JObj d => if is_str COMMAND_TRANSPORT_VERSION (jget "command_transport_version" d)
                       then Ok d else raise CommandError "unsupported command transport version"
           | _ => raise CommandError "unsupported command transport version"
           end ;;
   match jget "command" body with
   | JObj command =>
       do! command_fail (is_str COMMAND_PROTOCOL_VERSION (jget "command_protocol_version" command))
             "unsupported command protocol version" ;;
       do! command_fail (bool_decide (is_Some (nonempty_str (jget "command_id" command))))
             "invalid command_id" ;;
       do! command_fail (existsb (fun t => is_str t (jget "command_type" command)) Wire.command_types)
             "unsupported command_type" ;;
       do! command_fail (match as_number (jget "created_ms" command), as_number (jget "expires_ms" command) with
                         | Some created_ms, Some expires_ms => created_ms <? expires_ms
                         | _, _ => false
                         end) "invalid command time window" ;;
       do! command_fail (match account_fingerprint with
                         | Some f => is_str f (jget "account_fingerprint" command)
                         | None => is_null (jget "account_fingerprint" command)
                         end) "account fingerprint mismatch" ;;
       do! command_fail (is_obj (jget "payload" command)) "invalid command payload" ;;
       if is_str "REQUEST_SNAPSHOT" (jget "command_type" command) then Ok command
       else
         match account_fingerprint with
         | Some f => do! check_identity f command ;; Ok command
         | None =>
             (* [None + "\0"] *)
             match nonempty_str (jget "client_order_id" command), nonempty_str (jget "broker_token" command) with
             | None, _ => raise CommandError "missing client_order_id"
             | _, None => raise CommandError "invalid broker_token"
             | Some _, Some t => do! command_fail (str_len t <? 24) "invalid broker_token" ;;
                                 raise TypeError "unsupported operand type(s) for +"
             end
         end
   | _ => raise CommandError "missing command object"
   end)%py.

(** ** Files of commands *)

Section CommandFiles.
Context {R : Type} {bridge_part : Part bridge R} {spool_part : Part spool R} {inbox_part : Part files R}.
Context {env : Env} {term : Terminal} (dep : deployment).
Implicit Types (w : world R).

(** [_atomic_move] between state directories: it replaces what is there. *)
Definition move_command (source target : CommandDir) (name : string) : M R unit :=
  do! file_op ;;
  content <- read_part (fun fs : spool => fs !! (source, name)) ;;
  match content with
  | None => raiseM FileNotFoundError name
  | Some raw => write_part (fun fs : spool => <[(target, name) := raw]> (delete (source, name) fs))
  end.

Definition is_command_file (d : CommandDir) (name : string) : M R bool :=
  read_part (fun fs : spool => bool_decide (is_Some (fs !! (d, name)))).

(** [sorted(name for name in os.listdir(dir) if name.endswith(".json"))]. *)
Definition command_names (d : CommandDir) (fs : spool) : list string :=
  sort_names (omap (fun p => if bool_decide (p.1.1 = d) && endswith ".json" p.1.2
                             then Some p.1.2 else None) (map_to_list fs)).

Definition list_commands (d : CommandDir) : M R (list string) :=
  do! file_op ;; read_part (command_names d).

(** [_read_command_frame] of a file. *)
Definition read_command (d : CommandDir) (name : string) : M R jdict :=
  do! file_op ;;
  content <- read_part (fun fs : spool => fs !! (d, name)) ;;
  b <- the_bridge ;;
  match content with
  | None => raiseM FileNotFoundError name
  | Some raw => lift (read_command_frame (bb_account_fingerprint (br_binding b)) raw)
  end.

(** [_command_result]. *)
Definition result_payload (command : jdict) (result_status : string) (live_side_effect : bool) : jdict :=
  [("command_id", jget "command_id" command); ("command_type", jget "command_type" command);
   ("client_order_id", jget "client_order_id" command); ("broker_token", jget "broker_token" command);
   ("result_status", JStr result_status); ("execution_mode", JStr (EXECUTION_MODE dep));
   ("live_side_effect", JBool live_side_effect)].

Definition command_result (command : jdict) (result_status : string) (live_side_effect : bool) : M R unit :=
  do! enqueue dep "command_result" "command_spool" (result_payload command result_status live_side_effect) ;;
  do! flush_transport ;;
  retM tt.

(** The result of a command that was claimed before the start. *)
Definition orphan_result (command : jdict) : string * bool :=
  if TRADING_ENABLED dep && negb (is_str "REQUEST_SNAPSHOT" (jget "command_type" command))
  then (if bool_decide (EXECUTION_MODE dep = "LIVE_CANARY"%string) then "LIVE_CANARY_ORPHANED_UNKNOWN"%string
        else "SIMULATION_ORPHANED_UNKNOWN"%string, true)
  else ("UNKNOWN_ORPHANED"%string, false).

(** One file of the loop of [_recover_orphaned_claims]. *)
Definition recover_orphan (name : string) : M R unit :=
  except
    (command <- read_command CClaimed name ;;
     do! move_command CClaimed CUnknown name ;;
     do! count_done 0 0 0 1 ;;
     let '(status, side_effect) := orphan_result command in
     command_result command status side_effect)
    (fun e =>
     do! except (there <- is_command_file CClaimed name ;;
                 if there then move_command CClaimed CUnknown name else retM tt)
           (fun _ => retM tt) ;;
     do! count_done 0 0 0 1 ;;
     runtime_error dep "COMMAND_ORPHAN_RECOVERY_FAILED" (Some e) [("file", JStr name)]).

(** [_recover_orphaned_claims]: once in a session. *)
Definition recover_orphaned_claims : M R unit :=
  b <- the_bridge ;;
  if cv_orphan_recovery_done (br_commands b) then retM tt
  else
    do! on_bridge (fun b => set_commands (set_orphans_done (br_commands b)) b) ;;
    names <- except (l <- list_commands CClaimed ;; retM (inl l)) (fun e => retM (inr e)) ;;
    match names with
    | inl names => iterM recover_orphan names
    | inr e => runtime_error dep "COMMAND_CLAIM_SCAN_FAILED" (Some e) []
    end.

(** [_reject_claimed]. *)
Definition reject_claimed (name code : string) (exc : exn) : M R unit :=
  do! tryM (there <- is_command_file CClaimed name ;;
            if there then move_command CClaimed CRejected name else retM tt)
        (fun e => do! count_done 0 0 1 0 ;; reraise e) ;;
  do! count_done 0 0 1 0 ;;
  runtime_error dep code (Some exc) [("file", JStr name)].
End CommandFiles.

(** ** Executing an order command *)

Section Executors.
Context {R : Type} {bridge_part : Part bridge R} {calls_part : Part calls R}.
Context {env : Env} {term : Terminal} (dep : deployment).
Implicit Types (w : world R).

(** A call of the broker: it is made, and then it may raise. *)
Definition call_api (c : api_call) : M R unit := write_part (fun l : calls => l ++ [c]).

Definition passorder (optype : Z) (symbol : string) (price : float) (quantity : Z)
    (strategy broker_token : string) : M R unit :=
  b <- the_bridge ;;
  do! call_api (Passorder optype (default "" (bb_account_id (br_binding b))) symbol price quantity
                  strategy broker_token) ;;
  external (fun n => match tm_passorder n with Some e => Err e | None => Ok tt end).

Definition count_submit : M R unit :=
  on_bridge (fun b => set_commands (count_commands 0 0 0 0 1 0 (br_commands b)) b).
Definition count_cancel : M R unit :=
  on_bridge (fun b => set_commands (count_commands 0 0 0 0 0 1 (br_commands b)) b).

Definition refuse {A} (msg : string) : M R A := raiseM CommandError msg.
Definition ensure (b : bool) (msg : string) : M R unit := guardM b CommandError msg.

(** [str.split(".")] into two parts. *)
Fixpoint split_dot (s : string) : option (string * string) :=
  match s with
  | EmptyString => None
  | String a r =>
      if is_char 46 a then if str_contains "." r then None else Some (EmptyString, r)
      else match split_dot r with Some (x, y) => Some (String a x, y) | None => None end
  end.

(** [str.isdigit()] of a character: the digits and the superscripts. *)
Definition py_isdigit (a : ascii) : bool :=
  let n := N_of_ascii a in ((48 <=? n) && (n <=? 57) || (n =? 178) || (n =? 179) || (n =? 185))%N.

(** [_simulation_order_symbol]: the text of a value that is no string has no such
    form. *)
Definition simulation_order_symbol (value : json) : option string :=
  match value with
  | JStr s =>
      match split_dot s with
      | Some (code, market) =>
          if str_nonempty code && all_chars py_isdigit code &&
             (bool_decide (market ∈ ["SH"; "SZ"]%string) && (str_len code =? 6) ||
              bool_decide (market ∈ ["HK"; "HGT"; "SGT"]%string) && (str_len code =? 5))
          then Some s else None
      | None => None
      end
  | _ => None
  end.

(** [_text] of a value of a payload that is no list and no object. *)
Definition json_text (j : json) : res (option string) :=
  match j with
  | JNull => Ok None
  | JStr s => Ok (Some s)
  | JInt z => Ok (Some (z_str z))
  | JBool b => Ok (Some (if b then "True" else "False"))
  | JFloat x => Ok (Some (float_str x))
  | _ => beyond
  end.

(** A row of the order a cancel command is about. *)
Definition is_target (broker_order_id : option string) (broker_token : json) (row : qobj) : bool :=
  bool_decide (text_of_val (attr "m_strOrderSysID" row) = broker_order_id) &&
  match text_of_val (attr "m_strRemark" row) with
  | Some remark => is_str remark broker_token
  | None => is_null broker_token
  end.

(** [_simulation_cancel_target] and [_live_canary_cancel_target]. *)
Definition cancel_target (mismatch : string) (command : jdict) : M R (option string) :=
  match tm_query with
  | None => refuse "order query unavailable"
  | Some q =>
      b <- the_bridge ;;
      rows <- external (fun n => q n (default "" (bb_account_id (br_binding b)))
                                   (default "" (bb_account_type (br_binding b))) "order"%string) ;;
      match rows with
      | None => refuse "order query returned None"
      | Some rows =>
          broker_order_id <- lift (json_text (jget "broker_order_id"
                               (default [] (as_dict (jget "payload" command))))) ;;
          do! ensure (length (List.filter (is_target broker_order_id (jget "broker_token" command)) rows)
                      =? 1)%nat mismatch ;;
          retM broker_order_id
      end
  end.

(** The cancel branch of the executors. *)
Definition execute_cancel (limit mismatch prefix : string) (command : jdict) : M R (string * bool) :=
  b <- the_bridge ;;
  do! ensure (cv_cancel_calls (br_commands b) <? SIMULATION_MAX_CANCEL_CALLS dep) limit ;;
  broker_order_id <- cancel_target mismatch command ;;
  cancellable <- external (fun n => tm_can_cancel n broker_order_id) ;;
  if negb (cancellable : bool) then retM (prefix +:+ "_CANCEL_NOT_CANCELLABLE", false)
  else
    do! call_api (CancelCall broker_order_id (default "" (bb_account_id (br_binding b)))
                    (default "" (bb_account_type (br_binding b)))) ;;
    result <- external (fun n => tm_cancel n broker_order_id) ;;
    do! count_cancel ;;
    retM (prefix +:+ (if result : bool then "_CANCEL_SIGNAL_SENT" else "_CANCEL_NOT_SENT"), true).

(** [_execute_order_command] of the simulation artifact. *)
Definition execute_simulation (command : jdict) : M R (string * bool) :=
  b <- the_bridge ;;
  let bd := br_binding b in
  do! ensure (bool_decide (TERMINAL_INSTANCE_ID dep = "guojin_sim"%string) &&
              bool_decide (EXECUTION_MODE dep = "SIMULATION_CALIBRATION"%string) && TRADING_ENABLED dep &&
              SIMULATION_ONLY dep &&
              bool_decide (bb_account_fingerprint bd = Some (AUTHORIZED_ACCOUNT_FINGERPRINT dep)) &&
              bool_decide (account_type_of (bb_account_type bd) = Some "STOCK"%string))
        "simulation mutation deployment gate is closed" ;;
  let payload := default [] (as_dict (jget "payload" command)) in
  do! ensure (is_obj (jget "payload" command) && is_true (jget "simulation_calibration" payload) &&
              is_str (bb_session_id bd) (jget "expected_qmt_session_id" payload))
        "missing current-session simulation authorization" ;;
  if is_str "SUBMIT_LIMIT" (jget "command_type" command) then
    do! ensure (cv_submit_calls (br_commands b) <? SIMULATION_MAX_SUBMIT_CALLS dep)
          "simulation submit session limit reached" ;;
    match py_float (jget "limit_price" payload) with
    | None => refuse "invalid simulation limit price"
    | Some price =>
        match simulation_order_symbol (jget "symbol" payload) with
        | None => refuse "simulation calibration requires a supported side and symbol"
        | Some symbol =>
            let side := jget "side" payload in
            do! ensure (is_str "BUY" side || is_str "SELL" side)
                  "simulation calibration requires a supported side and symbol" ;;
            match jget "quantity" payload with
            | JInt quantity =>
                do! ensure ((0 <? quantity) && (quantity <=? SIMULATION_MAX_ORDER_QUANTITY dep))
                      "simulation calibration quantity exceeds the bounded range" ;;
                do! ensure (fltb float_zero price && fleb price (of_whole false 100000))
                      "simulation limit price is outside the safety range" ;;
                do! passorder (if is_str "BUY" side then 23 else 24) symbol price quantity
                      "BIGQMT_SIM_CAL" (text (jget "broker_token" command)) ;;
                do! count_submit ;;
                retM ("SIMULATION_SUBMIT_CALL_RETURNED"%string, true)
            | _ => refuse "simulation calibration quantity exceeds the bounded range"
            end
        end
    end
  else if is_str "CANCEL_ORDER" (jget "command_type" command) then
    execute_cancel "simulation cancel session limit reached"
      "cancel target is not one exact token-matched order" "SIMULATION" command
  else refuse "unsupported simulation mutation command".

(** [_live_canary_trade_window_open]. *)
Definition trade_window_open (now : Z * Z * Z) : bool :=
  let '(wday, hour, minute) := now in
  let minutes := hour * 60 + minute in
  (wday <? 5) && ((570 <=? minutes) && (minutes <=? 710) || (780 <=? minutes) && (minutes <=? 950)).

(** [details.get(a) or details.get(b)]. *)
Definition truthy_val (v : pyval) : bool :=
  match v with
  | PNone => false | PBool b => b | PInt z => negb (z =? 0) | PStr s => str_nonempty s | PObj _ _ => true
  end.
Definition either_attr (a b : string) (o : qobj) : pyval :=
  if truthy_val (attr a o) then attr a o else attr b o.

(** [_live_canary_instrument_preflight]. *)
Definition instrument_preflight (symbol : string) : M R unit :=
  details <- match tm_instrument_detail with
             | Some q => external (fun n => q n symbol)
             | None => retM None
             end ;;
  match details with
  | None | Some [] => refuse "live canary instrument preflight failed"
  | Some details =>
      do! ensure (bool_decide (symbol = "00700.HGT"%string)) "live canary instrument identity mismatch" ;;
      let exchange := text_of_val (either_attr "ExchangeID" "ExchangeCode" details) in
      let instrument := text_of_val (either_attr "InstrumentID" "InstrumentCode" details) in
      do! ensure (bool_decide (exchange = Some "HK"%string) && bool_decide (instrument = Some "00700"%string) &&
                  bool_decide (int_value (attr "HSGTFlag" details) ∈ [Some 3; Some 5]))
            "live canary Tencent HGT identity mismatch" ;;
      b <- the_bridge ;;
      ensure (bool_decide ("HUGANGTONG"%string ∈ av_detected (br_account b)))
        "live canary Shanghai Stock Connect account unavailable"
  end.

(** [_live_canary_cash_preflight]; [float] of what is not a text, a number or a
    Boolean is that of its [str]. *)
Definition cash_preflight : M R unit :=
  match tm_query with
  | None => refuse "live canary account query unavailable"
  | Some q =>
      b <- the_bridge ;;
      rows <- external (fun n => q n (default "" (bb_account_id (br_binding b)))
                                   (default "" (bb_account_type (br_binding b))) "account"%string) ;;
      match rows with
      | None => refuse "live canary account query returned None"
      | Some [row] =>
          ensure (match attr "m_dAvailable" row with
                  | PNone => false
                  | PBool _ => true
                  | PInt z => bool_decide (is_Some (float_of_int z))
                  | PStr s | PObj (Some s) _ => bool_decide (is_Some (float_of_text s))
                  | PObj None _ => false
                  end) "live canary available cash unavailable"
      | Some _ => refuse "live canary account query is not singular"
      end
  end.

(** [_execute_order_command] of the live canary artifact. *)
Definition execute_live_canary (command : jdict) : M R (string * bool) :=
  b <- the_bridge ;;
  let bd := br_binding b in
  do! ensure (bool_decide (TERMINAL_INSTANCE_ID dep = "guojin"%string) &&
              bool_decide (EXECUTION_MODE dep = "LIVE_CANARY"%string) && TRADING_ENABLED dep &&
              negb (SIMULATION_ONLY dep) &&
              bool_decide (bb_account_fingerprint bd = Some (AUTHORIZED_ACCOUNT_FINGERPRINT dep)) &&
              bool_decide (account_type_of (bb_account_type bd) = Some "STOCK"%string))
        "live canary deployment gate is closed" ;;
  let payload := default [] (as_dict (jget "payload" command)) in
  do! ensure (is_obj (jget "payload" command) && is_true (jget "live_canary" payload) &&
              negb (is_true (jget "simulation_calibration" payload)) &&
              is_str (bb_session_id bd) (jget "expected_qmt_session_id" payload))
        "missing current-session live canary authorization" ;;
  do! ensure (negb (cv_halted (br_commands b))) "live canary session halted after unknown mutation" ;;
  if is_str "SUBMIT_LIMIT" (jget "command_type" command) then
    do! ensure (cv_submit_calls (br_commands b) <? SIMULATION_MAX_SUBMIT_CALLS dep)
          "live canary submit session limit reached" ;;
    match py_float (jget "limit_price" payload) with
    | None => refuse "invalid live canary limit price"
    | Some price =>
        do! ensure (is_str "00700.HGT" (jget "symbol" payload) && is_str "BUY" (jget "side" payload) &&
                    match jget "quantity" payload with JInt q => q =? 100 | _ => false end &&
                    feqb price float_one)
              "live canary permits exactly one submit case: 00700.HGT BUY 100 at 1.00 HKD" ;;
        now <- external (fun n => Ok (tm_localtime n)) ;;
        do! ensure (trade_window_open now) "live canary trading window is closed" ;;
        do! instrument_preflight "00700.HGT" ;;
        do! cash_preflight ;;
        do! count_submit ;;
        do! passorder 23 "00700.HGT" price 100 "BIGQMT_LIVE_CANARY" (text (jget "broker_token" command)) ;;
        retM ("LIVE_CANARY_SUBMIT_CALL_RETURNED"%string, true)
    end
  else if is_str "CANCEL_ORDER" (jget "command_type" command) then
    execute_cancel "live canary cancel session limit reached"
      "live canary cancel target is not one exact token-matched order" "LIVE_CANARY" command
  else refuse "unsupported live canary mutation command".
End Executors.

(** ** Processing commands *)

Section Commands.
Context {R : Type} {bridge_part : Part bridge R} {spool_part : Part spool R} {inbox_part : Part files R}.
Context {env : Env} {term : Terminal} (dep : deployment).
(** The artifact's executor, and its [_runtime_snapshot_tick_refresh] if it has one
    that does something. *)
Context (execute_order_command : jdict -> M R (string * bool)) (refresh_tick : M R unit).
Implicit Types (w : world R).

(** What the executor came to. *)
Definition executed (command : jdict) : M R (string * bool + exn) :=
  except (r <- execute_order_command command ;; retM (inl r)) (fun e => retM (inr e)).

Definition unknown_status : string :=
  if bool_decide (EXECUTION_MODE dep = "LIVE_CANARY"%string) then "LIVE_CANARY_MUTATION_UNKNOWN"
  else "SIMULATION_MUTATION_UNKNOWN".

(** The command was carried out. *)
Definition finish_command (name : string) (command : jdict) (result_status : string)
    (live_side_effect : bool) : M R unit :=
  do! move_command CClaimed CProcessed name ;;
  do! count_done 0 1 0 0 ;;
  command_result dep command result_status live_side_effect.

Definition process_snapshot (name : string) (command : jdict) : M R unit :=
  read <- except (do! read_account_capabilities dep ;; do! read_snapshot dep ;; do! refresh_tick ;;
                  do! flush_transport ;; retM None)
                 (fun e => retM (Some e)) ;;
  match read with
  | None => finish_command name command "SNAPSHOT_EMITTED" false
  | Some e =>
      do! move_command CClaimed CUnknown name ;;
      do! count_done 0 0 0 1 ;;
      runtime_error dep "COMMAND_SNAPSHOT_FAILED" (Some e) [("command_id", jget "command_id" command)]
  end.

Definition process_order (name : string) (command : jdict) : M R unit :=
  outcome <- executed command ;;
  match outcome with
  | inl (result_status, live_side_effect) => finish_command name command result_status live_side_effect
  | inr e =>
      if bool_decide (exn_cls e = CommandError) then
        do! move_command CClaimed CRejected name ;;
        do! count_done 0 0 1 0 ;;
        do! command_result dep command "REJECTED_SAFETY_GATE" false ;;
        runtime_error dep "COMMAND_SAFETY_GATE_REJECTED" (Some e)
          [("command_id", jget "command_id" command); ("reason", JStr (exn_msg e))]
      else
        do! (if bool_decide (EXECUTION_MODE dep = "LIVE_CANARY"%string)
             then on_bridge (fun b => set_commands (set_halted (br_commands b)) b) else retM tt) ;;
        do! move_command CClaimed CUnknown name ;;
        do! count_done 0 0 0 1 ;;
        do! command_result dep command unknown_status true ;;
        runtime_error dep "COMMAND_MUTATION_UNKNOWN" (Some e) [("command_id", jget "command_id" command)]
  end.

(** [_process_claimed]. *)
Definition process_claimed (name : string) : M R unit :=
  read <- except (c <- read_command CClaimed name ;; retM (inl c)) (fun e => retM (inr e)) ;;
  match read with
  | inr e => reject_claimed dep name "COMMAND_REJECTED" e
  | inl command =>
      now_ms <- time_ms ;;
      if default 0 (as_number (jget "expires_ms" command)) <=? now_ms then
        do! move_command CClaimed CRejected name ;;
        do! count_done 0 0 1 0 ;;
        command_result dep command "REJECTED_EXPIRED" false
      else if is_str "REQUEST_SNAPSHOT" (jget "command_type" command) then process_snapshot name command
      else process_order name command
  end.

(** One turn of the loop of [_drain_command_inbox]: how many files it claimed. *)
Definition drain_file (name : string) : M R Z :=
  moved <- except
    (there <- is_command_file CClaimed name ;;
     if (there : bool) then
       do! runtime_error dep "COMMAND_DUPLICATE_CLAIM" None [("file", JStr name)] ;;
       retM (inl false)
     else
       do! move_command CInbox CClaimed name ;;
       retM (inl true))
    (fun e => retM (inr e)) ;;
  let failed e :=
    there <- is_command_file CClaimed name ;;
    do! (if (there : bool) then
           do! except (move_command CClaimed CUnknown name) (fun _ => retM tt) ;;
           count_done 0 0 0 1
         else retM tt) ;;
    runtime_error dep "COMMAND_PROCESSING_UNKNOWN" (Some e) [("file", JStr name)] in
  match moved with
  | inl false => retM 0
  | inr e => do! failed e ;; retM 0
  | inl true =>
      do! count_done 1 0 0 0 ;;
      do! except (process_claimed name) failed ;;
      retM 1
  end.

Fixpoint drain_loop (names : list string) : M R Z :=
  match names with
  | [] => retM 0
  | name :: names => n <- drain_file name ;; m <- drain_loop names ;; retM (n + m)
  end.

(** [_drain_command_inbox]. *)
Definition drain_command_inbox : M R Z :=
  do! recover_orphaned_claims dep ;;
  names <- except (l <- list_commands CInbox ;; retM (inl l)) (fun e => retM (inr e)) ;;
  match names with
  | inl names => drain_loop (take COMMAND_BATCH names)
  | inr e => do! runtime_error dep "COMMAND_INBOX_SCAN_FAILED" (Some e) [] ;; retM 0
  end.
End Commands.

(** ** Callbacks *)

Section Callbacks.
Context {R : Type} {bridge_part : Part bridge R} {inbox_part : Part files R}.
Context {env : Env} {term : Terminal} (dep : deployment).
Implicit Types (w : world R).

(** [_callback_event]. *)
Definition callback_event (event_type : string) (payload : jdict) : M R unit :=
  do! enqueue dep event_type "callback" payload ;;
  do! flush_transport ;;
  retM tt.

Definition count_linked (b : bridge) : bridge :=
  let a := br_account b in
  set_account {| av_payload_digest := av_payload_digest a;
                 av_state_monotonic := av_state_monotonic a; av_suppressed := av_suppressed a;
                 av_emitted := av_emitted a; av_detected := av_detected a;
                 av_linked_suppressed := av_linked_suppressed a + 1 |} b.

(** [_callback_matches_selected_account]. *)
Definition matches_selected_account (event_type : string) (obj : qobj) : M R bool :=
  b <- the_bridge ;;
  let observed_account_id := some_text (text_of_val (attr "m_strAccountID" obj)) in
  if match observed_account_id with
     | Some id => negb (bool_decide (Some id = bb_account_id (br_binding b))) | None => false end then
    do! runtime_error dep "CALLBACK_ACCOUNT_ID_MISMATCH" None [("event_type", JStr event_type)] ;;
    retM false
  else
    let expected := account_type_of (bb_account_type (br_binding b)) ≫= BROKER_TYPE_CODES in
    match int_value (attr "m_nBrokerType" obj), expected with
    | Some observed, Some expected =>
        if observed =? expected then retM true
        else if existsb (fun t => bool_decide (BROKER_TYPE_CODES t = Some observed))
                  (base.elements (av_detected (br_account b))) then
          do! on_bridge count_linked ;;
          retM false
        else
          do! runtime_error dep "CALLBACK_ACCOUNT_TYPE_MISMATCH" None
                [("event_type", JStr event_type); ("observed_broker_type", JInt observed)] ;;
          retM false
    | _, _ => retM true
    end.

Definition count_account (suppressed emitted : Z) (b : bridge) : bridge :=
  let a := br_account b in
  set_account {| av_payload_digest := av_payload_digest a;
                 av_state_monotonic := av_state_monotonic a;
                 av_suppressed := av_suppressed a + suppressed; av_emitted := av_emitted a + emitted;
                 av_detected := av_detected a;
                 av_linked_suppressed := av_linked_suppressed a |} b.

(** [account_callback]: the same state again is only said as a heartbeat. *)
Definition account_callback (obj : qobj) : M R unit :=
  mine <- matches_selected_account "account" obj ;;
  if negb (mine : bool) then retM tt
  else
    let payload := normalize_account obj in
    now <- bridge_monotonic ;;
    b <- the_bridge ;;
    let a := br_account b in
    let same_payload := bool_decide (av_payload_digest a = Some (payload_digest payload)) in
    let heartbeat_due := (av_state_monotonic a <=? 0) ||
                         (ACCOUNT_CALLBACK_HEARTBEAT <=? now - av_state_monotonic a) in
    if same_payload && negb heartbeat_due then on_bridge (count_account 1 0)
    else
      do! remember_account_state payload now ;;
      do! on_bridge (count_account 0 1) ;;
      callback_event "account" payload.

(** [position_callback], [order_callback] and [deal_callback]. *)
Definition row_callback (event_type : string) (normalize : qobj -> jdict) (obj : qobj) : M R unit :=
  mine <- matches_selected_account event_type obj ;;
  if mine : bool then callback_event event_type (normalize obj) else retM tt.

Definition position_callback : qobj -> M R unit := row_callback "position" normalize_position.
Definition order_callback : qobj -> M R unit := row_callback "order" normalize_order.
Definition deal_callback : qobj -> M R unit := row_callback "deal" normalize_deal.
End Callbacks.

(** ** The life of a session *)

(** The manifest file of the instance. *)
Record manifest := { mf_raw : option (list Z) }.

(** [capabilities]. *)
Definition capabilities (dep : deployment) : jdict :=
  [("protocol_version", JStr PROTOCOL_VERSION); ("transport_version", JStr TRANSPORT_VERSION);
   ("command_protocol_version", JStr COMMAND_PROTOCOL_VERSION);
   ("command_transport_version", JStr COMMAND_TRANSPORT_VERSION);
   ("bridge_build", JStr (BRIDGE_BUILD dep)); ("execution_mode", JStr (EXECUTION_MODE dep));
   ("read_only_enabled", JBool true); ("trading_enabled", JBool (TRADING_ENABLED dep));
   ("live_submit", JBool (LIVE_SUBMIT_ENABLED dep)); ("live_cancel", JBool (LIVE_CANCEL_ENABLED dep));
   ("simulation_only", JBool (SIMULATION_ONLY dep));
   ("authorized_account_fingerprint", JStr (AUTHORIZED_ACCOUNT_FINGERPRINT dep));
   ("max_order_quantity", JInt (SIMULATION_MAX_ORDER_QUANTITY dep));
   ("max_submit_calls_per_session", JInt (SIMULATION_MAX_SUBMIT_CALLS dep));
   ("max_cancel_calls_per_session", JInt (SIMULATION_MAX_CANCEL_CALLS dep));
   ("shadow_commands", JBool (negb (TRADING_ENABLED dep)));
   ("command_tick_period", JStr "1nSecond"); ("snapshot_timer_period", JStr "300nSecond");
   ("query_types", JArr ((fun t => JStr (query_type_str t)) <$> QUERY_TYPES));
   ("account_type_probe_candidates", JArr (JStr <$> STANDARD_ACCOUNT_TYPES));
   ("linked_account_discovery", JStr "read_only_runtime_probe");
   ("spool_isolation", JStr "embedded_instance_namespace");
   ("spool_instance_id", jopt_str (spool_instance_id dep));
   ("callbacks", JArr (JStr <$> ["account"; "position"; "order"; "deal"]));
   ("transport", JStr "file_spool_atomic_rename"); ("command_transport", JStr "file_spool_atomic_claim");
   ("account_callback_dedup", JBool true); ("callback_account_identity_guard", JBool true);
   ("linked_account_callback_policy", JStr "suppress_non_selected_detected_type");
   ("account_callback_heartbeat_seconds", JFloat ACCOUNT_CALLBACK_HEARTBEAT_SECONDS);
   ("methods", JArr (JStr <$> ["ping"; "capabilities"; "read_snapshot"; "read_account_capabilities";
                               "drain_events"; "flush_transport"]))]%string.

(** [_instance_manifest]. *)
Definition instance_manifest (dep : deployment) (b : binding) (now_ms : Z) : jdict :=
  [("manifest_version", JStr "1"); ("terminal_instance_id", jopt_str (spool_instance_id dep));
   ("protocol_version", JStr PROTOCOL_VERSION); ("transport_version", JStr TRANSPORT_VERSION);
   ("bridge_build", JStr (BRIDGE_BUILD dep)); ("session_id", JStr (bb_session_id b));
   ("account_fingerprint", jopt_str (bb_account_fingerprint b));
   ("account_type", jopt_str (bb_account_type b)); ("created_ms", JInt now_ms);
   ("execution_mode", JStr (EXECUTION_MODE dep)); ("trading_enabled", JBool (TRADING_ENABLED dep));
   ("live_submit", JBool (LIVE_SUBMIT_ENABLED dep)); ("live_cancel", JBool (LIVE_CANCEL_ENABLED dep));
   ("simulation_only", JBool (SIMULATION_ONLY dep));
   ("authorized_account_fingerprint", JStr (AUTHORIZED_ACCOUNT_FINGERPRINT dep));
   ("max_order_quantity", JInt (SIMULATION_MAX_ORDER_QUANTITY dep));
   ("max_submit_calls_per_session", JInt (SIMULATION_MAX_SUBMIT_CALLS dep));
   ("max_cancel_calls_per_session", JInt (SIMULATION_MAX_CANCEL_CALLS dep))].

Section Life.
Context {R : Type} {bridge_part : Part bridge R} {spool_part : Part spool R} {inbox_part : Part files R}
  {manifest_part : Part manifest R}.
Context {env : Env} {term : Terminal} (dep : deployment).
Context (execute_order_command : jdict -> M R (string * bool)) (refresh_tick : M R unit).
(** [_runtime_instrument_subscribe] and [_runtime_instrument_probe]. *)
Context (instrument_subscribe instrument_probe : M R json).
Implicit Types (w : world R).

(** The gate of [_bind_runtime] on an artifact that may change something. *)
Definition mutation_gate_valid (b : binding) : bool :=
  LIVE_SUBMIT_ENABLED dep && LIVE_CANCEL_ENABLED dep && bool_decide (is_Some (spool_instance_id dep)) &&
  bool_decide (bb_account_fingerprint b = Some (AUTHORIZED_ACCOUNT_FINGERPRINT dep)) &&
  bool_decide (account_type_of (bb_account_type b) = Some "STOCK"%string) &&
  (SIMULATION_MAX_ORDER_QUANTITY dep =? 100) &&
  (bool_decide (EXECUTION_MODE dep = "SIMULATION_CALIBRATION"%string) && SIMULATION_ONLY dep &&
     (SIMULATION_MAX_SUBMIT_CALLS dep =? 2000) && (SIMULATION_MAX_CANCEL_CALLS dep =? 2000) ||
   bool_decide (EXECUTION_MODE dep = "LIVE_CANARY"%string) && negb (SIMULATION_ONLY dep) &&
     bool_decide (spool_instance_id dep = Some "guojin"%string) &&
     (SIMULATION_MAX_SUBMIT_CALLS dep =? 1) && (SIMULATION_MAX_CANCEL_CALLS dep =? 1)).

(** [_set_account_state]. *)
Definition set_account_state (account_id account_type : option string) : M R unit :=
  on_bridge (fun b => set_binding
    {| bb_account_id := account_id; bb_account_type := account_type;
       bb_account_fingerprint := fingerprint account_id account_type;
       bb_session_id := bb_session_id (br_binding b) |} b).

(** [_register_timer]. *)
Definition register_timer (callback_name period : string) : M R bool :=
  match tm_run_time with
  | None => retM false
  | Some run =>
      except (do! external (fun n => match run n with Some e => Err e | None => Ok tt end) ;; retM true)
        (fun e => do! runtime_error dep "RUN_TIME_REGISTRATION_FAILED" (Some e)
                        [("callback", JStr callback_name); ("period", JStr period)] ;;
                  retM false)
  end.

(** [_publish_instance_manifest]. *)
Definition publish_instance_manifest : M R unit :=
  b <- the_bridge ;;
  now_ms <- time_ms ;;
  do! file_op ;;
  write_part (fun _ : manifest =>
    {| mf_raw := Some (utf8 (dumps true (JObj (instance_manifest dep (br_binding b) now_ms)) +:+ line_feed)) |}).

(** [setter(account_id)]. *)
Definition subscribe_account : M R unit :=
  let subscribed v := update_ready (fun r => {| rd_initialized := rd_initialized r;
    rd_callback_subscription := v; rd_command_timer := rd_command_timer r;
    rd_snapshot_timer := rd_snapshot_timer r; rd_spool_ready := rd_spool_ready r |}) in
  match tm_set_account with
  | Some setter =>
      except (do! external (fun n => match setter n with Some e => Err e | None => Ok tt end) ;;
              subscribed true)
        (fun e => do! subscribed false ;; runtime_error dep "SET_ACCOUNT_FAILED" (Some e) [])
  | None => do! subscribed false ;; runtime_error dep "SET_ACCOUNT_UNAVAILABLE" None []
  end.

(** What [_bind_runtime] does once the manifest is published. *)
Definition announce_ready : M R bool :=
  do! update_ready (fun r => {| rd_initialized := true;
        rd_callback_subscription := rd_callback_subscription r; rd_command_timer := rd_command_timer r;
        rd_snapshot_timer := rd_snapshot_timer r; rd_spool_ready := rd_spool_ready r |}) ;;
  command_timer <- register_timer "command_tick" "1nSecond" ;;
  do! update_ready (fun r => {| rd_initialized := rd_initialized r;
        rd_callback_subscription := rd_callback_subscription r; rd_command_timer := command_timer;
        rd_snapshot_timer := rd_snapshot_timer r; rd_spool_ready := rd_spool_ready r |}) ;;
  snapshot_timer <- register_timer "periodic_snapshot_timer" "300nSecond" ;;
  do! update_ready (fun r => {| rd_initialized := rd_initialized r;
        rd_callback_subscription := rd_callback_subscription r; rd_command_timer := rd_command_timer r;
        rd_snapshot_timer := snapshot_timer; rd_spool_ready := rd_spool_ready r |}) ;;
  b <- the_bridge ;;
  subscription <- instrument_subscribe ;;
  probe <- instrument_probe ;;
  let r := br_ready b in
  do! enqueue dep "bridge_ready" "init"
        [("python_version", JStr tm_python_version);
         ("callback_subscription", JBool (rd_callback_subscription r));
         ("command_timer_registered", JBool (rd_command_timer r));
         ("snapshot_timer_registered", JBool (rd_snapshot_timer r));
         ("spool_ready", JBool (rd_spool_ready r)); ("capabilities", JObj (capabilities dep));
         ("instrument_subscription", subscription); ("instrument_probe", probe)] ;;
  do! flush_transport ;;
  retM true.

(** [_bind_runtime]. *)
Definition bind_runtime : M R bool :=
  match some_text tm_account, some_text tm_account_type with
  | Some account_id, Some account_type =>
      do! set_account_state (Some account_id) (Some account_type) ;;
      b <- the_bridge ;;
      if TRADING_ENABLED dep && negb (mutation_gate_valid (br_binding b)) then
        do! runtime_error dep "MUTATION_GATE_INVALID" None [] ;; retM false
      else
        spool <- except (do! ensure_spool ;; retM None) (fun e => retM (Some e)) ;;
        match spool with
        | Some e => do! runtime_error dep "SPOOL_INIT_FAILED" (Some e) [] ;; retM false
        | None =>
            do! subscribe_account ;;
            published <- except (do! publish_instance_manifest ;; retM None) (fun e => retM (Some e)) ;;
            match published with
            | Some e => do! runtime_error dep "INSTANCE_MANIFEST_FAILED" (Some e) [] ;; retM false
            | None => announce_ready
            end
        end
  | _, _ => do! runtime_error dep "ACCOUNT_BINDING_UNAVAILABLE" None [] ;; retM false
  end.

(** [not _STATE.initialized and not _bind_runtime(ContextInfo)], negated. *)
Definition is_bound : M R bool :=
  b <- the_bridge ;;
  if rd_initialized (br_ready b) then retM true else bind_runtime.

(** [_top_level_bootstrap]. *)
Definition top_level_bootstrap : M R unit :=
  match some_text tm_account, some_text tm_account_type with
  | Some account_id, Some account_type =>
      do! set_account_state (Some account_id) (Some account_type) ;;
      if bool_decide (is_Some tm_query) then
        except (do! ensure_spool ;; do! read_snapshot dep ;; do! flush_transport ;; retM tt)
          (fun e => runtime_error dep "TOP_LEVEL_SNAPSHOT_FAILED" (Some e) [])
      else retM tt
  | _, _ => retM tt
  end.

(** Loading the module: a new session. *)
Definition load : M R unit :=
  u <- uuid4 ;;
  do! write_part (fun _ : bridge => fresh_bridge (without_dashes u)) ;;
  top_level_bootstrap.

(** [init]. *)
Definition init : M R unit := do! is_bound ;; retM tt.

(** The reads of [after_init] and [periodic_snapshot_timer]. *)
Definition report (failure : string) : M R unit :=
  bound <- is_bound ;;
  if bound : bool then
    except (do! read_account_capabilities dep ;; do! read_snapshot dep ;; do! flush_transport ;; retM tt)
      (fun e => runtime_error dep failure (Some e) [])
  else retM tt.

Definition after_init : M R unit := report "INITIAL_SNAPSHOT_FAILED".
Definition periodic_snapshot_timer : M R unit := report "PERIODIC_SNAPSHOT_FAILED".

(** [handlebar]. *)
Definition handlebar : M R unit :=
  bound <- is_bound ;;
  if bound : bool then do! flush_transport ;; retM tt else retM tt.

(** [command_tick]. *)
Definition command_tick : M R unit :=
  bound <- is_bound ;;
  if bound : bool then
    do! flush_transport ;;
    do! drain_command_inbox dep execute_order_command refresh_tick ;;
    retM tt
  else retM tt.
End Life.
