(* ===== verification/BridgeFacts.v ===== *)
(** * BridgeFacts: what one step of the bridge may do

    No code of its own.  An operation of the bridge either tends ([tended]: no call of
    the broker, no command file appears or returns to the inbox) or carries one file
    out ([carried]: at most one call, which the frame of the file authorises). *)

From stdpp Require Import gmap.
From Stdlib Require Import SpecFloat.
From S2P Require Import Prelude Json Parse Domain Db OrderStore BrokerEvidence Parts Wire Frame Spool Commands PyFloat Bridge.
Open Scope Z_scope.
Open Scope oms_scope.

(** ** Parts of the process *)

(** The parts do not overlap. *)
Class Separate (R : Type) `{Part bridge R} `{Part spool R} `{Part files R} `{Part calls R}
    `{Part manifest R} := {
  bridge_spool :: Apart bridge spool R; bridge_calls :: Apart bridge calls R;
  files_spool :: Apart files spool R; files_calls :: Apart files calls R;
  files_bridge :: Apart files bridge R;
  manifest_spool :: Apart manifest spool R; manifest_calls :: Apart manifest calls R;
  manifest_bridge :: Apart manifest bridge R;
  spool_calls :: Apart spool calls R; spool_bridge :: Apart spool bridge R;
  calls_spool :: Apart calls spool R; calls_bridge :: Apart calls bridge R
}.

Section Tended.
Context {R : Type} {bridge_part : Part bridge R} {spool_part : Part spool R} {files_part : Part files R}
  {calls_part : Part calls R} {manifest_part : Part manifest R} {separate : Separate R}.
Context {env : Env} {term : Terminal}.
Implicit Types (w : world R).

Definition calls_of w : calls := get_part (w_rest w).
Definition bridge_of w : bridge := get_part (w_rest w).

(** The fingerprint of a session is that of its account. *)
Definition well_bound (b : bridge) : Prop :=
  bb_account_fingerprint (br_binding b) =
  fingerprint (bb_account_id (br_binding b)) (bb_account_type (br_binding b)).

(** The same session: its submits are those it had, and once halted it is halted. *)
Record goes_on (b b' : bridge) : Prop := {
  go_bound : well_bound b -> well_bound b';
  go_session : bb_session_id (br_binding b') = bb_session_id (br_binding b);
  go_submits : cv_submit_calls (br_commands b') = cv_submit_calls (br_commands b)
}.

#[export] Instance goes_on_preorder : PreOrder goes_on.
Proof. split; [by intros b; split|]. intros b1 b2 b3 [] []. split; [auto | congruence..]. Qed.

(** Nothing of the broker: no call, no command file appears or comes back to the
    inbox, and the session goes on. *)
Record tended w w' : Prop := {
  td_db : w_db w' = w_db w;
  td_tx : w_in_tx w' = w_in_tx w;
  td_calls : calls_of w' = calls_of w;
  td_bridge : goes_on (bridge_of w) (bridge_of w');
  td_files : keeps_files (spool_of w) (spool_of w');
  td_old : forall d n raw, spool_of w' !! (d, n) = Some raw -> exists d0, spool_of w !! (d0, n) = Some raw
}.

#[export] Instance tended_preorder : PreOrder tended.
Proof.
  split.
  - intros w. split; try done. intros d n raw H. by exists d.
  - intros w1 w2 w3 [] []. split; [congruence..| by etrans | by etrans|].
    intros d n raw H. destruct (td_old1 _ _ _ H) as (d0 & H0). by apply td_old0 in H0.
Qed.

Lemma tended_same w w' :
  w_db w' = w_db w -> w_in_tx w' = w_in_tx w -> calls_of w' = calls_of w ->
  goes_on (bridge_of w) (bridge_of w') -> spool_of w' = spool_of w -> tended w w'.
Proof.
  intros Hd Ht Hc Hb Hs. split; [done..| by rewrite Hs|]. rewrite Hs. intros d n raw H. by exists d.
Qed.

(** A computation that tends, whatever comes of it. *)
Definition tends {A} (m : M R A) : Prop := forall w, wp m (fun _ w' => tended w w') w.

Lemma tends_bind {A B} (m : M R A) (f : A -> M R B) : tends m -> (forall a, tends (f a)) -> tends (bindM m f).
Proof.
  intros Hm Hf w. apply wp_bind. eapply wp_mono; [apply Hm|].
  intros [a|e] w1 H1; [|done]. eapply wp_mono; [apply Hf|]. intros r w2 H2. by etrans.
Qed.

Lemma tends_try {A} (m : M R A) h : tends m -> (forall e, tends (h e)) -> tends (tryM m h).
Proof.
  intros Hm Hh w. apply wp_try. eapply wp_mono; [apply Hm|].
  intros [a|e] w1 H1; [done|]. eapply wp_mono; [apply Hh|]. intros r w2 H2. by etrans.
Qed.

Lemma tends_quiet {A} (m : M R A) : quiet m -> tends m.
Proof.
  intros Hm w. eapply wp_mono; [apply Hm|]. intros r w' [Hd [Ht Hr]].
  apply tended_same; [done | done | by unfold calls_of; rewrite Hr | by unfold bridge_of; rewrite Hr
    | by unfold spool_of; rewrite Hr].
Qed.

Lemma tends_external {A} (f : nat -> res A) : tends (external f).
Proof. intros w. by apply tended_same. Qed.

Lemma tends_write {S} `{P : Part S R} `{!Apart S spool R} `{!Apart S calls R} `{!Apart S bridge R} (f : S -> S) :
  tends (write_part f).
Proof.
  intros w. unfold wp. cbn. apply tended_same; [done..| | |]; unfold calls_of, spool_of, bridge_of; cbn;
    by rewrite get_set_apart.
Qed.

Lemma on_bridge_tends f : (forall b, goes_on b (f b)) -> tends (on_bridge f).
Proof.
  intros Hf w. unfold wp. cbn. apply tended_same; [done..| | |]; unfold calls_of, spool_of, bridge_of; cbn;
    [by rewrite get_set_apart | rewrite get_set_part; apply Hf | by rewrite get_set_apart].
Qed.

Lemma tends_iter {A} (f : A -> M R unit) l : (forall a, tends (f a)) -> tends (iterM f l).
Proof.
  intros Hf. induction l as [|a l IH]; [apply tends_quiet, quiet_ret|].
  simpl. by apply tends_bind.
Qed.

Lemma tends_fold {A S} (f : S -> A -> M R S) s l : (forall s a, tends (f s a)) -> tends (foldM f s l).
Proof.
  intros Hf. revert s. induction l as [|a l IH]; intros s; [apply tends_quiet, quiet_ret|].
  simpl. apply tends_bind; [apply Hf | intros s'; apply IH].
Qed.

Lemma tends_except {A} (m : M R A) h : tends m -> (forall e, tends (h e)) -> tends (except m h).
Proof.
  intros Hm Hh. apply tends_try; [done|]. intros e. case_match; [done|].
  intros w. by apply tended_same.
Qed.
End Tended.

(** A change of another part of the session. *)
Ltac session_goes_on := intros ?; split; first [done | by intros ? | cbn; lia].

Create HintDb tends.
Create HintDb tending.
#[export] Hint Constants Opaque : tending.
#[export] Hint Transparent jdict : tending.
#[export] Hint Extern 1 (tends (on_bridge _)) => (apply on_bridge_tends; session_goes_on) : tends.
#[export] Hint Resolve tends_bind tends_external tends_iter tends_fold tends_except : tends.
#[export] Hint Extern 1 (tends (write_part _)) => (apply tends_write; apply _) : tends.
#[export] Hint Extern 3 (tends _) => (apply tends_quiet; solve [auto 6 with quiet]) : tends.

(** Go through a computation of this kind. *)
Ltac tend_step :=
  lazymatch goal with
  | |- tends (bindM _ _) => apply tends_bind; [|intros ?]
  | |- tends (except _ _) => apply tends_except; [|intros ?]
  | |- tends (match ?x with _ => _ end) => destruct x
  | |- _ => first [ solve [typeclasses eauto with tending | auto with tends] | case_match ]
  end.
Ltac tend := repeat tend_step.

Section Operations.
Context {R : Type} {bridge_part : Part bridge R} {spool_part : Part spool R} {files_part : Part files R}
  {calls_part : Part calls R} {manifest_part : Part manifest R} {separate : Separate R}.
Context {env : Env} {term : Terminal} (dep : deployment).
Implicit Types (w : world R).

Lemma the_bridge_tends : tends (R := R) the_bridge.
Proof. apply tends_quiet, quiet_read_part. Qed.
Lemma time_ms_tends : tends (R := R) time_ms.
Proof. apply tends_quiet. unfold time_ms. auto with quiet. Qed.
Lemma file_op_tends : tends (R := R) file_op.
Proof. apply tends_external. Qed.
Hint Resolve the_bridge_tends time_ms_tends file_op_tends : tends.

Lemma count_done_tends a b c d : tends (R := R) (count_done a b c d).
Proof. apply on_bridge_tends. session_goes_on. Qed.
Lemma update_ready_tends f : tends (R := R) (update_ready f).
Proof. apply on_bridge_tends. session_goes_on. Qed.
Hint Resolve count_done_tends update_ready_tends : tends.

Lemma enqueue_tends ty src p : tends (R := R) (enqueue dep ty src p).
Proof. unfold enqueue, make_event. tend. Qed.
Hint Resolve enqueue_tends : tends.

Lemma persist_event_tends e : tends (R := R) (persist_event e).
Proof. unfold persist_event, ensure_spool. tend. Qed.
Hint Resolve persist_event_tends : tends.

Lemma flush_loop_tends l : tends (R := R) (flush_loop l).
Proof. induction l as [|e l IH]; cbn [flush_loop]; tend. Qed.
Hint Resolve flush_loop_tends : tends.

Lemma flush_tends : tends (R := R) flush_transport.
Proof. unfold flush_transport. tend. Qed.
Hint Resolve flush_tends : tends.

Lemma runtime_error_tends c e x : tends (R := R) (runtime_error dep c e x).
Proof. unfold runtime_error. tend. Qed.
Hint Resolve runtime_error_tends : tends.

(** A query of the terminal. *)
Definition tending_query (q : string -> string -> string -> M R (option (list qobj))) : Prop :=
  forall a b c, tends (q a b c).

Lemma resolve_query_ok w :
  wp (R := R) resolve_query (fun r w' => w' = w /\
    match r with Ok q => tending_query q | Err _ => True end) w.
Proof.
  unfold resolve_query. destruct tm_query as [q|]; (split; [done|]); [|done].
  intros a b c. apply tends_external.
Qed.

Lemma with_query_tends {A} (f : (string -> string -> string -> M R (option (list qobj))) -> M R A) :
  (forall q, tending_query q -> tends (f q)) -> tends (bindM resolve_query f).
Proof.
  intros Hf w. apply wp_bind. eapply wp_mono; [apply resolve_query_ok|].
  intros [q|e] w' [-> H]; [by apply Hf | reflexivity].
Qed.

Lemma read_type_tends q a b s t : tending_query q -> tends (read_type q a b s t).
Proof. intros Hq. unfold read_type. tend. Qed.
Lemma read_linked_tends q a b s t : tending_query q -> tends (read_linked q a b s t).
Proof. intros Hq. unfold read_linked. tend. Qed.
Hint Resolve read_type_tends read_linked_tends : tends.

Lemma bound_account_tends : tends (R := R) bound_account.
Proof. unfold bound_account. tend. Qed.
Lemma remember_tends p now : tends (R := R) (remember_account_state p now).
Proof. apply on_bridge_tends. session_goes_on. Qed.
Hint Resolve bound_account_tends remember_tends : tends.

Lemma bridge_monotonic_tends : tends (R := R) bridge_monotonic.
Proof. apply tends_quiet. unfold bridge_monotonic. auto with quiet. Qed.
Hint Resolve bridge_monotonic_tends : tends.

Lemma read_snapshot_tends : tends (R := R) (read_snapshot dep).
Proof.
  unfold read_snapshot. apply tends_bind; [tend | intros [id type]].
  apply with_query_tends; intros q Hq. tend.
Qed.

Lemma probe_tends q a b c : tending_query q -> tends (account_probe_record q a b c).
Proof. intros Hq. unfold account_probe_record. tend. Qed.
Hint Resolve probe_tends : tends.

Lemma capabilities_tends : tends (R := R) (read_account_capabilities dep).
Proof.
  unfold read_account_capabilities. apply tends_bind; [tend | intros [id type]].
  cbv zeta. apply with_query_tends; intros q Hq. tend.
Qed.
Hint Resolve read_snapshot_tends capabilities_tends : tends.

(** ** Moving command files *)

(** What a move did: nothing, or it took one file on. *)
Definition taken (s t : CommandDir) (name : string) (fs fs' : spool) : Prop :=
  exists raw, fs !! (s, name) = Some raw /\ fs' = <[(t, name) := raw]> (delete (s, name) fs).

Lemma taken_keeps s t name fs fs' : s <> t -> t <> CInbox -> taken s t name fs fs' -> keeps_files fs fs'.
Proof.
  intros Hst Ht (raw & Hraw & ->) Hu. apply moved_keeps; [|done].
  exists name, s, t, raw. split; [done|]. split; [|done]. destruct (Hu _ _ _ Hraw) as [_ Ho]. by apply Ho.
Qed.

Lemma command_move_ok s t name w :
  wp (R := R) (move_command s t name) (fun r w' =>
    w_db w' = w_db w /\ w_in_tx w' = w_in_tx w /\ calls_of w' = calls_of w /\ bridge_of w' = bridge_of w /\
    match r with
    | Ok _ => taken s t name (spool_of w) (spool_of w')
    | Err _ => spool_of w' = spool_of w
    end) w.
Proof.
  unfold move_command, file_op. apply wp_bind. unfold wp at 1. unfold external.
  cbn [fst snd]. destruct (tm_file _) as [e|]; [done|]. apply wp_bind. unfold wp at 1. cbn [read_part read_rest fst snd].
  unfold read_part, read_rest. cbn [fst snd]. change (get_part (w_rest (tick_world w)) : spool) with (spool_of w).
  destruct (spool_of w !! (s, name)) as [raw|] eqn:Er; [|done].
  unfold wp. cbn. do 2 (split; [done|]). unfold calls_of, bridge_of, spool_of. cbn.
  rewrite !get_set_apart, get_set_part. do 2 (split; [done|]). by exists raw.
Qed.

Lemma move_tends s t name : s <> t -> t <> CInbox -> tends (R := R) (move_command s t name).
Proof.
  intros Hst Ht w. eapply wp_mono; [apply command_move_ok|]. intros r w' (Hd & Htx & Hc & Hb & H).
  destruct r as [u|e]; [|apply tended_same; try done; by rewrite Hb]. split; [done..|by rewrite Hb|exact (taken_keeps _ _ _ _ _ Hst Ht H)|].
  destruct H as (raw & Hraw & ->). intros d n raw1 H1.
  apply lookup_insert_Some in H1 as [[[= <- <-] <-]|[_ H1]]; [by exists s|].
  apply lookup_delete_Some in H1 as [_ H1]. by exists d.
Qed.

Hint Extern 1 (tends (move_command _ _ _)) => (apply move_tends; discriminate) : tends.

Lemma is_command_file_quiet d n : quiet (R := R) (is_command_file d n).
Proof. apply quiet_read_part. Qed.
Hint Resolve is_command_file_quiet : quiet.

Lemma list_commands_tends d : tends (R := R) (list_commands d).
Proof. unfold list_commands. tend. Qed.
Lemma read_command_tends d n : tends (R := R) (read_command d n).
Proof. unfold read_command. tend. Qed.
Lemma command_result_tends c s b : tends (R := R) (command_result dep c s b).
Proof. unfold command_result. tend. Qed.
Hint Resolve list_commands_tends read_command_tends command_result_tends : tends.

Lemma recover_orphan_tends n : tends (R := R) (recover_orphan dep n).
Proof. unfold recover_orphan. tend. Qed.
Hint Resolve recover_orphan_tends : tends.

Lemma recover_orphans_tends : tends (R := R) (recover_orphaned_claims dep).
Proof. unfold recover_orphaned_claims. tend. Qed.

Lemma reject_claimed_tends n c e : tends (R := R) (reject_claimed dep n c e).
Proof.
  unfold reject_claimed. apply tends_bind; [|intros _; tend].
  apply tends_try; [tend|]. intros x. apply tends_bind; [tend|]. intros _. apply tends_quiet, quiet_reraise.
Qed.
Hint Resolve recover_orphans_tends reject_claimed_tends : tends.

(** ** Callbacks and the life of a session *)

Lemma callback_event_tends ty p : tends (R := R) (callback_event dep ty p).
Proof. unfold callback_event. tend. Qed.
Hint Resolve callback_event_tends : tends.

Lemma matches_tends ty o : tends (R := R) (matches_selected_account dep ty o).
Proof. unfold matches_selected_account. tend. Qed.
Hint Resolve matches_tends : tends.

Lemma account_callback_tends o : tends (R := R) (account_callback dep o).
Proof. unfold account_callback. tend. Qed.
Lemma row_callback_tends ty f o : tends (R := R) (row_callback dep ty f o).
Proof. unfold row_callback. tend. Qed.

Lemma register_timer_tends a b : tends (R := R) (register_timer dep a b).
Proof. unfold register_timer. tend. Qed.
Lemma ensure_spool_tends : tends (R := R) ensure_spool.
Proof. unfold ensure_spool. tend. Qed.
Lemma subscribe_tends : tends (R := R) (subscribe_account dep).
Proof. unfold subscribe_account. tend. Qed.
Lemma publish_manifest_tends : tends (R := R) (publish_instance_manifest dep).
Proof. unfold publish_instance_manifest. tend. Qed.
Lemma set_account_state_tends a b : tends (R := R) (set_account_state a b).
Proof. apply on_bridge_tends. session_goes_on. Qed.
Hint Resolve register_timer_tends ensure_spool_tends subscribe_tends publish_manifest_tends
  set_account_state_tends : tends.

Lemma bootstrap_tends : tends (R := R) (top_level_bootstrap dep).
Proof. unfold top_level_bootstrap. tend. Qed.
Hint Resolve bootstrap_tends : tends.

(** The artifact's own diagnostics are reads of the terminal. *)
Context (refresh_tick : M R unit) (instrument_subscribe instrument_probe : M R json).
Hypothesis refresh_tends : tends refresh_tick.
Hypothesis subscribe_hook_tends : tends instrument_subscribe.
Hypothesis probe_hook_tends : tends instrument_probe.
Hint Resolve refresh_tends subscribe_hook_tends probe_hook_tends : tends.

Lemma announce_tends : tends (announce_ready dep instrument_subscribe instrument_probe).
Proof. unfold announce_ready. tend. Qed.
Hint Resolve announce_tends : tends.

Lemma bind_tends : tends (bind_runtime dep instrument_subscribe instrument_probe).
Proof. unfold bind_runtime. tend. Qed.
Hint Resolve bind_tends : tends.

Lemma is_bound_tends : tends (is_bound dep instrument_subscribe instrument_probe).
Proof. unfold is_bound. tend. Qed.
Hint Resolve is_bound_tends : tends.

Lemma report_tends c : tends (report dep instrument_subscribe instrument_probe c).
Proof. unfold report. tend. Qed.
Lemma init_tends : tends (init dep instrument_subscribe instrument_probe).
Proof. unfold init. tend. Qed.
Lemma handlebar_tends : tends (handlebar dep instrument_subscribe instrument_probe).
Proof. unfold handlebar. tend. Qed.
End Operations.
#[export] Hint Resolve the_bridge_tends time_ms_tends file_op_tends count_done_tends
  update_ready_tends enqueue_tends persist_event_tends flush_loop_tends flush_tends
  runtime_error_tends read_type_tends read_linked_tends bound_account_tends remember_tends
  bridge_monotonic_tends probe_tends read_snapshot_tends capabilities_tends list_commands_tends
  read_command_tends command_result_tends recover_orphan_tends recover_orphans_tends
  reject_claimed_tends callback_event_tends matches_tends register_timer_tends ensure_spool_tends
  subscribe_tends publish_manifest_tends set_account_state_tends bootstrap_tends announce_tends
  bind_tends is_bound_tends account_callback_tends row_callback_tends report_tends
  init_tends handlebar_tends : tending.
#[export] Hint Resolve is_command_file_quiet : quiet.
#[export] Hint Extern 1 (tends (move_command _ _ _)) => (apply move_tends; discriminate) : tends.

(** ** What an order command may do *)

(** The number of orders among the calls. *)
Definition submits (l : calls) : Z :=
  Z.of_nat (length (List.filter (fun c => match c with Passorder _ _ _ _ _ _ _ => true | _ => false end) l)).

(** A call a command stands for: of the authorised account, with the fields of the
    command, within the bounds. *)
Inductive authorised (dep : deployment) (command : jdict) : api_call -> Prop :=
  | submit_authorised account account_type symbol price quantity strategy :
      jget "command_type" command = JStr "SUBMIT_LIMIT" ->
      fingerprint (Some account) (Some account_type) = Some (AUTHORIZED_ACCOUNT_FINGERPRINT dep) ->
      let payload := default [] (as_dict (jget "payload" command)) in
      jget "symbol" payload = JStr symbol -> jget "quantity" payload = JInt quantity ->
      (jget "side" payload = JStr "BUY" \/ jget "side" payload = JStr "SELL") ->
      py_float (jget "limit_price" payload) = Some price ->
      1 <= quantity <= SIMULATION_MAX_ORDER_QUANTITY dep ->
      fltb float_zero price = true -> fleb price (of_whole false 100000) = true ->
      authorised dep command
        (Passorder (if is_str "BUY" (jget "side" payload) then 23 else 24) account symbol price quantity
           strategy (text (jget "broker_token" command)))
  | cancel_authorised account account_type broker_order_id :
      jget "command_type" command = JStr "CANCEL_ORDER" ->
      fingerprint (Some account) (Some account_type) = Some (AUTHORIZED_ACCOUNT_FINGERPRINT dep) ->
      json_text (jget "broker_order_id" (default [] (as_dict (jget "payload" command)))) = Ok broker_order_id ->
      authorised dep command (CancelCall broker_order_id account account_type).

(** What is known of an executor: whether it counts its orders before it places them,
    and which calls it makes. *)
Record rules := { counts_first : Prop; allowed : api_call -> Prop }.

Section Acting.
Context {R : Type} {bridge_part : Part bridge R} {spool_part : Part spool R} {files_part : Part files R}
  {calls_part : Part calls R} {manifest_part : Part manifest R} {separate : Separate R}.
Context {env : Env} {term : Terminal} (dep : deployment).
Implicit Types (w : world R).

(** What an executor does with a command: nothing of the spool, and at most one
    call, which the command authorises. *)
Record acted (ru : rules) (command : jdict) w w' : Prop := {
  ac_db : w_db w' = w_db w;
  ac_tx : w_in_tx w' = w_in_tx w;
  ac_spool : spool_of w' = spool_of w;
  ac_binding : br_binding (bridge_of w') = br_binding (bridge_of w);
  ac_fuse : counts_first ru ->
    submits (calls_of w') - submits (calls_of w) =
      cv_submit_calls (br_commands (bridge_of w')) - cv_submit_calls (br_commands (bridge_of w)) /\
    (submits (calls_of w') = submits (calls_of w) \/
     cv_submit_calls (br_commands (bridge_of w')) <= SIMULATION_MAX_SUBMIT_CALLS dep);
  ac_calls : calls_of w' = calls_of w \/
    exists c, calls_of w' = calls_of w ++ [c] /\
      bb_account_fingerprint (br_binding (bridge_of w)) = Some (AUTHORIZED_ACCOUNT_FINGERPRINT dep) /\
      allowed ru c /\ (well_bound (bridge_of w) -> authorised dep command c)
}.

Definition executes (ru : rules) (execute : jdict -> M R (string * bool)) : Prop :=
  forall command w, wp (execute command) (fun _ w' => acted ru command w w') w.

Lemma acted_still ru command w w' :
  w_db w' = w_db w -> w_in_tx w' = w_in_tx w -> w_rest w' = w_rest w -> acted ru command w w'.
Proof.
  intros Hd Ht Hr. assert (spool_of w' = spool_of w) by (unfold spool_of; by rewrite Hr).
  assert (Hc : calls_of w' = calls_of w) by (unfold calls_of; by rewrite Hr).
  assert (Hb : bridge_of w' = bridge_of w) by (unfold bridge_of; by rewrite Hr).
  split; try done; [by rewrite Hb | intros _; rewrite Hc, Hb; split; [lia | by left] | by left].
Qed.

Lemma submits_app l l' : submits (l ++ l') = submits l + submits l'.
Proof. unfold submits. rewrite List.filter_app, length_app. lia. Qed.

(** A call that was made, and maybe counted. *)
Lemma acted_call ru command w w' c :
  w_db w' = w_db w -> w_in_tx w' = w_in_tx w ->
  calls_of w' = calls_of w ++ [c] -> spool_of w' = spool_of w ->
  br_binding (bridge_of w') = br_binding (bridge_of w) ->
  (counts_first ru -> cv_submit_calls (br_commands (bridge_of w')) =
            cv_submit_calls (br_commands (bridge_of w)) + submits [c] /\
            (submits [c] = 0 \/ cv_submit_calls (br_commands (bridge_of w)) < SIMULATION_MAX_SUBMIT_CALLS dep)) ->
  bb_account_fingerprint (br_binding (bridge_of w)) = Some (AUTHORIZED_ACCOUNT_FINGERPRINT dep) ->
  allowed ru c -> (well_bound (bridge_of w) -> authorised dep command c) -> acted ru command w w'.
Proof.
  intros Hd Ht Hc Hs Hb Hf Ha Hal Hok. split; try done; [|right; by exists c].
  intros Hfu. destruct (Hf Hfu) as [He Hm]. rewrite Hc, submits_app, He.
  assert (submits [c] <= 1) by (destruct c; vm_compute; discriminate). lia.
Qed.

(** The account of a session, when its fingerprint is the authorised one. *)
Lemma bound_fingerprint b f :
  well_bound b -> bb_account_fingerprint (br_binding b) = Some f ->
  fingerprint (Some (default "" (bb_account_id (br_binding b))))
    (Some (default "" (bb_account_type (br_binding b)))) = Some f.
Proof.
  unfold well_bound. intros -> H. unfold fingerprint in *.
  destruct (bb_account_id _) as [id|]; [|done]. by destruct (bb_account_type _).
Qed.

Lemma wp_external {A} (f : nat -> res A) Q w : (forall r, Q r (tick_world w)) -> wp (R := R) (external f) Q w.
Proof. intros H. apply H. Qed.

Lemma wp_the_bridge Q w : Q (Ok (bridge_of w)) w -> wp the_bridge Q w.
Proof. done. Qed.

Lemma wp_call_api c Q w : Q (Ok tt) (call_api c w).2 -> wp (call_api c) Q w.
Proof. done. Qed.

Lemma wp_on_bridge f Q w : Q (Ok tt) (on_bridge f w).2 -> wp (on_bridge f) Q w.
Proof. done. Qed.

Lemma is_str_eq s j : is_str s j = true -> j = JStr s.
Proof. unfold is_str. destruct j; try done. intros H. by apply bool_decide_eq_true in H as ->. Qed.
End Acting.

(** Go through reads and checks. *)
Ltac look_step :=
  lazymatch goal with
  | |- wp (bindM _ _) _ _ => apply wp_bind
  | |- wp (retM _) _ _ => apply wp_ret
  | |- wp the_bridge _ _ => apply wp_the_bridge
  | |- wp (ensure _ _) _ _ => apply wp_guard; intros ?
  | |- wp (call_api _) _ _ => apply wp_call_api
  | |- wp (on_bridge _) _ _ => apply wp_on_bridge
  | |- wp count_cancel _ _ => apply wp_on_bridge
  | |- wp count_submit _ _ => apply wp_on_bridge
  | |- wp (external _) _ _ => apply wp_external; intros [?|?]
  | |- wp (refuse _) _ _ => unfold wp at 1; cbn [refuse raiseM fst snd]
  | |- wp (lift ?r) _ _ => unfold wp at 1; cbn [lift fst snd]; destruct r eqn:?
  | |- wp (match ?x with _ => _ end) _ _ => destruct x eqn:?
  | |- wp _ _ _ => progress cbv beta iota zeta
  | |- match _ with Ok _ => _ | Err _ => _ end => progress cbv beta iota
  | |- _ \/ _ => fail
  end.
Ltac look := repeat look_step.
Ltac read_parts := repeat first [rewrite get_set_part | rewrite get_set_apart by apply _].

Section Executors.
Context {R : Type} {bridge_part : Part bridge R} {spool_part : Part spool R} {files_part : Part files R}
  {calls_part : Part calls R} {manifest_part : Part manifest R} {separate : Separate R}.
Context {env : Env} {term : Terminal} (dep : deployment).
Implicit Types (w : world R).

(** The world but for its clock. *)
Definition same_world w w' : Prop := w_db w' = w_db w /\ w_in_tx w' = w_in_tx w /\ w_rest w' = w_rest w.

Lemma cancel_target_looks mismatch command w :
  wp (R := R) (cancel_target mismatch command) (fun r w' => same_world w w' /\
    match r with
    | Ok id => json_text (jget "broker_order_id" (default [] (as_dict (jget "payload" command)))) = Ok id
    | Err _ => True
    end) w.
Proof. unfold cancel_target. look; repeat split; assumption. Qed.

Lemma acted_same ru command w w1 w' :
  same_world w w1 -> acted dep ru command w1 w' -> acted dep ru command w w'.
Proof.
  intros (Hd & Ht & Hr) []. unfold spool_of, calls_of, bridge_of in *. rewrite Hr in ac_spool0, ac_binding0, ac_fuse0, ac_calls0.
  split; [congruence | congruence | done..].
Qed.

(** The world after a call. *)
Ltac act c := apply (acted_call _ _ _ _ _ c); unfold calls_of, spool_of, bridge_of; cbn; read_parts; try done.

Lemma cancel_acts ru limit mismatch prefix command w :
  jget "command_type" command = JStr "CANCEL_ORDER" ->
  bb_account_fingerprint (br_binding (bridge_of w)) = Some (AUTHORIZED_ACCOUNT_FINGERPRINT dep) ->
  (forall id a t, allowed ru (CancelCall id a t)) ->
  wp (execute_cancel dep limit mismatch prefix command) (fun _ w' => acted dep ru command w w') w.
Proof.
  intros Htype Ha Hall. unfold execute_cancel. look; [|by apply acted_still].
  eapply wp_mono; [apply cancel_target_looks|].
  intros [id|e] w1 [Hs Hid]; [|by destruct Hs as (? & ? & ?); apply acted_still].
  assert (Hb : bridge_of w1 = bridge_of w) by (destruct Hs as (_ & _ & Hr); unfold bridge_of; by rewrite Hr).
  set (c := CancelCall id (default "" (bb_account_id (br_binding (bridge_of w))))
               (default "" (bb_account_type (br_binding (bridge_of w))))).
  assert (Hok : well_bound (bridge_of w1) -> authorised dep command c).
  { rewrite Hb. intros Hw. apply cancel_authorised; [done | by apply bound_fingerprint | done]. }
  rewrite <- Hb in Ha. look.
  all: try (eapply acted_same; [exact Hs|]; by apply acted_still).
  all: eapply acted_same; [exact Hs|]; act c; try apply Hall.
  all: intros _; change (submits [c]) with 0; cbn; lia.
Qed.

(** A guard of a conjunction. *)
Ltac split_guards :=
  repeat match goal with
  | H : _ && _ = true |- _ => apply andb_true_iff in H as [? ?]
  | H : _ || _ = true |- _ => apply orb_true_iff in H
  | H : bool_decide _ = true |- _ => apply bool_decide_eq_true in H
  | H : is_str _ _ = true |- _ => apply is_str_eq in H
  end.

Lemma simulation_order_symbol_text j s : simulation_order_symbol j = Some s -> j = JStr s.
Proof.
  unfold simulation_order_symbol. destruct j; try done. destruct (split_dot _) as [[? ?]|]; [|done].
  case_match; [by intros [= ->] | done].
Qed.

Definition simulation_rules : rules :=
  {| counts_first := False;
     allowed c := match c with Passorder _ _ _ _ _ strategy _ => strategy = "BIGQMT_SIM_CAL"%string | _ => True end |}.

Lemma simulation_executes : executes dep simulation_rules (execute_simulation dep).
Proof.
  intros command w. unfold execute_simulation, passorder, count_submit. look; try by apply acted_still.
  3: { split_guards. by apply cancel_acts. }
  all: split_guards;
    match goal with |- context [Passorder ?o ?a ?s ?p ?q ?st ?t] => act (Passorder o a s p q st t) end.
  all: intros Hb; apply (submit_authorised _ _ _ (default "" (bb_account_type (br_binding (bridge_of w)))));
    try done; [by apply bound_fingerprint | by apply simulation_order_symbol_text
              | naive_solver (auto using is_str_eq) | lia].
Qed.

(** The one case of the live canary. *)
Definition canary_case (c : api_call) : Prop :=
  match c with
  | Passorder optype _ symbol price quantity strategy _ =>
      optype = 23 /\ symbol = "00700.HGT"%string /\ price = float_one /\ quantity = 100 /\
      strategy = "BIGQMT_LIVE_CANARY"%string
  | CancelCall _ _ _ => True
  end.

Definition canary_rules : rules := {| counts_first := True; allowed := canary_case |}.

Lemma feqb_positive f m e : feqb f (S754_finite false m e) = true -> f = S754_finite false m e.
Proof.
  unfold feqb, SFeqb. destruct f as [s|s| |s m' e']; cbn; [by destruct s | by destruct s | done | destruct s; [done|]].
  destruct (e' ?= e) eqn:He; [|done..]. apply Z.compare_eq in He as ->.
  destruct (Pos.compare_cont Eq m' m) eqn:Hm; [|done..]. by apply Pos.compare_eq in Hm as ->.
Qed.

Lemma feqb_one f : feqb f float_one = true -> f = float_one.
Proof.
  replace float_one with (S754_finite false 4503599627370496 (-52)) by by vm_compute. apply feqb_positive.
Qed.

Lemma canary_submit command account account_type :
  fingerprint (Some account) (Some account_type) = Some (AUTHORIZED_ACCOUNT_FINGERPRINT dep) ->
  SIMULATION_MAX_ORDER_QUANTITY dep = 100 ->
  jget "command_type" command = JStr "SUBMIT_LIMIT" ->
  let payload := default [] (as_dict (jget "payload" command)) in
  jget "symbol" payload = JStr "00700.HGT" -> jget "side" payload = JStr "BUY" ->
  jget "quantity" payload = JInt 100 -> py_float (jget "limit_price" payload) = Some float_one ->
  authorised dep command
    (Passorder 23 account "00700.HGT" float_one 100 "BIGQMT_LIVE_CANARY" (text (jget "broker_token" command))).
Proof.
  intros Hf Hmax Htype payload Hsym Hside Hq Hp.
  pose proof (submit_authorised dep command account account_type "00700.HGT" float_one 100 "BIGQMT_LIVE_CANARY") as H.
  cbv zeta in H. fold payload in H. rewrite Hside in H. apply H; auto; [lia | by vm_compute..].
Qed.

Lemma live_canary_executes :
  SIMULATION_MAX_ORDER_QUANTITY dep = 100 -> executes dep canary_rules (execute_live_canary dep).
Proof.
  intros Hmax command w. unfold execute_live_canary, passorder, instrument_preflight, cash_preflight.
  look; try by apply acted_still.
  3: { split_guards. by apply cancel_acts. }
  all: split_guards; repeat match goal with H : feqb _ _ = true |- _ => apply feqb_one in H; subst end;
    match goal with |- context [Passorder ?o ?a ?s ?p ?q ?st ?t] => act (Passorder o a s p q st t) end.
  all: cbn; read_parts; try done; change (get_part (w_rest w) : bridge) with (bridge_of w).
  1,3: intros _; unfold submits; cbn; lia.
  all: change (binary_round fprec femax false 1 0) with float_one; intros Hb;
    apply (canary_submit _ _ (default "" (bb_account_type (br_binding (bridge_of w))))); try done;
    [by apply bound_fingerprint | ].
  all: repeat case_match; try done; f_equal; lia.
Qed.
End Executors.

(** ** One command file *)

Section Files.
Context {R : Type} {bridge_part : Part bridge R} {spool_part : Part spool R} {files_part : Part files R}
  {calls_part : Part calls R} {manifest_part : Part manifest R} {separate : Separate R}.
Context {env : Env} {term : Terminal} (dep : deployment) (ru : rules).
Implicit Types (w : world R).

(** A call that the bytes of a command file stand for. *)
Definition stands_for (raw : list Z) (c : api_call) : Prop :=
  exists command, read_command_frame (Some (AUTHORIZED_ACCOUNT_FINGERPRINT dep)) raw = Ok command /\
    allowed ru c /\ authorised dep command c.

(** What processing a claimed file did: at most one call, which the file stands for. *)
Record carried (raw : list Z) w w' : Prop := {
  ca_db : w_db w' = w_db w;
  ca_tx : w_in_tx w' = w_in_tx w;
  ca_files : keeps_files (spool_of w) (spool_of w');
  ca_old : forall d n raw, spool_of w' !! (d, n) = Some raw -> exists d0, spool_of w !! (d0, n) = Some raw;
  ca_bound : well_bound (bridge_of w) -> well_bound (bridge_of w');
  ca_fuse : counts_first ru ->
    submits (calls_of w') - submits (calls_of w) =
      cv_submit_calls (br_commands (bridge_of w')) - cv_submit_calls (br_commands (bridge_of w)) /\
    (submits (calls_of w') = submits (calls_of w) \/
     cv_submit_calls (br_commands (bridge_of w')) <= SIMULATION_MAX_SUBMIT_CALLS dep);
  ca_calls : calls_of w' = calls_of w \/
    exists c, calls_of w' = calls_of w ++ [c] /\ (well_bound (bridge_of w) -> stands_for raw c)
}.

Lemma tended_carried raw w w' : tended w w' -> carried raw w w'.
Proof.
  intros [Hd Ht Hc [Hb Hs Hn] Hf Ho]. split; try done; [|by left].
  intros _. rewrite Hc, Hn. split; [lia | by left].
Qed.

Lemma carried_after raw w w1 w' : tended w w1 -> carried raw w1 w' -> carried raw w w'.
Proof.
  intros [Hd Ht Hc [Hb Hs Hn] Hf Ho] []. split; [congruence | congruence | by etrans | | auto | |].
  - intros d n r Hr. destruct (ca_old0 _ _ _ Hr) as (d0 & H0). by apply Ho in H0.
  - intros H. rewrite <- Hc, <- Hn. auto.
  - rewrite <- Hc. destruct ca_calls0 as [H|(c & H & Hok)]; [by left | right]. exists c. auto.
Qed.

Lemma carried_before raw w w1 w' : carried raw w w1 -> tended w1 w' -> carried raw w w'.
Proof.
  intros [] [Hd Ht Hc [Hb Hs Hn] Hf Ho]. split; [congruence | congruence | by etrans | | auto | |].
  - intros d n r Hr. destruct (Ho _ _ _ Hr) as (d0 & H0). by apply ca_old0 in H0.
  - intros H. rewrite Hc, Hn. auto.
  - by rewrite Hc.
Qed.

Lemma acted_carried raw command w w' :
  read_command_frame (bb_account_fingerprint (br_binding (bridge_of w))) raw = Ok command ->
  acted dep ru command w w' -> carried raw w w'.
Proof.
  intros Hraw []. split; try done.
  - by rewrite ac_spool0.
  - rewrite ac_spool0. intros d n r H. by exists d.
  - unfold well_bound. by rewrite ac_binding0.
  - destruct ac_calls0 as [H|(c & H & Hf & Hal & Hok)]; [by left | right].
    exists c. split; [done|]. intros Hb. exists command. rewrite Hf in Hraw. auto.
Qed.

(** A computation that carries a file out. *)
Definition carries {A} raw (m : M R A) w : Prop := wp m (fun _ w' => carried raw w w') w.

Lemma carries_tends {A} raw (m : M R A) w : tends m -> carries raw m w.
Proof. intros Hm. eapply wp_mono; [apply Hm|]. intros r w'. apply tended_carried. Qed.

Lemma carries_then {A B} raw (m : M R A) (f : A -> M R B) w :
  carries raw m w -> (forall a, tends (f a)) -> carries raw (bindM m f) w.
Proof.
  intros Hm Hf. apply wp_bind. eapply wp_mono; [apply Hm|]. intros [a|e] w1 H1; [|done].
  eapply wp_mono; [apply Hf|]. intros r w2. by apply carried_before.
Qed.

Lemma carries_except {A} raw (m : M R A) h w :
  carries raw m w -> (forall e, tends (h e)) -> carries raw (except m h) w.
Proof.
  intros Hm Hh. apply wp_try. eapply wp_mono; [apply Hm|]. intros [a|e] w1 H1; [done|].
  case_match; [|done]. eapply wp_mono; [apply Hh|]. intros r w2. by apply carried_before.
Qed.

Lemma read_command_ok d name w :
  wp (R := R) (read_command d name) (fun r w' => same_world w w' /\
    match r with
    | Ok c => exists raw, spool_of w !! (d, name) = Some raw /\
                read_command_frame (bb_account_fingerprint (br_binding (bridge_of w))) raw = Ok c
    | Err _ => True
    end) w.
Proof.
  unfold wp, read_command, file_op, external, bindM, the_bridge, read_part, read_rest. cbn.
  destruct (tm_file _); cbn; [done|]. unfold spool_of, bridge_of.
  destruct (_ !! (d, name)) as [raw|]; [|done]. cbn.
  destruct (read_command_frame _ raw) eqn:E; split; try done. by exists raw.
Qed.
End Files.

(** ** Draining the inbox *)

Section Draining.
Context {R : Type} {bridge_part : Part bridge R} {spool_part : Part spool R} {files_part : Part files R}
  {calls_part : Part calls R} {manifest_part : Part manifest R} {separate : Separate R}.
Context {env : Env} {term : Terminal} (dep : deployment) (ru : rules).
Context (execute_order_command : jdict -> M R (string * bool)) (refresh_tick : M R unit).
Hypothesis executor : executes dep ru execute_order_command.
Hypothesis refresh_tends : tends refresh_tick.
Hint Resolve refresh_tends : tending.
Implicit Types (w : world R).

Lemma finish_tends name c s b : tends (R := R) (finish_command dep name c s b).
Proof. unfold finish_command. tend. Qed.
Hint Resolve finish_tends : tending.

Lemma process_snapshot_tends name c : tends (process_snapshot dep refresh_tick name c).
Proof. unfold process_snapshot. tend. Qed.

Lemma process_order_carries raw name command w :
  read_command_frame (bb_account_fingerprint (br_binding (bridge_of w))) raw = Ok command ->
  carries dep ru raw (process_order dep execute_order_command name command) w.
Proof.
  intros Hraw. unfold process_order. apply carries_then.
  - unfold executed. apply carries_except; [|intros e; tend].
    apply carries_then; [|intros r; tend].
    eapply wp_mono; [apply executor|]. intros r w'. by apply acted_carried.
  - intros [[s b]|e]; [tend|]. tend.
Qed.

Lemma clock_quiet : quiet (R := R) time_ms.
Proof. unfold time_ms. auto with quiet. Qed.

Lemma same_tended w w' : same_world w w' -> tended w w'.
Proof.
  intros (Hd & Ht & Hr). apply tended_same; try done; unfold calls_of, bridge_of, spool_of; by rewrite Hr.
Qed.

Lemma carries_after {A} raw (m : M R A) w w1 :
  tended w w1 -> carries dep ru raw m w1 -> wp m (fun _ w' => carried dep ru raw w w') w1.
Proof. intros H Hm. eapply wp_mono; [apply Hm|]. intros r w'. by apply carried_after. Qed.

Lemma process_claimed_carries raw name w :
  spool_of w !! (CClaimed, name) = Some raw ->
  carries dep ru raw (process_claimed dep execute_order_command refresh_tick name) w.
Proof.
  intros Hraw. unfold process_claimed. apply wp_bind, wp_try, wp_bind.
  eapply wp_mono; [apply read_command_ok|]. intros [c|e] w1 [Hs Hc]; pose proof (same_tended _ _ Hs) as Ht.
  2: { destruct (catchable e); [|by apply tended_carried].
       apply wp_ret, carries_after; [done|]. apply carries_tends. tend. }
  destruct Hc as (raw' & Hraw' & Hc). assert (raw' = raw) as -> by congruence.
  apply wp_ret, wp_bind. assert (Hb : bridge_of w1 = bridge_of w).
  { destruct Hs as (_ & _ & Hr). unfold bridge_of. by rewrite Hr. }
  rewrite <- Hb in Hc. eapply wp_mono; [apply clock_quiet|]. intros [now|e] w2 Hs2;
    pose proof (same_tended _ _ Hs2) as Ht2; [|by apply tended_carried; etrans].
  assert (Hb2 : bridge_of w2 = bridge_of w1).
  { destruct Hs2 as (_ & _ & Hr). unfold bridge_of. by rewrite Hr. }
  rewrite <- Hb2 in Hc. apply carries_after; [by etrans|]. case_match; [apply carries_tends; tend|].
  case_match; [apply carries_tends, process_snapshot_tends | by apply process_order_carries].
Qed.

(** What the loop did with a file it claimed from the inbox. *)
Definition attempted name raw w w' : Prop :=
  carried dep ru raw w w' /\ spool_of w !! (CInbox, name) = Some raw /\
  (unambiguous (spool_of w) -> exists d, d <> CInbox /\ spool_of w' !! (d, name) = Some raw).

(** The claim of [drain_file]. *)
Lemma claim_ok name w :
  wp (except
    (there <- is_command_file CClaimed name ;;
     if (there : bool) then
       do! runtime_error dep "COMMAND_DUPLICATE_CLAIM" None [("file", JStr name)] ;;
       retM (inl false)
     else
       do! move_command CInbox CClaimed name ;;
       retM (inl true))
    (fun e => retM (inr e)))
    (fun r w' => tended w w' /\
       match r with
       | Ok (inl true) => exists raw, spool_of w !! (CInbox, name) = Some raw /\
                            spool_of w' !! (CClaimed, name) = Some raw
       | _ => True
       end) w.
Proof.
  apply wp_try, wp_bind. unfold wp at 1, is_command_file, read_part, read_rest. cbn [fst snd].
  case_match.
  - apply wp_bind. eapply wp_mono; [by apply runtime_error_tends|]. intros [u|e] w1 Ht; [done|].
    by destruct (catchable e).
  - apply wp_bind. eapply wp_mono; [apply wp_and; [apply command_move_ok | by apply (move_tends CInbox CClaimed)]|].
    intros [u|e] w1 [(_ & _ & _ & _ & Hf) Ht]; [|by destruct (catchable e)].
    apply wp_ret. split; [done|]. destruct Hf as (raw & Hraw & Hs). exists raw. split; [done|]. rewrite Hs. apply lookup_insert_eq.
Qed.

Lemma drain_file_ok name w :
  wp (drain_file dep execute_order_command refresh_tick name)
    (fun _ w' => tended w w' \/ exists raw, attempted name raw w w') w.
Proof.
  unfold drain_file. apply wp_bind. eapply wp_mono; [apply claim_ok|].
  match goal with |- context [except (process_claimed _ _ _ _) ?h] => set (failed := h) end.
  assert (Hfailed : forall e, tends (failed e)) by (intros e; subst failed; cbn beta; tend).
  intros [[[|]|e]|e] w1 [Ht Hraw]; [|by apply wp_ret; left| |by left].
  2: { eapply (wp_mono _ (fun _ w' => tended w1 w')); [|intros r w' H; left; by etrans].
       apply tends_bind; [apply Hfailed | intros _; tend]. }
  destruct Hraw as (raw & Hin & Hclaimed).
  eapply (wp_mono _ (fun _ w' => carried dep ru raw w1 w')).
  - apply wp_bind, wp_on_bridge. eapply carries_after; [apply (count_done_tends 1 0 0 0 w1)|].
    apply carries_then; [|intros _; tend]. apply carries_except; [|apply Hfailed].
    apply process_claimed_carries. unfold spool_of. cbn. by read_parts.
  - intros r w' Hc. right. exists raw. split; [by eapply carried_after|]. split; [done|].
    intros Hu. destruct (td_files _ _ Ht Hu) as [Hu1 _].
    destruct (ca_files _ _ _ _ _ Hc Hu1) as [_ Hk]. destruct (Hk _ _ _ Hclaimed) as (d & [Hd _] & Hout).
    exists d. split; [by apply Hout | done].
Qed.

(** What the bridge does, one step at a time: it goes on without a call, or it carries
    a file out of the inbox. *)
Inductive bridge_act : world R -> world R -> Prop :=
  | act_tended w w' : tended w w' -> bridge_act w w'
  | act_attempted name raw w w' : attempted name raw w w' -> bridge_act w w'.

(** Others around it: no file is lost or brought back to the inbox. *)
Definition aside_act w w' : Prop :=
  keeps_files (spool_of w) (spool_of w') /\ calls_of w' = calls_of w /\ bridge_of w' = bridge_of w.

Definition some_act w w' : Prop := bridge_act w w' \/ aside_act w w'.

(** The bridge brings no file in. *)
Lemma act_files w w' :
  bridge_act w w' -> keeps_files (spool_of w) (spool_of w') /\
  forall d n raw, spool_of w' !! (d, n) = Some raw -> exists d0, spool_of w !! (d0, n) = Some raw.
Proof. intros [w1 w2 [] | name raw w1 w2 [[] _]]; done. Qed.

Lemma acts_files w w' :
  rtc bridge_act w w' -> keeps_files (spool_of w) (spool_of w') /\
  forall d n raw, spool_of w' !! (d, n) = Some raw -> exists d0, spool_of w !! (d0, n) = Some raw.
Proof.
  induction 1 as [w|w1 w2 w3 H12 _ [IHk IHo]]; [split; [done | eauto]|]. destruct (act_files _ _ H12) as [Hk Ho].
  split; [by etrans|]. intros d n raw (d0 & H0)%IHo. by apply Ho in H0.
Qed.

Definition acts {A} (m : M R A) : Prop := forall w, wp m (fun _ w' => rtc bridge_act w w') w.

Lemma acts_tends {A} (m : M R A) : tends m -> acts m.
Proof. intros Hm w. eapply wp_mono; [apply Hm|]. intros r w' H. by apply rtc_once, act_tended. Qed.

Lemma acts_bind {A B} (m : M R A) (f : A -> M R B) : acts m -> (forall a, acts (f a)) -> acts (bindM m f).
Proof.
  intros Hm Hf w. apply wp_bind. eapply wp_mono; [apply Hm|]. intros [a|e] w1 H1; [|done].
  eapply wp_mono; [apply Hf|]. intros r w2. by etrans.
Qed.

Lemma drain_file_acts name : acts (drain_file dep execute_order_command refresh_tick name).
Proof.
  intros w. eapply wp_mono; [apply drain_file_ok|]. intros r w' [H|[raw H]]; apply rtc_once;
    [by apply act_tended | by eapply act_attempted].
Qed.

Lemma drain_loop_acts l : acts (drain_loop dep execute_order_command refresh_tick l).
Proof.
  induction l as [|name l IH]; cbn [drain_loop]; [by apply acts_tends, tends_quiet, quiet_ret|].
  apply acts_bind; [apply drain_file_acts | intros n]. apply acts_bind; [apply IH | intros m].
  apply acts_tends, tends_quiet, quiet_ret.
Qed.

Lemma drain_inbox_acts : acts (drain_command_inbox dep execute_order_command refresh_tick).
Proof.
  unfold drain_command_inbox. apply acts_bind; [apply acts_tends; tend | intros _].
  apply acts_bind; [apply acts_tends; tend | intros [l|e]]; [apply drain_loop_acts | apply acts_tends; tend].
Qed.

Context (instrument_subscribe instrument_probe : M R json).
Hypothesis subscribe_hook_tends : tends instrument_subscribe.
Hypothesis probe_hook_tends : tends instrument_probe.

Lemma tick_acts : acts (command_tick dep execute_order_command refresh_tick instrument_subscribe instrument_probe).
Proof.
  unfold command_tick. apply acts_bind; [by apply acts_tends, is_bound_tends | intros [|]]; [|apply acts_tends; tend].
  apply acts_bind; [apply acts_tends; tend | intros _].
  apply acts_bind; [apply drain_inbox_acts | intros _; apply acts_tends; tend].
Qed.

(** The terminal loads the bridge again. *)
Definition restarted w w' : Prop :=
  spool_of w' = spool_of w /\ calls_of w' = calls_of w /\ exists session, bridge_of w' = fresh_bridge session.

Lemma load_acts w :
  wp (load (R := R) dep) (fun _ w' => exists w1, restarted w w1 /\ rtc bridge_act w1 w') w.
Proof.
  unfold load. apply wp_bind, wp_bind. unfold wp. cbn.
  set (w1 := W _ _ _ _). exists w1. split; [|apply acts_tends, bootstrap_tends].
  unfold restarted, spool_of, calls_of, bridge_of. cbn. read_parts. eauto.
Qed.
End Draining.
