(* ===== verification/BridgeHistory.v ===== *)
(** * BridgeHistory: what no history of the bridge can do

    No code of its own.  Every call of the broker is for one command file that left
    the inbox for good, and is what the frame of that file authorises, over any
    history of ticks, callbacks, failures and restarts; in one session of the live
    canary there is at most one submit, of the one authorised case. *)

From stdpp Require Import gmap.
From S2P Require Import Prelude Json Parse Domain Db OrderStore BrokerEvidence Parts Wire Frame Spool Commands PyFloat Bridge BridgeFacts.
Open Scope Z_scope.
Open Scope oms_scope.

(** ** Histories *)

(** The executors of the two artifacts that may place orders. *)
Inductive artifact := Simulation | Canary.

Definition artifact_rules (a : artifact) : rules :=
  match a with Simulation => simulation_rules | Canary => canary_rules end.

Section Histories.
Context {R : Type} {bridge_part : Part bridge R} {spool_part : Part spool R} {files_part : Part files R}
  {calls_part : Part calls R} {manifest_part : Part manifest R} {separate : Separate R}.
Context {env : Env} {term : Terminal} (dep : deployment) (a : artifact).
Context (refresh_tick : M R unit) (instrument_subscribe instrument_probe : M R json).
Implicit Types (w : world R).

Definition artifact_executor : jdict -> M R (string * bool) :=
  match a with
  | Simulation => execute_simulation dep
  | Canary => execute_live_canary dep
  end.

(** What the gate of [bind_runtime] asks of an artifact that may change something. *)
Hypothesis bounded : SIMULATION_MAX_ORDER_QUANTITY dep = 100.

Lemma artifact_executes : executes dep (artifact_rules a) artifact_executor.
Proof.
  unfold artifact_executor. destruct a; [apply simulation_executes | by apply live_canary_executes].
Qed.

(** What the terminal calls in the bridge. *)
Inductive terminal_step : world R -> world R -> Prop :=
  | step_init w : terminal_step w (init dep instrument_subscribe instrument_probe w).2
  | step_after_init w : terminal_step w (after_init dep instrument_subscribe instrument_probe w).2
  | step_snapshot w : terminal_step w (periodic_snapshot_timer dep instrument_subscribe instrument_probe w).2
  | step_handlebar w : terminal_step w (handlebar dep instrument_subscribe instrument_probe w).2
  | step_tick w : terminal_step w
      (command_tick dep artifact_executor refresh_tick instrument_subscribe instrument_probe w).2
  | step_account o w : terminal_step w (account_callback dep o w).2
  | step_position o w : terminal_step w (position_callback dep o w).2
  | step_order o w : terminal_step w (order_callback dep o w).2
  | step_deal o w : terminal_step w (deal_callback dep o w).2
  | step_drain n w : terminal_step w (drain_events n w).2.

(** A step of a session: what the terminal calls, the Host publishing a file under a
    free name, another part of the process changing. *)
Inductive session_step : world R -> world R -> Prop :=
  | step_terminal w w' : terminal_step w w' -> session_step w w'
  | step_publish name raw w w' :
      published name raw (spool_of w) (spool_of w') -> calls_of w' = calls_of w ->
      bridge_of w' = bridge_of w -> session_step w w'
  | step_elsewhere w w' :
      spool_of w' = spool_of w -> calls_of w' = calls_of w -> bridge_of w' = bridge_of w -> session_step w w'.

(** Sessions follow one another: whatever a session left behind is there. *)
Inductive bridge_step : world R -> world R -> Prop :=
  | in_session w w' : session_step w w' -> bridge_step w w'
  | next_session w : bridge_step w (load dep w).2.

Hypothesis refresh_tends : tends refresh_tick.
Hypothesis subscribe_hook_tends : tends instrument_subscribe.
Hypothesis probe_hook_tends : tends instrument_probe.

Abbreviation act := (bridge_act dep (artifact_rules a)).
Abbreviation any_act := (some_act dep (artifact_rules a)).

Lemma terminal_acts w w' : terminal_step w w' -> rtc act w w'.
Proof.
  intros H. destruct H. 5: apply tick_acts; [apply artifact_executes | done..].
  all: apply acts_tends.
  - by apply init_tends.
  - by apply report_tends.
  - by apply report_tends.
  - by apply handlebar_tends.
  - apply account_callback_tends.
  - apply row_callback_tends.
  - apply row_callback_tends.
  - apply row_callback_tends.
  - unfold drain_events. tend.
Qed.

Lemma acts_any w w' : rtc act w w' -> rtc any_act w w'.
Proof. apply rtc_subrel. intros x y H. by left. Qed.

Lemma session_acts w w' : session_step w w' -> rtc any_act w w'.
Proof.
  intros [w1 w2 H | name raw w1 w2 H Hc Hb | w1 w2 Hs Hc Hb]; [by apply acts_any, terminal_acts|..];
    apply rtc_once; right; split; try done; [by eapply published_keeps | by rewrite Hs].
Qed.

(** What was made of the files since [w0]. *)
Definition accounted w0 w : Prop :=
  unambiguous (spool_of w) /\ keeps_files (spool_of w0) (spool_of w) /\ well_bound (bridge_of w) /\
  exists ran new, calls_of w = calls_of w0 ++ new /\
    NoDup (ran : list (string * list Z)).*1 /\
    Forall (fun p => exists d, d <> CInbox /\ only_in p.1 d p.2 (spool_of w)) ran /\
    Forall (fun p => forall d raw, spool_of w0 !! (d, p.1) = Some raw -> d = CInbox) ran /\
    Forall2 (fun p => stands_for dep (artifact_rules a) p.2) ran new.

Lemma outside_stays w w' (ran : list (string * list Z)) :
  unambiguous (spool_of w) -> keeps_files (spool_of w) (spool_of w') ->
  Forall (fun p => exists d, d <> CInbox /\ only_in p.1 d p.2 (spool_of w)) ran ->
  Forall (fun p => exists d, d <> CInbox /\ only_in p.1 d p.2 (spool_of w')) ran.
Proof.
  intros Hu Hk Hran. eapply Forall_impl; [exact Hran|]. intros [n raw] (d & Hd & [Hget _]).
  destruct (Hk Hu) as [_ Hk']. destruct (Hk' _ _ _ Hget) as (d' & Ho & Hout). exists d'. auto.
Qed.

(** What is in the inbox was not out of it before. *)
Lemma first_in_inbox w0 w name raw :
  unambiguous (spool_of w0) -> keeps_files (spool_of w0) (spool_of w) ->
  spool_of w !! (CInbox, name) = Some raw ->
  forall d raw0, spool_of w0 !! (d, name) = Some raw0 -> d = CInbox.
Proof.
  intros Hu0 Hk0 Hraw d r H0. destruct (decide (d = CInbox)) as [|Hne]; [done|]. destruct (Hk0 Hu0) as [_ Hk].
  destruct (Hk _ _ _ H0) as (d1 & [_ Ho] & Hd1). specialize (Ho CInbox (not_eq_sym (Hd1 Hne))). congruence.
Qed.

(** A step without a new call. *)
Lemma accounted_on w0 w w' :
  keeps_files (spool_of w) (spool_of w') -> calls_of w' = calls_of w ->
  (well_bound (bridge_of w) -> well_bound (bridge_of w')) -> accounted w0 w -> accounted w0 w'.
Proof.
  intros Hk Hc Hb (Hu & Hk0 & Hw & ran & new & Hcalls & Hnd & Hout & Hin & H2).
  split; [by apply Hk|]. split; [by etrans|]. split; [auto|].
  exists ran, new. rewrite Hc. split; [done|]. split; [done|]. split; [by eapply outside_stays | done].
Qed.

Lemma act_accounted w0 w w' : unambiguous (spool_of w0) -> any_act w w' -> accounted w0 w -> accounted w0 w'.
Proof.
  intros Hu0 [[w1 w2 Ht | name raw w1 w2 [Hc [Hraw Hafter]]] | (Hk & Hc & Hb)] Ha.
  - apply (accounted_on w0 w1 w2); [apply Ht | apply Ht | apply Ht | done].
  - destruct (ca_calls _ _ _ _ _ Hc) as [Hsame|(c & Hnew & Hok)].
    { apply (accounted_on w0 w1 w2); [apply Hc | done | apply Hc | done]. }
    destruct Ha as (Hu & Hk0 & Hw & ran & new & Hcalls & Hnd & Hout & Hin & H2).
    destruct (ca_files _ _ _ _ _ Hc Hu) as [Hu' _]. destruct (Hafter Hu) as (d & Hd & Hraw').
    split; [done|]. split; [etrans; [done | apply Hc]|]. split; [by apply Hc|].
    exists (ran ++ [(name, raw)]), (new ++ [c]). rewrite Hnew, Hcalls, app_assoc. split; [done|].
    assert (Hfresh : name ∉ ran.*1).
    { intros [[n r] [-> Hel]]%list_elem_of_fmap. rewrite Forall_forall in Hout.
      destruct (Hout _ Hel) as (d1 & Hd1 & [_ Ho]). specialize (Ho CInbox (not_eq_sym Hd1)). cbn in Ho, Hraw. congruence. }
    split; [|split; [|split]].
    + rewrite fmap_app. apply NoDup_app. split; [done|]. split; [|by apply NoDup_singleton].
      intros x Hx ->%list_elem_of_singleton. done.
    + apply Forall_app. split; [by apply (outside_stays w1 w2); [ | apply Hc | ]|]. apply Forall_singleton.
      exists d. split; [done|]. by apply Hu'.
    + apply Forall_app. split; [done|]. apply Forall_singleton. by apply (first_in_inbox w0 w1 name raw).
    + apply Forall2_app; [done|]. repeat constructor. auto.
  - apply (accounted_on w0 w w'); [done | done | by rewrite Hb | done].
Qed.
Lemma acts_accounted w0 w w' : unambiguous (spool_of w0) -> rtc any_act w w' -> accounted w0 w -> accounted w0 w'.
Proof. intros Hu. induction 1 as [|w1 w2 w3 H12 _ IH]; [done|]. intros H. apply IH. by eapply act_accounted. Qed.

Lemma restart_accounted w0 w w' : restarted w w' -> accounted w0 w -> accounted w0 w'.
Proof.
  intros (Hs & Hc & session & Hb). apply accounted_on; [by rewrite Hs | done | by rewrite Hb].
Qed.

Lemma step_accounted w0 w w' : unambiguous (spool_of w0) -> bridge_step w w' -> accounted w0 w -> accounted w0 w'.
Proof.
  intros Hu [w1 w2 H | w1] Ha; [by eapply acts_accounted; [| apply session_acts |]|].
  destruct (load_acts dep (artifact_rules a) w1) as (w2 & Hr & H2).
  eapply acts_accounted; [done | by apply acts_any | by eapply restart_accounted].
Qed.

Lemma steps_accounted w0 w w' : unambiguous (spool_of w0) -> rtc bridge_step w w' -> accounted w0 w -> accounted w0 w'.
Proof. intros Hu. induction 1 as [|w1 w2 w3 H12 _ IH]; [done|]. intros H. apply IH. by eapply step_accounted. Qed.

Lemma accounted_refl w : unambiguous (spool_of w) -> well_bound (bridge_of w) -> accounted w w.
Proof.
  intros Hu Hb. split; [done|]. split; [done|]. split; [done|]. exists [], [].
  rewrite app_nil_r. repeat split; constructor.
Qed.

(** C2. Nothing is executed twice.  Over any history of what the terminal calls in
    the bridge, of the Host publishing command files, of operations that fail at any
    point and of sessions that are killed and loaded again, the calls of the broker
    are one for each of so many distinct command files, in order: each of a file that
    was in the inbox, is out of it for good and is in one place, and each is exactly
    what the frame of its file authorises - the order it describes or the
    cancellation it asks for, on the authorised account, within the bounds of
    quantity and price. *)
Theorem executed_once w w' :
  unambiguous (spool_of w) -> well_bound (bridge_of w) -> rtc bridge_step w w' ->
  unambiguous (spool_of w') /\
  exists (ran : list (string * list Z)) new,
    calls_of w' = calls_of w ++ new /\ NoDup ran.*1 /\
    Forall (fun p => exists d, d <> CInbox /\ only_in p.1 d p.2 (spool_of w')) ran /\
    Forall (fun p => forall d raw, spool_of w !! (d, p.1) = Some raw -> d = CInbox) ran /\
    Forall2 (fun p => stands_for dep (artifact_rules a) p.2) ran new.
Proof.
  intros Hu Hb Hsteps.
  assert (Ha : accounted w w') by (apply (steps_accounted w w w'); [done..|by apply accounted_refl]).
  by destruct Ha as (H & _ & _ & H').
Qed.

(** The orders of a session are those it counted, within its limit. *)
Definition spent w0 w : Prop :=
  submits (calls_of w) - submits (calls_of w0) = cv_submit_calls (br_commands (bridge_of w)) /\
  (submits (calls_of w) = submits (calls_of w0) \/
   cv_submit_calls (br_commands (bridge_of w)) <= SIMULATION_MAX_SUBMIT_CALLS dep).

Lemma act_spent w0 w w' : counts_first (artifact_rules a) -> any_act w w' -> spent w0 w -> spent w0 w'.
Proof.
  intros Hf [[w1 w2 Ht | name raw w1 w2 [Hc _]] | (_ & Hc & Hb)] [H1 H2]; unfold spent.
  - destruct Ht as [_ _ Hc [_ _ Hn] _ _]. by rewrite Hc, Hn.
  - destruct (ca_fuse _ _ _ _ _ Hc Hf). lia.
  - by rewrite Hc, Hb.
Qed.

Lemma acts_spent w0 w w' : counts_first (artifact_rules a) -> rtc any_act w w' -> spent w0 w -> spent w0 w'.
Proof. intros Hf. induction 1 as [|w1 w2 w3 H12 _ IH]; [done|]. intros H. apply IH. by eapply act_spent. Qed.

Lemma sessions_act w w' : rtc session_step w w' -> rtc any_act w w'.
Proof. induction 1 as [|w1 w2 w3 H12 _ IH]; [done|]. etrans; [by apply session_acts | done]. Qed.
End Histories.

Section CanarySession.
Context {R : Type} {bridge_part : Part bridge R} {spool_part : Part spool R} {files_part : Part files R}
  {calls_part : Part calls R} {manifest_part : Part manifest R} {separate : Separate R}.
Context {env : Env} {term : Terminal} (dep : deployment).
(** The limits of the live canary. *)
Hypothesis bounded : SIMULATION_MAX_ORDER_QUANTITY dep = 100.
Hypothesis single : SIMULATION_MAX_SUBMIT_CALLS dep = 1.
Context (refresh_tick : M R unit) (instrument_subscribe instrument_probe : M R json).
Hypothesis refresh_tends : tends refresh_tick.
Hypothesis subscribe_hook_tends : tends instrument_subscribe.
Hypothesis probe_hook_tends : tends instrument_probe.
Implicit Types (w : world R).

(** C3. The live canary.  In one session, whatever happens in it - any number of
    commands, of the same and of others, calls of the broker that raise, files that
    cannot be moved - there is at most one order, counted before it is placed: it is
    a buy of 100 of 00700.HGT at 1.00, and everything else asked of the broker is a
    cancellation. *)
Theorem canary_once w w' :
  unambiguous (spool_of w) ->
  rtc (session_step dep Canary refresh_tick instrument_subscribe instrument_probe) (load dep w).2 w' ->
  exists new, calls_of w' = calls_of w ++ new /\ submits new <= 1 /\ Forall canary_case new.
Proof.
  intros Hu Hsteps. destruct (load_acts dep canary_rules w) as (w1 & (Hs & Hc & session & Hb) & H1).
  apply (sessions_act dep Canary refresh_tick instrument_subscribe instrument_probe) in Hsteps; try done.
  assert (H : rtc (some_act dep canary_rules) w1 w') by (etrans; [exact (acts_any dep Canary _ _ H1) | done]).
  assert (Ha : accounted dep Canary w1 w').
  { apply (acts_accounted dep Canary w1 w1); [by rewrite Hs | done|].
    apply accounted_refl; [by rewrite Hs | by rewrite Hb]. }
  assert (Hsp : spent dep w1 w').
  { apply (acts_spent dep Canary w1 w1); [done | done|]. split; [rewrite Hb; cbn; lia | by left]. }
  destruct Ha as (_ & _ & _ & ran & new & Hcalls & _ & _ & _ & H2), Hsp as [Hd Hlim].
  exists new. rewrite <- Hc. split; [done|]. rewrite Hcalls, submits_app in *. split.
  - rewrite single in Hlim. lia.
  - clear -H2. induction H2 as [|p c ran new (command & _ & Hal & _) _ IH]; by constructor.
Qed.
End CanarySession.

(** ** Sessions with orders *)

Definition trial_process : Type := bridge * (spool * (files * (calls * manifest))).

#[global] Instance snd_snd_apart S T U R0 `{Part S R0} `{Part T R0} `{!Apart S T R0} : Apart S T (U * R0).
Proof. split. intros s r. cbn. apply get_set_apart. Qed.

#[global] Instance trial_separate : Separate trial_process.
Proof. unfold trial_process. split; apply _. Qed.

Definition trial_fingerprint : string :=
  Eval vm_compute in default "" (fingerprint (Some "demo"%string) (Some "STOCK"%string)).

Definition trial_deployment (a : artifact) : deployment :=
  let sim := match a with Simulation => true | Canary => false end in
  {| TERMINAL_INSTANCE_ID := if sim then "guojin_sim" else "guojin";
     EXECUTION_MODE := if sim then "SIMULATION_CALIBRATION" else "LIVE_CANARY";
     TRADING_ENABLED := true; LIVE_SUBMIT_ENABLED := true; LIVE_CANCEL_ENABLED := true;
     SIMULATION_ONLY := sim; AUTHORIZED_ACCOUNT_FINGERPRINT := trial_fingerprint;
     SIMULATION_MAX_ORDER_QUANTITY := 100;
     SIMULATION_MAX_SUBMIT_CALLS := if sim then 2000 else 1;
     SIMULATION_MAX_CANCEL_CALLS := if sim then 2000 else 1; BRIDGE_BUILD := "trial" |}.

(** A terminal with one account, linked to the Shanghai connect; a call that places an
    order raises. *)
Definition trial_terminal : Terminal :=
  {| tm_account := Some "demo"%string; tm_account_type := Some "STOCK"%string;
     tm_query := Some (fun _ _ type name =>
       if bool_decide (name = "account"%string) then
         match BROKER_TYPE_CODES type with
         | Some code => Ok (Some [[("m_strAccountID", PStr "demo"); ("m_nBrokerType", PInt code);
                                   ("m_dAvailable", PInt 1000)]]%string)
         | None => Ok None
         end
       else Ok (Some []));
     tm_passorder := fun _ => Some (Exn (OtherException "RuntimeError") "timeout");
     tm_can_cancel := fun _ _ => Ok false; tm_cancel := fun _ _ => Ok false;
     tm_run_time := Some (fun _ => None); tm_set_account := Some (fun _ => None);
     tm_instrument_detail := Some (fun _ _ => Ok (Some [("ExchangeID", PStr "HK");
       ("InstrumentID", PStr "00700"); ("HSGTFlag", PInt 3)]%string));
     tm_localtime := fun _ => (0, 10, 0); tm_file := fun _ => None; tm_python_version := "3.6" |}.

Definition trial_frame (id client : string) (order : jdict) : list Z :=
  utf8 (dumps true (JObj
    [("command_transport_version", JStr COMMAND_TRANSPORT_VERSION);
     ("command", JObj
       [("command_protocol_version", JStr COMMAND_PROTOCOL_VERSION); ("command_id", JStr id);
        ("command_type", JStr "SUBMIT_LIMIT"); ("created_ms", JInt 1750000000000);
        ("expires_ms", JInt 1750000060000); ("account_fingerprint", JStr trial_fingerprint);
        ("client_order_id", JStr client); ("broker_token", JStr (expected_token trial_fingerprint client));
        ("payload", JObj ([("expected_qmt_session_id", JStr "uuid0"); ("side", JStr "BUY");
                           ("quantity", JInt 100)] ++ order))])]))%string.

Definition trial_order (a : artifact) : jdict :=
  match a with
  | Simulation => [("simulation_calibration", JBool true); ("symbol", JStr "600000.SH");
                   ("limit_price", JStr "10.5")]
  | Canary => [("live_canary", JBool true); ("symbol", JStr "00700.HGT"); ("limit_price", JStr "1.00")]
  end%string.

(** Two commands wait for the session. *)
Definition trial_start (a : artifact) : world trial_process :=
  W empty_db false 0 (fresh_bridge "", (
    <[(CInbox, "c1.json"%string) := trial_frame "c1" "o1" (trial_order a)]>
      (<[(CInbox, "c2.json"%string) := trial_frame "c2" "o2" (trial_order a)]> ∅),
    (∅, ([], {| mf_raw := None |})))).

Definition trial_load (a : artifact) (w : world trial_process) : world trial_process :=
  (load (env := demo_env) (term := trial_terminal) (trial_deployment a) w).2.

Definition trial_tick (a : artifact) (w : world trial_process) : world trial_process :=
  (command_tick (env := demo_env) (term := trial_terminal) (trial_deployment a)
     (artifact_executor (term := trial_terminal) (trial_deployment a) a)
     (retM tt) (retM (JObj [])) (retM (JObj [])) w).2.

Definition trial_report (a : artifact) (w : world trial_process) : world trial_process :=
  (after_init (env := demo_env) (term := trial_terminal) (trial_deployment a) (retM (JObj [])) (retM (JObj [])) w).2.

Definition trial_end (a : artifact) : world trial_process :=
  trial_tick a (trial_tick a (trial_report a (trial_load a (trial_start a)))).

Lemma two_in_inbox n1 n2 raw1 raw2 :
  unambiguous (<[(CInbox, n1) := raw1]> (<[(CInbox, n2) := raw2]> (∅ : spool))).
Proof.
  assert (H : forall d n raw, <[(CInbox, n1) := raw1]> (<[(CInbox, n2) := raw2]> (∅ : spool)) !! (d, n) = Some raw ->
    d = CInbox).
  { intros d n raw [[[= <- <-] _]|[_ [[[= <- <-] _]|[_ H]]%lookup_insert_Some]]%lookup_insert_Some; done. }
  intros n d raw Hd. split; [done|]. intros d' Hne. destruct (_ !! (d', n)) eqn:E; [|done].
  apply H in Hd, E. congruence.
Qed.

Lemma trial_unambiguous a : unambiguous (spool_of (trial_start a)).
Proof. exact (two_in_inbox _ _ _ _). Qed.

Lemma trial_bound : well_bound (bridge_of (trial_start Simulation)).
Proof. reflexivity. Qed.

Abbreviation trial_step a := (session_step (env := demo_env) (term := trial_terminal) (trial_deployment a) a
  (retM tt) (retM (JObj [])) (retM (JObj []))).

Lemma trial_report_step a w : trial_step a w (trial_report a w).
Proof. exact (step_terminal _ _ _ _ _ _ _ (step_after_init _ _ _ _ _ w)). Qed.

Lemma trial_tick_step a w : trial_step a w (trial_tick a w).
Proof. exact (step_terminal _ _ _ _ _ _ _ (step_tick _ _ _ _ _ w)). Qed.

Lemma trial_steps a : rtc (trial_step a) (trial_load a (trial_start a)) (trial_end a).
Proof.
  unfold trial_end. generalize (trial_load a (trial_start a)) as w. intros w.
  exact (rtc_l _ _ _ _ (trial_report_step a w) (rtc_l _ _ _ _ (trial_tick_step a _)
    (rtc_once _ _ (trial_tick_step a _)))).
Qed.

Lemma trial_history a :
  rtc (bridge_step (env := demo_env) (term := trial_terminal) (trial_deployment a) a (retM tt)
         (retM (JObj [])) (retM (JObj []))) (trial_start a) (trial_end a).
Proof.
  refine (rtc_l _ _ (trial_load a (trial_start a)) _ _ _).
  - exact (next_session _ _ _ _ _ (trial_start a)).
  - generalize (trial_steps a). generalize (trial_load a (trial_start a)) (trial_end a). intros w w'.
    apply rtc_subrel. intros x y. apply in_session.
Qed.

(** Two orders whose calls raise, in a session with a second tick: each is placed once,
    for its own file. *)
Lemma executed_once_witness :
  length (calls_of (trial_end Simulation)) = 2%nat /\
  exists ran : list (string * list Z), NoDup ran.*1 /\
    Forall2 (fun p => stands_for (trial_deployment Simulation) simulation_rules p.2) ran (calls_of (trial_end Simulation)).
Proof.
  split; [vm_compute; reflexivity|].
  destruct (executed_once (env := demo_env) (term := trial_terminal) (trial_deployment Simulation) Simulation
    (retM tt) (retM (JObj [])) (retM (JObj [])) eq_refl (tends_quiet _ (quiet_ret _)) (tends_quiet _ (quiet_ret _))
    (tends_quiet _ (quiet_ret _)) (trial_start Simulation) (trial_end Simulation)
    (trial_unambiguous Simulation) trial_bound) as (_ & ran & new & Hc & Hnd & _ & _ & H2).
  - exact (trial_history Simulation).
  - exists ran. split; [exact Hnd|]. rewrite Hc. exact H2.
Defined.

(** Of two such orders the live canary places the first and refuses the second. *)
Lemma canary_once_witness :
  length (calls_of (trial_end Canary)) = 1%nat /\
  is_Some (spool_of (trial_end Canary) !! (CRejected, "c2.json"%string)) /\
  exists new, calls_of (trial_end Canary) = new /\ submits new <= 1 /\ Forall canary_case new.
Proof.
  split; [vm_compute; reflexivity|]. split; [vm_compute; eexists; reflexivity|].
  destruct (canary_once (env := demo_env) (term := trial_terminal) (trial_deployment Canary)
    eq_refl eq_refl (retM tt) (retM (JObj [])) (retM (JObj [])) (tends_quiet _ (quiet_ret _)) (tends_quiet _ (quiet_ret _))
    (tends_quiet _ (quiet_ret _)) (trial_start Canary) (trial_end Canary)
    (trial_unambiguous Canary) (trial_steps Canary)) as (new & Hc & H).
  exists new. split; [exact Hc | exact H].
Defined.
