(* ===== verification/EndToEnd.v ===== *)
(** * EndToEnd: from a plan of the Host to a call of the broker

    No code of its own.  The bridge reads the frames the Host writes as the commands
    they were written from ([bridge_reads]); and the Host and the bridge together,
    over any interleaving of their steps and failures, place at most one order and one
    cancellation for an order of the store, each after its reservation ([end_to_end]). *)

From stdpp Require Import gmap.
From S2P Require Import Prelude Decimal Json Parse Domain Db Repository OrderStore BrokerEvidence Parts Wire Frame Spool Commands GuojinEvidence SimOms SimFacts PyFloat Bridge BridgeFacts BridgeHistory.
Open Scope Z_scope.
Open Scope oms_scope.

(** ** Two readers of a frame *)

Lemma substring_short n s : (String.length (String.substring 0 n s) <= n)%nat.
Proof. revert n. induction s as [|a s IH]; intros [|n]; cbn; try lia. specialize (IH n). lia. Qed.

Lemma token_short a c : (str_len (expected_token a c) <? 24) = true.
Proof.
  apply Z.ltb_lt. unfold str_len, expected_token. autorewrite with strdb.
  match goal with |- context [String.substring 0 20 ?h] => pose proof (substring_short 20 h) end.
  cbn [String.length]. lia.
Qed.

Lemma as_number_sorted j : as_number (sorted j) = as_number j.
Proof. by destruct j. Qed.

Lemma is_obj_sorted j : is_obj (sorted j) = is_obj j.
Proof. by destruct j. Qed.

(** The identity a valid order command carries is the one the bridge computes. *)
Lemma identity_checked c a d :
  command_ok c -> qc_command_type c <> REQUEST_SNAPSHOT -> qc_account_fingerprint c = JStr a ->
  jget "client_order_id" d = sorted (qc_client_order_id c) ->
  jget "broker_token" d = sorted (qc_broker_token c) ->
  check_identity a d = Ok tt.
Proof.
  intros Hok Hty Ha Hc Ht.
  destruct (co_order _ Hok Hty) as (a' & sc & p & Ha' & Hsc & Hne & Htok & _).
  assert (a' = a) as -> by congruence. unfold check_identity. rewrite Hc, Ht, Hsc, Htok. cbn [sorted].
  assert (Hn : nonempty_str (JStr sc) = Some sc) by (destruct sc; [done | reflexivity]). rewrite Hn.
  change (nonempty_str (JStr (token_of a sc))) with (Some (expected_token a sc)).
  unfold command_fail. rewrite token_short. cbn [guard_r res_bind]. by rewrite bool_decide_true.
Qed.

Lemma command_id_nonempty id :
  is_command_id id = true -> bool_decide (is_Some (nonempty_str (sorted (JStr id)))) = true.
Proof. unfold is_command_id. destruct id; [done | reflexivity]. Qed.

Lemma known_type t :
  existsb (fun s => is_str s (sorted (JStr (command_type_str t)))) command_types = true.
Proof. by destruct t. Qed.

Lemma read_of_encoded c raw f :
  well_keyed (JObj (as_mapping c)) = true -> encode_command_frame c = Ok raw ->
  read_command_frame f raw =
    if bool_decide (f = Some (text (qc_account_fingerprint c))) then Ok (sorted_dict (as_mapping c))
    else Err (Exn CommandError "account fingerprint mismatch").
Proof.
  intros Hk (Hv & -> & Hsize)%encode_command_ok. pose proof (validate_command_ok c Hv) as Hc.
  unfold read_command_frame. change COMMAND_MAX_FRAME_BYTES with MAX_COMMAND_FRAME_BYTES.
  rewrite Hsize, command_frame_nonempty, Commands.read_command, sorted_body by done.
  unfold command_fail. cbn [negb andb guard_r res_bind].
  change (is_str _ (jget "command_transport_version" [_; _])) with true. cbn [res_bind].
  change (jget "command" [_; _]) with (JObj (sorted_dict (as_mapping c))).
  cbv iota beta. rewrite sorted_version by done. cbn [guard_r res_bind].
  pose proof Hk as Hd. cbn [well_keyed] in Hd. apply andb_true_iff in Hd as [Hd%bool_decide_eq_true _].
  rewrite !jget_sorted by done.
  change (jget "command_id" (as_mapping c)) with (qc_command_id c).
  change (jget "created_ms" (as_mapping c)) with (qc_created_ms c).
  change (jget "expires_ms" (as_mapping c)) with (qc_expires_ms c).
  change (jget "account_fingerprint" (as_mapping c)) with (qc_account_fingerprint c).
  change (jget "command_type" (as_mapping c)) with (JStr (command_type_str (qc_command_type c))).
  change (jget "payload" (as_mapping c)) with (qc_payload c).
  destruct (co_id _ Hc) as (id & Hid & Hidok), (co_times _ Hc) as (t0 & t1 & Ht0 & Ht1 & Ht),
    (co_account _ Hc) as (a & Ha & _), (co_payload _ Hc) as (p & Hp). rewrite Hid, Ht0, Ht1, Ha, Hp.
  rewrite (command_id_nonempty id Hidok), known_type. cbn [sorted as_number text guard_r res_bind].
  assert (Hlt : (t0 <? t1) = true) by lia. rewrite Hlt. cbn [guard_r res_bind].
  destruct f as [f|]; cbn [is_str is_null]; [|done].
  destruct (decide (f = a)) as [->|Hne]; [|rewrite (bool_decide_false (a = f)), (bool_decide_false (Some f = _)) by (cbn; congruence); done].
  rewrite (bool_decide_true (a = a)), (bool_decide_true (Some a = _)) by done. cbn [guard_r res_bind is_obj].
  case_match eqn:Ety; [done|]. rewrite (identity_checked c a); [done | done | | done | |].
  - intros E. by rewrite E in Ety.
  - by apply jget_sorted.
  - by apply jget_sorted.
Qed.

(** C4. The bridge reads what the Host writes.  Whatever command the Host encodes,
    from whatever order of keys, the bridge's own reader takes the frame, in a session
    of the command's account, for the fields of that very command - with its own
    computation of the token of the order - and refuses it in any other session. *)
Theorem bridge_reads c raw f :
  well_keyed (JObj (as_mapping c)) = true -> encode_command_frame c = Ok raw ->
  read_command_frame f raw =
    if bool_decide (f = Some (text (qc_account_fingerprint c))) then Ok (sorted_dict (as_mapping c))
    else Err (Exn CommandError "account fingerprint mismatch").
Proof. apply read_of_encoded. Qed.

(** ** The Host and the bridge, on one spool *)

(** What a call is, in the words of the store. *)
Definition call_kind (c : api_call) : string :=
  match c with Passorder _ _ _ _ _ _ _ => "SUBMIT_LIMIT" | CancelCall _ _ _ => "CANCEL_ORDER" end.

(** The plan a call is made for: of the authorised account, reserved, and of its kind;
    an order bears the token of the plan's order. *)
Definition served (dep : deployment) (ru : rules) (d : db) (p : dispatch) (c : api_call) : Prop :=
  tbl_get (dispatches_of d) p.1 = Some p.2 /\ reserved d p.2 /\
  qd_account_fingerprint p.2 = AUTHORIZED_ACCOUNT_FINGERPRINT dep /\
  qd_command_type p.2 = call_kind c /\
  match c with
  | Passorder _ _ _ _ _ _ token => token = expected_token (qd_account_fingerprint p.2) (qd_client_order_id p.2)
  | CancelCall _ _ _ => True
  end /\
  exists raw, frame_of_plan p.1 p.2 raw /\ stands_for dep ru raw c.

Lemma authorised_kind dep command c : authorised dep command c -> jget "command_type" command = JStr (call_kind c).
Proof. by intros []. Qed.

(** What a file of a plan stands for is of the plan. *)
Lemma stands_for_plan dep ru id row raw c :
  frame_of_plan id row raw -> stands_for dep ru raw c ->
  qd_account_fingerprint row = AUTHORIZED_ACCOUNT_FINGERPRINT dep /\ qd_command_type row = call_kind c /\
  match c with
  | Passorder _ _ _ _ _ _ token => token = expected_token (qd_account_fingerprint row) (qd_client_order_id row)
  | CancelCall _ _ _ => True
  end.
Proof.
  intros (cmd & Henc & Hk & _ & Hacc & Hcid & Hty) (command & Hread & _ & Hauth).
  rewrite (read_of_encoded cmd raw _ Hk Henc) in Hread. case_bool_decide as Ha; [|done]. injection Hread as <-.
  pose proof Hk as Hd. cbn [well_keyed] in Hd. apply andb_true_iff in Hd as [Hd%bool_decide_eq_true _].
  pose proof (authorised_kind _ _ _ Hauth) as Hkind. rewrite jget_sorted in Hkind by done.
  change (sorted (jget "command_type" (as_mapping cmd))) with (JStr (command_type_str (qc_command_type cmd))) in Hkind.
  injection Hkind as Hkind. split; [congruence|]. split; [congruence|].
  destruct Hauth; [|done]. rewrite jget_sorted by done.
  change (jget "broker_token" (as_mapping cmd)) with (qc_broker_token cmd).
  destruct (encode_command_ok _ _ Henc) as (Hv & _ & _). apply validate_command_ok in Hv.
  destruct (co_order _ Hv) as (acc & sc & p & Ha' & Hsc & _ & Htok & _); [by intros E; rewrite E in Hkind|].
  rewrite Htok. rewrite <- Hacc, <- Hcid, Ha', Hsc. done.
Qed.

Section Site.
Context {RH RT : Type}.
Context {sim_part : Part sim RH} {host_spool : Part spool RH} {mapper_part : Part mapper RH}.
Context {sim_spool : Apart sim spool RH} {mapper_spool : Apart mapper spool RH}.
Context {bridge_part : Part bridge RT} {spool_part : Part spool RT} {files_part : Part files RT}
  {calls_part : Part calls RT} {manifest_part : Part manifest RT} {separate : Separate RT}.
Context {host_env terminal_env : Env} {fenv : FileEnv} {term : Terminal} (dep : deployment) (a : artifact).
Context (refresh_tick : M RT unit) (instrument_subscribe instrument_probe : M RT json).
Hypothesis bounded : SIMULATION_MAX_ORDER_QUANTITY dep = 100.
Hypothesis refresh_tends : tends refresh_tick.
Hypothesis subscribe_hook_tends : tends instrument_subscribe.
Hypothesis probe_hook_tends : tends instrument_probe.

(** The command spool as the other process left it. *)
Definition with_spool {R} `{Part spool R} (fs : spool) (w : world R) : world R :=
  W (w_db w) (w_in_tx w) (w_tick w) (set_part fs (w_rest w)).

(** The two processes share the spool, and nothing else. *)
Inductive site_step : world RH * world RT -> world RH * world RT -> Prop :=
  | site_host h h' t :
      sim_step (env := host_env) h h' -> site_step (h, t) (h', with_spool (spool_of h') t)
  | site_terminal h t t' :
      terminal_step (env := terminal_env) dep a refresh_tick instrument_subscribe instrument_probe t t' ->
      site_step (h, t) (with_spool (spool_of t') h, t')
  | site_load h t :
      let t' := (load (env := terminal_env) dep t).2 in site_step (h, t) (with_spool (spool_of t') h, t').

Definition joined (h0 : world RH) (t0 : world RT) (s : world RH * world RT) : Prop :=
  spool_of s.1 = spool_of s.2 /\ w_in_tx s.1 = false /\ plans_inv (w_db s.1) /\
  world_evolves h0 s.1 /\ accounted dep a t0 s.2.

Lemma with_spool_of {R} `{Part spool R} fs (w : world R) : spool_of (with_spool fs w) = fs.
Proof. unfold spool_of, with_spool. cbn. by rewrite get_set_part. Qed.

(** The bridge's side of a step of the Host, and the other way round. *)
Lemma host_joined h0 t0 h h' t :
  joined h0 t0 (h, t) -> w_in_tx h' = false -> world_evolves h h' ->
  joined h0 t0 (h', with_spool (spool_of h') t).
Proof.
  intros (Hs & _ & Hp & H0 & Ha) Htx He. unfold joined. cbn [fst snd] in *. rewrite with_spool_of.
  do 2 (split; [done|]). split; [by apply (de_inv _ _ (we_db _ _ He))|]. split; [by etrans|].
  apply (accounted_on dep a t0 t); [rewrite with_spool_of, <- Hs; apply He | | | done];
    unfold calls_of, bridge_of; cbn; by read_parts.
Qed.

Lemma terminal_joined h0 t0 h t t' :
  joined h0 t0 (h, t) -> accounted dep a t0 t' -> keeps_files (spool_of t) (spool_of t') ->
  (forall d n raw, spool_of t' !! (d, n) = Some raw -> exists d0, spool_of t !! (d0, n) = Some raw) ->
  joined h0 t0 (with_spool (spool_of t') h, t').
Proof.
  intros (Hs & Htx & Hp & H0 & _) Ha Hk Ho. unfold joined. cbn [fst snd] in *. rewrite with_spool_of.
  do 3 (split; [done|]). split; [|done]. etrans; [exact H0|]. split; [reflexivity | by rewrite with_spool_of, Hs|].
  rewrite with_spool_of, Hs. intros d n raw Hraw. left. by eapply Ho.
Qed.

Lemma step_joined h0 t0 s s' :
  unambiguous (spool_of t0) -> site_step s s' -> joined h0 t0 s -> joined h0 t0 s'.
Proof.
  intros Hu Hstep Hj. pose proof Hj as (_ & Htx0 & Hp & _ & Ha).
  destruct Hstep as [h h' t Hh | h t t' Ht | h t t']; cbn [fst snd] in *.
  - destruct (sim_step_evolves _ _ Hh Htx0 Hp) as [Htx He]. by eapply host_joined.
  - pose proof (terminal_acts dep a refresh_tick instrument_subscribe instrument_probe bounded refresh_tends
      subscribe_hook_tends probe_hook_tends _ _ Ht) as Hacts.
    destruct (acts_files _ _ _ _ Hacts) as [Hk Ho]. eapply terminal_joined; [done | | done | done].
    eapply acts_accounted; [done | by apply acts_any | done].
  - destruct (load_acts (env := terminal_env) dep (artifact_rules a) t) as (t1 & Hr & H1).
    destruct (acts_files _ _ _ _ H1) as [Hk Ho]. destruct Hr as (Hs1 & Hr). rewrite Hs1 in Hk, Ho.
    eapply terminal_joined; [done | | done | done].
    eapply acts_accounted; [done | by apply acts_any|]. eapply restart_accounted; [by split | done].
Qed.

Lemma steps_joined h0 t0 s s' :
  unambiguous (spool_of t0) -> rtc site_step s s' -> joined h0 t0 s -> joined h0 t0 s'.
Proof. intros Hu. induction 1 as [|s1 s2 s3 H12 _ IH]; [done|]. intros H. apply IH. by eapply step_joined. Qed.

(** The plans of the files that were run. *)
Lemma plans_of_ran (h0 h : world RH) ran new :
  spool_of h0 = ∅ -> world_evolves h0 h -> plans_inv (w_db h) -> NoDup ran.*1 ->
  Forall (fun p : string * list Z => exists d, d <> CInbox /\ only_in p.1 d p.2 (spool_of h)) ran ->
  Forall2 (fun p => stands_for dep (artifact_rules a) p.2) ran new ->
  exists plans, Forall2 (fun p q => p.1 = frame_name q.1) ran plans /\
    Forall2 (served dep (artifact_rules a) (w_db h)) plans new.
Proof.
  intros H0 He Hinv Hnd Hran H2. induction H2 as [|[n raw] c ran new Hc _ IH]; [by exists []|].
  apply Forall_cons in Hran as [(d & _ & [Hraw _]) Hran]. apply NoDup_cons in Hnd as [_ Hnd].
  destruct (IH Hnd Hran) as (plans & Hn & Hs). cbn [fst snd] in *.
  destruct (we_new _ _ He _ _ _ Hraw) as [(d0 & Hd)|(id & row & -> & Hrow & Hf)];
    [by rewrite H0, lookup_empty in Hd|].
  exists ((id, row) :: plans). split; [by constructor|]. constructor; [|done].
  destruct (stands_for_plan _ _ _ _ _ _ Hf Hc) as (Ha & Hk & Ht).
  split; [done|]. split; [by eapply pi_reserved|]. do 3 (split; [done|]). by exists raw.
Qed.

Lemma plans_distinct d ran plans :
  plans_inv d -> NoDup (ran : list (string * list Z)).*1 ->
  Forall2 (fun p q => p.1 = frame_name q.1) ran plans ->
  Forall (fun p : dispatch => tbl_get (dispatches_of d) p.1 = Some p.2) plans ->
  NoDup ((fun p => dispatch_key p.2) <$> plans).
Proof.
  intros Hinv Hnd H2 Hrows. induction H2 as [|p q ran plans Hpq H2 IH]; [constructor|].
  apply NoDup_cons in Hnd as [Hn Hnd]. apply Forall_cons in Hrows as [Hq Hrows].
  apply NoDup_cons. split; [|by apply IH]. intros [q' [Hk Hin]]%list_elem_of_fmap. apply Hn.
  apply list_elem_of_lookup in Hin as [i Hi]. destruct (Forall2_lookup_r _ _ _ _ _ H2 Hi) as (p' & Hp' & Hname).
  rewrite Forall_lookup in Hrows. pose proof (Hrows _ _ Hi) as Hq'.
  assert (q.1 = q'.1) by by eapply pi_unique. apply list_elem_of_fmap. exists p'.
  split; [congruence | by eapply list_elem_of_lookup_2].
Qed.

(** C1. One call for one plan.  The Host and the bridge share a spool that starts
    empty, and nothing else.  Over any interleaving of what the Host does - starts,
    executions, cancellations, recoveries, evidence, refusals, crashes - and of what
    the terminal calls in the bridge - ticks, callbacks, timers, loads - and whatever
    fails on either side, every call of the broker is made for a plan of the store: of
    the authorised account, of its kind, its order reserved for it, and what the call
    asks is what the plan's frame says, under the token of that order.  No two calls
    are for the same order and kind: an order is placed at most once and cancelled at
    most once. *)
Theorem end_to_end h0 t0 h t :
  w_in_tx h0 = false -> plans_inv (w_db h0) -> spool_of h0 = ∅ -> spool_of t0 = ∅ ->
  well_bound (bridge_of t0) -> rtc site_step (h0, t0) (h, t) ->
  exists new plans, calls_of t = calls_of t0 ++ new /\
    Forall2 (served dep (artifact_rules a) (w_db h)) plans new /\
    NoDup ((fun p => dispatch_key p.2) <$> plans).
Proof.
  intros Htx Hinv Hh Ht Hb Hsteps.
  assert (Hu : unambiguous (spool_of t0)) by (rewrite Ht; intros n d raw Hn; by rewrite lookup_empty in Hn).
  destruct (steps_joined h0 t0 (h0, t0) (h, t) Hu Hsteps) as (Hs & _ & Hinv' & He & Ha).
  { unfold joined. cbn [fst snd]. split; [by rewrite Hh, Ht|]. do 2 (split; [done|]). split; [reflexivity | by apply accounted_refl]. }
  cbn [fst snd] in *. destruct Ha as (_ & _ & _ & ran & new & Hc & Hnd & Hout & _ & H2). rewrite <- Hs in Hout.
  destruct (plans_of_ran h0 h ran new) as (plans & Hn & Hserved); try done.
  exists new, plans. split; [done|]. split; [done|]. eapply plans_distinct; [done | done | done|].
  clear -Hserved. induction Hserved as [|p c plans new [H _] _ IH]; by constructor.
Qed.
End Site.

(** ** Concrete histories *)

Definition site_command : QmtCommand :=
  {| qc_command_id := JStr "c1"; qc_created_ms := JInt 1750000000000; qc_expires_ms := JInt 1750000060000;
     qc_account_fingerprint := JStr trial_fingerprint; qc_command_type := SUBMIT_LIMIT;
     qc_client_order_id := JStr "o1"; qc_broker_token := JStr (token_of trial_fingerprint "o1");
     qc_payload := JObj [("symbol", JStr "600000.SH"); ("side", JStr "BUY"); ("quantity", JInt 100);
                         ("limit_price", JStr "10.5")] |}.

Definition site_frame : list Z :=
  match encode_command_frame site_command with Ok raw => raw | Err _ => [] end.

Lemma site_frame_encoded : encode_command_frame site_command = Ok site_frame.
Proof. vm_compute. reflexivity. Qed.

(** A frame of the Host, read in a session of its account and in a session of another. *)
Lemma bridge_reads_witness :
  read_command_frame (Some trial_fingerprint) site_frame = Ok (sorted_dict (as_mapping site_command)) /\
  read_command_frame (Some "sha256:other"%string) site_frame
    = Err (Exn CommandError "account fingerprint mismatch").
Proof.
  split.
  - exact (bridge_reads site_command site_frame (Some trial_fingerprint) eq_refl site_frame_encoded).
  - exact (bridge_reads site_command site_frame (Some "sha256:other"%string) eq_refl site_frame_encoded).
Defined.

Definition site_cold : world trial_process :=
  W empty_db false 0 (fresh_bridge "", (∅, (∅, ([], {| mf_raw := None |})))).

Definition site_seen : world trial_process :=
  with_spool (spool_of demo_published) (with_spool (spool_of demo_refused)
    (with_spool (spool_of demo_started) site_cold)).

(** The spools of the two processes at the end. *)
Definition site_end : world trial_process := trial_tick Simulation (trial_load Simulation site_seen).

Definition site_host_end : world runtime :=
  with_spool (spool_of site_end) (with_spool (spool_of (trial_load Simulation site_seen)) demo_published).

Abbreviation trial_site := (site_step (RH := runtime) (RT := trial_process) (host_env := demo_env) (terminal_env := demo_env) (fenv := demo_disk)
  (term := trial_terminal) (trial_deployment Simulation) Simulation (retM tt) (retM (JObj [])) (retM (JObj []))).

Lemma trial_host (h h' : world runtime) t :
  sim_step (env := demo_env) (fenv := demo_disk) h h' -> trial_site (h, t) (h', with_spool (spool_of h') t).
Proof. apply site_host. Qed.

Lemma trial_loads (h : world runtime) t :
  trial_site (h, t) (with_spool (spool_of (trial_load Simulation t)) h, trial_load Simulation t).
Proof. exact (site_load _ _ _ _ _ h t). Qed.

Lemma trial_ticks (h : world runtime) t :
  trial_site (h, t) (with_spool (spool_of (trial_tick Simulation t)) h, trial_tick Simulation t).
Proof. apply site_terminal. exact (step_tick _ _ _ _ _ t). Qed.

Lemma site_history : rtc trial_site (demo_cold, site_cold) (site_host_end, site_end).
Proof.
  eapply rtc_l; [exact (trial_host demo_cold demo_started site_cold (starts demo_instance demo_cold))|].
  eapply rtc_l; [exact (trial_host demo_started demo_refused _ (SimFacts.executes demo_sim_intent demo_started))|].
  eapply rtc_l; [exact (trial_host demo_refused demo_published _ (SimFacts.executes demo_sim_intent demo_refused))|].
  change (with_spool _ (with_spool _ (with_spool _ site_cold))) with site_seen. unfold site_host_end, site_end.
  generalize demo_published site_seen. intros h t.
  eapply rtc_l; [exact (trial_loads h t)|]. apply rtc_once, trial_ticks.
Qed.

(** The Host's full disk, its second attempt, the terminal loading the bridge and its
    tick: the frame is of another account, and is refused. *)
Lemma end_to_end_witness :
  is_Some (spool_of demo_published !! (CInbox, frame_name demo_command_id)) /\
  is_Some (spool_of site_end !! (CRejected, frame_name demo_command_id)) /\
  exists new plans, calls_of site_end = new /\
    Forall2 (served (trial_deployment Simulation) simulation_rules (w_db site_host_end)) plans new /\
    NoDup ((fun p => dispatch_key p.2) <$> plans).
Proof.
  split; [vm_compute; eexists; reflexivity|]. split; [vm_compute; eexists; reflexivity|].
  assert (Hi : plans_inv (w_db demo_cold)) by (split; [apply tbl_wf_empty | done | done]).
  assert (Hb : well_bound (bridge_of site_cold)) by reflexivity.
  assert (Hh : spool_of demo_cold = ∅) by reflexivity. assert (Ht : spool_of site_cold = ∅) by reflexivity.
  destruct (end_to_end (trial_deployment Simulation) Simulation (retM tt) (retM (JObj [])) (retM (JObj []))
    eq_refl (tends_quiet _ (quiet_ret _)) (tends_quiet _ (quiet_ret _)) (tends_quiet _ (quiet_ret _))
    demo_cold site_cold site_host_end site_end eq_refl Hi Hh Ht Hb site_history) as (new & plans & Hc & H).
  exists new, plans. split; [exact Hc | exact H].
Defined.
