(* ===== verification/Archive.v ===== *)
(** * Archive: one archive for the events of a day

    qmt/archive.py: the processed event files of a trading day become one gzip file
    with a manifest and a checkpoint, and are deleted; a day that was committed is
    verified again and what is left of it deleted.  gzip and the failure of any
    operation on a file are parameters. *)

From stdpp Require Import gmap sorting.
From S2P Require Import Prelude PyTime Decimal Json Parse Domain Db OrderStore BrokerEvidence Parts Wire Frame Stream Spool Commands PyFloat.
Open Scope Z_scope.
Open Scope oms_scope.

(** ** The archive directories *)

(** [archive/<day>_events.jsonl.gz], [archive/<day>_manifest.json] and
    [checkpoints/<day>.json]. *)
Inductive ArchiveFile := EventsOf (day : string) | ManifestOf (day : string) | CheckpointOf (day : string).

#[global] Instance archive_file_eq_dec : EqDecision ArchiveFile.
Proof. solve_decision. Defined.
#[global] Instance archive_file_countable : Countable ArchiveFile.
Proof.
  refine (inj_countable'
    (fun f => match f with EventsOf d => (0%nat, d) | ManifestOf d => (1%nat, d) | CheckpointOf d => (2%nat, d) end)
    (fun p => match p.1 with 0%nat => EventsOf p.2 | 1%nat => ManifestOf p.2 | _ => CheckpointOf p.2 end) _).
  by intros [].
Defined.

Definition archive_name (f : ArchiveFile) : string :=
  match f with
  | EventsOf day => day +:+ "_events.jsonl.gz"
  | ManifestOf day => day +:+ "_manifest.json"
  | CheckpointOf day => day +:+ ".json"
  end.

Abbreviation archives := (gmap ArchiveFile (list Z)).

(** Whether an operation on a file fails at a tick, the day of a file's modification
    time, [gzip] with no name and no time, and the lines that reading a gzip file
    yields, with the exception it ends in. *)
Class ArchiveEnv := {
  ae_io : nat -> option exn;
  ae_mtime_day : string -> option string;
  ae_gzip : list Z -> list Z;
  ae_gunzip : list Z -> list (list Z) * option exn
}.

Definition ARCHIVE_FORMAT_VERSION : string := "1".
Definition ArchiveIntegrityError : exn_class := OtherException "ArchiveIntegrityError".
Definition OSError : exn_class := OtherException "OSError".

(** One file of the spool. *)
Record spool_record := { sr_name : string; sr_raw : list Z; sr_event : QmtEvent; sr_day : string }.

Record DailyArchiveResult := {
  da_status : string; da_trading_day : string; da_event_count : Z; da_deleted_files : Z;
  da_reasons : list string; da_archive_path : option string; da_manifest_path : option string;
  da_checkpoint_path : option string; da_archive_sha256 : option string
}.

Definition unarchived (status day : string) (count : Z) (reasons : list string) : DailyArchiveResult :=
  {| da_status := status; da_trading_day := day; da_event_count := count; da_deleted_files := 0;
     da_reasons := sort_names (remove_dups reasons); da_archive_path := None; da_manifest_path := None;
     da_checkpoint_path := None; da_archive_sha256 := None |}.

Definition of_archive (status day : string) (count deleted : Z) (reasons : list string) (sha : string)
    : DailyArchiveResult :=
  {| da_status := status; da_trading_day := day; da_event_count := count; da_deleted_files := deleted;
     da_reasons := reasons; da_archive_path := Some (archive_name (EventsOf day));
     da_manifest_path := Some (archive_name (ManifestOf day));
     da_checkpoint_path := Some (archive_name (CheckpointOf day)); da_archive_sha256 := Some sha |}.

(** ** Days *)

(** [fromtimestamp(ms / 1000.0, tz=SHANGHAI_TZ).date().isoformat()], exact until 2242. *)
Definition shanghai_day (ms : Z) : res string :=
  let local := ms + 28800000 in
  if local <? 253402300800000 then Ok (date_iso (local / 86400000 + 719163))
  else raise ValueError "year is out of range".

Definition event_trading_day (event : QmtEvent) : res string := shanghai_day (qe_timestamp_ms event).

(** [_normalize_day] of a date. *)
Definition normalize_day (value : Z) : string := date_iso value.

(** The digits of [^(\d{13})_]. *)
Definition filename_epoch (name : string) : option Z :=
  if all_chars is_digit (String.substring 0 13 name) && bool_decide (String.substring 13 1 name = "_"%string)
  then Some (fold_left (fun n a => 10 * n + Z.of_N (N_of_ascii a) - 48)
               (list_ascii_of_string (String.substring 0 13 name)) 0)
  else None.

(** ** Facts of a day *)

(** [_decimal_text_value]. *)
Definition decimal_text_value (value : json) : option Dec.decimal :=
  match value with
  | JStr s => match decimal_of_text s with Some (Dec.Fin d) => Some d | _ => None end
  | _ => None
  end.

(** [_snapshot_account]. *)
Definition snapshot_account (event : QmtEvent) : option jdict :=
  match jget "account" (qe_payload event) with JArr [JObj row] => Some row | _ => None end.

(** [_snapshot_positions]. *)
Fixpoint index_positions (rows : list json) (indexed : gmap string jdict) : option (gmap string jdict) :=
  match rows with
  | [] => Some indexed
  | JObj row :: rows =>
      match nonempty_str (jget "symbol" row) with
      | Some symbol =>
          if bool_decide (is_Some (indexed !! symbol)) then None
          else index_positions rows (<[symbol := row]> indexed)
      | None => None
      end
  | _ :: _ => None
  end.

Definition snapshot_positions (event : QmtEvent) : option (gmap string jdict) :=
  match jget "positions" (qe_payload event) with JArr rows => index_positions rows ∅ | _ => None end.

(** [_position_matches_snapshot]: an open price that a callback gives as zero. *)
Definition same_keys (a b : jdict) : bool :=
  let within x y := forallb (fun p : string * json => bool_decide (is_Some (dict_get p.1 y))) x in
  within a b && within b a.

Definition without_key (key : string) (d : jdict) : jdict :=
  List.filter (fun p => negb (bool_decide (p.1 = key))) d.

Definition position_matches (snapshot_position callback_position : jdict) : bool :=
  if dict_eq snapshot_position callback_position then true
  else if negb (same_keys snapshot_position callback_position) then false
  else
    match decimal_text_value (jget "open_price" callback_position) with Some d => Dec.is_zero d | None => false end &&
    match decimal_text_value (jget "open_price" snapshot_position) with
    | Some d => negb (Dec.leb d Dec.zero) | None => false end &&
    dict_eq (without_key "open_price" snapshot_position) (without_key "open_price" callback_position).

(** [_is_identical_snapshot_fact]. *)
Definition is_identical (snapshot event : QmtEvent) : bool :=
  if negb (bool_decide (qe_session_id event = qe_session_id snapshot)) ||
     negb (bool_decide (qe_account_fingerprint event = qe_account_fingerprint snapshot)) then false
  else if bool_decide (qe_event_type event = "account"%string) then
    match snapshot_account snapshot with
    | Some account => dict_eq (qe_payload event) account
    | None => false
    end
  else if bool_decide (qe_event_type event = "position"%string) then
    match snapshot_positions snapshot, jget "symbol" (qe_payload event) with
    | Some positions, JStr symbol =>
        match positions !! symbol with
        | Some p => position_matches p (qe_payload event)
        | None => false
        end
    | _, _ => false
    end
  else false.

(** The last snapshot of the records, and what follows it. *)
Fixpoint last_snapshot (records : list spool_record) : option (QmtEvent * list spool_record) :=
  match records with
  | [] => None
  | r :: records =>
      match last_snapshot records with
      | Some found => Some found
      | None => if bool_decide (qe_event_type (sr_event r) = "snapshot"%string)
                then Some (sr_event r, records) else None
      end
  end.

(** [_find_final_snapshot]: the snapshot, and why it is not final. *)
Definition find_final_snapshot (records : list spool_record) : option QmtEvent * option string :=
  match last_snapshot records with
  | None => (None, Some "final_snapshot_missing"%string)
  | Some (snapshot, trailing) =>
      if truthy (jget "query_errors" (qe_payload snapshot)) then
        (Some snapshot, Some "final_snapshot_query_error"%string)
      else if forallb (fun r => is_identical snapshot (sr_event r)) trailing then (Some snapshot, None)
      else (Some snapshot, Some "final_snapshot_missing"%string)
  end.

(** [_count_trailing_identical_account_heartbeats] and [..._position_callbacks]. *)
Definition count_trailing (event_type : string) (records : list spool_record) : Z :=
  match last_snapshot records with
  | Some (snapshot, trailing) =>
      Z.of_nat (length (List.filter (fun r =>
        bool_decide (qe_event_type (sr_event r) = event_type) && is_identical snapshot (sr_event r)) trailing))
  | None => 0
  end.

(** The order of the records; equal keys stay in the order of their names. *)
Definition record_leb (a b : spool_record) : bool :=
  let ea := sr_event a in let eb := sr_event b in
  if qe_timestamp_ms ea =? qe_timestamp_ms eb then
    if bool_decide (qe_session_id ea = qe_session_id eb) then
      if qe_sequence ea =? qe_sequence eb then String.leb (sr_name a) (sr_name b)
      else qe_sequence ea <? qe_sequence eb
    else String.ltb (qe_session_id ea) (qe_session_id eb)
  else qe_timestamp_ms ea <? qe_timestamp_ms eb.

Definition sort_records (l : list spool_record) : list spool_record :=
  merge_sort (fun a b => Is_true (record_leb a b)) l.

Definition sequences_of (session : string) (records : list spool_record) : list Z :=
  (fun r => qe_sequence (sr_event r)) <$>
  List.filter (fun r => bool_decide (qe_session_id (sr_event r) = session)) records.

Definition sessions_of (records : list spool_record) : list string :=
  sort_names (remove_dups ((fun r => qe_session_id (sr_event r)) <$> records)).

(** [_sequence_gaps] finds one. *)
Definition has_gap (records : list spool_record) : bool :=
  existsb (fun session =>
    let ordered := merge_sort Z.le (remove_dups (sequences_of session records)) in
    existsb (fun p => negb (p.2 =? p.1 + 1)) (zip ordered (tl ordered))) (sessions_of records).

(** [_session_summary]. *)
Definition session_summary (records : list spool_record) : list json :=
  (fun session =>
     let values := sequences_of session records in
     let first := fold_left Z.min values (default 0 (head values)) in
     let last := fold_left Z.max values (default 0 (head values)) in
     JObj [("session_id", JStr session); ("first_sequence", JInt first); ("last_sequence", JInt last);
           ("event_count", JInt (Z.of_nat (length values)))])%string
  <$> sessions_of records.

(** ** Bytes *)

(** [raw if raw.endswith(b"\n") else raw + b"\n"]. *)
Definition line_of (raw : list Z) : list Z :=
  match last raw with Some 10 => raw | _ => raw ++ [10] end.

Definition stream_of (raws : list (list Z)) : list Z := concat (line_of <$> raws).

(** [_stream_digest]. *)
Definition stream_digest (raws : list (list Z)) : string := Sha256.hexdigest (stream_of raws).

Definition json_line (value : jdict) : list Z := utf8 (dumps true (JObj value) +:+ line_feed).

Section Archiver.
Context {R : Type} {files_part : Part files R} {archives_part : Part archives R}.
Context {env : Env} {aenv : ArchiveEnv}.
Implicit Types (w : world R).

(** ** Files *)

Definition archive_io : M R unit := fun w =>
  (match ae_io (w_tick w) with Some e => Err e | None => Ok tt end, tick_world w).

(** [except (OSError, QmtProtocolError)]. *)
Definition is_unreadable (e : exn) : bool := bool_decide (exn_cls e ∈ [OSError; QmtProtocolError]).

(** [path.read_bytes()] of an archive file. *)
Definition read_archive (f : ArchiveFile) : M R (list Z) :=
  do! archive_io ;;
  content <- read_part (fun a : archives => a !! f) ;;
  match content with Some raw => retM raw | None => raiseM OSError (archive_name f) end.

Definition archive_exists (f : ArchiveFile) : M R bool :=
  read_part (fun a : archives => bool_decide (is_Some (a !! f))).

(** Writing the temporary file and [os.replace]; a failure removes the temporary file. *)
Definition write_archive (f : ArchiveFile) (raw : list Z) : M R unit :=
  do! archive_io ;; write_part (fun a : archives => <[f := raw]> a).

(** [_read_record]. *)
Definition read_record (d : Dir) (name : string) : M R spool_record :=
  do! archive_io ;;
  content <- read_part (fun fs : files => fs !! (d, name)) ;;
  match content with
  | None => raiseM OSError name
  | Some raw =>
      event <- lift (decode_transport_frame raw) ;;
      day <- lift (event_trading_day event) ;;
      retM {| sr_name := name; sr_raw := raw; sr_event := event; sr_day := day |}
  end.

(** What a record is, or that it cannot be read. *)
Definition try_record (d : Dir) (name : string) : M R (option spool_record) :=
  tryM (r <- read_record d name ;; retM (Some r))
       (fun e => if is_unreadable e then retM None else reraise e).

(** [_path_day_hint]. *)
Definition path_day_hint (name : string) : option string :=
  match filename_epoch name with
  | Some ms => match shanghai_day ms with Ok day => Some day | Err _ => ae_mtime_day name end
  | None => ae_mtime_day name
  end.

Definition hinted (day name : string) : bool := bool_decide (path_day_hint name = Some day).

Definition names_in (d : Dir) : M R (list string) := read_part (json_names d).

(** The loop of [_paths_for_day]. *)
Fixpoint paths_among (d : Dir) (day : string) (tolerate_invalid : bool) (names : list string)
    : M R (list string) :=
  match names with
  | [] => retM []
  | name :: names =>
      r <- try_record d name ;;
      rest <- paths_among d day tolerate_invalid names ;;
      retM (match r with
            | Some r => if bool_decide (sr_day r = day) then name :: rest else rest
            | None => if tolerate_invalid && hinted day name then name :: rest else rest
            end)
  end.

Definition paths_for_day (d : Dir) (day : string) (tolerate_invalid : bool) : M R (list string) :=
  names <- names_in d ;; paths_among d day tolerate_invalid names.

(** The records of a day among the processed files, and whether one of the day cannot
    be read. *)
Fixpoint records_among (day : string) (names : list string) : M R (list spool_record * bool) :=
  match names with
  | [] => retM ([], false)
  | name :: names =>
      r <- try_record Processed name ;;
      rest <- records_among day names ;;
      retM (match r with
            | Some r => if bool_decide (sr_day r = day) then (r :: rest.1, rest.2) else rest
            | None => (rest.1, hinted day name || rest.2)
            end)
  end.

Definition records_of_day (day : string) : M R (list spool_record * bool) :=
  names <- names_in Processed ;; records_among day names.

(** The loop of [discover_processed_days]. *)
Fixpoint days_among (names : list string) : M R (list string) :=
  match names with
  | [] => retM []
  | name :: names =>
      r <- try_record Processed name ;;
      rest <- days_among names ;;
      retM (match r with
            | Some r => sr_day r :: rest
            | None => match path_day_hint name with Some day => day :: rest | None => rest end
            end)
  end.

Definition discover_processed_days : M R (list string) :=
  names <- names_in Processed ;;
  days <- days_among names ;;
  retM (sort_names (remove_dups days)).

(** ** Verification *)

Definition integrity {A} (msg : string) : M R A := raiseM ArchiveIntegrityError msg.
Definition intact (b : bool) (msg : string) : M R unit := guardM b ArchiveIntegrityError msg.

(** [int(value)] of a JSON value that is no text. *)
Definition int_of (j : json) : res Z :=
  match j with
  | JInt z => Ok z
  | JBool b => Ok (if b then 1 else 0)
  | JFloat x => Ok (float_trunc x)
  | JStr _ => beyond
  | _ => raise TypeError "int() argument must be a string, a bytes-like object or a real number"
  end.

Definition decode_lines (lines : list (list Z)) : res (list QmtEvent) :=
  fold_right (fun raw rest => (event <- decode_transport_frame raw ;; l <- rest ;; Ok (event :: l))%py) (Ok []) lines.

(** [any(event_trading_day(event) != day ...)]. *)
Fixpoint other_day (day : string) (events : list QmtEvent) : res bool :=
  match events with
  | [] => Ok false
  | event :: events =>
      (d <- event_trading_day event ;; if bool_decide (d = day) then other_day day events else Ok true)%py
  end.

(** [_verify_archive]. *)
Definition verify_archive (day : string) (manifest : jdict) : M R unit :=
  raw <- read_archive (EventsOf day) ;;
  do! intact (is_str (Sha256.hexdigest raw) (jget "archive_sha256" manifest)) "archive SHA-256 mismatch" ;;
  events <- tryM
    (zipped <- read_archive (EventsOf day) ;;
     let '(lines, failure) := ae_gunzip zipped in
     events <- lift (decode_lines lines) ;;
     match failure with Some e => reraise e | None => retM (lines, events) end)
    (fun e => if is_unreadable e then integrity "archive payload is invalid" else reraise e) ;;
  let '(lines, decoded) := events in
  event_count <- lift (int_of (default (JInt (-1)) (dict_get "event_count" manifest))) ;;
  do! intact (Z.of_nat (length decoded) =? event_count) "archive event count mismatch" ;;
  do! intact (is_str (stream_digest lines) (jget "event_stream_sha256" manifest))
        "archive event stream hash mismatch" ;;
  other <- lift (other_day (text (jget "trading_day" manifest)) decoded) ;;
  intact (negb other) "archive contains a different trading day".

(** [json.loads(path.read_text(encoding="utf-8"))], an object. *)
Definition read_json (f : ArchiveFile) : M R jdict :=
  raw <- read_archive f ;;
  body <- lift (res_bind (utf8_decode raw) loads) ;;
  match body with
  | JObj d => retM d
  | _ => raiseM (OtherException "AttributeError") "object has no attribute 'get'"
  end.

(** [_verify_committed_files]. *)
Definition verify_committed_files (day : string) : M R jdict :=
  e <- archive_exists (EventsOf day) ;;
  m <- archive_exists (ManifestOf day) ;;
  c <- archive_exists (CheckpointOf day) ;;
  do! intact (e && m && c) "committed archive set is incomplete" ;;
  manifest <- read_json (ManifestOf day) ;;
  checkpoint <- read_json (CheckpointOf day) ;;
  do! intact (is_str "COMMITTED" (jget "status" checkpoint)) "checkpoint is not committed" ;;
  manifest_raw <- read_archive (ManifestOf day) ;;
  do! intact (is_str (Sha256.hexdigest manifest_raw) (jget "manifest_sha256" checkpoint))
        "manifest hash mismatch" ;;
  events_raw <- read_archive (EventsOf day) ;;
  do! intact (is_str (Sha256.hexdigest events_raw) (jget "archive_sha256" checkpoint))
        "archive hash mismatch" ;;
  do! verify_archive day manifest ;;
  retM manifest.

(** ** Deleting *)

(** [if path.exists(): path.unlink()]: whether it was there. *)
Definition delete_source (name : string) : M R Z :=
  there <- read_part (fun fs : files => bool_decide (is_Some (fs !! (Processed, name)))) ;;
  if (there : bool) then
    do! archive_io ;;
    do! write_part (fun fs : files => delete (Processed, name) fs) ;;
    retM 1
  else retM 0.

(** [_delete_exact_sources]. *)
Fixpoint delete_sources (names : list string) : M R Z :=
  match names with
  | [] => retM 0
  | name :: names => n <- delete_source name ;; m <- delete_sources names ;; retM (n + m)
  end.

(** [set(manifest.get("source_files", []))], of names. *)
Definition manifest_sources (manifest : jdict) : res (list string) :=
  match default (JArr []) (dict_get "source_files" manifest) with
  | JArr l => if forallb (fun j => match j with JStr _ => true | _ => false end) l
              then Ok (remove_dups (text <$> l)) else beyond
  | _ => beyond
  end.

(** [_recover_committed_day]. *)
Definition recover_committed_day (day : string) : M R DailyArchiveResult :=
  manifest <- verify_committed_files day ;;
  sources <- lift (manifest_sources manifest) ;;
  processed <- paths_for_day Processed day false ;;
  event_count <- lift (int_of (jget "event_count" manifest)) ;;
  let sha := text (jget "archive_sha256" manifest) in
  if forallb (fun name => bool_decide (name ∈ sources)) processed then
    deleted <- delete_sources sources ;;
    retM (of_archive "already_archived" day event_count deleted [] sha)
  else retM (of_archive "late_events" day event_count 0 ["late_events_after_commit"%string] sha).

(** ** One day *)

Definition final_json (final_snapshot : option QmtEvent) : json :=
  match final_snapshot with
  | Some e => JObj [("session_id", JStr (qe_session_id e)); ("sequence", JInt (qe_sequence e));
                    ("timestamp_ms", JInt (qe_timestamp_ms e))]%string
  | None => JNull
  end.

(** The manifest of the records of a day, in their order. *)
Definition manifest_of (day : string) (records : list spool_record) (final_snapshot : option QmtEvent)
    (quiet_anchor_ms : Z) (archive_sha256 : string) (now : Z) : jdict :=
  let names := sr_name <$> records in
  let first := default 0 (qe_timestamp_ms ∘ sr_event <$> head records) in
  let final := default 0 (qe_timestamp_ms ∘ sr_event <$> last records) in
  [("archive_format_version", JStr ARCHIVE_FORMAT_VERSION); ("trading_day", JStr day);
   ("account_fingerprint", JStr (default "" (qe_account_fingerprint ∘ sr_event <$> head records)));
   ("event_count", JInt (Z.of_nat (length records)));
   ("first_timestamp_ms", JInt first); ("last_timestamp_ms", JInt final);
   ("quiet_anchor_timestamp_ms", JInt quiet_anchor_ms); ("sessions", JArr (session_summary records));
   ("final_snapshot", final_json final_snapshot);
   ("trailing_identical_account_heartbeats", JInt (count_trailing "account" records));
   ("trailing_identical_position_callbacks", JInt (count_trailing "position" records));
   ("archive_filename", JStr (archive_name (EventsOf day))); ("archive_sha256", JStr archive_sha256);
   ("event_stream_sha256", JStr (stream_digest (sr_raw <$> records)));
   ("source_file_count", JInt (Z.of_nat (length names))); ("source_files", JArr (JStr <$> names));
   ("source_files_sha256", JStr (Sha256.hexdigest (utf8 (join line_feed names +:+ line_feed))));
   ("created_at_ms", JInt now)]%string.

Definition checkpoint_of (day archive_sha256 manifest_sha256 : string) (count now : Z) : jdict :=
  [("status", JStr "COMMITTED"); ("trading_day", JStr day);
   ("archive_filename", JStr (archive_name (EventsOf day))); ("archive_sha256", JStr archive_sha256);
   ("manifest_filename", JStr (archive_name (ManifestOf day))); ("manifest_sha256", JStr manifest_sha256);
   ("event_count", JInt count); ("committed_at_ms", JInt now)]%string.

(** The archive of a day that is ready: written, verified, committed, verified again;
    then its sources go. *)
Definition commit_day (day : string) (records : list spool_record) (final_snapshot : option QmtEvent)
    (quiet_anchor_ms : Z) : M R DailyArchiveResult :=
  do! write_archive (EventsOf day) (ae_gzip (stream_of (sr_raw <$> records))) ;;
  archive_raw <- read_archive (EventsOf day) ;;
  let archive_sha256 := Sha256.hexdigest archive_raw in
  created_at_ms <- time_ms ;;
  let manifest := manifest_of day records final_snapshot quiet_anchor_ms archive_sha256 created_at_ms in
  do! write_archive (ManifestOf day) (json_line manifest) ;;
  do! verify_archive day manifest ;;
  manifest_raw <- read_archive (ManifestOf day) ;;
  committed_at_ms <- time_ms ;;
  do! write_archive (CheckpointOf day)
        (json_line (checkpoint_of day archive_sha256 (Sha256.hexdigest manifest_raw)
                      (Z.of_nat (length records)) committed_at_ms)) ;;
  do! verify_committed_files day ;;
  deleted <- delete_sources (sr_name <$> records) ;;
  retM (of_archive "archived" day (Z.of_nat (length records)) deleted [] archive_sha256).

(** [archive_day], of a date and whole seconds. *)
Definition archive_day (trading_day quiet_seconds : Z) (now_ms : option Z) (require_final_snapshot : bool)
    : M R DailyArchiveResult :=
  let day := normalize_day trading_day in
  do! guardM (0 <=? quiet_seconds) ValueError "quiet_seconds must be non-negative" ;;
  now_ms <- match now_ms with Some t => retM t | None => time_ms end ;;
  committed <- archive_exists (CheckpointOf day) ;;
  if (committed : bool) then recover_committed_day day
  else
    inbox <- paths_for_day Inbox day false ;;
    quarantine <- paths_for_day Quarantine day true ;;
    found <- records_of_day day ;;
    let '(records, corrupted) := found in
    let records := sort_records records in
    let reason (b : bool) (r : string) := if b then [r] else [] in
    let before := reason (negb (bool_decide (inbox = []))) "pending_inbox" ++
                  reason (negb (bool_decide (quarantine = []))) "quarantine_present" ++
                  reason corrupted "processed_corruption" in
    if bool_decide (records = []) then
      retM (unarchived (if bool_decide (before = []) then "no_data" else "not_ready") day 0 before)
    else
      let accounts := remove_dups ((fun r => qe_account_fingerprint (sr_event r)) <$> records) in
      let '(final_snapshot, final_reason) :=
        if require_final_snapshot then find_final_snapshot records
        else (fst <$> last_snapshot records, None) in
      let last_ms := fold_left Z.max ((fun r => qe_timestamp_ms (sr_event r)) <$> records)
                       (default 0 (qe_timestamp_ms ∘ sr_event <$> head records)) in
      let quiet_anchor_ms :=
        match final_snapshot, final_reason with
        | Some e, None => if require_final_snapshot then qe_timestamp_ms e else last_ms
        | _, _ => last_ms
        end in
      let reasons := before ++ reason (negb (length accounts =? 1)%nat) "account_mismatch" ++
                     reason (has_gap records) "sequence_gap" ++ option_list final_reason ++
                     reason (now_ms <? quiet_anchor_ms + quiet_seconds * 1000) "quiet_period" in
      if bool_decide (reasons = []) then commit_day day records final_snapshot quiet_anchor_ms
      else retM (unarchived "not_ready" day (Z.of_nat (length records)) reasons).
End Archiver.
