(* ===== verification/ArchiveFacts.v ===== *)
(** * ArchiveFacts: what compacting a day keeps

    A processed file is deleted only when the archive of its day is committed and holds
    its bytes, whatever operation on a file fails and whenever the process is killed. *)

From stdpp Require Import gmap sorting.
From S2P Require Import Prelude PyTime Json Parse Domain Db OrderStore BrokerEvidence Parts Wire Frame Stream Spool Commands PyFloat Archive.
Open Scope Z_scope.
Open Scope oms_scope.

(** ** Numbers the manifest can hold *)

Lemma int_well_keyed z : 0 <= z < 10 ^ 18 -> well_keyed (JInt z) = true.
Proof.
  intros Hz. cbn [well_keyed]. apply Nat.leb_le. rewrite Z.abs_eq by lia.
  etransitivity; [apply (z_str_length 17); exact Hz|]. apply Nat.leb_le. reflexivity.
Qed.

Lemma event_numbers raw e :
  decode_transport_frame raw = Ok e ->
  well_keyed (JInt (qe_sequence e)) = true /\ well_keyed (JInt (qe_timestamp_ms e)) = true.
Proof.
  intros (d & He & Hk)%decoded_mapping.
  pose proof (from_mapping_well_keyed _ _ He Hk) as H. clear He Hk.
  change (well_keyed (JObj (event_mapping e))) with
    (bool_decide (NoDup (event_mapping e).*1) && forallb (fun p => well_keyed p.2) (event_mapping e)) in H.
  apply andb_true_iff in H as [_ H]. rewrite forallb_forall in H.
  split; [apply (H ("sequence"%string, _)) | apply (H ("timestamp_ms"%string, _))]; cbn; tauto.
Qed.

(** A record whose event was read from its bytes. *)
Definition recorded (r : spool_record) : Prop := decode_transport_frame (sr_raw r) = Ok (sr_event r).

(** The smallest and the largest of some numbers are among them. *)
Lemma fold_left_among (f : Z -> Z -> Z) l x :
  (forall a b, f a b = a \/ f a b = b) -> fold_left f l x ∈ x :: l.
Proof.
  intros Hf. revert x. induction l as [|y l IH]; intros x; [by left|]. cbn [fold_left].
  specialize (IH (f x y)). destruct (Hf x y) as [-> | ->] in IH; set_solver.
Qed.

Lemma fold_left_head (P : Z -> Prop) (f : Z -> Z -> Z) l :
  (forall a b, f a b = a \/ f a b = b) -> P 0 -> Forall P l -> P (fold_left f l (default 0 (head l))).
Proof.
  intros Hf H0 Hl. pose proof (fold_left_among f l (default 0 (head l)) Hf) as Hin.
  rewrite Forall_forall in Hl. apply elem_of_cons in Hin as [-> | Hin]; [|by apply Hl].
  destruct l as [|x l]; [done | apply Hl; by left].
Qed.

Lemma sequences_numbers session records :
  Forall recorded records -> Forall (fun z => well_keyed (JInt z) = true) (sequences_of session records).
Proof.
  unfold sequences_of. rewrite Forall_fmap, !Forall_forall. intros H r Hr%list_elem_of_In%filter_In.
  destruct Hr as [Hr%list_elem_of_In _]. by apply (event_numbers _ _ (H r Hr)).
Qed.

Lemma timestamps_numbers records :
  Forall recorded records ->
  Forall (fun z => well_keyed (JInt z) = true) ((fun r => qe_timestamp_ms (sr_event r)) <$> records).
Proof.
  intros H. rewrite Forall_fmap. eapply Forall_impl; [exact H|]. intros r Hr. by apply (event_numbers _ _ Hr).
Qed.

Lemma head_number records (P : Z -> Prop) (f : spool_record -> Z) :
  P 0 -> Forall (fun r => P (f r)) records ->
  P (default 0 (f <$> head records)) /\ P (default 0 (f <$> last records)).
Proof.
  intros H0 H. split; [by destruct H|].
  destruct (last records) as [r|] eqn:E; [|done]. apply last_Some_elem_of in E.
  rewrite Forall_forall in H. by apply H.
Qed.

Lemma summary_well_keyed records :
  Forall recorded records -> Z.of_nat (length records) < 10 ^ 18 ->
  well_keyed (JArr (session_summary records)) = true.
Proof.
  intros Hr Hn. cbn [well_keyed]. unfold session_summary. apply forallb_forall.
  intros j (session & -> & _)%list_elem_of_In%list_elem_of_fmap.
  set (f := fold_left Z.min _ _). set (g := fold_left Z.max _ _). set (n := Z.of_nat (length _)).
  assert (Hf : well_keyed (JInt f) = true).
  { unfold f. apply (fold_left_head (fun z => well_keyed (JInt z) = true));
      [lia | done | by apply sequences_numbers]. }
  assert (Hg : well_keyed (JInt g) = true).
  { unfold g. apply (fold_left_head (fun z => well_keyed (JInt z) = true));
      [lia | done | by apply sequences_numbers]. }
  assert (Hl : well_keyed (JInt n) = true).
  { apply int_well_keyed. unfold n, sequences_of. rewrite length_fmap.
    pose proof (List.filter_length_le (fun r => bool_decide (qe_session_id (sr_event r) = session)) records). lia. }
  clearbody f g n. cbn [well_keyed] in *. cbn. by rewrite Hf, Hg, Hl.
Qed.

Lemma final_well_keyed (final_snapshot : option QmtEvent) :
  (forall e, final_snapshot = Some e -> exists raw, decode_transport_frame raw = Ok e) ->
  well_keyed (final_json final_snapshot) = true.
Proof.
  intros H. destruct final_snapshot as [e|]; [|done]. destruct (H e eq_refl) as (raw & Hraw).
  destruct (event_numbers _ _ Hraw) as [H1 H2]. unfold final_json. cbn [well_keyed] in *. cbn. by rewrite H1, H2.
Qed.

Lemma count_trailing_bound ty records : 0 <= count_trailing ty records <= Z.of_nat (length records).
Proof.
  enough (H : forall s t, last_snapshot records = Some (s, t) -> (length t <= length records)%nat).
  { unfold count_trailing. destruct (last_snapshot records) as [[s t]|]; [|lia].
    pose proof (H s t eq_refl).
    pose proof (List.filter_length_le (fun r => bool_decide (qe_event_type (sr_event r) = ty) &&
      is_identical s (sr_event r)) t). lia. }
  induction records as [|r records IH]; [done|]. cbn. intros s t.
  destruct (last_snapshot records) as [[s' t']|].
  - injection 1 as -> ->. specialize (IH _ _ eq_refl). lia.
  - case_bool_decide; [|done]. injection 1 as _ ->. lia.
Qed.

Lemma object_well_keyed (l : jdict) :
  bool_decide (NoDup l.*1) = true -> Forall (fun p => well_keyed p.2 = true) l -> well_keyed (JObj l) = true.
Proof.
  intros Hk Hl. change (bool_decide (NoDup l.*1) && forallb (fun p => well_keyed p.2) l = true).
  rewrite Hk. apply forallb_forall. intros p Hp%list_elem_of_In. rewrite Forall_forall in Hl. by apply Hl.
Qed.

Lemma names_well_keyed (names : list string) : well_keyed (JArr (JStr <$> names)) = true.
Proof. cbn [well_keyed]. apply forallb_forall. by intros j (n & -> & _)%list_elem_of_In%list_elem_of_fmap. Qed.

(** The manifest of the records of a day can be read again. *)
Lemma manifest_well_keyed day records final_snapshot quiet_anchor_ms sha now :
  Forall recorded records -> Z.of_nat (length records) < 10 ^ 18 -> 0 <= now < 10 ^ 18 ->
  well_keyed (JInt quiet_anchor_ms) = true ->
  (forall e, final_snapshot = Some e -> exists raw, decode_transport_frame raw = Ok e) ->
  well_keyed (JObj (manifest_of day records final_snapshot quiet_anchor_ms sha now)) = true.
Proof.
  intros Hr Hn Hnow Hq Hs.
  destruct (head_number records (fun z => well_keyed (JInt z) = true) (qe_timestamp_ms ∘ sr_event) eq_refl) as [H3 H4].
  { eapply Forall_impl; [exact Hr|]. intros r H. apply (event_numbers _ _ H). }
  assert (H6 : well_keyed (JInt (Z.of_nat (length records))) = true) by (apply int_well_keyed; lia).
  assert (H7 : forall ty, well_keyed (JInt (count_trailing ty records)) = true).
  { intros ty. apply int_well_keyed. pose proof (count_trailing_bound ty records). lia. }
  apply object_well_keyed.
  - apply bool_decide_eq_true_2. apply (bool_decide_unpack _). vm_compute. exact I.
  - unfold manifest_of. rewrite !Forall_cons. cbn [snd]. rewrite !length_fmap.
    repeat split; try done; auto using names_well_keyed, summary_well_keyed, final_well_keyed, int_well_keyed.
Qed.

(** Reading a written JSON line. *)
Lemma read_json_line d :
  well_keyed (JObj d) = true -> res_bind (utf8_decode (json_line d)) loads = Ok (JObj (sorted_dict d)).
Proof.
  intros Hk. unfold json_line. rewrite utf8_decode_utf8. cbn [res_bind]. rewrite dumps_render.
  apply loads_line; [|reflexivity]. by apply (sorted_well_keyed (JObj d)).
Qed.

Lemma sources_of_manifest day records final_snapshot quiet_anchor_ms sha now :
  let m := manifest_of day records final_snapshot quiet_anchor_ms sha now in
  well_keyed (JObj m) = true ->
  manifest_sources (sorted_dict m) = Ok (remove_dups (sr_name <$> records)).
Proof.
  intros m Hk. cbn [well_keyed] in Hk. apply andb_true_iff in Hk as [Hd%bool_decide_eq_true _].
  unfold manifest_sources. rewrite (dict_get_sorted _ _ Hd).
  change (dict_get "source_files" m) with (Some (JArr (JStr <$> (sr_name <$> records)))). clear.
  cbn [fmap option_fmap option_map default from_option sorted]. unfold id.
  generalize (sr_name <$> records). intros names.
  assert (Hs : List.map sorted (JStr <$> names) = JStr <$> names) by (induction names as [|n l IH]; [done | cbn; by f_equal]).
  rewrite Hs. replace (forallb _ (JStr <$> names)) with true by (clear; induction names as [|n l IH]; [done | exact IH]).
  do 2 f_equal. clear. induction names as [|n l IH]; [done | cbn; by f_equal].
Qed.

(** ** What an operation on the spool may touch *)

Section Keeping.
Context {R : Type} {files_part : Part files R} {archives_part : Part archives R}
  {files_apart : Apart files archives R} {archives_apart : Apart archives files R}.
Context {env : Env} {aenv : ArchiveEnv}.
Implicit Types (w : world R) (fs : files) (a : archives).

Definition files_of w : files := get_part (w_rest w).
Definition archives_of w : archives := get_part (w_rest w).

Lemma quiet_try {A} (m : M R A) h : quiet m -> (forall e, quiet (h e)) -> quiet (tryM m h).
Proof.
  intros Hm Hh w. apply wp_try. eapply wp_mono; [apply Hm|].
  intros [x|e] w1 [Hd Hf]; [done|]. eapply wp_mono; [apply Hh|].
  intros r w2 [Hd2 Hf2]. unfold frame in *. naive_solver congruence.
Qed.
Hint Resolve quiet_try : quiet.

Lemma archive_io_quiet : quiet (R := R) archive_io.
Proof. intros w. by repeat split. Qed.
Hint Resolve archive_io_quiet : quiet.

Lemma read_archive_quiet f : quiet (R := R) (read_archive f).
Proof. unfold read_archive. do 2 (apply quiet_bind; [auto with quiet | intros ?]). case_match; auto with quiet. Qed.
Lemma archive_exists_quiet f : quiet (R := R) (archive_exists f).
Proof. unfold archive_exists. auto with quiet. Qed.
Lemma read_record_quiet d n : quiet (R := R) (read_record d n).
Proof. unfold read_record. do 2 (apply quiet_bind; [auto with quiet | intros ?]). case_match; auto 6 with quiet. Qed.
Hint Resolve read_archive_quiet archive_exists_quiet read_record_quiet : quiet.

Lemma try_record_quiet d n : quiet (R := R) (try_record d n).
Proof. unfold try_record. apply quiet_try; [auto with quiet|]. intros e. case_match; auto with quiet. Qed.
Hint Resolve try_record_quiet : quiet.

Lemma names_in_quiet d : quiet (R := R) (names_in d).
Proof. unfold names_in. auto with quiet. Qed.
Hint Resolve names_in_quiet : quiet.

Lemma paths_for_day_quiet d day b : quiet (R := R) (paths_for_day d day b).
Proof.
  unfold paths_for_day. apply quiet_bind; [auto with quiet|]. intros names.
  induction names as [|n names IH]; cbn; auto 6 with quiet.
Qed.

Lemma intact_quiet b msg : quiet (R := R) (intact b msg).
Proof. unfold intact. auto with quiet. Qed.
Lemma time_quiet : quiet (R := R) time_ms.
Proof. unfold time_ms. auto with quiet. Qed.
Lemma read_json_quiet f : quiet (R := R) (read_json f).
Proof. unfold read_json. do 2 (apply quiet_bind; [auto with quiet | intros ?]). case_match; auto with quiet. Qed.
Hint Resolve paths_for_day_quiet intact_quiet time_quiet read_json_quiet : quiet.

Lemma verify_archive_quiet day manifest : quiet (R := R) (verify_archive day manifest).
Proof.
  unfold verify_archive. do 2 (apply quiet_bind; [auto with quiet | intros ?]).
  apply quiet_bind; [|intros [lines decoded]; auto 8 with quiet].
  apply quiet_try; [|intros e; case_match; unfold integrity; auto with quiet].
  apply quiet_bind; [auto with quiet|]. intros zipped. destruct (ae_gunzip zipped) as [lines failure].
  apply quiet_bind; [auto with quiet|]. intros events. case_match; auto with quiet.
Qed.
Hint Resolve verify_archive_quiet : quiet.

Lemma verify_committed_files_quiet day : quiet (R := R) (verify_committed_files day).
Proof. unfold verify_committed_files. repeat (apply quiet_bind; [auto with quiet | intros ?]). auto with quiet. Qed.
Hint Resolve verify_committed_files_quiet : quiet.

(** A computation that touches nothing, and what it returns. *)
Definition gives {A} (m : M R A) (P : A -> Prop) w : Prop :=
  wp m (fun r w' => w_rest w' = w_rest w /\ forall x, r = Ok x -> P x) w.

Lemma gives_quiet {A} (m : M R A) w : quiet m -> gives m (fun _ => True) w.
Proof. intros Hm. eapply wp_mono; [apply Hm|]. by intros r w' [_ [_ H]]. Qed.

Lemma gives_ret {A} (x : A) (P : A -> Prop) w : P x -> gives (retM x) P w.
Proof. intros H. split; [done|]. by intros y [= <-]. Qed.

Lemma gives_lift {A} (r : res A) w : gives (lift r) (fun x => r = Ok x) w.
Proof. by split. Qed.

Lemma gives_bind {A B} (m : M R A) (f : A -> M R B) P Q w :
  gives m P w -> (forall x w1, w_rest w1 = w_rest w -> P x -> gives (f x) Q w1) -> gives (bindM m f) Q w.
Proof.
  unfold gives. intros Hm Hf. apply wp_bind. eapply wp_mono; [exact Hm|]. intros [x|e] w1 [Hr Hx]; [|done].
  eapply wp_mono; [apply Hf; auto|]. intros r w2 [Hr2 H2]. split; [by rewrite Hr2 | done].
Qed.

Lemma wp_gives_bind {A B} (m : M R A) (f : A -> M R B) P Q w :
  gives m P w ->
  (forall e w1, w_rest w1 = w_rest w -> Q (Err e) w1) ->
  (forall x w1, w_rest w1 = w_rest w -> P x -> wp (f x) Q w1) -> wp (bindM m f) Q w.
Proof.
  unfold gives. intros Hm He Hf. apply wp_bind. eapply wp_mono; [exact Hm|]. intros [x|e] w1 [Hr Hx]; auto.
Qed.

Lemma gives_mono {A} (m : M R A) (P Q : A -> Prop) w :
  gives m P w -> (forall x, P x -> Q x) -> gives m Q w.
Proof. unfold gives. intros H HQ. eapply wp_mono; [exact H|]. intros r w' [Hr Hx]. split; [done | eauto]. Qed.

Lemma read_archive_gives f w : gives (read_archive f) (fun raw => archives_of w !! f = Some raw) w.
Proof.
  unfold read_archive. eapply gives_bind; [apply gives_quiet; auto with quiet|]. intros _ w1 H1 _.
  unfold archives_of. rewrite <-H1.
  eapply (gives_bind _ _ (fun o => o = (get_part (w_rest w1) : archives) !! f)); [by split; [|intros x [= <-]]|].
  intros o w2 H2 ->. destruct (_ !! f) as [raw|]; [by apply gives_ret | by split].
Qed.

Lemma time_gives w :
  (forall t, 0 <= instant (env_now t) / 1000 < 10 ^ 18) -> gives time_ms (fun t => 0 <= t < 10 ^ 18) w.
Proof. intros H. split; [done|]. intros t [= <-]. apply H. Qed.

(** A record of a file of the spool. *)
Definition record_in (fs : files) (r : spool_record) : Prop :=
  fs !! (Processed, sr_name r) = Some (sr_raw r) /\ recorded r.

Lemma try_record_gives n w :
  gives (try_record Processed n) (fun o => forall r, o = Some r -> record_in (files_of w) r) w.
Proof.
  unfold gives, wp, try_record, tryM, read_record, bindM, archive_io, read_part, read_rest, lift, files_of. cbn.
  destruct (ae_io (w_tick w)) as [e|]; cbn; [case_match; naive_solver|].
  destruct (get_part (w_rest w) !! (Processed, n)) as [raw|] eqn:Ef; cbn; [|naive_solver].
  destruct (decode_transport_frame raw) as [event|e] eqn:Ed; cbn; [|case_match; naive_solver].
  destruct (event_trading_day event) as [day|e] eqn:Et; cbn; [|case_match; naive_solver].
  split; [done|]. intros o [= <-] r [= <-]. by split.
Qed.

Lemma records_among_gives day names w :
  gives (records_among day names) (fun l => Forall (record_in (files_of w)) l.1 /\ (length l.1 <= length names)%nat) w.
Proof.
  revert w. induction names as [|n names IH]; intros w; cbn [records_among]; [by apply gives_ret|].
  eapply gives_bind; [apply try_record_gives|]. intros o w1 H1 Ho.
  eapply gives_bind; [apply IH|]. intros [l c] w2 H2 [Hl Hn]. unfold files_of in *. rewrite H1 in Hl.
  cbn [fst snd] in *. apply gives_ret. destruct o as [r|]; [case_bool_decide|]; cbn [fst length]; (split; [|lia]);
    auto.
Qed.

(** ** What is kept *)

(** [content n] is what a file named [n] holds: a name is used for one content. *)
Variable content : string -> list Z.

Hypothesis gunzip_gzip : forall s,
  (ae_gunzip (ae_gzip s)).2 = None /\ concat (ae_gunzip (ae_gzip s)).1 = s.
Hypothesis clock_bound : forall t, 0 <= instant (env_now t) / 1000 < 10 ^ 18.

Record spooled fs : Prop := {
  sp_content : forall n raw, fs !! (Processed, n) = Some raw -> raw = content n;
  sp_size : Z.of_nat (size fs) < 10 ^ 18
}.

(** The files of a committed day: what [archive_day] writes. *)
Definition sealed (day : string) a : Prop :=
  exists records final_snapshot quiet_anchor_ms sha now,
    let m := manifest_of day records final_snapshot quiet_anchor_ms sha now in
    a !! EventsOf day = Some (ae_gzip (stream_of (sr_raw <$> records))) /\
    a !! ManifestOf day = Some (json_line m) /\ well_keyed (JObj m) = true /\
    Forall (fun r => sr_raw r = content (sr_name r)) records.

Definition is_committed (day : string) a : Prop := is_Some (a !! CheckpointOf day).

Record archive_inv w : Prop := {
  ai_spooled : spooled (files_of w);
  ai_sealed : forall day, is_committed day (archives_of w) -> sealed day (archives_of w)
}.

(** The bytes are in the archive of a committed day: its lines, put together, are a
    stream they are in. *)
Definition stored (raw : list Z) a : Prop :=
  exists day zipped raws, is_committed day a /\ a !! EventsOf day = Some zipped /\
    (ae_gunzip zipped).2 = None /\ concat (ae_gunzip zipped).1 = stream_of raws /\ raw ∈ raws.

Record kept w w' : Prop := {
  kp_stored : forall raw, stored raw (archives_of w) -> stored raw (archives_of w');
  kp_files : forall n raw, files_of w !! (Processed, n) = Some raw ->
    files_of w' !! (Processed, n) = Some raw \/ stored raw (archives_of w')
}.

#[local] Instance kept_preorder : PreOrder kept.
Proof.
  split; [by split; auto|]. intros w1 w2 w3 [S1 F1] [S2 F2]. split; [auto|].
  intros n raw [H|H]%F1; auto.
Qed.

Definition of_day (f : ArchiveFile) : string := match f with EventsOf d | ManifestOf d | CheckpointOf d => d end.

(** Only files of this day have changed. *)
Definition untouched (day : string) a a' : Prop := forall f, of_day f <> day -> a' !! f = a !! f.

Lemma sealed_on day a a' :
  (forall f, of_day f = day -> a' !! f = a !! f) -> sealed day a -> sealed day a'.
Proof.
  intros H (records & s & q & sha & now & He & Hm & Hk). exists records, s, q, sha, now.
  by rewrite (H (EventsOf day)), (H (ManifestOf day)).
Qed.

Lemma stored_untouched day a a' raw :
  ~ is_committed day a -> untouched day a a' -> stored raw a -> stored raw a'.
Proof.
  intros Hn Hu (d & z & raws & Hc & He & Hrest). exists d, z, raws.
  assert (Hd : d <> day) by (by intros ->). unfold is_committed.
  by rewrite (Hu (CheckpointOf d)), (Hu (EventsOf d)).
Qed.

Lemma spooled_subset fs fs' : fs' ⊆ fs -> spooled fs -> spooled fs'.
Proof.
  intros Hs [Hc Hz]. split; [intros n raw H; eapply Hc, lookup_weaken; eauto|].
  pose proof (map_subseteq_size _ _ Hs). lia.
Qed.

(** The day is not committed yet, and the processed files are all there. *)
Definition pending (day : string) w w' : Prop :=
  untouched day (archives_of w) (archives_of w') /\ files_of w' = files_of w /\
  archives_of w' !! CheckpointOf day = None.

Lemma pending_kept day w w' :
  archives_of w !! CheckpointOf day = None -> pending day w w' -> archive_inv w -> archive_inv w' /\ kept w w'.
Proof.
  intros Hn (Hu & Hf & Hp) [Hs Hc].
  assert (Hnc : ~ is_committed day (archives_of w)) by (unfold is_committed; rewrite Hn; by intros []).
  split; split.
  - by rewrite Hf.
  - intros d Hd. assert (d <> day) by (intros ->; unfold is_committed in Hd; rewrite Hp in Hd; by destruct Hd).
    apply (sealed_on d (archives_of w)); [intros f <-; by apply Hu|].
    apply Hc. unfold is_committed in *. by rewrite <-(Hu (CheckpointOf d)).
  - intros raw. by eapply stored_untouched.
  - intros n raw. rewrite Hf. by left.
Qed.

(** The day is committed, and of the processed files those that it holds may be gone. *)
Definition compacted (day : string) (records : list spool_record) w w' : Prop :=
  untouched day (archives_of w) (archives_of w') /\
  is_committed day (archives_of w') /\ sealed day (archives_of w') /\
  archives_of w' !! EventsOf day = Some (ae_gzip (stream_of (sr_raw <$> records))) /\
  files_of w' ⊆ files_of w /\
  (forall n raw, files_of w !! (Processed, n) = Some raw ->
     files_of w' !! (Processed, n) = Some raw \/ n ∈ (sr_name <$> records)).

Lemma stored_record day records r a :
  is_committed day a -> a !! EventsOf day = Some (ae_gzip (stream_of (sr_raw <$> records))) ->
  r ∈ records -> stored (sr_raw r) a.
Proof.
  intros Hc He Hr. destruct (gunzip_gzip (stream_of (sr_raw <$> records))) as [Hf Hs].
  exists day, (ae_gzip (stream_of (sr_raw <$> records))), (sr_raw <$> records).
  by repeat split; try apply list_elem_of_fmap_2.
Qed.

Lemma compacted_kept day records w w' :
  archives_of w !! CheckpointOf day = None -> Forall (record_in (files_of w)) records ->
  compacted day records w w' -> archive_inv w -> archive_inv w' /\ kept w w'.
Proof.
  intros Hn Hr (Hu & Hc & Hd & He & Hs & Hf) [Hsp Hsd].
  assert (Hnc : ~ is_committed day (archives_of w)) by (unfold is_committed; rewrite Hn; by intros []).
  split; split.
  - by eapply spooled_subset.
  - intros d Hd'. destruct (decide (d = day)) as [->|Hne]; [done|].
    apply (sealed_on d (archives_of w)); [intros f <-; by apply Hu|].
    apply Hsd. unfold is_committed in *. by rewrite <-(Hu (CheckpointOf d)).
  - intros raw. by eapply stored_untouched.
  - intros n raw H. destruct (Hf n raw H) as [? | (r & -> & Hin)%list_elem_of_fmap]; [by left | right].
    rewrite Forall_forall in Hr. destruct (Hr r Hin) as [Hraw _]. rewrite H in Hraw. injection Hraw as ->.
    by eapply stored_record.
Qed.

(** ** The operations *)

Lemma wp_write_archive f raw (Q : res unit -> world R -> Prop) w :
  (forall e w1, w_rest w1 = w_rest w -> Q (Err e) w1) ->
  (forall w1, files_of w1 = files_of w -> archives_of w1 = <[f := raw]> (archives_of w) -> Q (Ok tt) w1) ->
  wp (write_archive f raw) Q w.
Proof.
  intros He Hok. unfold write_archive. eapply wp_gives_bind; [apply gives_quiet; auto with quiet | done|].
  intros _ w1 H1 _. unfold wp. apply Hok; unfold files_of, archives_of; cbn; by rewrite ?get_set_part, ?get_set_apart, H1.
Qed.

(** Only files of these names are gone. *)
Definition removed (names : list string) w w' : Prop :=
  archives_of w' = archives_of w /\ files_of w' ⊆ files_of w /\
  (forall n raw, files_of w !! (Processed, n) = Some raw ->
     files_of w' !! (Processed, n) = Some raw \/ n ∈ names).

Lemma removed_rest names w w' : w_rest w' = w_rest w -> removed names w w'.
Proof. unfold removed, files_of, archives_of. intros ->. split_and!; auto. Qed.

Lemma removed_trans l1 l2 names w1 w2 w3 :
  l1 ⊆ names -> l2 ⊆ names -> removed l1 w1 w2 -> removed l2 w2 w3 -> removed names w1 w3.
Proof.
  intros Hl1 Hl2 (A1 & S1 & F1) (A2 & S2 & F2). split_and!; [congruence | by etrans|].
  intros n raw [H|H]%F1; [|by right; apply Hl1]. apply F2 in H as [H|H]; [by left | right; by apply Hl2].
Qed.

Lemma removed_from l names w w1 w2 :
  w_rest w1 = w_rest w -> l ⊆ names -> removed l w1 w2 -> removed names w w2.
Proof.
  unfold removed, files_of, archives_of. intros -> Hl (A & S & F). split_and!; [done | done|].
  intros n raw [H|H]%F; [by left | right; by apply Hl].
Qed.

Lemma delete_source_removed name w : wp (delete_source name) (fun _ w' => removed [name] w w') w.
Proof.
  unfold delete_source. eapply wp_gives_bind; [apply gives_quiet; auto with quiet|intros; by apply removed_rest|].
  intros there w1 H1 _. destruct there; [|by apply removed_rest].
  eapply wp_gives_bind; [apply gives_quiet; auto with quiet|intros; apply removed_rest; congruence|].
  intros _ w2 H2 _. unfold wp. cbn. unfold removed, files_of, archives_of. cbn.
  rewrite get_set_part, get_set_apart, H2, H1. split_and!; [done | apply delete_subseteq|].
  intros n raw H. destruct (decide (n = name)) as [->|Hn]; [right; by left | left].
  by rewrite lookup_delete_ne by congruence.
Qed.

Lemma delete_sources_removed names w : wp (delete_sources names) (fun _ w' => removed names w w') w.
Proof.
  revert w. induction names as [|n names IH]; intros w; cbn [delete_sources]; [by apply removed_rest|].
  apply wp_bind. eapply wp_mono; [apply delete_source_removed|]. intros [c|e] w1 H1.
  - apply wp_bind. eapply wp_mono; [apply IH|]. intros [c'|e] w2 H2;
      (eapply (removed_trans [n] names); [set_solver | set_solver | exact H1 | exact H2]).
  - eapply (removed_trans [n] []); [set_solver | set_solver | exact H1 | by apply removed_rest].
Qed.

Definition numbered (records : list spool_record) (final_snapshot : option QmtEvent) (anchor : Z) : Prop :=
  Z.of_nat (length records) < 10 ^ 18 /\ well_keyed (JInt anchor) = true /\
  (forall e, final_snapshot = Some e -> exists raw, decode_transport_frame raw = Ok e).

Lemma sealed_writes day records s q sha now z a :
  Forall (fun r => recorded r /\ sr_raw r = content (sr_name r)) records -> numbered records s q ->
  0 <= now < 10 ^ 18 ->
  a !! EventsOf day = Some (ae_gzip (stream_of (sr_raw <$> records))) ->
  a !! ManifestOf day = Some (json_line (manifest_of day records s q sha now)) ->
  a !! CheckpointOf day = Some z -> is_committed day a /\ sealed day a.
Proof.
  intros Hr (Hn & Hq & Hs) Hnow He Hm Hc. split; [by eexists|]. exists records, s, q, sha, now.
  split_and!; [done | done | |].
  - apply manifest_well_keyed; auto. eapply Forall_impl; [exact Hr|]. by intros r [].
  - eapply Forall_impl; [exact Hr|]. by intros r [].
Qed.

Lemma pending_rest day w w1 w2 : w_rest w2 = w_rest w1 -> pending day w w1 -> pending day w w2.
Proof. unfold pending, files_of, archives_of. by intros ->. Qed.

Lemma pending_write day w w1 w2 f raw :
  of_day f = day -> f <> CheckpointOf day -> files_of w2 = files_of w1 ->
  archives_of w2 = <[f := raw]> (archives_of w1) -> pending day w w1 -> pending day w w2.
Proof.
  intros Hd Hf Hs Ha (Hu & Hs1 & Hc). split_and!; [|congruence|].
  - intros g Hg. rewrite Ha, lookup_insert_ne by (intros <-; congruence). by apply Hu.
  - by rewrite Ha, lookup_insert_ne.
Qed.

Lemma pending_bind {A B} day (m : M R A) (f : A -> M R B) P (Q : res B -> world R -> Prop) w w1 :
  pending day w w1 -> (forall e w2, pending day w w2 -> Q (Err e) w2) -> gives m P w1 ->
  (forall x w2, w_rest w2 = w_rest w1 -> pending day w w2 -> P x -> wp (f x) Q w2) -> wp (bindM m f) Q w1.
Proof.
  intros Hp He Hm Hf. eapply wp_gives_bind; [exact Hm | intros e w2 H2; eapply He, pending_rest; eauto|].
  intros x w2 H2 Hx. apply Hf; [done | by eapply pending_rest | done].
Qed.

(** Writing the checkpoint, and what follows. *)
Lemma checkpoint_outcome day records w w1 raw {A} (f : Z -> A) :
  pending day w w1 -> (forall a z, (forall g, g <> CheckpointOf day -> a !! g = archives_of w1 !! g) ->
    a !! CheckpointOf day = Some z -> is_committed day a /\ sealed day a) ->
  archives_of w1 !! EventsOf day = Some (ae_gzip (stream_of (sr_raw <$> records))) ->
  wp (do! write_archive (CheckpointOf day) raw ;;
      do! verify_committed_files day ;;
      deleted <- delete_sources (sr_name <$> records) ;;
      retM (f deleted)) (fun _ w' => pending day w w' \/ compacted day records w w') w1.
Proof.
  intros Hp Hc He. apply wp_bind. apply wp_write_archive; [intros; left; by eapply pending_rest|].
  intros w2 Hs2 Ha2. destruct Hp as (Hu & Hs1 & Hn).
  assert (Hg : forall g, g <> CheckpointOf day -> archives_of w2 !! g = archives_of w1 !! g).
  { intros g Hg. by rewrite Ha2, lookup_insert_ne. }
  destruct (Hc (archives_of w2) raw Hg) as [Hcm Hsl]; [by rewrite Ha2, lookup_insert_eq|].
  assert (H : forall w3, removed (sr_name <$> records) w2 w3 -> compacted day records w w3).
  { intros w3 (A3 & S3 & F3). unfold compacted. rewrite A3, <-Hs1, <-Hs2. split_and!; try done.
    - intros g Hd. rewrite (Hg g) by (intros ->; by apply Hd). by apply Hu.
    - by rewrite Hg. }
  eapply wp_gives_bind; [apply gives_quiet; auto with quiet | intros; right; by apply H, removed_rest|].
  intros _ w3 H3 _. apply wp_bind. eapply wp_mono; [apply delete_sources_removed|].
  intros r w4 H4. assert (H24 : removed (sr_name <$> records) w2 w4).
  { by eapply (removed_from (sr_name <$> records)). }
  destruct r; right; by apply H.
Qed.

(** Making one archive either leaves the day pending or commits it. *)
Lemma commit_day_outcome day records s q w :
  archives_of w !! CheckpointOf day = None ->
  Forall (fun r => recorded r /\ sr_raw r = content (sr_name r)) records -> numbered records s q ->
  wp (commit_day day records s q) (fun _ w' => pending day w w' \/ compacted day records w w') w.
Proof.
  intros Hn Hr Hnum. assert (H0 : pending day w w) by (unfold pending, untouched; auto).
  assert (HQ : forall e w2, pending day w w2 ->
    (fun (_ : res DailyArchiveResult) w' => pending day w w' \/ compacted day records w w') (Err e) w2) by (by left).
  unfold commit_day. apply wp_bind. apply wp_write_archive; [intros e w1 H1; left; by eapply pending_rest|].
  intros w1 Hs1 Ha1. assert (H1 : pending day w w1) by (by refine (pending_write _ _ _ _ _ _ _ _ Hs1 Ha1 _)).
  eapply pending_bind; [exact H1 | exact HQ | apply read_archive_gives|]. intros zipped w2 R2 H2 _.
  eapply pending_bind; [exact H2 | exact HQ | by apply time_gives|]. intros now w3 R3 H3 Hnow.
  assert (Ha3 : archives_of w3 = archives_of w1) by (unfold archives_of; by rewrite R3, R2).
  apply wp_bind. apply wp_write_archive; [intros e w4 R4; left; by eapply pending_rest|].
  intros w4 Hs4 Ha4. assert (H4 : pending day w w4) by (by refine (pending_write _ _ _ _ _ _ _ _ Hs4 Ha4 _)).
  eapply pending_bind; [exact H4 | exact HQ | apply gives_quiet; auto with quiet|]. intros _ w5 R5 H5 _.
  eapply pending_bind; [exact H5 | exact HQ | apply read_archive_gives|]. intros mraw w6 R6 H6 _.
  eapply pending_bind; [exact H6 | exact HQ | by apply time_gives|]. intros now' w7 R7 H7 _.
  assert (Ha7 : archives_of w7 = archives_of w4) by (unfold archives_of; by rewrite R7, R6, R5).
  assert (He : archives_of w7 !! EventsOf day = Some (ae_gzip (stream_of (sr_raw <$> records)))).
  { by rewrite Ha7, Ha4, lookup_insert_ne, Ha3, Ha1, lookup_insert_eq. }
  apply checkpoint_outcome; [done | | done].
  intros a z Hg Hz. eapply sealed_writes; [exact Hr | exact Hnum | exact Hnow | by rewrite Hg | | exact Hz].
  by rewrite Hg, Ha7, Ha4, lookup_insert_eq.
Qed.

(** A committed day, again. *)
Lemma read_json_gives f w :
  gives (read_json f) (fun d => exists raw, archives_of w !! f = Some raw /\
    res_bind (utf8_decode raw) loads = Ok (JObj d)) w.
Proof.
  unfold read_json. eapply gives_bind; [apply read_archive_gives|]. intros raw w1 H1 Hraw.
  eapply gives_bind; [apply gives_lift|]. intros body w2 H2 Hb.
  destruct body; try (by split). apply gives_ret. by exists raw.
Qed.

Lemma verify_committed_gives day w :
  gives (verify_committed_files day) (fun manifest => is_committed day (archives_of w) /\
    exists raw, archives_of w !! ManifestOf day = Some raw /\
    res_bind (utf8_decode raw) loads = Ok (JObj manifest)) w.
Proof.
  unfold verify_committed_files, archive_exists.
  do 2 (eapply gives_bind; [apply gives_quiet; auto with quiet|]; intros ? ? ? _).
  eapply (gives_bind _ _ (fun b => b = true -> is_committed day (archives_of w))).
  { split; [done|]. intros b [= <-] Hb%bool_decide_eq_true. unfold is_committed, archives_of in *. by rewrite <-H, <-H0. }
  intros c w3 R3 Hc. eapply (gives_bind _ _ (fun _ => is_committed day (archives_of w))).
  { destruct c; [eapply gives_mono; [apply gives_quiet; auto with quiet | auto]|].
    rewrite andb_false_r. by split. }
  intros _ w4 R4 Hcm. eapply gives_bind; [apply read_json_gives|]. intros manifest w5 R5 Hm.
  assert (R4' : w_rest w4 = w_rest w) by congruence. unfold archives_of in Hm. rewrite R4' in Hm.
  repeat (eapply gives_bind; [apply gives_quiet; auto with quiet|]; intros ? ? ? _).
  by apply gives_ret.
Qed.

(** Deleting what is left of a committed day keeps every file's bytes. *)
Lemma removed_kept records day w w' :
  archives_of w !! EventsOf day = Some (ae_gzip (stream_of (sr_raw <$> records))) ->
  is_committed day (archives_of w) -> Forall (fun r => sr_raw r = content (sr_name r)) records ->
  removed (sr_name <$> records) w w' -> archive_inv w -> archive_inv w' /\ kept w w'.
Proof.
  intros He Hc Hr (A & S & F) [Hs Hd]. split; split; rewrite ?A; auto; [by eapply spooled_subset|].
  intros n raw H. destruct (F n raw H) as [? | (r & -> & Hin)%list_elem_of_fmap]; [by left | right].
  rewrite (sp_content _ Hs _ _ H). rewrite Forall_forall in Hr. rewrite <-(Hr r Hin). by eapply stored_record.
Qed.

Lemma recover_outcome day w :
  archive_inv w -> wp (recover_committed_day day) (fun _ w' => archive_inv w' /\ kept w w') w.
Proof.
  intros Hi.
  assert (HQ : forall w1, w_rest w1 = w_rest w -> archive_inv w1 /\ kept w w1).
  { intros w1 R1. destruct Hi as [Hs Hd]. split; split; unfold files_of, archives_of in *; rewrite R1; auto. }
  unfold recover_committed_day.
  eapply wp_gives_bind; [apply verify_committed_gives | auto|]. intros manifest w1 R1 (Hc & raw & Hraw & Hm).
  destruct (ai_sealed _ Hi day Hc) as (records & s & q & sha & now & He & Hmr & Hk & Hr).
  rewrite Hmr in Hraw. injection Hraw as <-. rewrite read_json_line in Hm by done. injection Hm as <-.
  rewrite sources_of_manifest by done.
  eapply wp_gives_bind; [apply gives_lift | intros; apply HQ; congruence|]. intros names w2 R2 [= <-].
  eapply wp_gives_bind; [apply gives_quiet; auto with quiet | intros; apply HQ; congruence|]. intros processed w3 R3 _.
  eapply wp_gives_bind; [apply gives_quiet; auto with quiet | intros; apply HQ; congruence|]. intros n w4 R4 _.
  assert (R4' : w_rest w4 = w_rest w) by congruence.
  destruct (forallb _ processed); [|by apply HQ].
  assert (H : forall w5, removed (remove_dups (sr_name <$> records)) w4 w5 -> archive_inv w5 /\ kept w w5).
  { intros w5 H5. eapply removed_kept; [exact He | exact Hc | exact Hr | | exact Hi].
    eapply (removed_from (remove_dups (sr_name <$> records)));
      [exact R4' | intros x; by rewrite elem_of_remove_dups | exact H5]. }
  apply wp_bind. eapply wp_mono; [apply delete_sources_removed|]. intros [m|e] w5 H5; by apply H.
Qed.

(** ** Any run *)

Lemma last_snapshot_recorded records s t :
  Forall recorded records -> last_snapshot records = Some (s, t) -> exists raw, decode_transport_frame raw = Ok s.
Proof.
  intros Hr. revert t. induction Hr as [|r records Hr _ IH]; [done|]. cbn. intros t.
  destruct (last_snapshot records) as [[s' t']|]; [intros [= <- <-]; by eapply IH|].
  case_bool_decide; [|done]. intros [= <- _]. by exists (sr_raw r).
Qed.

Lemma found_snapshot_recorded records s :
  Forall recorded records ->
  (find_final_snapshot records).1 = Some s \/ fst <$> last_snapshot records = Some s ->
  exists raw, decode_transport_frame raw = Ok s.
Proof.
  intros Hr H. destruct (last_snapshot records) as [[s' t]|] eqn:E.
  - unfold find_final_snapshot in H. rewrite E in H.
    assert (s' = s) as <- by (destruct H as [H|H]; [repeat case_match; naive_solver | naive_solver]).
    by eapply last_snapshot_recorded.
  - unfold find_final_snapshot in H. rewrite E in H. by destruct H.
Qed.

Lemma json_names_size d fs : (length (json_names d fs) <= size fs)%nat.
Proof.
  unfold json_names, sort_names. rewrite (Permutation_length (merge_sort_Permutation _ _)), <-length_map_to_list.
  match goal with |- (length (omap ?f ?l) <= _)%nat => generalize l; generalize f end.
  intros f l. induction l as [|x l IH]; [done|]. cbn. destruct (f x); cbn; lia.
Qed.

Lemma records_of_day_gives day w :
  gives (records_of_day day) (fun l => Forall (record_in (files_of w)) l.1 /\
    (length l.1 <= size (files_of w))%nat) w.
Proof.
  unfold records_of_day, names_in.
  eapply (gives_bind _ _ (fun names => names = json_names Processed (files_of w))); [by split; [|intros x [= <-]]|].
  intros names w1 R1 ->. eapply gives_mono; [apply records_among_gives|].
  unfold files_of. rewrite R1. intros l [Hl Hn]. split; [done|]. etrans; [exact Hn | apply json_names_size].
Qed.

Lemma anchor_number records fs s (reason : option string) (req : bool) :
  Forall (record_in fs) records ->
  (forall e, s = Some e -> exists raw, decode_transport_frame raw = Ok e) ->
  let last_ms := fold_left Z.max ((fun r => qe_timestamp_ms (sr_event r)) <$> records)
                   (default 0 (qe_timestamp_ms ∘ sr_event <$> head records)) in
  well_keyed (JInt (match s, reason with
                    | Some e, None => if req then qe_timestamp_ms e else last_ms
                    | _, _ => last_ms
                    end)) = true.
Proof.
  intros Hr Hs last_ms.
  assert (Hrec : Forall recorded records) by (eapply Forall_impl; [exact Hr|]; by intros r []).
  assert (Hl : well_keyed (JInt last_ms) = true).
  { pose proof (fold_left_head (fun z => well_keyed (JInt z) = true) Z.max
      ((fun r => qe_timestamp_ms (sr_event r)) <$> records)) as H.
    unfold last_ms. replace (head _) with (qe_timestamp_ms ∘ sr_event <$> head records) in H by (by destruct records).
    apply H; [lia | done | by apply timestamps_numbers]. }
  destruct s as [e|], reason; try exact Hl. destruct req; [|exact Hl].
  destruct (Hs e eq_refl) as (raw & Hraw). apply (event_numbers _ _ Hraw).
Qed.

(** The day is made from its processed files, or nothing is done. *)
Lemma gathered_outcome day records snapshot (reasons : list string) anchor w w1 :
  archive_inv w -> w_rest w1 = w_rest w -> ~ is_committed day (archives_of w1) ->
  Forall (record_in (files_of w1)) records -> (length records <= size (files_of w1))%nat ->
  (forall e, snapshot = Some e -> exists raw, decode_transport_frame raw = Ok e) ->
  well_keyed (JInt anchor) = true ->
  wp (if bool_decide (reasons = []) then commit_day day records snapshot anchor
      else retM (unarchived "not_ready" day (Z.of_nat (length records)) reasons))
    (fun _ w' => archive_inv w' /\ kept w w') w1.
Proof.
  intros Hi R1 Hc Hr Hn Hs Ha.
  assert (Hi1 : archive_inv w1).
  { destruct Hi as [? ?]. by split; unfold files_of, archives_of in *; rewrite R1. }
  assert (K : forall w2, kept w1 w2 -> kept w w2).
  { intros w2 [K1 K2]. by split; unfold files_of, archives_of in *; rewrite <-R1. }
  case_bool_decide; [|by split; [|apply K]].
  assert (H0 : archives_of w1 !! CheckpointOf day = None).
  { destruct (_ !! _) eqn:E; [|done]. exfalso. apply Hc. by eexists. }
  pose proof (ai_spooled _ Hi1) as [Hcontent Hsize].
  eapply wp_mono; [apply (commit_day_outcome day records snapshot anchor); [done | |]|].
  - eapply Forall_impl; [exact Hr|]. intros r [Hf Hd]. split; [done | by apply Hcontent].
  - split; [lia | by split].
  - intros r w2 [H2|H2]; [destruct (pending_kept day w1 w2 H0 H2 Hi1) | destruct (compacted_kept day records w1 w2 H0 Hr H2 Hi1)];
      auto.
Qed.

(** Any run of [archive_day], whatever fails in it. *)
Lemma archive_day_outcome trading_day quiet_seconds now_ms req w :
  archive_inv w ->
  wp (archive_day trading_day quiet_seconds now_ms req) (fun _ w' => archive_inv w' /\ kept w w') w.
Proof.
  intros Hi.
  assert (HQ : forall w1, w_rest w1 = w_rest w -> archive_inv w1 /\ kept w w1).
  { intros w1 R1. destruct Hi as [Hs Hd]. split; split; unfold files_of, archives_of in *; rewrite R1; auto. }
  unfold archive_day. set (day := normalize_day trading_day).
  eapply wp_gives_bind; [apply gives_quiet; auto with quiet | auto|]. intros _ w1 R1 _.
  eapply wp_gives_bind; [apply gives_quiet; destruct now_ms; auto with quiet | intros; apply HQ; congruence|].
  intros now w2 R2 _. unfold archive_exists.
  eapply (wp_gives_bind _ _ (fun b => b = bool_decide (is_committed day (archives_of w2))));
    [by split; [|intros x [= <-]] | intros; apply HQ; congruence|].
  intros committed w3 R3 ->. assert (R3' : w_rest w3 = w_rest w) by congruence. case_bool_decide as Hc.
  { eapply wp_mono; [apply recover_outcome; by apply HQ|]. intros r w4 [H4 K4]. split; [done|].
    by etrans; [apply (HQ w3)|]. }
  eapply wp_gives_bind; [apply gives_quiet; auto with quiet | intros; apply HQ; congruence|]. intros inbox w4 R4 _.
  eapply wp_gives_bind; [apply gives_quiet; auto with quiet | intros; apply HQ; congruence|]. intros quarantine w5 R5 _.
  eapply wp_gives_bind; [apply records_of_day_gives | intros; apply HQ; congruence|]. intros [records corrupted] w6 R6 [Hr Hn].
  assert (R6' : w_rest w6 = w_rest w) by congruence.
  assert (Hp : sort_records records ≡ₚ records) by apply merge_sort_Permutation.
  cbn [fst snd] in *. rewrite <-Hp in Hr, Hn. revert Hr Hn. generalize (sort_records records). clear Hp records.
  intros records Hr Hn. unfold files_of in Hr, Hn. rewrite <-R6 in Hr, Hn.
  destruct (bool_decide (records = [])); [by apply HQ|].
  assert (Hrec : Forall recorded records) by (eapply Forall_impl; [exact Hr|]; by intros r []).
  set (before := _ ++ _ ++ _). clearbody before.
  set (found := if req then _ else _). pose proof (eq_refl : found = if req then _ else _) as Ef. clearbody found.
  destruct found as [s reason].
  assert (Hs : forall e, s = Some e -> exists raw, decode_transport_frame raw = Ok e).
  { intros e ->. apply (found_snapshot_recorded records); [done|]. destruct req; [left; by rewrite <-Ef | right; congruence]. }
  apply (gathered_outcome day records); [done | done | | done | done | exact Hs | by eapply anchor_number].
  unfold archives_of in *. by rewrite R6, R5, R4, R3.
Qed.

(** What happens to the spool: an archiver runs, with any arguments, and is cut short
    anywhere; or the other processes change it, and leave the processed files where they
    are. *)
Inductive archive_step w : world R -> Prop :=
  | step_archive trading_day quiet_seconds now_ms req :
      archive_step w (archive_day trading_day quiet_seconds now_ms req w).2
  | step_discover : archive_step w (discover_processed_days w).2
  | step_spool w' :
      archives_of w' = archives_of w -> spooled (files_of w') ->
      (forall n raw, files_of w !! (Processed, n) = Some raw -> files_of w' !! (Processed, n) = Some raw) ->
      archive_step w w'.

Lemma discover_quiet : quiet (R := R) discover_processed_days.
Proof.
  unfold discover_processed_days. apply quiet_bind; [auto with quiet|]. intros names.
  apply quiet_bind; [|auto with quiet].
  induction names as [|n names IH]; cbn; [auto with quiet|].
  apply quiet_bind; [auto with quiet|]. intros r. apply quiet_bind; [done|]. intros rest. repeat case_match; auto with quiet.
Qed.

Lemma archive_step_keeps w w' : archive_step w w' -> archive_inv w -> archive_inv w' /\ kept w w'.
Proof.
  intros Hstep Hi. destruct Hstep as [day q now req | |w' Ha Hs Hf].
  - by apply archive_day_outcome.
  - pose proof (discover_quiet w) as (_ & _ & Hr). destruct Hi as [Hs Hd].
    split; split; unfold files_of, archives_of in *; rewrite Hr; auto.
  - destruct Hi as [_ Hd]. split; split; rewrite ?Ha; auto.
Qed.

Lemma archive_steps_keep w w' : rtc archive_step w w' -> archive_inv w -> archive_inv w' /\ kept w w'.
Proof.
  induction 1 as [w|w1 w2 w3 H12 _ IH]; [done|]. intros Hi.
  destruct (archive_step_keeps _ _ H12 Hi) as [H2 K2]. destruct (IH H2) as [H3 K3]. split; [done | by etrans].
Qed.

(** C7. As long as a file name is only ever used for one content ([content], in every file
    of the spool and in all that arrives), compacting loses nothing. From archive
    directories that are empty, however often the archiver runs, for whatever days and
    whatever file operation fails in it or ends it, and whatever else arrives in the spool
    meanwhile: a file that is once among the processed files is there ever after, or its
    bytes are in the archive of a day with a checkpoint, and that archive reads back whole.
    (Of gzip it is assumed that what was compressed reads back, of the clock that it is
    past 1970 and that its seconds have at most eighteen digits. Without the assumption on
    names it would be false: the recovery of a committed day deletes by name.) *)
Theorem nothing_lost w0 w w' n raw :
  archives_of w0 = ∅ -> spooled (files_of w0) -> rtc archive_step w0 w -> rtc archive_step w w' ->
  files_of w !! (Processed, n) = Some raw ->
  files_of w' !! (Processed, n) = Some raw \/ stored raw (archives_of w').
Proof.
  intros Ha Hs H0 H Hraw.
  assert (Hi : archive_inv w0).
  { split; [done|]. intros day [x Hx]. by rewrite Ha, lookup_empty in Hx. }
  destruct (archive_steps_keep _ _ H0 Hi) as [H1 _]. destruct (archive_steps_keep _ _ H H1) as [_ [_ Hk]]. by apply Hk.
Qed.
End Keeping.

(** ** A concrete spool *)

Section Concrete.

(** gzip that only stores, and the lines of what was stored. *)
Fixpoint split_lines (l : list Z) : list (list Z) :=
  match l with
  | [] => []
  | x :: l =>
      if x =? 10 then [x] :: split_lines l
      else match split_lines l with [] => [[x]] | y :: lines => (x :: y) :: lines end
  end.

Lemma split_lines_concat l : concat (split_lines l) = l.
Proof.
  induction l as [|x l IH]; [done|]. cbn. case_match; cbn; [by rewrite IH|].
  destruct (split_lines l) as [|y lines]; cbn in *; by rewrite <-IH.
Qed.

#[local] Instance stored_env : ArchiveEnv :=
  {| ae_io := fun _ => None; ae_mtime_day := fun _ => None; ae_gzip := fun s => s;
     ae_gunzip := fun s => (split_lines s, None) |}.

Definition noon : datetime := {| dt_local := 1757649600000000; dt_off := Some 0 |}.
#[local] Instance noon_env : Env :=
  {| env_now := fun _ => noon; env_clock := fun _ => noon; env_uuid := fun _ => ""; env_begin := fun _ => None |}.

Definition demo_day : Z := 739417.
Definition demo_content (n : string) : list Z :=
  if bool_decide (n = "1750000000003_a.json"%string) then demo_frame (demo_order "qmt-1" 3)
  else demo_frame (demo_snapshot "qmt-1" 4 []).

Definition demo_processed : files := list_to_map
  [((Processed, "1750000000003_a.json"%string), demo_content "1750000000003_a.json");
   ((Processed, "1750000000004_b.json"%string), demo_content "1750000000004_b.json")].

Definition demo_archiver : world (files * archives) := W empty_db false 0 (demo_processed, ∅).
Definition demo_archived : res DailyArchiveResult * world (files * archives) :=
  archive_day demo_day 300 None true demo_archiver.
Definition demo_again : res DailyArchiveResult * world (files * archives) :=
  archive_day demo_day 300 None true demo_archived.2.

(** Two events of a day: archived, deleted, and all there. *)
Example demo_day_archived :
  (r <- demo_archived.1 ;; Ok (da_status r, da_trading_day r, da_event_count r, da_deleted_files r))%py
    = Ok ("archived", "2025-06-15", 2, 2)%string /\
  map_to_list (files_of demo_archived.2) = [] /\
  (r <- demo_again.1 ;; Ok (da_status r, da_event_count r, da_deleted_files r))%py
    = Ok ("already_archived", 2, 0)%string.
Proof. vm_compute. repeat split. Qed.

Lemma demo_spooled : spooled demo_content demo_processed.
Proof.
  split; [|reflexivity]. intros n raw H. unfold demo_processed in H. cbn [list_to_map foldr] in H.
  apply lookup_insert_Some in H as [[[= <-] <-]|[Hn H]]; [reflexivity|].
  apply lookup_insert_Some in H as [[[= <-] <-]|[_ H]]; [reflexivity|]. by rewrite lookup_empty in H.
Qed.

Lemma demo_gunzip s : (ae_gunzip (ae_gzip s)).2 = None /\ concat (ae_gunzip (ae_gzip s)).1 = s.
Proof. split; [done | apply split_lines_concat]. Qed.

Lemma demo_clock t : 0 <= instant (env_now t) / 1000 < 10 ^ 18.
Proof. split; [discriminate | reflexivity]. Qed.

Lemma nothing_lost_witness :
  files_of demo_archived.2 !! (Processed, "1750000000003_a.json"%string) = None /\
  stored (demo_content "1750000000003_a.json") (archives_of demo_archived.2).
Proof.
  assert (Hn : files_of demo_archived.2 !! (Processed, "1750000000003_a.json"%string) = None)
    by (vm_compute; reflexivity).
  split; [exact Hn|].
  destruct (nothing_lost demo_content demo_gunzip demo_clock demo_archiver demo_archiver demo_archived.2
    "1750000000003_a.json" (demo_content "1750000000003_a.json")) as [H|H].
  - reflexivity.
  - exact demo_spooled.
  - apply rtc_refl.
  - apply rtc_once. exact (step_archive demo_content demo_archiver demo_day 300 None true).
  - vm_compute. reflexivity.
  - rewrite Hn in H. discriminate H.
  - exact H.
Defined.

(** A frame that ends in two newlines is accepted, and its day can never be archived: the
    empty line is no frame. *)
Definition blank_line : list Z := demo_content "1750000000004_b.json" ++ [10].
Definition blank_archiver : world (files * archives) :=
  W empty_db false 0 ({[ (Processed, "1750000000004_b.json"%string) := blank_line ]}, ∅).

Example blank_line_blocks :
  (e <- decode_transport_frame blank_line ;; Ok (qe_sequence e))%py = Ok 4 /\
  match (archive_day demo_day 300 None true blank_archiver).1 with
  | Err e => exn_cls e = ArchiveIntegrityError
  | Ok _ => False
  end.
Proof. vm_compute. repeat split. Qed.

(** An event of a year after 9999 is accepted, and ends the archiver whatever the day. *)
Definition far_event : QmtEvent :=
  {| qe_protocol_version := "0.2"; qe_session_id := "qmt-1"; qe_sequence := 1;
     qe_timestamp_ms := 999999999999999; qe_event_type := "order"; qe_source := "qmt";
     qe_account_fingerprint := demo_account; qe_account_type := Some "STOCK"%string;
     qe_payload := qe_payload (demo_order "qmt-1" 1); qe_terminal_instance_id := None |}.
Definition far_archiver : world (files * archives) :=
  W empty_db false 0 (<[(Processed, "far.json"%string) := demo_frame far_event]> demo_processed, ∅).

Example far_event_blocks :
  decode_transport_frame (demo_frame far_event) = Ok far_event /\
  match (archive_day demo_day 300 None true far_archiver).1 with
  | Err e => exn_cls e = ValueError
  | Ok _ => False
  end.
Proof. vm_compute. repeat split. Qed.
End Concrete.
