(* ===== verification/Instances.v ===== *)
(** * Instances: which terminals the Host talks to

    qmt/instances.py: a directory of the spool base is a terminal's instance when its
    manifest, and the newest [bridge_ready] event of its spool and of its committed
    archives, say so; an instance that may trade is only taken by who asks for it. *)

From stdpp Require Import gmap sorting.
From S2P Require Import Prelude PyTime Json Parse Domain Db OrderStore BrokerEvidence Parts Wire Frame Stream Spool Commands GuojinEvidence SimOms PyFloat Bridge Archive.
Open Scope Z_scope.
Open Scope py_scope.

(** ** Directories *)

(** A file: a link, or not; its bytes, if they can be read. *)
Record entry := { en_link : bool; en_raw : option (list Z) }.
Record directory := { dr_link : bool; dr_files : gmap string entry }.

(** The directory of one terminal; a child that is no directory is [None]. *)
Record instance_root := {
  rt_link : bool; rt_manifest : option (list Z); rt_inbox : option directory;
  rt_processed : option directory; rt_archive : option directory; rt_checkpoints : option directory
}.
Record spool_base := { sb_link : bool; sb_children : gmap string (option instance_root) }.

Definition INSTANCE_MANIFEST_VERSION : string := "1".
Definition MAX_INSTANCE_MANIFEST_BYTES : Z := 16384.
Definition MAX_ARCHIVE_MANIFEST_BYTES : Z := 16777216.
Definition QmtInstanceError : exn_class := OtherException "QmtInstanceError".

Definition distrust {A} (msg : string) : res A := raise QmtInstanceError msg.
Definition trusted (b : bool) (msg : string) : res unit := guard_r b QmtInstanceError msg.

(** The files of a directory that a [glob("*.json")] finds; in the order of their names. *)
Definition globbed (d : directory) : list string :=
  List.filter (endswith ".json") (sort_names (map_to_list (dr_files d)).*1).

Definition file_raw (d : directory) (name : string) : option (list Z) := dr_files d !! name ≫= en_raw.

(** [_is_link_or_reparse] of a file of a directory. *)
Definition is_link (d : directory) (name : string) : res bool :=
  match dr_files d !! name with
  | Some e => Ok (en_link e)
  | None => distrust "instance directory is not readable"
  end.

(** [directory.is_dir() and not _is_link_or_reparse(directory)]. *)
Definition plain_dir (d : option directory) : option directory :=
  match d with Some d => if dr_link d then None else Some d | None => None end.

(** ** JSON files *)

(** [_read_bounded_json]. *)
Definition read_bounded_json (raw : option (list Z)) (limit : Z) (label : string) : res jdict :=
  match raw with
  | None => distrust (label +:+ " is not readable")
  | Some raw =>
      do! trusted (negb (bool_decide (raw = [])) && (frame_size raw <=? limit)) ("invalid " +:+ label +:+ " size") ;;
      value <- match res_bind (utf8_decode raw) loads with
               | Err e => if is_json_error e then distrust ("invalid " +:+ label +:+ " JSON") else Err e
               | Ok v => Ok v
               end ;;
      match value with JObj d => Ok d | _ => distrust (label +:+ " must be an object") end
  end.

(** [_read_manifest]. *)
Definition read_manifest (raw : option (list Z)) : res jdict :=
  read_bounded_json raw MAX_INSTANCE_MANIFEST_BYTES "instance manifest".

(** [_sha256_path]. *)
Definition sha256_path (raw : option (list Z)) : res string :=
  match raw with
  | Some raw => Ok (Sha256.hexdigest raw)
  | None => distrust "committed archive is not readable"
  end.

(** [Path(name).name == name]: a drive or a separator of Windows has another name. *)
Definition plain_name (name : string) : bool :=
  all_chars (fun a => negb (is_char 47 a || is_char 92 a || is_char 58 a)) name && negb (bool_decide (name = "."%string)).

(** [Path(name).stem]: before the last dot, unless it is the first or the last character. *)
Fixpoint last_dot (s : string) (i : nat) (found : option nat) : option nat :=
  match s with
  | EmptyString => found
  | String a s => last_dot s (S i) (if is_char 46 a then Some i else found)
  end.

Definition path_stem (name : string) : string :=
  match last_dot name 0 None with
  | Some i => if (0 <? i)%nat && (i <? String.length name - 1)%nat then String.substring 0 i name else name
  | None => name
  end.

Definition removesuffix (suffix s : string) : string :=
  if endswith suffix s then String.substring 0 (String.length s - String.length suffix) s else s.

(** [a.get(key) != b]. *)
Definition is_value (v : json) (key : string) (d : jdict) : bool := py_eq (jget key d) v.

Section Archives.
Context {aenv : ArchiveEnv}.

(** [_read_committed_archive_metadata]: the archive's name and the manifest. *)
Definition read_committed_archive_metadata (archive_dir checkpoint_dir : directory) (checkpoint_name : string)
    : res (string * jdict) :=
  linked <- is_link checkpoint_dir checkpoint_name ;;
  do! trusted (negb linked) "archive checkpoint must not be a link" ;;
  checkpoint <- read_bounded_json (file_raw checkpoint_dir checkpoint_name) MAX_INSTANCE_MANIFEST_BYTES
                  "archive checkpoint" ;;
  do! trusted (is_str "COMMITTED" (jget "status" checkpoint)) "archive checkpoint is not committed" ;;
  match jget "manifest_filename" checkpoint, jget "archive_filename" checkpoint with
  | JStr manifest_name, JStr archive_name =>
      do! trusted (plain_name manifest_name && plain_name archive_name) "archive checkpoint filename is invalid" ;;
      m <- is_link archive_dir manifest_name ;;
      a <- (if (m : bool) then Ok false else is_link archive_dir archive_name) ;;
      do! trusted (negb m && negb a) "committed archive files must not be links" ;;
      manifest_sha <- sha256_path (file_raw archive_dir manifest_name) ;;
      do! trusted (is_str manifest_sha (jget "manifest_sha256" checkpoint)) "archive manifest hash mismatch" ;;
      manifest <- read_bounded_json (file_raw archive_dir manifest_name) MAX_ARCHIVE_MANIFEST_BYTES
                    "archive manifest" ;;
      do! trusted (is_str ARCHIVE_FORMAT_VERSION (jget "archive_format_version" manifest) &&
                   is_str archive_name (jget "archive_filename" manifest) &&
                   bool_decide (removesuffix "_manifest" (path_stem manifest_name) = path_stem checkpoint_name) &&
                   is_value (jget "trading_day" checkpoint) "trading_day" manifest &&
                   is_value (jget "event_count" checkpoint) "event_count" manifest)
            "archive manifest/checkpoint mismatch" ;;
      match jget "archive_sha256" checkpoint with
      | JStr expected =>
          do! trusted (is_str expected (jget "archive_sha256" manifest)) "archive hash mismatch" ;;
          archive_sha <- sha256_path (file_raw archive_dir archive_name) ;;
          do! trusted (bool_decide (archive_sha = expected)) "archive hash mismatch" ;;
          Ok (archive_name, manifest)
      | _ => distrust "archive hash mismatch"
      end
  | _, _ => distrust "archive checkpoint filename is invalid"
  end.

(** [fingerprints == {value}]; a list or an object is unhashable. *)
Definition one_account (decoded : list QmtEvent) (value : json) : res bool :=
  match value with
  | JArr _ | JObj _ => raise TypeError "unhashable type"
  | JStr f => Ok (negb (bool_decide (decoded = [])) &&
                  forallb (fun e => bool_decide (qe_account_fingerprint e = f)) decoded)
  | _ => Ok false
  end.

(** The lines of an archive, and what they decode to. *)
Definition read_lines (raw : option (list Z)) : res (list (list Z) * list QmtEvent) :=
  let failed := distrust "archive payload is invalid" in
  match raw with
  | None => failed
  | Some raw =>
      let '(lines, failure) := ae_gunzip raw in
      match decode_lines lines with
      | Err e => if catchable e then failed else Err e
      | Ok decoded =>
          match failure with
          | Some e => if catchable e then failed else Err e
          | None => Ok (lines, decoded)
          end
      end
  end.

(** [_read_archive_bridge_ready]. *)
Definition read_archive_bridge_ready (raw : option (list Z)) (manifest : jdict) : res (list QmtEvent) :=
  payload <- read_lines raw ;;
  let '(lines, decoded) := payload in
  do! trusted (match jget "event_count" manifest with
               | JInt n => Z.of_nat (length decoded) =? n
               | _ => false
               end) "archive event count mismatch" ;;
  do! trusted (is_str (stream_digest lines) (jget "event_stream_sha256" manifest))
        "archive event stream hash mismatch" ;;
  match jget "trading_day" manifest with
  | JStr trading_day =>
      other <- other_day trading_day decoded ;;
      do! trusted (negb other) "archive contains a different trading day" ;;
      same <- one_account decoded (jget "account_fingerprint" manifest) ;;
      do! trusted same "archive account fingerprint mismatch" ;;
      Ok (List.filter (fun e => bool_decide (qe_event_type e = "bridge_ready"%string)) decoded)
  | _ => distrust "archive trading day is invalid"
  end.

(** ** The newest [bridge_ready] *)

(** The events of the files of a directory: [except Exception: continue]. *)
Fixpoint ready_among (d : directory) (names : list string) : res (list QmtEvent) :=
  match names with
  | [] => Ok []
  | name :: names =>
      let rest := ready_among d names in
      match file_raw d name with
      | None => rest
      | Some raw =>
          match decode_transport_frame raw with
          | Ok e => if bool_decide (qe_event_type e = "bridge_ready"%string)
                    then (l <- rest ;; Ok (e :: l)) else rest
          | Err x => if catchable x then rest else Err x
          end
      end
  end.

Definition spool_ready (d : option directory) : res (list QmtEvent) :=
  match plain_dir d with Some d => ready_among d (globbed d) | None => Ok [] end.

(** [max] by the timestamp, the sequence and the session; the first of equals. *)
Definition newer (a b : QmtEvent) : bool :=
  if qe_timestamp_ms a =? qe_timestamp_ms b then
    if qe_sequence a =? qe_sequence b then String.ltb (qe_session_id b) (qe_session_id a)
    else qe_sequence b <? qe_sequence a
  else qe_timestamp_ms b <? qe_timestamp_ms a.

Definition newest_of (e : QmtEvent) (l : list QmtEvent) : QmtEvent :=
  fold_left (fun best x => if newer x best then x else best) l e.

Definition best_timestamp (best : Z) (l : list QmtEvent) : Z :=
  fold_left Z.max (qe_timestamp_ms <$> l) best.

(** The manifests of the committed days. *)
Fixpoint committed_manifests (archive_dir checkpoint_dir : directory) (names : list string)
    : res (list (Z * (string * jdict))) :=
  match names with
  | [] => Ok []
  | name :: names =>
      found <- read_committed_archive_metadata archive_dir checkpoint_dir name ;;
      match jget "last_timestamp_ms" found.2 with
      | JInt last_timestamp_ms =>
          rest <- committed_manifests archive_dir checkpoint_dir names ;;
          Ok ((last_timestamp_ms, found) :: rest)
      | _ => distrust "archive manifest timestamp is invalid"
      end
  end.

(** The archives from the newest on, while one may hold a newer event. *)
Fixpoint archived_ready (archive_dir : directory) (best : Z) (ready : list QmtEvent)
    (manifests : list (Z * (string * jdict))) : res (list QmtEvent) :=
  match manifests with
  | [] => Ok ready
  | (last_timestamp_ms, (archive_name, manifest)) :: manifests =>
      if last_timestamp_ms <? best then Ok ready
      else
        archived <- read_archive_bridge_ready (file_raw archive_dir archive_name) manifest ;;
        archived_ready archive_dir (best_timestamp best archived) (ready ++ archived) manifests
  end.

Definition newest_first (l : list (Z * (string * jdict))) : list (Z * (string * jdict)) :=
  merge_sort (fun a b => Is_true (b.1 <=? a.1)) l.

(** [_latest_bridge_ready]. *)
Definition latest_bridge_ready (root : instance_root) : res QmtEvent :=
  inbox <- spool_ready (rt_inbox root) ;;
  processed <- spool_ready (rt_processed root) ;;
  let ready := inbox ++ processed in
  ready <- match plain_dir (rt_archive root), plain_dir (rt_checkpoints root) with
           | Some archive_dir, Some checkpoint_dir =>
               manifests <- committed_manifests archive_dir checkpoint_dir (globbed checkpoint_dir) ;;
               archived_ready archive_dir (best_timestamp (-1) ready) ready (newest_first manifests)
           | _, _ => Ok ready
           end ;;
  match ready with
  | [] => distrust "bridge_ready event not found"
  | e :: ready => Ok (newest_of e ready)
  end.

(** ** Loading *)

(** [for key, expected in required.items()]. *)
Definition requires (what : string) (required : list (string * json)) (d : jdict) : res unit :=
  res_iter (fun p => trusted (is_value p.2 p.1 d) (what +:+ ": " +:+ p.1)) required.

(** What the execution mode demands of the manifest and of the capabilities. *)
Definition safety_required (execution_mode : json) (allow_simulation_mutation allow_live_canary : bool)
    : res (list (string * json)) :=
  if is_str "SHADOW" execution_mode then
    Ok [("trading_enabled", JBool false); ("live_submit", JBool false); ("live_cancel", JBool false)]%string
  else if is_str "SIMULATION_CALIBRATION" execution_mode && allow_simulation_mutation then
    Ok [("trading_enabled", JBool true); ("live_submit", JBool true); ("live_cancel", JBool true);
        ("simulation_only", JBool true); ("max_order_quantity", JInt 100);
        ("max_submit_calls_per_session", JInt 2000); ("max_cancel_calls_per_session", JInt 2000)]%string
  else if is_str "LIVE_CANARY" execution_mode && allow_live_canary then
    Ok [("trading_enabled", JBool true); ("live_submit", JBool true); ("live_cancel", JBool true);
        ("simulation_only", JBool false); ("max_order_quantity", JInt 100);
        ("max_submit_calls_per_session", JInt 1); ("max_cancel_calls_per_session", JInt 1)]%string
  else distrust "instance execution mode is not authorized".

Definition mutates (execution_mode : json) : bool :=
  is_str "SIMULATION_CALIBRATION" execution_mode || is_str "LIVE_CANARY" execution_mode.

(** The identity fields of a manifest. *)
Definition instance_of (instance_id : string) (manifest : jdict) : res QmtInstance :=
  let text_field (key : string) (check : string -> bool) : res string :=
    match jget key manifest with
    | JStr s => if check s then Ok s else distrust ("invalid instance " +:+ key)
    | _ => distrust ("invalid instance " +:+ key)
    end in
  session_id <- text_field "session_id"%string str_nonempty ;;
  fingerprint <- text_field "account_fingerprint"%string is_sha256 ;;
  account_type <- text_field "account_type"%string str_nonempty ;;
  bridge_build <- text_field "bridge_build"%string str_nonempty ;;
  created_ms <- match jget "created_ms" manifest with
                | JInt z => if 0 <? z then Ok z else distrust "invalid instance created_ms"
                | _ => distrust "invalid instance created_ms"
                end ;;
  let execution_mode := jget "execution_mode" manifest in
  do! trusted (negb (mutates execution_mode) ||
               is_value (JStr fingerprint) "authorized_account_fingerprint" manifest)
        "mutation instance account fingerprint is not pinned" ;;
  Ok {| qn_instance_id := instance_id; qn_session_id := session_id; qn_account_fingerprint := fingerprint;
        qn_account_type := account_type; qn_bridge_build := bridge_build; qn_created_ms := created_ms;
        qn_execution_mode := text execution_mode;
        qn_trading_enabled := truthy (jget "trading_enabled" manifest);
        qn_live_submit := truthy (jget "live_submit" manifest);
        qn_live_cancel := truthy (jget "live_cancel" manifest);
        qn_simulation_only := is_true (jget "simulation_only" manifest) |}.

(** What the newest [bridge_ready] must say of the instance. *)
Definition ready_matches (i : QmtInstance) (safety : list (string * json)) (ready : QmtEvent) : res unit :=
  do! trusted (bool_decide (qe_session_id ready = qn_session_id i)) "latest bridge_ready session mismatch" ;;
  do! trusted (bool_decide (qe_terminal_instance_id ready = Some (qn_instance_id i)))
        "bridge_ready instance mismatch" ;;
  do! trusted (bool_decide (qe_account_fingerprint ready = qn_account_fingerprint i) &&
               bool_decide (qe_account_type ready = Some (qn_account_type i)))
        "bridge_ready account mismatch" ;;
  match jget "capabilities" (qe_payload ready) with
  | JObj capabilities =>
      requires "bridge_ready capability mismatch"
        ([("bridge_build", JStr (qn_bridge_build i)); ("execution_mode", JStr (qn_execution_mode i))]%string ++
         safety ++ [("spool_instance_id", JStr (qn_instance_id i))]%string ++
         if mutates (JStr (qn_execution_mode i))
         then [("authorized_account_fingerprint", JStr (qn_account_fingerprint i))]%string else [])
        capabilities
  | _ => distrust "bridge_ready capabilities missing"
  end.

(** [load_instance]. *)
Definition load_instance (base : spool_base) (instance_id : string)
    (allow_simulation_mutation allow_live_canary : bool) : res QmtInstance :=
  do! trusted (is_instance_id instance_id) "invalid instance_id" ;;
  match sb_children base !! instance_id with
  | Some (Some root) =>
      do! trusted (negb (rt_link root)) "invalid instance directory" ;;
      manifest <- read_manifest (rt_manifest root) ;;
      do! requires "instance manifest mismatch"
            [("manifest_version", JStr INSTANCE_MANIFEST_VERSION); ("terminal_instance_id", JStr instance_id);
             ("protocol_version", JStr Wire.BRIDGE_PROTOCOL_VERSION);
             ("transport_version", JStr Frame.TRANSPORT_VERSION)]%string manifest ;;
      safety <- safety_required (jget "execution_mode" manifest) allow_simulation_mutation allow_live_canary ;;
      do! requires "instance manifest mismatch" safety manifest ;;
      i <- instance_of instance_id manifest ;;
      ready <- latest_bridge_ready root ;;
      do! ready_matches i safety ready ;;
      Ok i
  | _ => distrust "invalid instance directory"
  end.

(** The loop of [discover_instances]. *)
Fixpoint load_each (base : spool_base) (names : list string) (allow_simulation_mutation allow_live_canary : bool)
    : res (list QmtInstance) :=
  match names with
  | [] => Ok []
  | name :: names =>
      let rest := load_each base names allow_simulation_mutation allow_live_canary in
      match sb_children base !! name with
      | Some (Some _) =>
          if is_instance_id name then
            match load_instance base name allow_simulation_mutation allow_live_canary with
            | Ok i => (l <- rest ;; Ok (i :: l))
            | Err e => if bool_decide (exn_cls e = QmtInstanceError) then rest else Err e
            end
          else rest
      | _ => rest
      end
  end.

(** [discover_instances]; no base directory is [None]. *)
Definition discover_instances (base : option spool_base) (allow_simulation_mutation allow_live_canary : bool)
    : res (list QmtInstance) :=
  match base with
  | Some base =>
      if sb_link base then Ok []
      else load_each base (sort_names (map_to_list (sb_children base)).*1) allow_simulation_mutation allow_live_canary
  | None => Ok []
  end.
End Archives.
