(* ===== verification/InstanceFacts.v ===== *)
(** * InstanceFacts: what the Host may rely on in an instance it loaded

    No code of its own.  The [bridge_ready] event an instance is judged by is the newest
    of its spool and of its committed archives ([latest_is_newest]); an instance that may
    trade is one that was asked for, pinned to its account and within the limits of its
    mode ([loaded_authorised]); and the manifest the bridge writes is taken for what it
    says ([artifact_loads]). *)

From stdpp Require Import gmap sorting strings.
From S2P Require Import Prelude PyTime Json Parse Domain Db OrderStore BrokerEvidence Parts Wire Frame Stream Spool Commands GuojinEvidence SimOms PyFloat Bridge BridgeHistory Archive ArchiveFacts Instances.
Open Scope Z_scope.
Open Scope py_scope.

(** ** The order of the events *)

(** By the timestamp, the sequence and the session. *)
Definition at_most (a b : QmtEvent) : Prop :=
  qe_timestamp_ms a < qe_timestamp_ms b \/
  qe_timestamp_ms a = qe_timestamp_ms b /\
    (qe_sequence a < qe_sequence b \/
     qe_sequence a = qe_sequence b /\ String.le (qe_session_id a) (qe_session_id b)).

Lemma ltb_false_le a b : String.ltb b a = false <-> String.le a b.
Proof.
  unfold String.le, String.ltb, String.leb. rewrite (String.compare_antisym a b).
  by destruct (String.compare b a).
Qed.

Lemma newer_false a b : newer a b = false <-> at_most a b.
Proof.
  unfold newer, at_most. destruct (Z.eqb_spec (qe_timestamp_ms a) (qe_timestamp_ms b)) as [E|E].
  - destruct (Z.eqb_spec (qe_sequence a) (qe_sequence b)) as [F|F].
    + rewrite ltb_false_le. split; [tauto | intros [?|[_ [?|[_ ?]]]]; [lia | lia | done]].
    + rewrite Z.ltb_ge. split; [lia | intros [?|[_ [?|[? _]]]]; lia].
  - rewrite Z.ltb_ge. split; [lia | intros [?|[? _]]; lia].
Qed.

#[global] Instance at_most_preorder : PreOrder at_most.
Proof.
  split; [intros a; right; split; [done|]; right; split; [done|]; reflexivity|].
  unfold at_most. intros a b c [?|[? [?|[? ?]]]] [?|[? [?|[? ?]]]]; try (left; lia);
    right; (split; [lia|]); try (left; lia).
  right. split; [lia | by etransitivity].
Qed.

Lemma at_most_total a b : at_most a b \/ at_most b a.
Proof.
  unfold at_most. destruct (Z.lt_trichotomy (qe_timestamp_ms a) (qe_timestamp_ms b)) as [?|[?|?]]; [tauto| |tauto].
  destruct (Z.lt_trichotomy (qe_sequence a) (qe_sequence b)) as [?|[?|?]]; [tauto| |naive_solver].
  destruct (base.total String.le (qe_session_id a) (qe_session_id b)); naive_solver.
Qed.

(** The newest of some events is one of them. *)
Lemma newest_of_spec e l : newest_of e l ∈ e :: l /\ forall x, x ∈ e :: l -> at_most x (newest_of e l).
Proof.
  revert e. induction l as [|y l IH]; intros e; unfold newest_of; cbn [fold_left].
  { split; [by left|]. intros x [-> | H%not_elem_of_nil]%elem_of_cons; [reflexivity | done]. }
  destruct (newer y e) eqn:E.
  - destruct (IH y) as [Hin Hmax]. split; [set_solver|].
    intros x [-> | H]%elem_of_cons; [|by apply Hmax].
    transitivity y; [|apply Hmax; by left]. destruct (at_most_total e y) as [?|H%newer_false]; [done | congruence].
  - apply newer_false in E. destruct (IH e) as [Hin Hmax]. split; [set_solver|].
    intros x [-> | [-> | H]%elem_of_cons]%elem_of_cons; [apply Hmax; by left | | apply Hmax; by right].
    transitivity e; [done | apply Hmax; by left].
Qed.

Lemma best_timestamp_spec best l :
  best <= best_timestamp best l /\ (forall x, x ∈ l -> qe_timestamp_ms x <= best_timestamp best l) /\
  (best_timestamp best l = best \/ exists x, x ∈ l /\ best_timestamp best l = qe_timestamp_ms x).
Proof.
  unfold best_timestamp. revert best. induction l as [|y l IH]; intros best; cbn.
  { split_and!; [lia | by intros x H%not_elem_of_nil | by left]. }
  destruct (IH (Z.max best (qe_timestamp_ms y))) as (H1 & H2 & H3). split_and!; [lia| |].
  - intros x [-> | H]%elem_of_cons; [lia | by apply H2].
  - destruct H3 as [H3 | (x & Hx & ->)]; [|right; exists x; set_solver].
    fold (list_fmap _ _ qe_timestamp_ms l) in *. rewrite H3.
    destruct (Z.max_spec best (qe_timestamp_ms y)) as [[? ->]|[? ->]]; [right; exists y; set_solver | by left].
Qed.

(** ** The event an instance is judged by *)

Section Newest.
Context {aenv : ArchiveEnv}.

Definition is_ready (e : QmtEvent) : Prop := qe_event_type e = "bridge_ready"%string.

(** A [bridge_ready] event of a file of the spool, or of a committed archive, with the
    last timestamp that the manifest of the archive claims. *)
Inductive ready_in (root : instance_root) : option Z -> QmtEvent -> Prop :=
  | ready_spool d dir name raw e :
      d ∈ [rt_inbox root; rt_processed root] -> plain_dir d = Some dir -> name ∈ globbed dir ->
      file_raw dir name = Some raw -> decode_transport_frame raw = Ok e -> is_ready e -> ready_in root None e
  | ready_archived archive_dir checkpoint_dir name archive_name manifest last_timestamp_ms l e :
      plain_dir (rt_archive root) = Some archive_dir ->
      plain_dir (rt_checkpoints root) = Some checkpoint_dir -> name ∈ globbed checkpoint_dir ->
      read_committed_archive_metadata archive_dir checkpoint_dir name = Ok (archive_name, manifest) ->
      jget "last_timestamp_ms" manifest = JInt last_timestamp_ms ->
      read_archive_bridge_ready (file_raw archive_dir archive_name) manifest = Ok l ->
      e ∈ l -> ready_in root (Some last_timestamp_ms) e.

Lemma ready_among_spec dir names l :
  ready_among dir names = Ok l ->
  forall e, e ∈ l <-> exists name raw, name ∈ names /\ file_raw dir name = Some raw /\
                        decode_transport_frame raw = Ok e /\ is_ready e.
Proof.
  revert l. induction names as [|n names IH]; intros l; cbn [ready_among].
  { intros [= <-] e. split; [by intros ?%not_elem_of_nil | by intros (? & ? & ?%not_elem_of_nil & _)]. }
  assert (Hskip : forall l, ready_among dir names = Ok l ->
    (forall raw e, file_raw dir n = Some raw -> decode_transport_frame raw = Ok e -> ~ is_ready e) ->
    forall e, e ∈ l <-> exists name raw, name ∈ n :: names /\ file_raw dir name = Some raw /\
      decode_transport_frame raw = Ok e /\ is_ready e).
  { intros l' Hl Hn e. rewrite (IH _ Hl e). split; [set_solver|].
    intros (name & raw & [-> | Hin]%elem_of_cons & Hf & Hd & He); [by destruct (Hn raw e) | by exists name, raw]. }
  destruct (file_raw dir n) as [raw|] eqn:Ef; [|intros H; apply Hskip; naive_solver].
  destruct (decode_transport_frame raw) as [e|x] eqn:Ed.
  - case_bool_decide as Ht; [|intros H; apply Hskip; [done | intros ? ? [= <-]; rewrite Ed; by intros [= <-]]].
    intros (l' & Hl & [= <-])%res_bind_ok e'. rewrite elem_of_cons, (IH _ Hl e'). split.
    + intros [-> | (name & raw' & ? & ?)]; [exists n, raw; set_solver | exists name, raw'; set_solver].
    + intros (name & raw' & [-> | Hin]%elem_of_cons & Hf & Hd & He); [left; congruence | right; by exists name, raw'].
  - destruct (catchable x); [|done]. intros H. apply Hskip; [done|]. intros ? ? [= <-]. by rewrite Ed.
Qed.

Lemma spool_ready_spec d l :
  spool_ready d = Ok l ->
  forall e, e ∈ l <-> exists dir name raw, plain_dir d = Some dir /\ name ∈ globbed dir /\
                        file_raw dir name = Some raw /\ decode_transport_frame raw = Ok e /\ is_ready e.
Proof.
  unfold spool_ready. destruct (plain_dir d) as [dir|]; [|intros [= <-] e; set_solver].
  intros H e. rewrite (ready_among_spec _ _ _ H e). naive_solver.
Qed.

Lemma committed_manifests_spec archive_dir checkpoint_dir names l :
  committed_manifests archive_dir checkpoint_dir names = Ok l ->
  forall ts found, (ts, found) ∈ l <-> exists name, name ∈ names /\
    read_committed_archive_metadata archive_dir checkpoint_dir name = Ok found /\
    jget "last_timestamp_ms" found.2 = JInt ts.
Proof.
  revert l. induction names as [|n names IH]; intros l; cbn [committed_manifests]; [intros [= <-]; set_solver|].
  intros (found & Hf & H)%res_bind_ok. destruct (jget "last_timestamp_ms" found.2) as [| |ts| | | |] eqn:E; try done.
  apply res_bind_ok in H as (rest & Hrest & [= <-]). intros ts' found'.
  rewrite elem_of_cons, (IH _ Hrest). split.
  - intros [[= -> ->] | (name & ? & ?)]; [by exists n; set_solver | exists name; set_solver].
  - intros (name & [-> | Hin]%elem_of_cons & Hm & Ht); [left; congruence | right; by exists name].
Qed.

Lemma read_ready_are_ready raw manifest l : read_archive_bridge_ready raw manifest = Ok l -> Forall is_ready l.
Proof.
  unfold read_archive_bridge_ready. intros ([lines decoded] & _ & H)%res_bind_ok.
  apply res_bind_ok in H as (? & _ & H). apply res_bind_ok in H as (? & _ & H).
  destruct (jget "trading_day" manifest); try done. repeat apply res_bind_ok in H as (? & _ & H).
  injection H as <-. apply Forall_forall. intros e He%list_elem_of_In%filter_In.
  by destruct He as [_ He%bool_decide_eq_true].
Qed.

(** The early end of the loop over the archives misses nothing that is newer. *)
Lemma archived_ready_spec archive_dir best ready ms l :
  StronglySorted (fun a b : Z * (string * jdict) => Is_true (b.1 <=? a.1)) ms ->
  (best = -1 \/ exists x, x ∈ ready /\ qe_timestamp_ms x = best) ->
  archived_ready archive_dir best ready ms = Ok l ->
  ready ⊆ l /\
  forall ts found archived e, (ts, found) ∈ ms ->
    read_archive_bridge_ready (file_raw archive_dir found.1) found.2 = Ok archived ->
    e ∈ archived -> qe_timestamp_ms e <= ts -> 0 < qe_timestamp_ms e -> exists x, x ∈ l /\ at_most e x.
Proof.
  intros Hs. revert best ready. induction Hs as [|[ts [name manifest]] ms Hs IH Hall]; intros best ready Hb;
    cbn [archived_ready]; [intros [= <-]; split; [done | set_solver]|].
  destruct (Z.ltb_spec ts best) as [Hlt|Hge].
  - intros [= <-]. split; [done|]. intros ts' found archived e Hin _ _ Hle Hpos.
    assert (ts' <= ts) by (apply elem_of_cons in Hin as [[= -> ->]|Hin]; [done|]; rewrite Forall_forall in Hall;
      by apply Hall, Is_true_true, Z.leb_le in Hin).
    destruct Hb as [-> | (x & Hx & <-)]; [lia|]. exists x. split; [done | left; lia].
  - intros (archived & Ha & H)%res_bind_ok.
    destruct (best_timestamp_spec best archived) as (_ & _ & H3).
    destruct (IH (best_timestamp best archived) (ready ++ archived)) as [Hsub Hmiss]; [|exact H|].
    { destruct H3 as [-> | (x & Hx & ->)]; [|right; exists x; set_solver].
      destruct Hb as [-> | (x & Hx & <-)]; [by left | right; exists x; set_solver]. }
    split; [set_solver|]. intros ts' found archived' e [[= -> ->]|Hin]%elem_of_cons Hr He Hle Hpos.
    + cbn [fst snd] in Hr. rewrite Ha in Hr. injection Hr as <-. exists e. split; [set_solver | reflexivity].
    + by eapply Hmiss.
Qed.

Lemma archived_ready_in archive_dir best ready ms l e :
  archived_ready archive_dir best ready ms = Ok l -> e ∈ l ->
  e ∈ ready \/ exists ts found archived, (ts, found) ∈ ms /\
    read_archive_bridge_ready (file_raw archive_dir found.1) found.2 = Ok archived /\ e ∈ archived.
Proof.
  revert best ready. induction ms as [|[ts [name manifest]] ms IH]; intros best ready; cbn [archived_ready];
    [intros [= <-]; by left|].
  case_match; [intros [= <-]; by left|]. intros (archived & Ha & H')%res_bind_ok He.
  destruct (IH _ _ H' He) as [[Hr|Hr]%elem_of_app | (ts' & found & ar & Hin & ?)]; [by left | | ].
  - right. exists ts, (name, manifest), archived. split_and!; [by left | done | done].
  - right. exists ts', found, ar. split; [by right | done].
Qed.

Lemma decoded_positive raw e : decode_transport_frame raw = Ok e -> 0 < qe_timestamp_ms e.
Proof. intros (d & He & _)%decoded_mapping. apply from_mapping_ok in He. by apply He. Qed.

Lemma decode_lines_from lines l e :
  decode_lines lines = Ok l -> e ∈ l -> exists raw, decode_transport_frame raw = Ok e.
Proof.
  revert l. induction lines as [|raw lines IH]; cbn; intros l; [intros [= <-]; by intros ?%not_elem_of_nil|].
  intros (x & Hx & (rest & Hr & [= <-])%res_bind_ok)%res_bind_ok [-> | H]%elem_of_cons; eauto.
Qed.

Lemma archive_ready_positive raw manifest l e :
  read_archive_bridge_ready raw manifest = Ok l -> e ∈ l -> 0 < qe_timestamp_ms e.
Proof.
  unfold read_archive_bridge_ready. intros ([lines decoded] & Hl & H)%res_bind_ok He.
  apply res_bind_ok in H as (? & _ & H). apply res_bind_ok in H as (? & _ & H).
  destruct (jget "trading_day" manifest); try done. repeat apply res_bind_ok in H as (? & _ & H).
  injection H as <-. apply list_elem_of_In, filter_In in He as [He%list_elem_of_In _].
  unfold read_lines in Hl. destruct raw as [raw|]; [|done]. destruct (ae_gunzip raw) as [ls failure].
  destruct (decode_lines ls) as [d|ex] eqn:Ed; [|by destruct (catchable ex)].
  destruct failure as [ex|]; [by destruct (catchable ex)|]. injection Hl as -> ->.
  destruct (decode_lines_from _ _ _ Ed He) as (r & Hr). by eapply decoded_positive.
Qed.

Lemma newest_first_sorted ms :
  StronglySorted (fun a b : Z * (string * jdict) => Is_true (b.1 <=? a.1)) (newest_first ms).
Proof.
  apply StronglySorted_merge_sort.
  - intros a b c ?%Is_true_true%Z.leb_le ?%Is_true_true%Z.leb_le. apply Is_true_true, Z.leb_le. lia.
  - intros a b. rewrite !Is_true_true, !Z.leb_le. lia.
Qed.

(** What the loop over the archives starts with. *)
Lemma best_of l : best_timestamp (-1) l = -1 \/ exists x, x ∈ l /\ qe_timestamp_ms x = best_timestamp (-1) l.
Proof. destruct (best_timestamp_spec (-1) l) as (_ & _ & [E|(x & Hx & E)]); [by left | right; by exists x]. Qed.

Lemma both_ready root inbox processed :
  spool_ready (rt_inbox root) = Ok inbox -> spool_ready (rt_processed root) = Ok processed ->
  forall e, e ∈ inbox ++ processed <-> exists d dir name raw, d ∈ [rt_inbox root; rt_processed root] /\
    plain_dir d = Some dir /\ name ∈ globbed dir /\ file_raw dir name = Some raw /\
    decode_transport_frame raw = Ok e /\ is_ready e.
Proof.
  intros Hi Hp e. rewrite elem_of_app, (spool_ready_spec _ _ Hi e), (spool_ready_spec _ _ Hp e). split.
  - intros [(dir & n & raw & ?) | (dir & n & raw & ?)];
      [exists (rt_inbox root), dir, n, raw | exists (rt_processed root), dir, n, raw]; (split; [|done]);
      [by left | by right; left].
  - intros (d & dir & n & raw & [-> | [-> | []%not_elem_of_nil]%elem_of_cons]%elem_of_cons & ?);
      [left | right]; by exists dir, n, raw.
Qed.

(** C10. An instance is judged by its newest [bridge_ready] event.  The one found is of the
    inbox, of the processed files or of a committed archive; and of those in the inbox, among
    the processed files, and in the committed archives up to the last timestamp that the
    archive's manifest claims, none is newer - though the archives are only read while
    their manifests claim that they may hold a newer one. *)
Theorem latest_is_newest root ready :
  latest_bridge_ready root = Ok ready ->
  is_ready ready /\ (exists claim, ready_in root claim ready) /\
  forall e claim, ready_in root claim e -> (forall last, claim = Some last -> qe_timestamp_ms e <= last) ->
    at_most e ready.
Proof.
  unfold latest_bridge_ready. intros (inbox & Hi & H)%res_bind_ok. apply res_bind_ok in H as (processed & Hp & H).
  apply res_bind_ok in H as (all & Ha & H). destruct all as [|e0 all]; [done|]. injection H as <-.
  destruct (newest_of_spec e0 all) as [Hin Hmax].
  pose proof (both_ready _ _ _ Hi Hp) as Hspool.
  destruct (plain_dir (rt_archive root)) as [ad|] eqn:Ead; [destruct (plain_dir (rt_checkpoints root)) as [cd|] eqn:Ecd|].
  2,3: injection Ha as Ha; rewrite Ha in Hspool;
    pose proof Hin as (d & dir & n & raw & Hd & Hdir & Hn & Hraw & Hdec & Hr)%Hspool;
    (split_and!; [exact Hr | exists None; by econstructor |]);
    intros e claim [d' dir' n' raw' e' H1 H2 H3 H4 H5 H6 | ? ? ? ? ? ? ? e' H1 H2] _; [|congruence];
    apply Hmax, Hspool; by exists d', dir', n', raw'.
  apply res_bind_ok in Ha as (ms & Hms & Har).
  assert (Hsub : forall p, p ∈ newest_first ms <-> p ∈ ms).
  { intros p. unfold newest_first. by rewrite (merge_sort_Permutation _ ms). }
  destruct (archived_ready_spec _ _ _ _ _ (newest_first_sorted ms) (best_of (inbox ++ processed)) Har) as [Hkeep Hmiss].
  assert (Hfound : is_ready (newest_of e0 all) /\ exists claim, ready_in root claim (newest_of e0 all)).
  { destruct (archived_ready_in _ _ _ _ _ _ Har Hin) as [Hs | (ts & [an m] & ar & Hm & Hread & He)].
    - apply Hspool in Hs as (d & dir & n & raw & ? & ? & ? & ? & ? & Hr). split; [exact Hr|]. exists None.
      by econstructor.
    - apply Hsub, (committed_manifests_spec _ _ _ _ Hms) in Hm as (n & Hn & Hmeta & Hts). split.
      + apply read_ready_are_ready in Hread. rewrite Forall_forall in Hread. by apply Hread.
      + exists (Some ts). by eapply (ready_archived root ad cd n an m ts ar). }
  split_and!; [apply Hfound | apply Hfound|].
  - intros e claim [d dir n raw e' H1 H2 H3 H4 H5 H6 | ad' cd' n an m ts l e' H1 H2 H3 H4 H5 H6 H7] H8.
    + apply Hmax, Hkeep, Hspool. by exists d, dir, n, raw.
    + rewrite Ead in H1. injection H1 as <-. rewrite Ecd in H2. injection H2 as <-.
      destruct (Hmiss ts (an, m) l e') as (x & Hx & Hle); [|exact H6 | exact H7 | by apply H8 | |].
      * apply Hsub, (committed_manifests_spec _ _ _ _ Hms). by exists n.
      * by eapply archive_ready_positive.
      * transitivity x; [done | by apply Hmax].
Qed.
End Newest.

(** ** What a loaded instance may do *)

Section Loading.
Context {aenv : ArchiveEnv}.

Lemma trusted_ok b msg u : trusted b msg = Ok u <-> b = true.
Proof. apply guard_r_ok. Qed.

Definition agrees (required : list (string * json)) (d : jdict) : Prop :=
  Forall (fun p => is_value p.2 p.1 d = true) required.

Lemma requires_ok what required d u : requires what required d = Ok u <-> agrees required d.
Proof.
  destruct u. unfold requires, agrees. rewrite res_iter_ok. apply Forall_iff. intros p. apply trusted_ok.
Qed.

(** An instance that may trade was asked for; one that was not may do nothing. *)
Definition authorised (i : QmtInstance) (allow_simulation_mutation allow_live_canary : bool) : Prop :=
  qn_execution_mode i = "SHADOW"%string /\
    qn_trading_enabled i = false /\ qn_live_submit i = false /\ qn_live_cancel i = false \/
  qn_execution_mode i = "SIMULATION_CALIBRATION"%string /\ allow_simulation_mutation = true /\
    qn_trading_enabled i = true /\ qn_live_submit i = true /\ qn_live_cancel i = true \/
  qn_execution_mode i = "LIVE_CANARY"%string /\ allow_live_canary = true /\
    qn_trading_enabled i = true /\ qn_live_submit i = true /\ qn_live_cancel i = true /\
    qn_simulation_only i = false.

(** The limits of the mode, and the account it is pinned to. *)
Definition bounded_by (i : QmtInstance) (d : jdict) : Prop :=
  if mutates (JStr (qn_execution_mode i)) then
    is_value (JInt 100) "max_order_quantity" d = true /\
    is_value (JStr (qn_account_fingerprint i)) "authorized_account_fingerprint" d = true /\
    let calls := if bool_decide (qn_execution_mode i = "LIVE_CANARY"%string) then 1 else 2000 in
    is_value (JInt calls) "max_submit_calls_per_session" d = true /\
    is_value (JInt calls) "max_cancel_calls_per_session" d = true
  else True.

Lemma is_value_bool b key d : is_value (JBool b) key d = true -> truthy (jget key d) = b.
Proof.
  unfold is_value. destruct (jget key d) as [|x|z|s|l|l|]; cbn; try done.
  - by destruct x, b.
  - destruct b; intros Hz%Z.eqb_eq; subst; done.
  - unfold float_is. destruct b; intros [Hf Hz%Z.eqb_eq]%andb_true_iff; rewrite Hf, Hz; done.
Qed.

Lemma is_value_false key d : is_value (JBool false) key d = true -> is_true (jget key d) = false.
Proof. unfold is_value. by destruct (jget key d) as [|[]| | | | |]. Qed.

Lemma instance_of_ok id manifest i :
  instance_of id manifest = Ok i ->
  qn_instance_id i = id /\ qn_execution_mode i = text (jget "execution_mode" manifest) /\
  qn_trading_enabled i = truthy (jget "trading_enabled" manifest) /\
  qn_live_submit i = truthy (jget "live_submit" manifest) /\
  qn_live_cancel i = truthy (jget "live_cancel" manifest) /\
  qn_simulation_only i = is_true (jget "simulation_only" manifest) /\
  is_sha256 (qn_account_fingerprint i) = true /\
  (mutates (jget "execution_mode" manifest) = true ->
   is_value (JStr (qn_account_fingerprint i)) "authorized_account_fingerprint" manifest = true).
Proof.
  unfold instance_of. intros (session & _ & H)%res_bind_ok. apply res_bind_ok in H as (fp & Hfp & H).
  do 3 apply res_bind_ok in H as (? & _ & H). apply res_bind_ok in H as (? & Hpin%trusted_ok & [= <-]).
  split_and!; try done; cbn.
  - destruct (jget "account_fingerprint" manifest) as [| | |s| | |]; try done.
    destruct (is_sha256 s) eqn:E; [|done]. by injection Hfp as <-.
  - intros Hm. rewrite Hm in Hpin. exact Hpin.
Qed.

Lemma safety_modes mode sim live safety :
  safety_required mode sim live = Ok safety ->
  mode = JStr "SHADOW" \/ mode = JStr "SIMULATION_CALIBRATION" /\ sim = true \/
  mode = JStr "LIVE_CANARY" /\ live = true.
Proof.
  unfold safety_required.
  destruct (is_str "SHADOW" mode) eqn:E1; [apply is_str_ok in E1; auto|].
  destruct (is_str "SIMULATION_CALIBRATION" mode) eqn:E2; [apply is_str_ok in E2|];
    (destruct (is_str "LIVE_CANARY" mode) eqn:E3; [apply is_str_ok in E3|]); destruct sim, live; cbn; try done; auto.
Qed.

(** The flags of the mode, in the manifest and in the instance. *)
Lemma safety_flags mode sim live safety d :
  safety_required mode sim live = Ok safety -> agrees safety d ->
  let flag b := truthy (jget "trading_enabled" d) = b /\ truthy (jget "live_submit" d) = b /\
                truthy (jget "live_cancel" d) = b in
  mode = JStr "SHADOW" /\ flag false \/
  mode = JStr "SIMULATION_CALIBRATION" /\ sim = true /\ flag true \/
  mode = JStr "LIVE_CANARY" /\ live = true /\ flag true /\ is_true (jget "simulation_only" d) = false.
Proof.
  intros Hs Ha. pose proof Hs as Hm. apply safety_modes in Hm as [-> | [[-> ->] | [-> ->]]];
    [|right; left|right; right]; try left; injection Hs as <-; unfold agrees in Ha; rewrite ?Forall_cons in Ha;
    destruct_and? Ha; cbn [fst snd] in *; split_and!; auto using is_value_bool, is_value_false.
Qed.

(** The limits of the mode. *)
Lemma safety_bounds i mode sim live safety d :
  safety_required mode sim live = Ok safety -> agrees safety d -> mode = JStr (qn_execution_mode i) ->
  (mutates mode = true -> is_value (JStr (qn_account_fingerprint i)) "authorized_account_fingerprint" d = true) ->
  bounded_by i d.
Proof.
  unfold bounded_by. intros Hs Ha Hi Hpin. rewrite <-Hi.
  pose proof Hs as Hm. apply safety_modes in Hm as [-> | [[-> ->] | [-> ->]]]; [done| |];
    injection Hi as <-; injection Hs as <-; unfold agrees in Ha; rewrite ?Forall_cons in Ha;
    destruct_and? Ha; cbn [fst snd] in *; (split_and!; [done | by apply Hpin | done | done]).
Qed.

(** C8. What the Host may rely on in an instance it loaded: the newest [bridge_ready] of its
    spool and archives is of the same session, terminal and account; it may trade only in a
    mode that was asked for, and is bounded and pinned to its account by the manifest as well
    as by what the running bridge says of itself. *)
Theorem loaded_authorised base instance_id sim live i :
  load_instance base instance_id sim live = Ok i ->
  exists root manifest ready capabilities,
    sb_children base !! instance_id = Some (Some root) /\ qn_instance_id i = instance_id /\
    read_manifest (rt_manifest root) = Ok manifest /\ latest_bridge_ready root = Ok ready /\
    qe_session_id ready = qn_session_id i /\ qe_terminal_instance_id ready = Some instance_id /\
    qe_account_fingerprint ready = qn_account_fingerprint i /\ qe_account_type ready = Some (qn_account_type i) /\
    jget "capabilities" (qe_payload ready) = JObj capabilities /\
    authorised i sim live /\ bounded_by i manifest /\ bounded_by i capabilities.
Proof.
  unfold load_instance. intros (u & _ & H)%res_bind_ok.
  destruct (sb_children base !! instance_id) as [[root|]|] eqn:Er; try done.
  apply res_bind_ok in H as (? & _ & H). apply res_bind_ok in H as (manifest & Hm & H).
  apply res_bind_ok in H as (? & _ & H). apply res_bind_ok in H as (safety & Hs & H).
  apply res_bind_ok in H as (? & Ha%requires_ok & H). apply res_bind_ok in H as (i' & Hi & H).
  apply res_bind_ok in H as (ready & Hr & H). apply res_bind_ok in H as (? & Hmatch & [= ->]).
  destruct (instance_of_ok _ _ _ Hi) as (Hid & Hmode & H1 & H2 & H3 & H4 & _ & Hpin).
  unfold ready_matches in Hmatch. apply res_bind_ok in Hmatch as (? & Hse%trusted_ok%bool_decide_eq_true & Hmatch).
  apply res_bind_ok in Hmatch as (? & Hte%trusted_ok%bool_decide_eq_true & Hmatch).
  apply res_bind_ok in Hmatch as (? & Hac%trusted_ok & Hmatch).
  apply andb_true_iff in Hac as [Hf%bool_decide_eq_true Ht%bool_decide_eq_true].
  destruct (jget "capabilities" (qe_payload ready)) as [| | | | |caps|] eqn:Ec; try done.
  apply requires_ok in Hmatch. unfold agrees in Hmatch. rewrite !Forall_app in Hmatch.
  destruct Hmatch as (_ & Hcs & _ & Hcp).
  assert (Hmd : jget "execution_mode" manifest = JStr (qn_execution_mode i)).
  { rewrite Hmode. by destruct (safety_modes _ _ _ _ Hs) as [-> | [[-> _] | [-> _]]]. }
  exists root, manifest, ready, caps. rewrite Hid in Hte. split_and!; try done.
  - unfold authorised. rewrite H1, H2, H3, H4. pose proof (safety_flags _ _ _ _ _ Hs Ha) as Hfl.
    rewrite Hmd in Hfl. clear - Hfl.
    destruct Hfl as [([= ->] & Hfl) | [([= ->] & -> & Hfl) | ([= ->] & -> & Hfl & Hs)]]; [by left | right; left | right; right];
      (split_and!; try done; apply Hfl).
  - by eapply safety_bounds.
  - eapply safety_bounds; [exact Hs | exact Hcs | exact Hmd|]. rewrite Hmd. intros Hmu. rewrite Hmu in Hcp.
    rewrite Forall_singleton in Hcp. exact Hcp.
Qed.

(** ** The manifest of an artifact *)

(** Only who asks for it gets the artifact. *)
Definition asked_for (dep : deployment) (allow_simulation_mutation allow_live_canary : bool) : bool :=
  if SIMULATION_ONLY dep then allow_simulation_mutation else allow_live_canary.

Definition announced (dep : deployment) (b : binding) (account_type : string) (now : Z) : QmtInstance :=
  {| qn_instance_id := TERMINAL_INSTANCE_ID dep; qn_session_id := bb_session_id b;
     qn_account_fingerprint := AUTHORIZED_ACCOUNT_FINGERPRINT dep; qn_account_type := account_type;
     qn_bridge_build := BRIDGE_BUILD dep; qn_created_ms := now; qn_execution_mode := EXECUTION_MODE dep;
     qn_trading_enabled := true; qn_live_submit := true; qn_live_cancel := true;
     qn_simulation_only := SIMULATION_ONLY dep |}.

Lemma manifest_numbers (dep : deployment) b now :
  dep = guojin_sim \/ dep = guojin -> 0 < now < 10 ^ 18 -> well_keyed (JObj (instance_manifest dep b now)) = true.
Proof.
  intros Hd Hn. apply object_well_keyed; [apply bool_decide_eq_true_2; apply (bool_decide_unpack _); vm_compute; exact I|].
  assert (Ho : forall o, well_keyed (jopt_str o) = true) by (by intros []).
  assert (Hw : well_keyed (JInt now) = true) by (apply int_well_keyed; lia).
  unfold instance_manifest. rewrite !Forall_cons. cbn [snd].
  destruct Hd as [-> | ->]; split_and!; auto.
Qed.

(** The manifest, read again. *)
Lemma manifest_read dep b now raw :
  dep = guojin_sim \/ dep = guojin -> 0 < now < 10 ^ 18 ->
  raw = utf8 (dumps true (JObj (instance_manifest dep b now)) +:+ line_feed) ->
  frame_size raw <= MAX_INSTANCE_MANIFEST_BYTES ->
  exists d, read_manifest (Some raw) = Ok d /\
    forall key, jget key d = sorted (jget key (instance_manifest dep b now)).
Proof.
  intros Hd Hn Hraw Hsize. pose proof (manifest_numbers dep b now Hd Hn) as Hk.
  exists (sorted_dict (instance_manifest dep b now)). split.
  - unfold read_manifest, read_bounded_json. rewrite (proj2 (Z.leb_le _ _) Hsize).
    assert (Hne : bool_decide (raw = []) = false).
    { apply bool_decide_eq_false. rewrite Hraw, utf8_app. by destruct (utf8 (dumps _ _)). }
    rewrite Hne. cbn [negb andb trusted guard_r res_bind]. pose proof (read_json_line _ Hk) as Hj.
    unfold json_line in Hj. rewrite Hraw, Hj. reflexivity.
  - intros key. apply jget_sorted. cbn [well_keyed] in Hk. by apply andb_true_iff in Hk as [Hk%bool_decide_eq_true _].
Qed.

(** What the manifest of the bridge says, and no more, is what is loaded. *)
Lemma manifest_instance dep b now account_type d :
  dep = guojin_sim \/ dep = guojin -> 0 < now ->
  (forall key, jget key d = sorted (jget key (instance_manifest dep b now))) ->
  bb_account_fingerprint b = Some (AUTHORIZED_ACCOUNT_FINGERPRINT dep) ->
  bb_account_type b = Some account_type -> account_type <> ""%string -> bb_session_id b <> ""%string ->
  instance_of (TERMINAL_INSTANCE_ID dep) d = Ok (announced dep b account_type now).
Proof.
  intros Hd Hn Hj Hf Ht Hte Hse. unfold instance_of, is_value. rewrite !Hj. clear Hj d.
  destruct b as [aid ty fp se]. cbn in Hf, Ht, Hse. subst.
  destruct account_type as [|a1 account_type]; [done|]. destruct se as [|a2 se]; [done|].
  destruct now as [|p|p]; [lia | | lia]. by destruct Hd as [-> | ->].
Qed.

(** A concrete list of requirements, one by one. *)
Ltac each_required :=
  match goal with |- Forall _ ?l => let l' := eval lazy in l in change l with l' end;
  repeat (apply Forall_cons_2; [vm_compute; reflexivity|]); apply Forall_nil_2.

(** The capabilities the bridge announces are what the mode demands. *)
Lemma ready_accepted dep b account_type now safety sim live ready caps :
  dep = guojin_sim \/ dep = guojin -> safety_required (JStr (EXECUTION_MODE dep)) sim live = Ok safety ->
  qe_session_id ready = bb_session_id b -> qe_terminal_instance_id ready = Some (TERMINAL_INSTANCE_ID dep) ->
  qe_account_fingerprint ready = AUTHORIZED_ACCOUNT_FINGERPRINT dep -> qe_account_type ready = Some account_type ->
  jget "capabilities" (qe_payload ready) = JObj caps -> (forall key, jget key caps = jget key (capabilities dep)) ->
  ready_matches (announced dep b account_type now) safety ready = Ok tt.
Proof.
  intros Hd Hs H1 H2 H3 H4 H5 Hc. unfold ready_matches. rewrite H1, H2, H3, H4, H5.
  cbn [announced qn_session_id qn_instance_id qn_account_fingerprint qn_account_type].
  rewrite !bool_decide_true by done. cbn [trusted guard_r andb res_bind].
  apply requires_ok. unfold agrees, is_value. eapply Forall_impl; [|intros p Hp; rewrite Hc; exact Hp].
  clear - Hd Hs.
  destruct Hd as [-> | ->]; [destruct sim; [|discriminate] | destruct live; [|discriminate]]; injection Hs as <-; each_required.
Qed.

(** ... and so does the manifest. *)
Lemma manifest_identity dep b now d :
  dep = guojin_sim \/ dep = guojin -> (forall key, jget key d = sorted (jget key (instance_manifest dep b now))) ->
  requires "instance manifest mismatch"
    [("manifest_version", JStr INSTANCE_MANIFEST_VERSION); ("terminal_instance_id", JStr (TERMINAL_INSTANCE_ID dep));
     ("protocol_version", JStr Wire.BRIDGE_PROTOCOL_VERSION); ("transport_version", JStr Frame.TRANSPORT_VERSION)]%string d
  = Ok tt.
Proof.
  intros Hd Hj. apply requires_ok. unfold agrees, is_value. rewrite !Forall_cons. cbn [fst snd]. rewrite !Hj.
  by destruct Hd as [-> | ->].
Qed.

Lemma manifest_safety dep b now d safety sim live :
  dep = guojin_sim \/ dep = guojin -> (forall key, jget key d = sorted (jget key (instance_manifest dep b now))) ->
  safety_required (JStr (EXECUTION_MODE dep)) sim live = Ok safety ->
  requires "instance manifest mismatch" safety d = Ok tt.
Proof.
  intros Hd Hj Hs. apply requires_ok. unfold agrees, is_value.
  eapply Forall_impl; [|intros p Hp; rewrite Hj; exact Hp]. clear - Hd Hs.
  destruct Hd as [-> | ->]; [destruct sim; [|discriminate] | destruct live; [|discriminate]]; injection Hs as <-;
    each_required.
Qed.

Context {R : Type} {bridge_part : Part bridge R} {manifest_part : Part manifest R}.
Context {env : Env} {term : Terminal}.

(** What [publish_instance_manifest] leaves. *)
Lemma published_raw dep (w w' : world R) :
  publish_instance_manifest dep w = (Ok tt, w') ->
  exists t, mf_raw (get_part (w_rest w')) =
    Some (utf8 (dumps true (JObj (instance_manifest dep (br_binding (get_part (w_rest w)))
                                    (instant (env_now t) / 1000))) +:+ line_feed)).
Proof.
  unfold publish_instance_manifest, bindM, time_ms, the_bridge, read_part, read_rest, utc_now, write_part, write_rest,
    file_op, external, retM.
  cbn. destruct (tm_file _) as [e|]; [done|]. intros [= <-]. cbn. rewrite get_set_part. by eexists.
Qed.

(** C9. The two programs agree on who may trade.  Let the simulation artifact or the live
    canary, bound to its authorised account with a session id and an account type that are
    not empty, publish the manifest of its session, at a time past 1970 whose seconds have
    at most eighteen digits; let the newest [bridge_ready] that the Host finds be of that
    session, account and terminal and announce the capabilities of the artifact; let the
    terminal's directory be no link, and the file be the published one and within the
    Host's limit: then the Host loads the instance, as that session, account and build, exactly if it
    was asked for that kind of artifact, and otherwise refuses it. *)
Theorem artifact_loads dep base root sim live (w w' : world R) account_type ready caps :
  dep = guojin_sim \/ dep = guojin ->
  (forall t, 0 < instant (env_now t) / 1000 < 10 ^ 18) ->
  publish_instance_manifest dep w = (Ok tt, w') ->
  let b := br_binding (get_part (w_rest w)) in
  bb_account_fingerprint b = Some (AUTHORIZED_ACCOUNT_FINGERPRINT dep) ->
  bb_account_type b = Some account_type -> account_type <> ""%string -> bb_session_id b <> ""%string ->
  sb_children base !! TERMINAL_INSTANCE_ID dep = Some (Some root) -> rt_link root = false ->
  rt_manifest root = mf_raw (get_part (w_rest w')) ->
  (forall raw, rt_manifest root = Some raw -> frame_size raw <= MAX_INSTANCE_MANIFEST_BYTES) ->
  latest_bridge_ready root = Ok ready -> qe_session_id ready = bb_session_id b ->
  qe_terminal_instance_id ready = Some (TERMINAL_INSTANCE_ID dep) ->
  qe_account_fingerprint ready = AUTHORIZED_ACCOUNT_FINGERPRINT dep -> qe_account_type ready = Some account_type ->
  jget "capabilities" (qe_payload ready) = JObj caps -> (forall key, jget key caps = jget key (capabilities dep)) ->
  exists t,
    load_instance base (TERMINAL_INSTANCE_ID dep) sim live =
    if asked_for dep sim live then Ok (announced dep b account_type (instant (env_now t) / 1000))
    else raise QmtInstanceError "instance execution mode is not authorized".
Proof.
  intros Hd Hclock Hpub b Hf Ht Hte Hse Hroot Hlink Hm Hsize Hready R1 R2 R3 R4 R5 Hcaps.
  destruct (published_raw _ _ _ Hpub) as (t & Hraw). exists t. fold b in Hraw. rewrite <-Hm in Hraw.
  set (now := instant (env_now t) / 1000) in *. pose proof (Hclock t : 0 < now < 10 ^ 18) as Hn.
  destruct (manifest_read dep b now _ Hd Hn eq_refl (Hsize _ Hraw)) as (d & Hread & Hj).
  pose proof (manifest_instance dep b now account_type d Hd (proj1 Hn) Hj Hf Ht Hte Hse) as Hinst.
  unfold load_instance. rewrite Hroot, Hlink, Hraw, Hread. clear Hread Hraw Hm Hsize.
  assert (Hid : is_instance_id (TERMINAL_INSTANCE_ID dep) = true) by (by destruct Hd as [-> | ->]).
  rewrite Hid. cbn [trusted guard_r negb res_bind]. rewrite Hready.
  rewrite (manifest_identity dep b now d Hd Hj), Hj. cbn [res_bind].
  change (sorted (jget "execution_mode" (instance_manifest dep b now))) with (JStr (EXECUTION_MODE dep)).
  destruct (safety_required (JStr (EXECUTION_MODE dep)) sim live) as [safety|e] eqn:Hs.
  - assert (Has : asked_for dep sim live = true) by (destruct Hd as [-> | ->]; [destruct sim | destruct live]; done).
    rewrite Has. cbn [res_bind].
    rewrite (manifest_safety dep b now d safety sim live Hd Hj Hs). cbn [res_bind]. rewrite Hinst. cbn [res_bind]. by rewrite (ready_accepted dep b account_type now safety sim live ready caps).
  - assert (Has : asked_for dep sim live = false) by (destruct Hd as [-> | ->]; [destruct sim | destruct live]; done).
    rewrite Has. destruct Hd as [-> | ->]; [destruct sim; [discriminate|] | destruct live; [discriminate|]];
      by injection Hs as <-.
Qed.
End Loading.

(** ** A concrete instance *)

Section Concrete.
#[local] Existing Instance stored_env.
#[local] Existing Instance noon_env.

(** The archive directories as directories of named files. *)
Definition named_entries (keep : ArchiveFile -> bool) (a : archives) : gmap string entry :=
  list_to_map (omap (fun p : ArchiveFile * list Z =>
    if keep p.1 then Some (archive_name p.1, {| en_link := false; en_raw := Some p.2 |}) else None) (map_to_list a)).
Definition is_checkpoint (f : ArchiveFile) : bool := match f with CheckpointOf _ => true | _ => false end.

Definition sim_event (n : Z) (session ty : string) (payload : jdict) : QmtEvent :=
  {| qe_protocol_version := "0.2"; qe_session_id := session; qe_sequence := n;
     qe_timestamp_ms := 1750000000000 + n; qe_event_type := ty; qe_source := "init";
     qe_account_fingerprint := AUTHORIZED_ACCOUNT_FINGERPRINT guojin_sim; qe_account_type := Some "STOCK"%string;
     qe_payload := payload; qe_terminal_instance_id := Some "guojin_sim"%string |}.
Definition sim_ready (n : Z) (session : string) : QmtEvent :=
  sim_event n session "bridge_ready" [("capabilities"%string, JObj (capabilities guojin_sim))].

(** Yesterday's session is archived; today's has announced itself. *)
Definition sim_compacted : world (files * archives) :=
  (archive_day demo_day 300 None false (W empty_db false 0
     ({[ (Processed, "1750000000001_a.json"%string) := demo_frame (sim_ready 1 "qmt-1") ]}, ∅))).2.

Definition sim_binding : binding :=
  {| bb_account_id := Some "sim"%string; bb_account_type := Some "STOCK"%string;
     bb_account_fingerprint := Some (AUTHORIZED_ACCOUNT_FINGERPRINT guojin_sim); bb_session_id := "qmt-2" |}.
Definition sim_bridge : world (bridge * manifest) :=
  W empty_db false 0 (set_binding sim_binding (fresh_bridge "qmt-2"), {| mf_raw := None |}).
Definition sim_published : res unit * world (bridge * manifest) :=
  publish_instance_manifest (env := noon_env) (term := BridgeHistory.trial_terminal) guojin_sim sim_bridge.

Definition sim_root : instance_root :=
  {| rt_link := false; rt_manifest := mf_raw (get_part (w_rest sim_published.2));
     rt_inbox := Some {| dr_link := false; dr_files :=
       {[ "1.json"%string := {| en_link := false; en_raw := Some (demo_frame (sim_ready 5 "qmt-2")) |} ]} |};
     rt_processed := Some {| dr_link := false; dr_files := ∅ |};
     rt_archive := Some {| dr_link := false;
       dr_files := named_entries (fun f => negb (is_checkpoint f)) (get_part (w_rest sim_compacted)) |};
     rt_checkpoints := Some {| dr_link := false;
       dr_files := named_entries is_checkpoint (get_part (w_rest sim_compacted)) |} |}.
Definition sim_base : spool_base :=
  {| sb_link := false; sb_children := {[ "guojin_sim"%string := Some sim_root ]} |}.

Example sim_latest : latest_bridge_ready sim_root = Ok (sim_ready 5 "qmt-2").
Proof. vm_compute. reflexivity. Qed.
Example sim_discovered :
  (l <- discover_instances (Some sim_base) true false ;; Ok (qn_session_id <$> l)) = Ok ["qmt-2"%string] /\
  discover_instances (Some sim_base) false true = Ok [].
Proof. vm_compute. by split. Qed.

Definition sim_archive : directory := default {| dr_link := true; dr_files := ∅ |} (rt_archive sim_root).
Definition sim_checkpoints : directory := default {| dr_link := true; dr_files := ∅ |} (rt_checkpoints sim_root).
Definition found_or {A} (x : A) (r : res A) : A := match r with Ok a => a | Err _ => x end.
Definition sim_metadata : string * jdict :=
  found_or (""%string, []) (read_committed_archive_metadata sim_archive sim_checkpoints "2025-06-15.json").

Lemma sim_metadata_read :
  read_committed_archive_metadata sim_archive sim_checkpoints "2025-06-15.json" = Ok (sim_metadata.1, sim_metadata.2) /\
  jget "last_timestamp_ms" sim_metadata.2 = JInt 1750000000001 /\
  read_archive_bridge_ready (file_raw sim_archive sim_metadata.1) sim_metadata.2 = Ok [sim_ready 1 "qmt-1"].
Proof. vm_compute. by split_and!. Qed.

Lemma latest_is_newest_witness :
  (exists claim, ready_in sim_root claim (sim_ready 5 "qmt-2")) /\
  ready_in sim_root (Some 1750000000001) (sim_ready 1 "qmt-1") /\ at_most (sim_ready 1 "qmt-1") (sim_ready 5 "qmt-2").
Proof.
  destruct (latest_is_newest sim_root (sim_ready 5 "qmt-2") sim_latest) as (_ & Hfound & Hnewest).
  assert (Hin : ready_in sim_root (Some 1750000000001) (sim_ready 1 "qmt-1")).
  { destruct sim_metadata_read as (Hm & Ht & Hr).
    apply (ready_archived sim_root sim_archive sim_checkpoints "2025-06-15.json" sim_metadata.1 sim_metadata.2
      1750000000001 [sim_ready 1 "qmt-1"]); [reflexivity | reflexivity | | exact Hm | exact Ht | exact Hr |].
    - apply (bool_decide_unpack _). vm_compute. exact I.
    - apply list_elem_of_singleton. reflexivity. }
  split; [exact Hfound|]. split; [exact Hin|]. apply (Hnewest _ _ Hin). intros last [= <-]. discriminate.
Defined.

Definition sim_instance : QmtInstance := announced guojin_sim sim_binding "STOCK" 1757649600000.

Lemma sim_loaded sim live :
  load_instance sim_base "guojin_sim" sim live =
  if sim then Ok sim_instance else raise QmtInstanceError "instance execution mode is not authorized".
Proof. destruct sim, live; vm_compute; reflexivity. Qed.

Lemma loaded_authorised_witness :
  load_instance sim_base "guojin_sim" true false = Ok sim_instance /\ authorised sim_instance true false.
Proof.
  split; [exact (sim_loaded true false)|].
  destruct (loaded_authorised sim_base "guojin_sim" true false sim_instance (sim_loaded true false))
    as (root & manifest & ready & capabilities & _ & _ & _ & _ & _ & _ & _ & _ & _ & Ha & _). exact Ha.
Defined.

Lemma sim_manifest_size raw : rt_manifest sim_root = Some raw -> frame_size raw <= MAX_INSTANCE_MANIFEST_BYTES.
Proof.
  intros H. apply Z.leb_le.
  assert (Hs : match rt_manifest sim_root with Some raw => frame_size raw <=? MAX_INSTANCE_MANIFEST_BYTES | None => true end = true)
    by (vm_compute; reflexivity).
  by rewrite H in Hs.
Qed.

Lemma sim_publishes : sim_published = (Ok tt, sim_published.2).
Proof. vm_compute. reflexivity. Qed.

Lemma artifact_loads_witness :
  exists t, load_instance sim_base "guojin_sim" false true = raise QmtInstanceError "instance execution mode is not authorized" /\
    load_instance sim_base "guojin_sim" true true = Ok (announced guojin_sim sim_binding "STOCK" (instant (env_now t) / 1000)).
Proof.
  assert (Hc : forall t, 0 < instant (env_now t) / 1000 < 10 ^ 18) by (intros t; split; reflexivity).
  pose proof (fun sim live => artifact_loads (term := BridgeHistory.trial_terminal) guojin_sim sim_base sim_root sim live sim_bridge sim_published.2
    "STOCK" (sim_ready 5 "qmt-2") (capabilities guojin_sim) (or_introl eq_refl) Hc sim_publishes eq_refl eq_refl
    ltac:(discriminate) ltac:(discriminate) eq_refl eq_refl eq_refl sim_manifest_size sim_latest eq_refl eq_refl
    eq_refl eq_refl eq_refl (fun _ => eq_refl)) as H.
  destruct (H true true) as (t & Ht). destruct (H false true) as (t' & Hf). exists t. split; [exact Hf | exact Ht].
Defined.
End Concrete.
