(* ===== verification/Feeds.v ===== *)
(** * Feeds: the calendar, the ticks and the health reports

    Three adapters in front of the registries of [Freshness]: the trading calendar
    (service/calendar.py), the ticks of the terminal as quotes
    (market_data/qmt_adapter.py), and the health that the live facts amount to
    (service/health_sync.py). *)

From stdpp Require Import gmap sorting.
From S2P Require Import Prelude PyTime Decimal Json Parse Domain Db OrderStore Parts Mode Freshness Wire Stream Commands PyFloat.
Open Scope Z_scope.
Open Scope py_scope.

(** ** The trading calendar *)

Module Calendar.

Inductive Market := A_SHARE | HUGANGTONG | SHENGANGTONG.

#[global] Instance market_eq_dec : EqDecision Market.
Proof. solve_decision. Defined.
#[global] Instance market_countable : Countable Market.
Proof.
  refine (inj_countable' (fun m => match m with A_SHARE => 0 | HUGANGTONG => 1 | SHENGANGTONG => 2 end)%nat
            (fun n => match n with 0 => A_SHARE | 1 => HUGANGTONG | _ => SHENGANGTONG end)%nat _).
  by intros [].
Defined.

(** [datetime.time]: the microseconds since midnight, and whether a timezone is attached. *)
Record clock_time := { ct_micros : Z; ct_aware : bool }.

Record SessionWindow := { sw_start : Z; sw_end : Z }.

#[global] Instance window_eq_dec : EqDecision SessionWindow.
Proof. solve_decision. Defined.

Definition SessionWindow_init (start stop : clock_time) : res SessionWindow :=
  do! guard_r (negb (ct_aware start || ct_aware stop)) ValueError
        "session window times must be timezone-naive local clock times" ;;
  do! guard_r (ct_micros start <? ct_micros stop) ValueError "session window start must be before end" ;;
  Ok {| sw_start := ct_micros start; sw_end := ct_micros stop |}.

(** [contains] of a naive time. *)
Definition contains (w : SessionWindow) (value : Z) : bool := (sw_start w <=? value) && (value <? sw_end w).

Record TradingDaySchedule := { td_date : Z; td_market : Market; td_windows : list SessionWindow }.

(** [a <= b] of two windows, as tuples. *)
Definition window_leb (a b : SessionWindow) : bool :=
  (sw_start a <? sw_start b) || (sw_start a =? sw_start b) && (sw_end a <=? sw_end b).

Definition sorted_windows (l : list SessionWindow) : list SessionWindow :=
  merge_sort (fun a b => Is_true (window_leb a b)) l.

Definition TradingDaySchedule_init (trading_date : Z) (market : Market) (windows : list SessionWindow)
    : res TradingDaySchedule :=
  do! guard_r (negb (bool_decide (windows = []))) ValueError "windows must be a non-empty tuple" ;;
  do! guard_r (bool_decide (sorted_windows windows = windows)) ValueError "windows must be sorted" ;;
  do! guard_r (forallb (fun p => sw_end p.1 <=? sw_start p.2) (zip windows (tl windows))) ValueError
        "session windows may not overlap" ;;
  Ok {| td_date := trading_date; td_market := market; td_windows := windows |}.

Record TradingSessionStatus := {
  ts_market : Market; ts_trading_date : Z; ts_local_time : Z; ts_known_trading_date : bool;
  ts_open : bool; ts_active_window : option SessionWindow
}.

(** The offset of the zone at an instant: [ZoneInfo]. *)
Record TradingCalendar := { cal_offset : Z -> Z; cal_schedules : gmap (Market * Z) TradingDaySchedule }.

(** The loop of [__init__]. *)
Fixpoint add_schedules (schedules : list TradingDaySchedule) (known : gmap (Market * Z) TradingDaySchedule)
    : res (gmap (Market * Z) TradingDaySchedule) :=
  match schedules with
  | [] => Ok known
  | s :: schedules =>
      do! guard_r (bool_decide (known !! (td_market s, td_date s) = None)) ValueError "duplicate schedule" ;;
      add_schedules schedules (<[(td_market s, td_date s) := s]> known)
  end.

Section Zones.
Context (zone_info : string -> res (Z -> Z)).

Definition TradingCalendar_init (timezone_name : string) (schedules : list TradingDaySchedule) : res TradingCalendar :=
  do! guard_r (str_nonempty timezone_name) ValueError "timezone_name must be non-empty" ;;
  offset <- zone_info timezone_name ;;
  known <- add_schedules schedules ∅ ;;
  Ok {| cal_offset := offset; cal_schedules := known |}.
End Zones.

(** [now.astimezone(self.timezone)]: the microseconds of the local clock since 1970. *)
Definition local_of (c : TradingCalendar) (now : datetime) : Z := instant now + cal_offset c (instant now).
Definition local_date (local : Z) : Z := local / 86400000000 + 719163.
Definition local_time (local : Z) : Z := local mod 86400000000.

Definition status (c : TradingCalendar) (market : Market) (now : datetime) : res TradingSessionStatus :=
  do! fact_aware "now" now ;;
  let local := local_of c now in
  let at_time known active :=
    {| ts_market := market; ts_trading_date := local_date local; ts_local_time := local_time local;
       ts_known_trading_date := known; ts_open := bool_decide (is_Some active); ts_active_window := active |} in
  Ok match cal_schedules c !! (market, local_date local) with
     | None => at_time false None
     | Some schedule => at_time true (List.find (fun w => contains w (local_time local)) (td_windows schedule))
     end.

Definition require_open (c : TradingCalendar) (market : Market) (now : datetime) : res TradingSessionStatus :=
  s <- status c market now ;;
  do! guard_r (ts_known_trading_date s) TradingDateUnknown "no configured schedule" ;;
  do! guard_r (ts_open s) TradingSessionClosed "session is closed" ;;
  Ok s.

Definition configured_dates (c : TradingCalendar) (market : Market) : list Z :=
  merge_sort Z.le (omap (fun p : Market * Z * TradingDaySchedule =>
    if bool_decide (p.1.1 = market) then Some p.1.2 else None) (map_to_list (cal_schedules c))).

End Calendar.

(** ** Ticks as quotes *)

Module Ticks.

Record QmtTickRejection := { tr_symbol : option string; tr_reason : string }.

Record QmtTickIngestResult := {
  ti_applied : Z; ti_duplicate : Z; ti_stale_ignored : Z; ti_unobserved : Z;
  ti_rejections : list QmtTickRejection
}.

Record QmtMarketDataAdapter := { ta_account_fingerprint : string; ta_terminal_instance_id : string }.

Definition reject {A} (msg : string) : res A := raise QmtMarketDataError msg.

Definition QmtMarketDataAdapter_init (expected_account_fingerprint expected_terminal_instance_id : string)
    : res QmtMarketDataAdapter :=
  do! guard_r (str_nonempty expected_account_fingerprint) ValueError "expected_account_fingerprint must be non-empty" ;;
  do! guard_r (str_nonempty expected_terminal_instance_id) ValueError "expected_terminal_instance_id must be non-empty" ;;
  Ok {| ta_account_fingerprint := expected_account_fingerprint;
        ta_terminal_instance_id := expected_terminal_instance_id |}.

(** [datetime.fromtimestamp(int(numeric) / 1000.0, tz=utc)].  Until 2^33 seconds, in 2242, the
    nearest float is within half a microsecond; later instants are outside the model. *)
Definition utc_of_ms (ms : Z) : res datetime :=
  if ms <? 8589934592000 then Ok {| dt_local := ms * 1000; dt_off := Some 0 |} else beyond.

(** The whole number a decimal is, if it is one. *)
Definition whole_of (d : Dec.decimal) : option Z :=
  if 0 <=? Dec.exp d then Some (Dec.scoef d * 10 ^ Dec.exp d)
  else if Dec.coef d mod 10 ^ (- Dec.exp d) =? 0 then
    Some (if Dec.neg d then - (Dec.coef d / 10 ^ (- Dec.exp d)) else Dec.coef d / 10 ^ (- Dec.exp d))
  else None.

(** [_epoch_ms]. *)
Definition epoch_ms (value : json) (name : string) : res datetime :=
  match value with
  | JBool _ => reject (name +:+ " must be epoch milliseconds")
  | _ =>
      match decimal_of_json value with
      | None => reject (name +:+ " must be epoch milliseconds")
      | Some (Dec.Fin d) =>
          match whole_of d with
          | Some ms => if 1000000000000 <=? ms then utc_of_ms ms
                       else reject (name +:+ " must be a 13-digit-or-later epoch-ms value")
          | None => reject (name +:+ " must be a 13-digit-or-later epoch-ms value")
          end
      | Some _ => reject (name +:+ " must be a 13-digit-or-later epoch-ms value")
      end
  end.

(** [_positive_decimal]. *)
Definition positive_decimal (value : json) (name : string) : res Dec.pydec :=
  match decimal_of_json value with
  | None => reject (name +:+ " must be decimal-compatible")
  | Some (Dec.Fin d) => if Dec.leb d Dec.zero then reject (name +:+ " must be finite and > 0") else Ok (Dec.Fin d)
  | Some _ => reject (name +:+ " must be finite and > 0")
  end.

(** [_normalize_candidate]. *)
Definition normalize_candidate (a : QmtMarketDataAdapter) (record : jdict) (event : QmtEvent) : res MarketQuote :=
  match nonempty_str (jget "symbol" record) with
  | None => reject "candidate symbol must be non-empty"
  | Some symbol =>
      match jget "evidence" record with
      | JObj evidence =>
          do! guard_r (is_true (jget "exact_symbol" evidence)) QmtMarketDataError "tick evidence is not exact-symbol" ;;
          do! guard_r (is_str symbol (jget "requested_symbol" evidence)) QmtMarketDataError "requested symbol mismatch" ;;
          do! guard_r (is_str symbol (jget "reported_symbol" evidence)) QmtMarketDataError "reported symbol mismatch" ;;
          broker_time <- epoch_ms (jget "tick_time" evidence) "tick_time" ;;
          let callback_ms := jget "last_callback_ms" record in
          observed_at <- epoch_ms (if is_null callback_ms then JInt (qe_timestamp_ms event) else callback_ms)
                           "last_callback_ms" ;;
          last_price <- positive_decimal (jget "last_price" evidence) "last_price" ;;
          let source := default (qe_source event) (nonempty_str (jget "evidence_source" record)) in
          MarketQuote_init symbol last_price broker_time observed_at
            ("qmt:" +:+ ta_terminal_instance_id a +:+ ":" +:+ source)
      | _ => reject "observed candidate requires evidence"
      end
  end.

(** What became of the candidates so far. *)
Definition no_ticks : QmtTickIngestResult :=
  {| ti_applied := 0; ti_duplicate := 0; ti_stale_ignored := 0; ti_unobserved := 0; ti_rejections := [] |}.

Definition count_quote (u : Market.QuoteUpdateResult) (r : QmtTickIngestResult) : QmtTickIngestResult :=
  let n v := match u, v with
             | Market.APPLIED, Market.APPLIED | Market.DUPLICATE, Market.DUPLICATE
             | Market.STALE_IGNORED, Market.STALE_IGNORED => 1
             | _, _ => 0
             end in
  {| ti_applied := ti_applied r + n Market.APPLIED; ti_duplicate := ti_duplicate r + n Market.DUPLICATE;
     ti_stale_ignored := ti_stale_ignored r + n Market.STALE_IGNORED; ti_unobserved := ti_unobserved r;
     ti_rejections := ti_rejections r |}.

Definition count_unobserved (r : QmtTickIngestResult) : QmtTickIngestResult :=
  {| ti_applied := ti_applied r; ti_duplicate := ti_duplicate r; ti_stale_ignored := ti_stale_ignored r;
     ti_unobserved := ti_unobserved r + 1; ti_rejections := ti_rejections r |}.

Definition add_rejection (x : QmtTickRejection) (r : QmtTickIngestResult) : QmtTickIngestResult :=
  {| ti_applied := ti_applied r; ti_duplicate := ti_duplicate r; ti_stale_ignored := ti_stale_ignored r;
     ti_unobserved := ti_unobserved r; ti_rejections := ti_rejections r ++ [x] |}.

(** The loop over the candidates; what was ingested before an exception stays. *)
Fixpoint ingest_candidates (a : QmtMarketDataAdapter) (event : QmtEvent) (candidates : list json)
    (r : QmtTickIngestResult) (s : Market.service) : res QmtTickIngestResult * Market.service :=
  match candidates with
  | [] => (Ok r, s)
  | JObj record :: candidates =>
      if negb (is_true (jget "tick_observed" record)) then
        ingest_candidates a event candidates (count_unobserved r) s
      else
        match normalize_candidate a record event with
        | Ok quote =>
            let '(u, s) := Market.ingest quote s in
            ingest_candidates a event candidates (count_quote u r) s
        | Err e =>
            if bool_decide (exn_cls e = QmtMarketDataError) then
              ingest_candidates a event candidates
                (add_rejection {| tr_symbol := as_str (jget "symbol" record); tr_reason := exn_msg e |} r) s
            else (Err e, s)
        end
  | _ :: _ => (raise (OtherException "AttributeError") "object has no attribute 'get'", s)
  end.

(** [ingest]. *)
Definition ingest (a : QmtMarketDataAdapter) (event : QmtEvent) (s : Market.service)
    : res QmtTickIngestResult * Market.service :=
  if negb (bool_decide (qe_event_type event = "instrument_tick_capabilities"%string)) then
    (reject "event_type must be instrument_tick_capabilities", s)
  else if negb (bool_decide (qe_account_fingerprint event = ta_account_fingerprint a)) then
    (reject "account fingerprint mismatch", s)
  else if negb (bool_decide (qe_terminal_instance_id event = Some (ta_terminal_instance_id a))) then
    (reject "terminal instance mismatch", s)
  else
    match dict_get "candidates" (qe_payload event) with
    | Some (JArr candidates) => ingest_candidates a event candidates no_ticks s
    | Some _ => (beyond, s)
    | None => (raise KeyError "candidates", s)
    end.

End Ticks.

(** ** The health of the live facts *)

Module HealthSync.

Record StrategyHealthRequirement := { sr_strategy_id : string; sr_strategy_version : string }.

Definition StrategyHealthRequirement_init (strategy_id strategy_version : string) : res StrategyHealthRequirement :=
  do! guard_r (str_nonempty strategy_id) ValueError "strategy_id must be non-empty" ;;
  do! guard_r (str_nonempty strategy_version) ValueError "strategy_version must be non-empty" ;;
  Ok {| sr_strategy_id := strategy_id; sr_strategy_version := strategy_version |}.

Record RuntimeHealthSynchronizer := {
  hy_required_symbols : list string; hy_required_strategies : list StrategyHealthRequirement;
  hy_market_max_age_seconds : Z; hy_strategy_max_age_seconds : Z
}.

Definition require_positive_int (name : string) (value : Z) : res unit :=
  guard_r (0 <? value) ValueError (name +:+ " must be a positive integer").

Definition RuntimeHealthSynchronizer_init (required_symbols : list string)
    (required_strategies : list StrategyHealthRequirement) (market_max_age_seconds strategy_max_age_seconds : Z)
    : res RuntimeHealthSynchronizer :=
  do! guard_r (negb (bool_decide (required_symbols = []))) ValueError "required_symbols must be a non-empty tuple" ;;
  do! guard_r (forallb str_nonempty required_symbols) ValueError "required_symbols must contain non-empty strings" ;;
  do! guard_r (bool_decide (NoDup required_symbols)) ValueError "required_symbols must be unique" ;;
  do! guard_r (match required_strategies with [] => false | _ :: _ => true end) ValueError
        "required_strategies must be a non-empty tuple of StrategyHealthRequirement" ;;
  do! require_positive_int "market_max_age_seconds" market_max_age_seconds ;;
  do! require_positive_int "strategy_max_age_seconds" strategy_max_age_seconds ;;
  Ok {| hy_required_symbols := required_symbols; hy_required_strategies := required_strategies;
        hy_market_max_age_seconds := market_max_age_seconds;
        hy_strategy_max_age_seconds := strategy_max_age_seconds |}.

(** [self._health.observe(HealthObservation(...))]. *)
Definition report (c : HealthComponent) (healthy : bool) (observed_at : datetime) (detail : string)
    (r : Health.registry) : res bool * Health.registry :=
  match HealthObservation_init c healthy observed_at detail with
  | Ok o => let '(b, r) := Health.observe o r in (Ok b, r)
  | Err e => (Err e, r)
  end.

(** [observe_qmt_ingress]. *)
Definition observe_qmt_ingress (result : Ingress.IngressResult) (r : Health.registry) : res bool * Health.registry :=
  match Ingress.ir_disposition result with
  | Ingress.DUPLICATE => (Ok false, r)
  | disposition =>
      let healthy := bool_decide (disposition = Ingress.ACCEPTED) && negb (Ingress.ir_needs_resync result) in
      let detail := (if healthy then "" else if bool_decide (disposition = Ingress.GAP) then "INGRESS_GAP"
                     else "NEEDS_RESYNC")%string in
      match Ticks.utc_of_ms (qe_timestamp_ms (Ingress.ir_event result)) with
      | Ok t => report QMT healthy t detail r
      | Err e => (Err e, r)
      end
  end.

(** The failures of a loop, each the name of a requirement and its exception; another
    exception than the expected ones ends it. *)
Fixpoint failures {A} (expected : list exn_class) (check : A -> res unit) (name : A -> string) (l : list A)
    : res (list string) :=
  match l with
  | [] => Ok []
  | x :: l =>
      match check x with
      | Ok _ => failures expected check name l
      | Err e =>
          if bool_decide (exn_cls e ∈ expected) then
            (rest <- failures expected check name l ;; Ok ((name x +:+ ":" +:+ class_name (exn_cls e)) :: rest))
          else Err e
      end
  end.

Definition market_errors : list exn_class := [MarketDataUnavailable; MarketDataStale].
Definition strategy_errors : list exn_class := [StrategyUnavailable; StrategyStale; StrategyIdentityMismatch].

Definition void {A} (r : res A) : res unit := res_bind r (fun _ => Ok tt).

(** [refresh_market_data]. *)
Definition refresh_market_data (h : RuntimeHealthSynchronizer) (m : Market.service) (now : datetime)
    (r : Health.registry) : res bool * Health.registry :=
  match failures market_errors (fun symbol => void (Market.latest m symbol now (hy_market_max_age_seconds h)))
          (fun symbol => symbol) (hy_required_symbols h) with
  | Ok l => report MARKET_DATA (bool_decide (l = [])) now (join "," l) r
  | Err e => (Err e, r)
  end.

(** [refresh_strategies]. *)
Definition refresh_strategies (h : RuntimeHealthSynchronizer) (s : Strategies.service) (now : datetime)
    (r : Health.registry) : res bool * Health.registry :=
  match failures strategy_errors
          (fun q => void (Strategies.require_fresh s (sr_strategy_id q) (sr_strategy_version q) now
                            (hy_strategy_max_age_seconds h)))
          sr_strategy_id (hy_required_strategies h) with
  | Ok l => report STRATEGY (bool_decide (l = [])) now (join "," l) r
  | Err e => (Err e, r)
  end.

End HealthSync.

(** ** What a tick that is admitted says *)

Import Ticks.

(** The quote is what the record says: its exact symbol, price and times. *)
Record quoted (a : QmtMarketDataAdapter) (event : QmtEvent) (record : jdict) (q : MarketQuote) : Prop := {
  qd_observed : jget "tick_observed" record = JBool true;
  qd_symbol : jget "symbol" record = JStr (mq_symbol q);
  qd_evidence : exists evidence, jget "evidence" record = JObj evidence /\
    jget "exact_symbol" evidence = JBool true /\
    jget "requested_symbol" evidence = JStr (mq_symbol q) /\
    jget "reported_symbol" evidence = JStr (mq_symbol q) /\
    epoch_ms (jget "tick_time" evidence) "tick_time" = Ok (mq_broker_time q) /\
    decimal_of_json (jget "last_price" evidence) = Some (Dec.Fin (mq_last_price q)) /\
    Dec.leb (mq_last_price q) Dec.zero = false
}.

Lemma is_true_eq j : is_true j = true -> j = JBool true.
Proof. by destruct j as [|[]| | | | |]. Qed.

Lemma normalized_quoted a record event q :
  is_true (jget "tick_observed" record) = true -> normalize_candidate a record event = Ok q -> quoted a event record q.
Proof.
  intros Ho%is_true_eq. unfold normalize_candidate.
  destruct (nonempty_str (jget "symbol" record)) as [symbol|] eqn:Es; [|done].
  apply nonempty_str_ok in Es as [Es _]. destruct (jget "evidence" record) as [| | | | |evidence|] eqn:Ee; try done.
  intros (? & H1%guard_r_ok%is_true_eq & H)%res_bind_ok. apply res_bind_ok in H as (? & H2%guard_r_ok%is_str_ok & H).
  apply res_bind_ok in H as (? & H3%guard_r_ok%is_str_ok & H). apply res_bind_ok in H as (t & Ht & H).
  apply res_bind_ok in H as (o & _ & H). apply res_bind_ok in H as (p & Hp & H).
  unfold MarketQuote_init in H. apply res_bind_ok in H as (? & _ & H). apply res_bind_ok in H as (d & Hd & H).
  do 3 apply res_bind_ok in H as (? & _ & H). injection H as <-.
  unfold positive_decimal in Hp. destruct (decimal_of_json _) as [[d'| |]|] eqn:Ed; try done.
  destruct (Dec.leb d' Dec.zero) eqn:El; [done|]. injection Hp as <-. unfold quote_price in Hd. rewrite El in Hd.
  injection Hd as <-. split; [done | done|]. by exists evidence.
Qed.

(** The number of the candidates that were dealt with. *)
Definition dealt_with (r : QmtTickIngestResult) : Z :=
  ti_applied r + ti_duplicate r + ti_stale_ignored r + ti_unobserved r + Z.of_nat (length (ti_rejections r)).

Lemma market_after_cons q l s : market_after (q :: l) s = market_after l (Market.ingest q s).2.
Proof. reflexivity. Qed.

Lemma candidates_admitted a event candidates r s r' s' :
  ingest_candidates a event candidates r s = (r', s') ->
  exists quotes, s' = market_after quotes s /\
    Forall (fun q => exists record, JObj record ∈ candidates /\ quoted a event record q) quotes /\
    forall x, r' = Ok x -> dealt_with x = dealt_with r + Z.of_nat (length candidates).
Proof.
  revert r s. induction candidates as [|c candidates IH]; intros r s; cbn [ingest_candidates].
  { intros [= <- <-]. exists []. split_and!; [done | constructor | intros x [= <-]; cbn [length]; lia]. }
  assert (Hskip : forall r1, dealt_with r1 = dealt_with r + 1 ->
    ingest_candidates a event candidates r1 s = (r', s') -> exists quotes, s' = market_after quotes s /\
    Forall (fun q => exists record, JObj record ∈ c :: candidates /\ quoted a event record q) quotes /\
    forall x, r' = Ok x -> dealt_with x = dealt_with r + Z.of_nat (length (c :: candidates))).
  { intros r1 Hr1 H. destruct (IH _ _ H) as (l & Hl & Hq & Hn). exists l. split_and!; [done| |].
    - eapply Forall_impl; [exact Hq|]. intros q (d & Hd & ?). exists d. split; [by right | done].
    - intros x Hx. rewrite (Hn x Hx), Hr1. cbn [length]. lia. }
  assert (Hstop : forall e, (@Err QmtTickIngestResult e, s) = (r', s') -> exists quotes, s' = market_after quotes s /\
    Forall (fun q => exists record, JObj record ∈ c :: candidates /\ quoted a event record q) quotes /\
    forall x, r' = Ok x -> dealt_with x = dealt_with r + Z.of_nat (length (c :: candidates))).
  { intros e [= <- <-]. exists []. split_and!; [done | constructor | done]. }
  destruct c as [| | | | |record|]; try (apply Hstop).
  destruct (is_true (jget "tick_observed" record)) eqn:Ho; cbn [negb]; [|apply Hskip; unfold dealt_with; cbn; lia].
  destruct (normalize_candidate a record event) as [q|e] eqn:En.
  - destruct (Market.ingest q s) as [u s1] eqn:Ei. intros H. destruct (IH _ _ H) as (l & Hl & Hq & Hn).
    exists (q :: l). split_and!.
    + by rewrite market_after_cons, Ei.
    + constructor; [exists record; split; [by left | by apply normalized_quoted]|].
      eapply Forall_impl; [exact Hq|]. intros q' (d & Hd & ?). exists d. split; [by right | done].
    + intros x Hx. rewrite (Hn x Hx). unfold dealt_with. cbn [length]. destruct u; cbn; lia.
  - case_bool_decide; [|apply Hstop]. apply Hskip. unfold dealt_with. cbn. rewrite length_app. cbn. lia.
Qed.

(** What becomes of one candidate: it is not observed, or a quote, or a refusal. *)
Definition unobserved (c : json) : bool :=
  match c with JObj record => negb (is_true (jget "tick_observed" record)) | _ => false end.

Definition quote_of a (event : QmtEvent) (c : json) : option MarketQuote :=
  match c with
  | JObj record =>
      if is_true (jget "tick_observed" record) then
        match normalize_candidate a record event with Ok q => Some q | Err _ => None end
      else None
  | _ => None
  end.

Definition refusal_of a (event : QmtEvent) (c : json) : option QmtTickRejection :=
  match c with
  | JObj record =>
      if is_true (jget "tick_observed" record) then
        match normalize_candidate a record event with
        | Ok _ => None
        | Err e => Some {| tr_symbol := as_str (jget "symbol" record); tr_reason := exn_msg e |}
        end
      else None
  | _ => None
  end.

(** What the market data say of quotes that are ingested one after the other. *)
Fixpoint updates (quotes : list MarketQuote) (s : Market.service) : list Market.QuoteUpdateResult :=
  match quotes with
  | [] => []
  | q :: quotes => (Market.ingest q s).1 :: updates quotes (Market.ingest q s).2
  end.

Definition tally (u : Market.QuoteUpdateResult) (l : list Market.QuoteUpdateResult) : Z :=
  Z.of_nat (length (List.filter (fun v => match u, v with
    | Market.APPLIED, Market.APPLIED | Market.DUPLICATE, Market.DUPLICATE
    | Market.STALE_IGNORED, Market.STALE_IGNORED => true
    | _, _ => false
    end) l)).

Lemma tally_cons u v l : tally u (v :: l) = tally u [v] + tally u l.
Proof. unfold tally. cbn [List.filter]. by destruct u, v; cbn; lia. Qed.

Lemma count_quote_tally u r :
  count_quote u r = {| ti_applied := ti_applied r + tally Market.APPLIED [u];
    ti_duplicate := ti_duplicate r + tally Market.DUPLICATE [u];
    ti_stale_ignored := ti_stale_ignored r + tally Market.STALE_IGNORED [u];
    ti_unobserved := ti_unobserved r; ti_rejections := ti_rejections r |}.
Proof. by destruct u. Qed.

Lemma candidates_exact a event candidates r s x s' :
  ingest_candidates a event candidates r s = (Ok x, s') ->
  let quotes := omap (quote_of a event) candidates in
  s' = market_after quotes s /\
  x = {| ti_applied := ti_applied r + tally Market.APPLIED (updates quotes s);
         ti_duplicate := ti_duplicate r + tally Market.DUPLICATE (updates quotes s);
         ti_stale_ignored := ti_stale_ignored r + tally Market.STALE_IGNORED (updates quotes s);
         ti_unobserved := ti_unobserved r + Z.of_nat (length (List.filter unobserved candidates));
         ti_rejections := ti_rejections r ++ omap (refusal_of a event) candidates |}.
Proof.
  cbv zeta. revert r s. induction candidates as [|c candidates IH]; intros r s; cbn [ingest_candidates].
  { intros [= <- <-]. split; [done|]. unfold tally. cbn. rewrite !Z.add_0_r, app_nil_r. by destruct r. }
  destruct c as [| | | | |record|]; try done. cbn [omap list_omap quote_of refusal_of List.filter unobserved].
  destruct (is_true (jget "tick_observed" record)) eqn:Ho; cbn [negb].
  - destruct (normalize_candidate a record event) as [q|e] eqn:En.
    + destruct (Market.ingest q s) as [u s1] eqn:Ei. intros H. destruct (IH _ _ H) as [Hs Hx].
      fold (omap (quote_of a event) candidates) (omap (refusal_of a event) candidates).
      rewrite market_after_cons. cbn [updates]. rewrite Ei. cbn [snd fst]. split; [exact Hs|].
      rewrite (tally_cons Market.APPLIED u), (tally_cons Market.DUPLICATE u), (tally_cons Market.STALE_IGNORED u).
      rewrite Hx, count_quote_tally. cbn [ti_applied ti_duplicate ti_stale_ignored ti_unobserved ti_rejections].
      by rewrite !Z.add_assoc.
    + case_bool_decide; [|done]. intros Hi. destruct (IH _ _ Hi) as [Hs Hx]. split; [exact Hs|].
      rewrite Hx. cbn. by rewrite <-app_assoc.
  - intros H. destruct (IH _ _ H) as [Hs Hx]. split; [exact Hs|]. rewrite Hx. unfold count_unobserved. cbn [length ti_applied
      ti_duplicate ti_stale_ignored ti_unobserved ti_rejections]. f_equal. lia.
Qed.

(** C33. Every quote that an event adds to the market data is of the bound account and terminal,
    and is what one of its candidates says of its exact symbol: its price, and the broker's
    own time, which a recent observation does not make newer.  When it returns, the quotes
    are those of all its observed and well-formed candidates in their order, and it counts
    exactly what each of them was, how many were not observed, and lists the refusals of
    the others: each candidate is counted once. *)
Theorem ticks_admitted a event s r s' :
  ingest a event s = (r, s') ->
  (s' = s \/ qe_account_fingerprint event = ta_account_fingerprint a /\
             qe_terminal_instance_id event = Some (ta_terminal_instance_id a)) /\
  (exists quotes, s' = market_after quotes s /\
     Forall (fun q => exists candidates record, jget "candidates" (qe_payload event) = JArr candidates /\
                        JObj record ∈ candidates /\ quoted a event record q) quotes) /\
  forall x, r = Ok x -> exists candidates, jget "candidates" (qe_payload event) = JArr candidates /\
    let quotes := omap (quote_of a event) candidates in
    s' = market_after quotes s /\
    ti_applied x = tally Market.APPLIED (updates quotes s) /\
    ti_duplicate x = tally Market.DUPLICATE (updates quotes s) /\
    ti_stale_ignored x = tally Market.STALE_IGNORED (updates quotes s) /\
    ti_unobserved x = Z.of_nat (length (List.filter unobserved candidates)) /\
    ti_rejections x = omap (refusal_of a event) candidates /\
    dealt_with x = Z.of_nat (length candidates).
Proof.
  assert (Hstop : forall e, (@Err QmtTickIngestResult e, s) = (r, s') ->
    s' = s /\ forall x, r <> Ok x) by (by intros e [= <- <-]).
  assert (Hrefused : s' = s /\ (forall x, r <> Ok x) ->
    (s' = s \/ qe_account_fingerprint event = ta_account_fingerprint a /\
               qe_terminal_instance_id event = Some (ta_terminal_instance_id a)) /\
    (exists quotes, s' = market_after quotes s /\
       Forall (fun q => exists candidates record, jget "candidates" (qe_payload event) = JArr candidates /\
                          JObj record ∈ candidates /\ quoted a event record q) quotes) /\
    forall x, r = Ok x -> False).
  { intros [-> Hr]. split_and!; [by left | by exists [] | exact Hr]. }
  unfold ingest. case_bool_decide; cbn [negb]; [|intros (? & ? & ?)%Hstop%Hrefused; naive_solver].
  case_bool_decide as Ha; cbn [negb]; [|intros (? & ? & ?)%Hstop%Hrefused; naive_solver].
  case_bool_decide as Ht; cbn [negb]; [|intros (? & ? & ?)%Hstop%Hrefused; naive_solver].
  destruct (dict_get "candidates" (qe_payload event)) as [[| | | |l| |]|] eqn:Ec;
    try (intros (? & ? & ?)%Hstop%Hrefused; naive_solver).
  assert (Hl : jget "candidates" (qe_payload event) = JArr l) by (unfold jget; by rewrite Ec).
  intros Hi. destruct (candidates_admitted _ _ _ _ _ _ _ Hi) as (quotes & Hs & Hq & Hn).
  split_and!; [by right | exists quotes; split; [done|] |].
  - eapply Forall_impl; [exact Hq|]. intros q (record & Hin & Hqd). by exists l, record.
  - intros x ->. exists l. destruct (candidates_exact _ _ _ _ _ _ _ Hi) as [Hm ->]. split; [done|].
    cbv zeta. split; [exact Hm|]. split_and!; try done. by apply Hn.
Qed.

(** ** When a session is open *)

Section OpenSessions.
Import Calendar.
Implicit Types (l : list SessionWindow).

(** The windows of a schedule do not overlap. *)
Definition made (s : TradingDaySchedule) : Prop :=
  TradingDaySchedule_init (td_date s) (td_market s) (td_windows s) = Ok s /\
  Forall (fun w => sw_start w < sw_end w) (td_windows s).

Lemma no_overlap w l :
  forallb (fun p => sw_end p.1 <=? sw_start p.2) (zip (w :: l) l) = true ->
  Forall (fun w => sw_start w < sw_end w) (w :: l) -> Forall (fun w' => sw_end w <= sw_start w') l.
Proof.
  revert w. induction l as [|w1 l IH]; intros w; [constructor|].
  cbn [zip zip_with forallb fst snd]. intros [H1%Z.leb_le H2]%andb_true_iff [Hw Hl]%Forall_cons.
  constructor; [done|]. pose proof Hl as [Hw1 _]%Forall_cons.
  eapply Forall_impl; [apply (IH w1 H2 Hl)|]. intros w' Hw'. cbn in Hw'. lia.
Qed.

Lemma one_window l t w w' :
  forallb (fun p => sw_end p.1 <=? sw_start p.2) (zip l (tl l)) = true ->
  Forall (fun w => sw_start w < sw_end w) l ->
  w ∈ l -> w' ∈ l -> contains w t = true -> contains w' t = true -> w = w'.
Proof.
  induction l as [|x l IH]; [by intros _ _ ?%not_elem_of_nil|]. intros Ho Hl Hw Hw' Ht Ht'.
  pose proof (no_overlap x l Ho Hl) as Hx. rewrite Forall_forall in Hx.
  assert (Hsep : forall y, y ∈ l -> contains x t = true -> contains y t = true -> False).
  { intros y Hy Hc Hc'. specialize (Hx y Hy). unfold contains in Hc, Hc'.
    apply andb_true_iff in Hc as [Hc1%Z.leb_le Hc2%Z.ltb_lt], Hc' as [Hc3%Z.leb_le Hc4%Z.ltb_lt]. lia. }
  apply elem_of_cons in Hw as [-> | Hw], Hw' as [-> | Hw']; [done | | |].
  - by exfalso; eapply Hsep.
  - by exfalso; eapply (Hsep w).
  - apply IH; try done; [|by apply Forall_cons in Hl as [_ Hl]].
    destruct l as [|y l]; [done|]. cbn [tl zip zip_with forallb] in Ho. by apply andb_true_iff in Ho as [_ Ho].
Qed.

Lemma add_schedules_fresh schedules known known' :
  add_schedules schedules known = Ok known' ->
  forall s, s ∈ schedules -> known !! (td_market s, td_date s) = None.
Proof.
  revert known. induction schedules as [|x l IH]; intros known; cbn [add_schedules]; [by intros _ s ?%not_elem_of_nil|].
  intros (? & Hn%guard_r_ok%bool_decide_eq_true & H)%res_bind_ok s [-> | Hs]%elem_of_cons; [done|].
  by apply (IH _ H), lookup_insert_None in Hs as [? _].
Qed.

Lemma add_schedules_lookup schedules known known' m d :
  add_schedules schedules known = Ok known' ->
  forall s, known' !! (m, d) = Some s <->
    known !! (m, d) = Some s \/ s ∈ schedules /\ td_market s = m /\ td_date s = d.
Proof.
  revert known. induction schedules as [|x l IH]; intros known; cbn [add_schedules].
  { intros [= <-] s. split; [by left | intros [?|(H & _)]; [done | by apply not_elem_of_nil in H]]. }
  intros (? & Hn%guard_r_ok%bool_decide_eq_true & H)%res_bind_ok s. rewrite (IH _ H s), lookup_insert_Some. split.
  - intros [[(E & ->) | [_ ?]] | (? & ? & ?)]; [right | by left | right; split_and!; try done; by right].
    injection E as <- <-. split_and!; try done. by left.
  - intros [Hk | ([-> | Hin]%elem_of_cons & <- & <-)]; [|left; by left | by right].
    left. right. split; [|done]. intros E. rewrite E in Hn. congruence.
Qed.

(** A session is open when the calendar has a schedule of the market for the local date and
    the local time is in one of its windows, which is the active one, and the only such; and
    the refusals tell an unknown date from a closed session. *)
Theorem open_exact zone_info name schedules c market now :
  TradingCalendar_init zone_info name schedules = Ok c -> Forall made schedules -> is_aware now = true ->
  let date := local_date (local_of c now) in
  let time := local_time (local_of c now) in
  match require_open c market now with
  | Ok s => exists schedule w, schedule ∈ schedules /\ td_market schedule = market /\ td_date schedule = date /\
      ts_active_window s = Some w /\ w ∈ td_windows schedule /\ contains w time = true /\
      forall w', w' ∈ td_windows schedule -> contains w' time = true -> w' = w
  | Err e =>
      exn_cls e = TradingDateUnknown /\
        (forall schedule, schedule ∈ schedules -> td_market schedule = market -> td_date schedule <> date) \/
      exn_cls e = TradingSessionClosed /\ exists schedule, schedule ∈ schedules /\ td_market schedule = market /\
        td_date schedule = date /\ forall w, w ∈ td_windows schedule -> contains w time = false
  end.
Proof.
  intros Hc Hmade Haware date time. unfold TradingCalendar_init in Hc. apply res_bind_ok in Hc as (? & _ & Hc).
  apply res_bind_ok in Hc as (offset & _ & Hc). apply res_bind_ok in Hc as (known & Hk & [= Hc]).
  assert (Hs : cal_schedules c = known) by (by rewrite <-Hc).
  unfold require_open, status. unfold fact_aware. rewrite Haware. cbn [guard_r res_bind]. fold date time.
  rewrite Hs. clear Hs Hc. destruct (known !! (market, date)) as [schedule|] eqn:El.
  - pose proof El as Hl. apply (add_schedules_lookup _ _ _ _ _ Hk) in Hl as [Hl | (Hin & Hm & Hd)];
      [by rewrite lookup_empty in Hl|].
    cbn [ts_known_trading_date ts_open guard_r res_bind].
    destruct (List.find (fun w => contains w time) (td_windows schedule)) as [w|] eqn:Ef; cbn.
    + apply find_some in Ef as [Hw%list_elem_of_In Ht]. exists schedule, w. split_and!; try done.
      intros w' Hw' Ht'. rewrite Forall_forall in Hmade. destruct (Hmade _ Hin) as [Hinit Hpos].
      unfold TradingDaySchedule_init in Hinit. apply res_bind_ok in Hinit as (? & _ & Hinit).
      apply res_bind_ok in Hinit as (? & _ & Hinit). apply res_bind_ok in Hinit as (? & Ho%guard_r_ok & _).
      by eapply one_window.
    + right. split; [done|]. exists schedule. split_and!; try done. intros w Hw%list_elem_of_In.
      by eapply find_none in Ef.
  - cbn. left. split; [done|]. intros schedule Hin Hm Hd.
    assert (Hl : known !! (market, date) = Some schedule) by (apply (add_schedules_lookup _ _ _ _ _ Hk); by right).
    congruence.
Qed.
End OpenSessions.

(** ** What a health report means *)

Section Reports.
Import HealthSync.

Lemma failures_none {A} expected (check : A -> res unit) name l :
  failures expected check name l = Ok [] <-> forall x, x ∈ l -> check x = Ok tt.
Proof.
  induction l as [|x l IH]; cbn [failures]; [split; [by intros _ x ?%not_elem_of_nil | done]|].
  destruct (check x) as [[]|e] eqn:E.
  - rewrite IH. split; [intros H y [-> | Hy]%elem_of_cons; auto | intros H y Hy; apply H; by right].
  - split.
    + case_bool_decide; [|done]. by intros (rest & _ & ?)%res_bind_ok.
    + intros H. rewrite (H x) in E by (by left). done.
Qed.

(** What a report on [c] does to the registry: if it is taken it is the registry's word on
    [c], that [healthy] holds, which only another report of the same instant can dispute;
    of the other components it says nothing, and one that is not taken changes nothing. *)
Definition speaks (c : HealthComponent) (now : datetime) (healthy : Prop) (r : Health.registry)
    (run : res bool * Health.registry) : Prop :=
  (forall c', c' <> c -> run.2 !! c' = r !! c') /\
  (run.1 <> Ok true -> run.2 = r) /\
  (run.1 = Ok true -> exists o, run.2 !! c = Some o /\ ho_observed_at o = now /\
     (ho_healthy o = true -> healthy) /\
     (healthy -> (forall p, r !! c = Some p -> instant (ho_observed_at p) <> instant now) -> ho_healthy o = true)).

Lemma speaks_err c now healthy r e : speaks c now healthy r (Err e, r).
Proof. by split_and!. Qed.

Lemma report_speaks c healthy now detail r : speaks c now (healthy = true) r (report c healthy now detail r).
Proof.
  unfold report, HealthObservation_init. destruct (fact_aware _ _) as [u|e]; cbn; [|apply speaks_err].
  unfold Health.observe. cbn. destruct (r !! c) as [previous|] eqn:Ep.
  - destruct (dt_ltb _ _); [by split_and!|].
    destruct (Z.eqb_spec (instant now) (instant (ho_observed_at previous))) as [E|E].
    + destruct (Health.observation_eqb _ _); [by split_and!|].
      split_and!; [intros c' Hc; cbn; by rewrite lookup_insert_ne | done|].
      intros _. eexists. split; [apply lookup_insert_eq|]. split_and!; [done | done|].
      intros _ Hp. by destruct (Hp previous Ep).
    + split_and!; [intros c' Hc; cbn; by rewrite lookup_insert_ne | done|].
      intros _. eexists. split; [apply lookup_insert_eq | by split].
  - split_and!; [intros c' Hc; cbn; by rewrite lookup_insert_ne | done|].
    intros _. eexists. split; [apply lookup_insert_eq | by split].
Qed.

Lemma speaks_iff c now (P Q : Prop) r run : (P <-> Q) -> speaks c now P r run -> speaks c now Q r run.
Proof. unfold speaks. intros HPQ (H1 & H2 & H3). split_and!; [done | done|]. intros (o & ? & ? & ? & ?)%H3. exists o. tauto. Qed.

Lemma void_ok {A} (r : res A) : void r = Ok tt <-> exists a, r = Ok a.
Proof. destruct r as [a|e]; cbn; naive_solver. Qed.

(** C34. Whatever a refresh returns or raises, it speaks for its own component only, and
    changes nothing unless it is taken.  One that is taken is the registry's word from then
    on: the market data are called healthy only if every required symbol had a fresh quote
    then, and the strategies only if every required one had a fresh heartbeat of its version;
    and if they had, they are, unless another report of the very same instant disputes it. *)
Theorem refreshed_means_fresh h m s now r :
  speaks MARKET_DATA now
    (forall symbol, symbol ∈ hy_required_symbols h ->
       exists q, Market.latest m symbol now (hy_market_max_age_seconds h) = Ok q)
    r (refresh_market_data h m now r) /\
  speaks STRATEGY now
    (forall q, q ∈ hy_required_strategies h ->
       exists beat, Strategies.require_fresh s (sr_strategy_id q) (sr_strategy_version q) now
                      (hy_strategy_max_age_seconds h) = Ok beat)
    r (refresh_strategies h s now r).
Proof.
  unfold refresh_market_data, refresh_strategies. split.
  - destruct (failures market_errors _ _ _) as [l|e] eqn:El; [|apply speaks_err].
    eapply speaks_iff; [|apply report_speaks]. rewrite bool_decide_eq_true. setoid_rewrite <-void_ok.
    rewrite <-(failures_none market_errors _ (fun symbol => symbol)), El. split; [by intros -> | by intros [=]].
  - destruct (failures strategy_errors _ _ _) as [l|e] eqn:El; [|apply speaks_err].
    eapply speaks_iff; [|apply report_speaks]. rewrite bool_decide_eq_true. setoid_rewrite <-void_ok.
    rewrite <-(failures_none strategy_errors _ sr_strategy_id), El. split; [by intros -> | by intros [=]].
Qed.
End Reports.

(** ** Concrete runs *)

Definition demo_adapter : QmtMarketDataAdapter :=
  {| ta_account_fingerprint := "acct"; ta_terminal_instance_id := "terminal" |}.

(** A candidate whose tick names [reported] when asked for 600000.SH. *)
Definition demo_candidate (observed : bool) (reported : string) : json :=
  JObj [("symbol", JStr "600000.SH"); ("tick_observed", JBool observed); ("last_callback_ms", JNull);
        ("evidence", JObj [("exact_symbol", JBool true); ("requested_symbol", JStr "600000.SH");
                           ("reported_symbol", JStr reported); ("tick_time", JInt 1767229200000);
                           ("last_price", JStr "10.50")])]%string.

Definition demo_ticks : QmtEvent :=
  {| qe_protocol_version := "0.2"; qe_session_id := "s1"; qe_sequence := 1; qe_timestamp_ms := 1767229201000;
     qe_event_type := "instrument_tick_capabilities"; qe_source := "bridge"; qe_account_fingerprint := "acct";
     qe_account_type := None;
     qe_payload := [("candidates", JArr [demo_candidate true "600000.SH"; demo_candidate true "600001.SH";
                                         demo_candidate false "600000.SH"])]%string;
     qe_terminal_instance_id := Some "terminal"%string |}.

(** The exact tick is a quote at the broker's time; the tick of another symbol is rejected. *)
Lemma ticks_admitted_witness :
  exists x, (ingest demo_adapter demo_ticks ∅).1 = Ok x /\ dealt_with x = 3 /\
    ti_applied x = 1 /\ length (ti_rejections x) = 1%nat /\
    (mq_broker_time <$> (ingest demo_adapter demo_ticks ∅).2 !! "600000.SH"%string) =
      Some {| dt_local := 1767229200000000; dt_off := Some 0 |}.
Proof.
  destruct (ticks_admitted demo_adapter demo_ticks ∅ _ _ (surjective_pairing _))
    as (_ & _ & Hn).
  eexists. split; [vm_compute; reflexivity|]. destruct (Hn _ ltac:(vm_compute; reflexivity)) as (l & [= <-] & _ & Ha & _ & _ & _ & _ & Hd).
  split; [exact Hd|]. split; [rewrite Ha; vm_compute; reflexivity|]. split; vm_compute; reflexivity.
Defined.

Section DemoCalendar.
Import Calendar.

(** 9:30 to 11:30 and 13:00 to 15:00. *)
Definition demo_windows : list SessionWindow :=
  [{| sw_start := 34200000000; sw_end := 41400000000 |}; {| sw_start := 46800000000; sw_end := 54000000000 |}].

(** 2026-01-05, the day 739621. *)
Definition demo_schedule : TradingDaySchedule :=
  {| td_date := 739621; td_market := A_SHARE; td_windows := demo_windows |}.

Definition demo_zone (name : string) : res (Z -> Z) :=
  if bool_decide (name = "Asia/Shanghai"%string) then Ok (fun _ => 28800000000) else raise KeyError "no time zone".

(** [demo_clock h d]: [h] o'clock UTC of 2026-01-05 + d. *)
Definition demo_clock (hour day : Z) : datetime :=
  {| dt_local := 1767571200000000 + hour * 3600000000 + day * 86400000000; dt_off := Some 0 |}.

Definition demo_calendar : TradingCalendar :=
  {| cal_offset := fun _ => 28800000000; cal_schedules := {[(A_SHARE, 739621) := demo_schedule]} |}.

(** Open at 10:00 in Shanghai, closed at noon, and unknown the next day. *)
Lemma open_exact_witness :
  (exists s w, require_open demo_calendar A_SHARE (demo_clock 2 0) = Ok s /\ ts_active_window s = Some w /\
     sw_start w = 34200000000) /\
  (exists e, require_open demo_calendar A_SHARE (demo_clock 4 0) = Err e /\ exn_cls e = TradingSessionClosed) /\
  (exists e, require_open demo_calendar A_SHARE (demo_clock 2 1) = Err e /\ exn_cls e = TradingDateUnknown).
Proof.
  assert (Hc : TradingCalendar_init demo_zone "Asia/Shanghai" [demo_schedule] = Ok demo_calendar) by reflexivity.
  assert (Hm : Forall made [demo_schedule]).
  { repeat constructor; vm_compute; reflexivity. }
  pose proof (fun h d => open_exact demo_zone _ _ _ A_SHARE (demo_clock h d) Hc Hm eq_refl) as H.
  split_and!.
  - specialize (H 2 0). destruct (require_open _ _ (demo_clock 2 0)) as [s|e] eqn:E; [|vm_compute in E; discriminate].
    destruct H as (schedule & w & _ & _ & _ & Hw & _). exists s, w. split_and!; [done | done|].
    vm_compute in E. injection E as <-. vm_compute in Hw. by injection Hw as <-.
  - specialize (H 4 0). destruct (require_open _ _ (demo_clock 4 0)) as [s|e] eqn:E; [vm_compute in E; discriminate|].
    exists e. split; [done|]. destruct H as [[Hu _]|[Hx _]]; [|done]. vm_compute in E. injection E as <-.
    vm_compute in Hu. discriminate.
  - specialize (H 2 1). destruct (require_open _ _ (demo_clock 2 1)) as [s|e] eqn:E; [vm_compute in E; discriminate|].
    exists e. split; [done|]. destruct H as [[Hu _]|[Hx _]]; [done|]. vm_compute in E. injection E as <-.
    vm_compute in Hx. discriminate.
Defined.
End DemoCalendar.

Section DemoHealth.
Import HealthSync.

Definition demo_synchronizer : RuntimeHealthSynchronizer :=
  {| hy_required_symbols := ["600000.SH"%string];
     hy_required_strategies := [{| sr_strategy_id := "strategy"; sr_strategy_version := "v1" |}];
     hy_market_max_age_seconds := 10; hy_strategy_max_age_seconds := 10 |}.

Definition demo_beats : Strategies.service := strategies_after [demo_beat "s1" 1 4] ∅.
Definition demo_market : Market.service := market_after [demo_quote 1050 0] ∅.

(** Five seconds after the quote the market data is healthy, and so is the strategy; twenty
    seconds after it the market data is not. *)
Lemma refreshed_means_fresh_witness :
  (exists q, Market.latest demo_market "600000.SH" (demo_at 5) 10 = Ok q) /\
  (exists beat, Strategies.require_fresh demo_beats "strategy" "v1" (demo_at 5) 10
                = Ok beat) /\
  (ho_detail <$> (refresh_market_data demo_synchronizer demo_market (demo_at 20) ∅).2 !! MARKET_DATA)
    = Some "600000.SH:MarketDataStale"%string.
Proof.
  assert (H1 : (refresh_market_data demo_synchronizer demo_market (demo_at 5) ∅).1 = Ok true)
    by (vm_compute; reflexivity).
  assert (Hh : (ho_healthy <$> (refresh_market_data demo_synchronizer demo_market (demo_at 5) ∅).2 !! MARKET_DATA)
    = Some true) by (vm_compute; reflexivity).
  assert (H2 : (refresh_strategies demo_synchronizer demo_beats (demo_at 5)
    (refresh_market_data demo_synchronizer demo_market (demo_at 5) ∅).2).1 = Ok true) by (vm_compute; reflexivity).
  assert (Hk : (ho_healthy <$> (refresh_strategies demo_synchronizer demo_beats (demo_at 5)
    (refresh_market_data demo_synchronizer demo_market (demo_at 5) ∅).2).2 !! STRATEGY) = Some true)
    by (vm_compute; reflexivity).
  destruct (refreshed_means_fresh demo_synchronizer demo_market demo_beats (demo_at 5) ∅) as [(_ & _ & Hm) _].
  destruct (refreshed_means_fresh demo_synchronizer demo_market demo_beats (demo_at 5)
    (refresh_market_data demo_synchronizer demo_market (demo_at 5) ∅).2) as [_ (_ & _ & Hs)].
  destruct (Hm H1) as (o & Ho & _ & Hq & _). rewrite Ho in Hh. injection Hh as Hh.
  destruct (Hs H2) as (o2 & Ho2 & _ & Hb & _). rewrite Ho2 in Hk. injection Hk as Hk.
  split_and!; [| | vm_compute; reflexivity].
  - destruct (Hq Hh "600000.SH"%string) as [q E]; [apply list_elem_of_here|]. exists q. exact E.
  - destruct (Hb Hk {| sr_strategy_id := "strategy"; sr_strategy_version := "v1" |}) as [beat E];
      [apply list_elem_of_here|].
    exists beat. exact E.
Defined.
End DemoHealth.
